(* ===== verification/_CoqProject ===== *)
-Q . S2P
Prelude.v
Crc.v
Wire.v
OtaLayout.v
Flash.v
FmcOta.v
BridgeHw.v
BootConfig.v
BootDecide.v
Ota.v
OtaMeta.v
OtaSafety.v
OtaSession.v
OtaUpdate.v
OtaTrial.v
Protocol.v
HalCalls.v
Frame.v
TransportSpi.v
TransportI2c.v
SpiBackend.v
I2cTiming.v
I2cBackend.v
I2cIsr.v
PwmTimer.v
Pwm.v
PwmCapture.v
PwmFacts.v
PwmSet.v
PwmLoad.v
PwmApply.v
PwmRequests.v
PwmReach.v
PwmSafety.v
PwmPulse.v
PwmOwner.v
PwmSync.v
PwmMeasure.v
PwmWitness.v
Power.v
PowerLog.v
PowerSafety.v
PowerLive.v
PowerWitness.v
Main.v
MainSafety.v
Gpio.v
GpioSafety.v
Trng.v
TrngSafety.v
Reset.v
DspChain.v
Adc.v
Drivers.v
DriversSafety.v
Init.v
InitStages.v
InitSafety.v
Board.v
AdcStream.v
AdcSystem.v
DspCoeff.v
Tmu.v
TmuSafety.v
DspSpectrum.v
DspPump.v
DspSafety.v
BoardStart.v
Requests.v
Device.v
Firmware.v
Samples.v
OtaWitness.v
LinkWitness.v
AnalogWitness.v
BackendWitness.v
PeriphWitness.v
MainWitness.v
BoardWitness.v
