(* ===== verification/Prelude.v ===== *)
(** * Verification of the GD32 bridge firmware

    The firmware runs on a GD32G553 next to a host processor.  The host sends
    commands over SPI or I2C ([src/src/transport_spi.c], [transport_i2c.c]); a
    CRC-framed envelope carries one command to the dispatcher
    ([src/src/protocol.c]), which calls the peripheral layer
    ([src/hal/bridge_hw.h]), the boot configuration ([src/src/boot_config.c]) or
    the over-the-air update state machine ([src/src/ota.c]).  The last two write
    flash through one driver ([src/hal/fmc_ota.c]).  After a reset a bootloader
    ([src/src/boot/]) reads the metadata records the update machine wrote and
    jumps to a slot.  A new image runs as a trial until a host frame is seen; a
    trial that hangs is dropped by the watchdog.

    ** Files and the code they model

    - [Prelude]: machine integers as [Z] with their wrap-around, little-endian
      access, list lemmas, tactics, the hint database [gd32].
    - [Crc]: [src/src/crc32.c] and the framing CRC-16 of [src/src/protocol.c], both
      table driven as in the C, beside their bit-serial definitions.
    - [Wire]: status bytes, opcodes and error causes of [src/src/protocol.h] and
      [src/src/bootloader/bootloader.h].
    - [OtaLayout]: [src/src/ota_layout.h]: slot map, the 44-byte record and its byte
      form, candidate selection, image and trial-marker checks.
    - [Flash]: the interface of [src/src/fmc_ota.h] as the class [FlashHal], its
      promises as [FlashLaws] and [FlashHealthy], a byte-array instance, and any
      instance with the power cut inside one of its calls ([cut_flash]).
    - [FmcOta]: [src/hal/fmc_ota.c] and [fmc_ota_guard.h] over a parameter for the
      flash controller; discharges the promises of [Flash].
    - [BridgeHw]: [src/hal/bridge_hw.h] as a class, [bridge_hw_stub.c] as instance.
    - [BootConfig]: [src/src/boot_config.c].
    - [BootDecide]: [src/src/boot/boot_decide.c] and [boot_main.c].
    - [Ota]: [src/src/ota.c], partitioned build: the session statics are the record
      [ota], one definition per handler, tick and helper.  The theorems about
      them are in [OtaMeta] (metadata commits against the bootloader's reader),
      [OtaSafety] (power cuts), [OtaSession] (interleavings), [OtaUpdate] (a
      whole update) and [OtaTrial] (commit, rollback, confirm, self-heal).
    - [Protocol]: the opcode table of [src/src/protocol.c], all 35 handlers, the trial
      gate, the nested-dispatch guard and the feature negotiation; [HalCalls]: the
      calls on [bridge_hw.h] a payload stands for, by [encode] and [decode].
    - [Frame]: the CRC envelope, and the class [Dispatcher] through which the
      transports see the command layer, discharged for [Protocol].
    - [TransportSpi], [TransportI2c]: the two slave state machines, one
      definition per seam function the interrupt backend calls.
    - [SpiBackend]: the SPI half of [src/hal/transport_hw_gd32.c]: DMA arming, the
      error latch, the chip-select interrupt, and the system of both interrupts.
    - [I2cTiming]: its clock arithmetic, with [i2c_timeout.c],
      [i2c_event_priority.c] and [i2c_recovery.h]; [I2cBackend]: bring-up, event
      and error interrupts, stuck-bus poll; [I2cIsr]: the class [I2cBusLaws] of
      what the bus promises, and runs of the event interrupt.
    - [PwmTimer]: the two advanced timers as the firmware sees them, their promises
      as the class [TimerLaws]; [Pwm]: [src/hal/gd32/pwm.c], [pwm_set.c],
      [pwm_ownership.h], [pwm_preload_transaction.c], [timer_sync.c],
      [timer_sync_master.c], [timer_sync_iti.c], the PWM part of [init.c] and the
      reload mirror of [pwm_capture.c]; [PwmCapture]: the rest of that file.
      [PwmFacts] has the invariant; [PwmSet], [PwmLoad], [PwmApply], [PwmRequests]
      and [PwmReach] carry it through the calls, the preload transaction, every
      request and bring-up; the theorems are in [PwmSafety] (set and read-back),
      [PwmPulse] (one-shots), [PwmOwner] (claims), [PwmSync] (sync masters) and
      [PwmMeasure] (capture sessions), their instances in [PwmWitness].
    - [Power]: [src/hal/gd32/power.c] and [power_wake.h]; [PowerLog]: hardware that
      logs every call and answer, on which the tick runs as on any other;
      [PowerSafety]: the interrupted tick, the reachable states, what the log says of
      interrupts, I2C0, SysTick, the NVIC lines, SLEEPDEEP, clock and watchdog;
      [PowerLive]: progress; [PowerWitness]: a board and a clock tree.
    - [Main]: [src/src/main.c] and the base-level tick of [src/hal/gd32/init.c]: the
      loop with a program counter, its masked check and sleep, an interrupt between
      any two steps, the calls of the tick, among them the power tick of [Power] with
      its own feed, and the watchdog; [MainSafety]: theorems about runs of it.
    - [Gpio]: [src/hal/gd32/gpio.c], [se_reset.c] and the pads of [init.c];
      [GpioSafety]: the ports as the class [GpioLaws] says, and the theorems.
    - [Trng]: [src/hal/gd32/trng.c] and its boot grace; [TrngSafety]: a log of its
      reads and what a reply is made of.
    - [Reset]: [src/hal/gd32/fault_handlers.c], [fault_diag.c], [reset_reason.c], the
      bootloader's stash and the snapshot of [init.c], with their theorems.
    - [Drivers]: [src/hal/gd32/dac.c], [qenc.c], [counter.c], [src/src/timing_stats.c];
      [DriversSafety]: their theorems.
    - [Init]: [bridge_hw_init] of [src/hal/gd32/init.c], stage by stage, made of the
      other files' operations; [InitStages]: relations its loops preserve;
      [InitSafety]: its order.
    - [Board]: [main] of [src/src/main.c] up to its loop: [bridge_hw_init], then both
      transports' bring-up, with the pins of every component; [BoardStart]: the state
      each component is left in.
    - [Requests]: what each driver's requests leave alone; [Device]: the drivers of
      [src/hal/gd32/] together as the backend of [bridge_hw.h], and the steps of the
      base level on it; [Firmware]: both links, the command table and that backend as
      one machine.
    - [Tmu]: [src/hal/gd32/tmu.c] and [tmu_q31_scale.c]; [TmuSafety]: its contract.
    - [DspChain]: [src/hal/gd32/adc_dsp_chain.c]: the chain pool, chunked upload
      with its coverage bitmap, payload checks, bind.
    - [Adc]: [src/hal/gd32/adc.c] and [vref.c] over a parameter for the converter
      registers: reads, formats, claims, calibration, reference.
    - [AdcStream]: [src/hal/gd32/adc_stream.c], the DMA streams: begin, read, end,
      interrupt, lap accounting.  The class [DmaLaws] says what the DMA promises.
    - [AdcSystem]: chains and streams together as a step relation over requests,
      interrupts and writes of the pump.
    - [DspCoeff], [DspSpectrum]: the accelerator configurations of [adc_stream.c],
      with binary32 arithmetic from the Standard Library's [SpecFloat].
    - [DspPump]: the base-level filter and FFT pumps of [adc_stream.c] as a machine
      of small steps; [DspSafety]: its invariant and theorems.
    - [Samples], [OtaWitness], [LinkWitness], [AnalogWitness], [BackendWitness],
      [PeriphWitness], [MainWitness], [BoardWitness]: concrete flash contents and simulated hardware, and each theorem that has
      hypotheses applied to concrete inputs.

    ** How code becomes definitions

    A handler is a function from the state it reads to the state it leaves and
    its answer; its early returns are the branches in source order.  File
    statics are records.  Flash is a state [F] with the operations of
    [FlashHal]; a call that programs or erases returns the new [F], also when it
    fails, since a failed operation may have changed bytes.  [ota_erase_tick]
    releases its lock around the page erase: it is split there into
    [tick_snapshot], the erase and [tick_publish], and [OtaSession.ota_step] lets
    any dispatch run in between.  The flash controller is a parameter with laws
    taken from its documented behaviour: a page erase leaves 0xFF or fails and
    touches only its page, a doubleword program stores its data or fails and
    touches only its eight bytes, a status read has no effect on the array.

    The converters, the DMA, the accelerators and the timers are one parameter
    with operations and register reads and, but for the position of the DMA, no
    laws: theorems hold whatever they answer.  The pump runs at base level and
    every interrupt may run between two of its memory accesses.  [DspPump] gives
    it a program counter with one step per stretch that interrupts cannot split
    (a locked section) or whose splitting nothing observes (a batch works on
    locals under its lease, bins are written one per step); any request may run
    between two steps.  A configuration whose session ends under it may read a
    chain that is being rewritten, so its outcome is left to the parameter.
    Ghost fields count the sessions of a slot and record what was published; no
    step reads them.  In [SpiBackend] ghosts record what the DMA channels were
    last armed over; an interrupt of lower priority is split into its memory
    accesses so that the chip-select interrupt can run between them.  The I2C
    flags are read one by one while the bus goes on.  A PWM timer is seen through
    a view of its registers: a call has its documented effect, then any number of
    ticks and update events may follow before the next.  In [PowerLog],
    [TrngSafety] and [InitSafety] the hardware logs every call and answer, and the
    theorems speak of the log.  [Main] runs the tick call by call, each call an
    operation of [Ota], [BootConfig] or [Power] or, for the pump, the reference and
    the bus poll, of its parameter; between two steps of the
    loop an interrupt may run, whose effect on the setting is that of a request; a
    script of steps and interrupts decides the run.
    [Init] and [Board] are generic in one hardware state that carries the operations
    of every component; that a call leaves alone the pins it does not name, or takes
    time on the timers it does not touch, are the classes [BoardLaws] and
    [Indifferent], with [DeviceLaws] and [Undisturbed] for the blocks only requests
    use.  [Device] keeps the statics of every driver beside that hardware; between two
    calls of the links [Firmware] lets any of its steps happen, one memory access of
    the pump at a time, and any change of flash, update session and stored setting.
    A hook name that a class of [BridgeHw] already uses has a
    trailing underscore.

    ** What the theorems show

    - Update safety ([OtaSession], [OtaSafety]): over every interleaving the
      update writes only the metadata pages and the inactive slot; the session
      state means what it says about the flash; power lost inside any
      flash call of a metadata commit leaves the record that matters bootable; after BEGIN the next boot does not depend on the
      slot being erased.
    - Update progress ([OtaUpdate], [OtaTrial]): the erase walk ends, READY or in
      ERROR, whatever the flash answers; on a healthy flash the documented sequence
      is acknowledged and boots the new image; commit, rollback, confirm and
      self-heal have their full contracts, refusals included.
    - Boot ([BootDecide]): the decision refines its specification, what is jumped to
      passed every check, and recovery is entered exactly when nothing passes.
    - Flash driver ([FmcOta]): it implements the seam in both bank modes, its
      waits are bounded, its funnel has one owner, and it succeeds on a healthy
      controller.
    - Boot configuration ([BootConfig]): a SET is atomic under power cuts,
      durable when it reports OK, and reaches flash.
    - Commands ([Protocol], [Frame]): the trial gate, the exclusion of nested
      dispatches, isolation of the two links, the footprint of each opcode
      group, exact lengths, and the bounds on every reply.
    - Decoding ([HalCalls]): a dispatch makes at most one driver call, with arguments
      of their documented widths; each call is made by its documented payload, with
      exactly those arguments.
    - Links ([TransportSpi], [TransportI2c]): a framed command is dispatched
      exactly once and its framed reply is what the host reads, a corrupted
      byte is never dispatched, replays do not dispatch, indices stay inside
      their arrays in every reachable state.
    - Interrupts ([SpiBackend], [I2cBackend], [I2cIsr]): a captured request is
      dispatched once and its reply armed, a transfer flagged bad is never
      dispatched, an armed buffer is never rewritten; the I2C event interrupt turns
      bus events into transport calls in order whatever arrives while it runs;
      bring-up accepts exactly the clocks its registers can serve; error and
      stuck-bus paths resynchronise; resets are bounded.  [BackendWitness] has the
      run in which a latched error is missed.
    - Checksums ([Crc]): the table routines equal the bit-serial ones.
    - PWM ([PwmSafety], [PwmPulse], [PwmOwner], [PwmSync], [PwmMeasure]): the
      statics describe the timers in every reachable state; a set of a running
      timer never shows a mixture of two settings and reads back what was asked, cut
      to the tick; a one-shot is one pulse of the commanded width; claims keep
      sibling one-shots off; no request forces an update on a timer that drives a
      slave; the reads of a capture session answer the true edge distances.  [PwmWitness] ends with the
      runs in which a one-shot ends at a bad moment or shares its timer.
    - Low power ([PowerSafety], [PowerLive]): a mode is entered only after the whole
      link check, deep-sleep after three of them, standby after one; the bridge stays
      reachable on every path; a request is accepted exactly when its wake is armed
      and fits; a latched request is served on a quiet link, and a broken wake heals
      once the PLL, enabled and selected again, locks.  [PowerWitness] ends with the runs in
      which a request is lost and in which Standby is entered without a wake.
    - Main loop ([MainSafety]): the core sleeps only with nothing to commit; on
      every run a queued setting is stored within fourteen steps whatever interrupts;
      the watchdog is fed at the end of whole passes and, once in a pass at most, on
      the way into a low-power mode, and never in a trial boot.
    - Bring-up ([InitSafety]): interrupts are let in last, every access finds its
      block clocked, the secure element's line is driven before any wait.
    - Board ([Board], [BoardStart]): through the whole bring-up and any requests the
      pads are what the stored setting and the host last commanded, since no other
      component names a pad; a stored or torn setting reaches its pad at the next
      bring-up; every component starts where its own theorems start.
    - The whole ([Device], [Firmware]): from that start on, whatever bytes the links
      receive and whatever the base level does in between, the pads carry out the
      well-formed frames, and the PWM and analog components stay in states their own
      theorems speak of.
    - Pads ([GpioSafety]): every pad is what the host last commanded, a write passes
      through no third level, and no pad outside the mask moves.
    - Random bytes ([TrngSafety]): an OK reply consists of words read once each,
      healthy and ready, none equal to its predecessor.
    - Resets ([Reset]): the cause that is answered is that of the last reset; faults
      in a row reset the chip a bounded number of times; the record is the last one.
    - Math ([TmuSafety]): what is refused is refused before the unit is touched, the
      Q31 scaling is undone exactly, and waits end.
    - Small drivers ([DriversSafety]): the level asked of a converter reads back to
      within a millivolt, encoder reads are displacements, timing statistics are true
      extremes and sums.
    - Analog requests ([DspChain], [Adc], [AdcStream], [AdcSystem]): uploads
      assemble and replay, bind accepts exactly what the accelerators can run,
      reads and begins give their claims back on every path, lap accounting
      never reports unwritten samples, raw reads deliver in order, and converters,
      chains and accelerators are never shared in any reachable state.
    - Accelerator programs ([DspCoeff], [DspSpectrum]): coefficients are quantised
      to within two units, and a bound chain configures.
    - The pump ([DspSafety]): every state of it projects to one of [AdcSystem]; its
      owner byte, which carries no generation, still separates sessions; filtered
      streams are refined by one stream of samples per session, published batch by
      batch from the raw cursor and read in order; spectrum reads are never torn;
      buffers stay in bounds; a batch makes progress.
    - [AnalogWitness] ends with the runs in which the pump, the overrun path and
      the coefficient decoder do less than their comments say.

    ** Bounds and fuel

    The erase walk is 108 ticks because a slot is 216 KB and a tick erases
    one [OTA_PAGE_SIZE] step of 2 KB.  [trial_scan] takes one unit of fuel per candidate offset of its
    window, 493 of them.  The flash waits take the C poll budgets.  The erase
    and program loops take one unit per page and per doubleword of the request.
    The SPI tar-pit counters and buffers (69 bytes, the largest frame) are the
    C constants.  Calibration polls 100000 times per phase, an end of conversion
    at most 400000, a DMA disable 64, an I2C disable 64, as in the C; the power-of-two loop takes
    16 units for a 16-bit ratio, the headroom loop 7, a drain 32, a batch 8.  The
    preload and FFT completion polls are outcomes of the parameter, as are the
    watchdog wait and the settle loop of [power.c], single operations there; its
    oscillator wait is 199999 polls and its PLL waits 100000, as in the C.  The
    generator's waits are 100000 polls at start, 65535 for readiness, 131070 shared
    by the words of a request, and 8 rounds at boot; the math unit's 65535; the
    oscillator of the watchdog is polled 199999 times, the compensation cell 200000,
    the reference buffer 100000.  Each loop is
    proved to finish within its fuel where its
    result is used.

    ** Not modelled

    Fields inside a vendor call: clock and peripheral set-up calls of the backend and of
    [init.c] are single operations of their parameters.  Hand-written assembly entry
    points of [fault_handlers.c] and the bare stubs beside them.  NULL output
    pointers of the HAL, which no caller passes.  The inert full-flash build of
    [ota.c], whose entry points do nothing.  The calls of the optional timing
    instrumentation, whose arithmetic is in [Drivers].  PRIMASK windows outside the
    main loop, and the FMC unlock keys.  Vendor code, the linker scripts and the
    tools are outside the model. *)

From stdpp Require Import base tactics list numbers.

#[global] Open Scope Z_scope.

(** ** Machine integers

    A [w]-bit unsigned C integer is a [Z]; storing into one wraps. *)

Definition u8 (x : Z) : Z := x mod 0x100.
Definition u16 (x : Z) : Z := x mod 0x10000.
Definition u32 (x : Z) : Z := x mod 0x100000000.

(** Casts to the signed types. *)
Definition s16 (x : Z) : Z := if u16 x <? 0x8000 then u16 x else u16 x - 0x10000.
Definition s32 (x : Z) : Z := if u32 x <? 0x80000000 then u32 x else u32 x - 0x100000000.

Definition is_byte (b : Z) : Prop := 0 <= b < 0x100.
Definition is_u16 (x : Z) : Prop := 0 <= x < 0x10000.
Definition is_u32 (x : Z) : Prop := 0 <= x < 0x100000000.

(** A byte array of which every element is a [uint8_t]. *)
Abbreviation bytes_ok := (Forall is_byte).

(** Array read [l[i]].  Every use in the library sits behind the length check
    the C code makes, so the default is never the value of a C read. *)
Definition at_ (l : list Z) (i : Z) : Z := default 0 (l !! Z.to_nat i).
Notation "l .[ i ]" := (at_ l i) (at level 1, format "l .[ i ]").

(** Little-endian reads and writes ([rd_u32]/[get_le32], [wr_u32]/[put_le32]). *)
Definition le16 (p : list Z) : Z := Z.lor p.[0] (Z.shiftl p.[1] 8).
Definition le32 (p : list Z) : Z :=
  Z.lor (Z.lor (Z.lor p.[0] (Z.shiftl p.[1] 8)) (Z.shiftl p.[2] 16)) (Z.shiftl p.[3] 24).
Definition put16 (v : Z) : list Z := [u8 v; u8 (Z.shiftr v 8)].
Definition put32 (v : Z) : list Z :=
  [u8 v; u8 (Z.shiftr v 8); u8 (Z.shiftr v 16); u8 (Z.shiftr v 24)].

(** ** Memory views

    A memory-mapped region is a function from addresses to bytes. *)
Definition bytes_at (m : Z -> Z) (a : Z) (n : nat) : list Z :=
  (fun i : nat => m (a + Z.of_nat i)) <$> seq 0 n.

(** ** Automation *)

Create HintDb gd32.

(** Case analysis on every [if] and [match] of the goal and of hypotheses. *)
Ltac cases := repeat (case_match; simplify_eq/=).

(** Linear arithmetic with division and modulo by constants. *)
Ltac zlia := Z.to_euclidean_division_equations; lia.

Lemma u8_byte x : is_byte (u8 x).
Proof. unfold is_byte, u8. zlia. Qed.
Lemma u16_u16 x : is_u16 (u16 x).
Proof. unfold is_u16, u16. zlia. Qed.
Lemma u32_u32 x : is_u32 (u32 x).
Proof. unfold is_u32, u32. zlia. Qed.
Lemma u8_id x : is_byte x -> u8 x = x.
Proof. unfold is_byte, u8. apply Z.mod_small. Qed.
Lemma u16_id x : is_u16 x -> u16 x = x.
Proof. unfold is_u16, u16. apply Z.mod_small. Qed.
Lemma u32_id x : is_u32 x -> u32 x = x.
Proof. unfold is_u32, u32. apply Z.mod_small. Qed.

Lemma s16_id x : -0x8000 <= x < 0x8000 -> s16 x = x.
Proof. unfold s16, u16. intros Hx. destruct (Z.ltb_spec (x mod 0x10000) 0x8000); zlia. Qed.
Lemma s32_id x : -0x80000000 <= x < 0x80000000 -> s32 x = x.
Proof. unfold s32, u32. intros Hx. destruct (Z.ltb_spec (x mod 0x100000000) 0x80000000); zlia. Qed.
Lemma s32_bounds x : -0x80000000 <= s32 x < 0x80000000.
Proof. unfold s32. pose proof (u32_u32 x) as B. unfold is_u32 in B. destruct (Z.ltb_spec (u32 x) 0x80000000); lia. Qed.
Lemma s16_bounds x : -0x8000 <= s16 x < 0x8000.
Proof. unfold s16. pose proof (u16_u16 x) as B. unfold is_u16 in B. destruct (Z.ltb_spec (u16 x) 0x8000); lia. Qed.
Lemma s32_u32 x : s32 (u32 x) = s32 x.
Proof. unfold s32. by rewrite (u32_id (u32 x)) by apply u32_u32. Qed.
(** The casts keep the residue. *)
Lemma u32_s32 x : u32 (s32 x) = u32 x.
Proof.
  unfold s32, u32. destruct (_ <? _); [by rewrite Z.mod_mod by lia |].
  replace (x mod 0x100000000 - 0x100000000) with (x mod 0x100000000 + (-1) * 0x100000000) by lia.
  by rewrite Z_mod_plus_full, Z.mod_mod by lia.
Qed.
Lemma u16_s16 x : u16 (s16 x) = u16 x.
Proof.
  unfold s16, u16. destruct (_ <? _); [by rewrite Z.mod_mod by lia |].
  replace (x mod 0x10000 - 0x10000) with (x mod 0x10000 + (-1) * 0x10000) by lia. by rewrite Z_mod_plus_full, Z.mod_mod by lia.
Qed.
#[export] Hint Resolve u8_byte u16_u16 u32_u32 : gd32.

(** ** Bit-level lemmas *)

(** An [or] of disjoint fields is their sum. *)
Lemma lor_shiftl_add (n a b : Z) :
  0 <= n -> 0 <= a < 2 ^ n -> Z.lor a (Z.shiftl b n) = a + b * 2 ^ n.
Proof.
  intros Hn Ha. rewrite <- Z.shiftl_mul_pow2 by done.
  rewrite <- Z.lxor_lor, <- Z.add_nocarry_lxor; [done | |];
  apply Z.bits_inj'; intros i Hi; rewrite Z.land_spec, Z.bits_0.
  all: destruct (Z.lt_ge_cases i n).
  1, 3: rewrite (Z.shiftl_spec_low b) by done; apply andb_false_r.
  all: replace a with (a mod 2 ^ n) by (by apply Z.mod_small);
       rewrite Z.mod_pow2_bits_high by lia; done.
Qed.

(** One bit of a mask. *)
Lemma pow2_bit n m : 0 <= n -> Z.testbit (2 ^ n) m = (m =? n).
Proof.
  intros Hn. destruct (Z.eqb_spec m n) as [-> |]; [by apply Z.pow2_bits_true |]. by apply Z.pow2_bits_false.
Qed.

Lemma land_pow2_bit v n : 0 <= n -> negb (Z.land v (2 ^ n) =? 0) = Z.testbit v n.
Proof.
  intros Hn. destruct (Z.testbit v n) eqn:E.
  - apply negb_true_iff, Z.eqb_neq. intros A. apply (f_equal (fun z => Z.testbit z n)) in A.
    rewrite Z.land_spec, E, Z.pow2_bits_true, Z.bits_0 in A by lia. done.
  - apply negb_false_iff, Z.eqb_eq. apply Z.bits_inj'. intros m Hm. rewrite Z.land_spec, Z.bits_0.
    destruct (decide (m = n)) as [-> |]; [by rewrite E |]. rewrite Z.pow2_bits_false by lia. apply andb_false_r.
Qed.

Lemma land_lnot32 c m i :
  0 <= c < 0x100000000 -> 0 <= m < 0x100000000 ->
  Z.testbit (Z.land c (u32 (Z.lnot m))) i = Z.testbit c i && negb (Z.testbit m i).
Proof.
  intros Hc Hm. rewrite Z.land_spec. destruct (Z.ltb_spec i 0); [by rewrite !Z.testbit_neg_r|].
  unfold u32. change 0x100000000 with (2 ^ 32). destruct (Z.ltb_spec i 32).
  - by rewrite Z.mod_pow2_bits_low, Z.lnot_spec by lia.
  - rewrite (Z.bits_above_log2 c i); [by rewrite andb_false_l | lia |].
    destruct (decide (c = 0)) as [-> |]; [cbn; lia |]. apply Z.log2_lt_pow2; [lia |].
    apply Z.lt_le_trans with (2 ^ 32); [lia | by apply Z.pow_le_mono_r].
Qed.

(** Words of 32 bits. *)
Lemma word_u32 w : 0 <= w < 0x100000000 <-> u32 w = w.
Proof.
  unfold u32. split; [by apply Z.mod_small |]. intros <-. by apply Z.mod_pos_bound.
Qed.

Lemma word_lor a b : 0 <= a < 0x100000000 -> 0 <= b < 0x100000000 -> 0 <= Z.lor a b < 0x100000000.
Proof.
  rewrite !word_u32. unfold u32. change 0x100000000 with (2 ^ 32). rewrite <- !Z.land_ones by lia.
  intros Ea Eb. by rewrite Z.land_lor_distr_l, Ea, Eb.
Qed.

Lemma word_land a b : 0 <= a < 0x100000000 -> 0 <= Z.land a b < 0x100000000.
Proof.
  rewrite !word_u32. unfold u32. change 0x100000000 with (2 ^ 32). rewrite <- !Z.land_ones by lia.
  intros Ea. by rewrite <- Z.land_assoc, (Z.land_comm b), Z.land_assoc, Ea.
Qed.

(** The fields a little-endian read assembles. *)
Lemma le32_add (p : list Z) :
  is_byte p.[0] -> is_byte p.[1] -> is_byte p.[2] ->
  le32 p = p.[0] + p.[1] * 0x100 + p.[2] * 0x10000 + p.[3] * 0x1000000.
Proof.
  unfold is_byte, le32. intros H0 H1 H2.
  rewrite (lor_shiftl_add 8), (lor_shiftl_add 16), (lor_shiftl_add 24); lia.
Qed.

Lemma le16_add (p : list Z) :
  is_byte p.[0] -> le16 p = p.[0] + p.[1] * 0x100.
Proof. unfold is_byte, le16. intros. rewrite (lor_shiftl_add 8); lia. Qed.

Lemma put32_ok v : bytes_ok (put32 v).
Proof. repeat (apply Forall_cons_2; [apply u8_byte |]). apply Forall_nil_2. Qed.
Lemma put16_ok v : bytes_ok (put16 v).
Proof. repeat (apply Forall_cons_2; [apply u8_byte |]). apply Forall_nil_2. Qed.
#[export] Hint Resolve put32_ok put16_ok : gd32.

(** Array reads of well-formed arrays are bytes. *)
Lemma at_byte (l : list Z) i : bytes_ok l -> is_byte l.[i].
Proof.
  intros H. unfold at_. destruct (l !! Z.to_nat i) eqn:E; simpl.
  - by eapply Forall_lookup in H.
  - unfold is_byte; lia.
Qed.
#[export] Hint Resolve at_byte : gd32.

Lemma le32_range (l : list Z) : bytes_ok l -> is_u32 (le32 l).
Proof.
  intros H. rewrite le32_add by auto with gd32.
  pose proof (at_byte l 0 H). pose proof (at_byte l 1 H).
  pose proof (at_byte l 2 H). pose proof (at_byte l 3 H).
  unfold is_byte, is_u32 in *. lia.
Qed.

(** Round trips of the 32-bit little-endian codec. *)
Lemma le32_put32 v rest : is_u32 v -> le32 (put32 v ++ rest) = v.
Proof.
  intros Hv. assert (Hp : forall i, is_byte (put32 v ++ rest).[i] \/ 4 <= i).
  { intros i. destruct (Z.lt_ge_cases i 4); [left | by right].
    unfold at_. rewrite lookup_app_l by (simpl; lia).
    apply (at_byte (put32 v)), put32_ok. }
  rewrite le32_add.
  - unfold at_; simpl. unfold is_u32, u8 in *.
    rewrite !Z.shiftr_div_pow2 by lia. simpl Z.pow. zlia.
  - destruct (Hp 0); [done | lia].
  - destruct (Hp 1); [done | lia].
  - destruct (Hp 2); [done | lia].
Qed.

Lemma le16_put16 v rest : is_u16 v -> le16 (put16 v ++ rest) = v.
Proof.
  intros Hv. rewrite le16_add.
  - unfold at_; simpl. unfold is_u16, u8 in *.
    rewrite !Z.shiftr_div_pow2 by lia. simpl Z.pow. zlia.
  - unfold at_; simpl. apply u8_byte.
Qed.

Lemma put32_le32 a b c d :
  bytes_ok [a; b; c; d] -> put32 (le32 [a; b; c; d]) = [a; b; c; d].
Proof.
  intros H. pose proof H as H'. rewrite !Forall_cons_iff in H'. unfold is_byte in *.
  unfold put32. rewrite le32_add by auto with gd32. unfold at_; simpl.
  rewrite !Z.shiftr_div_pow2 by lia. simpl Z.pow. unfold u8.
  repeat f_equal; zlia.
Qed.

(** ** Memory views *)

Lemma length_bytes_at m a n : length (bytes_at m a n) = n.
Proof. unfold bytes_at. by rewrite length_fmap, length_seq. Qed.

Lemma lookup_bytes_at m a n i :
  (i < n)%nat -> bytes_at m a n !! i = Some (m (a + Z.of_nat i)).
Proof.
  intros H. unfold bytes_at. rewrite list_lookup_fmap, lookup_seq_lt by done. done.
Qed.

Lemma lookup_bytes_at_ge m a n i : (n <= i)%nat -> bytes_at m a n !! i = None.
Proof. intros H. apply lookup_ge_None_2. by rewrite length_bytes_at. Qed.

Lemma at_bytes_at m a n i :
  0 <= i < Z.of_nat n -> (bytes_at m a n).[i] = m (a + i).
Proof.
  intros H. unfold at_. rewrite lookup_bytes_at by lia. simpl. f_equal. lia.
Qed.

(** Two memories that agree on a span have the same view of it. *)
Lemma bytes_at_ext m m' a n :
  (forall x, a <= x < a + Z.of_nat n -> m x = m' x) -> bytes_at m a n = bytes_at m' a n.
Proof.
  intros H. apply list_eq. intros i. destruct (Nat.lt_ge_cases i n).
  - rewrite !lookup_bytes_at by done. f_equal. apply H. lia.
  - by rewrite !lookup_bytes_at_ge.
Qed.

Lemma bytes_at_app m a n k :
  bytes_at m a (n + k) = bytes_at m a n ++ bytes_at m (a + Z.of_nat n) k.
Proof.
  apply list_eq. intros i. destruct (Nat.lt_ge_cases i (n + k)).
  - rewrite lookup_bytes_at by done. destruct (Nat.lt_ge_cases i n).
    + rewrite lookup_app_l by (by rewrite length_bytes_at).
      by rewrite lookup_bytes_at.
    + rewrite lookup_app_r by (by rewrite length_bytes_at).
      rewrite length_bytes_at, lookup_bytes_at by lia. do 2 f_equal. lia.
  - rewrite lookup_bytes_at_ge by done. symmetry. apply lookup_ge_None_2.
    rewrite length_app, !length_bytes_at. lia.
Qed.

Lemma take_bytes_at m a n k : (k <= n)%nat -> take k (bytes_at m a n) = bytes_at m a k.
Proof.
  intros H. replace n with (k + (n - k))%nat by lia. rewrite bytes_at_app, take_app_le.
  - apply take_ge. rewrite length_bytes_at. lia.
  - rewrite length_bytes_at. lia.
Qed.

Lemma drop_bytes_at m a n k :
  (k <= n)%nat -> drop k (bytes_at m a n) = bytes_at m (a + Z.of_nat k) (n - k).
Proof.
  intros H. replace n with (k + (n - k))%nat at 1 by lia. rewrite bytes_at_app, drop_app_ge.
  - rewrite length_bytes_at, Nat.sub_diag. done.
  - rewrite length_bytes_at. lia.
Qed.

(** A view is the list read byte by byte. *)
Lemma bytes_at_eq m a (l : list Z) :
  (forall i, 0 <= i < Z.of_nat (length l) -> m (a + i) = l.[i]) ->
  bytes_at m a (length l) = l.
Proof.
  intros H. apply list_eq. intros i. destruct (Nat.lt_ge_cases i (length l)) as [Hi|Hi].
  - rewrite lookup_bytes_at by done. rewrite H by lia. unfold at_. rewrite Nat2Z.id.
    by destruct (lookup_lt_is_Some_2 l i Hi) as [x ->].
  - rewrite lookup_bytes_at_ge by done. symmetry. by apply lookup_ge_None_2.
Qed.

Lemma bytes_at_ok m a n : (forall x, is_byte (m x)) -> bytes_ok (bytes_at m a n).
Proof. intros H. unfold bytes_at. apply Forall_fmap, Forall_forall. intros. apply H. Qed.
#[export] Hint Resolve bytes_at_ok : gd32.

Lemma at_replicate n v i : 0 <= i < Z.of_nat n -> (replicate n v).[i] = v.
Proof. intros Hi. unfold at_. by rewrite lookup_replicate_2 by lia. Qed.

(** Array writes [l[i] = v]. *)
Lemma at_insert_eq (l : list Z) i v :
  0 <= i < Z.of_nat (length l) -> (<[Z.to_nat i := v]> l).[i] = v.
Proof. intros Hi. unfold at_. by rewrite list_lookup_insert_eq by lia. Qed.

Lemma at_insert_ne (l : list Z) i j v :
  0 <= i -> 0 <= j -> i <> j -> (<[Z.to_nat i := v]> l).[j] = l.[j].
Proof. intros Hi Hj Hn. unfold at_. by rewrite list_lookup_insert_ne by lia. Qed.

(** Lists of the same length with the same elements. *)
Lemma at_ext (l l' : list Z) :
  length l = length l' ->
  (forall i, 0 <= i < Z.of_nat (length l) -> l.[i] = l'.[i]) -> l = l'.
Proof.
  intros Hl He. apply list_eq. intros i. destruct (Nat.lt_ge_cases i (length l)) as [Hi | Hi].
  - destruct (lookup_lt_is_Some_2 l i Hi) as [x Hx].
    destruct (lookup_lt_is_Some_2 l' i) as [y Hy]; [lia |].
    specialize (He (Z.of_nat i) ltac:(lia)). unfold at_ in He.
    rewrite Nat2Z.id, Hx, Hy in He. simpl in He. congruence.
  - rewrite !lookup_ge_None_2; [done | lia | lia].
Qed.
