(* ===== verification/Crc.v ===== *)
(** * Checksums: [src/crc32.c] and the framing CRC of [src/protocol.c]

    The two table-driven CRCs, the bit-serial algorithms they replace, the
    proof that each pair computes the same function, and the algebra the
    other components use: chaining, ranges, injectivity in every byte (so a
    corrupted byte is always detected) and the self-consumption of the
    framing CRC. *)

From stdpp Require Import base tactics list numbers.
From Stdlib Require Import Btauto.
From S2P Require Import Prelude.

(** ** CRC-32 (IEEE 802.3, reflected), table-driven as in [src/crc32.c] *)

Definition crc32_table : list Z :=
  [0x00000000; 0x77073096; 0xEE0E612C; 0x990951BA; 0x076DC419; 0x706AF48F; 0xE963A535; 0x9E6495A3;
   0x0EDB8832; 0x79DCB8A4; 0xE0D5E91E; 0x97D2D988; 0x09B64C2B; 0x7EB17CBD; 0xE7B82D07; 0x90BF1D91;
   0x1DB71064; 0x6AB020F2; 0xF3B97148; 0x84BE41DE; 0x1ADAD47D; 0x6DDDE4EB; 0xF4D4B551; 0x83D385C7;
   0x136C9856; 0x646BA8C0; 0xFD62F97A; 0x8A65C9EC; 0x14015C4F; 0x63066CD9; 0xFA0F3D63; 0x8D080DF5;
   0x3B6E20C8; 0x4C69105E; 0xD56041E4; 0xA2677172; 0x3C03E4D1; 0x4B04D447; 0xD20D85FD; 0xA50AB56B;
   0x35B5A8FA; 0x42B2986C; 0xDBBBC9D6; 0xACBCF940; 0x32D86CE3; 0x45DF5C75; 0xDCD60DCF; 0xABD13D59;
   0x26D930AC; 0x51DE003A; 0xC8D75180; 0xBFD06116; 0x21B4F4B5; 0x56B3C423; 0xCFBA9599; 0xB8BDA50F;
   0x2802B89E; 0x5F058808; 0xC60CD9B2; 0xB10BE924; 0x2F6F7C87; 0x58684C11; 0xC1611DAB; 0xB6662D3D;
   0x76DC4190; 0x01DB7106; 0x98D220BC; 0xEFD5102A; 0x71B18589; 0x06B6B51F; 0x9FBFE4A5; 0xE8B8D433;
   0x7807C9A2; 0x0F00F934; 0x9609A88E; 0xE10E9818; 0x7F6A0DBB; 0x086D3D2D; 0x91646C97; 0xE6635C01;
   0x6B6B51F4; 0x1C6C6162; 0x856530D8; 0xF262004E; 0x6C0695ED; 0x1B01A57B; 0x8208F4C1; 0xF50FC457;
   0x65B0D9C6; 0x12B7E950; 0x8BBEB8EA; 0xFCB9887C; 0x62DD1DDF; 0x15DA2D49; 0x8CD37CF3; 0xFBD44C65;
   0x4DB26158; 0x3AB551CE; 0xA3BC0074; 0xD4BB30E2; 0x4ADFA541; 0x3DD895D7; 0xA4D1C46D; 0xD3D6F4FB;
   0x4369E96A; 0x346ED9FC; 0xAD678846; 0xDA60B8D0; 0x44042D73; 0x33031DE5; 0xAA0A4C5F; 0xDD0D7CC9;
   0x5005713C; 0x270241AA; 0xBE0B1010; 0xC90C2086; 0x5768B525; 0x206F85B3; 0xB966D409; 0xCE61E49F;
   0x5EDEF90E; 0x29D9C998; 0xB0D09822; 0xC7D7A8B4; 0x59B33D17; 0x2EB40D81; 0xB7BD5C3B; 0xC0BA6CAD;
   0xEDB88320; 0x9ABFB3B6; 0x03B6E20C; 0x74B1D29A; 0xEAD54739; 0x9DD277AF; 0x04DB2615; 0x73DC1683;
   0xE3630B12; 0x94643B84; 0x0D6D6A3E; 0x7A6A5AA8; 0xE40ECF0B; 0x9309FF9D; 0x0A00AE27; 0x7D079EB1;
   0xF00F9344; 0x8708A3D2; 0x1E01F268; 0x6906C2FE; 0xF762575D; 0x806567CB; 0x196C3671; 0x6E6B06E7;
   0xFED41B76; 0x89D32BE0; 0x10DA7A5A; 0x67DD4ACC; 0xF9B9DF6F; 0x8EBEEFF9; 0x17B7BE43; 0x60B08ED5;
   0xD6D6A3E8; 0xA1D1937E; 0x38D8C2C4; 0x4FDFF252; 0xD1BB67F1; 0xA6BC5767; 0x3FB506DD; 0x48B2364B;
   0xD80D2BDA; 0xAF0A1B4C; 0x36034AF6; 0x41047A60; 0xDF60EFC3; 0xA867DF55; 0x316E8EEF; 0x4669BE79;
   0xCB61B38C; 0xBC66831A; 0x256FD2A0; 0x5268E236; 0xCC0C7795; 0xBB0B4703; 0x220216B9; 0x5505262F;
   0xC5BA3BBE; 0xB2BD0B28; 0x2BB45A92; 0x5CB36A04; 0xC2D7FFA7; 0xB5D0CF31; 0x2CD99E8B; 0x5BDEAE1D;
   0x9B64C2B0; 0xEC63F226; 0x756AA39C; 0x026D930A; 0x9C0906A9; 0xEB0E363F; 0x72076785; 0x05005713;
   0x95BF4A82; 0xE2B87A14; 0x7BB12BAE; 0x0CB61B38; 0x92D28E9B; 0xE5D5BE0D; 0x7CDCEFB7; 0x0BDBDF21;
   0x86D3D2D4; 0xF1D4E242; 0x68DDB3F8; 0x1FDA836E; 0x81BE16CD; 0xF6B9265B; 0x6FB077E1; 0x18B74777;
   0x88085AE6; 0xFF0F6A70; 0x66063BCA; 0x11010B5C; 0x8F659EFF; 0xF862AE69; 0x616BFFD3; 0x166CCF45;
   0xA00AE278; 0xD70DD2EE; 0x4E048354; 0x3903B3C2; 0xA7672661; 0xD06016F7; 0x4969474D; 0x3E6E77DB;
   0xAED16A4A; 0xD9D65ADC; 0x40DF0B66; 0x37D83BF0; 0xA9BCAE53; 0xDEBB9EC5; 0x47B2CF7F; 0x30B5FFE9;
   0xBDBDF21C; 0xCABAC28A; 0x53B39330; 0x24B4A3A6; 0xBAD03605; 0xCDD70693; 0x54DE5729; 0x23D967BF;
   0xB3667A2E; 0xC4614AB8; 0x5D681B02; 0x2A6F2B94; 0xB40BBE37; 0xC30C8EA1; 0x5A05DF1B; 0x2D02EF8D].

Definition crc32_step (crc b : Z) : Z :=
  Z.lxor crc32_table.[Z.land (Z.lxor crc b) 0xFF] (Z.shiftr crc 8).

Definition ota_crc32 (crc : Z) (data : list Z) : Z :=
  Z.lxor (foldl crc32_step (Z.lxor crc 0xFFFFFFFF) data) 0xFFFFFFFF.

(** The bit-serial routine the table replaces: eight shift-and-branch steps
    per byte with the reflected polynomial. *)
Definition crc32_bit (x : Z) : Z :=
  if Z.testbit x 0 then Z.lxor (Z.shiftr x 1) 0xEDB88320 else Z.shiftr x 1.
Definition crc32_bits8 (x : Z) : Z := Nat.iter 8 crc32_bit x.
Definition crc32_bitserial (crc : Z) (data : list Z) : Z :=
  Z.lxor (foldl (fun c b => crc32_bits8 (Z.lxor c b)) (Z.lxor crc 0xFFFFFFFF) data)
         0xFFFFFFFF.

(** ** CRC-16/CCITT-FALSE (MSB first), table-driven as in [src/protocol.c] *)

Definition crc16_table : list Z :=
  [0x0000; 0x1021; 0x2042; 0x3063; 0x4084; 0x50A5; 0x60C6; 0x70E7;
   0x8108; 0x9129; 0xA14A; 0xB16B; 0xC18C; 0xD1AD; 0xE1CE; 0xF1EF;
   0x1231; 0x0210; 0x3273; 0x2252; 0x52B5; 0x4294; 0x72F7; 0x62D6;
   0x9339; 0x8318; 0xB37B; 0xA35A; 0xD3BD; 0xC39C; 0xF3FF; 0xE3DE;
   0x2462; 0x3443; 0x0420; 0x1401; 0x64E6; 0x74C7; 0x44A4; 0x5485;
   0xA56A; 0xB54B; 0x8528; 0x9509; 0xE5EE; 0xF5CF; 0xC5AC; 0xD58D;
   0x3653; 0x2672; 0x1611; 0x0630; 0x76D7; 0x66F6; 0x5695; 0x46B4;
   0xB75B; 0xA77A; 0x9719; 0x8738; 0xF7DF; 0xE7FE; 0xD79D; 0xC7BC;
   0x48C4; 0x58E5; 0x6886; 0x78A7; 0x0840; 0x1861; 0x2802; 0x3823;
   0xC9CC; 0xD9ED; 0xE98E; 0xF9AF; 0x8948; 0x9969; 0xA90A; 0xB92B;
   0x5AF5; 0x4AD4; 0x7AB7; 0x6A96; 0x1A71; 0x0A50; 0x3A33; 0x2A12;
   0xDBFD; 0xCBDC; 0xFBBF; 0xEB9E; 0x9B79; 0x8B58; 0xBB3B; 0xAB1A;
   0x6CA6; 0x7C87; 0x4CE4; 0x5CC5; 0x2C22; 0x3C03; 0x0C60; 0x1C41;
   0xEDAE; 0xFD8F; 0xCDEC; 0xDDCD; 0xAD2A; 0xBD0B; 0x8D68; 0x9D49;
   0x7E97; 0x6EB6; 0x5ED5; 0x4EF4; 0x3E13; 0x2E32; 0x1E51; 0x0E70;
   0xFF9F; 0xEFBE; 0xDFDD; 0xCFFC; 0xBF1B; 0xAF3A; 0x9F59; 0x8F78;
   0x9188; 0x81A9; 0xB1CA; 0xA1EB; 0xD10C; 0xC12D; 0xF14E; 0xE16F;
   0x1080; 0x00A1; 0x30C2; 0x20E3; 0x5004; 0x4025; 0x7046; 0x6067;
   0x83B9; 0x9398; 0xA3FB; 0xB3DA; 0xC33D; 0xD31C; 0xE37F; 0xF35E;
   0x02B1; 0x1290; 0x22F3; 0x32D2; 0x4235; 0x5214; 0x6277; 0x7256;
   0xB5EA; 0xA5CB; 0x95A8; 0x8589; 0xF56E; 0xE54F; 0xD52C; 0xC50D;
   0x34E2; 0x24C3; 0x14A0; 0x0481; 0x7466; 0x6447; 0x5424; 0x4405;
   0xA7DB; 0xB7FA; 0x8799; 0x97B8; 0xE75F; 0xF77E; 0xC71D; 0xD73C;
   0x26D3; 0x36F2; 0x0691; 0x16B0; 0x6657; 0x7676; 0x4615; 0x5634;
   0xD94C; 0xC96D; 0xF90E; 0xE92F; 0x99C8; 0x89E9; 0xB98A; 0xA9AB;
   0x5844; 0x4865; 0x7806; 0x6827; 0x18C0; 0x08E1; 0x3882; 0x28A3;
   0xCB7D; 0xDB5C; 0xEB3F; 0xFB1E; 0x8BF9; 0x9BD8; 0xABBB; 0xBB9A;
   0x4A75; 0x5A54; 0x6A37; 0x7A16; 0x0AF1; 0x1AD0; 0x2AB3; 0x3A92;
   0xFD2E; 0xED0F; 0xDD6C; 0xCD4D; 0xBDAA; 0xAD8B; 0x9DE8; 0x8DC9;
   0x7C26; 0x6C07; 0x5C64; 0x4C45; 0x3CA2; 0x2C83; 0x1CE0; 0x0CC1;
   0xEF1F; 0xFF3E; 0xCF5D; 0xDF7C; 0xAF9B; 0xBFBA; 0x8FD9; 0x9FF8;
   0x6E17; 0x7E36; 0x4E55; 0x5E74; 0x2E93; 0x3EB2; 0x0ED1; 0x1EF0].

Definition crc16_step (crc b : Z) : Z :=
  u16 (Z.lxor (Z.shiftl crc 8)
              crc16_table.[Z.land (Z.lxor (Z.shiftr crc 8) b) 0xFF]).

Definition crc16_ccitt_false (buf : list Z) : Z := foldl crc16_step 0xFFFF buf.

(** The bit-serial routine: the byte enters at the top, eight left shifts. *)
Definition crc16_bit (x : Z) : Z :=
  if Z.testbit x 15 then u16 (Z.lxor (Z.shiftl x 1) 0x1021) else u16 (Z.shiftl x 1).
Definition crc16_bits8 (x : Z) : Z := Nat.iter 8 crc16_bit x.
Definition crc16_bitserial (buf : list Z) : Z :=
  foldl (fun c b => crc16_bits8 (Z.lxor c (Z.shiftl b 8))) 0xFFFF buf.

Example crc32_check_value :
  ota_crc32 0 [0x31; 0x32; 0x33; 0x34; 0x35; 0x36; 0x37; 0x38; 0x39] = 0xCBF43926.
Proof. vm_compute. reflexivity. Qed.

Example crc16_check_value :
  crc16_ccitt_false [0x31; 0x32; 0x33; 0x34; 0x35; 0x36; 0x37; 0x38; 0x39] = 0x29B1.
Proof. vm_compute. reflexivity. Qed.

(** ** Proof support: GF(2) linearity of one bit step *)

(** Decides an equality of bit expressions, bit by bit. *)
Ltac bitwise :=
  apply Z.bits_inj'; intros ? ?;
  repeat (rewrite ?Z.lxor_spec, ?Z.land_spec, ?Z.lor_spec, ?Z.shiftr_spec, ?Z.bits_0 by lia);
  try btauto.

Lemma u16_bits x i : 0 <= i -> Z.testbit (u16 x) i = (i <? 16) && Z.testbit x i.
Proof.
  intros Hi. unfold u16. change 0x10000 with (2 ^ 16). destruct (Z.ltb_spec i 16).
  - by rewrite Z.mod_pow2_bits_low by lia.
  - by rewrite Z.mod_pow2_bits_high by lia.
Qed.

Lemma u16_lxor x y : u16 (Z.lxor x y) = Z.lxor (u16 x) (u16 y).
Proof.
  apply Z.bits_inj'. intros i Hi. rewrite Z.lxor_spec, !u16_bits, Z.lxor_spec by done. btauto.
Qed.

(** [x] as its low byte and the rest. *)
Lemma split_byte x : x = Z.lxor (Z.shiftl (Z.shiftr x 8) 8) (Z.land x 0xFF).
Proof.
  apply Z.bits_inj'. intros i Hi. change 0xFF with (Z.ones 8).
  rewrite Z.lxor_spec, Z.land_spec. destruct (Z.lt_ge_cases i 8).
  - rewrite Z.shiftl_spec_low, Z.ones_spec_low by lia. btauto.
  - rewrite Z.shiftl_spec, Z.shiftr_spec, Z.ones_spec_high by lia.
    replace (i - 8 + 8) with i by lia. btauto.
Qed.

Lemma land_ff_byte x : is_byte (Z.land x 0xFF).
Proof. change 0xFF with (Z.ones 8). rewrite Z.land_ones by lia. apply u8_byte. Qed.
#[export] Hint Resolve land_ff_byte : gd32.

(** A fact about every byte follows from its check on the 256 values. *)
Lemma byte_cases (P : Z -> bool) :
  forallb (fun n => P (Z.of_nat n)) (seq 0 256) = true -> forall b, is_byte b -> P b = true.
Proof.
  intros H b Hb. rewrite forallb_forall in H. unfold is_byte in Hb.
  rewrite <- (Z2Nat.id b) by lia. apply H, in_seq. lia.
Qed.

(** *** CRC-32 *)

Lemma crc32_bit_lxor x y : crc32_bit (Z.lxor x y) = Z.lxor (crc32_bit x) (crc32_bit y).
Proof.
  unfold crc32_bit. rewrite Z.lxor_spec.
  destruct (Z.testbit x 0) eqn:?, (Z.testbit y 0) eqn:?; simpl; bitwise.
Qed.

Lemma crc32_bits8_lxor x y : crc32_bits8 (Z.lxor x y) = Z.lxor (crc32_bits8 x) (crc32_bits8 y).
Proof. unfold crc32_bits8. simpl. by rewrite !crc32_bit_lxor. Qed.

Lemma crc32_bit_shiftl x n : 0 < n -> crc32_bit (Z.shiftl x n) = Z.shiftl x (n - 1).
Proof.
  intros. unfold crc32_bit. rewrite Z.shiftl_spec_low by lia.
  rewrite Z.shiftr_shiftl_l by lia. done.
Qed.

Lemma crc32_bits8_shiftl x : crc32_bits8 (Z.shiftl x 8) = x.
Proof.
  unfold crc32_bits8. simpl Nat.iter. rewrite !crc32_bit_shiftl by lia. apply Z.shiftl_0_r.
Qed.

Lemma crc32_table_bits8 b : is_byte b -> crc32_table.[b] = crc32_bits8 b.
Proof.
  intros Hb. apply Z.eqb_eq. revert b Hb.
  apply (byte_cases (fun b => crc32_table.[b] =? crc32_bits8 b)). vm_compute. reflexivity.
Qed.

Lemma crc32_step_bits8 c b : is_byte b -> crc32_step c b = crc32_bits8 (Z.lxor c b).
Proof.
  intros Hb. unfold crc32_step. rewrite crc32_table_bits8 by auto with gd32.
  rewrite (split_byte (Z.lxor c b)) at 2.
  rewrite crc32_bits8_lxor, crc32_bits8_shiftl, Z.lxor_comm. f_equal.
  rewrite Z.shiftr_lxor. replace (Z.shiftr b 8) with 0; [by rewrite Z.lxor_0_r |].
  unfold is_byte in Hb. rewrite Z.shiftr_div_pow2 by lia. symmetry. apply Z.div_small. simpl; lia.
Qed.

Lemma crc32_bit_zero x : crc32_bit x = 0 -> 0 <= x -> x < 2 ^ 32 -> x = 0.
Proof.
  unfold crc32_bit. intros H Hx Hlt. destruct (Z.testbit x 0) eqn:E.
  - exfalso. apply (f_equal (fun v => Z.testbit v 31)) in H.
    rewrite Z.lxor_spec, Z.shiftr_spec in H by lia.
    replace (Z.testbit x (31 + 1)) with false in H; [by vm_compute in H |].
    rewrite <- (Z.mod_small x (2 ^ 32)) by done. by rewrite Z.mod_pow2_bits_high by lia.
  - rewrite Z.shiftr_div_pow2 in H by lia. rewrite Z.bit0_odd in E.
    pose proof (Zmod_odd x) as Hm. rewrite E in Hm. simpl Z.pow in *. zlia.
Qed.

Lemma lxor_bound n x y :
  0 <= n -> 0 <= x < 2 ^ n -> 0 <= y < 2 ^ n -> 0 <= Z.lxor x y < 2 ^ n.
Proof.
  intros Hn Hx Hy. rewrite <- (Z.mod_small x (2 ^ n)), <- (Z.mod_small y (2 ^ n)) by done.
  replace (Z.lxor _ _) with (Z.lxor (x mod 2 ^ n) (y mod 2 ^ n) mod 2 ^ n).
  { apply Z.mod_pos_bound. lia. }
  apply Z.bits_inj'. intros i Hi. destruct (Z.lt_ge_cases i n).
  - by rewrite Z.mod_pow2_bits_low by lia.
  - by rewrite Z.lxor_spec, !Z.mod_pow2_bits_high by lia.
Qed.

Lemma shiftr_bound n k x : 0 <= k -> 0 <= x < n -> 0 <= Z.shiftr x k < n.
Proof.
  intros Hk Hx. rewrite Z.shiftr_div_pow2 by done.
  assert (0 < 2 ^ k) by lia.
  split; [apply Z.div_pos; lia |].
  apply Z.div_lt_upper_bound; nia.
Qed.

Lemma crc32_bit_u32 x : is_u32 x -> is_u32 (crc32_bit x).
Proof.
  unfold is_u32, crc32_bit. intros Hx.
  pose proof (shiftr_bound 0x100000000 1 x ltac:(lia) Hx).
  case_match; [apply (lxor_bound 32); lia | done].
Qed.

Lemma crc32_bits8_u32 x : is_u32 x -> is_u32 (crc32_bits8 x).
Proof. intros. unfold crc32_bits8; simpl Nat.iter. repeat apply crc32_bit_u32. done. Qed.

Lemma crc32_bits8_zero x : is_u32 x -> crc32_bits8 x = 0 -> x = 0.
Proof.
  assert (Hz : forall v, is_u32 v -> crc32_bit v = 0 -> v = 0)
    by (intros v [? ?] ?; apply crc32_bit_zero; done).
  unfold crc32_bits8; simpl Nat.iter. intros Hx H.
  repeat (apply Hz in H; [| repeat apply crc32_bit_u32; done]). done.
Qed.

Lemma lxor_byte_u32 c b : is_u32 c -> is_byte b -> is_u32 (Z.lxor c b).
Proof. intros. apply (lxor_bound 32); unfold is_u32, is_byte in *; lia. Qed.

Lemma crc32_step_u32 c b : is_u32 c -> is_byte b -> is_u32 (crc32_step c b).
Proof.
  intros. rewrite crc32_step_bits8 by done. by apply crc32_bits8_u32, lxor_byte_u32.
Qed.

(** One step loses no information: neither the register nor the byte. *)
Lemma crc32_step_inj c c' b b' :
  is_u32 c -> is_u32 c' -> is_byte b -> is_byte b' ->
  crc32_step c b = crc32_step c' b' -> Z.lxor c b = Z.lxor c' b'.
Proof.
  intros Hc Hc' Hb Hb' H. rewrite !crc32_step_bits8 in H by done.
  apply Z.lxor_eq, crc32_bits8_zero.
  - apply (lxor_bound 32); [lia | |]; by apply lxor_byte_u32.
  - rewrite crc32_bits8_lxor, H. apply Z.lxor_nilpotent.
Qed.

Lemma lxor_cancel_l a b c : Z.lxor a b = Z.lxor a c -> b = c.
Proof.
  intros H. apply (f_equal (Z.lxor a)) in H.
  by rewrite <- !Z.lxor_assoc, !Z.lxor_nilpotent, !Z.lxor_0_l in H.
Qed.

Lemma lxor_cancel_r a b c : Z.lxor a c = Z.lxor b c -> a = b.
Proof. rewrite !(Z.lxor_comm _ c). apply lxor_cancel_l. Qed.

Lemma foldl_crc32_u32 l c : bytes_ok l -> is_u32 c -> is_u32 (foldl crc32_step c l).
Proof.
  intros Hl. revert c. induction Hl; simpl; [done |].
  intros c Hc. apply IHHl, crc32_step_u32; done.
Qed.

Lemma foldl_crc32_inj l c c' :
  bytes_ok l -> is_u32 c -> is_u32 c' ->
  foldl crc32_step c l = foldl crc32_step c' l -> c = c'.
Proof.
  intros Hl. revert c c'. induction Hl as [| b l Hb Hl IH]; simpl; [done |].
  intros c c' Hc Hc' H. apply IH in H; [| by apply crc32_step_u32 ..].
  apply crc32_step_inj in H; [| done ..]. by eapply lxor_cancel_r.
Qed.

(** Two messages that differ in one byte have different CRCs. *)
Lemma ota_crc32_one_byte crc pre a b post :
  is_u32 crc -> bytes_ok pre -> bytes_ok post -> is_byte a -> is_byte b ->
  ota_crc32 crc (pre ++ a :: post) = ota_crc32 crc (pre ++ b :: post) -> a = b.
Proof.
  intros Hc Hpre Hpost Ha Hb H. unfold ota_crc32 in H. apply lxor_cancel_r in H.
  rewrite !foldl_app in H. simpl in H.
  assert (Hs : is_u32 (foldl crc32_step (Z.lxor crc 0xFFFFFFFF) pre)).
  { apply foldl_crc32_u32; [done |]. apply (lxor_bound 32); unfold is_u32 in *; lia. }
  apply foldl_crc32_inj in H; [| done | by apply crc32_step_u32 ..].
  apply crc32_step_inj in H; [| done ..]. by eapply lxor_cancel_l.
Qed.

Lemma foldl_ext_Forall {A B} (P : B -> Prop) (f g : A -> B -> A) l c :
  (forall a b, P b -> f a b = g a b) -> Forall P l -> foldl f c l = foldl g c l.
Proof.
  intros Hfg Hl. revert c. induction Hl; simpl; [done |]. intros c. by rewrite Hfg, IHHl.
Qed.

(** Resuming from a returned CRC continues the same message. *)
Lemma ota_crc32_app crc l1 l2 :
  ota_crc32 crc (l1 ++ l2) = ota_crc32 (ota_crc32 crc l1) l2.
Proof.
  unfold ota_crc32. rewrite foldl_app.
  by rewrite (Z.lxor_assoc _ 0xFFFFFFFF), Z.lxor_nilpotent, Z.lxor_0_r.
Qed.

Lemma ota_crc32_u32 crc l : is_u32 crc -> bytes_ok l -> is_u32 (ota_crc32 crc l).
Proof.
  intros Hc Hl. unfold ota_crc32. apply (lxor_bound 32); [lia | | lia].
  apply foldl_crc32_u32; [done |]. apply (lxor_bound 32); unfold is_u32 in *; lia.
Qed.

(** *** CRC-16 *)

Lemma crc16_bit_lxor x y : crc16_bit (Z.lxor x y) = Z.lxor (crc16_bit x) (crc16_bit y).
Proof.
  unfold crc16_bit. rewrite Z.lxor_spec, Z.shiftl_lxor.
  destruct (Z.testbit x 15) eqn:?, (Z.testbit y 15) eqn:?; simpl; rewrite !u16_lxor; bitwise.
Qed.

Lemma crc16_bits8_lxor x y : crc16_bits8 (Z.lxor x y) = Z.lxor (crc16_bits8 x) (crc16_bits8 y).
Proof. unfold crc16_bits8. simpl. by rewrite !crc16_bit_lxor. Qed.

Lemma crc16_table_bits8 b :
  is_byte b -> crc16_table.[b] = crc16_bits8 (Z.shiftl b 8).
Proof.
  intros Hb. apply Z.eqb_eq. revert b Hb.
  apply (byte_cases (fun b => crc16_table.[b] =? crc16_bits8 (Z.shiftl b 8))).
  vm_compute. reflexivity.
Qed.

Lemma crc16_bits8_low b : is_byte b -> crc16_bits8 b = Z.shiftl b 8.
Proof.
  intros Hb. apply Z.eqb_eq. revert b Hb.
  apply (byte_cases (fun b => crc16_bits8 b =? Z.shiftl b 8)). vm_compute. reflexivity.
Qed.

Lemma crc16_table_u16 b : is_byte b -> is_u16 crc16_table.[b].
Proof.
  intros Hb. cut ((0 <=? crc16_table.[b]) && (crc16_table.[b] <? 0x10000) = true).
  { unfold is_u16. intros H. apply andb_prop in H as [??]. lia. }
  revert b Hb. apply (byte_cases (fun b => (0 <=? crc16_table.[b]) && (crc16_table.[b] <? 0x10000))).
  vm_compute. reflexivity.
Qed.

Lemma shiftr8_byte b : is_byte b -> Z.shiftr b 8 = 0.
Proof. unfold is_byte. intros. rewrite Z.shiftr_div_pow2 by lia. by apply Z.div_small. Qed.

Lemma shiftr8_u16 c : is_u16 c -> is_byte (Z.shiftr c 8).
Proof. unfold is_u16, is_byte. intros. rewrite Z.shiftr_div_pow2 by lia. simpl Z.pow. zlia. Qed.

Lemma land_ff_id b : is_byte b -> Z.land b 0xFF = b.
Proof. intros. change 0xFF with (Z.ones 8). rewrite Z.land_ones by lia. by apply u8_id. Qed.

Lemma lxor_byte x y : is_byte x -> is_byte y -> is_byte (Z.lxor x y).
Proof. intros. by apply (lxor_bound 8). Qed.

Lemma u16_shiftl8 c : u16 (Z.shiftl c 8) = Z.shiftl (Z.land c 0xFF) 8.
Proof.
  apply Z.bits_inj'. intros i Hi. rewrite u16_bits by done. destruct (Z.lt_ge_cases i 8).
  - rewrite !Z.shiftl_spec_low by lia. btauto.
  - rewrite !Z.shiftl_spec, Z.land_spec by lia. change 0xFF with (Z.ones 8).
    destruct (Z.ltb_spec i 16).
    + rewrite Z.ones_spec_low by lia. btauto.
    + rewrite Z.ones_spec_high by lia. btauto.
Qed.

Lemma crc16_step_bits8 c b :
  is_u16 c -> is_byte b -> crc16_step c b = crc16_bits8 (Z.lxor c (Z.shiftl b 8)).
Proof.
  intros Hc Hb. pose proof (shiftr8_u16 c Hc) as Hs. unfold crc16_step.
  rewrite land_ff_id, u16_lxor, (u16_id _ (crc16_table_u16 _ (lxor_byte _ _ Hs Hb)))
    by (by apply lxor_byte).
  rewrite crc16_table_bits8, Z.shiftl_lxor, crc16_bits8_lxor by (by apply lxor_byte).
  rewrite (split_byte c) at 3.
  rewrite !crc16_bits8_lxor, u16_shiftl8, (crc16_bits8_low (Z.land c 0xFF)) by auto with gd32.
  bitwise.
Qed.

Lemma crc16_bit_zero x : is_u16 x -> crc16_bit x = 0 -> x = 0.
Proof.
  unfold crc16_bit, is_u16. intros Hx H. destruct (Z.testbit x 15) eqn:E.
  - exfalso. apply (f_equal (fun v => Z.testbit v 0)) in H.
    rewrite u16_bits, Z.lxor_spec, Z.shiftl_spec_low in H by lia. by vm_compute in H.
  - assert (Hlt : x < 2 ^ 15).
    { destruct (Z.lt_ge_cases x (2 ^ 15)); [done |].
      assert (Z.testbit x 15 = true); [| congruence].
      replace x with (x - 2 ^ 15 + 1 * 2 ^ 15) by lia.
      rewrite Z.testbit_true by lia.
      rewrite Z.div_add by lia. rewrite Z.div_small by (simpl Z.pow in *; lia). done. }
    rewrite Z.shiftl_mul_pow2 in H by lia. unfold u16 in H. simpl Z.pow in *.
    rewrite Z.mod_small in H; lia.
Qed.

Lemma crc16_bit_u16 x : is_u16 (crc16_bit x).
Proof. unfold crc16_bit. case_match; apply u16_u16. Qed.

Lemma crc16_bits8_zero x : is_u16 x -> crc16_bits8 x = 0 -> x = 0.
Proof.
  unfold crc16_bits8; simpl Nat.iter. intros Hx H.
  repeat (apply crc16_bit_zero in H; [| apply crc16_bit_u16 || done]). done.
Qed.

Lemma crc16_step_u16 c b : is_u16 (crc16_step c b).
Proof. apply u16_u16. Qed.

Lemma shiftl8_byte_u16 b : is_byte b -> is_u16 (Z.shiftl b 8).
Proof. unfold is_byte, is_u16. rewrite Z.shiftl_mul_pow2 by lia. simpl Z.pow. lia. Qed.

Lemma lxor_u16 x y : is_u16 x -> is_u16 y -> is_u16 (Z.lxor x y).
Proof. intros. by apply (lxor_bound 16). Qed.

Lemma crc16_step_inj c c' b b' :
  is_u16 c -> is_u16 c' -> is_byte b -> is_byte b' ->
  crc16_step c b = crc16_step c' b' ->
  Z.lxor c (Z.shiftl b 8) = Z.lxor c' (Z.shiftl b' 8).
Proof.
  intros Hc Hc' Hb Hb' H. rewrite !crc16_step_bits8 in H by done.
  apply Z.lxor_eq, crc16_bits8_zero.
  - apply lxor_u16; apply lxor_u16; auto using shiftl8_byte_u16.
  - rewrite crc16_bits8_lxor, H. apply Z.lxor_nilpotent.
Qed.

Lemma foldl_crc16_u16 l c : is_u16 c -> is_u16 (foldl crc16_step c l).
Proof. revert c. induction l; simpl; [done |]. intros c Hc. apply IHl, crc16_step_u16. Qed.

Lemma crc16_u16 l : is_u16 (crc16_ccitt_false l).
Proof. apply foldl_crc16_u16. unfold is_u16; lia. Qed.
#[export] Hint Resolve crc16_u16 : gd32.

Lemma foldl_crc16_inj l c c' :
  bytes_ok l -> is_u16 c -> is_u16 c' ->
  foldl crc16_step c l = foldl crc16_step c' l -> c = c'.
Proof.
  intros Hl. revert c c'. induction Hl as [| b l Hb Hl IH]; simpl; [done |].
  intros c c' Hc Hc' H. apply IH in H; [| apply crc16_step_u16 ..].
  apply crc16_step_inj in H; [| done ..]. by eapply lxor_cancel_r.
Qed.

(** The framing CRC separates two frames that differ in one byte. *)
Lemma crc16_one_byte pre a b post :
  bytes_ok post -> is_byte a -> is_byte b ->
  crc16_ccitt_false (pre ++ a :: post) = crc16_ccitt_false (pre ++ b :: post) -> a = b.
Proof.
  intros Hpost Ha Hb H. unfold crc16_ccitt_false in H. rewrite !foldl_app in H. simpl in H.
  assert (Hs : is_u16 (foldl crc16_step 0xFFFF pre)).
  { apply foldl_crc16_u16. unfold is_u16; lia. }
  apply foldl_crc16_inj in H; [| done | apply crc16_step_u16 ..].
  apply crc16_step_inj in H; [| done ..]. apply lxor_cancel_l in H.
  rewrite !Z.shiftl_mul_pow2 in H by lia. lia.
Qed.

(** Appending a message's own CRC, high byte first, drives the register to zero. *)
Lemma crc16_self c :
  is_u16 c -> crc16_step (crc16_step c (Z.shiftr c 8)) (Z.land c 0xFF) = 0.
Proof.
  intros Hc. pose proof (shiftr8_u16 c Hc).
  rewrite (crc16_step_bits8 c) by done.
  replace (Z.lxor c (Z.shiftl (Z.shiftr c 8) 8)) with (Z.land c 0xFF).
  - rewrite crc16_bits8_low by auto with gd32.
    rewrite crc16_step_bits8 by auto using shiftl8_byte_u16, land_ff_byte.
    by rewrite Z.lxor_nilpotent.
  - rewrite (split_byte c) at 2. bitwise.
Qed.

(** ** The table-driven routines compute the bit-serial CRCs *)

(** C23. CRC-32: the table routine of [crc32.c] equals the shift-and-branch
    routine on every message. *)
Theorem ota_crc32_bitserial (crc : Z) (data : list Z) :
  bytes_ok data -> ota_crc32 crc data = crc32_bitserial crc data.
Proof.
  intros Hd. unfold ota_crc32, crc32_bitserial. f_equal.
  apply (foldl_ext_Forall is_byte); [| done]. intros. by apply crc32_step_bits8.
Qed.

(** The framing CRC: the table-driven [crc16_ccitt_false] computes the
    bit-serial CRC-16/CCITT-FALSE of every message. *)
Theorem crc16_bitserial_eq (buf : list Z) :
  bytes_ok buf -> crc16_ccitt_false buf = crc16_bitserial buf.
Proof.
  intros Hb. unfold crc16_ccitt_false, crc16_bitserial.
  assert (Hg : forall c, is_u16 c -> foldl crc16_step c buf =
                    foldl (fun c b => crc16_bits8 (Z.lxor c (Z.shiftl b 8))) c buf).
  { induction Hb as [| b l Hb Hl IH]; simpl; [done |]. intros c Hc.
    rewrite crc16_step_bits8 by done. rewrite <- crc16_step_bits8 at 1 by done.
    rewrite IH by apply crc16_step_u16. by rewrite crc16_step_bits8. }
  apply Hg. unfold is_u16; lia.
Qed.
