(* ===== verification/Wire.v ===== *)
(** * Wire constants: [src/protocol.h] and [src/bootloader/bootloader.h]

    Opcodes, status bytes, OTA error causes and size limits, as inductive
    types with their wire codes; decoding is the inverse of encoding. *)

From stdpp Require Import base tactics list numbers option.
From S2P Require Import Prelude.

(** ** Status byte *)

Inductive gd32_bridge_status :=
  | STATUS_OK
  | STATUS_INVAL
  | STATUS_NOT_READY
  | STATUS_BUSY
  | STATUS_TIMEOUT
  | STATUS_IO
  | STATUS_NOSUPPORT
  | STATUS_NOMEM
  | STATUS_OUT_OF_RANGE
  | STATUS_NO_PENDING.

#[export] Instance gd32_bridge_status_eq_dec : EqDecision gd32_bridge_status.
Proof. solve_decision. Defined.

Definition status_code (s : gd32_bridge_status) : Z :=
  match s with
  | STATUS_OK => 0x00
  | STATUS_INVAL => 0x01
  | STATUS_NOT_READY => 0x02
  | STATUS_BUSY => 0x03
  | STATUS_TIMEOUT => 0x04
  | STATUS_IO => 0x05
  | STATUS_NOSUPPORT => 0x06
  | STATUS_NOMEM => 0x07
  | STATUS_OUT_OF_RANGE => 0x08
  | STATUS_NO_PENDING => 0x80
  end.

(** ** Opcodes (a [uint8_t] on the wire) *)

Inductive gd32_bridge_cmd :=
  | CMD_PING
  | CMD_GET_VERSION
  | CMD_GET_BUILD_ID
  | CMD_RESET_REASON
  | CMD_GPIO_READ
  | CMD_GPIO_WRITE
  | CMD_PWM_SET
  | CMD_PWM_GET
  | CMD_PWM_CONFIGURE
  | CMD_ADC_READ
  | CMD_ADC_CONFIGURE
  | CMD_ADC_STREAM_BEGIN
  | CMD_ADC_STREAM_READ
  | CMD_ADC_STREAM_END
  | CMD_DA9292_STATUS_FORWARD
  | CMD_SE_RESET
  | CMD_BOOT_CONFIG
  | CMD_DAC_SET
  | CMD_DAC_GET
  | CMD_QENC_READ
  | CMD_QENC_RESET
  | CMD_COUNTER_READ
  | CMD_TRNG_READ
  | CMD_TMU_COMPUTE
  | CMD_ADC_STREAM_CONFIGURE_DSP
  | CMD_ADC_DSP_CHAIN_OPEN
  | CMD_ADC_DSP_STAGE_PUSH
  | CMD_ADC_DSP_CHAIN_BIND
  | CMD_ADC_SPECTRUM_READ
  | CMD_PWM_CAPTURE_BEGIN
  | CMD_PWM_CAPTURE_READ
  | CMD_PWM_CAPTURE_END
  | CMD_PWM_SINGLE_PULSE
  | CMD_TIMER_SYNC
  | CMD_POWER_MODE_SET
  | CMD_LINK_FEATURES
  | CMD_OTA_BEGIN
  | CMD_OTA_WRITE_CHUNK
  | CMD_OTA_VERIFY
  | CMD_OTA_COMMIT
  | CMD_OTA_ROLLBACK
  | CMD_OTA_GET_STATE
  | CMD_OTA_ABORT.

Definition cmd_code (c : gd32_bridge_cmd) : Z :=
  match c with
  | CMD_PING => 0x00
  | CMD_GET_VERSION => 0x01
  | CMD_GET_BUILD_ID => 0x02
  | CMD_RESET_REASON => 0x03
  | CMD_GPIO_READ => 0x10
  | CMD_GPIO_WRITE => 0x11
  | CMD_PWM_SET => 0x20
  | CMD_PWM_GET => 0x21
  | CMD_PWM_CONFIGURE => 0x22
  | CMD_ADC_READ => 0x30
  | CMD_ADC_CONFIGURE => 0x32
  | CMD_ADC_STREAM_BEGIN => 0x33
  | CMD_ADC_STREAM_READ => 0x34
  | CMD_ADC_STREAM_END => 0x35
  | CMD_DA9292_STATUS_FORWARD => 0x40
  | CMD_SE_RESET => 0x41
  | CMD_BOOT_CONFIG => 0x42
  | CMD_DAC_SET => 0x50
  | CMD_DAC_GET => 0x51
  | CMD_QENC_READ => 0x60
  | CMD_QENC_RESET => 0x61
  | CMD_COUNTER_READ => 0x70
  | CMD_TRNG_READ => 0x80
  | CMD_TMU_COMPUTE => 0x90
  | CMD_ADC_STREAM_CONFIGURE_DSP => 0x36
  | CMD_ADC_DSP_CHAIN_OPEN => 0x37
  | CMD_ADC_DSP_STAGE_PUSH => 0x38
  | CMD_ADC_DSP_CHAIN_BIND => 0x39
  | CMD_ADC_SPECTRUM_READ => 0x3A
  | CMD_PWM_CAPTURE_BEGIN => 0x23
  | CMD_PWM_CAPTURE_READ => 0x24
  | CMD_PWM_CAPTURE_END => 0x25
  | CMD_PWM_SINGLE_PULSE => 0x26
  | CMD_TIMER_SYNC => 0x27
  | CMD_POWER_MODE_SET => 0x28
  | CMD_LINK_FEATURES => 0x81
  | CMD_OTA_BEGIN => 0xF0
  | CMD_OTA_WRITE_CHUNK => 0xF1
  | CMD_OTA_VERIFY => 0xF2
  | CMD_OTA_COMMIT => 0xF3
  | CMD_OTA_ROLLBACK => 0xF4
  | CMD_OTA_GET_STATE => 0xF5
  | CMD_OTA_ABORT => 0xF6
  end.

Definition all_cmds : list gd32_bridge_cmd :=
  [CMD_PING; CMD_GET_VERSION; CMD_GET_BUILD_ID; CMD_RESET_REASON; CMD_GPIO_READ; CMD_GPIO_WRITE; CMD_PWM_SET; CMD_PWM_GET; CMD_PWM_CONFIGURE; CMD_ADC_READ; CMD_ADC_CONFIGURE; CMD_ADC_STREAM_BEGIN; CMD_ADC_STREAM_READ; CMD_ADC_STREAM_END; CMD_DA9292_STATUS_FORWARD; CMD_SE_RESET; CMD_BOOT_CONFIG; CMD_DAC_SET; CMD_DAC_GET; CMD_QENC_READ; CMD_QENC_RESET; CMD_COUNTER_READ; CMD_TRNG_READ; CMD_TMU_COMPUTE; CMD_ADC_STREAM_CONFIGURE_DSP; CMD_ADC_DSP_CHAIN_OPEN; CMD_ADC_DSP_STAGE_PUSH; CMD_ADC_DSP_CHAIN_BIND; CMD_ADC_SPECTRUM_READ; CMD_PWM_CAPTURE_BEGIN; CMD_PWM_CAPTURE_READ; CMD_PWM_CAPTURE_END; CMD_PWM_SINGLE_PULSE; CMD_TIMER_SYNC; CMD_POWER_MODE_SET; CMD_LINK_FEATURES; CMD_OTA_BEGIN; CMD_OTA_WRITE_CHUNK; CMD_OTA_VERIFY; CMD_OTA_COMMIT; CMD_OTA_ROLLBACK; CMD_OTA_GET_STATE; CMD_OTA_ABORT].

(** The opcode a byte names, if any. *)
Definition cmd_of_code (b : Z) : option gd32_bridge_cmd :=
  List.find (fun c => cmd_code c =? b) all_cmds.

(** ** OTA error causes ([OTA_GET_STATE]'s last reply byte) *)

Definition BRIDGE_OTA_ERR_NONE : Z := 0x00.
Definition BRIDGE_OTA_ERR_SESSION_RANGE : Z := 0x01.
Definition BRIDGE_OTA_ERR_ERASE_FAILED : Z := 0x02.
Definition BRIDGE_OTA_ERR_CHUNK_RANGE : Z := 0x03.
Definition BRIDGE_OTA_ERR_PROGRAM_FAILED : Z := 0x04.
Definition BRIDGE_OTA_ERR_VERIFY_CRC : Z := 0x05.
Definition BRIDGE_OTA_ERR_COMMIT_FAILED : Z := 0x06.
Definition BRIDGE_OTA_ERR_ERASE_TARGET : Z := 0x07.
Definition BRIDGE_OTA_ERR_NOT_TRIAL_CAPABLE : Z := 0x08.
Definition BRIDGE_OTA_ERR_META_DEMOTE_FAILED : Z := 0x09.
Definition BRIDGE_OTA_ERR_BELOW_FLOOR : Z := 0x0A.

(** ** Limits and versions *)

Definition GD32_BRIDGE_ADC_MAX_SAMPLES : Z := 8.
Definition GD32_BRIDGE_BUILD_ID_LEN : Z := 20.
Definition PROTOCOL_VERSION_MAJOR : Z := 0.
Definition PROTOCOL_VERSION_MINOR : Z := 14.
Definition PROTOCOL_VERSION_PATCH : Z := 1.
Definition GD32_BRIDGE_LINK_FEAT_STATUS_SEQ : Z := 0x01.
Definition GD32_BRIDGE_STATUS_CODE_MASK : Z := 0x0F.
Definition GD32_BRIDGE_STATUS_SEQ_SHIFT : Z := 4.
Definition GD32_BRIDGE_ADC_STREAM_COUNT : Z := 2.
Definition GD32_BRIDGE_ADC_STREAM_READ_MAX : Z := 32.
Definition GD32_BRIDGE_ADC_SPECTRUM_READ_MAX : Z := 14.
Definition GD32_BRIDGE_MAX_PAYLOAD_BYTES : Z :=
  1 + (if GD32_BRIDGE_ADC_MAX_SAMPLES <? GD32_BRIDGE_ADC_STREAM_READ_MAX
       then GD32_BRIDGE_ADC_STREAM_READ_MAX else GD32_BRIDGE_ADC_MAX_SAMPLES) * 2.
Definition BRIDGE_TMU_FN__COUNT : Z := 12.
Definition BRIDGE_TMU_FMT__COUNT : Z := 2.

Inductive gd32_bridge_link := GD32_BRIDGE_LINK_SPI | GD32_BRIDGE_LINK_I2C.

#[export] Instance gd32_bridge_link_eq_dec : EqDecision gd32_bridge_link.
Proof. solve_decision. Defined.

(** A dispatch result: the status, and the reply payload when the handler set
    [*reply_len] ([None] leaves the caller's initial 0 in place). *)
Definition reply : Type := gd32_bridge_status * option (list Z).
Definition reply_payload (r : reply) : list Z := default [] r.2.

(** What every reply satisfies: it fits the caller's buffer and the wire limit,
    only STATUS_OK carries a payload, and the I2C-only sentinel is never a
    dispatch result. *)
Record reply_ok (cap : Z) (r : reply) : Prop := {
  ro_cap : 0 < Z.of_nat (length (reply_payload r)) -> Z.of_nat (length (reply_payload r)) <= cap;
  ro_max : Z.of_nat (length (reply_payload r)) <= GD32_BRIDGE_MAX_PAYLOAD_BYTES;
  ro_err : r.1 <> STATUS_OK -> reply_payload r = [];
  ro_status : r.1 <> STATUS_NO_PENDING }.

(** ** Proof support *)

Lemma status_code_inj s s' : status_code s = status_code s' -> s = s'.
Proof. by destruct s, s'. Qed.

(** Every status the SPI link can carry fits the four code bits. *)
Lemma status_code_low s : s <> STATUS_NO_PENDING -> 0 <= status_code s <= GD32_BRIDGE_STATUS_CODE_MASK.
Proof. destruct s; unfold GD32_BRIDGE_STATUS_CODE_MASK; simpl; [lia .. | done]. Qed.

Lemma cmd_of_cmd_code c : cmd_of_code (cmd_code c) = Some c.
Proof. by destruct c. Qed.

Lemma cmd_of_code_some b c : cmd_of_code b = Some c -> cmd_code c = b.
Proof. unfold cmd_of_code. intros H. apply List.find_some in H as [_ H]. lia. Qed.
