(* ===== verification/OtaLayout.v ===== *)
(** * Flash layout and on-flash structures: [src/ota_layout.h]

    The slot map, the 44-byte A/B metadata record with its little-endian
    serialisation, the version floor, the boot-candidate selection, the
    bootability check of an image's first two words, and the trial-marker
    scan, with the facts about them both the bootloader ([BootDecide]) and the
    application ([Ota]) rest on. *)

From stdpp Require Import base tactics list numbers option.
From S2P Require Import Prelude Crc.

(** ** Slot map *)

Definition OTA_PAGE_SIZE : Z := 0x800.
Definition OTA_BOOTLOADER_BASE : Z := 0x08000000.
Definition OTA_BOOTLOADER_SIZE : Z := 0x8000.
Definition OTA_META_BASE : Z := 0x08008000.
Definition OTA_META_SIZE : Z := 0x2000.
Definition OTA_SLOT_A_BASE : Z := 0x0800A000.
Definition OTA_SLOT_B_BASE : Z := 0x08040000.
Definition OTA_SLOT_SIZE : Z := 0x36000.
Definition OTA_FMC_BANK1_BASE : Z := 0x08040000.
Definition OTA_CONFIG_REC0 : Z := 0x08076000.
Definition OTA_CONFIG_REC1 : Z := 0x08076800.
Definition OTA_FLASH_END : Z := 0x08080000.
Definition OTA_META_REC0 : Z := OTA_META_BASE + 0 * OTA_PAGE_SIZE.
Definition OTA_META_REC1 : Z := OTA_META_BASE + 1 * OTA_PAGE_SIZE.
Definition OTA_SLOT_A : Z := 0.
Definition OTA_SLOT_B : Z := 1.

(** The header's [_Static_assert]s. *)
Example layout_static_asserts :
  OTA_SLOT_A_BASE + OTA_SLOT_SIZE <= OTA_FMC_BANK1_BASE /\
  OTA_FMC_BANK1_BASE <= OTA_SLOT_B_BASE /\
  OTA_SLOT_A_BASE + OTA_SLOT_SIZE <= OTA_SLOT_B_BASE /\
  OTA_SLOT_B_BASE + OTA_SLOT_SIZE <= OTA_FLASH_END /\
  OTA_SLOT_B_BASE + OTA_SLOT_SIZE <= OTA_CONFIG_REC0 /\
  OTA_CONFIG_REC0 + OTA_PAGE_SIZE <= OTA_CONFIG_REC1 /\
  OTA_CONFIG_REC1 + OTA_PAGE_SIZE <= OTA_FLASH_END.
Proof. repeat split; vm_compute; discriminate. Qed.

(** ** The metadata record *)

Definition OTA_META_MAGIC : Z := 0x4F544D31.
Definition OTA_META_STRUCT_VER : Z := 2.
Definition OTA_META_FLAG_TRIAL : Z := 1.
Definition OTA_META_COUNTER_LIMIT : Z := 0xFFFFFFF0.
Definition OTA_META_BEGIN_MAX_COUNTER : Z := OTA_META_COUNTER_LIMIT - 3.

Record ota_meta_record := Meta {
  magic : Z;
  struct_version : Z;
  counter : Z;
  active_slot : Z;
  slot_valid : Z;
  flags : Z;
  pad1 : Z;
  fw_version : Z * Z;
  img_len : Z * Z;
  img_crc32 : Z * Z;
  rec_crc32 : Z }.

(** Element [slot] of a per-slot array, and its update. *)
Definition aget (a : Z * Z) (slot : Z) : Z := if slot =? 0 then a.1 else a.2.
Definition aset (a : Z * Z) (slot v : Z) : Z * Z :=
  if slot =? 0 then (v, a.2) else (a.1, v).

(** The record's on-flash image: fields in order, at the asserted offsets. *)
Definition meta_body (r : ota_meta_record) : list Z :=
  put32 (magic r) ++ put32 (struct_version r) ++ put32 (counter r) ++
  [active_slot r; slot_valid r; flags r; pad1 r] ++
  put32 (fw_version r).1 ++ put32 (fw_version r).2 ++
  put32 (img_len r).1 ++ put32 (img_len r).2 ++
  put32 (img_crc32 r).1 ++ put32 (img_crc32 r).2.
Definition meta_bytes (r : ota_meta_record) : list Z := meta_body r ++ put32 (rec_crc32 r).

(** [memcpy] of 44 flash bytes into a record. *)
Definition meta_of_bytes (l : list Z) : ota_meta_record :=
  Meta (le32 l) (le32 (drop 4 l)) (le32 (drop 8 l))
       l.[12] l.[13] l.[14] l.[15]
       (le32 (drop 16 l), le32 (drop 20 l))
       (le32 (drop 24 l), le32 (drop 28 l))
       (le32 (drop 32 l), le32 (drop 36 l))
       (le32 (drop 40 l)).

(** [ota_crc32(0, r, offsetof(rec_crc32))]. *)
Definition meta_crc (r : ota_meta_record) : Z := ota_crc32 0 (meta_body r).

Definition sizeof_meta : nat := 44.
Definition offsetof_rec_crc32 : nat := 40.

(** Every field within its width. *)
Record meta_ok (r : ota_meta_record) : Prop := {
  mo_magic : is_u32 (magic r);
  mo_ver : is_u32 (struct_version r);
  mo_counter : is_u32 (counter r);
  mo_active : is_byte (active_slot r);
  mo_valid : is_byte (slot_valid r);
  mo_flags : is_byte (flags r);
  mo_pad : is_byte (pad1 r);
  mo_fw0 : is_u32 (fw_version r).1; mo_fw1 : is_u32 (fw_version r).2;
  mo_len0 : is_u32 (img_len r).1; mo_len1 : is_u32 (img_len r).2;
  mo_crc0 : is_u32 (img_crc32 r).1; mo_crc1 : is_u32 (img_crc32 r).2;
  mo_rec : is_u32 (rec_crc32 r) }.

Definition is_trial (r : ota_meta_record) : bool :=
  negb (Z.land (flags r) OTA_META_FLAG_TRIAL =? 0).

(** ** [ota_slot_base_checked], [ota_version_floor] *)

Definition ota_slot_base_checked (slot : Z) : option Z :=
  if slot =? OTA_SLOT_A then Some OTA_SLOT_A_BASE
  else if slot =? OTA_SLOT_B then Some OTA_SLOT_B_BASE
  else None.

Definition ota_version_floor (r : ota_meta_record) : Z :=
  if negb (active_slot r =? OTA_SLOT_A) && negb (active_slot r =? OTA_SLOT_B) then 0
  else
    let src := if is_trial r then Z.lxor (active_slot r) 1 else active_slot r in
    aget (fw_version r) src.

(** ** Boot-candidate selection *)

Definition ota_boot_candidate_ok (r : ota_meta_record) (wdt_fired : bool) : bool :=
  negb (is_trial r && wdt_fired).

(** One [for] loop of [ota_boot_select]: the first index from [i] on whose
    candidate satisfies [p]. *)
Fixpoint select_pass (p : ota_meta_record -> bool -> bool)
    (cands : list (ota_meta_record * bool)) (i : nat) : option nat :=
  match cands with
  | [] => None
  | (r, valid) :: rest => if p r valid then Some i else select_pass p rest (S i)
  end.

(** The winning index ([None] for the C's [-1]) and [*last_resort_out].
    [cands] pairs the C's [cands[i]] and [valid[i]], [i < n]. *)
Definition ota_boot_select (cands : list (ota_meta_record * bool)) (wdt_fired : bool)
    : option nat * bool :=
  match select_pass (fun r v => v && ota_boot_candidate_ok r wdt_fired) cands 0 with
  | Some i => (Some i, false)
  | None =>
      match select_pass (fun r v => v && negb (ota_boot_candidate_ok r wdt_fired)) cands 0 with
      | Some i => (Some i, true)
      | None => (None, false)
      end
  end.

(** ** Bootability of an image *)

Definition OTA_IMG_MIN_LEN : Z := 8.
Definition OTA_SRAM_BASE : Z := 0x20000000.
Definition OTA_SRAM_END : Z := 0x20018000.

(** [img] is [None] for a null pointer, otherwise the [len] readable bytes. *)
Definition ota_image_bootable (base : Z) (img : option (list Z)) (len : Z) : bool :=
  match img with
  | None => false
  | Some img =>
      if len <? OTA_IMG_MIN_LEN then false
      else
        let msp := le32 img in
        let reset := le32 (drop 4 img) in
        if negb (Z.land msp 3 =? 0) then false
        else if (msp <? OTA_SRAM_BASE) || (OTA_SRAM_END <? msp) then false
        else if Z.land reset 1 =? 0 then false
        else
          let reset_addr := Z.land reset 0xFFFFFFFE in
          if (reset_addr <? base) || (u32 (base + len) <=? reset_addr) then false
          else true
  end.

(** ** Trial marker *)

Definition OTA_TRIAL_MARKER_MAGIC_BYTES : list Z :=
  [0x47; 0x44; 0x33; 0x32; 0x42; 0x52; 0x49; 0x44;
   0x47; 0x45; 0x2D; 0x54; 0x52; 0x49; 0x41; 0x4C].
Definition OTA_TRIAL_MARKER_STRUCT_VER : Z := 1.
Definition OTA_TRIAL_CAP_CONFIRM : Z := 1.
Definition OTA_TRIAL_SCAN_LIMIT : Z := 2048.
Definition OTA_TRIAL_MARKER_MIN_OFFSET : Z := 64.
Definition sizeof_trial_marker : Z := 20.

Definition ota_trial_rd_u16 (p : list Z) : Z := u16 (le16 p).

(** [memcmp(&img[off], magic, 16) == 0]. *)
Definition marker_magic_at (img : list Z) (off : Z) : bool :=
  bool_decide (take 16 (drop (Z.to_nat off) img) = OTA_TRIAL_MARKER_MAGIC_BYTES).

(** The scan loop; [fuel] bounds its iterations. *)
Fixpoint trial_scan (fuel : nat) (img : list Z) (limit off : Z) : bool :=
  match fuel with
  | O => false
  | S fuel =>
      if off + sizeof_trial_marker <=? limit then
        if marker_magic_at img off then
          if negb (ota_trial_rd_u16 (drop (Z.to_nat (off + 16)) img) =? OTA_TRIAL_MARKER_STRUCT_VER)
          then false
          else negb (Z.land (ota_trial_rd_u16 (drop (Z.to_nat (off + 18)) img))
                            OTA_TRIAL_CAP_CONFIRM =? 0)
        else trial_scan fuel img limit (off + 4)
      else false
  end.

(** The loop runs at most [(2048 - 20 - 64) / 4 + 1 = 492] times. *)
Definition TRIAL_SCAN_FUEL : nat := 493.

Definition ota_image_trial_capable (img : option (list Z)) (len : Z) : bool :=
  match img with
  | None => false
  | Some img =>
      let limit := if len <? OTA_TRIAL_SCAN_LIMIT then len else OTA_TRIAL_SCAN_LIMIT in
      if limit <? sizeof_trial_marker then false
      else trial_scan TRIAL_SCAN_FUEL img limit OTA_TRIAL_MARKER_MIN_OFFSET
  end.

(** ** Proof support: the record's bytes *)

Lemma length_put32 v : length (put32 v) = 4%nat.
Proof. done. Qed.

Lemma length_meta_body r : length (meta_body r) = 40%nat.
Proof. done. Qed.
Lemma length_meta_bytes r : length (meta_bytes r) = sizeof_meta.
Proof. done. Qed.

Lemma meta_body_ok r : meta_ok r -> bytes_ok (meta_body r).
Proof.
  intros []. unfold meta_body. rewrite !Forall_app. repeat split; auto with gd32.
Qed.

Lemma meta_bytes_ok r : meta_ok r -> bytes_ok (meta_bytes r).
Proof.
  intros. apply Forall_app. split; [by apply meta_body_ok | apply put32_ok].
Qed.

Lemma take_meta_bytes r : take offsetof_rec_crc32 (meta_bytes r) = meta_body r.
Proof. done. Qed.

(** Reading back a written record gives the record. *)
Lemma meta_of_meta_bytes r : meta_ok r -> meta_of_bytes (meta_bytes r) = r.
Proof.
  intros []. destruct r as [? ? ? ? ? ? ? [] [] [] ?]; simpl in *.
  unfold meta_of_bytes, meta_bytes, meta_body; cbn [magic struct_version counter active_slot
    slot_valid flags pad1 fw_version img_len img_crc32 rec_crc32 fst snd].
  f_equal; try reflexivity; repeat f_equal.
  all: lazymatch goal with
       | |- le32 (put32 ?v ++ _) = _ => by apply le32_put32
       | |- le32 ?l = ?v => change (le32 (put32 v ++ drop 4 l) = v); by apply le32_put32
       end.
Qed.

Lemma put32_le32_drop (l : list Z) n :
  bytes_ok l -> (n + 4 <= length l)%nat -> put32 (le32 (drop n l)) = take 4 (drop n l).
Proof.
  intros Hl Hn. assert (Hd : bytes_ok (drop n l)) by by apply Forall_drop.
  assert (4 <= length (drop n l))%nat by (rewrite length_drop; lia).
  destruct (drop n l) as [| a [| b [| c [| d k]]]]; simpl in *; try lia.
  change (put32 (le32 [a; b; c; d]) = [a; b; c; d]). apply put32_le32.
  by apply (Forall_take _ 4) in Hd.
Qed.

Lemma le32_bytes l n : bytes_ok l -> is_u32 (le32 (drop n l)).
Proof. intros. by apply le32_range, Forall_drop. Qed.
#[export] Hint Resolve le32_bytes : gd32.

Lemma meta_of_bytes_ok l : bytes_ok l -> meta_ok (meta_of_bytes l).
Proof.
  intros H. split; simpl; auto with gd32. by apply le32_range.
Qed.

Lemma meta_body_of_bytes l :
  bytes_ok l -> length l = sizeof_meta ->
  meta_body (meta_of_bytes l) = take offsetof_rec_crc32 l.
Proof.
  intros Hl Hlen. unfold meta_body, meta_of_bytes; simpl fst; simpl snd; simpl magic.
  unfold sizeof_meta in Hlen.
  assert (H0 : le32 l = le32 (drop 0 l)) by done.
  cbn [struct_version counter active_slot slot_valid flags pad1 fw_version img_len img_crc32 fst snd].
  rewrite H0, !put32_le32_drop by (done || lia).
  do 44 (destruct l as [| ? l]; [done |]). destruct l; [reflexivity | done].
Qed.

(** Every 44-byte string is the image of exactly the record it decodes to. *)
Lemma meta_bytes_of_bytes l :
  bytes_ok l -> length l = sizeof_meta -> meta_bytes (meta_of_bytes l) = l.
Proof.
  intros Hl Hlen. unfold meta_bytes. rewrite meta_body_of_bytes by done.
  cbn [rec_crc32 meta_of_bytes]. rewrite put32_le32_drop by (done || (rewrite Hlen; unfold sizeof_meta; lia)).
  rewrite (take_ge (drop 40 l)) by (rewrite length_drop, Hlen; unfold sizeof_meta; lia).
  apply take_drop.
Qed.

(** ** Proof support: slots *)

Lemma slot_base_inv slot base :
  ota_slot_base_checked slot = Some base ->
  (slot = 0 /\ base = OTA_SLOT_A_BASE) \/ (slot = 1 /\ base = OTA_SLOT_B_BASE).
Proof.
  unfold ota_slot_base_checked, OTA_SLOT_A, OTA_SLOT_B.
  repeat case_match; intros; simplify_eq; lia.
Qed.

Lemma slot_base_none slot :
  ota_slot_base_checked slot = None <-> slot <> 0 /\ slot <> 1.
Proof.
  unfold ota_slot_base_checked, OTA_SLOT_A, OTA_SLOT_B.
  repeat case_match; split; intros; simplify_eq; done || lia.
Qed.

Lemma aget_aset_eq a s v : aget (aset a s v) s = v.
Proof. unfold aget, aset. destruct a. by case_match. Qed.

Lemma aget_aset_ne a s t v :
  (s = 0 \/ s = 1) -> (t = 0 \/ t = 1) -> s <> t -> aget (aset a s v) t = aget a t.
Proof. unfold aget, aset. destruct a; intros [-> | ->] [-> | ->]; done. Qed.

(** ** Proof support: selection *)

Lemma select_pass_some p cands i k :
  select_pass p cands i = Some k <->
  exists j r v, k = (i + j)%nat /\ cands !! j = Some (r, v) /\ p r v = true /\
    (forall j' r' v', (j' < j)%nat -> cands !! j' = Some (r', v') -> p r' v' = false).
Proof.
  revert i. induction cands as [| [r v] cands IH]; intros i; simpl.
  { split; [done |]. by intros (j & ? & ? & _ & ? & _). }
  destruct (p r v) eqn:E.
  - split.
    + intros [= <-]. exists 0%nat, r, v. repeat split; [lia | done | lia].
    + intros (j & r' & v' & -> & Hj & Hp & Hmin). destruct j; [f_equal; lia |].
      rewrite (Hmin 0%nat r v) in E by (done || lia). done.
  - rewrite IH. split.
    + intros (j & r' & v' & -> & Hj & Hp & Hmin). exists (S j), r', v'.
      repeat split; [lia | done | done |]. intros [| j'] r'' v'' Hlt Hl; simplify_eq/=; [done |].
      eapply Hmin; [| done]. lia.
    + intros (j & r' & v' & -> & Hj & Hp & Hmin). destruct j as [| j]; simplify_eq/=; [congruence |].
      exists j, r', v'. repeat split; [lia | done | done |].
      intros j' r'' v'' Hlt Hl. apply (Hmin (S j')); [lia | done].
Qed.

Lemma select_pass_none p cands i :
  select_pass p cands i = None <-> forall r v, (r, v) ∈ cands -> p r v = false.
Proof.
  revert i. induction cands as [| [r v] cands IH]; intros i; simpl.
  { split; [| done]. intros _ r v H. by apply not_elem_of_nil in H. }
  destruct (p r v) eqn:E.
  - split; [done |]. intros H. rewrite (H r v) in E; [done |]. by apply list_elem_of_here.
  - rewrite IH. split; intros H r' v' Hin.
    + apply elem_of_cons in Hin as [[= -> ->] | Hin]; auto.
    + apply H. by apply list_elem_of_further.
Qed.

(** [ota_boot_select] returns an index of a valid candidate; it prefers the
    first candidate the trial gate accepts and falls back to the first valid
    one only when the gate rejects every valid candidate. *)
Lemma ota_boot_select_some cands wdt i lr :
  ota_boot_select cands wdt = (Some i, lr) ->
  exists r, cands !! i = Some (r, true) /\
    lr = negb (ota_boot_candidate_ok r wdt) /\
    (forall j r' v', (j < i)%nat -> cands !! j = Some (r', v') ->
       v' = false \/ ota_boot_candidate_ok r' wdt = lr) /\
    (lr = true -> forall r' v', (r', v') ∈ cands -> v' = true ->
       ota_boot_candidate_ok r' wdt = false).
Proof.
  unfold ota_boot_select. destruct (select_pass _ cands 0) eqn:E1; intros H.
  - simplify_eq. apply select_pass_some in E1 as (j & r & v & -> & Hj & Hp & Hmin).
    apply andb_prop in Hp as [-> Hok]. exists r. rewrite Hok. repeat split; [done | | done].
    intros j' r' v' Hlt Hl. apply (Hmin j' r' v') in Hl; [| lia].
    destruct v'; simpl in *; auto.
  - destruct (select_pass _ cands 0) eqn:E2 in H; simplify_eq.
    apply select_pass_some in E2 as (j & r & v & -> & Hj & Hp & Hmin).
    apply andb_prop in Hp as [-> Hok]. exists r. rewrite Hok. repeat split; [done | |].
    + intros j' r' v' Hlt Hl. apply (Hmin j' r' v') in Hl; [| lia].
      destruct v'; simpl in *; [right | by left]. by destruct (ota_boot_candidate_ok r' wdt).
    + intros _ r' v' Hin ->. rewrite select_pass_none in E1. by apply E1 in Hin.
Qed.

Lemma ota_boot_select_none cands wdt lr :
  ota_boot_select cands wdt = (None, lr) <->
  lr = false /\ forall r v, (r, v) ∈ cands -> v = false.
Proof.
  unfold ota_boot_select. destruct (select_pass _ cands 0) eqn:E1.
  { split; [done |]. intros [_ Hall].
    apply select_pass_some in E1 as (j & r & v & -> & Hj & Hp & _).
    apply list_elem_of_lookup_2, Hall in Hj as ->. done. }
  destruct (select_pass (fun r v => v && negb (ota_boot_candidate_ok r wdt)) cands 0) eqn:E2.
  { split; [done |]. intros [_ Hall].
    apply select_pass_some in E2 as (j & r & v & -> & Hj & Hp & _).
    apply list_elem_of_lookup_2, Hall in Hj as ->. done. }
  pose proof (proj1 (select_pass_none _ _ _) E1) as H1.
  pose proof (proj1 (select_pass_none _ _ _) E2) as H2.
  split; [| by intros [-> _]].
  intros [= <-]. split; [done |]. intros r v Hin. specialize (H1 _ _ Hin). specialize (H2 _ _ Hin).
  destruct v; [| done]. simpl in *. by rewrite H1 in H2.
Qed.

(** ** Proof support: bootability *)

Lemma ota_image_bootable_spec base img len :
  is_u32 (base + len) ->
  ota_image_bootable base (Some img) len = true <->
  OTA_IMG_MIN_LEN <= len /\
  Z.land (le32 img) 3 = 0 /\ OTA_SRAM_BASE <= le32 img <= OTA_SRAM_END /\
  Z.land (le32 (drop 4 img)) 1 <> 0 /\
  base <= Z.land (le32 (drop 4 img)) 0xFFFFFFFE < base + len.
Proof.
  intros Hw. unfold ota_image_bootable. rewrite u32_id by done.
  repeat (case_match; simpl in * ); split; intros; try done; try lia.
Qed.

(** ** Proof support: the trial-marker scan *)

(** The verdict of the scan on the marker found at [off]. *)
Definition marker_confirm_at (img : list Z) (off : Z) : bool :=
  (ota_trial_rd_u16 (drop (Z.to_nat (off + 16)) img) =? OTA_TRIAL_MARKER_STRUCT_VER) &&
  negb (Z.land (ota_trial_rd_u16 (drop (Z.to_nat (off + 18)) img)) OTA_TRIAL_CAP_CONFIRM =? 0).

Lemma trial_scan_spec fuel img limit off :
  (limit - off < 4 * Z.of_nat fuel + sizeof_trial_marker) ->
  trial_scan fuel img limit off = true <->
  exists k, 0 <= k /\ off + 4 * k + sizeof_trial_marker <= limit /\
    marker_magic_at img (off + 4 * k) = true /\ marker_confirm_at img (off + 4 * k) = true /\
    (forall j, 0 <= j < k -> marker_magic_at img (off + 4 * j) = false).
Proof.
  revert off. induction fuel as [| fuel IH]; intros off Hf; simpl.
  { split; [done |]. intros (k & ? & ? & _). lia. }
  destruct (Z.leb_spec (off + sizeof_trial_marker) limit) as [Hle | Hgt].
  2: { split; [done |]. intros (k & ? & ? & _). lia. }
  destruct (marker_magic_at img off) eqn:Em.
  - transitivity (marker_confirm_at img off = true).
    { unfold marker_confirm_at. by destruct (_ =? OTA_TRIAL_MARKER_STRUCT_VER). }
    split.
    + intros Hc. exists 0. rewrite Z.mul_0_r, Z.add_0_r. repeat split; try done; lia.
    + intros (k & Hk & Hlim & _ & Hc & Hmin).
      destruct (Z.eq_dec k 0) as [-> |]; [by rewrite Z.mul_0_r, Z.add_0_r in Hc |].
      specialize (Hmin 0). rewrite Z.mul_0_r, Z.add_0_r in Hmin. rewrite Hmin in Em by lia. done.
  - rewrite IH by lia. split.
    + intros (k & Hk & Hlim & Hm & Hc & Hmin). exists (k + 1).
      replace (off + 4 * (k + 1)) with (off + 4 + 4 * k) by lia.
      repeat split; try done; try lia. intros j Hj.
      destruct (Z.eq_dec j 0) as [-> |]; [by rewrite Z.mul_0_r, Z.add_0_r |].
      replace (off + 4 * j) with (off + 4 + 4 * (j - 1)) by lia. apply Hmin. lia.
    + intros (k & Hk & Hlim & Hm & Hc & Hmin).
      destruct (Z.eq_dec k 0) as [-> |]; [rewrite Z.mul_0_r, Z.add_0_r in Hm; congruence |].
      exists (k - 1). replace (off + 4 + 4 * (k - 1)) with (off + 4 * k) by lia.
      repeat split; try done; try lia. intros j Hj.
      replace (off + 4 + 4 * j) with (off + 4 * (j + 1)) by lia. apply Hmin. lia.
Qed.
