(* ===== verification/Flash.v ===== *)
(** * The flash seam: [src/fmc_ota.h] and [hal/fmc_ota_guard.h]

    [FlashHal] is the interface [ota.c], [boot_config.c] and the bootloader
    call; [FlashLaws] is what they may rely on in every state, [FlashHealthy]
    what they may rely on while no FMC error occurs.  [FmcOta] proves the laws
    of the register-level implementation; [plain_flash] below is a byte-array
    memory that has them too, for evaluation. *)

From stdpp Require Import base tactics list numbers option.
From S2P Require Import Prelude OtaLayout.

Inductive ota_fmc_result :=
  | OTA_FMC_RESULT_OK
  | OTA_FMC_RESULT_ERROR
  | OTA_FMC_RESULT_TIMEOUT.

#[export] Instance ota_fmc_result_eq_dec : EqDecision ota_fmc_result.
Proof. solve_decision. Defined.

(** The partitioned build's [-DBRIDGE_APP_SLOT_BASE]: one of the two slots
    ([ota.c] has an [#error] for anything else). *)
Variant app_build := SlotABuild | SlotBBuild.
Definition BRIDGE_APP_SLOT_BASE (b : app_build) : Z :=
  match b with SlotABuild => OTA_SLOT_A_BASE | SlotBBuild => OTA_SLOT_B_BASE end.
Definition OTA_RUNNING_SLOT (b : app_build) : Z :=
  if BRIDGE_APP_SLOT_BASE b =? OTA_SLOT_A_BASE then OTA_SLOT_A else OTA_SLOT_B.
Definition OTA_RUNNING_SLOT_BASE (b : app_build) : Z := BRIDGE_APP_SLOT_BASE b.
Definition OTA_RUNNING_SLOT_END (b : app_build) : Z := OTA_RUNNING_SLOT_BASE b + OTA_SLOT_SIZE.
Definition UINT32_MAX : Z := 0xFFFFFFFF.

(** The erase/program guard of a partitioned build. *)
Definition ota_fmc_range_forbidden (b : app_build) (base len : Z) : bool :=
  if UINT32_MAX - base <? len then true
  else
    let end_ := base + len in
    if (base <? OTA_BOOTLOADER_BASE + OTA_BOOTLOADER_SIZE) && (OTA_BOOTLOADER_BASE <? end_)
    then true
    else if (base <? OTA_RUNNING_SLOT_END b) && (OTA_RUNNING_SLOT_BASE b <? end_) then true
    else false.

(** The seam.  [F] is the state of the flash and its controller. *)
Class FlashHal (F : Type) := {
  ota_fmc_supported : bool;
  ota_fmc_erase_range : F -> Z -> Z -> F * ota_fmc_result;
  ota_fmc_program : F -> Z -> list Z -> F * ota_fmc_result;
  flash_byte : F -> Z -> Z;  (* what a load through [ota_fmc_flash_ptr] returns *)
  ota_fmc_funnel_busy : F -> bool;
  ota_fmc_config_write_safe : F -> bool;
  ota_fmc_read_safe : F -> Z -> nat -> option (list Z);
  ota_fault_loop_clear : F -> F }.

(** The readable bytes behind [ota_fmc_flash_ptr(addr)]. *)
Definition ota_fmc_flash_ptr `{FlashHal F} (f : F) (addr : Z) (len : nat) : list Z :=
  bytes_at (flash_byte f) addr len.

(** Programming works in 8-byte doublewords: a short tail is padded. *)
Definition round8 (n : Z) : Z := 8 * ((n + 7) / 8).

Definition flash_same `{FlashHal F} (f f' : F) : Prop :=
  forall a, flash_byte f' a = flash_byte f a.
(** [f'] differs from [f] at most inside [[base, base + len)]. *)
Definition flash_frame `{FlashHal F} (f f' : F) (base len : Z) : Prop :=
  forall a, ~ (base <= a < base + len) -> flash_byte f' a = flash_byte f a.

(** A range of the 512 KB flash; every caller stays inside it. *)
Definition in_flash (base len : Z) : Prop :=
  OTA_BOOTLOADER_BASE <= base /\ 0 <= len /\ base + len <= OTA_FLASH_END.

(** What holds of every call on flash addresses, failures included. *)
Class FlashLaws (F : Type) `{FlashHal F} (b : app_build) : Prop := {
  fl_byte (f : F) a : is_byte (flash_byte f a);
  fl_erase_frame (f : F) base len :
    in_flash base len -> flash_frame f (ota_fmc_erase_range f base len).1 base len;
  fl_erase_ok (f : F) base len a :
    in_flash base len ->
    (ota_fmc_erase_range f base len).2 = OTA_FMC_RESULT_OK -> base <= a < base + len ->
    flash_byte (ota_fmc_erase_range f base len).1 a = 0xFF;
  fl_erase_forbidden (f : F) base len :
    ota_fmc_range_forbidden b base len = true ->
    flash_same f (ota_fmc_erase_range f base len).1 /\
    (ota_fmc_erase_range f base len).2 <> OTA_FMC_RESULT_OK;
  fl_program_frame (f : F) addr data :
    in_flash addr (round8 (Z.of_nat (length data))) ->
    flash_frame f (ota_fmc_program f addr data).1 addr (round8 (Z.of_nat (length data)));
  fl_program_ok (f : F) addr data :
    in_flash addr (round8 (Z.of_nat (length data))) -> bytes_ok data ->
    (forall a, addr <= a < addr + round8 (Z.of_nat (length data)) -> flash_byte f a = 0xFF) ->
    (ota_fmc_program f addr data).2 = OTA_FMC_RESULT_OK ->
    bytes_at (flash_byte (ota_fmc_program f addr data).1) addr (length data) = data;
  fl_program_forbidden (f : F) addr data :
    ota_fmc_range_forbidden b addr (Z.of_nat (length data)) = true ->
    flash_same f (ota_fmc_program f addr data).1 /\
    (ota_fmc_program f addr data).2 <> OTA_FMC_RESULT_OK;
  fl_program_aligned (f : F) addr data :
    addr mod 8 <> 0 -> flash_same f (ota_fmc_program f addr data).1;
  fl_read_safe (f : F) addr n l :
    ota_fmc_read_safe f addr n = Some l -> l = bytes_at (flash_byte f) addr n;
  (* neither call changes what a safe read elsewhere returns *)
  fl_erase_read (f : F) base len addr n :
    in_flash base len -> (addr + Z.of_nat n <= base \/ base + len <= addr) ->
    ota_fmc_read_safe (ota_fmc_erase_range f base len).1 addr n = ota_fmc_read_safe f addr n;
  fl_program_read (f : F) base data addr n :
    in_flash base (round8 (Z.of_nat (length data))) ->
    (addr + Z.of_nat n <= base \/ base + round8 (Z.of_nat (length data)) <= addr) ->
    ota_fmc_read_safe (ota_fmc_program f base data).1 addr n = ota_fmc_read_safe f addr n;
  fl_fault_clear (f : F) : flash_same f (ota_fault_loop_clear f) }.

(** Availability: in a healthy state a legal operation succeeds and leaves the
    controller healthy.  Only theorems that promise success assume it. *)
Class FlashHealthy (F : Type) `{FlashHal F} (b : app_build) (healthy : F -> Prop) : Prop := {
  fh_supported : @ota_fmc_supported F _ = true;
  fh_not_busy (f : F) : healthy f -> ota_fmc_funnel_busy f = false;
  fh_erase (f : F) base len :
    healthy f -> in_flash base len -> base mod OTA_PAGE_SIZE = 0 -> len mod OTA_PAGE_SIZE = 0 ->
    ota_fmc_range_forbidden b base len = false ->
    (ota_fmc_erase_range f base len).2 = OTA_FMC_RESULT_OK /\
    healthy (ota_fmc_erase_range f base len).1;
  fh_program (f : F) addr data :
    healthy f -> in_flash addr (round8 (Z.of_nat (length data))) -> addr mod 8 = 0 -> bytes_ok data ->
    ota_fmc_range_forbidden b addr (Z.of_nat (length data)) = false ->
    (forall a, addr <= a < addr + round8 (Z.of_nat (length data)) -> flash_byte f a = 0xFF) ->
    (ota_fmc_program f addr data).2 = OTA_FMC_RESULT_OK /\
    healthy (ota_fmc_program f addr data).1;
  fh_read_safe (f : F) addr n :
    healthy f -> addr mod 8 = 0 -> Z.of_nat n mod 8 = 0 ->
    ota_fmc_read_safe f addr n = Some (bytes_at (flash_byte f) addr n);
  fh_fault_clear (f : F) : healthy f -> healthy (ota_fault_loop_clear f) }.

(** ** Proof support *)

Lemma round8_ge n : n <= round8 n.
Proof. unfold round8. zlia. Qed.
Lemma round8_lt n : round8 n < n + 8.
Proof. unfold round8. zlia. Qed.
Lemma round8_mult n : round8 n mod 8 = 0.
Proof. unfold round8. zlia. Qed.

Lemma running_slot_cases b :
  (b = SlotABuild /\ OTA_RUNNING_SLOT b = 0 /\ OTA_RUNNING_SLOT_BASE b = OTA_SLOT_A_BASE) \/
  (b = SlotBBuild /\ OTA_RUNNING_SLOT b = 1 /\ OTA_RUNNING_SLOT_BASE b = OTA_SLOT_B_BASE).
Proof. destruct b; [left | right]; done. Qed.

Lemma running_slot_base b :
  ota_slot_base_checked (OTA_RUNNING_SLOT b) = Some (OTA_RUNNING_SLOT_BASE b).
Proof. by destruct b. Qed.

(** A range the guard lets through is disjoint from what it protects. *)
Lemma range_allowed b base len :
  ota_fmc_range_forbidden b base len = false <->
  base + len <= UINT32_MAX /\
  (OTA_BOOTLOADER_BASE + OTA_BOOTLOADER_SIZE <= base \/ base + len <= OTA_BOOTLOADER_BASE) /\
  (OTA_RUNNING_SLOT_END b <= base \/ base + len <= OTA_RUNNING_SLOT_BASE b).
Proof.
  unfold ota_fmc_range_forbidden. repeat case_match; split; intros; try done; try lia.
Qed.

(** The protected region: bootloader and running slot. *)
Definition protected (b : app_build) (a : Z) : Prop :=
  OTA_BOOTLOADER_BASE <= a < OTA_BOOTLOADER_BASE + OTA_BOOTLOADER_SIZE \/
  OTA_RUNNING_SLOT_BASE b <= a < OTA_RUNNING_SLOT_END b.

Lemma protected_aligned8 b base n :
  base mod 8 = 0 -> ota_fmc_range_forbidden b base n = false ->
  forall a, protected b a -> ~ (base <= a < base + round8 n).
Proof.
  intros Hal H a Hp Ha. apply range_allowed in H as (_ & H1 & H2).
  unfold protected, OTA_RUNNING_SLOT_END in *.
  pose proof (round8_lt n). pose proof (round8_mult n).
  destruct (running_slot_cases b) as [(-> & _ & Hb) | (-> & _ & Hb)]; rewrite Hb in *;
    unfold OTA_BOOTLOADER_BASE, OTA_BOOTLOADER_SIZE, OTA_SLOT_A_BASE, OTA_SLOT_B_BASE, OTA_SLOT_SIZE in *;
    unfold round8 in *; zlia.
Qed.

Section laws.
Context {F} `{FlashLaws F b}.

(** No erase or program call changes a protected byte, whatever it is asked. *)
Lemma erase_protected (f : F) base len a :
  in_flash base len -> protected b a -> flash_byte (ota_fmc_erase_range f base len).1 a = flash_byte f a.
Proof.
  intros Hin Hp. destruct (ota_fmc_range_forbidden b base len) eqn:E.
  - by apply fl_erase_forbidden.
  - apply fl_erase_frame; [done |]. apply range_allowed in E as (_ & ? & ?).
    unfold protected in Hp. lia.
Qed.

Lemma program_protected (f : F) addr data a :
  in_flash addr (round8 (Z.of_nat (length data))) -> protected b a -> flash_byte (ota_fmc_program f addr data).1 a = flash_byte f a.
Proof.
  intros Hin Hp. destruct (ota_fmc_range_forbidden b addr (Z.of_nat (length data))) eqn:E.
  - by apply fl_program_forbidden.
  - destruct (Z.eq_dec (addr mod 8) 0) as [Hal | Hal]; [| by apply fl_program_aligned].
    apply fl_program_frame; [done |]. by eapply protected_aligned8.
Qed.

Lemma flash_bytes_ok (f : F) a n : bytes_ok (bytes_at (flash_byte f) a n).
Proof. apply bytes_at_ok. intros. apply fl_byte. Qed.

Lemma bytes_at_frame (f f' : F) base len a n :
  flash_frame f f' base len ->
  (a + Z.of_nat n <= base \/ base + len <= a) ->
  bytes_at (flash_byte f') a n = bytes_at (flash_byte f) a n.
Proof. intros Hf Hd. apply bytes_at_ext. intros x Hx. apply Hf. lia. Qed.
End laws.

(** ** Power cuts

    [cut_flash F] is a flash that loses power inside one of its calls: it serves
    [cf_left] calls that reach the controller, and the one after them leaves
    anything at all ([cf_garbage]) in the range it was given.  What the firmware
    would have done next does not happen: later calls change nothing. *)
Record cut_flash (F : Type) := CutFlash {
  cf_flash : F; cf_left : nat; cf_garbage : Z -> Z;
  cf_dead : option (Z * Z) }.   (* the range the cut call was working on *)
Arguments CutFlash {F}.
Arguments cf_flash {F}.
Arguments cf_left {F}.
Arguments cf_garbage {F}.
Arguments cf_dead {F}.

Definition in_range (r : option (Z * Z)) (a : Z) : bool :=
  match r with Some (base, len) => (base <=? a) && (a <? base + len) | None => false end.

Section power_cut.
Context {F} `{FlashHal F} (b : app_build).

(** A call [op] on [base, base + len); [reaches] is false for a call the driver
    turns down before it touches the controller. *)
Definition cut_call (reaches : bool) (base len : Z) (op : F -> F * ota_fmc_result)
    (c : cut_flash F) : cut_flash F * ota_fmc_result :=
  let '(CutFlash f k g dead) := c in
  match dead with
  | Some _ => (c, OTA_FMC_RESULT_ERROR)
  | None =>
      if negb reaches then let '(f', r) := op f in (CutFlash f' k g None, r)
      else match k with
           | O => (CutFlash f O g (Some (base, len)), OTA_FMC_RESULT_ERROR)
           | S n => let '(f', r) := op f in (CutFlash f' n g None, r)
           end
  end.

Definition cut_byte (c : cut_flash F) (a : Z) : Z :=
  if in_range (cf_dead c) a then u8 (cf_garbage c a) else flash_byte (cf_flash c) a.

Definition cut_hal : FlashHal (cut_flash F) := {|
  ota_fmc_supported := @ota_fmc_supported F _;
  ota_fmc_erase_range c base len :=
    cut_call (negb (ota_fmc_range_forbidden b base len)) base len
      (fun f => ota_fmc_erase_range f base len) c;
  ota_fmc_program c addr data :=
    cut_call ((addr mod 8 =? 0) && negb (ota_fmc_range_forbidden b addr (Z.of_nat (length data))))
      addr (round8 (Z.of_nat (length data))) (fun f => ota_fmc_program f addr data) c;
  flash_byte := cut_byte;
  ota_fmc_funnel_busy c := ota_fmc_funnel_busy (cf_flash c);
  ota_fmc_config_write_safe c := ota_fmc_config_write_safe (cf_flash c);
  ota_fmc_read_safe c addr n :=
    if existsb (fun i => in_range (cf_dead c) (addr + Z.of_nat i)) (seq 0 n) then None
    else ota_fmc_read_safe (cf_flash c) addr n;
  ota_fault_loop_clear c :=
    match cf_dead c with
    | Some _ => c
    | None => CutFlash (ota_fault_loop_clear (cf_flash c)) (cf_left c) (cf_garbage c) None
    end |}.

(** The bytes after a call: those of the call, or of a cut inside its range. *)
Lemma cut_call_bytes reaches base len op c a :
  (forall f, ~ (base <= a < base + len) \/ reaches = false -> flash_byte (op f).1 a = flash_byte f a) ->
  ~ (base <= a < base + len) \/ reaches = false ->
  cut_byte (cut_call reaches base len op c).1 a = cut_byte c a.
Proof.
  intros Hop Ha. specialize (fun f => Hop f Ha). destruct c as [f k g [d |]]; simpl; [done |].
  destruct reaches; simpl.
  - destruct k; simpl; unfold cut_byte; simpl; [case_match; [lia | done] |].
    specialize (Hop f). by destruct (op f).
  - specialize (Hop f). by destruct (op f).
Qed.

Lemma cut_call_ok reaches base len op c :
  (cut_call reaches base len op c).2 = OTA_FMC_RESULT_OK ->
  cf_dead c = None /\ (op (cf_flash c)).2 = OTA_FMC_RESULT_OK /\
  forall a, cut_byte (cut_call reaches base len op c).1 a = flash_byte (op (cf_flash c)).1 a.
Proof.
  destruct c as [f k g [d |]]; simpl; [done |].
  destruct reaches; simpl; [destruct k; simpl; [done |] |]; by destruct (op f).
Qed.

Lemma cut_call_read reaches base len op c addr n :
  (forall f, ota_fmc_read_safe (op f).1 addr n = ota_fmc_read_safe f addr n) ->
  (addr + Z.of_nat n <= base \/ base + len <= addr) ->
  @ota_fmc_read_safe _ cut_hal (cut_call reaches base len op c).1 addr n =
  @ota_fmc_read_safe _ cut_hal c addr n.
Proof.
  intros Hop Hd.
  assert (Hs : existsb (fun i => in_range (Some (base, len)) (addr + Z.of_nat i)) (seq 0 n) = false).
  { apply not_true_is_false. rewrite existsb_exists. intros (i & Hi%in_seq & Hr). simpl in Hr. lia. }
  destruct c as [f k g [d |]]; simpl; [done |].
  assert (Hn : existsb (fun _ => false) (seq 0 n) = false) by (clear; by induction (seq 0 n)).
  specialize (Hop f). destruct reaches; simpl; [destruct k |]; cbn -[in_range].
  - rewrite Hs. simpl. by rewrite Hn.
  - destruct (op f); simpl in *. by rewrite Hn.
  - destruct (op f); simpl in *. by rewrite Hn.
Qed.

Lemma cut_laws `{!FlashLaws F b} : @FlashLaws _ cut_hal b.
Proof.
  split; cbn [flash_byte ota_fmc_erase_range ota_fmc_program ota_fault_loop_clear cut_hal];
    unfold flash_frame, flash_same; cbn [flash_byte cut_hal].
  - intros c a. unfold cut_byte. case_match; [apply u8_byte | apply fl_byte].
  - intros c base len Hin a Ha. apply cut_call_bytes; [| by left].
    intros f _. by apply fl_erase_frame.
  - intros c base len a Hin (_ & Hok & ->)%cut_call_ok Ha. by apply fl_erase_ok.
  - intros c base len Hf. split.
    + intros a. apply cut_call_bytes; [| right; by rewrite Hf]. intros f _. by apply fl_erase_forbidden.
    + intros (_ & Hok & _)%cut_call_ok. revert Hok. by apply fl_erase_forbidden.
  - intros c addr data Hin a Ha. apply cut_call_bytes; [| by left].
    intros f _. by apply fl_program_frame.
  - intros c addr data Hin Hd He (Hn & Hok & Hb)%cut_call_ok.
    rewrite (bytes_at_ext _ (flash_byte (ota_fmc_program (cf_flash c) addr data).1)) by (intros; apply Hb).
    apply fl_program_ok; [done | done | | done].
    intros a Ha. specialize (He a Ha). unfold cut_byte in He. by rewrite Hn in He.
  - intros c addr data Hf. split.
    + intros a. apply cut_call_bytes; [| right; by rewrite Hf, andb_false_r].
      intros f _. by apply fl_program_forbidden.
    + intros (_ & Hok & _)%cut_call_ok. revert Hok. by apply fl_program_forbidden.
  - intros c addr data Hal a. apply cut_call_bytes; [| right; by rewrite (proj2 (Z.eqb_neq _ _) Hal)].
    intros f _. by apply fl_program_aligned.
  - intros c addr n l. cbn [ota_fmc_read_safe cut_hal]. destruct (existsb _ _) eqn:E; [done |].
    intros ->%fl_read_safe. apply bytes_at_ext. intros a Ha. unfold cut_byte.
    destruct (in_range (cf_dead c) a) eqn:Ei; [| done]. exfalso.
    apply not_true_iff_false in E. apply E, existsb_exists. exists (Z.to_nat (a - addr)).
    split; [apply in_seq; lia |]. by replace (addr + Z.of_nat (Z.to_nat (a - addr))) with a by lia.
  - intros c base len addr n Hin Hd. apply cut_call_read; [| done]. intros f. by apply fl_erase_read.
  - intros c base data addr n Hin Hd. apply cut_call_read; [| done]. intros f. by apply fl_program_read.
  - intros c a. unfold cut_byte. destruct c as [f k g [d |]]; simpl; [done |]. by apply fl_fault_clear.
Qed.
End power_cut.

(** ** A plain memory with the laws *)

Record plain_flash := PlainFlash { pf_mem : Z -> Z; pf_busy : bool; pf_fault_loops : Z }.

Section plain.
Variable b : app_build.

Definition pf_erased (f : plain_flash) (addr n : Z) : bool :=
  forallb (fun i => pf_mem f (addr + Z.of_nat i) =? 0xFF) (seq 0 (Z.to_nat n)).

Definition pf_erase_range (f : plain_flash) (base len : Z) : plain_flash * ota_fmc_result :=
  if negb (base mod OTA_PAGE_SIZE =? 0) || negb (len mod OTA_PAGE_SIZE =? 0)
     || ota_fmc_range_forbidden b base len || pf_busy f
  then (f, OTA_FMC_RESULT_ERROR)
  else (PlainFlash (fun a => if (base <=? a) && (a <? base + len) then 0xFF else pf_mem f a)
          (pf_busy f) (pf_fault_loops f), OTA_FMC_RESULT_OK).

Definition pf_program (f : plain_flash) (addr : Z) (data : list Z)
    : plain_flash * ota_fmc_result :=
  let n := Z.of_nat (length data) in
  if negb (addr mod 8 =? 0) || ota_fmc_range_forbidden b addr n || pf_busy f
     || negb (pf_erased f addr (round8 n))
  then (f, OTA_FMC_RESULT_ERROR)
  else (PlainFlash (fun a => if (addr <=? a) && (a <? addr + n) then u8 data.[a - addr] else pf_mem f a)
          (pf_busy f) (pf_fault_loops f), OTA_FMC_RESULT_OK).

Definition plain_hal : FlashHal plain_flash := {|
  ota_fmc_supported := true;
  ota_fmc_erase_range := pf_erase_range;
  ota_fmc_program := pf_program;
  flash_byte f a := u8 (pf_mem f a);
  ota_fmc_funnel_busy := pf_busy;
  ota_fmc_config_write_safe _ := OTA_RUNNING_SLOT_BASE b <? OTA_FMC_BANK1_BASE;
  ota_fmc_read_safe f a n :=
    if (a mod 8 =? 0) && (Z.of_nat n mod 8 =? 0)
    then Some (bytes_at (fun x => u8 (pf_mem f x)) a n) else None;
  ota_fault_loop_clear f := PlainFlash (pf_mem f) (pf_busy f) 0 |}.

Lemma plain_laws : @FlashLaws plain_flash plain_hal b.
Proof.
  split; cbn [flash_byte ota_fmc_erase_range ota_fmc_program ota_fmc_read_safe
              ota_fault_loop_clear plain_hal]; unfold flash_frame, flash_same;
    cbn [flash_byte plain_hal].
  - intros. apply u8_byte.
  - intros f base len _ a Ha. unfold pf_erase_range.
    destruct (_ || _); simpl; [done |]. case_match; [lia | done].
  - intros f base len a _. unfold pf_erase_range.
    destruct (_ || _); simpl; [done |]. intros. case_match; [done | lia].
  - intros f base len Hf. unfold pf_erase_range. rewrite Hf, orb_true_r; simpl. done.
  - intros f addr data _ a Ha. unfold pf_program.
    pose proof (round8_ge (Z.of_nat (length data))).
    destruct (_ || _); simpl; [done |]. case_match; [lia | done].
  - intros f addr data _ Hd He. unfold pf_program. destruct (_ || _); simpl; [done |].
    intros _. apply bytes_at_eq. intros i Hi.
    case_match; [| lia]. replace (addr + i - addr) with i by lia.
    rewrite !u8_id; auto with gd32.
  - intros f addr data Hf. unfold pf_program. rewrite Hf, orb_true_r; simpl. done.
  - intros f addr data Hf. unfold pf_program.
    destruct (Z.eqb_spec (addr mod 8) 0); [done |]. simpl. done.
  - intros f addr n l. case_match; intros; simplify_eq. done.
  - intros f base len addr n _ Hd. unfold pf_erase_range. destruct (_ || _); simpl; [done |].
    case_match; [| done]. f_equal. apply bytes_at_ext. intros a Ha. case_match; [lia | done].
  - intros f base data addr n _ Hd. unfold pf_program. destruct (_ || _); simpl; [done |].
    pose proof (round8_ge (Z.of_nat (length data))).
    case_match; [| done]. f_equal. apply bytes_at_ext. intros a Ha. case_match; [lia | done].
  - done.
Qed.

Definition plain_healthy (f : plain_flash) : Prop := pf_busy f = false /\ forall a, is_byte (pf_mem f a).

Lemma plain_healthy_laws : @FlashHealthy plain_flash plain_hal b plain_healthy.
Proof.
  split; cbn [flash_byte ota_fmc_erase_range ota_fmc_program ota_fmc_read_safe
              ota_fault_loop_clear ota_fmc_funnel_busy ota_fmc_supported plain_hal].
  - done.
  - by intros f [].
  - intros f base len [Hb Hm] _ H1 H2 H3. unfold pf_erase_range.
    rewrite H1, H2, H3, Hb; simpl. split; [done |]. split; [done |]. intros a; simpl.
    case_match; [unfold is_byte; lia | done].
  - intros f addr data [Hb Hm] _ H1 Hd H3 He. unfold pf_program. rewrite H1, H3, Hb; simpl.
    replace (pf_erased f addr _) with true; simpl.
    + split; [done |]. split; [done |]. intros a; simpl.
      case_match; [apply u8_byte | done].
    + symmetry. apply forallb_forall. intros i Hi%in_seq.
      rewrite <- (u8_id _ (Hm _)), He by lia. done.
  - intros f addr n [Hb Hm] H1 H2. rewrite H1, H2. done.
  - by intros f [].
Qed.
End plain.
