(* ===== verification/FmcOta.v ===== *)
(** * The flash backend: [hal/fmc_ota.c]

    The register-level erase and program routines over the FMC peripheral: page
    and bank selection in both bank modes, bounded polling of FMC_STAT, the
    doubleword program loop with its padded tail, the address guard and the
    one-owner funnel.  The peripheral itself is a parameter with its documented
    behaviour as laws; the theorems are that these routines then provide the
    seam [Flash.FlashLaws] the OTA code is verified against. *)

From stdpp Require Import base tactics list numbers option.
From S2P Require Import Prelude OtaLayout Flash.

Definition OTA_FMC_PAGE_SIZE_DBANK : Z := 0x400.
Definition OTA_FMC_PAGE_SIZE_SBANK : Z := 0x800.
Definition OTA_FMC_ERASE_TIMEOUT_ITERS : Z := 2200000.
Definition OTA_FMC_PROGRAM_TIMEOUT_ITERS : Z := 9000.

Inductive fmc_state_enum :=
  | FMC_READY | FMC_BUSY | FMC_WPERR | FMC_PGERR | FMC_PGSERR | FMC_PGAERR
  | FMC_RPERR | FMC_PGMERR | FMC_OBERR | FMC_TOERR.

#[export] Instance fmc_state_eq_dec : EqDecision fmc_state_enum.
Proof. solve_decision. Defined.

(** The status-register bit masks (vendor header). *)
Record fmc_stat_bits := StatBits {
  FMC_STAT_BUSY : Z; FMC_STAT_WPERR : Z; FMC_STAT_PGERR : Z; FMC_STAT_PGSERR : Z;
  FMC_STAT_PGAERR : Z; FMC_STAT_RPERR : Z; FMC_STAT_PGMERR : Z; FMC_STAT_OBERR : Z }.

(** The FMC peripheral and the flash array behind it. *)
Class FmcHw (H : Type) := {
  hw_bits : fmc_stat_bits;
  hw_byte : H -> Z -> Z;
  hw_dbs : H -> bool;                          (* FMC_OBCTL.DBS *)
  hw_stat : H -> nat -> Z;                     (* successive reads of FMC_STAT *)
  hw_clear_errors : H -> H;                    (* FMC_STAT = error mask *)
  hw_erase : H -> bool -> Z -> H;              (* BKSEL, PNSEL, PER, START *)
  hw_program : H -> Z -> Z -> Z -> H;          (* PG, the two word stores *)
  hw_ecc_error : H -> Z -> nat -> bool;        (* a load in the range has a double-bit error *)
  hw_bkp7_clear : H -> H }.                    (* RTC_BKP7 = 0 *)

(** ** The routines *)

Section fmc.
Context {H : Type} `{FmcHw H}.
Variable b : app_build.

(** [s_fmc_owned] beside the hardware. *)
Record fmc := Fmc { fmc_hw : H; s_fmc_owned : bool }.

Definition bit_set (v mask : Z) : bool := negb (Z.land v mask =? 0).

(** One decode reads FMC_STAT once per test; [i] counts the reads so far. *)
Definition ota_fmc_state_now (st : nat -> Z) (i : nat) : fmc_state_enum * nat :=
  if bit_set (st i) (FMC_STAT_BUSY hw_bits) then (FMC_BUSY, i + 1)%nat
  else if bit_set (st (i + 1)%nat) (FMC_STAT_WPERR hw_bits) then (FMC_WPERR, i + 2)%nat
  else if bit_set (st (i + 2)%nat) (FMC_STAT_PGERR hw_bits) then (FMC_PGERR, i + 3)%nat
  else if bit_set (st (i + 3)%nat) (FMC_STAT_PGSERR hw_bits) then (FMC_PGSERR, i + 4)%nat
  else if bit_set (st (i + 4)%nat) (FMC_STAT_PGAERR hw_bits) then (FMC_PGAERR, i + 5)%nat
  else if bit_set (st (i + 5)%nat) (FMC_STAT_RPERR hw_bits) then (FMC_RPERR, i + 6)%nat
  else if bit_set (st (i + 6)%nat) (FMC_STAT_PGMERR hw_bits) then (FMC_PGMERR, i + 7)%nat
  else if bit_set (st (i + 7)%nat) (FMC_STAT_OBERR hw_bits) then (FMC_OBERR, i + 8)%nat
  else (FMC_READY, i + 8)%nat.

(** [do .. while (st == FMC_BUSY && timeout != 0)]; [timeout] iterations remain. *)
Fixpoint wait_loop (timeout : nat) (st : nat -> Z) (i : nat) : fmc_state_enum :=
  let '(s, i) := ota_fmc_state_now st i in
  match s, timeout with
  | FMC_BUSY, S timeout => wait_loop timeout st i
  | FMC_BUSY, O => FMC_TOERR
  | _, _ => s
  end.
Definition ota_fmc_wait_ready (timeout : Z) (st : nat -> Z) : fmc_state_enum :=
  wait_loop (Z.to_nat (timeout - 1)) st 0.

(** Bank and page number of an address. *)
Definition page_select (dual : bool) (addr : Z) : bool * Z :=
  if dual then
    let bank1 := OTA_FMC_BANK1_BASE <=? addr in
    (bank1, (addr - (if bank1 then OTA_FMC_BANK1_BASE else OTA_BOOTLOADER_BASE))
              / OTA_FMC_PAGE_SIZE_DBANK)
  else (false, (addr - OTA_BOOTLOADER_BASE) / OTA_FMC_PAGE_SIZE_SBANK).

Definition erase_one_page (h : H) (addr : Z) : H * fmc_state_enum :=
  let '(bank1, page) := page_select (hw_dbs h) addr in
  let h := hw_clear_errors h in
  let st := ota_fmc_wait_ready OTA_FMC_ERASE_TIMEOUT_ITERS (hw_stat h) in
  if negb (bool_decide (st = FMC_READY)) then (h, st)
  else
    let h := hw_erase h bank1 page in
    (h, ota_fmc_wait_ready OTA_FMC_ERASE_TIMEOUT_ITERS (hw_stat h)).

Definition program_one_dword (h : H) (addr : Z) (dw : list Z) : H * fmc_state_enum :=
  let h := hw_clear_errors h in
  let st := ota_fmc_wait_ready OTA_FMC_PROGRAM_TIMEOUT_ITERS (hw_stat h) in
  if negb (bool_decide (st = FMC_READY)) then (h, st)
  else
    let h := hw_program h addr (le32 dw) (le32 (drop 4 dw)) in
    (h, ota_fmc_wait_ready OTA_FMC_PROGRAM_TIMEOUT_ITERS (hw_stat h)).

Definition result_of (st : fmc_state_enum) : ota_fmc_result :=
  if bool_decide (st = FMC_TOERR) then OTA_FMC_RESULT_TIMEOUT else OTA_FMC_RESULT_ERROR.

Definition page_step (h : H) : Z :=
  if hw_dbs h then OTA_FMC_PAGE_SIZE_DBANK else OTA_FMC_PAGE_SIZE_SBANK.

(** [for (a = base; a < base + len; a += step)]; [fuel] bounds the pages. *)
Fixpoint erase_loop (fuel : nat) (h : H) (a end_ step : Z) : H * ota_fmc_result :=
  match fuel with
  | O => (h, OTA_FMC_RESULT_OK)
  | S fuel =>
      if a <? end_ then
        match erase_one_page h a with
        | (h, FMC_READY) => erase_loop fuel h (a + step) end_ step
        | (h, st) => (h, result_of st)
        end
      else (h, OTA_FMC_RESULT_OK)
  end.

(** Pages are at least 1 KB. *)
Definition erase_fuel (len : Z) : nat := Z.to_nat (len / OTA_FMC_PAGE_SIZE_DBANK).

(** The owner flag's test-and-set, and its release. *)
Definition fmc_funnel_claim (f : fmc) : fmc * bool :=
  let free_now := negb (s_fmc_owned f) in
  (if free_now then Fmc (fmc_hw f) true else f, free_now).
Definition fmc_funnel_release (f : fmc) : fmc := Fmc (fmc_hw f) false.
Definition on_hw {X} (g : H -> H * X) (f : fmc) : fmc * X :=
  let '(h, x) := g (fmc_hw f) in (Fmc h (s_fmc_owned f), x).

Definition fmc_erase_range (f : fmc) (base len : Z) : fmc * ota_fmc_result :=
  if negb (base mod OTA_PAGE_SIZE =? 0) || negb (len mod OTA_PAGE_SIZE =? 0)
  then (f, OTA_FMC_RESULT_ERROR)
  else if ota_fmc_range_forbidden b base len then (f, OTA_FMC_RESULT_ERROR)
  else
    let '(f, owner) := fmc_funnel_claim f in
    if negb owner then (f, OTA_FMC_RESULT_ERROR)
    else
      let step := page_step (fmc_hw f) in
      let '(f, r) := on_hw (fun h => erase_loop (erase_fuel len) h base (base + len) step) f in
      (fmc_funnel_release f, r).

(** The next doubleword: up to eight data bytes, padded with 0xFF. *)
Definition pad8 (data : list Z) : list Z := take 8 (take 8 data ++ replicate 8 0xFF).

(** [for (i = 0; i < len; i += 8)] over the remaining data. *)
Fixpoint program_loop (fuel : nat) (h : H) (addr : Z) (data : list Z) : H * ota_fmc_result :=
  match fuel with
  | O => (h, OTA_FMC_RESULT_OK)
  | S fuel =>
      match data with
      | [] => (h, OTA_FMC_RESULT_OK)
      | _ =>
          match program_one_dword h addr (pad8 data) with
          | (h, FMC_READY) => program_loop fuel h (addr + 8) (drop 8 data)
          | (h, st) => (h, result_of st)
          end
      end
  end.

Definition fmc_program (f : fmc) (addr : Z) (data : list Z) : fmc * ota_fmc_result :=
  if negb (addr mod 8 =? 0) then (f, OTA_FMC_RESULT_ERROR)
  else if ota_fmc_range_forbidden b addr (Z.of_nat (length data)) then (f, OTA_FMC_RESULT_ERROR)
  else
    let '(f, owner) := fmc_funnel_claim f in
    if negb owner then (f, OTA_FMC_RESULT_ERROR)
    else
      let '(f, r) := on_hw (fun h => program_loop (length data) h addr data) f in
      (fmc_funnel_release f, r).

Definition fmc_config_write_safe (f : fmc) : bool :=
  if negb (hw_dbs (fmc_hw f)) then false
  else if OTA_FMC_BANK1_BASE <=? OTA_RUNNING_SLOT_BASE b then false
  else true.

Definition fmc_read_safe (f : fmc) (addr : Z) (len : nat) : option (list Z) :=
  if negb (Z.land (Z.lor addr (Z.of_nat len)) 7 =? 0) then None
  else if hw_ecc_error (fmc_hw f) addr len then None
  else Some (bytes_at (hw_byte (fmc_hw f)) addr len).

Definition fmc_hal : FlashHal fmc := {|
  ota_fmc_supported := true;
  ota_fmc_erase_range := fmc_erase_range;
  ota_fmc_program := fmc_program;
  flash_byte f := hw_byte (fmc_hw f);
  ota_fmc_funnel_busy := s_fmc_owned;
  ota_fmc_config_write_safe := fmc_config_write_safe;
  ota_fmc_read_safe := fmc_read_safe;
  ota_fault_loop_clear f := Fmc (hw_bkp7_clear (fmc_hw f)) (s_fmc_owned f) |}.
End fmc.
Arguments fmc H : clear implicits.

(** ** The documented behaviour of the peripheral *)

(** The flash addresses of page [page] of a bank. *)
Definition page_base (dual bank1 : bool) (page : Z) : Z :=
  (if dual && bank1 then OTA_FMC_BANK1_BASE else OTA_BOOTLOADER_BASE) +
  page * (if dual then OTA_FMC_PAGE_SIZE_DBANK else OTA_FMC_PAGE_SIZE_SBANK).
Definition page_size (dual : bool) : Z :=
  if dual then OTA_FMC_PAGE_SIZE_DBANK else OTA_FMC_PAGE_SIZE_SBANK.

Class FmcHwLaws (H : Type) `{FmcHw H} : Prop := {
  hl_byte (h : H) a : is_byte (hw_byte h a);
  hl_clear (h : H) a : hw_byte (hw_clear_errors h) a = hw_byte h a;
  hl_clear_dbs (h : H) : hw_dbs (hw_clear_errors h) = hw_dbs h;
  hl_bkp7 (h : H) a : hw_byte (hw_bkp7_clear h) a = hw_byte h a;
  hl_clear_ecc (h : H) a n : hw_ecc_error (hw_clear_errors h) a n = hw_ecc_error h a n;
  (* a page erase changes that page only; PNSEL is an 8-bit field *)
  hl_erase_frame (h : H) bank1 page a :
    0 <= page < 256 ->
    ~ (page_base (hw_dbs h) bank1 page <= a < page_base (hw_dbs h) bank1 page + page_size (hw_dbs h)) ->
    hw_byte (hw_erase h bank1 page) a = hw_byte h a;
  hl_erase_ecc (h : H) bank1 page a n :
    0 <= page < 256 ->
    (a + Z.of_nat n <= page_base (hw_dbs h) bank1 page \/
     page_base (hw_dbs h) bank1 page + page_size (hw_dbs h) <= a) ->
    hw_ecc_error (hw_erase h bank1 page) a n = hw_ecc_error h a n;
  hl_erase_dbs (h : H) bank1 page : hw_dbs (hw_erase h bank1 page) = hw_dbs h;
  (* when BUSY clears without an error flag the page reads as erased *)
  hl_erase_ok (h : H) bank1 page timeout a :
    0 <= page < 256 ->
    ota_fmc_wait_ready timeout (hw_stat (hw_erase h bank1 page)) = FMC_READY ->
    page_base (hw_dbs h) bank1 page <= a < page_base (hw_dbs h) bank1 page + page_size (hw_dbs h) ->
    hw_byte (hw_erase h bank1 page) a = 0xFF;
  (* a doubleword program changes those eight bytes only *)
  hl_program_frame (h : H) addr lo hi a :
    ~ (addr <= a < addr + 8) -> hw_byte (hw_program h addr lo hi) a = hw_byte h a;
  hl_program_ecc (h : H) addr lo hi a n :
    (a + Z.of_nat n <= addr \/ addr + 8 <= a) ->
    hw_ecc_error (hw_program h addr lo hi) a n = hw_ecc_error h a n;
  hl_program_dbs (h : H) addr lo hi : hw_dbs (hw_program h addr lo hi) = hw_dbs h;
  hl_program_ok (h : H) addr lo hi timeout :
    is_u32 lo -> is_u32 hi -> (forall a, addr <= a < addr + 8 -> hw_byte h a = 0xFF) ->
    ota_fmc_wait_ready timeout (hw_stat (hw_program h addr lo hi)) = FMC_READY ->
    bytes_at (hw_byte (hw_program h addr lo hi)) addr 8 = put32 lo ++ put32 hi }.

(** A controller with no fault: every started operation ends within its poll
    budget with no error flag. *)
Class FmcHwHealthy (H : Type) `{FmcHw H} (hok : H -> Prop) : Prop := {
  hh_clear (h : H) : hok h -> hok (hw_clear_errors h);
  hh_idle (h : H) timeout :
    hok h -> 0 < timeout -> ota_fmc_wait_ready timeout (hw_stat (hw_clear_errors h)) = FMC_READY;
  hh_erase (h : H) bank1 page :
    hok h -> 0 <= page < 256 ->
    hok (hw_erase h bank1 page) /\
    ota_fmc_wait_ready OTA_FMC_ERASE_TIMEOUT_ITERS (hw_stat (hw_erase h bank1 page)) = FMC_READY;
  hh_program (h : H) addr lo hi :
    hok h -> is_u32 lo -> is_u32 hi -> addr mod 8 = 0 ->
    (forall a, addr <= a < addr + 8 -> hw_byte h a = 0xFF) ->
    hok (hw_program h addr lo hi) /\
    ota_fmc_wait_ready OTA_FMC_PROGRAM_TIMEOUT_ITERS (hw_stat (hw_program h addr lo hi)) = FMC_READY;
  hh_ecc (h : H) addr n : hok h -> hw_ecc_error h addr n = false;
  hh_bkp7 (h : H) : hok h -> hok (hw_bkp7_clear h) }.

(** ** Proof support *)

Section fmc_proofs.
Context {H} `{FmcHwLaws H}.
Variable b : app_build.

(** The page selected for an aligned flash address is the page at that address,
    and its number fits PNSEL. *)
Lemma page_select_base dual addr :
  OTA_BOOTLOADER_BASE <= addr < OTA_FLASH_END -> addr mod page_size dual = 0 ->
  let '(bank1, page) := page_select dual addr in
  page_base dual bank1 page = addr /\ 0 <= page < 256.
Proof.
  intros Ha Hal. unfold page_select, page_base, page_size, OTA_FMC_PAGE_SIZE_DBANK,
    OTA_FMC_PAGE_SIZE_SBANK, OTA_BOOTLOADER_BASE, OTA_FMC_BANK1_BASE, OTA_FLASH_END in *.
  destruct dual; [destruct (Z.leb_spec 0x08040000 addr) |]; simpl; zlia.
Qed.

(** One page: frame, mode, and the erased contents on success. *)
Lemma erase_one_page_spec h addr :
  OTA_BOOTLOADER_BASE <= addr < OTA_FLASH_END -> addr mod page_size (hw_dbs h) = 0 ->
  let x := erase_one_page h addr in
  hw_dbs x.1 = hw_dbs h /\
  (forall a, ~ (addr <= a < addr + page_size (hw_dbs h)) -> hw_byte x.1 a = hw_byte h a) /\
  (x.2 = FMC_READY -> forall a, addr <= a < addr + page_size (hw_dbs h) -> hw_byte x.1 a = 0xFF) /\
  (forall a n, (a + Z.of_nat n <= addr \/ addr + page_size (hw_dbs h) <= a) ->
     hw_ecc_error x.1 a n = hw_ecc_error h a n).
Proof.
  intros Ha Hal. pose proof (page_select_base (hw_dbs h) addr Ha Hal) as Hp.
  unfold erase_one_page. destruct (page_select (hw_dbs h) addr) as [bank1 page].
  destruct Hp as [Hp Hr]. case_bool_decide as Hst; simpl.
  - rewrite hl_erase_dbs, hl_clear_dbs. split; [done |]. split.
    + intros a Hn. rewrite hl_erase_frame; [apply hl_clear | done |]. by rewrite hl_clear_dbs, Hp.
    + split; [intros Hok a Hin; eapply hl_erase_ok; [done | exact Hok |]; by rewrite hl_clear_dbs, Hp |].
      intros a n Hn. rewrite hl_erase_ecc; [apply hl_clear_ecc | done |]. by rewrite hl_clear_dbs, Hp.
  - split; [apply hl_clear_dbs |]. split; [intros; apply hl_clear |]. split; [done |].
    intros; apply hl_clear_ecc.
Qed.

Lemma erase_loop_spec fuel : forall h a end_,
  OTA_BOOTLOADER_BASE <= a <= end_ -> end_ <= OTA_FLASH_END ->
  a mod page_size (hw_dbs h) = 0 -> end_ mod page_size (hw_dbs h) = 0 ->
  end_ - a <= Z.of_nat fuel * page_size (hw_dbs h) ->
  let x := erase_loop fuel h a end_ (page_size (hw_dbs h)) in
  hw_dbs x.1 = hw_dbs h /\
  (forall c, ~ (a <= c < end_) -> hw_byte x.1 c = hw_byte h c) /\
  (x.2 = OTA_FMC_RESULT_OK -> forall c, a <= c < end_ -> hw_byte x.1 c = 0xFF) /\
  (forall c n, (c + Z.of_nat n <= a \/ end_ <= c) -> hw_ecc_error x.1 c n = hw_ecc_error h c n).
Proof.
  induction fuel as [| fuel IH]; intros h a end_ Ha He Hal Hel Hf; simpl.
  { split; [done |]. split; [done |]. split; [intros _ c Hc; lia | done]. }
  destruct (Z.ltb_spec a end_) as [Hlt | Hge].
  2: { split; [done |]. split; [done |]. split; [intros _ c Hc; lia | done]. }
  pose proof (erase_one_page_spec h a ltac:(lia) Hal) as Hone. cbv zeta in Hone.
  assert (Hps : page_size (hw_dbs h) = 0x400 \/ page_size (hw_dbs h) = 0x800)
    by (unfold page_size; destruct (hw_dbs h); auto).
  assert (Hfit : a + page_size (hw_dbs h) <= end_) by (destruct Hps as [Hps | Hps]; rewrite Hps in *; zlia).
  destruct (erase_one_page h a) as [h1 st]; simpl in Hone. destruct Hone as (Hd & Hfr & Hok & Hecc).
  destruct (decide (st = FMC_READY)) as [-> | Hne].
  - specialize (IH h1 (a + page_size (hw_dbs h)) end_). rewrite Hd in IH.
    destruct IH as (Hd' & Hfr' & Hok' & Hecc'); try lia.
    { destruct Hps as [Hps | Hps]; rewrite Hps in *; zlia. }
    split; [done |]. split.
    + intros c Hc. rewrite Hfr' by lia. apply Hfr. lia.
    + split.
      * intros Hr c Hc. destruct (Z.lt_ge_cases c (a + page_size (hw_dbs h))).
        -- rewrite Hfr' by lia. apply Hok; [done | lia].
        -- apply Hok'; [done | lia].
      * intros c n Hc. rewrite Hecc' by lia. apply Hecc. lia.
  - assert (Hx : (match st with FMC_READY => erase_loop fuel h1 (a + page_size (hw_dbs h)) end_
                   (page_size (hw_dbs h)) | _ => (h1, result_of st) end) = (h1, result_of st))
      by (by destruct st).
    rewrite Hx. simpl. split; [done |]. split; [intros; apply Hfr; lia |].
    split; [unfold result_of; by case_bool_decide | intros; apply Hecc; lia].
Qed.

Lemma pad8_length data : length (pad8 data) = 8%nat.
Proof.
  unfold pad8. rewrite length_take, length_app, length_take, length_replicate. lia.
Qed.

Lemma pad8_ok data : bytes_ok data -> bytes_ok (pad8 data).
Proof.
  intros Hd. unfold pad8. apply Forall_take, Forall_app. split; [by apply Forall_take |].
  apply Forall_replicate. unfold is_byte. lia.
Qed.

Lemma pad8_take data : take (min 8 (length data)) (pad8 data) = take 8 data.
Proof.
  unfold pad8. rewrite take_take, take_app_le by (rewrite length_take; lia).
  rewrite take_take. rewrite (Nat.min_l (min 8 (length data)) 8) by lia.
  rewrite Nat.min_l by lia. destruct (Nat.le_ge_cases 8 (length data)).
  - by rewrite Nat.min_l.
  - by rewrite Nat.min_r, !take_ge by lia.
Qed.

Lemma dword_bytes dw :
  bytes_ok dw -> length dw = 8%nat -> put32 (le32 dw) ++ put32 (le32 (drop 4 dw)) = dw.
Proof.
  intros Hd Hl. rewrite <- (drop_0 dw) at 1.
  rewrite !put32_le32_drop by (done || lia).
  rewrite drop_0, (take_ge (drop 4 dw)) by (rewrite length_drop; lia). apply take_drop.
Qed.

Lemma program_one_dword_spec h addr dw :
  let x := program_one_dword h addr dw in
  (forall a, ~ (addr <= a < addr + 8) -> hw_byte x.1 a = hw_byte h a) /\
  (bytes_ok dw -> length dw = 8%nat -> (forall a, addr <= a < addr + 8 -> hw_byte h a = 0xFF) ->
   x.2 = FMC_READY -> bytes_at (hw_byte x.1) addr 8 = dw) /\
  (forall a n, (a + Z.of_nat n <= addr \/ addr + 8 <= a) -> hw_ecc_error x.1 a n = hw_ecc_error h a n).
Proof.
  unfold program_one_dword. case_bool_decide; simpl.
  - split.
    + intros a Ha. rewrite hl_program_frame by done. apply hl_clear.
    + split; [| intros a n Hn; rewrite hl_program_ecc by done; apply hl_clear_ecc].
      intros Hd Hl He Hok. transitivity (put32 (le32 dw) ++ put32 (le32 (drop 4 dw))).
      * apply (hl_program_ok _ _ _ _ OTA_FMC_PROGRAM_TIMEOUT_ITERS);
          [by apply le32_range | by apply le32_range, Forall_drop | | done].
        intros a Ha. rewrite hl_clear. by apply He.
      * by apply dword_bytes.
  - split; [intros; apply hl_clear |]. split; [done |]. intros; apply hl_clear_ecc.
Qed.

Lemma round8_step n : 0 < n -> round8 n = 8 + round8 (Z.max 0 (n - 8)).
Proof. unfold round8. intros. destruct (Z.max_spec 0 (n - 8)) as [[? ->] | [? ->]]; zlia. Qed.

Lemma program_loop_spec fuel : forall h addr data,
  (length data <= fuel * 8)%nat ->
  let x := program_loop fuel h addr data in
  (forall a, ~ (addr <= a < addr + round8 (Z.of_nat (length data))) -> hw_byte x.1 a = hw_byte h a) /\
  (bytes_ok data ->
   (forall a, addr <= a < addr + round8 (Z.of_nat (length data)) -> hw_byte h a = 0xFF) ->
   x.2 = OTA_FMC_RESULT_OK -> bytes_at (hw_byte x.1) addr (length data) = data) /\
  (forall a n, (a + Z.of_nat n <= addr \/ addr + round8 (Z.of_nat (length data)) <= a) ->
     hw_ecc_error x.1 a n = hw_ecc_error h a n).
Proof.
  induction fuel as [| fuel IH]; intros h addr data Hf; simpl.
  { destruct data; [done | simpl in Hf; lia]. }
  destruct data as [| d data]; [done |]. set (l := d :: data) in *.
  assert (Hlen : (0 < length l)%nat) by (simpl; lia). clearbody l. clear d data.
  pose proof (program_one_dword_spec h addr (pad8 l)) as Hone. cbv zeta in Hone.
  pose proof (round8_step (Z.of_nat (length l)) ltac:(lia)) as Hr8.
  assert (Hld : Z.of_nat (length (drop 8 l)) = Z.max 0 (Z.of_nat (length l) - 8)) by (rewrite length_drop; lia).
  destruct (program_one_dword h addr (pad8 l)) as [h1 st]; simpl in Hone. destruct Hone as (Hfr & Hok & Hecc).
  pose proof (round8_ge (Z.max 0 (Z.of_nat (length l) - 8))).
  destruct (decide (st = FMC_READY)) as [-> | Hne].
  - destruct (IH h1 (addr + 8) (drop 8 l)) as (Hfr' & Hok' & Hecc'); [rewrite length_drop; lia |].
    rewrite Hld in Hfr', Hok', Hecc'. cbv zeta in *. split.
    + intros a Ha. rewrite Hfr' by lia. apply Hfr. lia.
    + split; [| intros a n Hn; rewrite Hecc' by lia; apply Hecc; lia].
      intros Hd He Hr.
      assert (B1 : bytes_at (hw_byte h1) addr 8 = pad8 l).
      { apply Hok; [by apply pad8_ok | apply pad8_length | | done]. intros a Ha. apply He. lia. }
      assert (B2 : bytes_at (hw_byte (program_loop fuel h1 (addr + 8) (drop 8 l)).1) (addr + 8)
                     (length (drop 8 l)) = drop 8 l).
      { apply Hok'; [by apply Forall_drop | | done]. intros a Ha. rewrite Hfr by lia. apply He. lia. }
      assert (Hsplit : length l = (min 8 (length l) + length (drop 8 l))%nat) by (rewrite length_drop; lia).
      rewrite Hsplit, bytes_at_app. transitivity (take 8 l ++ drop 8 l); [f_equal | apply take_drop].
      * rewrite <- pad8_take, <- B1, take_bytes_at by lia. apply bytes_at_ext. intros a Ha.
        apply Hfr'. lia.
      * destruct (Nat.le_ge_cases 8 (length l)).
        -- rewrite Nat.min_l by done. exact B2.
        -- rewrite (drop_ge l 8) in * by lia. done.
  - assert (Hx : (match st with FMC_READY => program_loop fuel h1 (addr + 8) (drop 8 l)
                   | _ => (h1, result_of st) end) = (h1, result_of st)) by (by destruct st).
    rewrite Hx. simpl fst; simpl snd. split.
    + intros a Ha. apply Hfr. lia.
    + split; [unfold result_of; by case_bool_decide | intros a n Hn; apply Hecc; lia].
Qed.

Lemma page_size_div dual n : n mod OTA_PAGE_SIZE = 0 -> n mod page_size dual = 0.
Proof.
  unfold OTA_PAGE_SIZE, page_size, OTA_FMC_PAGE_SIZE_DBANK, OTA_FMC_PAGE_SIZE_SBANK.
  destruct dual; zlia.
Qed.

Lemma erase_fuel_enough dual base len :
  0 <= len -> len mod OTA_PAGE_SIZE = 0 ->
  base + len - base <= Z.of_nat (erase_fuel len) * page_size dual.
Proof.
  unfold OTA_PAGE_SIZE, erase_fuel, page_size, OTA_FMC_PAGE_SIZE_DBANK, OTA_FMC_PAGE_SIZE_SBANK.
  intros. destruct dual; zlia.
Qed.

(** The whole erase, whichever of its exits it takes. *)
Lemma fmc_erase_range_spec (f : fmc H) base len :
  let x := fmc_erase_range b f base len in
  (x = (f, OTA_FMC_RESULT_ERROR) \/
   ota_fmc_range_forbidden b base len = false /\ s_fmc_owned f = false /\ s_fmc_owned x.1 = false) /\
  (in_flash base len ->
   (forall a, ~ (base <= a < base + len) -> hw_byte (fmc_hw x.1) a = hw_byte (fmc_hw f) a) /\
   (x.2 = OTA_FMC_RESULT_OK -> forall a, base <= a < base + len -> hw_byte (fmc_hw x.1) a = 0xFF) /\
   (forall a n, (a + Z.of_nat n <= base \/ base + len <= a) ->
      hw_ecc_error (fmc_hw x.1) a n = hw_ecc_error (fmc_hw f) a n)).
Proof.
  unfold fmc_erase_range, fmc_funnel_claim, on_hw.
  destruct (negb _ || negb _) eqn:Hal; [split; [by left | done] |].
  destruct (ota_fmc_range_forbidden b base len) eqn:Hf; [split; [by left | done] |].
  destruct (s_fmc_owned f) eqn:Ho; simpl; [split; [by left | done] |].
  destruct (erase_loop _ _ _ _ _) as [h r] eqn:E; simpl. split; [right; done |].
  intros (Hb & Hl & He). apply orb_false_iff in Hal as [Hb'%negb_false_iff Hl'%negb_false_iff].
  apply Z.eqb_eq in Hb', Hl'.
  pose proof (erase_loop_spec (erase_fuel len) (fmc_hw f) base (base + len)) as Hs.
  change (page_size (hw_dbs (fmc_hw f))) with (page_step (fmc_hw f)) in Hs. cbv zeta in Hs.
  rewrite E in Hs. apply Hs; try lia.
  - by apply page_size_div.
  - apply page_size_div. unfold OTA_PAGE_SIZE in *. zlia.
  - by apply erase_fuel_enough.
Qed.

Lemma fmc_program_spec (f : fmc H) addr data :
  let x := fmc_program b f addr data in
  let n := round8 (Z.of_nat (length data)) in
  (x = (f, OTA_FMC_RESULT_ERROR) \/
   ota_fmc_range_forbidden b addr (Z.of_nat (length data)) = false /\ addr mod 8 = 0 /\
   s_fmc_owned f = false /\ s_fmc_owned x.1 = false) /\
  (forall a, ~ (addr <= a < addr + n) -> hw_byte (fmc_hw x.1) a = hw_byte (fmc_hw f) a) /\
  (bytes_ok data -> (forall a, addr <= a < addr + n -> hw_byte (fmc_hw f) a = 0xFF) ->
   x.2 = OTA_FMC_RESULT_OK -> bytes_at (hw_byte (fmc_hw x.1)) addr (length data) = data) /\
  (forall a k, (a + Z.of_nat k <= addr \/ addr + n <= a) ->
     hw_ecc_error (fmc_hw x.1) a k = hw_ecc_error (fmc_hw f) a k).
Proof.
  unfold fmc_program, fmc_funnel_claim, on_hw.
  destruct (negb (addr mod 8 =? 0)) eqn:Hal; [split; [by left | done] |].
  destruct (ota_fmc_range_forbidden b addr _) eqn:Hf; [split; [by left | done] |].
  destruct (s_fmc_owned f) eqn:Ho; simpl; [split; [by left | done] |].
  pose proof (program_loop_spec (length data) (fmc_hw f) addr data ltac:(lia)) as Hs. cbv zeta in Hs.
  destruct (program_loop _ _ _ _) as [h r] eqn:E; simpl in Hs |- *. split; [right | exact Hs].
  apply negb_false_iff, Z.eqb_eq in Hal. done.
Qed.
End fmc_proofs.

(** ** The properties *)

Section fmc_claims.
Context {H : Type} `{Hw : FmcHw H}.
Variable b : app_build.

(** C14. The register-level backend provides the flash seam: in both bank
    modes an erase changes only the requested range and, when it reports OK,
    leaves it all 0xFF; a program changes only the doublewords it covers and,
    over erased flash, stores exactly its data; forbidden or misaligned
    requests change nothing; and a successful safe read returns what is
    stored. *)
Theorem fmc_hal_laws : FmcHwLaws H -> @FlashLaws (fmc H) (fmc_hal b) b.
Proof.
  intros HL. split; unfold flash_frame, flash_same;
    cbn [flash_byte ota_fmc_erase_range ota_fmc_program ota_fmc_read_safe ota_fault_loop_clear fmc_hal].
  - intros. apply hl_byte.
  - intros f base len Hin. by apply fmc_erase_range_spec.
  - intros f base len a Hin Hok. destruct (fmc_erase_range_spec b f base len) as [_ Hs].
    by apply (Hs Hin).
  - intros f base len Hf. destruct (fmc_erase_range_spec b f base len) as [[-> | [? _]] _]; [done | congruence].
  - intros f addr data _. apply fmc_program_spec.
  - intros f addr data _ Hd He. by apply fmc_program_spec.
  - intros f addr data Hf. destruct (fmc_program_spec b f addr data) as [[-> | [? _]] _]; [done | congruence].
  - intros f addr data Hal. destruct (fmc_program_spec b f addr data) as [[-> | (_ & ? & _)] _]; done.
  - intros f addr n l. unfold fmc_read_safe. repeat case_match; intros; simplify_eq. done.
  - intros f base len addr n Hin Hd. pose proof (fmc_erase_range_spec b f base len) as [_ Hs].
    destruct (Hs Hin) as (Hfr & _ & Hecc). unfold fmc_read_safe. rewrite Hecc by done.
    by rewrite (bytes_at_ext _ (hw_byte (fmc_hw f))) by (intros; apply Hfr; lia).
  - intros f base data addr n _ Hd. pose proof (fmc_program_spec b f base data) as (_ & Hfr & _ & Hecc).
    unfold fmc_read_safe. rewrite Hecc by done.
    by rewrite (bytes_at_ext _ (hw_byte (fmc_hw f))) by (intros; apply Hfr; lia).
  - intros. apply hl_bkp7.
Qed.

(** The funnel admits one owner: an erase or program started while the
    flag is held is refused with ERROR and touches nothing, and a call that
    found it free returns with it free again, whatever its outcome. *)
Theorem fmc_funnel_exclusive (f : fmc H) (base len : Z) (data : list Z) :
  (s_fmc_owned f = true ->
   fmc_erase_range b f base len = (f, OTA_FMC_RESULT_ERROR) /\
   fmc_program b f base data = (f, OTA_FMC_RESULT_ERROR)) /\
  (s_fmc_owned f = false ->
   s_fmc_owned (fmc_erase_range b f base len).1 = false /\
   s_fmc_owned (fmc_program b f base data).1 = false).
Proof.
  unfold fmc_erase_range, fmc_program, fmc_funnel_claim, on_hw. split; intros Ho; rewrite Ho; simpl.
  - by repeat case_match.
  - split; repeat (case_match || simplify_eq/=); done.
Qed.

Lemma state_now_busy st i :
  ((ota_fmc_state_now st i).1 = FMC_BUSY <-> bit_set (st i) (FMC_STAT_BUSY hw_bits) = true) /\
  ((ota_fmc_state_now st i).1 = FMC_BUSY -> (ota_fmc_state_now st i).2 = (i + 1)%nat) /\
  (ota_fmc_state_now st i).1 <> FMC_TOERR.
Proof. unfold ota_fmc_state_now. repeat case_match; simpl; split_and?; done. Qed.

Lemma wait_loop_toerr timeout : forall st i,
  wait_loop timeout st i <> FMC_BUSY /\
  (wait_loop timeout st i = FMC_TOERR <->
   forall k, (k <= timeout)%nat -> bit_set (st (i + k)%nat) (FMC_STAT_BUSY hw_bits) = true).
Proof.
  induction timeout as [| t IH]; intros st i; simpl;
    destruct (state_now_busy st i) as (Hb & Hi & Ht);
    destruct (ota_fmc_state_now st i) as [s j]; simpl in *.
  - destruct (decide (s = FMC_BUSY)) as [-> | Hne].
    + split; [done |]. split; [| done]. intros _ k Hk. replace (i + k)%nat with i by lia. by apply Hb.
    + split; [by destruct s |]. split.
      * intros Hx. destruct s; done.
      * intros Hall. destruct Hne. apply Hb. specialize (Hall O). rewrite Nat.add_0_r in Hall. auto.
  - destruct (decide (s = FMC_BUSY)) as [-> | Hne].
    + rewrite Hi by done. destruct (IH st (i + 1)%nat) as [H1 H2]. split; [done |]. rewrite H2. split.
      * intros Hall k Hk. destruct k as [| k]; [rewrite Nat.add_0_r; by apply Hb |].
        replace (i + S k)%nat with (i + 1 + k)%nat by lia. apply Hall. lia.
      * intros Hall k Hk. replace (i + 1 + k)%nat with (i + S k)%nat by lia. apply Hall. lia.
    + assert (Hx : (match s with FMC_BUSY => wait_loop t st j | _ => s end) = s) by (by destruct s).
      rewrite Hx. split; [done |]. split; [done |]. intros Hall. destruct Hne. apply Hb.
      specialize (Hall O). rewrite Nat.add_0_r in Hall. apply Hall. lia.
Qed.

(** The busy-wait is bounded and decodes exactly: with a budget of [t]
    polls it never returns BUSY, and it returns TOERR exactly when all [t]
    polls of FMC_STAT had BUSY set -- so a latched error flag is never reported
    as a timeout, nor a stuck controller as an error. *)
Theorem fmc_wait_bounded (t : Z) (st : nat -> Z) :
  0 < t ->
  ota_fmc_wait_ready t st <> FMC_BUSY /\
  (ota_fmc_wait_ready t st = FMC_TOERR <->
   forall k : nat, Z.of_nat k < t -> bit_set (st k) (FMC_STAT_BUSY hw_bits) = true).
Proof.
  intros Ht. unfold ota_fmc_wait_ready. destruct (wait_loop_toerr (Z.to_nat (t - 1)) st 0) as [Hb Hi].
  split; [done |]. rewrite Hi. split; intros Hall k Hk; apply Hall; lia.
Qed.

(** Liveness of the loops on a healthy controller. *)
Context (hok : H -> Prop).
Context {HL : FmcHwLaws H} {HH : FmcHwHealthy H hok}.

Lemma erase_one_page_ok h addr :
  hok h -> OTA_BOOTLOADER_BASE <= addr < OTA_FLASH_END -> addr mod page_size (hw_dbs h) = 0 ->
  (erase_one_page h addr).2 = FMC_READY /\ hok (erase_one_page h addr).1.
Proof.
  intros Hk Ha Hal. pose proof (page_select_base (hw_dbs h) addr Ha Hal) as Hp.
  unfold erase_one_page. destruct (page_select _ _) as [bank1 page]. destruct Hp as [_ Hp].
  rewrite (hh_idle h) by done. simpl.
  destruct (hh_erase (hw_clear_errors h) bank1 page) as [? ?]; [by apply hh_clear | done |]. done.
Qed.

Lemma erase_loop_ok fuel : forall h a end_,
  hok h -> OTA_BOOTLOADER_BASE <= a <= end_ -> end_ <= OTA_FLASH_END ->
  a mod page_size (hw_dbs h) = 0 ->
  (erase_loop fuel h a end_ (page_size (hw_dbs h))).2 = OTA_FMC_RESULT_OK /\
  hok (erase_loop fuel h a end_ (page_size (hw_dbs h))).1.
Proof.
  induction fuel as [| fuel IH]; intros h a end_ Hk Ha He Hal; simpl; [done |].
  destruct (Z.ltb_spec a end_) as [Hlt | Hge]; [| done].
  destruct (erase_one_page_ok h a) as [Hr Hk']; [done | lia | done |].
  destruct (erase_one_page_spec h a ltac:(lia) Hal) as [Hd _].
  destruct (erase_one_page h a) as [h1 st]; simpl in *. subst st. rewrite <- Hd. rewrite <- Hd in Hal.
  destruct (Z.le_gt_cases (a + page_size (hw_dbs h1)) end_) as [Hle | Hgt].
  - apply IH; try done.
    + unfold page_size, OTA_FMC_PAGE_SIZE_DBANK, OTA_FMC_PAGE_SIZE_SBANK in *. case_match; lia.
    + unfold page_size, OTA_FMC_PAGE_SIZE_DBANK, OTA_FMC_PAGE_SIZE_SBANK in *. case_match; zlia.
  - destruct fuel; simpl; [done |]. destruct (Z.ltb_spec (a + page_size (hw_dbs h1)) end_); [lia | done].
Qed.

Lemma program_one_dword_ok h addr dw :
  hok h -> bytes_ok dw -> addr mod 8 = 0 -> (forall a, addr <= a < addr + 8 -> hw_byte h a = 0xFF) ->
  (program_one_dword h addr dw).2 = FMC_READY /\ hok (program_one_dword h addr dw).1.
Proof.
  intros Hk Hd Hal He. unfold program_one_dword. rewrite (hh_idle h) by done. simpl.
  destruct (hh_program (hw_clear_errors h) addr (le32 dw) (le32 (drop 4 dw))); try done.
  - by apply hh_clear.
  - by apply le32_range.
  - by apply le32_range, Forall_drop.
  - intros a Ha. rewrite hl_clear. by apply He.
Qed.

Lemma program_loop_ok fuel : forall h addr data,
  hok h -> bytes_ok data -> addr mod 8 = 0 ->
  (forall a, addr <= a < addr + round8 (Z.of_nat (length data)) -> hw_byte h a = 0xFF) ->
  (program_loop fuel h addr data).2 = OTA_FMC_RESULT_OK /\ hok (program_loop fuel h addr data).1.
Proof.
  induction fuel as [| fuel IH]; intros h addr data Hk Hd Hal He; simpl; [done |].
  destruct data as [| d data]; [done |]. set (l := d :: data) in *.
  assert (Hlen : (0 < length l)%nat) by (simpl; lia). clearbody l. clear d data.
  pose proof (round8_step (Z.of_nat (length l)) ltac:(lia)) as Hr8.
  assert (Hld : Z.of_nat (length (drop 8 l)) = Z.max 0 (Z.of_nat (length l) - 8)) by (rewrite length_drop; lia).
  pose proof (round8_ge (Z.max 0 (Z.of_nat (length l) - 8))).
  destruct (program_one_dword_ok h addr (pad8 l)) as [Hr Hk']; [done | by apply pad8_ok | done | |].
  { intros a Ha. apply He. lia. }
  destruct (program_one_dword_spec h addr (pad8 l)) as [Hfr _].
  destruct (program_one_dword h addr (pad8 l)) as [h1 st]; simpl in *. subst st. apply IH.
  - done.
  - by apply Forall_drop.
  - zlia.
  - intros a Ha. rewrite Hld in Ha. rewrite Hfr by lia. apply He. lia.
Qed.

(** On a controller without faults the backend also keeps the seam's
    availability promise: every legal erase and program succeeds within its
    poll budgets and leaves the funnel free and the controller healthy. *)
Theorem fmc_hal_healthy :
  @FlashHealthy (fmc H) (fmc_hal b) b (fun f => s_fmc_owned f = false /\ hok (fmc_hw f)).
Proof.
  split; cbn [flash_byte ota_fmc_erase_range ota_fmc_program ota_fmc_read_safe ota_fault_loop_clear
              ota_fmc_funnel_busy ota_fmc_supported fmc_hal].
  - done.
  - by intros f [].
  - intros f base len [Ho Hk] (Hb & Hl & He) H1 H2 H3.
    unfold fmc_erase_range, fmc_funnel_claim, on_hw. rewrite H1, H2, H3, Ho; simpl.
    destruct (erase_loop_ok (erase_fuel len) (fmc_hw f) base (base + len)) as [Hr Hk']; try done; [lia | |].
    + by apply page_size_div.
    + change (page_step (fmc_hw f)) with (page_size (hw_dbs (fmc_hw f))).
      destruct (erase_loop _ _ _ _ _); simpl in *. done.
  - intros f addr data [Ho Hk] _ H1 Hd H3 He.
    unfold fmc_program, fmc_funnel_claim, on_hw. rewrite H1, H3, Ho; simpl.
    destruct (program_loop_ok (length data) (fmc_hw f) addr data) as [Hr Hk']; try done.
    destruct (program_loop _ _ _ _); simpl in *. done.
  - intros f addr n [Ho Hk] Ha Hn. unfold fmc_read_safe. rewrite (hh_ecc (fmc_hw f)) by done.
    replace (Z.land (Z.lor addr (Z.of_nat n)) 7) with 0; [done |].
    rewrite Z.land_lor_distr_l. change 7 with (Z.ones 3). rewrite !Z.land_ones by lia.
    change (2 ^ 3) with 8. by rewrite Ha, Hn.
  - intros f [Ho Hk]. split; [done |]. by apply hh_bkp7.
Qed.
End fmc_claims.
