(* ===== verification/BridgeHw.v ===== *)
(** * The peripheral HAL boundary: [hal/bridge_hw.h]

    One operation per [bridge_hw_*] function the protocol layer calls, over an
    abstract peripheral state, and the stub backend [hal/bridge_hw_stub.c] as
    an instance.  Out-parameters are the extra components of the result: what
    the callee left in them (the callers pass zero-initialised storage). *)

From stdpp Require Import base tactics list numbers.
From S2P Require Import Prelude.

Definition BRIDGE_HW_OK : Z := 0.
Definition BRIDGE_HW_ERR_NOTIMPL : Z := -1.
Definition BRIDGE_HW_ERR_INVAL : Z := -2.
Definition BRIDGE_HW_ERR_RANGE : Z := -3.
Definition BRIDGE_HW_ERR_IO : Z := -4.
Definition BRIDGE_HW_ERR_BUSY : Z := -5.
Definition BRIDGE_HW_ERR_NOT_READY : Z := -6.

(** What a spectrum read reports: sequence number, total bins, bins got, and
    the bins as float bit patterns. *)
Record spectrum := Spectrum {
  sp_seq : Z; sp_total : Z; sp_got : Z; sp_bins : list Z }.

Class BridgeHw (W : Type) := {
  bridge_hw_reset_reason : W -> Z;
  bridge_hw_gpio_read : W -> Z -> W * (Z * Z);
  bridge_hw_gpio_write : W -> Z -> Z -> W * Z;
  bridge_hw_pwm_set : W -> Z -> Z -> Z -> W * Z;
  bridge_hw_pwm_get : W -> Z -> W * (Z * (Z * Z));
  bridge_hw_pwm_configure : W -> Z -> Z -> Z -> Z -> W * Z;
  bridge_hw_adc_read : W -> Z -> Z -> W * (Z * list Z);
  bridge_hw_adc_configure : W -> Z -> Z -> Z -> Z -> W * Z;
  bridge_hw_adc_stream_begin : W -> Z -> Z -> Z -> W * Z;
  bridge_hw_adc_stream_read : W -> Z -> Z -> W * (Z * (Z * list Z));
  bridge_hw_adc_stream_end : W -> Z -> W * Z;
  bridge_hw_adc_spectrum_read : W -> Z -> Z -> Z -> W * (Z * spectrum);
  bridge_hw_trng_read : W -> nat -> W * (Z * list Z);
  bridge_hw_tmu_compute : W -> Z -> Z -> Z -> Z -> W * (Z * Z);
  bridge_hw_dac_set : W -> Z -> Z -> W * Z;
  bridge_hw_dac_get : W -> Z -> W * (Z * Z);
  bridge_hw_qenc_read : W -> Z -> W * (Z * Z);
  bridge_hw_qenc_reset : W -> Z -> W * Z;
  bridge_hw_counter_read : W -> Z -> W * (Z * Z);
  bridge_hw_da9292_status_cached : W -> Z;
  bridge_hw_se_reset : W -> Z -> W * Z;
  bridge_hw_pwm_capture_begin : W -> Z -> Z -> W * Z;
  bridge_hw_pwm_capture_read : W -> Z -> W * (Z * (Z * Z));
  bridge_hw_pwm_capture_end : W -> Z -> W * Z;
  bridge_hw_pwm_single_pulse : W -> Z -> Z -> W * Z;
  bridge_hw_timer_sync : W -> Z -> Z -> Z -> W * Z;
  bridge_hw_power_mode_set : W -> Z -> Z -> Z -> W * Z;
  bridge_hw_adc_dsp_chain_open : W -> W * (Z * Z);
  bridge_hw_adc_dsp_stage_push : W -> Z -> Z -> Z -> Z -> Z -> list Z -> W * Z;
  bridge_hw_adc_dsp_chain_bind : W -> Z -> Z -> W * Z }.

(** The stub backend, which touches no state. *)
Definition stub_hw {W : Type} : BridgeHw W := {|
  bridge_hw_reset_reason _ := 0;
  bridge_hw_gpio_read w _ := (w, (BRIDGE_HW_ERR_NOTIMPL, 0));
  bridge_hw_gpio_write w _ _ := (w, BRIDGE_HW_ERR_NOTIMPL);
  bridge_hw_pwm_set w _ _ _ := (w, BRIDGE_HW_ERR_NOTIMPL);
  bridge_hw_pwm_get w _ := (w, (BRIDGE_HW_ERR_NOTIMPL, (0, 0)));
  bridge_hw_pwm_configure w _ _ _ _ := (w, BRIDGE_HW_ERR_NOTIMPL);
  bridge_hw_adc_read w _ samples := (w, (BRIDGE_HW_ERR_NOTIMPL, replicate (Z.to_nat samples) 0));
  bridge_hw_adc_configure w _ _ _ _ := (w, BRIDGE_HW_ERR_NOTIMPL);
  bridge_hw_adc_stream_begin w _ _ _ := (w, BRIDGE_HW_ERR_NOTIMPL);
  bridge_hw_adc_stream_read w _ _ := (w, (BRIDGE_HW_ERR_NOTIMPL, (0, [])));
  bridge_hw_adc_stream_end w _ := (w, BRIDGE_HW_ERR_NOTIMPL);
  bridge_hw_adc_spectrum_read w _ _ _ := (w, (BRIDGE_HW_ERR_NOTIMPL, Spectrum 0 0 0 []));
  bridge_hw_trng_read w len := (w, (BRIDGE_HW_ERR_NOTIMPL, replicate len 0));
  bridge_hw_tmu_compute w _ _ _ _ := (w, (BRIDGE_HW_ERR_NOTIMPL, 0));
  bridge_hw_dac_set w _ _ := (w, BRIDGE_HW_ERR_NOTIMPL);
  bridge_hw_dac_get w _ := (w, (BRIDGE_HW_ERR_NOTIMPL, 0));
  bridge_hw_qenc_read w _ := (w, (BRIDGE_HW_ERR_NOTIMPL, 0));
  bridge_hw_qenc_reset w _ := (w, BRIDGE_HW_ERR_NOTIMPL);
  bridge_hw_counter_read w _ := (w, (BRIDGE_HW_ERR_NOTIMPL, 0));
  bridge_hw_da9292_status_cached _ := 0xFF;
  bridge_hw_se_reset w _ := (w, BRIDGE_HW_ERR_NOTIMPL);
  bridge_hw_pwm_capture_begin w _ _ := (w, BRIDGE_HW_ERR_NOTIMPL);
  bridge_hw_pwm_capture_read w _ := (w, (BRIDGE_HW_ERR_NOTIMPL, (0, 0)));
  bridge_hw_pwm_capture_end w _ := (w, BRIDGE_HW_ERR_NOTIMPL);
  bridge_hw_pwm_single_pulse w _ _ := (w, BRIDGE_HW_ERR_NOTIMPL);
  bridge_hw_timer_sync w _ _ _ := (w, BRIDGE_HW_ERR_NOTIMPL);
  bridge_hw_power_mode_set w _ _ _ := (w, BRIDGE_HW_ERR_NOTIMPL);
  bridge_hw_adc_dsp_chain_open w := (w, (BRIDGE_HW_ERR_NOTIMPL, 0));
  bridge_hw_adc_dsp_stage_push w _ _ _ _ _ _ := (w, BRIDGE_HW_ERR_NOTIMPL);
  bridge_hw_adc_dsp_chain_bind w _ _ := (w, BRIDGE_HW_ERR_NOTIMPL) |}.
