(* ===== verification/BootConfig.v ===== *)
(** * Persistent boot configuration: [src/boot_config.c]

    A/B record pages, ECC-safe reads, the queued base-level commit and the
    boot-time apply.  The theorems: a store that reports OK is what the next
    boot loads, a power cut anywhere in a store leaves the old or the new
    value, and a queued SET reaches the flash on a healthy controller. *)

From stdpp Require Import base tactics list numbers option.
From S2P Require Import Prelude Crc OtaLayout Flash BridgeHw.

Definition BOOT_CONFIG_FLAG_SDMUX_EN_HIGH : Z := 0x00000001.
Definition BOOT_CONFIG_KNOWN_FLAGS : Z := BOOT_CONFIG_FLAG_SDMUX_EN_HIGH.
Definition BOOT_CONFIG_SDMUX_EN_PAD_MASK : Z := Z.shiftl 1 12.
Definition BOOT_CONFIG_MAGIC : Z := 0x32464342.
Definition BOOT_CONFIG_COUNTER_LIMIT : Z := 0xFFFFFFF0.

(** [boot_config_record_t]: payload doubleword, then commit doubleword. *)
Record boot_config_record := BcRecord {
  bc_counter : Z; bc_flags : Z; bc_crc32 : Z; bc_magic : Z }.
Definition BOOT_CONFIG_COMMIT_OFF : Z := 8.

(** The file's statics. *)
Record bcfg := Bcfg { s_stored : Z; s_pending : bool; s_pending_flags : Z }.

Definition record_crc (counter flags : Z) : Z := ota_crc32 0 (put32 counter ++ put32 flags).

(** The record's two doublewords in memory. *)
Definition payload_bytes (r : boot_config_record) : list Z := put32 (bc_counter r) ++ put32 (bc_flags r).
Definition commit_bytes (r : boot_config_record) : list Z := put32 (bc_crc32 r) ++ put32 (bc_magic r).

Section boot_config.
Context {F : Type} `{FlashHal F}.

Definition boot_config_read_page (f : F) (base : Z) : option boot_config_record :=
  match ota_fmc_read_safe f (base + BOOT_CONFIG_COMMIT_OFF) 8 with
  | None => None
  | Some commit =>
      if negb (le32 (drop 4 commit) =? BOOT_CONFIG_MAGIC) then None
      else
        match ota_fmc_read_safe f base 8 with
        | None => None
        | Some payload =>
            let counter := le32 payload in
            let flags := le32 (drop 4 payload) in
            if negb (le32 commit =? record_crc counter flags) then None
            else if (counter =? 0) || (BOOT_CONFIG_COUNTER_LIMIT <=? counter) then None
            else Some (BcRecord counter flags (le32 commit) (le32 (drop 4 commit)))
        end
  end.

(** The newest valid record, and the page a new one must go to. *)
Definition newest_record (f : F) : option boot_config_record * Z :=
  let r0 := boot_config_read_page f OTA_CONFIG_REC0 in
  let r1 := boot_config_read_page f OTA_CONFIG_REC1 in
  match r0, r1 with
  | Some r0, None => (Some r0, OTA_CONFIG_REC1)
  | Some r0, Some r1 =>
      if bc_counter r1 <? bc_counter r0 then (Some r0, OTA_CONFIG_REC1)
      else (Some r1, OTA_CONFIG_REC0)
  | None, Some r1 => (Some r1, OTA_CONFIG_REC0)
  | None, None => (None, OTA_CONFIG_REC0)
  end.

(** The record a store writes. *)
Definition next_record (cur : option boot_config_record) (flags : Z) : boot_config_record :=
  let counter := match cur with Some r => u32 (bc_counter r + 1) | None => 1 end in
  BcRecord counter flags (record_crc counter flags) BOOT_CONFIG_MAGIC.

Definition boot_config_store (f : F) (flags : Z) : F * ota_fmc_result :=
  if negb (@ota_fmc_supported F _) then (f, OTA_FMC_RESULT_ERROR)
  else
    let flags := Z.land flags BOOT_CONFIG_KNOWN_FLAGS in
    let '(cur, target) := newest_record f in
    if match cur with Some r => bc_flags r | None => 0 end =? flags then (f, OTA_FMC_RESULT_OK)
    else if match cur with
            | Some r => BOOT_CONFIG_COUNTER_LIMIT <=? u32 (bc_counter r + 1)
            | None => false
            end then (f, OTA_FMC_RESULT_ERROR)
    else
      let rec := next_record cur flags in
      match ota_fmc_erase_range f target OTA_PAGE_SIZE with
      | (f, OTA_FMC_RESULT_OK) =>
          match ota_fmc_program f target (payload_bytes rec) with
          | (f, OTA_FMC_RESULT_OK) =>
              match ota_fmc_program f (target + BOOT_CONFIG_COMMIT_OFF) (commit_bytes rec) with
              | (f, OTA_FMC_RESULT_OK) =>
                  (f, match boot_config_read_page f target with
                      | Some check =>
                          if (bc_counter check =? bc_counter rec) && (bc_flags check =? bc_flags rec)
                          then OTA_FMC_RESULT_OK else OTA_FMC_RESULT_ERROR
                      | None => OTA_FMC_RESULT_ERROR
                      end)
              | (f, rv) => (f, rv)
              end
          | (f, rv) => (f, rv)
          end
      | (f, rv) => (f, rv)
      end.

(** What a boot would load. *)
Definition stored_flags (f : F) : Z :=
  match (newest_record f).1 with
  | Some r => Z.land (bc_flags r) BOOT_CONFIG_KNOWN_FLAGS
  | None => 0
  end.

Definition boot_config_load (f : F) (c : bcfg) : bcfg :=
  Bcfg (stored_flags f) false (s_pending_flags c).

Definition boot_config_flags (c : bcfg) : Z := s_stored c.
Definition boot_config_pending (c : bcfg) : option Z :=
  if s_pending c then Some (s_pending_flags c) else None.

Definition boot_config_request (c : bcfg) (flags : Z) : bcfg * bool :=
  if s_pending c then (c, s_pending_flags c =? flags)
  else if flags =? s_stored c then (c, true)
  else (Bcfg (s_stored c) true flags, true).

Definition boot_config_tick (f : F) (erase_active : bool) (c : bcfg) : F * bcfg :=
  if negb (s_pending c) then (f, c)
  else if erase_active || ota_fmc_funnel_busy f then (f, c)
  else
    let flags := s_pending_flags c in
    let '(f, rv) := boot_config_store f flags in
    (f, Bcfg (if bool_decide (rv = OTA_FMC_RESULT_OK) then flags else s_stored c) false flags).

Definition boot_config_apply `{BridgeHw W} (f : F) (c : bcfg) (w : W) : bcfg * W :=
  let c := boot_config_load f c in
  (c, if negb (Z.land (s_stored c) BOOT_CONFIG_FLAG_SDMUX_EN_HIGH =? 0)
      then (bridge_hw_gpio_write w BOOT_CONFIG_SDMUX_EN_PAD_MASK BOOT_CONFIG_SDMUX_EN_PAD_MASK).1
      else w).
End boot_config.

(** ** Proof support *)

Definition is_cfg_page (p : Z) : Prop := p = OTA_CONFIG_REC0 \/ p = OTA_CONFIG_REC1.
Definition other_cfg (p : Z) : Z := if p =? OTA_CONFIG_REC0 then OTA_CONFIG_REC1 else OTA_CONFIG_REC0.

(** Nothing a safe read outside the range returns has changed. *)
Definition reads_same `{FlashHal F} (f f' : F) (base len : Z) : Prop :=
  forall a n, a + Z.of_nat n <= base \/ base + len <= a ->
    ota_fmc_read_safe f' a n = ota_fmc_read_safe f a n.

Section proofs.
Context {F} `{FlashLaws F b}.

Lemma other_cfg_page p : is_cfg_page (other_cfg p).
Proof. unfold other_cfg, is_cfg_page. case_match; auto. Qed.

Lemma other_cfg_0 : other_cfg OTA_CONFIG_REC0 = OTA_CONFIG_REC1.
Proof. done. Qed.
Lemma other_cfg_1 : other_cfg OTA_CONFIG_REC1 = OTA_CONFIG_REC0.
Proof. done. Qed.

(** A page that is neither empty nor at the limit. *)
Lemma read_page_counter (f : F) base r :
  boot_config_read_page f base = Some r -> 0 < bc_counter r < BOOT_CONFIG_COUNTER_LIMIT.
Proof.
  unfold boot_config_read_page. destruct (ota_fmc_read_safe f (_ + _) 8) as [c |]; [| done].
  case_match; [done |]. destruct (ota_fmc_read_safe f base 8) as [p |] eqn:Ep; [| done].
  apply fl_read_safe in Ep as ->. repeat case_match; intros; simplify_eq/=.
  pose proof (le32_range _ (flash_bytes_ok f base 8)). unfold is_u32 in *. lia.
Qed.

Lemma read_page_same (f f' : F) base len p :
  reads_same f f' base len -> p + 16 <= base \/ base + len <= p ->
  boot_config_read_page f' p = boot_config_read_page f p.
Proof.
  intros Hs Hd. unfold boot_config_read_page, BOOT_CONFIG_COMMIT_OFF.
  rewrite !Hs by lia. done.
Qed.

(** The selection rule, seen from the page a store would write. *)
Lemma newest_record_target (f : F) :
  let '(cur, t) := newest_record f in
  is_cfg_page t /\ boot_config_read_page f (other_cfg t) = cur /\
  (cur = None -> boot_config_read_page f t = None).
Proof.
  unfold newest_record.
  destruct (boot_config_read_page f OTA_CONFIG_REC0) as [r0 |] eqn:E0,
           (boot_config_read_page f OTA_CONFIG_REC1) as [r1 |] eqn:E1;
    [destruct (bc_counter r1 <? bc_counter r0) | | |];
    unfold is_cfg_page, other_cfg; simpl; (split; [auto | done]).
Qed.

Lemma newest_record_absent (f : F) t :
  is_cfg_page t -> boot_config_read_page f t = None ->
  (newest_record f).1 = boot_config_read_page f (other_cfg t).
Proof.
  intros [-> | ->] Ht; unfold newest_record; rewrite ?other_cfg_0, ?other_cfg_1, Ht; by case_match.
Qed.

Lemma newest_record_newer (f : F) t r :
  is_cfg_page t -> boot_config_read_page f t = Some r ->
  (forall r', boot_config_read_page f (other_cfg t) = Some r' -> bc_counter r' < bc_counter r) ->
  (newest_record f).1 = Some r.
Proof.
  intros [-> | ->] Ht Hn; rewrite ?other_cfg_0, ?other_cfg_1 in Hn; unfold newest_record; rewrite Ht.
  - destruct (boot_config_read_page f OTA_CONFIG_REC1) as [r' |]; [| done].
    specialize (Hn r' eq_refl). by destruct (Z.ltb_spec (bc_counter r') (bc_counter r)); [| lia].
  - destruct (boot_config_read_page f OTA_CONFIG_REC0) as [r' |]; [| done].
    specialize (Hn r' eq_refl). by destruct (Z.ltb_spec (bc_counter r) (bc_counter r')); [lia |].
Qed.

Lemma cfg_disjoint t : is_cfg_page t -> other_cfg t + OTA_PAGE_SIZE <= t \/ t + OTA_PAGE_SIZE <= other_cfg t.
Proof.
  intros [-> | ->]; rewrite ?other_cfg_0, ?other_cfg_1;
    unfold OTA_CONFIG_REC0, OTA_CONFIG_REC1, OTA_PAGE_SIZE; lia.
Qed.

(** The spans a store erases and programs lie in the flash. *)
Lemma cfg_in_flash t off len :
  is_cfg_page t -> 0 <= off -> 0 <= len -> off + len <= OTA_PAGE_SIZE -> in_flash (t + off) len.
Proof.
  unfold in_flash, OTA_BOOTLOADER_BASE, OTA_FLASH_END, OTA_PAGE_SIZE.
  intros [-> | ->]; unfold OTA_CONFIG_REC0, OTA_CONFIG_REC1; lia.
Qed.

Lemma reads_same_trans (f1 f2 f3 : F) base len base' len' :
  base' <= base -> base + len <= base' + len' ->
  reads_same f1 f2 base' len' -> reads_same f2 f3 base len -> reads_same f1 f3 base' len'.
Proof. intros Hb He H1 H2 a n Hd. rewrite H2 by lia. by apply H1. Qed.

Lemma erase_reads (f : F) base len :
  in_flash base len -> reads_same f (ota_fmc_erase_range f base len).1 base len.
Proof. intros Hin a n Hd. by apply fl_erase_read. Qed.

Lemma program8_reads (f : F) base data :
  length data = 8%nat -> in_flash base 8 -> reads_same f (ota_fmc_program f base data).1 base 8.
Proof. intros Hl Hin a n Hd. by apply fl_program_read; rewrite Hl. Qed.

Lemma payload_bytes_ok r : bytes_ok (payload_bytes r).
Proof. apply Forall_app; split; apply put32_ok. Qed.
Lemma commit_bytes_ok r : bytes_ok (commit_bytes r).
Proof. apply Forall_app; split; apply put32_ok. Qed.

Lemma le32_two v w : is_u32 v -> is_u32 w ->
  le32 (put32 v ++ put32 w) = v /\ le32 (drop 4 (put32 v ++ put32 w)) = w.
Proof.
  intros Hv Hw. split; [by apply le32_put32 |].
  rewrite drop_app_length' by done. rewrite <- (app_nil_r (put32 w)). by apply le32_put32.
Qed.

(** What the page must hold for a record to be read from it. *)
Lemma read_page_commit_erased (f : F) t :
  (forall l, ota_fmc_read_safe f (t + BOOT_CONFIG_COMMIT_OFF) 8 = Some l -> l = replicate 8 0xFF) ->
  boot_config_read_page f t = None.
Proof.
  intros Hl. unfold boot_config_read_page. destruct (ota_fmc_read_safe f _ 8) as [l |] eqn:E; [| done].
  by rewrite (Hl l).
Qed.

Lemma read_page_payload (f : F) t rec r :
  is_u32 (bc_counter rec) -> is_u32 (bc_flags rec) ->
  (forall l, ota_fmc_read_safe f t 8 = Some l -> l = payload_bytes rec) ->
  boot_config_read_page f t = Some r -> bc_counter r = bc_counter rec /\ bc_flags r = bc_flags rec.
Proof.
  intros Hc Hf Hl. unfold boot_config_read_page. destruct (ota_fmc_read_safe f (_ + _) 8); [| done].
  case_match; [done |]. destruct (ota_fmc_read_safe f t 8) as [l' |] eqn:E; [| done].
  rewrite (Hl l') by done. destruct (le32_two _ _ Hc Hf) as [E1 E2].
  unfold payload_bytes. rewrite E1, E2. repeat case_match; intros; simplify_eq/=. done.
Qed.

Lemma next_record_newer (f : F) cur t flags :
  newest_record f = (cur, t) ->
  (match cur with Some r => BOOT_CONFIG_COUNTER_LIMIT <=? u32 (bc_counter r + 1) | None => false end) = false ->
  forall r', cur = Some r' -> bc_counter r' < bc_counter (next_record cur flags).
Proof.
  intros Hn Hlim r' ->. pose proof (newest_record_target f) as Ht. rewrite Hn in Ht.
  destruct Ht as (_ & Hr & _). apply read_page_counter in Hr. simpl.
  unfold BOOT_CONFIG_COUNTER_LIMIT in *. unfold u32 in *. zlia.
Qed.

Lemma land_known flags : 0 <= Z.land flags BOOT_CONFIG_KNOWN_FLAGS <= 1.
Proof.
  assert (Z.land flags BOOT_CONFIG_KNOWN_FLAGS = flags mod 2) as ->; [| zlia].
  change BOOT_CONFIG_KNOWN_FLAGS with (Z.ones 1). by rewrite Z.land_ones.
Qed.

Lemma land_known_idem flags :
  Z.land (Z.land flags BOOT_CONFIG_KNOWN_FLAGS) BOOT_CONFIG_KNOWN_FLAGS = Z.land flags BOOT_CONFIG_KNOWN_FLAGS.
Proof. by rewrite <- Z.land_assoc, Z.land_diag. Qed.

Lemma next_record_u32 (f : F) cur t flags :
  newest_record f = (cur, t) ->
  let rec := next_record cur (Z.land flags BOOT_CONFIG_KNOWN_FLAGS) in
  is_u32 (bc_counter rec) /\ is_u32 (bc_flags rec).
Proof.
  intros _. simpl. pose proof (land_known flags). unfold is_u32. split; [| lia].
  destruct cur; [apply u32_u32 | lia].
Qed.

(** The outcome of a store, seen through what the target page reads as. *)
Lemma stored_flags_target (f f' : F) cur t flags :
  newest_record f = (cur, t) ->
  match cur with Some r => BOOT_CONFIG_COUNTER_LIMIT <=? u32 (bc_counter r + 1) | None => false end = false ->
  reads_same f f' t OTA_PAGE_SIZE ->
  let rec := next_record cur (Z.land flags BOOT_CONFIG_KNOWN_FLAGS) in
  match boot_config_read_page f' t with
  | None => stored_flags f' = stored_flags f
  | Some r =>
      bc_counter r = bc_counter rec -> bc_flags r = bc_flags rec ->
      stored_flags f' = Z.land flags BOOT_CONFIG_KNOWN_FLAGS
  end.
Proof.
  intros Hn Hlim Hs rec. pose proof (newest_record_target f) as Ht. rewrite Hn in Ht.
  destruct Ht as (Ht & Hcur & _).
  assert (Hother : boot_config_read_page f' (other_cfg t) = cur).
  { rewrite <- Hcur. eapply read_page_same; [exact Hs |].
    pose proof (cfg_disjoint t Ht). unfold OTA_PAGE_SIZE in *. lia. }
  destruct (boot_config_read_page f' t) as [r |] eqn:Er.
  - intros Ec Ef. unfold stored_flags. rewrite (newest_record_newer f' t r); [| done | done |].
    + rewrite Ef. apply land_known_idem.
    + intros r' Hr'. rewrite Hother in Hr'. rewrite Ec. by eapply next_record_newer.
  - unfold stored_flags. rewrite (newest_record_absent f' t) by done. by rewrite Hother, Hn.
Qed.
End proofs.

(** ** The properties *)

(** The flash states a power cut during [boot_config_store f flags] can leave,
    by the call it interrupts; the interrupted call leaves anything within its
    range.  An erase cut short leaves its page reading as before or as no
    record; the two program calls need no such premise. *)
Inductive store_cut `{FlashHal F} (f : F) (flags : Z) : F -> Prop :=
  | cut_before : store_cut f flags f
  | cut_erase f' :
      let t := (newest_record f).2 in
      reads_same f f' t OTA_PAGE_SIZE ->
      boot_config_read_page f' t = boot_config_read_page f t \/ boot_config_read_page f' t = None ->
      store_cut f flags f'
  | cut_payload f1 f' :
      let t := (newest_record f).2 in
      ota_fmc_erase_range f t OTA_PAGE_SIZE = (f1, OTA_FMC_RESULT_OK) ->
      reads_same f1 f' t BOOT_CONFIG_COMMIT_OFF ->
      store_cut f flags f'
  | cut_commit f1 f2 f' :
      let t := (newest_record f).2 in
      let rec := next_record (newest_record f).1 (Z.land flags BOOT_CONFIG_KNOWN_FLAGS) in
      ota_fmc_erase_range f t OTA_PAGE_SIZE = (f1, OTA_FMC_RESULT_OK) ->
      ota_fmc_program f1 t (payload_bytes rec) = (f2, OTA_FMC_RESULT_OK) ->
      reads_same f2 f' (t + BOOT_CONFIG_COMMIT_OFF) 8 ->
      store_cut f flags f'.

(** The stored counter has room for one more SET. *)
Definition counter_room `{FlashHal F} (f : F) : Prop :=
  match (newest_record f).1 with
  | Some r => (BOOT_CONFIG_COUNTER_LIMIT <=? u32 (bc_counter r + 1)) = false
  | None => True
  end.

Section claims.
Context {F} `{FlashLaws F b}.

Lemma counter_room_false (f : F) cur t :
  newest_record f = (cur, t) -> counter_room f ->
  match cur with Some r => BOOT_CONFIG_COUNTER_LIMIT <=? u32 (bc_counter r + 1) | None => false end = false.
Proof. intros Hn. unfold counter_room. rewrite Hn. by destruct cur. Qed.

Lemma store_cut_flags (f f' : F) (flags : Z) :
  counter_room f -> store_cut f flags f' ->
  stored_flags f' = stored_flags f \/ stored_flags f' = Z.land flags BOOT_CONFIG_KNOWN_FLAGS.
Proof.
  intros Hroom Hcut. destruct (newest_record f) as [cur t] eqn:Hn.
  pose proof (counter_room_false f cur t Hn Hroom) as Hlim.
  pose proof (newest_record_target f) as Ht. rewrite Hn in Ht. destruct Ht as (Ht & Hcur & Hnone).
  destruct (next_record_u32 f cur t flags Hn) as [Hcu Hfu].
  pose proof (cfg_in_flash t 0 OTA_PAGE_SIZE Ht ltac:(done) ltac:(done) ltac:(done)) as Hin. rewrite Z.add_0_r in Hin.
  pose proof (cfg_in_flash t 0 8 Ht ltac:(done) ltac:(done) ltac:(done)) as Hin8. rewrite Z.add_0_r in Hin8.
  destruct Hcut as [| f' t' Hs Hr | f1 f' t' He Hs | f1 f2 f' t' rec He Hp Hs]; [by left | | |];
    unfold t' in *; clear t'; rewrite Hn in *; simpl in *.
  - pose proof (stored_flags_target f f' cur t flags Hn Hlim Hs) as Hx.
    destruct Hr as [Hr | Hr]; [| rewrite Hr in Hx; by left].
    left. unfold stored_flags.
    assert (newest_record f' = newest_record f) as ->; [| done].
    assert (boot_config_read_page f' (other_cfg t) = boot_config_read_page f (other_cfg t)) as Ho.
    { eapply read_page_same; [exact Hs |]. pose proof (cfg_disjoint t Ht). unfold OTA_PAGE_SIZE in *. lia. }
    unfold newest_record. by destruct Ht as [-> | ->]; rewrite ?other_cfg_0, ?other_cfg_1 in Ho; rewrite Hr, Ho.
  - pose proof (erase_reads f t OTA_PAGE_SIZE Hin) as Hse. pose proof (fl_erase_ok f t OTA_PAGE_SIZE) as Heok.
    rewrite He in Hse, Heok. simpl in *. left.
    pose proof (stored_flags_target f f' cur t flags Hn Hlim) as Hx.
    rewrite (read_page_commit_erased f' t) in Hx; [apply Hx |].
    + eapply reads_same_trans; [| | exact Hse | exact Hs]; unfold BOOT_CONFIG_COMMIT_OFF, OTA_PAGE_SIZE; lia.
    + intros l Hl. unfold BOOT_CONFIG_COMMIT_OFF in *. rewrite Hs in Hl by lia. apply fl_read_safe in Hl as ->.
      apply (bytes_at_eq _ _ (replicate 8 0xFF)). intros i Hi. rewrite length_replicate in Hi.
      rewrite Heok; [symmetry; apply at_replicate; lia | exact Hin | reflexivity | unfold OTA_PAGE_SIZE; lia].
  - assert (Hrec : rec = next_record cur (Z.land flags BOOT_CONFIG_KNOWN_FLAGS)) by (unfold rec; by rewrite Hn).
    clearbody rec.
    pose proof (erase_reads f t OTA_PAGE_SIZE Hin) as Hse. pose proof (fl_erase_ok f t OTA_PAGE_SIZE) as Heok.
    rewrite He in Hse, Heok. simpl in *.
    pose proof (program8_reads f1 t (payload_bytes rec) eq_refl Hin8) as Hsp.
    pose proof (fl_program_ok f1 t (payload_bytes rec) Hin8 (payload_bytes_ok _)) as Hpok.
    rewrite Hp in Hsp, Hpok. simpl in Hsp, Hpok.
    pose proof (stored_flags_target f f' cur t flags Hn Hlim) as Hx.
    destruct (boot_config_read_page f' t) as [r |] eqn:Er; [right | left; apply Hx].
    1: destruct (read_page_payload f' t rec r) as [? ?]; [by subst rec | by subst rec | | exact Er | apply Hx; [| by subst rec | by subst rec]].
    1: { intros l Hl. unfold BOOT_CONFIG_COMMIT_OFF in *. rewrite Hs in Hl by lia.
         apply fl_read_safe in Hl as ->. apply Hpok; [| done]. intros a Ha.
         apply Heok; [done | done |]. unfold OTA_PAGE_SIZE, round8 in *. zlia. }
    all: eapply reads_same_trans; [| | eapply reads_same_trans; [| | exact Hse | exact Hsp] | exact Hs];
      unfold BOOT_CONFIG_COMMIT_OFF, OTA_PAGE_SIZE; lia.
Qed.

(** Power-cut atomicity of a boot-configuration SET: a cut at any point of
    the erase, of the payload program or of the commit program leaves a flash
    from which the next boot loads either the value stored before or the new
    one. *)
Theorem boot_config_store_power_cut (f f' : F) (flags : Z) :
  counter_room f -> store_cut f flags f' ->
  stored_flags f' = stored_flags f \/ stored_flags f' = Z.land flags BOOT_CONFIG_KNOWN_FLAGS.
Proof. apply store_cut_flags. Qed.

Lemma boot_config_store_flags (f f' : F) (flags : Z) :
  boot_config_store f flags = (f', OTA_FMC_RESULT_OK) ->
  stored_flags f' = Z.land flags BOOT_CONFIG_KNOWN_FLAGS.
Proof.
  unfold boot_config_store. destruct (negb _); [done |].
  destruct (newest_record f) as [cur t] eqn:Hn. pose proof (newest_record_target f) as Ht.
  rewrite Hn in Ht. destruct Ht as (Ht & _ & _).
  destruct (Z.eqb_spec (match cur with Some r => bc_flags r | None => 0 end)
              (Z.land flags BOOT_CONFIG_KNOWN_FLAGS)) as [Heq | Hne].
  { intros [= <-]. unfold stored_flags. rewrite Hn; simpl. destruct cur as [r |]; [| done].
    rewrite Heq. apply land_known_idem. }
  destruct (match cur with Some r => BOOT_CONFIG_COUNTER_LIMIT <=? u32 (bc_counter r + 1) | None => false end) eqn:Hlim; [done |].
  set (rec := next_record _ _).
  pose proof (cfg_in_flash t 0 OTA_PAGE_SIZE Ht ltac:(done) ltac:(done) ltac:(done)) as Hin. rewrite Z.add_0_r in Hin.
  pose proof (cfg_in_flash t 0 8 Ht ltac:(done) ltac:(done) ltac:(done)) as Hin8. rewrite Z.add_0_r in Hin8.
  pose proof (cfg_in_flash t 8 8 Ht ltac:(done) ltac:(done) ltac:(done)) as Hinc.
  pose proof (erase_reads f t OTA_PAGE_SIZE Hin) as Hse.
  destruct (ota_fmc_erase_range f t OTA_PAGE_SIZE) as [f1 [| |]]; try done. simpl in Hse.
  pose proof (program8_reads f1 t (payload_bytes rec) eq_refl Hin8) as Hsp.
  destruct (ota_fmc_program f1 t (payload_bytes rec)) as [f2 [| |]]; try done. simpl in Hsp.
  pose proof (program8_reads f2 (t + BOOT_CONFIG_COMMIT_OFF) (commit_bytes rec) eq_refl Hinc) as Hsc.
  destruct (ota_fmc_program f2 _ (commit_bytes rec)) as [f3 [| |]]; try done. simpl in Hsc.
  destruct (boot_config_read_page f3 t) as [r |] eqn:Er; [| done].
  destruct (_ && _) eqn:Heq; [| done]. intros [= <-].
  pose proof (stored_flags_target f f3 cur t flags Hn Hlim) as Hx. rewrite Er in Hx.
  apply andb_prop in Heq as [Ec%Z.eqb_eq Ef%Z.eqb_eq]. apply Hx; [| exact Ec | exact Ef].
  eapply reads_same_trans; [| | eapply reads_same_trans; [| | exact Hse | exact Hsp] | exact Hsc];
    unfold BOOT_CONFIG_COMMIT_OFF, OTA_PAGE_SIZE; lia.
Qed.

(** A store that reports OK is durable: the next boot loads exactly the
    requested known flags, whether the store wrote a record or was the no-op. *)
Theorem boot_config_store_ok (f f' : F) (flags : Z) :
  boot_config_store f flags = (f', OTA_FMC_RESULT_OK) ->
  stored_flags f' = Z.land flags BOOT_CONFIG_KNOWN_FLAGS.
Proof. apply boot_config_store_flags. Qed.
End claims.

(** ** Availability *)

Lemma record_crc_u32 c flags : is_u32 (record_crc c flags).
Proof.
  apply ota_crc32_u32; [by unfold is_u32 | apply Forall_app; split; apply put32_ok].
Qed.

#[local] Opaque record_crc.

Section live.
Context {F} `{FlashLaws F b} {healthy : F -> Prop} {HH : FlashHealthy F b healthy}.

Lemma cfg_allowed t off len :
  is_cfg_page t -> 0 <= off -> 0 <= len -> off + len <= OTA_PAGE_SIZE ->
  ota_fmc_range_forbidden b (t + off) len = false.
Proof.
  intros Ht Ho Hl He. apply range_allowed. unfold OTA_RUNNING_SLOT_END.
  destruct (running_slot_cases b) as [(-> & _ & ->) | (-> & _ & ->)]; destruct Ht as [-> | ->];
    unfold UINT32_MAX, OTA_BOOTLOADER_BASE, OTA_BOOTLOADER_SIZE, OTA_SLOT_A_BASE, OTA_SLOT_B_BASE,
      OTA_SLOT_SIZE, OTA_CONFIG_REC0, OTA_CONFIG_REC1, OTA_PAGE_SIZE in *; lia.
Qed.

Lemma cfg_aligned t : is_cfg_page t -> t mod OTA_PAGE_SIZE = 0 /\ t mod 8 = 0 /\ (t + 8) mod 8 = 0.
Proof. by intros [-> | ->]. Qed.

(** A freshly written record reads back. *)
Lemma read_page_written (f : F) t cur flags :
  healthy f -> is_cfg_page t ->
  let rec := next_record cur flags in
  is_u32 (bc_counter rec) -> is_u32 (bc_flags rec) ->
  0 < bc_counter rec < BOOT_CONFIG_COUNTER_LIMIT ->
  bytes_at (flash_byte f) t 8 = payload_bytes rec ->
  bytes_at (flash_byte f) (t + 8) 8 = commit_bytes rec ->
  boot_config_read_page f t = Some rec.
Proof.
  intros Hh Ht rec Hc Hf Hr Hp Hm. destruct (cfg_aligned t Ht) as (_ & Ha & Ha').
  unfold boot_config_read_page, BOOT_CONFIG_COMMIT_OFF. rewrite !fh_read_safe by done.
  rewrite Hp, Hm. unfold payload_bytes, commit_bytes.
  destruct (le32_two (bc_counter rec) (bc_flags rec) Hc Hf) as [-> ->].
  destruct (le32_two (bc_crc32 rec) (bc_magic rec)) as [-> ->]; [| done |].
  { apply record_crc_u32. }
  change (bc_magic rec) with BOOT_CONFIG_MAGIC.
  change (bc_crc32 rec) with (record_crc (bc_counter rec) (bc_flags rec)).
  rewrite !Z.eqb_refl. cbn [negb].
  destruct (_ || _) eqn:E; [lia | reflexivity].
Qed.

(** On a healthy controller a store succeeds. *)
Lemma boot_config_store_succeeds (f : F) flags :
  healthy f -> counter_room f ->
  (boot_config_store f flags).2 = OTA_FMC_RESULT_OK /\ healthy (boot_config_store f flags).1.
Proof.
  intros Hh Hroom. unfold boot_config_store. rewrite fh_supported. simpl.
  destruct (newest_record f) as [cur t] eqn:Hn. pose proof (newest_record_target f) as Ht.
  rewrite Hn in Ht. destruct Ht as (Ht & Hcur & _).
  destruct (Z.eqb (match cur with Some r => bc_flags r | None => 0 end) _); [done |].
  rewrite (counter_room_false f cur t Hn Hroom).
  set (rec := next_record _ _). destruct (cfg_aligned t Ht) as (Hal & Ha & Ha').
  assert (Hin : in_flash t OTA_PAGE_SIZE) by (rewrite <- (Z.add_0_r t); by apply cfg_in_flash).
  assert (Hin8 : in_flash t 8) by (rewrite <- (Z.add_0_r t); by apply cfg_in_flash).
  assert (Hinc : in_flash (t + 8) 8) by (by apply cfg_in_flash).
  assert (Hal0 : ota_fmc_range_forbidden b t OTA_PAGE_SIZE = false) by (rewrite <- (Z.add_0_r t); by apply cfg_allowed).
  assert (Hal8 : ota_fmc_range_forbidden b t 8 = false) by (rewrite <- (Z.add_0_r t); by apply cfg_allowed).
  assert (Halc : ota_fmc_range_forbidden b (t + 8) 8 = false) by (by apply cfg_allowed).
  destruct (fh_erase f t OTA_PAGE_SIZE Hh Hin Hal eq_refl Hal0) as [He Hh1].
  assert (Hff : forall a, t <= a < t + OTA_PAGE_SIZE -> flash_byte (ota_fmc_erase_range f t OTA_PAGE_SIZE).1 a = 0xFF).
  { intros a Hr. by apply (fl_erase_ok f t OTA_PAGE_SIZE a). }
  destruct (ota_fmc_erase_range f t OTA_PAGE_SIZE) as [f1 r1]; simpl in He, Hh1, Hff; subst r1.
  destruct (fh_program f1 t (payload_bytes rec) Hh1 Hin8 Ha (payload_bytes_ok _) Hal8) as [Hp Hh2].
  { intros a Hr. apply Hff. unfold OTA_PAGE_SIZE, round8 in *. simpl in Hr. zlia. }
  pose proof (fl_program_ok f1 t (payload_bytes rec) Hin8 (payload_bytes_ok _)) as Hpok.
  pose proof (fl_program_frame f1 t (payload_bytes rec) Hin8) as Hpf.
  destruct (ota_fmc_program f1 t (payload_bytes rec)) as [f2 r2]; simpl in Hp, Hh2, Hpok, Hpf; subst r2.
  unfold BOOT_CONFIG_COMMIT_OFF.
  assert (Hff2 : forall a, t + 8 <= a < t + 8 + 8 -> flash_byte f2 a = 0xFF).
  { intros a Hr. rewrite Hpf by (unfold round8; zlia). apply Hff. unfold OTA_PAGE_SIZE. lia. }
  destruct (fh_program f2 (t + 8) (commit_bytes rec) Hh2 Hinc Ha' (commit_bytes_ok _) Halc) as [Hc Hh3].
  { intros a Hr. apply Hff2. unfold round8 in *. simpl in Hr. zlia. }
  pose proof (fl_program_ok f2 (t + 8) (commit_bytes rec) Hinc (commit_bytes_ok _)) as Hcok.
  pose proof (fl_program_frame f2 (t + 8) (commit_bytes rec) Hinc) as Hcf.
  destruct (ota_fmc_program f2 (t + 8) (commit_bytes rec)) as [f3 r3]; simpl in Hc, Hh3, Hcok, Hcf; subst r3.
  destruct (next_record_u32 f cur t flags Hn) as [Hcu Hfu].
  assert (boot_config_read_page f3 t = Some rec) as ->.
  { apply read_page_written; [done | done | done | done | | |].
    - pose proof (counter_room_false f cur t Hn Hroom) as Hlim. simpl. destruct cur as [r |].
      + apply read_page_counter in Hcur. unfold BOOT_CONFIG_COUNTER_LIMIT, u32 in *. zlia.
      + by unfold BOOT_CONFIG_COUNTER_LIMIT.
    - transitivity (bytes_at (flash_byte f2) t 8).
      + apply bytes_at_ext. intros a Hr. apply Hcf. unfold round8. zlia.
      + apply Hpok; [| done]. intros a Hr. apply Hff. unfold OTA_PAGE_SIZE, round8 in *. zlia.
    - apply Hcok; [| done]. intros a Hr. apply Hff2. unfold round8 in *. zlia. }
  simpl. by rewrite !Z.eqb_refl.
Qed.

(** A queued SET gets through: the request is accepted when nothing else
    is queued, the base-level tick commits it on a healthy controller unless an
    erase walk is active, and afterwards the value the host polls and the value
    the next boot loads are both the requested one. *)
Theorem boot_config_set_completes (f : F) (c : bcfg) (flags : Z) :
  healthy f -> counter_room f -> s_pending c = false -> s_stored c = stored_flags f ->
  Z.land flags BOOT_CONFIG_KNOWN_FLAGS = flags ->
  exists c1, boot_config_request c flags = (c1, true) /\
  boot_config_tick f true c1 = (f, c1) /\
  exists f2 c2, boot_config_tick f false c1 = (f2, c2) /\
  boot_config_flags c2 = flags /\ stored_flags f2 = flags /\ boot_config_pending c2 = None /\
  healthy f2.
Proof.
  intros Hh Hroom Hp Hsync Hk. unfold boot_config_request, boot_config_tick, boot_config_pending, boot_config_flags.
  rewrite Hp. destruct (Z.eqb_spec flags (s_stored c)) as [Heq | Hne].
  - exists c. split; [done |]. rewrite Hp. split; [done |]. exists f, c. rewrite Hp. simpl.
    split; [done |]. split; [done |]. by rewrite <- Hsync.
  - eexists. split; [done |]. simpl. split; [done |]. rewrite (fh_not_busy f Hh); simpl.
    destruct (boot_config_store_succeeds f flags Hh Hroom) as [Hok Hh'].
    pose proof (boot_config_store_flags f (boot_config_store f flags).1 flags) as Hfl.
    destruct (boot_config_store f flags) as [f2 r]; simpl in *. subst r.
    eexists f2, _. split; [done |]. simpl. split; [done |]. by rewrite Hfl.
Qed.
End live.
