(* ===== verification/BootDecide.v ===== *)
(** * The bootloader: [src/boot/boot_decide.c] and [src/boot/boot_main.c]

    The slot decision over a flash mapper (metadata validation, newest-first
    candidate order, full image validation, trial/watchdog gate), and the
    bootloader's [main] as the sequence of hardware actions it performs.  The
    theorems say which slot is booted, when something is booted at all, and
    that what is jumped to is always a validated image. *)

From stdpp Require Import base tactics list numbers option.
From S2P Require Import Prelude Crc OtaLayout Flash.

(** ** [boot_decide.c] *)

(** [boot_flash_map_fn_t]: the readable span for an address and length, or
    [None] for a null pointer. *)
Definition boot_flash_map_fn : Type := Z -> Z -> option (list Z).

Definition meta_read (map : boot_flash_map_fn) (address : Z) : option ota_meta_record :=
  match map address 8 with
  | None => None
  | Some bytes =>
      if negb (le32 bytes =? OTA_META_MAGIC) || negb (le32 (drop 4 bytes) =? OTA_META_STRUCT_VER)
      then None
      else
        match map address (Z.of_nat sizeof_meta) with
        | None => None
        | Some bytes =>
            let record := meta_of_bytes bytes in
            if meta_crc record =? rec_crc32 record then Some record else None
        end
  end.

Definition meta_candidates (map : boot_flash_map_fn) : list ota_meta_record :=
  match meta_read map OTA_META_REC0, meta_read map OTA_META_REC1 with
  | Some a, Some b => if counter b <=? counter a then [a; b] else [b; a]
  | Some a, None => [a]
  | None, Some b => [b]
  | None, None => []
  end.

Definition active_slot_valid (map : boot_flash_map_fn) (metadata : ota_meta_record) : bool :=
  let slot := active_slot metadata in
  match ota_slot_base_checked slot with
  | None => false
  | Some base =>
      let length := aget (img_len metadata) slot in
      if Z.land (slot_valid metadata) (u8 (Z.shiftl 1 slot)) =? 0 then false
      else if (length =? 0) || (OTA_SLOT_SIZE <? length) then false
      else
        match map base length with
        | None => false
        | Some image =>
            if negb (ota_crc32 0 image =? aget (img_crc32 metadata) slot) then false
            else ota_image_bootable base (Some image) length
        end
  end.

Record boot_decision := BootDecision {
  bd_slot_base : Z; bd_trial : bool; bd_last_resort : bool }.
Definition boot_decision_zero : boot_decision := BootDecision 0 false false.

(** The watchdog feeds and image walks of the validation loop, in order. *)
Inductive boot_event := EvFeed | EvValidate (r : ota_meta_record).

Definition boot_events (feed : bool) (cands : list ota_meta_record) : list boot_event :=
  concat ((fun r => (if feed then [EvFeed] else []) ++ [EvValidate r]) <$> cands).

(** Returns the C's result, [*out] and the events.  [map = None] is a null
    mapper; [feed] says whether a feed hook was passed. *)
Definition boot_decide_slot (map : option boot_flash_map_fn) (feed : bool) (wdt_fired : bool)
    : bool * boot_decision * list boot_event :=
  match map with
  | None => (false, boot_decision_zero, [])
  | Some map =>
      let cands := meta_candidates map in
      let evs := boot_events feed cands in
      let valid := (fun r => (r, active_slot_valid map r)) <$> cands in
      match ota_boot_select valid wdt_fired with
      | (None, _) => (false, boot_decision_zero, evs)
      | (Some sel, last_resort) =>
          match cands !! sel with
          | None => (false, boot_decision_zero, evs)
          | Some r =>
              match ota_slot_base_checked (active_slot r) with
              | None => (false, boot_decision_zero, evs)
              | Some base => (true, BootDecision base (is_trial r) last_resort, evs)
              end
          end
      end
  end.

(** ** [boot_main.c] *)

Definition OTA_TRIAL_FWDGT_RELOAD : Z := 0xFFF.

(** What the bootloader does to the hardware. *)
Inductive boot_action :=
  | SetStackLimit                     (* __set_MSPLIM, STKOFHFNMIGN *)
  | BackupDomainUnlock
  | StashResetCause (rstsck : Z)      (* RTC_BKP8 = rstsck *)
  | ClearResetCause                   (* RCU_RSTSCK |= RSTFC *)
  | DbgFwdgtHold
  | FwdgtClockReady
  | FwdgtConfig (reload : Z)
  | FwdgtCounterReload
  | Jump (vtor msp reset : Z)
  | RecoveryLoop.                     (* reload the watchdog forever *)

Section boot_main.
(** Vendor header and driver: the reset-cause bit, and whether the first
    [fwdgt_config] call succeeds. *)
Variables (RCU_RSTSCK_FWDGTRSTF : Z) (fwdgt_config_ok : bool).
Variable mem : Z -> Z.

Definition map_flash : boot_flash_map_fn :=
  fun address length => Some (bytes_at mem address (Z.to_nat length)).

Definition feed_actions (evs : list boot_event) : list boot_action :=
  concat ((fun e => match e with EvFeed => [FwdgtCounterReload] | EvValidate _ => [] end) <$> evs).

Definition jump_to_slot (slot_base : Z) : boot_action :=
  Jump slot_base (le32 (bytes_at mem slot_base 4)) (le32 (bytes_at mem (slot_base + 4) 4)).

Definition arm_trial_watchdog : list boot_action :=
  [DbgFwdgtHold; FwdgtClockReady; FwdgtConfig OTA_TRIAL_FWDGT_RELOAD] ++
  (if fwdgt_config_ok then [] else [FwdgtConfig OTA_TRIAL_FWDGT_RELOAD]).

Definition boot_main (rstsck : Z) : list boot_action :=
  let wdt_fired := negb (Z.land rstsck RCU_RSTSCK_FWDGTRSTF =? 0) in
  [SetStackLimit; BackupDomainUnlock; StashResetCause rstsck; ClearResetCause] ++
  (let '(found, decision, evs) := boot_decide_slot (Some map_flash) true wdt_fired in
   feed_actions evs ++
   if found then
     (if bd_trial decision then arm_trial_watchdog else []) ++
     [FwdgtCounterReload; jump_to_slot (bd_slot_base decision)]
   else [RecoveryLoop]).
End boot_main.

(** ** Proof support *)

(** A record that is on flash, CRC-valid, and whose active slot validates. *)
Definition boots (map : boot_flash_map_fn) (page : Z) (r : ota_meta_record) : Prop :=
  meta_read map page = Some r /\ active_slot_valid map r = true.

Lemma meta_candidates_elem map r :
  r ∈ meta_candidates map <->
  meta_read map OTA_META_REC0 = Some r \/ meta_read map OTA_META_REC1 = Some r.
Proof.
  unfold meta_candidates.
  destruct (meta_read map OTA_META_REC0) as [a |], (meta_read map OTA_META_REC1) as [b |];
    [destruct (Z.leb_spec (counter b) (counter a)) | | |];
    rewrite ?elem_of_cons, ?elem_of_nil; split; intros; destruct_or?; simplify_eq; auto.
Qed.

Lemma meta_candidates_sorted map i j a b :
  meta_candidates map !! i = Some a -> meta_candidates map !! j = Some b ->
  (i <= j)%nat -> counter b <= counter a.
Proof.
  unfold meta_candidates.
  destruct (meta_read map OTA_META_REC0) as [x |], (meta_read map OTA_META_REC1) as [y |];
    [destruct (Z.leb_spec (counter y) (counter x)) | | |];
    destruct i as [| [| i]], j as [| [| j]]; simpl; intros; simplify_eq; lia.
Qed.

Lemma active_slot_valid_spec map r :
  active_slot_valid map r = true <->
  exists base image,
    ota_slot_base_checked (active_slot r) = Some base /\
    Z.land (slot_valid r) (u8 (Z.shiftl 1 (active_slot r))) <> 0 /\
    0 <> aget (img_len r) (active_slot r) /\ aget (img_len r) (active_slot r) <= OTA_SLOT_SIZE /\
    map base (aget (img_len r) (active_slot r)) = Some image /\
    ota_crc32 0 image = aget (img_crc32 r) (active_slot r) /\
    ota_image_bootable base (Some image) (aget (img_len r) (active_slot r)) = true.
Proof.
  unfold active_slot_valid. split.
  - repeat case_match; intros; simplify_eq; try done.
    eexists _, _. split; [done |]. split; [lia |]. split; [lia |]. split; [lia |].
    split; [eassumption |]. split; [lia | done].
  - intros (base & image & -> & Hv & H1 & H2 & -> & Hc & Hb).
    repeat case_match; try lia; try done.
Qed.

(** The list the selection runs on. *)
Lemma valid_lookup map cands i r v :
  (((fun r => (r, active_slot_valid map r)) <$> cands) : list (ota_meta_record * bool)) !! i = Some (r, v) <->
  cands !! i = Some r /\ v = active_slot_valid map r.
Proof.
  rewrite list_lookup_fmap_Some. split; [intros (? & ? & ?) | intros [? ->]];
    simplify_eq; eauto.
Qed.

Lemma valid_elem map cands r v :
  (r, v) ∈ (((fun r => (r, active_slot_valid map r)) <$> cands) : list (ota_meta_record * bool)) <->
  r ∈ cands /\ v = active_slot_valid map r.
Proof.
  rewrite list_elem_of_fmap. split; [intros (? & ? & ?) | intros [? ->]]; simplify_eq; eauto.
Qed.

(** What a positive decision means, record by record. *)
Lemma boot_decide_sound map feed wdt d evs :
  boot_decide_slot (Some map) feed wdt = (true, d, evs) ->
  exists r, r ∈ meta_candidates map /\ active_slot_valid map r = true /\
    ota_slot_base_checked (active_slot r) = Some (bd_slot_base d) /\
    bd_trial d = is_trial r /\
    bd_last_resort d = negb (ota_boot_candidate_ok r wdt) /\
    (forall r', r' ∈ meta_candidates map -> active_slot_valid map r' = true ->
       counter r < counter r' -> ota_boot_candidate_ok r' wdt = bd_last_resort d) /\
    (bd_last_resort d = true -> forall r', r' ∈ meta_candidates map ->
       active_slot_valid map r' = true -> ota_boot_candidate_ok r' wdt = false).
Proof.
  unfold boot_decide_slot. destruct (ota_boot_select _ wdt) as [[sel |] lr] eqn:Esel; [| done].
  apply ota_boot_select_some in Esel as (r & Hr & Hlr & Hfirst & Hlast).
  apply valid_lookup in Hr as [Hr Hv]. rewrite Hr.
  destruct (ota_slot_base_checked (active_slot r)) eqn:Hb; [| done]. intros [= <- <-].
  assert (Hall : lr = true -> forall r', r' ∈ meta_candidates map ->
       active_slot_valid map r' = true -> ota_boot_candidate_ok r' wdt = false).
  { intros Hl r' Hin Hv'. apply (Hlast Hl r' true); [| done]. by apply valid_elem. }
  exists r. simpl. repeat split; try done.
  - by eapply list_elem_of_lookup_2.
  - intros r' Hin Hv' Hlt. apply list_elem_of_lookup_1 in Hin as [j Hj].
    destruct (Nat.lt_ge_cases j sel) as [Hjs | Hjs].
    + destruct (Hfirst j r' true) as [|]; try done. by apply valid_lookup.
    + pose proof (meta_candidates_sorted map _ _ _ _ Hr Hj Hjs). lia.
Qed.

Lemma boot_decide_none map feed wdt d evs :
  boot_decide_slot (Some map) feed wdt = (false, d, evs) ->
  d = boot_decision_zero /\ forall r, r ∈ meta_candidates map -> active_slot_valid map r = false.
Proof.
  unfold boot_decide_slot. destruct (ota_boot_select _ wdt) as [[sel |] lr] eqn:Esel.
  - apply ota_boot_select_some in Esel as (r & Hr & _).
    apply valid_lookup in Hr as [-> Hv]. symmetry in Hv.
    apply active_slot_valid_spec in Hv as (base & _ & -> & _). done.
  - apply ota_boot_select_none in Esel as [_ Hall]. intros [= <- _]. split; [done |].
    intros r Hin. apply (Hall r). by apply valid_elem.
Qed.

(** The memory-mapped view: [map_flash] never fails. *)
Lemma meta_read_map_flash mem page r :
  meta_read (map_flash mem) page = Some r <->
  r = meta_of_bytes (bytes_at mem page sizeof_meta) /\
  magic r = OTA_META_MAGIC /\ struct_version r = OTA_META_STRUCT_VER /\
  meta_crc r = rec_crc32 r.
Proof.
  unfold meta_read, map_flash.
  change (Z.to_nat (Z.of_nat sizeof_meta)) with sizeof_meta. change (Z.to_nat 8) with 8%nat.
  set (l := bytes_at mem page sizeof_meta).
  change (bytes_at mem page 8) with (take 8 l).
  assert (H0 : le32 (take 8 l) = magic (meta_of_bytes l)) by done.
  assert (H4 : le32 (drop 4 (take 8 l)) = struct_version (meta_of_bytes l)) by done.
  rewrite H0, H4. split.
  - repeat case_match; intros; simplify_eq. repeat split; lia.
  - intros (-> & -> & -> & ->). rewrite !Z.eqb_refl. done.
Qed.

(** ** The contract of the decision

    A candidate is a CRC-valid record of one of the two pages; it is bootable
    when its active slot validates.  The decision is the newest bootable
    candidate that is not a TRIAL image after a watchdog reset, failing that
    the newest bootable candidate, failing that nothing. *)
Inductive boot_choice (map : boot_flash_map_fn) (wdt : bool)
    : option (ota_meta_record * bool) -> Prop :=
  | choice_strict r :
      r ∈ meta_candidates map -> active_slot_valid map r = true ->
      (is_trial r && wdt) = false ->
      (forall r', r' ∈ meta_candidates map -> active_slot_valid map r' = true ->
         (is_trial r' && wdt) = false -> counter r' <= counter r) ->
      boot_choice map wdt (Some (r, false))
  | choice_last_resort r :
      r ∈ meta_candidates map -> active_slot_valid map r = true ->
      (forall r', r' ∈ meta_candidates map -> active_slot_valid map r' = true ->
         is_trial r' && wdt = true /\ counter r' <= counter r) ->
      boot_choice map wdt (Some (r, true))
  | choice_none :
      (forall r', r' ∈ meta_candidates map -> active_slot_valid map r' = false) ->
      boot_choice map wdt None.

(** [*out] for a choice. *)
Definition choice_result (c : option (ota_meta_record * bool)) : bool * boot_decision :=
  match c with
  | None => (false, boot_decision_zero)
  | Some (r, lr) =>
      (true, BootDecision (default 0 (ota_slot_base_checked (active_slot r))) (is_trial r) lr)
  end.

(** C3. The boot decision implements its contract on every flash content: it
    boots the newest record whose image validates (CRC over the recorded
    length, bootable vectors, valid bit), skipping a TRIAL record after a
    watchdog reset unless every valid record is such a TRIAL, and reports
    "nothing to boot" exactly when no record's image validates. *)
Theorem boot_decide_refines_choice (map : boot_flash_map_fn) (feed wdt : bool) :
  exists c, boot_choice map wdt c /\ (boot_decide_slot (Some map) feed wdt).1 = choice_result c.
Proof.
  destruct (boot_decide_slot (Some map) feed wdt) as [[[|] d] evs] eqn:E; simpl.
  - apply boot_decide_sound in E as (r & Hin & Hv & Hb & Ht & Hlr & Hnew & Hlast).
    exists (Some (r, bd_last_resort d)). split.
    2: { simpl. rewrite Hb. destruct d; simpl in *. by subst. }
    unfold ota_boot_candidate_ok in *. rewrite negb_involutive in Hlr.
    assert (Hc : forall r', r' ∈ meta_candidates map -> active_slot_valid map r' = true ->
              negb (is_trial r' && wdt) <> bd_last_resort d -> counter r' <= counter r).
    { intros r' H1 H2 H3. destruct (Z.le_gt_cases (counter r') (counter r)); [done |].
      destruct H3. by apply Hnew; lia || done. }
    destruct (bd_last_resort d) eqn:Ed.
    + constructor; [done.. |]. intros r' H1 H2.
      assert (H3 : is_trial r' && wdt = true) by (apply negb_false_iff; auto).
      split; [done |]. apply Hc; [done | done |]. by rewrite H3.
    + constructor; [done | done | done |]. intros r' H1 H2 H3. apply Hc; [done | done |].
      by rewrite H3.
  - apply boot_decide_none in E as [-> Hall]. exists None. split; [by constructor | done].
Qed.

(** What the bootloader demands of a record [r] and the slot base it names
    before it may jump there, read off the flash itself. *)
Record slot_trusted (mem : Z -> Z) (r : ota_meta_record) (base : Z) : Prop := SlotTrusted {
  trusted_slot : ota_slot_base_checked (active_slot r) = Some base;
  trusted_valid_bit : Z.land (slot_valid r) (u8 (Z.shiftl 1 (active_slot r))) <> 0;
  trusted_length : aget (img_len r) (active_slot r) <> 0 /\
                   aget (img_len r) (active_slot r) <= OTA_SLOT_SIZE;
  trusted_crc :
    ota_crc32 0 (bytes_at mem base (Z.to_nat (aget (img_len r) (active_slot r)))) =
    aget (img_crc32 r) (active_slot r);
  trusted_bootable :
    ota_image_bootable base
      (Some (bytes_at mem base (Z.to_nat (aget (img_len r) (active_slot r)))))
      (aget (img_len r) (active_slot r)) = true }.

Lemma slot_trusted_spec mem r :
  active_slot_valid (map_flash mem) r = true <-> exists base, slot_trusted mem r base.
Proof.
  rewrite active_slot_valid_spec. unfold map_flash. split.
  - intros (base & image & Hb & Hv & Hn & Hl & [= <-] & Hc & Hbo).
    exists base. by split; [| | split; [congruence |] | |].
  - intros (base & [Hb Hv [Hn Hl] Hc Hbo]). exists base. eexists.
    repeat (split; [done |]). done.
Qed.

Lemma feed_actions_feed evs a : a ∈ feed_actions evs -> a = FwdgtCounterReload.
Proof.
  unfold feed_actions. rewrite list_elem_of_In, in_concat. intros (l & Hl & Ha).
  apply list_elem_of_In, list_elem_of_fmap in Hl as ([|] & -> & _); [| done].
  by destruct Ha as [<- | []].
Qed.

(** [pre] ends with the trial watchdog being configured and fed. *)
Definition arms_trial (cfg_ok : bool) (pre : list boot_action) : Prop :=
  exists before, pre = before ++ arm_trial_watchdog cfg_ok ++ [FwdgtCounterReload].

(** C4. The bootloader's [main], on every flash content and reset cause: it
    stashes and clears the reset cause first.  It then ends in the recovery loop
    exactly when no CRC-valid record of the two pages names a slot it may trust
    ([slot_trusted]: a slot number in range, its valid bit set, a length within
    the slot, the recorded CRC over the whole image, bootable vectors).
    Otherwise its last action is a jump whose vector base, stack pointer and
    reset vector are those of the slot a CRC-valid record names and that meets
    all of it; the trial watchdog is armed right before the jump when that
    record is TRIAL, and never configured when it is not. *)
Theorem boot_main_jumps_validated (wdt_bit : Z) (cfg_ok : bool) (mem : Z -> Z) (rstsck : Z) :
  exists pre last,
    boot_main wdt_bit cfg_ok mem rstsck =
      [SetStackLimit; BackupDomainUnlock; StashResetCause rstsck; ClearResetCause] ++ pre ++ [last] /\
    (last = RecoveryLoop <->
     forall r base, r ∈ meta_candidates (map_flash mem) -> ~ slot_trusted mem r base) /\
    (last <> RecoveryLoop ->
     exists r base,
       last = Jump base (le32 (bytes_at mem base 4)) (le32 (bytes_at mem (base + 4) 4)) /\
       r ∈ meta_candidates (map_flash mem) /\ slot_trusted mem r base /\
       (if is_trial r then arms_trial cfg_ok pre
        else forall reload, FwdgtConfig reload ∉ pre)).
Proof.
  unfold boot_main. set (wdt := negb _).
  destruct (boot_decide_slot (Some (map_flash mem)) true wdt) as [[[|] d] evs] eqn:E.
  - apply boot_decide_sound in E as (r & Hin & Hv & Hb & Ht & _).
    exists (feed_actions evs ++ (if bd_trial d then arm_trial_watchdog cfg_ok else [])
            ++ [FwdgtCounterReload]), (jump_to_slot mem (bd_slot_base d)).
    apply slot_trusted_spec in Hv as [base Htr].
    pose proof (trusted_slot _ _ _ Htr) as Hb'. rewrite Hb in Hb'. injection Hb' as Hb'.
    split; [by rewrite <- !app_assoc |]. split.
    + split; [done | intros Hno; by destruct (Hno r base)].
    + intros _. exists r, base. rewrite Hb'. do 3 (split; [done |]). rewrite Ht.
      destruct (is_trial r); [by eexists |]. intros reload.
      rewrite !elem_of_app, !elem_of_cons, !elem_of_nil.
      by intros [[=]%feed_actions_feed | [[] | [[=] | []]]].
  - apply boot_decide_none in E as [_ Hall].
    exists (feed_actions evs), RecoveryLoop. split; [done |]. split; [| done].
    split; [intros _ r base Hin Htr | done].
    assert (Hv : active_slot_valid (map_flash mem) r = true) by (apply slot_trusted_spec; eauto).
    by rewrite Hall in Hv.
Qed.
