(* ===== verification/Ota.v ===== *)
(** * The OTA state machine: [src/ota.c] (partitioned build)

    The A/B metadata (read, pick, rank, commit), the session statics, the
    seven opcode handlers, the background erase pump split at its unlocked
    flash call, and the boot-time trial/confirm logic.  [b] is the build: the
    slot this firmware runs from. *)

From stdpp Require Import base tactics list numbers option.
From S2P Require Import Prelude Crc Wire OtaLayout Flash.

Definition OTA_PROGRAM_GRANULE : Z := 8.
Definition OTA_CHUNK_MAX : Z :=
  Z.land (GD32_BRIDGE_MAX_PAYLOAD_BYTES - 5) (Z.lnot (OTA_PROGRAM_GRANULE - 1)).

(** The [_Static_assert]. *)
Example ota_chunk_max_ok : 0 < OTA_CHUNK_MAX /\ OTA_CHUNK_MAX mod OTA_PROGRAM_GRANULE = 0.
Proof. split; reflexivity. Qed.

(** ** Session state *)

Inductive ota_state := OTA_ST_IDLE | OTA_ST_READY | OTA_ST_BUSY | OTA_ST_VERIFIED | OTA_ST_ERROR.

#[export] Instance ota_state_eq_dec : EqDecision ota_state.
Proof. solve_decision. Defined.

Definition ota_state_code (st : ota_state) : Z :=
  match st with
  | OTA_ST_IDLE => 0 | OTA_ST_READY => 1 | OTA_ST_BUSY => 2
  | OTA_ST_VERIFIED => 3 | OTA_ST_ERROR => 4
  end.

(** The file's statics.  [s_reset] records that [ota_system_reset] was called
    (on silicon nothing runs after it). *)
Record ota := Ota {
  s_state : ota_state;
  s_inactive : Z;
  s_img_len : Z;
  s_last_off : Z;
  s_expected_crc : Z;
  s_img_crc : Z;
  s_fw_version : Z;
  s_err : Z;
  s_erasing : bool;
  s_erase_at : Z;
  s_erase_end : Z;
  s_erase_epoch : Z;
  s_trial : bool;
  s_frame_seen : bool;
  s_reset : bool }.

Definition set_state (st : ota_state) (s : ota) : ota :=
  Ota st (s_inactive s) (s_img_len s) (s_last_off s) (s_expected_crc s) (s_img_crc s)
      (s_fw_version s) (s_err s) (s_erasing s) (s_erase_at s) (s_erase_end s) (s_erase_epoch s)
      (s_trial s) (s_frame_seen s) (s_reset s).
Definition set_err (e : Z) (s : ota) : ota :=
  Ota (s_state s) (s_inactive s) (s_img_len s) (s_last_off s) (s_expected_crc s) (s_img_crc s)
      (s_fw_version s) e (s_erasing s) (s_erase_at s) (s_erase_end s) (s_erase_epoch s)
      (s_trial s) (s_frame_seen s) (s_reset s).
Definition set_last_off (o : Z) (s : ota) : ota :=
  Ota (s_state s) (s_inactive s) (s_img_len s) o (s_expected_crc s) (s_img_crc s)
      (s_fw_version s) (s_err s) (s_erasing s) (s_erase_at s) (s_erase_end s) (s_erase_epoch s)
      (s_trial s) (s_frame_seen s) (s_reset s).
Definition set_img_crc (c : Z) (s : ota) : ota :=
  Ota (s_state s) (s_inactive s) (s_img_len s) (s_last_off s) (s_expected_crc s) c
      (s_fw_version s) (s_err s) (s_erasing s) (s_erase_at s) (s_erase_end s) (s_erase_epoch s)
      (s_trial s) (s_frame_seen s) (s_reset s).
Definition set_erase (erasing : bool) (at' end' : Z) (s : ota) : ota :=
  Ota (s_state s) (s_inactive s) (s_img_len s) (s_last_off s) (s_expected_crc s) (s_img_crc s)
      (s_fw_version s) (s_err s) erasing at' end' (s_erase_epoch s)
      (s_trial s) (s_frame_seen s) (s_reset s).
Definition set_erasing (erasing : bool) (s : ota) : ota :=
  set_erase erasing (s_erase_at s) (s_erase_end s) s.
(** [s_erase_epoch++] on a [uint32_t]. *)
Definition bump_epoch (s : ota) : ota :=
  Ota (s_state s) (s_inactive s) (s_img_len s) (s_last_off s) (s_expected_crc s) (s_img_crc s)
      (s_fw_version s) (s_err s) (s_erasing s) (s_erase_at s) (s_erase_end s)
      (u32 (s_erase_epoch s + 1)) (s_trial s) (s_frame_seen s) (s_reset s).
Definition set_session (inactive img_len expected_crc fw_version : Z) (s : ota) : ota :=
  Ota (s_state s) inactive img_len 0 expected_crc (s_img_crc s)
      fw_version (s_err s) (s_erasing s) (s_erase_at s) (s_erase_end s) (s_erase_epoch s)
      (s_trial s) (s_frame_seen s) (s_reset s).
Definition set_trial (t seen : bool) (s : ota) : ota :=
  Ota (s_state s) (s_inactive s) (s_img_len s) (s_last_off s) (s_expected_crc s) (s_img_crc s)
      (s_fw_version s) (s_err s) (s_erasing s) (s_erase_at s) (s_erase_end s) (s_erase_epoch s)
      t seen (s_reset s).
Definition ota_system_reset (s : ota) : ota :=
  Ota (s_state s) (s_inactive s) (s_img_len s) (s_last_off s) (s_expected_crc s) (s_img_crc s)
      (s_fw_version s) (s_err s) (s_erasing s) (s_erase_at s) (s_erase_end s) (s_erase_epoch s)
      (s_trial s) (s_frame_seen s) true.

(** The slot this build does not run from. *)
Definition other_slot (b : app_build) : Z :=
  if OTA_RUNNING_SLOT b =? OTA_SLOT_A then OTA_SLOT_B else OTA_SLOT_A.

(** Static initialisers (reset state). *)
Definition ota_init (b : app_build) : ota :=
  Ota OTA_ST_IDLE (other_slot b) 0 0 0 0 0 0 false 0 0 0 false false false.

Definition fail (e : Z) (s : ota) : ota := set_err e (set_state OTA_ST_ERROR s).

Definition ota_session_reject (err : Z) (s : ota) : ota :=
  set_err err (set_state OTA_ST_ERROR (bump_epoch s)).

Definition ota_session_active (s : ota) : bool :=
  negb (bool_decide (s_state s = OTA_ST_IDLE)) && negb (bool_decide (s_state s = OTA_ST_ERROR)).
Definition ota_erase_active (s : ota) : bool := s_erasing s.
Definition ota_trial_unconfirmed (s : ota) : bool := s_trial s.
Definition ota_note_frame (s : ota) : ota := set_trial (s_trial s) true s.

(** [ota_inactive_base]. *)
Definition ota_inactive_base (s : ota) : Z :=
  match ota_slot_base_checked (s_inactive s) with
  | Some base => base
  | None => OTA_SLOT_A_BASE
  end.

Section ota.
Context {F : Type} `{FlashHal F}.
Variable b : app_build.

(** ** A/B metadata *)

Definition meta_read (f : F) (addr : Z) : option ota_meta_record :=
  let p := meta_of_bytes (ota_fmc_flash_ptr f addr sizeof_meta) in
  if negb (magic p =? OTA_META_MAGIC) || negb (struct_version p =? OTA_META_STRUCT_VER)
  then None
  else if negb (meta_crc p =? rec_crc32 p) then None
  else Some p.

(** The winning record and its page; REC0 wins equal counters. *)
Definition meta_pick_newest (a b : option ota_meta_record) : option (ota_meta_record * Z) :=
  match a, b with
  | Some a, Some b =>
      if counter b <=? counter a then Some (a, OTA_META_REC0) else Some (b, OTA_META_REC1)
  | Some a, None => Some (a, OTA_META_REC0)
  | None, Some b => Some (b, OTA_META_REC1)
  | None, None => None
  end.

Definition meta_current (f : F) : option (ota_meta_record * Z) :=
  meta_pick_newest (meta_read f OTA_META_REC0) (meta_read f OTA_META_REC1).

Definition meta_page_rank (r : option ota_meta_record) : Z :=
  match r with
  | None => 0
  | Some r => if active_slot r =? OTA_RUNNING_SLOT b then 2 else 1
  end.

(** The page [meta_commit] erases when no override is given. *)
Definition meta_target (a c : option ota_meta_record) : Z :=
  let rank_a := meta_page_rank a in
  let rank_b := meta_page_rank c in
  if negb (rank_a =? rank_b) then
    if rank_a <? rank_b then OTA_META_REC0 else OTA_META_REC1
  else
    match a, c with
    | Some a, Some c => if counter c <=? counter a then OTA_META_REC1 else OTA_META_REC0
    | _, _ => OTA_META_REC0
    end.

Definition meta_zero : ota_meta_record := Meta 0 0 0 0 0 0 0 (0, 0) (0, 0) (0, 0) 0.

(** [rec.rec_crc32 = ota_crc32(0, &rec, offsetof(rec_crc32))]. *)
Definition seal (r : ota_meta_record) : ota_meta_record :=
  Meta (magic r) (struct_version r) (counter r) (active_slot r) (slot_valid r) (flags r) (pad1 r)
       (fw_version r) (img_len r) (img_crc32 r) (meta_crc r).

(** The record [meta_commit] writes, from the newest one. *)
Definition meta_next (r : ota_meta_record) (active : Z) (update_entry : bool)
    (fw_ver len crc fl invalidate_slot : Z) : ota_meta_record :=
  let valid := Z.lor (slot_valid r) (u8 (Z.shiftl 1 active)) in
  let inval := (invalidate_slot =? OTA_SLOT_A) || (invalidate_slot =? OTA_SLOT_B) in
  let valid := if inval then Z.land valid (u8 (Z.lnot (Z.shiftl 1 invalidate_slot))) else valid in
  let lens := if inval then aset (img_len r) invalidate_slot 0 else img_len r in
  let crcs := if inval then aset (img_crc32 r) invalidate_slot 0 else img_crc32 r in
  let vers := fw_version r in
  let '(vers, lens, crcs) :=
    if update_entry then (aset vers active fw_ver, aset lens active len, aset crcs active crc)
    else (vers, lens, crcs) in
  seal (Meta OTA_META_MAGIC OTA_META_STRUCT_VER (u32 (counter r + 1)) active valid fl
             (pad1 r) vers lens crcs (rec_crc32 r)).

Definition meta_newest_or_zero (f : F) : ota_meta_record :=
  match meta_current f with Some (r, _) => r | None => meta_zero end.

Definition meta_commit_target (f : F) (target_override : Z) : Z :=
  if negb (target_override =? 0) then target_override
  else meta_target (meta_read f OTA_META_REC0) (meta_read f OTA_META_REC1).

Definition meta_commit (f : F) (active : Z) (update_entry : bool) (fw_ver len crc fl : Z)
    (target_override invalidate_slot : Z) : F * bool :=
  let r := meta_newest_or_zero f in
  let target := meta_commit_target f target_override in
  if (if negb (fl =? 0) then OTA_META_COUNTER_LIMIT - 1 else OTA_META_COUNTER_LIMIT)
       <=? counter r
  then (f, false)
  else
    match ota_fmc_erase_range f target OTA_PAGE_SIZE with
    | (f1, OTA_FMC_RESULT_OK) =>
        let '(f2, res) := ota_fmc_program f1 target
          (meta_bytes (meta_next r active update_entry fw_ver len crc fl invalidate_slot)) in
        (f2, bool_decide (res = OTA_FMC_RESULT_OK))
    | (f1, _) => (f1, false)
    end.

(** ** Trial and confirm *)

Definition find_running_slot_record (f : F) : option (ota_meta_record * Z) :=
  let best :=
    match meta_read f OTA_META_REC0 with
    | Some a => if active_slot a =? OTA_RUNNING_SLOT b then Some (a, OTA_META_REC0) else None
    | None => None
    end in
  match meta_read f OTA_META_REC1 with
  | Some c =>
      if (active_slot c =? OTA_RUNNING_SLOT b) &&
         match best with None => true | Some (r, _) => counter r <? counter c end
      then Some (c, OTA_META_REC1) else best
  | None => best
  end.

Definition ota_boot_init (f : F) (s : ota) : F * ota :=
  let s := set_trial false false s in
  if negb (@ota_fmc_supported F _) then (f, s)
  else
    let run_rec_trial :=
      match find_running_slot_record f with Some (r, _) => is_trial r | None => false end in
    let s := if run_rec_trial then set_trial true false s else s in
    if negb run_rec_trial then
      match meta_current f with
      | Some (newest, _) =>
          if negb (active_slot newest =? OTA_RUNNING_SLOT b) && is_trial newest then
            let f := ota_fault_loop_clear f in
            ((meta_commit f (OTA_RUNNING_SLOT b) false 0 0 0 0 0 (active_slot newest)).1, s)
          else (f, s)
      | None => (f, s)
      end
    else (f, s).

Definition ota_confirm_tick (f : F) (s : ota) : F * ota :=
  if negb (s_trial s) || negb (s_frame_seen s) then (f, s)
  else
    match find_running_slot_record f with
    | None => (f, s)
    | Some (_, which) =>
        match meta_commit f (OTA_RUNNING_SLOT b) false 0 0 0 0 which 0xFF with
        | (f, false) => (f, s)
        | (f, true) => (ota_fault_loop_clear f, ota_system_reset s)
        end
    end.

(** ** Opcode handlers *)

Definition h_begin (f : F) (s : ota) (req : list Z) (cap : Z) : F * ota * reply :=
  let len := Z.of_nat (length req) in
  if len <? 8 then (f, s, (STATUS_INVAL, None))
  else
    let img_len := le32 req in
    let expected_crc := le32 (drop 4 req) in
    let fw_version :=
      if 11 <=? len then Z.lor (Z.lor (Z.shiftl req.[8] 16) (Z.shiftl req.[9] 8)) req.[10]
      else 0 in
    if (img_len =? 0) || (OTA_SLOT_SIZE <? img_len) then
      (f, ota_session_reject BRIDGE_OTA_ERR_SESSION_RANGE s, (STATUS_OUT_OF_RANGE, None))
    else
      let inactive := other_slot b in
      let erase_at :=
        match ota_slot_base_checked inactive with Some base => base | None => OTA_SLOT_A_BASE end in
      let erase_end := u32 (erase_at + OTA_SLOT_SIZE) in
      if (erase_at <? OTA_RUNNING_SLOT_END b) && (OTA_RUNNING_SLOT_BASE b <? erase_end) then
        (f, ota_session_reject BRIDGE_OTA_ERR_ERASE_TARGET s, (STATUS_INVAL, None))
      else
        let arm f :=
          let s := bump_epoch s in
          let s := set_session inactive img_len expected_crc fw_version s in
          let s := set_erase true erase_at erase_end s in
          let s := set_state OTA_ST_BUSY s in
          (f, s, (STATUS_OK,
                  if 3 <=? cap then
                    Some [Z.land OTA_CHUNK_MAX 0xFF; u8 (Z.shiftr OTA_CHUNK_MAX 8); s_inactive s]
                  else None)) in
        match meta_current f with
        | None => arm f
        | Some (cur, _) =>
            if OTA_META_BEGIN_MAX_COUNTER <? counter cur then
              (f, ota_session_reject BRIDGE_OTA_ERR_META_DEMOTE_FAILED s, (STATUS_IO, None))
            else if ota_fmc_funnel_busy f then (f, s, (STATUS_BUSY, None))
            else
              match meta_commit f (active_slot cur) false 0 0 0 (flags cur) 0 inactive with
              | (f, false) =>
                  (f, ota_session_reject BRIDGE_OTA_ERR_META_DEMOTE_FAILED s, (STATUS_IO, None))
              | (f, true) => arm f
              end
        end.

Definition h_write (f : F) (s : ota) (req : list Z) (cap : Z) : F * ota * reply :=
  let len := Z.of_nat (length req) in
  let ack s := if 4 <=? cap then Some (put32 (s_last_off s)) else None in
  if negb (bool_decide (s_state s = OTA_ST_READY)) then (f, s, (STATUS_NOT_READY, None))
  else if len <? 5 then (f, s, (STATUS_INVAL, None))
  else
    let off := le32 req in
    let dlen := req.[4] in
    let data := drop 5 req in
    if (dlen =? 0) || negb (dlen =? len - 5) then (f, s, (STATUS_INVAL, None))
    else if (OTA_SLOT_SIZE <? off) || (OTA_SLOT_SIZE - off <? dlen) then
      (f, fail BRIDGE_OTA_ERR_CHUNK_RANGE s, (STATUS_OUT_OF_RANGE, None))
    else if negb (off mod OTA_PROGRAM_GRANULE =? 0) then (f, s, (STATUS_INVAL, None))
    else if u32 (off + dlen) <=? s_last_off s then
      if bool_decide (ota_fmc_flash_ptr f (ota_inactive_base s + off) (Z.to_nat dlen) = data) then
        let s := set_state OTA_ST_READY s in
        (f, s, (STATUS_OK, ack s))
      else (f, fail BRIDGE_OTA_ERR_PROGRAM_FAILED s, (STATUS_IO, None))
    else
      let s := set_state OTA_ST_BUSY s in
      match ota_fmc_program f (ota_inactive_base s + off) data with
      | (f, OTA_FMC_RESULT_OK) =>
          let s := if s_last_off s <? u32 (off + dlen) then set_last_off (u32 (off + dlen)) s else s in
          let s := set_state OTA_ST_READY s in
          (f, s, (STATUS_OK, ack s))
      | (f, res) =>
          (f, fail BRIDGE_OTA_ERR_PROGRAM_FAILED s,
           (if bool_decide (res = OTA_FMC_RESULT_TIMEOUT) then STATUS_TIMEOUT else STATUS_IO, None))
      end.

(** The first [n] bytes of the inactive slot. *)
Definition slot_bytes (f : F) (s : ota) (n : Z) : list Z :=
  ota_fmc_flash_ptr f (ota_inactive_base s) (Z.to_nat n).

Definition h_verify (f : F) (s : ota) (cap : Z) : F * ota * reply :=
  if negb (bool_decide (s_state s = OTA_ST_READY)) then (f, s, (STATUS_NOT_READY, None))
  else if (s_img_len s =? 0) || (OTA_SLOT_SIZE <? s_img_len s) then
    (f, fail BRIDGE_OTA_ERR_SESSION_RANGE s, (STATUS_INVAL, None))
  else
    let crc := ota_crc32 0 (slot_bytes f s (s_img_len s)) in
    let s := set_img_crc crc s in
    let ok := crc =? s_expected_crc s in
    let s := set_state (if ok then OTA_ST_VERIFIED else OTA_ST_ERROR) s in
    let s := if ok then s else set_err BRIDGE_OTA_ERR_VERIFY_CRC s in
    (f, s, (STATUS_OK,
            if 5 <=? cap then Some (put32 crc ++ [if ok then 1 else 0]) else None)).

Definition h_commit (f : F) (s : ota) : F * ota * reply :=
  if negb (bool_decide (s_state s = OTA_ST_VERIFIED)) then (f, s, (STATUS_NOT_READY, None))
  else if (s_img_len s =? 0) || (OTA_SLOT_SIZE <? s_img_len s) then
    (f, fail BRIDGE_OTA_ERR_SESSION_RANGE s, (STATUS_INVAL, None))
  else
    let img := Some (slot_bytes f s (s_img_len s)) in
    if negb (ota_image_bootable (ota_inactive_base s) img (s_img_len s)) then
      (f, fail BRIDGE_OTA_ERR_COMMIT_FAILED s, (STATUS_INVAL, None))
    else if negb (ota_image_trial_capable img (s_img_len s)) then
      (f, fail BRIDGE_OTA_ERR_NOT_TRIAL_CAPABLE s, (STATUS_INVAL, None))
    else if match meta_current f with
            | Some (floor_rec, _) => s_fw_version s <? ota_version_floor floor_rec
            | None => false
            end then
      (f, fail BRIDGE_OTA_ERR_BELOW_FLOOR s, (STATUS_INVAL, None))
    else
      match meta_commit f (s_inactive s) true (s_fw_version s) (s_img_len s) (s_img_crc s)
              OTA_META_FLAG_TRIAL 0 0xFF with
      | (f, false) => (f, fail BRIDGE_OTA_ERR_COMMIT_FAILED s, (STATUS_IO, None))
      | (f, true) => (f, ota_system_reset s, (STATUS_OK, None))
      end.

Definition h_rollback (f : F) (s : ota) : F * ota * reply :=
  if negb (bool_decide (s_state s = OTA_ST_IDLE)) && negb (bool_decide (s_state s = OTA_ST_ERROR))
  then (f, s, (STATUS_BUSY, None))
  else
    match meta_current f with
    | None => (f, s, (STATUS_INVAL, None))
    | Some (cur, _) =>
        if negb (active_slot cur =? OTA_SLOT_A) && negb (active_slot cur =? OTA_SLOT_B)
        then (f, s, (STATUS_INVAL, None))
        else
          let other := if active_slot cur =? OTA_SLOT_A then OTA_SLOT_B else OTA_SLOT_A in
          let len := aget (img_len cur) other in
          if (Z.land (slot_valid cur) (u8 (Z.shiftl 1 other)) =? 0) || (len =? 0)
             || (OTA_SLOT_SIZE <? len)
          then (f, s, (STATUS_INVAL, None))
          else if aget (fw_version cur) other <? ota_version_floor cur then
            (f, fail BRIDGE_OTA_ERR_BELOW_FLOOR s, (STATUS_INVAL, None))
          else
            match ota_slot_base_checked other with
            | None => (f, s, (STATUS_INVAL, None))
            | Some other_base =>
                let img := ota_fmc_flash_ptr f other_base (Z.to_nat len) in
                if negb (ota_crc32 0 img =? aget (img_crc32 cur) other)
                   || negb (ota_image_bootable other_base (Some img) len)
                then (f, s, (STATUS_INVAL, None))
                else
                  let rollback_flags :=
                    if ota_image_trial_capable (Some img) len then OTA_META_FLAG_TRIAL else 0 in
                  match meta_commit f other false 0 0 0 rollback_flags 0 0xFF with
                  | (f, false) => (f, s, (STATUS_IO, None))
                  | (f, true) => (f, ota_system_reset s, (STATUS_OK, None))
                  end
            end
    end.

Definition h_get_state (f : F) (s : ota) (cap : Z) : F * ota * reply :=
  let gen := match meta_current f with Some (cur, _) => u16 (counter cur) | None => 0 end in
  let in_progress := bool_decide (s_state s = OTA_ST_READY) || bool_decide (s_state s = OTA_ST_BUSY)
                     || bool_decide (s_state s = OTA_ST_VERIFIED) in
  (f, s, (STATUS_OK,
          if 6 <=? cap then
            Some [ota_state_code (s_state s); OTA_RUNNING_SLOT b;
                  if in_progress then s_inactive s else 0xFF;
                  Z.land gen 0xFF; u8 (Z.shiftr gen 8); s_err s]
          else None)).

Definition h_abort (s : ota) : ota :=
  set_err BRIDGE_OTA_ERR_NONE (set_state OTA_ST_IDLE (set_erasing false (bump_epoch s))).

Definition ota_dispatch (f : F) (s : ota) (cmd : Z) (req : list Z) (cap : Z)
    : F * ota * reply :=
  if negb (@ota_fmc_supported F _) then (f, s, (STATUS_NOSUPPORT, Some []))
  else
    let '(f, s, (st, payload)) :=
      match cmd_of_code cmd with
      | Some CMD_OTA_BEGIN => h_begin f s req cap
      | Some CMD_OTA_WRITE_CHUNK => h_write f s req cap
      | Some CMD_OTA_VERIFY => h_verify f s cap
      | Some CMD_OTA_COMMIT => h_commit f s
      | Some CMD_OTA_ROLLBACK => h_rollback f s
      | Some CMD_OTA_GET_STATE => h_get_state f s cap
      | Some CMD_OTA_ABORT => (f, h_abort s, (STATUS_OK, None))
      | _ => (f, s, (STATUS_NOSUPPORT, None))
      end in
    (f, s, (st, Some (default [] payload))).

(** ** Background erase pump

    [ota_erase_tick] samples the session under the lock, erases one page
    region with interrupts enabled, then re-checks and publishes under the
    lock.  A transport interrupt may run [ota_dispatch] between the parts. *)
Record erase_snapshot := EraseSnapshot { sn_epoch : Z; sn_at : Z; sn_end : Z }.

Definition tick_snapshot (s : ota) : option erase_snapshot :=
  if s_erasing s then Some (EraseSnapshot (s_erase_epoch s) (s_erase_at s) (s_erase_end s))
  else None.

Definition tick_publish (s : ota) (sn : erase_snapshot) (res : ota_fmc_result) : ota :=
  if negb (s_erasing s) || negb (s_erase_epoch s =? sn_epoch sn) then s
  else
    match res with
    | OTA_FMC_RESULT_OK =>
        let s := set_erase (s_erasing s) (u32 (sn_at sn + OTA_PAGE_SIZE)) (s_erase_end s) s in
        if sn_end sn <=? s_erase_at s then
          let s := set_erasing false s in
          if bool_decide (s_state s = OTA_ST_BUSY) then set_state OTA_ST_READY s else s
        else s
    | _ => set_err BRIDGE_OTA_ERR_ERASE_FAILED (set_state OTA_ST_ERROR (set_erasing false s))
    end.

Definition ota_erase_tick (f : F) (s : ota) : F * ota :=
  match tick_snapshot s with
  | None => (f, s)
  | Some sn =>
      let '(f, res) := ota_fmc_erase_range f (sn_at sn) OTA_PAGE_SIZE in
      (f, tick_publish s sn res)
  end.
End ota.
