(* ===== verification/OtaMeta.v ===== *)
(** * Metadata commits: what [meta_commit] of [src/ota.c] guarantees

    Reading, ranking and committing the A/B records, related to what the
    bootloader reads: the application and the bootloader agree on every
    record, a successful commit is the new current record, a failed or
    interrupted one touches only the target page, and the target is chosen so
    that the record the running image was booted from survives. *)

From stdpp Require Import base tactics list numbers option.
From S2P Require Import Prelude Crc Wire OtaLayout Flash BootDecide Ota.

(** The bootloader's view of the same flash. *)
Definition flash_map `{FlashHal F} (f : F) : boot_flash_map_fn := map_flash (flash_byte f).

Definition is_meta_page (p : Z) : Prop := p = OTA_META_REC0 \/ p = OTA_META_REC1.
Definition other_page (p : Z) : Z := if p =? OTA_META_REC0 then OTA_META_REC1 else OTA_META_REC0.

(** Arguments of [meta_commit] that fit their C types. *)
Record commit_args_ok (active : Z) (fw_ver len crc fl : Z) : Prop := {
  ca_active : is_byte active; ca_fw : is_u32 fw_ver; ca_len : is_u32 len;
  ca_crc : is_u32 crc; ca_fl : is_byte fl }.

Section meta.
Context {F} `{FlashLaws F b}.

(** ** Reading *)

Lemma meta_read_some (f : F) addr r :
  meta_read f addr = Some r <->
  r = meta_of_bytes (bytes_at (flash_byte f) addr sizeof_meta) /\
  magic r = OTA_META_MAGIC /\ struct_version r = OTA_META_STRUCT_VER /\ meta_crc r = rec_crc32 r.
Proof.
  unfold meta_read, ota_fmc_flash_ptr. split.
  - repeat case_match; intros; simplify_eq. repeat split; lia.
  - intros (-> & -> & -> & ->). by rewrite !Z.eqb_refl.
Qed.

Lemma meta_read_boot (f : F) addr : BootDecide.meta_read (flash_map f) addr = meta_read f addr.
Proof.
  destruct (meta_read f addr) as [r |] eqn:E.
  - apply meta_read_map_flash. by apply meta_read_some.
  - destruct (BootDecide.meta_read (flash_map f) addr) as [r |] eqn:E'; [| done].
    apply meta_read_map_flash, meta_read_some in E'. congruence.
Qed.

Lemma meta_read_ok (f : F) addr r : meta_read f addr = Some r -> meta_ok r.
Proof. intros [-> _]%meta_read_some. apply meta_of_bytes_ok, flash_bytes_ok. Qed.

Lemma meta_current_some (f : F) r p :
  meta_current f = Some (r, p) ->
  is_meta_page p /\ meta_read f p = Some r /\
  forall r', meta_read f (other_page p) = Some r' -> counter r' <= counter r.
Proof.
  unfold meta_current, meta_pick_newest, is_meta_page.
  destruct (meta_read f OTA_META_REC0) as [x |] eqn:E0,
           (meta_read f OTA_META_REC1) as [y |] eqn:E1;
    [destruct (Z.leb_spec (counter y) (counter x)) | | |]; intros [= <- <-];
    (split; [auto |]); (split; [done |]); intros r'; unfold other_page; simpl;
    rewrite ?E0, ?E1; intros; simplify_eq; lia.
Qed.

Lemma meta_current_none (f : F) :
  meta_current f = None <-> meta_read f OTA_META_REC0 = None /\ meta_read f OTA_META_REC1 = None.
Proof.
  unfold meta_current, meta_pick_newest.
  destruct (meta_read f OTA_META_REC0) as [x |], (meta_read f OTA_META_REC1) as [y |];
    [destruct (counter y <=? counter x) | | |]; split; try done; by intros [? ?].
Qed.

Lemma meta_current_ok (f : F) r p : meta_current f = Some (r, p) -> meta_ok r.
Proof. intros (_ & Hr & _)%meta_current_some. by eapply meta_read_ok. Qed.

Lemma meta_zero_ok : meta_ok meta_zero.
Proof. split; simpl; unfold is_u32, is_byte; lia. Qed.

Lemma meta_newest_ok (f : F) : meta_ok (meta_newest_or_zero f).
Proof.
  unfold meta_newest_or_zero. destruct (meta_current f) as [[r p] |] eqn:E.
  - by eapply meta_current_ok.
  - apply meta_zero_ok.
Qed.

Lemma other_page_page p : is_meta_page (other_page p).
Proof. unfold other_page, is_meta_page. case_match; auto. Qed.

Lemma other_page_invol p : is_meta_page p -> other_page (other_page p) = p.
Proof. by intros [-> | ->]. Qed.

Lemma other_page_ne p : is_meta_page p -> other_page p <> p.
Proof. by intros [-> | ->]. Qed.

(** A page's record survives a change confined to the other page. *)
Lemma meta_read_frame (f f' : F) p q :
  flash_frame f f' q OTA_PAGE_SIZE -> is_meta_page p -> is_meta_page q -> p <> q ->
  meta_read f' p = meta_read f p.
Proof.
  intros Hf Hp Hq Hne. unfold meta_read, ota_fmc_flash_ptr.
  rewrite (bytes_at_frame f f' q OTA_PAGE_SIZE); [done | done |].
  destruct Hp as [-> | ->], Hq as [-> | ->]; try done;
    unfold OTA_META_REC0, OTA_META_REC1, OTA_PAGE_SIZE, sizeof_meta; lia.
Qed.

(** ** The record written *)

Lemma lor_byte x y : is_byte x -> is_byte y -> is_byte (Z.lor x y).
Proof.
  intros Hx Hy. rewrite <- (u8_id x), <- (u8_id y) by done. unfold u8, is_byte.
  change 0x100 with (2 ^ 8). rewrite <- !Z.land_ones, <- Z.land_lor_distr_l, Z.land_ones by lia.
  apply Z.mod_pos_bound. lia.
Qed.

Lemma land_byte x y : is_byte y -> is_byte (Z.land x y).
Proof.
  intros Hy. rewrite <- (u8_id y) by done. unfold u8, is_byte.
  change 0x100 with (2 ^ 8). rewrite <- Z.land_ones, Z.land_assoc, Z.land_ones by lia.
  apply Z.mod_pos_bound. lia.
Qed.

Lemma aset_u32 a s v :
  is_u32 a.1 -> is_u32 a.2 -> is_u32 v -> is_u32 (aset a s v).1 /\ is_u32 (aset a s v).2.
Proof. unfold aset. case_match; done. Qed.

Lemma zero_u32 : is_u32 0.
Proof. unfold is_u32; lia. Qed.

Lemma seal_ok r : meta_ok r -> meta_ok (seal r).
Proof.
  intros Hr. assert (Hc : is_u32 (meta_crc r)).
  { unfold meta_crc. apply ota_crc32_u32; [apply zero_u32 | by apply meta_body_ok]. }
  destruct Hr. by split.
Qed.

Lemma seal_crc r : meta_crc (seal r) = rec_crc32 (seal r).
Proof. unfold meta_crc, seal at 2. cbn [rec_crc32]. unfold meta_crc. by destruct r. Qed.

Lemma meta_next_fields r active up fw len crc fl inv :
  let n := meta_next r active up fw len crc fl inv in
  magic n = OTA_META_MAGIC /\ struct_version n = OTA_META_STRUCT_VER /\
  counter n = u32 (counter r + 1) /\ active_slot n = active /\ flags n = fl /\
  meta_crc n = rec_crc32 n.
Proof.
  cbv zeta. unfold meta_next. destruct up; rewrite seal_crc;
    cbn [seal magic struct_version counter active_slot flags rec_crc32]; tauto.
Qed.

Lemma meta_fields_ok c a v fl pd vers lens crcs rc :
  is_byte a -> is_byte v -> is_byte fl -> is_byte pd ->
  is_u32 vers.1 -> is_u32 vers.2 -> is_u32 lens.1 -> is_u32 lens.2 ->
  is_u32 crcs.1 -> is_u32 crcs.2 -> is_u32 rc ->
  meta_ok (Meta OTA_META_MAGIC OTA_META_STRUCT_VER (u32 c) a v fl pd vers lens crcs rc).
Proof.
  intros. split; cbn [magic struct_version counter active_slot slot_valid flags pad1 fw_version
    img_len img_crc32 rec_crc32]; try assumption; [| | apply u32_u32];
    unfold is_u32, OTA_META_MAGIC, OTA_META_STRUCT_VER; lia.
Qed.

Lemma meta_next_ok r active up fw len crc fl inv :
  meta_ok r -> commit_args_ok active fw len crc fl ->
  meta_ok (meta_next r active up fw len crc fl inv).
Proof.
  intros Hr Ha.
  assert (Hz : forall a (c : bool), is_u32 a.1 -> is_u32 a.2 ->
    is_u32 (if c then aset a inv 0 else a).1 /\ is_u32 (if c then aset a inv 0 else a).2).
  { intros a [|]; [|done]. intros. apply aset_u32; auto using zero_u32. }
  assert (Hv : forall c : bool, is_byte
    (if c then Z.land (Z.lor (slot_valid r) (u8 (Z.shiftl 1 active))) (u8 (Z.lnot (Z.shiftl 1 inv)))
     else Z.lor (slot_valid r) (u8 (Z.shiftl 1 active)))).
  { intros [|]; [apply land_byte, u8_byte |]. apply lor_byte; [apply Hr | apply u8_byte]. }
  destruct (Hz (img_len r) ((inv =? OTA_SLOT_A) || (inv =? OTA_SLOT_B))) as [Hl0 Hl1]; [apply Hr.. |].
  destruct (Hz (img_crc32 r) ((inv =? OTA_SLOT_A) || (inv =? OTA_SLOT_B))) as [Hc0 Hc1]; [apply Hr.. |].
  specialize (Hv ((inv =? OTA_SLOT_A) || (inv =? OTA_SLOT_B))).
  destruct (aset_u32 (fw_version r) active fw) as [Hw0 Hw1]; [apply Hr | apply Hr | apply Ha |].
  unfold meta_next. destruct up; apply seal_ok.
  - pose proof (aset_u32 _ active len Hl0 Hl1 (ca_len _ _ _ _ _ Ha)) as [].
    pose proof (aset_u32 _ active crc Hc0 Hc1 (ca_crc _ _ _ _ _ Ha)) as [].
    apply meta_fields_ok; apply Ha || apply Hr || assumption.
  - apply meta_fields_ok; apply Ha || apply Hr || assumption.
Qed.

(** ** The page rule *)

Lemma meta_target_page a c : is_meta_page (meta_target b a c).
Proof. unfold meta_target, is_meta_page. repeat case_match; auto. Qed.

Lemma meta_commit_target_page (f : F) ov :
  (ov = 0 \/ is_meta_page ov) -> is_meta_page (meta_commit_target b f ov).
Proof.
  unfold meta_commit_target. intros Hov. destruct (Z.eqb_spec ov 0); simpl.
  - apply meta_target_page.
  - by destruct Hov.
Qed.

Lemma meta_page_in_flash p n : is_meta_page p -> 0 <= n <= OTA_PAGE_SIZE -> in_flash p n.
Proof.
  unfold in_flash, OTA_PAGE_SIZE, OTA_BOOTLOADER_BASE, OTA_FLASH_END.
  intros [-> | ->]; unfold OTA_META_REC0, OTA_META_REC1, OTA_META_BASE, OTA_PAGE_SIZE; lia.
Qed.

(** ** Committing *)

Lemma flash_frame_trans (f f1 f2 : F) a n a' n' :
  flash_frame f f1 a n -> flash_frame f1 f2 a' n' -> a <= a' -> a' + n' <= a + n ->
  flash_frame f f2 a n.
Proof. intros H1 H2 ?? x Hx. rewrite H2 by lia. apply H1. lia. Qed.

Lemma flash_frame_refl (f : F) a n : flash_frame f f a n.
Proof. done. Qed.

Lemma round8_meta : round8 (Z.of_nat sizeof_meta) = 48.
Proof. done. Qed.

Lemma record_in_flash p r : is_meta_page p -> in_flash p (round8 (Z.of_nat (length (meta_bytes r)))).
Proof.
  intros. change (Z.of_nat _) with (Z.of_nat sizeof_meta). rewrite round8_meta.
  apply meta_page_in_flash; [done | unfold OTA_PAGE_SIZE; lia].
Qed.

Lemma page_in_flash p : is_meta_page p -> in_flash p OTA_PAGE_SIZE.
Proof. intros. apply meta_page_in_flash; [done | unfold OTA_PAGE_SIZE; lia]. Qed.

(** Whatever happens, a commit touches only its target page. *)
Lemma meta_commit_frame (f : F) active up fw len crc fl ov inv :
  (ov = 0 \/ is_meta_page ov) ->
  flash_frame f (meta_commit b f active up fw len crc fl ov inv).1
    (meta_commit_target b f ov) OTA_PAGE_SIZE.
Proof.
  intros Hov. pose proof (meta_commit_target_page f ov Hov) as Hpg.
  unfold meta_commit. destruct (_ <=? counter _); [done |].
  set (t := meta_commit_target b f ov) in *.
  pose proof (fl_erase_frame f t OTA_PAGE_SIZE (page_in_flash t Hpg)) as Hf.
  destruct (ota_fmc_erase_range f t OTA_PAGE_SIZE) as [f1 []]; try done.
  set (n := meta_next _ _ _ _ _ _ _ _).
  pose proof (fl_program_frame f1 t (meta_bytes n) (record_in_flash t n Hpg)) as Hp.
  destruct (ota_fmc_program f1 t (meta_bytes n)) as [f2 res]; simpl in *.
  eapply flash_frame_trans; [done | done | lia |].
  change (Z.of_nat _) with (Z.of_nat sizeof_meta). rewrite round8_meta.
  unfold OTA_PAGE_SIZE. lia.
Qed.

Definition commit_limit (fl : Z) : Z :=
  if negb (fl =? 0) then OTA_META_COUNTER_LIMIT - 1 else OTA_META_COUNTER_LIMIT.

(** Writing a well-formed record to an erased page makes it the page's record. *)
Lemma meta_read_written (f : F) p r :
  meta_ok r -> magic r = OTA_META_MAGIC -> struct_version r = OTA_META_STRUCT_VER ->
  meta_crc r = rec_crc32 r ->
  bytes_at (flash_byte f) p sizeof_meta = meta_bytes r -> meta_read f p = Some r.
Proof.
  intros Hok Hm Hv Hc Hb. apply meta_read_some. rewrite Hb, meta_of_meta_bytes by done. done.
Qed.

Lemma meta_commit_true (f f' : F) active up fw len crc fl ov inv :
  commit_args_ok active fw len crc fl -> (ov = 0 \/ is_meta_page ov) ->
  meta_commit b f active up fw len crc fl ov inv = (f', true) ->
  meta_read f' (meta_commit_target b f ov) =
    Some (meta_next (meta_newest_or_zero f) active up fw len crc fl inv) /\
  counter (meta_newest_or_zero f) < commit_limit fl.
Proof.
  intros Ha Hov. pose proof (meta_commit_target_page f ov Hov) as Hpg. unfold meta_commit. fold (commit_limit fl).
  destruct (Z.leb_spec (commit_limit fl) (counter (meta_newest_or_zero f))) as [|Hlt]; [done |].
  set (t := meta_commit_target b f ov) in *. set (n := meta_next _ _ _ _ _ _ _ _).
  pose proof (fun a => fl_erase_ok f t OTA_PAGE_SIZE a (page_in_flash t Hpg)) as He.
  destruct (ota_fmc_erase_range f t OTA_PAGE_SIZE) as [f1 []]; try done; simpl in He.
  assert (Hn : meta_ok n) by (apply meta_next_ok; [apply meta_newest_ok | done]).
  pose proof (fl_program_ok f1 t (meta_bytes n) (record_in_flash t n Hpg) (meta_bytes_ok n Hn)) as Hp.
  destruct (ota_fmc_program f1 t (meta_bytes n)) as [f2 res]; simpl in *.
  intros [= <- Hres%bool_decide_eq_true]. split; [| done].
  destruct (meta_next_fields (meta_newest_or_zero f) active up fw len crc fl inv)
    as (Hm & Hv & _ & _ & _ & Hc).
  apply meta_read_written; [done | done | done | done |].
  apply Hp; [| done]. intros a Hr. apply He; [done |].
  change (Z.of_nat _) with (Z.of_nat sizeof_meta) in Hr. rewrite round8_meta in Hr.
  unfold OTA_PAGE_SIZE. lia.
Qed.

Lemma meta_counter_small fl : commit_limit fl <= 0xFFFFFFF0.
Proof. unfold commit_limit, OTA_META_COUNTER_LIMIT. case_match; lia. Qed.

(** The counter of a committed record: one more, and never wrapped. *)
Lemma meta_next_counter (f : F) active up fw len crc fl inv :
  counter (meta_newest_or_zero f) < commit_limit fl ->
  counter (meta_next (meta_newest_or_zero f) active up fw len crc fl inv) =
    counter (meta_newest_or_zero f) + 1.
Proof.
  intros Hlt. destruct (meta_next_fields (meta_newest_or_zero f) active up fw len crc fl inv)
    as (_ & _ & -> & _). pose proof (meta_counter_small fl).
  pose proof (mo_counter _ (meta_newest_ok f)) as Hc. unfold is_u32 in Hc.
  apply u32_id. unfold is_u32. lia.
Qed.

Lemma meta_newest_bound (f : F) p r :
  is_meta_page p -> meta_read f p = Some r -> counter r <= counter (meta_newest_or_zero f).
Proof.
  intros Hp Hr. unfold meta_newest_or_zero, meta_current, meta_pick_newest.
  destruct Hp as [-> | ->]; rewrite Hr; repeat case_match; simplify_eq; lia.
Qed.

(** After a successful commit, the new record is the current one. *)
Lemma meta_commit_current (f f' : F) active up fw len crc fl ov inv :
  commit_args_ok active fw len crc fl -> (ov = 0 \/ is_meta_page ov) ->
  meta_commit b f active up fw len crc fl ov inv = (f', true) ->
  meta_current f' =
    Some (meta_next (meta_newest_or_zero f) active up fw len crc fl inv,
          meta_commit_target b f ov).
Proof.
  intros Ha Hov Hc. pose proof (meta_commit_frame f active up fw len crc fl ov inv Hov) as Hf.
  rewrite Hc in Hf; simpl in Hf.
  destruct (meta_commit_true _ _ _ _ _ _ _ _ _ _ Ha Hov Hc) as [Hr Hlt].
  pose proof (meta_next_counter f active up fw len crc fl inv Hlt) as Hn.
  set (n := meta_next _ _ _ _ _ _ _ _) in *.
  pose proof (meta_commit_target_page f ov Hov) as Hp.
  set (t := meta_commit_target b f ov) in *.
  assert (Ho : meta_read f' (other_page t) = meta_read f (other_page t)).
  { apply (meta_read_frame _ _ _ t); [done | apply other_page_page | done | by apply other_page_ne]. }
  assert (Hlt' : forall r, meta_read f' (other_page t) = Some r -> counter r < counter n).
  { intros r Hr'. rewrite Ho in Hr'.
    apply meta_newest_bound in Hr'; [lia | apply other_page_page]. }
  destruct (meta_read f' (other_page t)) as [r |] eqn:E; [specialize (Hlt' _ eq_refl) |];
    unfold meta_current, meta_pick_newest, other_page in *;
    destruct Hp as [Ht | Ht]; rewrite Ht in *; simpl in *; rewrite Hr, E; try done.
  - by destruct (Z.leb_spec (counter r) (counter n)); [| lia].
  - by destruct (Z.leb_spec (counter n) (counter r)); [lia |].
Qed.
End meta.
