(* ===== verification/OtaSafety.v ===== *)
(** * Boot safety of metadata writes

    [meta_commit] against the bootloader: a power cut at any point of a commit
    leaves the part bootable, an interrupted confirm leaves the fallback
    record, and once a BEGIN is accepted the boot decision no longer depends
    on the slot being rewritten. *)

From stdpp Require Import base tactics list numbers option.
From S2P Require Import Prelude Crc Wire OtaLayout Flash BootDecide Ota OtaMeta.

(** A commit is used through its lemmas only. *)
#[local] Opaque meta_commit.

(** A byte of slot [slot]. *)
Definition in_slot (slot a : Z) : Prop :=
  exists base, ota_slot_base_checked slot = Some base /\ base <= a < base + OTA_SLOT_SIZE.

Section safety.
Context {F} `{FlashLaws F b}.

Lemma boots_candidate (f : F) p r :
  is_meta_page p -> boots (flash_map f) p r ->
  r ∈ meta_candidates (flash_map f) /\ active_slot_valid (flash_map f) r = true.
Proof.
  intros Hp [Hr Hv]. split; [| done]. apply meta_candidates_elem. destruct Hp as [-> | ->]; auto.
Qed.

Lemma boots_decides (f : F) p r feed wdt :
  is_meta_page p -> boots (flash_map f) p r ->
  (boot_decide_slot (Some (flash_map f)) feed wdt).1.1 = true.
Proof.
  intros Hp Hb. destruct (boots_candidate f p r Hp Hb) as [Hin Hv].
  destruct (boot_decide_slot (Some (flash_map f)) feed wdt) as [[[|] d] evs] eqn:E; [done |].
  apply boot_decide_none in E as [_ Hall]. apply Hall in Hin. congruence.
Qed.

(** Validation reads only the slot it validates, and only behind the valid bit. *)
Lemma active_slot_valid_ext (f f' : F) r :
  (Z.land (slot_valid r) (u8 (Z.shiftl 1 (active_slot r))) <> 0 ->
   forall a, in_slot (active_slot r) a -> flash_byte f' a = flash_byte f a) ->
  active_slot_valid (flash_map f') r = active_slot_valid (flash_map f) r.
Proof.
  intros Hf. unfold active_slot_valid.
  destruct (ota_slot_base_checked (active_slot r)) as [base |] eqn:Hb; [| done].
  destruct (Z.eqb_spec (Z.land (slot_valid r) (u8 (Z.shiftl 1 (active_slot r)))) 0)
    as [| Hbit]; [done |].
  set (len := aget (img_len r) (active_slot r)).
  destruct ((len =? 0) || (OTA_SLOT_SIZE <? len)) eqn:Hlen; [done |].
  unfold flash_map, map_flash.
  rewrite (bytes_at_ext (flash_byte f') (flash_byte f)); [done |].
  intros a Ha. apply Hf; [done |]. exists base. split; [done |]. lia.
Qed.

Lemma meta_page_not_slot p s a :
  is_meta_page p -> in_slot s a -> ~ (p <= a < p + OTA_PAGE_SIZE).
Proof.
  intros Hp (base & Hb & Ha). apply slot_base_inv in Hb.
  unfold OTA_SLOT_SIZE, OTA_PAGE_SIZE in *.
  destruct Hp as [-> | ->], Hb as [[-> ->] | [-> ->]];
    unfold OTA_META_REC0, OTA_META_REC1, OTA_META_BASE, OTA_PAGE_SIZE,
      OTA_SLOT_A_BASE, OTA_SLOT_B_BASE in *; lia.
Qed.

(** A bootable record survives any change of the other metadata page. *)
Lemma boots_frame (f f' : F) p t r :
  is_meta_page p -> is_meta_page t -> p <> t -> flash_frame f f' t OTA_PAGE_SIZE ->
  boots (flash_map f) p r -> boots (flash_map f') p r.
Proof.
  intros Hp Ht Hne Hf [Hr Hv]. split.
  - rewrite meta_read_boot in *. rewrite (meta_read_frame f f' p t); done.
  - rewrite (active_slot_valid_ext f f'); [done |]. intros _ a Ha. apply Hf.
    by eapply meta_page_not_slot.
Qed.

(** The rank rule never targets the page of the record that names the running
    slot, unless the other page names it too with a counter at least as high. *)
Lemma meta_target_preserves (f : F) p r :
  is_meta_page p -> meta_read f p = Some r -> active_slot r = OTA_RUNNING_SLOT b ->
  (forall r', meta_read f (other_page p) = Some r' -> active_slot r' = OTA_RUNNING_SLOT b ->
     counter r' < counter r) ->
  meta_commit_target b f 0 <> p.
Proof.
  intros Hp Hr Ha Ho. unfold meta_commit_target, meta_target; simpl.
  destruct Hp as [-> | ->]; rewrite Hr; unfold other_page in Ho; simpl in Ho;
    unfold meta_page_rank; rewrite Ha, Z.eqb_refl.
  - destruct (meta_read f OTA_META_REC1) as [r' |]; [| done].
    specialize (Ho r' eq_refl). destruct (Z.eqb_spec (active_slot r') (OTA_RUNNING_SLOT b)); [| done].
    simpl. destruct (Z.leb_spec (counter r') (counter r)); [done | lia].
  - destruct (meta_read f OTA_META_REC0) as [r' |]; [| done].
    specialize (Ho r' eq_refl). destruct (Z.eqb_spec (active_slot r') (OTA_RUNNING_SLOT b)); [| done].
    simpl. destruct (Z.leb_spec (counter r) (counter r')); [lia | done].
Qed.

(** The record the running image was booted from: it names the running slot,
    validates, and no equally ranked record is newer. *)
Record booted_from (f : F) (p : Z) (r : ota_meta_record) : Prop := {
  bf_page : is_meta_page p;
  bf_boots : boots (flash_map f) p r;
  bf_running : active_slot r = OTA_RUNNING_SLOT b;
  bf_newest : forall r', meta_read f (other_page p) = Some r' ->
    active_slot r' = OTA_RUNNING_SLOT b -> counter r' < counter r }.

Lemma booted_from_read f p r : booted_from f p r -> meta_read f p = Some r.
Proof. intros [_ [Hr _] _ _]. by rewrite meta_read_boot in Hr. Qed.

(** Two records cannot both be lost: a commit leaves the page it does not
    target alone, whatever its calls on flash do. *)
Lemma meta_commit_keeps_boot (f : F) p r active up fw len crc fl ov inv feed wdt :
  is_meta_page p -> boots (flash_map f) p r -> (ov = 0 \/ is_meta_page ov) ->
  meta_commit_target b f ov <> p ->
  let f' := (meta_commit b f active up fw len crc fl ov inv).1 in
  boots (flash_map f') p r /\ (boot_decide_slot (Some (flash_map f')) feed wdt).1.1 = true.
Proof.
  intros Hp Hb Hov Hne f'.
  assert (Hb' : boots (flash_map f') p r).
  { apply (boots_frame f f' p (meta_commit_target b f ov)); try done.
    - by apply meta_commit_target_page.
    - by apply meta_commit_frame. }
  split; [done | by eapply boots_decides].
Qed.

Lemma booted_from_target f p r : booted_from f p r -> meta_commit_target b f 0 <> p.
Proof.
  intros Hbf. pose proof (booted_from_read f p r Hbf). destruct Hbf. by eapply meta_target_preserves.
Qed.

Lemma override_target (f : F) p : is_meta_page p -> meta_commit_target b f p = p.
Proof. unfold meta_commit_target. by intros [-> | ->]. Qed.
End safety.

(** ** Power cuts

    The same on a flash that loses power inside a call of the commit. *)
Section cut.
Context {F} `{FlashLaws F b}.

#[local] Instance cut_flash_hal : FlashHal (cut_flash F) := cut_hal b.
#[local] Instance cut_flash_laws : FlashLaws (cut_flash F) b := cut_laws b.

(** C5. Power cuts in a metadata commit.  Power may be lost inside any call of
    [meta_commit] on flash (the first, the second, or none, by [k]), and whatever
    bytes [g] the call leaves in the range it was working on: the page whose loss
    would matter is not that range.  Without a page override (COMMIT, ROLLBACK,
    self-heal, BEGIN's demotion), the record the running image was booted from (it
    validates, and no record of the other page that names the running slot is as
    new) still reads back and validates; with one (confirm), so does any record
    of the other page that did.  In both cases the bootloader finds something to
    boot. *)
Theorem meta_commit_power_cut (f : F) (k : nat) (g : Z -> Z) (active : Z) (up : bool)
    (fw len crc fl ov inv : Z) (p : Z) (r : ota_meta_record) (feed wdt : bool) :
  (ov = 0 /\ booted_from (b := b) f p r \/
   is_meta_page ov /\ p = other_page ov /\ boots (flash_map f) p r) ->
  let f' := (meta_commit b (CutFlash f k g None) active up fw len crc fl ov inv).1 in
  boots (flash_map f') p r /\ (boot_decide_slot (Some (flash_map f')) feed wdt).1.1 = true.
Proof.
  intros Hc f'. set (c := CutFlash f k g None : cut_flash F).
  destruct Hc as [[-> Hbf] | (Hov & -> & Hb)].
  - apply (meta_commit_keeps_boot c); [apply Hbf | apply Hbf | by left |].
    by apply (booted_from_target f p r).
  - apply (meta_commit_keeps_boot c); [apply other_page_page | done | by right |].
    rewrite (override_target c) by done. apply not_eq_sym. by apply other_page_ne.
Qed.
End cut.

Section fallback.
Context {F} `{FlashLaws F b}.

Lemma find_running_slot_record_some (f : F) r p :
  find_running_slot_record b f = Some (r, p) ->
  is_meta_page p /\ meta_read f p = Some r /\ active_slot r = OTA_RUNNING_SLOT b /\
  forall r', meta_read f (other_page p) = Some r' -> active_slot r' = OTA_RUNNING_SLOT b ->
    counter r' <= counter r.
Proof.
  unfold find_running_slot_record, is_meta_page.
  destruct (meta_read f OTA_META_REC0) as [x |] eqn:E0,
           (meta_read f OTA_META_REC1) as [y |] eqn:E1; simpl.
  4: done.
  all: try destruct (Z.eqb_spec (active_slot x) (OTA_RUNNING_SLOT b));
    try destruct (Z.eqb_spec (active_slot y) (OTA_RUNNING_SLOT b)); simpl;
    try destruct (Z.ltb_spec (counter x) (counter y)); intros; simplify_eq;
    (split; [auto |]); (split; [done |]); (split; [done |]); unfold other_page; simpl;
    rewrite ?E0, ?E1; intros; simplify_eq; lia || done.
Qed.

(** An interrupted confirm degrades to "reverted": [ota_confirm_tick]
    writes only the page of the record naming the running slot, so whatever that
    page holds if power fails inside it, a record on the other page that
    validated before still validates, and the bootloader still boots. *)
Theorem confirm_tick_keeps_fallback (f f' : F) (s : ota) (r q : ota_meta_record) (p : Z)
    (feed wdt : bool) :
  find_running_slot_record b f = Some (r, p) ->
  flash_frame f f' p OTA_PAGE_SIZE ->
  boots (flash_map f) (other_page p) q ->
  flash_frame f (ota_confirm_tick b f s).1 p OTA_PAGE_SIZE /\
  boots (flash_map f') (other_page p) q /\
  (boot_decide_slot (Some (flash_map f')) feed wdt).1.1 = true.
Proof.
  intros Hrun Hf Hb. destruct (find_running_slot_record_some f r p Hrun) as (Hp & _).
  assert (Hb' : boots (flash_map f') (other_page p) q).
  { apply (boots_frame f f' _ p); try done; [apply other_page_page | by apply other_page_ne]. }
  split; [| split; [done |]].
  - unfold ota_confirm_tick. destruct (_ || _); [done |]. rewrite Hrun.
    pose proof (meta_commit_frame f (OTA_RUNNING_SLOT b) false 0 0 0 0 p 0xFF (or_intror Hp)) as Hfr.
    replace (meta_commit_target b f p) with p in Hfr.
    2: { unfold meta_commit_target. by destruct Hp as [-> | ->]. }
    destruct (meta_commit b f _ _ _ _ _ _ _ _) as [f1 []]; simpl in *; [| done].
    intros a Ha. rewrite (fl_fault_clear f1). by apply Hfr.
  - eapply boots_decides; [apply (other_page_page p) | done].
Qed.

(** ** BEGIN's demotion *)

(** The page a commit leaves alone names the running slot when any page does. *)
Lemma meta_target_survivor (f : F) p r r' :
  is_meta_page p -> meta_read f p = Some r -> active_slot r = OTA_RUNNING_SLOT b ->
  meta_read f (other_page (meta_commit_target b f 0)) = Some r' ->
  active_slot r' = OTA_RUNNING_SLOT b.
Proof.
  intros Hp Hr Ha. unfold meta_commit_target, meta_target; simpl.
  destruct (meta_read f OTA_META_REC0) as [x |] eqn:E0,
           (meta_read f OTA_META_REC1) as [y |] eqn:E1; unfold meta_page_rank, other_page;
    destruct Hp as [-> | ->]; simplify_eq; rewrite ?Ha, ?Z.eqb_refl;
    repeat (case_match; simpl in *; simplify_eq); rewrite ?E0, ?E1; intros; simplify_eq; lia || done.
Qed.

Lemma other_slot_cases : other_slot b = 0 \/ other_slot b = 1.
Proof. destruct b; [right | left]; done. Qed.

Lemma other_slot_ne : other_slot b <> OTA_RUNNING_SLOT b.
Proof. by destruct b. Qed.

(** An invalidated slot's bit is clear in the written record. *)
Lemma meta_next_invalidates r active fw len crc fl inv :
  inv = 0 \/ inv = 1 ->
  Z.land (slot_valid (meta_next r active false fw len crc fl inv)) (u8 (Z.shiftl 1 inv)) = 0.
Proof.
  intros Hinv.
  replace (slot_valid (meta_next r active false fw len crc fl inv)) with
    (Z.land (Z.lor (slot_valid r) (u8 (Z.shiftl 1 active))) (u8 (Z.lnot (Z.shiftl 1 inv))))
    by (by destruct Hinv as [-> | ->]).
  rewrite <- Z.land_assoc. replace (Z.land (u8 (Z.lnot (Z.shiftl 1 inv))) (u8 (Z.shiftl 1 inv))) with 0
    by (by destruct Hinv as [-> | ->]).
  apply Z.land_0_r.
Qed.

(** What an accepted BEGIN did. *)
Lemma h_begin_accepted (f f' : F) s s' req cap pay :
  bytes_ok req ->
  h_begin b f s req cap = (f', s', (STATUS_OK, pay)) ->
  0 < le32 req <= OTA_SLOT_SIZE /\
  s_state s' = OTA_ST_BUSY /\ s_erasing s' = true /\ s_inactive s' = other_slot b /\
  s_img_len s' = le32 req /\ s_expected_crc s' = le32 (drop 4 req) /\
  match meta_current f with
  | None => f' = f
  | Some (cur, _) =>
      counter cur <= OTA_META_BEGIN_MAX_COUNTER /\
      meta_commit b f (active_slot cur) false 0 0 0 (flags cur) 0 (other_slot b) = (f', true)
  end.
Proof.
  intros Hreq. pose proof (le32_range req Hreq) as Hr. unfold is_u32 in Hr.
  unfold h_begin. cbv zeta. destruct (Z.of_nat (length req) <? 8); [done |].
  destruct ((le32 req =? 0) || (OTA_SLOT_SIZE <? le32 req)) eqn:Hlen; [done |].
  destruct (_ && _); [done |].
  destruct (meta_current f) as [[cur pg] |].
  - destruct (Z.ltb_spec OTA_META_BEGIN_MAX_COUNTER (counter cur)); [done |].
    destruct (ota_fmc_funnel_busy f); [done |].
    destruct (meta_commit b f _ _ _ _ _ _ _ _) as [f1 []]; [| done].
    intros [= <- <- _]. repeat (split; [done || lia |]). done.
  - intros [= <- <- _]. repeat (split; [done || lia |]). done.
Qed.

Lemma boot_decide_ext (f f' : F) feed wdt :
  (forall p, is_meta_page p -> meta_read f' p = meta_read f p) ->
  (forall p r, is_meta_page p -> meta_read f p = Some r ->
     active_slot_valid (flash_map f') r = active_slot_valid (flash_map f) r) ->
  boot_decide_slot (Some (flash_map f')) feed wdt = boot_decide_slot (Some (flash_map f)) feed wdt.
Proof.
  intros Hm Hv. unfold boot_decide_slot.
  assert (Hc : meta_candidates (flash_map f') = meta_candidates (flash_map f)).
  { unfold meta_candidates. rewrite !meta_read_boot, !Hm by (unfold is_meta_page; auto). done. }
  rewrite Hc. replace ((fun r => (r, active_slot_valid (flash_map f') r)) <$> meta_candidates (flash_map f))
    with ((fun r => (r, active_slot_valid (flash_map f) r)) <$> meta_candidates (flash_map f)); [done |].
  apply list_fmap_ext. intros i r Hl%list_elem_of_lookup_2.
  apply meta_candidates_elem in Hl. rewrite !meta_read_boot in Hl.
  destruct Hl as [Hl | Hl]; erewrite Hv; try done; unfold is_meta_page; auto.
Qed.

Lemma meta_read_slot_ext (f f' : F) p :
  is_meta_page p ->
  (forall a, ~ in_slot (other_slot b) a -> flash_byte f' a = flash_byte f a) ->
  meta_read f' p = meta_read f p.
Proof.
  intros Hp Hf. unfold meta_read, ota_fmc_flash_ptr.
  rewrite (bytes_at_ext (flash_byte f') (flash_byte f)); [done |]. intros a Ha. apply Hf.
  intros Hs. apply (meta_page_not_slot p (other_slot b) a Hp Hs).
  unfold sizeof_meta, OTA_PAGE_SIZE in *. lia.
Qed.

Lemma commit_args_demote (f : F) cur p :
  meta_current f = Some (cur, p) -> commit_args_ok (active_slot cur) 0 0 0 (flags cur).
Proof.
  intros [] %meta_current_ok. split; auto using zero_u32.
Qed.

(** Once a BEGIN is accepted while some record names the running slot, every
    CRC-valid record that still names the slot being rewritten has its valid bit
    cleared, so the boot decision is the same for every content of that slot:
    half-erased, half-programmed or rewritten.  The bootloader never walks it. *)
Theorem begin_isolates_boot (f f' g : F) (s s' : ota) (req : list Z) (cap : Z)
    (pay : option (list Z)) (p : Z) (r : ota_meta_record) (feed wdt : bool) :
  bytes_ok req ->
  h_begin b f s req cap = (f', s', (STATUS_OK, pay)) ->
  is_meta_page p -> meta_read f p = Some r -> active_slot r = OTA_RUNNING_SLOT b ->
  (forall a, ~ in_slot (other_slot b) a -> flash_byte g a = flash_byte f' a) ->
  boot_decide_slot (Some (flash_map g)) feed wdt = boot_decide_slot (Some (flash_map f')) feed wdt.
Proof.
  intros Hreq Hbeg Hp Hr Ha Hg.
  apply h_begin_accepted in Hbeg as (_ & _ & _ & _ & _ & _ & Hc); [| done].
  assert (Hcur : exists cur pg, meta_current f = Some (cur, pg)).
  { destruct (meta_current f) as [[cur pg] |] eqn:E; [eauto |].
    apply meta_current_none in E as [E0 E1]. destruct Hp as [-> | ->]; congruence. }
  destruct Hcur as (cur & pg & Hcur). rewrite Hcur in Hc. destruct Hc as [Hcnt Hc].
  apply boot_decide_ext.
  { intros q Hq. by apply meta_read_slot_ext. }
  intros q x Hq Hx. apply active_slot_valid_ext. intros Hbit a Hin. apply Hg.
  intros Hin2. assert (Hact : active_slot x = other_slot b).
  { destruct Hin as (b1 & Hb1 & H1), Hin2 as (b2 & Hb2 & H2).
    apply slot_base_inv in Hb1, Hb2. unfold OTA_SLOT_SIZE, OTA_SLOT_A_BASE, OTA_SLOT_B_BASE in *. lia. }
  set (t := meta_commit_target b f 0) in *.
  assert (Ht : is_meta_page t) by (apply meta_commit_target_page; by left).
  destruct (Z.eq_dec q t) as [-> | Hne].
  - destruct (meta_commit_true _ _ _ _ _ _ _ _ _ _ (commit_args_demote f cur pg Hcur) (or_introl eq_refl) Hc) as [Hn _].
    fold t in Hn. rewrite Hx in Hn. injection Hn as ->. apply Hbit. rewrite Hact.
    apply meta_next_invalidates, other_slot_cases.
  - assert (Hqo : q = other_page t).
    { destruct Hq as [-> | ->], Ht as [-> | ->]; done. }
    pose proof (meta_commit_frame f (active_slot cur) false 0 0 0 (flags cur) 0 (other_slot b)
                  (or_introl eq_refl)) as Hfr.
    rewrite Hc in Hfr; simpl in Hfr. fold t in Hfr.
    rewrite (meta_read_frame f f' q t) in Hx by done. subst q.
    apply (other_slot_ne). rewrite <- Hact. by apply (meta_target_survivor f p r).
Qed.
End fallback.
