(* ===== verification/OtaSession.v ===== *)
(** * The OTA session under interrupts: invariant and reachable states

    [ota_dispatch] runs in a transport interrupt, the erase pump at base level
    with interrupts enabled during its flash call.  The step relation below
    interleaves them at exactly those points; the invariant holds in every
    reachable state and gives the session's safety properties. *)

From stdpp Require Import base tactics list numbers option.
From S2P Require Import Prelude Crc Wire OtaLayout Flash BootDecide Ota OtaMeta OtaSafety.

(** Base address of the slot being updated. *)
Definition inactive_base (b : app_build) : Z :=
  match b with SlotABuild => OTA_SLOT_B_BASE | SlotBBuild => OTA_SLOT_A_BASE end.

(** Where the OTA code may write: the two metadata pages and the inactive slot. *)
Definition in_meta (a : Z) : Prop := OTA_META_REC0 <= a < OTA_META_REC1 + OTA_PAGE_SIZE.
Definition in_inactive (b : app_build) (a : Z) : Prop :=
  inactive_base b <= a < inactive_base b + OTA_SLOT_SIZE.
Definition ota_writable (b : app_build) (a : Z) : Prop := in_meta a \/ in_inactive b a.

Section session.
Context {F : Type} `{FlashHal F}.
Variable b : app_build.

(** The whole system: flash, session, the tick in flight at base level (its
    snapshot, and the erase result once the flash call returned), and how many
    dispatches have run since that snapshot. *)
Record sys := Sys {
  sy_f : F; sy_s : ota;
  sy_tick : option (erase_snapshot * option ota_fmc_result);
  sy_age : Z }.

(** A page erase takes at most 40 ms, so fewer than 2^32 dispatches fit in it;
    [step_dispatch] carries that bound on the 32-bit epoch counter. *)
Inductive ota_step : sys -> sys -> Prop :=
  | step_dispatch f s t n cmd req cap f' s' r :
      bytes_ok req -> n + 1 < 0x100000000 ->
      ota_dispatch b f s cmd req cap = (f', s', r) ->
      ota_step (Sys f s t n) (Sys f' s' t (n + 1))
  | step_tick_snapshot f s n sn :
      tick_snapshot s = Some sn ->
      ota_step (Sys f s None n) (Sys f s (Some (sn, None)) 0)
  | step_tick_erase f s n sn f' res :
      ota_fmc_erase_range f (sn_at sn) OTA_PAGE_SIZE = (f', res) ->
      ota_step (Sys f s (Some (sn, None)) n) (Sys f' s (Some (sn, Some res)) n)
  | step_tick_publish f s n sn res :
      ota_step (Sys f s (Some (sn, Some res)) n) (Sys f (tick_publish s sn res) None 0)
  | step_confirm f s n f' s' :
      ota_confirm_tick b f s = (f', s') ->
      ota_step (Sys f s None n) (Sys f' s' None n)
  | step_note_frame f s t n :
      ota_step (Sys f s t n) (Sys f (ota_note_frame s) t n).

(** Everything else that runs: the flash controller's own state and other flash
    regions may change, the metadata pages and the inactive slot do not. *)
Inductive env_step : sys -> sys -> Prop :=
  | step_env f s t n f' :
      (forall a, ota_writable b a -> flash_byte f' a = flash_byte f a) ->
      env_step (Sys f s t n) (Sys f' s t n).

Inductive reachable (f0 : F) : sys -> Prop :=
  | reach_init f s :
      ota_boot_init b f0 (ota_init b) = (f, s) -> reachable f0 (Sys f s None 0)
  | reach_step y y' : reachable f0 y -> ota_step y y' \/ env_step y y' -> reachable f0 y'.

Definition erased (f : F) (lo hi : Z) : Prop := forall a, lo <= a < hi -> flash_byte f a = 0xFF.

(** The part of the invariant about the flash and the session. *)
Record session_inv (f : F) (s : ota) : Prop := {
  si_inactive : s_inactive s = other_slot b;
  si_len : s_state s = OTA_ST_BUSY \/ s_state s = OTA_ST_READY \/ s_state s = OTA_ST_VERIFIED ->
           0 < s_img_len s <= OTA_SLOT_SIZE;
  si_busy : s_state s = OTA_ST_BUSY -> s_erasing s = true /\ s_last_off s = 0 /\
            erased f (inactive_base b) (s_erase_at s);
  si_erasing : s_erasing s = true ->
    (s_state s = OTA_ST_BUSY \/ s_state s = OTA_ST_ERROR) /\
    s_erase_end s = inactive_base b + OTA_SLOT_SIZE /\
    inactive_base b <= s_erase_at s < inactive_base b + OTA_SLOT_SIZE /\
    (s_erase_at s - inactive_base b) mod OTA_PAGE_SIZE = 0;
  si_last : 0 <= s_last_off s <= OTA_SLOT_SIZE;
  si_ready : s_state s = OTA_ST_READY ->
    erased f (inactive_base b + round8 (s_last_off s)) (inactive_base b + OTA_SLOT_SIZE);
  si_verified : s_state s = OTA_ST_VERIFIED ->
    s_img_crc s = s_expected_crc s /\
    s_img_crc s = ota_crc32 0 (bytes_at (flash_byte f) (inactive_base b) (Z.to_nat (s_img_len s)));
  si_epoch : is_u32 (s_erase_epoch s) }.

(** The part about a tick in flight: [k] is how often the epoch moved since its
    snapshot. *)
Record tick_inv (f : F) (s : ota) (sn : erase_snapshot) (res : option ota_fmc_result) (n k : Z)
    : Prop := {
  ti_k : 0 <= k <= n;
  ti_n : n < 0x100000000;
  ti_epoch : s_erase_epoch s = u32 (sn_epoch sn + k);
  ti_epoch0 : is_u32 (sn_epoch sn);
  ti_end : sn_end sn = inactive_base b + OTA_SLOT_SIZE;
  ti_at : inactive_base b <= sn_at sn < inactive_base b + OTA_SLOT_SIZE /\
          (sn_at sn - inactive_base b) mod OTA_PAGE_SIZE = 0;
  ti_state : s_state s <> OTA_ST_READY /\ s_state s <> OTA_ST_VERIFIED;
  ti_current : k = 0 -> s_erasing s = true -> s_erase_at s = sn_at sn;
  ti_stale : 0 < k -> s_state s = OTA_ST_BUSY -> s_erase_at s = inactive_base b;
  ti_done : k = 0 -> res = Some OTA_FMC_RESULT_OK -> erased f (sn_at sn) (sn_at sn + OTA_PAGE_SIZE) }.

Definition ota_inv (y : sys) : Prop :=
  session_inv (sy_f y) (sy_s y) /\
  match sy_tick y with
  | None => True
  | Some (sn, res) => exists k, tick_inv (sy_f y) (sy_s y) sn res (sy_age y) k
  end.
End session.
Arguments sys F : clear implicits.

(** ** Proof support *)

Section session_proofs.
Context {F} `{FlashLaws F b}.

Lemma inactive_base_checked : ota_slot_base_checked (other_slot b) = Some (inactive_base b).
Proof. by destruct b. Qed.

Lemma inactive_base_s s : s_inactive s = other_slot b -> ota_inactive_base s = inactive_base b.
Proof. unfold ota_inactive_base. intros ->. by rewrite inactive_base_checked. Qed.

Lemma in_inactive_slot a : in_inactive b a <-> in_slot (other_slot b) a.
Proof.
  unfold in_inactive, in_slot. rewrite inactive_base_checked. split.
  - intros. eauto.
  - by intros (? & [= <-] & ?).
Qed.

Lemma meta_page_in_meta p a : is_meta_page p -> p <= a < p + OTA_PAGE_SIZE -> in_meta a.
Proof.
  unfold in_meta, OTA_META_REC0, OTA_META_REC1, OTA_PAGE_SIZE. intros [-> | ->];
    unfold OTA_META_REC0, OTA_META_REC1, OTA_PAGE_SIZE; lia.
Qed.

Lemma in_meta_not_inactive a : in_meta a -> ~ in_inactive b a.
Proof.
  unfold in_meta, in_inactive, inactive_base, OTA_META_REC0, OTA_META_REC1, OTA_META_BASE,
    OTA_PAGE_SIZE, OTA_SLOT_SIZE, OTA_SLOT_A_BASE, OTA_SLOT_B_BASE.
  destruct b; lia.
Qed.

Lemma inactive_writable a : in_inactive b a -> ota_writable b a.
Proof. by right. Qed.

(** [f'] agrees with [f] on the inactive slot. *)
Definition same_slot (f f' : F) : Prop := forall a, in_inactive b a -> flash_byte f' a = flash_byte f a.

Lemma same_slot_refl f : same_slot f f.
Proof. done. Qed.

Lemma commit_same_slot (f : F) active up fw len crc fl ov inv :
  (ov = 0 \/ is_meta_page ov) ->
  same_slot f (meta_commit b f active up fw len crc fl ov inv).1.
Proof.
  intros Hov a Ha. apply meta_commit_frame; [done |]. intros Hr.
  eapply in_meta_not_inactive; [| done]. eapply meta_page_in_meta; [| done].
  by apply meta_commit_target_page.
Qed.

(** The invariant only looks at the inactive slot. *)
Lemma session_inv_frame (f f' : F) s : same_slot f f' -> session_inv b f s -> session_inv b f' s.
Proof.
  intros Hf []. split; try done.
  - intros Hs. destruct (si_busy0 Hs) as (He & Hl & Her). split; [done |]. split; [done |].
    intros a Ha. rewrite Hf; [by apply Her |].
    destruct (si_erasing0 He) as (_ & _ & Hat & _). unfold in_inactive. lia.
  - intros Hs a Ha. rewrite Hf; [by apply si_ready0 |]. unfold in_inactive.
    pose proof (round8_ge (s_last_off s)). lia.
  - intros Hs. destruct (si_verified0 Hs) as [H1 H2]. split; [done |]. rewrite H2.
    f_equal. apply bytes_at_ext. intros a Ha. symmetry. apply Hf. unfold in_inactive.
    assert (0 < s_img_len s <= OTA_SLOT_SIZE) by auto. lia.
Qed.

Lemma erased_frame (f f' : F) lo hi :
  same_slot f f' -> inactive_base b <= lo -> hi <= inactive_base b + OTA_SLOT_SIZE ->
  erased f lo hi -> erased f' lo hi.
Proof. intros Hf ?? He a Ha. rewrite Hf; [by apply He |]. unfold in_inactive. lia. Qed.

Lemma page_in_slot at' :
  inactive_base b <= at' < inactive_base b + OTA_SLOT_SIZE ->
  (at' - inactive_base b) mod OTA_PAGE_SIZE = 0 ->
  at' + OTA_PAGE_SIZE <= inactive_base b + OTA_SLOT_SIZE.
Proof. unfold OTA_SLOT_SIZE, OTA_PAGE_SIZE. zlia. Qed.

Lemma slot_in_flash lo n :
  inactive_base b <= lo -> 0 <= n -> lo + n <= inactive_base b + OTA_SLOT_SIZE -> in_flash lo n.
Proof.
  unfold in_flash, inactive_base, OTA_BOOTLOADER_BASE, OTA_FLASH_END, OTA_SLOT_A_BASE,
    OTA_SLOT_B_BASE, OTA_SLOT_SIZE. destruct b; lia.
Qed.

Lemma page_slot_in_flash at' :
  inactive_base b <= at' < inactive_base b + OTA_SLOT_SIZE ->
  (at' - inactive_base b) mod OTA_PAGE_SIZE = 0 -> in_flash at' OTA_PAGE_SIZE.
Proof.
  intros Hat Hal. apply slot_in_flash; [lia | unfold OTA_PAGE_SIZE; lia | by apply page_in_slot].
Qed.

Lemma tick_inv_frame (f f' : F) s sn res n k :
  same_slot f f' -> tick_inv b f s sn res n k -> tick_inv b f' s sn res n k.
Proof.
  intros Hf []. split; try done. intros H1 H2. eapply erased_frame; [done | | | by apply ti_done0].
  - lia.
  - destruct ti_at0. by apply page_in_slot.
Qed.

(** ** What one dispatch does to the session *)

Definition live (s : ota) : Prop := s_state s = OTA_ST_READY \/ s_state s = OTA_ST_VERIFIED.

(** It either bumps the epoch and leaves no streaming session (reject, abort,
    accepted BEGIN), or keeps the erase sweep untouched. *)
Inductive dispatch_effect (f : F) (s : ota) (f' : F) (s' : ota) : Prop :=
  | effect_bump :
      s_erase_epoch s' = u32 (s_erase_epoch s + 1) -> ~ live s' ->
      (s_state s' = OTA_ST_BUSY -> s_erase_at s' = inactive_base b) ->
      same_slot f f' -> dispatch_effect f s f' s'
  | effect_keep :
      s_erase_epoch s' = s_erase_epoch s -> s_erasing s' = s_erasing s ->
      s_erase_at s' = s_erase_at s -> s_erase_end s' = s_erase_end s ->
      (live s' -> live s) -> (s_state s' = OTA_ST_BUSY -> s_state s = OTA_ST_BUSY) ->
      (~ live s -> same_slot f f') -> dispatch_effect f s f' s'.

Lemma effect_refl f s : dispatch_effect f s f s.
Proof. by apply effect_keep. Qed.

Definition handler_ok (f : F) (s : ota) (res : F * ota * reply) : Prop :=
  session_inv b f s ->
  session_inv b res.1.1 res.1.2 /\ dispatch_effect f s res.1.1 res.1.2.

Lemma handler_same f s r : handler_ok f s (f, s, r).
Proof. intros Hi. split; [done | apply effect_refl]. Qed.

(** Entering [OTA_ST_ERROR] keeps the invariant. *)
Lemma session_inv_fail f s e : session_inv b f s -> session_inv b f (fail e s).
Proof.
  intros []. split; simpl; try done.
  - intros [|[|]]; done.
  - intros He. destruct (si_erasing0 He) as (_ & ?). split; [by right | done].
Qed.

Lemma handler_fail f s e r : handler_ok f s (f, fail e s, r).
Proof.
  intros Hi. split; simpl; [by apply session_inv_fail |].
  apply effect_keep; simpl; try done. by intros [|].
Qed.

Lemma handler_reject f f' s e r :
  same_slot f f' -> handler_ok f s (f', ota_session_reject e s, r).
Proof.
  intros Hf Hi. split; simpl.
  - apply (session_inv_frame f f') in Hi; [| done]. destruct Hi. split; simpl; try done.
    + intros [|[|]]; done.
    + intros He. destruct (si_erasing0 He) as (_ & ?). split; [by right | done].
    + apply u32_u32.
  - apply effect_bump; simpl; try done. by intros [|].
Qed.

Lemma inactive_base_end : u32 (inactive_base b + OTA_SLOT_SIZE) = inactive_base b + OTA_SLOT_SIZE.
Proof. by destruct b. Qed.

(** Arming a fresh erase sweep. *)
Lemma handler_arm f f' s len crc fw r :
  0 < len <= OTA_SLOT_SIZE -> same_slot f f' ->
  handler_ok f s (f', set_state OTA_ST_BUSY
    (set_erase true (inactive_base b) (inactive_base b + OTA_SLOT_SIZE)
      (set_session (other_slot b) len crc fw (bump_epoch s))), r).
Proof.
  intros Hlen Hf Hi. split; simpl.
  - split; simpl; try done.
    + intros _. split; [done |]. split; [done |]. intros a Ha. lia.
    + intros _. split; [by left |]. split; [done |].
      rewrite Z.sub_diag. split; [unfold OTA_SLOT_SIZE; lia | done].
    + apply u32_u32.
  - apply effect_bump; simpl; try done. by intros [|].
Qed.

Lemma h_begin_ok f s req cap : bytes_ok req -> handler_ok f s (h_begin b f s req cap).
Proof.
  intros Hreq. pose proof (le32_range req Hreq) as Hr. unfold is_u32 in Hr.
  unfold h_begin. cbv zeta. rewrite inactive_base_checked, inactive_base_end.
  destruct (_ <? 8); [apply handler_same |].
  destruct ((le32 req =? 0) || (OTA_SLOT_SIZE <? le32 req)) eqn:Hlen;
    [by apply handler_reject |].
  assert (0 < le32 req <= OTA_SLOT_SIZE) by lia.
  destruct (_ && _); [by apply handler_reject |].
  destruct (meta_current f) as [[cur pg] |]; [| by apply handler_arm].
  destruct (_ <? counter cur); [by apply handler_reject |].
  destruct (ota_fmc_funnel_busy f); [apply handler_same |].
  pose proof (commit_same_slot f (active_slot cur) false 0 0 0 (flags cur) 0 (other_slot b)) as Hf.
  destruct (meta_commit b f _ _ _ _ _ _ _ _) as [f1 []]; simpl in Hf.
  - apply handler_arm; auto.
  - apply handler_reject; auto.
Qed.

Lemma session_not_erasing f s : session_inv b f s -> live s -> s_erasing s = false.
Proof.
  intros [] Hl. destruct (s_erasing s) eqn:E; [| done].
  destruct (si_erasing0 eq_refl) as [[He | He] _], Hl; congruence.
Qed.

Lemma round8_add off d : off mod 8 = 0 -> round8 (off + d) = off + round8 d.
Proof. unfold round8. zlia. Qed.

Lemma chunk_fits off d :
  off mod OTA_PROGRAM_GRANULE = 0 -> off + d <= OTA_SLOT_SIZE -> off + round8 d <= OTA_SLOT_SIZE.
Proof. unfold round8, OTA_PROGRAM_GRANULE, OTA_SLOT_SIZE. zlia. Qed.

Lemma round8_nonneg n : 0 <= n -> 0 <= round8 n.
Proof. unfold round8. zlia. Qed.

Lemma set_state_id s st : s_state s = st -> set_state st s = s.
Proof. intros <-. by destruct s. Qed.

Lemma h_write_ok f s req cap : bytes_ok req -> handler_ok f s (h_write f s req cap).
Proof.
  intros Hreq. pose proof (le32_range req Hreq) as Hr. unfold is_u32 in Hr.
  unfold h_write. cbv zeta.
  destruct (bool_decide (s_state s = OTA_ST_READY)) eqn:Hst; simpl; [| apply handler_same].
  apply bool_decide_eq_true in Hst.
  destruct (_ <? 5); [apply handler_same |].
  destruct (_ || _) eqn:Hd; [apply handler_same |].
  destruct ((OTA_SLOT_SIZE <? le32 req) || _) eqn:Hrange; [apply handler_fail |].
  destruct (Z.eqb_spec (le32 req mod OTA_PROGRAM_GRANULE) 0) as [Hal |]; simpl; [| apply handler_same].
  set (off := le32 req) in *. set (d := req.[4]) in *.
  assert (Hbd : is_byte d) by (by apply at_byte). unfold is_byte in Hbd.
  assert (Hu : u32 (off + d) = off + d) by (apply u32_id; unfold is_u32, OTA_SLOT_SIZE in *; lia).
  rewrite Hu. destruct (Z.leb_spec (off + d) (s_last_off s)) as [Hle | Hgt].
  { case_bool_decide; [| apply handler_fail].
    rewrite set_state_id by done. apply handler_same. }
  intros Hi. pose proof Hi as []. rewrite inactive_base_s by done.
  assert (Hne : s_erasing s = false) by (eapply session_not_erasing; [done | by left]).
  assert (Hdl : Z.of_nat (length (drop 5 req)) = d) by (rewrite length_drop; lia).
  assert (Hr8 : off + round8 d <= OTA_SLOT_SIZE) by (apply chunk_fits; [done | lia]).
  pose proof (fl_program_frame f (inactive_base b + off) (drop 5 req)) as Hf.
  rewrite Hdl in Hf.
  assert (Hpf : in_flash (inactive_base b + off) (round8 d))
    by (apply slot_in_flash; [lia | apply round8_nonneg; lia | lia]).
  specialize (Hf Hpf).
  destruct (ota_fmc_program f (inactive_base b + off) (drop 5 req)) as [f1 res]; simpl in Hf.
  assert (Hfail : forall e, session_inv b f1 (fail e (set_state OTA_ST_BUSY s)) /\
            dispatch_effect f s f1 (fail e (set_state OTA_ST_BUSY s))).
  { intros e. split.
    - split; simpl; try done; [intros [|[|]]; done | by rewrite Hne].
    - apply effect_keep; simpl; try done; [by intros [|] |].
      intros Hl. destruct Hl. by left. }
  destruct res; [| apply Hfail ..].
  simpl s_last_off. destruct (Z.ltb_spec (s_last_off s) (off + d)); [| lia]. simpl.
  split.
  - split; simpl; try done; [intros _; apply si_len0; auto | by rewrite Hne | lia |].
    intros _ a Ha. unfold OTA_PROGRAM_GRANULE in Hal. rewrite round8_add in Ha by done.
    rewrite Hf by lia. apply si_ready0; [done |].
    assert (round8 (s_last_off s) <= off + round8 d) by
      (rewrite <- round8_add by done; unfold round8; zlia). lia.
  - apply effect_keep; simpl; try done; [intros _; by left |]. intros Hl. destruct Hl. by left.
Qed.

Lemma h_verify_ok f s cap : handler_ok f s (h_verify f s cap).
Proof.
  unfold h_verify. cbv zeta.
  destruct (bool_decide (s_state s = OTA_ST_READY)) eqn:Hst; simpl; [| apply handler_same].
  apply bool_decide_eq_true in Hst.
  destruct ((s_img_len s =? 0) || _) eqn:Hlen; [apply handler_fail |].
  intros Hi. pose proof Hi as [].
  assert (Hne : s_erasing s = false) by (eapply session_not_erasing; [done | by left]).
  unfold slot_bytes. rewrite inactive_base_s by done.
  destruct (Z.eqb_spec (ota_crc32 0 (ota_fmc_flash_ptr f (inactive_base b) (Z.to_nat (s_img_len s))))
                       (s_expected_crc s)) as [Hc |]; simpl.
  - split; [| apply effect_keep; simpl; try done; intros _; by left].
    split; simpl; try done; [auto | by rewrite Hne].
  - split; [| apply effect_keep; simpl; try done; by intros [|]].
    split; simpl; try done; [intros [|[|]]; done | by rewrite Hne].
Qed.

(** A successful commit leaves the session as it was, apart from the reset. *)
Lemma handler_reset f f' s r : same_slot f f' -> handler_ok f s (f', ota_system_reset s, r).
Proof.
  intros Hf Hi. split; simpl.
  - apply (session_inv_frame f f') in Hi; [| done]. destruct Hi. by split.
  - apply effect_keep; simpl; try done.
Qed.

Lemma handler_moved f f' s r : same_slot f f' -> handler_ok f s (f', s, r).
Proof.
  intros Hf Hi. split; simpl; [by apply (session_inv_frame f f') | by apply effect_keep].
Qed.

Lemma handler_fail_moved f f' s e r : same_slot f f' -> handler_ok f s (f', fail e s, r).
Proof.
  intros Hf Hi. split; simpl.
  - by apply session_inv_fail, (session_inv_frame f f').
  - apply effect_keep; simpl; try done. by intros [|].
Qed.

Lemma h_commit_ok f s : handler_ok f s (h_commit b f s).
Proof.
  unfold h_commit. cbv zeta.
  destruct (negb (bool_decide (s_state s = _))); [apply handler_same |].
  destruct (_ || _); [apply handler_fail |].
  destruct (negb (ota_image_bootable _ _ _)); [apply handler_fail |].
  destruct (negb (ota_image_trial_capable _ _)); [apply handler_fail |].
  destruct (match meta_current f with Some _ => _ | None => _ end); [apply handler_fail |].
  pose proof (commit_same_slot f (s_inactive s) true (s_fw_version s) (s_img_len s) (s_img_crc s)
                OTA_META_FLAG_TRIAL 0 0xFF) as Hf.
  destruct (meta_commit b f _ _ _ _ _ _ _ _) as [f1 []]; simpl in Hf;
    [apply handler_reset | apply handler_fail_moved]; auto.
Qed.

Lemma h_rollback_ok f s : handler_ok f s (h_rollback b f s).
Proof.
  unfold h_rollback. cbv zeta. destruct (_ && _); [apply handler_same |].
  destruct (meta_current f) as [[cur pg] |]; [| apply handler_same].
  destruct (_ && _); [apply handler_same |].
  set (other := if active_slot cur =? OTA_SLOT_A then OTA_SLOT_B else OTA_SLOT_A).
  destruct (_ || _); [apply handler_same |].
  destruct (aget (fw_version cur) other <? _); [apply handler_fail |].
  destruct (ota_slot_base_checked other) as [ob |]; [| apply handler_same].
  destruct (_ || _); [apply handler_same |].
  set (fl := if ota_image_trial_capable _ _ then _ else _).
  pose proof (commit_same_slot f other false 0 0 0 fl 0 0xFF) as Hf.
  destruct (meta_commit b f other false 0 0 0 fl 0 0xFF) as [f1 []]; simpl in Hf;
    [apply handler_reset | apply handler_moved]; auto.
Qed.

Lemma h_abort_ok f s r : handler_ok f s (f, h_abort s, r).
Proof.
  intros []. split; simpl.
  - split; simpl; try done; [intros [|[|]]; done | apply u32_u32].
  - apply effect_bump; simpl; try done. by intros [|].
Qed.

Lemma ota_dispatch_ok f s cmd req cap :
  bytes_ok req -> handler_ok f s (ota_dispatch b f s cmd req cap).
Proof.
  intros Hreq. unfold ota_dispatch. destruct (negb ota_fmc_supported); [apply handler_same |].
  set (res := match cmd_of_code cmd with Some _ => _ | None => _ end).
  assert (Hres : handler_ok f s res).
  { subst res. destruct (cmd_of_code cmd) as [[] |]; try apply handler_same.
    - by apply h_begin_ok.
    - by apply h_write_ok.
    - apply h_verify_ok.
    - apply h_commit_ok.
    - apply h_rollback_ok.
    - apply h_abort_ok. }
  destruct res as [[f1 s1] [st pay]]. exact Hres.
Qed.

(** ** Invariance *)

Lemma tick_dispatch f s f' s' sn res n k :
  session_inv b f s -> tick_inv b f s sn res n k -> n + 1 < 0x100000000 ->
  dispatch_effect f s f' s' -> exists k', tick_inv b f' s' sn res (n + 1) k'.
Proof.
  intros Hi Ht Hn He. pose proof Ht as [].
  assert (Hnl : ~ live s) by (unfold live; tauto).
  destruct He as [Hep Hl Hat Hf | Hep Her Hea Hee Hl Hb Hf].
  - exists (k + 1). apply (tick_inv_frame f f') in Ht; [| done]. destruct Ht.
    split; try done; try lia.
    + rewrite Hep, ti_epoch1. unfold u32. rewrite Z.add_mod_idemp_l by lia. f_equal. lia.
    + unfold live in Hl. tauto.
  - exists k. apply (tick_inv_frame f f') in Ht; [| auto]. destruct Ht.
    assert (~ live s') by tauto. unfold live in *.
    split; try done; try lia; try tauto.
    + rewrite Her, Hea. done.
    + rewrite Hea. auto.
Qed.

Lemma epoch_moved sn k n :
  is_u32 sn -> 0 <= k <= n -> n < 0x100000000 -> u32 (sn + k) = sn -> k = 0.
Proof.
  unfold is_u32, u32. intros. pose proof (Z.div_mod (sn + k) 0x100000000 ltac:(lia)). zlia.
Qed.

Lemma snapshot_inv f s sn :
  session_inv b f s -> tick_snapshot s = Some sn -> tick_inv b f s sn None 0 0.
Proof.
  unfold tick_snapshot. intros [] Hs. destruct (s_erasing s) eqn:He; [| done]. simplify_eq.
  destruct (si_erasing0 eq_refl) as (Hst & Hend & Hat & Hm).
  split; simpl; try done; try lia.
  - by rewrite Z.add_0_r, u32_id.
  - destruct Hst as [-> | ->]; done.
Qed.

Lemma erase_step_inv f s sn n k f' res :
  session_inv b f s -> tick_inv b f s sn None n k ->
  ota_fmc_erase_range f (sn_at sn) OTA_PAGE_SIZE = (f', res) ->
  session_inv b f' s /\ tick_inv b f' s sn (Some res) n k.
Proof.
  intros Hi Ht He. destruct (ti_at _ _ _ _ _ _ _ Ht) as [Hat Hal].
  pose proof (page_slot_in_flash _ Hat Hal) as Hpf.
  pose proof (fl_erase_frame f (sn_at sn) OTA_PAGE_SIZE Hpf) as Hfr.
  pose proof (fun a => fl_erase_ok f (sn_at sn) OTA_PAGE_SIZE a Hpf) as Hok.
  rewrite He in Hfr, Hok; simpl in *. destruct Hi, Ht. split.
  - split; try done.
    + intros Hs. destruct (si_busy0 Hs) as (He' & Hl & Her). split; [done |]. split; [done |].
      intros a Ha. rewrite Hfr; [by apply Her |].
      destruct (Z.eq_dec k 0) as [Hk |].
      * rewrite ti_current0 in Ha by done. lia.
      * rewrite ti_stale0 in Ha by (done || lia). lia.
    + intros Hs. tauto.
    + intros Hs. tauto.
  - split; try done. intros _ Hr a Ha. simplify_eq. by apply Hok.
Qed.

Lemma publish_inv f s sn res n k :
  session_inv b f s -> tick_inv b f s sn (Some res) n k -> session_inv b f (tick_publish s sn res).
Proof.
  intros Hi Ht. unfold tick_publish.
  destruct (s_erasing s) eqn:He; simpl; [| done].
  destruct (Z.eqb_spec (s_erase_epoch s) (sn_epoch sn)) as [Hep |]; simpl; [| done].
  pose proof Ht as []. assert (Hk : k = 0).
  { eapply (epoch_moved (sn_epoch sn)); [done | done | done | congruence]. }
  pose proof Hi as []. destruct (si_erasing0 He) as (Hst & Hend & Hat & Hm).
  destruct ti_at0 as [Hb Hmod]. pose proof (page_in_slot _ Hb Hmod) as Hpg.
  assert (Hu : u32 (sn_at sn + OTA_PAGE_SIZE) = sn_at sn + OTA_PAGE_SIZE).
  { apply u32_id. unfold is_u32, inactive_base, OTA_SLOT_A_BASE, OTA_SLOT_B_BASE, OTA_SLOT_SIZE,
      OTA_PAGE_SIZE in *. destruct b; lia. }
  destruct res.
  2, 3: split; simpl; try done; intros [|[|]]; done.
  simpl. rewrite Hu. specialize (ti_current0 Hk He).
  assert (Her : s_state s = OTA_ST_BUSY -> erased f (inactive_base b) (sn_at sn + OTA_PAGE_SIZE)).
  { intros Hs a Ha. destruct (Z.lt_ge_cases a (sn_at sn)).
    - destruct (si_busy0 Hs) as (_ & _ & Hb'). apply Hb'. lia.
    - apply ti_done0; [done | done | lia]. }
  destruct (Z.leb_spec (sn_end sn) (sn_at sn + OTA_PAGE_SIZE)) as [Hend' | Hmore]; simpl.
  - case_bool_decide as Hs; simpl.
    + destruct (si_busy0 Hs) as (_ & Hl & _). split; simpl; try done; [auto |].
      intros _ a Ha. rewrite Hl in Ha. change (round8 0) with 0 in Ha. apply Her; [done | lia].
    + destruct Hst as [Hst | Hst]; [done |].
      split; simpl; try done; intros; congruence.
  - split; simpl; try done.
    + intros Hs. destruct (si_busy0 Hs) as (_ & ? & _). auto.
    + intros _. split; [done |]. split; [done |].
      split; [unfold OTA_PAGE_SIZE in *; lia |].
      replace (sn_at sn + OTA_PAGE_SIZE - inactive_base b) with
        (sn_at sn - inactive_base b + 1 * OTA_PAGE_SIZE) by lia.
      by rewrite Z.mod_add.
Qed.

Lemma confirm_inv f s f' s' :
  session_inv b f s -> ota_confirm_tick b f s = (f', s') -> session_inv b f' s'.
Proof.
  intros Hi. unfold ota_confirm_tick. destruct (_ || _); [by intros [= <- <-] |].
  destruct (find_running_slot_record b f) as [[r p] |] eqn:Hr; [| by intros [= <- <-]].
  apply find_running_slot_record_some in Hr as (Hp & _).
  pose proof (commit_same_slot f (OTA_RUNNING_SLOT b) false 0 0 0 0 p 0xFF (or_intror Hp)) as Hf.
  destruct (meta_commit b f _ _ _ _ _ _ _ _) as [f1 []]; simpl in Hf; intros [= <- <-].
  - apply (session_inv_frame f (ota_fault_loop_clear f1)) in Hi.
    + destruct Hi. by split.
    + intros a Ha. rewrite (fl_fault_clear f1). auto.
  - by apply (session_inv_frame f f1).
Qed.

Lemma boot_init_inv f0 f s : ota_boot_init b f0 (ota_init b) = (f, s) -> session_inv b f s.
Proof.
  assert (Hs : forall f t1 t2, session_inv b f (set_trial t1 t2 (ota_init b))).
  { intros f1 t1 t2. split; simpl; try done. by intros [|[|]]. }
  unfold ota_boot_init. repeat case_match; intros; simplify_eq; apply Hs.
Qed.

Lemma ota_step_inv y y' : ota_inv b y -> ota_step b y y' -> ota_inv b y'.
Proof.
  intros [Hi Ht] Hstep. destruct Hstep as
    [f s t n cmd req cap f' s' r Hreq Hn Hd | f s n sn Hsn | f s n sn f' res He
    | f s n sn res | f s n f' s' Hc | f s t n]; simpl in *.
  - destruct (ota_dispatch_ok f s cmd req cap Hreq Hi) as [Hi' Heff]. rewrite Hd in *; simpl in *.
    split; simpl; [done |]. destruct t as [[sn res] |]; [| done]. destruct Ht as [k Ht].
    by apply (tick_dispatch f s f' s' sn res n k).
  - split; simpl; [done |]. exists 0. by apply snapshot_inv.
  - destruct Ht as [k Ht]. destruct (erase_step_inv _ _ _ _ _ _ _ Hi Ht He).
    split; simpl; eauto.
  - destruct Ht as [k Ht]. split; simpl; [| done]. by eapply publish_inv.
  - split; simpl; [| done]. by eapply confirm_inv.
  - split; simpl.
    + destruct Hi. by split.
    + destruct t as [[sn res] |]; [| done]. destruct Ht as [k []]. exists k. by split.
Qed.

Lemma env_step_inv y y' : ota_inv b y -> env_step b y y' -> ota_inv b y'.
Proof.
  intros [Hi Ht] Hstep. destruct Hstep as [f s t n f' Hf]; simpl in *.
  assert (Hf' : same_slot f f') by (intros a Ha; by apply Hf, inactive_writable).
  split; simpl; [by apply (session_inv_frame f f') |].
  destruct t as [[sn res] |]; [| done]. destruct Ht as [k Ht]. exists k.
  by apply (tick_inv_frame f f').
Qed.

Lemma reachable_inv f0 y : reachable b f0 y -> ota_inv b y.
Proof.
  induction 1 as [f s Hb | y y' _ IH [Hs | Hs]].
  - split; simpl; [| done]. by eapply boot_init_inv.
  - by apply (ota_step_inv y).
  - by apply (env_step_inv y).
Qed.

(** ** Where the flash changes *)

Definition same_outside (f f' : F) : Prop :=
  forall a, ~ ota_writable b a -> flash_byte f' a = flash_byte f a.

Lemma page_same_outside (f f' : F) p :
  is_meta_page p -> flash_frame f f' p OTA_PAGE_SIZE -> same_outside f f'.
Proof.
  intros Hp Hf a Ha. apply Hf. intros Hr. apply Ha. left. by eapply meta_page_in_meta.
Qed.

Lemma commit_same_outside (f : F) active up fw len crc fl ov inv :
  (ov = 0 \/ is_meta_page ov) ->
  same_outside f (meta_commit b f active up fw len crc fl ov inv).1.
Proof.
  intros Hov. eapply page_same_outside; [| by apply meta_commit_frame].
  by apply meta_commit_target_page.
Qed.

Lemma slot_same_outside (f f' : F) lo n :
  inactive_base b <= lo -> lo + n <= inactive_base b + OTA_SLOT_SIZE ->
  flash_frame f f' lo n -> same_outside f f'.
Proof.
  intros Hlo Hhi Hf a Ha. apply Hf. intros Hr. apply Ha. right. unfold in_inactive. lia.
Qed.

Lemma same_outside_refl f : same_outside f f.
Proof. done. Qed.

Lemma h_write_outside f s req cap :
  bytes_ok req -> session_inv b f s -> same_outside f (h_write f s req cap).1.1.
Proof.
  intros Hreq Hi. pose proof (le32_range req Hreq) as Hr. unfold is_u32 in Hr.
  unfold h_write. cbv zeta. destruct (bool_decide _); simpl; [| done].
  destruct (_ <? 5); [done |]. destruct (_ || _) eqn:Hd; [done |].
  destruct ((OTA_SLOT_SIZE <? le32 req) || _) eqn:Hrange; [done |].
  destruct (Z.eqb_spec (le32 req mod OTA_PROGRAM_GRANULE) 0) as [Hal |]; simpl; [| done].
  destruct (_ <=? s_last_off s); [by case_bool_decide |].
  rewrite inactive_base_s by apply Hi.
  pose proof (fl_program_frame f (inactive_base b + le32 req) (drop 5 req)) as Hf.
  set (n := Z.of_nat (length (drop 5 req))) in *.
  assert (Hn : 0 <= n /\ le32 req + n <= OTA_SLOT_SIZE) by (unfold n; rewrite length_drop; lia).
  pose proof (chunk_fits (le32 req) n Hal (proj2 Hn)) as Hr8.
  destruct (ota_fmc_program f (inactive_base b + le32 req) (drop 5 req)) as [f1 res]; simpl in Hf.
  assert (Hout : same_outside f f1).
  { eapply (slot_same_outside _ _ (inactive_base b + le32 req) (round8 n)); [lia | lia |].
    apply Hf, slot_in_flash; [lia | apply round8_nonneg; lia | lia]. }
  by destruct res.
Qed.

(** Every path of a handler either leaves the flash alone or ran one commit. *)
Ltac commit_outside :=
  repeat (case_match; try done);
  match goal with
  | Hc : meta_commit ?b ?f ?a ?u ?v ?l ?c ?fl 0 ?i = _ |- _ =>
      let Hf := fresh in
      pose proof (commit_same_outside f a u v l c fl 0 i (or_introl eq_refl)) as Hf;
      by rewrite Hc in Hf
  end.

Lemma dispatch_outside f s cmd req cap :
  bytes_ok req -> session_inv b f s -> same_outside f (ota_dispatch b f s cmd req cap).1.1.
Proof.
  intros Hreq Hi. unfold ota_dispatch. destruct (negb ota_fmc_supported); [done |].
  set (res := match cmd_of_code cmd with Some _ => _ | None => _ end).
  cut (same_outside f res.1.1); [by destruct res as [[f1 s1] [st pay]] |].
  subst res. destruct (cmd_of_code cmd) as [[] |]; try done.
  - unfold h_begin. cbv zeta. commit_outside.
  - by apply h_write_outside.
  - unfold h_verify. by repeat case_match.
  - unfold h_commit. cbv zeta. commit_outside.
  - unfold h_rollback. cbv zeta. commit_outside.
Qed.

Lemma confirm_outside f s : same_outside f (ota_confirm_tick b f s).1.
Proof.
  unfold ota_confirm_tick. destruct (_ || _); [done |].
  destruct (find_running_slot_record b f) as [[r p] |] eqn:Hr; [| done].
  apply find_running_slot_record_some in Hr as (Hp & _).
  pose proof (commit_same_outside f (OTA_RUNNING_SLOT b) false 0 0 0 0 p 0xFF (or_intror Hp)) as Hf.
  destruct (meta_commit b f _ _ _ _ _ _ _ _) as [f1 []]; simpl in *; [| done].
  intros a Ha. rewrite (fl_fault_clear f1). by apply Hf.
Qed.

Lemma not_writable_protected a :
  protected b a \/ OTA_CONFIG_REC0 <= a -> ~ ota_writable b a.
Proof.
  unfold protected, ota_writable, in_meta, in_inactive, inactive_base, OTA_META_REC0, OTA_META_REC1,
    OTA_META_BASE, OTA_PAGE_SIZE, OTA_RUNNING_SLOT_END, OTA_RUNNING_SLOT_BASE, BRIDGE_APP_SLOT_BASE,
    OTA_BOOTLOADER_BASE, OTA_BOOTLOADER_SIZE, OTA_SLOT_A_BASE, OTA_SLOT_B_BASE, OTA_SLOT_SIZE,
    OTA_CONFIG_REC0.
  destruct b; lia.
Qed.

(** ** The session's safety properties *)

(** C1. No sequence of wire commands, erase ticks and confirm ticks, however the
    transport interrupts interleave with the erase pump, changes a flash byte
    outside the two metadata pages and the inactive slot; in particular the
    bootloader, the running image and the boot configuration are never touched. *)
Theorem ota_writes_confined (f0 : F) (y y' : sys F) (a : Z) :
  reachable b f0 y -> ota_step b y y' ->
  (~ ota_writable b a -> flash_byte (sy_f y') a = flash_byte (sy_f y) a) /\
  (protected b a \/ OTA_CONFIG_REC0 <= a -> flash_byte (sy_f y') a = flash_byte (sy_f y) a).
Proof.
  intros Hr Hs. cut (same_outside (sy_f y) (sy_f y')).
  { intros Hf. split; [apply Hf |]. intros Hp. by apply Hf, not_writable_protected. }
  destruct (reachable_inv f0 y Hr) as [Hi Ht]. destruct Hs as
    [f s t n cmd req cap f' s' r Hreq Hn Hd | f s n sn Hsn | f s n sn f' res He
    | f s n sn res | f s n f' s' Hc | f s t n]; simpl in *; try done.
  - pose proof (dispatch_outside f s cmd req cap Hreq Hi) as Hf. by rewrite Hd in Hf.
  - destruct Ht as [k []]. destruct ti_at0 as [Hat Hal].
    pose proof (fl_erase_frame f (sn_at sn) OTA_PAGE_SIZE (page_slot_in_flash _ Hat Hal)) as Hf.
    rewrite He in Hf.
    eapply slot_same_outside; [| | exact Hf]; [lia | by apply page_in_slot].
  - pose proof (confirm_outside f s) as Hf. by rewrite Hc in Hf.
Qed.

(** C2. In every reachable state of the interleaved system: a session that accepts
    chunks (READY) has no erase armed or in flight, an image length within the
    slot, and every byte above the high-water mark still erased; a VERIFIED
    session's image is in flash with exactly the CRC the host declared at BEGIN;
    a BUSY session is erasing, and everything below the sweep is erased. *)
Theorem ota_session_sound (f0 : F) (y : sys F) :
  reachable b f0 y ->
  let s := sy_s y in
  (live s -> s_erasing s = false /\ sy_tick y = None /\ 0 < s_img_len s <= OTA_SLOT_SIZE) /\
  (s_state s = OTA_ST_READY ->
     erased (sy_f y) (inactive_base b + round8 (s_last_off s)) (inactive_base b + OTA_SLOT_SIZE)) /\
  (s_state s = OTA_ST_VERIFIED ->
     ota_crc32 0 (bytes_at (flash_byte (sy_f y)) (inactive_base b) (Z.to_nat (s_img_len s))) =
       s_expected_crc s) /\
  (s_state s = OTA_ST_BUSY ->
     s_erasing s = true /\ erased (sy_f y) (inactive_base b) (s_erase_at s)).
Proof.
  intros Hr s. destruct (reachable_inv f0 y Hr) as [Hi Ht]. fold s in Hi, Ht.
  split; [| split; [apply Hi | split]].
  - intros Hl. split; [by eapply session_not_erasing |]. split.
    + destruct (sy_tick y) as [[sn res] |]; [| done]. destruct Ht as [k []].
      unfold live in Hl. tauto.
    + apply Hi. destruct Hl; auto.
  - intros Hv. destruct (si_verified _ _ _ Hi Hv) as [Hc1 Hc2]. congruence.
  - intros Hb. destruct (si_busy _ _ _ Hi Hb) as (? & _ & ?). done.
Qed.
End session_proofs.
