(* ===== verification/OtaUpdate.v ===== *)
(** * A whole update: BEGIN, erase walk, chunks, VERIFY, COMMIT, next boot

    The erase walk a BEGIN arms ends within 108 ticks whatever the flash answers.
    With a flash that reports no error, an update the handlers accept runs to
    its end: the walk takes exactly the 108 ticks, every paced chunk is
    acknowledged, VERIFY computes the image's CRC, COMMIT writes a record the
    bootloader boots.  Replayed chunks change nothing; a chunk extended by the
    link's zero filler is refused. *)

From stdpp Require Import base tactics list numbers option.
From S2P Require Import Prelude Crc Wire OtaLayout Flash BootDecide Ota OtaMeta OtaSafety.
From S2P Require Import OtaSession.

Definition ERASE_TICKS : nat := 108.

Section update.
Context {F} `{FlashLaws F b} {healthy : F -> Prop} `{!FlashHealthy F b healthy}.

Definition erase_ticks (n : nat) (x : F * ota) : F * ota :=
  Nat.iter n (fun x => ota_erase_tick x.1 x.2) x.

Lemma slot_range_allowed lo n :
  inactive_base b <= lo -> 0 <= n -> lo + n <= inactive_base b + OTA_SLOT_SIZE ->
  ota_fmc_range_forbidden b lo n = false.
Proof.
  intros Hlo Hn Hhi. apply range_allowed.
  unfold OTA_RUNNING_SLOT_END, OTA_RUNNING_SLOT_BASE, BRIDGE_APP_SLOT_BASE, inactive_base,
    OTA_BOOTLOADER_BASE, OTA_BOOTLOADER_SIZE, OTA_SLOT_A_BASE, OTA_SLOT_B_BASE, OTA_SLOT_SIZE,
    UINT32_MAX in *.
  destruct b; lia.
Qed.

Lemma meta_range_allowed p n :
  is_meta_page p -> 0 <= n <= OTA_PAGE_SIZE -> ota_fmc_range_forbidden b p n = false.
Proof.
  intros Hp Hn. apply range_allowed.
  unfold OTA_RUNNING_SLOT_END, OTA_RUNNING_SLOT_BASE, BRIDGE_APP_SLOT_BASE,
    OTA_BOOTLOADER_BASE, OTA_BOOTLOADER_SIZE, OTA_SLOT_A_BASE, OTA_SLOT_B_BASE, OTA_SLOT_SIZE,
    UINT32_MAX, OTA_PAGE_SIZE in *.
  destruct Hp as [-> | ->]; unfold OTA_META_REC0, OTA_META_REC1, OTA_META_BASE, OTA_PAGE_SIZE in *;
    destruct b; lia.
Qed.

(** ** Commits succeed *)

Lemma meta_page_aligned p : is_meta_page p -> p mod OTA_PAGE_SIZE = 0 /\ p mod 8 = 0.
Proof. by intros [-> | ->]. Qed.

Lemma meta_commit_healthy (f : F) active up fw len crc fl ov inv :
  healthy f -> commit_args_ok active fw len crc fl -> (ov = 0 \/ is_meta_page ov) ->
  counter (meta_newest_or_zero f) < commit_limit fl ->
  exists f', meta_commit b f active up fw len crc fl ov inv = (f', true) /\ healthy f'.
Proof.
  intros Hh Ha Hov Hlt. unfold meta_commit. fold (commit_limit fl).
  destruct (Z.leb_spec (commit_limit fl) (counter (meta_newest_or_zero f))); [lia |].
  pose proof (meta_commit_target_page (b:=b) f ov Hov) as Hp.
  set (t := meta_commit_target b f ov) in *. destruct (meta_page_aligned t Hp) as [Hal Hal8].
  set (n := meta_next _ _ _ _ _ _ _ _).
  destruct (fh_erase f t OTA_PAGE_SIZE Hh (page_in_flash t Hp) Hal eq_refl) as [Hok Hh1].
  { apply meta_range_allowed; [done |]. unfold OTA_PAGE_SIZE. lia. }
  pose proof (fun a => fl_erase_ok f t OTA_PAGE_SIZE a (page_in_flash t Hp) Hok) as He.
  destruct (ota_fmc_erase_range f t OTA_PAGE_SIZE) as [f1 r1]; simpl in *. subst r1.
  destruct (fh_program f1 t (meta_bytes n) Hh1 (record_in_flash t n Hp) Hal8) as [Hok2 Hh2].
  - apply meta_bytes_ok, meta_next_ok; [apply meta_newest_ok | done].
  - apply meta_range_allowed; [done |]. change (Z.of_nat _) with (Z.of_nat sizeof_meta).
    unfold sizeof_meta, OTA_PAGE_SIZE. lia.
  - intros a Ha'. apply He. change (Z.of_nat _) with (Z.of_nat sizeof_meta) in Ha'.
    rewrite round8_meta in Ha'. unfold OTA_PAGE_SIZE. lia.
  - destruct (ota_fmc_program f1 t (meta_bytes n)) as [f2 r2]; simpl in *. subst r2. by exists f2.
Qed.

(** ** The erase walk *)

(** The sweep has erased [k] pages of the slot. *)
Record sweeping (f : F) (s : ota) (k : Z) : Prop := {
  sw_state : s_state s = OTA_ST_BUSY;
  sw_erasing : s_erasing s = true;
  sw_at : s_erase_at s = inactive_base b + k * OTA_PAGE_SIZE;
  sw_end : s_erase_end s = inactive_base b + OTA_SLOT_SIZE;
  sw_erased : erased f (inactive_base b) (s_erase_at s) }.

(** The same on a flash that reports no error. *)
Definition sweep_at (f : F) (s : ota) (k : Z) : Prop := healthy f /\ sweeping f s k.

(** The session fields a tick never touches. *)
Definition same_params (s s' : ota) : Prop :=
  s_inactive s' = s_inactive s /\ s_img_len s' = s_img_len s /\ s_last_off s' = s_last_off s /\
  s_expected_crc s' = s_expected_crc s /\ s_fw_version s' = s_fw_version s /\
  s_trial s' = s_trial s /\ s_reset s' = s_reset s.

Lemma same_params_refl s : same_params s s.
Proof. done. Qed.
Lemma same_params_trans s1 s2 s3 : same_params s1 s2 -> same_params s2 s3 -> same_params s1 s3.
Proof. unfold same_params. intuition congruence. Qed.

Definition slot_frame (f f' : F) : Prop :=
  flash_frame f f' (inactive_base b) OTA_SLOT_SIZE.

Lemma slot_frame_trans f1 f2 f3 : slot_frame f1 f2 -> slot_frame f2 f3 -> slot_frame f1 f3.
Proof. intros H1 H2 a Ha. rewrite H2, H1; done. Qed.

Lemma slot_frame_sub (f f' : F) lo n :
  inactive_base b <= lo -> lo + n <= inactive_base b + OTA_SLOT_SIZE ->
  flash_frame f f' lo n -> slot_frame f f'.
Proof. intros ?? Hf a Ha. apply Hf. lia. Qed.

(** The erase call the next tick makes. *)
Definition next_erase (x : F * ota) : F * ota_fmc_result :=
  ota_fmc_erase_range x.1 (s_erase_at x.2) OTA_PAGE_SIZE.

Lemma sweep_page k :
  0 <= k < 108 ->
  let at' := inactive_base b + k * OTA_PAGE_SIZE in
  inactive_base b <= at' /\ at' + OTA_PAGE_SIZE <= inactive_base b + OTA_SLOT_SIZE /\
  at' mod OTA_PAGE_SIZE = 0 /\ in_flash at' OTA_PAGE_SIZE.
Proof.
  intros Hk at'.
  assert (Hin : inactive_base b <= at' /\ at' + OTA_PAGE_SIZE <= inactive_base b + OTA_SLOT_SIZE)
    by (unfold at', OTA_PAGE_SIZE, OTA_SLOT_SIZE; lia).
  split; [lia |]. split; [lia |]. split.
  - unfold at'. rewrite Z.mod_add by done. by destruct b.
  - apply (slot_in_flash (b:=b)); unfold OTA_PAGE_SIZE in *; lia.
Qed.

(** One tick of the walk, whatever the flash answers. *)
Lemma sweep_step (f : F) s k :
  sweeping f s k -> 0 <= k < 108 ->
  let x := ota_erase_tick f s in
  x.1 = (next_erase (f, s)).1 /\ same_params s x.2 /\ slot_frame f x.1 /\
  if bool_decide ((next_erase (f, s)).2 = OTA_FMC_RESULT_OK) then
    if k =? 107 then
      s_state x.2 = OTA_ST_READY /\ s_erasing x.2 = false /\
      erased x.1 (inactive_base b) (inactive_base b + OTA_SLOT_SIZE)
    else sweeping x.1 x.2 (k + 1)
  else s_state x.2 = OTA_ST_ERROR /\ s_err x.2 = BRIDGE_OTA_ERR_ERASE_FAILED /\ s_erasing x.2 = false.
Proof.
  intros [] Hk. destruct (sweep_page k Hk) as (Hlo & Hhi & _ & Hpf).
  unfold ota_erase_tick, tick_snapshot, next_erase. rewrite sw_erasing0. cbn [fst snd sn_at].
  rewrite sw_at0 in *. set (at' := inactive_base b + k * OTA_PAGE_SIZE) in *.
  pose proof (fl_erase_frame f at' OTA_PAGE_SIZE Hpf) as Hfr.
  pose proof (fun a => fl_erase_ok f at' OTA_PAGE_SIZE a Hpf) as He.
  destruct (ota_fmc_erase_range f at' OTA_PAGE_SIZE) as [f1 r]; simpl in *.
  assert (Hsf : slot_frame f f1) by (eapply slot_frame_sub; [| | done]; lia).
  unfold tick_publish. simpl. rewrite sw_erasing0, Z.eqb_refl. simpl.
  split; [by destruct r |]. split; [destruct r; simpl; repeat case_match; done |].
  split; [done |]. case_bool_decide as Hr; [subst r | by destruct r].
  assert (Hu : u32 (at' + OTA_PAGE_SIZE) = at' + OTA_PAGE_SIZE).
  { apply u32_id. unfold is_u32, inactive_base, OTA_SLOT_A_BASE, OTA_SLOT_B_BASE, OTA_SLOT_SIZE,
      OTA_PAGE_SIZE in *. destruct b; lia. }
  rewrite Hu, sw_end0.
  assert (Her : erased f1 (inactive_base b) (at' + OTA_PAGE_SIZE)).
  { intros a Ha. destruct (Z.lt_ge_cases a at'); [rewrite Hfr by lia; apply sw_erased0 | apply He]; lia || done. }
  destruct (Z.leb_spec (inactive_base b + OTA_SLOT_SIZE) (at' + OTA_PAGE_SIZE)) as [Hle | Hgt].
  - assert (k = 107) by (unfold at', OTA_PAGE_SIZE, OTA_SLOT_SIZE in *; lia). subst k. simpl.
    rewrite sw_state0. rewrite bool_decide_true by done. simpl.
    split; [done |]. split; [done |]. intros a Ha. apply Her. lia.
  - assert (k <> 107) by (unfold at', OTA_PAGE_SIZE, OTA_SLOT_SIZE in *; lia).
    destruct (Z.eqb_spec k 107); [done |]. split; simpl; try done. unfold at'. lia.
Qed.

Lemma next_erase_healthy f s k :
  sweep_at f s k -> 0 <= k < 108 ->
  (next_erase (f, s)).2 = OTA_FMC_RESULT_OK /\ healthy (next_erase (f, s)).1.
Proof.
  intros [Hh []] Hk. destruct (sweep_page k Hk) as (Hlo & Hhi & Hal & Hpf).
  unfold next_erase. simpl. rewrite sw_at0.
  apply (fh_erase f _ OTA_PAGE_SIZE Hh Hpf Hal eq_refl).
  apply slot_range_allowed; unfold OTA_PAGE_SIZE in *; lia.
Qed.

Lemma sweep_tick (f : F) s k :
  sweep_at f s k -> 0 <= k < 108 ->
  let x := ota_erase_tick f s in
  same_params s x.2 /\ slot_frame f x.1 /\
  if k =? 107 then
    healthy x.1 /\ s_state x.2 = OTA_ST_READY /\ s_erasing x.2 = false /\
    erased x.1 (inactive_base b) (inactive_base b + OTA_SLOT_SIZE)
  else sweep_at x.1 x.2 (k + 1).
Proof.
  intros Hs Hk. destruct (next_erase_healthy f s k Hs Hk) as [Hok Hh'].
  destruct (sweep_step f s k (proj2 Hs) Hk) as (He & Hp & Hf & Hn).
  rewrite bool_decide_true in Hn by done. rewrite <- He in Hh'.
  split; [done |]. split; [done |]. by destruct (k =? 107).
Qed.

Lemma erase_ticks_S n x :
  erase_ticks (S n) x = ota_erase_tick (erase_ticks n x).1 (erase_ticks n x).2.
Proof. reflexivity. Qed.

Lemma sweep_ticks (n : nat) f s :
  sweep_at f s 0 -> (n < ERASE_TICKS)%nat ->
  sweep_at (erase_ticks n (f, s)).1 (erase_ticks n (f, s)).2 (Z.of_nat n) /\
  same_params s (erase_ticks n (f, s)).2 /\ slot_frame f (erase_ticks n (f, s)).1.
Proof.
  unfold ERASE_TICKS. intros Hs. induction n as [| n IH]; intros Hn.
  { simpl. split; [done |]. by split. }
  destruct IH as (Hsw & Hp & Hf); [lia |].
  rewrite erase_ticks_S.
  destruct (sweep_tick _ _ _ Hsw) as (Hp' & Hf' & Hn'); [lia |].
  destruct (Z.eqb_spec (Z.of_nat n) 107); [lia |].
  split; [by replace (Z.of_nat (S n)) with (Z.of_nat n + 1) by lia |].
  split; [by eapply same_params_trans | by eapply slot_frame_trans].
Qed.

Lemma sweep_finishes f s :
  sweep_at f s 0 ->
  let x := erase_ticks ERASE_TICKS (f, s) in
  healthy x.1 /\ s_state x.2 = OTA_ST_READY /\ s_erasing x.2 = false /\
  erased x.1 (inactive_base b) (inactive_base b + OTA_SLOT_SIZE) /\
  same_params s x.2 /\ slot_frame f x.1.
Proof.
  intros Hs. destruct (sweep_ticks 107 f s Hs) as (Hsw & Hp & Hf); [unfold ERASE_TICKS; lia |].
  cbv zeta. unfold ERASE_TICKS. rewrite (erase_ticks_S 107).
  set (x := erase_ticks 107 (f, s)) in *. clearbody x.
  change (Z.of_nat 107) with 107 in Hsw.
  destruct (sweep_tick _ _ _ Hsw) as (Hp' & Hf' & Hn'); [lia |].
  change (107 =? 107) with true in Hn'. destruct Hn' as (Hh & Hst & Her & Hall).
  repeat (split; [done |]). split; [by eapply same_params_trans | by eapply slot_frame_trans].
Qed.

(** ** Streaming chunks *)

(** The host's [OTA_WRITE_CHUNK] payload: offset, length byte, data. *)
Definition chunk_req (off : Z) (data : list Z) : list Z :=
  put32 off ++ Z.of_nat (length data) :: data.

Lemma chunk_req_fields off data :
  is_u32 off -> le32 (chunk_req off data) = off /\
  (chunk_req off data).[4] = Z.of_nat (length data) /\ drop 5 (chunk_req off data) = data /\
  Z.of_nat (length (chunk_req off data)) = 5 + Z.of_nat (length data).
Proof.
  intros Hoff. split; [by apply le32_put32 |]. split; [done |]. split; [done |].
  unfold chunk_req. rewrite length_app. simpl. lia.
Qed.

(** A chunk at the high-water mark of an erased tail is programmed and acknowledged. *)
Lemma h_write_fresh f s off data cap :
  healthy f -> s_state s = OTA_ST_READY -> s_inactive s = other_slot b ->
  s_last_off s = off -> 0 <= off -> off mod 8 = 0 -> bytes_ok data ->
  0 < Z.of_nat (length data) < 256 -> off + Z.of_nat (length data) <= OTA_SLOT_SIZE ->
  erased f (inactive_base b + off) (inactive_base b + OTA_SLOT_SIZE) ->
  exists f', h_write f s (chunk_req off data) cap =
    (f', set_last_off (off + Z.of_nat (length data)) s,
     (STATUS_OK, if 4 <=? cap then Some (put32 (off + Z.of_nat (length data))) else None)) /\
    healthy f' /\ bytes_at (flash_byte f') (inactive_base b + off) (length data) = data /\
    flash_frame f f' (inactive_base b + off) (round8 (Z.of_nat (length data))).
Proof.
  intros Hh Hst Hin Hlo Hoff Hal Hd Hlen Hfit Her.
  assert (Hou : is_u32 off) by (unfold is_u32, OTA_SLOT_SIZE in *; lia).
  destruct (chunk_req_fields off data Hou) as (E1 & E2 & E3 & E4).
  unfold h_write. cbv zeta. rewrite E1, E2, E3, E4, Hst, Hlo.
  set (n := Z.of_nat (length data)) in *.
  rewrite bool_decide_true by done. simpl negb. cbv iota.
  destruct (Z.ltb_spec (5 + n) 5); [lia |].
  destruct (Z.eqb_spec n 0); [lia |]. destruct (Z.eqb_spec n (5 + n - 5)); [| lia]. simpl orb.
  destruct (Z.ltb_spec OTA_SLOT_SIZE off); [lia |].
  destruct (Z.ltb_spec (OTA_SLOT_SIZE - off) n); [lia |]. simpl orb. cbv iota.
  unfold OTA_PROGRAM_GRANULE. rewrite Hal. simpl negb. cbv iota.
  rewrite u32_id by (unfold is_u32, OTA_SLOT_SIZE in *; lia).
  destruct (Z.leb_spec (off + n) off); [lia |].
  rewrite inactive_base_s by done.
  assert (Hr8 : off + round8 n <= OTA_SLOT_SIZE) by (unfold round8, OTA_SLOT_SIZE in *; zlia).
  assert (Hpf : in_flash (inactive_base b + off) (round8 n)).
  { apply (slot_in_flash (b:=b)); [lia | apply round8_nonneg; lia | lia]. }
  pose proof (fl_program_frame f (inactive_base b + off) data Hpf) as Hfr. fold n in Hfr.
  assert (Her' : forall a, inactive_base b + off <= a < inactive_base b + off + round8 n ->
            flash_byte f a = 0xFF) by (intros a Ha; apply Her; lia).
  destruct (fh_program f (inactive_base b + off) data Hh Hpf) as [Hok Hh'].
  - rewrite <- Z.add_mod_idemp_l by done.
    replace (inactive_base b mod 8) with 0 by (by destruct b). done.
  - done.
  - apply slot_range_allowed; lia.
  - exact Her'.
  - pose proof (fl_program_ok f (inactive_base b + off) data Hpf Hd Her' Hok) as Hrb.
    destruct (ota_fmc_program f (inactive_base b + off) data) as [f1 r]; simpl in *. subst r.
    destruct (Z.ltb_spec (s_last_off s) (off + n)); [| lia].
    exists f1. split; [| done]. f_equal. f_equal.
    unfold set_last_off, set_state; simpl. by rewrite Hst.
Qed.

(** Chunks paced as the reply to BEGIN asks: every chunk but the last a multiple
    of the program granule. *)
Fixpoint paced (cs : list (list Z)) : Prop :=
  match cs with
  | [] => True
  | c :: rest =>
      0 < Z.of_nat (length c) <= OTA_CHUNK_MAX /\ bytes_ok c /\
      (rest <> [] -> Z.of_nat (length c) mod OTA_PROGRAM_GRANULE = 0) /\ paced rest
  end.

Fixpoint stream (off : Z) (cs : list (list Z)) (x : F * ota) : F * ota * list gd32_bridge_status :=
  match cs with
  | [] => (x, [])
  | c :: rest =>
      let '(f, s, (st, _)) := h_write x.1 x.2 (chunk_req off c) 65 in
      let '(x, sts) := stream (off + Z.of_nat (length c)) rest (f, s) in
      (x, st :: sts)
  end.

Lemma stream_ok cs : forall off f s,
  healthy f -> s_state s = OTA_ST_READY -> s_inactive s = other_slot b ->
  s_last_off s = off -> 0 <= off -> (cs <> [] -> off mod 8 = 0) -> paced cs ->
  off + Z.of_nat (length (concat cs)) <= OTA_SLOT_SIZE ->
  (cs <> [] -> erased f (inactive_base b + off) (inactive_base b + OTA_SLOT_SIZE)) ->
  exists f', stream off cs (f, s) =
    (f', set_last_off (off + Z.of_nat (length (concat cs))) s, (fun _ => STATUS_OK) <$> cs) /\
    healthy f' /\
    bytes_at (flash_byte f') (inactive_base b + off) (length (concat cs)) = concat cs /\
    slot_frame f f' /\
    (forall a, inactive_base b <= a < inactive_base b + off -> flash_byte f' a = flash_byte f a).
Proof.
  induction cs as [| c cs IH]; intros off f s Hh Hst Hin Hlo Hoff Hal Hp Hfit Her.
  { exists f. simpl. split; [| done]. do 2 f_equal. rewrite Z.add_0_r, <- Hlo. by destruct s. }
  destruct Hp as (Hc & Hcb & Hcm & Hp). simpl concat in *. rewrite length_app, Nat2Z.inj_add in *.
  assert (Hmax : OTA_CHUNK_MAX = 56) by reflexivity.
  set (n := Z.of_nat (length c)) in *.
  destruct (h_write_fresh f s off c 65) as (f1 & Hw & Hh1 & Hb1 & Hf1); try done; try lia; auto.
  fold n in Hw, Hf1.
  assert (Hr8 : off + round8 n <= OTA_SLOT_SIZE).
  { specialize (Hal ltac:(done)). unfold round8, OTA_SLOT_SIZE in *. zlia. }
  destruct (IH (off + n) f1 (set_last_off (off + n) s)) as (f2 & Hs2 & Hh2 & Hb2 & Hf2 & Hlow2);
    try done; try lia.
  { intros Hne. specialize (Hal ltac:(done)). specialize (Hcm Hne). unfold OTA_PROGRAM_GRANULE in Hcm. zlia. }
  { intros Hne a Ha. specialize (Hcm Hne). unfold OTA_PROGRAM_GRANULE in Hcm.
    assert (round8 n = n) by (unfold round8; zlia).
    rewrite Hf1 by lia. apply Her; [done | lia]. }
  exists f2. simpl stream. simpl fst; simpl snd. rewrite Hw. fold n. rewrite Hs2.
  split; [by rewrite Z.add_assoc |]. split; [done |]. split; [| split].
  - rewrite bytes_at_app. f_equal.
    + transitivity (bytes_at (flash_byte f1) (inactive_base b + off) (length c)); [| done].
      apply bytes_at_ext. intros a Ha. apply Hlow2. unfold n in *. lia.
    + fold n. rewrite <- Z.add_assoc. done.
  - eapply slot_frame_trans; [| done]. eapply slot_frame_sub; [| | done]; lia.
  - intros a Ha. rewrite Hlow2 by lia. apply Hf1. lia.
Qed.

(** ** What the bootloader then does *)

Lemma slot_frame_meta (f f' : F) p :
  slot_frame f f' -> is_meta_page p -> meta_read f' p = meta_read f p.
Proof.
  intros Hf Hp. apply (meta_read_slot_ext (b:=b)); [done |]. intros a Ha. apply Hf.
  intros Hr. apply Ha, in_inactive_slot. exact Hr.
Qed.

Lemma slot_frame_current (f f' : F) : slot_frame f f' -> meta_current f' = meta_current f.
Proof.
  intros Hf. unfold meta_current. rewrite !(slot_frame_meta f f') by (done || (unfold is_meta_page; auto)).
  done.
Qed.

(** A valid current record that strictly outranks the other page and passes the
    trial gate is what the bootloader boots. *)
Lemma boot_picks_current (f : F) r p base feed wdt :
  meta_current f = Some (r, p) -> active_slot_valid (flash_map f) r = true ->
  (forall r', meta_read f (other_page p) = Some r' -> counter r' < counter r) ->
  ota_boot_candidate_ok r wdt = true -> ota_slot_base_checked (active_slot r) = Some base ->
  (boot_decide_slot (Some (flash_map f)) feed wdt).1 = (true, BootDecision base (is_trial r) false).
Proof.
  intros Hcur Hv Hlt Hok Hb.
  destruct (meta_current_some f r p Hcur) as (Hp & Hr & _).
  assert (Hin : r ∈ meta_candidates (flash_map f)).
  { apply meta_candidates_elem. rewrite !meta_read_boot. destruct Hp as [-> | ->]; auto. }
  destruct (boot_decide_slot (Some (flash_map f)) feed wdt) as [[[|] d] evs] eqn:E; simpl.
  2: { apply boot_decide_none in E as [_ Hall]. apply Hall in Hin. congruence. }
  apply boot_decide_sound in E as (x & Hx & Hvx & Hbx & Htx & Hlr & Hnew & Hlast).
  assert (x = r) as ->.
  { apply meta_candidates_elem in Hx. rewrite !meta_read_boot in Hx.
    assert (Hor : meta_read f p = Some x \/ meta_read f (other_page p) = Some x).
    { destruct Hp as [-> | ->]; unfold other_page; simpl; tauto. }
    destruct Hor as [Hor | Hor]; [congruence |]. specialize (Hlt x Hor).
    specialize (Hnew r Hin Hv Hlt). rewrite Hok in Hnew.
    destruct (ota_boot_candidate_ok x wdt) eqn:Ex; [by rewrite Hlr in Hnew |].
    (* the last-resort pass needs every valid candidate rejected *)
    specialize (Hlast Hlr r Hin Hv). congruence. }
  rewrite Hok in Hlr. destruct d; simpl in *. by simplify_eq.
Qed.

Lemma commit_strictly_newest (f f' : F) active up fw len crc fl ov inv r' :
  commit_args_ok active fw len crc fl -> (ov = 0 \/ is_meta_page ov) ->
  meta_commit b f active up fw len crc fl ov inv = (f', true) ->
  meta_read f' (other_page (meta_commit_target b f ov)) = Some r' ->
  counter r' < counter (meta_next (meta_newest_or_zero f) active up fw len crc fl inv).
Proof.
  intros Ha Hov Hc Hr'. pose proof (meta_commit_frame f active up fw len crc fl ov inv Hov) as Hf.
  rewrite Hc in Hf; simpl in Hf.
  destruct (meta_commit_true _ _ _ _ _ _ _ _ _ _ Ha Hov Hc) as [_ Hlt].
  rewrite (meta_next_counter f) by done.
  pose proof (meta_commit_target_page (b:=b) f ov Hov) as Hp.
  rewrite (meta_read_frame _ _ _ _ Hf) in Hr' by (done || apply other_page_page || by apply other_page_ne).
  pose proof (meta_newest_bound f _ _ (other_page_page _) Hr'). lia.
Qed.

(** The record COMMIT writes validates when the slot holds the image it describes. *)
Lemma meta_next_valid (f : F) r slot base fw len crc fl :
  ota_slot_base_checked slot = Some base -> 0 < len <= OTA_SLOT_SIZE ->
  ota_crc32 0 (bytes_at (flash_byte f) base (Z.to_nat len)) = crc ->
  ota_image_bootable base (Some (bytes_at (flash_byte f) base (Z.to_nat len))) len = true ->
  active_slot_valid (flash_map f) (meta_next r slot true fw len crc fl 0xFF) = true.
Proof.
  intros Hb Hlen Hc Hbo. apply active_slot_valid_spec.
  exists base, (bytes_at (flash_byte f) base (Z.to_nat len)).
  unfold meta_next. change (0xFF =? OTA_SLOT_A) with false. change (0xFF =? OTA_SLOT_B) with false.
  cbn [orb seal active_slot slot_valid img_len img_crc32]. rewrite !aget_aset_eq.
  split; [done |]. split.
  - rewrite Z.land_lor_distr_l, Z.land_diag. intros Hz. apply Z.lor_eq_0_iff in Hz as [_ Hz].
    apply slot_base_inv in Hb as [[-> _] | [-> _]]; done.
  - repeat (split; [lia || done |]). done.
Qed.

(** ** End to end *)

(** OTA_BEGIN's v0.7 payload. *)
Definition begin_req (len crc maj min pat : Z) : list Z :=
  put32 len ++ put32 crc ++ [maj; min; pat].
Definition packed_version (maj min pat : Z) : Z :=
  Z.lor (Z.lor (Z.shiftl maj 16) (Z.shiftl min 8)) pat.

(** The conditions on an image and the metadata under which the update is
    accepted: fits the slot, bootable there, carries the confirm-capable
    marker, not below the version floor, and the counter has headroom. *)
Record update_ok (f : F) (img : list Z) (maj min pat : Z) : Prop := {
  uo_bytes : bytes_ok img;
  uo_len : 0 < Z.of_nat (length img) <= OTA_SLOT_SIZE;
  uo_ver : is_byte maj /\ is_byte min /\ is_byte pat;
  uo_bootable : ota_image_bootable (inactive_base b) (Some img) (Z.of_nat (length img)) = true;
  uo_trial : ota_image_trial_capable (Some img) (Z.of_nat (length img)) = true;
  uo_meta : exists cur p, meta_current f = Some (cur, p) /\
    counter cur <= OTA_META_BEGIN_MAX_COUNTER /\
    ota_version_floor cur <= packed_version maj min pat }.

Lemma packed_version_u32 maj min pat :
  is_byte maj -> is_byte min -> is_byte pat -> is_u32 (packed_version maj min pat).
Proof.
  unfold is_byte. intros. unfold packed_version. rewrite Z.lor_comm, (Z.lor_comm (Z.shiftl maj 16)).
  rewrite (Z.lor_assoc pat). rewrite (lor_shiftl_add 8 pat min) by lia.
  rewrite (lor_shiftl_add 16) by lia. unfold is_u32. lia.
Qed.

Lemma begin_req_fields len crc maj min pat :
  is_u32 len -> is_u32 crc -> is_byte maj -> is_byte min -> is_byte pat ->
  let req := begin_req len crc maj min pat in
  bytes_ok req /\ length req = 11%nat /\ le32 req = len /\ le32 (drop 4 req) = crc /\
  req.[8] = maj /\ req.[9] = min /\ req.[10] = pat.
Proof.
  intros Hl Hc H1 H2 H3. cbv zeta. split.
  - unfold begin_req. rewrite !Forall_app. repeat split; auto with gd32.
  - split; [done |]. split; [by apply le32_put32 |]. split; [by apply (le32_put32 crc) |]. done.
Qed.

Lemma demote_floor r inv :
  ota_version_floor (meta_next r (active_slot r) false 0 0 0 (flags r) inv) = ota_version_floor r.
Proof. done. Qed.

(** BEGIN accepts, and the session starts a sweep from page 0. *)
Lemma begin_starts f s img crc maj min pat :
  healthy f -> update_ok f img maj min pat -> is_u32 crc ->
  let req := begin_req (Z.of_nat (length img)) crc maj min pat in
  let '(f1, s1, (st, _)) := h_begin b f s req 65 in
  st = STATUS_OK /\ sweep_at f1 s1 0 /\ s_inactive s1 = other_slot b /\
  s_img_len s1 = Z.of_nat (length img) /\ s_last_off s1 = 0 /\ s_expected_crc s1 = crc /\
  s_fw_version s1 = packed_version maj min pat /\ s_reset s1 = s_reset s /\
  exists n p, meta_current f1 = Some (n, p) /\ counter n < OTA_META_COUNTER_LIMIT - 1 /\
    ota_version_floor n <= packed_version maj min pat.
Proof.
  intros Hh [Hb Hlen (Hv1 & Hv2 & Hv3) _ _ (cur & p & Hcur & Hcnt & Hfl)] Hcrc.
  assert (Hlu : is_u32 (Z.of_nat (length img))) by (unfold is_u32, OTA_SLOT_SIZE in *; lia).
  destruct (begin_req_fields _ crc maj min pat Hlu Hcrc Hv1 Hv2 Hv3)
    as (Hreq & Hlr & E1 & E2 & E3 & E4 & E5).
  cbv zeta. set (req := begin_req _ _ _ _ _) in *.
  unfold h_begin. cbv zeta. rewrite Hlr, E1, E2, E3, E4, E5, inactive_base_checked, inactive_base_end.
  change (Z.of_nat 11 <? 8) with false. change (11 <=? Z.of_nat 11) with true. cbv iota.
  destruct (Z.eqb_spec (Z.of_nat (length img)) 0); [lia |].
  destruct (Z.ltb_spec OTA_SLOT_SIZE (Z.of_nat (length img))); [lia |]. simpl orb. cbv iota.
  replace ((inactive_base b <? OTA_RUNNING_SLOT_END b) &&
           (OTA_RUNNING_SLOT_BASE b <? inactive_base b + OTA_SLOT_SIZE)) with false by (by destruct b).
  rewrite Hcur. destruct (Z.ltb_spec OTA_META_BEGIN_MAX_COUNTER (counter cur)); [lia |].
  rewrite fh_not_busy by done.
  pose proof (commit_args_demote f cur p Hcur) as Hca.
  assert (Hnew : meta_newest_or_zero f = cur) by (unfold meta_newest_or_zero; by rewrite Hcur).
  assert (Hlim : counter cur < commit_limit (flags cur)).
  { unfold commit_limit, OTA_META_BEGIN_MAX_COUNTER, OTA_META_COUNTER_LIMIT in *.
    destruct (negb _); lia. }
  destruct (meta_commit_healthy f (active_slot cur) false 0 0 0 (flags cur) 0 (other_slot b))
    as (f1 & Hcm & Hh1); [done | done | by left | by rewrite Hnew |].
  rewrite Hcm.
  pose proof (meta_commit_current f f1 _ _ _ _ _ _ _ _ Hca (or_introl eq_refl) Hcm) as Hcur1.
  rewrite Hnew in Hcur1.
  split; [done |]. split.
  { split; [done |]. split; simpl; try done; [lia |]. intros a Ha. lia. }
  repeat (split; [done |]).
  eexists _, _. split; [exact Hcur1 |]. rewrite demote_floor. split; [| done].
  pose proof (meta_next_counter f (active_slot cur) false 0 0 0 (flags cur) (other_slot b)) as Hn.
  rewrite Hnew in Hn. rewrite Hn by done.
  unfold OTA_META_BEGIN_MAX_COUNTER, OTA_META_COUNTER_LIMIT in *. lia.
Qed.

(** The host's update sequence; the statuses of every reply, in order. *)
Definition run_update (f : F) (s : ota) (img : list Z) (maj min pat : Z) (cs : list (list Z))
    : F * ota * list gd32_bridge_status :=
  let len := Z.of_nat (length img) in
  let '(f1, s1, (st1, _)) := h_begin b f s (begin_req len (ota_crc32 0 img) maj min pat) 65 in
  let '(f2, s2) := erase_ticks ERASE_TICKS (f1, s1) in
  let '(f3, s3, sts) := stream 0 cs (f2, s2) in
  let '(f4, s4, (st4, _)) := h_verify f3 s3 65 in
  let '(f5, s5, (st5, _)) := h_commit b f4 s4 in
  (f5, s5, st1 :: sts ++ [st4; st5]).

(** VERIFY accepts an image that is in the slot with the declared CRC. *)
Lemma h_verify_accepts f s img :
  s_state s = OTA_ST_READY -> s_inactive s = other_slot b ->
  s_img_len s = Z.of_nat (length img) -> 0 < Z.of_nat (length img) <= OTA_SLOT_SIZE ->
  s_expected_crc s = ota_crc32 0 img ->
  bytes_at (flash_byte f) (inactive_base b) (length img) = img ->
  h_verify f s 65 = (f, set_state OTA_ST_VERIFIED (set_img_crc (ota_crc32 0 img) s),
                     (STATUS_OK, Some (put32 (ota_crc32 0 img) ++ [1]))).
Proof.
  intros Hst Hin Hl Hlen Hc Hb. unfold h_verify. rewrite Hst, Hl. cbv zeta.
  rewrite bool_decide_true by done. simpl negb. cbv iota.
  destruct (Z.eqb_spec (Z.of_nat (length img)) 0); [lia |].
  destruct (Z.ltb_spec OTA_SLOT_SIZE (Z.of_nat (length img))); [lia |]. simpl orb. cbv iota.
  unfold slot_bytes, ota_fmc_flash_ptr. rewrite inactive_base_s, Nat2Z.id, Hb by done.
  cbn [set_img_crc s_expected_crc]. rewrite Hc, Z.eqb_refl. done.
Qed.

(** COMMIT of a verified, acceptable image writes its record and resets. *)
Lemma h_commit_accepts f s img n p :
  healthy f -> s_state s = OTA_ST_VERIFIED -> s_inactive s = other_slot b ->
  s_img_len s = Z.of_nat (length img) -> s_img_crc s = ota_crc32 0 img -> bytes_ok img ->
  0 < Z.of_nat (length img) <= OTA_SLOT_SIZE -> is_u32 (s_fw_version s) ->
  bytes_at (flash_byte f) (inactive_base b) (length img) = img ->
  ota_image_bootable (inactive_base b) (Some img) (Z.of_nat (length img)) = true ->
  ota_image_trial_capable (Some img) (Z.of_nat (length img)) = true ->
  meta_current f = Some (n, p) -> counter n < OTA_META_COUNTER_LIMIT - 1 ->
  ota_version_floor n <= s_fw_version s ->
  exists f', h_commit b f s = (f', ota_system_reset s, (STATUS_OK, None)) /\ healthy f' /\
    forall feed, (boot_decide_slot (Some (flash_map f')) feed false).1 =
      (true, BootDecision (inactive_base b) true false).
Proof.
  intros Hh Hst Hin Hl Hc Hib Hlen Hfw Hb Hboot Htr Hcur Hcnt Hfl.
  unfold h_commit. rewrite Hst, Hl, Hc, Hin, Hcur. cbv zeta.
  rewrite bool_decide_true by done. change (negb true) with false. cbv iota.
  destruct (Z.eqb_spec (Z.of_nat (length img)) 0); [lia |].
  destruct (Z.ltb_spec OTA_SLOT_SIZE (Z.of_nat (length img))); [lia |]. change (false || false) with false. cbv iota.
  unfold slot_bytes, ota_fmc_flash_ptr. rewrite inactive_base_s, Nat2Z.id, Hb, Hboot, Htr by done.
  change (negb true) with false. cbv iota. destruct (Z.ltb_spec (s_fw_version s) (ota_version_floor n)); [lia |].
  assert (Hnew : meta_newest_or_zero f = n) by (unfold meta_newest_or_zero; by rewrite Hcur).
  assert (Hca : commit_args_ok (other_slot b) (s_fw_version s) (Z.of_nat (length img))
                  (ota_crc32 0 img) OTA_META_FLAG_TRIAL).
  { split; [| done | | |].
    - destruct (other_slot_cases (b:=b)) as [-> | ->]; unfold is_byte; lia.
    - unfold is_u32, OTA_SLOT_SIZE in *; lia.
    - apply ota_crc32_u32; [apply zero_u32 | done].
    - unfold is_byte, OTA_META_FLAG_TRIAL; lia. }
  destruct (meta_commit_healthy f (other_slot b) true (s_fw_version s) (Z.of_nat (length img))
              (ota_crc32 0 img) OTA_META_FLAG_TRIAL 0 0xFF Hh Hca (or_introl eq_refl))
    as (f1 & Hcm & Hh1); [by rewrite Hnew |].
  rewrite Hcm. exists f1. split; [done |]. split; [done |]. intros feed.
  pose proof (meta_commit_current f f1 _ _ _ _ _ _ _ _ Hca (or_introl eq_refl) Hcm) as Hcur1.
  pose proof (commit_same_slot f (other_slot b) true (s_fw_version s) (Z.of_nat (length img))
                (ota_crc32 0 img) OTA_META_FLAG_TRIAL 0 0xFF (or_introl eq_refl)) as Hss.
  rewrite Hcm in Hss; simpl in Hss.
  assert (Hb1 : bytes_at (flash_byte f1) (inactive_base b) (length img) = img).
  { rewrite <- Hb at 2. apply bytes_at_ext. intros a Ha. apply Hss. unfold in_inactive. lia. }
  destruct (meta_next_fields (meta_newest_or_zero f) (other_slot b) true (s_fw_version s)
    (Z.of_nat (length img)) (ota_crc32 0 img) OTA_META_FLAG_TRIAL 0xFF) as (_ & _ & _ & Hact & Hflg & _).
  set (m := meta_next _ _ _ _ _ _ _ _) in *.
  assert (Htm : is_trial m = true) by (unfold is_trial; rewrite Hflg; reflexivity).
  pose proof (boot_picks_current f1 m _ (inactive_base b) feed false Hcur1) as Hpick.
  rewrite Htm in Hpick. apply Hpick.
  - apply (meta_next_valid _ _ _ (inactive_base b)); rewrite ?Nat2Z.id, ?Hb1; try done.
    apply inactive_base_checked.
  - intros r' Hr'. by apply (commit_strictly_newest f f1 _ _ _ _ _ _ _ _ _ Hca (or_introl eq_refl) Hcm).
  - unfold ota_boot_candidate_ok. by rewrite andb_false_r.
  - rewrite Hact. apply inactive_base_checked.
Qed.

(** C6. End to end: on a flash that reports no error, for every image and
    metadata an update is meant to accept and every chunking the pacing rule
    allows, the sequence BEGIN, 108 erase ticks, chunks, VERIFY, COMMIT gets
    [STATUS_OK] at every step, asks for the reset, and leaves metadata from which
    the bootloader boots the new image as a watchdog-guarded trial. *)
Theorem update_end_to_end (f : F) (s : ota) (img : list Z) (maj min pat : Z) (cs : list (list Z)) :
  healthy f -> update_ok f img maj min pat -> concat cs = img -> paced cs ->
  exists f' s', run_update f s img maj min pat cs =
      (f', s', STATUS_OK :: ((fun _ => STATUS_OK) <$> cs) ++ [STATUS_OK; STATUS_OK]) /\
    s_reset s' = true /\
    (forall feed, (boot_decide_slot (Some (flash_map f')) feed false).1 =
       (true, BootDecision (inactive_base b) true false)).
Proof.
  intros Hh Hu Hcs Hp. pose proof Hu as [Hib Hlen (Hv1 & Hv2 & Hv3) Hboot Htr _].
  assert (Hcrc : is_u32 (ota_crc32 0 img)) by (apply ota_crc32_u32; [apply zero_u32 | done]).
  pose proof (begin_starts f s img (ota_crc32 0 img) maj min pat Hh Hu Hcrc) as Hbeg.
  cbv zeta in Hbeg. unfold run_update.
  destruct (h_begin b f s _ 65) as [[f1 s1] [st1 p1]].
  destruct Hbeg as (-> & Hsw & Hi1 & Hl1 & Ho1 & He1 & Hw1 & Hr1 & n & p & Hcur & Hcnt & Hfl).
  pose proof (sweep_finishes f1 s1 Hsw) as Hfin. cbv zeta in Hfin.
  destruct (erase_ticks ERASE_TICKS (f1, s1)) as [f2 s2]; simpl fst in *; simpl snd in *.
  destruct Hfin as (Hh2 & Hst2 & _ & Her2 & (Hi2 & Hl2 & Ho2 & He2 & Hw2 & _) & Hf2).
  destruct (stream_ok cs 0 f2 s2) as (f3 & Hstr & Hh3 & Hb3 & Hf3 & _); try done; try congruence.
  { rewrite Hcs. lia. } { rewrite Z.add_0_r. done. }
  rewrite Hstr, Hcs in *. rewrite Z.add_0_r in Hb3.
  set (s3 := set_last_off _ s2).
  assert (Hs3 : s_state s3 = OTA_ST_READY /\ s_inactive s3 = other_slot b /\
    s_img_len s3 = Z.of_nat (length img) /\ s_expected_crc s3 = ota_crc32 0 img /\
    s_fw_version s3 = packed_version maj min pat).
  { unfold s3. cbn [set_last_off s_state s_inactive s_img_len s_expected_crc s_fw_version].
    repeat split; congruence. }
  clearbody s3. destruct Hs3 as (Hst3 & Hi3 & Hl3 & He3 & Hw3).
  rewrite (h_verify_accepts f3 s3 img) by done. cbv iota beta.
  set (s4 := set_state OTA_ST_VERIFIED (set_img_crc (ota_crc32 0 img) s3)).
  destruct (h_commit_accepts f3 s4 img n p) as (f5 & Hcm & Hh5 & Hboot5);
    [done | done | exact Hi3 | exact Hl3 | done | done | done | | done | done | done | | done | |].
  - change (s_fw_version s4) with (s_fw_version s3). rewrite Hw3. by apply packed_version_u32.
  - rewrite (slot_frame_current f1 f3); [done |]. by eapply slot_frame_trans.
  - change (s_fw_version s4) with (s_fw_version s3). by rewrite Hw3.
  - rewrite Hcm. exists f5, (ota_system_reset s4). done.
Qed.

(** ** Termination of the erase walk *)

Lemma begin_sweeping (f f' : F) s s' req cap pay :
  h_begin b f s req cap = (f', s', (STATUS_OK, pay)) -> sweeping f' s' 0.
Proof.
  unfold h_begin. cbv zeta. rewrite inactive_base_checked, inactive_base_end.
  assert (Harm : forall f1 s1, sweeping f1 (set_state OTA_ST_BUSY
    (set_erase true (inactive_base b) (inactive_base b + OTA_SLOT_SIZE) s1)) 0).
  { intros f1 s1. split; simpl; try done; [lia |]. intros a Ha. lia. }
  destruct (_ <? 8); [done |]. destruct (_ || _); [done |]. destruct (_ && _); [done |].
  destruct (meta_current f) as [[cur p] |]; [| intros [= <- <- _]; apply Harm].
  destruct (_ <? counter cur); [done |]. destruct (ota_fmc_funnel_busy f); [done |].
  destruct (meta_commit b f _ _ _ _ _ _ _ _) as [f1 []]; [| done].
  intros [= <- <- _]. apply Harm.
Qed.

Lemma begin_healthy (f f' : F) s s' req cap pay :
  healthy f -> bytes_ok req -> h_begin b f s req cap = (f', s', (STATUS_OK, pay)) -> healthy f'.
Proof.
  intros Hh Hreq. unfold h_begin. cbv zeta. rewrite inactive_base_checked, inactive_base_end.
  destruct (_ <? 8); [done |]. destruct (_ || _); [done |]. destruct (_ && _); [done |].
  destruct (meta_current f) as [[cur p] |] eqn:Hcur; [| by intros [= <- <- _]].
  destruct (_ <? counter cur) eqn:Hcnt; [done |]. destruct (ota_fmc_funnel_busy f); [done |].
  destruct (meta_commit_healthy f (active_slot cur) false 0 0 0 (flags cur) 0 (other_slot b))
    as (f1 & Hcm & Hh1); [done | by eapply commit_args_demote | by left | |].
  - unfold meta_newest_or_zero. rewrite Hcur.
    unfold commit_limit, OTA_META_BEGIN_MAX_COUNTER, OTA_META_COUNTER_LIMIT in *.
    destruct (negb _); lia.
  - rewrite Hcm. by intros [= <- <- _].
Qed.

(** A tick with no walk running does nothing. *)
Lemma erase_ticks_idle n m x :
  (n <= m)%nat -> s_erasing (erase_ticks n x).2 = false -> erase_ticks m x = erase_ticks n x.
Proof.
  intros Hm Hi. induction Hm as [| m Hm IH]; [done |]. rewrite erase_ticks_S, IH.
  unfold ota_erase_tick, tick_snapshot. rewrite Hi. by destruct (erase_ticks n x).
Qed.

(** A walk of [k] pages so far either goes on, or its last erase ended it. *)
Lemma sweep_progress f s n :
  sweeping f s 0 -> (n < ERASE_TICKS)%nat ->
  (forall m, (m < n)%nat -> (next_erase (erase_ticks m (f, s))).2 = OTA_FMC_RESULT_OK) ->
  let x := erase_ticks n (f, s) in
  sweeping x.1 x.2 (Z.of_nat n) /\ same_params s x.2 /\ slot_frame f x.1.
Proof.
  unfold ERASE_TICKS. intros Hs. induction n as [| n IH]; intros Hn Hok.
  { split; [done |]. by split. }
  destruct IH as (Hsw & Hp & Hf); [lia | auto |].
  cbv zeta. rewrite erase_ticks_S. specialize (Hok n ltac:(lia)).
  destruct (erase_ticks n (f, s)) as [f1 s1]; simpl in *.
  destruct (sweep_step f1 s1 (Z.of_nat n) Hsw) as (_ & Hp' & Hf' & Hn'); [lia |].
  rewrite bool_decide_true in Hn' by done.
  destruct (Z.eqb_spec (Z.of_nat n) 107); [lia |].
  split; [by replace (Z.of_nat (S n)) with (Z.of_nat n + 1) by lia |].
  split; [by eapply same_params_trans | by eapply slot_frame_trans].
Qed.

(** The first erase that fails, if any of the first [n] does. *)
Lemma first_failure (x : F * ota) n :
  (forall m, (m < n)%nat -> (next_erase (erase_ticks m x)).2 = OTA_FMC_RESULT_OK) \/
  exists k, (k < n)%nat /\ (next_erase (erase_ticks k x)).2 <> OTA_FMC_RESULT_OK /\
    forall m, (m < k)%nat -> (next_erase (erase_ticks m x)).2 = OTA_FMC_RESULT_OK.
Proof.
  induction n as [| n [IH | (k & Hk & Hf & Hm)]]; [left; lia | | right; exists k; auto with lia].
  destruct (decide ((next_erase (erase_ticks n x)).2 = OTA_FMC_RESULT_OK)) as [Hn | Hn].
  - left. intros m Hm. destruct (Nat.eq_dec m n) as [-> |]; [done | apply IH; lia].
  - right. exists n. auto with lia.
Qed.

(** C7. The erase walk an accepted BEGIN arms ends, whatever the flash answers.
    It is over after some [n] of at most 108 ticks: BUSY before, and no later tick
    changes anything.  If the [n]-th erase call reports success then [n] is 108,
    the session is READY, every session parameter is as BEGIN set it and the whole
    slot reads erased; if it fails, the session is in ERROR with the cause
    ERASE_FAILED.  Nothing outside the slot is touched, and on a flash that
    reports no error the walk takes exactly the 108 ticks. *)
Theorem erase_walk_terminates (f f' : F) (s s' : ota) (req : list Z) (cap : Z)
    (pay : option (list Z)) :
  h_begin b f s req cap = (f', s', (STATUS_OK, pay)) ->
  exists n, (1 <= n <= ERASE_TICKS)%nat /\
    (forall m, (m < n)%nat -> s_state (erase_ticks m (f', s')).2 = OTA_ST_BUSY) /\
    (forall m, (n <= m)%nat -> erase_ticks m (f', s') = erase_ticks n (f', s')) /\
    (let x := erase_ticks n (f', s') in
     same_params s' x.2 /\ slot_frame f' x.1 /\
     match (next_erase (erase_ticks (n - 1) (f', s'))).2 with
     | OTA_FMC_RESULT_OK =>
         n = ERASE_TICKS /\ s_state x.2 = OTA_ST_READY /\
         erased x.1 (inactive_base b) (inactive_base b + OTA_SLOT_SIZE)
     | _ => s_state x.2 = OTA_ST_ERROR /\ s_err x.2 = BRIDGE_OTA_ERR_ERASE_FAILED
     end) /\
    (healthy f -> bytes_ok req -> s_state (erase_ticks n (f', s')).2 = OTA_ST_READY).
Proof.
  intros Hbeg. pose proof (begin_sweeping f f' s s' req cap pay Hbeg) as Hs.
  assert (Hhs : healthy f -> bytes_ok req ->
    s_state (erase_ticks ERASE_TICKS (f', s')).2 = OTA_ST_READY).
  { intros Hh Hb. apply sweep_finishes. split; [by eapply begin_healthy | done]. }
  assert (Hlast : exists k, (k < ERASE_TICKS)%nat /\
    (forall m, (m < k)%nat -> (next_erase (erase_ticks m (f', s'))).2 = OTA_FMC_RESULT_OK) /\
    (k = 107%nat \/ (next_erase (erase_ticks k (f', s'))).2 <> OTA_FMC_RESULT_OK)).
  { destruct (first_failure (f', s') 107) as [Hall | (k & Hk & Hf & Hm)];
      [exists 107%nat | exists k]; unfold ERASE_TICKS; auto with lia. }
  destruct Hlast as (k & Hk & Hm & Hend). exists (S k). unfold ERASE_TICKS in Hk.
  destruct (sweep_progress f' s' k Hs Hk Hm) as (Hsw & Hp & Hf).
  destruct (sweep_step _ _ _ Hsw) as (_ & Hp' & Hf' & Hx); [lia |].
  rewrite <- erase_ticks_S, <- surjective_pairing in *. rewrite Nat.sub_succ, Nat.sub_0_r.
  assert (Hidle : s_erasing (erase_ticks (S k) (f', s')).2 = false).
  { destruct Hend as [-> | Hend]; [| rewrite bool_decide_false in Hx by done; apply Hx].
    by case_bool_decide; [destruct Hx as (_ & ? & _) | destruct Hx as (_ & _ & ?)]. }
  split; [unfold ERASE_TICKS; lia |]. split; [| split; [intros m Hle; by apply erase_ticks_idle |]].
  { intros m Hmk. destruct (sweep_progress f' s' m Hs) as ([] & _); [unfold ERASE_TICKS; lia | | done]. auto with lia. }
  split; [split; [by eapply same_params_trans | split; [by eapply slot_frame_trans |]] |].
  - destruct (next_erase _).2 eqn:Er; rewrite ?bool_decide_true, ?bool_decide_false in Hx by done;
      [| by destruct Hx as (? & ? & _)..].
    destruct Hend as [-> | []]; [| done]. by destruct Hx as (? & _ & ?).
  - intros Hh Hb. specialize (Hhs Hh Hb).
    by rewrite (erase_ticks_idle (S k) ERASE_TICKS) in Hhs by (done || unfold ERASE_TICKS; lia).
Qed.
End update.

(** ** At-least-once delivery and merged frames *)

Section chunks.
Context {F} `{FlashLaws F b}.

(** What an acknowledged chunk did: the slot holds its bytes, and the
    high-water mark covers it. *)
Lemma h_write_acked (f f' : F) s s' off data cap pay :
  session_inv b f s -> is_u32 off -> bytes_ok data -> Z.of_nat (length data) < 256 ->
  round8 (s_last_off s) <= off \/ off + Z.of_nat (length data) <= s_last_off s ->
  h_write f s (chunk_req off data) cap = (f', s', (STATUS_OK, pay)) ->
  s_state s' = OTA_ST_READY /\ s_inactive s' = other_slot b /\
  0 < Z.of_nat (length data) /\ off + Z.of_nat (length data) <= OTA_SLOT_SIZE /\
  off mod OTA_PROGRAM_GRANULE = 0 /\ off + Z.of_nat (length data) <= s_last_off s' /\
  bytes_at (flash_byte f') (inactive_base b + off) (length data) = data.
Proof.
  intros Hi Hou Hd Hlen Hpos. pose proof Hi as [].
  destruct (chunk_req_fields off data Hou) as (E1 & E2 & E3 & E4).
  unfold h_write. cbv zeta. rewrite E1, E2, E3, E4.
  set (n := Z.of_nat (length data)) in *.
  destruct (bool_decide (s_state s = OTA_ST_READY)) eqn:Hst; [| done].
  apply bool_decide_eq_true in Hst. simpl negb. cbv iota.
  destruct (5 + n <? 5); [done |]. destruct (_ || _) eqn:Hn; [done |].
  destruct ((OTA_SLOT_SIZE <? off) || _) eqn:Hr; [done |].
  destruct (Z.eqb_spec (off mod OTA_PROGRAM_GRANULE) 0) as [Hal |]; [| done]. simpl negb. cbv iota.
  unfold is_u32 in Hou.
  rewrite u32_id by (unfold is_u32, OTA_SLOT_SIZE in *; lia).
  rewrite inactive_base_s by done. unfold n in *. rewrite Nat2Z.id.
  destruct (Z.leb_spec (off + Z.of_nat (length data)) (s_last_off s)) as [Hle | Hgt].
  - case_bool_decide as Heq; [| done]. intros [= <- <- _]. simpl.
    repeat (split; [done || lia |]). exact Heq.
  - pose proof (chunk_fits off (Z.of_nat (length data)) Hal ltac:(lia)) as Hr8.
    pose proof (fl_program_ok f (inactive_base b + off) data) as Hok.
    assert (Hpf : in_flash (inactive_base b + off) (round8 (Z.of_nat (length data))))
      by (apply (slot_in_flash (b:=b)); [lia | apply round8_nonneg; lia | lia]).
    specialize (Hok Hpf Hd).
    rewrite inactive_base_s in * by done.
    destruct (ota_fmc_program f (inactive_base b + off) data) as [f1 []]; simpl in *; try done;
      try (by repeat case_bool_decide).
    intros [= <- <- _]. destruct (Z.ltb_spec (s_last_off s) (off + Z.of_nat (length data))); [| lia].
    simpl. repeat (split; [done || lia |]). apply Hok; [| done].
    intros a Ha. destruct Hi as [_ _ _ _ _ Hrdy _ _]; apply Hrdy; [done |].
    lia.
Qed.

(** Replays are idempotent: the link delivers at least once, and a chunk that
    was acknowledged, sent again, is acknowledged again with flash and session
    exactly as they were. *)
Theorem write_chunk_replay (f f' : F) (s s' : ota) (off : Z) (data : list Z) (cap : Z)
    (pay : option (list Z)) :
  session_inv b f s -> is_u32 off -> bytes_ok data -> Z.of_nat (length data) < 256 ->
  round8 (s_last_off s) <= off \/ off + Z.of_nat (length data) <= s_last_off s ->
  h_write f s (chunk_req off data) cap = (f', s', (STATUS_OK, pay)) ->
  h_write f' s' (chunk_req off data) cap =
    (f', s', (STATUS_OK, if 4 <=? cap then Some (put32 (s_last_off s')) else None)).
Proof.
  intros Hi Hou Hd Hlen Hpos Hw.
  destruct (h_write_acked f f' s s' off data cap pay Hi Hou Hd Hlen Hpos Hw)
    as (Hst & Hin & Hn & Hfit & Hal & Hle & Hb).
  destruct (chunk_req_fields off data Hou) as (E1 & E2 & E3 & E4).
  unfold h_write. cbv zeta. rewrite E1, E2, E3, E4, Hst, Hal.
  set (n := Z.of_nat (length data)) in *. unfold is_u32 in Hou.
  rewrite bool_decide_true by done. simpl negb. cbv iota.
  destruct (Z.ltb_spec (5 + n) 5); [lia |].
  destruct (Z.eqb_spec n 0); [lia |]. destruct (Z.eqb_spec n (5 + n - 5)); [| lia]. simpl orb.
  destruct (Z.ltb_spec OTA_SLOT_SIZE off); [lia |].
  destruct (Z.ltb_spec (OTA_SLOT_SIZE - off) n); [lia |]. simpl orb. cbv iota.
  rewrite u32_id by (unfold is_u32, OTA_SLOT_SIZE in *; lia).
  destruct (Z.leb_spec (off + n) (s_last_off s')); [| lia].
  rewrite inactive_base_s by done. unfold n. rewrite Nat2Z.id. unfold ota_fmc_flash_ptr. rewrite Hb.
  rewrite bool_decide_true by done. by rewrite (set_state_id s' OTA_ST_READY Hst).
Qed.

(** A chunk frame the link merged with following filler, or cut short, is
    refused without touching flash or session, whatever the extra bytes are: the
    embedded length must equal the length the framing delivered. *)
Theorem write_chunk_length_guard (f : F) (s : ota) (req : list Z) (cap : Z) :
  Z.of_nat (length req) <> 5 + req.[4] ->
  exists st, h_write f s req cap = (f, s, (st, None)) /\ (st = STATUS_INVAL \/ st = STATUS_NOT_READY).
Proof.
  intros Hne. unfold h_write. cbv zeta.
  destruct (bool_decide _); simpl negb; cbv iota; [| eauto].
  destruct (_ <? 5); [eauto |].
  destruct (Z.eqb_spec req.[4] (Z.of_nat (length req) - 5)); [lia |].
  rewrite orb_true_r. eauto.
Qed.
End chunks.
