(* ===== verification/OtaTrial.v ===== *)
(** * COMMIT, ROLLBACK, confirm and self-heal: what they promise the next boot

    Contracts of the operations that change which image boots, stated against
    the bootloader's decision: every answer OK names an image that will be
    booted, every refusal leaves the metadata alone, a confirm makes the running
    image permanent, and a rejected trial can never be rolled back to. *)

From stdpp Require Import base tactics list numbers option.
From S2P Require Import Prelude Crc Wire OtaLayout Flash BootDecide Ota OtaMeta OtaSafety.
From S2P Require Import OtaSession OtaUpdate.

Section trial.
Context {F} `{FlashLaws F b}.

(** A record whose descriptor of its own slot matches the flash validates. *)
Lemma record_valid (f : F) r base :
  ota_slot_base_checked (active_slot r) = Some base ->
  Z.land (slot_valid r) (u8 (Z.shiftl 1 (active_slot r))) <> 0 ->
  0 < aget (img_len r) (active_slot r) <= OTA_SLOT_SIZE ->
  ota_crc32 0 (bytes_at (flash_byte f) base (Z.to_nat (aget (img_len r) (active_slot r)))) =
    aget (img_crc32 r) (active_slot r) ->
  ota_image_bootable base
    (Some (bytes_at (flash_byte f) base (Z.to_nat (aget (img_len r) (active_slot r)))))
    (aget (img_len r) (active_slot r)) = true ->
  active_slot_valid (flash_map f) r = true.
Proof.
  intros Hb Hv Hl Hc Hbo. apply active_slot_valid_spec.
  eexists base, _. split; [done |]. split; [done |]. split; [lia |]. split; [lia |].
  split; [reflexivity |]. done.
Qed.

Lemma lor_bit_set v k : k = 0 \/ k = 1 -> Z.land (Z.lor v (u8 (Z.shiftl 1 k))) (u8 (Z.shiftl 1 k)) <> 0.
Proof.
  intros Hk Hz. rewrite Z.land_lor_distr_l, Z.land_diag in Hz.
  apply Z.lor_eq_0_iff in Hz as [_ Hz]. by destruct Hk as [-> | ->].
Qed.

(** A commit that does not rewrite the descriptors keeps those of its slot. *)
Lemma meta_next_keep r active fl :
  let n := meta_next r active false 0 0 0 fl 0xFF in
  slot_valid n = Z.lor (slot_valid r) (u8 (Z.shiftl 1 active)) /\
  img_len n = img_len r /\ img_crc32 n = img_crc32 r /\ fw_version n = fw_version r.
Proof. done. Qed.

(** The decision after a commit whose record validates. *)
Lemma commit_boots (f f' : F) active up fw len crc fl ov inv base feed wdt :
  commit_args_ok active fw len crc fl -> (ov = 0 \/ is_meta_page ov) ->
  meta_commit b f active up fw len crc fl ov inv = (f', true) ->
  ota_slot_base_checked active = Some base ->
  let n := meta_next (meta_newest_or_zero f) active up fw len crc fl inv in
  active_slot_valid (flash_map f') n = true -> ota_boot_candidate_ok n wdt = true ->
  (boot_decide_slot (Some (flash_map f')) feed wdt).1 = (true, BootDecision base (is_trial n) false).
Proof.
  intros Ha Hov Hc Hb n Hv Hok.
  apply (boot_picks_current f' n (meta_commit_target b f ov)); try done.
  - by apply (meta_commit_current (b:=b) f f').
  - intros r' Hr'. by apply (commit_strictly_newest f f' active up fw len crc fl ov inv).
  - destruct (meta_next_fields (meta_newest_or_zero f) active up fw len crc fl inv)
      as (_ & _ & _ & Hact & _). unfold n. by rewrite Hact.
Qed.

(** ** COMMIT *)

Definition img_of (f : F) (s : ota) : option (list Z) := Some (slot_bytes f s (s_img_len s)).

(** C8. COMMIT, on every branch and for every behaviour of the flash.  OK means
    the staged image is bootable, carries the confirm-capable marker and is not
    below the version floor, the reset is requested, and the next boot takes the
    new slot as a trial.  INVAL and NOT_READY leave flash and metadata untouched
    and request no reset; IO may have changed one metadata page only. *)
Theorem h_commit_contract (f f' : F) (s s' : ota) (st : gd32_bridge_status) (pay : option (list Z)) :
  session_inv b f s ->
  commit_args_ok (s_inactive s) (s_fw_version s) (s_img_len s) (s_img_crc s) OTA_META_FLAG_TRIAL ->
  h_commit b f s = (f', s', (st, pay)) ->
  match st with
  | STATUS_OK =>
      s_state s = OTA_ST_VERIFIED /\ s_reset s' = true /\
      ota_image_bootable (inactive_base b) (img_of f s) (s_img_len s) = true /\
      ota_image_trial_capable (img_of f s) (s_img_len s) = true /\
      (forall cur p, meta_current f = Some (cur, p) -> ota_version_floor cur <= s_fw_version s) /\
      forall feed, (boot_decide_slot (Some (flash_map f')) feed false).1 =
        (true, BootDecision (inactive_base b) true false)
  | STATUS_INVAL => f' = f /\ s_state s' = OTA_ST_ERROR /\ s_reset s' = s_reset s
  | STATUS_NOT_READY => f' = f /\ s' = s /\ s_state s <> OTA_ST_VERIFIED
  | STATUS_IO => s_state s' = OTA_ST_ERROR /\ s_reset s' = s_reset s /\
      flash_frame f f' (meta_commit_target b f 0) OTA_PAGE_SIZE
  | _ => False
  end.
Proof.
  intros Hi Ha. pose proof Hi as [Hin Hlen _ _ _ _ Hver _].
  unfold h_commit. cbv zeta. fold (img_of f s).
  destruct (bool_decide (s_state s = OTA_ST_VERIFIED)) eqn:Hst.
  2: { apply bool_decide_eq_false in Hst. by intros [= <- <- <- <-]. }
  apply bool_decide_eq_true in Hst. change (negb true) with false. cbv iota.
  destruct ((s_img_len s =? 0) || _); [by intros [= <- <- <- <-] |].
  rewrite inactive_base_s by done.
  destruct (ota_image_bootable _ _ _) eqn:Hbo; [| by intros [= <- <- <- <-]].
  destruct (ota_image_trial_capable _ _) eqn:Htr; [| by intros [= <- <- <- <-]].
  change (negb true) with false. cbv iota.
  destruct (match meta_current f with Some _ => _ | None => _ end) eqn:Hfl;
    [by intros [= <- <- <- <-] |].
  pose proof (meta_commit_frame f (s_inactive s) true (s_fw_version s) (s_img_len s) (s_img_crc s)
                OTA_META_FLAG_TRIAL 0 0xFF (or_introl eq_refl)) as Hf.
  pose proof (commit_same_slot f (s_inactive s) true (s_fw_version s) (s_img_len s) (s_img_crc s)
                OTA_META_FLAG_TRIAL 0 0xFF (or_introl eq_refl)) as Hss.
  destruct (meta_commit b f _ _ _ _ _ _ _ _) as [f1 [|]] eqn:Hcm; simpl fst in *;
    intros [= <- <- <- <-]; [| done].
  split; [done |]. split; [done |]. split; [done |]. split; [done |]. split.
  { intros cur p Hc. rewrite Hc in Hfl. lia. }
  intros feed. destruct (Hver Hst) as [_ Hcrc]. assert (Hl : 0 < s_img_len s <= OTA_SLOT_SIZE) by auto.
  assert (Hbytes : bytes_at (flash_byte f1) (inactive_base b) (Z.to_nat (s_img_len s)) =
                   bytes_at (flash_byte f) (inactive_base b) (Z.to_nat (s_img_len s))).
  { apply bytes_at_ext. intros a Hr. apply Hss. unfold in_inactive. lia. }
  unfold img_of, slot_bytes, ota_fmc_flash_ptr in Hbo. rewrite inactive_base_s in Hbo by done.
  rewrite Hin in *.
  set (n := meta_next (meta_newest_or_zero f) (other_slot b) true (s_fw_version s) (s_img_len s)
              (s_img_crc s) OTA_META_FLAG_TRIAL 0xFF).
  assert (Hn : is_trial n = true) by reflexivity.
  rewrite <- Hn. eapply commit_boots; [exact Ha | by left | exact Hcm | apply inactive_base_checked | |].
  - apply (meta_next_valid _ _ _ (inactive_base b)); rewrite ?Hbytes; try done.
    apply inactive_base_checked.
  - unfold ota_boot_candidate_ok. by rewrite andb_false_r.
Qed.

(** ** ROLLBACK *)

Lemma slot_bit (slot : Z) base :
  ota_slot_base_checked slot = Some base -> slot = 0 \/ slot = 1.
Proof. intros [[-> _] | [-> _]]%slot_base_inv; auto. Qed.

Lemma slot_disjoint_commit (f : F) active up fw len crc fl ov inv slot base n :
  ota_slot_base_checked slot = Some base -> 0 <= n <= OTA_SLOT_SIZE -> (ov = 0 \/ is_meta_page ov) ->
  bytes_at (flash_byte (meta_commit b f active up fw len crc fl ov inv).1) base (Z.to_nat n) =
  bytes_at (flash_byte f) base (Z.to_nat n).
Proof.
  intros Hb Hn Hov. apply bytes_at_ext. intros a Ha. apply meta_commit_frame; [done |].
  eapply meta_page_not_slot; [by apply meta_commit_target_page |].
  exists base. split; [exact Hb | lia].
Qed.

(** ROLLBACK: OK is answered only outside an update session, for a slot that
    is marked valid, fits, is not below the version floor and was revalidated
    (CRC and vectors) in the same call; then the reset is requested and the next
    boot takes exactly that slot.  BUSY and INVAL leave the flash untouched. *)
Theorem h_rollback_contract (f f' : F) (s s' : ota) (st : gd32_bridge_status)
    (pay : option (list Z)) :
  h_rollback b f s = (f', s', (st, pay)) ->
  match st with
  | STATUS_OK =>
      (s_state s = OTA_ST_IDLE \/ s_state s = OTA_ST_ERROR) /\ s_reset s' = true /\
      exists cur p base, meta_current f = Some (cur, p) /\
        let other := if active_slot cur =? OTA_SLOT_A then OTA_SLOT_B else OTA_SLOT_A in
        ota_slot_base_checked other = Some base /\
        ota_version_floor cur <= aget (fw_version cur) other /\
        forall feed, exists tr, (boot_decide_slot (Some (flash_map f')) feed false).1 =
          (true, BootDecision base tr false)
  | STATUS_INVAL => f' = f /\ s_reset s' = s_reset s
  | STATUS_BUSY => f' = f /\ s' = s
  | STATUS_IO => s' = s /\ flash_frame f f' (meta_commit_target b f 0) OTA_PAGE_SIZE
  | _ => False
  end.
Proof.
  unfold h_rollback. cbv zeta.
  destruct (_ && _) eqn:Hst; [by intros [= <- <- <- <-] |].
  destruct (meta_current f) as [[cur p] |] eqn:Hcur; [| by intros [= <- <- <- <-]].
  destruct (_ && _) eqn:Hact in |- *; [by intros [= <- <- <- <-] |].
  set (other := if active_slot cur =? OTA_SLOT_A then OTA_SLOT_B else OTA_SLOT_A).
  set (len := aget (img_len cur) other).
  destruct ((_ || _) || _) eqn:Hdesc in |- *; [by intros [= <- <- <- <-] |].
  destruct (Z.ltb_spec (aget (fw_version cur) other) (ota_version_floor cur)) as [| Hfl];
    [by intros [= <- <- <- <-] |].
  destruct (ota_slot_base_checked other) as [base |] eqn:Hb; [| by intros [= <- <- <- <-]].
  destruct (_ || _) eqn:Hval in |- *; [by intros [= <- <- <- <-] |].
  set (fl := if ota_image_trial_capable _ _ then _ else _).
  pose proof (meta_commit_frame f other false 0 0 0 fl 0 0xFF (or_introl eq_refl)) as Hf.
  assert (Hlen : 0 <= len <= OTA_SLOT_SIZE).
  { pose proof (meta_current_ok f cur p Hcur) as [].
    assert (0 <= len) by (unfold len, aget, is_u32 in *; case_match; lia). lia. }
  pose proof (slot_disjoint_commit f other false 0 0 0 fl 0 0xFF other base len Hb Hlen
                (or_introl eq_refl)) as Hbytes.
  destruct (meta_commit b f other false 0 0 0 fl 0 0xFF) as [f1 [|]] eqn:Hcm; simpl fst in *;
    intros [= <- <- <- <-]; [| done].
  split. { destruct (s_state s); simpl in Hst; auto; done. }
  split; [done |]. exists cur, p, base. split; [done |]. fold other. split; [done |].
  split; [done |]. intros feed.
  assert (Hnew : meta_newest_or_zero f = cur) by (unfold meta_newest_or_zero; by rewrite Hcur).
  set (n := meta_next (meta_newest_or_zero f) other false 0 0 0 fl 0xFF).
  exists (is_trial n). destruct (meta_next_keep (meta_newest_or_zero f) other fl) as (Ev & El & Ec & _).
  eapply commit_boots; [| by left | exact Hcm | exact Hb | |].
  - split; try apply zero_u32.
    + destruct (slot_bit other base Hb) as [-> | ->]; unfold is_byte; lia.
    + unfold fl. case_match; unfold is_byte, OTA_META_FLAG_TRIAL; lia.
  - fold n. fold n in Ev, El, Ec. rewrite Hnew in Ev, El, Ec.
    apply orb_false_iff in Hval as [Hv1%negb_false_iff Hv2%negb_false_iff].
    apply (record_valid f1 n base); change (active_slot n) with other; rewrite ?El, ?Ec; fold len.
    + exact Hb.
    + rewrite Ev. by apply lor_bit_set, (slot_bit _ base).
    + lia.
    + rewrite Hbytes. unfold ota_fmc_flash_ptr in Hv1. lia.
    + by rewrite Hbytes.
  - unfold ota_boot_candidate_ok. by rewrite andb_false_r.
Qed.

(** ** Confirm and self-heal *)

Context {healthy : F -> Prop} `{!FlashHealthy F b healthy}.

Lemma running_args fl : is_byte fl -> commit_args_ok (OTA_RUNNING_SLOT b) 0 0 0 fl.
Proof.
  intros. split; try apply zero_u32; [| done].
  destruct b; unfold is_byte; vm_compute; split; congruence.
Qed.

(** Confirm: once a wire frame was seen during a trial boot, the confirm tick
    clears TRIAL in the metadata and requests the reset; from then on the
    bootloader boots the running slot as confirmed, after a watchdog reset too. *)
Theorem confirm_makes_permanent (f : F) (s : ota) (r : ota_meta_record) (p : Z) :
  healthy f -> s_trial s = true -> s_frame_seen s = true ->
  meta_current f = Some (r, p) -> active_slot r = OTA_RUNNING_SLOT b ->
  (forall q, meta_read f (other_page p) = Some q -> counter q < counter r) ->
  active_slot_valid (flash_map f) r = true -> counter r < OTA_META_COUNTER_LIMIT ->
  let '(f', s') := ota_confirm_tick b f s in
  healthy f' /\ s_reset s' = true /\
  forall feed wdt, (boot_decide_slot (Some (flash_map f')) feed wdt).1 =
    (true, BootDecision (OTA_RUNNING_SLOT_BASE b) false false).
Proof.
  intros Hh Ht Hs Hcur Hact Hlt Hv Hcnt. unfold ota_confirm_tick. rewrite Ht, Hs. simpl orb. cbv iota.
  destruct (meta_current_some f r p Hcur) as (Hp & Hr & _).
  assert (Hrun : find_running_slot_record b f = Some (r, p)).
  { unfold find_running_slot_record. destruct Hp as [-> | ->]; unfold other_page in Hlt; simpl in Hlt;
      rewrite Hr, Hact, Z.eqb_refl.
    - destruct (meta_read f OTA_META_REC1) as [q |]; [| done]. specialize (Hlt q eq_refl).
      destruct (Z.ltb_spec (counter r) (counter q)); [lia |]. by rewrite andb_false_r.
    - destruct (meta_read f OTA_META_REC0) as [q |]; [| done]. specialize (Hlt q eq_refl).
      destruct (active_slot q =? OTA_RUNNING_SLOT b); [| done].
      by destruct (Z.ltb_spec (counter q) (counter r)); [| lia]. }
  rewrite Hrun.
  assert (Hnew : meta_newest_or_zero f = r) by (unfold meta_newest_or_zero; by rewrite Hcur).
  assert (Ha : commit_args_ok (OTA_RUNNING_SLOT b) 0 0 0 0) by (apply running_args; unfold is_byte; lia).
  destruct (meta_commit_healthy f (OTA_RUNNING_SLOT b) false 0 0 0 0 p 0xFF Hh Ha (or_intror Hp))
    as (f1 & Hcm & Hh1); [by rewrite Hnew |].
  rewrite Hcm. split; [by apply fh_fault_clear |]. split; [done |]. intros feed wdt.
  set (n := meta_next (meta_newest_or_zero f) (OTA_RUNNING_SLOT b) false 0 0 0 0 0xFF).
  destruct (meta_next_keep (meta_newest_or_zero f) (OTA_RUNNING_SLOT b) 0) as (Ev & El & Ec & _).
  fold n in Ev, El, Ec. rewrite Hnew in Ev, El, Ec.
  apply active_slot_valid_spec in Hv as (base & img & Hb & _ & Hl0 & Hl1 & Hm & Hc & Hbo).
  rewrite Hact, (running_slot_base b) in Hb. injection Hb as <-. rewrite Hact in *.
  set (len := aget (img_len r) (OTA_RUNNING_SLOT b)) in *.
  assert (Hlen : 0 <= len <= OTA_SLOT_SIZE).
  { pose proof (meta_current_ok f r p Hcur) as []. split; [| lia].
    unfold len, aget, is_u32 in *. case_match; lia. }
  unfold flash_map, map_flash in Hm. injection Hm as <-.
  rewrite (boot_decide_ext f1 (ota_fault_loop_clear f1)).
  - change false with (is_trial n) at 1.
    eapply commit_boots; [exact Ha | by right | exact Hcm | apply running_slot_base | |].
    + fold n.
      pose proof (slot_disjoint_commit f (OTA_RUNNING_SLOT b) false 0 0 0 0 p 0xFF _ _ len
        (running_slot_base b) Hlen (or_intror Hp)) as Hbytes. rewrite Hcm in Hbytes; simpl in Hbytes.
      apply (record_valid f1 n (OTA_RUNNING_SLOT_BASE b));
        change (active_slot n) with (OTA_RUNNING_SLOT b); rewrite ?El, ?Ec; fold len;
        rewrite ?Hbytes; try done; try lia.
      * apply running_slot_base.
      * rewrite Ev. apply lor_bit_set. destruct b; auto.
    + done.
  - intros q Hq. unfold meta_read, ota_fmc_flash_ptr.
    rewrite (bytes_at_ext (flash_byte (ota_fault_loop_clear f1)) (flash_byte f1)); [done |].
    intros. apply (fl_fault_clear f1).
  - intros q x Hq Hx. apply active_slot_valid_ext. intros _ a _. apply (fl_fault_clear f1).
Qed.

(** Self-heal: when the newest record names the other slot as a TRIAL but this
    image is running (the bootloader rejected that slot), boot-time reconciliation
    repoints the metadata at the running slot and clears the rejected slot's valid
    bit, so a later ROLLBACK refuses it and changes nothing. *)
Theorem self_heal_blocks_rollback (f : F) (s : ota) (newest : ota_meta_record) (p : Z) :
  healthy f -> meta_current f = Some (newest, p) -> active_slot newest = other_slot b ->
  is_trial newest = true -> counter newest < OTA_META_COUNTER_LIMIT ->
  (forall r q, find_running_slot_record b f = Some (r, q) -> is_trial r = false) ->
  let '(f', s') := ota_boot_init b f s in
  (exists n q, meta_current f' = Some (n, q) /\ active_slot n = OTA_RUNNING_SLOT b /\
     is_trial n = false /\ Z.land (slot_valid n) (u8 (Z.shiftl 1 (other_slot b))) = 0) /\
  s_trial s' = false /\
  (s_state s' = OTA_ST_IDLE -> h_rollback b f' s' = (f', s', (STATUS_INVAL, None))).
Proof.
  intros Hh Hcur Hact Htr Hcnt Hrun. unfold ota_boot_init. rewrite fh_supported. simpl negb. cbv iota zeta.
  replace (match find_running_slot_record b f with Some (r, _) => is_trial r | None => false end)
    with false.
  2: { destruct (find_running_slot_record b f) as [[r q] |] eqn:E; [| done]. by rewrite (Hrun r q). }
  simpl negb. cbv iota. rewrite Hcur, Hact, Htr.
  destruct (Z.eqb_spec (other_slot b) (OTA_RUNNING_SLOT b)) as [He | Hne]; [by destruct b |].
  simpl negb. simpl andb. cbv iota.
  set (fc := ota_fault_loop_clear f).
  assert (Hmc : meta_current fc = meta_current f).
  { assert (Hm : forall q, meta_read fc q = meta_read f q).
    { intros q. unfold meta_read, ota_fmc_flash_ptr.
      rewrite (bytes_at_ext (flash_byte fc) (flash_byte f)); [done |].
      intros. apply (fl_fault_clear f). }
    unfold meta_current. by rewrite !Hm. }
  assert (Hnew : meta_newest_or_zero fc = newest) by (unfold meta_newest_or_zero; by rewrite Hmc, Hcur).
  assert (Ha : commit_args_ok (OTA_RUNNING_SLOT b) 0 0 0 0) by (apply running_args; unfold is_byte; lia).
  destruct (meta_commit_healthy fc (OTA_RUNNING_SLOT b) false 0 0 0 0 0 (other_slot b)
    (fh_fault_clear f Hh) Ha (or_introl eq_refl)) as (f1 & Hcm & Hh1); [by rewrite Hnew |].
  rewrite Hcm. simpl fst.
  pose proof (meta_commit_current fc f1 _ _ _ _ _ _ _ _ Ha (or_introl eq_refl) Hcm) as Hcur1.
  set (n := meta_next (meta_newest_or_zero fc) (OTA_RUNNING_SLOT b) false 0 0 0 0 (other_slot b)) in *.
  pose proof (meta_next_invalidates (meta_newest_or_zero fc) (OTA_RUNNING_SLOT b) 0 0 0 0
    (other_slot b) other_slot_cases) as Hbit. fold n in Hbit.
  assert (Hactn : active_slot n = OTA_RUNNING_SLOT b) by reflexivity.
  split; [eexists n, _; split; [exact Hcur1 | done] |]. split; [done |].
  intros Hidle. unfold h_rollback. simpl s_state in *. rewrite Hidle, Hcur1, Hactn. cbv zeta.
  rewrite bool_decide_true by done. simpl negb. simpl andb. cbv iota.
  replace (if OTA_RUNNING_SLOT b =? OTA_SLOT_A then OTA_SLOT_B else OTA_SLOT_A) with (other_slot b)
    by done.
  rewrite Hbit, Z.eqb_refl. simpl orb. by destruct b.
Qed.
End trial.
