(* ===== verification/Protocol.v ===== *)
(** * The command table: [src/protocol.c]

    Every opcode handler, the two-tier dispatch with its trial gate, the
    nested-dispatch guard and the per-link feature negotiation.  Peripheral
    operations come from [BridgeHw], the OTA handlers from [Ota], the boot
    configuration from [BootConfig]. *)

From stdpp Require Import base tactics list numbers option.
From S2P Require Import Prelude Wire OtaLayout Flash BridgeHw BootConfig Ota.

(** The build identifier is generated by the build; its length is asserted
    statically. *)
Class BuildId := {
  GD32_BRIDGE_BUILD_ID : list Z;
  build_id_len : length GD32_BRIDGE_BUILD_ID = 20%nat;
  build_id_bytes : bytes_ok GD32_BRIDGE_BUILD_ID }.

Definition status_from_hw (rv : Z) : gd32_bridge_status :=
  if rv =? BRIDGE_HW_OK then STATUS_OK
  else if rv =? BRIDGE_HW_ERR_INVAL then STATUS_INVAL
  else if rv =? BRIDGE_HW_ERR_RANGE then STATUS_OUT_OF_RANGE
  else if rv =? BRIDGE_HW_ERR_NOTIMPL then STATUS_NOSUPPORT
  else if rv =? BRIDGE_HW_ERR_BUSY then STATUS_BUSY
  else if rv =? BRIDGE_HW_ERR_NOT_READY then STATUS_NOT_READY
  else STATUS_IO.

(** The ladder the older handlers spell out; [range] when it has the
    OUT_OF_RANGE rung.  [None]: the call succeeded. *)
Definition hw_ladder (inval range : bool) (rv : Z) : option gd32_bridge_status :=
  if inval && (rv =? BRIDGE_HW_ERR_INVAL) then Some STATUS_INVAL
  else if range && (rv =? BRIDGE_HW_ERR_RANGE) then Some STATUS_OUT_OF_RANGE
  else if rv =? BRIDGE_HW_ERR_NOTIMPL then Some STATUS_NOSUPPORT
  else if rv <? 0 then Some STATUS_IO
  else None.

(** [status_from_hw], with success as [None]. *)
Definition hw_failure (rv : Z) : option gd32_bridge_status :=
  if rv =? BRIDGE_HW_OK then None else Some (status_from_hw rv).

(** ** Peripheral handlers *)

Section handlers.
Context {W : Type} `{BridgeHw W} `{BuildId}.

(** A handler: request payload, reply capacity, peripheral state. *)
Definition handler : Type := list Z -> Z -> W -> W * reply.

Definition req_len (req : list Z) : Z := Z.of_nat (length req).

(** The tail most handlers share: an error returns without touching
    [*reply_len], success stores the payload. *)
Definition answer (failed : option gd32_bridge_status) (w : W) (payload : list Z) : W * reply :=
  match failed with
  | Some st => (w, (st, None))
  | None => (w, (STATUS_OK, Some payload))
  end.
Definition refuse (st : gd32_bridge_status) (w : W) : W * reply := (w, (st, None)).

Definition handle_ping : handler := fun req cap w =>
  if negb (req_len req =? 0) then refuse STATUS_INVAL w
  else (w, (STATUS_OK, Some [])).

Definition handle_get_version : handler := fun req cap w =>
  if negb (req_len req =? 0) then refuse STATUS_INVAL w
  else if cap <? 3 then refuse STATUS_NOMEM w
  else (w, (STATUS_OK,
            Some [PROTOCOL_VERSION_MAJOR; PROTOCOL_VERSION_MINOR; PROTOCOL_VERSION_PATCH])).

Definition handle_get_build_id : handler := fun req cap w =>
  if negb (req_len req =? 0) then refuse STATUS_INVAL w
  else if cap <? GD32_BRIDGE_BUILD_ID_LEN then refuse STATUS_NOMEM w
  else (w, (STATUS_OK, Some GD32_BRIDGE_BUILD_ID)).

Definition handle_reset_reason : handler := fun req cap w =>
  if negb (req_len req =? 0) then refuse STATUS_INVAL w
  else if cap <? 1 then refuse STATUS_NOMEM w
  else (w, (STATUS_OK, Some [u8 (bridge_hw_reset_reason w)])).

Definition handle_gpio_read : handler := fun req cap w =>
  if negb (req_len req =? 4) then refuse STATUS_INVAL w
  else if cap <? 4 then refuse STATUS_NOMEM w
  else
    let '(w, (rv, levels)) := bridge_hw_gpio_read w (le32 req) in
    if rv <? 0 then refuse STATUS_IO w else (w, (STATUS_OK, Some (put32 levels))).

Definition handle_gpio_write : handler := fun req cap w =>
  if negb (req_len req =? 8) then refuse STATUS_INVAL w
  else
    let '(w, rv) := bridge_hw_gpio_write w (le32 req) (le32 (drop 4 req)) in
    if rv <? 0 then refuse STATUS_IO w else (w, (STATUS_OK, Some [])).

Definition handle_pwm_set : handler := fun req cap w =>
  if negb (req_len req =? 10) then refuse STATUS_INVAL w
  else
    let channel := req.[0] in
    let period_ns := le32 (drop 2 req) in
    let duty_ns := le32 (drop 6 req) in
    if period_ns <? duty_ns then refuse STATUS_INVAL w
    else
      let '(w, rv) := bridge_hw_pwm_set w channel period_ns duty_ns in
      answer (hw_failure rv) w [].

Definition handle_pwm_get : handler := fun req cap w =>
  if negb (req_len req =? 1) then refuse STATUS_INVAL w
  else if cap <? 8 then refuse STATUS_NOMEM w
  else
    let '(w, (rv, (period_ns, duty_ns))) := bridge_hw_pwm_get w req.[0] in
    answer (hw_failure rv) w (put32 period_ns ++ put32 duty_ns).

(** [n] 16-bit samples, the first [got] of them from [mv]. *)
Definition sample_bytes (mv : list Z) (got n : Z) : list Z :=
  mjoin ((fun i : nat => if Z.of_nat i <? got then put16 mv.[Z.of_nat i] else [0; 0])
           <$> seq 0 (Z.to_nat n)).

Definition handle_adc_read : handler := fun req cap w =>
  if negb (req_len req =? 2) then refuse STATUS_INVAL w
  else
    let channel := req.[0] in
    let samples := req.[1] in
    if samples =? 0 then refuse STATUS_INVAL w
    else if GD32_BRIDGE_ADC_MAX_SAMPLES <? samples then refuse STATUS_OUT_OF_RANGE w
    else
      let need := 1 + samples * 2 in
      if cap <? need then refuse STATUS_NOMEM w
      else
        let '(w, (rv, mv)) := bridge_hw_adc_read w channel samples in
        answer (hw_failure rv) w (samples :: sample_bytes mv samples samples).

Definition handle_da9292_forward : handler := fun req cap w =>
  if negb (req_len req =? 0) then refuse STATUS_INVAL w
  else if cap <? 1 then refuse STATUS_NOMEM w
  else (w, (STATUS_OK, Some [u8 (bridge_hw_da9292_status_cached w)])).

Definition handle_se_reset : handler := fun req cap w =>
  if negb (req_len req =? 1) then refuse STATUS_INVAL w
  else if 1 <? req.[0] then refuse STATUS_INVAL w
  else
    let '(w, rv) := bridge_hw_se_reset w req.[0] in
    answer (hw_ladder true false rv) w [].

Definition handle_dac_set : handler := fun req cap w =>
  if negb (req_len req =? 4) then refuse STATUS_INVAL w
  else
    let '(w, rv) := bridge_hw_dac_set w req.[0] (le16 (drop 2 req)) in
    answer (hw_ladder true true rv) w [].

Definition handle_dac_get : handler := fun req cap w =>
  if negb (req_len req =? 1) then refuse STATUS_INVAL w
  else if cap <? 2 then refuse STATUS_NOMEM w
  else
    let '(w, (rv, value_mv)) := bridge_hw_dac_get w req.[0] in
    answer (hw_ladder true false rv) w (put16 value_mv).

(** The position is an [int32_t]; [put32] writes its two's complement. *)
Definition handle_qenc_read : handler := fun req cap w =>
  if negb (req_len req =? 1) then refuse STATUS_INVAL w
  else if cap <? 4 then refuse STATUS_NOMEM w
  else
    let '(w, (rv, position)) := bridge_hw_qenc_read w req.[0] in
    answer (hw_ladder true false rv) w (put32 position).

Definition handle_qenc_reset : handler := fun req cap w =>
  if negb (req_len req =? 1) then refuse STATUS_INVAL w
  else
    let '(w, rv) := bridge_hw_qenc_reset w req.[0] in
    answer (hw_ladder true false rv) w [].

Definition handle_counter_read : handler := fun req cap w =>
  if negb (req_len req =? 1) then refuse STATUS_INVAL w
  else if cap <? 4 then refuse STATUS_NOMEM w
  else
    let '(w, (rv, ticks)) := bridge_hw_counter_read w req.[0] in
    answer (hw_ladder true false rv) w (put32 ticks).

Definition handle_pwm_configure : handler := fun req cap w =>
  if negb (req_len req =? 7) then refuse STATUS_INVAL w
  else
    let align_mode := req.[1] in
    if 3 <? align_mode then refuse STATUS_INVAL w
    else
      let '(w, rv) := bridge_hw_pwm_configure w req.[0] align_mode (le32 (drop 2 req)) req.[6] in
      answer (hw_ladder true true rv) w [].

Definition resolution_known (bits : Z) : bool :=
  existsb (Z.eqb bits) [0; 6; 8; 10; 12; 14; 16].

Definition handle_adc_configure : handler := fun req cap w =>
  if negb (req_len req =? 7) then refuse STATUS_INVAL w
  else
    let oversample_ratio := le16 (drop 2 req) in
    let sample_cycles := le16 (drop 4 req) in
    let resolution_bits := req.[6] in
    if negb (resolution_known resolution_bits) then refuse STATUS_INVAL w
    else
      let '(w, rv) :=
        bridge_hw_adc_configure w req.[0] oversample_ratio sample_cycles resolution_bits in
      answer (hw_ladder true true rv) w [].

Definition handle_adc_stream_begin : handler := fun req cap w =>
  if negb (req_len req =? 7) then refuse STATUS_INVAL w
  else
    let stream_id := req.[0] in
    let channel := req.[1] in
    let sample_rate_hz := le32 (drop 3 req) in
    if GD32_BRIDGE_ADC_STREAM_COUNT <=? stream_id then refuse STATUS_INVAL w
    else if sample_rate_hz =? 0 then refuse STATUS_INVAL w
    else
      let '(w, rv) := bridge_hw_adc_stream_begin w stream_id channel sample_rate_hz in
      answer (hw_ladder true true rv) w [].

Definition handle_adc_stream_read : handler := fun req cap w =>
  if negb (req_len req =? 2) then refuse STATUS_INVAL w
  else
    let stream_id := req.[0] in
    let max_samples := req.[1] in
    if GD32_BRIDGE_ADC_STREAM_COUNT <=? stream_id then refuse STATUS_INVAL w
    else if max_samples =? 0 then refuse STATUS_INVAL w
    else if GD32_BRIDGE_ADC_STREAM_READ_MAX <? max_samples then refuse STATUS_OUT_OF_RANGE w
    else
      let '(w, (rv, (got, mv))) := bridge_hw_adc_stream_read w stream_id max_samples in
      let got := u8 got in
      if rv =? BRIDGE_HW_ERR_NOTIMPL then refuse STATUS_NOSUPPORT w
      else if rv =? BRIDGE_HW_ERR_BUSY then refuse STATUS_BUSY w
      else if negb (rv =? BRIDGE_HW_OK) then refuse (status_from_hw rv) w
      else if max_samples <? got then refuse STATUS_IO w
      else
        let need := 1 + max_samples * 2 in
        if cap <? need then refuse STATUS_NOMEM w
        else (w, (STATUS_OK, Some (got :: sample_bytes mv got max_samples))).

(** [n] 32-bit bins, the first [got] of them from [bins]. *)
Definition bin_bytes (bins : list Z) (got n : Z) : list Z :=
  mjoin ((fun i : nat => put32 (if Z.of_nat i <? got then bins.[Z.of_nat i] else 0))
           <$> seq 0 (Z.to_nat n)).

Definition handle_adc_spectrum_read : handler := fun req cap w =>
  if negb (req_len req =? 4) then refuse STATUS_INVAL w
  else
    let stream_id := req.[0] in
    let bin_offset := le16 (drop 1 req) in
    let max_bins := req.[3] in
    if GD32_BRIDGE_ADC_STREAM_COUNT <=? stream_id then refuse STATUS_INVAL w
    else if max_bins =? 0 then refuse STATUS_INVAL w
    else if GD32_BRIDGE_ADC_SPECTRUM_READ_MAX <? max_bins then refuse STATUS_OUT_OF_RANGE w
    else
      let '(w, (rv, sp)) := bridge_hw_adc_spectrum_read w stream_id bin_offset max_bins in
      let got := u8 (sp_got sp) in
      if rv =? BRIDGE_HW_ERR_NOTIMPL then refuse STATUS_NOSUPPORT w
      else if rv =? BRIDGE_HW_ERR_BUSY then refuse STATUS_BUSY w
      else if rv <? 0 then refuse STATUS_IO w
      else if max_bins <? got then refuse STATUS_IO w
      else
        let need := 7 + max_bins * 4 in
        if cap <? need then refuse STATUS_NOMEM w
        else (w, (STATUS_OK,
                  Some (put32 (sp_seq sp) ++ put16 (sp_total sp) ++ got ::
                        bin_bytes (sp_bins sp) got max_bins))).

Definition handle_adc_stream_end : handler := fun req cap w =>
  if negb (req_len req =? 1) then refuse STATUS_INVAL w
  else if GD32_BRIDGE_ADC_STREAM_COUNT <=? req.[0] then refuse STATUS_INVAL w
  else
    let '(w, rv) := bridge_hw_adc_stream_end w req.[0] in
    answer (hw_ladder false false rv) w [].

Definition handle_trng_read : handler := fun req cap w =>
  if negb (req_len req =? 1) then refuse STATUS_INVAL w
  else
    let want := req.[0] in
    if (want =? 0) || (32 <? want) then refuse STATUS_INVAL w
    else if cap <? want then refuse STATUS_NOMEM w
    else
      let '(w, (rv, bytes)) := bridge_hw_trng_read w (Z.to_nat want) in
      answer (hw_failure rv) w ((fun i : nat => u8 bytes.[Z.of_nat i]) <$> seq 0 (Z.to_nat want)).

Definition handle_tmu_compute : handler := fun req cap w =>
  if negb (req_len req =? 12) then refuse STATUS_INVAL w
  else if cap <? 4 then refuse STATUS_NOMEM w
  else
    let function := req.[0] in
    let format := req.[1] in
    if BRIDGE_TMU_FN__COUNT <=? function then refuse STATUS_INVAL w
    else if BRIDGE_TMU_FMT__COUNT <=? format then refuse STATUS_INVAL w
    else
      let '(w, (rv, result)) :=
        bridge_hw_tmu_compute w function format (le32 (drop 4 req)) (le32 (drop 8 req)) in
      answer (hw_ladder true true rv) w (put32 result).

(** The v0.5 handlers set [*reply_len = 0] before mapping the result. *)
Definition answer_empty (rv : Z) (w : W) : W * reply := (w, (status_from_hw rv, Some [])).

Definition handle_pwm_capture_begin : handler := fun req cap w =>
  if negb (req_len req =? 2) then refuse STATUS_INVAL w
  else if 2 <? req.[1] then refuse STATUS_INVAL w
  else let '(w, rv) := bridge_hw_pwm_capture_begin w req.[0] req.[1] in answer_empty rv w.

Definition handle_pwm_capture_read : handler := fun req cap w =>
  if negb (req_len req =? 1) then refuse STATUS_INVAL w
  else if cap <? 8 then refuse STATUS_NOMEM w
  else
    let '(w, (rv, (period_ns, pulse_ns))) := bridge_hw_pwm_capture_read w req.[0] in
    if negb (bool_decide (status_from_hw rv = STATUS_OK)) then answer_empty rv w
    else (w, (STATUS_OK, Some (put32 period_ns ++ put32 pulse_ns))).

Definition handle_pwm_capture_end : handler := fun req cap w =>
  if negb (req_len req =? 1) then refuse STATUS_INVAL w
  else let '(w, rv) := bridge_hw_pwm_capture_end w req.[0] in answer_empty rv w.

Definition handle_pwm_single_pulse : handler := fun req cap w =>
  if negb (req_len req =? 8) then refuse STATUS_INVAL w
  else
    let pulse_ns := le32 (drop 4 req) in
    if pulse_ns =? 0 then refuse STATUS_INVAL w
    else let '(w, rv) := bridge_hw_pwm_single_pulse w req.[0] pulse_ns in answer_empty rv w.

Definition handle_timer_sync : handler := fun req cap w =>
  if negb (req_len req =? 3) then refuse STATUS_INVAL w
  else let '(w, rv) := bridge_hw_timer_sync w req.[0] req.[1] req.[2] in answer_empty rv w.

Definition handle_power_mode_set : handler := fun req cap w =>
  if negb (req_len req =? 10) then refuse STATUS_INVAL w
  else if 3 <? req.[0] then refuse STATUS_INVAL w
  else
    let '(w, rv) := bridge_hw_power_mode_set w req.[0] (le32 (drop 2 req)) (le32 (drop 6 req)) in
    answer_empty rv w.

Definition handle_adc_dsp_chain_open : handler := fun req cap w =>
  if negb (req_len req =? 0) then refuse STATUS_INVAL w
  else if cap <? 1 then refuse STATUS_NOMEM w
  else
    let '(w, (rv, chain_id)) := bridge_hw_adc_dsp_chain_open w in
    if negb (bool_decide (status_from_hw rv = STATUS_OK)) then answer_empty rv w
    else (w, (STATUS_OK, Some [u8 chain_id])).

Definition handle_adc_dsp_stage_push : handler := fun req cap w =>
  if req_len req <? 7 then refuse STATUS_INVAL w
  else if 3 <? req.[2] then refuse STATUS_INVAL w
  else
    let chunk_offset := le16 (drop 3 req) in
    let chunk_total_size := le16 (drop 5 req) in
    let chunk_data := drop 7 req in
    if chunk_total_size <? u32 (chunk_offset + (req_len req - 7)) then refuse STATUS_OUT_OF_RANGE w
    else
      let '(w, rv) := bridge_hw_adc_dsp_stage_push w req.[0] req.[1] req.[2]
                        chunk_offset chunk_total_size chunk_data in
      answer_empty rv w.

Definition handle_adc_dsp_chain_bind : handler := fun req cap w =>
  if negb (req_len req =? 2) then refuse STATUS_INVAL w
  else if GD32_BRIDGE_ADC_STREAM_COUNT <=? req.[1] then refuse STATUS_INVAL w
  else let '(w, rv) := bridge_hw_adc_dsp_chain_bind w req.[0] req.[1] in answer_empty rv w.
End handlers.
Arguments handler W : clear implicits.

(** ** The firmware state and its dispatch *)

(** Everything a dispatch can touch: the peripherals, the flash, the statics of
    [ota.c] and [boot_config.c], the per-link feature bytes and the in-flight
    flag of [protocol.c]. *)
Record bridge (F W : Type) := Bridge {
  br_hw : W; br_flash : F; br_ota : ota; br_bcfg : bcfg;
  link_features : Z * Z; dispatch_in_flight : bool }.
Arguments Bridge {F W}.
Arguments br_hw {F W}.
Arguments br_flash {F W}.
Arguments br_ota {F W}.
Arguments br_bcfg {F W}.
Arguments link_features {F W}.
Arguments dispatch_in_flight {F W}.

Definition link_get (fs : Z * Z) (l : gd32_bridge_link) : Z :=
  match l with GD32_BRIDGE_LINK_SPI => fs.1 | GD32_BRIDGE_LINK_I2C => fs.2 end.
Definition link_set (fs : Z * Z) (l : gd32_bridge_link) (v : Z) : Z * Z :=
  match l with GD32_BRIDGE_LINK_SPI => (v, fs.2) | GD32_BRIDGE_LINK_I2C => (fs.1, v) end.

Section dispatch.
Context {F W : Type} `{FlashHal F} `{BridgeHw W} `{BuildId}.
Variable b : app_build.

Definition protocol_link_features (s : bridge F W) (l : gd32_bridge_link) : Z :=
  link_get (link_features s) l.

Definition set_hw (w : W) (s : bridge F W) : bridge F W :=
  Bridge w (br_flash s) (br_ota s) (br_bcfg s) (link_features s) (dispatch_in_flight s).
Definition set_ota (f : F) (o : ota) (s : bridge F W) : bridge F W :=
  Bridge (br_hw s) f o (br_bcfg s) (link_features s) (dispatch_in_flight s).
Definition set_bcfg (c : bcfg) (s : bridge F W) : bridge F W :=
  Bridge (br_hw s) (br_flash s) (br_ota s) c (link_features s) (dispatch_in_flight s).
Definition set_features (fs : Z * Z) (s : bridge F W) : bridge F W :=
  Bridge (br_hw s) (br_flash s) (br_ota s) (br_bcfg s) fs (dispatch_in_flight s).
Definition set_in_flight (x : bool) (s : bridge F W) : bridge F W :=
  Bridge (br_hw s) (br_flash s) (br_ota s) (br_bcfg s) (link_features s) x.

Definition handle_boot_config (req : list Z) (cap : Z) (f : F) (o : ota) (c : bcfg) : bcfg * reply :=
  let current c := (c, (STATUS_OK, Some (put32 (boot_config_flags c)))) in
  if negb (req_len req =? 5) then (c, (STATUS_INVAL, None))
  else if cap <? 4 then (c, (STATUS_NOMEM, None))
  else if 1 <? req.[0] then (c, (STATUS_INVAL, None))
  else if negb (@ota_fmc_supported F _) then (c, (STATUS_NOSUPPORT, None))
  else if req.[0] =? 1 then
    let flags := le32 (drop 1 req) in
    if negb (Z.land flags (Z.lnot BOOT_CONFIG_KNOWN_FLAGS) =? 0) then (c, (STATUS_INVAL, None))
    else if negb (flags =? boot_config_flags c) && negb (ota_fmc_config_write_safe f)
    then (c, (STATUS_NOSUPPORT, None))
    else if negb (flags =? boot_config_flags c) && (ota_session_active o || ota_erase_active o)
    then (c, (STATUS_BUSY, None))
    else
      let '(c, accepted) := boot_config_request c flags in
      if negb accepted then (c, (STATUS_BUSY, None)) else current c
  else current c.

Definition handle_link_features (l : gd32_bridge_link) (req : list Z) (cap : Z) (fs : Z * Z)
    : Z * Z * reply :=
  if negb (req_len req =? 1) then (fs, (STATUS_INVAL, None))
  else if cap <? 1 then (fs, (STATUS_NOMEM, None))
  else
    let fs := link_set fs l (Z.land req.[0] GD32_BRIDGE_LINK_FEAT_STATUS_SEQ) in
    (fs, (STATUS_OK, Some [link_get fs l])).

(** The table's entry for an opcode with a link-independent handler. *)
Definition table (c : gd32_bridge_cmd) : option (handler W) :=
  match c with
  | CMD_PING => Some handle_ping
  | CMD_GET_VERSION => Some handle_get_version
  | CMD_GET_BUILD_ID => Some handle_get_build_id
  | CMD_RESET_REASON => Some handle_reset_reason
  | CMD_GPIO_READ => Some handle_gpio_read
  | CMD_GPIO_WRITE => Some handle_gpio_write
  | CMD_PWM_SET => Some handle_pwm_set
  | CMD_PWM_GET => Some handle_pwm_get
  | CMD_PWM_CONFIGURE => Some handle_pwm_configure
  | CMD_ADC_READ => Some handle_adc_read
  | CMD_ADC_CONFIGURE => Some handle_adc_configure
  | CMD_ADC_STREAM_BEGIN => Some handle_adc_stream_begin
  | CMD_ADC_STREAM_READ => Some handle_adc_stream_read
  | CMD_ADC_STREAM_END => Some handle_adc_stream_end
  | CMD_ADC_SPECTRUM_READ => Some handle_adc_spectrum_read
  | CMD_TRNG_READ => Some handle_trng_read
  | CMD_TMU_COMPUTE => Some handle_tmu_compute
  | CMD_DA9292_STATUS_FORWARD => Some handle_da9292_forward
  | CMD_SE_RESET => Some handle_se_reset
  | CMD_DAC_SET => Some handle_dac_set
  | CMD_DAC_GET => Some handle_dac_get
  | CMD_QENC_READ => Some handle_qenc_read
  | CMD_QENC_RESET => Some handle_qenc_reset
  | CMD_COUNTER_READ => Some handle_counter_read
  | CMD_PWM_CAPTURE_BEGIN => Some handle_pwm_capture_begin
  | CMD_PWM_CAPTURE_READ => Some handle_pwm_capture_read
  | CMD_PWM_CAPTURE_END => Some handle_pwm_capture_end
  | CMD_PWM_SINGLE_PULSE => Some handle_pwm_single_pulse
  | CMD_TIMER_SYNC => Some handle_timer_sync
  | CMD_POWER_MODE_SET => Some handle_power_mode_set
  | CMD_ADC_DSP_CHAIN_OPEN => Some handle_adc_dsp_chain_open
  | CMD_ADC_DSP_STAGE_PUSH => Some handle_adc_dsp_stage_push
  | CMD_ADC_DSP_CHAIN_BIND => Some handle_adc_dsp_chain_bind
  | _ => None
  end.

Definition bl_dispatch_ota (f : F) (o : ota) (cmd : Z) (req : list Z) (cap : Z) : F * ota * reply :=
  ota_dispatch b f o cmd req cap.

Definition protocol_dispatch_inner (link : gd32_bridge_link) (cmd : Z) (req : list Z) (cap : Z)
    (s : bridge F W) : bridge F W * reply :=
  if ota_trial_unconfirmed (br_ota s) then
    (set_ota (br_flash s) (ota_note_frame (br_ota s)) s, (STATUS_BUSY, Some []))
  else
    let unhandled :=
      if cmd_code CMD_OTA_BEGIN <=? cmd then
        let '(f, o, r) := bl_dispatch_ota (br_flash s) (br_ota s) cmd req cap in
        (set_ota f o s, r)
      else (s, (STATUS_NOSUPPORT, Some [])) in
    match cmd_of_code cmd with
    | Some CMD_LINK_FEATURES =>
        let '(fs, r) := handle_link_features link req cap (link_features s) in
        (set_features fs s, r)
    | Some CMD_BOOT_CONFIG =>
        let '(c, r) := handle_boot_config req cap (br_flash s) (br_ota s) (br_bcfg s) in
        (set_bcfg c s, r)
    | Some c =>
        match table c with
        | Some h => let '(w, r) := h req cap (br_hw s) in (set_hw w s, r)
        | None => unhandled
        end
    | None => unhandled
    end.

(** The test-and-set, the dispatch, the clear. *)
Definition protocol_dispatch (link : gd32_bridge_link) (cmd : Z) (req : list Z) (cap : Z)
    (s : bridge F W) : bridge F W * reply :=
  if dispatch_in_flight s then (s, (STATUS_BUSY, Some []))
  else
    let '(s, r) := protocol_dispatch_inner link cmd req cap (set_in_flight true s) in
    (set_in_flight false s, r).
End dispatch.

(** ** Proof support *)

Lemma max_payload : GD32_BRIDGE_MAX_PAYLOAD_BYTES = 65.
Proof. done. Qed.

Lemma reply_ok_empty cap st p : st <> STATUS_NO_PENDING -> default [] p = [] -> reply_ok cap (st, p).
Proof.
  intros Hst Hp. split; unfold reply_payload; rewrite ?max_payload; simpl; rewrite ?Hp; simpl; [lia | lia | done | done].
Qed.

Lemma reply_ok_payload cap n p :
  Z.of_nat (length p) = n -> n <= cap -> n <= GD32_BRIDGE_MAX_PAYLOAD_BYTES ->
  reply_ok cap (STATUS_OK, Some p).
Proof.
  rewrite max_payload. intros Hl Hc Hm.
  split; unfold reply_payload; rewrite ?max_payload; simpl; [lia | lia | done | done].
Qed.

Lemma status_from_hw_sent rv : status_from_hw rv <> STATUS_NO_PENDING.
Proof. unfold status_from_hw. by repeat case_match. Qed.

Lemma hw_ladder_sent i r rv st : hw_ladder i r rv = Some st -> st <> STATUS_NO_PENDING.
Proof. unfold hw_ladder. repeat case_match; intros; simplify_eq; done. Qed.

Lemma hw_failure_sent rv st : hw_failure rv = Some st -> st <> STATUS_NO_PENDING.
Proof. unfold hw_failure. case_match; intros; simplify_eq. apply status_from_hw_sent. Qed.
#[export] Hint Resolve status_from_hw_sent hw_ladder_sent hw_failure_sent : gd32.

Lemma length_mjoin_const (f : nat -> list Z) (m : nat) l :
  (forall i, length (f i) = m) -> length (mjoin (f <$> l)) = (m * length l)%nat.
Proof. intros Hm. induction l as [| i l IH]; [simpl; lia |].
  change (mjoin (f <$> (i :: l))) with (f i ++ mjoin (f <$> l)). rewrite length_app, IH, Hm. simpl. lia. Qed.

Lemma length_sample_bytes mv got n : length (sample_bytes mv got n) = (2 * Z.to_nat n)%nat.
Proof.
  unfold sample_bytes. rewrite (length_mjoin_const _ 2), length_seq; [done |].
  intros i. by case_match.
Qed.

Lemma length_bin_bytes bins got n : length (bin_bytes bins got n) = (4 * Z.to_nat n)%nat.
Proof. unfold bin_bytes. by rewrite (length_mjoin_const _ 4), length_seq. Qed.

Section handler_proofs.
Context {W : Type} `{BridgeHw W} `{BuildId}.

Lemma refuse_ok cap st (w : W) : st <> STATUS_NO_PENDING -> reply_ok cap (refuse st w).2.
Proof. intros. by apply reply_ok_empty. Qed.
Lemma answer_empty_ok cap rv (w : W) : reply_ok cap (answer_empty rv w).2.
Proof. apply reply_ok_empty; auto with gd32. Qed.
Lemma answer_ok cap e (w : W) n p :
  (forall st, e = Some st -> st <> STATUS_NO_PENDING) ->
  Z.of_nat (length p) = n -> n <= cap \/ n = 0 -> n <= GD32_BRIDGE_MAX_PAYLOAD_BYTES ->
  reply_ok cap (answer e w p).2.
Proof.
  intros He Hl Hc Hm. destruct e as [st |]; simpl; [apply reply_ok_empty; auto |].
  rewrite max_payload in Hm.
  split; unfold reply_payload; rewrite ?max_payload; simpl; [lia | lia | done | done].
Qed.

(** Replies of the table's handlers. *)
Ltac solve_reply :=
  repeat case_match; simplify_eq/=;
  first [ apply refuse_ok; (done || apply status_from_hw_sent) | apply answer_empty_ok
        | by apply reply_ok_empty
        | apply reply_ok_empty; [apply status_from_hw_sent | done]
        | ((eapply answer_ok; [by eauto with gd32 | ..]) || eapply reply_ok_payload);
          rewrite ?max_payload; simpl;
          rewrite ?length_fmap, ?length_seq, ?length_sample_bytes, ?length_bin_bytes, ?build_id_len;
          [reflexivity | lia ..] ].

Lemma table_reply_ok c (h : handler W) req cap w :
  table c = Some h -> bytes_ok req -> 0 <= cap -> reply_ok cap (h req cap w).2.
Proof.
  intros Ht Hb Hc. pose proof (at_byte req 0 Hb) as B0. pose proof (at_byte req 1 Hb) as B1.
  pose proof (at_byte req 3 Hb) as B3. unfold is_byte in *.
  destruct c; simplify_eq/=; unfold handle_ping, handle_get_version, handle_get_build_id, handle_reset_reason,
    handle_gpio_read, handle_gpio_write, handle_pwm_set, handle_pwm_get, handle_pwm_configure,
    handle_adc_read, handle_adc_configure, handle_adc_stream_begin, handle_adc_stream_read,
    handle_adc_stream_end, handle_adc_spectrum_read, handle_trng_read, handle_tmu_compute,
    handle_da9292_forward, handle_se_reset, handle_dac_set, handle_dac_get, handle_qenc_read,
    handle_qenc_reset, handle_counter_read, handle_pwm_capture_begin, handle_pwm_capture_read,
    handle_pwm_capture_end, handle_pwm_single_pulse, handle_timer_sync, handle_power_mode_set,
    handle_adc_dsp_chain_open, handle_adc_dsp_stage_push, handle_adc_dsp_chain_bind;
    unfold GD32_BRIDGE_BUILD_ID_LEN, GD32_BRIDGE_ADC_MAX_SAMPLES, GD32_BRIDGE_ADC_STREAM_READ_MAX,
      GD32_BRIDGE_ADC_SPECTRUM_READ_MAX in *.
  all: solve_reply.
Qed.
End handler_proofs.

Section dispatch_proofs.
Context {F W : Type} `{FlashHal F} `{BridgeHw W} `{BuildId}.
Variable b : app_build.

Lemma ota_reply_ok (f : F) o cmd req cap : 0 <= cap -> reply_ok cap (ota_dispatch b f o cmd req cap).2.
Proof.
  intros Hc. unfold ota_dispatch. case_match; [by apply reply_ok_empty |].
  assert (Hin : forall x : F * ota * reply, reply_ok cap x.2 ->
            reply_ok cap (let '(f, s, (st, payload)) := x in (f, s, (st, Some (default [] payload)))).2).
  { intros [[f' s'] [st p]] [? ? ?]. by split. }
  apply Hin. clear Hin.
  assert (Hpay : forall p, Z.of_nat (length p) <= 6 -> Z.of_nat (length p) <= cap ->
            reply_ok cap (STATUS_OK, Some p)).
  { intros p Hp Hp'. eapply reply_ok_payload; [done | done | rewrite max_payload; lia]. }
  destruct (cmd_of_code cmd) as [[] |]; try (by apply reply_ok_empty);
    unfold h_begin, h_write, h_verify, h_commit, h_rollback, h_get_state;
    cbv zeta; repeat case_match; cbn [snd fst];
    first [by apply reply_ok_empty | apply Hpay; [by vm_compute | cbn [length app put32]; lia]].
Qed.

(** One dispatch outside a trial, by the class of its opcode. *)
Lemma dispatch_inner_cases (link : gd32_bridge_link) cmd req cap (s : bridge F W) :
  ota_trial_unconfirmed (br_ota s) = false ->
  let x := protocol_dispatch_inner b link cmd req cap s in
  (exists c h, cmd_of_code cmd = Some c /\ table c = Some h /\
     x = (set_hw (h req cap (br_hw s)).1 s, (h req cap (br_hw s)).2)) \/
  (cmd_of_code cmd = Some CMD_LINK_FEATURES /\
     x = (set_features (handle_link_features link req cap (link_features s)).1 s,
          (handle_link_features link req cap (link_features s)).2)) \/
  (cmd_of_code cmd = Some CMD_BOOT_CONFIG /\
     x = (set_bcfg (handle_boot_config req cap (br_flash s) (br_ota s) (br_bcfg s)).1 s,
          (handle_boot_config req cap (br_flash s) (br_ota s) (br_bcfg s)).2)) \/
  (0xF0 <= cmd /\
     x = (let y := ota_dispatch b (br_flash s) (br_ota s) cmd req cap in (set_ota y.1.1 y.1.2 s, y.2))) \/
  (cmd < 0xF0 /\ (cmd_of_code cmd = None \/ cmd_of_code cmd = Some CMD_ADC_STREAM_CONFIGURE_DSP) /\
     x = (s, (STATUS_NOSUPPORT, Some []))).
Proof.
  intros Ht x. unfold x, protocol_dispatch_inner, bl_dispatch_ota. clear x. rewrite Ht.
  destruct (cmd_of_code cmd) as [c |] eqn:Ec.
  - pose proof (cmd_of_code_some _ _ Ec) as Hc.
    destruct (table c) as [h |] eqn:Etab.
    + left. exists c, h. split; [done |]. split; [done |].
      destruct c; simplify_eq/=; match goal with |- context [let '(w, r) := ?t in _] => by destruct t end.
    + destruct c; simplify_eq/=.
      * right; right; left. split; [done |]. by destruct (handle_boot_config _ _ _ _ _).
      * do 4 right. split; [done |]. by split; [right |].
      * right; left. split; [done |]. by destruct (handle_link_features _ _ _ _).
      * do 3 right; left. split; [done |]. by destruct (ota_dispatch _ _ _ _ _ _) as [[? ?] ?].
      * do 3 right; left. split; [done |]. by destruct (ota_dispatch _ _ _ _ _ _) as [[? ?] ?].
      * do 3 right; left. split; [done |]. by destruct (ota_dispatch _ _ _ _ _ _) as [[? ?] ?].
      * do 3 right; left. split; [done |]. by destruct (ota_dispatch _ _ _ _ _ _) as [[? ?] ?].
      * do 3 right; left. split; [done |]. by destruct (ota_dispatch _ _ _ _ _ _) as [[? ?] ?].
      * do 3 right; left. split; [done |]. by destruct (ota_dispatch _ _ _ _ _ _) as [[? ?] ?].
      * do 3 right; left. split; [done |]. by destruct (ota_dispatch _ _ _ _ _ _) as [[? ?] ?].
  - change (cmd_code CMD_OTA_BEGIN) with 0xF0. destruct (Z.leb_spec 0xF0 cmd).
    + do 3 right; left. split; [done |]. by destruct (ota_dispatch _ _ _ _ _ _) as [[? ?] ?].
    + do 4 right. split; [done |]. by split; [left |].
Qed.

Lemma dispatch_free link cmd req cap (s : bridge F W) :
  dispatch_in_flight s = false ->
  let x := protocol_dispatch_inner b link cmd req cap (set_in_flight true s) in
  protocol_dispatch b link cmd req cap s = (set_in_flight false x.1, x.2).
Proof. intros Hf. unfold protocol_dispatch. rewrite Hf. by destruct (protocol_dispatch_inner _ _ _ _ _ _). Qed.

(** The trial gate: while a trial is unconfirmed every opcode, on either
    link, is answered BUSY with no payload, and the only thing a request changes
    is to note that a frame was seen -- no handler runs. *)
Theorem dispatch_trial_gate (link : gd32_bridge_link) (cmd : Z) (req : list Z) (cap : Z) (s : bridge F W) :
  dispatch_in_flight s = false -> ota_trial_unconfirmed (br_ota s) = true ->
  protocol_dispatch b link cmd req cap s =
    (set_ota (br_flash s) (ota_note_frame (br_ota s)) s, (STATUS_BUSY, Some [])).
Proof.
  intros Hf Ht. rewrite dispatch_free by done. unfold protocol_dispatch_inner. simpl.
  rewrite Ht. destruct s; simpl in *. by subst.
Qed.

(** One dispatch at a time: a nested request is answered BUSY before any
    handler, leaving every component as it is; a dispatch that was let in
    always clears the flag again. *)
Theorem dispatch_exclusive (link : gd32_bridge_link) (cmd : Z) (req : list Z) (cap : Z) (s : bridge F W) :
  (dispatch_in_flight s = true ->
   protocol_dispatch b link cmd req cap s = (s, (STATUS_BUSY, Some []))) /\
  (dispatch_in_flight s = false ->
   dispatch_in_flight (protocol_dispatch b link cmd req cap s).1 = false).
Proof.
  split; intros Hf; [unfold protocol_dispatch; by rewrite Hf |]. by rewrite dispatch_free.
Qed.

Lemma protocol_dispatch_ok (link : gd32_bridge_link) (cmd : Z) (req : list Z) (cap : Z) (s : bridge F W) :
  bytes_ok req -> 0 <= cap -> reply_ok cap (protocol_dispatch b link cmd req cap s).2.
Proof.
  intros Hb Hc. destruct (dispatch_in_flight s) eqn:Hf.
  { unfold protocol_dispatch. rewrite Hf. by apply reply_ok_empty. }
  rewrite dispatch_free by done. cbv zeta. cbn [snd].
  destruct (ota_trial_unconfirmed (br_ota s)) eqn:Ht.
  { unfold protocol_dispatch_inner. simpl. rewrite Ht. by apply reply_ok_empty. }
  destruct (dispatch_inner_cases link cmd req cap (set_in_flight true s) Ht)
    as [(c & h & _ & Htab & ->) | [(_ & ->) | [(_ & ->) | [(_ & ->) | (_ & _ & ->)]]]]; cbn [snd].
  - by eapply table_reply_ok.
  - unfold handle_link_features. repeat case_match; simplify_eq/=; try (by apply reply_ok_empty).
    eapply reply_ok_payload; [done | simpl; lia | rewrite max_payload; simpl; lia].
  - unfold handle_boot_config. cbv zeta.
    repeat case_match; simplify_eq/=; try (by apply reply_ok_empty).
    all: eapply reply_ok_payload; [done | simpl; lia | rewrite max_payload; simpl; lia].
  - by apply ota_reply_ok.
  - by apply reply_ok_empty.
Qed.

(** Link isolation: a dispatch on one link never changes the features
    armed on the other, only LINK_FEATURES changes its own, and a well-formed
    LINK_FEATURES arms and echoes the intersection with what is implemented. *)
Theorem link_features_isolated (link : gd32_bridge_link) (cmd : Z) (req : list Z) (cap : Z) (s : bridge F W) :
  let x := protocol_dispatch b link cmd req cap s in
  (forall l, l <> link \/ cmd <> cmd_code CMD_LINK_FEATURES ->
     protocol_link_features x.1 l = protocol_link_features s l) /\
  (dispatch_in_flight s = false -> ota_trial_unconfirmed (br_ota s) = false ->
   cmd = cmd_code CMD_LINK_FEATURES -> length req = 1%nat -> 1 <= cap ->
   let granted := Z.land req.[0] GD32_BRIDGE_LINK_FEAT_STATUS_SEQ in
   protocol_link_features x.1 link = granted /\ x.2 = (STATUS_OK, Some [granted])).
Proof.
  cbv zeta. split.
  - intros l Hl. destruct (dispatch_in_flight s) eqn:Hf; [by unfold protocol_dispatch; rewrite Hf |].
    rewrite dispatch_free by done. cbv zeta. cbn [fst]. destruct (ota_trial_unconfirmed (br_ota s)) eqn:Ht.
    { unfold protocol_dispatch_inner. simpl. by rewrite Ht. }
    destruct (dispatch_inner_cases link cmd req cap (set_in_flight true s) Ht)
      as [(c & h & _ & Htab & ->) | [(Hc & ->) | [(_ & ->) | [(_ & ->) | (_ & _ & ->)]]]]; try done.
    apply cmd_of_code_some in Hc. destruct Hl as [Hl | Hl]; [| congruence].
    unfold protocol_link_features, handle_link_features. simpl. repeat case_match; simplify_eq/=; try done.
    by destruct l, link.
  - intros Hf Ht -> Hl Hc. rewrite dispatch_free by done. unfold protocol_dispatch_inner. simpl. rewrite Ht.
    unfold handle_link_features, req_len. rewrite Hl. simpl.
    destruct (Z.ltb_spec cap 1); [lia |]. by destruct link.
Qed.

(** Footprint: outside a trial an opcode below 0xF0 leaves the flash and
    the OTA session alone, an opcode from 0xF0 up leaves the peripherals, the
    boot configuration and the link features alone, and an opcode with no
    handler is answered NOSUPPORT with nothing changed. *)
Theorem dispatch_footprint (link : gd32_bridge_link) (cmd : Z) (req : list Z) (cap : Z) (s : bridge F W) :
  ota_trial_unconfirmed (br_ota s) = false ->
  let x := protocol_dispatch b link cmd req cap s in
  (cmd < 0xF0 -> br_flash x.1 = br_flash s /\ br_ota x.1 = br_ota s) /\
  (0xF0 <= cmd -> br_hw x.1 = br_hw s /\ br_bcfg x.1 = br_bcfg s /\ link_features x.1 = link_features s) /\
  (dispatch_in_flight s = false -> cmd < 0xF0 -> cmd_of_code cmd = None ->
   x = (s, (STATUS_NOSUPPORT, Some []))).
Proof.
  intros Ht. cbv zeta. destruct (dispatch_in_flight s) eqn:Hf.
  { unfold protocol_dispatch. by rewrite Hf. }
  rewrite dispatch_free by done. cbv zeta. cbn [fst snd].
  destruct (dispatch_inner_cases link cmd req cap (set_in_flight true s) Ht)
    as [(c & h & Hc & Htab & ->) | [(Hc & ->) | [(Hc & ->) | [(Hc & ->) | (Hc & _ & ->)]]]]; cbn [fst snd].
  - pose proof (cmd_of_code_some _ _ Hc). split; [done |]. split; [| congruence].
    intros Hge. subst cmd. destruct c; simplify_eq/=; lia.
  - pose proof (cmd_of_code_some _ _ Hc) as He. simpl in He. split; [done |]. split; [lia | congruence].
  - pose proof (cmd_of_code_some _ _ Hc) as He. simpl in He. split; [done |]. split; [lia | congruence].
  - split; [lia |]. split; [done | lia].
  - split; [done |]. split; [lia |]. intros _ _ _. destruct s; simpl in *. by subst.
Qed.
End dispatch_proofs.

(** ** Request validation *)

(** The payload length each opcode documents ([protocol.h]'s frame comments). *)
Definition req_len_ok (c : gd32_bridge_cmd) (n : Z) : bool :=
  match c with
  | CMD_PING | CMD_GET_VERSION | CMD_GET_BUILD_ID | CMD_RESET_REASON
  | CMD_DA9292_STATUS_FORWARD | CMD_ADC_DSP_CHAIN_OPEN => n =? 0
  | CMD_PWM_GET | CMD_SE_RESET | CMD_DAC_GET | CMD_QENC_READ | CMD_QENC_RESET | CMD_COUNTER_READ
  | CMD_ADC_STREAM_END | CMD_TRNG_READ | CMD_PWM_CAPTURE_READ | CMD_PWM_CAPTURE_END
  | CMD_LINK_FEATURES => n =? 1
  | CMD_ADC_READ | CMD_ADC_STREAM_READ | CMD_PWM_CAPTURE_BEGIN | CMD_ADC_DSP_CHAIN_BIND => n =? 2
  | CMD_TIMER_SYNC => n =? 3
  | CMD_GPIO_READ | CMD_DAC_SET | CMD_ADC_SPECTRUM_READ => n =? 4
  | CMD_BOOT_CONFIG => n =? 5
  | CMD_PWM_CONFIGURE | CMD_ADC_CONFIGURE | CMD_ADC_STREAM_BEGIN => n =? 7
  | CMD_GPIO_WRITE | CMD_PWM_SINGLE_PULSE => n =? 8
  | CMD_PWM_SET | CMD_POWER_MODE_SET => n =? 10
  | CMD_TMU_COMPUTE => n =? 12
  | CMD_ADC_DSP_STAGE_PUSH => 7 <=? n
  | _ => true
  end.

(** Opcodes that only read firmware state. *)
Definition answers_itself (c : gd32_bridge_cmd) : bool :=
  match c with
  | CMD_PING | CMD_GET_VERSION | CMD_GET_BUILD_ID | CMD_RESET_REASON | CMD_DA9292_STATUS_FORWARD => true
  | _ => false
  end.

Section validation.
Context {F W : Type} `{FlashHal F} `{BridgeHw W} `{BuildId}.
Variable b : app_build.

(** Length guard: a request whose payload length is not the opcode's is
    answered INVAL and reaches no peripheral and no state at all. *)
Theorem dispatch_length_guard (link : gd32_bridge_link) (c : gd32_bridge_cmd) (req : list Z) (cap : Z)
    (s : bridge F W) :
  dispatch_in_flight s = false -> ota_trial_unconfirmed (br_ota s) = false ->
  req_len_ok c (req_len req) = false ->
  protocol_dispatch b link (cmd_code c) req cap s = (s, (STATUS_INVAL, None)).
Proof.
  intros Hf Ht Hl. rewrite dispatch_free by done. unfold protocol_dispatch_inner. simpl.
  rewrite Ht, cmd_of_cmd_code. destruct s as [hw fl o cfg feat fly]; simpl in Hf |- *; subst fly.
  destruct c; simpl in Hl |- *; try discriminate Hl;
    unfold handle_boot_config, handle_link_features, handle_ping, handle_get_version, handle_get_build_id,
    handle_reset_reason, handle_gpio_read, handle_gpio_write, handle_pwm_set, handle_pwm_get,
    handle_pwm_configure, handle_adc_read, handle_adc_configure, handle_adc_stream_begin,
    handle_adc_stream_read, handle_adc_stream_end, handle_adc_spectrum_read, handle_trng_read,
    handle_tmu_compute, handle_da9292_forward, handle_se_reset, handle_dac_set, handle_dac_get,
    handle_qenc_read, handle_qenc_reset, handle_counter_read, handle_pwm_capture_begin,
    handle_pwm_capture_read, handle_pwm_capture_end, handle_pwm_single_pulse, handle_timer_sync,
    handle_power_mode_set, handle_adc_dsp_chain_open, handle_adc_dsp_stage_push, handle_adc_dsp_chain_bind;
    rewrite ?Hl; try done.
  destruct (Z.ltb_spec (req_len req) 7); [done | lia].
Qed.

(** A boot-configuration SET is gated: it is accepted only for known flags
    and, when it would write, only while the write is safe and no OTA session or
    erase walk is active; then the value is queued (or already stored) and the
    reply is the currently stored one.  Any refusal leaves the queue as it was,
    and neither outcome writes flash. *)
Theorem boot_config_set_gated (link : gd32_bridge_link) (req : list Z) (cap : Z) (s : bridge F W) :
  dispatch_in_flight s = false -> ota_trial_unconfirmed (br_ota s) = false ->
  length req = 5%nat -> req.[0] = 1 ->
  let flags := le32 (drop 1 req) in
  let stored := boot_config_flags (br_bcfg s) in
  let x := protocol_dispatch b link (cmd_code CMD_BOOT_CONFIG) req cap s in
  br_flash x.1 = br_flash s /\
  if bool_decide (x.2.1 = STATUS_OK) then
    Z.land flags (Z.lnot BOOT_CONFIG_KNOWN_FLAGS) = 0 /\
    (flags = stored \/ ota_fmc_config_write_safe (br_flash s) = true /\
      ota_session_active (br_ota s) = false /\ ota_erase_active (br_ota s) = false) /\
    (boot_config_pending (br_bcfg x.1) = Some flags \/
      flags = stored /\ boot_config_pending (br_bcfg x.1) = None) /\
    x.2.2 = Some (put32 stored)
  else br_bcfg x.1 = br_bcfg s.
Proof.
  intros Hf Ht Hl Hop. cbv zeta. rewrite dispatch_free by done.
  unfold protocol_dispatch_inner. simpl. rewrite Ht. unfold cmd_of_code; simpl.
  unfold handle_boot_config, req_len. rewrite Hl, Hop. simpl.
  destruct (cap <? 4); [done |]. destruct (negb ota_fmc_supported); [done |].
  destruct (negb (Z.land _ _ =? 0)) eqn:Hk; [done |]. apply negb_false_iff, Z.eqb_eq in Hk.
  destruct (Z.eqb_spec (le32 (drop 1 req)) (boot_config_flags (br_bcfg s))) as [He | Hne]; simpl.
  - unfold boot_config_request. destruct (s_pending (br_bcfg s)) eqn:Hp.
    + destruct (Z.eqb_spec (s_pending_flags (br_bcfg s)) (le32 (drop 1 req))); [| done]. simpl.
      split; [done |]. split; [done |]. split; [by left |]. split; [| done].
      left. unfold boot_config_pending. rewrite Hp. by f_equal.
    + unfold boot_config_flags in He. rewrite <- He, Z.eqb_refl. simpl.
      split; [done |]. split; [done |]. split; [left; done |]. split.
      * right. split; [done |]. unfold boot_config_pending. by rewrite Hp.
      * unfold boot_config_flags. by rewrite <- He.
  - destruct (ota_fmc_config_write_safe (br_flash s)) eqn:Hsafe; [| done]. simpl.
    destruct (_ || _) eqn:Hota; [done |]. apply orb_false_iff in Hota as [Hs He].
    unfold boot_config_request. destruct (s_pending (br_bcfg s)) eqn:Hp.
    + destruct (Z.eqb_spec (s_pending_flags (br_bcfg s)) (le32 (drop 1 req))); [| done]. simpl.
      split; [done |]. split; [done |]. split; [by right |]. split; [| done].
      left. unfold boot_config_pending. rewrite Hp. by f_equal.
    + destruct (Z.eqb_spec (le32 (drop 1 req)) (s_stored (br_bcfg s))); [done |]. simpl.
      split; [done |]. split; [done |]. split; [by right |]. split; [by left | done].
Qed.
End validation.

Section stub.
Context `{BuildId}.
#[local] Instance stub_board : BridgeHw unit := stub_hw.

(** On the stub backend no peripheral opcode succeeds; every one but the
    GPIO pair answers a well-formed request NOSUPPORT (never IO), while
    GPIO_READ and GPIO_WRITE flatten the same NOTIMPL to IO. *)
Theorem stub_statuses (c : gd32_bridge_cmd) (h : handler unit) (req : list Z) (cap : Z) :
  table c = Some h -> answers_itself c = false ->
  let st := (h req cap tt).2.1 in
  st <> STATUS_OK /\
  (st = STATUS_IO -> c = CMD_GPIO_READ \/ c = CMD_GPIO_WRITE) /\
  (c = CMD_GPIO_READ \/ c = CMD_GPIO_WRITE -> req_len_ok c (req_len req) = true -> 4 <= cap ->
   st = STATUS_IO).
Proof.
  intros Ht Hc. destruct c; try discriminate Hc; simplify_eq/=;
    unfold handle_gpio_read, handle_gpio_write, handle_pwm_set, handle_pwm_get, handle_pwm_configure,
    handle_adc_read, handle_adc_configure, handle_adc_stream_begin, handle_adc_stream_read,
    handle_adc_stream_end, handle_adc_spectrum_read, handle_trng_read, handle_tmu_compute,
    handle_se_reset, handle_dac_set, handle_dac_get, handle_qenc_read, handle_qenc_reset,
    handle_counter_read, handle_pwm_capture_begin, handle_pwm_capture_read, handle_pwm_capture_end,
    handle_pwm_single_pulse, handle_timer_sync, handle_power_mode_set, handle_adc_dsp_chain_open,
    handle_adc_dsp_stage_push, handle_adc_dsp_chain_bind; simpl.
  1, 2: repeat case_match; simplify_eq/=; split_and?; auto; try done; intros; lia.
  all: split; [| split; [| by intros [|]]]; repeat case_match; done.
Qed.
End stub.
