(* ===== verification/HalCalls.v ===== *)
(** * From frames to driver calls

    What reaches the drivers of [bridge_hw.h] from the wire: at most one call per
    dispatch, with its arguments decoded from the payload.  [encode] is the payload
    [src/protocol.h] documents for each request; [decode] is what the handlers of
    [src/protocol.c] make of a payload, guards included. *)

From stdpp Require Import base tactics list numbers option.
From S2P Require Import Prelude Wire OtaLayout Flash BridgeHw BootConfig Ota Protocol.

(** ** Calls *)

(** The operations of [bridge_hw.h] that take the peripherals' state with them. *)
Inductive hal_request :=
  | HalGpioRead (mask : Z) | HalGpioWrite (mask levels : Z)
  | HalPwmSet (channel period_ns duty_ns : Z) | HalPwmGet (channel : Z)
  | HalPwmConfigure (channel align_mode dead_time_ns break_cfg : Z)
  | HalAdcRead (channel samples : Z) | HalAdcConfigure (channel ratio cycles bits : Z)
  | HalStreamBegin (stream_id channel rate : Z) | HalStreamRead (stream_id max_samples : Z) | HalStreamEnd (stream_id : Z)
  | HalSpectrumRead (stream_id bin_offset max_bins : Z)
  | HalTrngRead (len : nat) | HalTmuCompute (function format in_a in_b : Z)
  | HalDacSet (channel value_mv : Z) | HalDacGet (channel : Z)
  | HalQencRead (encoder : Z) | HalQencReset (encoder : Z) | HalCounterRead (counter : Z)
  | HalSeReset (assert : Z)
  | HalCaptureBegin (channel edge : Z) | HalCaptureRead (channel : Z) | HalCaptureEnd (channel : Z)
  | HalSinglePulse (channel pulse_ns : Z) | HalTimerSync (master slave mode : Z)
  | HalPowerModeSet (mode wake_bitmap wake_after_ms : Z)
  | HalChainOpen | HalStagePush (chain_id stage_index kind offset total : Z) (chunk : list Z) | HalChainBind (chain_id stream_id : Z).

(** What a call does to the peripherals. *)
Definition hal_do {W} `{BridgeHw W} (r : hal_request) (w : W) : W :=
  match r with
  | HalGpioRead m => (bridge_hw_gpio_read w m).1
  | HalGpioWrite m l => (bridge_hw_gpio_write w m l).1
  | HalPwmSet c p d => (bridge_hw_pwm_set w c p d).1
  | HalPwmGet c => (bridge_hw_pwm_get w c).1
  | HalPwmConfigure c a d b => (bridge_hw_pwm_configure w c a d b).1
  | HalAdcRead c n => (bridge_hw_adc_read w c n).1
  | HalAdcConfigure c o s b => (bridge_hw_adc_configure w c o s b).1
  | HalStreamBegin sid c rate => (bridge_hw_adc_stream_begin w sid c rate).1
  | HalStreamRead sid n => (bridge_hw_adc_stream_read w sid n).1
  | HalStreamEnd sid => (bridge_hw_adc_stream_end w sid).1
  | HalSpectrumRead sid off n => (bridge_hw_adc_spectrum_read w sid off n).1
  | HalTrngRead len => (bridge_hw_trng_read w len).1
  | HalTmuCompute f m a b => (bridge_hw_tmu_compute w f m a b).1
  | HalDacSet c v => (bridge_hw_dac_set w c v).1
  | HalDacGet c => (bridge_hw_dac_get w c).1
  | HalQencRead e => (bridge_hw_qenc_read w e).1
  | HalQencReset e => (bridge_hw_qenc_reset w e).1
  | HalCounterRead c => (bridge_hw_counter_read w c).1
  | HalSeReset a => (bridge_hw_se_reset w a).1
  | HalCaptureBegin c e => (bridge_hw_pwm_capture_begin w c e).1
  | HalCaptureRead c => (bridge_hw_pwm_capture_read w c).1
  | HalCaptureEnd c => (bridge_hw_pwm_capture_end w c).1
  | HalSinglePulse c p => (bridge_hw_pwm_single_pulse w c p).1
  | HalTimerSync m s mode => (bridge_hw_timer_sync w m s mode).1
  | HalPowerModeSet m b ms => (bridge_hw_power_mode_set w m b ms).1
  | HalChainOpen => (bridge_hw_adc_dsp_chain_open w).1
  | HalStagePush c i k off total chunk => (bridge_hw_adc_dsp_stage_push w c i k off total chunk).1
  | HalChainBind c sid => (bridge_hw_adc_dsp_chain_bind w c sid).1
  end.

(** Arguments a handler lets through: the widths of their fields and the limits the
    protocol itself sets. *)
Definition hal_ok (r : hal_request) : Prop :=
  match r with
  | HalGpioRead m => is_u32 m
  | HalGpioWrite m l => is_u32 m /\ is_u32 l
  | HalPwmSet c p d => is_byte c /\ is_u32 p /\ is_u32 d /\ d <= p
  | HalPwmGet c | HalDacGet c | HalQencRead c | HalQencReset c | HalCounterRead c | HalCaptureRead c | HalCaptureEnd c => is_byte c
  | HalPwmConfigure c a d b => is_byte c /\ 0 <= a <= 3 /\ is_u32 d /\ is_byte b
  | HalAdcRead c n => is_byte c /\ 1 <= n <= GD32_BRIDGE_ADC_MAX_SAMPLES
  | HalAdcConfigure c o s b => is_byte c /\ is_u16 o /\ is_u16 s /\ is_byte b /\ resolution_known b = true
  | HalStreamBegin sid c rate => 0 <= sid < GD32_BRIDGE_ADC_STREAM_COUNT /\ is_byte c /\ is_u32 rate /\ rate <> 0
  | HalStreamRead sid n => 0 <= sid < GD32_BRIDGE_ADC_STREAM_COUNT /\ 1 <= n <= GD32_BRIDGE_ADC_STREAM_READ_MAX
  | HalStreamEnd sid => 0 <= sid < GD32_BRIDGE_ADC_STREAM_COUNT
  | HalSpectrumRead sid off n =>
      0 <= sid < GD32_BRIDGE_ADC_STREAM_COUNT /\ is_u16 off /\ 1 <= n <= GD32_BRIDGE_ADC_SPECTRUM_READ_MAX
  | HalTrngRead len => (1 <= len <= 32)%nat
  | HalTmuCompute f m a b => 0 <= f < BRIDGE_TMU_FN__COUNT /\ 0 <= m < BRIDGE_TMU_FMT__COUNT /\ is_u32 a /\ is_u32 b
  | HalDacSet c v => is_byte c /\ is_u16 v
  | HalSeReset a => 0 <= a <= 1
  | HalCaptureBegin c e => is_byte c /\ 0 <= e <= 2
  | HalSinglePulse c p => is_byte c /\ is_u32 p /\ p <> 0
  | HalTimerSync m s mode => is_byte m /\ is_byte s /\ is_byte mode
  | HalPowerModeSet m b ms => 0 <= m <= 3 /\ is_u32 b /\ is_u32 ms
  | HalChainOpen => True
  | HalStagePush c i k off total chunk =>
      is_byte c /\ is_byte i /\ 0 <= k <= 3 /\ is_u16 off /\ is_u16 total /\ bytes_ok chunk /\
      u32 (off + Z.of_nat (length chunk)) <= total
  | HalChainBind c sid => is_byte c /\ 0 <= sid < GD32_BRIDGE_ADC_STREAM_COUNT
  end.

(** The reply a handler makes sure of before it calls. *)
Definition reply_room (r : hal_request) : Z :=
  match r with
  | HalGpioRead _ | HalTmuCompute _ _ _ _ | HalQencRead _ | HalCounterRead _ => 4
  | HalPwmGet _ | HalCaptureRead _ => 8
  | HalAdcRead _ n => 1 + n * 2
  | HalTrngRead len => Z.of_nat len
  | HalDacGet _ => 2
  | HalChainOpen => 1
  | _ => 0
  end.

(** ** The wire *)

(** Opcode and payload; reserved bytes are 0. *)
Definition encode (r : hal_request) : gd32_bridge_cmd * list Z :=
  match r with
  | HalGpioRead m => (CMD_GPIO_READ, put32 m)
  | HalGpioWrite m l => (CMD_GPIO_WRITE, put32 m ++ put32 l)
  | HalPwmSet c p d => (CMD_PWM_SET, c :: 0 :: put32 p ++ put32 d)
  | HalPwmGet c => (CMD_PWM_GET, [c])
  | HalPwmConfigure c a d b => (CMD_PWM_CONFIGURE, c :: a :: put32 d ++ [b])
  | HalAdcRead c n => (CMD_ADC_READ, [c; n])
  | HalAdcConfigure c o s b => (CMD_ADC_CONFIGURE, c :: 0 :: put16 o ++ put16 s ++ [b])
  | HalStreamBegin sid c rate => (CMD_ADC_STREAM_BEGIN, sid :: c :: 0 :: put32 rate)
  | HalStreamRead sid n => (CMD_ADC_STREAM_READ, [sid; n])
  | HalStreamEnd sid => (CMD_ADC_STREAM_END, [sid])
  | HalSpectrumRead sid off n => (CMD_ADC_SPECTRUM_READ, sid :: put16 off ++ [n])
  | HalTrngRead len => (CMD_TRNG_READ, [Z.of_nat len])
  | HalTmuCompute f m a b => (CMD_TMU_COMPUTE, f :: m :: 0 :: 0 :: put32 a ++ put32 b)
  | HalDacSet c v => (CMD_DAC_SET, c :: 0 :: put16 v)
  | HalDacGet c => (CMD_DAC_GET, [c])
  | HalQencRead e => (CMD_QENC_READ, [e])
  | HalQencReset e => (CMD_QENC_RESET, [e])
  | HalCounterRead c => (CMD_COUNTER_READ, [c])
  | HalSeReset a => (CMD_SE_RESET, [a])
  | HalCaptureBegin c e => (CMD_PWM_CAPTURE_BEGIN, [c; e])
  | HalCaptureRead c => (CMD_PWM_CAPTURE_READ, [c])
  | HalCaptureEnd c => (CMD_PWM_CAPTURE_END, [c])
  | HalSinglePulse c p => (CMD_PWM_SINGLE_PULSE, c :: 0 :: 0 :: 0 :: put32 p)
  | HalTimerSync m s mode => (CMD_TIMER_SYNC, [m; s; mode])
  | HalPowerModeSet m b ms => (CMD_POWER_MODE_SET, m :: 0 :: put32 b ++ put32 ms)
  | HalChainOpen => (CMD_ADC_DSP_CHAIN_OPEN, [])
  | HalStagePush c i k off total chunk => (CMD_ADC_DSP_STAGE_PUSH, c :: i :: k :: put16 off ++ put16 total ++ chunk)
  | HalChainBind c sid => (CMD_ADC_DSP_CHAIN_BIND, [c; sid])
  end.

Definition when {A} (ok : bool) (x : A) : option A := if ok then Some x else None.

(** The arguments, for a payload a handler accepts. *)
Definition decode_args (c : gd32_bridge_cmd) (req : list Z) : option hal_request :=
  let n := req_len req in
  match c with
  | CMD_GPIO_READ => when (n =? 4) (HalGpioRead (le32 req))
  | CMD_GPIO_WRITE => when (n =? 8) (HalGpioWrite (le32 req) (le32 (drop 4 req)))
  | CMD_PWM_SET =>
      when ((n =? 10) && negb (le32 (drop 2 req) <? le32 (drop 6 req))) (HalPwmSet req.[0] (le32 (drop 2 req)) (le32 (drop 6 req)))
  | CMD_PWM_GET => when (n =? 1) (HalPwmGet req.[0])
  | CMD_PWM_CONFIGURE => when ((n =? 7) && negb (3 <? req.[1])) (HalPwmConfigure req.[0] req.[1] (le32 (drop 2 req)) req.[6])
  | CMD_ADC_READ =>
      when ((n =? 2) && negb (req.[1] =? 0) && negb (GD32_BRIDGE_ADC_MAX_SAMPLES <? req.[1])) (HalAdcRead req.[0] req.[1])
  | CMD_ADC_CONFIGURE =>
      when ((n =? 7) && resolution_known req.[6]) (HalAdcConfigure req.[0] (le16 (drop 2 req)) (le16 (drop 4 req)) req.[6])
  | CMD_ADC_STREAM_BEGIN =>
      when ((n =? 7) && negb (GD32_BRIDGE_ADC_STREAM_COUNT <=? req.[0]) && negb (le32 (drop 3 req) =? 0))
        (HalStreamBegin req.[0] req.[1] (le32 (drop 3 req)))
  | CMD_ADC_STREAM_READ =>
      when ((n =? 2) && negb (GD32_BRIDGE_ADC_STREAM_COUNT <=? req.[0]) && negb (req.[1] =? 0) &&
            negb (GD32_BRIDGE_ADC_STREAM_READ_MAX <? req.[1])) (HalStreamRead req.[0] req.[1])
  | CMD_ADC_STREAM_END => when ((n =? 1) && negb (GD32_BRIDGE_ADC_STREAM_COUNT <=? req.[0])) (HalStreamEnd req.[0])
  | CMD_ADC_SPECTRUM_READ =>
      when ((n =? 4) && negb (GD32_BRIDGE_ADC_STREAM_COUNT <=? req.[0]) && negb (req.[3] =? 0) &&
            negb (GD32_BRIDGE_ADC_SPECTRUM_READ_MAX <? req.[3])) (HalSpectrumRead req.[0] (le16 (drop 1 req)) req.[3])
  | CMD_TRNG_READ => when ((n =? 1) && negb ((req.[0] =? 0) || (32 <? req.[0]))) (HalTrngRead (Z.to_nat req.[0]))
  | CMD_TMU_COMPUTE =>
      when ((n =? 12) && negb (BRIDGE_TMU_FN__COUNT <=? req.[0]) && negb (BRIDGE_TMU_FMT__COUNT <=? req.[1]))
        (HalTmuCompute req.[0] req.[1] (le32 (drop 4 req)) (le32 (drop 8 req)))
  | CMD_DAC_SET => when (n =? 4) (HalDacSet req.[0] (le16 (drop 2 req)))
  | CMD_DAC_GET => when (n =? 1) (HalDacGet req.[0])
  | CMD_QENC_READ => when (n =? 1) (HalQencRead req.[0])
  | CMD_QENC_RESET => when (n =? 1) (HalQencReset req.[0])
  | CMD_COUNTER_READ => when (n =? 1) (HalCounterRead req.[0])
  | CMD_SE_RESET => when ((n =? 1) && negb (1 <? req.[0])) (HalSeReset req.[0])
  | CMD_PWM_CAPTURE_BEGIN => when ((n =? 2) && negb (2 <? req.[1])) (HalCaptureBegin req.[0] req.[1])
  | CMD_PWM_CAPTURE_READ => when (n =? 1) (HalCaptureRead req.[0])
  | CMD_PWM_CAPTURE_END => when (n =? 1) (HalCaptureEnd req.[0])
  | CMD_PWM_SINGLE_PULSE => when ((n =? 8) && negb (le32 (drop 4 req) =? 0)) (HalSinglePulse req.[0] (le32 (drop 4 req)))
  | CMD_TIMER_SYNC => when (n =? 3) (HalTimerSync req.[0] req.[1] req.[2])
  | CMD_POWER_MODE_SET => when ((n =? 10) && negb (3 <? req.[0])) (HalPowerModeSet req.[0] (le32 (drop 2 req)) (le32 (drop 6 req)))
  | CMD_ADC_DSP_CHAIN_OPEN => when (n =? 0) HalChainOpen
  | CMD_ADC_DSP_STAGE_PUSH =>
      when (negb (n <? 7) && negb (3 <? req.[2]) && negb (le16 (drop 5 req) <? u32 (le16 (drop 3 req) + (n - 7))))
        (HalStagePush req.[0] req.[1] req.[2] (le16 (drop 3 req)) (le16 (drop 5 req)) (drop 7 req))
  | CMD_ADC_DSP_CHAIN_BIND => when ((n =? 2) && negb (GD32_BRIDGE_ADC_STREAM_COUNT <=? req.[1])) (HalChainBind req.[0] req.[1])
  | _ => None
  end.

(** With the room for the reply. *)
Definition decode (c : gd32_bridge_cmd) (req : list Z) (cap : Z) : option hal_request :=
  match decode_args c req with
  | Some r => when (negb (cap <? reply_room r)) r
  | None => None
  end.

(** ** Handlers call what they decode *)

(** The conditions of a handler, one at a time, then its call. *)
Ltac walk tac :=
  repeat match goal with
  | E : ?b = _ |- context [if ?b then _ else _] => rewrite E
  | E : ?b = _ |- context [if negb ?b then _ else _] => rewrite E; cbn [negb]
  | |- context [if ?b then _ else _] =>
      lazymatch b with
      | negb ?x => destruct x eqn:?
      | andb ?x _ => destruct x eqn:?
      | orb ?x _ => destruct x eqn:?
      | _ => destruct b eqn:?
      end; cbn [negb andb orb reply_room]; tac; cbn [negb andb orb]
  end.

Section decoding.
Context {W : Type} `{BridgeHw W} `{BuildId}.

(** The room a call without payload asks for. *)
Lemma roomy cap : 0 <= cap -> (cap <? 0) = false.
Proof. intros. by apply Z.ltb_ge. Qed.

Lemma handler_calls c (h : handler W) req cap w : table c = Some h -> bytes_ok req -> 0 <= cap ->
  (h req cap w).1 = match decode c req cap with Some r => hal_do r w | None => w end.
Proof.
  intros T Hb Hc. pose proof (at_byte req 0 Hb) as B0. unfold is_byte in B0. apply roomy in Hc. unfold decode, decode_args.
  destruct c; try discriminate T; injection T as <-; cbv zeta;
    unfold handle_ping, handle_get_version, handle_get_build_id, handle_reset_reason, handle_gpio_read, handle_gpio_write,
    handle_pwm_set, handle_pwm_get, handle_pwm_configure, handle_adc_read, handle_adc_configure, handle_adc_stream_begin,
    handle_adc_stream_read, handle_adc_stream_end, handle_adc_spectrum_read, handle_trng_read, handle_tmu_compute,
    handle_da9292_forward, handle_se_reset, handle_dac_set, handle_dac_get, handle_qenc_read, handle_qenc_reset,
    handle_counter_read, handle_pwm_capture_begin, handle_pwm_capture_read, handle_pwm_capture_end, handle_pwm_single_pulse,
    handle_timer_sync, handle_power_mode_set, handle_adc_dsp_chain_open, handle_adc_dsp_stage_push, handle_adc_dsp_chain_bind,
    answer_empty, answer, refuse, when; cbv zeta.
  all: walk ltac:(rewrite ?Hc, ?Z2Nat.id by lia); try reflexivity; cbn [hal_do].
  all: repeat match goal with |- context [match ?t with _ => _ end] => destruct t end; reflexivity.
Qed.
End decoding.

Lemma when_some {A} ok (x y : A) : when ok x = Some y <-> ok = true /\ x = y.
Proof. destruct ok; cbn; (split; [intros E | intros (E & ->)]); try discriminate E; [by injection E as <- | done]. Qed.

Lemma le16_drop (l : list Z) n : bytes_ok l -> is_u16 (le16 (drop n l)).
Proof.
  intros Hb. assert (Hd : bytes_ok (drop n l)) by by apply Forall_drop. rewrite le16_add by auto with gd32.
  pose proof (at_byte _ 0 Hd). pose proof (at_byte _ 1 Hd). unfold is_byte, is_u16 in *. lia.
Qed.

Lemma decode_ok c req cap r : bytes_ok req -> decode c req cap = Some r -> hal_ok r /\ reply_room r <= cap.
Proof.
  intros Hb. unfold decode. destruct (decode_args c req) as [x |] eqn:E; [| done]. intros (Hr & <-)%when_some. split; [| by apply negb_true_iff, Z.ltb_ge in Hr].
  clear Hr. pose proof (at_byte req 0 Hb) as B0. pose proof (at_byte req 1 Hb) as B1. pose proof (at_byte req 2 Hb) as B2.
  pose proof (at_byte req 3 Hb) as B3. pose proof (at_byte req 6 Hb) as B6. pose proof (le32_range req Hb) as L.
  pose proof (fun n => le32_bytes req n Hb) as L32. pose proof (fun n => le16_drop req n Hb) as L16.
  unfold decode_args in E. destruct c; try discriminate E; apply when_some in E as (E & <-); rewrite ?andb_true_iff, ?negb_true_iff, ?orb_false_iff, ?Z.leb_gt, ?Z.ltb_ge, ?Z.eqb_neq in E;
    cbn [hal_ok]; unfold is_byte in *; split_and?; auto; try lia; try apply E.
  - by apply Forall_drop.
  - rewrite length_drop. unfold req_len in E. replace (Z.of_nat (length req - 7)) with (Z.of_nat (length req) - 7) by lia. apply E.
Qed.

Lemma le32_put32_nil v : is_u32 v -> le32 (put32 v) = v.
Proof. intros. rewrite <- (app_nil_r (put32 v)). by apply le32_put32. Qed.

Lemma le16_put16_end v : is_u16 v -> le16 (put16 v) = v.
Proof. intros. rewrite <- (app_nil_r (put16 v)). by apply le16_put16. Qed.

(** A field of a payload, by conversion. *)
Ltac fields :=
  repeat match goal with
  | |- context [le32 ?l] =>
      match l with
      | context [put32 ?v ++ ?rest] => change (le32 l) with (le32 (put32 v ++ rest)); rewrite (le32_put32 v rest) by assumption
      | context [put32 ?v] => change (le32 l) with (le32 (put32 v)); rewrite (le32_put32_nil v) by assumption
      end
  | |- context [le16 ?l] =>
      match l with
      | context [put16 ?v ++ ?rest] => change (le16 l) with (le16 (put16 v ++ rest)); rewrite (le16_put16 v rest) by assumption
      | context [put16 ?v] => change (le16 l) with (le16 (put16 v)); rewrite (le16_put16_end v) by assumption
      end
  end.

(** What a documented payload is decoded to. *)
Lemma decode_args_encode r : hal_ok r -> decode_args (encode r).1 (encode r).2 = Some r.
Proof.
  destruct r; cbn [hal_ok encode fst snd]; intros Hok; repeat match goal with H : _ /\ _ |- _ => destruct H end; unfold decode_args;
    cbv zeta; apply when_some.
  all: match goal with |- context [req_len ?l] => match l with context [put16 _ ++ put16 _ ++ ?chunk] => idtac | _ => let n := eval vm_compute in (req_len l) in change (req_len l) with n end end.
  all: fields.
  all: unfold is_byte in *; rewrite ?andb_true_iff, ?negb_true_iff, ?orb_false_iff, ?Z.leb_gt, ?Z.ltb_ge, ?Z.eqb_neq, ?Z.eqb_eq.
  all: repeat match goal with
       | |- context [[Z.of_nat ?n].[0]] => change ([Z.of_nat n].[0]) with (Z.of_nat n)
       | |- context [(?x :: ?l).[?k]] => let v := eval lazy in ((x :: l).[k]) in change ((x :: l).[k]) with v
       end; rewrite ?Nat2Z.id.
  all: split; [| reflexivity]; split_and?; try lia; try done.
  all: unfold req_len; rewrite ?length_cons, ?length_app; cbn [length put16]; try lia.
  match goal with H : u32 _ <= _ |- _ => rename H into Hfit end. etrans; [| exact Hfit]. apply Z.eq_le_incl. do 2 f_equal. lia.
Qed.

Lemma decode_encode r cap : hal_ok r -> reply_room r <= cap -> decode (encode r).1 (encode r).2 cap = Some r.
Proof.
  intros Hok Hc. unfold decode. rewrite decode_args_encode by done. apply when_some. split; [| done]. by apply negb_true_iff, Z.ltb_ge.
Qed.

(** ** One dispatch, one call *)

Section dispatching.
Context {F W : Type} `{FlashHal F} `{BridgeHw W} `{BuildId}.
Variable b : app_build.

(** The call a dispatch makes, if any: none while another is in flight or a trial is
    unconfirmed. *)
Definition request_of (s : bridge F W) (cmd : Z) (req : list Z) (cap : Z) : option hal_request :=
  if dispatch_in_flight s || ota_trial_unconfirmed (br_ota s) then None
  else match cmd_of_code cmd with Some c => decode c req cap | None => None end.

Definition hal_calls (o : option hal_request) (w : W) : W := match o with Some r => hal_do r w | None => w end.

Lemma decode_table c req cap : table (W := W) c = None -> decode c req cap = None.
Proof. by destruct c. Qed.

Lemma dispatch_calls link cmd req cap (s : bridge F W) : bytes_ok req -> 0 <= cap ->
  br_hw (protocol_dispatch b link cmd req cap s).1 = hal_calls (request_of s cmd req cap) (br_hw s).
Proof.
  intros Hb Hc. unfold request_of. destruct (dispatch_in_flight s) eqn:Hf; cbn [orb].
  { unfold protocol_dispatch. by rewrite Hf. }
  rewrite dispatch_free by done. cbv zeta. cbn [fst set_in_flight br_hw].
  destruct (ota_trial_unconfirmed (br_ota s)) eqn:Ht.
  { unfold protocol_dispatch_inner. cbn [br_ota set_in_flight]. by rewrite Ht. }
  destruct (dispatch_inner_cases b link cmd req cap (set_in_flight true s) Ht)
    as [(c & h & -> & Htab & ->) | [(-> & ->) | [(-> & ->) | [(Hge & ->) | (Hlt & Hn & ->)]]]]; cbn [fst set_hw br_hw set_in_flight set_features set_bcfg set_ota].
  - by apply handler_calls.
  - done.
  - done.
  - destruct (cmd_of_code cmd) as [c |] eqn:Ec; [| done]. apply cmd_of_code_some in Ec. rewrite decode_table; [done |].
    subst cmd. destruct c; try done; exfalso; revert Hge; vm_compute; auto.
  - by destruct Hn as [-> | ->].
Qed.

Lemma inner_table link c h req cap (s : bridge F W) : ota_trial_unconfirmed (br_ota s) = false -> table c = Some h ->
  protocol_dispatch_inner b link (cmd_code c) req cap s = (set_hw (h req cap (br_hw s)).1 s, (h req cap (br_hw s)).2).
Proof.
  intros Ht Htab. destruct (dispatch_inner_cases b link (cmd_code c) req cap s Ht)
    as [(c' & h' & Ec & Htab' & ->) | [(Ec & _) | [(Ec & _) | [(Hge & _) | (_ & Hn & _)]]]]; rewrite ?cmd_of_cmd_code in *.
  - injection Ec as <-. rewrite Htab in Htab'. by injection Htab' as <-.
  - by injection Ec as ->.
  - by injection Ec as ->.
  - exfalso. destruct c; try discriminate Htab; revert Hge; vm_compute; auto.
  - destruct Hn as [Hn | Hn]; [done |]. by injection Hn as ->.
Qed.

Lemma encode_bytes r : hal_ok r -> bytes_ok (encode r).2.
Proof.
  destruct r; cbn [hal_ok encode snd]; intros Hok; repeat match goal with H : _ /\ _ |- _ => destruct H end.
  all: repeat (apply put32_ok || apply put16_ok || apply Forall_app_2 || apply Forall_cons_2 || apply Forall_nil_2); try done.
  all: unfold is_byte, GD32_BRIDGE_ADC_MAX_SAMPLES, GD32_BRIDGE_ADC_STREAM_COUNT, GD32_BRIDGE_ADC_STREAM_READ_MAX, GD32_BRIDGE_ADC_SPECTRUM_READ_MAX,
    BRIDGE_TMU_FN__COUNT, BRIDGE_TMU_FMT__COUNT in *; try lia.
Qed.

(** C38. What reaches a driver is what the host's payload says.  Every dispatch, of any
    bytes, makes at most one call on the peripherals, and one whose arguments have
    their documented widths and pass the protocol's limits.  Conversely each such call
    is made by its documented payload, with exactly the arguments put into it, and
    changes nothing but the peripherals. *)
Theorem dispatch_calls_exactly link cap (s : bridge F W) : 0 <= cap ->
  (forall cmd req, bytes_ok req ->
    br_hw (protocol_dispatch b link cmd req cap s).1 = hal_calls (request_of s cmd req cap) (br_hw s) /\
    forall r, request_of s cmd req cap = Some r -> hal_ok r) /\
  (forall r, hal_ok r -> reply_room r <= cap -> dispatch_in_flight s = false -> ota_trial_unconfirmed (br_ota s) = false ->
    bytes_ok (encode r).2 /\
    (protocol_dispatch b link (cmd_code (encode r).1) (encode r).2 cap s).1 = set_hw (hal_do r (br_hw s)) s).
Proof.
  intros Hc. split.
  - intros cmd req Hb. split; [by apply dispatch_calls |]. intros r. unfold request_of. destruct (_ || _); [done |].
    destruct (cmd_of_code cmd) as [c |]; [| done]. intros E. by apply (decode_ok c req cap).
  - intros r Hok Hr Hf Ht. assert (Hb : bytes_ok (encode r).2) by (by apply encode_bytes). split; [exact Hb |].
    pose proof (decode_encode r cap Hok Hr) as Hd. rewrite dispatch_free by done. cbv zeta. cbn [fst].
    destruct (table (W := W) (encode r).1) as [h |] eqn:Htab; [| by rewrite decode_table in Hd].
    rewrite (inner_table link _ h) by done. cbn [fst br_hw set_in_flight]. rewrite (handler_calls _ h _ cap) by done.
    rewrite Hd. destruct s; cbn in Hf |- *. by subst.
Qed.
End dispatching.
