(* ===== verification/Frame.v ===== *)
(** * CRC-framed envelopes and the dispatch seam

    What the two transports share: a message followed by its CRC-16, low byte
    first, and the interface they call the command layer through.  The client
    theorems are proved against [Dispatcher]; [protocol_dispatcher] discharges
    its laws for [protocol.c]. *)

From stdpp Require Import base tactics list numbers option.
From S2P Require Import Prelude Crc Wire Flash BridgeHw Protocol.

(** [protocol_dispatch] and [protocol_link_features], over any command-layer
    state. *)
Class Dispatcher (S : Type) := {
  dispatch : gd32_bridge_link -> Z -> list Z -> Z -> S -> S * reply;
  features_of : S -> gd32_bridge_link -> Z }.

Class DispatcherLaws (S : Type) `{Dispatcher S} : Prop := {
  dl_reply link cmd req cap (s : S) :
    bytes_ok req -> 0 <= cap -> reply_ok cap (dispatch link cmd req cap s).2 }.

Section protocol_instance.
Context {F W : Type} `{FlashHal F} `{BridgeHw W} `{BuildId}.
Variable b : app_build.

Definition protocol_dispatcher : Dispatcher (bridge F W) := {|
  dispatch := protocol_dispatch b;
  features_of := protocol_link_features |}.

(** C16. Replies never overrun, the contract both transports are verified
    against: whatever the opcode, the request bytes and the peripheral results,
    the reply payload fits both the caller's buffer and the 65-byte wire limit,
    only STATUS_OK carries one, and the I2C-only sentinel never appears. *)
Theorem protocol_dispatcher_laws : @DispatcherLaws (bridge F W) protocol_dispatcher.
Proof.
  split. intros link cmd req cap s Hb Hc. cbn [dispatch protocol_dispatcher].
  by apply protocol_dispatch_ok.
Qed.
End protocol_instance.

(** ** Frames *)

(** A message and its CRC trailer. *)
Definition crc_frame (body : list Z) : list Z := body ++ put16 (crc16_ccitt_false body).

(** The receiver's comparison of the last two bytes with the CRC of the rest. *)
Definition crc_ok (frame : list Z) : bool :=
  let n := (length frame - 2)%nat in
  le16 (drop n frame) =? crc16_ccitt_false (take n frame).

Lemma length_crc_frame body : length (crc_frame body) = (length body + 2)%nat.
Proof. unfold crc_frame. by rewrite length_app. Qed.

Lemma crc_frame_split body :
  take (length (crc_frame body) - 2) (crc_frame body) = body /\
  drop (length (crc_frame body) - 2) (crc_frame body) = put16 (crc16_ccitt_false body).
Proof.
  rewrite length_crc_frame. replace (length body + 2 - 2)%nat with (length body) by lia.
  unfold crc_frame. by rewrite take_app_length, drop_app_length.
Qed.

Lemma le16_put16_nil v : is_u16 v -> le16 (put16 v) = v.
Proof. intros. rewrite <- (app_nil_r (put16 v)). by apply le16_put16. Qed.

Lemma crc_ok_frame body : crc_ok (crc_frame body) = true.
Proof.
  unfold crc_ok. destruct (crc_frame_split body) as [-> ->].
  rewrite le16_put16_nil by apply crc16_u16. apply Z.eqb_refl.
Qed.

Lemma crc_ok_inv frame :
  (2 <= length frame)%nat -> bytes_ok frame -> crc_ok frame = true ->
  frame = crc_frame (take (length frame - 2) frame).
Proof.
  intros Hl Hb Hok. unfold crc_ok in Hok. apply Z.eqb_eq in Hok.
  rewrite <- (take_drop (length frame - 2) frame) at 1. unfold crc_frame. f_equal. rewrite <- Hok.
  assert (Hd : length (drop (length frame - 2) frame) = 2%nat) by (rewrite length_drop; lia).
  assert (Hbd : bytes_ok (drop (length frame - 2) frame)) by (by apply Forall_drop).
  destruct (drop (length frame - 2) frame) as [| x [| y [|]]]; try done.
  rewrite !Forall_cons_iff in Hbd. destruct Hbd as (Hx & Hy & _). unfold put16, le16, at_; simpl.
  rewrite (lor_shiftl_add 8) by (unfold is_byte in *; lia).
  rewrite Z.shiftr_div_pow2 by lia. unfold u8, is_byte in *. simpl Z.pow.
  f_equal; [zlia | f_equal; zlia].
Qed.

(** One changed byte anywhere in a frame is always caught. *)
Lemma crc_ok_one_byte body i x y :
  bytes_ok body -> crc_frame body !! i = Some x -> is_byte y -> x <> y ->
  crc_ok (<[i := y]> (crc_frame body)) = false.
Proof.
  intros Hb Hi Hy Hne. destruct (crc_ok _) eqn:E; [exfalso | done].
  assert (Hbf : bytes_ok (crc_frame body)) by (apply Forall_app; split; [done | apply put16_ok]).
  pose proof (Forall_lookup_1 _ _ _ _ Hbf Hi) as Hx. pose proof (lookup_lt_Some _ _ _ Hi) as Hlt.
  pose proof (length_crc_frame body) as Hlen.
  apply crc_ok_inv in E; [| rewrite length_insert; lia | by apply Forall_insert].
  rewrite length_insert, Hlen in E. replace (length body + 2 - 2)%nat with (length body) in E by lia.
  destruct (Nat.lt_ge_cases i (length body)) as [Hin | Hge].
  - assert (Ht : take (length body) (<[i := y]> (crc_frame body)) = <[i := y]> body).
    { rewrite take_insert_lt by done. unfold crc_frame. by rewrite take_app_length. }
    rewrite Ht in E. unfold crc_frame in E. rewrite insert_app_l in E by done.
    apply app_inj_1 in E as [_ E]; [| done].
    assert (Hc : crc16_ccitt_false body = crc16_ccitt_false (<[i := y]> body)).
    { rewrite <- (le16_put16_nil _ (crc16_u16 body)), E. by rewrite le16_put16_nil by apply crc16_u16. }
    assert (Hbi : body !! i = Some x) by (unfold crc_frame in Hi; by rewrite lookup_app_l in Hi by done).
    rewrite <- (take_drop_middle body i x Hbi) in Hc at 1. rewrite (insert_take_drop body i y) in Hc by done.
    apply crc16_one_byte in Hc; [done | by apply Forall_drop | done | done].
  - assert (Ht : take (length body) (<[i := y]> (crc_frame body)) = body).
    { rewrite take_insert_ge by done. unfold crc_frame. by rewrite take_app_length. }
    rewrite Ht in E. apply (f_equal (lookup i)) in E. rewrite list_lookup_insert_eq in E by done.
    congruence.
Qed.

Lemma crc_frame_bytes body : bytes_ok body -> bytes_ok (crc_frame body).
Proof. intros Hb. apply Forall_app. split; [done | apply put16_ok]. Qed.
Lemma crc_frame_head v body : (crc_frame (v :: body)).[0] = v.
Proof. done. Qed.

#[global] Opaque crc_frame.
