(* ===== verification/TransportSpi.v ===== *)
(** * The SPI slave transport: [src/transport_spi.c]

    Receive staging, decode and dispatch on the CS rising edge, reply staging
    with the STATUS_SEQ stamp, the drain/rewind rules and the tar-pit breaker.
    The command layer is any [Dispatcher].  The receive buffer is its valid
    prefix [spi_rx_buf[0..spi_rx_len)], the reply buffer its staged prefix. *)

From stdpp Require Import base tactics list numbers option.
From S2P Require Import Prelude Crc Wire Protocol Frame.

Definition GD32_BRIDGE_SOF : Z := 0xA5.
Definition SPI_MAX_FRAME_BYTES : Z := 1 + 1 + GD32_BRIDGE_MAX_PAYLOAD_BYTES + 2.
Definition SPI_DRAIN_REWIND_BOUND : Z := 12.

(** The file's statics. *)
Record spi := Spi {
  spi_rx_buf : list Z;
  spi_tx_buf : list Z;
  spi_tx_cursor : Z;
  spi_drain_streak : Z;
  spi_seq : Z }.
Definition spi_rx_len (t : spi) : Z := Z.of_nat (length (spi_rx_buf t)).
Definition spi_tx_len (t : spi) : Z := Z.of_nat (length (spi_tx_buf t)).

Section spi.
Context {St : Type} `{Dispatcher St}.

(** [stage_reply]; [features] is [protocol_link_features(SPI)] at that moment. *)
Definition stage_reply (features status : Z) (payload : list Z) (t : spi) : spi :=
  let armed := negb (Z.land features GD32_BRIDGE_LINK_FEAT_STATUS_SEQ =? 0) in
  let seq := if armed then Z.land (spi_seq t + 1) 0x0F else spi_seq t in
  let status :=
    if armed then u8 (Z.lor status (u8 (Z.shiftl seq GD32_BRIDGE_STATUS_SEQ_SHIFT))) else status in
  Spi (spi_rx_buf t) (crc_frame (GD32_BRIDGE_SOF :: status :: payload)) 0 0 seq.

Definition stage_error_reply (features status : Z) (t : spi) : spi :=
  stage_reply features status [] t.

Definition spi_features (s : St) : Z := features_of s GD32_BRIDGE_LINK_SPI.

(** The shared tail of the two drain paths. *)
Definition drain_rewind (s : St) (t : spi) : spi :=
  let streak := u8 (spi_drain_streak t + 1) in
  let t := Spi (spi_rx_buf t) (spi_tx_buf t) (spi_tx_cursor t) streak (spi_seq t) in
  if SPI_DRAIN_REWIND_BOUND <? streak
  then stage_error_reply (spi_features s) (status_code STATUS_IO) t
  else Spi (spi_rx_buf t) (spi_tx_buf t) 0 streak (spi_seq t).

Definition decode_and_dispatch (t : spi) (s : St) : spi * St :=
  let rx := spi_rx_buf t in
  let io := stage_error_reply (spi_features s) (status_code STATUS_IO) t in
  if spi_rx_len t =? 0 then (drain_rewind s t, s)
  else if negb (rx.[0] =? GD32_BRIDGE_SOF) then
    if existsb (fun b => negb (b =? 0)) rx then (io, s) else (drain_rewind s t, s)
  else if spi_rx_len t <? 4 then (io, s)
  else
    let payload_len := Z.to_nat (spi_rx_len t - 4) in
    let got_crc := le16 (drop (2 + payload_len) rx) in
    let expect_crc := crc16_ccitt_false (take (2 + payload_len) rx) in
    if negb (got_crc =? expect_crc) then (io, s)
    else
      let cmd := rx.[1] in
      let '(s, r) := dispatch GD32_BRIDGE_LINK_SPI cmd (take payload_len (drop 2 rx))
                       GD32_BRIDGE_MAX_PAYLOAD_BYTES s in
      (stage_reply (spi_features s) (status_code r.1) (reply_payload r) t, s).

Definition spi_slave_cs_low (t : spi) : spi :=
  Spi [] (spi_tx_buf t) (spi_tx_cursor t) (spi_drain_streak t) (spi_seq t).

Definition spi_slave_rx_byte (v : Z) (t : spi) : spi :=
  if spi_rx_len t <? SPI_MAX_FRAME_BYTES
  then Spi (spi_rx_buf t ++ [v]) (spi_tx_buf t) (spi_tx_cursor t) (spi_drain_streak t) (spi_seq t)
  else t.

Definition spi_slave_cs_high (t : spi) (s : St) : spi * St := decode_and_dispatch t s.

Definition spi_slave_transport_error (t : spi) (s : St) : spi :=
  stage_error_reply (spi_features s) (status_code STATUS_IO) (spi_slave_cs_low t).

Definition spi_slave_tx_next_byte (t : spi) : spi * Z :=
  if spi_tx_cursor t <? spi_tx_len t
  then (Spi (spi_rx_buf t) (spi_tx_buf t) (spi_tx_cursor t + 1) (spi_drain_streak t) (spi_seq t),
        (spi_tx_buf t).[spi_tx_cursor t])
  else (t, 0xFF).

Definition spi_slave_tx_pending (t : spi) : bool := spi_tx_cursor t <? spi_tx_len t.

Definition transport_spi_init (t : spi) : spi := Spi [] [] 0 0 0.

(** One CS transaction as the backend drives it: falling edge, the captured
    bytes, rising edge. *)
Definition spi_transaction (bytes : list Z) (t : spi) (s : St) : spi * St :=
  spi_slave_cs_high (foldl (fun t v => spi_slave_rx_byte v t) (spi_slave_cs_low t) bytes) s.

(** The backend's drain of the staged reply ([while pending, next byte]). *)
Fixpoint spi_drain (fuel : nat) (t : spi) : spi * list Z :=
  match fuel with
  | O => (t, [])
  | S fuel =>
      if spi_slave_tx_pending t then
        let '(t, v) := spi_slave_tx_next_byte t in
        let '(t, l) := spi_drain fuel t in (t, v :: l)
      else (t, [])
  end.
End spi.

(** The host's request envelope. *)
Definition spi_request (cmd : Z) (payload : list Z) : list Z :=
  crc_frame (GD32_BRIDGE_SOF :: cmd :: payload).

(** The invariant: every buffer within its array, the cursor within the staged
    reply, and the staged reply empty or a CRC-valid SOF envelope. *)
Record spi_inv (t : spi) : Prop := {
  si_rx : spi_rx_len t <= SPI_MAX_FRAME_BYTES;
  si_rx_bytes : bytes_ok (spi_rx_buf t);
  si_tx : spi_tx_len t <= SPI_MAX_FRAME_BYTES;
  si_cursor : 0 <= spi_tx_cursor t <= spi_tx_len t;
  si_streak : 0 <= spi_drain_streak t <= SPI_DRAIN_REWIND_BOUND;
  si_seq : 0 <= spi_seq t < 16;
  si_frame : spi_tx_buf t = [] \/
    crc_ok (spi_tx_buf t) = true /\ (spi_tx_buf t).[0] = GD32_BRIDGE_SOF }.

(** The seam calls, in any order. *)
Inductive spi_call :=
  | CsLow | RxByte (v : Z) | CsHigh | TransportError | TxNextByte | Init.

Definition spi_exec {St} `{Dispatcher St} (c : spi_call) (x : spi * St) : spi * St :=
  match c with
  | CsLow => (spi_slave_cs_low x.1, x.2)
  | RxByte v => (spi_slave_rx_byte (u8 v) x.1, x.2)
  | CsHigh => spi_slave_cs_high x.1 x.2
  | TransportError => (spi_slave_transport_error x.1 x.2, x.2)
  | TxNextByte => ((spi_slave_tx_next_byte x.1).1, x.2)
  | Init => (transport_spi_init x.1, x.2)
  end.

(** ** Proof support *)

Section proofs.
Context {St : Type} `{DispatcherLaws St}.

Lemma spi_max : SPI_MAX_FRAME_BYTES = 69.
Proof. done. Qed.

Lemma land_0f x : 0 <= Z.land x 0x0F < 16.
Proof. change 0x0F with (Z.ones 4). rewrite Z.land_ones by lia. change (2 ^ 4) with 16. zlia. Qed.

Lemma stage_reply_inv fe st pl (t : spi) :
  spi_inv t -> Z.of_nat (length pl) <= GD32_BRIDGE_MAX_PAYLOAD_BYTES -> spi_inv (stage_reply fe st pl t).
Proof.
  intros Hi Hl. rewrite max_payload in Hl. split; simpl.
  - apply Hi.
  - apply Hi.
  - unfold spi_tx_len; simpl. rewrite length_crc_frame, spi_max. simpl. lia.
  - unfold spi_tx_len; simpl. lia.
  - unfold SPI_DRAIN_REWIND_BOUND. lia.
  - case_match; [apply land_0f | apply Hi].
  - right. split; [apply crc_ok_frame | apply crc_frame_head].
Qed.

Lemma stage_error_inv fe st (t : spi) : spi_inv t -> spi_inv (stage_error_reply fe st t).
Proof. intros Hi. apply stage_reply_inv; [done |]. by vm_compute. Qed.

Lemma drain_rewind_inv (s : St) (t : spi) : spi_inv t -> spi_inv (drain_rewind s t).
Proof.
  intros Hi. unfold drain_rewind, SPI_DRAIN_REWIND_BOUND. pose proof (si_streak t Hi) as Hs.
  unfold SPI_DRAIN_REWIND_BOUND in Hs. rewrite u8_id by (unfold is_byte; lia).
  destruct (Z.ltb_spec 12 (spi_drain_streak t + 1)) as [Hgt | Hle].
  - split; simpl; try apply Hi.
    + unfold spi_tx_len; simpl. rewrite length_crc_frame, spi_max. simpl. lia.
    + unfold spi_tx_len; simpl. lia.
    + unfold SPI_DRAIN_REWIND_BOUND. lia.
    + case_match; [apply land_0f | apply Hi].
    + right. split; [apply crc_ok_frame | apply crc_frame_head].
  - pose proof (si_cursor t Hi). split; simpl; try apply Hi; unfold spi_tx_len, SPI_DRAIN_REWIND_BOUND in *; simpl; lia.
Qed.

Lemma decode_inv (t : spi) (s : St) : spi_inv t -> spi_inv (decode_and_dispatch t s).1.
Proof.
  intros Hi. unfold decode_and_dispatch. pose proof (si_rx_bytes t Hi) as Hb.
  destruct (spi_rx_len t =? 0); [by apply drain_rewind_inv |].
  destruct (negb _); [destruct (existsb _ _); [by apply stage_error_inv | by apply drain_rewind_inv] |].
  destruct (spi_rx_len t <? 4); [by apply stage_error_inv |].
  destruct (negb _); [by apply stage_error_inv |].
  pose proof (dl_reply GD32_BRIDGE_LINK_SPI (spi_rx_buf t).[1]
    (take (Z.to_nat (spi_rx_len t - 4)) (drop 2 (spi_rx_buf t))) GD32_BRIDGE_MAX_PAYLOAD_BYTES s) as Hr.
  destruct (dispatch _ _ _ _ _) as [s' r]; simpl in Hr |- *. apply stage_reply_inv; [done |].
  eapply ro_max, Hr; [by apply Forall_take, Forall_drop | done].
Qed.

Lemma rx_bytes_take bytes : forall t : spi,
  spi_rx_len t <= SPI_MAX_FRAME_BYTES ->
  foldl (fun t v => spi_slave_rx_byte v t) t bytes =
  Spi (spi_rx_buf t ++ take (Z.to_nat (SPI_MAX_FRAME_BYTES - spi_rx_len t)) bytes)
      (spi_tx_buf t) (spi_tx_cursor t) (spi_drain_streak t) (spi_seq t).
Proof.
  induction bytes as [| v bytes IH]; intros t Ht; simpl.
  { rewrite take_nil, app_nil_r. by destruct t. }
  unfold spi_slave_rx_byte at 2. destruct (Z.ltb_spec (spi_rx_len t) SPI_MAX_FRAME_BYTES) as [Hlt | Hge].
  - assert (Hl : spi_rx_len (Spi (spi_rx_buf t ++ [v]) (spi_tx_buf t) (spi_tx_cursor t) (spi_drain_streak t)
                   (spi_seq t)) = spi_rx_len t + 1) by (unfold spi_rx_len; simpl; rewrite length_app; simpl; lia).
    rewrite IH by (rewrite Hl; lia). rewrite Hl. simpl.
    replace (Z.to_nat (SPI_MAX_FRAME_BYTES - spi_rx_len t))
      with (S (Z.to_nat (SPI_MAX_FRAME_BYTES - (spi_rx_len t + 1)))) by lia.
    simpl. by rewrite <- app_assoc.
  - rewrite IH by done. replace (Z.to_nat (SPI_MAX_FRAME_BYTES - spi_rx_len t)) with 0%nat by lia. done.
Qed.

(** What a transaction decodes: the first 69 captured bytes. *)
Lemma spi_transaction_rx bytes (t : spi) (s : St) :
  spi_transaction bytes t s =
  decode_and_dispatch (Spi (take (Z.to_nat SPI_MAX_FRAME_BYTES) bytes) (spi_tx_buf t) (spi_tx_cursor t)
                         (spi_drain_streak t) (spi_seq t)) s.
Proof.
  unfold spi_transaction, spi_slave_cs_high. rewrite rx_bytes_take by done.
  unfold spi_rx_len; simpl. done.
Qed.

(** Draining from the start returns the whole staged reply. *)
Lemma spi_drain_from fuel : forall t : spi,
  0 <= spi_tx_cursor t <= spi_tx_len t -> (Z.to_nat (spi_tx_len t - spi_tx_cursor t) <= fuel)%nat ->
  (spi_drain fuel t).2 = drop (Z.to_nat (spi_tx_cursor t)) (spi_tx_buf t) /\
  spi_slave_tx_pending (spi_drain fuel t).1 = false.
Proof.
  induction fuel as [| fuel IH]; intros t Hc Hf; simpl; unfold spi_slave_tx_pending.
  - split; [| apply Z.ltb_ge; lia]. symmetry. apply drop_ge. unfold spi_tx_len in *. lia.
  - destruct (Z.ltb_spec (spi_tx_cursor t) (spi_tx_len t)) as [Hlt | Hge].
    2: { simpl. split; [| apply Z.ltb_ge; lia]. symmetry. apply drop_ge. unfold spi_tx_len in *. lia. }
    unfold spi_slave_tx_next_byte. destruct (Z.ltb_spec (spi_tx_cursor t) (spi_tx_len t)) as [_ |]; [| lia].
    set (t' := Spi _ _ _ _ _). specialize (IH t').
    destruct (spi_drain fuel t') as [t'' l]. simpl in *. unfold spi_tx_len in *. simpl in *.
    destruct IH as [-> Hp]; [lia | lia |]. split; [| done].
    replace (Z.to_nat (spi_tx_cursor t + 1)) with (S (Z.to_nat (spi_tx_cursor t))) by lia.
    unfold at_. destruct (spi_tx_buf t !! Z.to_nat (spi_tx_cursor t)) as [v |] eqn:Ev.
    + simpl. symmetry. by apply drop_S.
    + apply lookup_ge_None in Ev. lia.
Qed.

(** A freshly staged reply drains whole. *)
Lemma spi_drain_staged fe st pl (t : spi) :
  Z.of_nat (length pl) <= GD32_BRIDGE_MAX_PAYLOAD_BYTES ->
  (spi_drain 69 (stage_reply fe st pl t)).2 = spi_tx_buf (stage_reply fe st pl t).
Proof.
  rewrite max_payload. intros Hl. destruct (spi_drain_from 69 (stage_reply fe st pl t)) as [Hd _].
  1, 2: unfold stage_reply, spi_tx_len; cbn [spi_tx_cursor spi_tx_buf]; rewrite ?length_crc_frame; simpl length; lia.
  rewrite Hd. unfold stage_reply. cbn [spi_tx_cursor spi_tx_buf]. apply drop_0.
Qed.
End proofs.

(** ** The properties *)

(** The host's view of a reply's status byte. *)
Definition host_status (reply_frame : list Z) : Z := Z.land reply_frame.[1] GD32_BRIDGE_STATUS_CODE_MASK.
Definition host_seq (reply_frame : list Z) : Z := Z.shiftr reply_frame.[1] GD32_BRIDGE_STATUS_SEQ_SHIFT.

(** A transaction the host uses to read a reply: nothing, or dummy zeros. *)
Definition drain_bytes (bytes : list Z) : Prop := Forall (fun v => v = 0) bytes.

Definition io_envelope (features : Z) (t : spi) : list Z :=
  spi_tx_buf (stage_error_reply features (status_code STATUS_IO) t).

Lemma stamp_fields c q :
  0 <= c < 16 -> 0 <= q < 16 ->
  Z.land (u8 (Z.lor c (u8 (Z.shiftl q 4)))) 0x0F = c /\ Z.shiftr (u8 (Z.lor c (u8 (Z.shiftl q 4)))) 4 = q.
Proof.
  intros Hc Hq. rewrite Z.shiftl_mul_pow2 by lia. rewrite (u8_id (q * 2 ^ 4)) by (unfold is_byte; lia).
  rewrite <- Z.shiftl_mul_pow2, lor_shiftl_add by lia. rewrite u8_id by (unfold is_byte; lia).
  change 0x0F with (Z.ones 4). rewrite Z.land_ones, Z.shiftr_div_pow2 by lia. simpl Z.pow. split; zlia.
Qed.

Section claims.
Context {St : Type} `{DispatcherLaws St}.

Lemma request_decode cmd payload :
  Z.of_nat (length payload) <= GD32_BRIDGE_MAX_PAYLOAD_BYTES ->
  let rx := take (Z.to_nat SPI_MAX_FRAME_BYTES) (spi_request cmd payload) in
  rx = spi_request cmd payload /\ length rx = (length payload + 4)%nat.
Proof.
  rewrite max_payload. intros Hl. simpl.
  assert (length (spi_request cmd payload) = (length payload + 4)%nat) as Hlen
    by (unfold spi_request; rewrite length_crc_frame; simpl; lia).
  rewrite take_ge; [done |]. rewrite Hlen, spi_max. lia.
Qed.

Lemma request_fields cmd payload :
  (spi_request cmd payload).[0] = GD32_BRIDGE_SOF /\ (spi_request cmd payload).[1] = cmd /\
  take (2 + length payload) (spi_request cmd payload) = GD32_BRIDGE_SOF :: cmd :: payload /\
  take (length payload) (drop 2 (spi_request cmd payload)) = payload /\
  le16 (drop (2 + length payload) (spi_request cmd payload)) =
    crc16_ccitt_false (GD32_BRIDGE_SOF :: cmd :: payload).
Proof.
  destruct (crc_frame_split (GD32_BRIDGE_SOF :: cmd :: payload)) as [Ht Hd].
  rewrite length_crc_frame in Ht, Hd. simpl length in Ht, Hd.
  replace (S (S (length payload)) + 2 - 2)%nat with (2 + length payload)%nat in Ht, Hd by lia.
  unfold spi_request in *. set (f := crc_frame _) in *.
  assert (Hf : exists tl, f = GD32_BRIDGE_SOF :: cmd :: payload ++ tl).
  { exists (drop (2 + length payload) f). rewrite <- (take_drop (2 + length payload) f) at 1. by rewrite Ht. }
  destruct Hf as [tl Hf]. split; [by rewrite Hf |]. split; [by rewrite Hf |]. split; [done |].
  split; [rewrite Hf; simpl; apply take_app_length |]. rewrite Hd. apply le16_put16_nil, crc16_u16.
Qed.

(** What a request leaves staged: the reply's envelope, its status byte split. *)
Lemma spi_request_staged (t : spi) (s : St) (cmd : Z) (payload : list Z) :
  spi_inv t -> is_byte cmd -> bytes_ok payload ->
  Z.of_nat (length payload) <= GD32_BRIDGE_MAX_PAYLOAD_BYTES ->
  let x := spi_transaction (spi_request cmd payload) t s in
  let y := dispatch GD32_BRIDGE_LINK_SPI cmd payload GD32_BRIDGE_MAX_PAYLOAD_BYTES s in
  let frame := spi_tx_buf x.1 in
  x.2 = y.1 /\
  frame = crc_frame (GD32_BRIDGE_SOF :: frame.[1] :: reply_payload y.2) /\
  host_status frame = status_code y.2.1 /\
  host_seq frame =
    (if Z.land (features_of y.1 GD32_BRIDGE_LINK_SPI) GD32_BRIDGE_LINK_FEAT_STATUS_SEQ =? 0 then 0
     else (spi_seq t + 1) mod 16) /\
  (spi_drain 69 x.1).2 = frame.
Proof.
  intros Hi Hc Hp Hl x y frame.
  assert (Hx : x = (stage_reply (spi_features y.1) (status_code y.2.1) (reply_payload y.2)
                      (Spi (spi_request cmd payload) (spi_tx_buf t) (spi_tx_cursor t) (spi_drain_streak t) (spi_seq t)), y.1)).
  { unfold x. rewrite spi_transaction_rx. destruct (request_decode cmd payload Hl) as [Hrx Hlen].
    rewrite Hrx in Hlen |- *. unfold decode_and_dispatch, spi_rx_len. cbv zeta. cbn [spi_rx_buf]. rewrite Hlen.
    destruct (request_fields cmd payload) as (H0' & H1' & Ht & Hpl & Hcrc). rewrite H0', H1'.
    replace (Z.to_nat (Z.of_nat (length payload + 4) - 4)) with (length payload) by lia.
    rewrite Hpl, Ht, Hcrc, !Z.eqb_refl. cbn [negb].
    destruct (Z.eqb_spec (Z.of_nat (length payload + 4)) 0); [lia |].
    destruct (Z.ltb_spec (Z.of_nat (length payload + 4)) 4); [lia |].
    fold y. by destruct y. }
  assert (Hreply : reply_ok GD32_BRIDGE_MAX_PAYLOAD_BYTES y.2) by (by apply dl_reply).
  clearbody x. subst x. cbn [fst snd] in *.
  assert (Hd : (spi_drain 69 (stage_reply (spi_features y.1) (status_code y.2.1) (reply_payload y.2)
     (Spi (spi_request cmd payload) (spi_tx_buf t) (spi_tx_cursor t) (spi_drain_streak t) (spi_seq t)))).2 = frame)
    by apply spi_drain_staged, (ro_max _ _ Hreply).
  set (fe := spi_features y.1) in *.
  assert (Hframe : exists st, frame = crc_frame (GD32_BRIDGE_SOF :: st :: reply_payload y.2) /\
    Z.land st GD32_BRIDGE_STATUS_CODE_MASK = status_code y.2.1 /\
    Z.shiftr st GD32_BRIDGE_STATUS_SEQ_SHIFT =
      (if Z.land fe GD32_BRIDGE_LINK_FEAT_STATUS_SEQ =? 0 then 0 else (spi_seq t + 1) mod 16)).
  { eexists. split; [reflexivity |].
    pose proof (status_code_low y.2.1 (ro_status _ _ Hreply)) as Hlow.
    unfold GD32_BRIDGE_STATUS_CODE_MASK, GD32_BRIDGE_STATUS_SEQ_SHIFT in *.
    destruct (Z.land fe _ =? 0); simpl.
    - revert Hlow. destruct y.2.1; simpl; intros; first [done | lia].
    - pose proof (land_0f (spi_seq t + 1)). destruct (stamp_fields (status_code y.2.1) (Z.land (spi_seq t + 1) 15)) as [-> ->]; [lia | lia |].
      split; [done |]. change 15 with (Z.ones 4). by rewrite Z.land_ones. }
  destruct Hframe as (st & Hfr & Hst & Hsq). clearbody frame. rewrite Hfr in Hd |- *.
  assert (Hat : (crc_frame (GD32_BRIDGE_SOF :: st :: reply_payload y.2)).[1] = st) by (by apply (request_fields st (reply_payload y.2))).
  unfold host_status, host_seq. rewrite Hat. done.
Qed.

(** Request and reply round trip: a transaction carrying the envelope of
    [cmd] and [payload] dispatches exactly that, once, and the backend then
    drains exactly the CRC envelope of the result; when the host armed STATUS_SEQ
    the status byte splits back into the status code and a stamp one past the
    previous one (mod 16), otherwise it is the bare code. *)
Theorem spi_request_round_trip (t : spi) (s : St) (cmd : Z) (payload : list Z) :
  spi_inv t -> is_byte cmd -> bytes_ok payload ->
  Z.of_nat (length payload) <= GD32_BRIDGE_MAX_PAYLOAD_BYTES ->
  let x := spi_transaction (spi_request cmd payload) t s in
  let y := dispatch GD32_BRIDGE_LINK_SPI cmd payload GD32_BRIDGE_MAX_PAYLOAD_BYTES s in
  let frame := (spi_drain 69 x.1).2 in
  x.2 = y.1 /\
  frame = crc_frame (GD32_BRIDGE_SOF :: frame.[1] :: reply_payload y.2) /\
  host_status frame = status_code y.2.1 /\
  host_seq frame =
    (if Z.land (features_of y.1 GD32_BRIDGE_LINK_SPI) GD32_BRIDGE_LINK_FEAT_STATUS_SEQ =? 0 then 0
     else (spi_seq t + 1) mod 16).
Proof.
  intros Hi Hc Hp Hl x y frame.
  destruct (spi_request_staged t s cmd payload Hi Hc Hp Hl) as (E1 & E2 & E3 & E4 & Ed).
  fold x in E1, E2, E3, E4, Ed. unfold frame. rewrite Ed. split_and!; [exact E1 | exact E2 | exact E3 | exact E4].
Qed.

(** A rising edge that is neither a whole valid request nor a drain. *)
Lemma decode_cases (t : spi) (s : St) :
  (spi_rx_buf t).[0] = GD32_BRIDGE_SOF /\ 4 <= spi_rx_len t /\ crc_ok (spi_rx_buf t) = true \/
  drain_bytes (spi_rx_buf t) /\ decode_and_dispatch t s = (drain_rewind s t, s) \/
  ~ drain_bytes (spi_rx_buf t) /\
    decode_and_dispatch t s = (stage_error_reply (spi_features s) (status_code STATUS_IO) t, s).
Proof.
  unfold decode_and_dispatch, spi_rx_len. destruct (spi_rx_buf t) as [| v l] eqn:Erx; simpl length.
  { right. left. split; [apply Forall_nil_2 | done]. }
  destruct (Z.eqb_spec (Z.of_nat (S (length l))) 0); [lia |].
  destruct (Z.eqb_spec (v :: l).[0] GD32_BRIDGE_SOF) as [Hsof | Hsof]; cbn [negb].
  - assert (Hnd : ~ drain_bytes (v :: l)).
    { intros [Hv _]%Forall_cons_iff. unfold at_, GD32_BRIDGE_SOF in Hsof. simpl in Hsof. lia. }
    destruct (Z.ltb_spec (Z.of_nat (S (length l))) 4) as [Hlt | Hge]; [by right; right |].
    replace (2 + Z.to_nat (Z.of_nat (S (length l)) - 4))%nat with (length (v :: l) - 2)%nat by (simpl; lia).
    destruct (Z.eqb_spec (le16 (drop (length (v :: l) - 2) (v :: l)))
                (crc16_ccitt_false (take (length (v :: l) - 2) (v :: l)))) as [Hc | Hc]; cbn [negb].
    + left. split; [done |]. split; [done |]. unfold crc_ok. by apply Z.eqb_eq.
    + by right; right.
  - right. destruct (existsb _ (v :: l)) eqn:Ex.
    + right. split; [| done]. intros Hd. apply existsb_exists in Ex as (z & Hin & Hz).
      unfold drain_bytes in Hd. rewrite List.Forall_forall in Hd. apply Hd in Hin as ->. done.
    + left. split; [| done]. apply List.Forall_forall. intros z Hin.
      destruct (Z.eqb_spec z 0) as [| Hz]; [done |].
      assert (existsb (fun b => negb (b =? 0)) (v :: l) = true); [| congruence].
      apply existsb_exists. exists z. split; [done |]. apply negb_true_iff. by apply Z.eqb_neq.
Qed.

(** Corruption never executes: if any one byte of a request envelope is
    changed on the wire, nothing is dispatched; the reply becomes the STATUS_IO
    envelope, or -- if what is left is a run of zeros -- a drain. *)
Theorem spi_corrupt_not_dispatched (t : spi) (s : St) (cmd : Z) (payload : list Z) (i : nat) (x y : Z) :
  spi_inv t -> is_byte cmd -> bytes_ok payload ->
  Z.of_nat (length payload) <= GD32_BRIDGE_MAX_PAYLOAD_BYTES ->
  spi_request cmd payload !! i = Some x -> is_byte y -> x <> y ->
  let bytes := <[i := y]> (spi_request cmd payload) in
  let z := spi_transaction bytes t s in
  z.2 = s /\ (drain_bytes bytes \/ spi_tx_buf z.1 = io_envelope (spi_features s) t).
Proof.
  intros Hinv Hc Hp Hl Hi Hy Hne. cbv zeta. rewrite spi_transaction_rx.
  destruct (request_decode cmd payload Hl) as [_ Hlen].
  assert (Hlen' : length (spi_request cmd payload) = (length payload + 4)%nat)
    by (unfold spi_request; rewrite length_crc_frame; simpl; lia).
  rewrite max_payload in Hl. rewrite take_ge by (rewrite length_insert, Hlen', spi_max; lia).
  set (t' := Spi _ _ _ _ _). destruct (decode_cases t' s) as [(_ & _ & Hok) | [[Hd ->] | [Hd ->]]].
  - exfalso. simpl in Hok. unfold spi_request in *.
    rewrite (crc_ok_one_byte _ i x y) in Hok; [done | | done | done | done].
    constructor; [unfold is_byte, GD32_BRIDGE_SOF; lia |]. by constructor.
  - split; [done |]. by left.
  - split; [done |]. right. done.
Qed.

(** [n] reply-read transactions in a row. *)
Fixpoint drains (bs : list (list Z)) (t : spi) (s : St) : spi * St :=
  match bs with
  | [] => (t, s)
  | b :: bs => let '(t, s) := spi_transaction b t s in drains bs t s
  end.

Lemma drain_transaction bytes (t : spi) (s : St) :
  drain_bytes bytes ->
  exists rx, spi_transaction bytes t s =
    (drain_rewind s (Spi rx (spi_tx_buf t) (spi_tx_cursor t) (spi_drain_streak t) (spi_seq t)), s).
Proof.
  intros Hd. rewrite spi_transaction_rx. eexists.
  assert (Hd' : drain_bytes (take (Z.to_nat SPI_MAX_FRAME_BYTES) bytes)) by (by apply Forall_take).
  destruct (decode_cases (Spi (take (Z.to_nat SPI_MAX_FRAME_BYTES) bytes) (spi_tx_buf t) (spi_tx_cursor t)
              (spi_drain_streak t) (spi_seq t)) s) as [(Hsof & _ & _) | [[_ ->] | [Hn _]]]; [| done | done].
  exfalso. cbn [spi_rx_buf] in Hsof. revert Hsof Hd'. destruct (take _ _) as [| v l]; [done |].
  intros Hsof [Hv _]%Forall_cons_iff. unfold at_, GD32_BRIDGE_SOF in Hsof. simpl in Hsof. lia.
Qed.

(** The drain ladder: after a reply was staged, up to twelve reads in a row
    re-serve that same reply from its first byte with its stamp unchanged and
    nothing dispatched, and the thirteenth replaces it by the STATUS_IO
    envelope and restarts the ladder. *)
Theorem spi_drain_ladder (t : spi) (s : St) (bs : list (list Z)) :
  spi_inv t -> spi_drain_streak t = 0 -> Forall drain_bytes bs ->
  let x := drains bs t s in
  ((length bs <= 12)%nat ->
   x.2 = s /\ spi_tx_buf x.1 = spi_tx_buf t /\ spi_seq x.1 = spi_seq t /\ (bs <> [] -> spi_tx_cursor x.1 = 0)) /\
  (length bs = 13%nat ->
   x.2 = s /\ spi_tx_buf x.1 = io_envelope (spi_features s) t /\ spi_drain_streak x.1 = 0).
Proof.
  intros Hi H0' Hd.
  assert (Hgen : forall bs (t' : spi) k, Forall drain_bytes bs -> spi_drain_streak t' = k -> 0 <= k ->
    k + Z.of_nat (length bs) <= 12 -> let x := drains bs t' s in
    x.2 = s /\ spi_tx_buf x.1 = spi_tx_buf t' /\ spi_seq x.1 = spi_seq t' /\
    spi_drain_streak x.1 = k + Z.of_nat (length bs) /\ (bs <> [] -> spi_tx_cursor x.1 = 0)).
  { clear. induction bs as [| b bs IH]; intros t' k Hd Hk Hk0 Hl; simpl.
    { rewrite Z.add_0_r. done. }
    apply Forall_cons_iff in Hd as [Hb Hbs]. destruct (drain_transaction b t' s Hb) as [rx ->].
    simpl in Hl. unfold drain_rewind, SPI_DRAIN_REWIND_BOUND. cbn [spi_drain_streak spi_tx_buf spi_tx_cursor spi_seq].
    rewrite u8_id by (unfold is_byte; lia). destruct (Z.ltb_spec 12 (spi_drain_streak t' + 1)); [lia |].
    destruct (IH (Spi rx (spi_tx_buf t') 0 (spi_drain_streak t' + 1) (spi_seq t')) (k + 1)) as (E1 & E2 & E3 & E4 & E5);
      simpl in *; try done; try lia.
    split; [done |]. split; [done |]. split; [done |]. split; [lia |]. intros _.
    destruct bs; [done | by apply E5]. }
  split; intros Hl.
  - destruct (Hgen bs t 0 Hd H0') as (? & ? & ? & _ & ?); [done | lia | done].
  - destruct (exists_last (l := bs)) as (bs' & b & ->); [by destruct bs |].
    rewrite length_app in Hl. simpl in Hl. apply Forall_app in Hd as [Hd' [Hb _]%Forall_cons_iff].
    destruct (Hgen bs' t 0 Hd' H0') as (E1 & E2 & E3 & E4 & _); [done | lia |].
    assert (Happ : forall l t' s', drains (l ++ [b]) t' s' =
              let '(t1, s1) := drains l t' s' in spi_transaction b t1 s1).
    { clear. induction l as [| c l IH]; intros t' s'; simpl; [by destruct (spi_transaction b t' s') |].
      destruct (spi_transaction c t' s') as [t1 s1]. apply IH. }
    rewrite Happ. destruct (drains bs' t s) as [t1 s1]; simpl in *. subst s1.
    destruct (drain_transaction b t1 s Hb) as [rx ->].
    unfold drain_rewind, SPI_DRAIN_REWIND_BOUND. cbn [spi_drain_streak spi_tx_buf spi_tx_cursor spi_seq].
    rewrite u8_id by (unfold is_byte; lia). destruct (Z.ltb_spec 12 (spi_drain_streak t1 + 1)); [| lia].
    split; [done |]. split; [| done]. unfold io_envelope, stage_error_reply, stage_reply. simpl. by rewrite E3.
Qed.

Lemma spi_exec_inv (c : spi_call) (x : spi * St) : spi_inv x.1 -> spi_inv (spi_exec c x).1.
Proof.
  destruct x as [t s]. intros Hi. destruct c; simpl in *.
  - split; simpl; try apply Hi; [unfold spi_rx_len; simpl; by rewrite spi_max | apply Forall_nil_2].
  - unfold spi_slave_rx_byte. destruct (Z.ltb_spec (spi_rx_len t) SPI_MAX_FRAME_BYTES); [| done].
    split; simpl; try apply Hi.
    + unfold spi_rx_len in *; simpl. rewrite length_app; simpl. lia.
    + apply Forall_app; split; [apply Hi | apply Forall_singleton, u8_byte].
  - by apply decode_inv.
  - apply stage_error_inv. split; simpl; try apply Hi; [unfold spi_rx_len; simpl; by rewrite spi_max | apply Forall_nil_2].
  - unfold spi_slave_tx_next_byte. destruct (Z.ltb_spec (spi_tx_cursor t) (spi_tx_len t)); [| done].
    pose proof (si_cursor t Hi). split; simpl; try apply Hi. unfold spi_tx_len in *; simpl. lia.
  - split; simpl; unfold spi_rx_len, spi_tx_len, SPI_DRAIN_REWIND_BOUND; simpl; rewrite ?spi_max; try lia;
      [apply Forall_nil_2 | by left].
Qed.

(** A decode always leaves the reply to be sent from its first byte. *)
Lemma decode_cursor (t : spi) (s : St) : spi_tx_cursor (decode_and_dispatch t s).1 = 0.
Proof.
  unfold decode_and_dispatch, drain_rewind. cbv zeta.
  repeat (case_match; simplify_eq/=; try done).
Qed.

Lemma spi_transaction_inv bytes (t : spi) (s : St) :
  bytes_ok bytes -> spi_inv t -> spi_inv (spi_transaction bytes t s).1.
Proof.
  intros Hb Hi. unfold spi_transaction, spi_slave_cs_high. apply decode_inv.
  assert (Hl : spi_inv (spi_slave_cs_low t)) by (apply (spi_exec_inv CsLow (t, s)); done).
  revert Hl. generalize (spi_slave_cs_low t). induction Hb as [| v bytes Hv _ IH]; intros t' Ht; [done |].
  cbn [foldl]. apply IH. rewrite <- (u8_id v Hv). by apply (spi_exec_inv (RxByte v) (t', s)).
Qed.

Lemma spi_transaction_cursor bytes (t : spi) (s : St) : spi_tx_cursor (spi_transaction bytes t s).1 = 0.
Proof. apply decode_cursor. Qed.

(** Buffer safety over every call sequence: whatever the order of edges,
    bytes, faults and reads, the receive and reply indices stay inside their
    69-byte arrays and the staged reply is empty or a CRC-valid envelope. *)
Theorem spi_inv_reachable (calls : list spi_call) (t : spi) (s : St) :
  spi_inv (foldl (fun x c => spi_exec c x) (transport_spi_init t, s) calls).1.
Proof.
  assert (Hgen : forall calls (x : spi * St), spi_inv x.1 -> spi_inv (foldl (fun x c => spi_exec c x) x calls).1).
  { clear t s calls. intros calls. induction calls as [| c calls IH]; intros x Hi; simpl; [done |].
    by apply IH, spi_exec_inv. }
  apply Hgen. cbn [fst]. split; simpl; unfold spi_rx_len, spi_tx_len, SPI_DRAIN_REWIND_BOUND; simpl; rewrite ?spi_max; try lia;
    [apply Forall_nil_2 | by left].
Qed.
End claims.
