(* ===== verification/TransportI2c.v ===== *)
(** * The I2C slave transport: [src/transport_i2c.c]

    Write staging, decode-once dispatch at STOP or repeated START, reply staging
    and the NO_PENDING sentinel.  The command layer is any [Dispatcher].  The
    receive buffer is its valid prefix, the reply buffer its staged prefix. *)

From stdpp Require Import base tactics list numbers option.
From S2P Require Import Prelude Crc Wire Protocol Frame.

Definition GD32_BRIDGE_I2C_REG_CMD : Z := 0x00.
Definition I2C_MAX_WRITE_BYTES : Z := 1 + 1 + GD32_BRIDGE_MAX_PAYLOAD_BYTES + 2.
Definition I2C_MAX_READ_BYTES : Z := 1 + GD32_BRIDGE_MAX_PAYLOAD_BYTES + 2.

(** [bridge_i2c_rx_diag]. *)
Record bridge_i2c_rx_diag := Diag {
  prev_rx_len : Z; fail_rx_len : Z; fail_got_crc : Z; fail_expect_crc : Z; fail_count : Z }.

(** The file's statics. *)
Record i2c := I2c {
  i2c_rx_buf : list Z;
  i2c_tx_buf : list Z;
  i2c_tx_cursor : Z;
  pending_reply_valid : bool;
  frame_rejected : bool;
  i2c_diag : bridge_i2c_rx_diag }.
Definition i2c_rx_len (t : i2c) : Z := Z.of_nat (length (i2c_rx_buf t)).
Definition i2c_tx_len (t : i2c) : Z := Z.of_nat (length (i2c_tx_buf t)).

(** [i2c_tx_buf], length and cursor after staging [frame]. *)
Definition stage (frame : list Z) (t : i2c) : i2c :=
  I2c (i2c_rx_buf t) frame 0 (pending_reply_valid t) (frame_rejected t) (i2c_diag t).

Definition no_pending_frame : list Z := crc_frame [status_code STATUS_NO_PENDING].
Definition stage_no_pending (t : i2c) : i2c := stage no_pending_frame t.
Definition stage_reply (status : Z) (payload : list Z) (t : i2c) : i2c :=
  stage (crc_frame (status :: payload)) t.

Definition i2c_slave_write_start (t : i2c) : i2c :=
  let d := i2c_diag t in
  I2c [] (i2c_tx_buf t) (i2c_tx_cursor t) false false
    (Diag (u16 (i2c_rx_len t)) (fail_rx_len d) (fail_got_crc d) (fail_expect_crc d) (fail_count d)).

Definition i2c_slave_tx_abort (t : i2c) : i2c :=
  I2c (i2c_rx_buf t) [] 0 (pending_reply_valid t) (frame_rejected t) (i2c_diag t).

Definition i2c_slave_rx_byte (v : Z) (t : i2c) : i2c :=
  if i2c_rx_len t <? I2C_MAX_WRITE_BYTES
  then I2c (i2c_rx_buf t ++ [v]) (i2c_tx_buf t) (i2c_tx_cursor t) (pending_reply_valid t)
         (frame_rejected t) (i2c_diag t)
  else t.

(** [frame_rejected = true] with the diagnostics of the failure. *)
Definition reject (d : bridge_i2c_rx_diag) (t : i2c) : i2c :=
  stage_no_pending (I2c (i2c_rx_buf t) (i2c_tx_buf t) (i2c_tx_cursor t) (pending_reply_valid t) true d).

Section i2c.
Context {St : Type} `{Dispatcher St}.

Definition i2c_slave_write_end (t : i2c) (s : St) : i2c * St * bool :=
  if pending_reply_valid t || frame_rejected t then
    let t := if frame_rejected t || (i2c_tx_len t <=? i2c_tx_cursor t) then stage_no_pending t else t in
    (t, s, pending_reply_valid t)
  else
    let rx := i2c_rx_buf t in
    let d := i2c_diag t in
    if (i2c_rx_len t <? 4) || negb (rx.[0] =? GD32_BRIDGE_I2C_REG_CMD) then
      let d :=
        if negb (i2c_rx_len t =? 0)
        then Diag (prev_rx_len d) (u16 (i2c_rx_len t)) (fail_got_crc d) (fail_expect_crc d)
               (u32 (fail_count d + 1))
        else d in
      (reject d t, s, false)
    else
      let payload_len := Z.to_nat (i2c_rx_len t - 4) in
      let got_crc := le16 (drop (2 + payload_len) rx) in
      let expect_crc := crc16_ccitt_false (take (1 + payload_len) (drop 1 rx)) in
      if negb (got_crc =? expect_crc) then
        (reject (Diag (prev_rx_len d) (u16 (i2c_rx_len t)) got_crc expect_crc (u32 (fail_count d + 1))) t,
         s, false)
      else
        let '(s, r) := dispatch GD32_BRIDGE_LINK_I2C rx.[1] (take payload_len (drop 2 rx))
                         GD32_BRIDGE_MAX_PAYLOAD_BYTES s in
        let t := stage_reply (status_code r.1) (reply_payload r) t in
        (I2c (i2c_rx_buf t) (i2c_tx_buf t) (i2c_tx_cursor t) true (frame_rejected t) (i2c_diag t),
         s, true).

Definition i2c_slave_tx_next_byte (t : i2c) : i2c * Z :=
  let t := if negb (pending_reply_valid t) && (i2c_tx_cursor t =? 0) then stage_no_pending t else t in
  if i2c_tx_cursor t <? i2c_tx_len t
  then (I2c (i2c_rx_buf t) (i2c_tx_buf t) (i2c_tx_cursor t + 1) (pending_reply_valid t)
          (frame_rejected t) (i2c_diag t),
        (i2c_tx_buf t).[i2c_tx_cursor t])
  else (t, 0xFF).

Definition transport_i2c_init (t : i2c) : i2c := I2c [] [] 0 false false (i2c_diag t).

(** The write phase of one addressed write: START, then the bytes. *)
Definition i2c_write (bytes : list Z) (t : i2c) : i2c :=
  foldl (fun t v => i2c_slave_rx_byte v t) (i2c_slave_write_start t) bytes.

(** [n] bytes clocked out by the host. *)
Fixpoint i2c_read (n : nat) (t : i2c) : i2c * list Z :=
  match n with
  | O => (t, [])
  | S n =>
      let '(t, v) := i2c_slave_tx_next_byte t in
      let '(t, l) := i2c_read n t in (t, v :: l)
  end.

(** The seam calls, in any order. *)
Inductive i2c_call := WriteStart | RxByte (v : Z) | WriteEnd | TxNextByte | TxAbort | Init.

Definition i2c_exec (c : i2c_call) (x : i2c * St) : i2c * St :=
  match c with
  | WriteStart => (i2c_slave_write_start x.1, x.2)
  | RxByte v => (i2c_slave_rx_byte (u8 v) x.1, x.2)
  | WriteEnd => (i2c_slave_write_end x.1 x.2).1
  | TxNextByte => ((i2c_slave_tx_next_byte x.1).1, x.2)
  | TxAbort => (i2c_slave_tx_abort x.1, x.2)
  | Init => (transport_i2c_init x.1, x.2)
  end.
End i2c.

(** The host's request envelope; the CRC does not cover the register byte. *)
Definition i2c_request (cmd : Z) (payload : list Z) : list Z :=
  GD32_BRIDGE_I2C_REG_CMD :: crc_frame (cmd :: payload).

(** The invariant: buffers within their arrays, the cursor within the staged
    reply, a staged reply empty or CRC-valid, and never both flags at once. *)
Record i2c_inv (t : i2c) : Prop := {
  ii_rx : i2c_rx_len t <= I2C_MAX_WRITE_BYTES;
  ii_rx_bytes : bytes_ok (i2c_rx_buf t);
  ii_tx : i2c_tx_len t <= I2C_MAX_READ_BYTES;
  ii_cursor : 0 <= i2c_tx_cursor t <= i2c_tx_len t;
  ii_flags : pending_reply_valid t = true -> frame_rejected t = false;
  ii_frame : i2c_tx_buf t = [] \/ crc_ok (i2c_tx_buf t) = true }.

(** ** Proof support *)

Lemma i2c_max : I2C_MAX_WRITE_BYTES = 69 /\ I2C_MAX_READ_BYTES = 68.
Proof. done. Qed.

Lemma i2c_rx_bytes_take bytes : forall t : i2c,
  i2c_rx_len t <= I2C_MAX_WRITE_BYTES ->
  foldl (fun t v => i2c_slave_rx_byte v t) t bytes =
  I2c (i2c_rx_buf t ++ take (Z.to_nat (I2C_MAX_WRITE_BYTES - i2c_rx_len t)) bytes)
      (i2c_tx_buf t) (i2c_tx_cursor t) (pending_reply_valid t) (frame_rejected t) (i2c_diag t).
Proof.
  induction bytes as [| v bytes IH]; intros t Ht; simpl.
  { rewrite take_nil, app_nil_r. by destruct t. }
  unfold i2c_slave_rx_byte at 2. destruct (Z.ltb_spec (i2c_rx_len t) I2C_MAX_WRITE_BYTES) as [Hlt | Hge].
  - set (t' := I2c (_ ++ [v]) _ _ _ _ _).
    assert (Hl : i2c_rx_len t' = i2c_rx_len t + 1)
      by (unfold i2c_rx_len, t'; cbn [i2c_rx_buf]; rewrite length_app; simpl; lia).
    rewrite IH by (rewrite Hl; lia). rewrite Hl. simpl.
    replace (Z.to_nat (I2C_MAX_WRITE_BYTES - i2c_rx_len t))
      with (S (Z.to_nat (I2C_MAX_WRITE_BYTES - (i2c_rx_len t + 1)))) by lia.
    simpl. by rewrite <- app_assoc.
  - rewrite IH by done. replace (Z.to_nat (I2C_MAX_WRITE_BYTES - i2c_rx_len t)) with 0%nat by lia. done.
Qed.

(** What an addressed write leaves for the decode: its first 69 bytes, flags clear. *)
Lemma i2c_write_rx bytes t :
  let t' := i2c_write bytes t in
  i2c_rx_buf t' = take 69 bytes /\ pending_reply_valid t' = false /\ frame_rejected t' = false /\
  i2c_tx_buf t' = i2c_tx_buf t /\ i2c_tx_cursor t' = i2c_tx_cursor t.
Proof. unfold i2c_write. rewrite i2c_rx_bytes_take by done. done. Qed.

Lemma stage_inv frame t :
  i2c_inv t -> Z.of_nat (length frame) <= I2C_MAX_READ_BYTES -> crc_ok frame = true -> i2c_inv (stage frame t).
Proof.
  intros Hi Hl Hc. split; simpl; try apply Hi; [done | unfold i2c_tx_len; simpl; lia | by right].
Qed.

Lemma no_pending_inv t : i2c_inv t -> i2c_inv (stage_no_pending t).
Proof. intros Hi. apply stage_inv; [done | done | apply crc_ok_frame]. Qed.

(** Reading a staged reply from the cursor on. *)
Lemma i2c_read_from n : forall t : i2c,
  pending_reply_valid t = true -> 0 <= i2c_tx_cursor t -> i2c_tx_cursor t + Z.of_nat n <= i2c_tx_len t ->
  (i2c_read n t).2 = take n (drop (Z.to_nat (i2c_tx_cursor t)) (i2c_tx_buf t)) /\
  (i2c_read n t).1 = I2c (i2c_rx_buf t) (i2c_tx_buf t) (i2c_tx_cursor t + Z.of_nat n)
                       (pending_reply_valid t) (frame_rejected t) (i2c_diag t).
Proof.
  induction n as [| n IH]; intros t Hp Hc Hl.
  { simpl. rewrite Z.add_0_r. by destruct t. }
  cbn [i2c_read]. unfold i2c_slave_tx_next_byte. rewrite Hp. cbn [negb andb].
  destruct (Z.ltb_spec (i2c_tx_cursor t) (i2c_tx_len t)) as [_ | ]; [| lia].
  set (t' := I2c _ _ _ _ _ _). specialize (IH t').
  destruct (i2c_read n t') as [t'' l]. cbn [fst snd] in *. unfold i2c_tx_len in *. subst t'. simpl in *.
  destruct IH as [-> ->]; [done | lia | lia |]. split; [| f_equal; [lia | done]].
  replace (Z.to_nat (i2c_tx_cursor t + 1)) with (S (Z.to_nat (i2c_tx_cursor t))) by lia.
  unfold at_. destruct (i2c_tx_buf t !! Z.to_nat (i2c_tx_cursor t)) as [v |] eqn:Ev.
  - by rewrite (drop_S _ _ _ Ev).
  - apply lookup_ge_None in Ev. lia.
Qed.

(** ** The properties *)

Section claims.
Context {St : Type} `{DispatcherLaws St}.

Lemma i2c_request_fields cmd payload :
  Z.of_nat (length payload) <= GD32_BRIDGE_MAX_PAYLOAD_BYTES ->
  take 69 (i2c_request cmd payload) = i2c_request cmd payload /\
  length (i2c_request cmd payload) = (length payload + 4)%nat /\
  (i2c_request cmd payload).[0] = GD32_BRIDGE_I2C_REG_CMD /\ (i2c_request cmd payload).[1] = cmd /\
  take (1 + length payload) (drop 1 (i2c_request cmd payload)) = cmd :: payload /\
  take (length payload) (drop 2 (i2c_request cmd payload)) = payload /\
  le16 (drop (2 + length payload) (i2c_request cmd payload)) = crc16_ccitt_false (cmd :: payload).
Proof.
  rewrite max_payload. intros Hl.
  assert (Hlen : length (i2c_request cmd payload) = (length payload + 4)%nat)
    by (unfold i2c_request; simpl; rewrite length_crc_frame; simpl; lia).
  split; [apply take_ge; lia |]. split; [done |].
  destruct (crc_frame_split (cmd :: payload)) as [Ht Hd]. rewrite length_crc_frame in Ht, Hd.
  simpl length in Ht, Hd. replace (S (length payload) + 2 - 2)%nat with (1 + length payload)%nat in Ht, Hd by lia.
  unfold i2c_request. set (f := crc_frame _) in *.
  assert (Hf : exists tl, f = cmd :: payload ++ tl).
  { exists (drop (1 + length payload) f). rewrite <- (take_drop (1 + length payload) f) at 1. by rewrite Ht. }
  destruct Hf as [tl Hf]. split; [done |]. split; [by rewrite Hf |]. split; [done |].
  split; [rewrite Hf; simpl; apply take_app_length |].
  change (drop (2 + length payload) (GD32_BRIDGE_I2C_REG_CMD :: f)) with (drop (1 + length payload) f).
  rewrite Hd. apply le16_put16_nil, crc16_u16.
Qed.

(** The first end of a well-formed addressed write. *)
Lemma write_end_request (t : i2c) (s : St) cmd payload :
  Z.of_nat (length payload) <= GD32_BRIDGE_MAX_PAYLOAD_BYTES ->
  let t0 := i2c_write (i2c_request cmd payload) t in
  let y := dispatch GD32_BRIDGE_LINK_I2C cmd payload GD32_BRIDGE_MAX_PAYLOAD_BYTES s in
  i2c_slave_write_end t0 s =
    (I2c (i2c_rx_buf t0) (crc_frame (status_code y.2.1 :: reply_payload y.2)) 0 true false (i2c_diag t0),
     y.1, true).
Proof.
  intros Hl t0 y. destruct (i2c_write_rx (i2c_request cmd payload) t) as (Hrx & Hp & Hr & _).
  fold t0 in Hrx, Hp, Hr. destruct (i2c_request_fields cmd payload Hl) as (H69 & Hlen & F0 & F1 & Ft & Fp & Fc).
  rewrite H69 in Hrx. unfold i2c_slave_write_end, i2c_rx_len. rewrite Hp, Hr, Hrx, Hlen. cbn [orb].
  cbv zeta. rewrite F0, F1.
  replace (Z.to_nat (Z.of_nat (length payload + 4) - 4)) with (length payload) by lia.
  rewrite Ft, Fp, Fc, !Z.eqb_refl. cbn [negb].
  destruct (Z.ltb_spec (Z.of_nat (length payload + 4)) 4); [lia |]. cbn [orb].
  fold y. destruct y as [s' r]. unfold stage_reply, stage. cbn [i2c_rx_buf i2c_tx_buf i2c_tx_cursor frame_rejected i2c_diag].
  by rewrite Hrx, Hr.
Qed.

(** After a decode, calls other than a new write (or init) never dispatch. *)
Definition keeps_transaction (c : i2c_call) : bool :=
  match c with WriteStart | Init => false | _ => true end.

Lemma decoded_no_dispatch calls : forall (x : i2c * St),
  pending_reply_valid x.1 || frame_rejected x.1 = true -> forallb keeps_transaction calls = true ->
  (foldl (fun x c => i2c_exec c x) x calls).2 = x.2.
Proof.
  induction calls as [| c calls IH]; intros [t s] Hd Hk; simpl in *; [done |].
  apply andb_prop in Hk as [Hc Hk]. rewrite IH; [| | done].
  - destruct c; try done; simpl. unfold i2c_slave_write_end. by rewrite Hd.
  - destruct c; try done; simpl.
    + unfold i2c_slave_rx_byte. by case_match.
    + unfold i2c_slave_write_end. rewrite Hd. by case_match.
    + unfold i2c_slave_tx_next_byte. by repeat case_match.
Qed.

Lemma write_end_inv (t : i2c) (s : St) : i2c_inv t -> i2c_inv (i2c_slave_write_end t s).1.1.
Proof.
  intros Hi. pose proof (ii_rx_bytes t Hi) as Hb. unfold i2c_slave_write_end.
  assert (Hrej : forall d, pending_reply_valid t = false -> i2c_inv (reject d t)).
  { intros d Hp. apply no_pending_inv. split; simpl; try apply Hi. congruence. }
  destruct (pending_reply_valid t || frame_rejected t) eqn:Hd.
  { simpl. case_match; [by apply no_pending_inv | done]. }
  apply orb_false_iff in Hd as [Hp Hr].
  destruct (_ || _); [by apply Hrej |]. cbv zeta. destruct (negb _); [by apply Hrej |].
  pose proof (dl_reply GD32_BRIDGE_LINK_I2C (i2c_rx_buf t).[1]
    (take (Z.to_nat (i2c_rx_len t - 4)) (drop 2 (i2c_rx_buf t))) GD32_BRIDGE_MAX_PAYLOAD_BYTES s) as Hrep.
  destruct (dispatch _ _ _ _ _) as [s' r]; cbn [fst snd] in Hrep |- *.
  assert (Hmax : Z.of_nat (length (reply_payload r)) <= 65).
  { rewrite <- max_payload. eapply ro_max, Hrep; [by apply Forall_take, Forall_drop | done]. }
  split; simpl; try apply Hi; unfold i2c_tx_len; cbn [i2c_tx_buf]; rewrite ?length_crc_frame.
  - destruct i2c_max as [_ ->]. simpl length. lia.
  - lia.
  - done.
  - right. apply crc_ok_frame.
Qed.

Lemma next_byte_inv (t : i2c) : i2c_inv t -> i2c_inv (i2c_slave_tx_next_byte t).1.
Proof.
  intros Hi. unfold i2c_slave_tx_next_byte.
  assert (Hi' : i2c_inv (if negb (pending_reply_valid t) && (i2c_tx_cursor t =? 0) then stage_no_pending t else t))
    by (case_match; [by apply no_pending_inv | done]).
  set (t' := if negb (pending_reply_valid t) && (i2c_tx_cursor t =? 0) then stage_no_pending t else t) in *.
  clearbody t'. clear Hi t.
  destruct (Z.ltb_spec (i2c_tx_cursor t') (i2c_tx_len t')); [| done].
  pose proof (ii_cursor t' Hi'). split; simpl; try apply Hi'. unfold i2c_tx_len in *; simpl. lia.
Qed.

Lemma write_end_decoded (t : i2c) (s : St) :
  let t' := (i2c_slave_write_end t s).1.1 in pending_reply_valid t' || frame_rejected t' = true.
Proof.
  unfold i2c_slave_write_end. destruct (pending_reply_valid t || frame_rejected t) eqn:Hd.
  { cbn [fst]. by case_match. }
  destruct ((i2c_rx_len t <? 4) || _); [apply orb_true_r |]. cbv zeta.
  destruct (negb (le16 _ =? _)); [apply orb_true_r |]. by destruct (dispatch _ _ _ _ _).
Qed.

(** Exactly-once dispatch: however often the write-end, read and abort
    seams run after the end of one addressed write, in any order and whether
    the frame was accepted or rejected, the command layer is not entered again
    until the next write begins. *)
Theorem i2c_dispatch_once (t : i2c) (s : St) (calls : list i2c_call) :
  forallb keeps_transaction calls = true ->
  let x := i2c_exec WriteEnd (t, s) in
  (foldl (fun x c => i2c_exec c x) x calls).2 = x.2.
Proof.
  intros Hk x. apply decoded_no_dispatch; [| done]. apply write_end_decoded.
Qed.

(** Request and reply round trip: an addressed write of the envelope of
    [cmd] and [payload] dispatches exactly that; the read returns the CRC
    envelope of the result, also when it is interrupted after [k] bytes and the
    STOP handler runs the write-end seam in between; and once it is drained a
    further read gets the NO_PENDING envelope. *)
Theorem i2c_request_round_trip (t : i2c) (s : St) (cmd : Z) (payload : list Z) (k : nat) :
  i2c_inv t -> is_byte cmd -> bytes_ok payload ->
  Z.of_nat (length payload) <= GD32_BRIDGE_MAX_PAYLOAD_BYTES ->
  let y := dispatch GD32_BRIDGE_LINK_I2C cmd payload GD32_BRIDGE_MAX_PAYLOAD_BYTES s in
  let frame := crc_frame (status_code y.2.1 :: reply_payload y.2) in
  let n := length frame in
  (k < n)%nat ->
  let '(t1, s1, ok) := i2c_slave_write_end (i2c_write (i2c_request cmd payload) t) s in
  let '(t2, l1) := i2c_read k t1 in
  let '(t3, s3, _) := i2c_slave_write_end t2 s1 in
  let '(t4, l2) := i2c_read (n - k) t3 in
  let '(t5, s5, _) := i2c_slave_write_end t4 s3 in
  ok = true /\ s1 = y.1 /\ s5 = y.1 /\ l1 ++ l2 = frame /\
  (i2c_read 3 t5).2 = no_pending_frame.
Proof.
  intros Hi Hc Hp Hl y frame n Hk. rewrite (write_end_request t s cmd payload Hl). fold y frame.
  set (t1 := I2c _ frame 0 true false _).
  destruct (i2c_read_from k t1) as [Hr1 Ht1]; [done | done | unfold i2c_tx_len; simpl; lia |].
  destruct (i2c_read k t1) as [t2 l1]; cbn [fst snd] in Hr1, Ht1.
  assert (E2 : i2c_slave_write_end t2 y.1 = (t2, y.1, true)).
  { rewrite Ht1. unfold i2c_slave_write_end, i2c_tx_len, t1. simpl.
    destruct (Z.leb_spec (Z.of_nat (length frame)) (0 + Z.of_nat k)); [lia | done]. }
  rewrite E2. destruct (i2c_read_from (n - k) t2) as [Hr2 Ht2];
    [by rewrite Ht1 | rewrite Ht1; simpl; lia | rewrite Ht1; unfold i2c_tx_len; simpl; lia |].
  destruct (i2c_read (n - k) t2) as [t4 l2]; cbn [fst snd] in Hr2, Ht2.
  assert (E4 : i2c_slave_write_end t4 y.1 = (stage_no_pending t4, y.1, true)).
  { rewrite Ht2, Ht1. unfold i2c_slave_write_end, i2c_tx_len, t1. simpl.
    destruct (Z.leb_spec (Z.of_nat (length frame)) (0 + Z.of_nat k + Z.of_nat (n - k))); [done | lia]. }
  rewrite E4. split; [done |]. split; [done |]. split; [done |]. split.
  - rewrite Hr1, Hr2, Ht1. cbn [i2c_tx_cursor i2c_tx_buf t1]. rewrite drop_0.
    rewrite Z.add_0_l, Nat2Z.id, (take_ge (drop k frame)) by (rewrite length_drop; lia). apply take_drop.
  - destruct (i2c_read_from 3 (stage_no_pending t4)) as [-> _]; [by rewrite Ht2, Ht1 | done | done |].
    cbn [stage_no_pending stage i2c_tx_cursor i2c_tx_buf]. rewrite drop_0. by apply take_ge.
Qed.

Lemma read_no_pending (t : i2c) :
  pending_reply_valid t = false -> i2c_tx_buf t = no_pending_frame -> i2c_tx_cursor t = 0 ->
  (i2c_read 3 t).2 = no_pending_frame.
Proof.
  intros Hp Hb Hc. assert (Hf : exists a b c, no_pending_frame = [a; b; c]) by (do 3 eexists; by vm_compute).
  destruct Hf as (a & b & c & Hf). rewrite Hf in *.
  cbn [i2c_read]. unfold i2c_slave_tx_next_byte, i2c_tx_len, stage_no_pending, stage.
  rewrite Hp, Hc, Hf. done.
Qed.

(** Corruption never executes: if any one byte of a request envelope is
    changed on the wire -- the register byte included -- nothing is dispatched,
    the write reports failure and the read returns the NO_PENDING envelope. *)
Theorem i2c_corrupt_not_dispatched (t : i2c) (s : St) (cmd : Z) (payload : list Z) (i : nat) (x y : Z) :
  is_byte cmd -> bytes_ok payload -> Z.of_nat (length payload) <= GD32_BRIDGE_MAX_PAYLOAD_BYTES ->
  i2c_request cmd payload !! i = Some x -> is_byte y -> x <> y ->
  let '(t1, s1, ok) := i2c_slave_write_end (i2c_write (<[i := y]> (i2c_request cmd payload)) t) s in
  s1 = s /\ ok = false /\ (i2c_read 3 t1).2 = no_pending_frame.
Proof.
  intros Hc Hp Hl Hi Hy Hne. set (bytes := <[i := y]> _).
  destruct (i2c_write_rx bytes t) as (Hrx & Hpend & Hrej & _). set (t0 := i2c_write bytes t) in *.
  destruct (i2c_request_fields cmd payload Hl) as (_ & Hlen & _). rewrite max_payload in Hl.
  assert (Hblen : length bytes = (length payload + 4)%nat) by (unfold bytes; by rewrite length_insert).
  rewrite take_ge in Hrx by lia.
  assert (Hrej' : forall d, (i2c_read 3 (reject d t0)).2 = no_pending_frame).
  { intros d. apply read_no_pending; [exact Hpend | done | done]. }
  unfold i2c_slave_write_end. rewrite Hpend, Hrej. cbn [orb]. unfold i2c_rx_len. rewrite Hrx, Hblen. cbv zeta.
  destruct ((_ <? 4) || _) eqn:E; [done |]. apply orb_false_iff in E as [_ E%negb_false_iff%Z.eqb_eq].
  replace (Z.to_nat (Z.of_nat (length payload + 4) - 4)) with (length payload) by lia.
  destruct i as [| i].
  { exfalso. unfold bytes, i2c_request in *. simpl in Hi, E. unfold at_ in E. simpl in E. congruence. }
  assert (Hcrc : crc_ok (<[i := y]> (crc_frame (cmd :: payload))) = false).
  { apply crc_ok_one_byte with x; try done. by constructor. }
  unfold crc_ok in Hcrc. rewrite length_insert, length_crc_frame in Hcrc. simpl length in Hcrc.
  replace (S (length payload) + 2 - 2)%nat with (1 + length payload)%nat in Hcrc by lia.
  assert (Hd : drop 1 bytes = <[i := y]> (crc_frame (cmd :: payload))) by done.
  assert (Hd2 : drop (2 + length payload) bytes = drop (1 + length payload) (<[i := y]> (crc_frame (cmd :: payload))))
    by done.
  rewrite Hd, Hd2, Hcrc. cbn [negb]. done.
Qed.

(** Buffer safety over every call sequence: whatever the order of starts,
    bytes, ends, reads and aborts, the indices stay inside their arrays, the
    staged reply is empty or CRC-valid, and an accepted write is never also
    marked rejected. *)
Theorem i2c_inv_reachable (calls : list i2c_call) (t : i2c) (s : St) :
  i2c_inv (foldl (fun x c => i2c_exec c x) (transport_i2c_init t, s) calls).1.
Proof.
  assert (Hinit : forall t, i2c_inv (transport_i2c_init t)).
  { intros t0. split; simpl; unfold i2c_rx_len, i2c_tx_len; simpl; first [done | by left]. }
  assert (Hgen : forall calls x, i2c_inv x.1 -> i2c_inv (foldl (fun x c => i2c_exec c x) x calls).1).
  { clear t s calls. intros calls. induction calls as [| c calls IH]; intros [t s] Hi; simpl; [done |].
    apply IH. destruct c; simpl in *.
    - split; simpl; first [apply Hi | done | by apply Forall_nil_2].
    - unfold i2c_slave_rx_byte. destruct (Z.ltb_spec (i2c_rx_len t) I2C_MAX_WRITE_BYTES); [| done].
      split; simpl; try apply Hi.
      + unfold i2c_rx_len in *; simpl. rewrite length_app; simpl. lia.
      + apply Forall_app; split; [apply Hi | apply Forall_singleton, u8_byte].
    - by apply write_end_inv.
    - by apply next_byte_inv.
    - split; simpl; first [apply Hi | done | by left].
    - apply Hinit. }
  apply Hgen, Hinit.
Qed.
End claims.
