(* ===== verification/SpiBackend.v ===== *)
(** * The SPI interrupt backend: [hal/transport_hw_gd32.c], SPI half

    DMA channel confirmation and arming, the error latch shared by the two DMA
    interrupts and the chip-select handler, and the chip-select handler itself,
    which turns a captured byte run into calls of [TransportSpi]. *)

From stdpp Require Import base tactics list numbers option.
From S2P Require Import Prelude Wire Protocol Frame TransportSpi.

Definition BRIDGE_SPI_DMA_BUF_LEN : Z := 72.
Definition BRIDGE_SPI_DMA_DISABLE_SPINS : nat := 64.
Definition BRIDGE_SPI_RX_FIFO_FRAMES : nat := 4.

(** ** The hardware *)

Inductive dma_ch := rx_ch | tx_ch.

#[export] Instance dma_ch_eq : EqDecision dma_ch.
Proof. solve_decision. Defined.

Inductive spi_op :=
  | dma_channel_disable (c : dma_ch)
  | dma_channel_enable (c : dma_ch)
  | dma_memory_address_config (c : dma_ch)
  | dma_transfer_number_config (c : dma_ch) (n : Z)
  | dma_err_flag_clear (c : dma_ch)
  | dma_rcu_clock_enable | dmamux_rcu_clock_enable
  | dma_deinit (c : dma_ch) | dma_init (c : dma_ch) (n : Z)
  | dma_circulation_disable (c : dma_ch) | dma_memory_to_memory_disable (c : dma_ch)
  | dmamux_synchronization_disable (c : dma_ch)
  | dma_err_interrupt_enable (c : dma_ch) | dma_nvic_irq_enable (c : dma_ch)
  | spi_rcu_clock_enable | spi_gpio_init
  | rcu_spi_reset_enable | rcu_spi_reset_disable
  | spi_init_slave | spi_fifo_byte_access | spi_dma_enable (c : dma_ch) | spi_enable
  | dsb
  | syscfg_rcu_clock_enable | syscfg_exti_line_config | exti_init_both_edges | exti_flag_clear
  | cs_nvic_irq_enable
  | exti_pd0_write (v : Z).

Inductive spi_reg :=
  | exti_pd0 | nss_level
  | dma_chen (c : dma_ch)
  | dma_err_flag (c : dma_ch)
  | dma_rx_remaining
  | rx_dma_byte (i : Z)
  | spi_rxorerr | spi_rbne | spi_data.

(** The peripherals: any effect of a write, any answer to a read.  The receive
    buffer is memory the DMA owns, so reading it is a register read. *)
Class SpiSlaveHw (H : Type) := {
  spi_do : H -> spi_op -> H;
  spi_read : H -> spi_reg -> Z * H }.

(** The file's statics.  The last two fields are ghosts no branch reads: the
    bytes the transmit channel was last enabled over, until it is next seen
    disabled, and whether the receive channel is armed over the whole buffer. *)
Record spi_hw := SpiHw {
  spi_dma_rx_error_count : Z;
  spi_dma_tx_error_count : Z;
  spi_dma_error_pending : bool;
  spi_dma_rx_arm_fail_count : Z;
  spi_dma_tx_arm_fail_count : Z;
  spi_tx_dma_buf : list Z;
  g_tx_armed : option (list Z);
  g_rx_armed : bool }.

Definition set_errors (rx tx : Z) (pending : bool) (x : spi_hw) : spi_hw :=
  SpiHw rx tx pending (spi_dma_rx_arm_fail_count x) (spi_dma_tx_arm_fail_count x) (spi_tx_dma_buf x)
    (g_tx_armed x) (g_rx_armed x).

Definition count_error (c : dma_ch) (x : spi_hw) : spi_hw :=
  match c with
  | rx_ch => set_errors (u32 (spi_dma_rx_error_count x + 1)) (spi_dma_tx_error_count x)
               (spi_dma_error_pending x) x
  | tx_ch => set_errors (spi_dma_rx_error_count x) (u32 (spi_dma_tx_error_count x + 1))
               (spi_dma_error_pending x) x
  end.

Definition set_pending (b : bool) (x : spi_hw) : spi_hw :=
  set_errors (spi_dma_rx_error_count x) (spi_dma_tx_error_count x) b x.

(** [spi_dma_arm_record_confirm_fail] on the counter of channel [c]. *)
Definition spi_dma_arm_record_confirm_fail (c : dma_ch) (x : spi_hw) : spi_hw :=
  let one d := if decide (c = d) then 1 else 0 in
  SpiHw (spi_dma_rx_error_count x) (spi_dma_tx_error_count x) true
    (u32 (spi_dma_rx_arm_fail_count x + one rx_ch)) (u32 (spi_dma_tx_arm_fail_count x + one tx_ch))
    (spi_tx_dma_buf x) (g_tx_armed x) (g_rx_armed x).

Definition set_tx (buf : list Z) (armed : option (list Z)) (x : spi_hw) : spi_hw :=
  SpiHw (spi_dma_rx_error_count x) (spi_dma_tx_error_count x) (spi_dma_error_pending x)
    (spi_dma_rx_arm_fail_count x) (spi_dma_tx_arm_fail_count x) buf armed (g_rx_armed x).

Definition set_rx_armed (b : bool) (x : spi_hw) : spi_hw :=
  SpiHw (spi_dma_rx_error_count x) (spi_dma_tx_error_count x) (spi_dma_error_pending x)
    (spi_dma_rx_arm_fail_count x) (spi_dma_tx_arm_fail_count x) (spi_tx_dma_buf x) (g_tx_armed x) b.

(** Ghost: channel [c] was seen disabled. *)
Definition note_disabled (c : dma_ch) (x : spi_hw) : spi_hw :=
  match c with rx_ch => set_rx_armed false x | tx_ch => set_tx (spi_tx_dma_buf x) None x end.

Section hardware.
Context {H : Type} `{!SpiSlaveHw H}.

Definition spi_dos (h : H) (ops : list spi_op) : H := foldl spi_do h ops.

(** ** The error latch *)

Definition spi_dma_latch_error (h : H) (x : spi_hw) (c : dma_ch) : H * spi_hw :=
  let '(flag, h) := spi_read h (dma_err_flag c) in
  if flag =? 0 then (h, x)
  else (spi_do h (dma_err_flag_clear c), set_pending true (count_error c x)).

Definition spi_dma_error_consume (h : H) (x : spi_hw) : bool * H * spi_hw :=
  let '(h, x) := spi_dma_latch_error h x rx_ch in
  let '(h, x) := spi_dma_latch_error h x tx_ch in
  if negb (spi_dma_error_pending x) then (false, h, x) else (true, h, set_pending false x).

(** ** Channel arming *)

(** The bounded wait for CHEN to read clear. *)
Fixpoint wait_disabled (fuel : nat) (c : dma_ch) (h : H) : bool * H :=
  match fuel with
  | O => (false, h)
  | S fuel => let '(v, h) := spi_read h (dma_chen c) in
              if v =? 0 then (true, h) else wait_disabled fuel c h
  end.

Definition spi_dma_disable_confirm (h : H) (c : dma_ch) : bool * H :=
  wait_disabled BRIDGE_SPI_DMA_DISABLE_SPINS c (spi_do h (dma_channel_disable c)).

(** A confirmation with its ghost update. *)
Definition confirm (h : H) (x : spi_hw) (c : dma_ch) : bool * H * spi_hw :=
  let '(ok, h) := spi_dma_disable_confirm h c in
  (ok, h, if (ok : bool) then note_disabled c x else x).

Definition spi_dma_arm_rx (h : H) (x : spi_hw) : bool * H * spi_hw :=
  let '(ok, h, x) := confirm h x rx_ch in
  if negb ok then (false, h, spi_dma_arm_record_confirm_fail rx_ch x)
  else
    (true, spi_dos h [dma_memory_address_config rx_ch;
                      dma_transfer_number_config rx_ch BRIDGE_SPI_DMA_BUF_LEN;
                      dma_channel_enable rx_ch], set_rx_armed true x).

Definition spi_dma_arm_tx (h : H) (x : spi_hw) (len : Z) : bool * H * spi_hw :=
  let '(ok, h, x) := confirm h x tx_ch in
  if negb ok then (false, h, spi_dma_arm_record_confirm_fail tx_ch x)
  else if len =? 0 then (true, h, x)
  else
    (true, spi_dos h [dma_memory_address_config tx_ch; dma_transfer_number_config tx_ch len;
                      dma_channel_enable tx_ch],
     set_tx (spi_tx_dma_buf x) (Some (take (Z.to_nat len) (spi_tx_dma_buf x))) x).

Definition bridge_spi_periph_config (h : H) : H :=
  spi_dos h [spi_init_slave; spi_fifo_byte_access; spi_dma_enable rx_ch; spi_dma_enable tx_ch; spi_enable].

(** The flush: the reset pulse and the configuration it clears. *)
Definition spi_flush (h : H) : H :=
  bridge_spi_periph_config (spi_dos h [rcu_spi_reset_enable; rcu_spi_reset_disable]).

Definition spi_dma_init (h : H) : H :=
  spi_dos h
    ([dma_rcu_clock_enable; dmamux_rcu_clock_enable;
      dma_deinit rx_ch; dma_init rx_ch BRIDGE_SPI_DMA_BUF_LEN; dma_circulation_disable rx_ch;
      dma_memory_to_memory_disable rx_ch; dmamux_synchronization_disable rx_ch;
      dma_err_flag_clear rx_ch; dma_err_interrupt_enable rx_ch;
      dma_deinit tx_ch; dma_init tx_ch 0; dma_circulation_disable tx_ch;
      dma_memory_to_memory_disable tx_ch; dmamux_synchronization_disable tx_ch;
      dma_err_flag_clear tx_ch; dma_err_interrupt_enable tx_ch;
      dma_nvic_irq_enable tx_ch; dma_nvic_irq_enable rx_ch]).

Definition spi_cs_exti_init (h : H) : H :=
  spi_dos h [syscfg_rcu_clock_enable; syscfg_exti_line_config; exti_init_both_edges; exti_flag_clear;
             cs_nvic_irq_enable].

Definition bridge_transport_spi_hw_init (h : H) (x : spi_hw) : H * spi_hw :=
  let h := spi_dos h [spi_rcu_clock_enable; spi_gpio_init] in
  let x := SpiHw 0 0 false 0 0 (spi_tx_dma_buf x) (g_tx_armed x) (g_rx_armed x) in
  let h := bridge_spi_periph_config (spi_dma_init h) in
  let '(_, h, x) := spi_dma_arm_rx h x in
  (spi_cs_exti_init h, x).

(** ** Capture *)

(** The first bytes of the receive buffer. *)
Fixpoint rx_bytes (n : nat) (i : Z) (h : H) : list Z * H :=
  match n with
  | O => ([], h)
  | S n =>
      let '(v, h) := spi_read h (rx_dma_byte i) in
      let '(l, h) := rx_bytes n (i + 1) h in (u8 v :: l, h)
  end.

(** The tail the FIFO still holds: at most [n] bytes into [room] places. *)
Fixpoint fifo_tail (n room : nat) (h : H) : list Z * H :=
  match n, room with
  | S n, S room =>
      let '(rbne, h) := spi_read h spi_rbne in
      if rbne =? 0 then ([], h)
      else
        let '(v, h) := spi_read h spi_data in
        let '(l, h) := fifo_tail n room h in (u8 v :: l, h)
  | _, _ => ([], h)
  end.

(** What the DMA deposited, then the FIFO's tail.  The source copies the
    deposited bytes out of the buffer a little later, after the flush; the
    channel is stopped, so the buffer cannot change in between. *)
Definition captured_run (h : H) : list Z * H :=
  let '(remaining, h) := spi_read (spi_do h dsb) dma_rx_remaining in
  let remaining := u32 remaining in
  let received :=
    if remaining <=? BRIDGE_SPI_DMA_BUF_LEN then BRIDGE_SPI_DMA_BUF_LEN - remaining else 0 in
  let '(tail, h) :=
    fifo_tail BRIDGE_SPI_RX_FIFO_FRAMES (Z.to_nat (BRIDGE_SPI_DMA_BUF_LEN - received)) h in
  let '(head, h) := rx_bytes (Z.to_nat received) 0 h in
  (head ++ tail, h).

End hardware.

(** What the first half of the rising edge finds. *)
Inductive capture := Unquiesced | Faulted | Captured (bytes : list Z).

Section handler.
Context {H St : Type} `{!SpiSlaveHw H} `{Dispatcher St}.

(** [while (pending && reply_len < 72) spi_tx_dma_buf[reply_len++] = next byte]. *)
Fixpoint fill_tx (fuel : nat) (n : Z) (t : spi) (buf : list Z) : spi * Z * list Z :=
  match fuel with
  | O => (t, n, buf)
  | S fuel =>
      if spi_slave_tx_pending t && (n <? BRIDGE_SPI_DMA_BUF_LEN) then
        let '(t, v) := spi_slave_tx_next_byte t in
        fill_tx fuel (n + 1) t (<[Z.to_nat n := v]> buf)
      else (t, n, buf)
  end.

(** The drain into the flat buffer, which needs [reply_len] to start at zero. *)
Definition drain_reply (x : spi_hw) (t : spi) : spi * Z * spi_hw :=
  let '(t, n, buf) := fill_tx (Z.to_nat BRIDGE_SPI_DMA_BUF_LEN) 0 t (spi_tx_dma_buf x) in
  (t, n, set_tx buf (g_tx_armed x) x).

(** The rising edge up to the decision what to do with the byte run. *)
Definition cs_capture (h : H) (x : spi_hw) : capture * H * spi_hw :=
  let '(rx_quiesced, h, x) := confirm h x rx_ch in
  let '(tx_quiesced, h, x) := confirm h x tx_ch in
  if negb rx_quiesced || negb tx_quiesced then (Unquiesced, h, x)
  else
    let '(ovr, h) := spi_read h spi_rxorerr in
    let rx_overrun := negb (ovr =? 0) in
    let '(dma_error, h, x) := spi_dma_error_consume h x in
    if dma_error || rx_overrun then (Faulted, h, x)
    else let '(bytes, h) := captured_run h in (Captured bytes, h, x).

Definition cs_rising (h : H) (x : spi_hw) (t : spi) (s : St) : H * spi_hw * spi * St :=
  let '(c, h, x) := cs_capture h x in
  let h := spi_flush h in
  match c with
  | Unquiesced => (h, x, spi_slave_cs_low t, s)
  | Faulted =>
      let t := spi_slave_transport_error t s in
      let '(t, reply_len, x) := drain_reply x t in
      let '(_, h, x) := spi_dma_arm_rx h x in
      let '(_, h, x) := spi_dma_arm_tx h x reply_len in
      (h, x, t, s)
  | Captured bytes =>
      let t := foldl (fun t v => spi_slave_rx_byte v t) (spi_slave_cs_low t) bytes in
      let '(_, h, x) := spi_dma_arm_rx h x in
      let '(t, s) := spi_slave_cs_high t s in
      let '(t, reply_len, x) := drain_reply x t in
      let '(_, h, x) := spi_dma_arm_tx h x reply_len in
      (h, x, t, s)
  end.

Definition cs_falling (h : H) (x : spi_hw) (t : spi) : H * spi_hw * spi :=
  let t := spi_slave_cs_low t in
  let '(_, h, x) := spi_dma_arm_rx h x in
  (h, x, t).

Definition BRIDGE_SPI_CS_EXTI_HANDLER (h : H) (x : spi_hw) (t : spi) (s : St)
    : H * spi_hw * spi * St :=
  let '(pd, h) := spi_read h exti_pd0 in
  let group_pd := Z.land pd 0x000003E0 in
  let '(h, x, t, s) :=
    if negb (Z.land group_pd (Z.shiftl 1 8) =? 0) then
      let '(nss, h) := spi_read h nss_level in
      if nss =? 0 then let '(h, x, t) := cs_falling h x t in (h, x, t, s)
      else cs_rising h x t s
    else (h, x, t, s) in
  (spi_do h (exti_pd0_write group_pd), x, t, s).

End handler.

(** ** Interrupts

    The DMA error interrupts run below the chip-select interrupt, so the latter
    may run between any two memory accesses of a latch. *)

Inductive irq_pc :=
  | irq_idle
  | irq_seen (c : dma_ch)
  | irq_cleared (c : dma_ch)
  | irq_loaded (c : dma_ch) (count : Z)
  | irq_counted (c : dma_ch).

Definition error_count (c : dma_ch) (x : spi_hw) : Z :=
  match c with rx_ch => spi_dma_rx_error_count x | tx_ch => spi_dma_tx_error_count x end.

Definition store_count (c : dma_ch) (n : Z) (x : spi_hw) : spi_hw :=
  match c with
  | rx_ch => set_errors n (spi_dma_tx_error_count x) (spi_dma_error_pending x) x
  | tx_ch => set_errors (spi_dma_rx_error_count x) n (spi_dma_error_pending x) x
  end.

(** One access of [DMA0_Channel2_IRQHandler] (transmit) or
    [DMA0_Channel3_IRQHandler] (receive), both [spi_dma_latch_error]. *)
Definition irq_step {H} `{!SpiSlaveHw H} (c : dma_ch) (h : H) (pc : irq_pc) (x : spi_hw)
    : H * irq_pc * spi_hw :=
  match pc with
  | irq_idle =>
      let '(flag, h) := spi_read h (dma_err_flag c) in
      (h, if flag =? 0 then irq_idle else irq_seen c, x)
  | irq_seen c => (spi_do h (dma_err_flag_clear c), irq_cleared c, x)
  | irq_cleared c => (h, irq_loaded c (error_count c x), x)
  | irq_loaded c n => (h, irq_counted c, store_count c (u32 (n + 1)) x)
  | irq_counted c => (h, irq_idle, set_pending true x)
  end.

Fixpoint irq_run {H} `{!SpiSlaveHw H} (n : nat) (c : dma_ch) (h : H) (pc : irq_pc) (x : spi_hw)
    : H * irq_pc * spi_hw :=
  match n with
  | O => (h, pc, x)
  | S n => let '(h, pc, x) := irq_step c h pc x in irq_run n c h pc x
  end.

(** Unpreempted, the accesses are the latch. *)
Lemma irq_run_latch {H} `{!SpiSlaveHw H} c (h : H) x :
  (spi_read h (dma_err_flag c)).1 <> 0 ->
  irq_run 5 c h irq_idle x =
  (let '(h', x') := spi_dma_latch_error h x c in (h', irq_idle, x')).
Proof.
  intros Hf. unfold spi_dma_latch_error. cbn [irq_run irq_step].
  destruct (spi_read h (dma_err_flag c)) as [flag h1]. cbn [fst] in Hf.
  destruct (Z.eqb_spec flag 0); [done |]. cbn [irq_run irq_step]. by destruct c.
Qed.

(** The whole system: the file's statics, the transport, the command layer and
    the interrupt being served.  [be_other] is everything else that runs. *)
Record backend (St : Type) := Backend {
  be_hw : spi_hw; be_t : spi; be_s : St; be_irq : irq_pc }.
Arguments Backend {St}. Arguments be_hw {St}. Arguments be_t {St}. Arguments be_s {St}. Arguments be_irq {St}.

Inductive be_step {H St} `{!SpiSlaveHw H} `{Dispatcher St} : backend St -> backend St -> Prop :=
  | be_cs (h : H) x t s pc :
      be_step (Backend x t s pc)
        (let '(_, x', t', s') := BRIDGE_SPI_CS_EXTI_HANDLER h x t s in Backend x' t' s' pc)
  | be_irq_step (h : H) c x t s pc :
      be_step (Backend x t s pc) (let '(_, pc', x') := irq_step c h pc x in Backend x' t s pc')
  | be_other x t s s' pc : be_step (Backend x t s pc) (Backend x t s' pc).

Definition spi_hw0 : spi_hw :=
  SpiHw 0 0 false 0 0 (replicate (Z.to_nat BRIDGE_SPI_DMA_BUF_LEN) 0) None false.

Inductive be_reachable {H St} `{!SpiSlaveHw H} `{Dispatcher St} : backend St -> Prop :=
  | be_init (h : H) t s :
      be_reachable (Backend (bridge_transport_spi_hw_init h spi_hw0).2 (transport_spi_init t) s irq_idle)
  | be_next y y' : be_reachable y -> be_step (H := H) y y' -> be_reachable y'.

(** ** Draining *)

(** The flat buffer starts with [l]. *)
Definition starts_with (l buf : list Z) : Prop := take (length l) buf = l.

Lemma fill_tx_spec fuel : forall n (t : spi) buf,
  0 <= spi_tx_cursor t <= spi_tx_len t -> n = spi_tx_cursor t ->
  spi_tx_len t <= BRIDGE_SPI_DMA_BUF_LEN -> (Z.to_nat (spi_tx_len t - n) <= fuel)%nat ->
  length buf = Z.to_nat BRIDGE_SPI_DMA_BUF_LEN ->
  take (Z.to_nat n) buf = take (Z.to_nat n) (spi_tx_buf t) ->
  let '(t', n', buf') := fill_tx fuel n t buf in
  t' = Spi (spi_rx_buf t) (spi_tx_buf t) (spi_tx_len t) (spi_drain_streak t) (spi_seq t) /\
  n' = spi_tx_len t /\ length buf' = Z.to_nat BRIDGE_SPI_DMA_BUF_LEN /\ starts_with (spi_tx_buf t) buf'.
Proof.
  unfold BRIDGE_SPI_DMA_BUF_LEN, starts_with.
  induction fuel as [| fuel IH]; intros n t buf Hc -> Hm Hf Hb Ht; cbn [fill_tx].
  - assert (spi_tx_cursor t = spi_tx_len t) as E by lia. rewrite <- E. destruct t; cbn in *.
    unfold spi_tx_len in *; cbn in *. subst. rewrite Nat2Z.id in Ht. split_and!; try done.
    rewrite Ht. by rewrite firstn_all.
  - unfold spi_slave_tx_pending. destruct (Z.ltb_spec (spi_tx_cursor t) (spi_tx_len t)) as [Hlt | Hge]; cbn [andb].
    + unfold BRIDGE_SPI_DMA_BUF_LEN. destruct (Z.ltb_spec (spi_tx_cursor t) 72) as [_ |]; [| lia].
      unfold spi_slave_tx_next_byte. destruct (Z.ltb_spec (spi_tx_cursor t) (spi_tx_len t)) as [_ |]; [| lia].
      set (t' := Spi _ _ _ _ _). specialize (IH (spi_tx_cursor t + 1) t' (<[Z.to_nat (spi_tx_cursor t) := (spi_tx_buf t).[spi_tx_cursor t]]> buf)).
      unfold spi_tx_len in *. cbn [spi_tx_buf spi_tx_cursor t'] in IH.
      destruct (fill_tx _ _ _ _) as [[t2 n2] b2]. apply IH; try lia; [by rewrite length_insert |].
      replace (Z.to_nat (spi_tx_cursor t + 1)) with (S (Z.to_nat (spi_tx_cursor t))) by lia.
      destruct (lookup_lt_is_Some_2 (spi_tx_buf t) (Z.to_nat (spi_tx_cursor t))) as [v Ev]; [lia |].
      unfold at_. rewrite Ev. cbn [default from_option id].
      rewrite (take_S_r _ _ v) by (apply list_lookup_insert_eq; lia).
      rewrite (take_S_r _ _ v Ev). by rewrite take_insert_ge, Ht by lia.
    + assert (spi_tx_cursor t = spi_tx_len t) as E by lia. destruct t; cbn in *.
      unfold spi_tx_len in *; cbn in *. rewrite E in *. rewrite Nat2Z.id in Ht. split_and!; try done.
      rewrite Ht. by rewrite firstn_all.
Qed.

Lemma drain_reply_spec x (t : spi) :
  spi_tx_cursor t = 0 -> spi_tx_len t <= SPI_MAX_FRAME_BYTES ->
  length (spi_tx_dma_buf x) = Z.to_nat BRIDGE_SPI_DMA_BUF_LEN ->
  exists buf, drain_reply x t =
    (Spi (spi_rx_buf t) (spi_tx_buf t) (spi_tx_len t) (spi_drain_streak t) (spi_seq t),
     spi_tx_len t, set_tx buf (g_tx_armed x) x) /\
  length buf = Z.to_nat BRIDGE_SPI_DMA_BUF_LEN /\ starts_with (spi_tx_buf t) buf.
Proof.
  intros Hc Hl Hb. rewrite spi_max in Hl. unfold drain_reply.
  pose proof (fill_tx_spec (Z.to_nat BRIDGE_SPI_DMA_BUF_LEN) 0 t (spi_tx_dma_buf x)) as Hf.
  destruct (fill_tx _ _ _ _) as [[t' n'] buf]. unfold BRIDGE_SPI_DMA_BUF_LEN in *.
  destruct Hf as (-> & -> & Hlen & Hs); first [done | by exists buf | unfold spi_tx_len in *; lia].
Qed.

(** ** The chip-select handler *)

Section handler_facts.
Context {H St : Type} `{!SpiSlaveHw H} `{DispatcherLaws St}.

(** Channel arming touches its own fields only. *)
Definition same_buf (x x' : spi_hw) : Prop := spi_tx_dma_buf x' = spi_tx_dma_buf x.

(** Each arm of a channel either enables it or leaves the failure latched. *)
Lemma arm_rx_spec (h : H) x :
  let '(ok, _, x') := spi_dma_arm_rx h x in
  spi_tx_dma_buf x' = spi_tx_dma_buf x /\ g_tx_armed x' = g_tx_armed x /\
  (if ok : bool then g_rx_armed x' = true /\ spi_dma_error_pending x' = spi_dma_error_pending x
   else spi_dma_error_pending x' = true).
Proof.
  unfold spi_dma_arm_rx, confirm. destruct (spi_dma_disable_confirm h rx_ch) as [[] h1]; cbn; done.
Qed.

Lemma arm_tx_spec (h : H) x len :
  0 <= len ->
  let '(ok, _, x') := spi_dma_arm_tx h x len in
  spi_tx_dma_buf x' = spi_tx_dma_buf x /\ g_rx_armed x' = g_rx_armed x /\
  (if ok : bool then
     g_tx_armed x' = (if len =? 0 then None else Some (take (Z.to_nat len) (spi_tx_dma_buf x))) /\
     spi_dma_error_pending x' = spi_dma_error_pending x
   else g_tx_armed x' = g_tx_armed x /\ spi_dma_error_pending x' = true).
Proof.
  intros Hl. unfold spi_dma_arm_tx, confirm. destruct (spi_dma_disable_confirm h tx_ch) as [[] h1]; cbn; [| done].
  destruct (Z.eqb_spec len 0); done.
Qed.

Lemma latch_spec (h : H) x c :
  let '(_, x') := spi_dma_latch_error h x c in
  spi_tx_dma_buf x' = spi_tx_dma_buf x /\ g_tx_armed x' = g_tx_armed x /\ g_rx_armed x' = g_rx_armed x /\
  (spi_dma_error_pending x = true -> spi_dma_error_pending x' = true).
Proof.
  unfold spi_dma_latch_error. destruct (spi_read h _) as [flag h1]. destruct (flag =? 0); [done |].
  by destruct c.
Qed.

Lemma consume_spec (h : H) x :
  let '(e, _, x') := spi_dma_error_consume h x in
  spi_tx_dma_buf x' = spi_tx_dma_buf x /\ g_tx_armed x' = g_tx_armed x /\ g_rx_armed x' = g_rx_armed x /\
  spi_dma_error_pending x' = false /\ (spi_dma_error_pending x = true -> e = true).
Proof.
  unfold spi_dma_error_consume. pose proof (latch_spec h x rx_ch) as L1.
  destruct (spi_dma_latch_error h x rx_ch) as [h1 x1]. pose proof (latch_spec h1 x1 tx_ch) as L2.
  destruct (spi_dma_latch_error h1 x1 tx_ch) as [h2 x2].
  destruct L1 as (B1 & T1 & R1 & P1), L2 as (B2 & T2 & R2 & P2).
  destruct (spi_dma_error_pending x2) eqn:E; cbn [negb]; cbv beta iota.
  - split_and!; cbn; congruence.
  - split_and!; [congruence | congruence | congruence | done |]. intros Hp. by specialize (P2 (P1 Hp)).
Qed.

(** A captured run is bytes, at most a buffer full. *)
Lemma rx_bytes_spec n : forall i (h : H),
  bytes_ok (rx_bytes n i h).1 /\ length (rx_bytes n i h).1 = n.
Proof.
  induction n as [| n IH]; intros i h; cbn [rx_bytes]; [done |].
  destruct (spi_read h (rx_dma_byte i)) as [v h1]. specialize (IH (i + 1) h1).
  destruct (rx_bytes n (i + 1) h1) as [l h2]. cbn in *. destruct IH as [Hb Hl].
  split; [constructor; [apply u8_byte | done] | lia].
Qed.

Lemma fifo_tail_spec n : forall room (h : H),
  bytes_ok (fifo_tail n room h).1 /\ (length (fifo_tail n room h).1 <= room)%nat.
Proof.
  induction n as [| n IH]; intros room h; [split; [by destruct room | simpl; lia] |].
  destruct room as [| room]; [split; [done | simpl; lia] |]. cbn [fifo_tail].
  destruct (spi_read h spi_rbne) as [rb h1]. destruct (rb =? 0); [split; [done | simpl; lia] |].
  destruct (spi_read h1 spi_data) as [v h2]. specialize (IH room h2).
  destruct (fifo_tail n room h2) as [l h3]. cbn in *. destruct IH as [Hb Hl].
  split; [constructor; [apply u8_byte | done] | lia].
Qed.

Lemma captured_run_spec (h : H) :
  bytes_ok (captured_run h).1 /\ Z.of_nat (length (captured_run h).1) <= BRIDGE_SPI_DMA_BUF_LEN.
Proof.
  unfold captured_run.
  destruct (spi_read (spi_do h dsb) dma_rx_remaining) as [rem h1]. pose proof (u32_u32 rem) as Hpos.
  cbv zeta. set (received := if u32 rem <=? BRIDGE_SPI_DMA_BUF_LEN then BRIDGE_SPI_DMA_BUF_LEN - u32 rem else 0).
  assert (Hr : 0 <= received <= BRIDGE_SPI_DMA_BUF_LEN).
  { unfold received, BRIDGE_SPI_DMA_BUF_LEN, is_u32 in *. destruct (Z.leb_spec (u32 rem) 72); lia. }
  pose proof (fifo_tail_spec BRIDGE_SPI_RX_FIFO_FRAMES (Z.to_nat (BRIDGE_SPI_DMA_BUF_LEN - received)) h1) as Ht.
  destruct (fifo_tail _ _ h1) as [tail h2].
  pose proof (rx_bytes_spec (Z.to_nat received) 0 h2) as Hh. destruct (rx_bytes _ 0 h2) as [head h3].
  cbn [fst] in *. destruct Ht as [Hb1 Hl1], Hh as [Hb2 Hl2].
  split; [by apply Forall_app |]. rewrite length_app. unfold BRIDGE_SPI_DMA_BUF_LEN in *. lia.
Qed.

(** The first half: unless a channel did not stop, both are seen disabled; a
    latched error is never followed by a capture, and is consumed. *)
Lemma cs_capture_spec (h : H) x :
  let '(c, _, x') := cs_capture h x in
  spi_tx_dma_buf x' = spi_tx_dma_buf x /\
  match c with
  | Unquiesced => (g_tx_armed x' = None \/ g_tx_armed x' = g_tx_armed x) /\
                  spi_dma_error_pending x' = spi_dma_error_pending x
  | Faulted => g_tx_armed x' = None /\ spi_dma_error_pending x' = false
  | Captured bytes =>
      g_tx_armed x' = None /\ spi_dma_error_pending x = false /\ spi_dma_error_pending x' = false /\
      bytes_ok bytes /\ Z.of_nat (length bytes) <= BRIDGE_SPI_DMA_BUF_LEN
  end.
Proof.
  unfold cs_capture, confirm.
  destruct (spi_dma_disable_confirm h rx_ch) as [rq h1], (spi_dma_disable_confirm h1 tx_ch) as [tq h2].
  destruct rq, tq; cbn [negb orb].
  2-4: cbn; auto.
  destruct (spi_read h2 spi_rxorerr) as [ovr h3].
  pose proof (consume_spec h3 (note_disabled tx_ch (note_disabled rx_ch x))) as Hc.
  destruct (spi_dma_error_consume _ _) as [[e h4] x4]. destruct Hc as (B & T & R & P & E). cbn in B, T, E.
  destruct (e || negb (ovr =? 0)) eqn:Ee; [done |]. apply orb_false_iff in Ee as [-> _].
  pose proof (captured_run_spec h4) as Hr. destruct (captured_run h4) as [bytes h5]. cbn [fst] in Hr.
  destruct Hr as [Hb Hl]. split_and!; try done.
  destruct (spi_dma_error_pending x); [by specialize (E eq_refl) | done].
Qed.

(** The reply a handler run leaves: staged and drained by the portable layer,
    copied to the flat buffer, and either armed or reported as an error that
    the next rising edge will answer. *)
Record reply_staged (x' : spi_hw) (t' : spi) (frame : list Z) : Prop := {
  rs_staged : spi_tx_buf t' = frame;
  rs_drained : spi_slave_tx_pending t' = false;
  rs_length : length (spi_tx_dma_buf x') = Z.to_nat BRIDGE_SPI_DMA_BUF_LEN;
  rs_copied : starts_with frame (spi_tx_dma_buf x');
  rs_armed : g_tx_armed x' = (if decide (frame = []) then None else Some frame) \/
             g_tx_armed x' = None /\ spi_dma_error_pending x' = true }.

(** Arming the disabled transmit channel over a drained reply. *)
Lemma arm_staged (h : H) x (t : spi) :
  spi_slave_tx_pending t = false -> length (spi_tx_dma_buf x) = Z.to_nat BRIDGE_SPI_DMA_BUF_LEN ->
  starts_with (spi_tx_buf t) (spi_tx_dma_buf x) -> g_tx_armed x = None ->
  let '(_, _, x') := spi_dma_arm_tx h x (spi_tx_len t) in reply_staged x' t (spi_tx_buf t).
Proof.
  intros Hd Hl Hs Hg. pose proof (arm_tx_spec h x (spi_tx_len t) ltac:(unfold spi_tx_len; lia)) as Ha.
  destruct (spi_dma_arm_tx _ _ _) as [[ok h'] x']. destruct Ha as (B & _ & Ha).
  split; [done | done | by rewrite B | by rewrite B |].
  destruct ok; [left | right; destruct Ha; split; congruence]. destruct Ha as [-> _].
  unfold spi_tx_len, starts_with in *. destruct (spi_tx_buf t) as [| v l]; [done |].
  rewrite Nat2Z.id, Hs. by destruct (Z.eqb_spec (Z.of_nat (length (v :: l))) 0).
Qed.

Lemma drained (t : spi) :
  spi_slave_tx_pending (Spi (spi_rx_buf t) (spi_tx_buf t) (spi_tx_len t) (spi_drain_streak t) (spi_seq t)) = false.
Proof. apply Z.ltb_irrefl. Qed.

(** The rising edge on every branch. *)
Lemma rising_spec (h : H) x (t : spi) (s : St) :
  spi_inv t -> length (spi_tx_dma_buf x) = Z.to_nat BRIDGE_SPI_DMA_BUF_LEN ->
  let '(c, _, _) := cs_capture h x in
  let '(_, x', t', s') := cs_rising h x t s in
  match c with
  | Unquiesced => s' = s /\ spi_tx_buf t' = spi_tx_buf t /\ spi_tx_dma_buf x' = spi_tx_dma_buf x
  | Faulted => s' = s /\ reply_staged x' t' (io_envelope (spi_features s) t)
  | Captured bytes =>
      spi_dma_error_pending x = false /\
      s' = (spi_transaction bytes t s).2 /\ reply_staged x' t' (spi_tx_buf (spi_transaction bytes t s).1)
  end.
Proof.
  intros Hi Hb. unfold cs_rising. pose proof (cs_capture_spec h x) as Hc.
  destruct (cs_capture h x) as [[c h1] x1]. destruct Hc as [B Hc].
  assert (Hlow : spi_inv (spi_slave_cs_low t)) by (apply (spi_exec_inv CsLow (t, s)); done).
  destruct c as [| | bytes].
  - split_and!; done.
  - destruct Hc as [Hg _]. set (ti := spi_slave_transport_error t s).
    destruct (drain_reply_spec x1 ti eq_refl (si_tx _ (stage_error_inv _ _ _ Hlow)) ltac:(by rewrite B))
      as (buf & -> & Hlen & Hs).
    pose proof (arm_rx_spec (spi_flush h1) (set_tx buf (g_tx_armed x1) x1)) as Ha.
    destruct (spi_dma_arm_rx (spi_flush h1) _) as [[ok h3] x3]. destruct Ha as (B3 & G3 & _). cbn in B3, G3.
    pose proof (arm_staged h3 x3 _ (drained ti) ltac:(by rewrite B3) ltac:(by rewrite B3) ltac:(by rewrite G3)) as Hst.
    change (spi_tx_len (Spi _ _ _ _ _)) with (spi_tx_len ti) in Hst.
    destruct (spi_dma_arm_tx h3 x3 (spi_tx_len ti)) as [[ok4 h4] x4]. split; [done | exact Hst].
  - destruct Hc as (Hg & Hp & _ & Hby & _).
    pose proof (arm_rx_spec (spi_flush h1) x1) as Ha.
    destruct (spi_dma_arm_rx (spi_flush h1) x1) as [[ok h3] x3]. destruct Ha as (B3 & G3 & _).
    fold (spi_transaction bytes t s).
    pose proof (spi_transaction_inv bytes t s Hby Hi) as Hti. pose proof (spi_transaction_cursor bytes t s) as Hcur.
    unfold spi_transaction in *. destruct (spi_slave_cs_high _ s) as [ti si]. cbn [fst snd] in *.
    destruct (drain_reply_spec x3 ti Hcur (si_tx _ Hti) ltac:(by rewrite B3, B)) as (buf & -> & Hlen & Hs).
    pose proof (arm_staged h3 (set_tx buf (g_tx_armed x3) x3) _ (drained ti) Hlen Hs ltac:(cbn; congruence)) as Hst.
    change (spi_tx_len (Spi _ _ _ _ _)) with (spi_tx_len ti) in Hst.
    destruct (spi_dma_arm_tx h3 _ (spi_tx_len ti)) as [[ok4 h4] x4]. split_and!; [done | done | exact Hst].
Qed.

Lemma rising_tx_inv (h : H) x (t : spi) (s : St) :
  spi_inv t -> let '(_, _, t', _) := cs_rising h x t s in spi_inv t'.
Proof.
  intros Hi. unfold cs_rising. pose proof (cs_capture_spec h x) as Hc.
  destruct (cs_capture h x) as [[c h1] x1]. destruct Hc as [_ Hc].
  assert (Hlow : spi_inv (spi_slave_cs_low t)) by (apply (spi_exec_inv CsLow (t, s)); done).
  assert (Hdr : forall x' t', spi_inv t' -> spi_inv (drain_reply x' t').1.1).
  { intros x' t' Ht. unfold drain_reply. generalize (Z.to_nat BRIDGE_SPI_DMA_BUF_LEN) 0 (spi_tx_dma_buf x').
    intros fuel. revert t' Ht. induction fuel as [| fuel IH]; intros t' Ht n buf; cbn [fill_tx]; [done |].
    destruct (_ && _); [| done]. pose proof (spi_exec_inv TxNextByte (t', s) Ht) as Hn. cbn in Hn.
    destruct (spi_slave_tx_next_byte t') as [t2 v]. by apply IH. }
  destruct c as [| | bytes]; [done | |].
  - pose proof (Hdr x1 (spi_slave_transport_error t s) (stage_error_inv _ _ _ Hlow)) as Hd.
    destruct (drain_reply _ _) as [[t2 n2] x2]. destruct (spi_dma_arm_rx _ x2) as [[ok3 h3] x3].
    by destruct (spi_dma_arm_tx h3 x3 n2) as [[ok4 h4] x4].
  - destruct Hc as (_ & _ & _ & Hby & _). pose proof (spi_transaction_inv bytes t s Hby Hi) as Ht.
    destruct (spi_dma_arm_rx _ x1) as [[ok3 h3] x3]. unfold spi_transaction in Ht.
    destruct (spi_slave_cs_high _ _) as [t4 s4]. pose proof (Hdr x3 t4 Ht) as Hd.
    destruct (drain_reply _ _) as [[t2 n2] x2]. by destruct (spi_dma_arm_tx h3 x2 n2) as [[ok4 h4] x4].
Qed.

(** C18. The chip-select interrupt, whatever the hardware answers.  Every exit
    ends by clearing exactly the lines of its group that were pending at entry.
    A falling edge empties the receive staging and leaves the reply being sent
    alone; the receive channel is armed or the failure is latched.  On a rising
    edge: a channel that does not stop means nothing is decoded and the staged
    reply stays; a DMA error, an overrun or a latched arm failure means nothing
    is dispatched and the STATUS_IO envelope is the reply; otherwise the
    captured bytes are one transaction of the portable layer, independent of
    what a swallowed edge left in its receive buffer.  In the last two cases the
    reply is copied whole and armed, or the failure to arm is latched. *)
Theorem cs_handler_contract (h : H) x (t : spi) (s : St) :
  spi_inv t -> length (spi_tx_dma_buf x) = Z.to_nat BRIDGE_SPI_DMA_BUF_LEN ->
  let '(pd, h1) := spi_read h exti_pd0 in
  let '(nss, h2) := spi_read h1 nss_level in
  let '(c, _, _) := cs_capture h2 x in
  let '(h', x', t', s') := BRIDGE_SPI_CS_EXTI_HANDLER h x t s in
  (exists h3, h' = spi_do h3 (exti_pd0_write (Z.land pd 0x3E0))) /\
  if Z.testbit pd 8 then
    if nss =? 0 then
      s' = s /\ spi_rx_buf t' = [] /\ spi_tx_buf t' = spi_tx_buf t /\ spi_tx_cursor t' = spi_tx_cursor t /\
      spi_tx_dma_buf x' = spi_tx_dma_buf x /\ g_tx_armed x' = g_tx_armed x /\
      (g_rx_armed x' = true \/ spi_dma_error_pending x' = true)
    else
      match c with
      | Unquiesced => s' = s /\ spi_tx_buf t' = spi_tx_buf t /\ spi_tx_dma_buf x' = spi_tx_dma_buf x
      | Faulted => s' = s /\ reply_staged x' t' (io_envelope (spi_features s) t)
      | Captured bytes =>
          spi_dma_error_pending x = false /\
          s' = (spi_transaction bytes t s).2 /\ reply_staged x' t' (spi_tx_buf (spi_transaction bytes t s).1)
      end
  else x' = x /\ t' = t /\ s' = s.
Proof.
  intros Hi Hb. unfold BRIDGE_SPI_CS_EXTI_HANDLER.
  destruct (spi_read h exti_pd0) as [pd h1].
  assert (Hbit : negb (Z.land (Z.land pd 992) (Z.shiftl 1 8) =? 0) = Z.testbit pd 8).
  { rewrite <- Z.land_assoc. change (Z.land 992 (Z.shiftl 1 8)) with (2 ^ 8).
    destruct (Z.testbit pd 8) eqn:E.
    - apply negb_true_iff, Z.eqb_neq. intros Hz. apply (f_equal (fun z => Z.testbit z 8)) in Hz.
      by rewrite Z.land_spec, E, Z.bits_0 in Hz.
    - apply negb_false_iff, Z.eqb_eq, Z.bits_inj'. intros i Hi'. rewrite Z.land_spec, Z.bits_0.
      rewrite Z.pow2_bits_eqb by lia. destruct (Z.eqb_spec 8 i) as [<- |]; [by rewrite E | apply andb_false_r]. }
  change 0x000003E0 with 992. rewrite Hbit. destruct (spi_read h1 nss_level) as [nss h2].
  pose proof (rising_spec h2 x t s Hi Hb) as Hr. destruct (cs_capture h2 x) as [[c h3] x3].
  destruct (Z.testbit pd 8); [| split; [by eexists | done]]. destruct (nss =? 0).
  - unfold cs_falling. pose proof (arm_rx_spec h2 x) as Ha.
    destruct (spi_dma_arm_rx h2 x) as [[ok h4] x4]. destruct Ha as (B & G & Ha).
    split; [by eexists |]. split_and!; try done. destruct ok; [left; apply Ha | by right].
  - destruct (cs_rising h2 x t s) as [[[h4 x4] t4] s4]. split; [by eexists | exact Hr].
Qed.

(** C17. A request on the wire, end to end through the interrupt handler: when the
    captured run is the envelope of a command, exactly that command is
    dispatched, once, and the transmit channel is left armed over the CRC
    envelope of its result, whose status byte splits into code and stamp; only
    a channel that could not be armed is left without, and then the next rising
    edge answers STATUS_IO. *)
Theorem spi_isr_round_trip (h : H) x (t : spi) (s : St) (cmd : Z) (payload : list Z) :
  spi_inv t -> length (spi_tx_dma_buf x) = Z.to_nat BRIDGE_SPI_DMA_BUF_LEN ->
  is_byte cmd -> bytes_ok payload -> Z.of_nat (length payload) <= GD32_BRIDGE_MAX_PAYLOAD_BYTES ->
  (cs_capture h x).1.1 = Captured (spi_request cmd payload) ->
  let y := dispatch GD32_BRIDGE_LINK_SPI cmd payload GD32_BRIDGE_MAX_PAYLOAD_BYTES s in
  let '(_, x', t', s') := cs_rising h x t s in
  s' = y.1 /\
  exists frame, frame = crc_frame (GD32_BRIDGE_SOF :: frame.[1] :: reply_payload y.2) /\
    host_status frame = status_code y.2.1 /\
    host_seq frame =
      (if Z.land (features_of y.1 GD32_BRIDGE_LINK_SPI) GD32_BRIDGE_LINK_FEAT_STATUS_SEQ =? 0 then 0
       else (spi_seq t + 1) mod 16) /\
    (g_tx_armed x' = Some frame \/ g_tx_armed x' = None /\ spi_dma_error_pending x' = true) /\
    starts_with frame (spi_tx_dma_buf x').
Proof.
  intros Hi Hb Hc Hp Hl Hcap y. pose proof (rising_spec h x t s Hi Hb) as Hr.
  destruct (cs_capture h x) as [[c h1] x1]. cbn [fst] in Hcap. subst c.
  destruct (cs_rising h x t s) as [[[h' x'] t'] s']. destruct Hr as (_ & -> & Hst).
  destruct (spi_request_staged t s cmd payload Hi Hc Hp Hl) as (E1 & E2 & E3 & E4 & _). fold y in E1, E2, E3, E4.
  split; [exact E1 |]. exists (spi_tx_buf (spi_transaction (spi_request cmd payload) t s).1).
  split_and!; [exact E2 | exact E3 | exact E4 | | apply (rs_copied _ _ _ Hst)].
  destruct (rs_armed _ _ _ Hst) as [Ha | Ha]; [left | by right]. rewrite Ha. case_decide as Hnil; [| done].
  exfalso. rewrite E2 in Hnil. apply (f_equal length) in Hnil. rewrite length_crc_frame in Hnil. simpl in Hnil. lia.
Qed.

(** ** Reachable states *)

Record be_inv (y : backend St) : Prop := {
  bi_spi : spi_inv (be_t y);
  bi_buf : length (spi_tx_dma_buf (be_hw y)) = Z.to_nat BRIDGE_SPI_DMA_BUF_LEN;
  bi_armed : forall l, g_tx_armed (be_hw y) = Some l ->
    l = spi_tx_buf (be_t y) /\ l <> [] /\ starts_with l (spi_tx_dma_buf (be_hw y)) }.

Lemma staged_inv x' t' frame s' pc :
  spi_inv t' -> reply_staged x' t' frame -> be_inv (Backend x' t' s' pc).
Proof.
  intros Hi Hst. split; [done | apply Hst |]. cbn. intros l Hg.
  destruct (rs_armed _ _ _ Hst) as [Ha | [Ha _]]; [| congruence]. rewrite Hg in Ha.
  case_decide as Hn; [done |]. injection Ha as ->. split_and!; [by rewrite (rs_staged _ _ _ Hst) | done | apply Hst].
Qed.

Lemma be_inv_same y x' :
  be_inv y -> spi_tx_dma_buf x' = spi_tx_dma_buf (be_hw y) ->
  (g_tx_armed x' = None \/ g_tx_armed x' = g_tx_armed (be_hw y)) ->
  forall t' s' pc, spi_inv t' -> spi_tx_buf t' = spi_tx_buf (be_t y) -> be_inv (Backend x' t' s' pc).
Proof.
  intros [Hi Hb Ha] B G t' s' pc Hi' Et. split; cbn; [done | by rewrite B |]. intros l Hg.
  rewrite B, Et. apply Ha. destruct G; congruence.
Qed.

Lemma rising_inv (h : H) y pc :
  be_inv y ->
  let '(_, x', t', s') := cs_rising h (be_hw y) (be_t y) (be_s y) in be_inv (Backend x' t' s' pc).
Proof.
  intros Hy. pose proof (rising_spec h (be_hw y) (be_t y) (be_s y) (bi_spi y Hy) (bi_buf y Hy)) as Hr.
  pose proof (cs_capture_spec h (be_hw y)) as Hc. pose proof (rising_tx_inv h (be_hw y) (be_t y) (be_s y) (bi_spi y Hy)) as Hti.
  unfold cs_rising in *. destruct (cs_capture h (be_hw y)) as [[c h1] x1]. destruct Hc as [B Hc].
  destruct c as [| | bytes].
  - apply (be_inv_same y); [done | done | apply Hc | exact Hti | done].
  - destruct (drain_reply _ _) as [[t2 n2] x2]. destruct (spi_dma_arm_rx _ x2) as [[ok3 h3] x3].
    destruct (spi_dma_arm_tx h3 x3 n2) as [[ok4 h4] x4]. eapply staged_inv; [exact Hti | apply Hr].
  - destruct (spi_dma_arm_rx _ x1) as [[ok3 h3] x3]. destruct (spi_slave_cs_high _ _) as [t4 s4].
    destruct (drain_reply _ _) as [[t2 n2] x2].
    destruct (spi_dma_arm_tx h3 x2 n2) as [[ok4 h4] x4]. eapply staged_inv; [exact Hti | apply Hr].
Qed.

Lemma handler_inv (h : H) y pc :
  be_inv y ->
  let '(_, x', t', s') := BRIDGE_SPI_CS_EXTI_HANDLER h (be_hw y) (be_t y) (be_s y) in
  be_inv (Backend x' t' s' pc).
Proof.
  intros Hy. unfold BRIDGE_SPI_CS_EXTI_HANDLER. destruct (spi_read h exti_pd0) as [pd h1].
  destruct (negb _).
  2: { apply (be_inv_same y); [done | done | by right | apply Hy | done]. }
  destruct (spi_read h1 nss_level) as [nss h2]. destruct (nss =? 0).
  - unfold cs_falling. pose proof (arm_rx_spec h2 (be_hw y)) as Ha.
    destruct (spi_dma_arm_rx h2 (be_hw y)) as [[ok h3] x3]. destruct Ha as (B & G & _).
    apply (be_inv_same y); [done | done | by right | | done].
    apply (spi_exec_inv CsLow (be_t y, be_s y)), Hy.
  - pose proof (rising_inv h2 y pc Hy) as Hr.
    by destruct (cs_rising h2 _ _ _) as [[[h3 x3] t3] s3].
Qed.

Lemma irq_step_buf (h : H) c pc x :
  let '(_, _, x') := irq_step c h pc x in
  spi_tx_dma_buf x' = spi_tx_dma_buf x /\ g_tx_armed x' = g_tx_armed x.
Proof.
  destruct pc as [| d | d | d n | d]; cbn [irq_step]; try done.
  - by destruct (spi_read h _).
  - by destruct d.
Qed.

Lemma be_reachable_inv y : be_reachable (H := H) y -> be_inv y.
Proof.
  induction 1 as [h t s | y y' _ IH Hs].
  - pose proof (spi_exec_inv Init (t, s)) as Hi. unfold bridge_transport_spi_hw_init.
    set (h0 := bridge_spi_periph_config _). set (x0 := SpiHw _ _ _ _ _ _ _ _).
    pose proof (arm_rx_spec h0 x0) as Ha. destruct (spi_dma_arm_rx h0 x0) as [[ok h3] x3].
    destruct Ha as (B & G & _). cbn in B, G. split; cbn.
    + split; simpl; unfold spi_rx_len, spi_tx_len, SPI_DRAIN_REWIND_BOUND; simpl; rewrite ?spi_max; try lia;
        [apply Forall_nil_2 | by left].
    + by rewrite B.
    + intros l Hl. congruence.
  - destruct Hs as [h x t s pc | h c x t s pc | x t s s' pc].
    + pose proof (handler_inv h _ pc IH) as Hh. cbn in Hh.
      by destruct (BRIDGE_SPI_CS_EXTI_HANDLER h x t s) as [[[h' x'] t'] s1].
    + pose proof (irq_step_buf h c pc x) as Hq. destruct (irq_step c h pc x) as [[h' pc'] x'].
      destruct Hq as [B G]. apply (be_inv_same _ _ IH); [done | by right | apply IH | done].
    + apply (be_inv_same _ _ IH); [done | by right | apply IH | done].
Qed.

(** C19. In every reachable state of chip-select edges, missed or coalesced, of
    preempted DMA error interrupts and of other code, whatever the hardware
    answers: while the transmit channel is armed, the memory it streams is
    exactly the staged reply, a CRC-valid envelope of at most 69 bytes in the
    72-byte buffer; it is never rewritten under the channel. *)
Theorem armed_reply_current y :
  be_reachable (H := H) y -> forall l, g_tx_armed (be_hw y) = Some l ->
  starts_with l (spi_tx_dma_buf (be_hw y)) /\ l = spi_tx_buf (be_t y) /\
  crc_ok l = true /\ l.[0] = GD32_BRIDGE_SOF /\ 0 < Z.of_nat (length l) <= SPI_MAX_FRAME_BYTES.
Proof.
  intros Hr l Hl. apply be_reachable_inv in Hr as [Hi _ Ha]. destruct (Ha l Hl) as (-> & Hne & Hs).
  destruct (si_frame _ Hi) as [| [Hc Hsof]]; [done |].
  split_and!; try done; [destruct (spi_tx_buf (be_t y)); [done | simpl; lia] | apply Hi].
Qed.

End handler_facts.

(** ** Faults the hardware reports *)

Definition fault_reg (r : spi_reg) : bool :=
  match r with spi_rxorerr | dma_err_flag _ => true | _ => false end.

(** The documented behaviour of the overrun and DMA error flags: they read set
    while raised, and stay raised until cleared (a DMA flag by its own clear, the
    overrun by an access to the data register or a reset). *)
Class SpiFaultLaws (H : Type) `{!SpiSlaveHw H} := {
  raised : H -> spi_reg -> bool;
  raised_reads h r : fault_reg r = true -> raised h r = true -> (spi_read h r).1 <> 0;
  raised_kept_read h r r' : fault_reg r = true -> r' <> spi_data -> raised h r = true ->
    raised (spi_read h r').2 r = true;
  raised_kept_disable h r c : fault_reg r = true -> raised h r = true ->
    raised (spi_do h (dma_channel_disable c)) r = true;
  raised_kept_clear h c d : c <> d -> raised h (dma_err_flag d) = true ->
    raised (spi_do h (dma_err_flag_clear c)) (dma_err_flag d) = true }.

Section faults.
Context {H St : Type} `{SpiFaultLaws H} `{DispatcherLaws St}.

Lemma confirm_raised (h : H) x c r :
  fault_reg r = true -> raised h r = true -> raised (confirm h x c).1.2 r = true.
Proof.
  intros Hr Hh. unfold confirm, spi_dma_disable_confirm.
  pose proof (raised_kept_disable h r c Hr Hh) as Hd. revert Hd.
  generalize (spi_do h (dma_channel_disable c)). generalize BRIDGE_SPI_DMA_DISABLE_SPINS. intros n.
  induction n as [| n IH]; intros g Hg; cbn [wait_disabled]; [done |].
  pose proof (raised_kept_read g r (dma_chen c) Hr ltac:(done) Hg) as Hk.
  destruct (spi_read g (dma_chen c)) as [v g']. cbn [snd] in Hk. destruct (v =? 0); [done | by apply IH].
Qed.

(** A raised DMA flag, or an error already latched, is found. *)
Lemma consume_raised (h : H) x :
  raised h (dma_err_flag rx_ch) = true \/ raised h (dma_err_flag tx_ch) = true \/ spi_dma_error_pending x = true ->
  (spi_dma_error_consume h x).1.1 = true.
Proof.
  intros Hr. unfold spi_dma_error_consume, spi_dma_latch_error.
  pose proof (raised_reads h (dma_err_flag rx_ch) eq_refl) as Hrx.
  pose proof (raised_kept_read h (dma_err_flag tx_ch) (dma_err_flag rx_ch) eq_refl ltac:(done)) as Hk.
  destruct (spi_read h (dma_err_flag rx_ch)) as [v h1]. cbn [fst snd] in Hrx, Hk.
  assert (Htx : forall g y, raised g (dma_err_flag tx_ch) = true \/ spi_dma_error_pending y = true ->
    let '(h2, x2) := (let '(flag, h) := spi_read g (dma_err_flag tx_ch) in
      if flag =? 0 then (h, y) else (spi_do h (dma_err_flag_clear tx_ch), set_pending true (count_error tx_ch y))) in
    spi_dma_error_pending x2 = true).
  { intros g y Hg. pose proof (raised_reads g (dma_err_flag tx_ch) eq_refl) as Hx.
    destruct (spi_read g (dma_err_flag tx_ch)) as [w g2]. cbn [fst] in Hx.
    destruct (Z.eqb_spec w 0) as [-> |]; [| done]. destruct Hg as [Hg | Hg]; [by destruct (Hx Hg) | done]. }
  destruct (Z.eqb_spec v 0) as [-> | Hv].
  - specialize (Htx h1 x). destruct (spi_read h1 (dma_err_flag tx_ch)) as [w h2].
    destruct (w =? 0); rewrite Htx; try done;
      (destruct Hr as [Hr | [Hr | Hr]]; [by destruct (Hrx Hr) | by left; apply Hk | by right]).
  - specialize (Htx (spi_do h1 (dma_err_flag_clear rx_ch)) (set_pending true (count_error rx_ch x)) ltac:(by right)).
    destruct (spi_read _ (dma_err_flag tx_ch)) as [w h2]. by destruct (w =? 0); rewrite Htx.
Qed.

Lemma capture_faulted (h : H) x :
  (exists r, fault_reg r = true /\ raised h r = true) \/ spi_dma_error_pending x = true ->
  match (cs_capture h x).1.1 with Captured _ => False | _ => True end.
Proof.
  intros Hr. unfold cs_capture.
  pose proof (fun r => confirm_raised h x rx_ch r) as K1. unfold confirm in K1 |- *.
  destruct (spi_dma_disable_confirm h rx_ch) as [rq h1]. cbn [fst snd] in K1.
  pose proof (fun r => confirm_raised h1 x tx_ch r) as K2. unfold confirm in K2 |- *.
  destruct (spi_dma_disable_confirm h1 tx_ch) as [tq h2]. cbn [fst snd] in K2.
  destruct (negb rq || negb tq) eqn:Eq; [done |]. apply orb_false_iff in Eq as [->%negb_false_iff ->%negb_false_iff].
  set (x2 := note_disabled tx_ch (note_disabled rx_ch x)).
  assert (Hp : spi_dma_error_pending x2 = spi_dma_error_pending x) by done.
  pose proof (raised_reads h2 spi_rxorerr eq_refl) as Ho.
  pose proof (fun c => raised_kept_read h2 (dma_err_flag c) spi_rxorerr eq_refl ltac:(done)) as Hk.
  destruct (spi_read h2 spi_rxorerr) as [ovr h3]. cbn [fst snd] in Ho, Hk.
  pose proof (consume_raised h3 x2) as Hc. destruct (spi_dma_error_consume h3 x2) as [[e h4] x4]. cbn [fst] in Hc.
  destruct (e || negb (ovr =? 0)) eqn:Ee; [done | exfalso].
  apply orb_false_iff in Ee as [-> ->%negb_false_iff%Z.eqb_eq].
  destruct Hr as [(r & Hf & Hr) | Hr]; [| by specialize (Hc ltac:(rewrite Hp; auto))].
  specialize (K2 r Hf (K1 r Hf Hr)). destruct r as [| | c | c | | | | |]; try done; [| by destruct (Ho K2)].
  destruct c; specialize (Hk _ K2); by specialize (Hc ltac:(auto)).
Qed.

(** A transfer the hardware or the firmware marked as bad is never executed:
    with an overrun or a DMA error flag raised when the handler is entered, or an
    error latched before, nothing is dispatched, and the host's next read gets
    the STATUS_IO envelope or, when a channel cannot be stopped, the reply that
    was staged. *)
Theorem faulted_never_dispatched (h : H) x (t : spi) (s : St) :
  spi_inv t -> length (spi_tx_dma_buf x) = Z.to_nat BRIDGE_SPI_DMA_BUF_LEN ->
  (exists r, fault_reg r = true /\ raised h r = true) \/ spi_dma_error_pending x = true ->
  let '(_, _, t', s') := BRIDGE_SPI_CS_EXTI_HANDLER h x t s in
  s' = s /\ (spi_tx_buf t' = spi_tx_buf t \/ spi_tx_buf t' = io_envelope (spi_features s) t).
Proof.
  intros Hi Hb Hr. unfold BRIDGE_SPI_CS_EXTI_HANDLER.
  pose proof (fun r Hf => raised_kept_read h r exti_pd0 Hf ltac:(done)) as K1.
  destruct (spi_read h exti_pd0) as [pd h1]. cbn [snd] in K1. destruct (negb _); [| by auto].
  pose proof (fun r Hf => raised_kept_read h1 r nss_level Hf ltac:(done)) as K2.
  destruct (spi_read h1 nss_level) as [nss h2]. cbn [snd] in K2. destruct (nss =? 0).
  { unfold cs_falling. destruct (spi_dma_arm_rx h2 x) as [[ok h4] x4]. by auto. }
  pose proof (rising_spec h2 x t s Hi Hb) as Hs.
  pose proof (capture_faulted h2 x) as Hc. destruct (cs_capture h2 x) as [[c h3] x3]. cbn [fst] in Hc.
  destruct (cs_rising h2 x t s) as [[[h4 x4] t4] s4].
  destruct c as [| | bytes]; [by destruct Hs as (-> & -> & _); auto | | exfalso; apply Hc].
  - destruct Hs as (-> & Hst). split; [done |]. right. by rewrite <- (rs_staged _ _ _ Hst).
  - destruct Hr as [(r & Hf & Hr) | Hr]; [left; exists r; auto | by right].
Qed.

End faults.
