(* ===== verification/I2cTiming.v ===== *)
(** * I2C clock arithmetic and bus release: [hal/transport_hw_gd32.c],
    [hal/gd32/i2c_timeout.c], [i2c_recovery.h], [i2c_event_priority.c]

    The timing fields and the stretch timeout derived from the live kernel
    clock, the order in which pending events are served, and the bounded
    software reset. *)

From stdpp Require Import base tactics list numbers option.
From S2P Require Import Prelude.

Definition u64 (x : Z) : Z := x mod 0x10000000000000000.

Lemma u64_id x : 0 <= x < 0x10000000000000000 -> u64 x = x.
Proof. apply Z.mod_small. Qed.

(** ** Timing fields *)

Definition I2C_TIMING_FIELD_MAX : Z := 15.
Definition I2C_APB1_MIN_HZ_FAST_MODE : Z := 4000000.

(** PSC, SCLDELY and SDADELY; [None] is [return false]. *)
Definition i2c_timing_derive (apb1_hz : Z) : option (Z * Z * Z) :=
  if apb1_hz <? I2C_APB1_MIN_HZ_FAST_MODE then None
  else
    let p := apb1_hz / 8000000 in
    let p := if 0 <? p then p - 1 else p in
    let p := if I2C_TIMING_FIELD_MAX <? p then I2C_TIMING_FIELD_MAX else p in
    let t_i2cclk_ps := 1000000000000 / apb1_hz in
    let t_psc_ps := u64 (u32 (p + 1) * t_i2cclk_ps) in
    let tr_max_ps := 300000 in
    let tsu_dat_min_ps := 100000 in
    let tf_max_ps := 300000 in
    let dnf3_term_ps := u64 (3 * t_i2cclk_ps) in
    let scldely_q := u64 (tr_max_ps + tsu_dat_min_ps + t_psc_ps - 1) / t_psc_ps in
    let scl := if 0 <? scldely_q then u32 (scldely_q - 1) else 0 in
    let sda :=
      if dnf3_term_ps <? tf_max_ps then
        let sdadely_num := tf_max_ps - dnf3_term_ps in
        u32 (u64 (sdadely_num + t_psc_ps - 1) / t_psc_ps)
      else 0 in
    if (I2C_TIMING_FIELD_MAX <? p) || (I2C_TIMING_FIELD_MAX <? scl) || (I2C_TIMING_FIELD_MAX <? sda)
    then None else Some (p, scl, sda).

(** The values the source comment works out. *)
Example timing_216mhz : i2c_timing_derive 216000000 = Some (15, 5, 4).
Proof. reflexivity. Qed.
Example timing_8mhz : i2c_timing_derive 8000000 = Some (0, 3, 0).
Proof. reflexivity. Qed.

Lemma ceil_div_le n d k : 0 < d -> ((n + d - 1) / d <= k <-> n <= k * d).
Proof.
  intros Hd. split; intros Hk.
  - pose proof (Z.div_mod (n + d - 1) d ltac:(lia)). pose proof (Z.mod_pos_bound (n + d - 1) d Hd). nia.
  - apply Z.lt_succ_r, Z.div_lt_upper_bound; nia.
Qed.

Lemma ceil_div_ge n d : 0 < d -> n <= (n + d - 1) / d * d.
Proof. intros Hd. by apply ceil_div_le. Qed.

(** The prescaler and the clock period the derivation works with. *)
Lemma timing_period f :
  4000000 <= f < 0x100000000 ->
  let t := 1000000000000 / f in
  232 <= t <= 250000 /\ t * f <= 1000000000000 < (t + 1) * f /\ (t <= 1562 <-> 639795265 < f).
Proof.
  intros Hf t. assert (Ht : t * f <= 1000000000000 < (t + 1) * f).
  { unfold t. pose proof (Z.div_mod 1000000000000 f ltac:(lia)).
    pose proof (Z.mod_pos_bound 1000000000000 f ltac:(lia)). nia. }
  clearbody t. split; [nia |]. split; [lia |]. nia.
Qed.

(** The timing derivation, at every clock a 32-bit register can report: it
    refuses exactly below the Fast-mode floor of 4 MHz and above 639,795,265 Hz,
    where the fields no longer fit; otherwise the three fields fit their four
    bits and meet the data setup and hold inequalities at the true clock, with
    no 64-bit intermediate overflowing. *)
Theorem timing_derive_exact apb1_hz :
  is_u32 apb1_hz ->
  match i2c_timing_derive apb1_hz with
  | None => apb1_hz < 4000000 \/ 639795265 < apb1_hz
  | Some (psc, scl, sda) =>
      4000000 <= apb1_hz <= 639795265 /\ 0 <= psc <= 15 /\ 0 <= scl <= 15 /\ 0 <= sda <= 15 /\
      400000 * apb1_hz <= (scl + 1) * (psc + 1) * 1000000000000 /\
      300000 * apb1_hz - 3 * 1000000000000 <= sda * (psc + 1) * 1000000000000
  end.
Proof.
  intros Hu. unfold is_u32 in Hu. unfold i2c_timing_derive, I2C_APB1_MIN_HZ_FAST_MODE, I2C_TIMING_FIELD_MAX.
  destruct (Z.ltb_spec apb1_hz 4000000); [by left |].
  destruct (timing_period apb1_hz ltac:(lia)) as (Ht & Htf & Hmax). cbv zeta.
  set (t := 1000000000000 / apb1_hz) in *. clearbody t.
  pose proof (Z.div_mod apb1_hz 8000000 ltac:(lia)). pose proof (Z.mod_pos_bound apb1_hz 8000000 ltac:(lia)).
  set (p0 := apb1_hz / 8000000) in *. clearbody p0.
  set (p := if 15 <? (if 0 <? p0 then p0 - 1 else p0) then 15 else if 0 <? p0 then p0 - 1 else p0).
  assert (Hp : 0 <= p <= 15 /\ (p < 15 -> apb1_hz < (p + 2) * 8000000)).
  { unfold p. destruct (0 <? p0) eqn:E1; destruct (15 <? _) eqn:E2; lia. }
  clearbody p. destruct Hp as [Hp Hf].
  rewrite (u32_id (p + 1)) by (unfold is_u32; lia).
  rewrite (u64_id ((p + 1) * t)), (u64_id (3 * t)) by nia.
  set (d := (p + 1) * t). assert (Hd : 0 < d <= 4000000) by (unfold d; nia).
  rewrite (u64_id (300000 + 100000 + d - 1)) by lia.
  set (q := (300000 + 100000 + d - 1) / d).
  assert (Hq : 0 < q <= 400001).
  { unfold q. split; [apply Z.div_str_pos; lia | apply Z.div_le_upper_bound; nia]. }
  pose proof (ceil_div_ge (300000 + 100000) d ltac:(lia)) as Hqd. fold q in Hqd.
  pose proof (ceil_div_le (300000 + 100000) d 16 ltac:(lia)) as Hq16. fold q in Hq16. clearbody q.
  destruct (Z.ltb_spec 0 q); [| lia]. rewrite (u32_id (q - 1)) by (unfold is_u32; lia).
  set (sda := if 3 * t <? 300000 then u32 (u64 (300000 - 3 * t + d - 1) / d) else 0).
  assert (Hs : 0 <= sda /\ 300000 - 3 * t <= sda * d /\ (sda <= 15 <-> 300000 - 3 * t <= 15 * d)).
  { unfold sda. destruct (Z.ltb_spec (3 * t) 300000); [| lia].
    rewrite u64_id by lia.
    assert (0 <= (300000 - 3 * t + d - 1) / d < 300001)
      by (split; [apply Z.div_pos; lia | apply Z.div_lt_upper_bound; nia]).
    rewrite u32_id by (unfold is_u32; lia). split; [lia |]. split; [apply ceil_div_ge; lia | apply ceil_div_le; lia]. }
  clearbody sda. destruct Hs as (Hs0 & Hsd & Hs15).
  assert (Hdf : d * apb1_hz <= (p + 1) * 1000000000000) by (unfold d; nia).
  destruct (Z.ltb_spec 15 p); [lia |].
  destruct (Z.ltb_spec 15 (q - 1)) as [Hbig | Hfit]; cbn [orb].
  - right. apply Hmax. unfold d in Hq16. destruct (decide (p = 15)) as [-> |]; [lia |].
    assert (125000 < (t + 1) * (p + 2)) by nia. nia.
  - assert (Hlow : 25000 <= d) by lia.
    destruct (Z.ltb_spec 15 sda); [lia |].
    split_and!; try lia; [| nia | nia].
    apply Z.nlt_ge. intros Hgt. apply Hmax in Hgt. unfold d in Hlow. nia.
Qed.

(** ** Stretch timeout *)

Definition I2C_TIMEOUT_COUNTER_SCALE : Z := 2048.
Definition I2C_TIMEOUT_RELOAD_MAX : Z := 4095.
Definition I2C_TIMEOUT_MAX_US : Z := 35000.
Definition BRIDGE_I2C_STRETCH_TIMEOUT_US : Z := 25000.

(** The reload value; [None] is [return false]. *)
Definition bridge_i2c_stretch_timeout_reload (i2c_clk_hz : Z) : option Z :=
  if i2c_clk_hz =? 0 then None
  else
    let units := u64 (i2c_clk_hz * BRIDGE_I2C_STRETCH_TIMEOUT_US) /
                 u64 (I2C_TIMEOUT_COUNTER_SCALE * 1000000) in
    let units :=
      if u64 (u64 (units * I2C_TIMEOUT_COUNTER_SCALE) * 1000000) <?
         u64 (i2c_clk_hz * BRIDGE_I2C_STRETCH_TIMEOUT_US)
      then u64 (units + 1) else units in
    if units =? 0 then None
    else if I2C_TIMEOUT_RELOAD_MAX + 1 <? units then None
    else if u64 (i2c_clk_hz * I2C_TIMEOUT_MAX_US) <? u64 (u64 (units * I2C_TIMEOUT_COUNTER_SCALE) * 1000000)
    then None
    else Some (u16 (units - 1)).

(** A reload value whose timeout, [(r + 1) * 2048] clock periods, is from 25 to
    35 ms, in units of a millionth of a period. *)
Definition timeout_in_window (clk r : Z) : Prop :=
  clk * 25000 <= (r + 1) * 2048 * 1000000 <= clk * 35000.

(** The stretch timeout is derived whenever the 12-bit counter can represent
    one in the SMBus window, and then it is the shortest such; no 64-bit product
    overflows for any 32-bit clock. *)
Theorem stretch_reload_exact clk :
  is_u32 clk ->
  match bridge_i2c_stretch_timeout_reload clk with
  | Some r => 0 <= r <= 4095 /\ timeout_in_window clk r /\
              forall r', 0 <= r' -> timeout_in_window clk r' -> r <= r'
  | None => forall r, 0 <= r <= 4095 -> ~ timeout_in_window clk r
  end.
Proof.
  unfold is_u32. intros Hu. unfold bridge_i2c_stretch_timeout_reload, I2C_TIMEOUT_COUNTER_SCALE,
    I2C_TIMEOUT_RELOAD_MAX, I2C_TIMEOUT_MAX_US, BRIDGE_I2C_STRETCH_TIMEOUT_US, timeout_in_window.
  destruct (Z.eqb_spec clk 0) as [-> | Hz]; [intros; lia |].
  rewrite !(u64_id (clk * _)), (u64_id (2048 * 1000000)) by lia.
  pose proof (Z.div_mod (clk * 25000) (2048 * 1000000) ltac:(lia)) as Hd.
  pose proof (Z.mod_pos_bound (clk * 25000) (2048 * 1000000) ltac:(lia)) as Hm.
  set (u0 := clk * 25000 / (2048 * 1000000)) in *. clearbody u0.
  assert (Hu0 : 0 <= u0 < 100000) by lia.
  rewrite (u64_id (u0 * 2048)), (u64_id (u0 * 2048 * 1000000)) by lia.
  set (units := if u0 * 2048 * 1000000 <? clk * 25000 then u64 (u0 + 1) else u0).
  assert (Hun : (units - 1) * 2048000000 < clk * 25000 <= units * 2048000000 /\ 0 < units <= 100000).
  { unfold units. destruct (Z.ltb_spec (u0 * 2048 * 1000000) (clk * 25000)); [rewrite u64_id by lia |]; lia. }
  clearbody units. rewrite (u64_id (units * 2048)), (u64_id (units * 2048 * 1000000)) by lia.
  destruct (Z.eqb_spec units 0); [lia |].
  destruct (Z.ltb_spec (4095 + 1) units); [intros; lia |].
  destruct (Z.ltb_spec (clk * 35000) (units * 2048 * 1000000)); [intros; lia |].
  rewrite u16_id by (unfold is_u16; lia). split_and!; intros; lia.
Qed.

(** ** Event order *)

Inductive bridge_i2c_event :=
  | BRIDGE_I2C_EVENT_NONE | BRIDGE_I2C_EVENT_RBNE | BRIDGE_I2C_EVENT_ADDSEND
  | BRIDGE_I2C_EVENT_STPDET | BRIDGE_I2C_EVENT_TI.

Definition bridge_i2c_event_select (rbne addsend stpdet ti : bool) : bridge_i2c_event :=
  if rbne then BRIDGE_I2C_EVENT_RBNE
  else if stpdet then BRIDGE_I2C_EVENT_STPDET
  else if addsend then BRIDGE_I2C_EVENT_ADDSEND
  else if ti then BRIDGE_I2C_EVENT_TI
  else BRIDGE_I2C_EVENT_NONE.

(** ** Bus release *)

Definition BRIDGE_I2C_EN_CLEAR_SPIN_LIMIT : Z := 64.

Definition bridge_i2c_en_clear_spin_exhausted (spins_taken : Z) : bool :=
  BRIDGE_I2C_EN_CLEAR_SPIN_LIMIT <=? spins_taken.

(** The function-pointer table, over a hardware state [H]. *)
Record bridge_i2c_recovery_ops (H : Type) := RecoveryOps {
  en_clear : H -> H;
  en_is_set : H -> bool * H;
  en_set : H -> H;
  rcu_reset : H -> H;
  reinit : H -> H;
  timeout_pending : H -> bool * H;
  timeout_clear : H -> H }.
Arguments en_clear {H}. Arguments en_is_set {H}. Arguments en_set {H}. Arguments rcu_reset {H}.
Arguments reinit {H}. Arguments timeout_pending {H}. Arguments timeout_clear {H}.

Section recovery.
Context {H : Type} (ops : bridge_i2c_recovery_ops H).

(** The read-back loop; [release_polls_enough] shows the fuel is. *)
Fixpoint release_loop (fuel : nat) (spins : Z) (h : H) : bool * H :=
  match fuel with
  | O => (true, h)
  | S fuel =>
      let '(set, h) := en_is_set ops h in
      if (set : bool) then
        let spins := u32 (spins + 1) in
        if bridge_i2c_en_clear_spin_exhausted spins then (true, reinit ops (rcu_reset ops h))
        else release_loop fuel spins h
      else (false, en_set ops h)
  end.

(** Whether it escalated, and the hardware afterwards. *)
Definition bridge_i2c_bus_release (h : H) : bool * H :=
  release_loop (Z.to_nat BRIDGE_I2C_EN_CLEAR_SPIN_LIMIT) 0 (en_clear ops h).

(** [bridge_i2c_timeout_service] with its two counters. *)
Definition bridge_i2c_timeout_service (h : H) (recoveries escalations : Z) : bool * H * Z * Z :=
  let '(pending, h) := timeout_pending ops h in
  if negb pending then (false, h, recoveries, escalations)
  else
    let h := timeout_clear ops h in
    let recoveries := u32 (recoveries + 1) in
    let '(escalated, h) := bridge_i2c_bus_release h in
    (true, h, recoveries, if (escalated : bool) then u32 (escalations + 1) else escalations).

(** The answers of [n] polls in a row, and the state after them. *)
Fixpoint polls (n : nat) (h : H) : list bool * H :=
  match n with
  | O => ([], h)
  | S n => let '(b, h) := en_is_set ops h in let '(l, h) := polls n h in (b :: l, h)
  end.

Lemma release_loop_spec fuel : forall spins h,
  (0 < fuel)%nat -> spins + Z.of_nat fuel = 64 -> 0 <= spins ->
  let '(escalated, h') := release_loop fuel spins h in
  if escalated : bool then
    (polls fuel h).1 = replicate fuel true /\ h' = reinit ops (rcu_reset ops (polls fuel h).2)
  else exists n, (n < fuel)%nat /\ (polls (S n) h).1 = replicate n true ++ [false] /\
         h' = en_set ops (polls (S n) h).2.
Proof.
  induction fuel as [| fuel IH]; intros spins h Hf Hs Hpos; [lia |]. cbn [release_loop].
  destruct (en_is_set ops h) as [set h1] eqn:E. destruct set.
  2: { exists 0%nat. cbn [polls]. rewrite E. split; [lia | done]. }
  rewrite u32_id by (unfold is_u32; lia).
  unfold bridge_i2c_en_clear_spin_exhausted, BRIDGE_I2C_EN_CLEAR_SPIN_LIMIT.
  destruct (Z.leb_spec 64 (spins + 1)) as [Hex | Hgo].
  - assert (fuel = 0%nat) as -> by lia. cbn [polls]. rewrite E. done.
  - specialize (IH (spins + 1) h1 ltac:(lia) ltac:(lia) ltac:(lia)).
    destruct (release_loop fuel (spins + 1) h1) as [[] h2].
    + cbn [polls]. rewrite E. destruct (polls fuel h1) as [l h3]. cbn in *. destruct IH as [-> ->]. done.
    + destruct IH as (n & Hn & Hl & ->). exists (S n). split; [lia |].
      change (polls (S (S n)) h) with (let '(b, h) := en_is_set ops h in let '(l, h) := polls (S n) h in (b :: l, h)).
      rewrite E. destruct (polls (S n) h1) as [l h3]. cbn [fst snd] in *. by rewrite Hl.
Qed.

(** The bus release ends within 64 polls whatever the peripheral answers: it
    re-enables the peripheral after the first poll that reads clear, and resets
    and re-initialises it exactly when all 64 polls read it still enabled. *)
Theorem bus_release_bounded h :
  let '(escalated, h') := bridge_i2c_bus_release h in
  let h0 := en_clear ops h in
  if escalated : bool then
    (polls 64 h0).1 = replicate 64 true /\ h' = reinit ops (rcu_reset ops (polls 64 h0).2)
  else exists n, (n < 64)%nat /\ (polls (S n) h0).1 = replicate n true ++ [false] /\
         h' = en_set ops (polls (S n) h0).2.
Proof.
  apply (release_loop_spec 64 0); lia.
Qed.

End recovery.
