(* ===== verification/I2cBackend.v ===== *)
(** * The I2C interrupt backend: [hal/transport_hw_gd32.c], I2C half

    Bring-up, the event and error interrupts, and the stuck-SDA poll, which turn
    peripheral flags into calls of [TransportI2c]. *)

From stdpp Require Import base tactics list numbers option.
From S2P Require Import Prelude BridgeHw Wire Protocol Frame TransportI2c I2cTiming.

(** ** The hardware *)

Inductive i2c_flag :=
  | fl_rbne | fl_addsend | fl_stpdet | fl_ti | fl_nack | fl_berr | fl_ouerr | fl_timeout
  | fl_lostarb | fl_pecerr | fl_smbalt.

Inductive gpio_port := GPIOA | GPIOB | GPIOC.

Inductive i2c_op :=
  | rcu_i2c_clock_config | rcu_i2c_clock_enable | i2c_gpio_init
  | i2c_timing_config (psc scl sda : Z) | i2c_analog_noise_filter_enable
  | i2c_bus_timeout_a_config (r : Z) | i2c_bus_timeout_b_config (r : Z)
  | i2c_clock_timeout_enable | i2c_extended_clock_timeout_enable
  | i2c_address_config (addr : Z) | i2c_stretch_scl_low_enable
  | i2c_interrupt_enable_slave | i2c_nvic_irq_enable_ev | i2c_nvic_irq_enable_er
  | i2c_enable
  | gpio_lock_write (p : gpio_port) (v : Z)
  | fault_reset_loop_mark_healthy
  | i2c_ctl0_i2cen (on : bool) | i2c_rcu_reset_pulse
  | i2c_interrupt_flag_clear (f : i2c_flag)
  | i2c_interrupt_ti (on : bool)
  | i2c_stat_tbe_write
  | i2c_data_transmit (v : Z)
  | i2c_statc_write (stat : Z) (mask : list i2c_flag)
  | stuck_gap.

Inductive i2c_reg :=
  | rcu_apb1_hz | gpio_lock_read (p : gpio_port)
  | int_flag (f : i2c_flag) | flag_tr | i2c_rdata | i2c_stat | ctl0_i2cen
  | sda_level | scl_level.

(** The peripheral: any effect of a write, any answer to a read. *)
Class I2cSlaveHw (H : Type) := {
  i2c_do : H -> i2c_op -> H;
  i2c_reg_read : H -> i2c_reg -> Z * H }.

(** The file's counters, [bridge_i2c_err_diag] and [i2c_sda_low_ticks]. *)
Record i2c_hw := I2cHw {
  bridge_i2c_timeout_recoveries : Z;
  bridge_i2c_reset_escalations : Z;
  bridge_i2c_stuck_sda_escalations : Z;
  err_berr : Z; err_ouerr : Z; err_timeout : Z; err_stuck_release : Z;
  i2c_sda_low_ticks : Z }.

Definition GD32_BRIDGE_DEFAULT_I2C_ADDR : Z := 0x70.
Definition BRIDGE_I2C_STUCK_SAMPLES : nat := 4.

Section backend.
Context {H : Type} `{!I2cSlaveHw H}.

Definition i2c_dos (h : H) (ops : list i2c_op) : H := foldl i2c_do h ops.

(** A register read as a flag. *)
Definition read_flag (h : H) (r : i2c_reg) : bool * H :=
  let '(v, h) := i2c_reg_read h r in (negb (v =? 0), h).

(** ** Bring-up *)

Definition gpio_lock_port (h : H) (p : gpio_port) (lky_mask : Z) : H :=
  let h := i2c_dos h [gpio_lock_write p (Z.lor 0x00010000 lky_mask); gpio_lock_write p lky_mask;
                      gpio_lock_write p (Z.lor 0x00010000 lky_mask)] in
  let '(_, h) := i2c_reg_read h (gpio_lock_read p) in
  let '(_, h) := i2c_reg_read h (gpio_lock_read p) in h.

(** What is programmed once both derivations succeed. *)
Definition i2c_program (psc scl sda reload : Z) : list i2c_op :=
  [i2c_timing_config psc scl sda; i2c_analog_noise_filter_enable;
   i2c_bus_timeout_a_config reload; i2c_bus_timeout_b_config reload;
   i2c_clock_timeout_enable; i2c_extended_clock_timeout_enable;
   i2c_address_config (u32 (Z.shiftl GD32_BRIDGE_DEFAULT_I2C_ADDR 1)); i2c_stretch_scl_low_enable;
   i2c_interrupt_enable_slave; i2c_nvic_irq_enable_ev; i2c_nvic_irq_enable_er; i2c_enable].

Definition bridge_transport_i2c_hw_init (h : H) : Z * H :=
  let h := i2c_dos h [rcu_i2c_clock_config; rcu_i2c_clock_enable; i2c_gpio_init] in
  let '(apb1_hz, h) := i2c_reg_read h rcu_apb1_hz in
  match i2c_timing_derive (u32 apb1_hz), bridge_i2c_stretch_timeout_reload (u32 apb1_hz) with
  | Some (psc, scl, sda), Some reload =>
      let h := i2c_dos h (i2c_program psc scl sda reload) in
      let h := gpio_lock_port h GPIOA 0x8700 in
      let h := gpio_lock_port h GPIOB 0x8200 in
      let h := gpio_lock_port h GPIOC 0x2000 in
      (BRIDGE_HW_OK, i2c_do h fault_reset_loop_mark_healthy)
  | _, _ => (BRIDGE_HW_ERR_RANGE, h)
  end.

Definition i2c_recovery_ops : bridge_i2c_recovery_ops H := {|
  en_clear h := i2c_do h (i2c_ctl0_i2cen false);
  en_is_set h := read_flag h ctl0_i2cen;
  en_set h := i2c_do h (i2c_ctl0_i2cen true);
  rcu_reset h := i2c_do h i2c_rcu_reset_pulse;
  reinit h := (bridge_transport_i2c_hw_init h).2;
  timeout_pending h := read_flag h (int_flag fl_timeout);
  timeout_clear h := i2c_do h (i2c_interrupt_flag_clear fl_timeout) |}.

Definition bridge_i2c_force_bus_release (h : H) (x : i2c_hw) : H * i2c_hw :=
  let '(escalated, h) := bridge_i2c_bus_release i2c_recovery_ops h in
  (h, if (escalated : bool) then
        I2cHw (bridge_i2c_timeout_recoveries x) (bridge_i2c_reset_escalations x)
          (u32 (bridge_i2c_stuck_sda_escalations x + 1)) (err_berr x) (err_ouerr x) (err_timeout x)
          (err_stuck_release x) (i2c_sda_low_ticks x)
      else x).

(** ** Stuck-SDA poll *)

(** The burst: SDA low with SCL high in every sample. *)
Fixpoint all_low (n : nat) (h : H) : bool * H :=
  match n with
  | O => (true, h)
  | S n =>
      let '(sda, h) := read_flag h sda_level in
      if sda : bool then (false, h)
      else
        let '(scl, h) := read_flag h scl_level in
        if negb scl then (false, h)
        else all_low n (if Nat.eqb n 0 then h else i2c_do h stuck_gap)
  end.

Definition set_ticks (n : Z) (x : i2c_hw) : i2c_hw :=
  I2cHw (bridge_i2c_timeout_recoveries x) (bridge_i2c_reset_escalations x)
    (bridge_i2c_stuck_sda_escalations x) (err_berr x) (err_ouerr x) (err_timeout x)
    (err_stuck_release x) n.

Definition count_stuck (x : i2c_hw) : i2c_hw :=
  I2cHw (bridge_i2c_timeout_recoveries x) (bridge_i2c_reset_escalations x)
    (bridge_i2c_stuck_sda_escalations x) (err_berr x) (err_ouerr x) (err_timeout x)
    (u32 (err_stuck_release x + 1)) (i2c_sda_low_ticks x).

Definition bridge_transport_i2c_stuck_poll (h : H) (x : i2c_hw) (t : i2c) : H * i2c_hw * i2c :=
  let '(low, h) := all_low BRIDGE_I2C_STUCK_SAMPLES h in
  if negb low then (h, set_ticks 0 x, t)
  else
    let x := set_ticks (u8 (i2c_sda_low_ticks x + 1)) x in
    if i2c_sda_low_ticks x <? 2 then (h, x, t)
    else
      let x := count_stuck (set_ticks 0 x) in
      let '(h, x) := bridge_i2c_force_bus_release h x in
      (h, x, i2c_slave_tx_abort t).

(** ** The error interrupt *)

Definition error_flags : list i2c_flag :=
  [fl_nack; fl_berr; fl_lostarb; fl_ouerr; fl_pecerr; fl_timeout; fl_smbalt].

(** Clear flag [f] if it reads set. *)
Definition clear_if_set (h : H) (f : i2c_flag) : bool * H :=
  let '(set, h) := read_flag h (int_flag f) in
  (set, if (set : bool) then i2c_do h (i2c_interrupt_flag_clear f) else h).

Definition set_error_counts (recoveries escalations berr ouerr timeout : Z) (x : i2c_hw) : i2c_hw :=
  I2cHw recoveries escalations (bridge_i2c_stuck_sda_escalations x) berr ouerr timeout
    (err_stuck_release x) (i2c_sda_low_ticks x).

Definition BRIDGE_I2C_ER_HANDLER (h : H) (x : i2c_hw) (t : i2c) : H * i2c_hw * i2c :=
  let '(stat, h) := i2c_reg_read h i2c_stat in
  let '(_, h) := clear_if_set h fl_nack in
  let '(berr, h) := clear_if_set h fl_berr in
  let '(ouerr, h) := clear_if_set h fl_ouerr in
  let '(timeout, h, recoveries, escalations) :=
    bridge_i2c_timeout_service i2c_recovery_ops h (bridge_i2c_timeout_recoveries x)
      (bridge_i2c_reset_escalations x) in
  let bump (b : bool) n := if b then u32 (n + 1) else n in
  let x := set_error_counts recoveries escalations (bump berr (err_berr x)) (bump ouerr (err_ouerr x))
             (bump timeout (err_timeout x)) x in
  let h := i2c_do h (i2c_statc_write stat error_flags) in
  if berr || ouerr || timeout then
    (i2c_do h (i2c_interrupt_ti false), x, i2c_slave_tx_abort (i2c_slave_write_start t))
  else (h, x, t).

End backend.

(** ** The event interrupt *)

Section events.
Context {H St : Type} `{!I2cSlaveHw H} `{Dispatcher St}.

(** One event: the handler's [switch]. *)
Definition ev_serve (e : bridge_i2c_event) (h : H) (t : i2c) (s : St) : H * i2c * St :=
  match e with
  | BRIDGE_I2C_EVENT_RBNE =>
      let '(v, h) := i2c_reg_read h i2c_rdata in
      (h, i2c_slave_rx_byte (u8 v) t, s)
  | BRIDGE_I2C_EVENT_ADDSEND =>
      let '(is_transmitter, h) := read_flag h flag_tr in
      let h := i2c_do h (i2c_interrupt_flag_clear fl_addsend) in
      if is_transmitter : bool then
        let h := i2c_do h i2c_stat_tbe_write in
        let '(t, s, _) := i2c_slave_write_end t s in
        (i2c_do h (i2c_interrupt_ti true), t, s)
      else (h, i2c_slave_write_start t, s)
  | BRIDGE_I2C_EVENT_STPDET =>
      let h := i2c_dos h [i2c_interrupt_flag_clear fl_stpdet; i2c_interrupt_flag_clear fl_nack;
                          i2c_interrupt_ti false; i2c_stat_tbe_write] in
      let '(t, s, _) := i2c_slave_write_end t s in
      (h, t, s)
  | BRIDGE_I2C_EVENT_TI =>
      let '(t, v) := i2c_slave_tx_next_byte t in
      (i2c_do h (i2c_data_transmit v), t, s)
  | BRIDGE_I2C_EVENT_NONE => (i2c_do h (i2c_interrupt_flag_clear fl_nack), t, s)
  end.

(** The four flags are read left to right; C leaves the order open. *)
Definition BRIDGE_I2C_EV_HANDLER (h : H) (t : i2c) (s : St) : H * i2c * St :=
  let '(rbne, h) := read_flag h (int_flag fl_rbne) in
  let '(addsend, h) := read_flag h (int_flag fl_addsend) in
  let '(stpdet, h) := read_flag h (int_flag fl_stpdet) in
  let '(ti, h) := read_flag h (int_flag fl_ti) in
  ev_serve (bridge_i2c_event_select rbne addsend stpdet ti) h t s.

End events.

(** ** What bring-up and the error paths do *)

Section contracts.
Context {H : Type} `{!I2cSlaveHw H}.

(** Both derivations succeed exactly at these clocks. *)
Lemma clock_supported clk :
  is_u32 clk ->
  match i2c_timing_derive clk, bridge_i2c_stretch_timeout_reload clk with
  | Some _, Some _ => 4000000 <= clk <= 335544320
  | _, _ => ~ 4000000 <= clk <= 335544320
  end.
Proof.
  intros Hu. pose proof (timing_derive_exact clk Hu) as Ht. pose proof (stretch_reload_exact clk Hu) as Hs.
  unfold timeout_in_window in Hs. destruct (i2c_timing_derive clk) as [[[psc scl] sda] |]; [| lia].
  destruct (bridge_i2c_stretch_timeout_reload clk) as [r |]; [lia |].
  intros Hc. pose proof (Z.div_mod (clk * 35000) 2048000000 ltac:(lia)).
  pose proof (Z.mod_pos_bound (clk * 35000) 2048000000 ltac:(lia)).
  set (q := clk * 35000 / 2048000000) in *.
  destruct (Z.le_gt_cases q 4096); [apply (Hs (q - 1)); lia | apply (Hs 4095); lia].
Qed.

(** C22. I2C bring-up: it succeeds exactly when the kernel clock it reads back is
    between 4 MHz and 335,544,320 Hz; a refusal has enabled the clock and set up
    the pins but never the peripheral; a success has programmed timing fields of
    four bits that meet the data setup and hold times at that clock and a stretch
    timeout of 25 to 35 ms, before the peripheral is enabled. *)
Theorem i2c_hw_init_contract (h : H) :
  let '(apb1, h1) := i2c_reg_read (i2c_dos h [rcu_i2c_clock_config; rcu_i2c_clock_enable; i2c_gpio_init]) rcu_apb1_hz in
  let clk := u32 apb1 in
  let '(rc, h') := bridge_transport_i2c_hw_init h in
  (rc = BRIDGE_HW_OK /\ 4000000 <= clk <= 335544320 /\
   exists psc scl sda reload,
     0 <= psc <= 15 /\ 0 <= scl <= 15 /\ 0 <= sda <= 15 /\ 0 <= reload <= 4095 /\
     400000 * clk <= (scl + 1) * (psc + 1) * 1000000000000 /\
     300000 * clk - 3 * 1000000000000 <= sda * (psc + 1) * 1000000000000 /\
     timeout_in_window clk reload /\
     h' = i2c_do (gpio_lock_port (gpio_lock_port (gpio_lock_port
            (i2c_dos h1 (i2c_program psc scl sda reload)) GPIOA 0x8700) GPIOB 0x8200) GPIOC 0x2000)
            fault_reset_loop_mark_healthy) \/
  (rc = BRIDGE_HW_ERR_RANGE /\ ~ 4000000 <= clk <= 335544320 /\ h' = h1).
Proof.
  unfold bridge_transport_i2c_hw_init. destruct (i2c_reg_read _ rcu_apb1_hz) as [apb1 h1]. cbv zeta.
  pose proof (timing_derive_exact (u32 apb1) (u32_u32 apb1)) as Ht.
  pose proof (stretch_reload_exact (u32 apb1) (u32_u32 apb1)) as Hs.
  pose proof (clock_supported (u32 apb1) (u32_u32 apb1)) as Hc.
  destruct (i2c_timing_derive (u32 apb1)) as [[[psc scl] sda] |]; [| by right].
  destruct (bridge_i2c_stretch_timeout_reload (u32 apb1)) as [r |]; [| by right].
  left. split; [done |]. split; [exact Hc |]. exists psc, scl, sda, r.
  unfold timeout_in_window in *. split_and!; lia || done.
Qed.

(** After an error the transport holds no request and no reply. *)
Definition resynced (t : i2c) : Prop :=
  i2c_rx_buf t = [] /\ i2c_tx_buf t = [] /\ i2c_tx_cursor t = 0 /\
  pending_reply_valid t = false /\ frame_rejected t = false.

Lemma resynced_abort (t : i2c) : resynced (i2c_slave_tx_abort (i2c_slave_write_start t)).
Proof. done. Qed.

(** A resynchronised transport dispatches nothing at the end of the transaction
    the error cut, and answers a read with NO_PENDING. *)
Lemma resynced_quiet {St} `{Dispatcher St} (t : i2c) (s : St) :
  resynced t ->
  (i2c_slave_write_end t s).1.2 = s /\ (i2c_slave_write_end t s).2 = false /\
  (i2c_read 3 t).2 = no_pending_frame.
Proof.
  intros (Hr & Hx & Hc & Hp & Hf). unfold i2c_slave_write_end, i2c_rx_len. rewrite Hp, Hf, Hr. cbn [orb length].
  split; [done |]. split; [done |].
  assert (Hn : exists a b c, no_pending_frame = [a; b; c]) by (do 3 eexists; by vm_compute).
  destruct Hn as (a & b & c & Hn). cbn [i2c_read].
  unfold i2c_slave_tx_next_byte, i2c_tx_len, stage_no_pending, stage. rewrite Hp, Hc, Hn. done.
Qed.

(** The error interrupt: without a bus error, overrun or timeout it leaves the
    transport and the counters alone; with one it leaves a transport that holds
    neither request nor reply, so that nothing of the cut transaction is
    dispatched and a read is answered NO_PENDING; and each counter moves by at
    most one. *)
Theorem er_handler_contract {St} `{Dispatcher St} (h : H) (x : i2c_hw) (t : i2c) (s : St) :
  let '(h', x', t') := BRIDGE_I2C_ER_HANDLER h x t in
  (t' = t /\ x' = x \/
   resynced t' /\ (i2c_slave_write_end t' s).1.2 = s /\ (i2c_read 3 t').2 = no_pending_frame /\
   (err_berr x' = u32 (err_berr x + 1) \/ err_ouerr x' = u32 (err_ouerr x + 1) \/
    err_timeout x' = u32 (err_timeout x + 1) /\
    bridge_i2c_timeout_recoveries x' = u32 (bridge_i2c_timeout_recoveries x + 1))) /\
  (err_berr x' = err_berr x \/ err_berr x' = u32 (err_berr x + 1)) /\
  (err_ouerr x' = err_ouerr x \/ err_ouerr x' = u32 (err_ouerr x + 1)) /\
  (bridge_i2c_timeout_recoveries x' = bridge_i2c_timeout_recoveries x /\
   bridge_i2c_reset_escalations x' = bridge_i2c_reset_escalations x \/
   bridge_i2c_timeout_recoveries x' = u32 (bridge_i2c_timeout_recoveries x + 1)) /\
  bridge_i2c_stuck_sda_escalations x' = bridge_i2c_stuck_sda_escalations x /\
  err_stuck_release x' = err_stuck_release x /\ i2c_sda_low_ticks x' = i2c_sda_low_ticks x.
Proof.
  unfold BRIDGE_I2C_ER_HANDLER. destruct (i2c_reg_read h i2c_stat) as [stat h1].
  destruct (clear_if_set h1 fl_nack) as [_ h2]. destruct (clear_if_set h2 fl_berr) as [berr h3].
  destruct (clear_if_set h3 fl_ouerr) as [ouerr h4]. unfold bridge_i2c_timeout_service.
  destruct (timeout_pending i2c_recovery_ops h4) as [timeout h5].
  pose proof (resynced_quiet (i2c_slave_tx_abort (i2c_slave_write_start t)) s (resynced_abort t)) as (Hq1 & _ & Hq2).
  destruct timeout; cbn [negb]; [destruct (bridge_i2c_bus_release _ _) as [esc h6] |];
    destruct berr, ouerr; cbn [orb set_error_counts err_berr err_ouerr err_timeout bridge_i2c_timeout_recoveries
      bridge_i2c_reset_escalations bridge_i2c_stuck_sda_escalations err_stuck_release i2c_sda_low_ticks];
    (split; [| by split_and!; auto]);
    first [by left; destruct x | right; split; [apply resynced_abort |]; split_and!; auto].
Qed.

(** The stuck-bus poll acts only on the second stuck burst in a row: one
    stuck burst only arms it and a burst that is not stuck disarms it, neither
    touching bus or transport; acting drops the staged reply, counts, and disarms. *)
Theorem stuck_poll_contract (h : H) (x : i2c_hw) (t : i2c) :
  0 <= i2c_sda_low_ticks x <= 1 ->
  let '(low, h1) := all_low BRIDGE_I2C_STUCK_SAMPLES h in
  let '(h', x', t') := bridge_transport_i2c_stuck_poll h x t in
  0 <= i2c_sda_low_ticks x' <= 1 /\
  (i2c_sda_low_ticks x' = 1 <-> low = true /\ i2c_sda_low_ticks x = 0) /\
  (low = true /\ i2c_sda_low_ticks x = 1 ->
   err_stuck_release x' = u32 (err_stuck_release x + 1) /\ t' = i2c_slave_tx_abort t /\
   h' = (bridge_i2c_bus_release i2c_recovery_ops h1).2) /\
  (~ (low = true /\ i2c_sda_low_ticks x = 1) -> h' = h1 /\ t' = t /\ x' = set_ticks (i2c_sda_low_ticks x') x).
Proof.
  intros Hx. unfold bridge_transport_i2c_stuck_poll. destruct (all_low BRIDGE_I2C_STUCK_SAMPLES h) as [[] h1]; cbn [negb].
  2: { cbn. split_and!; try lia; try done; intros; lia || done. }
  cbn [i2c_sda_low_ticks set_ticks]. rewrite u8_id by (unfold is_byte; lia).
  destruct (Z.ltb_spec (i2c_sda_low_ticks x + 1) 2).
  - cbn. split_and!; try lia; intros; try lia; split_and!; done || lia || (f_equal; lia).
  - unfold bridge_i2c_force_bus_release. destruct (bridge_i2c_bus_release i2c_recovery_ops h1) as [[] h2]; cbn;
      split_and!; try lia; try done; intros; split_and!; try lia; try done.
Qed.

End contracts.
