(* ===== verification/I2cIsr.v ===== *)
(** * The I2C interrupt on a bus

    What the I2C peripheral promises, as a class of laws over the view a slave
    has of it, and what a run of [BRIDGE_I2C_EV_HANDLER] makes of it: every bus
    event becomes exactly one transport call, in bus order. *)

From stdpp Require Import base tactics list numbers option.
From S2P Require Import Prelude Crc Wire Protocol Frame TransportI2c I2cTiming I2cBackend.

(** ** What the bus promises *)

(** What the peripheral raises for the slave, besides its wish for a next byte. *)
Inductive bus_event := ev_byte (v : Z) | ev_stop | ev_addr (read : bool).

Definition is_ev_byte (e : bus_event) : bool := match e with ev_byte _ => true | _ => false end.
Definition is_ev_stop (e : bus_event) : bool := match e with ev_stop => true | _ => false end.
Definition is_ev_addr (e : bus_event) : bool := match e with ev_addr _ => true | _ => false end.

(** The peripheral as the slave sees it: the events raised and not yet cleared,
    oldest first, all events so far, the transmit-interrupt enable, the direction
    of the last address match cleared, and the bytes handed over for sending. *)
Record bus_view := BusView {
  v_pend : list bus_event;
  v_history : list bus_event;
  v_ti : bool;
  v_tr : bool;
  v_sent : list Z }.

(** Time passes: events may be raised. *)
Definition later (v v' : bus_view) : Prop :=
  exists new, v_pend v' = v_pend v ++ new /\ v_history v' = v_history v ++ new /\
    v_ti v' = v_ti v /\ v_tr v' = v_tr v /\ v_sent v' = v_sent v.

(** What a register write does to it. *)
Definition bus_effect (op : i2c_op) (v : bus_view) : bus_view :=
  match op with
  | i2c_interrupt_flag_clear fl_addsend =>
      match v_pend v with
      | ev_addr r :: rest => BusView rest (v_history v) (v_ti v) r (v_sent v)
      | _ => v
      end
  | i2c_interrupt_flag_clear fl_stpdet =>
      match v_pend v with
      | ev_stop :: rest => BusView rest (v_history v) (v_ti v) (v_tr v) (v_sent v)
      | _ => v
      end
  | i2c_interrupt_ti on => BusView (v_pend v) (v_history v) on (v_tr v) (v_sent v)
  | i2c_data_transmit b => BusView (v_pend v) (v_history v) (v_ti v) (v_tr v) (v_sent v ++ [b])
  | _ => v
  end.

(** The writes the event interrupt makes. *)
Definition isr_op (op : i2c_op) : bool :=
  match op with
  | i2c_interrupt_flag_clear fl_addsend | i2c_interrupt_flag_clear fl_stpdet
  | i2c_interrupt_flag_clear fl_nack | i2c_interrupt_ti _ | i2c_data_transmit _
  | i2c_stat_tbe_write => true
  | _ => false
  end.

(** Reading the data register takes the pending byte. *)
Definition take_byte (v : bus_view) : bus_view :=
  match v_pend v with
  | ev_byte _ :: rest => BusView rest (v_history v) (v_ti v) (v_tr v) (v_sent v)
  | _ => v
  end.

(** What can be pending together: a byte, then a STOP, then an address match.
    A pending byte stretches the clock before the next one, a pending address
    match before anything, and after a STOP only an address can follow. *)
Definition stretched (l : list bus_event) : Prop :=
  match l with
  | [] | [_] | [ev_byte _; ev_stop] | [ev_byte _; ev_addr _] | [ev_stop; ev_addr _]
  | [ev_byte _; ev_stop; ev_addr _] => True
  | _ => False
  end.

(** The documented behaviour: flags report what is pending, clearing and reading
    act as above while time passes, a byte arrives only after a write address has
    been cleared, and the transmit flag is raised only in a read with its
    interrupt enabled. *)
Class I2cBusLaws (H : Type) `{!I2cSlaveHw H} := {
  view : H -> bus_view;
  view_read h r : r <> i2c_rdata -> later (view h) (view (i2c_reg_read h r).2);
  view_rdata h : later (take_byte (view h)) (view (i2c_reg_read h i2c_rdata).2);
  view_do h op : isr_op op = true -> later (bus_effect op (view h)) (view (i2c_do h op));
  flag_rbne h : (read_flag h (int_flag fl_rbne)).1 = existsb is_ev_byte (v_pend (view h));
  flag_addsend h : (read_flag h (int_flag fl_addsend)).1 = existsb is_ev_addr (v_pend (view h));
  flag_stpdet h : (read_flag h (int_flag fl_stpdet)).1 = existsb is_ev_stop (v_pend (view h));
  flag_ti h : (read_flag h (int_flag fl_ti)).1 = true -> v_ti (view h) = true /\ v_tr (view h) = true;
  rdata_byte h v rest : v_pend (view h) = ev_byte v :: rest -> (i2c_reg_read h i2c_rdata).1 = v;
  tr_read h r rest : v_pend (view h) = ev_addr r :: rest -> (read_flag h flag_tr).1 = r;
  view_stretched h : stretched (v_pend (view h));
  view_no_byte h : v_tr (view h) = true -> existsb is_ev_byte (v_pend (view h)) = false }.

(** ** Runs of the event interrupt *)

(** The interrupt is entered because an event is pending, or for a next byte. *)
Definition ev_entered {H} `{I2cBusLaws H} (h : H) : Prop :=
  v_pend (view h) <> [] \/ v_tr (view h) = true.

Inductive ev_run {H St} `{I2cBusLaws H} `{Dispatcher St} (h0 : H) (t0 : i2c) (s0 : St)
    : H -> i2c -> St -> Prop :=
  | er_start : ev_run h0 t0 s0 h0 t0 s0
  | er_time h h' t s : ev_run h0 t0 s0 h t s -> later (view h) (view h') -> ev_run h0 t0 s0 h' t s
  | er_isr h t s h' t' s' : ev_run h0 t0 s0 h t s -> ev_entered h ->
      BRIDGE_I2C_EV_HANDLER h t s = (h', t', s') -> ev_run h0 t0 s0 h' t' s'.

(** What the interrupt served: an event, or the wish for a byte. *)
Inductive served := sv (e : bus_event) | sv_ti.

(** The seam call each stands for. *)
Definition served_call (x : served) : i2c_call :=
  match x with
  | sv (ev_byte v) => RxByte v
  | sv (ev_addr false) => WriteStart
  | sv (ev_addr true) | sv ev_stop => WriteEnd
  | sv_ti => TxNextByte
  end.

Fixpoint served_events (l : list served) : list bus_event :=
  match l with [] => [] | sv e :: l => e :: served_events l | sv_ti :: l => served_events l end.

(** Bytes are only sent between a read address and the next event. *)
Fixpoint ti_placed (reading : bool) (l : list served) : Prop :=
  match l with
  | [] => True
  | sv (ev_addr r) :: l => ti_placed r l
  | sv ev_stop :: l => ti_placed false l
  | sv (ev_byte _) :: l => ti_placed reading l
  | sv_ti :: l => reading = true /\ ti_placed reading l
  end.

(** Whether a read is going on after [l]. *)
Fixpoint reading_after (reading : bool) (l : list served) : bool :=
  match l with
  | [] => reading
  | sv (ev_addr r) :: l => reading_after r l
  | sv ev_stop :: l => reading_after false l
  | _ :: l => reading_after reading l
  end.

(** The seam calls in order, and the bytes they produce. *)
Fixpoint play {St} `{Dispatcher St} (l : list served) (t : i2c) (s : St) : i2c * St * list Z :=
  match l with
  | [] => (t, s, [])
  | x :: l =>
      let out := match x with sv_ti => [(i2c_slave_tx_next_byte t).2] | _ => [] end in
      let '(t, s) := i2c_exec (served_call x) (t, s) in
      let '(t, s, l') := play l t s in (t, s, out ++ l')
  end.

Section served_order.
Context {H St : Type} `{I2cBusLaws H} `{Dispatcher St}.

Lemma later_refl v : later v v.
Proof. exists []. by rewrite !app_nil_r. Qed.

Lemma later_trans v1 v2 v3 : later v1 v2 -> later v2 v3 -> later v1 v3.
Proof.
  intros (n1 & P1 & Q1 & T1 & R1 & S1) (n2 & P2 & Q2 & T2 & R2 & S2). exists (n1 ++ n2).
  rewrite P2, P1, Q2, Q1, <- !app_assoc. split_and!; congruence.
Qed.

Lemma later_read h r : r <> i2c_rdata -> later (view h) (view (read_flag h r).2).
Proof. intros Hr. unfold read_flag. pose proof (view_read h r Hr). by destruct (i2c_reg_read h r). Qed.

(** The first pending event stays first. *)
Lemma later_head v v' e rest : later v v' -> v_pend v = e :: rest -> exists rest', v_pend v' = e :: rest'.
Proof. intros (new & P & _) E. rewrite E in P. by exists (rest ++ new). Qed.

Lemma stretched_head l :
  stretched l ->
  (existsb is_ev_byte l = true -> exists v rest, l = ev_byte v :: rest) /\
  (existsb is_ev_byte l = false -> existsb is_ev_stop l = true -> exists rest, l = ev_stop :: rest) /\
  (existsb is_ev_byte l = false -> existsb is_ev_stop l = false -> existsb is_ev_addr l = true ->
   exists r rest, l = ev_addr r :: rest) /\
  (existsb is_ev_byte l = false -> existsb is_ev_stop l = false -> existsb is_ev_addr l = false -> l = []).
Proof.
  destruct l as [| [v | | r] [| [v2 | | r2] [| [v3 | | r3] [| ? ?]]]]; cbn; intros Hs;
    split_and!; intros; try done; eauto.
Qed.

Lemma existsb_later (f : bus_event -> bool) v v' :
  later v v' -> existsb f (v_pend v') = false -> existsb f (v_pend v) = false.
Proof. intros (new & -> & _). rewrite existsb_app. apply orb_false_elim. Qed.

Lemma later_ti v v' : later v v' -> v_ti v' = v_ti v.
Proof. by intros (? & _ & _ & ? & _). Qed.

Lemma later_tr v v' : later v v' -> v_tr v' = v_tr v.
Proof. by intros (? & _ & _ & _ & ? & _). Qed.

(** The effect of one service on the view: [l] leaves the front of the queue. *)
Definition served_view (l : list served) (out : list Z) (v v' : bus_view) : Prop :=
  exists new, v_history v' = v_history v ++ new /\
    v_pend v ++ new = served_events l ++ v_pend v' /\ v_sent v' = v_sent v ++ out /\
    ti_placed (v_ti v && v_tr v) l /\
    (v_ti v' && v_tr v' = true -> reading_after (v_ti v && v_tr v) l = true).

(** Time passes and the transmit switches may change. *)
Definition grown (v v' : bus_view) : Prop :=
  exists new, v_pend v' = v_pend v ++ new /\ v_history v' = v_history v ++ new /\ v_sent v' = v_sent v.

Lemma later_grown v v' : later v v' -> grown v v'.
Proof. intros (n & ? & ? & _ & _ & ?). by exists n. Qed.

Lemma grown_trans v1 v2 v3 : grown v1 v2 -> grown v2 v3 -> grown v1 v3.
Proof.
  intros (n1 & P1 & Q1 & S1) (n2 & P2 & Q2 & S2). exists (n1 ++ n2).
  rewrite P2, P1, Q2, Q1, <- !app_assoc. split_and!; congruence.
Qed.

(** A write that takes no event and sends no byte. *)
Definition quiet_op (op : i2c_op) : bool :=
  match op with
  | i2c_interrupt_flag_clear fl_nack | i2c_interrupt_ti _ | i2c_stat_tbe_write => true
  | _ => false
  end.

Definition ti_after (op : i2c_op) (on : bool) : bool :=
  match op with i2c_interrupt_ti on => on | _ => on end.

Lemma quiet_grown h op :
  quiet_op op = true ->
  grown (view h) (view (i2c_do h op)) /\ v_tr (view (i2c_do h op)) = v_tr (view h) /\
  v_ti (view (i2c_do h op)) = ti_after op (v_ti (view h)).
Proof.
  intros Hq. destruct (view_do h op) as (n & P & Q & T & R & S); [destruct op; try done; by destruct f |].
  destruct op; try done; try (destruct f; try done); cbn in *; (split; [by exists n | done]).
Qed.

Lemma quiets_grown ops : forall h,
  forallb quiet_op ops = true ->
  grown (view h) (view (i2c_dos h ops)) /\ v_tr (view (i2c_dos h ops)) = v_tr (view h) /\
  v_ti (view (i2c_dos h ops)) = foldl (fun on op => ti_after op on) (v_ti (view h)) ops.
Proof.
  induction ops as [| op ops IH]; intros h Hq; [split; [apply later_grown, later_refl | done] |].
  apply andb_prop in Hq as [Ho Hq]. destruct (quiet_grown h op Ho) as (G & R & T).
  destruct (IH (i2c_do h op) Hq) as (G' & R' & T').
  change (i2c_dos h (op :: ops)) with (i2c_dos (i2c_do h op) ops).
  split_and!; [by eapply grown_trans | congruence | rewrite T', T; done].
Qed.

(** Serving the head [e], in three phases: time, one effect that takes it, then
    quiet writes. *)
Lemma served_head e rest v1 v2 v3 v4 :
  later v1 v2 -> v_pend v2 = e :: rest -> v_pend v3 = rest -> v_history v3 = v_history v2 ->
  v_sent v3 = v_sent v2 -> grown v3 v4 ->
  (v_ti v4 && v_tr v4 = true -> reading_after (v_ti v1 && v_tr v1) [sv e] = true) ->
  served_view [sv e] [] v1 v4.
Proof.
  intros (n1 & P1 & Q1 & T1 & R1 & S1) E P3 Q3 S3 (n2 & P4 & Q4 & S4) Hr.
  exists (n1 ++ n2). split_and!; [| | rewrite app_nil_r; congruence | by destruct e | done].
  - by rewrite Q4, Q3, Q1, app_assoc.
  - by rewrite app_assoc, <- P1, E, P4, P3.
Qed.

(** One service of the interrupt: what it does to the transport, and to the bus. *)
Definition serves (h : H) (t : i2c) (s : St) (x : H * i2c * St) : Prop :=
  exists l out, play l t s = (x.1.2, x.2, out) /\ served_view l out (view h) (view x.1.1).

Lemma serve_rbne h h4 t s v rest :
  later (view h) (view h4) -> v_pend (view h4) = ev_byte v :: rest ->
  serves h t s (ev_serve BRIDGE_I2C_EVENT_RBNE h4 t s).
Proof.
  intros L E. cbn [ev_serve]. pose proof (rdata_byte h4 v rest E) as Hv. pose proof (view_rdata h4) as L5.
  destruct (i2c_reg_read h4 i2c_rdata) as [v' h5]. cbn [fst snd] in Hv, L5. subst v'.
  exists [sv (ev_byte v)], []. split; [done |].
  eapply (served_head (ev_byte v) rest _ _ (take_byte (view h4)));
    [exact L | exact E | | | | apply later_grown, L5 |]; [unfold take_byte; rewrite E; done .. |].
  destruct L as (n & _ & _ & T & R & _), L5 as (n' & _ & _ & T' & R' & _).
  unfold take_byte in T', R'. rewrite E in T', R'. cbn in T', R' |- *. by rewrite T', R', T, R.
Qed.

(** Clearing the head [e], then quiet writes. *)
Lemma served_clear f e rest h h4 ops :
  (f = fl_stpdet /\ e = ev_stop \/ f = fl_addsend /\ exists r, e = ev_addr r) ->
  later (view h) (view h4) -> v_pend (view h4) = e :: rest -> forallb quiet_op ops = true ->
  let h5 := i2c_do h4 (i2c_interrupt_flag_clear f) in
  (v_ti (view (i2c_dos h5 ops)) && v_tr (view (i2c_dos h5 ops)) = true ->
   reading_after (v_ti (view h) && v_tr (view h)) [sv e] = true) ->
  served_view [sv e] [] (view h) (view (i2c_dos h5 ops)).
Proof.
  intros Hf L E Hq h5 Hr. destruct (quiets_grown ops h5 Hq) as (G & _ & _).
  assert (Hop : isr_op (i2c_interrupt_flag_clear f) = true) by (by destruct Hf as [[-> _] | [-> _]]).
  pose proof (view_do h4 _ Hop) as L5. fold h5 in L5.
  apply (served_head e rest _ _ (bus_effect (i2c_interrupt_flag_clear f) (view h4)) _ L E);
    [destruct Hf as [[-> ->] | [-> [r ->]]]; cbn; rewrite E; done .. | | exact Hr].
  eapply grown_trans; [apply later_grown, L5 | exact G].
Qed.

Lemma serve_stop h h4 t s rest :
  later (view h) (view h4) -> v_pend (view h4) = ev_stop :: rest ->
  serves h t s (ev_serve BRIDGE_I2C_EVENT_STPDET h4 t s).
Proof.
  intros L E. cbn [ev_serve].
  set (quiet := [i2c_interrupt_flag_clear fl_nack; i2c_interrupt_ti false; i2c_stat_tbe_write]).
  destruct (quiets_grown quiet (i2c_do h4 (i2c_interrupt_flag_clear fl_stpdet)) eq_refl) as (_ & _ & T).
  change (i2c_dos h4 _) with (i2c_dos (i2c_do h4 (i2c_interrupt_flag_clear fl_stpdet)) quiet).
  destruct (i2c_slave_write_end t s) as [[t1 s1] b] eqn:Ew.
  exists [sv ev_stop], []. split; [cbn; by rewrite Ew |].
  apply (served_clear fl_stpdet ev_stop rest); [by left | done | done | done |].
  rewrite T. done.
Qed.

Lemma serve_addr h h4 t s r rest :
  later (view h) (view h4) -> v_pend (view h4) = ev_addr r :: rest ->
  serves h t s (ev_serve BRIDGE_I2C_EVENT_ADDSEND h4 t s).
Proof.
  intros L E4. cbn [ev_serve].
  pose proof (tr_read h4 r rest E4) as Hr. pose proof (later_read h4 flag_tr ltac:(done)) as L5.
  destruct (read_flag h4 flag_tr) as [r' h5]. cbn [fst snd] in Hr, L5. subst r'.
  destruct (later_head _ _ _ _ L5 E4) as [rest5 E5]. pose proof (later_trans _ _ _ L L5) as L05.
  pose proof (served_clear fl_addsend (ev_addr r) rest5 h h5) as Hs.
  specialize (fun ops => Hs ops (or_intror (conj eq_refl (ex_intro _ r eq_refl))) L05 E5).
  destruct r.
  - destruct (i2c_slave_write_end t s) as [[t1 s1] b] eqn:Ew.
    exists [sv (ev_addr true)], []. split; [cbn; by rewrite Ew |].
    by apply (Hs [i2c_stat_tbe_write; i2c_interrupt_ti true]).
  - exists [sv (ev_addr false)], []. split; [done |]. apply (Hs []); [done |].
    unfold i2c_dos. cbn [foldl]. rewrite (later_tr _ _ (view_do h5 (i2c_interrupt_flag_clear fl_addsend) eq_refl)).
    cbn. rewrite E5. cbn. by rewrite andb_false_r.
Qed.

Lemma serve_ti h h4 t s :
  later (view h) (view h4) -> v_pend (view h) = [] -> v_ti (view h) = true -> v_tr (view h) = true ->
  serves h t s (ev_serve BRIDGE_I2C_EVENT_TI h4 t s).
Proof.
  intros (n & P & Q & T & R & S) He Hti Htr. cbn [ev_serve].
  pose proof (view_do h4 (i2c_data_transmit (i2c_slave_tx_next_byte t).2) eq_refl) as L5.
  destruct (i2c_slave_tx_next_byte t) as [t1 v] eqn:En. cbn [snd] in L5.
  exists [sv_ti], [v]. split; [cbn; by rewrite En |].
  destruct L5 as (n' & P' & Q' & T' & R' & S'). cbn in P', Q', T', R', S'.
  exists (n ++ n'). cbn [fst snd]. rewrite P', P, Q', Q, S', S, Hti, Htr, <- !app_assoc. by split_and!.
Qed.

Lemma serve_none h h4 t s :
  later (view h) (view h4) -> serves h t s (ev_serve BRIDGE_I2C_EVENT_NONE h4 t s).
Proof.
  intros (n & P & Q & T & R & S). exists [], []. split; [done |].
  destruct (quiet_grown h4 (i2c_interrupt_flag_clear fl_nack) eq_refl) as ((n' & P' & Q' & S') & R' & T').
  cbn in T'. exists (n ++ n'). cbn [fst snd ev_serve].
  rewrite P', P, Q', Q, S', S, R', T', R, T, <- !app_assoc, app_nil_r. by split_and!.
Qed.

(** No byte can become pending behind the first flag read. *)
Lemma no_late_byte h g :
  ev_entered h -> existsb is_ev_byte (v_pend (view h)) = false -> later (view h) (view g) ->
  existsb is_ev_byte (v_pend (view g)) = false.
Proof.
  intros [Hne | Htr] Hb L; [| apply view_no_byte; by rewrite (later_tr _ _ L)].
  destruct (existsb is_ev_byte (v_pend (view g))) eqn:E; [| done].
  destruct (stretched_head _ (view_stretched g)) as [Hh _]. destruct (Hh E) as (v & rest & Ev).
  destruct (v_pend (view h)) as [| e l] eqn:E0; [done |].
  destruct (later_head _ _ _ _ L E0) as [rest' E']. rewrite Ev in E'. injection E' as <- _. done.
Qed.

Lemma ev_handler_serves h t s : ev_entered h -> serves h t s (BRIDGE_I2C_EV_HANDLER h t s).
Proof.
  intros Hin. unfold BRIDGE_I2C_EV_HANDLER.
  pose proof (later_read h (int_flag fl_rbne) ltac:(done)) as L0. pose proof (flag_rbne h) as F0.
  destruct (read_flag h (int_flag fl_rbne)) as [rbne h1]. cbn [fst snd] in L0, F0.
  pose proof (later_read h1 (int_flag fl_addsend) ltac:(done)) as L1. pose proof (flag_addsend h1) as F1.
  destruct (read_flag h1 (int_flag fl_addsend)) as [addsend h2]. cbn [fst snd] in L1, F1.
  pose proof (later_read h2 (int_flag fl_stpdet) ltac:(done)) as L2. pose proof (flag_stpdet h2) as F2.
  destruct (read_flag h2 (int_flag fl_stpdet)) as [stpdet h3]. cbn [fst snd] in L2, F2.
  pose proof (later_read h3 (int_flag fl_ti) ltac:(done)) as L3. pose proof (flag_ti h3) as F3.
  destruct (read_flag h3 (int_flag fl_ti)) as [ti h4]. cbn [fst snd] in L3, F3.
  pose proof (later_trans _ _ _ L0 L1) as L02. pose proof (later_trans _ _ _ L02 L2) as L03.
  pose proof (later_trans _ _ _ L03 L3) as L04. pose proof (later_trans _ _ _ L2 L3) as L24.
  destruct (stretched_head _ (view_stretched h)) as (Hb & _ & _ & He).
  destruct (stretched_head _ (view_stretched h1)) as (_ & _ & Ha & _).
  destruct (stretched_head _ (view_stretched h2)) as (_ & Hs & _ & _).
  unfold bridge_i2c_event_select. destruct rbne; symmetry in F0.
  { destruct (Hb F0) as (v & rest & E). destruct (later_head _ _ _ _ L04 E) as [rest' E4].
    by apply (serve_rbne h h4 t s v rest'). }
  destruct stpdet; symmetry in F2.
  { destruct (Hs (no_late_byte h h2 Hin F0 L02) F2) as [rest E]. destruct (later_head _ _ _ _ L24 E) as [rest' E4].
    by apply (serve_stop h h4 t s rest'). }
  pose proof (existsb_later _ _ _ L1 F2) as Hns1. destruct addsend; symmetry in F1.
  { destruct (Ha (no_late_byte h h1 Hin F0 L0) Hns1 F1) as (r & rest & E).
    destruct (later_head _ _ _ _ (later_trans _ _ _ L1 L24) E) as [rest' E4].
    by apply (serve_addr h h4 t s r rest'). }
  pose proof (He F0 (existsb_later _ _ _ L0 Hns1) (existsb_later _ _ _ L0 F1)) as Hempty.
  destruct ti; [| by apply serve_none]. destruct (F3 eq_refl) as [Hti Htr].
  apply serve_ti; [done | done | by rewrite <- (later_ti _ _ L03) | by rewrite <- (later_tr _ _ L03)].
Qed.

(** ** Composition of services *)

Lemma play_app l1 : forall l2 (t : i2c) (s : St),
  play (l1 ++ l2) t s =
  let '(t1, s1, o1) := play l1 t s in let '(t2, s2, o2) := play l2 t1 s1 in (t2, s2, o1 ++ o2).
Proof.
  induction l1 as [| x l1 IH]; intros l2 t s; cbn [play app]; [by destruct (play l2 t s) as [[? ?] ?] |].
  destruct (i2c_exec (served_call x) (t, s)) as [t1 s1]. rewrite IH.
  destruct (play l1 t1 s1) as [[t2 s2] o2]. destruct (play l2 t2 s2) as [[t3 s3] o3]. by rewrite app_assoc.
Qed.

Lemma reading_mono l : forall b1 b2,
  (b1 = true -> b2 = true) -> reading_after b1 l = true -> reading_after b2 l = true.
Proof. induction l as [| [[] |] l IH]; intros b1 b2 Hb; cbn; eauto. Qed.

Lemma ti_placed_mono l : forall b1 b2, (b1 = true -> b2 = true) -> ti_placed b1 l -> ti_placed b2 l.
Proof.
  induction l as [| [[v | | r] |] l IH]; intros b1 b2 Hb; cbn; eauto. intros [-> Hp]. split; [auto | eauto].
Qed.

Lemma ti_placed_app l1 : forall l2 b, ti_placed b (l1 ++ l2) <-> ti_placed b l1 /\ ti_placed (reading_after b l1) l2.
Proof. induction l1 as [| [[v | | r] |] l1 IH]; intros l2 b; cbn; rewrite ?IH; tauto. Qed.

Lemma reading_app l1 : forall l2 b, reading_after b (l1 ++ l2) = reading_after (reading_after b l1) l2.
Proof. induction l1 as [| [[v | | r] |] l1 IH]; intros l2 b; cbn; auto. Qed.

Lemma served_events_app l1 l2 : served_events (l1 ++ l2) = served_events l1 ++ served_events l2.
Proof. induction l1 as [| [e |] l1 IH]; cbn; by rewrite ?IH. Qed.

Lemma served_view_trans l1 o1 l2 o2 v1 v2 v3 :
  served_view l1 o1 v1 v2 -> served_view l2 o2 v2 v3 -> served_view (l1 ++ l2) (o1 ++ o2) v1 v3.
Proof.
  intros (n1 & Q1 & E1 & S1 & P1 & R1) (n2 & Q2 & E2 & S2 & P2 & R2). exists (n1 ++ n2). split_and!.
  - by rewrite Q2, Q1, app_assoc.
  - by rewrite app_assoc, E1, served_events_app, <- !app_assoc, E2.
  - by rewrite S2, S1, app_assoc.
  - apply ti_placed_app. split; [done | by eapply ti_placed_mono].
  - intros Hr. rewrite reading_app. eapply reading_mono; [exact R1 | by apply R2].
Qed.

Lemma later_served v v' : later v v' -> served_view [] [] v v'.
Proof.
  intros (n & P & Q & T & R & S). exists n. rewrite T, R, app_nil_r. by split_and!.
Qed.

Lemma ev_run_serves h0 t0 s0 h t s :
  ev_run h0 t0 s0 h t s ->
  exists l out, play l t0 s0 = (t, s, out) /\ served_view l out (view h0) (view h).
Proof.
  induction 1 as [| h h' t s _ (l & out & Hp & Hv) L | h t s h' t' s' _ (l & out & Hp & Hv) Hin Hx].
  - exists [], []. split; [done | apply later_served, later_refl].
  - exists l, out. split; [done |]. rewrite <- (app_nil_r l), <- (app_nil_r out).
    by eapply served_view_trans, later_served.
  - destruct (ev_handler_serves h t s Hin) as (l2 & out2 & Hp2 & Hv2). rewrite Hx in Hp2, Hv2. cbn [fst snd] in *.
    exists (l ++ l2), (out ++ out2). rewrite play_app, Hp, Hp2. split; [done | by eapply served_view_trans].
Qed.

End served_order.

(** ** Transactions *)

Section transactions.
Context {H St : Type} `{I2cBusLaws H} `{DispatcherLaws St}.

Lemma play_reads k : forall (t : i2c) (s : St),
  play (replicate k sv_ti) t s = ((i2c_read k t).1, s, (i2c_read k t).2).
Proof.
  induction k as [| k IH]; intros t s; [done |]. cbn [replicate play served_call i2c_exec fst snd i2c_read].
  rewrite IH. destruct (i2c_slave_tx_next_byte t) as [t' v]. cbn [fst snd]. by destruct (i2c_read k t').
Qed.

Lemma play_bytes bytes : forall (t : i2c) (s : St),
  bytes_ok bytes ->
  play (map (fun v => sv (ev_byte v)) bytes) t s = (foldl (fun t v => i2c_slave_rx_byte v t) t bytes, s, []).
Proof.
  induction bytes as [| v bytes IH]; intros t s Hb; [done |]. apply list.Forall_cons in Hb as [Hv Hb].
  cbn [map play served_call i2c_exec fst snd foldl]. rewrite u8_id, IH by done. done.
Qed.

(** Reading a staged reply from its start: the reply, then 0xFF. *)
Lemma i2c_read_out n : forall t : i2c,
  pending_reply_valid t = true -> 0 <= i2c_tx_cursor t <= i2c_tx_len t ->
  let rest := drop (Z.to_nat (i2c_tx_cursor t)) (i2c_tx_buf t) in
  (i2c_read n t).2 = take n rest ++ replicate (n - length rest) 0xFF.
Proof.
  induction n as [| n IH]; intros t Hp Hc; [done |]. cbn [i2c_read]. unfold i2c_slave_tx_next_byte.
  rewrite Hp. cbn [negb andb]. destruct (Z.ltb_spec (i2c_tx_cursor t) (i2c_tx_len t)) as [Hlt | Hge].
  - set (t' := I2c _ _ _ _ _ _). specialize (IH t' Hp).
    destruct (i2c_read n t') as [t'' l]. cbn [snd] in *. rewrite IH by (unfold i2c_tx_len, t' in *; cbn in *; lia).
    unfold t', i2c_tx_len in *. cbn [i2c_tx_cursor i2c_tx_buf]. clear IH.
    replace (Z.to_nat (i2c_tx_cursor t + 1)) with (S (Z.to_nat (i2c_tx_cursor t))) by lia.
    unfold at_. destruct (i2c_tx_buf t !! Z.to_nat (i2c_tx_cursor t)) as [v |] eqn:Ev.
    + by rewrite (drop_S _ _ _ Ev).
    + apply lookup_ge_None in Ev. lia.
  - specialize (IH t Hp Hc). destruct (i2c_read n t) as [t'' l]. cbn [snd] in *. rewrite IH.
    unfold i2c_tx_len in *. rewrite drop_ge by lia. cbn [length take]. rewrite take_nil, Nat.sub_0_r. done.
Qed.

(** A log with one read address at its end: bytes are sent only after it. *)
Lemma log_shape l : forall w,
  ti_placed false l -> served_events l = w ++ [ev_addr true] -> Forall (fun e => e <> ev_addr true) w ->
  exists k, l = map sv w ++ sv (ev_addr true) :: replicate k sv_ti.
Proof.
  induction l as [| [e |] l IH]; intros w Hp He Hw; [by destruct w | | by destruct Hp].
  destruct w as [| e' w]; cbn in He; injection He as -> He.
  - assert (Hn : forall l, served_events l = [] -> l = replicate (length l) sv_ti).
    { clear. induction l as [| [|] l IH]; cbn; intros E; try done. by rewrite <- IH. }
    exists (length l). cbn [map app]. by rewrite <- (Hn l He).
  - apply list.Forall_cons in Hw as [Hne Hw].
    assert (Hp' : ti_placed false l) by (destruct e' as [| | []]; cbn in Hp; done).
    destruct (IH w Hp' He Hw) as [k ->]. by exists k.
Qed.

Lemma i2c_request_bytes cmd payload : is_byte cmd -> bytes_ok payload -> bytes_ok (i2c_request cmd payload).
Proof.
  intros Hc Hp. unfold i2c_request. constructor; [done |]. apply crc_frame_bytes. by constructor.
Qed.

(** C20. Interrupt-driven I2C serves the bus in order: however the event
    interrupt is entered and however events arrive while it reads its flags one
    by one, the transport has seen exactly the calls of the events that left the
    peripheral, oldest first, none lost, doubled or swapped; and the bytes handed
    over for sending are those its next-byte calls returned, only in a read. *)
Theorem ev_isr_serves_in_order (h0 : H) (t0 : i2c) (s0 : St) h t s :
  ev_run h0 t0 s0 h t s ->
  exists l out new,
    play l t0 s0 = (t, s, out) /\
    v_history (view h) = v_history (view h0) ++ new /\
    v_pend (view h0) ++ new = served_events l ++ v_pend (view h) /\
    v_sent (view h) = v_sent (view h0) ++ out /\
    ti_placed (v_ti (view h0) && v_tr (view h0)) l.
Proof.
  intros Hr. destruct (ev_run_serves _ _ _ _ _ _ Hr) as (l & out & Hp & new & Hh & He & Hs & Ht & _).
  by exists l, out, new.
Qed.

(** C21. One command over interrupt-driven I2C: when the host writes the envelope
    of a command and addresses the bridge for reading, after a STOP or by a
    repeated START, the command is dispatched exactly once and the bytes sent are
    the CRC envelope of its result, then 0xFF. *)
Theorem i2c_isr_round_trip (h0 : H) (t0 : i2c) (s0 : St) h t s cmd payload mid :
  ev_run h0 t0 s0 h t s ->
  is_byte cmd -> bytes_ok payload -> Z.of_nat (length payload) <= GD32_BRIDGE_MAX_PAYLOAD_BYTES ->
  v_pend (view h0) = [] -> v_ti (view h0) = false ->
  mid = [] \/ mid = [ev_stop] ->
  v_history (view h) =
    v_history (view h0) ++
    (ev_addr false :: map ev_byte (i2c_request cmd payload)) ++ mid ++ [ev_addr true] ->
  v_pend (view h) = [] ->
  let y := dispatch GD32_BRIDGE_LINK_I2C cmd payload GD32_BRIDGE_MAX_PAYLOAD_BYTES s0 in
  let frame := crc_frame (status_code y.2.1 :: reply_payload y.2) in
  s = y.1 /\
  exists k, v_sent (view h) = v_sent (view h0) ++ take k frame ++ replicate (k - length frame) 0xFF.
Proof.
  intros Hr Hc Hp Hl He0 Hti Hmid Hh He y frame.
  destruct (ev_run_serves _ _ _ _ _ _ Hr) as (l & out & Hpl & new & Hh' & Hev & Hs & Ht & _).
  rewrite Hh in Hh'. apply app_inv_head in Hh'. subst new. rewrite He0, He, app_nil_l, app_nil_r in Hev.
  rewrite Hti in Ht. rewrite app_assoc in Hev.
  destruct (log_shape l _ Ht (eq_sym Hev)) as [k ->].
  { apply Forall_app. split; [constructor; [done |] | by destruct Hmid as [-> | ->]; repeat constructor].
  apply Forall_map, Forall_forall. done. }
  rewrite Hs. cbn [map app] in Hpl. rewrite map_app, map_map, <- !app_assoc in Hpl.
  cbn [play served_call i2c_exec fst snd] in Hpl.
  rewrite play_app, play_bytes in Hpl by by apply i2c_request_bytes.
  pose proof (write_end_request t0 s0 cmd payload Hl) as Hw. cbv zeta in Hw. fold y frame in Hw.
  unfold i2c_write in Hw. set (t1 := foldl _ _ _) in Hw, Hpl.
  set (t2 := I2c _ frame 0 true false _) in Hw.
  assert (Hw2 : i2c_slave_write_end t2 y.1 = (t2, y.1, true)).
  { unfold i2c_slave_write_end, i2c_tx_len, t2. cbn [i2c_tx_buf i2c_tx_cursor pending_reply_valid frame_rejected orb].
    unfold frame. rewrite length_crc_frame. destruct (Z.leb_spec (Z.of_nat (length (status_code y.2.1 :: reply_payload y.2) + 2)) 0); [lia | done]. }
  assert (Hfin : (t, s, out) = ((i2c_read k t2).1, y.1, (i2c_read k t2).2)).
  { rewrite <- Hpl. destruct Hmid as [-> | ->]; cbn [map app].
    - cbn [play served_call i2c_exec fst snd]. rewrite Hw. cbn [fst snd]. by rewrite play_reads.
    - cbn [play served_call i2c_exec fst snd]. rewrite Hw. cbn [fst snd]. rewrite Hw2. cbn [fst snd].
      by rewrite play_reads. }
  injection Hfin as _ -> ->. split; [done |]. exists k. f_equal.
  rewrite i2c_read_out; [by cbn [t2 i2c_tx_cursor i2c_tx_buf]; rewrite drop_0 | done |].
  unfold i2c_tx_len, t2. cbn [i2c_tx_cursor i2c_tx_buf]. lia.
Qed.

End transactions.
