(* ===== verification/PwmTimer.v ===== *)
(** * The PWM timers as the firmware sees them

    Register calls of the two advanced timers and of the pads, and the class
    [TimerLaws] of what the reference manual promises about them: preloaded
    reload and compare values become active at an update event, an update event
    in single-pulse mode stops the counter, UPDIS holds update events off. *)

From stdpp Require Import base tactics list numbers option relations.
From S2P Require Import Prelude.

Inductive timer_id := TIMER0 | TIMER7.

#[export] Instance timer_id_eq : EqDecision timer_id.
Proof. solve_decision. Defined.

(** The two output compare modes the firmware uses. *)
Inductive oc_mode := TIMER_OC_MODE_PWM0 | TIMER_OC_MODE_PWM1.

(** Wire modes of a sync slave, [TIMER_SLAVE_MODE_*] and the decoder mode. *)
Inductive slave_mode :=
  | TIMER_SLAVE_MODE_DISABLE | TIMER_SLAVE_MODE_RESTART | TIMER_SLAVE_MODE_PAUSE
  | TIMER_SLAVE_MODE_EVENT | TIMER_SLAVE_MODE_EXTERNAL0 | TIMER_QUAD_DECODER_MODE1.

#[export] Instance slave_mode_eq : EqDecision slave_mode.
Proof. solve_decision. Defined.

(** A capture unit: channel [n] of the classic or of the multi-mode stage. *)
Inductive cap_unit := TIMER_CH (n : nat) | TIMER_MCH (n : nat).

#[export] Instance cap_unit_eq : EqDecision cap_unit.
Proof. solve_decision. Defined.

Inductive timer_flag := TIMER_FLAG_UP | TIMER_FLAG_CAP (u : cap_unit).

Inductive gpio_port := GPIOA | GPIOB | GPIOC | GPIOD.

(** Bits of CTL0 the firmware names. *)
Definition TIMER_CTL0_CEN : Z := 0x1.
Definition TIMER_CTL0_UPDIS : Z := 0x2.
Definition TIMER_CTL0_SPM : Z := 0x8.
Definition TIMER_CTL0_CAM : Z := 0x60.
Definition TIMER_CTL0_ARSE : Z := 0x80.

(** Library calls on one timer; [ch] is a compare channel. *)
Inductive timer_op :=
  | timer_deinit | timer_init (prescaler period : Z)
  | timer_auto_reload_shadow_enable | timer_primary_output_enable
  | timer_enable | timer_disable
  | timer_ctl0_write (w : Z)
  | timer_channel_output_config (ch : nat) (outn : bool)
  | timer_channel_output_pulse_value_config (ch : nat) (v : Z)
  | timer_channel_output_mode_config (ch : nat) (m : oc_mode)
  | timer_channel_output_shadow_enable (ch : nat)
  | timer_channel_complementary_output_disable (ch : nat)
  | timer_multi_mode_independent (u : cap_unit)
  | timer_multi_mode_complementary (u : cap_unit)
  | timer_input_capture_config (u : cap_unit) (edge : Z)
  | timer_single_pulse_mode_config (single : bool)
  | timer_autoreload_value_config (v : Z)
  | timer_counter_value_config (v : Z)
  | timer_event_upg
  | timer_flag_clear (f : timer_flag)
  | timer_trgo_source_update | timer_master_slave_enable
  | timer_input_trigger_source_select (iti : Z)
  | timer_slave_mode_select (m : slave_mode).

Inductive pwm_op :=
  | on_timer (p : timer_id) (op : timer_op)
  | rcu_timer_enable (p : timer_id)
  | gpio_mode_af (port : gpio_port) (pullup : bool) (pin : Z)
  | gpio_output_options_pp (port : gpio_port) (pin : Z)
  | gpio_af_set (port : gpio_port) (af pin : Z).

Inductive pwm_reg :=
  | TIMER_CTL0 (p : timer_id) | TIMER_CAR (p : timer_id)
  | capture_value (p : timer_id) (u : cap_unit)
  | timer_flag_get (p : timer_id) (f : timer_flag).

Class TimerHw (H : Type) := {
  tim_do : H -> pwm_op -> H;
  tim_read : H -> pwm_reg -> Z * H;
  cam_code : Z -> Z }.

(** ** What a timer holds *)

(** A compare channel: preloaded and active compare value, mode, whether the
    value is preloaded, the complementary output, and who owns its pad. *)
Record oc := Oc {
  cv_pre : Z; cv_act : Z; oc_pwm1 : bool; oc_shadow : bool; ccxn : bool; mch_indep : bool }.

Record tmr := Tmr {
  ctl0 : Z;
  car_pre : Z; car_act : Z;
  cnt : Z;
  upif : bool;
  ocs : list oc;
  smc : slave_mode }.

Definition cen (t : tmr) : bool := Z.testbit (ctl0 t) 0.
Definition updis (t : tmr) : bool := Z.testbit (ctl0 t) 1.
Definition spm (t : tmr) : bool := Z.testbit (ctl0 t) 3.
Definition arse (t : tmr) : bool := Z.testbit (ctl0 t) 7.
Definition cam (t : tmr) : Z := Z.land (ctl0 t) TIMER_CTL0_CAM.
Definition enslaved (t : tmr) : bool := bool_decide (smc t <> TIMER_SLAVE_MODE_DISABLE).

Definition oc0 : oc := Oc 0 0 false false false false.
Definition ch_of (t : tmr) (c : nat) : oc := default oc0 (ocs t !! c).

Definition set_ctl0 (w : Z) (t : tmr) : tmr :=
  Tmr w (car_pre t) (car_act t) (cnt t) (upif t) (ocs t) (smc t).
Definition set_car (pre act : Z) (t : tmr) : tmr :=
  Tmr (ctl0 t) pre act (cnt t) (upif t) (ocs t) (smc t).
Definition set_cnt (n : Z) (t : tmr) : tmr :=
  Tmr (ctl0 t) (car_pre t) (car_act t) n (upif t) (ocs t) (smc t).
Definition set_upif (b : bool) (t : tmr) : tmr :=
  Tmr (ctl0 t) (car_pre t) (car_act t) (cnt t) b (ocs t) (smc t).
Definition set_smc (m : slave_mode) (t : tmr) : tmr :=
  Tmr (ctl0 t) (car_pre t) (car_act t) (cnt t) (upif t) (ocs t) m.
Definition set_oc (c : nat) (o : oc) (t : tmr) : tmr :=
  Tmr (ctl0 t) (car_pre t) (car_act t) (cnt t) (upif t) (<[c := o]> (ocs t)) (smc t).

Definition promote (o : oc) : oc :=
  Oc (cv_pre o) (cv_pre o) (oc_pwm1 o) (oc_shadow o) (ccxn o) (mch_indep o).

(** An update event: preloads become active, the counter restarts, single-pulse
    mode stops it. *)
Definition update_event (t : tmr) : tmr :=
  if updis t then t
  else Tmr (if spm t then Z.clearbit (ctl0 t) 0 else ctl0 t) (car_pre t) (car_pre t) 0 true
         (promote <$> ocs t) (smc t).

(** The documented effect of a call on its timer. *)
Definition op_effect (op : timer_op) (t : tmr) : tmr :=
  match op with
  | timer_deinit => Tmr 0 0xFFFF 0xFFFF 0 false (replicate 4 oc0) TIMER_SLAVE_MODE_DISABLE
  | timer_init _ period => set_upif true (set_car period period (set_ctl0 (Z.land (ctl0 t) (Z.lnot TIMER_CTL0_CAM)) t))
  | timer_auto_reload_shadow_enable => set_ctl0 (Z.setbit (ctl0 t) 7) t
  | timer_enable => set_ctl0 (Z.setbit (ctl0 t) 0) t
  | timer_disable => set_ctl0 (Z.clearbit (ctl0 t) 0) t
  | timer_ctl0_write w => set_ctl0 (u32 w) t
  | timer_channel_output_config c outn =>
      let o := ch_of t c in
      set_oc c (Oc (cv_pre o) (cv_act o) (oc_pwm1 o) (oc_shadow o) outn (mch_indep o)) t
  | timer_channel_output_pulse_value_config c v =>
      let o := ch_of t c in
      set_oc c (Oc v (if oc_shadow o then cv_act o else v) (oc_pwm1 o) (oc_shadow o) (ccxn o) (mch_indep o)) t
  | timer_channel_output_mode_config c m =>
      let o := ch_of t c in
      set_oc c (Oc (cv_pre o) (cv_act o) (match m with TIMER_OC_MODE_PWM1 => true | _ => false end)
                  (oc_shadow o) (ccxn o) (mch_indep o)) t
  | timer_channel_output_shadow_enable c =>
      let o := ch_of t c in
      set_oc c (Oc (cv_pre o) (cv_act o) (oc_pwm1 o) true (ccxn o) (mch_indep o)) t
  | timer_channel_complementary_output_disable c =>
      let o := ch_of t c in
      set_oc c (Oc (cv_pre o) (cv_act o) (oc_pwm1 o) (oc_shadow o) false (mch_indep o)) t
  | timer_multi_mode_independent (TIMER_MCH c) =>
      let o := ch_of t c in
      set_oc c (Oc (cv_pre o) (cv_act o) (oc_pwm1 o) (oc_shadow o) (ccxn o) true) t
  | timer_multi_mode_complementary (TIMER_MCH c) =>
      let o := ch_of t c in
      set_oc c (Oc (cv_pre o) (cv_act o) (oc_pwm1 o) (oc_shadow o) (ccxn o) false) t
  | timer_single_pulse_mode_config single =>
      set_ctl0 (if single then Z.setbit (ctl0 t) 3 else Z.clearbit (ctl0 t) 3) t
  | timer_autoreload_value_config v => set_car v (if arse t then car_act t else v) t
  | timer_counter_value_config v => set_cnt v t
  | timer_event_upg => update_event t
  | timer_flag_clear TIMER_FLAG_UP => set_upif false t
  | timer_slave_mode_select m => set_smc m t
  | _ => t
  end.

Definition effect (op : pwm_op) (p : timer_id) (t : tmr) : tmr :=
  match op with on_timer q op => if decide (q = p) then op_effect op t else t | _ => t end.

(** ** Time *)

(** What may happen to a timer on its own: it counts, overflows while it runs
    and updates are enabled; a sync slave may also be restarted or started. *)
Inductive tick_step (t : tmr) : tmr -> Prop :=
  | tick_count n : cen t = true -> tick_step t (set_cnt n t)
  | tick_update : cen t || enslaved t = true -> tick_step t (update_event t)
  | tick_start : enslaved t = true -> tick_step t (set_ctl0 (Z.setbit (ctl0 t) 0) t).

Definition later : tmr -> tmr -> Prop := rtc tick_step.

#[export] Instance later_preorder : PreOrder later.
Proof. split; [intros ?; apply rtc_refl | intros ? ? ?; apply rtc_trans]. Qed.

Class TimerLaws (H : Type) `{!TimerHw H} := {
  tv : H -> timer_id -> tmr;
  tv_do h op p : later (effect op p (tv h p)) (tv (tim_do h op) p);
  tv_read h r p : later (tv h p) (tv (tim_read h r).2 p);
  read_ctl0 h p : (tim_read h (TIMER_CTL0 p)).1 = ctl0 (tv h p);
  read_car h p : (tim_read h (TIMER_CAR p)).1 = car_pre (tv h p);
  read_cv h p c : (tim_read h (capture_value p (TIMER_CH c))).1 = cv_pre (ch_of (tv h p) c);
  read_up h p : (tim_read h (timer_flag_get p TIMER_FLAG_UP)).1 <> 0 <-> upif (tv h p) = true;
  tv_word h p : 0 <= ctl0 (tv h p) < 0x100000000;
  cam_field m : 0 <= m <= 3 -> Z.land (cam_code m) TIMER_CTL0_CAM = cam_code m;
  cam_inj m n : 0 <= m <= 3 -> 0 <= n <= 3 -> cam_code m = cam_code n -> m = n;
  cam_edge : cam_code 0 = 0 }.

(** ** What time leaves alone *)

(** Everything but the counter, the active values, UPIF and CEN. *)
Definition settings (o : oc) : Z * bool * bool * bool * bool :=
  (cv_pre o, oc_pwm1 o, oc_shadow o, ccxn o, mch_indep o).

Definition same_settings (t t' : tmr) : Prop :=
  car_pre t' = car_pre t /\ smc t' = smc t /\ settings <$> ocs t' = settings <$> ocs t /\
  forall i, i <> 0 -> Z.testbit (ctl0 t') i = Z.testbit (ctl0 t) i.

#[export] Instance same_settings_preorder : PreOrder same_settings.
Proof.
  split; [done |]. intros t1 t2 t3 (A1 & B1 & C1 & D1) (A2 & B2 & C2 & D2).
  split_and!; [congruence | congruence | congruence |]. intros i Hi. by rewrite D2, D1.
Qed.

Lemma same_update t : same_settings t (update_event t).
Proof.
  unfold update_event. destruct (updis t); [done |].
  split_and!; try done; cbn [ocs ctl0].
  - rewrite <- list_fmap_compose. apply list_fmap_ext. intros ? o ?. by destruct o.
  - intros i Hi. destruct (spm t); [| done]. by rewrite Z.clearbit_neq by lia.
Qed.

Lemma tick_settings t t' : tick_step t t' -> same_settings t t'.
Proof.
  intros [n | | ]; [done | apply same_update |]. split_and!; try done. intros i Hi. cbn.
  by rewrite Z.setbit_neq by lia.
Qed.

Lemma later_settings t t' : later t t' -> same_settings t t'.
Proof. induction 1 as [| t1 t2 t3 Hs _ IH]; [done |]. etrans; [by apply tick_settings | exact IH]. Qed.

(** A property that no tick breaks holds later. *)
Lemma later_stable (P : tmr -> Prop) t t' :
  (forall u u', P u -> tick_step u u' -> P u') -> later t t' -> P t -> P t'.
Proof. intros Hp. induction 1 as [| t1 t2 t3 Hs _ IH]; [done |]. intros Ht. eauto. Qed.

(** Without SPM and without a trigger nothing starts or stops a timer. *)
Lemma later_cen t t' : later t t' -> spm t = false -> smc t = TIMER_SLAVE_MODE_DISABLE -> cen t' = cen t.
Proof.
  intros L Hs Hm. revert L.
  assert (Hp : forall u u', (cen u = cen t /\ spm u = false /\ smc u = TIMER_SLAVE_MODE_DISABLE) ->
    tick_step u u' -> cen u' = cen t /\ spm u' = false /\ smc u' = TIMER_SLAVE_MODE_DISABLE).
  { intros u u' (E & S & M) [n | | He]; [done | |].
    - unfold update_event. destruct (updis u); [done |]. by rewrite S.
    - unfold enslaved in He. rewrite M in He. done. }
  intros L. eapply (later_stable (fun u => cen u = cen t /\ spm u = false /\ smc u = TIMER_SLAVE_MODE_DISABLE));
    [exact Hp | exact L | done].
Qed.

(** While updates are disabled the active values and UPIF stay. *)
Definition active (o : oc) : Z := cv_act o.

Lemma later_updis t t' :
  later t t' -> updis t = true ->
  car_act t' = car_act t /\ upif t' = upif t /\ ocs t' = ocs t.
Proof.
  intros L Hu.
  eapply (later_stable (fun u => updis u = true /\ car_act u = car_act t /\ upif u = upif t /\ ocs u = ocs t));
    [| exact L | done].
  intros u u' (U & A & F & O) [n | | ]; [done | |].
  - unfold update_event. by rewrite U.
  - split_and!; try done. unfold updis in *. cbn [set_ctl0 ctl0]. by rewrite Z.setbit_neq by lia.
Qed.

(** A stopped free timer does nothing. *)
Lemma later_stopped t t' : later t t' -> cen t = false -> smc t = TIMER_SLAVE_MODE_DISABLE -> t' = t.
Proof.
  intros L Hc Hm.
  eapply (later_stable (fun u => u = t)); [| exact L | done].
  intros u u' -> Hs. assert (He : enslaved t = false) by (unfold enslaved; by rewrite Hm).
  destruct Hs as [n Hn | Hn | Hn]; rewrite ?Hc, ?He in Hn; done.
Qed.
