(* ===== verification/Pwm.v ===== *)
(** * PWM output: [hal/gd32/pwm.c], [pwm_set.c], [pwm_ownership.h],
    [pwm_preload_transaction.c], [timer_sync.c], [timer_sync_master.c],
    [timer_sync_iti.c], and the reload mirror of [pwm_capture.c]

    One definition per function, over the timer interface of [PwmTimer].  Requests
    of the two links never nest (see [Protocol]), so a request runs to its end;
    only the timers go on by themselves. *)

From stdpp Require Import base tactics list numbers option.
From S2P Require Import Prelude BridgeHw PwmTimer.

Definition PWM_CHANNEL_COUNT : Z := 8.
Definition PWM_TIMER_PRESCALER : Z := 216 - 1.
Definition PWM_TIMER_TICK_NS : Z := 1000.
Definition PWM_TIMER_ARR_MAX : Z := 0xFFFF.
Definition PWM_ONE_SHOT_DELAY_TICKS : Z := 1.
Definition TIMER_SYNC_TIMER_COUNT : Z := 2.
Definition TIMER_SYNC_ITI0 : Z := 0x01.
Definition TIMER_SYNC_ITI5 : Z := 0x0A.

(** The channel map. *)
Record gd32_pwm_ch_t := PwmCh {
  periph : timer_id; channel : nat; complement : bool;
  ch_port : gpio_port; ch_pin : Z; ch_af : Z }.

Definition pwm_channels : list gd32_pwm_ch_t :=
  [PwmCh TIMER0 0 true GPIOA 11 6; PwmCh TIMER0 2 true GPIOB 1 6;
   PwmCh TIMER0 1 true GPIOB 14 6; PwmCh TIMER0 3 true GPIOC 5 6;
   PwmCh TIMER7 0 true GPIOC 10 4; PwmCh TIMER7 1 true GPIOC 11 4;
   PwmCh TIMER7 2 true GPIOC 12 4; PwmCh TIMER7 3 true GPIOD 0 6].

(** [pwm_channels[channel]], always behind the range check. *)
Definition pwm_ch (channel : Z) : gd32_pwm_ch_t :=
  default (PwmCh TIMER0 0 true GPIOA 11 6) (pwm_channels !! Z.to_nat channel).

(** [pwm_capture_state_t]. *)
Record pwm_capture_state := PwmCapture {
  last_tick : Z; period_ticks : Z; pulse_width_ticks : Z;
  edge : Z; state : Z;
  in_capture : bool; have_period : bool; have_pulse : bool }.

Definition pwm_capture0 : pwm_capture_state := PwmCapture 0 0 0 0 0 false false false.

(** The statics of the PWM files. *)
Record pwm_sw := PwmSw {
  pwm_one_shot : list bool;
  pwm_align_mode : list Z;
  pwm_timer_claims : list Z;
  pwm_capture : list pwm_capture_state;
  pwm_capture_active_car : list Z;
  pwm_capture_pending_car : list Z;
  pwm_capture_pending_valid : list bool;
  timer_sync_master_mask : Z }.

Definition pwm_sw0 : pwm_sw :=
  PwmSw (replicate 8 false) [0; 0] [0; 0] (replicate 8 pwm_capture0)
    [PWM_TIMER_ARR_MAX; PWM_TIMER_ARR_MAX] [0; 0] [false; false] 0.

(** Array reads of flags. *)
Definition flag_at (l : list bool) (i : Z) : bool := default false (l !! Z.to_nat i).

Definition set_one_shot (c : Z) (b : bool) (w : pwm_sw) : pwm_sw :=
  PwmSw (<[Z.to_nat c := b]> (pwm_one_shot w)) (pwm_align_mode w) (pwm_timer_claims w) (pwm_capture w)
    (pwm_capture_active_car w) (pwm_capture_pending_car w) (pwm_capture_pending_valid w)
    (timer_sync_master_mask w).
Definition set_align (i m : Z) (w : pwm_sw) : pwm_sw :=
  PwmSw (pwm_one_shot w) (<[Z.to_nat i := m]> (pwm_align_mode w)) (pwm_timer_claims w) (pwm_capture w)
    (pwm_capture_active_car w) (pwm_capture_pending_car w) (pwm_capture_pending_valid w)
    (timer_sync_master_mask w).
Definition set_claims (i v : Z) (w : pwm_sw) : pwm_sw :=
  PwmSw (pwm_one_shot w) (pwm_align_mode w) (<[Z.to_nat i := v]> (pwm_timer_claims w)) (pwm_capture w)
    (pwm_capture_active_car w) (pwm_capture_pending_car w) (pwm_capture_pending_valid w)
    (timer_sync_master_mask w).
Definition set_capture (c : Z) (s : pwm_capture_state) (w : pwm_sw) : pwm_sw :=
  PwmSw (pwm_one_shot w) (pwm_align_mode w) (pwm_timer_claims w) (<[Z.to_nat c := s]> (pwm_capture w))
    (pwm_capture_active_car w) (pwm_capture_pending_car w) (pwm_capture_pending_valid w)
    (timer_sync_master_mask w).
Definition set_mirror (i active pending : Z) (valid : bool) (w : pwm_sw) : pwm_sw :=
  PwmSw (pwm_one_shot w) (pwm_align_mode w) (pwm_timer_claims w) (pwm_capture w)
    (<[Z.to_nat i := active]> (pwm_capture_active_car w))
    (<[Z.to_nat i := pending]> (pwm_capture_pending_car w))
    (<[Z.to_nat i := valid]> (pwm_capture_pending_valid w)) (timer_sync_master_mask w).
Definition set_master_mask (m : Z) (w : pwm_sw) : pwm_sw :=
  PwmSw (pwm_one_shot w) (pwm_align_mode w) (pwm_timer_claims w) (pwm_capture w)
    (pwm_capture_active_car w) (pwm_capture_pending_car w) (pwm_capture_pending_valid w) m.

(** ** Claims and sync masters *)

(** [pwm_timer_index], and its copy [pwm_capture_timer_index]. *)
Definition pwm_timer_index (p : timer_id) : Z := match p with TIMER0 => 0 | TIMER7 => 1 end.

Definition pwm_timer_channel_bit (c : Z) : Z := u8 (Z.shiftl 1 (Z.land c 0x03)).
Definition pwm_timer_has_sibling_claim (claims c : Z) : bool :=
  negb (Z.land claims (u8 (Z.lnot (pwm_timer_channel_bit c))) =? 0).

Definition pwm_channel_claim (w : pwm_sw) (c : Z) : pwm_sw :=
  if PWM_CHANNEL_COUNT <=? c then w
  else
    let idx := pwm_timer_index (periph (pwm_ch c)) in
    set_claims idx (u8 (Z.lor (pwm_timer_claims w).[idx] (pwm_timer_channel_bit c))) w.

Definition pwm_channel_release (w : pwm_sw) (c : Z) : pwm_sw :=
  if PWM_CHANNEL_COUNT <=? c then w
  else
    let idx := pwm_timer_index (periph (pwm_ch c)) in
    set_claims idx (Z.land (pwm_timer_claims w).[idx] (u8 (Z.lnot (pwm_timer_channel_bit c)))) w.

Definition timer_sync_master_active (w : pwm_sw) (id : Z) : bool :=
  if TIMER_SYNC_TIMER_COUNT <=? id then false
  else negb (Z.land (timer_sync_master_mask w) (u8 (Z.shiftl 1 id)) =? 0).

Definition timer_sync_master_set (w : pwm_sw) (id : Z) (active : bool) : pwm_sw :=
  if TIMER_SYNC_TIMER_COUNT <=? id then w
  else
    let bit := u8 (Z.shiftl 1 id) in
    set_master_mask
      (if active then u8 (Z.lor (timer_sync_master_mask w) bit)
       else Z.land (timer_sync_master_mask w) (u8 (Z.lnot bit))) w.

Definition timer_sync_forced_update_allowed (w : pwm_sw) (id : Z) : bool :=
  negb (timer_sync_master_active w id).

Definition pwm_channel_center_aligned (w : pwm_sw) (c : Z) : bool :=
  negb ((pwm_align_mode w).[pwm_timer_index (periph (pwm_ch c))] =? 0).

(** ** Period and duty *)

(** Reload and compare values, or the refusal. *)
Definition pwm_counter_values (period_ns duty_ns : Z) (center_aligned : bool) : option (Z * Z) :=
  let max_period_ticks :=
    if center_aligned then u32 (2 * PWM_TIMER_ARR_MAX) else u32 (PWM_TIMER_ARR_MAX + 1) in
  if u32 (max_period_ticks * PWM_TIMER_TICK_NS) <? period_ns then None
  else
    let period_ticks := period_ns / PWM_TIMER_TICK_NS in
    let duty_ticks := duty_ns / PWM_TIMER_TICK_NS in
    if period_ticks =? 0 then None
    else
      let check arr compare :=
        if (PWM_TIMER_ARR_MAX <? arr) || (PWM_TIMER_ARR_MAX <? compare) then None
        else Some (arr, compare) in
      if negb center_aligned then check (u32 (period_ticks - 1)) duty_ticks
      else
        let half_period := period_ticks / 2 in
        if half_period =? 0 then None else check half_period (duty_ticks / 2).

(** ** The timers *)

Section hw.
Context {H : Type} `{!TimerHw H}.

Definition tims (h : H) (p : timer_id) (ops : list timer_op) : H :=
  foldl (fun h op => tim_do h (on_timer p op)) h ops.

Definition pwm_timer_init (h : H) (p : timer_id) : H :=
  tims h p [timer_deinit; timer_init PWM_TIMER_PRESCALER PWM_TIMER_ARR_MAX;
            timer_auto_reload_shadow_enable; timer_primary_output_enable; timer_enable].

(** For the channel of index [c] of the map. *)
Definition pwm_channel_init (h : H) (w : pwm_sw) (c : Z) : H * pwm_sw :=
  let ch := pwm_ch c in
  let h := tims h (periph ch)
    [timer_channel_output_config (channel ch) (complement ch);
     timer_channel_output_pulse_value_config (channel ch) 0;
     timer_channel_output_mode_config (channel ch) TIMER_OC_MODE_PWM0;
     timer_channel_output_shadow_enable (channel ch)] in
  (h, if c <? PWM_CHANNEL_COUNT then set_one_shot c false w else w).

Definition pwm_pad (h : H) (ch : gd32_pwm_ch_t) : H :=
  tim_do (tim_do (tim_do h (gpio_mode_af (ch_port ch) false (ch_pin ch)))
            (gpio_output_options_pp (ch_port ch) (ch_pin ch)))
    (gpio_af_set (ch_port ch) (ch_af ch) (ch_pin ch)).

(** The PWM part of [bridge_hw_init]. *)
Definition pwm_bring_up (h : H) (w : pwm_sw) : H * pwm_sw :=
  let h := foldl (fun h c => pwm_pad h (pwm_ch (Z.of_nat c))) h (seq 0 8) in
  let h := tim_do (tim_do h (rcu_timer_enable TIMER0)) (rcu_timer_enable TIMER7) in
  let h := pwm_timer_init (pwm_timer_init h TIMER0) TIMER7 in
  foldl (fun '(h, w) c => pwm_channel_init h w (Z.of_nat c)) (h, w) (seq 0 8).

(** ** The mirror of the active reload value *)

Definition pwm_capture_consume_update (h : H) (w : pwm_sw) (p : timer_id) : H * pwm_sw :=
  let idx := pwm_timer_index p in
  let '(up, h) := tim_read h (timer_flag_get p TIMER_FLAG_UP) in
  if up =? 0 then (h, w)
  else
    let h := tim_do h (on_timer p (timer_flag_clear TIMER_FLAG_UP)) in
    (h, if flag_at (pwm_capture_pending_valid w) idx
        then set_mirror idx (pwm_capture_pending_car w).[idx] (pwm_capture_pending_car w).[idx] false w
        else w).

Definition pwm_car_shadow_defer (h : H) (w : pwm_sw) (p : timer_id) (car : Z) : H * pwm_sw :=
  let idx := pwm_timer_index p in
  let '(h, w) := pwm_capture_consume_update h w p in
  (h, set_mirror idx (pwm_capture_active_car w).[idx] car true w).

Definition pwm_car_shadow_commit (h : H) (w : pwm_sw) (p : timer_id) (car : Z) : H * pwm_sw :=
  let idx := pwm_timer_index p in
  (tim_do h (on_timer p (timer_flag_clear TIMER_FLAG_UP)),
   set_mirror idx car (pwm_capture_pending_car w).[idx] false w).

(** ** Setting *)

(** The callback's context is the three values and the statics. *)
Definition pwm_preload_load (ch : gd32_pwm_ch_t) (arr compare : Z) (x : H * pwm_sw) : H * pwm_sw :=
  let h := tims x.1 (periph ch) [timer_autoreload_value_config arr;
                                 timer_channel_output_pulse_value_config (channel ch) compare] in
  pwm_car_shadow_defer h x.2 (periph ch) arr.

Definition pwm_preload_transaction (p : timer_id) (fn : H * pwm_sw -> H * pwm_sw) (x : H * pwm_sw)
    : H * pwm_sw :=
  let '(saved_ctl0, h) := tim_read x.1 (TIMER_CTL0 p) in
  let h := tim_do h (on_timer p (timer_ctl0_write (Z.lor saved_ctl0 TIMER_CTL0_UPDIS))) in
  let '(h, w) := fn (h, x.2) in
  let '(ctl0, h) := tim_read h (TIMER_CTL0 p) in
  let ctl0 := Z.land ctl0 (u32 (Z.lnot TIMER_CTL0_UPDIS)) in
  let ctl0 := Z.lor ctl0 (Z.land saved_ctl0 TIMER_CTL0_UPDIS) in
  (tim_do h (on_timer p (timer_ctl0_write ctl0)), w).

Definition pwm_apply_counter_values (h : H) (w : pwm_sw) (c arr compare : Z) : H * pwm_sw * Z :=
  let ch := pwm_ch c in
  let p := periph ch in
  let '(ctl0, h) := tim_read h (TIMER_CTL0 p) in
  let was_running := negb (Z.land ctl0 TIMER_CTL0_CEN =? 0) in
  if negb was_running && negb (timer_sync_forced_update_allowed w (pwm_timer_index p))
  then (h, w, BRIDGE_HW_ERR_BUSY)
  else
    let w := pwm_channel_claim w c in
    let h := tims h p [timer_single_pulse_mode_config false;
                       timer_channel_output_mode_config (channel ch) TIMER_OC_MODE_PWM0] in
    let w := set_one_shot c false w in
    let '(h, w) :=
      if was_running then pwm_preload_transaction p (pwm_preload_load ch arr compare) (h, w)
      else
        let h := tims h p [timer_autoreload_value_config arr;
                           timer_channel_output_pulse_value_config (channel ch) compare;
                           timer_event_upg] in
        pwm_car_shadow_commit h w p arr in
    (tims h p [timer_enable], w, BRIDGE_HW_OK).

Definition bridge_hw_pwm_set_ (h : H) (w : pwm_sw) (c period_ns duty_ns : Z) : H * pwm_sw * Z :=
  if PWM_CHANNEL_COUNT <=? c then (h, w, BRIDGE_HW_ERR_RANGE)
  else if period_ns <? duty_ns then (h, w, BRIDGE_HW_ERR_INVAL)
  else
    match pwm_counter_values period_ns duty_ns (pwm_channel_center_aligned w c) with
    | None => (h, w, BRIDGE_HW_ERR_RANGE)
    | Some (arr, compare) => pwm_apply_counter_values h w c arr compare
    end.

(** ** Reading back *)

Definition bridge_hw_pwm_get_ (h : H) (w : pwm_sw) (c : Z) : H * (Z * Z * Z) :=
  if PWM_CHANNEL_COUNT <=? c then (h, (BRIDGE_HW_ERR_RANGE, 0, 0))
  else
    let ch := pwm_ch c in
    let '(car, h) := tim_read h (TIMER_CAR (periph ch)) in
    let car := Z.land car PWM_TIMER_ARR_MAX in
    let '(cv, h) := tim_read h (capture_value (periph ch) (TIMER_CH (channel ch))) in
    let cv := if u32 (car + 1) <? cv then u32 (car + 1) else cv in
    if flag_at (pwm_one_shot w) c then
      (h, (BRIDGE_HW_OK, u32 (u32 (car + 1) * PWM_TIMER_TICK_NS),
           u32 (u32 (u32 (car - cv) + 1) * PWM_TIMER_TICK_NS)))
    else if (pwm_align_mode w).[pwm_timer_index (periph ch)] =? 0 then
      (h, (BRIDGE_HW_OK, u32 (u32 (car + 1) * PWM_TIMER_TICK_NS), u32 (cv * PWM_TIMER_TICK_NS)))
    else
      let period_ns := u32 (u32 (2 * car) * PWM_TIMER_TICK_NS) in
      let duty_ns := u32 (u32 (2 * cv) * PWM_TIMER_TICK_NS) in
      (h, (BRIDGE_HW_OK, period_ns, if period_ns <? duty_ns then period_ns else duty_ns)).

(** ** Alignment *)

Definition bridge_hw_pwm_configure_ (h : H) (w : pwm_sw) (c align_mode dead_time_ns break_cfg : Z)
    : H * pwm_sw * Z :=
  if PWM_CHANNEL_COUNT <=? c then (h, w, BRIDGE_HW_ERR_RANGE)
  else if 3 <? align_mode then (h, w, BRIDGE_HW_ERR_INVAL)
  else if negb (dead_time_ns =? 0) then (h, w, BRIDGE_HW_ERR_NOTIMPL)
  else if negb (break_cfg =? 0) then (h, w, BRIDGE_HW_ERR_NOTIMPL)
  else
    let p := periph (pwm_ch c) in
    let idx := pwm_timer_index p in
    if (pwm_align_mode w).[idx] =? align_mode then (h, w, BRIDGE_HW_OK)
    else
      let '(v, h) := tim_read h (TIMER_CTL0 p) in
      let was_running := negb (Z.land v TIMER_CTL0_CEN =? 0) in
      let h := tims h p [timer_disable] in
      let '(ctl0, h) := tim_read h (TIMER_CTL0 p) in
      let ctl0 := Z.land ctl0 (u32 (Z.lnot TIMER_CTL0_CAM)) in
      let ctl0 := Z.lor ctl0 (cam_code align_mode) in
      let h := tims h p [timer_ctl0_write ctl0] in
      let h := if was_running then tims h p [timer_enable] else h in
      (h, set_align idx align_mode w, BRIDGE_HW_OK).

(** ** One-shot *)

Definition one_shot_ops (ch : gd32_pwm_ch_t) (pulse_us : Z) : list timer_op :=
  [timer_disable;
   timer_channel_output_mode_config (channel ch) TIMER_OC_MODE_PWM1;
   timer_counter_value_config 0;
   timer_autoreload_value_config pulse_us;
   timer_channel_output_pulse_value_config (channel ch) PWM_ONE_SHOT_DELAY_TICKS;
   timer_event_upg].

Definition bridge_hw_pwm_single_pulse_ (h : H) (w : pwm_sw) (c pulse_ns : Z) : H * pwm_sw * Z :=
  if PWM_CHANNEL_COUNT <=? c then (h, w, BRIDGE_HW_ERR_RANGE)
  else
    let ch := pwm_ch c in
    let pulse_us := pulse_ns / PWM_TIMER_TICK_NS in
    if pulse_us =? 0 then (h, w, BRIDGE_HW_ERR_RANGE)
    else if PWM_TIMER_ARR_MAX <? pulse_us then (h, w, BRIDGE_HW_ERR_RANGE)
    else
      let idx := pwm_timer_index (periph ch) in
      if negb ((pwm_align_mode w).[idx] =? 0) then (h, w, BRIDGE_HW_ERR_NOTIMPL)
      else if negb (timer_sync_forced_update_allowed w idx) then (h, w, BRIDGE_HW_ERR_BUSY)
      else if pwm_timer_has_sibling_claim (pwm_timer_claims w).[idx] c then (h, w, BRIDGE_HW_ERR_BUSY)
      else
        let w := set_claims idx (Z.land (pwm_timer_claims w).[idx] (u8 (Z.lnot (pwm_timer_channel_bit c)))) w in
        let h := tims h (periph ch) (one_shot_ops ch pulse_us) in
        let w := set_one_shot c true w in
        let '(h, w) := pwm_car_shadow_commit h w (periph ch) pulse_us in
        (tims h (periph ch) [timer_single_pulse_mode_config true; timer_enable], w, BRIDGE_HW_OK).

(** ** Timer sync *)

Definition timer_sync_periph (id : Z) : option timer_id :=
  if id =? 0 then Some TIMER0 else if id =? 1 then Some TIMER7 else None.

(** The routing table; 0 marks a pair that is not connected. *)
Definition timer_sync_iti : list (list Z) := [[0; TIMER_SYNC_ITI5]; [TIMER_SYNC_ITI0; 0]].
Definition timer_sync_iti_lookup (slave master : Z) : Z :=
  if (2 <=? slave) || (2 <=? master) then 0
  else (default [] (timer_sync_iti !! Z.to_nat slave)).[master].

Definition wire_slave_mode (mode : Z) : option slave_mode :=
  match mode with
  | 0 => Some TIMER_SLAVE_MODE_DISABLE
  | 1 => Some TIMER_SLAVE_MODE_RESTART
  | 2 => Some TIMER_SLAVE_MODE_PAUSE
  | 3 => Some TIMER_SLAVE_MODE_EVENT
  | 4 => Some TIMER_SLAVE_MODE_EXTERNAL0
  | 5 => Some TIMER_QUAD_DECODER_MODE1
  | _ => None
  end.

Definition bridge_hw_timer_sync_ (h : H) (w : pwm_sw) (master slave mode : Z) : H * pwm_sw * Z :=
  match timer_sync_periph master, timer_sync_periph slave with
  | Some mp, Some sp =>
      if master =? slave then (h, w, BRIDGE_HW_ERR_INVAL)
      else
        match wire_slave_mode mode with
        | None => (h, w, BRIDGE_HW_ERR_INVAL)
        | Some m =>
            let iti := timer_sync_iti_lookup slave master in
            if iti =? 0 then (h, w, BRIDGE_HW_ERR_INVAL)
            else
              let h := tims h mp [timer_trgo_source_update; timer_master_slave_enable] in
              let h := tims h sp [timer_input_trigger_source_select iti; timer_slave_mode_select m] in
              (h, timer_sync_master_set w master (negb (mode =? 0)), BRIDGE_HW_OK)
        end
  | _, _ => (h, w, BRIDGE_HW_ERR_RANGE)
  end.

End hw.
