(* ===== verification/PwmCapture.v ===== *)
(** * PWM input capture: [hal/gd32/pwm_capture.c]

    Sessions, the polled drain of one latched edge, and the conversion of edge
    distances.  The reload mirror it shares with [pwm.c] is in [Pwm]. *)

From stdpp Require Import base tactics list numbers option.
From S2P Require Import Prelude BridgeHw PwmTimer Pwm.

Definition pwm_capture_unit (ch : gd32_pwm_ch_t) : cap_unit :=
  if complement ch then TIMER_MCH (channel ch) else TIMER_CH (channel ch).

(** [None] is the flag word 0. *)
Definition pwm_capture_flag (u : cap_unit) : option timer_flag :=
  match u with
  | TIMER_CH n | TIMER_MCH n => if (n <? 4)%nat then Some (TIMER_FLAG_CAP u) else None
  end.

Definition capture_of (w : pwm_sw) (c : Z) : pwm_capture_state :=
  default pwm_capture0 (pwm_capture w !! Z.to_nat c).

(** The state machine on an edge at [now], [delta] ticks after the last one. *)
Definition capture_edge (now delta : Z) (s : pwm_capture_state) : pwm_capture_state :=
  if edge s =? 2 then
    if state s =? 0 then
      PwmCapture now (period_ticks s) (pulse_width_ticks s) (edge s) 1 (in_capture s) (have_period s) (have_pulse s)
    else if state s =? 1 then
      PwmCapture now (period_ticks s) delta (edge s) 2 (in_capture s) (have_period s) true
    else
      PwmCapture now (u32 (delta + pulse_width_ticks s)) (pulse_width_ticks s) (edge s) 1 (in_capture s) true
        (have_pulse s)
  else if state s =? 0 then
    PwmCapture now (period_ticks s) (pulse_width_ticks s) (edge s) 1 (in_capture s) (have_period s) (have_pulse s)
  else
    PwmCapture now delta (pulse_width_ticks s) (edge s) (state s) (in_capture s) true (have_pulse s).

(** Ticks from [last] to [now] on a counter of [modulus] values. *)
Definition edge_delta (modulus now last : Z) : Z :=
  u32 (u32 (now + modulus) - last mod modulus) mod modulus.

Section capture.
Context {H : Type} `{!TimerHw H}.

Definition pwm_capture_drain (h : H) (w : pwm_sw) (c : Z) : H * pwm_sw :=
  let ch := pwm_ch c in
  let p := periph ch in
  let u := pwm_capture_unit ch in
  match pwm_capture_flag u with
  | None => (h, w)
  | Some flag =>
      let '(f, h) := tim_read h (timer_flag_get p flag) in
      if f =? 0 then (h, w)
      else
        let '(now, h) := tim_read h (capture_value p u) in
        let now := u32 now in
        let h := tim_do h (on_timer p (timer_flag_clear flag)) in
        let '(h, w) := pwm_capture_consume_update h w p in
        let s := capture_of w c in
        let modulus := u32 ((pwm_capture_active_car w).[pwm_timer_index p] + 1) in
        (h, set_capture c (capture_edge now (edge_delta modulus now (last_tick s)) s) w)
  end.

Definition bridge_hw_pwm_capture_begin_ (h : H) (w : pwm_sw) (c edge : Z) : H * pwm_sw * Z :=
  if PWM_CHANNEL_COUNT <=? c then (h, w, BRIDGE_HW_ERR_RANGE)
  else if 2 <? edge then (h, w, BRIDGE_HW_ERR_INVAL)
  else
    let ch := pwm_ch c in
    let p := periph ch in
    let u := pwm_capture_unit ch in
    let w := pwm_channel_claim w c in
    let h := tims h p [timer_channel_complementary_output_disable (channel ch)] in
    let h := if complement ch then tims h p [timer_multi_mode_independent u] else h in
    let h := tim_do h (gpio_mode_af (ch_port ch) true (ch_pin ch)) in
    let h := tims h p [timer_input_capture_config u edge] in
    let h := match pwm_capture_flag u with Some f => tims h p [timer_flag_clear f] | None => h end in
    (h, set_capture c (PwmCapture 0 0 0 edge 0 true false false) w, BRIDGE_HW_OK).

Definition bridge_hw_pwm_capture_read_ (h : H) (w : pwm_sw) (c : Z) : H * pwm_sw * (Z * Z * Z) :=
  if PWM_CHANNEL_COUNT <=? c then (h, w, (BRIDGE_HW_ERR_RANGE, 0, 0))
  else if negb (in_capture (capture_of w c)) then (h, w, (BRIDGE_HW_ERR_INVAL, 0, 0))
  else
    let '(h, w) := pwm_capture_drain h w c in
    let s := capture_of w c in
    if negb (have_period s) then (h, w, (BRIDGE_HW_ERR_NOT_READY, 0, 0))
    else
      (h, set_capture c (PwmCapture (last_tick s) (period_ticks s) (pulse_width_ticks s) (edge s) (state s)
                           (in_capture s) false false) w,
       (BRIDGE_HW_OK, u32 (period_ticks s * PWM_TIMER_TICK_NS), u32 (pulse_width_ticks s * PWM_TIMER_TICK_NS))).

Definition bridge_hw_pwm_capture_end_ (h : H) (w : pwm_sw) (c : Z) : H * pwm_sw * Z :=
  if PWM_CHANNEL_COUNT <=? c then (h, w, BRIDGE_HW_ERR_RANGE)
  else
    let ch := pwm_ch c in
    let p := periph ch in
    let u := pwm_capture_unit ch in
    let h := match pwm_capture_flag u with Some f => tims h p [timer_flag_clear f] | None => h end in
    let h := if complement ch then tims h p [timer_multi_mode_complementary u] else h in
    let h := pwm_pad h ch in
    let '(h, w) := pwm_channel_init h w c in
    let w := pwm_channel_release w c in
    let s := capture_of w c in
    (h, set_capture c (PwmCapture (last_tick s) (period_ticks s) (pulse_width_ticks s) (edge s) (state s)
                         false (have_period s) (have_pulse s)) w, BRIDGE_HW_OK).

End capture.
