(* ===== verification/PwmFacts.v ===== *)
(** * What PWM requests do to the timers

    Settings evolve by the documented effects alone; the invariant ties the
    statics to them and to the active reload values. *)

From stdpp Require Import base tactics list numbers option relations.
From S2P Require Import Prelude BridgeHw PwmTimer Pwm PwmCapture.

(** ** Settings *)

Lemma settings_ch t u c :
  settings <$> ocs u = settings <$> ocs t -> settings (ch_of u c) = settings (ch_of t c).
Proof.
  intros E. unfold ch_of. assert (El : (settings <$> ocs u) !! c = (settings <$> ocs t) !! c) by (by rewrite E).
  rewrite !list_lookup_fmap in El. destruct (ocs u !! c), (ocs t !! c); cbn in El |- *; congruence.
Qed.

Lemma set_oc_settings t u c o o' :
  settings <$> ocs u = settings <$> ocs t -> settings o' = settings o ->
  settings <$> ocs (set_oc c o' u) = settings <$> ocs (set_oc c o t).
Proof. intros E Eo. cbn. by rewrite !list_fmap_insert, E, Eo. Qed.

Lemma bit_agree_set (a b n : Z) :
  0 <= n -> (forall i, i <> 0 -> Z.testbit a i = Z.testbit b i) ->
  forall i, i <> 0 -> Z.testbit (Z.setbit a n) i = Z.testbit (Z.setbit b n) i.
Proof. intros Hn E i Hi. rewrite !Z.setbit_eqb, E by lia. done. Qed.

Lemma bit_agree_clear (a b n : Z) :
  (forall i, i <> 0 -> Z.testbit a i = Z.testbit b i) ->
  forall i, i <> 0 -> Z.testbit (Z.clearbit a n) i = Z.testbit (Z.clearbit b n) i.
Proof. intros E i Hi. rewrite !Z.clearbit_eqb, E by lia. done. Qed.

Lemma same_settings_sym t u : same_settings t u -> same_settings u t.
Proof. intros (A & B & C & D). split_and!; [congruence.. |]. intros i Hi. by rewrite D. Qed.

Lemma op_effect_settings op t u :
  same_settings t u -> same_settings (op_effect op t) (op_effect op u).
Proof.
  intros Hs. pose proof Hs as (A & B & C & D).
  pose proof (fun c => settings_ch t u c C) as Hc.
  assert (Hoc : forall c f, (forall o o', settings o' = settings o -> settings (f o') = settings (f o)) ->
    same_settings (set_oc c (f (ch_of t c)) t) (set_oc c (f (ch_of u c)) u)).
  { intros c f Hf. split_and!; try done. apply set_oc_settings; auto. }
  assert (Hf : forall (o o' : oc), settings o' = settings o ->
    cv_pre o' = cv_pre o /\ oc_pwm1 o' = oc_pwm1 o /\ oc_shadow o' = oc_shadow o /\ ccxn o' = ccxn o /\ mch_indep o' = mch_indep o).
  { intros o o' E. unfold settings in E. by injection E as -> -> -> -> ->. }
  destruct op; cbn [op_effect]; try exact Hs.
  - done.
  - split_and!; try done. intros i Hi. cbn. by rewrite !Z.land_spec, D.
  - split_and!; try done. by apply bit_agree_set.
  - split_and!; try done. by apply bit_agree_set.
  - split_and!; try done. by apply bit_agree_clear.
  - done.
  - apply (Hoc ch (fun o => Oc (cv_pre o) (cv_act o) (oc_pwm1 o) (oc_shadow o) outn (mch_indep o))).
    intros o o' (-> & -> & -> & _ & ->)%Hf. done.
  - apply (Hoc ch (fun o => Oc v (if oc_shadow o then cv_act o else v) (oc_pwm1 o) (oc_shadow o) (ccxn o) (mch_indep o))).
    intros o o' (_ & E1 & E2 & E3 & E4)%Hf. unfold settings. cbn. by rewrite E1, E2, E3, E4.
  - apply (Hoc ch (fun o => Oc (cv_pre o) (cv_act o) _ (oc_shadow o) (ccxn o) (mch_indep o))).
    intros o o' (E1 & E & E2 & E3 & E4)%Hf. unfold settings. cbn. by rewrite E1, E2, E3, E4.
  - apply (Hoc ch (fun o => Oc (cv_pre o) (cv_act o) (oc_pwm1 o) true (ccxn o) (mch_indep o))).
    intros o o' (E1 & E & E2 & E3 & E4)%Hf. unfold settings. cbn. by rewrite E1, E, E3, E4.
  - apply (Hoc ch (fun o => Oc (cv_pre o) (cv_act o) (oc_pwm1 o) (oc_shadow o) false (mch_indep o))).
    intros o o' (E1 & E & E2 & E3 & E4)%Hf. unfold settings. cbn. by rewrite E1, E, E2, E4.
  - destruct u0; [exact Hs |].
    apply (Hoc n (fun o => Oc (cv_pre o) (cv_act o) (oc_pwm1 o) (oc_shadow o) (ccxn o) true)).
    intros o o' (E1 & E & E2 & E3 & E4)%Hf. unfold settings. cbn. by rewrite E1, E, E2, E3.
  - destruct u0; [exact Hs |].
    apply (Hoc n (fun o => Oc (cv_pre o) (cv_act o) (oc_pwm1 o) (oc_shadow o) (ccxn o) false)).
    intros o o' (E1 & E & E2 & E3 & E4)%Hf. unfold settings. cbn. by rewrite E1, E, E2, E3.
  - split_and!; try done. destruct single; [by apply bit_agree_set | by apply bit_agree_clear].
  - done.
  - etrans; [apply same_settings_sym, same_update | etrans; [exact Hs | apply same_update]].
  - by destruct f.
  - done.
Qed.

(** A run of calls on one timer. *)
Fixpoint runs (ops : list timer_op) (t t' : tmr) : Prop :=
  match ops with
  | [] => t' = t
  | op :: ops => exists u, later (op_effect op t) u /\ runs ops u t'
  end.

Lemma runs_settings ops : forall t t', runs ops t t' -> same_settings (foldl (fun t op => op_effect op t) t ops) t'.
Proof.
  assert (Hf : forall ops t u, same_settings t u ->
    same_settings (foldl (fun t op => op_effect op t) t ops) (foldl (fun t op => op_effect op t) u ops)).
  { clear. induction ops as [| op ops IH]; intros t u Hs; [done |]. by apply IH, op_effect_settings. }
  induction ops as [| op ops IH]; intros t t'; [by intros -> |]. intros (u & L & Hr). cbn [foldl].
  etrans; [apply Hf, later_settings, L | by apply IH].
Qed.

Section hardware.
Context {H : Type} `{TimerLaws H}.

Lemma tims_runs ops : forall (h : H) p, runs ops (tv h p) (tv (tims h p ops) p).
Proof.
  induction ops as [| op ops IH]; intros h p; [done |]. exists (tv (tim_do h (on_timer p op)) p).
  split; [| apply IH]. pose proof (tv_do h (on_timer p op) p) as L. cbn in L. by rewrite decide_True in L.
Qed.

Lemma tims_other ops : forall (h : H) p q, q <> p -> later (tv h q) (tv (tims h p ops) q).
Proof.
  induction ops as [| op ops IH]; intros h p q Hq; [done |].
  etrans; [| by apply IH]. pose proof (tv_do h (on_timer p op) q) as L. cbn in L. by rewrite decide_False in L.
Qed.

Lemma pad_later (h : H) op p : (forall q o, op <> on_timer q o) -> later (tv h p) (tv (tim_do h op) p).
Proof. intros Hp. pose proof (tv_do h op p) as L. destruct op; try exact L. by specialize (Hp p0 op). Qed.

End hardware.

(** ** Active pairs and the mirror *)

Definition act_pair (t : tmr) (c : nat) : Z * Z := (car_act t, cv_act (ch_of t c)).
Definition pre_pair (t : tmr) (c : nat) : Z * Z := (car_pre t, cv_pre (ch_of t c)).

Lemma update_ch t c : updis t = false -> ch_of (update_event t) c = promote (ch_of t c).
Proof.
  intros Hu. unfold update_event. rewrite Hu. unfold ch_of. cbn [ocs]. rewrite list_lookup_fmap.
  by destruct (ocs t !! c).
Qed.

Lemma settings_pre t t' c : same_settings t t' -> pre_pair t' c = pre_pair t c.
Proof.
  intros (A & _ & C & _). unfold pre_pair. pose proof (settings_ch t t' c C) as E.
  unfold settings in E. injection E as -> _ _ _ _. by rewrite A.
Qed.

(** The active values change only to the preloaded ones, both at once. *)
Lemma later_pair t t' c : later t t' -> act_pair t' c = act_pair t c \/ act_pair t' c = pre_pair t c.
Proof.
  intros L.
  eapply (later_stable (fun u => pre_pair u c = pre_pair t c /\ (act_pair u c = act_pair t c \/ act_pair u c = pre_pair t c)));
    [| exact L | by split; [| left]].
  intros u u' (P & A) Hs. split; [by rewrite (settings_pre _ _ c (tick_settings _ _ Hs)) |].
  destruct Hs as [n Hn | Hn | Hn]; [exact A | | exact A].
  destruct (updis u) eqn:U; [unfold update_event; by rewrite U |]. right. rewrite <- P.
  unfold act_pair, pre_pair. rewrite update_ch by done. unfold update_event. by rewrite U.
Qed.

(** [a] is the active reload value, or a flagged update event has replaced it by
    the pending one. *)
Definition mirror_ok (a pending : Z) (valid : bool) (t : tmr) : Prop :=
  let target := if valid then pending else a in
  car_pre t = target /\ car_act t = if upif t then target else a.

Lemma mirror_later a pd v t t' : later t t' -> mirror_ok a pd v t -> mirror_ok a pd v t'.
Proof.
  apply later_stable. intros u u' (P & A) [n Hn | Hn | Hn]; [by split | | by split].
  unfold update_event. destruct (updis u); [by split |]. split; cbn; [done | by rewrite P].
Qed.

(** Calls that touch neither reload value nor UPIF. *)
Definition reload_quiet (op : timer_op) : bool :=
  match op with
  | timer_deinit | timer_init _ _ | timer_autoreload_value_config _ | timer_event_upg
  | timer_flag_clear TIMER_FLAG_UP => false
  | _ => true
  end.

Lemma quiet_reload op t :
  reload_quiet op = true ->
  car_pre (op_effect op t) = car_pre t /\ car_act (op_effect op t) = car_act t /\ upif (op_effect op t) = upif t.
Proof. destruct op; try done; try (by destruct f); by destruct u. Qed.

Lemma mirror_runs a pd v ops : forall t t',
  forallb reload_quiet ops = true -> runs ops t t' -> mirror_ok a pd v t -> mirror_ok a pd v t'.
Proof.
  induction ops as [| op ops IH]; intros t t' Hq; [by intros -> |]. apply andb_prop in Hq as [Ho Hq].
  intros (u & L & Hr) Hm. apply (IH u); [done | done |]. apply (mirror_later _ _ _ _ _ L).
  destruct (quiet_reload op t Ho) as (A & B & C). unfold mirror_ok. by rewrite A, B, C.
Qed.

(** ** The invariant *)

Definition other_timer (p : timer_id) : timer_id := match p with TIMER0 => TIMER7 | TIMER7 => TIMER0 end.

(** The settings of timer [p] are what the statics say. *)
Record timer_cfg {H} `{!TimerHw H} (w : pwm_sw) (p : timer_id) (t : tmr) : Prop := {
  tc_arse : arse t = true;
  tc_updis : updis t = false;
  tc_cam : cam t = cam_code (pwm_align_mode w).[pwm_timer_index p];
  tc_align : 0 <= (pwm_align_mode w).[pwm_timer_index p] <= 3;
  tc_len : length (ocs t) = 4%nat;
  tc_shadow c : (c < 4)%nat -> oc_shadow (ch_of t c) = true;
  tc_mode c : 0 <= c < PWM_CHANNEL_COUNT -> periph (pwm_ch c) = p ->
    oc_pwm1 (ch_of t (channel (pwm_ch c))) = flag_at (pwm_one_shot w) c;
  tc_car : 0 <= car_pre t <= PWM_TIMER_ARR_MAX;
  tc_cv c : 0 <= cv_pre (ch_of t c) <= PWM_TIMER_ARR_MAX }.

Definition mirror_at (w : pwm_sw) (p : timer_id) (t : tmr) : Prop :=
  let i := pwm_timer_index p in
  mirror_ok (pwm_capture_active_car w).[i] (pwm_capture_pending_car w).[i]
    (flag_at (pwm_capture_pending_valid w) i) t.

(** The array sizes. *)
Record sw_shape (w : pwm_sw) : Prop := {
  sh_one_shot : length (pwm_one_shot w) = 8%nat;
  sh_align : length (pwm_align_mode w) = 2%nat;
  sh_claims : length (pwm_timer_claims w) = 2%nat;
  sh_capture : length (pwm_capture w) = 8%nat;
  sh_active : length (pwm_capture_active_car w) = 2%nat;
  sh_pending : length (pwm_capture_pending_car w) = 2%nat;
  sh_valid : length (pwm_capture_pending_valid w) = 2%nat;
  sh_mask : 0 <= timer_sync_master_mask w <= 3 }.

(** The mask names exactly the timers whose slave is enabled. *)
Definition sync_at (w : pwm_sw) (p : timer_id) (other : tmr) : Prop :=
  timer_sync_master_active w (pwm_timer_index p) = enslaved other.

Record pwm_inv {H} `{TimerLaws H} (h : H) (w : pwm_sw) : Prop := {
  pi_shape : sw_shape w;
  pi_cfg p : timer_cfg w p (tv h p);
  pi_mirror p : mirror_at w p (tv h p);
  pi_sync p : sync_at w p (tv h (other_timer p)) }.

Section invariant.
Context {H : Type} `{TimerLaws H}.

Lemma arse_settings t u : same_settings t u -> arse u = arse t /\ updis u = updis t /\ spm u = spm t /\ cam u = cam t.
Proof.
  intros (_ & _ & _ & D). unfold arse, updis, spm, cam. rewrite !D by lia. split_and!; try done.
  apply Z.bits_inj'. intros i Hi. rewrite !Z.land_spec. destruct (decide (i = 0)) as [-> |]; [| by rewrite D].
  by rewrite !andb_false_r.
Qed.

Lemma cfg_settings w p t u : same_settings t u -> timer_cfg w p t -> timer_cfg w p u.
Proof.
  intros Hs Hc. destruct (arse_settings _ _ Hs) as (Ha & Hu & _ & Hm). pose proof Hs as (A & _ & C & _).
  assert (Hch : forall c, cv_pre (ch_of u c) = cv_pre (ch_of t c) /\ oc_pwm1 (ch_of u c) = oc_pwm1 (ch_of t c) /\
                          oc_shadow (ch_of u c) = oc_shadow (ch_of t c)).
  { intros c. pose proof (settings_ch t u c C) as E. unfold settings in E. by injection E as -> -> -> _ _. }
  destruct Hc. split; rewrite ?Ha, ?Hu, ?Hm, ?A; try done.
  - apply (f_equal length) in C. rewrite !length_fmap in C. congruence.
  - intros c Hc. destruct (Hch c) as (_ & _ & ->). auto.
  - intros c Hc Hp. destruct (Hch (channel (pwm_ch c))) as (_ & -> & _). auto.
  - intros c. destruct (Hch c) as (-> & _). auto.
Qed.

(** Time keeps the invariant. *)
Lemma inv_later (h h' : H) w :
  (forall p, later (tv h p) (tv h' p)) -> pwm_inv h w -> pwm_inv h' w.
Proof.
  intros L [Hs Hc Hm Hy]. split; [done | | |].
  - intros p. by apply (cfg_settings _ _ (tv h p)); [apply later_settings |].
  - intros p. exact (mirror_later _ _ _ _ _ (L p) (Hm p)).
  - intros p. unfold sync_at. rewrite Hy. unfold enslaved.
    by destruct (later_settings _ _ (L (other_timer p))) as (_ & -> & _).
Qed.

Lemma inv_read (h : H) w r : pwm_inv h w -> pwm_inv (tim_read h r).2 w.
Proof. apply inv_later. intros p. apply tv_read. Qed.

End invariant.
