(* ===== verification/PwmSet.v ===== *)
(** * Programming a PWM channel: [pwm_apply_counter_values] on the timers

    The preload transaction and the halted path, as facts about the timer views,
    and the frame of a request that works on one timer. *)

From stdpp Require Import base tactics list numbers option relations.
From S2P Require Import Prelude BridgeHw PwmTimer Pwm PwmCapture PwmFacts.

(** ** Words and arrays *)

Lemma write_word w t : 0 <= w < 0x100000000 -> op_effect (timer_ctl0_write w) t = set_ctl0 w t.
Proof. intros Hw. cbn [op_effect]. by rewrite (proj1 (word_u32 w) Hw). Qed.

Lemma cen_land w : negb (Z.land w TIMER_CTL0_CEN =? 0) = Z.testbit w 0.
Proof.
  unfold TIMER_CTL0_CEN. destruct (Z.testbit w 0) eqn:E.
  - apply negb_true_iff, Z.eqb_neq. intros Hz. apply (f_equal (fun z => Z.testbit z 0)) in Hz.
    by rewrite Z.land_spec, E in Hz.
  - apply negb_false_iff, Z.eqb_eq, Z.bits_inj'. intros i Hi. rewrite Z.land_spec, Z.bits_0.
    destruct (decide (i = 0)) as [-> |]; [by rewrite E |].
    change 1 with (2 ^ 0). rewrite Z.pow2_bits_false by lia. apply andb_false_r.
Qed.

Lemma flag_at_insert_eq l i b : (Z.to_nat i < length l)%nat -> flag_at (<[Z.to_nat i := b]> l) i = b.
Proof. intros Hl. unfold flag_at. by rewrite list_lookup_insert_eq. Qed.

Lemma flag_at_insert_ne l i j b : 0 <= i -> 0 <= j -> i <> j -> flag_at (<[Z.to_nat i := b]> l) j = flag_at l j.
Proof. intros Hi Hj Hne. unfold flag_at. by rewrite list_lookup_insert_ne by lia. Qed.

Lemma index_range p : 0 <= pwm_timer_index p <= 1.
Proof. by destruct p. Qed.

Lemma index_ne p : pwm_timer_index (other_timer p) <> pwm_timer_index p.
Proof. by destruct p. Qed.

Lemma other_ne p : other_timer p <> p.
Proof. by destruct p. Qed.

Lemma other_cases p q : q = p \/ q = other_timer p.
Proof. destruct p, q; auto. Qed.

Lemma other_other p : other_timer (other_timer p) = p.
Proof. by destruct p. Qed.

(** The channel map. *)
Lemma channel_cases (P : Z -> Prop) c :
  0 <= c < PWM_CHANNEL_COUNT -> P 0 -> P 1 -> P 2 -> P 3 -> P 4 -> P 5 -> P 6 -> P 7 -> P c.
Proof.
  intros Hc. unfold PWM_CHANNEL_COUNT in Hc.
  assert (c = 0 \/ c = 1 \/ c = 2 \/ c = 3 \/ c = 4 \/ c = 5 \/ c = 6 \/ c = 7) as E by lia.
  by repeat (destruct E as [-> | E]); [.. | subst].
Qed.

Lemma channel_lt c : 0 <= c < PWM_CHANNEL_COUNT -> (channel (pwm_ch c) < 4)%nat.
Proof. intros Hc. pattern c. apply channel_cases; [done | cbv; lia ..]. Qed.

Lemma channel_inj c d :
  0 <= c < PWM_CHANNEL_COUNT -> 0 <= d < PWM_CHANNEL_COUNT ->
  periph (pwm_ch c) = periph (pwm_ch d) -> channel (pwm_ch c) = channel (pwm_ch d) -> c = d.
Proof.
  intros Hc Hd. pattern c. apply channel_cases; [done | pattern d; apply channel_cases; try done ..].
Qed.

Lemma ch_of_set_eq t c o : (c < length (ocs t))%nat -> ch_of (set_oc c o t) c = o.
Proof. intros Hc. unfold ch_of. cbn. by rewrite list_lookup_insert_eq. Qed.

Lemma ch_of_set_ne t c d o : c <> d -> ch_of (set_oc c o t) d = ch_of t d.
Proof. intros Hc. unfold ch_of. cbn. by rewrite list_lookup_insert_ne. Qed.

(** A property of every compare channel after one is written. *)
Lemma ch_of_set (P : oc -> Prop) t c d o :
  (c < length (ocs t))%nat -> P o -> (c <> d -> P (ch_of t d)) -> P (ch_of (set_oc c o t) d).
Proof.
  intros Hc Ho Hd. destruct (decide (c = d)) as [<- |]; [by rewrite ch_of_set_eq | rewrite ch_of_set_ne; auto].
Qed.

(** ** Settings under single calls *)

Section cfg.
Context {H : Type} `{TimerLaws H}.
Implicit Types w : pwm_sw.

(** Calls that leave what [timer_cfg] is about. *)
Definition cfg_quiet (op : timer_op) : bool :=
  match op with
  | timer_deinit | timer_init _ _ | timer_ctl0_write _ | timer_channel_output_pulse_value_config _ _
  | timer_channel_output_mode_config _ _ | timer_autoreload_value_config _ => false
  | timer_channel_output_config c _ | timer_channel_output_shadow_enable c
  | timer_channel_complementary_output_disable c
  | timer_multi_mode_independent (TIMER_MCH c) | timer_multi_mode_complementary (TIMER_MCH c) => (c <? 4)%nat
  | _ => true
  end.

Lemma cfg_bits w p t b n :
  n = 0 \/ n = 3 \/ n = 7 /\ b = true -> timer_cfg w p t ->
  timer_cfg w p (set_ctl0 (if b : bool then Z.setbit (ctl0 t) n else Z.clearbit (ctl0 t) n) t).
Proof.
  intros Hn Hc. destruct Hc as [Harse Hupd Hcam Hal Hlen Hsh Hmo Hcar Hcv]. assert (Hb : forall i, i <> n -> Z.testbit (if b then Z.setbit (ctl0 t) n else Z.clearbit (ctl0 t) n) i = Z.testbit (ctl0 t) i).
  { intros i Hi. destruct b; [rewrite Z.setbit_neq | rewrite Z.clearbit_neq]; done || lia. }
  split; try done.
  - unfold arse. cbn [set_ctl0 ctl0]. destruct (decide (n = 7)) as [-> |]; [| rewrite Hb by lia; done].
    destruct Hn as [| [| [_ ->]]]; try lia. by rewrite Z.setbit_eq.
  - unfold updis. cbn [set_ctl0 ctl0]. rewrite Hb by lia. done.
  - rewrite <- Hcam. unfold cam. cbn [set_ctl0 ctl0]. apply Z.bits_inj'. intros i Hi. rewrite !Z.land_spec.
    destruct (decide (i = n)) as [-> |]; [| by rewrite Hb].
    destruct Hn as [-> | [-> | [-> _]]]; by rewrite !andb_false_r.
Qed.

(** Rewriting one channel. *)
Lemma cfg_oc w p t c o :
  (c < 4)%nat -> 0 <= cv_pre o <= PWM_TIMER_ARR_MAX -> oc_pwm1 o = oc_pwm1 (ch_of t c) ->
  (oc_shadow o = oc_shadow (ch_of t c) \/ oc_shadow o = true) ->
  timer_cfg w p t -> timer_cfg w p (set_oc c o t).
Proof.
  intros Hc E1 E2 E3 Ht. destruct Ht as [Harse Hupd Hcam Hal Hlen Hsh Hmo Hcar Hcv]. split; try done.
  - cbn. by rewrite length_insert.
  - intros d Hd. apply (ch_of_set (fun o => oc_shadow o = true)); [lia | destruct E3 as [-> |]; auto | auto].
  - intros d Hd Hp. destruct (decide (c = channel (pwm_ch d))) as [-> |].
    + rewrite ch_of_set_eq by lia. rewrite E2. auto.
    + rewrite ch_of_set_ne by done. auto.
  - intros d. apply (ch_of_set (fun o => 0 <= cv_pre o <= PWM_TIMER_ARR_MAX)); [lia | auto | auto].
Qed.

Lemma cfg_quiet_op w p op t : cfg_quiet op = true -> timer_cfg w p t -> timer_cfg w p (op_effect op t).
Proof.
  intros Hq Hc. destruct op; try done; cbn [op_effect cfg_quiet] in *.
  - apply (cfg_bits w p t true 7); auto.
  - apply (cfg_bits w p t true 0); auto.
  - apply (cfg_bits w p t false 0); auto.
  - apply cfg_oc; auto; [by apply Nat.ltb_lt | apply Hc].
  - apply cfg_oc; auto; [by apply Nat.ltb_lt | apply Hc].
  - apply cfg_oc; auto; [by apply Nat.ltb_lt | apply Hc].
  - destruct u; [done |]. apply cfg_oc; auto; [by apply Nat.ltb_lt | apply Hc].
  - destruct u; [done |]. apply cfg_oc; auto; [by apply Nat.ltb_lt | apply Hc].
  - apply (cfg_bits w p t single 3); auto.
  - destruct Hc. by split.
  - by apply (cfg_settings _ _ t); [apply same_update |].
  - destruct f; [| done]. destruct Hc. by split.
  - destruct Hc. by split.
Qed.

Lemma cfg_quiet_runs w p ops : forall t t',
  forallb cfg_quiet ops = true -> runs ops t t' -> timer_cfg w p t -> timer_cfg w p t'.
Proof.
  induction ops as [| op ops IH]; intros t t' Hq; [by intros -> |]. apply andb_prop in Hq as [Ho Hq].
  intros (u & L & Hr) Hc. apply (IH u); [done | done |].
  apply (cfg_settings _ _ (op_effect op t)); [by apply later_settings | by apply cfg_quiet_op].
Qed.

Lemma cfg_car w p t v : 0 <= v <= PWM_TIMER_ARR_MAX -> timer_cfg w p t -> timer_cfg w p (op_effect (timer_autoreload_value_config v) t).
Proof. intros Hv Ht. destruct Ht. by split. Qed.

Lemma cfg_cv w p t c v :
  0 <= v <= PWM_TIMER_ARR_MAX -> (c < 4)%nat -> timer_cfg w p t ->
  timer_cfg w p (op_effect (timer_channel_output_pulse_value_config c v) t).
Proof. intros Hv Hc Ht. apply cfg_oc; auto. Qed.

(** The compare mode with its flag. *)
Lemma cfg_mode w p t c m :
  0 <= c < PWM_CHANNEL_COUNT -> periph (pwm_ch c) = p -> length (pwm_one_shot w) = 8%nat -> timer_cfg w p t ->
  timer_cfg (set_one_shot c (match m with TIMER_OC_MODE_PWM1 => true | _ => false end) w) p
    (op_effect (timer_channel_output_mode_config (channel (pwm_ch c)) m) t).
Proof.
  intros Hc Hp Hl Ht. destruct Ht as [Harse Hupd Hcam Hal Hlen Hsh Hmo Hcar Hcv]. pose proof (channel_lt c Hc) as Hlt. cbn [op_effect]. split; try done.
  - cbn. by rewrite length_insert.
  - intros d Hd. apply (ch_of_set (fun o => oc_shadow o = true)); [lia | exact (Hsh _ Hlt) | auto].
  - intros d Hd Hpd. cbn [set_one_shot pwm_one_shot]. destruct (decide (c = d)) as [<- | Hne].
    + rewrite ch_of_set_eq by lia. rewrite flag_at_insert_eq by (rewrite Hl; unfold PWM_CHANNEL_COUNT in Hc; lia). done.
    + rewrite flag_at_insert_ne by lia. rewrite ch_of_set_ne; [by apply Hmo |].
      intros E. apply Hne, channel_inj; [done | done | congruence | done].
  - intros d. apply (ch_of_set (fun o => 0 <= cv_pre o <= PWM_TIMER_ARR_MAX)); [lia | exact (Hcv _) | auto].
Qed.

End cfg.

(** ** Frames *)

(** The statics of the other timer stay. *)
Record agree (q : timer_id) (w w' : pwm_sw) : Prop := {
  ag_align : (pwm_align_mode w').[pwm_timer_index q] = (pwm_align_mode w).[pwm_timer_index q];
  ag_active : (pwm_capture_active_car w').[pwm_timer_index q] = (pwm_capture_active_car w).[pwm_timer_index q];
  ag_pending : (pwm_capture_pending_car w').[pwm_timer_index q] = (pwm_capture_pending_car w).[pwm_timer_index q];
  ag_valid : flag_at (pwm_capture_pending_valid w') (pwm_timer_index q) =
             flag_at (pwm_capture_pending_valid w) (pwm_timer_index q);
  ag_one c : 0 <= c < PWM_CHANNEL_COUNT -> periph (pwm_ch c) = q ->
    flag_at (pwm_one_shot w') c = flag_at (pwm_one_shot w) c;
  ag_mask : timer_sync_master_mask w' = timer_sync_master_mask w }.

#[export] Instance agree_preorder q : PreOrder (agree q).
Proof.
  split; [done |]. intros w1 w2 w3 [A1 B1 C1 D1 E1 F1] [A2 B2 C2 D2 E2 F2]. split; try congruence.
  intros c Hc Hp. rewrite E2, E1 by done. done.
Qed.

Lemma agree_cfg {H} `{TimerLaws H} q w w' t : agree q w w' -> timer_cfg w q t -> timer_cfg w' q t.
Proof.
  intros [A _ _ _ E _] Ht. destruct Ht as [Harse Hupd Hcam Hal Hlen Hsh Hmo Hcar Hcv]. split; try done; rewrite ?A; try done.
  intros c Hc Hp. rewrite E by done. auto.
Qed.

Lemma agree_mirror q w w' t : agree q w w' -> mirror_at w q t -> mirror_at w' q t.
Proof. intros [_ B C D _ _]. unfold mirror_at. by rewrite B, C, D. Qed.

Lemma agree_one_shot q c b w : 0 <= c < PWM_CHANNEL_COUNT -> periph (pwm_ch c) <> q -> agree q w (set_one_shot c b w).
Proof.
  intros Hc Hp. split; try done. intros d Hd Hq. cbn. apply flag_at_insert_ne; [lia | lia |]. intros ->. done.
Qed.

Lemma agree_mirror_set p q a pd v w : p <> q -> agree q w (set_mirror (pwm_timer_index p) a pd v w).
Proof.
  intros Hp. assert (Hi : pwm_timer_index p <> pwm_timer_index q) by (by destruct p, q).
  pose proof (index_range p). pose proof (index_range q).
  split; try done; cbn; first [by rewrite at_insert_ne by lia | by rewrite flag_at_insert_ne by lia].
Qed.

Lemma agree_align p q m w : p <> q -> agree q w (set_align (pwm_timer_index p) m w).
Proof.
  intros Hp. assert (Hi : pwm_timer_index p <> pwm_timer_index q) by (by destruct p, q).
  pose proof (index_range p). pose proof (index_range q). split; try done. cbn. by rewrite at_insert_ne by lia.
Qed.

Lemma agree_capture q c s w : agree q w (set_capture c s w).
Proof. done. Qed.

Lemma agree_claim q c w : agree q w (pwm_channel_claim w c).
Proof. unfold pwm_channel_claim. by destruct (PWM_CHANNEL_COUNT <=? c). Qed.

Lemma agree_release q c w : agree q w (pwm_channel_release w c).
Proof. unfold pwm_channel_release. by destruct (PWM_CHANNEL_COUNT <=? c). Qed.

Ltac shape := intros Hshape; destruct Hshape; split; cbn; rewrite ?length_insert; done.

Lemma shape_one_shot c b w : sw_shape w -> sw_shape (set_one_shot c b w).
Proof. shape. Qed.
Lemma shape_align c b w : sw_shape w -> sw_shape (set_align c b w).
Proof. shape. Qed.
Lemma shape_claims c b w : sw_shape w -> sw_shape (set_claims c b w).
Proof. shape. Qed.
Lemma shape_capture c b w : sw_shape w -> sw_shape (set_capture c b w).
Proof. shape. Qed.
Lemma shape_mirror i a pd v w : sw_shape w -> sw_shape (set_mirror i a pd v w).
Proof. shape. Qed.

Create HintDb pwm.
#[export] Hint Resolve agree_one_shot agree_mirror_set agree_align agree_capture agree_claim agree_release
  shape_one_shot shape_align shape_claims shape_capture shape_mirror other_ne : pwm.

Lemma shape_claim c w : sw_shape w -> sw_shape (pwm_channel_claim w c).
Proof. unfold pwm_channel_claim. destruct (PWM_CHANNEL_COUNT <=? c); auto with pwm. Qed.
Lemma shape_release c w : sw_shape w -> sw_shape (pwm_channel_release w c).
Proof. unfold pwm_channel_release. destruct (PWM_CHANNEL_COUNT <=? c); auto with pwm. Qed.
#[export] Hint Resolve shape_claim shape_release : pwm.

(** Calls that leave the slave controller alone. *)
Definition smc_quiet (op : timer_op) : bool :=
  match op with timer_deinit | timer_slave_mode_select _ => false | _ => true end.

Lemma smc_quiet_op op t : smc_quiet op = true -> smc (op_effect op t) = smc t.
Proof.
  destruct op; try done; cbn; [by destruct u.. | |].
  - intros _. unfold update_event. by destruct (updis t).
  - by destruct f.
Qed.

Lemma smc_runs ops : forall t t', forallb smc_quiet ops = true -> runs ops t t' -> smc t' = smc t.
Proof.
  induction ops as [| op ops IH]; intros t t' Hq; [by intros -> |]. apply andb_prop in Hq as [Ho Hq].
  intros (u & L & Hr). rewrite (IH u t' Hq Hr). destruct (later_settings _ _ L) as (_ & -> & _).
  by apply smc_quiet_op.
Qed.

Section frame.
Context {H : Type} `{TimerLaws H}.
Implicit Types x y z : H * pwm_sw.

(** A stage of a request works on timer [p] alone and leaves its trigger input. *)
Record keeps (p : timer_id) x y : Prop := {
  k_shape : sw_shape x.2 -> sw_shape y.2;
  k_agree : agree (other_timer p) x.2 y.2;
  k_other : later (tv x.1 (other_timer p)) (tv y.1 (other_timer p));
  k_smc : smc (tv y.1 p) = smc (tv x.1 p) }.

#[export] Instance keeps_preorder p : PreOrder (keeps p).
Proof.
  split; [by split |]. intros x y z [A1 B1 C1 D1] [A2 B2 C2 D2]. split; [auto | by etrans | by etrans | congruence].
Qed.

Lemma inv_keeps p x y :
  keeps p x y -> timer_cfg y.2 p (tv y.1 p) -> mirror_at y.2 p (tv y.1 p) ->
  pwm_inv x.1 x.2 -> pwm_inv y.1 y.2.
Proof.
  intros [Ks Ka Ko Km] Hc Hm [Is Ic Im Iy]. split; [auto | | |].
  - intros q. destruct (other_cases p q) as [-> | ->]; [done |].
    by apply (agree_cfg _ _ _ _ Ka), (cfg_settings _ _ _ _ (later_settings _ _ Ko)).
  - intros q. destruct (other_cases p q) as [-> | ->]; [done |].
    apply (agree_mirror _ _ _ _ Ka), (mirror_later _ _ _ _ _ Ko). apply Im.
  - intros q. specialize (Iy q). unfold sync_at, timer_sync_master_active in *.
    rewrite (ag_mask _ _ _ Ka), Iy. unfold enslaved.
    destruct (other_cases p q) as [-> | ->]; [by destruct (later_settings _ _ Ko) as (_ & -> & _) |].
    by rewrite other_other, Km.
Qed.

Lemma keeps_tims p (h : H) w ops : forallb smc_quiet ops = true -> keeps p (h, w) (tims h p ops, w).
Proof.
  intros Hq. split; [done | done | apply tims_other, other_ne |]. cbn. apply (smc_runs ops); [done | apply tims_runs].
Qed.

Lemma keeps_later p (h h' : H) w : (forall q, later (tv h q) (tv h' q)) -> keeps p (h, w) (h', w).
Proof. intros L. split; [done | done | apply L |]. cbn. by destruct (later_settings _ _ (L p)) as (_ & -> & _). Qed.

Lemma keeps_read p (h : H) w r : keeps p (h, w) ((tim_read h r).2, w).
Proof. apply keeps_later. intros q. apply tv_read. Qed.

Lemma keeps_pad p (h : H) w op : (forall q o, op <> on_timer q o) -> keeps p (h, w) (tim_do h op, w).
Proof. intros Ho. apply keeps_later. intros q. by apply pad_later. Qed.

Lemma keeps_sw p (h : H) w w' : (sw_shape w -> sw_shape w') -> agree (other_timer p) w w' -> keeps p (h, w) (h, w').
Proof. intros A B. by split. Qed.

End frame.
