(* ===== verification/PwmLoad.v ===== *)
(** * How reload and compare values reach the output

    The preload transaction of a running timer, the forced update of a halted one,
    and what both do to the mirror and to the active values. *)

From stdpp Require Import base tactics list numbers option relations.
From S2P Require Import Prelude BridgeHw PwmTimer Pwm PwmCapture PwmFacts PwmSet.

(** ** Words of CTL0 *)

Definition with_updis (b : bool) (t : tmr) : tmr :=
  set_ctl0 (if b then Z.setbit (ctl0 t) 1 else Z.clearbit (ctl0 t) 1) t.

Lemma or_updis w i : Z.testbit (Z.lor w TIMER_CTL0_UPDIS) i = Z.testbit (Z.setbit w 1) i.
Proof. by rewrite Z.setbit_spec'. Qed.

(** The word written back: UPDIS from the saved word, the rest as read now. *)
Lemma restored_word c saved i :
  0 <= c < 0x100000000 ->
  Z.testbit (Z.lor (Z.land c (u32 (Z.lnot TIMER_CTL0_UPDIS))) (Z.land saved TIMER_CTL0_UPDIS)) i =
  if decide (i = 1) then Z.testbit saved 1 else Z.testbit c i.
Proof.
  intros Hc. rewrite Z.lor_spec, land_lnot32, Z.land_spec by (unfold TIMER_CTL0_UPDIS; lia).
  unfold TIMER_CTL0_UPDIS. change 2 with (2 ^ 1). case_decide as Hi.
  - subst. rewrite Z.pow2_bits_true by lia. by rewrite andb_false_r, andb_true_r.
  - rewrite Z.pow2_bits_false by lia. by rewrite andb_true_r, andb_false_r, orb_false_r.
Qed.

Lemma pre_pair_settings t c : pre_pair t c = (car_pre t, cv_pre (ch_of t c)).
Proof. done. Qed.

(** ** The mirror *)

Lemma mirror_consume a pd v t :
  upif t = true -> mirror_ok a pd v t -> mirror_ok (if v then pd else a) pd false (set_upif false t).
Proof. intros Hu. unfold mirror_ok. rewrite Hu. by destruct v. Qed.

(** Consuming a flag that was seen set. *)
Definition consumed (w : pwm_sw) (p : timer_id) : pwm_sw :=
  let i := pwm_timer_index p in
  if flag_at (pwm_capture_pending_valid w) i
  then set_mirror i (pwm_capture_pending_car w).[i] (pwm_capture_pending_car w).[i] false w else w.

Lemma set_mirror_at i a pd v w :
  sw_shape w -> 0 <= i <= 1 ->
  (pwm_capture_active_car (set_mirror i a pd v w)).[i] = a /\
  (pwm_capture_pending_car (set_mirror i a pd v w)).[i] = pd /\
  flag_at (pwm_capture_pending_valid (set_mirror i a pd v w)) i = v.
Proof.
  intros Hs Hi. cbn [set_mirror pwm_capture_active_car pwm_capture_pending_car pwm_capture_pending_valid].
  rewrite !at_insert_eq, flag_at_insert_eq; [done | ..];
    rewrite ?(sh_active _ Hs), ?(sh_pending _ Hs), ?(sh_valid _ Hs); lia.
Qed.

Lemma consumed_mirror w p t :
  sw_shape w -> upif t = true -> mirror_at w p t -> mirror_at (consumed w p) p (set_upif false t).
Proof.
  intros Hs Hu Hm. apply mirror_consume in Hm; [| done]. unfold mirror_at, consumed.
  destruct (flag_at _ _) eqn:Ev; [| by rewrite Ev].
  destruct (set_mirror_at (pwm_timer_index p) (pwm_capture_pending_car w).[pwm_timer_index p]
    (pwm_capture_pending_car w).[pwm_timer_index p] false w Hs (index_range p)) as (-> & -> & ->). done.
Qed.

Lemma shape_consumed w p : sw_shape w -> sw_shape (consumed w p).
Proof. unfold consumed. destruct (flag_at _ _); auto with pwm. Qed.

Lemma agree_consumed q w p : p <> q -> agree q w (consumed w p).
Proof. intros Hp. unfold consumed. destruct (flag_at _ _); auto with pwm. done. Qed.
#[export] Hint Resolve shape_consumed agree_consumed : pwm.

Section load.
Context {H : Type} `{TimerLaws H}.

Lemma do_self (h : H) p op : later (op_effect op (tv h p)) (tv (tim_do h (on_timer p op)) p).
Proof. pose proof (tv_do h (on_timer p op) p) as L. cbn in L. by rewrite decide_True in L. Qed.

(** [pwm_capture_consume_update]: the statics it leaves and the calls it made. *)
Lemma consume_cases (h : H) w p :
  let r := pwm_capture_consume_update h w p in
  let h1 := (tim_read h (timer_flag_get p TIMER_FLAG_UP)).2 in
  (upif (tv h p) = false /\ r = (h1, w)) \/
  (upif (tv h p) = true /\ r = (tims h1 p [timer_flag_clear TIMER_FLAG_UP], consumed w p)).
Proof.
  cbn zeta. unfold pwm_capture_consume_update. pose proof (read_up h p) as Hr.
  destruct (tim_read h (timer_flag_get p TIMER_FLAG_UP)) as [up h1]. cbn [fst snd] in *.
  destruct (Z.eqb_spec up 0) as [E | E].
  - left. split; [| done]. destruct (upif (tv h p)); [| done]. by destruct Hr as [_ Hr]; specialize (Hr eq_refl).
  - right. split; [by apply Hr |]. unfold consumed. by destruct (flag_at _ _).
Qed.

Lemma upif_later t t' : later t t' -> upif t = true -> upif t' = true.
Proof.
  apply (later_stable (fun t => upif t = true)). intros u u' Hu [n Hn | Hn | Hn]; [done | | done]. unfold update_event. by destruct (updis u).
Qed.

Lemma consume_keeps (h : H) w p : keeps p (h, w) (pwm_capture_consume_update h w p).
Proof.
  destruct (consume_cases h w p) as [[_ ->] | [_ ->]]; [apply keeps_read |].
  etrans; [apply (keeps_read p h w (timer_flag_get p TIMER_FLAG_UP)) |].
  etrans; [by apply (keeps_tims p _ _ [timer_flag_clear TIMER_FLAG_UP]) |].
  apply keeps_sw; auto with pwm.
Qed.

Lemma consume_settings (h : H) w p : same_settings (tv h p) (tv (pwm_capture_consume_update h w p).1 p).
Proof.
  assert (Hr : same_settings (tv h p) (tv (tim_read h (timer_flag_get p TIMER_FLAG_UP)).2 p)) by (apply later_settings, tv_read).
  destruct (consume_cases h w p) as [[_ ->] | [_ ->]]; [done |]. etrans; [exact Hr |].
  exact (runs_settings _ _ _ (tims_runs [timer_flag_clear TIMER_FLAG_UP] _ p)).
Qed.

(** The mirror survives consuming, whatever updates happen meanwhile. *)
Lemma consume_mirror (h : H) w p :
  sw_shape w -> mirror_at w p (tv h p) ->
  let r := pwm_capture_consume_update h w p in mirror_at r.2 p (tv r.1 p).
Proof.
  intros Hs Hm. cbn zeta.
  assert (Hm1 : mirror_at w p (tv (tim_read h (timer_flag_get p TIMER_FLAG_UP)).2 p))
    by exact (mirror_later _ _ _ _ _ (tv_read h _ p) Hm).
  destruct (consume_cases h w p) as [[_ ->] | [Hu ->]]; [done |]. cbn [fst snd].
  eapply mirror_later; [apply (do_self _ p (timer_flag_clear TIMER_FLAG_UP)) |].
  apply consumed_mirror; [done | | done]. by apply (upif_later (tv h p)); [apply tv_read |].
Qed.

(** With updates held off, what consuming leaves is the active value. *)
Lemma consume_frozen (h : H) w p :
  let i := pwm_timer_index p in
  let t := tv h p in
  sw_shape w -> updis t = true ->
  car_act t = (if upif t then (if flag_at (pwm_capture_pending_valid w) i then (pwm_capture_pending_car w).[i]
                               else (pwm_capture_active_car w).[i])
               else (pwm_capture_active_car w).[i]) ->
  let r := pwm_capture_consume_update h w p in
  upif (tv r.1 p) = false /\ car_act (tv r.1 p) = car_act t /\ ocs (tv r.1 p) = ocs t /\
  (pwm_capture_active_car r.2).[i] = car_act t.
Proof.
  cbn zeta. intros Hs Hu Ha.
  pose proof (later_updis _ _ (tv_read h (timer_flag_get p TIMER_FLAG_UP) p) Hu) as (A1 & F1 & O1).
  pose proof (arse_settings _ _ (later_settings _ _ (tv_read h (timer_flag_get p TIMER_FLAG_UP) p))) as (_ & U1 & _).
  destruct (consume_cases h w p) as [[Ef ->] | [Ef ->]]; cbn [fst snd]; rewrite Ef in *.
  - rewrite Ha in *. by split_and!.
  - pose proof (do_self (tim_read h (timer_flag_get p TIMER_FLAG_UP)).2 p (timer_flag_clear TIMER_FLAG_UP)) as L.
    apply later_updis in L as (A2 & F2 & O2); [| exact (eq_trans U1 Hu)].
    cbn [op_effect set_upif car_act upif ocs] in *. split_and!; [exact F2 | etrans; [exact A2 | exact A1] | etrans; [exact O2 | exact O1] |].
    rewrite Ha. unfold consumed. destruct (flag_at _ _) eqn:Ev; [| done].
    by destruct (set_mirror_at (pwm_timer_index p) (pwm_capture_pending_car w).[pwm_timer_index p]
      (pwm_capture_pending_car w).[pwm_timer_index p] false w Hs (index_range p)) as (-> & _ & _).
Qed.

Lemma defer_keeps (h : H) w p v : keeps p (h, w) (pwm_car_shadow_defer h w p v).
Proof.
  unfold pwm_car_shadow_defer. pose proof (consume_keeps h w p) as K.
  destruct (pwm_capture_consume_update h w p) as [h1 w1]. etrans; [exact K |]. apply keeps_sw; auto with pwm.
Qed.

(** The load callback while updates are held off. *)
Lemma load_spec (h : H) w ch arr compare :
  let p := periph ch in
  let t := tv h p in
  sw_shape w -> updis t = true -> arse t = true -> length (ocs t) = 4%nat -> (channel ch < 4)%nat ->
  oc_shadow (ch_of t (channel ch)) = true -> mirror_at w p t ->
  let y := pwm_preload_load ch arr compare (h, w) in
  keeps p (h, w) y /\
  same_settings (op_effect (timer_channel_output_pulse_value_config (channel ch) compare)
                   (op_effect (timer_autoreload_value_config arr) t)) (tv y.1 p) /\
  mirror_at y.2 p (tv y.1 p) /\
  forall d, act_pair (tv y.1 p) d = act_pair t d.
Proof.
  cbn zeta. set (p := periph ch). set (t := tv h p). intros Hs Hu Ha Hl Hc Hsh Hm.
  unfold pwm_preload_load. cbn [fst snd]. fold p.
  set (ops := [timer_autoreload_value_config arr; timer_channel_output_pulse_value_config (channel ch) compare]).
  pose proof (runs_settings _ _ _ (tims_runs ops h p)) as Sy.
  pose proof (keeps_tims p h w ops eq_refl) as K1.
  assert (F : car_act (tv (tims h p ops) p) = car_act t /\ upif (tv (tims h p ops) p) = upif t /\
              updis (tv (tims h p ops) p) = true /\ forall d, cv_act (ch_of (tv (tims h p ops) p) d) = cv_act (ch_of t d)).
  { destruct (tims_runs ops h p) as (t1 & L1 & t2 & L2 & ->). fold t in L1.
    assert (U1 : updis (op_effect (timer_autoreload_value_config arr) t) = true) by done.
    pose proof (arse_settings _ _ (later_settings _ _ L1)) as (_ & U1' & _).
    destruct (later_updis _ _ L1 U1) as (A1 & F1 & O1). cbn [op_effect set_car car_act upif ocs] in A1, F1, O1. rewrite Ha in A1.
    assert (U2 : updis (op_effect (timer_channel_output_pulse_value_config (channel ch) compare) t1) = true)
      by exact (eq_trans U1' U1).
    pose proof (arse_settings _ _ (later_settings _ _ L2)) as (_ & U2' & _).
    destruct (later_updis _ _ L2 U2) as (A2 & F2 & O2). cbn [op_effect set_oc car_act upif] in A2, F2.
    split_and!; [congruence | congruence | exact (eq_trans U2' U2) |]. intros d. unfold ch_of at 1. rewrite O2.
    assert (Ec : forall d, ch_of t1 d = ch_of t d) by (intros e; unfold ch_of; by rewrite O1).
    change (cv_act (ch_of (set_oc (channel ch) (Oc compare (if oc_shadow (ch_of t1 (channel ch)) then cv_act (ch_of t1 (channel ch)) else compare)
      (oc_pwm1 (ch_of t1 (channel ch))) (oc_shadow (ch_of t1 (channel ch))) (ccxn (ch_of t1 (channel ch))) (mch_indep (ch_of t1 (channel ch)))) t1) d) = cv_act (ch_of t d)).
    destruct (decide (channel ch = d)) as [<- |].
    - rewrite ch_of_set_eq by (rewrite O1, Hl; done). cbn. by rewrite Ec, Hsh.
    - rewrite ch_of_set_ne by done. by rewrite Ec. }
  destruct F as (FA & FF & FU & FC). set (h1 := tims h p ops) in *.
  assert (Ha1 : car_act (tv h1 p) = (if upif (tv h1 p) then (if flag_at (pwm_capture_pending_valid w) (pwm_timer_index p)
                  then (pwm_capture_pending_car w).[pwm_timer_index p] else (pwm_capture_active_car w).[pwm_timer_index p])
                else (pwm_capture_active_car w).[pwm_timer_index p])) by (rewrite FA, FF; apply Hm).
  destruct (consume_frozen h1 w p Hs FU Ha1) as (Z1 & Z2 & Z3 & Z4).
  pose proof (consume_settings h1 w p) as S2. pose proof (k_shape _ _ _ (consume_keeps h1 w p) Hs) as Hs2.
  pose proof (defer_keeps h1 w p arr) as K2. unfold pwm_car_shadow_defer in *.
  destruct (pwm_capture_consume_update h1 w p) as [h2 w2]. cbn [fst snd] in *.
  split_and!; [by etrans | by etrans | |].
  - unfold mirror_at.
    destruct (set_mirror_at (pwm_timer_index p) (pwm_capture_active_car w2).[pwm_timer_index p] arr true w2 Hs2 (index_range p)) as (-> & -> & ->).
    split; [| rewrite Z1; congruence]. destruct S2 as (-> & _). by destruct Sy as (-> & _).
  - intros d. unfold act_pair. rewrite Z2, FA. f_equal. unfold ch_of at 1. rewrite Z3. apply FC.
Qed.

(** The new reload and compare values, as preloads. *)
Definition loaded (ch : gd32_pwm_ch_t) (arr compare : Z) (t : tmr) : tmr :=
  op_effect (timer_channel_output_pulse_value_config (channel ch) compare)
    (op_effect (timer_autoreload_value_config arr) t).

Lemma loaded_settings ch arr compare t u :
  same_settings t u -> same_settings (loaded ch arr compare t) (loaded ch arr compare u).
Proof. intros Hs. by apply op_effect_settings, op_effect_settings. Qed.

(** A word written to CTL0 shows, and nothing else moves but by time. *)
Lemma write_settings (h : H) p w t u :
  0 <= w < 0x100000000 ->
  car_pre (tv h p) = car_pre u -> smc (tv h p) = smc u -> settings <$> ocs (tv h p) = settings <$> ocs u ->
  (forall i, i <> 0 -> Z.testbit w i = Z.testbit (ctl0 u) i) -> t = tv (tim_do h (on_timer p (timer_ctl0_write w))) p ->
  same_settings u t.
Proof.
  intros Hw A B C D ->. etrans; [| apply later_settings, (do_self h p (timer_ctl0_write w))].
  rewrite write_word by done. by split_and!.
Qed.

Lemma transaction_spec (h : H) w ch arr compare :
  let p := periph ch in
  let t := tv h p in
  sw_shape w -> updis t = false -> arse t = true -> length (ocs t) = 4%nat -> (channel ch < 4)%nat ->
  oc_shadow (ch_of t (channel ch)) = true -> mirror_at w p t ->
  let y := pwm_preload_transaction p (pwm_preload_load ch arr compare) (h, w) in
  keeps p (h, w) y /\
  same_settings (loaded ch arr compare t) (tv y.1 p) /\
  mirror_at y.2 p (tv y.1 p) /\
  exists v, later v (tv y.1 p) /\
    forall d, pre_pair v d = pre_pair (loaded ch arr compare t) d /\
              (act_pair v d = act_pair t d \/ act_pair v d = pre_pair t d).
Proof.
  cbn zeta. set (p := periph ch). set (t := tv h p). intros Hs Hu Ha Hl Hc Hsh Hm.
  unfold pwm_preload_transaction. cbn [fst snd]. fold p.
  pose proof (tv_read h (TIMER_CTL0 p) p) as L1. pose proof (read_ctl0 h p) as Es.
  pose proof (keeps_read p h w (TIMER_CTL0 p)) as K1. pose proof (tv_word h p) as Ws. fold t in L1, Es, Ws.
  destruct (tim_read h (TIMER_CTL0 p)) as [saved h1]. cbn [fst snd] in L1, Es, K1. subst saved.
  set (word := Z.lor (ctl0 t) TIMER_CTL0_UPDIS).
  assert (Hword : 0 <= word < 0x100000000) by (apply word_lor; [done | by unfold TIMER_CTL0_UPDIS]).
  pose proof (do_self h1 p (timer_ctl0_write word)) as L2. rewrite write_word in L2 by done.
  pose proof (keeps_tims p h1 w [timer_ctl0_write word] eq_refl) as K2. cbn [tims foldl] in K2.
  set (h2 := tim_do h1 (on_timer p (timer_ctl0_write word))) in *.
  pose proof (later_settings _ _ L1) as (A1 & B1 & C1 & D1).
  assert (S2 : same_settings (with_updis true t) (tv h2 p)).
  { apply (write_settings h1 p word); [done.. | | done].  intros i Hi. cbn. apply or_updis. }
  assert (U2 : updis (tv h2 p) = true).
  { destruct (arse_settings _ _ S2) as (_ & -> & _). unfold updis. cbn [with_updis set_ctl0 ctl0]. by rewrite Z.setbit_eq by lia. }
  assert (R2 : arse (tv h2 p) = true).
  { destruct (arse_settings _ _ S2) as (-> & _). unfold arse. cbn [with_updis set_ctl0 ctl0]. by rewrite Z.setbit_neq by lia. }
  pose proof S2 as (_ & _ & C2 & _).
  assert (Hl2 : length (ocs (tv h2 p)) = 4%nat).
  { apply (f_equal length) in C2. rewrite !length_fmap in C2. cbn in C2. congruence. }
  assert (Hsh2 : oc_shadow (ch_of (tv h2 p) (channel ch)) = true).
  { pose proof (settings_ch _ _ (channel ch) C2) as E. unfold settings in E. injection E as _ _ -> _ _. done. }
  assert (Hm2 : mirror_at w p (tv h2 p)).
  { apply (mirror_later _ _ _ _ _ L2). exact (mirror_later _ _ _ _ _ L1 Hm). }
  destruct (load_spec h2 w ch arr compare Hs U2 R2 Hl2 Hc Hsh2 Hm2) as (K3 & S3 & M3 & P3).
  destruct (pwm_preload_load ch arr compare (h2, w)) as [h3 w3] eqn:El. cbn [fst snd] in K3, S3, M3, P3.
  fold p in K3, S3, M3, P3.
  pose proof (tv_read h3 (TIMER_CTL0 p) p) as L4. pose proof (read_ctl0 h3 p) as Ec.
  pose proof (keeps_read p h3 w3 (TIMER_CTL0 p)) as K4. pose proof (tv_word h3 p) as Wc.
  destruct (tim_read h3 (TIMER_CTL0 p)) as [c h4]. cbn [fst snd] in L4, Ec, K4. subst c. cbn [fst snd].
  set (back := Z.lor (Z.land (ctl0 (tv h3 p)) (u32 (Z.lnot TIMER_CTL0_UPDIS))) (Z.land (ctl0 t) TIMER_CTL0_UPDIS)).
  pose proof (do_self h4 p (timer_ctl0_write back)) as L5.
  rewrite write_word in L5 by (apply word_lor; by apply word_land).
  pose proof (keeps_tims p h4 w3 [timer_ctl0_write back] eq_refl) as K5. cbn [tims foldl] in K5.
  pose proof (later_settings _ _ L4) as (A4 & B4 & C4 & D4).
  assert (S3' : same_settings (loaded ch arr compare (with_updis true t)) (tv h3 p)).
  { etrans; [apply loaded_settings, S2 | exact S3]. }
  pose proof S3' as (A3 & B3 & C3 & D3).
  assert (U3 : updis (tv h3 p) = true).
  { destruct (arse_settings _ _ S3') as (_ & -> & _). unfold updis. cbn [loaded op_effect set_oc set_car with_updis set_ctl0 ctl0].
    by rewrite Z.setbit_eq by lia. }
  assert (S5 : same_settings (loaded ch arr compare t) (set_ctl0 back (tv h4 p))).
  { split_and!; [by cbn; rewrite A4, A3 | by cbn; rewrite B4, B3 | |].
    - cbn [set_ctl0 ocs]. rewrite C4, C3. done.
    - intros i Hi. cbn [set_ctl0 ctl0]. unfold back. rewrite restored_word by done. case_decide as Hi1; [by subst |].
      rewrite D3 by done. cbn [loaded op_effect set_oc set_car with_updis set_ctl0 ctl0]. by rewrite Z.setbit_neq by lia. }
  split_and!.
  - etrans; [exact K1 |]. etrans; [exact K2 |]. etrans; [exact K3 |]. etrans; [exact K4 | exact K5].
  - etrans; [exact S5 | apply later_settings, L5].
  - apply (mirror_later _ _ _ _ _ L5). exact (mirror_later _ _ _ _ _ L4 M3).
  - exists (set_ctl0 back (tv h4 p)). split; [exact L5 |]. intros d. split; [by apply settings_pre |].
    assert (E : act_pair (set_ctl0 back (tv h4 p)) d = act_pair (tv h1 p) d).
    { change (act_pair (tv h4 p) d = act_pair (tv h1 p) d).
      destruct (later_updis _ _ L4 U3) as (E1 & _ & E2). unfold act_pair at 1, ch_of. rewrite E1, E2.
      change (act_pair (tv h3 p) d = act_pair (tv h1 p) d). rewrite P3.
      assert (U1 : updis (set_ctl0 word (tv h1 p)) = true).
      { rewrite <- U2. symmetry. by destruct (arse_settings _ _ (later_settings _ _ L2)) as (_ & -> & _). }
      destruct (later_updis _ _ L2 U1) as (E3 & _ & E4). unfold act_pair at 1, ch_of. by rewrite E3, E4. }
    rewrite E. by apply later_pair.
Qed.

End load.
