(* ===== verification/PwmApply.v ===== *)
(** * [pwm_apply_counter_values] against the invariant

    A running channel is re-programmed without a mixed period, a halted one at once. *)

From stdpp Require Import base tactics list numbers option relations.
From S2P Require Import Prelude BridgeHw PwmTimer Pwm PwmCapture PwmFacts PwmSet PwmLoad.

(** A channel programmed for continuous output, as preloads. *)
Definition programmed (ch : gd32_pwm_ch_t) (arr compare : Z) (t : tmr) : tmr :=
  loaded ch arr compare
    (op_effect (timer_channel_output_mode_config (channel ch) TIMER_OC_MODE_PWM0)
       (op_effect (timer_single_pulse_mode_config false) t)).

(** The statics after a channel went continuous. *)
Definition continuous (w : pwm_sw) (c : Z) : pwm_sw := set_one_shot c false (pwm_channel_claim w c).

(** Statics that differ in the mirror alone. *)
Definition same_static (w w' : pwm_sw) : Prop :=
  pwm_one_shot w' = pwm_one_shot w /\ pwm_align_mode w' = pwm_align_mode w /\
  pwm_timer_claims w' = pwm_timer_claims w /\ pwm_capture w' = pwm_capture w /\
  timer_sync_master_mask w' = timer_sync_master_mask w.

#[export] Instance same_static_preorder : PreOrder same_static.
Proof. split; [done |]. intros w1 w2 w3 (A & B & C & D & E) (A' & B' & C' & D' & E'). split_and!; congruence. Qed.

Lemma static_consumed w p : same_static w (consumed w p).
Proof. unfold consumed. by destruct (flag_at _ _). Qed.

Section requests.
Context {H : Type} `{TimerLaws H}.

Lemma busy_word (h : H) p : negb (Z.land (tim_read h (TIMER_CTL0 p)).1 TIMER_CTL0_CEN =? 0) = cen (tv h p).
Proof. by rewrite read_ctl0, cen_land. Qed.

(** Mode and reload statics of a claim. *)
Lemma claim_fields w c :
  pwm_one_shot (pwm_channel_claim w c) = pwm_one_shot w /\
  pwm_align_mode (pwm_channel_claim w c) = pwm_align_mode w /\
  timer_sync_master_mask (pwm_channel_claim w c) = timer_sync_master_mask w.
Proof. unfold pwm_channel_claim. by destruct (PWM_CHANNEL_COUNT <=? c). Qed.

(** A change of statics that one timer's settings do not see. *)
Lemma claim_cfg w c p t : timer_cfg w p t -> timer_cfg (pwm_channel_claim w c) p t.
Proof. apply agree_cfg, agree_claim. Qed.

Lemma claim_mirror w c p t : mirror_at w p t -> mirror_at (pwm_channel_claim w c) p t.
Proof. apply agree_mirror, agree_claim. Qed.

(** Going continuous: SPM and the compare mode, with the flag. *)
Lemma continuous_spec (h : H) w c :
  let ch := pwm_ch c in
  let p := periph ch in
  let ops := [timer_single_pulse_mode_config false;
              timer_channel_output_mode_config (channel ch) TIMER_OC_MODE_PWM0] in
  0 <= c < PWM_CHANNEL_COUNT -> pwm_inv h w ->
  keeps p (h, w) (tims h p ops, continuous w c) /\
  timer_cfg (continuous w c) p (tv (tims h p ops) p) /\
  mirror_at (continuous w c) p (tv (tims h p ops) p) /\
  same_settings (foldl (fun t op => op_effect op t) (tv h p) ops) (tv (tims h p ops) p).
Proof.
  cbn zeta. set (ch := pwm_ch c). set (p := periph ch). intros Hc [Hs Hcfg Hm _].
  set (ops := [_; _]). pose proof (tims_runs ops h p) as R. pose proof (runs_settings _ _ _ R) as S.
  assert (Hw : sw_shape (pwm_channel_claim w c)) by auto with pwm.
  split_and!; [| | | exact S].
  - etrans; [by apply (keeps_tims p h w ops) |]. apply keeps_sw; unfold continuous; [auto with pwm |].
    etrans; [apply agree_claim |]. apply agree_one_shot; [done |]. symmetry. apply other_ne.
  - apply (cfg_settings _ _ _ _ S). apply (cfg_mode (pwm_channel_claim w c) p _ c TIMER_OC_MODE_PWM0); [done | done | apply Hw |].
    apply (cfg_quiet_op _ _ (timer_single_pulse_mode_config false)); [done |]. apply claim_cfg, Hcfg.
  - apply (mirror_runs _ _ _ ops (tv h p)); [done | exact R |]. exact (claim_mirror _ c _ _ (Hm p)).
Qed.

(** The forced update: preloads are active afterwards and the mirror says so. *)
Lemma commit_spec (h : H) w p v :
  sw_shape w -> car_pre (tv h p) = v -> car_act (tv h p) = v ->
  let y := pwm_car_shadow_commit h w p v in
  keeps p (h, w) y /\ mirror_at y.2 p (tv y.1 p) /\
  same_settings (tv h p) (tv y.1 p).
Proof.
  cbn zeta. intros Hs Hp Ha. unfold pwm_car_shadow_commit. cbn [fst snd].
  pose proof (do_self h p (timer_flag_clear TIMER_FLAG_UP)) as L. split_and!.
  - etrans; [by apply (keeps_tims p h w [timer_flag_clear TIMER_FLAG_UP]) |].
    apply keeps_sw; auto with pwm.
  - apply (mirror_later _ _ _ _ _ L). unfold mirror_at.
    destruct (set_mirror_at (pwm_timer_index p) v (pwm_capture_pending_car w).[pwm_timer_index p] false w Hs (index_range p)) as (-> & -> & ->).
    by split.
  - exact (later_settings _ _ L).
Qed.

(** After UPG every active value is its preload, and stays so. *)
Lemma upg_pairs t u d :
  updis t = false -> later (update_event t) u -> act_pair u d = pre_pair u d.
Proof.
  intros Hu L. assert (E : act_pair (update_event t) d = pre_pair (update_event t) d).
  { unfold act_pair, pre_pair. rewrite update_ch by done. unfold update_event. by rewrite Hu. }
  rewrite (settings_pre _ _ d (later_settings _ _ L)), <- E. destruct (later_pair _ _ d L); congruence.
Qed.

(** Final settings, given the programmed ones up to the counter. *)
Lemma programmed_settings ch arr compare t u :
  same_settings (foldl (fun t op => op_effect op t) t
                   [timer_single_pulse_mode_config false; timer_channel_output_mode_config (channel ch) TIMER_OC_MODE_PWM0]) u ->
  same_settings (programmed ch arr compare t) (loaded ch arr compare u).
Proof. apply loaded_settings. Qed.

Lemma loaded_cfg w p ch arr compare t :
  0 <= arr <= PWM_TIMER_ARR_MAX -> 0 <= compare <= PWM_TIMER_ARR_MAX -> (channel ch < 4)%nat ->
  timer_cfg w p t -> timer_cfg w p (loaded ch arr compare t).
Proof. intros Ha Hc Hch Ht. apply cfg_cv; [done | done |]. by apply cfg_car. Qed.

(** The load of a running timer, from a state that is already continuous. *)
Lemma running_spec (h : H) w c arr compare :
  let ch := pwm_ch c in
  let p := periph ch in
  0 <= c < PWM_CHANNEL_COUNT -> 0 <= arr <= PWM_TIMER_ARR_MAX -> 0 <= compare <= PWM_TIMER_ARR_MAX ->
  sw_shape w -> timer_cfg w p (tv h p) -> mirror_at w p (tv h p) ->
  let y := pwm_preload_transaction p (pwm_preload_load ch arr compare) (h, w) in
  keeps p (h, w) y /\ timer_cfg w p (tv y.1 p) /\ mirror_at y.2 p (tv y.1 p) /\
  same_settings (loaded ch arr compare (tv h p)) (tv y.1 p) /\
  forall d, act_pair (tv y.1 p) d = act_pair (tv h p) d \/ act_pair (tv y.1 p) d = pre_pair (tv h p) d \/
            act_pair (tv y.1 p) d = pre_pair (loaded ch arr compare (tv h p)) d.
Proof.
  cbn zeta. set (ch := pwm_ch c). set (p := periph ch). intros Hc Ha Hcv Hs Hcfg Hm.
  assert (Hch : (channel ch < 4)%nat) by (by apply channel_lt).
  destruct (transaction_spec h w ch arr compare Hs (tc_updis _ _ _ Hcfg) (tc_arse _ _ _ Hcfg) (tc_len _ _ _ Hcfg) Hch
    (tc_shadow _ _ _ Hcfg _ Hch) Hm) as (K & S & M & v & L & P).
  fold p in K, S, M, L, P. destruct (pwm_preload_transaction p _ (h, w)) as [h1 w1]. cbn [fst snd] in *. split_and!; try done.
  - apply (cfg_settings _ _ _ _ S). by apply loaded_cfg.
  - intros d. destruct (P d) as (E & [E1 | E1]), (later_pair _ _ d L) as [E2 | E2];
      [left | right; right | right; left | right; right]; congruence.
Qed.

(** The load of a halted one. *)
Lemma halted_spec (h : H) w c arr compare :
  let ch := pwm_ch c in
  let p := periph ch in
  let ops := [timer_autoreload_value_config arr; timer_channel_output_pulse_value_config (channel ch) compare;
              timer_event_upg] in
  0 <= c < PWM_CHANNEL_COUNT -> 0 <= arr <= PWM_TIMER_ARR_MAX -> 0 <= compare <= PWM_TIMER_ARR_MAX ->
  sw_shape w -> timer_cfg w p (tv h p) ->
  let y := pwm_car_shadow_commit (tims h p ops) w p arr in
  keeps p (h, w) y /\ timer_cfg w p (tv y.1 p) /\ mirror_at y.2 p (tv y.1 p) /\
  same_settings (loaded ch arr compare (tv h p)) (tv y.1 p) /\
  forall d, act_pair (tv y.1 p) d = pre_pair (tv y.1 p) d.
Proof.
  cbn zeta. set (ch := pwm_ch c). set (p := periph ch). intros Hc Ha Hcv Hs Hcfg.
  set (ops := [_; _; _]). assert (Hch : (channel ch < 4)%nat) by (by apply channel_lt).
  pose proof (tims_runs ops h p) as R. destruct (R) as (t1 & L1 & t2 & L2 & t3 & L3 & E3).
  assert (S2 : same_settings (loaded ch arr compare (tv h p)) t2).
  { etrans; [apply op_effect_settings, later_settings, L1 | by apply later_settings]. }
  assert (S : same_settings (loaded ch arr compare (tv h p)) (tv (tims h p ops) p)).
  { rewrite E3. etrans; [exact S2 |]. etrans; [apply same_update | exact (later_settings _ _ L3)]. }
  assert (Hcfg2 : timer_cfg w p t2) by (apply (cfg_settings _ _ _ _ S2); by apply loaded_cfg).
  assert (Hu : forall d u, later (tv (tims h p ops) p) u -> act_pair u d = pre_pair u d).
  { intros d u Lu. apply (upg_pairs t2); [apply Hcfg2 |]. rewrite E3 in Lu. etrans; [exact L3 | exact Lu]. }
  assert (Ep : car_pre (tv (tims h p ops) p) = arr) by (by destruct S as (-> & _)).
  assert (Ea : car_act (tv (tims h p ops) p) = arr).
  { assert (E := Hu 0%nat _ (reflexivity _)). unfold act_pair, pre_pair in E. congruence. }
  destruct (commit_spec _ w p arr Hs Ep Ea) as (K & M & S'). split_and!; try done.
  - etrans; [by apply (keeps_tims p h w ops) | exact K].
  - apply (cfg_settings _ _ (loaded ch arr compare (tv h p))); [by etrans | by apply loaded_cfg].
  - by etrans.
  - intros d. unfold pwm_car_shadow_commit. cbn [fst].
    pose proof (do_self (tims h p ops) p (timer_flag_clear TIMER_FLAG_UP)) as L.
    assert (E : act_pair (op_effect (timer_flag_clear TIMER_FLAG_UP) (tv (tims h p ops) p)) d =
                pre_pair (op_effect (timer_flag_clear TIMER_FLAG_UP) (tv (tims h p ops) p)) d) by exact (Hu d _ (reflexivity _)).
    rewrite (settings_pre _ _ d (later_settings _ _ L)), <- E. destruct (later_pair _ _ d L); congruence.
Qed.

Lemma static_cfg w w' p t : same_static w w' -> timer_cfg w p t -> timer_cfg w' p t.
Proof.
  intros (A & B & _) Ht. destruct Ht as [Harse Hupd Hcam Hal Hlen Hsh Hmo Hcar Hcv].
  split; rewrite ?A, ?B; done.
Qed.

Lemma static_consume (h : H) w p : same_static w (pwm_capture_consume_update h w p).2.
Proof. destruct (consume_cases h w p) as [[_ ->] | [_ ->]]; [done | apply static_consumed]. Qed.

Lemma static_transaction (h : H) w ch arr compare :
  same_static w (pwm_preload_transaction (periph ch) (pwm_preload_load ch arr compare) (h, w)).2.
Proof.
  unfold pwm_preload_transaction, pwm_preload_load, pwm_car_shadow_defer. cbn [fst snd].
  destruct (tim_read h _) as [saved h1]. cbn [fst snd].
  pose proof (static_consume (tims (tim_do h1 (on_timer (periph ch) (timer_ctl0_write (Z.lor saved TIMER_CTL0_UPDIS))))
    (periph ch) [timer_autoreload_value_config arr; timer_channel_output_pulse_value_config (channel ch) compare]) w (periph ch)) as Hc.
  destruct (pwm_capture_consume_update _ w (periph ch)) as [h2 w2]. by destruct (tim_read h2 _) as [c h3].
Qed.

(** Going continuous moves no preload and promotes old ones only. *)
Lemma continuous_pairs (h : H) w c d :
  let ch := pwm_ch c in
  let p := periph ch in
  let t' := tv (tims h p [timer_single_pulse_mode_config false;
                          timer_channel_output_mode_config (channel ch) TIMER_OC_MODE_PWM0]) p in
  0 <= c < PWM_CHANNEL_COUNT -> pwm_inv h w ->
  pre_pair t' d = pre_pair (tv h p) d /\
  (act_pair t' d = act_pair (tv h p) d \/ act_pair t' d = pre_pair (tv h p) d).
Proof.
  cbn zeta. set (ch := pwm_ch c). set (p := periph ch). intros Hc Hi. set (ops := [_; _]).
  assert (Q : forall u, length (ocs u) = 4%nat ->
    act_pair (op_effect (timer_channel_output_mode_config (channel ch) TIMER_OC_MODE_PWM0) u) d = act_pair u d /\
    pre_pair (op_effect (timer_channel_output_mode_config (channel ch) TIMER_OC_MODE_PWM0) u) d = pre_pair u d).
  { intros u Hl. unfold act_pair, pre_pair. cbn [op_effect set_oc car_act car_pre].
    destruct (decide (channel ch = d)) as [<- |]; [| by rewrite ch_of_set_ne].
    rewrite ch_of_set_eq; [done |]. rewrite Hl. by apply channel_lt. }
  destruct (tims_runs ops h p) as (t1 & L1 & t2 & L2 & ->).
  assert (Hl1 : length (ocs t1) = 4%nat).
  { destruct (later_settings _ _ L1) as (_ & _ & C & _). apply (f_equal length) in C. rewrite !length_fmap in C.
    rewrite C. exact (tc_len _ _ _ (pi_cfg _ _ Hi p)). }
  destruct (Q t1 Hl1) as (Q1 & Q2). pose proof (settings_pre _ _ d (later_settings _ _ L1)) as R1.
  pose proof (settings_pre _ _ d (later_settings _ _ L2)) as R2.
  change (act_pair (op_effect (timer_single_pulse_mode_config false) (tv h p)) d) with (act_pair (tv h p) d) in *.
  change (pre_pair (op_effect (timer_single_pulse_mode_config false) (tv h p)) d) with (pre_pair (tv h p) d) in *.
  split; [congruence |]. destruct (later_pair _ _ d L1) as [E1 | E1], (later_pair _ _ d L2) as [E2 | E2];
    change (act_pair (op_effect (timer_single_pulse_mode_config false) (tv h p)) d) with (act_pair (tv h p) d) in *;
    change (pre_pair (op_effect (timer_single_pulse_mode_config false) (tv h p)) d) with (pre_pair (tv h p) d) in *;
    (left; congruence) || (right; congruence).
Qed.

(** Both ways of loading. *)
Lemma load_step (h : H) w c arr compare (running : bool) :
  let ch := pwm_ch c in
  let p := periph ch in
  0 <= c < PWM_CHANNEL_COUNT -> 0 <= arr <= PWM_TIMER_ARR_MAX -> 0 <= compare <= PWM_TIMER_ARR_MAX ->
  sw_shape w -> timer_cfg w p (tv h p) -> mirror_at w p (tv h p) ->
  let y := if running then pwm_preload_transaction p (pwm_preload_load ch arr compare) (h, w)
           else pwm_car_shadow_commit (tims h p [timer_autoreload_value_config arr;
                  timer_channel_output_pulse_value_config (channel ch) compare; timer_event_upg]) w p arr in
  keeps p (h, w) y /\ timer_cfg w p (tv y.1 p) /\ mirror_at y.2 p (tv y.1 p) /\ same_static w y.2 /\
  same_settings (loaded ch arr compare (tv h p)) (tv y.1 p) /\
  forall d, if running
            then act_pair (tv y.1 p) d = act_pair (tv h p) d \/ act_pair (tv y.1 p) d = pre_pair (tv h p) d \/
                 act_pair (tv y.1 p) d = pre_pair (loaded ch arr compare (tv h p)) d
            else act_pair (tv y.1 p) d = pre_pair (tv y.1 p) d.
Proof.
  cbn zeta. intros Hc Ha Hcv Hs Hcfg Hm. destruct running.
  - destruct (running_spec h w c arr compare Hc Ha Hcv Hs Hcfg Hm) as (A1 & A2 & A3 & A4 & A5). split_and!; try done.
    apply static_transaction.
  - destruct (halted_spec h w c arr compare Hc Ha Hcv Hs Hcfg) as (A1 & A2 & A3 & A4 & A5). by split_and!.
Qed.

(** [pwm_apply_counter_values] on the timer it programs. *)
Lemma apply_spec (h : H) w c arr compare :
  let ch := pwm_ch c in
  let p := periph ch in
  let t := tv h p in
  0 <= c < PWM_CHANNEL_COUNT -> 0 <= arr <= PWM_TIMER_ARR_MAX -> 0 <= compare <= PWM_TIMER_ARR_MAX -> pwm_inv h w ->
  let r := pwm_apply_counter_values h w c arr compare in
  let t' := tv r.1.1 p in
  (r.2 = BRIDGE_HW_ERR_BUSY /\ cen t = false /\ timer_sync_master_active w (pwm_timer_index p) = true /\
   r.1 = ((tim_read h (TIMER_CTL0 p)).2, w)) \/
  (r.2 = BRIDGE_HW_OK /\ keeps p (h, w) r.1 /\ timer_cfg r.1.2 p t' /\ mirror_at r.1.2 p t' /\
   same_static (continuous w c) r.1.2 /\ same_settings (programmed ch arr compare t) t' /\
   forall d, if cen t
             then act_pair t' d = act_pair t d \/ act_pair t' d = pre_pair t d \/
                  act_pair t' d = pre_pair (programmed ch arr compare t) d
             else act_pair t' d = pre_pair (programmed ch arr compare t) d).
Proof.
  cbn zeta. set (ch := pwm_ch c). set (p := periph ch). set (t := tv h p). intros Hc Ha Hcv Hi.
  unfold pwm_apply_counter_values. fold ch p.
  pose proof (busy_word h p) as Eb. pose proof (tv_read h (TIMER_CTL0 p) p) as L1.
  pose proof (inv_read h w (TIMER_CTL0 p) Hi) as Hi1. pose proof (keeps_read p h w (TIMER_CTL0 p)) as K1.
  destruct (tim_read h (TIMER_CTL0 p)) as [v h1]. cbn [fst snd] in *. rewrite Eb. fold t. fold t in L1.
  destruct (negb (cen t) && negb (timer_sync_forced_update_allowed w (pwm_timer_index p))) eqn:Eg.
  { left. apply andb_prop in Eg as [Eg1 Eg2]. unfold timer_sync_forced_update_allowed in Eg2.
    rewrite negb_involutive in Eg2. rewrite negb_true_iff in Eg1. done. }
  right. fold (continuous w c).
  destruct (continuous_spec h1 w c Hc Hi1) as (K2 & C2 & M2 & S2). fold ch p in K2, C2, M2, S2.
  set (ops := [timer_single_pulse_mode_config false; timer_channel_output_mode_config (channel ch) TIMER_OC_MODE_PWM0]) in *.
  set (h2 := tims h1 p ops) in *. set (w2 := continuous w c) in *.
  assert (Hs2 : sw_shape w2) by (apply (k_shape _ _ _ K2), Hi).
  assert (S2' : same_settings (programmed ch arr compare t) (loaded ch arr compare (tv h2 p))).
  { apply programmed_settings. etrans; [apply op_effect_settings, op_effect_settings, later_settings, L1 | exact S2]. }
  assert (P2 : forall d, pre_pair (tv h2 p) d = pre_pair t d /\
                         (act_pair (tv h2 p) d = act_pair t d \/ act_pair (tv h2 p) d = pre_pair t d)).
  { intros d. destruct (continuous_pairs h1 w c d Hc Hi1) as (Q1 & Q2). fold ch p ops h2 in Q1, Q2.
    pose proof (settings_pre _ _ d (later_settings _ _ L1)). destruct (later_pair _ _ d L1), Q2; split; (left; congruence) || (right; congruence) || congruence. }
  set (z := if cen t then pwm_preload_transaction p (pwm_preload_load ch arr compare) (h2, w2)
            else pwm_car_shadow_commit (tims h2 p [timer_autoreload_value_config arr;
                   timer_channel_output_pulse_value_config (channel ch) compare; timer_event_upg]) w2 p arr).
  pose proof (load_step h2 w2 c arr compare (cen t) Hc Ha Hcv Hs2 C2 M2) as Z. cbn zeta in Z. fold ch p z in Z.
  destruct Z as (Kz & Cz & Mz & Tz & Sz & Pz). clearbody z. destruct z as [h3 w3]. cbn [fst snd] in *.
  pose proof (do_self h3 p timer_enable) as L4. set (h4 := tims h3 p [timer_enable]).
  change (tim_do h3 (on_timer p timer_enable)) with h4 in L4.
  assert (S4 : same_settings (programmed ch arr compare t) (tv h4 p)).
  { etrans; [exact S2' |]. etrans; [exact Sz |]. etrans; [| apply later_settings, L4].
    split_and!; try done. intros i Hi0. cbn [op_effect set_ctl0 ctl0]. by rewrite Z.setbit_neq by lia. }
  split_and!; try done.
  - etrans; [exact K1 |]. etrans; [exact K2 |]. etrans; [exact Kz |]. by apply (keeps_tims p h3 w3 [timer_enable]).
  - apply (static_cfg w2); [done |]. apply (cfg_quiet_runs _ _ [timer_enable] (tv h3 p)); [done | apply tims_runs | done].
  - apply (mirror_runs _ _ _ [timer_enable] (tv h3 p)); [done | apply tims_runs | done].
  - intros d. pose proof (settings_pre _ _ d S4) as E4. pose proof (settings_pre _ _ d Sz) as Ez.
    pose proof (settings_pre _ _ d S2') as E2. specialize (Pz d). specialize (P2 d) as (E2p & P2).
    assert (Q4 : act_pair (tv h4 p) d = act_pair (tv h3 p) d \/ act_pair (tv h4 p) d = pre_pair (tv h3 p) d)
      by (destruct (later_pair _ _ d L4); auto).
    destruct (cen t); [| destruct Q4; congruence].
    destruct Q4 as [Q4 | Q4]; [| right; right; congruence].
    destruct Pz as [Pz | [Pz | Pz]]; [destruct P2; [left | right; left] | right; left | right; right]; congruence.
Qed.

End requests.
