(* ===== verification/PwmRequests.v ===== *)
(** * Every PWM request keeps the invariant

    Alignment, one-shot, sync and capture requests, the PWM part of bring-up, and
    the states any sequence of requests reaches. *)

From stdpp Require Import base tactics list numbers option relations.
From S2P Require Import Prelude BridgeHw PwmTimer Pwm PwmCapture PwmFacts PwmSet PwmLoad PwmApply.

Section requests.
Context {H : Type} `{TimerLaws H}.

(** A run of harmless calls on one timer. *)
Lemma quiet_tims (h : H) w p ops :
  forallb smc_quiet ops = true -> forallb cfg_quiet ops = true -> forallb reload_quiet ops = true ->
  timer_cfg w p (tv h p) -> mirror_at w p (tv h p) ->
  keeps p (h, w) (tims h p ops, w) /\ timer_cfg w p (tv (tims h p ops) p) /\ mirror_at w p (tv (tims h p ops) p).
Proof.
  intros Q1 Q2 Q3 Hc Hm. pose proof (tims_runs ops h p) as R. split_and!.
  - by apply keeps_tims.
  - by apply (cfg_quiet_runs _ _ ops (tv h p)).
  - exact (mirror_runs _ _ _ ops _ _ Q3 R Hm).
Qed.

(** ** Period and duty *)

Lemma counter_values_range period duty center arr compare :
  0 <= period -> 0 <= duty -> pwm_counter_values period duty center = Some (arr, compare) ->
  0 <= arr <= PWM_TIMER_ARR_MAX /\ 0 <= compare <= PWM_TIMER_ARR_MAX.
Proof.
  intros Hp Hd. unfold pwm_counter_values, PWM_TIMER_TICK_NS.
  assert (0 <= period / 1000) by (apply Z.div_pos; lia). assert (0 <= duty / 1000) by (apply Z.div_pos; lia).
  destruct (_ <? period); [done |]. destruct (Z.eqb_spec (period / 1000) 0); [done |].
  assert (0 <= period / 1000 / 2) by (apply Z.div_pos; lia). assert (0 <= duty / 1000 / 2) by (apply Z.div_pos; lia).
  pose proof (Z.mod_pos_bound (period / 1000 - 1) 0x100000000 ltac:(lia)).
  destruct center; cbn [negb].
  - destruct (period / 1000 / 2 =? 0); [done |].
    destruct ((_ <? _) || (_ <? _)) eqn:E; [done |]. apply orb_false_iff in E as [E1 E2]. intros [= <- <-]. lia.
  - destruct ((_ <? _) || (_ <? _)) eqn:E; [done |]. apply orb_false_iff in E as [E1 E2]. intros [= <- <-].
    unfold u32 in *. lia.
Qed.

Lemma set_inv (h : H) w c period duty :
  0 <= c -> 0 <= period -> 0 <= duty -> pwm_inv h w ->
  let r := bridge_hw_pwm_set_ h w c period duty in pwm_inv r.1.1 r.1.2.
Proof.
  intros Hc Hp Hd Hi. cbn zeta. unfold bridge_hw_pwm_set_. destruct (Z.leb_spec PWM_CHANNEL_COUNT c); [done |].
  destruct (period <? duty); [done |]. destruct (pwm_counter_values _ _ _) as [[arr compare] |] eqn:E; [| done].
  apply counter_values_range in E as [Ha Hcv]; [| done..].
  destruct (apply_spec h w c arr compare ltac:(done) Ha Hcv Hi) as [(_ & _ & _ & ->) | (_ & K & C & M & _)].
  - by apply inv_read.
  - by apply (inv_keeps _ (h, w) _ K).
Qed.

Lemma get_inv (h : H) w c : pwm_inv h w -> pwm_inv (bridge_hw_pwm_get_ h w c).1 w.
Proof.
  intros Hi. unfold bridge_hw_pwm_get_. destruct (PWM_CHANNEL_COUNT <=? c); [done |].
  pose proof (inv_read h w (TIMER_CAR (periph (pwm_ch c))) Hi) as Hi1. destruct (tim_read h _) as [car h1].
  pose proof (inv_read h1 w (capture_value (periph (pwm_ch c)) (TIMER_CH (channel (pwm_ch c)))) Hi1) as Hi2.
  destruct (tim_read h1 _) as [cv h2]. by repeat case_match.
Qed.

(** ** Alignment *)

(** The word [bridge_hw_pwm_configure] writes. *)
Lemma cam_word c code i :
  0 <= c < 0x100000000 -> Z.land code TIMER_CTL0_CAM = code ->
  Z.testbit (Z.lor (Z.land c (u32 (Z.lnot TIMER_CTL0_CAM))) code) i =
  if Z.testbit TIMER_CTL0_CAM i then Z.testbit code i else Z.testbit c i.
Proof.
  intros Hc Hcode. rewrite Z.lor_spec, land_lnot32 by (done || (unfold TIMER_CTL0_CAM; lia)).
  rewrite <- Hcode at 1. rewrite Z.land_spec. destruct (Z.testbit TIMER_CTL0_CAM i); cbn.
  - by rewrite andb_false_r, andb_true_r.
  - by rewrite andb_true_r, andb_false_r, orb_false_r.
Qed.

Lemma cam_range m : 0 <= m <= 3 -> 0 <= cam_code m < 0x100000000.
Proof. intros Hm. rewrite <- cam_field by done. rewrite Z.land_comm. apply word_land. by unfold TIMER_CTL0_CAM. Qed.

Definition realigned (m : Z) (t : tmr) : tmr :=
  set_ctl0 (Z.lor (Z.land (ctl0 t) (u32 (Z.lnot TIMER_CTL0_CAM))) (cam_code m)) t.

Lemma realigned_cfg w p m t :
  0 <= m <= 3 -> 0 <= ctl0 t < 0x100000000 -> sw_shape w ->
  timer_cfg w p t -> timer_cfg (set_align (pwm_timer_index p) m w) p (realigned m t).
Proof.
  intros Hm Hw Hs Ht. destruct Ht as [Harse Hupd Hcam Hal Hlen Hsh Hmo Hcar Hcv].
  assert (E : (pwm_align_mode (set_align (pwm_timer_index p) m w)).[pwm_timer_index p] = m).
  { apply at_insert_eq. rewrite (sh_align _ Hs). pose proof (index_range p). lia. }
  assert (B : forall i, Z.testbit (ctl0 (realigned m t)) i =
    if Z.testbit TIMER_CTL0_CAM i then Z.testbit (cam_code m) i else Z.testbit (ctl0 t) i).
  { intros i. apply cam_word; [done |]. by apply cam_field. }
  split; rewrite ?E; try done.
  - unfold arse. rewrite B. exact Harse.
  - unfold updis. rewrite B. exact Hupd.
  - unfold cam. rewrite <- (cam_field m) by done. apply Z.bits_inj'. intros i Hi. rewrite !Z.land_spec, B.
    by destruct (Z.testbit TIMER_CTL0_CAM i); rewrite ?andb_false_r.
Qed.

(** The settings after a realignment; the run bit is as found. *)
Lemma configure_spec (h : H) w c m :
  let p := periph (pwm_ch c) in
  let r := bridge_hw_pwm_configure_ h w c m 0 0 in
  0 <= c < PWM_CHANNEL_COUNT -> 0 <= m <= 3 -> pwm_inv h w -> (pwm_align_mode w).[pwm_timer_index p] <> m ->
  r.2 = BRIDGE_HW_OK /\ r.1.2 = set_align (pwm_timer_index p) m w /\
  keeps p (h, w) r.1 /\ timer_cfg r.1.2 p (tv r.1.1 p) /\ mirror_at r.1.2 p (tv r.1.1 p) /\
  same_settings (realigned m (tv h p)) (tv r.1.1 p).
Proof.
  cbn zeta. set (p := periph (pwm_ch c)). intros Hc Hm Hi Hne. unfold bridge_hw_pwm_configure_. fold p.
  destruct (Z.leb_spec PWM_CHANNEL_COUNT c); [lia |]. destruct (Z.ltb_spec 3 m); [lia |]. cbn [Z.eqb negb].
  apply Z.eqb_neq in Hne. rewrite Hne.
  pose proof (keeps_read p h w (TIMER_CTL0 p)) as K1. pose proof (tv_read h (TIMER_CTL0 p) p) as L1.
  pose proof (busy_word h p) as Eb.
  destruct (tim_read h (TIMER_CTL0 p)) as [v h1]. cbn [fst snd] in *. rewrite Eb.
  set (h2 := tims h1 p [timer_disable]). pose proof (keeps_tims p h1 w [timer_disable] eq_refl) as K2.
  assert (S2 : same_settings (tv h p) (tv h2 p)).
  { etrans; [apply later_settings, L1 |]. etrans; [| apply later_settings, (do_self h1 p timer_disable)].
    split_and!; try done. intros i Hi0. cbn [op_effect set_ctl0 ctl0]. by rewrite Z.clearbit_neq by lia. }
  pose proof (keeps_read p h2 w (TIMER_CTL0 p)) as K3. pose proof (tv_read h2 (TIMER_CTL0 p) p) as L3.
  pose proof (read_ctl0 h2 p) as Ec. pose proof (tv_word h2 p) as Wc.
  destruct (tim_read h2 (TIMER_CTL0 p)) as [cw h3]. cbn [fst snd] in *. subst cw.
  set (word := Z.lor _ (cam_code m)).
  set (ops := timer_ctl0_write word :: if cen (tv h p) then [timer_enable] else []).
  assert (Eh : (if cen (tv h p) then tims (tims h3 p [timer_ctl0_write word]) p [timer_enable]
                else tims h3 p [timer_ctl0_write word]) = tims h3 p ops) by (unfold ops; by destruct (cen _)).
  rewrite Eh. cbn [fst snd].
  assert (S4 : same_settings (realigned m (tv h p)) (tv (tims h3 p ops) p)).
  { assert (S3 : same_settings (realigned m (tv h p)) (op_effect (timer_ctl0_write word) (tv h3 p))).
    { rewrite write_word by (apply word_lor; [by apply word_land | apply cam_range; done]).
      destruct S2 as (A2 & B2 & C2 & D2). destruct (later_settings _ _ L3) as (A3 & B3 & C3 & _).
      split_and!; [cbn; congruence | cbn; congruence | cbn; congruence |]. intros i Hi0. cbn [op_effect realigned set_ctl0 ctl0].
      unfold word. rewrite !cam_word by (apply tv_word || by apply cam_field). by rewrite D2. }
    etrans; [exact S3 |]. unfold ops. etrans; [apply later_settings, (do_self h3 p) |]. destruct (cen _); [| done].
    etrans; [| apply later_settings, (do_self _ p timer_enable)]. split_and!; try done. intros i Hi0.
    cbn [op_effect set_ctl0 ctl0]. by rewrite Z.setbit_neq by lia. }
  split_and!; [done | done | | | |].
  - etrans; [exact K1 |]. etrans; [exact K2 |]. etrans; [exact K3 |].
    etrans; [apply (keeps_tims p h3 w ops); unfold ops; by destruct (cen _) |].
    apply keeps_sw; [auto with pwm | apply agree_align]. symmetry. apply other_ne.
  - apply (cfg_settings _ _ _ _ S4), realigned_cfg; [done | apply tv_word | apply Hi | apply Hi].
  - assert (M : mirror_at w p (tv (tims h3 p ops) p)); [| exact M].
    apply (mirror_runs _ _ _ ops (tv h3 p)); [unfold ops; by destruct (cen _) | apply tims_runs |].
    apply (mirror_later _ _ _ _ _ L3), (mirror_runs _ _ _ [timer_disable] (tv h1 p)); [done | apply tims_runs |].
    apply (mirror_later _ _ _ _ _ L1), Hi.
  - exact S4.
Qed.

Lemma configure_inv (h : H) w c m d b :
  0 <= c -> 0 <= m -> pwm_inv h w -> let r := bridge_hw_pwm_configure_ h w c m d b in pwm_inv r.1.1 r.1.2.
Proof.
  intros Hc Hm Hi. cbn zeta.
  destruct (decide (c < PWM_CHANNEL_COUNT /\ m <= 3 /\ d = 0 /\ b = 0 /\
    (pwm_align_mode w).[pwm_timer_index (periph (pwm_ch c))] <> m)) as [(Hc1 & Hm1 & -> & -> & Hne) | Hno].
  - destruct (configure_spec h w c m ltac:(done) ltac:(done) Hi Hne) as (_ & _ & K & C & M & _).
    by apply (inv_keeps _ (h, w) _ K).
  - unfold bridge_hw_pwm_configure_. destruct (Z.leb_spec PWM_CHANNEL_COUNT c); [done |].
    destruct (Z.ltb_spec 3 m); [done |]. destruct (Z.eqb_spec d 0); [| done]. destruct (Z.eqb_spec b 0); [| done].
    cbn [negb]. destruct (Z.eqb_spec (pwm_align_mode w).[pwm_timer_index (periph (pwm_ch c))] m) as [|Hn]; [done |].
    exfalso. apply Hno. done.
Qed.

(** ** One-shot *)

(** The statics a one-shot leaves before its mirror entry. *)
Definition one_shot_sw (w : pwm_sw) (c : Z) : pwm_sw :=
  let i := pwm_timer_index (periph (pwm_ch c)) in
  set_one_shot c true (set_claims i (Z.land (pwm_timer_claims w).[i] (u8 (Z.lnot (pwm_timer_channel_bit c)))) w).

Lemma agree_claims_set q i v w : agree q w (set_claims i v w).
Proof. done. Qed.

Lemma one_shot_cfg w c us t :
  let ch := pwm_ch c in
  0 <= c < PWM_CHANNEL_COUNT -> 0 <= us <= PWM_TIMER_ARR_MAX -> sw_shape w -> timer_cfg w (periph ch) t ->
  timer_cfg (one_shot_sw w c) (periph ch) (foldl (fun t op => op_effect op t) t (one_shot_ops ch us)).
Proof.
  cbn zeta. intros Hc Hus Hs Ht. unfold one_shot_ops. cbn [foldl]. pose proof (channel_lt c Hc).
  apply cfg_quiet_op; [done |]. apply cfg_cv; [unfold PWM_ONE_SHOT_DELAY_TICKS, PWM_TIMER_ARR_MAX; lia | done |].
  apply cfg_car; [done |]. apply cfg_quiet_op; [done |].
  apply (cfg_mode _ _ _ c TIMER_OC_MODE_PWM1); [done | done | apply Hs |].
  apply cfg_quiet_op; [done |]. by apply (agree_cfg _ w), Ht.
Qed.

Lemma runs_app ops1 ops2 t t' : runs (ops1 ++ ops2) t t' <-> exists u, runs ops1 t u /\ runs ops2 u t'.
Proof.
  revert t. induction ops1 as [| op ops1 IH]; intros t; cbn [app runs].
  - split; [intros Hr; by exists t | by intros (u & -> & Hr)].
  - split.
    + intros (u & L & (v & R1 & R2)%IH). exists v. split; [by exists u | done].
    + intros (v & (u & L & R1) & R2). exists u. split; [done |]. apply IH. by exists v.
Qed.

(** The one-shot's forced update makes the pulse values active. *)
Lemma one_shot_pairs (h : H) w c us d :
  let ch := pwm_ch c in
  let h' := tims h (periph ch) (one_shot_ops ch us) in
  0 <= c < PWM_CHANNEL_COUNT -> 0 <= us <= PWM_TIMER_ARR_MAX -> sw_shape w -> timer_cfg w (periph ch) (tv h (periph ch)) ->
  act_pair (tv h' (periph ch)) d = pre_pair (tv h' (periph ch)) d /\
  car_pre (tv h' (periph ch)) = us.
Proof.
  cbn zeta. intros Hc Hus Hs Ht. set (ch := pwm_ch c) in *. set (p := periph ch) in *.
  pose proof (tims_runs (one_shot_ops ch us) h p) as R.
  pose proof (runs_settings _ _ _ R) as S.
  split; [| destruct S as (-> & _); cbn [foldl one_shot_ops op_effect]; unfold update_event; by destruct (updis _)].
  assert (E : one_shot_ops ch us = [timer_disable; timer_channel_output_mode_config (channel ch) TIMER_OC_MODE_PWM1;
    timer_counter_value_config 0; timer_autoreload_value_config us;
    timer_channel_output_pulse_value_config (channel ch) PWM_ONE_SHOT_DELAY_TICKS] ++ [timer_event_upg]) by done.
  rewrite E in R. apply runs_app in R as (u & Ru & v & L & Ev). unfold ch in E. fold ch in E. rewrite <- E in Ev.
  rewrite Ev. apply (upg_pairs u); [| exact L].
  destruct (arse_settings _ _ (runs_settings _ _ _ Ru)) as (_ & -> & _). cbn [foldl op_effect].
  unfold updis. cbn [set_oc set_car set_cnt set_ctl0 ctl0]. rewrite Z.clearbit_neq by lia. apply Ht.
Qed.

Lemma single_pulse_cases (h : H) w c pulse :
  0 <= c -> 0 <= pulse ->
  let us := pulse / PWM_TIMER_TICK_NS in
  let ch := pwm_ch c in
  let i := pwm_timer_index (periph ch) in
  let r := bridge_hw_pwm_single_pulse_ h w c pulse in
  (r.2 <> BRIDGE_HW_OK /\ r.1 = (h, w)) \/
  (c < PWM_CHANNEL_COUNT /\ 0 < us <= PWM_TIMER_ARR_MAX /\ (pwm_align_mode w).[i] = 0 /\
   timer_sync_master_active w i = false /\ pwm_timer_has_sibling_claim (pwm_timer_claims w).[i] c = false /\
   r = (let '(h, w) := pwm_car_shadow_commit (tims h (periph ch) (one_shot_ops ch us)) (one_shot_sw w c) (periph ch) us in
        (tims h (periph ch) [timer_single_pulse_mode_config true; timer_enable], w, BRIDGE_HW_OK))).
Proof.
  cbn zeta. intros Hc Hp. unfold bridge_hw_pwm_single_pulse_.
  assert (0 <= pulse / PWM_TIMER_TICK_NS) by (apply Z.div_pos; unfold PWM_TIMER_TICK_NS; lia).
  destruct (Z.leb_spec PWM_CHANNEL_COUNT c); [by left |]. destruct (Z.eqb_spec (pulse / PWM_TIMER_TICK_NS) 0); [by left |].
  destruct (Z.ltb_spec PWM_TIMER_ARR_MAX (pulse / PWM_TIMER_TICK_NS)); [by left |].
  destruct (Z.eqb_spec (pwm_align_mode w).[pwm_timer_index (periph (pwm_ch c))] 0); cbn [negb]; [| by left].
  unfold timer_sync_forced_update_allowed. rewrite negb_involutive. destruct (timer_sync_master_active _ _); [by left |].
  destruct (pwm_timer_has_sibling_claim _ _); [by left |]. right. split_and!; done || lia.
Qed.

Lemma single_pulse_inv (h : H) w c pulse :
  0 <= c -> 0 <= pulse -> pwm_inv h w -> let r := bridge_hw_pwm_single_pulse_ h w c pulse in pwm_inv r.1.1 r.1.2.
Proof.
  cbn zeta. intros Hc Hp Hi.
  destruct (single_pulse_cases h w c pulse Hc Hp) as [(_ & ->) | (Hc1 & Hus & _ & _ & _ & ->)]; [done |].
  set (us := pulse / PWM_TIMER_TICK_NS) in *. set (ch := pwm_ch c). set (p := periph ch).
  pose proof Hi as [Hs Hcfg Hm _]. assert (Hw : sw_shape (one_shot_sw w c)) by (unfold one_shot_sw; auto with pwm).
  set (h1 := tims h p (one_shot_ops ch us)).
  assert (K1 : keeps p (h, w) (h1, one_shot_sw w c)).
  { etrans; [by apply (keeps_tims p h w (one_shot_ops ch us)) |]. apply keeps_sw; [auto with pwm |].
    unfold one_shot_sw. etrans; [apply agree_claims_set |]. apply agree_one_shot; [done |]. symmetry. apply other_ne. }
  assert (C1 : timer_cfg (one_shot_sw w c) p (tv h1 p)).
  { apply (cfg_settings _ _ _ _ (runs_settings _ _ _ (tims_runs (one_shot_ops ch us) h p))). apply one_shot_cfg; [done | lia | done | apply Hcfg]. }
  destruct (one_shot_pairs h w c us 0 ltac:(done) ltac:(lia) Hs (Hcfg _)) as (Pa & Pc).
  fold ch p in Pa, Pc. fold h1 in Pa, Pc.
  assert (Ea : car_act (tv h1 p) = us) by (unfold act_pair, pre_pair in Pa; congruence).
  destruct (commit_spec h1 (one_shot_sw w c) p us Hw Pc Ea) as (K2 & M2 & S2).
  destruct (pwm_car_shadow_commit h1 (one_shot_sw w c) p us) as [h2 w2] eqn:E2. cbn [fst snd] in *.
  assert (T2 : same_static (one_shot_sw w c) w2) by (unfold pwm_car_shadow_commit in E2; by injection E2 as _ <-).
  destruct (quiet_tims h2 w2 p [timer_single_pulse_mode_config true; timer_enable]) as (K3 & C3 & M3); try done.
  { apply (static_cfg _ _ _ _ T2), (cfg_settings _ _ _ _ S2), C1. }
  apply (inv_keeps p (h, w) (tims h2 p [timer_single_pulse_mode_config true; timer_enable], w2)); [| done..].
  etrans; [exact K1 |]. etrans; [exact K2 | exact K3].
Qed.

(** ** Sync *)

Lemma sync_periphs m s mp sp :
  timer_sync_periph m = Some mp -> timer_sync_periph s = Some sp -> m <> s ->
  m = pwm_timer_index mp /\ s = pwm_timer_index sp /\ sp = other_timer mp.
Proof.
  unfold timer_sync_periph. intros Hm Hs Hne.
  destruct (Z.eqb_spec m 0) as [-> |]; [| destruct (Z.eqb_spec m 1) as [-> |]; [| done]];
    (destruct (Z.eqb_spec s 0) as [-> |]; [| destruct (Z.eqb_spec s 1) as [-> |]; [| done]]); try done;
    injection Hm as <-; injection Hs as <-; done.
Qed.

Lemma mask_cases (P : Z -> Prop) m : 0 <= m <= 3 -> P 0 -> P 1 -> P 2 -> P 3 -> P m.
Proof. intros Hm. assert (m = 0 \/ m = 1 \/ m = 2 \/ m = 3) as E by lia. by destruct E as [-> | [-> | [-> | ->]]]. Qed.

Lemma static_cfg_mask w p t id b : timer_cfg w p t -> timer_cfg (timer_sync_master_set w id b) p t.
Proof.
  unfold timer_sync_master_set. destruct (TIMER_SYNC_TIMER_COUNT <=? id); [done |]. intros Ht. by destruct Ht.
Qed.

Lemma master_set_spec w p b :
  sw_shape w ->
  sw_shape (timer_sync_master_set w (pwm_timer_index p) b) /\
  timer_sync_master_active (timer_sync_master_set w (pwm_timer_index p) b) (pwm_timer_index p) = b /\
  timer_sync_master_active (timer_sync_master_set w (pwm_timer_index p) b) (pwm_timer_index (other_timer p)) =
  timer_sync_master_active w (pwm_timer_index (other_timer p)).
Proof.
  intros Hw. destruct Hw as [A B C D E F G M]. destruct w as [w1 w2 w3 w4 w5 w6 w7 m]. cbn in A, B, C, D, E, F, G, M.
  split.
  - destruct p, b; (split; [done.. |]); pattern m; by apply mask_cases.
  - pattern m. by apply mask_cases; [done | destruct p, b ..].
Qed.

Lemma wire_mode_disable mode m :
  wire_slave_mode mode = Some m -> bool_decide (m <> TIMER_SLAVE_MODE_DISABLE) = negb (mode =? 0).
Proof.
  unfold wire_slave_mode. destruct mode as [| q |]; [by intros [= <-] | | done].
  destruct q as [[[| |] | [| |] |] | [[| |] | [| |] |] |]; try done; by intros [= <-].
Qed.

Lemma sync_inv (h : H) w master slave mode :
  pwm_inv h w -> let r := bridge_hw_timer_sync_ h w master slave mode in pwm_inv r.1.1 r.1.2.
Proof.
  cbn zeta. intros Hi. unfold bridge_hw_timer_sync_.
  destruct (timer_sync_periph master) as [mp |] eqn:Em; [| done]. destruct (timer_sync_periph slave) as [sp |] eqn:Es; [| done].
  destruct (Z.eqb_spec master slave); [done |]. destruct (wire_slave_mode mode) as [m |] eqn:Ew; [| done].
  destruct (_ =? 0); [done |]. cbn [fst snd].
  destruct (sync_periphs _ _ _ _ Em Es n) as (-> & _ & ->). set (iti := timer_sync_iti_lookup _ _).
  destruct (master_set_spec w mp (negb (mode =? 0)) (pi_shape _ _ Hi)) as (Hs' & Ha & Ho).
  pose proof (pi_cfg _ _ Hi mp) as Hc. pose proof (pi_mirror _ _ Hi mp) as Hm.
  set (ops := [timer_trgo_source_update; timer_master_slave_enable]).
  destruct (quiet_tims h w mp ops eq_refl eq_refl eq_refl Hc Hm) as (K1 & C1 & M1).
  pose proof (inv_keeps mp (h, w) (tims h mp ops, w) K1 C1 M1 Hi) as Hi1. cbn [fst snd] in Hi1.
  set (h1 := tims h mp ops) in *. set (ops2 := [timer_input_trigger_source_select iti; timer_slave_mode_select m]).
  set (h2 := tims h1 (other_timer mp) ops2).
  pose proof (tims_runs ops2 h1 (other_timer mp)) as R2.
  assert (L2 : later (tv h1 mp) (tv h2 mp)).
  { apply tims_other. rewrite <- (other_other mp) at 1. apply other_ne. }
  assert (Same : forall q t, timer_cfg w q t -> timer_cfg (timer_sync_master_set w (pwm_timer_index mp) (negb (mode =? 0))) q t).
  { intros q t. apply static_cfg_mask. }
  split; [done | | |].
  - intros q. apply Same. destruct (other_cases mp q) as [-> | ->].
    + apply (cfg_settings _ _ _ _ (later_settings _ _ L2)), Hi1.
    + apply (cfg_quiet_runs _ _ ops2 (tv h1 (other_timer mp))); [done | done | apply Hi1].
  - intros q. assert (Mq : mirror_at w q (tv h2 q)).
    { destruct (other_cases mp q) as [-> | ->].
      + apply (mirror_later _ _ _ _ _ L2), Hi1.
      + exact (mirror_runs _ _ _ ops2 _ _ eq_refl R2 (pi_mirror _ _ Hi1 _)). }
    unfold timer_sync_master_set in *. by destruct (TIMER_SYNC_TIMER_COUNT <=? _).
  - intros q. unfold sync_at. destruct (other_cases mp q) as [-> | ->].
    + rewrite Ha. destruct (runs_settings _ _ _ R2) as (_ & E & _). fold h2 in E. unfold enslaved. rewrite E. cbn [foldl ops2 op_effect set_smc smc].
      symmetry. by apply wire_mode_disable.
    + rewrite Ho, other_other. rewrite (pi_sync _ _ Hi1 (other_timer mp)), other_other.
      unfold enslaved. by destruct (later_settings _ _ L2) as (_ & -> & _).
Qed.

End requests.
