(* ===== verification/PwmReach.v ===== *)
(** * Capture requests, bring-up, and the reachable states

    The rest of the requests against the invariant, the bring-up that establishes
    it, and the states any sequence of requests and any passing of time reaches. *)

From stdpp Require Import base tactics list numbers option relations.
From S2P Require Import Prelude BridgeHw PwmTimer Pwm PwmCapture PwmFacts PwmSet PwmLoad PwmApply PwmRequests.

(** ** Requests and states *)

Inductive pwm_req :=
  | ReqSet (c period duty : Z)
  | ReqGet (c : Z)
  | ReqConfigure (c align dead_time break : Z)
  | ReqSinglePulse (c pulse : Z)
  | ReqSync (master slave mode : Z)
  | ReqCaptureBegin (c edge : Z)
  | ReqCaptureRead (c : Z)
  | ReqCaptureEnd (c : Z).

(** The arguments come from unsigned C parameters. *)
Definition req_unsigned (r : pwm_req) : Prop :=
  match r with
  | ReqSet c x y => 0 <= c /\ 0 <= x /\ 0 <= y
  | ReqGet c | ReqCaptureRead c | ReqCaptureEnd c => 0 <= c
  | ReqConfigure c m _ _ => 0 <= c /\ 0 <= m
  | ReqSinglePulse c x => 0 <= c /\ 0 <= x
  | ReqSync _ _ _ => True
  | ReqCaptureBegin c _ => 0 <= c
  end.

Section capture.
Context {H : Type} `{TimerLaws H}.

Definition pwm_request (r : pwm_req) (h : H) (w : pwm_sw) : H * pwm_sw :=
  match r with
  | ReqSet c x y => (bridge_hw_pwm_set_ h w c x y).1
  | ReqGet c => ((bridge_hw_pwm_get_ h w c).1, w)
  | ReqConfigure c m d b => (bridge_hw_pwm_configure_ h w c m d b).1
  | ReqSinglePulse c x => (bridge_hw_pwm_single_pulse_ h w c x).1
  | ReqSync m s mode => (bridge_hw_timer_sync_ h w m s mode).1
  | ReqCaptureBegin c e => (bridge_hw_pwm_capture_begin_ h w c e).1
  | ReqCaptureRead c => (bridge_hw_pwm_capture_read_ h w c).1
  | ReqCaptureEnd c => (bridge_hw_pwm_capture_end_ h w c).1
  end.

(** From bring-up on, requests and time in any order. *)
Inductive pwm_reach : H -> pwm_sw -> Prop :=
  | reach_init h : let x := pwm_bring_up h pwm_sw0 in pwm_reach x.1 x.2
  | reach_request h w r : pwm_reach h w -> req_unsigned r ->
      pwm_reach (pwm_request r h w).1 (pwm_request r h w).2
  | reach_time h h' w : pwm_reach h w -> (forall p, later (tv h p) (tv h' p)) -> pwm_reach h' w.

(** ** Stages that disturb nothing *)

Record calm (p : timer_id) (x y : H * pwm_sw) : Prop := {
  cm_keeps : keeps p x y;
  cm_cfg : sw_shape x.2 -> timer_cfg x.2 p (tv x.1 p) -> timer_cfg y.2 p (tv y.1 p);
  cm_mirror : sw_shape x.2 -> mirror_at x.2 p (tv x.1 p) -> mirror_at y.2 p (tv y.1 p) }.

#[export] Instance calm_preorder p : PreOrder (calm p).
Proof.
  split; [by split |]. intros x y z [K1 C1 M1] [K2 C2 M2].
  split; [by etrans | intros Hs Hc; apply C2; [by apply K1 | auto] |]. intros Hs Hm. apply M2; [by apply K1 | auto].
Qed.

Lemma inv_calm p x y : calm p x y -> pwm_inv x.1 x.2 -> pwm_inv y.1 y.2.
Proof.
  intros [K C M] Hi. apply (inv_keeps p x y K); [apply C; apply Hi | apply M; apply Hi | done].
Qed.

Lemma calm_tims p (h : H) w ops :
  forallb (fun op => smc_quiet op && cfg_quiet op && reload_quiet op) ops = true -> calm p (h, w) (tims h p ops, w).
Proof.
  intros Hq. assert (Q : forallb smc_quiet ops = true /\ forallb cfg_quiet ops = true /\ forallb reload_quiet ops = true).
  { clear -Hq. induction ops as [| op ops IH]; [done |]. cbn [forallb] in *. apply andb_prop in Hq as [Ho Hq].
    apply andb_prop in Ho as [Ho Hr]. apply andb_prop in Ho as [Hs Hc]. rewrite Hr, Hs, Hc. by apply IH. }
  destruct Q as (Q1 & Q2 & Q3). pose proof (tims_runs ops h p) as R. split; [by apply keeps_tims | |].
  - intros _ Hc. by apply (cfg_quiet_runs _ _ ops (tv h p)).
  - intros _ Hm. exact (mirror_runs _ _ _ ops _ _ Q3 R Hm).
Qed.

Lemma calm_later p (h h' : H) w : (forall q, later (tv h q) (tv h' q)) -> calm p (h, w) (h', w).
Proof.
  intros L. split; [by apply keeps_later | |].
  - intros _ Hc. by apply (cfg_settings _ _ _ _ (later_settings _ _ (L p))).
  - intros _ Hm. exact (mirror_later _ _ _ _ _ (L p) Hm).
Qed.

Lemma calm_read p (h : H) w r : calm p (h, w) ((tim_read h r).2, w).
Proof. apply calm_later. intros q. apply tv_read. Qed.

Lemma calm_pad p (h : H) w op : (forall q o, op <> on_timer q o) -> calm p (h, w) (tim_do h op, w).
Proof. intros Ho. apply calm_later. intros q. by apply pad_later. Qed.

Lemma calm_sw p (h : H) w w' : (sw_shape w -> sw_shape w') -> (forall q, agree q w w') -> calm p (h, w) (h, w').
Proof.
  intros A B. split; [by apply keeps_sw | intros _ Hc; by apply (agree_cfg _ _ _ _ (B p)) |].
  intros _ Hm. exact (agree_mirror _ _ _ _ (B p) Hm).
Qed.

Lemma calm_consume p (h : H) w : calm p (h, w) (pwm_capture_consume_update h w p).
Proof.
  split; [apply consume_keeps | |].
  - intros _ Hc. apply (static_cfg _ _ _ _ (static_consume h w p)), (cfg_settings _ _ _ _ (consume_settings h w p)), Hc.
  - apply consume_mirror.
Qed.

(** ** Capture *)

Lemma drain_calm (h : H) w c : calm (periph (pwm_ch c)) (h, w) (pwm_capture_drain h w c).
Proof.
  unfold pwm_capture_drain. set (p := periph (pwm_ch c)). set (u := pwm_capture_unit (pwm_ch c)).
  destruct (pwm_capture_flag u) as [f |] eqn:Ef; [| done].
  assert (Hf : f = TIMER_FLAG_CAP u) by (unfold pwm_capture_flag in Ef; destruct u; (destruct (_ <? _)%nat; [by injection Ef | done])).
  pose proof (calm_read p h w (timer_flag_get p f)) as K1. destruct (tim_read h _) as [v h1]. cbn [snd] in K1.
  destruct (v =? 0); [done |].
  pose proof (calm_read p h1 w (capture_value p u)) as K2. destruct (tim_read h1 _) as [now h2]. cbn [snd] in K2.
  pose proof (calm_tims p h2 w [timer_flag_clear f] ltac:(by rewrite Hf)) as K3. cbn [tims foldl] in K3.
  pose proof (calm_consume p (tim_do h2 (on_timer p (timer_flag_clear f))) w) as K4.
  destruct (pwm_capture_consume_update _ w p) as [h3 w3].
  etrans; [exact K1 |]. etrans; [exact K2 |]. etrans; [exact K3 |]. etrans; [exact K4 |].
  apply calm_sw; auto with pwm.
Qed.

Lemma capture_read_calm (h : H) w c : calm (periph (pwm_ch c)) (h, w) (bridge_hw_pwm_capture_read_ h w c).1.
Proof.
  unfold bridge_hw_pwm_capture_read_. destruct (PWM_CHANNEL_COUNT <=? c); [done |]. destruct (negb _); [done |].
  pose proof (drain_calm h w c) as K. destruct (pwm_capture_drain h w c) as [h1 w1]. destruct (negb _); [done |].
  etrans; [exact K |]. apply calm_sw; auto with pwm.
Qed.

Lemma capture_begin_calm (h : H) w c e :
  0 <= c -> calm (periph (pwm_ch c)) (h, w) (bridge_hw_pwm_capture_begin_ h w c e).1.
Proof.
  intros Hc. unfold bridge_hw_pwm_capture_begin_. destruct (Z.leb_spec PWM_CHANNEL_COUNT c); [done |]. destruct (2 <? e); [done |].
  cbn [fst snd]. pose proof (channel_lt c ltac:(done)) as Hch. set (ch := pwm_ch c) in *. set (p := periph ch). set (u := pwm_capture_unit ch).
  etrans; [apply (calm_sw p h w (pwm_channel_claim w c)); auto with pwm |].
  etrans; [apply (calm_tims p h _ [timer_channel_complementary_output_disable (channel ch)]) |].
  { cbn [forallb smc_quiet cfg_quiet reload_quiet andb]. by rewrite (proj2 (Nat.ltb_lt _ _) Hch). }
  set (h1 := tims h p _).
  assert (K : forall w, calm p (h1, w) (if complement ch then tims h1 p [timer_multi_mode_independent u] else h1, w)).
  { intros w0. destruct (complement ch) eqn:Ec; [| done]. apply calm_tims. unfold u, pwm_capture_unit. rewrite Ec.
    cbn [forallb smc_quiet cfg_quiet reload_quiet andb]. by rewrite (proj2 (Nat.ltb_lt _ _) Hch). }
  etrans; [apply K |]. set (h2 := if complement ch then _ else h1).
  etrans; [by apply (calm_pad p h2 _ (gpio_mode_af (ch_port ch) true (ch_pin ch))) |].
  set (h3 := tim_do h2 _). etrans; [by apply (calm_tims p h3 _ [timer_input_capture_config u e]) |].
  set (h4 := tims h3 p _). assert (K2 : forall w, calm p (h4, w) (match pwm_capture_flag u with Some f => tims h4 p [timer_flag_clear f] | None => h4 end, w)).
  { intros w0. unfold pwm_capture_flag. destruct u; destruct (_ <? _)%nat; try done; by apply calm_tims. }
  etrans; [apply K2 |]. apply calm_sw; auto with pwm.
Qed.

Lemma channel_init_calm (h : H) w c :
  0 <= c < PWM_CHANNEL_COUNT -> calm (periph (pwm_ch c)) (h, w) (pwm_channel_init h w c).
Proof.
  intros Hc. unfold pwm_channel_init. set (ch := pwm_ch c). set (p := periph ch). set (ops := [_; _; _; _]).
  pose proof (channel_lt c Hc) as Hch. fold ch in Hch. pose proof (tims_runs ops h p) as R.
  destruct (Z.ltb_spec c PWM_CHANNEL_COUNT); [| lia]. split.
  - etrans; [by apply (keeps_tims p h w ops) |]. apply keeps_sw; [auto with pwm |].
    apply agree_one_shot; [done |]. symmetry. apply other_ne.
  - intros Hs Ht. cbn [fst snd] in *. apply (cfg_settings _ _ _ _ (runs_settings _ _ _ R)). cbn [foldl ops].
    assert (Hq : (channel ch <? 4)%nat = true) by by apply Nat.ltb_lt.
    apply cfg_quiet_op; [done |]. apply (cfg_mode w p _ c TIMER_OC_MODE_PWM0); [done | done | apply Hs |].
    apply cfg_cv; [unfold PWM_TIMER_ARR_MAX; lia | done |]. by apply cfg_quiet_op.
  - intros Hs Hm. exact (mirror_runs _ _ _ ops _ _ eq_refl R Hm).
Qed.

Lemma pads_later (h : H) ch q : later (tv h q) (tv (pwm_pad h ch) q).
Proof. unfold pwm_pad. etrans; [| by apply pad_later]. etrans; [| by apply pad_later]. by apply pad_later. Qed.

Lemma capture_end_calm (h : H) w c :
  0 <= c -> calm (periph (pwm_ch c)) (h, w) (bridge_hw_pwm_capture_end_ h w c).1.
Proof.
  intros Hc. unfold bridge_hw_pwm_capture_end_. destruct (Z.leb_spec PWM_CHANNEL_COUNT c); [done |].
  pose proof (channel_lt c ltac:(done)) as Hch. set (ch := pwm_ch c) in *. set (p := periph ch). set (u := pwm_capture_unit ch).
  set (h1 := match pwm_capture_flag u with Some f => tims h p [timer_flag_clear f] | None => h end).
  assert (K1 : calm p (h, w) (h1, w)).
  { unfold h1, pwm_capture_flag. destruct u; destruct (_ <? _)%nat; try done; by apply calm_tims. }
  set (h2 := if complement ch then tims h1 p [timer_multi_mode_complementary u] else h1).
  assert (K2 : calm p (h1, w) (h2, w)).
  { unfold h2. destruct (complement ch) eqn:Ec; [| done]. apply calm_tims. unfold u, pwm_capture_unit. rewrite Ec.
    cbn [forallb smc_quiet cfg_quiet reload_quiet andb]. by rewrite (proj2 (Nat.ltb_lt _ _) Hch). }
  assert (K3 : calm p (h2, w) (pwm_pad h2 ch, w)) by (apply calm_later; intros q; apply pads_later).
  pose proof (channel_init_calm (pwm_pad h2 ch) w c ltac:(done)) as K4. fold ch p in K4.
  destruct (pwm_channel_init (pwm_pad h2 ch) w c) as [h4 w4].
  etrans; [exact K1 |]. etrans; [exact K2 |]. etrans; [exact K3 |]. etrans; [exact K4 |].
  apply calm_sw; auto with pwm. intros q. etrans; [apply agree_release | apply agree_capture].
Qed.

(** Every request keeps the invariant. *)
Lemma pwm_request_inv r (h : H) w : req_unsigned r -> pwm_inv h w -> pwm_inv (pwm_request r h w).1 (pwm_request r h w).2.
Proof.
  destruct r; cbn [req_unsigned pwm_request]; intros Hr Hi.
  - by apply set_inv; try apply Hr.
  - by apply get_inv.
  - by apply configure_inv; try apply Hr.
  - by apply single_pulse_inv; try apply Hr.
  - by apply sync_inv.
  - by apply (inv_calm _ (h, w) _ (capture_begin_calm h w c edge Hr)).
  - by apply (inv_calm _ (h, w) _ (capture_read_calm h w c)).
  - by apply (inv_calm _ (h, w) _ (capture_end_calm h w c Hr)).
Qed.

(** ** Bring-up *)

(** What is known of timer [p] after the calls so far: a state its settings equal. *)
Definition looks (p : timer_id) (t : tmr) (h : H) : Prop := same_settings t (tv h p).

Lemma looks_tims p t (h : H) ops :
  looks p t h -> looks p (foldl (fun t op => op_effect op t) t ops) (tims h p ops).
Proof.
  intros L. unfold looks in *. etrans; [| apply runs_settings, tims_runs]. clear -L. revert t L. generalize (tv h p) as u.
  induction ops as [| op ops IH]; intros u t L; [exact L |]. cbn. apply (IH (op_effect op u)). by apply op_effect_settings.
Qed.

Lemma looks_other p t (h : H) q ops : q <> p -> looks p t h -> looks p t (tims h q ops).
Proof. intros Hq L. unfold looks in *. etrans; [exact L |]. apply later_settings, tims_other. congruence. Qed.

Lemma looks_later p t (h h' : H) : later (tv h p) (tv h' p) -> looks p t h -> looks p t h'.
Proof. intros L Hl. unfold looks in *. etrans; [exact Hl | by apply later_settings]. Qed.

(** Bring-up calls on one timer, in order. *)
Definition channel_init_ops (c : nat) : list timer_op :=
  let ch := pwm_ch (Z.of_nat c) in
  [timer_channel_output_config (channel ch) (complement ch);
   timer_channel_output_pulse_value_config (channel ch) 0;
   timer_channel_output_mode_config (channel ch) TIMER_OC_MODE_PWM0;
   timer_channel_output_shadow_enable (channel ch)].

Definition own_ops (p : timer_id) (cs : list nat) : list timer_op :=
  flat_map (fun c => if decide (periph (pwm_ch (Z.of_nat c)) = p) then channel_init_ops c else []) cs.

Lemma inits_sw cs : forall (h : H) w, Forall (fun c => Z.of_nat c < 8) cs ->
  (foldl (fun '(h, w) c => pwm_channel_init h w (Z.of_nat c)) (h, w) cs).2 =
  foldl (fun w c => set_one_shot (Z.of_nat c) false w) w cs.
Proof.
  induction cs as [| c cs IH]; intros h w Hcs; [done |]. apply list.Forall_cons in Hcs as [Hc Hcs]. cbn [foldl].
  unfold pwm_channel_init at 2. destruct (Z.ltb_spec (Z.of_nat c) PWM_CHANNEL_COUNT); [by apply IH | unfold PWM_CHANNEL_COUNT in *; lia].
Qed.

Lemma inits_looks p cs : forall (h : H) w t, looks p t h ->
  looks p (foldl (fun t op => op_effect op t) t (own_ops p cs))
    (foldl (fun '(h, w) c => pwm_channel_init h w (Z.of_nat c)) (h, w) cs).1.
Proof.
  induction cs as [| c cs IH]; intros h w t L; [exact L |]. cbn [foldl own_ops flat_map]. rewrite foldl_app.
  unfold pwm_channel_init at 2. apply IH. destruct (decide _) as [<- | Hne]; [by apply looks_tims | by apply looks_other].
Qed.

Lemma inits_mirror p a pd v cs : forall (h : H) w, mirror_ok a pd v (tv h p) ->
  mirror_ok a pd v (tv (foldl (fun '(h, w) c => pwm_channel_init h w (Z.of_nat c)) (h, w) cs).1 p).
Proof.
  induction cs as [| c cs IH]; intros h w M; [exact M |]. cbn [foldl]. unfold pwm_channel_init at 2. apply IH.
  destruct (decide (periph (pwm_ch (Z.of_nat c)) = p)) as [<- | Hne].
  - exact (mirror_runs _ _ _ (channel_init_ops c) _ _ eq_refl (tims_runs _ h _) M).
  - apply (mirror_later _ _ _ _ _ (tims_other (channel_init_ops c) h _ p (not_eq_sym Hne))), M.
Qed.

(** One timer after its own initialisation. *)
Definition timer_init_state : tmr :=
  foldl (fun t op => op_effect op t) (op_effect timer_deinit (Tmr 0 0 0 0 false [] TIMER_SLAVE_MODE_DISABLE))
    [timer_init PWM_TIMER_PRESCALER PWM_TIMER_ARR_MAX; timer_auto_reload_shadow_enable; timer_primary_output_enable;
     timer_enable].

Lemma timer_init_spec (h : H) p :
  looks p timer_init_state (pwm_timer_init h p) /\ mirror_ok PWM_TIMER_ARR_MAX 0 false (tv (pwm_timer_init h p) p).
Proof.
  unfold pwm_timer_init. split.
  - unfold looks. etrans; [| apply runs_settings, tims_runs]. done.
  - destruct (tims_runs [timer_deinit; timer_init PWM_TIMER_PRESCALER PWM_TIMER_ARR_MAX;
      timer_auto_reload_shadow_enable; timer_primary_output_enable; timer_enable] h p) as (t1 & _ & t2 & L2 & R).
    apply (mirror_runs _ _ _ [timer_auto_reload_shadow_enable; timer_primary_output_enable; timer_enable] t2); [done | exact R |].
    apply (mirror_later _ _ _ _ _ L2). by split.
Qed.

Lemma pads_fold cs : forall (h : H) p,
  later (tv h p) (tv (foldl (fun h c => pwm_pad h (pwm_ch (Z.of_nat c))) h cs) p).
Proof. induction cs as [| c cs IH]; intros h p; [done |]. cbn. etrans; [apply pads_later | apply IH]. Qed.

(** The settings bring-up leaves. *)
Definition bring_up_state (p : timer_id) : tmr :=
  foldl (fun t op => op_effect op t) timer_init_state (own_ops p (seq 0 8)).

Lemma bring_up_spec (h : H) :
  let x := pwm_bring_up h pwm_sw0 in
  x.2 = pwm_sw0 /\
  forall p, looks p (bring_up_state p) x.1 /\ mirror_ok PWM_TIMER_ARR_MAX 0 false (tv x.1 p).
Proof.
  cbn zeta. unfold pwm_bring_up. set (h1 := tim_do (tim_do _ _) _). split.
  - rewrite inits_sw; [done |]. repeat constructor.
  - intros p. assert (E : looks p timer_init_state (pwm_timer_init (pwm_timer_init h1 TIMER0) TIMER7) /\
      mirror_ok PWM_TIMER_ARR_MAX 0 false (tv (pwm_timer_init (pwm_timer_init h1 TIMER0) TIMER7) p)).
    { destruct p; [| apply timer_init_spec]. destruct (timer_init_spec h1 TIMER0) as (L & M). split.
      + by apply looks_other.
      + exact (mirror_later _ _ _ _ _ (tims_other _ _ TIMER7 TIMER0 ltac:(done)) M). }
    destruct E as (L & M). split; [by apply inits_looks | by apply inits_mirror].
Qed.

Lemma bring_up_inv (h : H) : let x := pwm_bring_up h pwm_sw0 in pwm_inv x.1 x.2.
Proof.
  cbn zeta. destruct (bring_up_spec h) as (Ew & Hp). rewrite Ew.
  assert (C : forall p, timer_cfg pwm_sw0 p (bring_up_state p)).
  { intros p. split.
    - by destruct p.
    - by destruct p.
    - destruct p; vm_compute; symmetry; apply cam_edge.
    - destruct p; vm_compute; split; discriminate.
    - by destruct p.
    - intros c Hc. destruct p; (do 4 (destruct c as [| c]; [done |])); lia.
    - intros c Hc. pattern c. apply channel_cases; [done | by destruct p ..].
    - destruct p; vm_compute; split; discriminate.
    - intros c. destruct p; (do 4 (destruct c as [| c]; [vm_compute; split; discriminate |])); vm_compute; split; discriminate. }
  split.
  - by split.
  - intros p. apply (cfg_settings _ _ _ _ (proj1 (Hp p))), C.
  - intros p. by destruct p; apply Hp.
  - intros p. unfold sync_at, enslaved. destruct (proj1 (Hp (other_timer p))) as (_ & -> & _). by destruct p.
Qed.

Lemma reach_inv (h : H) w : pwm_reach h w -> pwm_inv h w.
Proof.
  induction 1 as [h | h w r _ IH Hr | h h' w _ IH L]; [apply bring_up_inv | by apply pwm_request_inv | by apply (inv_later h)].
Qed.

End capture.
