(* ===== verification/PwmSafety.v ===== *)
(** * What PWM requests guarantee

    The properties of the PWM output, one-shot and capture requests over the
    reachable states of [PwmReach]. *)

From stdpp Require Import base tactics list numbers option relations.
From S2P Require Import Prelude BridgeHw PwmTimer Pwm PwmCapture PwmFacts PwmSet PwmLoad PwmApply PwmRequests PwmReach.

(** Values a channel's timer can express: whole microseconds in 16 bits, twice
    that for a counter that runs up and down. *)
Definition expressible (center : bool) (period duty : Z) : bool :=
  if center then (2000 <=? period) && (period <=? 131070000)
  else (1000 <=? period) && (period <=? 65536000) && (duty <? 65536000).

Definition set_status (w : pwm_sw) (running : bool) (c period duty : Z) : Z :=
  if PWM_CHANNEL_COUNT <=? c then BRIDGE_HW_ERR_RANGE
  else if period <? duty then BRIDGE_HW_ERR_INVAL
  else if negb (expressible (pwm_channel_center_aligned w c) period duty) then BRIDGE_HW_ERR_RANGE
  else if negb running && timer_sync_master_active w (pwm_timer_index (periph (pwm_ch c))) then BRIDGE_HW_ERR_BUSY
  else BRIDGE_HW_OK.

(** What a read-back reports of a commanded value: it is cut to the tick. *)
Definition quantised (center : bool) (ns : Z) : Z :=
  if center then 2000 * (ns / 2000) else 1000 * (ns / 1000).

Lemma counter_values_spec period duty center :
  0 <= duty <= period ->
  pwm_counter_values period duty center =
  if expressible center period duty
  then Some (if center then (period / 2000, duty / 2000) else (period / 1000 - 1, duty / 1000)) else None.
Proof.
  intros Hd. unfold pwm_counter_values, expressible, PWM_TIMER_TICK_NS, PWM_TIMER_ARR_MAX.
  assert (Ediv : forall x, x / 2000 = x / 1000 / 2) by (intros x; by rewrite Z.div_div by lia).
  rewrite !Ediv. destruct center; cbn [negb].
  - change (u32 (u32 (2 * 0xFFFF) * 1000)) with 131070000.
    destruct (Z.ltb_spec 131070000 period); [by rewrite (proj2 (Z.leb_gt period 131070000)), andb_false_r by lia |].
    rewrite (proj2 (Z.leb_le period 131070000)), andb_true_r by lia.
    pose proof (Z.div_le_mono duty period 1000 ltac:(lia) ltac:(lia)).
    pose proof (Z.div_le_mono period 131070000 1000 ltac:(lia) ltac:(lia)) as Hp. change (131070000 / 1000) with 131070 in Hp.
    pose proof (Z.div_le_mono (duty / 1000) (period / 1000) 2 ltac:(lia) ltac:(lia)).
    pose proof (Z.div_le_mono (period / 1000) 131070 2 ltac:(lia) ltac:(lia)) as Hp2. change (131070 / 2) with 65535 in Hp2.
    destruct (Z.leb_spec 2000 period).
    + pose proof (Z.div_le_mono 2000 period 1000 ltac:(lia) ltac:(lia)) as Hl. change (2000 / 1000) with 2 in Hl.
      pose proof (Z.div_le_mono 2 (period / 1000) 2 ltac:(lia) ltac:(lia)) as Hl2. change (2 / 2) with 1 in Hl2.
      rewrite (proj2 (Z.eqb_neq _ _)) by lia. rewrite (proj2 (Z.eqb_neq _ _)) by lia.
      rewrite !(proj2 (Z.ltb_ge _ _)) by lia. done.
    + destruct (Z.eqb_spec (period / 1000) 0); [done |].
      assert (period / 1000 < 2) by (apply Z.div_lt_upper_bound; lia).
      rewrite (Z.div_small (period / 1000) 2); [done |]. pose proof (Z.div_pos period 1000 ltac:(lia) ltac:(lia)). lia.
  - change (u32 (u32 (0xFFFF + 1) * 1000)) with 65536000.
    destruct (Z.ltb_spec 65536000 period); [by rewrite (proj2 (Z.leb_gt period 65536000)), andb_false_r by lia |].
    rewrite (proj2 (Z.leb_le period 65536000)), andb_true_r by lia.
    pose proof (Z.div_le_mono period 65536000 1000 ltac:(lia) ltac:(lia)) as Hp. change (65536000 / 1000) with 65536 in Hp.
    destruct (Z.leb_spec 1000 period).
    + pose proof (Z.div_le_mono 1000 period 1000 ltac:(lia) ltac:(lia)) as Hl. change (1000 / 1000) with 1 in Hl.
      rewrite (proj2 (Z.eqb_neq _ _)) by lia. unfold u32. rewrite Z.mod_small by lia.
      rewrite (proj2 (Z.ltb_ge _ _)) by lia. cbn [orb andb].
      destruct (Z.ltb_spec duty 65536000) as [Hd2 | Hd2].
      * assert (duty / 1000 < 65536) by (apply Z.div_lt_upper_bound; lia). by rewrite (proj2 (Z.ltb_ge _ _)) by lia.
      * pose proof (Z.div_le_mono 65536000 duty 1000 ltac:(lia) ltac:(lia)) as Hd3. change (65536000 / 1000) with 65536 in Hd3.
        by rewrite (proj2 (Z.ltb_lt _ _)) by lia.
    + rewrite (Z.div_small period) by lia. done.
Qed.

(** Period and duty of a read-back, from the preloaded values. *)
Definition reported (w : pwm_sw) (c car cv : Z) : Z * Z :=
  if flag_at (pwm_one_shot w) c then (1000 * (car + 1), 1000 * (car - Z.min cv (car + 1) + 1))
  else if pwm_channel_center_aligned w c then (2000 * car, Z.min (2000 * Z.min cv (car + 1)) (2000 * car))
  else (1000 * (car + 1), 1000 * Z.min cv (car + 1)).

Section safety.
Context {H : Type} `{TimerLaws H}.

Lemma get_spec (h : H) w c :
  0 <= c < PWM_CHANNEL_COUNT -> pwm_inv h w ->
  let ch := pwm_ch c in
  let '(car, cv) := pre_pair (tv h (periph ch)) (channel ch) in
  (bridge_hw_pwm_get_ h w c).2 =
  (BRIDGE_HW_OK, (reported w c car cv).1, (reported w c car cv).2).
Proof.
  intros Hc Hi. cbn zeta. unfold pre_pair, bridge_hw_pwm_get_. destruct (Z.leb_spec PWM_CHANNEL_COUNT c); [lia |].
  set (ch := pwm_ch c). set (p := periph ch).
  pose proof (tc_car _ _ _ (pi_cfg _ _ Hi p)) as Rc. pose proof (tc_cv _ _ _ (pi_cfg _ _ Hi p) (channel ch)) as Rv.
  pose proof (read_car h p) as E1. pose proof (tv_read h (TIMER_CAR p) p) as L1.
  destruct (tim_read h (TIMER_CAR p)) as [car h1]. cbn [fst snd] in E1, L1. subst car.
  pose proof (read_cv h1 p (channel ch)) as E2.
  destruct (tim_read h1 (capture_value p (TIMER_CH (channel ch)))) as [cv h2]. cbn [fst] in E2.
  pose proof (settings_pre _ _ (channel ch) (later_settings _ _ L1)) as E3. unfold pre_pair in E3. injection E3 as _ E3.
  rewrite E3 in E2. subst cv. set (car := car_pre _) in *. set (cv := cv_pre _) in *. unfold PWM_TIMER_ARR_MAX in *.
  assert (Em : Z.land car 0xFFFF = car).
  { change 0xFFFF with (Z.ones 16). rewrite Z.land_ones by lia. apply Z.mod_small. lia. }
  rewrite Em. unfold u32, PWM_TIMER_TICK_NS, reported, pwm_channel_center_aligned. fold ch p.
  rewrite (Z.mod_small (car + 1)) by lia.
  assert (Ev : (if car + 1 <? cv then car + 1 else cv) = Z.min cv (car + 1)) by (destruct (Z.ltb_spec (car + 1) cv); lia).
  rewrite Ev. set (cw := Z.min cv (car + 1)). assert (0 <= cw <= car + 1) by (unfold cw; lia).
  destruct (flag_at _ _); cbn [fst snd].
  - rewrite Z.add_mod_idemp_l by lia. rewrite (Z.mod_small (car - cw + 1)) by lia. clearbody cw car. f_equal; [f_equal |]; rewrite Z.mod_small; lia.
  - destruct (Z.eqb_spec (pwm_align_mode w).[pwm_timer_index p] 0); cbn [negb fst snd].
    + clearbody cw car. f_equal; [f_equal |]; rewrite Z.mod_small; lia.
    + rewrite (Z.mod_small (2 * car)), (Z.mod_small (2 * cw)), (Z.mod_small (2 * car * 1000)), (Z.mod_small (2 * cw * 1000)) by lia.
      destruct (Z.ltb_spec (2 * car * 1000) (2 * cw * 1000)); (f_equal; [f_equal |]); lia.
Qed.

(** [bridge_hw_pwm_set]: the answer, and what it leaves where it programs. *)
Lemma set_spec (h : H) w c period duty :
  0 <= c -> 0 <= period -> 0 <= duty -> pwm_inv h w ->
  let ch := pwm_ch c in
  let p := periph ch in
  let center := pwm_channel_center_aligned w c in
  let x := if center then (period / 2000, duty / 2000) else (period / 1000 - 1, duty / 1000) in
  let r := bridge_hw_pwm_set_ h w c period duty in
  r.2 = set_status w (cen (tv h p)) c period duty /\
  (r.2 <> BRIDGE_HW_OK -> r.1.2 = w /\ forall q, later (tv h q) (tv r.1.1 q)) /\
  (r.2 = BRIDGE_HW_OK ->
   0 <= c < PWM_CHANNEL_COUNT /\ 0 <= duty <= period /\ expressible center period duty = true /\ pwm_inv r.1.1 r.1.2 /\
   same_static (continuous w c) r.1.2 /\ same_settings (programmed ch x.1 x.2 (tv h p)) (tv r.1.1 p) /\
   forall d, if cen (tv h p)
             then act_pair (tv r.1.1 p) d = act_pair (tv h p) d \/ act_pair (tv r.1.1 p) d = pre_pair (tv h p) d \/
                  act_pair (tv r.1.1 p) d = pre_pair (programmed ch x.1 x.2 (tv h p)) d
             else act_pair (tv r.1.1 p) d = pre_pair (programmed ch x.1 x.2 (tv h p)) d).
Proof.
  cbn zeta. intros Hc Hp Hd Hi. pose proof (set_inv h w c period duty Hc Hp Hd Hi) as Hi'. cbn zeta in Hi'.
  unfold bridge_hw_pwm_set_, set_status in *. destruct (Z.leb_spec PWM_CHANNEL_COUNT c); [done |].
  destruct (Z.ltb_spec period duty); [done |].
  rewrite counter_values_spec in * by lia. destruct (expressible _ period duty) eqn:Ex; cbn [negb]; [| done].
  set (x := if pwm_channel_center_aligned w c then _ else _) in *.
  assert (Rx : 0 <= x.1 <= PWM_TIMER_ARR_MAX /\ 0 <= x.2 <= PWM_TIMER_ARR_MAX).
  { apply (counter_values_range period duty (pwm_channel_center_aligned w c)); [lia | lia |].
    rewrite counter_values_spec, Ex by lia. unfold x. by destruct (pwm_channel_center_aligned w c). }
  clearbody x. destruct x as [arr compare]. cbn [fst snd] in *. destruct Rx as (Ra & Rv).
  destruct (apply_spec h w c arr compare ltac:(done) Ra Rv Hi) as [(E1 & E2 & E3 & E4) | (E1 & _ & _ & _ & E5 & E6 & E7)].
  - rewrite E1, E2, E3, E4. split; [done |]. split; [| done]. intros _. split; [done |]. intros q. apply tv_read.
  - split.
    + rewrite E1. destruct (cen (tv h (periph (pwm_ch c)))) eqn:Ec; [done |].
      cbn [negb andb]. destruct (timer_sync_master_active _ _) eqn:Em; [| done]. exfalso. revert E1.
      unfold pwm_apply_counter_values. pose proof (busy_word h (periph (pwm_ch c))) as Eb.
      destruct (tim_read h _) as [v h1]. cbn [fst] in Eb. rewrite Eb, Ec. unfold timer_sync_forced_update_allowed. by rewrite Em.
    + split; [by rewrite E1 |]. intros _. split_and!; done.
Qed.

Lemma programmed_pair ch arr compare t :
  (channel ch < length (ocs t))%nat -> pre_pair (programmed ch arr compare t) (channel ch) = (arr, compare).
Proof.
  intros Hl. unfold programmed, loaded, pre_pair. cbn [op_effect]. rewrite ch_of_set_eq; [done |].
  cbn [set_oc set_car set_ctl0 ocs]. by rewrite length_insert.
Qed.

Lemma programmed_sibling ch arr compare t d :
  d <> channel ch -> pre_pair (programmed ch arr compare t) d = (arr, cv_pre (ch_of t d)).
Proof.
  intros Hd. unfold programmed, loaded, pre_pair. cbn [op_effect]. rewrite ch_of_set_ne by done. f_equal.
  change (cv_pre (ch_of (set_oc (channel ch) (Oc (cv_pre (ch_of t (channel ch))) (cv_act (ch_of t (channel ch))) false
    (oc_shadow (ch_of t (channel ch))) (ccxn (ch_of t (channel ch))) (mch_indep (ch_of t (channel ch)))) t) d) = cv_pre (ch_of t d)).
  by rewrite ch_of_set_ne.
Qed.

(** C24. In every state requests and time reach from bring-up, the firmware's
    statics describe the two timers: the alignment field, the compare mode and
    the shadow enable of every channel, the active reload value (the mirror's
    active entry, or its pending one once an update event is flagged), and the
    sync masters. *)
Theorem pwm_statics_describe_timers (h : H) w :
  pwm_reach h w -> forall p,
  let t := tv h p in
  let i := pwm_timer_index p in
  cam t = cam_code (pwm_align_mode w).[i] /\ updis t = false /\
  (forall c, 0 <= c < PWM_CHANNEL_COUNT -> periph (pwm_ch c) = p ->
     oc_pwm1 (ch_of t (channel (pwm_ch c))) = flag_at (pwm_one_shot w) c /\
     oc_shadow (ch_of t (channel (pwm_ch c))) = true) /\
  car_act t = (if upif t && flag_at (pwm_capture_pending_valid w) i
               then (pwm_capture_pending_car w).[i] else (pwm_capture_active_car w).[i]) /\
  timer_sync_master_active w i = enslaved (tv h (other_timer p)).
Proof.
  cbn zeta. intros Hr p. destruct (reach_inv _ _ Hr) as [_ Hc Hm Hy]. split_and!.
  - apply Hc.
  - apply Hc.
  - intros c Hc1 Hp. split; [by apply (tc_mode _ _ _ (Hc p)) |]. apply (tc_shadow _ _ _ (Hc p)). by apply channel_lt.
  - destruct (Hm p) as (_ & ->). destruct (upif _); [| done]. by destruct (flag_at _ _).
  - apply Hy.
Qed.

(** [bridge_hw_pwm_set] answers by its arguments, the alignment and the run
    state alone: RANGE past the channels or for what 16 bits of microseconds cannot
    express, INVAL for a duty above the period, BUSY only on a halted timer that
    drives a slave; a refusal leaves the statics, and the timers to themselves. *)
Theorem pwm_set_contract (h : H) w c period duty :
  0 <= c -> 0 <= period -> 0 <= duty -> pwm_reach h w ->
  let r := bridge_hw_pwm_set_ h w c period duty in
  r.2 = set_status w (cen (tv h (periph (pwm_ch c)))) c period duty /\
  (r.2 <> BRIDGE_HW_OK -> r.1.2 = w /\ forall q, later (tv h q) (tv r.1.1 q)).
Proof.
  cbn zeta. intros Hc Hp Hd Hr. destruct (set_spec h w c period duty Hc Hp Hd (reach_inv _ _ Hr)) as (A & B & _). by split.
Qed.

(** A set channel reads back, at once or any time later, the period and duty
    that were commanded, cut to the tick: a microsecond on an edge-aligned timer,
    two on a center-aligned one. *)
Theorem pwm_set_get_round_trip (h h' : H) w c period duty :
  0 <= c -> 0 <= period -> 0 <= duty -> pwm_reach h w ->
  let r := bridge_hw_pwm_set_ h w c period duty in
  let center := pwm_channel_center_aligned w c in
  r.2 = BRIDGE_HW_OK -> (forall q, later (tv r.1.1 q) (tv h' q)) ->
  (bridge_hw_pwm_get_ h' r.1.2 c).2 = (BRIDGE_HW_OK, quantised center period, quantised center duty).
Proof.
  cbn zeta. intros Hc Hp Hd Hr E L. pose proof (reach_inv _ _ Hr) as Hi.
  destruct (set_spec h w c period duty Hc Hp Hd Hi) as (_ & _ & Hok).
  destruct (Hok E) as (Hc1 & Hdp & Ex & Hi1 & St & S & _). clear Hok E. set (r := bridge_hw_pwm_set_ h w c period duty) in *.
  pose proof (get_spec h' r.1.2 c Hc1 (inv_later _ _ _ L Hi1)) as G. cbn zeta in G.
  rewrite (settings_pre _ _ _ (later_settings _ _ (L _))), (settings_pre _ _ _ S), programmed_pair in G
    by (rewrite (tc_len _ _ _ (pi_cfg _ _ Hi _)); by apply channel_lt).
  rewrite G. destruct St as (S1 & S2 & _). unfold continuous in S1, S2. cbn [set_one_shot pwm_one_shot pwm_align_mode] in S1, S2.
  destruct (claim_fields w c) as (F1 & F2 & _). unfold reported, pwm_channel_center_aligned in *. rewrite S1, S2, F1, F2.
  rewrite flag_at_insert_eq by (rewrite (sh_one_shot _ (pi_shape _ _ Hi)); unfold PWM_CHANNEL_COUNT in Hc1; lia).
  destruct (negb _); cbn [fst snd]; unfold quantised, expressible in *.
  - pose proof (Z.div_le_mono duty period 2000 ltac:(lia) ltac:(lia)). apply pair_eq; split; [apply pair_eq; split; [done | lia] | lia].
  - pose proof (Z.div_le_mono duty period 1000 ltac:(lia) ltac:(lia)). apply pair_eq; split; [apply pair_eq; split; [done | lia] | lia].
Qed.

(** C25. Reload and compare values change together.  After a set of a running timer
    the pair that drives any channel is the one that drove it, the one an earlier
    set had preloaded, or the one commanded (for a sibling: the new reload with its
    own compare value); on a halted timer the commanded one is active at once. *)
Theorem pwm_set_never_mixes (h : H) w c period duty d :
  0 <= c -> 0 <= period -> 0 <= duty -> pwm_reach h w ->
  let p := periph (pwm_ch c) in
  let t := tv h p in
  let r := bridge_hw_pwm_set_ h w c period duty in
  let '(arr, compare) := if pwm_channel_center_aligned w c then (period / 2000, duty / 2000)
                         else (period / 1000 - 1, duty / 1000) in
  let commanded := (arr, if decide (d = channel (pwm_ch c)) then compare else cv_pre (ch_of t d)) in
  r.2 = BRIDGE_HW_OK ->
  if cen t then act_pair (tv r.1.1 p) d ∈ [act_pair t d; pre_pair t d; commanded]
  else act_pair (tv r.1.1 p) d = commanded.
Proof.
  cbn zeta. intros Hc Hp Hd Hr. pose proof (reach_inv _ _ Hr) as Hi.
  destruct (set_spec h w c period duty Hc Hp Hd Hi) as (_ & _ & Hok).
  destruct (if pwm_channel_center_aligned w c then _ else _) as [arr compare]. cbn [fst snd] in Hok.
  intros E. destruct (Hok E) as (Hc1 & _ & _ & _ & _ & _ & P). specialize (P d).
  assert (Ec : pre_pair (programmed (pwm_ch c) arr compare (tv h (periph (pwm_ch c)))) d =
               (arr, if decide (d = channel (pwm_ch c)) then compare else cv_pre (ch_of (tv h (periph (pwm_ch c))) d))).
  { case_decide as Ed; [subst d | by apply programmed_sibling]. apply programmed_pair.
    rewrite (tc_len _ _ _ (pi_cfg _ _ Hi _)). by apply channel_lt. }
  rewrite Ec in P. destruct (cen _); [| done]. rewrite !elem_of_cons. tauto.
Qed.

End safety.
