(* ===== verification/PwmPulse.v ===== *)
(** * One-shots, ownership, and forced updates

    The waveform of a one-shot tick by tick, the claims that protect the other
    channels of a timer, and the calls a request makes on a sync master. *)

From stdpp Require Import base tactics list numbers option relations.
From S2P Require Import Prelude BridgeHw PwmTimer Pwm PwmCapture PwmFacts PwmSet PwmLoad PwmApply PwmRequests PwmReach PwmSafety.

(** ** The counter of an edge-aligned timer *)

(** One tick: count up to the reload value, then an update event. *)
Definition count_tick (t : tmr) : tmr :=
  if cen t then if cnt t =? car_act t then update_event t else set_cnt (cnt t + 1) t else t.

(** The output of channel [c]: PWM0 is active below the compare value, PWM1 from
    it on. *)
Definition level (t : tmr) (c : nat) : bool :=
  let o := ch_of t c in if oc_pwm1 o then cv_act o <=? cnt t else cnt t <? cv_act o.

Lemma count_tick_step t : later t (count_tick t).
Proof.
  unfold count_tick. destruct (cen t) eqn:Ec; [| done]. destruct (_ =? _); apply rtc_once.
  - apply tick_update. by rewrite Ec.
  - by apply tick_count.
Qed.

(** A timer about to run a one-shot of [us] ticks on channel [c]. *)
Record released (us : Z) (c : nat) (t : tmr) : Prop := {
  re_cen : cen t = true; re_spm : spm t = true; re_updis : updis t = false;
  re_cnt : cnt t = 0; re_car : act_pair t c = (us, PWM_ONE_SHOT_DELAY_TICKS); re_pre : pre_pair t c = act_pair t c;
  re_mode : oc_pwm1 (ch_of t c) = true }.

Lemma pulse_running us c t k :
  released us c t -> Z.of_nat k <= us -> Nat.iter k count_tick t = set_cnt (Z.of_nat k) t.
Proof.
  intros [Hc _ _ H0 Ha _ _]. assert (Ea : car_act t = us) by (unfold act_pair in Ha; congruence).
  induction k as [| k IH]; intros Hk; [by destruct t; cbn in *; subst |]. cbn [Nat.iter nat_rect].
  change (count_tick (Nat.iter k count_tick t) = set_cnt (Z.of_nat (S k)) t). rewrite IH by lia.
  unfold count_tick. change (cen (set_cnt _ t)) with (cen t). rewrite Hc. cbn [set_cnt cnt car_act].
  rewrite (proj2 (Z.eqb_neq _ _)) by lia. unfold set_cnt. cbn. f_equal. lia.
Qed.

(** The pulse: inactive at the release, active for [us] ticks, inactive for good. *)
Lemma pulse_levels us c t k :
  0 < us -> released us c t ->
  level (Nat.iter k count_tick t) c = (1 <=? Z.of_nat k) && (Z.of_nat k <=? us).
Proof.
  intros Hus Hr. pose proof Hr as [Hc Hs Hu H0 Ha Hp Hm]. unfold act_pair in Ha. injection Ha as Ea Ev.
  destruct (Z.leb_spec (Z.of_nat k) us) as [Hk | Hk].
  - rewrite (pulse_running us c t k Hr Hk), andb_true_r. unfold level. change (ch_of (set_cnt _ t) c) with (ch_of t c).
    by rewrite Hm, Ev.
  - rewrite andb_false_r. set (t1 := update_event (set_cnt us t)).
    assert (E1 : t1 = Tmr (Z.clearbit (ctl0 t) 0) (car_pre t) (car_pre t) 0 true (promote <$> ocs t) (smc t)).
    { unfold t1, update_event. change (updis (set_cnt us t)) with (updis t). change (spm (set_cnt us t)) with (spm t). by rewrite Hu, Hs. }
    assert (C1 : cen t1 = false) by (rewrite E1; unfold cen; cbn [ctl0]; by rewrite Z.clearbit_eq).
    assert (Et : forall n, Nat.iter (S (Z.to_nat us) + n) count_tick t = t1).
    { induction n as [| n IH].
      - rewrite Nat.add_0_r. change (count_tick (Nat.iter (Z.to_nat us) count_tick t) = t1).
        rewrite (pulse_running us c t _ Hr) by lia. unfold count_tick. change (cen (set_cnt _ t)) with (cen t). rewrite Hc.
        cbn [set_cnt cnt car_act]. by rewrite Ea, Z2Nat.id, Z.eqb_refl by lia.
      - rewrite <- plus_n_Sm. change (count_tick (Nat.iter (S (Z.to_nat us) + n) count_tick t) = t1). rewrite IH.
        unfold count_tick. by rewrite C1. }
    replace k with (S (Z.to_nat us) + (k - S (Z.to_nat us)))%nat by lia. rewrite Et.
    assert (Eo : ch_of t1 c = promote (ch_of t c)) by (unfold t1; by rewrite update_ch).
    unfold level. rewrite Eo. cbn [promote oc_pwm1 cv_act]. rewrite Hm. unfold pre_pair, act_pair in Hp. injection Hp as _ Hp.
    by rewrite Hp, Ev, E1.
Qed.

(** ** A stopped, free timer takes calls exactly *)

Definition stopped_op (op : timer_op) : bool :=
  match op with timer_enable | timer_ctl0_write _ | timer_slave_mode_select _ | timer_deinit => false | _ => true end.

Lemma stopped_keeps op t :
  stopped_op op = true -> cen t = false -> smc t = TIMER_SLAVE_MODE_DISABLE ->
  cen (op_effect op t) = false /\ smc (op_effect op t) = TIMER_SLAVE_MODE_DISABLE.
Proof.
  intros Ho Hc Hm. split; [| rewrite smc_quiet_op; [done | by destruct op]].
  destruct op; try done; cbn [op_effect]; try exact Hc; unfold cen in *; cbn [set_upif set_car set_ctl0 ctl0].
  - by rewrite Z.land_spec, Hc.
  - by rewrite Z.setbit_neq by lia.
  - by rewrite Z.clearbit_eq.
  - by destruct u.
  - by destruct u.
  - destruct single; [by rewrite Z.setbit_neq by lia |]. rewrite Z.clearbit_eqb, Hc. done.
  - unfold update_event. destruct (updis t); [done |]. cbn [ctl0]. destruct (spm t); [by rewrite Z.clearbit_eq | done].
  - by destruct f.
Qed.

Lemma runs_stopped ops : forall t t',
  forallb stopped_op ops = true -> cen t = false -> smc t = TIMER_SLAVE_MODE_DISABLE -> runs ops t t' ->
  t' = foldl (fun t op => op_effect op t) t ops.
Proof.
  induction ops as [| op ops IH]; intros t t' Hq Hc Hm; [done |]. apply andb_prop in Hq as [Ho Hq].
  intros (u & L & R). destruct (stopped_keeps op t Ho Hc Hm) as (C1 & M1).
  apply later_stopped in L as ->; [| done..]. by apply IH.
Qed.

Section pulse.
Context {H : Type} `{TimerLaws H}.

(** The calls of an accepted one-shot, up to the release of the counter. *)
Definition pulse_ops (ch : gd32_pwm_ch_t) (us : Z) : list timer_op :=
  one_shot_ops ch us ++ [timer_flag_clear TIMER_FLAG_UP; timer_single_pulse_mode_config true].

Lemma pulse_released ch us t :
  updis t = false -> arse t = true -> (channel ch < length (ocs t))%nat ->
  released us (channel ch) (op_effect timer_enable (foldl (fun t op => op_effect op t) t (pulse_ops ch us))).
Proof.
  intros Hu Ha Hl. unfold pulse_ops, one_shot_ops. cbn [app foldl]. set (c := channel ch) in *.
  set (t2 := op_effect (timer_channel_output_mode_config c TIMER_OC_MODE_PWM1) (op_effect timer_disable t)).
  set (t5 := op_effect (timer_channel_output_pulse_value_config c _) _).
  assert (L2 : length (ocs t2) = length (ocs t)) by (unfold t2; cbn; apply length_insert).
  assert (M2 : oc_pwm1 (ch_of t2 c) = true) by (unfold t2; cbn [op_effect]; by rewrite ch_of_set_eq).
  assert (O5 : cv_pre (ch_of t5 c) = PWM_ONE_SHOT_DELAY_TICKS /\ oc_pwm1 (ch_of t5 c) = true).
  { unfold t5. cbn [op_effect]. rewrite ch_of_set_eq by (cbn [set_car set_cnt ocs]; by rewrite L2). split; [done |]. exact M2. }
  assert (U5 : updis t5 = false).
  { unfold updis. change (ctl0 t5) with (Z.clearbit (ctl0 t) 0). by rewrite Z.clearbit_neq by lia. }
  cbn [op_effect]. destruct O5 as (O1 & O2). pose proof (update_ch t5 c U5) as E6.
  assert (E : exists w, update_event t5 = Tmr w us us 0 true (promote <$> ocs t5) (smc t5) /\ Z.testbit w 1 = false).
  { unfold update_event. rewrite U5. eexists. split; [done |]. destruct (spm t5); [| exact U5]. rewrite Z.clearbit_neq by lia. exact U5. }
  destruct E as (w & E & Hw). rewrite E in E6 |- *. unfold set_upif. cbn [ctl0 car_pre car_act cnt ocs smc].
  match goal with |- released _ _ ?v => set (u := v) end.
  assert (Ec : ch_of u c = promote (ch_of t5 c)) by exact E6.
  assert (Ew : ctl0 u = Z.setbit (Z.setbit w 3) 0) by done.
  split; unfold act_pair, pre_pair; rewrite ?Ec; cbn [promote cv_pre cv_act oc_pwm1]; try done.
  - unfold cen. by rewrite Ew, Z.setbit_eq.
  - unfold spm. rewrite Ew, Z.setbit_neq, Z.setbit_eq by lia. done.
  - unfold updis. by rewrite Ew, !Z.setbit_neq by lia.
  - by rewrite O1.
Qed.

(** Calls that start with a disable, none of them starting the counter, leave a
    free timer stopped, in exactly the state their effects say. *)
Lemma disabled_exact ops (h : H) p :
  forallb stopped_op ops = true -> smc (tv h p) = TIMER_SLAVE_MODE_DISABLE ->
  let t := tv (tims h p (timer_disable :: ops)) p in
  cen t = false /\ t = foldl (fun t op => op_effect op t) (tv h p) (timer_disable :: ops).
Proof.
  intros Hq Hm. cbn zeta. pose proof (tims_runs (timer_disable :: ops) h p) as (t1 & L1 & R1).
  assert (C1 : cen (op_effect timer_disable (tv h p)) = false)
    by (unfold cen; cbn [op_effect set_ctl0 ctl0]; by rewrite Z.clearbit_eq).
  apply later_stopped in L1 as ->; [| done..]. apply runs_stopped in R1; [| done..].
  split; [| exact R1]. rewrite R1. clear R1.
  revert Hq C1. generalize (op_effect timer_disable (tv h p)) (eq_refl : smc (op_effect timer_disable (tv h p)) = smc (tv h p)).
  rewrite Hm. induction ops as [| op ops IH]; intros t Ht Hq C1; [done |].
  apply andb_prop in Hq as [Ho Hq]. cbn [foldl]. destruct (stopped_keeps op t Ho C1 Ht) as [C2 M2]. by apply IH.
Qed.

(** C26. An accepted one-shot on a timer whose slave controller is off.  Its calls
    on the timer are a sequence that starts by stopping the counter and leaves it
    stopped after every call, and then, as the very last call, the release.  In the
    state right at the release the output is idle for one tick, active for exactly
    the commanded whole microseconds, and idle from then on, single-pulse mode
    being armed already; read-backs report that width.  A refused one leaves
    hardware and statics untouched. *)
Theorem one_shot_is_one_pulse (h h' : H) w c pulse :
  0 <= c -> 0 <= pulse -> pwm_reach h w ->
  let ch := pwm_ch c in
  let p := periph ch in
  let us := pulse / 1000 in
  let r := bridge_hw_pwm_single_pulse_ h w c pulse in
  smc (tv h p) = TIMER_SLAVE_MODE_DISABLE -> (forall q, later (tv r.1.1 q) (tv h' q)) ->
  (r.2 <> BRIDGE_HW_OK /\ r.1 = (h, w)) \/
  (r.2 = BRIDGE_HW_OK /\
   (exists ops, r.1.1 = tims h p (ops ++ [timer_enable]) /\
      (forall n, (0 < n <= length ops)%nat -> cen (tv (tims h p (take n ops)) p) = false) /\
      let u := op_effect timer_enable (tv (tims h p ops) p) in
      spm u = true /\ later u (tv r.1.1 p) /\
      forall k, level (Nat.iter k count_tick u) (channel ch) = (1 <=? Z.of_nat k) && (Z.of_nat k <=? us)) /\
   (bridge_hw_pwm_get_ h' r.1.2 c).2 = (BRIDGE_HW_OK, 1000 * (us + 1), 1000 * us)).
Proof.
  cbn zeta. intros Hc Hp Hr Hm L. pose proof (reach_inv _ _ Hr) as Hi.
  pose proof (single_pulse_inv h w c pulse Hc Hp Hi) as Hi'. cbn zeta in Hi'.
  destruct (single_pulse_cases h w c pulse Hc Hp) as [(A & B) | (Hc1 & Hus & _ & _ & _ & E)]; [by left | right].
  change PWM_TIMER_TICK_NS with 1000 in *. set (us := pulse / 1000) in *. set (ch := pwm_ch c) in *. set (p := periph ch) in *.
  pose proof (pi_cfg _ _ Hi p) as Hcfg.
  set (w' := set_mirror (pwm_timer_index p) us (pwm_capture_pending_car (one_shot_sw w c)).[pwm_timer_index p] false (one_shot_sw w c)).
  assert (E' : bridge_hw_pwm_single_pulse_ h w c pulse = (tims h p (pulse_ops ch us ++ [timer_enable]), w', BRIDGE_HW_OK)) by exact E.
  rewrite E' in *. cbn [fst snd] in *. split; [done |].
  set (u := op_effect timer_enable (tv (tims h p (pulse_ops ch us)) p)).
  assert (Hrel : released us (channel ch) u).
  { unfold u. destruct (disabled_exact (tail (pulse_ops ch us)) h p ltac:(done) Hm) as [_ Ex].
    change (timer_disable :: tail (pulse_ops ch us)) with (pulse_ops ch us) in Ex. rewrite Ex.
    apply (pulse_released ch us (tv h p)); [apply Hcfg | apply Hcfg |]. rewrite (tc_len _ _ _ Hcfg). by apply channel_lt. }
  assert (L3 : later u (tv (tims h p (pulse_ops ch us ++ [timer_enable])) p)).
  { unfold tims. rewrite foldl_app. pose proof (tv_do (tims h p (pulse_ops ch us)) (on_timer p timer_enable) p) as L2.
    cbn [effect] in L2. by rewrite decide_True in L2. }
  split.
  - exists (pulse_ops ch us). split; [done |]. split.
    + intros [| n] Hn; [lia |].
      destruct (disabled_exact (take n (tail (pulse_ops ch us))) h p) as [Cn _]; [| done | exact Cn].
      apply forallb_forall. intros op Hop%list_elem_of_In. eapply (proj1 (forallb_forall _ (tail (pulse_ops ch us)))); [done |].
      apply list_elem_of_In. apply list_elem_of_lookup in Hop as (m & Hm'). apply list_elem_of_lookup.
      exists m. apply lookup_take_Some in Hm' as [? _]. done.
    + cbn zeta. fold u. split; [apply Hrel |]. split; [exact L3 |]. intros k. apply pulse_levels; [lia | done].
  - assert (Epre : pre_pair (tv h' p) (channel ch) = (us, PWM_ONE_SHOT_DELAY_TICKS)).
    { rewrite (settings_pre _ _ _ (later_settings _ _ (L p))), (settings_pre _ _ _ (later_settings _ _ L3)).
      by rewrite (re_pre _ _ _ Hrel), (re_car _ _ _ Hrel). }
    pose proof (get_spec h' w' c ltac:(done) (inv_later _ _ _ L Hi')) as G. cbn zeta in G. fold ch p in G. rewrite Epre in G.
    rewrite G. unfold reported, w', one_shot_sw. cbn [set_mirror set_one_shot set_claims pwm_one_shot].
    rewrite flag_at_insert_eq by (rewrite (sh_one_shot _ (pi_shape _ _ Hi)); unfold PWM_CHANNEL_COUNT in Hc1; lia).
    unfold PWM_ONE_SHOT_DELAY_TICKS. cbn [fst snd]. apply pair_eq; split; [apply pair_eq; split; [done | lia] | lia].
Qed.

End pulse.
