(* ===== verification/PwmOwner.v ===== *)
(** * Who may disturb a timer: channel claims and sync masters

    Claims survive every request that is not the channel's own release and keep
    one-shots of its siblings off; no request forces an update on a timer that
    triggers an enabled slave. *)

From stdpp Require Import base tactics list numbers option relations.
From S2P Require Import Prelude BridgeHw PwmTimer Pwm PwmCapture PwmFacts PwmSet PwmLoad PwmApply PwmRequests PwmReach PwmSafety.

(** ** Claims *)

Definition claimed (w : pwm_sw) (c : Z) : bool :=
  Z.testbit (pwm_timer_claims w).[pwm_timer_index (periph (pwm_ch c))] (c mod 4).

(** The requests that end a channel's claim. *)
Definition releases (c : Z) (r : pwm_req) : bool :=
  match r with ReqSinglePulse d _ | ReqCaptureEnd d => c =? d | _ => false end.

Lemma channel_bit_spec c i : 0 <= i -> Z.testbit (pwm_timer_channel_bit c) i = bool_decide (i = c mod 4).
Proof.
  intros Hi. unfold pwm_timer_channel_bit. change 0x03 with (Z.ones 2). rewrite Z.land_ones by lia. change (2 ^ 2) with 4.
  pose proof (Z.mod_pos_bound c 4 ltac:(lia)) as Hm. rewrite Z.shiftl_mul_pow2, Z.mul_1_l by lia.
  unfold u8. rewrite Z.mod_small.
  - rewrite Z.pow2_bits_eqb by lia. destruct (Z.eqb_spec (c mod 4) i); symmetry; [by apply bool_decide_eq_true | apply bool_decide_eq_false; lia].
  - split; [by apply Z.pow_nonneg |]. apply Z.lt_le_trans with (2 ^ 4); [apply Z.pow_lt_mono_r; lia | done].
Qed.

Lemma lnot8_spec b i : 0 <= i < 8 -> Z.testbit (u8 (Z.lnot b)) i = negb (Z.testbit b i).
Proof. intros Hi. unfold u8. change 0x100 with (2 ^ 8). rewrite Z.mod_pow2_bits_low, Z.lnot_spec by lia. done. Qed.

Lemma sibling_claim claims c i :
  0 <= i < 4 -> Z.testbit claims i = true -> i <> c mod 4 -> pwm_timer_has_sibling_claim claims c = true.
Proof.
  intros Hi Hb Hne. unfold pwm_timer_has_sibling_claim. apply negb_true_iff, Z.eqb_neq. intros Ez.
  apply (f_equal (fun z => Z.testbit z i)) in Ez. rewrite Z.land_spec, lnot8_spec, channel_bit_spec, Hb, Z.bits_0 in Ez by lia.
  by rewrite bool_decide_eq_false_2 in Ez.
Qed.

(** Channels of one timer differ in the bit. *)
Lemma channel_bit_ne c d :
  0 <= c < PWM_CHANNEL_COUNT -> 0 <= d < PWM_CHANNEL_COUNT -> c <> d ->
  pwm_timer_index (periph (pwm_ch c)) = pwm_timer_index (periph (pwm_ch d)) -> c mod 4 <> d mod 4.
Proof.
  intros Hc Hd. pattern c. apply channel_cases; [done | pattern d; apply channel_cases; try done ..].
Qed.

Lemma claimed_claim w c d :
  sw_shape w -> 0 <= c -> 0 <= d < PWM_CHANNEL_COUNT ->
  claimed w d = true -> claimed (pwm_channel_claim w c) d = true.
Proof.
  intros Hs Hc Hd Hb. unfold pwm_channel_claim. destruct (Z.leb_spec PWM_CHANNEL_COUNT c); [done |].
  unfold claimed in *. cbn [set_claims pwm_timer_claims]. pose proof (Z.mod_pos_bound d 4 ltac:(lia)) as Hm.
  pose proof (index_range (periph (pwm_ch c))). pose proof (index_range (periph (pwm_ch d))).
  destruct (decide (pwm_timer_index (periph (pwm_ch c)) = pwm_timer_index (periph (pwm_ch d)))) as [-> | Hne];
    [| by rewrite at_insert_ne by lia].
  rewrite at_insert_eq by (rewrite (sh_claims _ Hs); lia). unfold u8. change 0x100 with (2 ^ 8).
  by rewrite Z.mod_pow2_bits_low, Z.lor_spec, Hb by lia.
Qed.

Lemma claim_sets w c : sw_shape w -> 0 <= c < PWM_CHANNEL_COUNT -> claimed (pwm_channel_claim w c) c = true.
Proof.
  intros Hs Hc. unfold pwm_channel_claim. destruct (Z.leb_spec PWM_CHANNEL_COUNT c); [lia |].
  unfold claimed. cbn [set_claims pwm_timer_claims]. pose proof (Z.mod_pos_bound c 4 ltac:(lia)) as Hm.
  pose proof (index_range (periph (pwm_ch c))).
  rewrite at_insert_eq by (rewrite (sh_claims _ Hs); lia). unfold u8. change 0x100 with (2 ^ 8).
  rewrite Z.mod_pow2_bits_low, Z.lor_spec, channel_bit_spec by lia. by rewrite bool_decide_eq_true_2, orb_true_r.
Qed.

(** Clearing another channel's bit. *)
Lemma claimed_clear w c d :
  sw_shape w -> 0 <= c < PWM_CHANNEL_COUNT -> 0 <= d < PWM_CHANNEL_COUNT -> c <> d -> claimed w d = true ->
  let i := pwm_timer_index (periph (pwm_ch c)) in
  claimed (set_claims i (Z.land (pwm_timer_claims w).[i] (u8 (Z.lnot (pwm_timer_channel_bit c)))) w) d = true.
Proof.
  cbn zeta. intros Hs Hc Hd Hne Hb. unfold claimed in *. cbn [set_claims pwm_timer_claims].
  pose proof (Z.mod_pos_bound d 4 ltac:(lia)) as Hm.
  pose proof (index_range (periph (pwm_ch c))). pose proof (index_range (periph (pwm_ch d))).
  destruct (decide (pwm_timer_index (periph (pwm_ch c)) = pwm_timer_index (periph (pwm_ch d)))) as [Ei | Hi];
    [| by rewrite at_insert_ne by lia].
  pose proof (channel_bit_ne c d Hc Hd Hne Ei) as Hbit. rewrite Ei.
  rewrite at_insert_eq by (rewrite (sh_claims _ Hs); lia).
  rewrite Z.land_spec, Hb, lnot8_spec, channel_bit_spec by lia. by rewrite bool_decide_eq_false_2 by congruence.
Qed.

Section owner.
Context {H : Type} `{TimerLaws H}.

Lemma claimed_static w w' d : same_static w w' -> claimed w' d = claimed w d.
Proof. intros (_ & _ & E & _). unfold claimed. by rewrite E. Qed.

Lemma drain_claims (h : H) w c : pwm_timer_claims (pwm_capture_drain h w c).2 = pwm_timer_claims w.
Proof.
  unfold pwm_capture_drain. destruct (pwm_capture_flag _); [| done]. destruct (tim_read h _) as [v h1]. destruct (v =? 0); [done |].
  destruct (tim_read h1 _) as [now h2].
  pose proof (static_consume (tim_do h2 (on_timer (periph (pwm_ch c)) (timer_flag_clear t))) w (periph (pwm_ch c))) as (_ & _ & E & _).
  by destruct (pwm_capture_consume_update _ w _) as [h3 w3].
Qed.

(** A claim survives every request but the channel's own release. *)
Lemma request_claimed (h : H) w r d :
  pwm_inv h w -> req_unsigned r -> 0 <= d < PWM_CHANNEL_COUNT -> releases d r = false ->
  claimed w d = true -> claimed (pwm_request r h w).2 d = true.
Proof.
  intros Hi Hr Hd Hrel Hb. pose proof (pi_shape _ _ Hi) as Hs. destruct r; cbn [req_unsigned releases pwm_request] in *.
  - destruct Hr as (Hc & Hp & Hy). destruct (set_spec h w c period duty Hc Hp Hy Hi) as (_ & Hno & Hok).
    destruct (decide ((bridge_hw_pwm_set_ h w c period duty).2 = BRIDGE_HW_OK)) as [E | E].
    + destruct (Hok E) as (_ & _ & _ & _ & St & _). rewrite (claimed_static _ _ _ St). by apply claimed_claim.
    + by destruct (Hno E) as (-> & _).
  - done.
  - unfold bridge_hw_pwm_configure_. repeat (case_match; try done).
  - apply Z.eqb_neq in Hrel. destruct (single_pulse_cases h w c pulse (proj1 Hr) (proj2 Hr)) as [(_ & ->) | (Hc & _ & _ & _ & _ & ->)]; [done |].
    cbn [pwm_car_shadow_commit fst snd]. by apply (claimed_clear w c d Hs ltac:(lia) Hd ltac:(lia) Hb).
  - unfold bridge_hw_timer_sync_, timer_sync_master_set. repeat (case_match; try done).
  - unfold bridge_hw_pwm_capture_begin_. destruct (PWM_CHANNEL_COUNT <=? c); [done |]. destruct (2 <? edge); [done |].
    by apply (claimed_claim w c d).
  - unfold bridge_hw_pwm_capture_read_. destruct (PWM_CHANNEL_COUNT <=? c); [done |]. destruct (negb _); [done |].
    pose proof (drain_claims h w c) as E. unfold claimed in *. destruct (pwm_capture_drain h w c) as [h1 w1]. cbn [snd] in E.
    destruct (negb _); cbn [fst snd set_capture pwm_timer_claims]; by rewrite E.
  - apply Z.eqb_neq in Hrel. unfold bridge_hw_pwm_capture_end_, pwm_channel_init, pwm_channel_release.
    destruct (Z.leb_spec PWM_CHANNEL_COUNT c); [done |]. destruct (Z.ltb_spec c PWM_CHANNEL_COUNT); [| lia].
    apply (claimed_clear (set_one_shot c false w) c d); auto with pwm lia.
Qed.

(** Requests that do not release [d], and time, in any order. *)
Inductive held_steps (d : Z) : H * pwm_sw -> H * pwm_sw -> Prop :=
  | held_refl x : held_steps d x x
  | held_request x h w r : held_steps d x (h, w) -> req_unsigned r -> releases d r = false ->
      held_steps d x (pwm_request r h w)
  | held_time x h h' w : held_steps d x (h, w) -> (forall p, later (tv h p) (tv h' p)) -> held_steps d x (h', w).

Lemma held_inv d x y : held_steps d x y -> pwm_inv x.1 x.2 -> pwm_inv y.1 y.2.
Proof.
  intros Hs Hi. induction Hs as [x | x h w r _ IH Hr _ | x h h' w _ IH L]; [done | |].
  - apply pwm_request_inv; auto.
  - apply (inv_later h); [exact L | auto].
Qed.

Lemma held_claimed d x y :
  0 <= d < PWM_CHANNEL_COUNT -> held_steps d x y -> pwm_inv x.1 x.2 -> claimed x.2 d = true -> claimed y.2 d = true.
Proof.
  intros Hd Hs Hi Hb. induction Hs as [x | x h w r Hs IH Hr Hrel | x h h' w Hs IH L]; [done | | by apply IH].
  apply request_claimed; try done; [by apply (held_inv _ _ _ Hs) | by apply IH].
Qed.

(** Once a channel has been set, a one-shot of another channel of its timer is
    refused, with nothing touched, until the channel itself is one-shot or its
    capture ends, whatever requests come in between. *)
Theorem set_channel_protected (h : H) w c period duty y d pulse :
  0 <= c -> 0 <= period -> 0 <= duty -> 0 <= d < PWM_CHANNEL_COUNT -> 0 <= pulse -> pwm_reach h w ->
  let r := bridge_hw_pwm_set_ h w c period duty in
  r.2 = BRIDGE_HW_OK -> held_steps c r.1 y -> d <> c -> periph (pwm_ch d) = periph (pwm_ch c) ->
  let s := bridge_hw_pwm_single_pulse_ y.1 y.2 d pulse in
  s.2 <> BRIDGE_HW_OK /\ s.1 = y.
Proof.
  cbn zeta. intros Hc Hp Hy Hd Hpu Hr E Hs Hne Hper. pose proof (reach_inv _ _ Hr) as Hi.
  destruct (set_spec h w c period duty Hc Hp Hy Hi) as (_ & _ & Hok). destruct (Hok E) as (Hc1 & _ & _ & Hi1 & St & _).
  assert (Hcl : claimed y.2 c = true).
  { apply (held_claimed c _ _ Hc1 Hs Hi1). rewrite (claimed_static _ _ _ St). apply claim_sets; [apply Hi | done]. }
  destruct y as [h2 w2]. cbn [fst snd] in *.
  destruct (single_pulse_cases h2 w2 d pulse ltac:(lia) Hpu) as [A | (_ & _ & _ & _ & Hno & _)]; [done |].
  exfalso. rewrite Hper in Hno. unfold claimed in Hcl.
  rewrite (sibling_claim _ d _ (Z.mod_pos_bound c 4 ltac:(lia)) Hcl) in Hno; [done |].
  apply channel_bit_ne; [done | done | congruence | by rewrite Hper].
Qed.

End owner.
