(* ===== verification/PwmSync.v ===== *)
(** * Forced updates on sync masters

    The timers with a log of the calls made on them, and the requests that force an
    update event. *)

From stdpp Require Import base tactics list numbers option relations.
From S2P Require Import Prelude BridgeHw PwmTimer Pwm PwmCapture PwmFacts PwmSet PwmLoad PwmApply PwmRequests PwmReach PwmSafety.

(** Timers that remember every call with the state it found. *)
Definition logged (H : Type) : Type := H * list (H * pwm_op).

#[export] Instance logged_hw H `{!TimerHw H} : TimerHw (logged H) := {
  tim_do x op := (tim_do x.1 op, x.2 ++ [(x.1, op)]);
  tim_read x r := ((tim_read x.1 r).1, ((tim_read x.1 r).2, x.2));
  cam_code := cam_code }.

#[export] Instance logged_laws H `{L : TimerLaws H} : TimerLaws (logged H).
Proof.
  refine {| tv x p := tv x.1 p |}; cbn.
  - intros x op p. apply tv_do.
  - intros x r p. apply tv_read.
  - intros x p. apply read_ctl0.
  - intros x p. apply read_car.
  - intros x p c. apply read_cv.
  - intros x p. apply read_up.
  - intros x p. apply tv_word.
  - apply cam_field.
  - apply cam_inj.
  - apply cam_edge.
Defined.

Section sync.
Context {H : Type} `{TimerLaws H}.
Implicit Types x y : logged H.

(** A forced update finds the other timer's slave controller off. *)
Definition harmless (e : H * pwm_op) : Prop :=
  forall p, e.2 = on_timer p timer_event_upg -> smc (tv e.1 (other_timer p)) = TIMER_SLAVE_MODE_DISABLE.

(** [y] goes on from [x] with harmless calls. *)
Definition emits x y : Prop := exists l, y.2 = x.2 ++ l /\ Forall harmless l.

#[export] Instance emits_preorder : PreOrder emits.
Proof.
  split.
  - intros x. exists []. by rewrite app_nil_r.
  - intros x y z (l1 & E1 & F1) (l2 & E2 & F2). exists (l1 ++ l2). rewrite E2, E1, app_assoc. split; [done |].
    by apply Forall_app.
Qed.

Definition no_upg (op : pwm_op) : bool := match op with on_timer _ timer_event_upg => false | _ => true end.

Lemma emits_do x op : no_upg op = true -> emits x (tim_do x op).
Proof.
  intros Ho. exists [(x.1, op)]. split; [done |]. constructor; [| constructor]. intros p E. cbn in E. by subst op.
Qed.

Lemma emits_read x r : emits x (tim_read x r).2.
Proof. exists []. by rewrite app_nil_r. Qed.

Lemma emits_tims p ops : forall x, forallb (fun op => no_upg (on_timer p op)) ops = true -> emits x (tims x p ops).
Proof.
  induction ops as [| op ops IH]; intros x Hq; [done |]. apply andb_prop in Hq as [Ho Hq].
  etrans; [by apply (emits_do x (on_timer p op)) | by apply IH].
Qed.

Lemma emits_pad x ch : emits x (pwm_pad x ch).
Proof. unfold pwm_pad. etrans; [| by apply emits_do]. etrans; [| by apply emits_do]. by apply emits_do. Qed.

Lemma emits_channel_init x w c : emits x (pwm_channel_init x w c).1.
Proof. by apply emits_tims. Qed.

Lemma emits_consume x w p : emits x (pwm_capture_consume_update x w p).1.
Proof.
  unfold pwm_capture_consume_update. pose proof (emits_read x (timer_flag_get p TIMER_FLAG_UP)) as E.
  destruct (tim_read x _) as [v x1]. cbn [snd] in E. destruct (v =? 0); [done |].
  etrans; [exact E | by apply emits_do].
Qed.

Lemma emits_transaction x w ch arr compare :
  emits x (pwm_preload_transaction (periph ch) (pwm_preload_load ch arr compare) (x, w)).1.
Proof.
  unfold pwm_preload_transaction, pwm_preload_load, pwm_car_shadow_defer. cbn [fst snd].
  pose proof (emits_read x (TIMER_CTL0 (periph ch))) as E1. destruct (tim_read x _) as [v x1]. cbn [snd] in E1.
  set (x2 := tim_do x1 _). set (x3 := tims x2 _ _).
  assert (F1 : emits x1 x2) by by apply emits_do. assert (F2 : emits x2 x3) by by apply emits_tims.
  pose proof (emits_consume x3 w (periph ch)) as E2. destruct (pwm_capture_consume_update x3 w _) as [x4 w4]. cbn [fst] in E2.
  pose proof (emits_read x4 (TIMER_CTL0 (periph ch))) as E3. destruct (tim_read x4 _) as [v' x5]. cbn [snd fst] in *.
  etrans; [exact E1 |]. etrans; [exact F1 |]. etrans; [exact F2 |].
  etrans; [exact E2 |]. etrans; [exact E3 |]. by apply emits_do.
Qed.

(** A forced update after other calls on its timer. *)
Lemma emits_forced p ops x :
  forallb (fun op => no_upg (on_timer p op)) ops = true ->
  smc (tv x (other_timer p)) = TIMER_SLAVE_MODE_DISABLE ->
  emits x (tims x p (ops ++ [timer_event_upg])).
Proof.
  intros Hq Hm. unfold tims. rewrite foldl_app. fold (tims x p ops). etrans; [exact (emits_tims p ops x Hq) |]. cbn [foldl].
  exists [((tims x p ops).1, on_timer p timer_event_upg)]. split; [done |]. constructor; [| constructor].
  intros q E. cbn in E. injection E as <-. destruct (later_settings _ _ (tims_other ops x p _ (other_ne p))) as (_ & E & _).
  etrans; [exact E | exact Hm].
Qed.

Lemma inactive_master x w p :
  pwm_inv x w -> timer_sync_master_active w (pwm_timer_index p) = false -> smc (tv x (other_timer p)) = TIMER_SLAVE_MODE_DISABLE.
Proof. intros Hi E. rewrite (pi_sync _ _ Hi p) in E. unfold enslaved in E. apply bool_decide_eq_false in E. by apply dec_stable. Qed.

Lemma emits_apply x w c arr compare : pwm_inv x w -> emits x (pwm_apply_counter_values x w c arr compare).1.1.
Proof.
  intros Hi. unfold pwm_apply_counter_values. set (ch := pwm_ch c). set (p := periph ch).
  pose proof (emits_read x (TIMER_CTL0 p)) as E1. pose proof (tv_read x (TIMER_CTL0 p) (other_timer p)) as L1.
  destruct (tim_read x (TIMER_CTL0 p)) as [v x1]. cbn [snd] in E1, L1.
  destruct (negb _ && negb _) eqn:Eg; [done |]. set (running := negb (Z.land v TIMER_CTL0_CEN =? 0)) in *.
  set (ops := [timer_single_pulse_mode_config false; timer_channel_output_mode_config (channel ch) TIMER_OC_MODE_PWM0]).
  set (x2 := tims x1 p ops). assert (E2 : emits x1 x2) by by apply emits_tims.
  assert (L2 : later (tv x1 (other_timer p)) (tv x2 (other_timer p))) by (apply tims_other, other_ne).
  destruct running; cbn [negb] in Eg.
  - pose proof (emits_transaction x2 (set_one_shot c false (pwm_channel_claim w c)) ch arr compare) as E3. fold p in E3.
    destruct (pwm_preload_transaction p _ _) as [x3 w3]. cbn [fst] in *.
    etrans; [exact E1 |]. etrans; [exact E2 |]. etrans; [exact E3 |]. by apply (emits_tims p [timer_enable]).
  - apply negb_false_iff in Eg. unfold timer_sync_forced_update_allowed in Eg. apply negb_true_iff in Eg.
    pose proof (inactive_master x w p Hi Eg) as Hm. cbn [fst pwm_car_shadow_commit].
    etrans; [exact E1 |]. etrans; [exact E2 |].
    etrans; [apply (emits_forced p [timer_autoreload_value_config arr; timer_channel_output_pulse_value_config (channel ch) compare] x2 eq_refl) |].
    + destruct (later_settings _ _ L1) as (_ & A1 & _). destruct (later_settings _ _ L2) as (_ & A2 & _). congruence.
    + by apply (emits_tims p [timer_flag_clear TIMER_FLAG_UP; timer_enable]).
Qed.

Lemma emits_single_pulse x w c pulse :
  0 <= c -> 0 <= pulse -> pwm_inv x w -> emits x (bridge_hw_pwm_single_pulse_ x w c pulse).1.1.
Proof.
  intros Hc Hp Hi. destruct (single_pulse_cases x w c pulse Hc Hp) as [(_ & ->) | (_ & _ & _ & Em & _ & ->)]; [done |].
  cbn [pwm_car_shadow_commit fst]. etrans.
  - apply (emits_forced (periph (pwm_ch c)) [timer_disable;
      timer_channel_output_mode_config (channel (pwm_ch c)) TIMER_OC_MODE_PWM1; timer_counter_value_config 0;
      timer_autoreload_value_config (pulse / PWM_TIMER_TICK_NS);
      timer_channel_output_pulse_value_config (channel (pwm_ch c)) PWM_ONE_SHOT_DELAY_TICKS] x eq_refl).
    by apply (inactive_master x w).
  - by apply (emits_tims (periph (pwm_ch c)) [timer_flag_clear TIMER_FLAG_UP; timer_single_pulse_mode_config true; timer_enable]).
Qed.

Lemma emits_drain x w c : emits x (pwm_capture_drain x w c).1.
Proof.
  unfold pwm_capture_drain. destruct (pwm_capture_flag _) as [f |]; [| done]. set (p := periph (pwm_ch c)).
  pose proof (emits_read x (timer_flag_get p f)) as E1. destruct (tim_read x _) as [v x1]. cbn [snd] in E1.
  destruct (v =? 0); [done |].
  pose proof (emits_read x1 (capture_value p (pwm_capture_unit (pwm_ch c)))) as E2. destruct (tim_read x1 _) as [now x2]. cbn [snd] in E2.
  pose proof (emits_consume (tim_do x2 (on_timer p (timer_flag_clear f))) w p) as E3.
  destruct (pwm_capture_consume_update _ w p) as [x3 w3]. cbn [fst] in *.
  etrans; [exact E1 |]. etrans; [exact E2 |]. etrans; [by apply (emits_do x2 (on_timer p (timer_flag_clear f))) | exact E3].
Qed.

Lemma emits_capture x w c e :
  emits x (bridge_hw_pwm_capture_begin_ x w c e).1.1 /\ emits x (bridge_hw_pwm_capture_read_ x w c).1.1 /\
  emits x (bridge_hw_pwm_capture_end_ x w c).1.1.
Proof.
  assert (Hif : forall (b : bool) p op y, no_upg (on_timer p op) = true -> emits y (if b then tims y p [op] else y))
    by (intros [|] p op y Ho; [apply (emits_tims p [op]); cbn [forallb]; by rewrite Ho | done]).
  assert (Hmt : forall (o : option timer_flag) p y, emits y (match o with Some f => tims y p [timer_flag_clear f] | None => y end))
    by (intros [f |] p y; [by apply (emits_tims p [_]) | done]).
  split_and!.
  - unfold bridge_hw_pwm_capture_begin_. destruct (PWM_CHANNEL_COUNT <=? c); [done |]. destruct (2 <? e); [done |]. cbn [fst].
    etrans; [by apply (emits_tims (periph (pwm_ch c)) [timer_channel_complementary_output_disable (channel (pwm_ch c))]) |].
    etrans; [by apply (Hif (complement (pwm_ch c)) (periph (pwm_ch c)) (timer_multi_mode_independent (pwm_capture_unit (pwm_ch c)))) |].
    etrans; [by apply (emits_do _ (gpio_mode_af (ch_port (pwm_ch c)) true (ch_pin (pwm_ch c)))) |].
    etrans; [by apply (emits_tims (periph (pwm_ch c)) [timer_input_capture_config (pwm_capture_unit (pwm_ch c)) e]) |]. apply Hmt.
  - unfold bridge_hw_pwm_capture_read_. destruct (PWM_CHANNEL_COUNT <=? c); [done |]. destruct (negb _); [done |].
    pose proof (emits_drain x w c) as E. destruct (pwm_capture_drain x w c) as [x1 w1]. by destruct (negb _).
  - unfold bridge_hw_pwm_capture_end_. destruct (PWM_CHANNEL_COUNT <=? c); [done |]. set (ch := pwm_ch c).
    etrans; [apply (Hmt (pwm_capture_flag (pwm_capture_unit ch)) (periph ch)) |].
    etrans; [by apply (Hif (complement ch) (periph ch) (timer_multi_mode_complementary (pwm_capture_unit ch))) |].
    etrans; [apply (emits_pad _ ch) |]. apply (emits_channel_init _ w c).
Qed.

(** C27. No request, in any state requests and time reach, forces an update event
    on a timer while the other timer's slave controller is enabled: a slave sees
    its master's own periods only. *)
Theorem request_never_glitches_slave x w r :
  pwm_reach x w -> req_unsigned r -> emits x (pwm_request r x w).1.
Proof.
  intros Hr Hu. pose proof (reach_inv _ _ Hr) as Hi. destruct r; cbn [pwm_request req_unsigned fst] in *.
  - unfold bridge_hw_pwm_set_. destruct (PWM_CHANNEL_COUNT <=? c); [done |]. destruct (period <? duty); [done |].
    destruct (pwm_counter_values _ _ _) as [[arr compare] |]; [by apply emits_apply | done].
  - unfold bridge_hw_pwm_get_. destruct (PWM_CHANNEL_COUNT <=? c); [done |].
    pose proof (emits_read x (TIMER_CAR (periph (pwm_ch c)))) as E1. destruct (tim_read x _) as [v x1]. cbn [snd] in E1.
    pose proof (emits_read x1 (capture_value (periph (pwm_ch c)) (TIMER_CH (channel (pwm_ch c))))) as E2.
    destruct (tim_read x1 _) as [v' x2]. cbn [snd] in E2. assert (E : emits x x2) by by etrans. by repeat case_match.
  - unfold bridge_hw_pwm_configure_. repeat (destruct (_ : bool); [done |]).
    set (p := periph (pwm_ch c)). pose proof (emits_read x (TIMER_CTL0 p)) as E1. destruct (tim_read x _) as [v x1]. cbn [snd] in E1.
    pose proof (emits_read (tims x1 p [timer_disable]) (TIMER_CTL0 p)) as E2. destruct (tim_read (tims x1 p _) _) as [v' x2]. cbn [snd fst] in *.
    etrans; [exact E1 |]. etrans; [by apply (emits_tims p [timer_disable]) |]. etrans; [exact E2 |].
    destruct (negb _); [by apply (emits_tims p [timer_ctl0_write _; timer_enable] x2) | by apply (emits_tims p [timer_ctl0_write _] x2)].
  - by apply emits_single_pulse; try apply Hu.
  - unfold bridge_hw_timer_sync_. destruct (timer_sync_periph master), (timer_sync_periph slave); try done.
    destruct (master =? slave); [done |]. destruct (wire_slave_mode mode); [| done]. destruct (_ =? 0); [done |]. cbn [fst].
    set (x1 := tims x t _). etrans; [| by apply emits_tims]. by apply emits_tims.
  - apply (emits_capture x w c edge).
  - apply (emits_capture x w c 0).
  - apply (emits_capture x w c 0).
Qed.

End sync.
