(* ===== verification/PwmMeasure.v ===== *)
(** * What input capture measures

    Edge distances on a counter that wraps, and a whole session: BEGIN, then reads
    that find an edge or none, with anything else the firmware and the hardware do
    in between. *)

From stdpp Require Import base tactics list numbers option relations.
From S2P Require Import Prelude BridgeHw PwmTimer Pwm PwmCapture PwmFacts PwmSet PwmLoad PwmReach.

(** The wrapped difference is the true one. *)
Lemma edge_delta_true m t u :
  0 < m <= 0x10000 -> t < u < t + m -> edge_delta m (u mod m) (t mod m) = u - t.
Proof.
  intros Hm Hu. unfold edge_delta, u32. pose proof (Z.mod_pos_bound u m ltac:(lia)). pose proof (Z.mod_pos_bound t m ltac:(lia)).
  rewrite (Z.mod_small (u mod m + m)), (Z.mod_mod t m), (Z.mod_small (u mod m + m - t mod m)) by lia.
  replace (u mod m + m - t mod m) with ((u mod m - t mod m) + 1 * m) by lia.
  rewrite Z.mod_add, <- Zminus_mod by lia. apply Z.mod_small. lia.
Qed.

(** ** The answers a session owes

    Edges are listed newest first, at true times counted from any origin. *)

(** Consecutive edges come less than a counter period apart. *)
Fixpoint spaced (m : Z) (ts : list Z) : Prop :=
  match ts with
  | t :: (u :: _) as ts => u < t < u + m /\ spaced m ts
  | _ => True
  end.

(** What the read that finds the edge at the head of [ts] answers: status, period
    and pulse width in nanoseconds.  On one edge kind, the distance of the last
    two; on both, every second edge from the third on completes a tuple. *)
Definition capture_answer (e : Z) (ts : list Z) : Z * Z * Z :=
  match ts with
  | c :: b :: rest =>
      if e =? 2 then
        match rest with
        | a :: _ => if Nat.odd (length ts) then (BRIDGE_HW_OK, 1000 * (c - a), 1000 * (b - a))
                    else (BRIDGE_HW_ERR_NOT_READY, 0, 0)
        | [] => (BRIDGE_HW_ERR_NOT_READY, 0, 0)
        end
      else (BRIDGE_HW_OK, 1000 * (c - b), 0)
  | _ => (BRIDGE_HW_ERR_NOT_READY, 0, 0)
  end.

(** ** The state machine *)

(** Where the machine stands between reads, after the edges [ts]. *)
Record sess_ok (m e : Z) (ts : list Z) (s : pwm_capture_state) : Prop := {
  so_edge : edge s = e;
  so_in : in_capture s = true;
  so_period : have_period s = false;
  so_state : state s = match ts with
                       | [] => 0
                       | _ => if (e =? 2) && Nat.even (length ts) then 2 else 1
                       end;
  so_last : forall t rest, ts = t :: rest -> last_tick s = t mod m;
  so_pulse : if e =? 2 then forall b a rest, ts = b :: a :: rest -> Nat.even (length ts) = true ->
                             pulse_width_ticks s = b - a
             else pulse_width_ticks s = 0 }.

(** The end of a read. *)
Definition conclude (s : pwm_capture_state) : pwm_capture_state * (Z * Z * Z) :=
  if negb (have_period s) then (s, (BRIDGE_HW_ERR_NOT_READY, 0, 0))
  else (PwmCapture (last_tick s) (period_ticks s) (pulse_width_ticks s) (edge s) (state s) (in_capture s) false false,
        (BRIDGE_HW_OK, u32 (period_ticks s * PWM_TIMER_TICK_NS), u32 (pulse_width_ticks s * PWM_TIMER_TICK_NS))).

Lemma sess_begin m e : sess_ok m e [] (PwmCapture 0 0 0 e 0 true false false).
Proof. split; try done. by destruct (e =? 2). Qed.

Lemma sess_none m e ts s : sess_ok m e ts s -> conclude s = (s, (BRIDGE_HW_ERR_NOT_READY, 0, 0)).
Proof. intros [_ _ Hp _ _ _]. unfold conclude. by rewrite Hp. Qed.

Lemma ns_small d : 0 <= d < 0x400000 -> u32 (d * PWM_TIMER_TICK_NS) = 1000 * d.
Proof. intros Hd. unfold PWM_TIMER_TICK_NS. rewrite u32_id; [lia |]. unfold is_u32. lia. Qed.

(** A read that finds the edge [t]. *)
Lemma sess_edge m e ts s t :
  0 < m <= 0x10000 -> spaced m (t :: ts) -> sess_ok m e ts s ->
  let r := conclude (capture_edge (t mod m) (edge_delta m (t mod m) (last_tick s)) s) in
  sess_ok m e (t :: ts) r.1 /\ r.2 = capture_answer e (t :: ts).
Proof.
  intros Hm Hsp [He Hin Hper Hst Hlast Hpul]. cbv zeta. unfold capture_edge. rewrite He, Hst.
  destruct ts as [| b rest].
  { destruct (Z.eqb_spec e 2) as [-> | Hne]; cbn [Z.eqb]; unfold conclude; cbn; rewrite Hper; cbn; (split; [| done]).
    - split; try done. by intros ? ? [= <- <-].
    - split; cbn; rewrite ?(proj2 (Z.eqb_neq e 2) Hne) in *; try done. by intros ? ? [= <- <-]. }
  destruct Hsp as [Hb Hsp]. rewrite (Hlast b rest eq_refl), edge_delta_true by done.
  destruct (Z.eqb_spec e 2) as [-> | Hne]; cbn [andb].
  - assert (Hev : Nat.even (length (b :: rest)) = negb (Nat.even (length rest)))
      by (cbn [length]; by rewrite Nat.even_succ, Nat.negb_even).
    rewrite Hev in *. unfold capture_answer, conclude. cbn [length].
    change (Nat.odd (S (S (length rest)))) with (Nat.odd (length rest)). rewrite <- Nat.negb_even.
    destruct (Nat.even (length rest)) eqn:Ev; cbn.
    + rewrite Hper. cbn. split; [| by destruct rest].
      split; cbn [length]; try done;
        [cbn [state Nat.even Z.eqb Pos.eqb andb]; by rewrite Ev | by intros ? ? [= <- <-] |].
      by intros ? ? ? [= <- <- <-].
    + destruct rest as [| a rest]; [done |]. destruct Hsp as [Ha _].
      rewrite (Hpul b a rest eq_refl eq_refl). rewrite (u32_id (t - b + (b - a))) by (unfold is_u32; lia).
      split; [| rewrite !ns_small by lia; repeat f_equal; lia].
      split; cbn [length] in *; try done;
        [cbn [state Nat.even Z.eqb Pos.eqb andb] in *; by rewrite Ev | by intros ? ? [= <- <-] |].
      intros ? ? ? [= <- <- <-]. cbn [Nat.even] in *. by rewrite Ev.
  - unfold conclude, capture_answer. cbn. rewrite (proj2 (Z.eqb_neq e 2) Hne).
    split; [| rewrite Hpul, !ns_small by lia; done].
    split; cbn; rewrite ?(proj2 (Z.eqb_neq e 2) Hne); try done. by intros ? ? [= <- <-].
Qed.

(** ** A session on the hardware *)

Section session.
Context {H : Type} `{TimerLaws H}.

(** The timer of channel [c] counts [m] values, with no other reload value on its
    way. *)
Definition settled (c m : Z) (h : H) : Prop :=
  let t := tv h (periph (pwm_ch c)) in car_pre t = m - 1 /\ car_act t = m - 1.

(** What the next poll of the channel's capture unit finds: no new edge, or one
    the unit latched at time [t], its register holding the counter at that time. *)
Definition sees (c m : Z) (h : H) (o : option Z) : Prop :=
  let p := periph (pwm_ch c) in
  let u := pwm_capture_unit (pwm_ch c) in
  let r := tim_read h (timer_flag_get p (TIMER_FLAG_CAP u)) in
  match o with
  | None => r.1 = 0
  | Some t => r.1 <> 0 /\ (tim_read r.2 (capture_value p u)).1 = t mod m
  end.

Definition edges (o : option Z) (ts : list Z) : list Z := match o with Some t => t :: ts | None => ts end.

(** From an accepted BEGIN on: reads of the channel, each finding an edge or none,
    and in between anything that leaves the session and the reload value alone. *)
Inductive capture_session (c e m : Z) : list Z -> H -> pwm_sw -> Prop :=
  | session_begin h w :
      pwm_reach h w -> 0 <= c ->
      let r := bridge_hw_pwm_capture_begin_ h w c e in
      r.2 = BRIDGE_HW_OK -> settled c m r.1.1 -> capture_session c e m [] r.1.1 r.1.2
  | session_other ts h w h' w' :
      capture_session c e m ts h w -> pwm_reach h' w' -> capture_of w' c = capture_of w c ->
      settled c m h' -> capture_session c e m ts h' w'
  | session_read ts h w o :
      capture_session c e m ts h w -> sees c m h o -> spaced m (edges o ts) ->
      let r := bridge_hw_pwm_capture_read_ h w c in
      capture_session c e m (edges o ts) r.1.1 r.1.2.

(** *** The reload value stays *)

Definition reloads (v : Z) (t : tmr) : Prop := car_pre t = v /\ car_act t = v.

Lemma reloads_later v t t' : later t t' -> reloads v t -> reloads v t'.
Proof.
  apply later_stable. intros u u' (P & A) [n Hn | Hn | Hn]; [by split | | by split].
  unfold update_event. destruct (updis u); [by split |]. by split.
Qed.

Lemma reloads_do v (h : H) p op :
  (match op with timer_flag_clear _ => true | _ => reload_quiet op end) = true ->
  reloads v (tv h p) -> reloads v (tv (tim_do h (on_timer p op)) p).
Proof.
  intros Hq Hr. apply (reloads_later v _ _ (do_self h p op)).
  assert (E : car_pre (op_effect op (tv h p)) = car_pre (tv h p) /\ car_act (op_effect op (tv h p)) = car_act (tv h p)).
  { destruct op; try (destruct (quiet_reload _ (tv h p) Hq) as (-> & -> & _); done). by destruct f. }
  unfold reloads. by destruct E as [-> ->].
Qed.

Lemma reloads_consume v (h : H) w p :
  reloads v (tv h p) -> reloads v (tv (pwm_capture_consume_update h w p).1 p).
Proof.
  intros Hr. assert (Hr1 : reloads v (tv (tim_read h (timer_flag_get p TIMER_FLAG_UP)).2 p))
    by (apply (reloads_later v _ _ (tv_read h _ p)), Hr).
  destruct (consume_cases h w p) as [[_ ->] | [_ ->]]; [exact Hr1 |]. by apply reloads_do.
Qed.

(** The mirror then holds it. *)
Lemma consume_active v (h : H) w p :
  sw_shape w -> mirror_at w p (tv h p) -> reloads v (tv h p) ->
  (pwm_capture_active_car (pwm_capture_consume_update h w p).2).[pwm_timer_index p] = v.
Proof.
  intros Hs [Hp Ha] [Rp Ra]. destruct (consume_cases h w p) as [[Hu ->] | [Hu ->]]; rewrite Hu in Ha; cbn [snd].
  - congruence.
  - unfold consumed. destruct (flag_at _ _); [| congruence].
    destruct (set_mirror_at (pwm_timer_index p) (pwm_capture_pending_car w).[pwm_timer_index p]
      (pwm_capture_pending_car w).[pwm_timer_index p] false w Hs (index_range p)) as (-> & _). congruence.
Qed.

Lemma capture_of_set c s w : sw_shape w -> 0 <= c < PWM_CHANNEL_COUNT -> capture_of (set_capture c s w) c = s.
Proof.
  intros Hs Hc. unfold capture_of, set_capture, PWM_CHANNEL_COUNT in *. cbn.
  rewrite list_lookup_insert_eq; [done |]. rewrite (sh_capture _ Hs). lia.
Qed.

Lemma capture_of_consume (h : H) w p c : capture_of (pwm_capture_consume_update h w p).2 c = capture_of w c.
Proof.
  destruct (consume_cases h w p) as [[_ ->] | [_ ->]]; [done |]. cbn [snd]. unfold consumed. by destruct (flag_at _ _).
Qed.

Lemma capture_flag c : 0 <= c < PWM_CHANNEL_COUNT ->
  pwm_capture_flag (pwm_capture_unit (pwm_ch c)) = Some (TIMER_FLAG_CAP (pwm_capture_unit (pwm_ch c))).
Proof.
  intros Hc%channel_lt. unfold pwm_capture_flag, pwm_capture_unit.
  destruct (complement _); by rewrite (proj2 (Nat.ltb_lt _ _) Hc).
Qed.

(** *** One read *)

Lemma drain_sees (h : H) w c m o :
  0 <= c < PWM_CHANNEL_COUNT -> pwm_inv h w -> settled c m h -> sees c m h o -> 0 < m <= 0x10000 ->
  let r := pwm_capture_drain h w c in
  let s := capture_of w c in
  settled c m r.1 /\
  capture_of r.2 c = match o with
                     | Some t => capture_edge (t mod m) (edge_delta m (t mod m) (last_tick s)) s
                     | None => s
                     end.
Proof.
  intros Hc Hi Hm Hsee Hr. cbv zeta. unfold pwm_capture_drain, sees, settled in *. rewrite (capture_flag c Hc).
  set (p := periph (pwm_ch c)) in *. set (u := pwm_capture_unit (pwm_ch c)) in *. fold (reloads (m - 1) (tv h p)) in Hm.
  pose proof (reloads_later _ _ _ (tv_read h (timer_flag_get p (TIMER_FLAG_CAP u)) p) Hm) as R1.
  pose proof (inv_read h w (timer_flag_get p (TIMER_FLAG_CAP u)) Hi) as I1.
  destruct (tim_read h (timer_flag_get p (TIMER_FLAG_CAP u))) as [f h1]. cbn [fst snd] in *.
  destruct o as [t |]; [destruct Hsee as [Hf Hv] | subst f; done]. rewrite (proj2 (Z.eqb_neq f 0) Hf).
  pose proof (reloads_later _ _ _ (tv_read h1 (capture_value p u) p) R1) as R2.
  pose proof (inv_read h1 w (capture_value p u) I1) as I2.
  destruct (tim_read h1 (capture_value p u)) as [now h2]. cbn [fst snd] in *. subst now.
  set (h3 := tim_do h2 (on_timer p (timer_flag_clear (TIMER_FLAG_CAP u)))).
  pose proof (reloads_do (m - 1) h2 p (timer_flag_clear (TIMER_FLAG_CAP u)) eq_refl R2) as R3. fold h3 in R3.
  assert (M3 : mirror_at w p (tv h3 p)).
  { apply (mirror_runs _ _ _ [timer_flag_clear (TIMER_FLAG_CAP u)] (tv h2 p) _ eq_refl); [| apply I2].
    exact (tims_runs [timer_flag_clear (TIMER_FLAG_CAP u)] h2 p). }
  pose proof (reloads_consume (m - 1) h3 w p R3) as R4.
  pose proof (consume_active (m - 1) h3 w p (pi_shape _ _ Hi) M3 R3) as A4.
  pose proof (capture_of_consume h3 w p c) as C4.
  pose proof (consume_keeps h3 w p) as K4.
  destruct (pwm_capture_consume_update h3 w p) as [h4 w4]. cbn [fst snd] in *. split; [exact R4 |].
  rewrite capture_of_set by (done || apply K4, Hi). rewrite A4, C4. pose proof (Z.mod_pos_bound t m ltac:(lia)).
  rewrite (u32_id (m - 1 + 1)), (u32_id (t mod m)) by (unfold is_u32; lia). by replace (m - 1 + 1) with m by lia.
Qed.

Lemma read_concludes (h : H) w c :
  0 <= c < PWM_CHANNEL_COUNT -> sw_shape (pwm_capture_drain h w c).2 -> in_capture (capture_of w c) = true ->
  let r := bridge_hw_pwm_capture_read_ h w c in
  let d := pwm_capture_drain h w c in
  r.1.1 = d.1 /\ (capture_of r.1.2 c, r.2) = conclude (capture_of d.2 c).
Proof.
  intros Hc Hs Hin. cbv zeta. unfold bridge_hw_pwm_capture_read_, conclude.
  destruct (Z.leb_spec PWM_CHANNEL_COUNT c); [lia |]. rewrite Hin. cbn [negb].
  destruct (pwm_capture_drain h w c) as [h1 w1]. cbn [fst snd] in *.
  destruct (negb (have_period (capture_of w1 c))); cbn [fst snd]; [done |]. by rewrite capture_of_set.
Qed.

(** What holds all along a session. *)
Record in_session (c e m : Z) (ts : list Z) (h : H) (w : pwm_sw) : Prop := {
  is_chan : 0 <= c < PWM_CHANNEL_COUNT;
  is_reach : pwm_reach h w;
  is_settled : settled c m h;
  is_modulus : 0 < m <= 0x10000;
  is_sess : sess_ok m e ts (capture_of w c) }.

Lemma session_read_exact c e m ts (h : H) w o :
  in_session c e m ts h w -> sees c m h o -> spaced m (edges o ts) ->
  let r := bridge_hw_pwm_capture_read_ h w c in
  in_session c e m (edges o ts) r.1.1 r.1.2 /\
  r.2 = match o with Some t => capture_answer e (t :: ts) | None => (BRIDGE_HW_ERR_NOT_READY, 0, 0) end.
Proof.
  intros [Hc Hr Hm Hb Hs] Hsee Hsp. cbv zeta. pose proof (reach_inv h w Hr) as Hi.
  pose proof (drain_sees h w c m o Hc Hi Hm Hsee Hb) as [Hm' Hcap]. cbv zeta in Hm', Hcap.
  assert (Hshape : sw_shape (pwm_capture_drain h w c).2).
  { apply (cm_keeps _ _ _ (drain_calm h w c)). apply Hi. }
  destruct (read_concludes h w c Hc Hshape (so_in _ _ _ _ Hs)) as [Eh Ew]. cbv zeta in Eh, Ew.
  assert (Hreach : pwm_reach (bridge_hw_pwm_capture_read_ h w c).1.1 (bridge_hw_pwm_capture_read_ h w c).1.2).
  { apply (reach_request h w (ReqCaptureRead c)); [done | cbn; lia]. }
  rewrite Hcap in Ew. rewrite <- Eh in Hm'.
  destruct o as [t |]; cbn [edges].
  - destruct (sess_edge m e ts (capture_of w c) t Hb Hsp Hs) as [Hs' Ha]. rewrite <- Ew in Hs', Ha. by split.
  - rewrite (sess_none m e ts _ Hs) in Ew. injection Ew as Ec Er. split; [| done]. split; try done. by rewrite Ec.
Qed.

Lemma session_holds c e m ts (h : H) w : capture_session c e m ts h w -> in_session c e m ts h w.
Proof.
  induction 1 as [h w Hr Hc r Hok Hm | ts h w h' w' _ IH Hr Hcap Hm | ts h w o _ IH Hsee Hsp r].
  - assert (Hreach : pwm_reach r.1.1 r.1.2) by (apply (reach_request h w (ReqCaptureBegin c e)); done).
    pose proof (tc_car _ _ _ (pi_cfg _ _ (reach_inv _ _ Hreach) (periph (pwm_ch c)))) as Hcar.
    assert (Hb : 0 < m <= 0x10000) by (destruct Hm as [Hp _]; rewrite Hp in Hcar; unfold PWM_TIMER_ARR_MAX in Hcar; lia).
    revert Hok Hreach Hm. unfold r, bridge_hw_pwm_capture_begin_.
    destruct (Z.leb_spec PWM_CHANNEL_COUNT c); [done |]. destruct (2 <? e); [done |]. cbn [fst snd].
    intros _ Hreach Hm. split; try done. rewrite capture_of_set; [apply sess_begin | | done].
    apply shape_claim. apply (pi_shape _ _ (reach_inv _ _ Hr)).
  - destruct IH. split; try done. by rewrite Hcap.
  - by apply session_read_exact.
Qed.


End session.
