(* ===== verification/PwmWitness.v ===== *)
(** * The PWM properties at concrete timers

    A pair of simulated timers that meets [TimerLaws], on which a running one-shot
    may end at a chosen call; the instances of the PWM properties on it, and the
    behaviours noted as findings. *)

From stdpp Require Import base tactics list numbers option relations.
From S2P Require Import Prelude BridgeHw PwmTimer Pwm PwmCapture PwmFacts PwmSet PwmLoad PwmApply PwmRequests PwmReach PwmSafety PwmPulse PwmOwner PwmSync PwmMeasure.

(** ** Simulated timers *)

(** Two timers, the capture flag and value of every unit, and the number of calls
    until TIMER0's next overflow (none at 0). *)
Record sim := Sim { st0 : tmr; st7 : tmr; capf : bool; capv : Z; fuse : nat }.

Definition norm (t : tmr) : tmr := set_ctl0 (u32 (ctl0 t)) t.
Definition sim_tv (h : sim) (p : timer_id) : tmr := norm (match p with TIMER0 => st0 h | TIMER7 => st7 h end).

(** One call later. *)
Definition burn (h : sim) : sim :=
  match fuse h with
  | 0%nat => h
  | 1%nat => Sim (if cen (sim_tv h TIMER0) then update_event (sim_tv h TIMER0) else st0 h) (st7 h) (capf h) (capv h) 0
  | S n => Sim (st0 h) (st7 h) (capf h) (capv h) n
  end.

#[export] Instance sim_hw : TimerHw sim := {
  tim_do h op :=
    burn (Sim (effect op TIMER0 (sim_tv h TIMER0)) (effect op TIMER7 (sim_tv h TIMER7))
            (match op with on_timer _ (timer_flag_clear (TIMER_FLAG_CAP _)) => false | _ => capf h end) (capv h) (fuse h));
  tim_read h r :=
    (match r with
     | TIMER_CTL0 p => ctl0 (sim_tv h p)
     | TIMER_CAR p => car_pre (sim_tv h p)
     | capture_value p (TIMER_CH c) => cv_pre (ch_of (sim_tv h p) c)
     | capture_value p (TIMER_MCH c) => capv h
     | timer_flag_get p TIMER_FLAG_UP => if upif (sim_tv h p) then 1 else 0
     | timer_flag_get p (TIMER_FLAG_CAP _) => if capf h then 1 else 0
     end, burn h);
  cam_code m := Z.land (Z.shiftl m 5) TIMER_CTL0_CAM }.

Lemma norm_word t : 0 <= ctl0 (norm t) < 0x100000000.
Proof. apply u32_u32. Qed.

Lemma norm_same t : 0 <= ctl0 t < 0x100000000 -> norm t = t.
Proof. intros Hw. unfold norm. rewrite (proj1 (word_u32 _) Hw). by destruct t. Qed.

Lemma word_ldiff a b : 0 <= a < 0x100000000 -> 0 <= Z.ldiff a b < 0x100000000.
Proof. intros Ha. rewrite Z.ldiff_land. by apply word_land. Qed.

Lemma word_bit a n (b : bool) :
  0 <= n < 32 -> 0 <= a < 0x100000000 -> 0 <= (if b then Z.setbit a n else Z.clearbit a n) < 0x100000000.
Proof.
  intros Hn Ha. destruct b; rewrite ?Z.setbit_spec', ?Z.clearbit_spec'; [| by apply word_ldiff].
  apply word_lor; [done |]. split; [by apply Z.pow_nonneg |]. change 0x100000000 with (2 ^ 32). apply Z.pow_lt_mono_r; lia.
Qed.

Lemma update_word t : 0 <= ctl0 t < 0x100000000 -> 0 <= ctl0 (update_event t) < 0x100000000.
Proof.
  intros Hw. unfold update_event. destruct (updis t); [done |]. cbn [ctl0]. destruct (spm t); [| done].
  by apply (word_bit _ 0 false).
Qed.

Lemma effect_word op p t : 0 <= ctl0 t < 0x100000000 -> 0 <= ctl0 (effect op p t) < 0x100000000.
Proof.
  intros Hw. destruct op as [q op | | | |]; try done. cbn [effect]. destruct (decide _); [| done].
  destruct op; try exact Hw; cbn [op_effect set_ctl0 set_upif set_car ctl0].
  - done.
  - by apply word_land.
  - by apply (word_bit _ 7 true).
  - by apply (word_bit _ 0 true).
  - by apply (word_bit _ 0 false).
  - apply u32_u32.
  - by destruct u.
  - by destruct u.
  - by apply (word_bit _ 3 single).
  - by apply update_word.
  - by destruct f.
Qed.

Lemma burn_later h p : later (sim_tv h p) (sim_tv (burn h) p).
Proof.
  unfold burn. destruct (fuse h) as [| [| n]]; [done | | by destruct p]. destruct p; [| done].
  destruct (cen (sim_tv h TIMER0)) eqn:Ec; [| done]. unfold sim_tv at 2. cbn [st0].
  rewrite norm_same by (apply update_word, norm_word). apply rtc_once, tick_update. by rewrite Ec.
Qed.

#[export] Instance sim_laws : TimerLaws sim.
Proof.
  refine {| tv := sim_tv |}.
  - intros h op p. etrans; [| apply burn_later]. cbn [tim_do sim_hw].
    assert (E : forall q, sim_tv (Sim (effect op TIMER0 (sim_tv h TIMER0)) (effect op TIMER7 (sim_tv h TIMER7))
      (match op with on_timer _ (timer_flag_clear (TIMER_FLAG_CAP _)) => false | _ => capf h end) (capv h) (fuse h)) q
      = effect op q (sim_tv h q)).
    { intros q. unfold sim_tv at 1. destruct q; cbn [st0 st7]; apply norm_same, effect_word, norm_word. }
    by rewrite E.
  - intros h r p. apply burn_later.
  - done.
  - done.
  - done.
  - intros h p. cbn. by destruct (upif _).
  - intros h p. apply norm_word.
  - intros m _. cbn. by rewrite <- Z.land_assoc.
  - intros m n Hm Hn. assert (m = 0 \/ m = 1 \/ m = 2 \/ m = 3) as Em by lia. assert (n = 0 \/ n = 1 \/ n = 2 \/ n = 3) as En by lia.
    by destruct Em as [-> | [-> | [-> | ->]]], En as [-> | [-> | [-> | ->]]].
  - done.
Defined.

Definition tmr0 : tmr := Tmr 0 0 0 0 false [] TIMER_SLAVE_MODE_DISABLE.
Definition sim0 : sim := Sim tmr0 tmr0 false 0 0.

(** The state bring-up leaves, and requests from there. *)
Definition booted : sim * pwm_sw := pwm_bring_up sim0 pwm_sw0.
Definition after (rs : list pwm_req) : sim * pwm_sw := foldl (fun x r => pwm_request r x.1 x.2) booted rs.

Lemma after_reach rs : Forall req_unsigned rs -> pwm_reach (after rs).1 (after rs).2.
Proof.
  intros Hrs. unfold after. assert (G : forall x, pwm_reach x.1 x.2 -> pwm_reach (foldl (fun x r => pwm_request r x.1 x.2) x rs).1
    (foldl (fun x r => pwm_request r x.1 x.2) x rs).2); [| apply G, reach_init].
  induction Hrs as [| r rs Hr _ IH]; intros x Hx; [done |]. cbn. apply IH. by apply reach_request.
Qed.

(** TIMER0 overflows at the [n]-th call from now. *)
Definition fused (n : nat) (h : sim) : sim := Sim (st0 h) (st7 h) (capf h) (capv h) n.

Lemma fused_later n h p : later (tv h p) (tv (fused n h) p).
Proof. by destruct p. Qed.

(** ** Witnesses *)

Lemma pwm_statics_describe_timers_witness :
  let x := after [ReqSet 0 20000000 1500000; ReqConfigure 4 3 0 0] in
  cam (tv x.1 TIMER7) = 0x60 /\ (pwm_align_mode x.2).[1] = 3 /\ (
  let t := tv x.1 TIMER7 in
  let i := pwm_timer_index TIMER7 in
  cam t = cam_code (pwm_align_mode x.2).[i] /\ updis t = false /\
  (forall c, 0 <= c < PWM_CHANNEL_COUNT -> periph (pwm_ch c) = TIMER7 ->
     oc_pwm1 (ch_of t (channel (pwm_ch c))) = flag_at (pwm_one_shot x.2) c /\
     oc_shadow (ch_of t (channel (pwm_ch c))) = true) /\
  car_act t = (if upif t && flag_at (pwm_capture_pending_valid x.2) i
               then (pwm_capture_pending_car x.2).[i] else (pwm_capture_active_car x.2).[i]) /\
  timer_sync_master_active x.2 i = enslaved (tv x.1 (other_timer TIMER7))).
Proof.
  cbn zeta. split; [vm_compute; reflexivity |]. split; [vm_compute; reflexivity |].
  apply (pwm_statics_describe_timers _ _ (after_reach [ReqSet 0 20000000 1500000; ReqConfigure 4 3 0 0] ltac:(repeat constructor; done)) TIMER7).
Defined.

(** A one-shot of TIMER0 that ended, with TIMER0 driving TIMER7's restarts. *)
Definition halted_master : sim * pwm_sw :=
  let x := after [ReqSinglePulse 0 5000] in pwm_request (ReqSync 0 1 1) (fused 1 x.1) x.2.

Lemma halted_master_reach : pwm_reach halted_master.1 halted_master.2.
Proof.
  apply (reach_request _ _ (ReqSync 0 1 1)); [| done].
  apply (reach_time (after [ReqSinglePulse 0 5000]).1); [| intros p; apply fused_later].
  apply after_reach. repeat constructor; done.
Qed.

Lemma pwm_set_contract_witness :
  let x := halted_master in
  let r := bridge_hw_pwm_set_ x.1 x.2 1 20000000 1500000 in
  r.2 = BRIDGE_HW_ERR_BUSY /\
  r.2 = set_status x.2 (cen (tv x.1 TIMER0)) 1 20000000 1500000 /\
  (r.2 <> BRIDGE_HW_OK -> r.1.2 = x.2 /\ forall q, later (tv x.1 q) (tv r.1.1 q)).
Proof.
  cbn zeta. split; [vm_compute; reflexivity |].
  apply (pwm_set_contract _ _ 1 20000000 1500000); [done | done | done | apply halted_master_reach].
Defined.

Lemma pwm_set_get_round_trip_witness :
  let x := after [ReqConfigure 0 3 0 0] in
  let r := bridge_hw_pwm_set_ x.1 x.2 2 20001999 1500999 in
  r.2 = BRIDGE_HW_OK /\
  (bridge_hw_pwm_get_ (fused 1 r.1.1) r.1.2 2).2 = (BRIDGE_HW_OK, 20000000, 1500000).
Proof.
  cbn zeta. split; [vm_compute; reflexivity |].
  pose proof (pwm_set_get_round_trip (after [ReqConfigure 0 3 0 0]).1 (fused 1 (bridge_hw_pwm_set_ (after [ReqConfigure 0 3 0 0]).1
    (after [ReqConfigure 0 3 0 0]).2 2 20001999 1500999).1.1) (after [ReqConfigure 0 3 0 0]).2 2 20001999 1500999
    ltac:(done) ltac:(done) ltac:(done)) as G.
  cbn zeta in G. etrans; [apply G | vm_compute; reflexivity].
  - apply after_reach. repeat constructor; done.
  - vm_compute; reflexivity.
  - intros q. apply fused_later.
Defined.

Lemma pwm_set_never_mixes_witness :
  let x := after [ReqSet 0 20000000 1500000] in
  let r := bridge_hw_pwm_set_ (fused 1 x.1) x.2 0 10000000 5000000 in
  cen (tv x.1 TIMER0) = true /\
  act_pair (tv r.1.1 TIMER0) 0 ∈ [(0xFFFF, 0); (19999, 1500); (9999, 5000)].
Proof.
  cbn zeta. split; [vm_compute; reflexivity |].
  assert (Hr : pwm_reach (fused 1 (after [ReqSet 0 20000000 1500000]).1) (after [ReqSet 0 20000000 1500000]).2).
  { apply (reach_time (after [ReqSet 0 20000000 1500000]).1); [| intros p; apply fused_later].
    apply after_reach. repeat constructor; done. }
  pose proof (pwm_set_never_mixes _ _ 0 10000000 5000000 0 ltac:(done) ltac:(done) ltac:(done) Hr) as G. cbn zeta in G.
  vm_compute in G |- *. by apply G.
Defined.

Lemma one_shot_is_one_pulse_witness :
  let x := after [] in
  let r := bridge_hw_pwm_single_pulse_ x.1 x.2 0 3000 in
  let p := periph (pwm_ch 0) in
  r.2 = BRIDGE_HW_OK /\
  ((r.2 <> BRIDGE_HW_OK /\ r.1 = (x.1, x.2)) \/
   (r.2 = BRIDGE_HW_OK /\
    (exists ops, r.1.1 = tims x.1 p (ops ++ [timer_enable]) /\
       (forall n, (0 < n <= length ops)%nat -> cen (tv (tims x.1 p (take n ops)) p) = false) /\
       let u := op_effect timer_enable (tv (tims x.1 p ops) p) in
       spm u = true /\ later u (tv r.1.1 p) /\
       forall k, level (Nat.iter k count_tick u) (channel (pwm_ch 0)) =
         (1 <=? Z.of_nat k) && (Z.of_nat k <=? 3000 / 1000)) /\
    (bridge_hw_pwm_get_ r.1.1 r.1.2 0).2 = (BRIDGE_HW_OK, 1000 * (3000 / 1000 + 1), 1000 * (3000 / 1000)))).
Proof.
  cbn zeta. split; [vm_compute; reflexivity |].
  assert (Hm : smc (tv (after []).1 (periph (pwm_ch 0))) = TIMER_SLAVE_MODE_DISABLE) by (vm_compute; reflexivity).
  exact (one_shot_is_one_pulse (after []).1 _ (after []).2 0 3000 ltac:(done) ltac:(done)
    (after_reach [] ltac:(constructor)) Hm (fun q => rtc_refl _ _)).
Defined.

Lemma set_channel_protected_witness :
  let x := after [] in
  let r := bridge_hw_pwm_set_ x.1 x.2 0 20000000 1500000 in
  let y := pwm_request (ReqCaptureBegin 2 1) r.1.1 r.1.2 in
  let s := bridge_hw_pwm_single_pulse_ y.1 y.2 1 3000 in
  r.2 = BRIDGE_HW_OK /\ s.2 <> BRIDGE_HW_OK /\ s.1 = y.
Proof.
  cbn zeta. split; [vm_compute; reflexivity |].
  apply (set_channel_protected (after []).1 (after []).2 0 20000000 1500000 _ 1 3000);
    [done | done | done | done | done | apply after_reach; constructor | vm_compute; reflexivity | | done | done].
  apply (held_request _ _ _ _ (ReqCaptureBegin 2 1)); [| done | done]. rewrite <- surjective_pairing. apply held_refl.
Defined.

(** The capture unit of the bench latches an edge at time [t]. *)
Definition latched (t : Z) (h : sim) : sim := Sim (st0 h) (st7 h) true (t mod 65536) 0.

Lemma session_latched e ts h w t :
  capture_session 0 e 65536 ts h w -> capture_session 0 e 65536 ts (latched t h) w.
Proof.
  intros Hs. pose proof (session_holds 0 e 65536 ts h w Hs) as [_ Hr Hm _ _].
  apply (session_other 0 e 65536 ts h w); [done | | done | exact Hm].
  apply (reach_time h); [done |]. intros p. destruct p; apply rtc_refl.
Qed.

(** The read that finds it. *)
Definition read_at (t : Z) (x : sim * pwm_sw) : sim * pwm_sw := (bridge_hw_pwm_capture_read_ (latched t x.1) x.2 0).1.

Lemma session_edge e ts x t :
  capture_session 0 e 65536 ts x.1 x.2 -> spaced 65536 (t :: ts) ->
  capture_session 0 e 65536 (t :: ts) (read_at t x).1 (read_at t x).2.
Proof.
  intros Hs Hsp. apply (session_read 0 e 65536 ts (latched t x.1) x.2 (Some t)); [by apply session_latched | done | done].
Qed.

Lemma session_started :
  let x := pwm_request (ReqCaptureBegin 0 2) (after []).1 (after []).2 in
  capture_session 0 2 65536 [] x.1 x.2.
Proof.
  apply (session_begin 0 2 65536 (after []).1 (after []).2); [apply after_reach; constructor | done | |]; vm_compute; [done | by split].
Qed.


Lemma request_never_glitches_slave_witness :
  let x := pwm_bring_up ((sim0, []) : logged sim) pwm_sw0 in
  let y := pwm_request (ReqSinglePulse 4 3000) x.1 x.2 in
  length y.1.2 = (length x.1.2 + 9)%nat /\ emits x.1 y.1.
Proof.
  cbn zeta. split; [vm_compute; reflexivity |].
  apply (request_never_glitches_slave _ _ (ReqSinglePulse 4 3000)); [apply reach_init | done].
Defined.

(** ** Findings *)

(** A one-shot that ends between the run-bit read and the disable of
    [bridge_hw_pwm_configure] is fired a second time. *)
Lemma configure_refires_one_shot :
  let x := after [ReqSinglePulse 0 5000] in
  let r := bridge_hw_pwm_configure_ (fused 1 x.1) x.2 1 2 0 0 in
  upif (tv x.1 TIMER0) = false /\ upif (tv r.1.1 TIMER0) = true /\ r.2 = BRIDGE_HW_OK /\
  cen (tv r.1.1 TIMER0) = true /\ spm (tv r.1.1 TIMER0) = true /\ act_pair (tv r.1.1 TIMER0) 0 = (5, 1).
Proof. vm_compute. split_and!; reflexivity. Qed.

(** A one-shot on a capturing channel drops the claim of the session: a sibling's
    one-shot is then accepted during the capture. *)
Lemma capture_claim_dropped :
  let x := after [ReqCaptureBegin 0 0; ReqSinglePulse 0 5000] in
  in_capture (capture_of x.2 0) = true /\ (bridge_hw_pwm_single_pulse_ x.1 x.2 1 3000).2 = BRIDGE_HW_OK.
Proof. vm_compute. split; reflexivity. Qed.

(** A one-shot channel can end up on a center-aligned timer, where its read-back
    still takes the edge-aligned formula. *)
Lemma center_aligned_one_shot :
  let x := after [ReqSinglePulse 0 5000; ReqConfigure 1 3 0 0] in
  flag_at (pwm_one_shot x.2) 0 = true /\ pwm_channel_center_aligned x.2 0 = true /\
  car_act (tv x.1 TIMER0) = 5 /\ (bridge_hw_pwm_get_ x.1 x.2 0).2 = (BRIDGE_HW_OK, 6000, 5000).
Proof. vm_compute. split_and!; reflexivity. Qed.

(** A one-shot that ends just after the run bit was read as set: the set does not
    force its values and restarts the timer on the one-shot's. *)
Lemma set_after_one_shot_stale :
  let x := after [ReqSinglePulse 0 5000] in
  let r := bridge_hw_pwm_set_ (fused 1 x.1) x.2 0 20000000 1500000 in
  r.2 = BRIDGE_HW_OK /\ cen (tv r.1.1 TIMER0) = true /\ act_pair (tv r.1.1 TIMER0) 0 = (5, 1) /\
  pre_pair (tv r.1.1 TIMER0) 0 = (19999, 1500).
Proof. vm_compute. split_and!; reflexivity. Qed.
