(* ===== verification/Power.v ===== *)
(** * Low-power modes: [hal/gd32/power.c], [power_wake.h]

    The request handler, the RTC wake-up timer, the base-level tick that enters
    the modes and brings the bridge back, and the relock of the system clock.  A
    wait whose end only the watchdog decides is one operation. *)

From stdpp Require Import base tactics list numbers option.
From S2P Require Import Prelude BridgeHw I2cTiming I2cBackend.

Definition POWER_WAKE_RTC : Z := 0x00000001.
Definition POWER_WAKE_TIMER : Z := 0x00000008.
Definition POWER_WAKE_MASK_SUPPORTED : Z := Z.lor POWER_WAKE_RTC POWER_WAKE_TIMER.
Definition POWER_WAKE_LSB_HZ : Z := 2000.
Definition POWER_WAKE_TIMER_MAX_MS : Z := 65535 * 1000 / POWER_WAKE_LSB_HZ.
Definition POWER_LP_FWDGT_MAX_MS : Z := 300.
Definition POWER_CLOCK_RESTORE_SPINS : nat := Z.to_nat 100000.
Definition POWER_CLK_HZ : Z := 216000000.
Definition SysTick_LOAD_RELOAD_Msk : Z := 0xFFFFFF.

Definition power_wake_bitmap_supported (wake_bitmap : Z) : bool :=
  Z.land wake_bitmap (u32 (Z.lnot POWER_WAKE_MASK_SUPPORTED)) =? 0.

(** ** The hardware *)

Inductive transport_irq := BRIDGE_SPI_CS_EXTI_IRQN | BRIDGE_I2C_EV_IRQN | BRIDGE_I2C_ER_IRQN | RTC_WKUP_IRQn.

Inductive pw_op :=
  | irq_lock | irq_unlock
  | rcu_osci_on_irc32k | rcu_pmu_clock_enable | pmu_backup_write_enable
  | rcu_rtc_clock_config_irc32k | rcu_rtc_clock_enable
  | rtc_flag_clear_wt | rtc_interrupt_enable_wakeup | exti_flag_clear_19 | exti_interrupt_flag_clear_19
  | exti_init_19 | nvic_irq_enable (irq : transport_irq) | rtc_wakeup_enable
  | fwdgt_counter_reload | fwdgt_stat_wait | settle_gap
  | exti_pd0_clear | exti_pd1_clear | dsb
  | systick_stop | systick_pend_clear | systick_val0 | systick_ctrl_write (v : Z) | systick_load_write (v : Z)
  | lp_i2c_disable | lp_i2c_enable
  | pmu_to_deepsleepmode | pmu_to_standbymode | scr_sleepdeep_clear
  | fmc_ws_wscnt7 | rcu_pllen | rcu_scs_pllp | rcu_scs_irc8m | SystemCoreClockUpdate.

(** Registers, and library calls that answer [SUCCESS] or not. *)
Inductive pw_reg :=
  | irc32k_stable | fmc_obctl_fwdgspd (mode : Z)
  | rtc_wakeup_disable | rtc_wakeup_clock_set | rtc_wakeup_timer_set (v : Z)
  | cs_level | i2c_busy_flag | EXTI_PD0 | EXTI_PD1 | NVIC_GetPendingIRQ (irq : transport_irq)
  | systick_ctrl | rcu_pllstb | rcu_scss_is_pllp | SystemCoreClock.

Class PowerHw (H : Type) := {
  pw_do : H -> pw_op -> H;
  pw_read : H -> pw_reg -> Z * H }.

Definition SET : Z := 1.
Definition SUCCESS : Z := 1.

(** The file's statics and the clock telemetry. *)
Record power_sw := PowerSw {
  rtc_wakeup_ready : bool;
  s_lp_pending_mode : Z;
  s_clock_relock_pending : Z;
  s_clock_relock_tick : Z;
  bridge_i2c_reinit_pending : Z;
  bridge_core_clock_hz : Z;
  bridge_core_clock_matches : bool }.

Definition set_ready (w : power_sw) : power_sw :=
  PowerSw true (s_lp_pending_mode w) (s_clock_relock_pending w) (s_clock_relock_tick w)
    (bridge_i2c_reinit_pending w) (bridge_core_clock_hz w) (bridge_core_clock_matches w).
Definition set_pending_mode (m : Z) (w : power_sw) : power_sw :=
  PowerSw (rtc_wakeup_ready w) m (s_clock_relock_pending w) (s_clock_relock_tick w)
    (bridge_i2c_reinit_pending w) (bridge_core_clock_hz w) (bridge_core_clock_matches w).
Definition set_relock (pending tick : Z) (w : power_sw) : power_sw :=
  PowerSw (rtc_wakeup_ready w) (s_lp_pending_mode w) pending tick
    (bridge_i2c_reinit_pending w) (bridge_core_clock_hz w) (bridge_core_clock_matches w).
Definition set_reinit (v : Z) (w : power_sw) : power_sw :=
  PowerSw (rtc_wakeup_ready w) (s_lp_pending_mode w) (s_clock_relock_pending w) (s_clock_relock_tick w)
    v (bridge_core_clock_hz w) (bridge_core_clock_matches w).
Definition set_clock (hz : Z) (w : power_sw) : power_sw :=
  PowerSw (rtc_wakeup_ready w) (s_lp_pending_mode w) (s_clock_relock_pending w) (s_clock_relock_tick w)
    (bridge_i2c_reinit_pending w) hz (hz =? POWER_CLK_HZ).

Section power.
Context {H : Type} `{!PowerHw H} `{!I2cSlaveHw H}.

Definition pw_dos (h : H) (ops : list pw_op) : H := foldl pw_do h ops.

(** A read as a flag. *)
Definition pw_flag (h : H) (r : pw_reg) : bool * H := let '(v, h) := pw_read h r in (negb (v =? 0), h).

(** A call that must answer [SUCCESS]. *)
Definition pw_try (h : H) (r : pw_reg) : bool * H := let '(v, h) := pw_read h r in (v =? SUCCESS, h).

(** ** The wake-up timer *)

(** [while (--to && RESET == ...)], and whether [to] is left. *)
Fixpoint irc_wait (to : nat) (h : H) : bool * H :=
  match to with
  | O | 1%nat => (false, h)
  | S to =>
      let '(stable, h) := pw_flag h irc32k_stable in
      if stable : bool then (true, h) else irc_wait to h
  end.

Definition rtc_wakeup_init_once (h : H) (w : power_sw) : bool * H * power_sw :=
  if rtc_wakeup_ready w then (true, h, w)
  else
    let '(stable, h) := irc_wait (Z.to_nat 200000) (pw_do h rcu_osci_on_irc32k) in
    if negb stable then (false, h, w)
    else
      let h := pw_dos h [irq_lock; rcu_pmu_clock_enable; irq_unlock; pmu_backup_write_enable;
                         irq_lock; rcu_rtc_clock_config_irc32k; irq_unlock;
                         irq_lock; rcu_rtc_clock_enable; irq_unlock] in
      (true, h, set_ready w).

(** Half-millisecond ticks of a wait, rounded up. *)
Definition wake_ticks (wake_after_ms : Z) : Z :=
  let ticks := u32 (u32 (wake_after_ms * POWER_WAKE_LSB_HZ) + 999) / 1000 in
  let ticks := if ticks =? 0 then 1 else ticks in
  if 65535 <? ticks then 65535 else ticks.

Definition rtc_wakeup_arm_ms (h : H) (w : power_sw) (wake_after_ms : Z) : Z * H * power_sw :=
  let '(ready, h, w) := rtc_wakeup_init_once h w in
  if negb ready then (BRIDGE_HW_ERR_IO, h, w)
  else if POWER_WAKE_TIMER_MAX_MS <? wake_after_ms then (BRIDGE_HW_ERR_RANGE, h, w)
  else
    let ticks := wake_ticks wake_after_ms in
    let '(ok, h) := pw_try h rtc_wakeup_disable in
    if negb ok then (BRIDGE_HW_ERR_IO, h, w)
    else
      let '(ok, h) := pw_try h rtc_wakeup_clock_set in
      if negb ok then (BRIDGE_HW_ERR_IO, h, w)
      else
        let '(ok, h) := pw_try h (rtc_wakeup_timer_set (u16 (ticks - 1))) in
        if negb ok then (BRIDGE_HW_ERR_IO, h, w)
        else
          (BRIDGE_HW_OK,
           pw_dos h [rtc_flag_clear_wt; rtc_interrupt_enable_wakeup; exti_flag_clear_19; exti_init_19;
                     nvic_irq_enable RTC_WKUP_IRQn; rtc_wakeup_enable], w).

Definition RTC_WKUP_IRQHandler (h : H) : H := pw_dos h [exti_interrupt_flag_clear_19; rtc_flag_clear_wt].

(** ** The request *)

Definition bridge_hw_power_mode_set_ (h : H) (w : power_sw) (mode wake_bitmap wake_after_ms : Z)
    : H * power_sw * Z :=
  if negb (power_wake_bitmap_supported wake_bitmap) then (h, w, BRIDGE_HW_ERR_NOTIMPL)
  else if (mode =? 0) || (mode =? 1) then
    if negb (wake_after_ms =? 0) then (h, w, BRIDGE_HW_ERR_INVAL) else (h, w, BRIDGE_HW_OK)
  else if (mode =? 2) || (mode =? 3) then
    let h := pw_dos h [irq_lock; rcu_pmu_clock_enable; irq_unlock] in
    let timed := negb (Z.land wake_bitmap (Z.lor POWER_WAKE_RTC POWER_WAKE_TIMER) =? 0) in
    if (wake_after_ms =? 0) && negb timed then (h, w, BRIDGE_HW_ERR_INVAL)
    else if negb (wake_after_ms =? 0) || timed then
      let ms := if negb (wake_after_ms =? 0) then wake_after_ms else POWER_WAKE_TIMER_MAX_MS in
      let '(counting, h) := pw_flag h (fmc_obctl_fwdgspd mode) in
      if counting && (POWER_LP_FWDGT_MAX_MS <? ms) then (h, w, BRIDGE_HW_ERR_RANGE)
      else
        let '(rc, h, w) := rtc_wakeup_arm_ms h w ms in
        if negb (rc =? BRIDGE_HW_OK) then (h, w, rc)
        else (h, set_pending_mode mode w, BRIDGE_HW_OK)
    else (h, set_pending_mode mode w, BRIDGE_HW_OK)
  else (h, w, BRIDGE_HW_ERR_INVAL).

(** ** The clock after deep-sleep *)

(** [while (!reg && --to != 0)]. *)
Fixpoint spin_until (to : nat) (r : pw_reg) (h : H) : H :=
  match to with
  | O => h
  | S to => let '(up, h) := pw_flag h r in if up : bool then h else spin_until to r h
  end.

Definition systick_reload (clock : Z) : Z :=
  let reload := u32 (clock / 20 - 1) in
  if SysTick_LOAD_RELOAD_Msk <? reload then SysTick_LOAD_RELOAD_Msk else reload.

Definition bridge_clock_restore_after_deepsleep (h : H) (w : power_sw) : bool * H * power_sw :=
  let h := pw_dos h [fmc_ws_wscnt7; rcu_pllen] in
  let h := spin_until POWER_CLOCK_RESTORE_SPINS rcu_pllstb h in
  let '(stable, h) := pw_flag h rcu_pllstb in
  let '(ok, h) :=
    if stable : bool then
      let h := pw_do h rcu_scs_pllp in
      let h := spin_until POWER_CLOCK_RESTORE_SPINS rcu_scss_is_pllp h in
      let '(ok, h) := pw_flag h rcu_scss_is_pllp in
      (ok, if ok : bool then h else pw_do h rcu_scs_irc8m)
    else (false, h) in
  let h := pw_do h SystemCoreClockUpdate in
  let '(clock, h) := pw_read h SystemCoreClock in
  let w := set_clock (u32 clock) w in
  (ok, pw_dos h [systick_load_write (systick_reload (u32 clock)); systick_val0], w).

(** ** The tick *)

Definition mode_i2c_busy (h : H) : bool * H := pw_flag h i2c_busy_flag.

(** The pending checks of [lp_link_quiet], in order. *)
Fixpoint none_pending (irqs : list transport_irq) (h : H) : bool * H :=
  match irqs with
  | [] => (true, h)
  | irq :: irqs =>
      let '(pending, h) := pw_flag h (NVIC_GetPendingIRQ irq) in
      if pending : bool then (false, h) else none_pending irqs h
  end.

Definition lp_link_quiet (h : H) : bool * H :=
  let '(cs, h) := pw_read h cs_level in
  if negb (cs =? SET) then (false, h)
  else
    let '(busy, h) := mode_i2c_busy h in
    if busy : bool then (false, h)
    else
      let '(pd0, h) := pw_read h EXTI_PD0 in
      if negb (pd0 =? 0) then (false, h)
      else
        let '(pd1, h) := pw_read h EXTI_PD1 in
        if negb (Z.land pd1 0x7F =? 0) then (false, h)
        else
          none_pending [BRIDGE_SPI_CS_EXTI_IRQN; BRIDGE_I2C_EV_IRQN; BRIDGE_I2C_ER_IRQN; RTC_WKUP_IRQn] h.

Definition power_fwdgt_settle_before_lp_entry (trial : bool) (h : H) : H :=
  pw_dos (if trial then h else pw_do h fwdgt_counter_reload) [fwdgt_stat_wait; settle_gap].

(** The retries of a wake that did not come back whole. *)
Definition tick_relock (h : H) (w : power_sw) : H * power_sw :=
  if s_clock_relock_pending w =? 0 then (h, w)
  else
    let due := Z.land (s_clock_relock_tick w) 7 =? 0 in
    let w := set_relock (s_clock_relock_pending w) (u8 (s_clock_relock_tick w + 1)) w in
    if negb due then (h, w)
    else
      let '(ok, h, w) := bridge_clock_restore_after_deepsleep h w in
      (h, if ok : bool then set_reinit 1 (set_relock 0 (s_clock_relock_tick w) w) else w).

Definition tick_reinit (h : H) (w : power_sw) : H * power_sw :=
  if bridge_i2c_reinit_pending w =? 0 then (h, w)
  else
    let h := pw_do h irq_lock in
    let '(busy, h) := mode_i2c_busy h in
    let idle := negb busy in
    let h := if idle then pw_do h lp_i2c_disable else h in
    let h := pw_do h irq_unlock in
    if negb idle then (h, w)
    else
      let '(rc, h) := bridge_transport_i2c_hw_init h in
      (h, if rc =? BRIDGE_HW_OK then set_reinit 0 w else w).

(** The gates, up to the stop of SysTick: the mode to enter and SysTick's control
    word.  Interrupts are on: a request may run before [tick_enter]. *)
Definition tick_gate (trial : bool) (h : H) (w : power_sw) : H * option (Z * Z) :=
  if s_lp_pending_mode w =? 0 then (h, None)
  else
    let '(cs, h) := pw_read h cs_level in
    if negb (cs =? SET) then (h, None)
    else
      let h := pw_dos h [exti_pd0_clear; exti_pd1_clear; dsb] in
      let '(quiet, h) := lp_link_quiet h in
      if negb quiet then (h, None)
      else
        let mode := s_lp_pending_mode w in
        let h := power_fwdgt_settle_before_lp_entry trial h in
        let '(ctrl, h) := pw_read h systick_ctrl in
        (pw_dos h [systick_stop; systick_pend_clear; dsb], Some (mode, ctrl)).

Definition tick_deepsleep (ctrl : Z) (h : H) (w : power_sw) : H * power_sw :=
  let h := pw_do h irq_lock in
  let '(go, h) := lp_link_quiet h in
  let '(go, h) :=
    if go : bool then
      let '(go, h) := lp_link_quiet (pw_do h lp_i2c_disable) in
      (go, if negb go then pw_do h lp_i2c_enable else h)
    else (false, h) in
  if negb go then (pw_dos h [systick_val0; systick_ctrl_write ctrl; irq_unlock], w)
  else
    let h := pw_do h pmu_to_deepsleepmode in
    let '(ok, h, w) := bridge_clock_restore_after_deepsleep h w in
    let w := if negb ok then set_relock 1 0 w else w in
    let '(rc, h) := bridge_transport_i2c_hw_init h in
    let w := if negb (rc =? BRIDGE_HW_OK) then set_reinit 1 w else w in
    let '(_, h) := pw_read h rtc_wakeup_disable in
    (pw_dos h [rtc_flag_clear_wt; exti_flag_clear_19; systick_val0; systick_ctrl_write ctrl; irq_unlock],
     set_pending_mode 0 w).

(** Past [pmu_to_standbymode] the entry was aborted. *)
Definition tick_standby (ctrl : Z) (h : H) (w : power_sw) : H * power_sw :=
  (pw_dos h [pmu_to_standbymode; nvic_irq_enable BRIDGE_SPI_CS_EXTI_IRQN; nvic_irq_enable BRIDGE_I2C_EV_IRQN;
             nvic_irq_enable BRIDGE_I2C_ER_IRQN; scr_sleepdeep_clear; systick_val0; systick_ctrl_write ctrl],
   set_pending_mode 0 w).

Definition tick_enter (mode ctrl : Z) (h : H) (w : power_sw) : H * power_sw :=
  if mode =? 2 then tick_deepsleep ctrl h w
  else if mode =? 3 then tick_standby ctrl h w
  else (h, w).

Definition bridge_power_tick (trial : bool) (h : H) (w : power_sw) : H * power_sw :=
  let '(h, w) := tick_relock h w in
  let '(h, w) := tick_reinit h w in
  let '(h, go) := tick_gate trial h w in
  match go with Some (mode, ctrl) => tick_enter mode ctrl h w | None => (h, w) end.

End power.
