(* ===== verification/PowerLog.v ===== *)
(** * The power tick on hardware that logs

    Hardware that keeps every call and every answer next to its state, and that the
    tick runs on it as it runs on the bare one: what the log says is what the code
    did. *)

From stdpp Require Import base tactics list numbers option.
From S2P Require Import Prelude BridgeHw I2cTiming I2cBackend Power.

Inductive pw_event := EvDo (op : pw_op) | EvI2c (op : i2c_op) | EvAns (r : pw_reg) (v : Z).

Definition traced (H : Type) : Type := H * list pw_event.

#[export] Instance traced_power H `{!PowerHw H} : PowerHw (traced H) := {
  pw_do x op := (pw_do x.1 op, x.2 ++ [EvDo op]);
  pw_read x r := let '(v, h) := pw_read x.1 r in (v, (h, x.2 ++ [EvAns r v])) }.

#[export] Instance traced_i2c H `{!I2cSlaveHw H} : I2cSlaveHw (traced H) := {
  i2c_do x op := (i2c_do x.1 op, x.2 ++ [EvI2c op]);
  i2c_reg_read x r := let '(v, h) := i2c_reg_read x.1 r in (v, (h, x.2)) }.

(** The watchdog feeds of a log. *)
Fixpoint feeds (l : list pw_event) : nat :=
  match l with
  | [] => 0
  | EvDo fwdgt_counter_reload :: l => S (feeds l)
  | _ :: l => feeds l
  end.

Lemma feeds_app l1 l2 : feeds (l1 ++ l2) = (feeds l1 + feeds l2)%nat.
Proof. induction l1 as [| e l1 IH]; [done |]. destruct e as [[] | |]; cbn; by rewrite IH. Qed.

Section bare.
Context {H : Type} `{!PowerHw H} `{!I2cSlaveHw H}.
Implicit Types x y : traced H.

(** A result without the log. *)
Definition bare {A} (r : A * traced H) : A * H := (r.1, r.2.1).

(** [f] on logged hardware [x] is [g] on the bare one. *)
Ltac bare_step L :=
  let B := fresh "B" in let v := fresh "v" in let y := fresh "y" in
  pose proof L as B; revert B;
  match goal with |- bare ?f = ?g -> _ =>
    destruct f as [v y]; intros B; unfold bare in B; cbn [fst snd] in B; rewrite <- B; clear B end.

Lemma bare_read x r : bare (pw_read x r) = pw_read x.1 r.
Proof. cbn. by destruct (pw_read x.1 r). Qed.

Lemma bare_flag x r : bare (pw_flag x r) = pw_flag x.1 r.
Proof. unfold pw_flag. by bare_step (bare_read x r). Qed.

Lemma bare_dos ops : forall x, (pw_dos x ops).1 = pw_dos x.1 ops.
Proof. unfold pw_dos. induction ops as [| op ops IH]; intros x; [done |]. cbn [foldl]. by rewrite IH. Qed.

Lemma bare_spin n r : forall x, (spin_until n r x).1 = spin_until n r x.1.
Proof.
  induction n as [| n IH]; intros x; [done |]. cbn [spin_until]. bare_step (bare_flag x r). by destruct v.
Qed.

Lemma bare_i2c_dos ops : forall x, (i2c_dos x ops).1 = i2c_dos x.1 ops.
Proof. unfold i2c_dos. induction ops as [| op ops IH]; intros x; [done |]. cbn [foldl]. by rewrite IH. Qed.

Lemma bare_i2c_read x r : bare (i2c_reg_read x r) = i2c_reg_read x.1 r.
Proof. cbn. by destruct (i2c_reg_read x.1 r). Qed.

Lemma bare_lock x port m : (gpio_lock_port x port m).1 = gpio_lock_port x.1 port m.
Proof.
  unfold gpio_lock_port. rewrite <- bare_i2c_dos. set (x1 := i2c_dos x _). bare_step (bare_i2c_read x1 (gpio_lock_read port)).
  by bare_step (bare_i2c_read y (gpio_lock_read port)).
Qed.

Lemma bare_hw_init x : bare (bridge_transport_i2c_hw_init x) = bridge_transport_i2c_hw_init x.1.
Proof.
  unfold bridge_transport_i2c_hw_init. rewrite <- bare_i2c_dos. set (x1 := i2c_dos x _). bare_step (bare_i2c_read x1 rcu_apb1_hz).
  destruct (i2c_timing_derive (u32 v)) as [[[psc scl] sda] |]; [| done].
  destruct (bridge_i2c_stretch_timeout_reload (u32 v)) as [reload |]; [| done].
  rewrite <- bare_i2c_dos, <- !bare_lock. done.
Qed.

(** The same for what also carries the statics. *)
Definition bare_sw {A} (r : A * traced H * power_sw) : A * H * power_sw := (bare r.1, r.2).

Lemma bare_restore x w : bare_sw (bridge_clock_restore_after_deepsleep x w) = bridge_clock_restore_after_deepsleep x.1 w.
Proof.
  unfold bridge_clock_restore_after_deepsleep. rewrite <- bare_dos, <- bare_spin. set (x1 := spin_until _ _ _).
  bare_step (bare_flag x1 rcu_pllstb). destruct v.
  - set (x2 := spin_until POWER_CLOCK_RESTORE_SPINS rcu_scss_is_pllp (pw_do y rcu_scs_pllp)).
    assert (E : spin_until POWER_CLOCK_RESTORE_SPINS rcu_scss_is_pllp (pw_do y.1 rcu_scs_pllp) = x2.1) by (symmetry; apply bare_spin).
    rewrite E. bare_step (bare_flag x2 rcu_scss_is_pllp). destruct v.
    + change (pw_do y0.1 SystemCoreClockUpdate) with (pw_do y0 SystemCoreClockUpdate).1.
      by bare_step (bare_read (pw_do y0 SystemCoreClockUpdate) SystemCoreClock).
    + change (pw_do (pw_do y0.1 rcu_scs_irc8m) SystemCoreClockUpdate) with (pw_do (pw_do y0 rcu_scs_irc8m) SystemCoreClockUpdate).1.
      by bare_step (bare_read (pw_do (pw_do y0 rcu_scs_irc8m) SystemCoreClockUpdate) SystemCoreClock).
  - change (pw_do y.1 SystemCoreClockUpdate) with (pw_do y SystemCoreClockUpdate).1.
    by bare_step (bare_read (pw_do y SystemCoreClockUpdate) SystemCoreClock).
Qed.

Lemma bare_pending irqs : forall x, bare (none_pending irqs x) = none_pending irqs x.1.
Proof.
  induction irqs as [| irq irqs IH]; intros x; [done |]. cbn [none_pending].
  bare_step (bare_flag x (NVIC_GetPendingIRQ irq)). by destruct v.
Qed.

Lemma bare_quiet x : bare (lp_link_quiet x) = lp_link_quiet x.1.
Proof.
  unfold lp_link_quiet, mode_i2c_busy. bare_step (bare_read x cs_level). destruct (negb _); [done |].
  bare_step (bare_flag y i2c_busy_flag). destruct v0; [done |].
  bare_step (bare_read y0 EXTI_PD0). destruct (negb (v0 =? 0)); [done |].
  bare_step (bare_read y1 EXTI_PD1). destruct (negb (Z.land v1 0x7F =? 0)); [done | apply bare_pending].
Qed.

(** A stage of the tick. *)
Definition bare_hw {A} (r : traced H * A) : H * A := (r.1.1, r.2).

Lemma bare_relock x w : bare_hw (tick_relock x w) = tick_relock x.1 w.
Proof.
  unfold tick_relock. destruct (_ =? 0); [done |]. destruct (negb _); [done |].
  set (w1 := set_relock _ _ w). rewrite <- (bare_restore x w1).
  by destruct (bridge_clock_restore_after_deepsleep x w1) as [[ok y] w2].
Qed.

Lemma bare_reinit x w : bare_hw (tick_reinit x w) = tick_reinit x.1 w.
Proof.
  unfold tick_reinit, mode_i2c_busy. destruct (_ =? 0); [done |].
  change (pw_do x.1 irq_lock) with (pw_do x irq_lock).1. bare_step (bare_flag (pw_do x irq_lock) i2c_busy_flag).
  destruct v; [done |]. cbn [negb].
  change (pw_do (pw_do y.1 lp_i2c_disable) irq_unlock) with (pw_do (pw_do y lp_i2c_disable) irq_unlock).1.
  by bare_step (bare_hw_init (pw_do (pw_do y lp_i2c_disable) irq_unlock)).
Qed.

Lemma bare_gate trial x w : bare_hw (tick_gate trial x w) = tick_gate trial x.1 w.
Proof.
  unfold tick_gate. destruct (_ =? 0); [done |]. bare_step (bare_read x cs_level). destruct (negb (v =? SET)); [done |].
  rewrite <- bare_dos. bare_step (bare_quiet (pw_dos y [exti_pd0_clear; exti_pd1_clear; dsb])). destruct v0; [| done]. cbn [negb].
  set (x2 := power_fwdgt_settle_before_lp_entry trial y0).
  assert (E : power_fwdgt_settle_before_lp_entry trial y0.1 = x2.1) by by destruct trial. rewrite E.
  by bare_step (bare_read x2 systick_ctrl).
Qed.

Lemma bare_enter mode ctrl x w : bare_hw (tick_enter mode ctrl x w) = tick_enter mode ctrl x.1 w.
Proof.
  unfold tick_enter, tick_deepsleep. destruct (mode =? 2); [| by destruct (mode =? 3)].
  change (pw_do x.1 irq_lock) with (pw_do x irq_lock).1. bare_step (bare_quiet (pw_do x irq_lock)). destruct v; [| done].
  change (pw_do y.1 lp_i2c_disable) with (pw_do y lp_i2c_disable).1. bare_step (bare_quiet (pw_do y lp_i2c_disable)).
  destruct v; [| done]. cbn [negb]. change (pw_do y0.1 pmu_to_deepsleepmode) with (pw_do y0 pmu_to_deepsleepmode).1.
  rewrite <- (bare_restore (pw_do y0 pmu_to_deepsleepmode) w).
  destruct (bridge_clock_restore_after_deepsleep (pw_do y0 pmu_to_deepsleepmode) w) as [[ok y1] w1]. unfold bare_sw, bare. cbn [fst snd].
  bare_step (bare_hw_init y1). by bare_step (bare_read y2 rtc_wakeup_disable).
Qed.

(** The tick on logged hardware is the tick. *)
Lemma bare_tick trial x w : bare_hw (bridge_power_tick trial x w) = bridge_power_tick trial x.1 w.
Proof.
  unfold bridge_power_tick. rewrite <- (bare_relock x w). destruct (tick_relock x w) as [x1 w1]. unfold bare_hw at 2. cbn [fst snd].
  rewrite <- (bare_reinit x1 w1). destruct (tick_reinit x1 w1) as [x2 w2]. unfold bare_hw at 2. cbn [fst snd].
  rewrite <- (bare_gate trial x2 w2). destruct (tick_gate trial x2 w2) as [x3 [[mode ctrl] |]]; [apply bare_enter | done].
Qed.

End bare.
