(* ===== verification/PowerSafety.v ===== *)
(** * What the power tick guarantees

    The tick on hardware that logs every call and answer: when a mode is entered,
    and what the bridge is left with on every path, whatever the hardware answers. *)

From stdpp Require Import base tactics list numbers option.
From S2P Require Import Prelude BridgeHw I2cTiming I2cBackend Power PowerLog.

(** The answers of a quiet link. *)
Definition quiet_answers (pd1 : Z) : list pw_event :=
  [EvAns cs_level SET; EvAns i2c_busy_flag 0; EvAns EXTI_PD0 0; EvAns EXTI_PD1 pd1;
   EvAns (NVIC_GetPendingIRQ BRIDGE_SPI_CS_EXTI_IRQN) 0; EvAns (NVIC_GetPendingIRQ BRIDGE_I2C_EV_IRQN) 0;
   EvAns (NVIC_GetPendingIRQ BRIDGE_I2C_ER_IRQN) 0; EvAns (NVIC_GetPendingIRQ RTC_WKUP_IRQn) 0].

Definition awake (e : pw_event) : bool :=
  match e with EvDo pmu_to_deepsleepmode | EvDo pmu_to_standbymode => false | _ => true end.

(** ** What a log says of the bridge *)

(** The core's own registers: SysTick's control word, whether every read of it so
    far answered that word, the transport lines masked in the NVIC, and SLEEPDEEP. *)
Record core_view := CoreView { systick : Z; reads_true : bool; deaf : list transport_irq; sleepdeep : bool }.

#[export] Instance transport_irq_eq_dec : EqDecision transport_irq.
Proof. solve_decision. Defined.

(** The enable, interrupt and clock-source bits, the ones a write can set. *)
Definition SYSTICK_BITS : Z := 7.

(** The library's standby call masks the transport lines and sets SLEEPDEEP, and
    leaves both so when the entry aborts; its deep-sleep call takes both back. *)
Definition see_core (k : core_view) (e : pw_event) : core_view :=
  match e with
  | EvAns systick_ctrl a =>
      CoreView (systick k) (reads_true k && (Z.land a SYSTICK_BITS =? systick k)) (deaf k) (sleepdeep k)
  | EvDo systick_stop => CoreView (Z.ldiff (systick k) 3) (reads_true k) (deaf k) (sleepdeep k)
  | EvDo (systick_ctrl_write c) => CoreView (Z.land c SYSTICK_BITS) (reads_true k) (deaf k) (sleepdeep k)
  | EvDo pmu_to_standbymode =>
      CoreView (systick k) (reads_true k) [BRIDGE_SPI_CS_EXTI_IRQN; BRIDGE_I2C_EV_IRQN; BRIDGE_I2C_ER_IRQN] true
  | EvDo (nvic_irq_enable RTC_WKUP_IRQn) => k
  | EvDo (nvic_irq_enable irq) =>
      CoreView (systick k) (reads_true k) (filter (fun i => i <> irq) (deaf k)) (sleepdeep k)
  | EvDo scr_sleepdeep_clear => CoreView (systick k) (reads_true k) (deaf k) false
  | _ => k
  end.

(** How deep interrupts are masked, whether I2C0 is enabled, the core's registers,
    whether the core was last seen on the PLL, and how often the watchdog was fed. *)
Record pw_view := PwView { masked : nat; i2c_on : bool; core : core_view; on_pll : bool; fed : nat }.

Definition set_core (k : core_view) (v : pw_view) : pw_view := PwView (masked v) (i2c_on v) k (on_pll v) (fed v).
Definition set_pll (b : bool) (v : pw_view) : pw_view := PwView (masked v) (i2c_on v) (core v) b (fed v).
Definition set_i2c (b : bool) (v : pw_view) : pw_view := PwView (masked v) b (core v) (on_pll v) (fed v).
Definition set_fed (n : nat) (v : pw_view) : pw_view := PwView (masked v) (i2c_on v) (core v) (on_pll v) n.

Definition see (v : pw_view) (e : pw_event) : pw_view :=
  match e with
  | EvDo irq_lock => PwView (S (masked v)) (i2c_on v) (core v) (on_pll v) (fed v)
  | EvDo irq_unlock => PwView (pred (masked v)) (i2c_on v) (core v) (on_pll v) (fed v)
  | EvDo fwdgt_counter_reload => set_fed (S (fed v)) v
  | EvDo lp_i2c_disable => set_i2c false v
  | EvDo lp_i2c_enable | EvI2c i2c_enable => set_i2c true v
  | EvDo (pmu_to_deepsleepmode | rcu_scs_irc8m) => set_pll false v
  | EvAns rcu_scss_is_pllp a => set_pll (negb (a =? 0)) v
  | EvDo (systick_stop | systick_ctrl_write _ | pmu_to_standbymode | nvic_irq_enable _ | scr_sleepdeep_clear)
  | EvAns systick_ctrl _ => set_core (see_core (core v) e) v
  | _ => v
  end.

(** SysTick stopped after its control word was read as [a], and started on [c]. *)
Definition stopped (a : Z) (k : core_view) : core_view := see_core (see_core k (EvAns systick_ctrl a)) (EvDo systick_stop).
Definition resumed (c : Z) (k : core_view) : core_view := see_core k (EvDo (systick_ctrl_write c)).

(** No transport line masked, no SLEEPDEEP, and SysTick on its boot-time word, as
    far as its register reads back what it holds. *)
Definition running (k : core_view) : Prop :=
  deaf k = [] /\ sleepdeep k = false /\ (reads_true k = true -> systick k = 7).

(** The refusals that depend on the arguments alone. *)
Definition mode_refusal (mode wake_bitmap wake_after_ms : Z) : option Z :=
  if negb (power_wake_bitmap_supported wake_bitmap) then Some BRIDGE_HW_ERR_NOTIMPL
  else if 3 <? mode then Some BRIDGE_HW_ERR_INVAL
  else if mode <? 2 then if wake_after_ms =? 0 then None else Some BRIDGE_HW_ERR_INVAL
  else if (wake_after_ms =? 0) && (Z.land wake_bitmap POWER_WAKE_MASK_SUPPORTED =? 0) then Some BRIDGE_HW_ERR_INVAL
  else None.

(** The wait a request arms, in milliseconds. *)
Definition wake_ms (wake_after_ms : Z) : Z :=
  if wake_after_ms =? 0 then POWER_WAKE_TIMER_MAX_MS else wake_after_ms.

Definition armed_ops : list pw_op :=
  [rtc_flag_clear_wt; rtc_interrupt_enable_wakeup; exti_flag_clear_19; exti_init_19;
   nvic_irq_enable RTC_WKUP_IRQn; rtc_wakeup_enable].

Section power.
Context {H : Type} `{!PowerHw H} `{!I2cSlaveHw H}.
Implicit Types x y : traced H.

(** [y] goes on from [x] by [l]. *)
Definition extends x y (l : list pw_event) : Prop := y.2 = x.2 ++ l.

Definition ext_by (P : list pw_event -> Prop) x y : Prop := exists l, extends x y l /\ P l.

Lemma extends_trans x y z l1 l2 : extends x y l1 -> extends y z l2 -> extends x z (l1 ++ l2).
Proof. unfold extends. intros E1 E2. by rewrite E2, E1, app_assoc. Qed.

Lemma extends_refl x : extends x x [].
Proof. unfold extends. by rewrite app_nil_r. Qed.

Lemma dos_ext ops : forall x, extends x (pw_dos x ops) (EvDo <$> ops).
Proof.
  induction ops as [| op ops IH]; intros x; [unfold extends; by rewrite app_nil_r |].
  apply (extends_trans x (pw_do x op) _ [EvDo op]); [done | apply IH].
Qed.

Lemma i2c_dos_ext ops : forall x, extends x (i2c_dos x ops) (EvI2c <$> ops).
Proof.
  induction ops as [| op ops IH]; intros x; [unfold extends; by rewrite app_nil_r |].
  apply (extends_trans x (i2c_do x op) _ [EvI2c op]); [done | apply IH].
Qed.

Lemma read_ext x r : extends x (pw_read x r).2 [EvAns r (pw_read x r).1].
Proof. unfold extends. cbn. by destruct (pw_read x.1 r). Qed.

Lemma i2c_read_same x r : (i2c_reg_read x r).2.2 = x.2.
Proof. cbn. by destruct (i2c_reg_read x.1 r). Qed.

(** A stretch of the log without a low-power entry, and what it does to any view. *)
Definition calm_log x y (R : pw_view -> pw_view -> Prop) : Prop :=
  exists l, extends x y l /\ forallb awake l = true /\ forall v, R v (foldl see v l).

Lemma calm_trans (R : pw_view -> pw_view -> Prop) R1 R2 x y z :
  calm_log x y R1 -> calm_log y z R2 -> (forall u v w, R1 u v -> R2 v w -> R u w) -> calm_log x z R.
Proof.
  intros (l1 & E1 & A1 & V1) (l2 & E2 & A2 & V2) Hr. exists (l1 ++ l2). split; [by apply (extends_trans x y) |].
  split; [by rewrite forallb_app, A1, A2 |]. intros v. rewrite foldl_app. eauto.
Qed.

Lemma calm_weaken (R R' : pw_view -> pw_view -> Prop) x y : calm_log x y R -> (forall u v, R u v -> R' u v) -> calm_log x y R'.
Proof. intros (l & E & A & V) Hr. exists l. split_and!; auto. Qed.

Lemma calm_refl x : calm_log x x eq.
Proof. exists []. split; [apply extends_refl | done]. Qed.

Lemma calm_dos x ops (R : pw_view -> pw_view -> Prop) :
  forallb awake (EvDo <$> ops) = true -> (forall v, R v (foldl see v (EvDo <$> ops))) -> calm_log x (pw_dos x ops) R.
Proof. intros A V. exists (EvDo <$> ops). split_and!; [apply dos_ext | done | done]. Qed.

(** Only the clock status may move. *)
Definition pll_only (u v : pw_view) : Prop := v = set_pll (on_pll v) u.

#[export] Instance pll_only_preorder : PreOrder pll_only.
Proof. split; [by intros [] |]. intros [] [] [] E1 E2. unfold pll_only, set_pll in *. cbn in *. congruence. Qed.

Lemma pll_then (Q : pw_view -> Prop) x y z :
  calm_log x y pll_only -> calm_log y z (fun u v => pll_only u v /\ Q v) -> calm_log x z (fun u v => pll_only u v /\ Q v).
Proof. intros C1 C2. apply (calm_trans _ _ _ _ _ _ C1 C2). intros u v w A (B & D). split; [by etrans | done]. Qed.

Lemma eq_then (R : pw_view -> pw_view -> Prop) x y z : calm_log x y R -> calm_log y z eq -> calm_log x z R.
Proof. intros C1 C2. apply (calm_trans _ _ _ _ _ _ C1 C2). by intros u v w A <-. Qed.

Lemma eq_before (R : pw_view -> pw_view -> Prop) x y z : calm_log x y eq -> calm_log y z R -> calm_log x z R.
Proof. intros C1 C2. apply (calm_trans _ _ _ _ _ _ C1 C2). by intros u v w <-. Qed.

Lemma calm_flag x r :
  r <> systick_ctrl ->
  let '(b, y) := pw_flag x r in
  calm_log x y (fun u v => pll_only u v /\ (r = rcu_scss_is_pllp -> on_pll v = b) /\ (r <> rcu_scss_is_pllp -> v = u)).
Proof.
  intros Hr. unfold pw_flag. pose proof (read_ext x r) as E. destruct (pw_read x r) as [a y]. cbn [fst snd] in E.
  exists [EvAns r a]. split_and!; [done | done |]. intros v. by destruct r, v.
Qed.

Lemma calm_spin n r : r <> systick_ctrl -> forall x, calm_log x (spin_until n r x) pll_only.
Proof.
  intros Hr. induction n as [| n IH]; intros x; [apply (calm_weaken eq); [apply calm_refl | by intros u v <-] |].
  cbn [spin_until]. pose proof (calm_flag x r Hr) as F. destruct (pw_flag x r) as [up y].
  assert (F' : calm_log x y pll_only) by (apply (calm_weaken _ _ _ _ F); by intros u v (A & _)).
  destruct up; [exact F' |]. apply (calm_trans _ _ _ _ _ _ F' (IH y)). intros u v w ? ?. by etrans.
Qed.

Lemma calm_restore x w :
  let '(ok, y, w') := bridge_clock_restore_after_deepsleep x w in
  calm_log x y (fun u v => pll_only u v /\ (ok = true -> on_pll v = true)) /\
  s_lp_pending_mode w' = s_lp_pending_mode w /\ s_clock_relock_pending w' = s_clock_relock_pending w /\
  s_clock_relock_tick w' = s_clock_relock_tick w /\ bridge_i2c_reinit_pending w' = bridge_i2c_reinit_pending w.
Proof.
  unfold bridge_clock_restore_after_deepsleep.
  set (x1 := pw_dos x _). assert (C1 : calm_log x x1 pll_only) by (by apply calm_dos; [| by intros []]).
  set (x2 := spin_until _ _ x1). pose proof (calm_spin POWER_CLOCK_RESTORE_SPINS rcu_pllstb ltac:(done) x1) as C2. fold x2 in C2.
  pose proof (calm_flag x2 rcu_pllstb ltac:(done)) as C3. destruct (pw_flag x2 rcu_pllstb) as [stable x3].
  assert (C : calm_log x x3 pll_only).
  { apply (calm_weaken (fun u v => pll_only u v /\ True)); [| by intros u v []]. apply (pll_then _ _ _ _ C1), (pll_then _ _ _ _ C2).
    apply (calm_weaken _ _ _ _ C3). by intros u v (A & _). }
  set (z := if stable then _ else (false, x3)).
  assert (Z : calm_log x3 z.2 (fun u v => pll_only u v /\ (z.1 = true -> on_pll v = true))).
  { unfold z. destruct stable; [| apply (calm_weaken eq); [apply calm_refl | by intros u v <-]].
    set (x4 := pw_do x3 rcu_scs_pllp). assert (C4 : calm_log x3 x4 pll_only) by (by apply (calm_dos x3 [rcu_scs_pllp]); [| by intros []]).
    set (x5 := spin_until _ _ x4). pose proof (calm_spin POWER_CLOCK_RESTORE_SPINS rcu_scss_is_pllp ltac:(done) x4) as C5. fold x5 in C5.
    pose proof (calm_flag x5 rcu_scss_is_pllp ltac:(done)) as C6. destruct (pw_flag x5 rcu_scss_is_pllp) as [ok x6]. cbn [fst snd].
    assert (C46 : calm_log x3 x6 (fun u v => pll_only u v /\ on_pll v = ok)).
    { apply (pll_then _ _ _ _ C4), (pll_then _ _ _ _ C5), (calm_weaken _ _ _ _ C6). intros u v (A & B & _). split; [done | by apply B]. }
    destruct ok; [apply (calm_weaken _ _ _ _ C46); by intros u v (A & B) |].
    assert (C7 : calm_log x6 (pw_do x6 rcu_scs_irc8m) pll_only) by (by apply (calm_dos x6 [rcu_scs_irc8m]); [| by intros []]).
    apply (calm_trans _ _ _ _ _ _ C46 C7). intros u v w0 (A & _) B. split; [by etrans | done]. }
  destruct z as [ok x4]. cbn [fst snd] in Z.
  pose proof (read_ext (pw_do x4 SystemCoreClockUpdate) SystemCoreClock) as E.
  destruct (pw_read (pw_do x4 SystemCoreClockUpdate) SystemCoreClock) as [clock x5]. cbn [fst snd] in E.
  split; [| done].
  assert (T : calm_log x4 (pw_dos x5 [systick_load_write (systick_reload (u32 clock)); systick_val0]) eq).
  { exists ([EvDo SystemCoreClockUpdate] ++ [EvAns SystemCoreClock clock] ++ (EvDo <$> [systick_load_write (systick_reload (u32 clock)); systick_val0])).
    split; [| done]. apply (extends_trans x4 (pw_do x4 SystemCoreClockUpdate)); [done |].
    apply (extends_trans _ x5); [done | apply dos_ext]. }
  apply (pll_then _ _ _ _ C). exact (eq_then _ _ _ _ Z T).
Qed.

(** ** I2C bring-up in the log *)

Lemma calm_i2c x ops (R : pw_view -> pw_view -> Prop) :
  (forall v, R v (foldl see v (EvI2c <$> ops))) -> calm_log x (i2c_dos x ops) R.
Proof.
  intros V. exists (EvI2c <$> ops). split_and!; [apply i2c_dos_ext | | done].
  clear. by induction ops.
Qed.

Lemma calm_i2c_read x r : calm_log x (i2c_reg_read x r).2 eq.
Proof. exists []. split; [| done]. unfold extends. by rewrite i2c_read_same, app_nil_r. Qed.

Lemma calm_gpio_lock x port m : calm_log x (gpio_lock_port x port m) eq.
Proof.
  unfold gpio_lock_port. set (x1 := i2c_dos x _). assert (C1 : calm_log x x1 eq) by by apply calm_i2c.
  pose proof (calm_i2c_read x1 (gpio_lock_read port)) as C2. destruct (i2c_reg_read x1 _) as [a x2]. cbn [snd] in C2.
  pose proof (calm_i2c_read x2 (gpio_lock_read port)) as C3. destruct (i2c_reg_read x2 _) as [b x3]. cbn [snd] in C3.
  apply (eq_then _ _ _ _ (eq_then _ _ _ _ C1 C2) C3).
Qed.

(** Only I2C0's enable may move. *)
Definition i2c_only (u v : pw_view) : Prop := v = set_i2c (i2c_on v) u.

Lemma calm_hw_init x :
  let '(rc, y) := bridge_transport_i2c_hw_init x in
  calm_log x y (fun u v => i2c_only u v /\ (rc = BRIDGE_HW_OK -> i2c_on v = true)).
Proof.
  unfold bridge_transport_i2c_hw_init. set (x1 := i2c_dos x _). assert (C1 : calm_log x x1 eq) by by apply calm_i2c.
  pose proof (calm_i2c_read x1 rcu_apb1_hz) as C2. destruct (i2c_reg_read x1 _) as [hz x2]. cbn [snd] in C2.
  assert (C : calm_log x x2 eq) by exact (eq_then _ _ _ _ C1 C2).
  assert (No : calm_log x x2 (fun u v => i2c_only u v /\ (BRIDGE_HW_ERR_RANGE = BRIDGE_HW_OK -> i2c_on v = true))).
  { apply (calm_weaken _ _ _ _ C). by intros [] v <-. }
  destruct (i2c_timing_derive (u32 hz)) as [[[psc scl] sda] |]; [| exact No].
  destruct (bridge_i2c_stretch_timeout_reload (u32 hz)) as [reload |]; [| exact No].
  set (x3 := i2c_dos x2 (i2c_program psc scl sda reload)).
  assert (C3 : calm_log x2 x3 (fun u v => i2c_only u v /\ (BRIDGE_HW_OK = BRIDGE_HW_OK -> i2c_on v = true))) by (by apply calm_i2c).
  set (x6 := gpio_lock_port (gpio_lock_port (gpio_lock_port x3 GPIOA 0x8700) GPIOB 0x8200) GPIOC 0x2000).
  assert (C6 : calm_log x3 x6 eq) by (eapply eq_then; [eapply eq_then |]; apply calm_gpio_lock).
  assert (C7 : calm_log x6 (i2c_do x6 fault_reset_loop_mark_healthy) eq) by (by apply (calm_i2c x6 [fault_reset_loop_mark_healthy])).
  exact (eq_before _ _ _ _ C (eq_then _ _ _ _ (eq_then _ _ _ _ C3 C6) C7)).
Qed.

(** ** The quiet link *)

Lemma pending_log irqs : forall x,
  let '(q, y) := none_pending irqs x in
  exists l, extends x y l /\ forallb awake l = true /\ (forall v, foldl see v l = v) /\
    (q = true -> l = (fun irq => EvAns (NVIC_GetPendingIRQ irq) 0) <$> irqs).
Proof.
  induction irqs as [| irq irqs IH]; intros x; cbn [none_pending].
  - exists []. unfold extends. by rewrite app_nil_r.
  - unfold pw_flag. pose proof (read_ext x (NVIC_GetPendingIRQ irq)) as E.
    destruct (pw_read x (NVIC_GetPendingIRQ irq)) as [a x1]. cbn [fst snd] in E.
    destruct (Z.eqb_spec a 0) as [-> | Ha]; cbn [negb].
    + specialize (IH x1). destruct (none_pending irqs x1) as [q y]. destruct IH as (l & El & A & V & Q).
      exists (EvAns (NVIC_GetPendingIRQ irq) 0 :: l). split_and!; [by apply (extends_trans x x1 y [_]) | done | done |].
      intros Hq. cbn. by rewrite Q.
    + exists [EvAns (NVIC_GetPendingIRQ irq) a]. by split_and!.
Qed.

Lemma quiet_log x :
  let '(q, y) := lp_link_quiet x in
  exists l, extends x y l /\ forallb awake l = true /\ (forall v, foldl see v l = v) /\
    (q = true -> exists pd1, l = quiet_answers pd1 /\ Z.land pd1 0x7F = 0).
Proof.
  unfold lp_link_quiet, mode_i2c_busy, pw_flag.
  pose proof (read_ext x cs_level) as E1. destruct (pw_read x cs_level) as [cs x1]. cbn [fst snd] in E1.
  destruct (Z.eqb_spec cs SET) as [-> |]; cbn [negb]; [| exists [EvAns cs_level cs]; by split_and!].
  pose proof (read_ext x1 i2c_busy_flag) as E2. destruct (pw_read x1 i2c_busy_flag) as [busy x2]. cbn [fst snd] in E2.
  pose proof (extends_trans _ _ _ _ _ E1 E2) as F2.
  destruct (Z.eqb_spec busy 0) as [-> |]; cbn [negb]; [| eexists; by split_and!].
  pose proof (read_ext x2 EXTI_PD0) as E3. destruct (pw_read x2 EXTI_PD0) as [pd0 x3]. cbn [fst snd] in E3.
  pose proof (extends_trans _ _ _ _ _ F2 E3) as F3.
  destruct (Z.eqb_spec pd0 0) as [-> |]; cbn [negb]; [| eexists; by split_and!].
  pose proof (read_ext x3 EXTI_PD1) as E4. destruct (pw_read x3 EXTI_PD1) as [pd1 x4]. cbn [fst snd] in E4.
  pose proof (extends_trans _ _ _ _ _ F3 E4) as F4.
  destruct (Z.eqb_spec (Z.land pd1 0x7F) 0) as [Hp |]; cbn [negb]; [| eexists; by split_and!].
  pose proof (pending_log [BRIDGE_SPI_CS_EXTI_IRQN; BRIDGE_I2C_EV_IRQN; BRIDGE_I2C_ER_IRQN; RTC_WKUP_IRQn] x4) as P.
  destruct (none_pending _ x4) as [q y]. destruct P as (l & El & A & V & Q).
  eexists. split; [exact (extends_trans _ _ _ _ _ F4 El) |]. split_and!.
  - exact A.
  - exact V.
  - intros Hq. exists pd1. split; [| done]. by rewrite Q.
Qed.

(** ** The stages of the tick *)

(** I2C0 is on or its re-init is due; the core is on the PLL or its relock is. *)
Definition alive (w : power_sw) (v : pw_view) : Prop :=
  (i2c_on v = true \/ bridge_i2c_reinit_pending w <> 0) /\
  (on_pll v = true \/ s_clock_relock_pending w <> 0).

Definition serves (w w' : power_sw) (u v : pw_view) : Prop :=
  masked v = masked u /\ core v = core u /\ fed v = fed u /\ (alive w u -> alive w' v).

Lemma calm_relock x w :
  let '(y, w') := tick_relock x w in
  calm_log x y (serves w w') /\ s_lp_pending_mode w' = s_lp_pending_mode w.
Proof.
  unfold tick_relock. destruct (Z.eqb_spec (s_clock_relock_pending w) 0) as [E | E].
  { split; [| done]. apply (calm_weaken _ _ _ _ (calm_refl x)). by intros u v <-. }
  destruct (negb _).
  { split; [| done]. apply (calm_weaken _ _ _ _ (calm_refl x)). intros u v <-. by split_and!. }
  set (w1 := set_relock _ _ w). pose proof (calm_restore x w1) as C.
  destruct (bridge_clock_restore_after_deepsleep x w1) as [[ok y] w2]. destruct C as (C & E1 & E2 & _ & E4).
  destruct ok; (split; [| exact E1]); apply (calm_weaken _ _ _ _ C); intros u v (P & Q); rewrite P.
  - split_and!; [done | done | done |]. intros _. unfold alive. split; [by right |]. left. by apply Q.
  - split_and!; [done | done | done |]. unfold alive. cbn [set_pll i2c_on on_pll]. rewrite E2, E4. intros (A & _). split; [exact A | by right].
Qed.

Lemma calm_reinit x w :
  let '(y, w') := tick_reinit x w in
  calm_log x y (serves w w') /\ s_lp_pending_mode w' = s_lp_pending_mode w.
Proof.
  unfold tick_reinit. destruct (Z.eqb_spec (bridge_i2c_reinit_pending w) 0) as [E | E].
  { split; [| done]. apply (calm_weaken _ _ _ _ (calm_refl x)). by intros u v <-. }
  unfold mode_i2c_busy, pw_flag. set (x1 := pw_do x irq_lock).
  pose proof (read_ext x1 i2c_busy_flag) as E2. destruct (pw_read x1 i2c_busy_flag) as [busy x2]. cbn [fst snd] in E2.
  assert (E12 : extends x x2 ([EvDo irq_lock] ++ [EvAns i2c_busy_flag busy])) by (by apply (extends_trans x x1)).
  destruct (Z.eqb_spec busy 0) as [-> |]; cbn [negb].
  - set (x4 := pw_do (pw_do x2 lp_i2c_disable) irq_unlock).
    assert (E4 : extends x x4 (([EvDo irq_lock] ++ [EvAns i2c_busy_flag 0]) ++ [EvDo lp_i2c_disable; EvDo irq_unlock])).
    { apply (extends_trans _ x2); [done | apply (dos_ext [lp_i2c_disable; irq_unlock])]. }
    assert (C4 : calm_log x x4 (fun u v => v = set_i2c false u)) by (eexists; split; [exact E4 |]; split; [done |]; by intros []).
    pose proof (calm_hw_init x4) as C5. destruct (bridge_transport_i2c_hw_init x4) as [rc y].
    destruct (Z.eqb_spec rc BRIDGE_HW_OK) as [-> | Hrc]; (split; [| done]); apply (calm_trans _ _ _ _ _ _ C4 C5);
      intros u v z -> (-> & Q); (split_and!; [done | done | done |]); intros (_ & B); split.
    + left. by apply Q.
    + exact B.
    + by right.
    + exact B.
  - split; [| done]. exists (([EvDo irq_lock] ++ [EvAns i2c_busy_flag busy]) ++ [EvDo irq_unlock]).
    split; [by apply (extends_trans _ x2) |]. split; [done |]. intros []. by split_and!.
Qed.

(** From the link check to the stop of SysTick. *)
Definition stop_log (trial : bool) (ctrl : Z) : list pw_event :=
  (EvDo <$> (if trial then [] else [fwdgt_counter_reload]) ++ [fwdgt_stat_wait; settle_gap]) ++
  [EvAns systick_ctrl ctrl] ++ (EvDo <$> [systick_stop; systick_pend_clear; dsb]).

(** The gates leave everything but SysTick, which they stop when they pass. *)
Lemma gate_log trial x w :
  let '(y, go) := tick_gate trial x w in
  match go with
  | None => calm_log x y eq
  | Some (mode, ctrl) =>
      mode = s_lp_pending_mode w /\ mode <> 0 /\
      exists l0 pd1, extends x y (l0 ++ quiet_answers pd1 ++ stop_log trial ctrl) /\ Z.land pd1 0x7F = 0 /\
        forallb awake (l0 ++ quiet_answers pd1 ++ stop_log trial ctrl) = true /\
        forall v, foldl see v (l0 ++ quiet_answers pd1 ++ stop_log trial ctrl) =
          set_fed (if trial then fed v else S (fed v)) (set_core (stopped ctrl (core v)) v)
  end.
Proof.
  unfold tick_gate. destruct (Z.eqb_spec (s_lp_pending_mode w) 0) as [E | E]; [apply calm_refl |].
  pose proof (read_ext x cs_level) as E1. destruct (pw_read x cs_level) as [cs x1]. cbn [fst snd] in E1.
  destruct (negb (cs =? SET)); [exists [EvAns cs_level cs]; by split_and! |].
  pose proof (dos_ext [exti_pd0_clear; exti_pd1_clear; dsb] x1) as E2. set (x2 := pw_dos x1 _) in *.
  pose proof (extends_trans _ _ _ _ _ E1 E2) as F2. pose proof (quiet_log x2) as Q.
  destruct (lp_link_quiet x2) as [q x3]. destruct Q as (l & E3 & A3 & V3 & Q3).
  destruct q; cbn [negb].
  - destruct (Q3 eq_refl) as (pd1 & -> & Hp). set (settle := (if trial then [] else [fwdgt_counter_reload]) ++ [fwdgt_stat_wait; settle_gap]).
    set (x4 := power_fwdgt_settle_before_lp_entry trial x3).
    assert (E4 : extends x3 x4 (EvDo <$> settle)).
    { unfold x4, power_fwdgt_settle_before_lp_entry, settle. destruct trial; [apply dos_ext | apply (dos_ext [fwdgt_counter_reload; _; _])]. }
    pose proof (read_ext x4 systick_ctrl) as E5. destruct (pw_read x4 systick_ctrl) as [ctrl x5]. cbn [fst snd] in E5.
    pose proof (dos_ext [systick_stop; systick_pend_clear; dsb] x5) as E6.
    split_and!; [done | done |].
    exists ([EvAns cs_level cs] ++ (EvDo <$> [exti_pd0_clear; exti_pd1_clear; dsb])), pd1. unfold stop_log. fold settle.
    split_and!.
    + apply (extends_trans _ x2); [exact F2 |]. apply (extends_trans _ x3); [exact E3 |].
      apply (extends_trans _ x4); [exact E4 |]. by apply (extends_trans _ x5).
    + done.
    + unfold settle. by destruct trial.
    + intros v. unfold settle. by destruct trial.
  - exists (([EvAns cs_level cs] ++ (EvDo <$> [exti_pd0_clear; exti_pd1_clear; dsb])) ++ l).
    split; [by apply (extends_trans _ x2) |]. split; [by rewrite forallb_app, A3 |]. intros v. by rewrite foldl_app, V3.
Qed.

(** Deep-sleep: entered under the lock on a link twice seen quiet, or backed out. *)
Lemma deepsleep_log ctrl x w :
  let '(y, w') := tick_deepsleep ctrl x w in
  exists l, extends x y l /\
    (forall v, masked (foldl see v l) = masked v /\ core (foldl see v l) = resumed ctrl (core v) /\ fed (foldl see v l) = fed v) /\
    ((w' = w /\ forallb awake l = true /\
      forall v, on_pll (foldl see v l) = on_pll v /\ (i2c_on v = true -> i2c_on (foldl see v l) = true)) \/
     (s_lp_pending_mode w' = 0 /\ (forall v, alive w' (foldl see v l)) /\
      exists a b l1, l = [EvDo irq_lock] ++ quiet_answers a ++ [EvDo lp_i2c_disable] ++ quiet_answers b ++
                         [EvDo pmu_to_deepsleepmode] ++ l1 /\
        Z.land a 0x7F = 0 /\ Z.land b 0x7F = 0 /\ forallb awake l1 = true)).
Proof.
  unfold tick_deepsleep. set (x1 := pw_do x irq_lock). pose proof (quiet_log x1) as Q1.
  set (out := [systick_val0; systick_ctrl_write ctrl; irq_unlock]).
  destruct (lp_link_quiet x1) as [q1 x2]. destruct Q1 as (la & Ea & Aa & Va & Qa).
  assert (F1 : extends x x2 ([EvDo irq_lock] ++ la)) by (by apply (extends_trans _ x1)).
  destruct q1; cbn [negb].
  2:{ eexists. split; [exact (extends_trans _ _ _ _ _ F1 (dos_ext out x2)) |].
      split; [intros v; by rewrite !foldl_app, Va |]. left. split; [done |].
      split; [by rewrite !forallb_app, Aa |]. intros v. by rewrite !foldl_app, Va. }
  destruct (Qa eq_refl) as (a & -> & Ha). set (x3 := pw_do x2 lp_i2c_disable). pose proof (quiet_log x3) as Q2.
  destruct (lp_link_quiet x3) as [q2 x4]. destruct Q2 as (lb & Eb & Ab & Vb & Qb).
  assert (F2 : extends x x4 (([EvDo irq_lock] ++ quiet_answers a) ++ [EvDo lp_i2c_disable] ++ lb)).
  { apply (extends_trans _ x2); [done |]. by apply (extends_trans _ x3). }
  destruct q2; cbn [negb].
  2:{ eexists. split; [exact (extends_trans _ _ _ _ _ F2 (dos_ext (lp_i2c_enable :: out) x4)) |].
      split; [intros v; by rewrite !foldl_app, Vb |]. left. split; [done |].
      split; [by rewrite !forallb_app, Ab |]. intros v. by rewrite !foldl_app, Vb. }
  destruct (Qb eq_refl) as (b & -> & Hb). set (x5 := pw_do x4 pmu_to_deepsleepmode).
  pose proof (calm_restore x5 w) as C6. destruct (bridge_clock_restore_after_deepsleep x5 w) as [[ok x6] w6].
  destruct C6 as ((l6 & E6 & A6 & V6) & P6 & _). set (w7 := if negb ok then set_relock 1 0 w6 else w6).
  pose proof (calm_hw_init x6) as C7. destruct (bridge_transport_i2c_hw_init x6) as [rc x7].
  destruct C7 as (l7 & E7 & A7 & V7). set (w8 := if negb (rc =? BRIDGE_HW_OK) then set_reinit 1 w7 else w7).
  pose proof (read_ext x7 rtc_wakeup_disable) as E8. destruct (pw_read x7 rtc_wakeup_disable) as [ans x8]. cbn [fst snd] in E8.
  set (fin := [rtc_flag_clear_wt; exti_flag_clear_19; systick_val0; systick_ctrl_write ctrl; irq_unlock]).
  set (l1 := l6 ++ l7 ++ [EvAns rtc_wakeup_disable ans] ++ (EvDo <$> fin)).
  assert (F : extends x (pw_dos x8 fin) ((([EvDo irq_lock] ++ quiet_answers a) ++ [EvDo lp_i2c_disable] ++ quiet_answers b) ++
    [EvDo pmu_to_deepsleepmode] ++ l1)).
  { apply (extends_trans _ x4); [exact F2 |]. apply (extends_trans _ x5); [done |]. apply (extends_trans _ x6); [exact E6 |].
    apply (extends_trans _ x7); [exact E7 |]. apply (extends_trans _ x8); [exact E8 | apply dos_ext]. }
  assert (V : forall v, exists v6 v7, foldl see v ((([EvDo irq_lock] ++ quiet_answers a) ++ [EvDo lp_i2c_disable] ++ quiet_answers b) ++
    [EvDo pmu_to_deepsleepmode] ++ l1) = PwView (pred (masked v7)) (i2c_on v7) (resumed ctrl (core v)) (on_pll v7) (fed v) /\
    i2c_only v6 v7 /\ (rc = BRIDGE_HW_OK -> i2c_on v7 = true) /\ (ok = true -> on_pll v6 = true) /\ masked v6 = S (masked v)).
  { intros v. unfold l1. rewrite !foldl_app. set (v5 := foldl see (foldl see _ (quiet_answers b)) [EvDo pmu_to_deepsleepmode]).
    exists (foldl see v5 l6), (foldl see (foldl see v5 l6) l7). destruct (V6 v5) as (S6 & O6). destruct (V7 (foldl see v5 l6)) as (S7 & O7).
    split_and!; [| done | done | done |]; [| by rewrite S6].
    assert (K : core (foldl see (foldl see v5 l6) l7) = core v /\ fed (foldl see (foldl see v5 l6) l7) = fed v) by (rewrite S7, S6; done).
    destruct K as [<- <-]. by destruct (foldl see (foldl see v5 l6) l7). }
  eexists. split; [exact F |]. split.
  - intros v. destruct (V v) as (v6 & v7 & -> & S7 & _ & _ & M). cbn [masked core fed]. rewrite S7. cbn [set_i2c masked]. by rewrite M.
  - right. split; [done |]. split.
    + intros v. destruct (V v) as (v6 & v7 & -> & S7 & I7 & O6 & _). unfold alive, w8, w7. split; cbn [i2c_on on_pll].
      * destruct (Z.eqb_spec rc BRIDGE_HW_OK) as [Hrc |]; cbn [negb]; [left; by apply I7 | by right].
      * rewrite S7. cbn [set_i2c on_pll]. destruct ok; [left; by apply O6 |]. right. by destruct (negb (rc =? BRIDGE_HW_OK)).
    + exists a, b, l1. split; [by rewrite <- !app_assoc |]. split_and!; [done | done |].
      unfold l1. by rewrite !forallb_app, A6, A7.
Qed.

(** The standby entry that came back. *)
Lemma standby_log ctrl x w :
  let '(y, w') := tick_standby ctrl x w in
  w' = set_pending_mode 0 w /\
  exists l1, extends x y ([EvDo pmu_to_standbymode] ++ l1) /\ forallb awake l1 = true /\
    forall v, foldl see v ([EvDo pmu_to_standbymode] ++ l1) =
      set_core (CoreView (Z.land ctrl SYSTICK_BITS) (reads_true (core v)) [] false) v.
Proof. split; [done |]. eexists. split; [apply (dos_ext (pmu_to_standbymode :: _)) |]. by split. Qed.

(** ** The request *)

Lemma wake_ticks_exact ms : 0 < ms <= POWER_WAKE_TIMER_MAX_MS -> wake_ticks ms = 2 * ms.
Proof.
  change POWER_WAKE_TIMER_MAX_MS with 32767. intros Hm. unfold wake_ticks, POWER_WAKE_LSB_HZ, u32.
  rewrite (Z.mod_small (ms * 2000)), Z.mod_small by lia.
  assert (E : (ms * 2000 + 999) / 1000 = 2 * ms) by (symmetry; apply (Z.div_unique _ _ _ 999); lia).
  rewrite E. rewrite (proj2 (Z.eqb_neq _ _)) by lia. by rewrite (proj2 (Z.ltb_ge _ _)) by lia.
Qed.

(** A log that the views do not see. *)
Definition plain_log x y : Prop := calm_log x y eq.

Lemma plain_dos x ops :
  forallb awake (EvDo <$> ops) = true -> (forall v, foldl see v (EvDo <$> ops) = v) -> plain_log x (pw_dos x ops).
Proof. intros A V. apply calm_dos; [done |]. intros v. by rewrite V. Qed.

Lemma plain_flag x r : r <> rcu_scss_is_pllp -> r <> systick_ctrl -> plain_log x (pw_flag x r).2.
Proof.
  intros Hr Hr'. pose proof (calm_flag x r Hr') as C. destruct (pw_flag x r) as [b y]. apply (calm_weaken _ _ _ _ C).
  intros u v (_ & _ & E). symmetry. by apply E.
Qed.

Lemma plain_try x r : r <> rcu_scss_is_pllp -> r <> systick_ctrl -> plain_log x (pw_try x r).2.
Proof.
  intros Hr Hr'. unfold pw_try. pose proof (read_ext x r) as E. destruct (pw_read x r) as [a y]. cbn [fst snd] in *.
  exists [EvAns r a]. split_and!; [done | done |]. intros v. by destruct r.
Qed.

Lemma plain_irc n : forall x, plain_log x (irc_wait n x).2.
Proof.
  induction n as [| n IH]; intros x; [apply calm_refl |]. destruct n as [| n]; [apply calm_refl |].
  change (plain_log x (let '(stable, h) := pw_flag x irc32k_stable in if stable : bool then (true, h) else irc_wait (S n) h).2).
  pose proof (plain_flag x irc32k_stable ltac:(done) ltac:(done)) as C. destruct (pw_flag x irc32k_stable) as [b y]. cbn [snd] in C.
  destruct b; [exact C | exact (eq_then _ _ _ _ C (IH y))].
Qed.

Lemma init_once_log x w :
  let '(ready, y, w') := rtc_wakeup_init_once x w in
  plain_log x y /\ s_lp_pending_mode w' = s_lp_pending_mode w /\ s_clock_relock_pending w' = s_clock_relock_pending w /\
  bridge_i2c_reinit_pending w' = bridge_i2c_reinit_pending w.
Proof.
  unfold rtc_wakeup_init_once. destruct (rtc_wakeup_ready w); [by split; [apply calm_refl |] |].
  pose proof (plain_irc (Z.to_nat 200000) (pw_do x rcu_osci_on_irc32k)) as C2.
  assert (C1 : plain_log x (pw_do x rcu_osci_on_irc32k)) by (by apply (plain_dos x [rcu_osci_on_irc32k])).
  destruct (irc_wait _ _) as [stable x2]. cbn [snd] in C2. pose proof (eq_then _ _ _ _ C1 C2) as C.
  destruct stable; cbn [negb]; [| by split]. split; [| done].
  apply (eq_then _ _ _ _ C), plain_dos; [done | by intros []].
Qed.

(** Arming the timer: armed exactly on OK. *)
Lemma arm_log x w ms :
  0 < ms ->
  let '(rc, y, w') := rtc_wakeup_arm_ms x w ms in
  plain_log x y /\ s_lp_pending_mode w' = s_lp_pending_mode w /\ s_clock_relock_pending w' = s_clock_relock_pending w /\
  bridge_i2c_reinit_pending w' = bridge_i2c_reinit_pending w /\
  (rc = BRIDGE_HW_OK \/ rc = BRIDGE_HW_ERR_IO \/ rc = BRIDGE_HW_ERR_RANGE /\ POWER_WAKE_TIMER_MAX_MS < ms) /\
  (rc = BRIDGE_HW_OK -> ms <= POWER_WAKE_TIMER_MAX_MS /\
     exists l0, extends x y (l0 ++ [EvAns (rtc_wakeup_timer_set (2 * ms - 1)) SUCCESS] ++ (EvDo <$> armed_ops))).
Proof.
  intros Hms. unfold rtc_wakeup_arm_ms. pose proof (init_once_log x w) as I.
  destruct (rtc_wakeup_init_once x w) as [[ready x1] w1]. destruct I as (C1 & I1 & I2 & I3).
  destruct ready; cbn [negb]; [| split_and!; auto; done]. destruct (Z.ltb_spec POWER_WAKE_TIMER_MAX_MS ms); [split_and!; auto; done |].
  pose proof (plain_try x1 rtc_wakeup_disable ltac:(done) ltac:(done)) as C2. destruct (pw_try x1 _) as [ok2 x2]. cbn [snd] in C2.
  pose proof (eq_then _ _ _ _ C1 C2) as D2. destruct ok2; cbn [negb]; [| split_and!; auto; done].
  pose proof (plain_try x2 rtc_wakeup_clock_set ltac:(done) ltac:(done)) as C3. destruct (pw_try x2 _) as [ok3 x3]. cbn [snd] in C3.
  pose proof (eq_then _ _ _ _ D2 C3) as D3. destruct ok3; cbn [negb]; [| split_and!; auto; done].
  rewrite wake_ticks_exact by done. change POWER_WAKE_TIMER_MAX_MS with 32767 in *.
  unfold u16. rewrite (Z.mod_small (2 * ms - 1)) by lia. set (rt := rtc_wakeup_timer_set (2 * ms - 1)).
  pose proof (plain_try x3 rt ltac:(done) ltac:(done)) as C4. unfold pw_try in *. pose proof (read_ext x3 rt) as E4.
  destruct (pw_read x3 rt) as [a x4]. cbn [fst snd] in C4, E4. pose proof (eq_then _ _ _ _ D3 C4) as D4.
  destruct (Z.eqb_spec a SUCCESS) as [-> |]; cbn [negb]; [| split_and!; auto; done].
  split_and!; try done.
  - apply (eq_then _ _ _ _ D4), plain_dos; [done | by intros []].
  - by left.
  - intros _. split; [done |]. destruct D3 as (l0 & E0 & _). exists l0.
    apply (extends_trans _ x3); [done |]. apply (extends_trans _ x4); [done | apply (dos_ext armed_ops)].
Qed.

Lemma mode_set_log x w mode wake ms :
  0 <= mode -> 0 <= ms ->
  let '(y, w', rc) := bridge_hw_power_mode_set_ x w mode wake ms in
  plain_log x y /\ s_clock_relock_pending w' = s_clock_relock_pending w /\
  bridge_i2c_reinit_pending w' = bridge_i2c_reinit_pending w /\
  match mode_refusal mode wake ms with
  | Some refusal => rc = refusal /\ w' = w
  | None =>
      if mode <? 2 then rc = BRIDGE_HW_OK /\ w' = w /\ y = x
      else
        exists l counting, extends x y l /\ EvAns (fmc_obctl_fwdgspd mode) counting ∈ l /\
          let m := wake_ms ms in
          let too_long := negb (counting =? 0) && (POWER_LP_FWDGT_MAX_MS <? m) in
          (rc = BRIDGE_HW_OK /\ s_lp_pending_mode w' = mode /\ too_long = false /\ m <= POWER_WAKE_TIMER_MAX_MS /\
           exists l0, l = l0 ++ [EvAns (rtc_wakeup_timer_set (2 * m - 1)) SUCCESS] ++ (EvDo <$> armed_ops)) \/
          (rc <> BRIDGE_HW_OK /\ s_lp_pending_mode w' = s_lp_pending_mode w /\
           (rc = BRIDGE_HW_ERR_IO \/ rc = BRIDGE_HW_ERR_RANGE /\ (too_long = true \/ POWER_WAKE_TIMER_MAX_MS < m)))
  end.
Proof.
  intros Hmode Hms. unfold bridge_hw_power_mode_set_, mode_refusal. fold POWER_WAKE_MASK_SUPPORTED.
  destruct (power_wake_bitmap_supported wake); cbn [negb]; [| split_and!; [apply calm_refl | done..]].
  destruct (decide (mode = 0 \/ mode = 1)) as [Em | Em].
  { assert (E01 : (mode =? 0) || (mode =? 1) = true) by (destruct Em as [-> | ->]; done). rewrite E01.
    rewrite (proj2 (Z.ltb_ge 3 mode)), (proj2 (Z.ltb_lt mode 2)) by lia.
    destruct (ms =? 0); cbn [negb]; split_and!; (apply calm_refl || done). }
  assert (E01 : (mode =? 0) || (mode =? 1) = false).
  { apply orb_false_iff. split; apply Z.eqb_neq; intros ->; apply Em; auto. }
  rewrite E01. destruct (decide (mode = 2 \/ mode = 3)) as [E2 | E2].
  2:{ assert (E23 : (mode =? 2) || (mode =? 3) = false).
      { apply orb_false_iff. split; apply Z.eqb_neq; intros ->; apply E2; auto. }
      rewrite E23, (proj2 (Z.ltb_lt 3 mode)) by lia. split_and!; (apply calm_refl || done). }
  assert (E23 : (mode =? 2) || (mode =? 3) = true) by (destruct E2 as [-> | ->]; done). rewrite E23.
  rewrite (proj2 (Z.ltb_ge 3 mode)), (proj2 (Z.ltb_ge mode 2)) by lia.
  set (x1 := pw_dos x _). assert (C1 : plain_log x x1) by (apply plain_dos; [done | by intros []]).
  set (untimed := Z.land wake POWER_WAKE_MASK_SUPPORTED =? 0). destruct ((ms =? 0) && untimed) eqn:Ei; rewrite negb_involutive, Ei; [by split_and! |].
  assert (Et : negb (ms =? 0) || negb untimed = true) by (by rewrite <- negb_andb, Ei). rewrite Et.
  assert (Em' : (if negb (ms =? 0) then ms else POWER_WAKE_TIMER_MAX_MS) = wake_ms ms) by (unfold wake_ms; by destruct (ms =? 0)).
  rewrite Em'. pose proof (plain_flag x1 (fmc_obctl_fwdgspd mode) ltac:(done) ltac:(done)) as C2.
  unfold pw_flag in *. pose proof (read_ext x1 (fmc_obctl_fwdgspd mode)) as E3.
  destruct (pw_read x1 (fmc_obctl_fwdgspd mode)) as [counting x2]. cbn [fst snd] in C2, E3.
  pose proof (eq_then _ _ _ _ C1 C2) as D2. destruct C1 as (l1 & E1 & _). pose proof (extends_trans _ _ _ _ _ E1 E3) as F2.
  assert (Hin : forall l3, EvAns (fmc_obctl_fwdgspd mode) counting ∈ (l1 ++ [EvAns (fmc_obctl_fwdgspd mode) counting]) ++ l3).
  { intros l3. apply elem_of_app. left. apply elem_of_app. right. left. }
  destruct (negb (counting =? 0) && (POWER_LP_FWDGT_MAX_MS <? wake_ms ms)) eqn:El.
  { split_and!; [exact D2 | done | done |]. eexists _, counting. split; [exact F2 |]. split; [by rewrite <- (app_nil_r (l1 ++ _)) |].
    right. split_and!; [done | done |]. right. split; [done | by left]. }
  assert (Hm : 0 < wake_ms ms) by (unfold wake_ms; destruct (Z.eqb_spec ms 0); [done | lia]).
  pose proof (arm_log x2 w (wake_ms ms) Hm) as A. destruct (rtc_wakeup_arm_ms x2 w (wake_ms ms)) as [[rc x3] w3].
  destruct A as (C3 & P1 & P2 & P3 & Hrc & Hok). pose proof (eq_then _ _ _ _ D2 C3) as D3.
  destruct (Z.eqb_spec rc BRIDGE_HW_OK) as [-> | Hne]; cbn [negb]; (split_and!; [exact D3 | exact P2 | exact P3 |]).
  - destruct (Hok eq_refl) as (Hle & l0 & E0). eexists _, counting. split; [exact (extends_trans _ _ _ _ _ F2 E0) |]. split; [apply Hin |].
    left. split_and!; [done | done | done | done |]. eexists. by rewrite app_assoc.
  - destruct C3 as (l3 & E3' & _). eexists _, counting. split; [exact (extends_trans _ _ _ _ _ F2 E3') |]. split; [apply Hin |].
    right. split_and!; [done | done |]. destruct Hrc as [| [| [-> Hlt]]]; [done | by left | right; split; [done | by right]].
Qed.

(** ** The tick, with requests that interrupt it *)

(** Requests of the transport interrupts, one after the other. *)
Definition requests (rs : list (Z * Z * Z)) (z : traced H * power_sw) : traced H * power_sw :=
  foldl (fun z r => (bridge_hw_power_mode_set_ z.1 z.2 r.1.1 r.1.2 r.2).1) z rs.

(** The tick interrupted by [rs] after its last look at the pending mode. *)
Definition preempted_tick (trial : bool) (rs : list (Z * Z * Z)) x w : traced H * power_sw :=
  let '(x, w) := tick_relock x w in
  let '(x, w) := tick_reinit x w in
  let '(x, go) := tick_gate trial x w in
  match go with
  | Some (mode, ctrl) => let '(x, w) := requests rs (x, w) in tick_enter mode ctrl x w
  | None => (x, w)
  end.

Lemma tick_uninterrupted trial x w : preempted_tick trial [] x w = bridge_power_tick trial x w.
Proof. done. Qed.

Definition request_ok (r : Z * Z * Z) : Prop := 0 <= r.1.1 /\ 0 <= r.2.

Definition mode_ok (m : Z) : Prop := m = 0 \/ m = 2 \/ m = 3.

Lemma mode_refusal_range mode wake ms : 0 <= mode -> mode_refusal mode wake ms = None -> (mode <? 2) = false -> mode_ok mode.
Proof.
  unfold mode_refusal, mode_ok. intros Hm. destruct (negb _); [done |]. destruct (Z.ltb_spec 3 mode); [done |].
  destruct (Z.ltb_spec mode 2); [done |]. intros _ _. lia.
Qed.

(** The latch as it was, or as one of the interrupting requests set it. *)
Definition latch_kept (rs : list (Z * Z * Z)) (w w' : power_sw) : Prop :=
  s_lp_pending_mode w' = s_lp_pending_mode w \/
  exists r, r ∈ rs /\ (r.1.1 = 2 \/ r.1.1 = 3) /\ s_lp_pending_mode w' = r.1.1.

Lemma requests_log rs : forall x w, Forall request_ok rs -> mode_ok (s_lp_pending_mode w) ->
  let '(y, w') := requests rs (x, w) in
  plain_log x y /\ s_clock_relock_pending w' = s_clock_relock_pending w /\
  bridge_i2c_reinit_pending w' = bridge_i2c_reinit_pending w /\ mode_ok (s_lp_pending_mode w') /\ latch_kept rs w w'.
Proof.
  induction rs as [| [[mode wake] ms] rs IH]; intros x w Hrs Hm;
    [split; [apply calm_refl |]; split; [done |]; split; [done |]; split; [done | by left] |].
  apply list.Forall_cons in Hrs as [[H1 H2] Hrs]. cbn [fst snd] in H1, H2. cbn [requests foldl fst snd].
  pose proof (mode_set_log x w mode wake ms H1 H2) as L. destruct (bridge_hw_power_mode_set_ x w mode wake ms) as [[x1 w1] rc].
  destruct L as (C & P1 & P2 & L). cbn [fst].
  assert (Hm1 : s_lp_pending_mode w1 = s_lp_pending_mode w \/ (mode = 2 \/ mode = 3) /\ s_lp_pending_mode w1 = mode).
  { destruct (mode_refusal mode wake ms) eqn:Er; [left; by destruct L as (_ & ->) |].
    destruct (Z.ltb_spec mode 2) as [E2 | E2]; [left; by destruct L as (_ & -> & _) |].
    destruct L as (l & counting & _ & _ & [(_ & -> & _) | (_ & -> & _)]); [right | by left].
    split; [| done]. destruct (mode_refusal_range _ wake ms H1 Er ltac:(by apply Z.ltb_ge)) as [| [|]]; [lia | auto | auto]. }
  assert (Hok : mode_ok (s_lp_pending_mode w1)) by (destruct Hm1 as [-> | [[-> | ->] ->]]; unfold mode_ok; auto).
  specialize (IH x1 w1 Hrs Hok). change (foldl _ (x1, w1) rs) with (requests rs (x1, w1)). destruct (requests rs (x1, w1)) as [y w'].
  destruct IH as (C2 & Q1 & Q2 & Q3 & Q4). split; [exact (eq_then _ _ _ _ C C2) |]. split; [congruence |]. split; [congruence |].
  split; [done |]. unfold latch_kept in *. destruct Q4 as [-> | (r & Hr & Hr2 & ->)]; [| right; exists r; split; [by right | done]].
  destruct Hm1 as [-> | [Hr2 ->]]; [by left | right]. exists (mode, wake, ms). split; [left | done].
Qed.

(** [l] is what the requests [rs] log, one after the other, from some state. *)
Definition interrupt_log (rs : list (Z * Z * Z)) (l : list pw_event) : Prop :=
  exists (x : traced H) w, extends x (requests rs (x, w)).1 l.

(** From the link check that passed to the entry: the watchdog's settle wait, the
    stop of SysTick, and the requests that interrupt the two. *)
Definition passed_log (trial : bool) (rs : list (Z * Z * Z)) (g : list pw_event) : Prop :=
  exists a ctrl lr, g = quiet_answers a ++ stop_log trial ctrl ++ lr /\ Z.land a 0x7F = 0 /\ interrupt_log rs lr.

(** The shape of a tick's log. *)
Definition tick_shape (trial : bool) (rs : list (Z * Z * Z)) (w w' : power_sw) (l : list pw_event) : Prop :=
  (forallb awake l = true /\ latch_kept rs w w') \/
  (s_lp_pending_mode w = 2 /\ s_lp_pending_mode w' = 0 /\
   exists l0 g a b l1, l = l0 ++ g ++ [EvDo irq_lock] ++ quiet_answers a ++ [EvDo lp_i2c_disable] ++ quiet_answers b ++
                           [EvDo pmu_to_deepsleepmode] ++ l1 /\
     passed_log trial rs g /\ Z.land a 0x7F = 0 /\ Z.land b 0x7F = 0 /\ forallb awake (l0 ++ g ++ l1) = true) \/
  (s_lp_pending_mode w = 3 /\ s_lp_pending_mode w' = 0 /\
   exists l0 g l1, l = l0 ++ g ++ [EvDo pmu_to_standbymode] ++ l1 /\
     passed_log trial rs g /\ forallb awake (l0 ++ g ++ l1) = true).

(** Everything up to the lock. *)
Lemma tick_prefix trial rs x w :
  mode_ok (s_lp_pending_mode w) -> Forall request_ok rs ->
  let '(x2, w2) := let '(x1, w1) := tick_relock x w in tick_reinit x1 w1 in
  let '(x3, go) := tick_gate trial x2 w2 in
  s_lp_pending_mode w2 = s_lp_pending_mode w /\
  match go with
  | None => calm_log x x3 (serves w w2)
  | Some (mode, ctrl) =>
      mode = s_lp_pending_mode w /\ mode <> 0 /\
      let '(x4, w4) := requests rs (x3, w2) in
      mode_ok (s_lp_pending_mode w4) /\ latch_kept rs w w4 /\
      exists l0 g, extends x x4 (l0 ++ g) /\ passed_log trial rs g /\ forallb awake (l0 ++ g) = true /\
        forall v, masked (foldl see v (l0 ++ g)) = masked v /\ core (foldl see v (l0 ++ g)) = stopped ctrl (core v) /\
          fed (foldl see v (l0 ++ g)) = (if trial then fed v else S (fed v)) /\
          (alive w v -> alive w4 (foldl see v (l0 ++ g)))
  end.
Proof.
  intros Hm Hrs. pose proof (calm_relock x w) as C1. destruct (tick_relock x w) as [x1 w1].
  destruct C1 as ((l1 & E1 & A1 & V1) & P1). pose proof (calm_reinit x1 w1) as C2. destruct (tick_reinit x1 w1) as [x2 w2].
  destruct C2 as ((l2 & E2 & A2 & V2) & P2). pose proof (extends_trans _ _ _ _ _ E1 E2) as F2.
  assert (V12 : forall v, serves w w2 v (foldl see v (l1 ++ l2))).
  { intros v. rewrite foldl_app. destruct (V1 v) as (B1 & B2 & B3 & B4), (V2 (foldl see v l1)) as (D1 & D2 & D3 & D4).
    split_and!; [congruence | congruence | congruence | auto]. }
  assert (A12 : forallb awake (l1 ++ l2) = true) by (by rewrite forallb_app, A1, A2).
  pose proof (gate_log trial x2 w2) as G. destruct (tick_gate trial x2 w2) as [x3 [[mode ctrl] |]]; (split; [congruence |]).
  2:{ destruct G as (l3 & E3 & A3 & V3). exists ((l1 ++ l2) ++ l3). split; [by apply (extends_trans _ x2) |].
      split; [by rewrite forallb_app, A12, A3 |]. intros v. rewrite foldl_app, <- V3. apply V12. }
  destruct G as (-> & Hne & l3 & pd & E3 & Hpd & A3 & V3). split; [congruence |]. split; [done |].
  assert (Hm2 : mode_ok (s_lp_pending_mode w2)) by (by rewrite P2, P1).
  pose proof (requests_log rs x3 w2 Hrs Hm2) as R. destruct (requests rs (x3, w2)) as [x4 w4] eqn:Er.
  destruct R as ((l5 & E5 & A5 & V5) & Q1 & Q2 & Q3 & Q4). split; [done |].
  split; [unfold latch_kept in *; by rewrite <- P1, <- P2 |].
  exists ((l1 ++ l2) ++ l3), (quiet_answers pd ++ stop_log trial ctrl ++ l5).
  assert (El : ((l1 ++ l2) ++ l3) ++ quiet_answers pd ++ stop_log trial ctrl ++ l5
               = ((l1 ++ l2) ++ l3 ++ quiet_answers pd ++ stop_log trial ctrl) ++ l5) by (by rewrite <- !app_assoc).
  split; [rewrite El; apply (extends_trans _ x3); [by apply (extends_trans _ x2) | done] |].
  split; [exists pd, ctrl, l5; split; [done |]; split; [done |]; exists x3, w2; by rewrite Er |].
  split; [by rewrite El, forallb_app, A5, forallb_app, A12, A3 |]. intros v. rewrite El, foldl_app, <- V5, foldl_app, V3.
  destruct (V12 v) as (B1 & B2 & B3 & B4). split; [done |]. split; [cbn [set_fed set_core core]; by rewrite B2 |].
  split; [cbn [set_fed fed]; by rewrite B3 |]. intros Ha. apply B4 in Ha. unfold alive in *. by rewrite Q1, Q2.
Qed.

(** SysTick is started again on the word read before it was stopped. *)
Lemma resumed_running c k : running k -> running (resumed c (stopped c k)).
Proof.
  intros (Hd & Hs & Ht). unfold running, resumed, stopped. cbn [see_core deaf sleepdeep systick reads_true].
  split; [done |]. split; [done |]. intros [Hr ->%Z.eqb_eq]%andb_true_iff. auto.
Qed.

Lemma tick_log trial rs x w :
  mode_ok (s_lp_pending_mode w) -> Forall request_ok rs ->
  let '(y, w') := preempted_tick trial rs x w in
  mode_ok (s_lp_pending_mode w') /\
  exists l, extends x y l /\ tick_shape trial rs w w' l /\
    forall v, masked (foldl see v l) = masked v /\ (running (core v) -> running (core (foldl see v l))) /\
              (alive w v -> alive w' (foldl see v l)).
Proof.
  intros Hm Hrs. pose proof (tick_prefix trial rs x w Hm Hrs) as T. unfold preempted_tick.
  destruct (tick_relock x w) as [x1 w1]. destruct (tick_reinit x1 w1) as [x2 w2].
  destruct (tick_gate trial x2 w2) as [x3 [[mode ctrl] |]]; destruct T as (P2 & T).
  2:{ destruct T as (l & E & A & V). split; [by rewrite P2 |]. exists l. split; [done |]. split; [left; split; [done | by left] |].
      intros v. destruct (V v) as (B1 & B2 & _ & B3). split; [done |]. by rewrite B2. }
  destruct T as (Emode & Hne & T). destruct (requests rs (x3, w2)) as [x4 w4].
  destruct T as (Hm4 & Hk & l0 & g & E & Hg & A & V). unfold tick_enter.
  destruct (Z.eqb_spec mode 2) as [Em | Em].
  - pose proof (deepsleep_log ctrl x4 w4) as D. destruct (tick_deepsleep ctrl x4 w4) as [y w'].
    destruct D as (l5 & E5 & V5 & D).
    assert (Hcom : forall v, masked (foldl see v ((l0 ++ g) ++ l5)) = masked v /\
                             (running (core v) -> running (core (foldl see v ((l0 ++ g) ++ l5))))).
    { intros v. rewrite foldl_app. destruct (V5 (foldl see v (l0 ++ g))) as (-> & -> & _), (V v) as (-> & -> & _).
      split; [done | apply resumed_running]. }
    destruct D as [(-> & A5 & S5) | (Hw & S5 & b & c & l6 & -> & Hb & Hc & A6)].
    + split; [done |]. exists ((l0 ++ g) ++ l5). split; [by apply (extends_trans _ x4) |].
      split; [left; split; [by rewrite forallb_app, A, A5 | done] |].
      intros v. destruct (Hcom v) as (B1 & B2). split; [done |]. split; [done |]. intros Hal. apply V in Hal as (I & Q).
      rewrite foldl_app. destruct (S5 (foldl see v (l0 ++ g))) as (T1 & T2). split; [destruct I; auto | rewrite T1; exact Q].
    + split; [rewrite Hw; by left |]. eexists. split; [exact (extends_trans _ _ _ _ _ E E5) |]. split.
      * right; left. split; [congruence |]. split; [done |]. exists l0, g, b, c, l6. split; [by rewrite <- app_assoc |].
        split; [done |]. split; [done |]. split; [done |]. by rewrite app_assoc, forallb_app, A, A6.
      * intros v. destruct (Hcom v) as (B1 & B2). split; [done |]. split; [done |]. intros _. rewrite foldl_app. apply S5.
  - destruct (Z.eqb_spec mode 3) as [Em3 | Em3]; [| exfalso; destruct Hm as [| []]; congruence].
    pose proof (standby_log ctrl x4 w4) as D. destruct (tick_standby ctrl x4 w4) as [y w'].
    destruct D as (-> & l5 & E5 & A5 & V5). split; [by left |]. eexists. split; [exact (extends_trans _ _ _ _ _ E E5) |]. split.
    + right; right. split; [congruence |]. split; [done |]. exists l0, g, l5. split; [by rewrite <- app_assoc |].
      split; [done |]. by rewrite app_assoc, forallb_app, A, A5.
    + intros v. rewrite foldl_app, V5. destruct (V v) as (B1 & B2 & _ & B3). split; [done |]. split; [| exact B3].
      intros Hr. cbn [set_core core]. rewrite B2. destruct (resumed_running ctrl _ Hr) as (_ & _ & Ht). by split.
Qed.

(** A log that feeds the watchdog once at most, and then right after the whole link
    check passed. *)
Definition fed_on_entry (l : list pw_event) : Prop :=
  feeds l = 0%nat \/
  exists l0 a l1, l = l0 ++ quiet_answers a ++ [EvDo fwdgt_counter_reload] ++ l1 /\ Z.land a 0x7F = 0 /\ feeds (l0 ++ l1) = 0%nat.

Lemma fed_feeds l : forall v, fed (foldl see v l) = (fed v + feeds l)%nat.
Proof.
  induction l as [| e l IH]; intros v; [cbn; lia |]. cbn [foldl]. rewrite IH.
  destruct e as [[] | [] | []]; try done. cbn. lia.
Qed.

(** What leaves the count alone feeds nothing. *)
Lemma fed_same l : (forall v, fed (foldl see v l) = fed v) -> feeds l = 0%nat.
Proof. intros E. specialize (E (PwView 0 true (CoreView 7 true [] false) true 0)). rewrite fed_feeds in E. exact E. Qed.

(** The tick feeds on its way into a mode alone, and not in a trial. *)
Lemma tick_fed trial x w :
  let '(y, _) := bridge_power_tick trial x w in
  exists l, extends x y l /\ fed_on_entry l /\ (trial = true -> feeds l = 0%nat).
Proof.
  unfold bridge_power_tick. pose proof (calm_relock x w) as C1. destruct (tick_relock x w) as [x1 w1].
  destruct C1 as ((l1 & E1 & _ & V1) & _). pose proof (calm_reinit x1 w1) as C2. destruct (tick_reinit x1 w1) as [x2 w2].
  destruct C2 as ((l2 & E2 & _ & V2) & _). pose proof (extends_trans _ _ _ _ _ E1 E2) as F2.
  assert (N1 : feeds l1 = 0%nat) by (apply fed_same; intros v; apply V1).
  assert (N2 : feeds l2 = 0%nat) by (apply fed_same; intros v; apply V2).
  pose proof (gate_log trial x2 w2) as G. destruct (tick_gate trial x2 w2) as [x3 [[mode ctrl] |]].
  2:{ destruct G as (l3 & E3 & _ & V3). exists ((l1 ++ l2) ++ l3). split; [by apply (extends_trans _ x2) |].
      assert (N : feeds ((l1 ++ l2) ++ l3) = 0%nat) by (rewrite !feeds_app, N1, N2; apply fed_same; intros v; by rewrite <- V3).
      split; [by left | done]. }
  destruct G as (_ & _ & l3 & pd & E3 & Hpd & _ & V3). pose proof (extends_trans _ _ _ _ _ F2 E3) as F3.
  assert (N3 : feeds l3 = 0%nat).
  { specialize (V3 (PwView 0 true (CoreView 7 true [] false) true 0)). apply (f_equal fed) in V3. rewrite fed_feeds, !feeds_app in V3.
    destruct trial; cbn in V3; lia. }
  assert (T : exists l4, extends x3 (tick_enter mode ctrl x3 w2).1 l4 /\ feeds l4 = 0%nat).
  { unfold tick_enter. destruct (mode =? 2).
    - pose proof (deepsleep_log ctrl x3 w2) as D. destruct (tick_deepsleep ctrl x3 w2) as [y w']. destruct D as (l4 & E4 & V4 & _).
      exists l4. split; [exact E4 |]. apply fed_same. intros v. apply V4.
    - destruct (mode =? 3); [| exists []; split; [apply extends_refl | done]].
      pose proof (standby_log ctrl x3 w2) as D. destruct (tick_standby ctrl x3 w2) as [y w']. destruct D as (_ & l4 & E4 & _ & V4).
      eexists. split; [exact E4 |]. apply fed_same. intros v. by rewrite V4. }
  destruct T as (l4 & E4 & N4). destruct (tick_enter mode ctrl x3 w2) as [y w']. cbn [fst] in E4.
  eexists. split; [exact (extends_trans _ _ _ _ _ F3 E4) |]. destruct trial; (split; [| intros ?]).
  - left. by rewrite !feeds_app, N1, N2, N3, N4.
  - by rewrite !feeds_app, N1, N2, N3, N4.
  - right. exists ((l1 ++ l2) ++ l3), pd,
      ((EvDo <$> [fwdgt_stat_wait; settle_gap]) ++ [EvAns systick_ctrl ctrl] ++ (EvDo <$> [systick_stop; systick_pend_clear; dsb]) ++ l4).
    split; [unfold stop_log; by rewrite <- !app_assoc |]. split; [done |]. by rewrite !feeds_app, N1, N2, N3, N4.
  - done.
Qed.

(** ** Reachable states *)

Definition power_sw0 (hz : Z) : power_sw := PowerSw false 0 0 0 0 hz (hz =? POWER_CLK_HZ).

(** Boot, then any order of requests, wake-up interrupts and ticks, each tick
    interrupted by any requests. *)
Inductive power_reach (h0 : H) (hz : Z) : traced H -> power_sw -> Prop :=
  | reach_boot : power_reach h0 hz (h0, []) (power_sw0 hz)
  | reach_request x w r y w' rc : power_reach h0 hz x w -> request_ok r ->
      bridge_hw_power_mode_set_ x w r.1.1 r.1.2 r.2 = (y, w', rc) -> power_reach h0 hz y w'
  | reach_wkup x w : power_reach h0 hz x w -> power_reach h0 hz (RTC_WKUP_IRQHandler x) w
  | reach_tick x w trial rs y w' : power_reach h0 hz x w -> Forall request_ok rs ->
      preempted_tick trial rs x w = (y, w') -> power_reach h0 hz y w'.

(** The bridge at boot: interrupts on, I2C0 enabled, SysTick ticking, the core on the PLL. *)
Definition view0 : pw_view := PwView 0 true (CoreView 7 true [] false) true 0.

Definition in_service (x : traced H) (w : power_sw) : Prop :=
  let v := foldl see view0 x.2 in masked v = 0%nat /\ running (core v) /\ alive w v /\ mode_ok (s_lp_pending_mode w).

Lemma in_service_plain x y w w' :
  plain_log x y -> s_clock_relock_pending w' = s_clock_relock_pending w ->
  bridge_i2c_reinit_pending w' = bridge_i2c_reinit_pending w -> mode_ok (s_lp_pending_mode w') ->
  in_service x w -> in_service y w'.
Proof.
  intros (l & E & _ & V) P1 P2 Hm (M & T & A & _). unfold in_service. cbn zeta.
  rewrite E, foldl_app, <- V. unfold alive. rewrite P1, P2. split; [exact M |]. split; [exact T |]. by split.
Qed.

Lemma request_in_service r x w : request_ok r -> in_service x w ->
  let '(y, w', _) := bridge_hw_power_mode_set_ x w r.1.1 r.1.2 r.2 in in_service y w'.
Proof.
  intros Hr Hs. pose proof Hs as (_ & _ & _ & Hm).
  pose proof (requests_log [r] x w ltac:(by constructor) Hm) as L. cbn [requests foldl fst snd] in L.
  destruct (bridge_hw_power_mode_set_ x w r.1.1 r.1.2 r.2) as [[y w'] rc]. cbn [fst] in L.
  destruct L as (C & P1 & P2 & P3 & _). exact (in_service_plain x y w w' C P1 P2 P3 Hs).
Qed.

Lemma tick_in_service trial rs x w : Forall request_ok rs -> in_service x w ->
  let '(y, w') := preempted_tick trial rs x w in in_service y w'.
Proof.
  intros Hrs (M & T & A & Hm). pose proof (tick_log trial rs x w Hm Hrs) as L.
  destruct (preempted_tick trial rs x w) as [y w']. destruct L as (Hm' & l & E & _ & V).
  unfold in_service. cbn zeta. rewrite E, foldl_app. destruct (V (foldl see view0 x.2)) as (V1 & V2 & V3).
  split; [congruence |]. split; [auto |]. split; [auto | done].
Qed.

Lemma reach_in_service h0 hz x w : power_reach h0 hz x w -> in_service x w.
Proof.
  induction 1 as [| x w r y w' rc _ IH Hr E | x w _ IH | x w trial rs y w' _ IH Hrs E].
  - unfold in_service, alive, running. cbn. split; [done |]. split; [done |]. split; [auto | by left].
  - pose proof (request_in_service r x w Hr IH) as P. by rewrite E in P.
  - refine (in_service_plain x _ w w _ eq_refl eq_refl _ IH); [by apply plain_dos | apply IH].
  - pose proof (tick_in_service trial rs x w Hrs IH) as P. by rewrite E in P.
Qed.

(** ** The properties *)

(** C30. A low-power mode is entered only for a latched request and only after the
    whole link check passed.  From any state the requests can produce and whatever
    the hardware answers, a tick, even one that new requests interrupt, does one of
    three things.  It enters no mode, and the latch is as it was or as one of the
    interrupting requests set it.  Or deep-sleep was latched and it enters that
    mode, once, under the interrupt lock, with the whole check passed under the
    lock and again, right before the entry, after I2C0 was disabled.  Or standby
    was latched and it enters that, once: between the check that passed and the
    entry lie only the watchdog's settle wait, fed outside a trial alone, the stop
    of SysTick and the interrupting requests; the link is not looked at again. *)
Theorem tick_sleeps_on_quiet_link h0 hz trial rs x w :
  power_reach h0 hz x w -> Forall request_ok rs ->
  let '(y, w') := preempted_tick trial rs x w in
  exists l, extends x y l /\ tick_shape trial rs w w' l.
Proof.
  intros R Hrs. destruct (reach_in_service _ _ _ _ R) as (_ & _ & _ & Hm). pose proof (tick_log trial rs x w Hm Hrs) as L.
  destruct (preempted_tick trial rs x w) as [y w']. destruct L as (_ & l & E & S & _). by exists l.
Qed.

(** C29. The bridge stays reachable.  In every state that boot, requests, wake-up
    interrupts and ticks can reach, whatever the PLL, the RTC, the link and the I2C
    bring-up answered: interrupts are unmasked, no transport line is left masked in
    the NVIC and SLEEPDEEP is clear (an aborted standby entry leaves both), SysTick
    runs on its boot-time control word as long as reading that register answers
    what it holds, I2C0 is enabled or its re-init is due on a later tick, and the
    core was last seen on the PLL or its relock is due. *)
Theorem power_keeps_bridge_in_service h0 hz x w : power_reach h0 hz x w -> in_service x w.
Proof. apply reach_in_service. Qed.

(** What a power request does, on every branch.  An unsupported wake bit, an
    unknown mode, a wake time for run or sleep and an entry without a wake source
    are refused with nothing changed; run and sleep touch no hardware; an entry is
    accepted exactly when it fits the watchdog (if the option byte says it counts
    through the mode) and the 16-bit timer and the timer was armed last, for
    exactly twice the milliseconds asked; any refusal keeps the latched mode. *)
Theorem power_request_contract x w mode wake_bitmap wake_after_ms :
  0 <= mode -> 0 <= wake_after_ms ->
  let '(y, w', rc) := bridge_hw_power_mode_set_ x w mode wake_bitmap wake_after_ms in
  match mode_refusal mode wake_bitmap wake_after_ms with
  | Some refusal => rc = refusal /\ w' = w
  | None =>
      if mode <? 2 then rc = BRIDGE_HW_OK /\ w' = w /\ y = x
      else
        exists l counting, extends x y l /\ EvAns (fmc_obctl_fwdgspd mode) counting ∈ l /\
          let m := wake_ms wake_after_ms in
          let too_long := negb (counting =? 0) && (POWER_LP_FWDGT_MAX_MS <? m) in
          (rc = BRIDGE_HW_OK /\ s_lp_pending_mode w' = mode /\ too_long = false /\ m <= POWER_WAKE_TIMER_MAX_MS /\
           exists l0, l = l0 ++ [EvAns (rtc_wakeup_timer_set (2 * m - 1)) SUCCESS] ++ (EvDo <$> armed_ops)) \/
          (rc <> BRIDGE_HW_OK /\ s_lp_pending_mode w' = s_lp_pending_mode w /\
           (rc = BRIDGE_HW_ERR_IO \/ rc = BRIDGE_HW_ERR_RANGE /\ (too_long = true \/ POWER_WAKE_TIMER_MAX_MS < m)))
  end.
Proof.
  intros H1 H2. pose proof (mode_set_log x w mode wake_bitmap wake_after_ms H1 H2) as L.
  destruct (bridge_hw_power_mode_set_ x w mode wake_bitmap wake_after_ms) as [[y w'] rc]. apply L.
Qed.

End power.
