(* ===== verification/PowerLive.v ===== *)
(** * The power tick makes progress

    On a link that stays quiet the next tick enters the latched mode; with a PLL
    that locks and an idle I2C bus a wake that came back broken is whole again
    within eight ticks. *)

From stdpp Require Import base tactics list numbers option.
From S2P Require Import Prelude BridgeHw I2cTiming I2cBackend Power PowerLog PowerSafety.

(** Whatever the state, a read answers within [P]. *)
Definition answers {H : Type} `{!PowerHw H} (r : pw_reg) (P : Z -> Prop) : Prop := forall h, P (pw_read h r).1.

(** A link that answers quiet to every look. *)
Record link_quiet (H : Type) `{!PowerHw H} : Prop := {
  quiet_cs : answers (H := H) cs_level (fun v => v = SET);
  quiet_i2c : answers (H := H) i2c_busy_flag (fun v => v = 0);
  quiet_pd0 : answers (H := H) EXTI_PD0 (fun v => v = 0);
  quiet_pd1 : answers (H := H) EXTI_PD1 (fun v => Z.land v 0x7F = 0);
  quiet_nvic : forall irq, answers (H := H) (NVIC_GetPendingIRQ irq) (fun v => v = 0) }.

(** Polls left before a status flag reads set: none, and it does. *)
Definition flag_up (left : option nat) (v : Z) : Prop := v = 0 <-> left <> Some 0%nat.

(** A working clock tree, an idle I2C bus and an APB1 clock the I2C timing fits.
    [pll] says how many polls of PLLSTB the PLL still needs to lock, [sws] how many
    of SCSS the switch to it still needs, [None] while nothing was asked for: the
    PLL locks within [POWER_CLOCK_RESTORE_SPINS] polls of the write that enables
    it, the switch takes within as many of the write that selects a locked PLL, and
    each poll brings its flag nearer. *)
Record clock_recovers (H : Type) `{!PowerHw H} `{!I2cSlaveHw H} (pll sws : H -> option nat) : Prop := {
  pll_enabled : forall h, exists n, pll (pw_do h rcu_pllen) = Some n /\ (n < POWER_CLOCK_RESTORE_SPINS)%nat;
  pll_polled : forall h, flag_up (pll h) (pw_read h rcu_pllstb).1 /\
    forall n, pll h = Some n -> pll (pw_read h rcu_pllstb).2 = Some (pred n);
  pll_selected : forall h, pll h = Some 0%nat ->
    exists n, sws (pw_do h rcu_scs_pllp) = Some n /\ (n < POWER_CLOCK_RESTORE_SPINS)%nat;
  switch_polled : forall h, flag_up (sws h) (pw_read h rcu_scss_is_pllp).1 /\
    forall n, sws h = Some n -> sws (pw_read h rcu_scss_is_pllp).2 = Some (pred n);
  i2c_idle : answers (H := H) i2c_busy_flag (fun v => v = 0);
  apb1_fits : forall h : H, let hz := u32 (i2c_reg_read h rcu_apb1_hz).1 in
    i2c_timing_derive hz <> None /\ bridge_i2c_stretch_timeout_reload hz <> None }.

Section live.
Context {H : Type} `{!PowerHw H} `{!I2cSlaveHw H}.
Implicit Types (h : H) (w : power_sw).

Lemma answers_flag r (P : Z -> Prop) b : answers (H := H) r P -> (forall v, P v -> negb (v =? 0) = b) -> forall h, (pw_flag h r).1 = b.
Proof. intros A HP h. unfold pw_flag. specialize (A h). destruct (pw_read h r). by apply HP. Qed.

(** ** Entry on a quiet link *)

Lemma none_pending_quiet irqs : link_quiet H -> forall h, (none_pending irqs h).1 = true.
Proof.
  intros Q. induction irqs as [| irq irqs IH]; intros h; [done |]. cbn [none_pending].
  pose proof (answers_flag _ _ false (quiet_nvic _ Q irq) ltac:(by intros v ->) h) as F.
  destruct (pw_flag h _) as [b h1]. cbn [fst] in F. subst b. apply IH.
Qed.

Lemma quiet_passes : link_quiet H -> forall h, (lp_link_quiet h).1 = true.
Proof.
  intros Q h. unfold lp_link_quiet, mode_i2c_busy.
  pose proof (quiet_cs _ Q h) as E1. destruct (pw_read h cs_level) as [cs h1]. cbn [fst] in E1. subst cs. cbn [negb Z.eqb].
  pose proof (answers_flag _ _ false (quiet_i2c _ Q) ltac:(by intros v ->) h1) as E2. destruct (pw_flag h1 _) as [b h2].
  cbn [fst] in E2. subst b.
  pose proof (quiet_pd0 _ Q h2) as E3. destruct (pw_read h2 EXTI_PD0) as [pd0 h3]. cbn [fst] in E3. subst pd0. cbn [negb Z.eqb].
  pose proof (quiet_pd1 _ Q h3) as E4. destruct (pw_read h3 EXTI_PD1) as [pd1 h4]. cbn [fst] in E4. rewrite E4.
  by apply none_pending_quiet.
Qed.

Lemma gate_passes trial : link_quiet H -> forall h w, s_lp_pending_mode w <> 0 ->
  exists h1 ctrl, tick_gate trial h w = (h1, Some (s_lp_pending_mode w, ctrl)).
Proof.
  intros Q h w Hne. unfold tick_gate. rewrite (proj2 (Z.eqb_neq _ _) Hne).
  pose proof (quiet_cs _ Q h) as E1. destruct (pw_read h cs_level) as [cs h1]. cbn [fst] in E1. subst cs.
  change (SET =? SET) with true. cbn [negb].
  pose proof (quiet_passes Q (pw_dos h1 [exti_pd0_clear; exti_pd1_clear; dsb])) as E2.
  destruct (lp_link_quiet _) as [q h2]. cbn [fst] in E2. subst q. cbn [negb].
  destruct (pw_read _ systick_ctrl) as [ctrl h3]. eauto.
Qed.

Lemma enter_consumes ctrl h w mode : link_quiet H -> mode = 2 \/ mode = 3 -> s_lp_pending_mode (tick_enter mode ctrl h w).2 = 0.
Proof.
  intros Q [-> | ->]; [| done]. unfold tick_enter, tick_deepsleep. cbn [Z.eqb Pos.eqb].
  pose proof (quiet_passes Q (pw_do h irq_lock)) as E1. destruct (lp_link_quiet _) as [q h1]. cbn [fst] in E1. subst q.
  pose proof (quiet_passes Q (pw_do h1 lp_i2c_disable)) as E2. destruct (lp_link_quiet _) as [q h2]. cbn [fst] in E2. subst q.
  cbn [negb]. destruct (bridge_clock_restore_after_deepsleep _ w) as [[ok h3] w3].
  destruct (bridge_transport_i2c_hw_init h3) as [rc h4]. by destruct (pw_read h4 rtc_wakeup_disable).
Qed.

(** ** Recovery after a broken wake *)

(** A flag that each poll brings nearer. *)
Definition polled (r : pw_reg) (left : H -> option nat) : Prop :=
  forall h, flag_up (left h) (pw_read h r).1 /\ forall n, left h = Some n -> left (pw_read h r).2 = Some (pred n).

Lemma polled_flag r left h n : polled r left -> left h = Some n ->
  (pw_flag h r).1 = bool_decide (n = 0%nat) /\ left (pw_flag h r).2 = Some (pred n).
Proof.
  intros P Hn. destruct (P h) as [F K]. specialize (K n Hn). unfold flag_up in F. rewrite Hn in F. unfold pw_flag.
  destruct (pw_read h r) as [v h1]. cbn [fst snd] in *. split; [| done]. case_bool_decide as E.
  - subst n. apply negb_true_iff, Z.eqb_neq. intros Ev. by apply F.
  - apply negb_false_iff, Z.eqb_eq, F. congruence.
Qed.

(** Enough polls and it is up, and stays so. *)
Lemma spin_up r left : polled r left -> forall to h n, left h = Some n -> (n <= to)%nat ->
  left (spin_until to r h) = Some 0%nat.
Proof.
  intros P. induction to as [| to IH]; intros h n Hn Hle; cbn [spin_until]; [rewrite Hn; f_equal; lia |].
  destruct (polled_flag r left h n P Hn) as [Hb K]. destruct (pw_flag h r) as [b h1]. cbn [fst snd] in *. subst b.
  case_bool_decide as E; [by subst n |]. apply (IH h1 (pred n) K). lia.
Qed.

Section recovery.
Context {pll sws : H -> option nat} (R : clock_recovers H pll sws).

Lemma restore_ok h w : (bridge_clock_restore_after_deepsleep h w).1.1 = true.
Proof using R.
  unfold bridge_clock_restore_after_deepsleep. cbn [pw_dos foldl]. set (h0 := pw_do h fmc_ws_wscnt7).
  destruct (pll_enabled _ _ _ R h0) as (n & En & Hn).
  pose proof (spin_up _ _ (pll_polled _ _ _ R) POWER_CLOCK_RESTORE_SPINS _ n En (Nat.lt_le_incl _ _ Hn)) as E1.
  set (h1 := spin_until POWER_CLOCK_RESTORE_SPINS rcu_pllstb (pw_do h0 rcu_pllen)) in *.
  destruct (polled_flag _ _ h1 0 (pll_polled _ _ _ R) E1) as [F1 K1].
  destruct (pw_flag h1 rcu_pllstb) as [b h2]. cbn [fst snd] in F1, K1. subst b. change (bool_decide (0%nat = 0%nat)) with true. cbv iota.
  destruct (pll_selected _ _ _ R h2 K1) as (m & Em & Hm).
  pose proof (spin_up _ _ (switch_polled _ _ _ R) POWER_CLOCK_RESTORE_SPINS _ m Em (Nat.lt_le_incl _ _ Hm)) as E3.
  set (h3 := spin_until POWER_CLOCK_RESTORE_SPINS rcu_scss_is_pllp (pw_do h2 rcu_scs_pllp)) in *.
  destruct (polled_flag _ _ h3 0 (switch_polled _ _ _ R) E3) as [F3 _].
  destruct (pw_flag h3 rcu_scss_is_pllp) as [b h4]. cbn [fst] in F3. subst b. change (bool_decide (0%nat = 0%nat)) with true. cbv iota.
  by destruct (pw_read _ SystemCoreClock).
Qed.

Lemma restore_keeps h w : let w' := (bridge_clock_restore_after_deepsleep h w).2 in exists hz, w' = set_clock hz w.
Proof.
  unfold bridge_clock_restore_after_deepsleep. destruct (pw_flag _ rcu_pllstb) as [stable h1].
  set (z := if stable then _ else _). destruct z as [ok h2]. destruct (pw_read _ SystemCoreClock) as [hz h3]. cbn. eauto.
Qed.

Lemma hw_init_ok h : (bridge_transport_i2c_hw_init h).1 = BRIDGE_HW_OK.
Proof using R.
  unfold bridge_transport_i2c_hw_init. set (h1 := i2c_dos h _). pose proof (apb1_fits _ _ _ R h1) as (A & B).
  destruct (i2c_reg_read h1 rcu_apb1_hz) as [hz h2]. cbn [fst] in A, B.
  destruct (i2c_timing_derive (u32 hz)) as [[[psc scl] sda] |]; [| done].
  by destruct (bridge_i2c_stretch_timeout_reload (u32 hz)).
Qed.

(** What a tick leaves of the retries. *)
Definition retried w w' : Prop :=
  bridge_i2c_reinit_pending w' = 0 /\
  (s_clock_relock_pending w' <> 0 ->
    s_clock_relock_pending w <> 0 /\ Z.land (s_clock_relock_tick w) 7 <> 0 /\ s_clock_relock_tick w' = u8 (s_clock_relock_tick w + 1)).

Lemma relock_retried h w :
  let w' := (tick_relock h w).2 in
  s_clock_relock_pending w' <> 0 ->
  s_clock_relock_pending w <> 0 /\ Z.land (s_clock_relock_tick w) 7 <> 0 /\ s_clock_relock_tick w' = u8 (s_clock_relock_tick w + 1).
Proof using R.
  unfold tick_relock. destruct (Z.eqb_spec (s_clock_relock_pending w) 0) as [E | E]; [done |].
  destruct (Z.eqb_spec (Z.land (s_clock_relock_tick w) 7) 0) as [E7 | E7]; [| done]. cbn [negb].
  set (w1 := set_relock _ _ w). pose proof (restore_ok h w1) as Ok.
  destruct (bridge_clock_restore_after_deepsleep h w1) as [[ok h1] w2]. cbn [fst] in Ok. by subst ok.
Qed.

Lemma reinit_retried h w :
  let w' := (tick_reinit h w).2 in
  bridge_i2c_reinit_pending w' = 0 /\ s_clock_relock_pending w' = s_clock_relock_pending w /\
  s_clock_relock_tick w' = s_clock_relock_tick w.
Proof using R.
  unfold tick_reinit, mode_i2c_busy. destruct (Z.eqb_spec (bridge_i2c_reinit_pending w) 0) as [E | E]; [done |].
  pose proof (answers_flag _ _ false (i2c_idle _ _ _ R) ltac:(by intros v ->) (pw_do h irq_lock)) as F.
  destruct (pw_flag _ i2c_busy_flag) as [b h1]. cbn [fst] in F. subst b. cbn [negb].
  pose proof (hw_init_ok (pw_do (pw_do h1 lp_i2c_disable) irq_unlock)) as Ok.
  destruct (bridge_transport_i2c_hw_init _) as [rc h2]. cbn [fst] in Ok. by subst rc.
Qed.

Lemma enter_retries mode ctrl h w :
  let w' := (tick_enter mode ctrl h w).2 in
  bridge_i2c_reinit_pending w' = bridge_i2c_reinit_pending w /\ s_clock_relock_pending w' = s_clock_relock_pending w /\
  s_clock_relock_tick w' = s_clock_relock_tick w.
Proof using R.
  unfold tick_enter. destruct (mode =? 2); [| by destruct (mode =? 3)]. unfold tick_deepsleep.
  destruct (lp_link_quiet (pw_do h irq_lock)) as [q h1]. destruct q; [| done].
  destruct (lp_link_quiet (pw_do h1 lp_i2c_disable)) as [q h2]. destruct q; [| done]. cbn [negb].
  set (h3 := pw_do h2 pmu_to_deepsleepmode). pose proof (restore_ok h3 w) as Ok. pose proof (restore_keeps h3 w) as (hz & K).
  destruct (bridge_clock_restore_after_deepsleep h3 w) as [[ok h4] w4]. cbn [fst snd] in Ok, K. subst ok w4.
  pose proof (hw_init_ok h4) as Ok. destruct (bridge_transport_i2c_hw_init h4) as [rc h5]. cbn [fst] in Ok. subst rc.
  by destruct (pw_read h5 rtc_wakeup_disable).
Qed.

Lemma tick_retried trial h w : retried w (bridge_power_tick trial h w).2.
Proof using R.
  unfold bridge_power_tick. pose proof (relock_retried h w) as A. destruct (tick_relock h w) as [h1 w1].
  pose proof (reinit_retried h1 w1) as (B1 & B2 & B3). destruct (tick_reinit h1 w1) as [h2 w2]. cbn [snd] in *.
  assert (G : retried w w2) by (split; [done |]; rewrite B2, B3; exact A).
  destruct (tick_gate trial h2 w2) as [h3 [[mode ctrl] |]]; [| exact G].
  pose proof (enter_retries mode ctrl h3 w2) as (C1 & C2 & C3). destruct (tick_enter mode ctrl h3 w2) as [h4 w4]. cbn [snd] in *.
  unfold retried in *. by rewrite C1, C2, C3.
Qed.

(** Ticks one after the other, each with its trial flag. *)
Definition power_ticks (trials : list bool) (z : H * power_sw) : H * power_sw :=
  foldl (fun z trial => bridge_power_tick trial z.1 z.2) z trials.

Lemma land7 z : Z.land z 7 = z mod 8.
Proof. change 7 with (Z.ones 3). by rewrite Z.land_ones. Qed.

Lemma ticks_retried trials : forall h w,
  s_clock_relock_pending (power_ticks trials (h, w)).2 <> 0 ->
  s_clock_relock_pending w <> 0 /\ forall i, 0 <= i < Z.of_nat (length trials) -> (s_clock_relock_tick w + i) mod 8 <> 0.
Proof using R.
  induction trials as [| trial trials IH]; intros h w Hne; [split; [done | cbn; lia] |].
  cbn [power_ticks foldl fst snd] in Hne. pose proof (tick_retried trial h w) as (_ & T).
  destruct (bridge_power_tick trial h w) as [h1 w1]. cbn [snd] in T. destruct (IH h1 w1 Hne) as (Hp & Hi).
  destruct (T Hp) as (A & B & C). split; [done |]. intros i Hr. rewrite land7 in B.
  destruct (decide (i = 0)) as [-> |]; [by rewrite Z.add_0_r |]. rewrite length_cons in Hr.
  specialize (Hi (i - 1) ltac:(lia)). rewrite C in Hi. intros E. apply Hi. unfold u8 in *.
  rewrite <- E, Z.add_mod, Z.mod_mod_divide, <- Z.add_mod by (done || by exists 32). f_equal. lia.
Qed.

Lemma ticks_reinit trials trial h w :
  bridge_i2c_reinit_pending (power_ticks (trials ++ [trial]) (h, w)).2 = 0.
Proof using R.
  unfold power_ticks. rewrite foldl_app. cbn [foldl]. by apply tick_retried.
Qed.

End recovery.

(** C31. A broken wake heals.  With a clock tree that works once it is set up again
    (the PLL locks within the spin budget of being enabled, the switch to it takes
    within the budget of being asked for on a locked PLL, and neither flag rises
    before), an idle I2C bus and an APB1 clock the timing tables cover, eight ticks
    leave neither the relock nor the I2C re-init pending, from any state of the
    clock and of the retry counter, whatever mode is latched and entered
    meanwhile. *)
Theorem broken_wake_heals pll sws trials h w :
  clock_recovers H pll sws -> length trials = 8%nat ->
  let w' := (power_ticks trials (h, w)).2 in
  s_clock_relock_pending w' = 0 /\ bridge_i2c_reinit_pending w' = 0.
Proof.
  intros R L. split.
  - destruct (decide (s_clock_relock_pending (power_ticks trials (h, w)).2 = 0)) as [| Hne]; [done |].
    destruct (ticks_retried R trials h w Hne) as (_ & Hi). rewrite L in Hi.
    pose proof (Z.mod_pos_bound (s_clock_relock_tick w) 8 ltac:(done)).
    exfalso. apply (Hi ((- s_clock_relock_tick w) mod 8)); [by apply Z.mod_pos_bound |].
    rewrite Z.add_mod_idemp_r by done. by rewrite Z.add_opp_diag_r.
  - destruct trials as [| trial trials] using rev_ind; [done |]. by apply (ticks_reinit R).
Qed.

End live.

Section entry.
Context {H : Type} `{!PowerHw H} `{!I2cSlaveHw H}.

Lemma traced_quiet : link_quiet H -> link_quiet (traced H).
Proof.
  assert (T : forall r P, answers (H := H) r P -> answers (H := traced H) r P).
  { intros r P A [h l]. specialize (A h). cbn. by destruct (pw_read h r). }
  intros [Q1 Q2 Q3 Q4 Q5]. split; intros; apply T; auto.
Qed.

Lemma tick_serves trial (x : traced H) w : link_quiet (traced H) -> s_lp_pending_mode w = 2 \/ s_lp_pending_mode w = 3 ->
  s_lp_pending_mode (bridge_power_tick trial x w).2 = 0.
Proof.
  intros Q Hm. unfold bridge_power_tick. pose proof (calm_relock x w) as C1. destruct (tick_relock x w) as [x1 w1].
  pose proof (calm_reinit x1 w1) as C2. destruct (tick_reinit x1 w1) as [x2 w2].
  destruct C1 as (_ & C1), C2 as (_ & C2). rewrite C1 in C2.
  destruct (gate_passes trial Q x2 w2) as (x3 & ctrl & ->); [rewrite C2; destruct Hm; congruence |].
  apply enter_consumes; [done | by rewrite C2].
Qed.

(** A latched request is served.  While the link answers quiet to every look,
    the tick after a deep-sleep or standby request enters that mode, in that tick,
    and clears the latch. *)
Theorem quiet_link_enters_next_tick trial (x : traced H) w :
  link_quiet H -> s_lp_pending_mode w = 2 \/ s_lp_pending_mode w = 3 ->
  let '(y, w') := bridge_power_tick trial x w in
  s_lp_pending_mode w' = 0 /\
  exists l, extends x y l /\
    EvDo (if s_lp_pending_mode w =? 2 then pmu_to_deepsleepmode else pmu_to_standbymode) ∈ l.
Proof.
  intros Q Hm. assert (Hm' : mode_ok (s_lp_pending_mode w)) by (by right).
  pose proof (tick_log trial [] x w Hm' ltac:(constructor)) as L. rewrite tick_uninterrupted in L.
  pose proof (tick_serves trial x w (traced_quiet Q) Hm) as E.
  destruct (bridge_power_tick trial x w) as [y w']. cbn [snd] in E. destruct L as (_ & l & El & S & _).
  split; [done |]. exists l. split; [done |].
  destruct S as [[_ [K | (r & [] %not_elem_of_nil & _)]] | [(-> & _ & l0 & g & a & b & l1 & -> & _) | (-> & _ & l0 & g & l1 & -> & _)]].
  - exfalso. destruct Hm; congruence.
  - cbn [Z.eqb Pos.eqb]. rewrite !elem_of_app. do 6 right. left. left.
  - cbn [Z.eqb Pos.eqb]. rewrite !elem_of_app. do 2 right. left. left.
Qed.

End entry.
