(* ===== verification/PowerWitness.v ===== *)
(** * The power properties at a concrete board

    A board with a quiet link whose RTC programs its wake-up clock once and then
    refuses, the power properties on it, and the behaviours noted as findings. *)

From stdpp Require Import base tactics list numbers option.
From S2P Require Import Prelude BridgeHw I2cTiming I2cBackend Power PowerLog PowerSafety PowerLive.

(** The state is the number of [rtc_wakeup_clock_set] calls so far. *)
#[local] Instance board : PowerHw nat := {
  pw_do n _ := n;
  pw_read n r :=
    match r with
    | rtc_wakeup_clock_set => (if n is O then SUCCESS else 0, S n)
    | irc32k_stable | rtc_wakeup_disable | rtc_wakeup_timer_set _ | rcu_pllstb | rcu_scss_is_pllp => (1, n)
    | cs_level => (SET, n)
    | systick_ctrl => (7, n)
    | SystemCoreClock => (POWER_CLK_HZ, n)
    | fmc_obctl_fwdgspd _ => (1, n)
    | i2c_busy_flag | EXTI_PD0 | EXTI_PD1 | NVIC_GetPendingIRQ _ => (0, n)
    end }.

#[local] Instance board_i2c : I2cSlaveHw nat := {
  i2c_do n _ := n;
  i2c_reg_read n r := (match r with rcu_apb1_hz => POWER_CLK_HZ | _ => 0 end, n) }.

Definition x0 : traced nat := (0%nat, []).
Definition w0 : power_sw := power_sw0 POWER_CLK_HZ.

(** After a request for deep-sleep with a wake in 100 ms. *)
Definition asked : traced nat * power_sw := (bridge_hw_power_mode_set_ x0 w0 2 POWER_WAKE_TIMER 100).1.

Lemma asked_reach : power_reach 0%nat POWER_CLK_HZ asked.1 asked.2.
Proof. by apply (reach_request 0%nat _ x0 w0 (2, POWER_WAKE_TIMER, 100) _ _ BRIDGE_HW_OK); [constructor | |]. Qed.

Lemma board_quiet : link_quiet nat.
Proof. split; intros; by intros n. Qed.

Lemma tick_sleeps_on_quiet_link_witness :
  power_reach 0%nat POWER_CLK_HZ asked.1 asked.2 /\ Forall request_ok [(3, POWER_WAKE_TIMER, 50)] /\
  let '(y, w') := preempted_tick false [(3, POWER_WAKE_TIMER, 50)] asked.1 asked.2 in
  exists l, extends asked.1 y l /\ tick_shape false [(3, POWER_WAKE_TIMER, 50)] asked.2 w' l.
Proof.
  split; [exact asked_reach |]. split; [by constructor |].
  apply (tick_sleeps_on_quiet_link 0%nat POWER_CLK_HZ); [exact asked_reach | by constructor].
Defined.

Lemma power_keeps_bridge_in_service_witness :
  power_reach 0%nat POWER_CLK_HZ asked.1 asked.2 /\ in_service asked.1 asked.2.
Proof. split; [exact asked_reach | apply (power_keeps_bridge_in_service 0%nat POWER_CLK_HZ), asked_reach]. Defined.

(** Accepted, with the timer armed for 200 half-milliseconds. *)
Lemma power_request_contract_witness :
  mode_refusal 2 POWER_WAKE_TIMER 100 = None /\
  exists l counting, extends x0 asked.1 l /\ EvAns (fmc_obctl_fwdgspd 2) counting ∈ l /\
    let too_long := negb (counting =? 0) && (POWER_LP_FWDGT_MAX_MS <? 100) in
    (BRIDGE_HW_OK = BRIDGE_HW_OK /\ s_lp_pending_mode asked.2 = 2 /\ too_long = false /\ 100 <= POWER_WAKE_TIMER_MAX_MS /\
     exists l0, l = l0 ++ [EvAns (rtc_wakeup_timer_set (2 * 100 - 1)) SUCCESS] ++ (EvDo <$> armed_ops)) \/
    (BRIDGE_HW_OK <> BRIDGE_HW_OK /\ s_lp_pending_mode asked.2 = s_lp_pending_mode w0 /\
     (BRIDGE_HW_OK = BRIDGE_HW_ERR_IO \/ BRIDGE_HW_OK = BRIDGE_HW_ERR_RANGE /\ (too_long = true \/ POWER_WAKE_TIMER_MAX_MS < 100))).
Proof.
  split; [reflexivity |]. pose proof (power_request_contract x0 w0 2 POWER_WAKE_TIMER 100 ltac:(done) ltac:(done)) as C.
  assert (E : bridge_hw_power_mode_set_ x0 w0 2 POWER_WAKE_TIMER 100 = (asked.1, asked.2, BRIDGE_HW_OK)) by (by vm_compute).
  rewrite E in C. exact C.
Defined.

(** A clock tree: polls the PLL still needs to lock, and the switch to take. *)
Record clock_tree := ClockTree { pll_left : option nat; sws_left : option nat }.

Definition flag_word (left : option nat) : Z := if left is Some 0%nat then 1 else 0.

(** Deep-sleep turns the PLL off; three polls lock it, two make the switch take. *)
#[local] Instance clocked : PowerHw clock_tree := {
  pw_do t op :=
    match op with
    | pmu_to_deepsleepmode => ClockTree None None
    | rcu_pllen => ClockTree (if pll_left t is Some 0%nat then Some 0%nat else Some 3%nat) (sws_left t)
    | rcu_scs_pllp => ClockTree (pll_left t) (if pll_left t is Some 0%nat then Some 2%nat else None)
    | rcu_scs_irc8m => ClockTree (pll_left t) None
    | _ => t
    end;
  pw_read t r :=
    match r with
    | rcu_pllstb => (flag_word (pll_left t), ClockTree (pred <$> pll_left t) (sws_left t))
    | rcu_scss_is_pllp => (flag_word (sws_left t), ClockTree (pll_left t) (pred <$> sws_left t))
    | SystemCoreClock => (if sws_left t is Some 0%nat then POWER_CLK_HZ else 8000000, t)
    | cs_level => (SET, t)
    | _ => (0, t)
    end }.

#[local] Instance clocked_i2c : I2cSlaveHw clock_tree := {
  i2c_do t _ := t;
  i2c_reg_read t r := (match r with rcu_apb1_hz => POWER_CLK_HZ | _ => 0 end, t) }.

Lemma flag_word_up left : flag_up left (flag_word left).
Proof. unfold flag_up. by destruct left as [[| n] |]. Qed.

Lemma few_polls n : (n <= 3)%nat -> (n < POWER_CLOCK_RESTORE_SPINS)%nat.
Proof. intros Hn. apply (Nat.le_lt_trans _ 3); [done |]. apply Nat.ltb_lt. by vm_compute. Qed.

Lemma clocked_recovers : clock_recovers clock_tree pll_left sws_left.
Proof.
  split.
  - intros [pll sws]. cbn. destruct pll as [[| n] |]; eexists; (split; [done | apply few_polls; lia]).
  - intros [pll sws]. split; [apply flag_word_up |]. cbn. by intros n ->.
  - intros [pll sws]. cbn. intros ->. exists 2%nat. split; [done | apply few_polls; lia].
  - intros [pll sws]. split; [apply flag_word_up |]. cbn. by intros n ->.
  - done.
  - intros t. by vm_compute.
Qed.

(** A wake that left the core on IRC8M, the PLL off: whole again after eight ticks. *)
Lemma broken_wake_heals_witness :
  clock_recovers clock_tree pll_left sws_left /\
  let w' := (power_ticks (replicate 8 false) (ClockTree None None, set_relock 1 3 w0)).2 in
  s_clock_relock_pending w' = 0 /\ bridge_i2c_reinit_pending w' = 0.
Proof. split; [exact clocked_recovers | by apply (broken_wake_heals pll_left sws_left); [exact clocked_recovers |]]. Defined.

Lemma quiet_link_enters_next_tick_witness :
  link_quiet nat /\
  let '(y, w') := bridge_power_tick false asked.1 asked.2 in
  s_lp_pending_mode w' = 0 /\ exists l, extends asked.1 y l /\ EvDo pmu_to_deepsleepmode ∈ l.
Proof.
  split; [exact board_quiet |].
  pose proof (quiet_link_enters_next_tick false asked.1 asked.2 board_quiet ltac:(left; by vm_compute)) as T.
  assert (E : (s_lp_pending_mode asked.2 =? 2) = true) by (by vm_compute). rewrite E in T. exact T.
Defined.

(** ** Findings *)

(** The calls that bear on the wake-up timer. *)
Definition timer_event (e : pw_event) : bool :=
  match e with
  | EvDo (rtc_wakeup_enable | pmu_to_deepsleepmode | pmu_to_standbymode) | EvAns rtc_wakeup_disable _ => true
  | _ => false
  end.

Definition timer_log (x : traced nat) : list pw_event := List.filter timer_event x.2.

(** A Standby request, a second one refused for the RTC after its timer was
    disabled, and the tick: Standby is entered with no timer running. *)
Lemma refused_rearm_sleeps_unarmed :
  let '(x1, w1, rc1) := bridge_hw_power_mode_set_ x0 w0 3 POWER_WAKE_TIMER 100 in
  let '(x2, w2, rc2) := bridge_hw_power_mode_set_ x1 w1 3 POWER_WAKE_TIMER 50 in
  let '(x3, w3) := bridge_power_tick false x2 w2 in
  rc1 = BRIDGE_HW_OK /\ rc2 = BRIDGE_HW_ERR_IO /\
  timer_log x3 = [EvAns rtc_wakeup_disable SUCCESS; EvDo rtc_wakeup_enable; EvAns rtc_wakeup_disable SUCCESS; EvDo pmu_to_standbymode].
Proof. by vm_compute. Qed.

(** A request accepted while the tick settles is lost: its timer is armed, the
    earlier mode is entered, the timer stopped and the latch cleared. *)
Lemma request_while_settling_dropped :
  let w1 := set_pending_mode 2 w0 in
  let '(_, _, rc) := bridge_hw_power_mode_set_ x0 w1 3 POWER_WAKE_TIMER 100 in
  let '(x2, w2) := preempted_tick false [(3, POWER_WAKE_TIMER, 100)] x0 w1 in
  rc = BRIDGE_HW_OK /\ s_lp_pending_mode w2 = 0 /\
  timer_log x2 = [EvAns rtc_wakeup_disable SUCCESS; EvDo rtc_wakeup_enable; EvDo pmu_to_deepsleepmode;
                  EvAns rtc_wakeup_disable SUCCESS].
Proof. by vm_compute. Qed.
