(* ===== verification/Main.v ===== *)
(** * The main loop: [src/main.c] and the base-level tick of [hal/gd32/init.c]

    Boot order, the masked check before the sleep, the tick with its watchdog
    policy, and the interrupts that arrive in between, as a machine of small steps. *)

From stdpp Require Import base tactics list numbers option.
From S2P Require Import Prelude BridgeHw Wire OtaLayout Flash BootConfig Ota Protocol I2cBackend Power PowerLog.

(** ** What the tick calls *)

(** The base-level work modelled in its own components, each seen here through the
    state it advances, the watchdog calls, and where [power.c] keeps its statics;
    the power tick itself is [Power]'s, on the same hardware. *)
Class BaseHw (W : Type) := {
  dsp_pump_tick : W -> W;             (* [bridge_hw_dsp_pump] *)
  vref_tick : W -> W;                 (* [vref_late_tick] *)
  stuck_poll : W -> W;                (* [bridge_transport_i2c_stuck_poll] *)
  power_statics : W -> power_sw;
  set_power_statics : power_sw -> W -> W;
  fwdgt_config : W -> bool * W;       (* reload 500, prescaler 32; true is SUCCESS *)
  fwdgt_enable : W -> W }.

Section fwdgt.
Context {W : Type} `{!BaseHw W} `{!PowerHw W}.

(** The second component is [fwdgt_config_failed]. *)
Definition bridge_fwdgt_arm (w : W) : W * bool :=
  let '(_, w) := irc_wait (Z.to_nat 200000) (pw_do w rcu_osci_on_irc32k) in
  let '(ok, w) := fwdgt_config w in
  let '(ok, w) := if ok : bool then (true, w) else fwdgt_config w in
  (fwdgt_enable w, negb ok).
End fwdgt.

(** The calls of one tick.  The erase step is split where it leaves its lock. *)
Inductive tick_call :=
  | TkPump | TkVref | TkErase | TkEraseFlash (sn : erase_snapshot) | TkErasePublish (sn : erase_snapshot) (res : ota_fmc_result)
  | TkBootConfig | TkConfirm | TkStuck | TkPower | TkWatchdog.

Definition tick_calls : list tick_call := [TkPump; TkVref; TkErase; TkBootConfig; TkConfirm; TkStuck; TkPower; TkWatchdog].

(** What the last step of the tick does to the watchdog. *)
Inductive fwdgt_act := FwdgtArm (failed : bool) | FwdgtFeed | FwdgtLeft.

(** What an observer sees; of the power tick also its own calls. *)
Inductive event := EvCall (c : tick_call) | EvPower (l : list pw_event) | EvWatchdog (a : fwdgt_act) | EvSleep.

Section main.
Context {F W : Type} `{FlashHal F} `{BridgeHw W} `{!BaseHw W} `{!PowerHw W} `{!I2cSlaveHw W} `{BuildId}.
Variable b : app_build.

(** The shared state and [fwdgt_armed]. *)
Record board := Board { bd : bridge F W; fwdgt_armed : bool }.

Definition set_bd (s : bridge F W) (x : board) : board := Board s (fwdgt_armed x).
Definition on_hw (g : W -> W) (x : board) : board := set_bd (set_hw (g (br_hw (bd x))) (bd x)) x.
Definition on_ota (g : F -> ota -> F * ota) (x : board) : board :=
  let '(f, o) := g (br_flash (bd x)) (br_ota (bd x)) in set_bd (set_ota f o (bd x)) x.

Definition bridge_hw_work_pending (s : bridge F W) : bool :=
  match boot_config_pending (br_bcfg s) with Some _ => negb (ota_erase_active (br_ota s)) | None => false end.

(** The last step of the tick. *)
Definition tick_watchdog (x : board) : board * fwdgt_act :=
  if ota_trial_unconfirmed (br_ota (bd x)) then (x, FwdgtLeft)
  else if negb (fwdgt_armed x) then
    let '(w, failed) := bridge_fwdgt_arm (br_hw (bd x)) in
    (Board (set_hw w (bd x)) true, FwdgtArm failed)
  else (on_hw (fun w => pw_do w fwdgt_counter_reload) x, FwdgtFeed).

(** [bridge_power_tick] on the board's hardware. *)
Definition power_tick (x : board) : board :=
  let w := br_hw (bd x) in
  let '(w, sw) := bridge_power_tick (ota_trial_unconfirmed (br_ota (bd x))) w (power_statics w) in
  on_hw (fun _ => set_power_statics sw w) x.

(** The same, with its calls for the observer. *)
Definition tick_power (x : board) : board * list pw_event :=
  let w := br_hw (bd x) in
  let '(y, sw) := bridge_power_tick (ota_trial_unconfirmed (br_ota (bd x))) ((w, []) : traced W) (power_statics w) in
  (on_hw (fun _ => set_power_statics sw y.1) x, y.2).

Definition tick_boot_config (x : board) : board :=
  let s := bd x in
  let '(f, c) := boot_config_tick (br_flash s) (ota_erase_active (br_ota s)) (br_bcfg s) in
  set_bd (set_bcfg c (set_ota f (br_ota s) s)) x.

(** One call: the state, what it puts in front of the calls left, what is seen. *)
Definition tick_run (c : tick_call) (x : board) : board * list tick_call * list event :=
  match c with
  | TkPump => (on_hw dsp_pump_tick x, [], [EvCall c])
  | TkVref => (on_hw vref_tick x, [], [EvCall c])
  | TkErase => (x, match tick_snapshot (br_ota (bd x)) with Some sn => [TkEraseFlash sn] | None => [] end, [EvCall c])
  | TkEraseFlash sn =>
      let '(f, res) := ota_fmc_erase_range (br_flash (bd x)) (sn_at sn) OTA_PAGE_SIZE in
      (set_bd (set_ota f (br_ota (bd x)) (bd x)) x, [TkErasePublish sn res], [])
  | TkErasePublish sn res => (on_ota (fun f o => (f, tick_publish o sn res)) x, [], [])
  | TkBootConfig => (tick_boot_config x, [], [EvCall c])
  | TkConfirm => (on_ota (ota_confirm_tick b) x, [], [EvCall c])
  | TkStuck => (on_hw stuck_poll x, [], [EvCall c])
  | TkPower => let '(x, l) := tick_power x in (x, [], [EvCall c; EvPower l])
  | TkWatchdog => let '(x, a) := tick_watchdog x in (x, [], [EvWatchdog a])
  end.

(** The tick no interrupt cuts into. *)
Definition bridge_hw_tick (x : board) : board :=
  let x := on_hw vref_tick (on_hw dsp_pump_tick x) in
  let x := on_ota ota_erase_tick x in
  let x := tick_boot_config x in
  let x := on_ota (ota_confirm_tick b) x in
  let x := power_tick (on_hw stuck_poll x) in
  (tick_watchdog x).1.

(** ** Interrupts *)

(** A frame complete on a link, the periodic tick, or any other handler, which works
    on the hardware alone. *)
Inductive irq := IrqFrame (link : gd32_bridge_link) (cmd : Z) (req : list Z) (cap : Z) | SysTick | IrqOther (g : W -> W).

Definition rebooted (x : board) : bool := s_reset (br_ota (bd x)).

Definition isr (x : board) (i : irq) : board :=
  if rebooted x then x
  else match i with
  | IrqFrame link cmd req cap => set_bd (protocol_dispatch b link cmd req cap (bd x)).1 x
  | SysTick => x
  | IrqOther g => on_hw g x
  end.

(** ** The loop *)

(** Where [main] is; interrupts are masked from [Check] to [Unmask]. *)
Inductive pos := Top | Check | Wfi | Unmask | Tick (cs : list tick_call).

Record machine := Machine { m_board : board; m_pos : pos; m_irqs : list irq; m_log : list event }.

(** The next step of [main] itself; [None] is the core asleep in WFI. *)
Definition own (m : machine) : option machine :=
  let '(Machine x p irqs log) := m in
  match p with
  | Top => Some (Machine x Check irqs log)
  | Check => Some (if bridge_hw_work_pending (bd x) then Machine x Unmask irqs log else Machine x Wfi irqs (log ++ [EvSleep]))
  | Wfi => match irqs with [] => None | _ => Some (Machine x Unmask irqs log) end
  | Unmask => Some (Machine (foldl isr x irqs) (Tick tick_calls) [] log)
  | Tick [] => Some (Machine x Top irqs log)
  | Tick (c :: cs) => let '(x, more, evs) := tick_run c x in Some (Machine x (Tick (more ++ cs)) irqs (log ++ evs))
  end.

Definition masked (p : pos) : bool := match p with Check | Wfi | Unmask => true | _ => false end.

(** An interrupt is taken at once, or stays pending while masked. *)
Definition interrupt (i : irq) (m : machine) : machine :=
  let '(Machine x p irqs log) := m in
  if masked p then Machine x p (irqs ++ [i]) log else Machine (isr x i) p irqs log.

(** [main] up to the loop: the statics, the stored boot configuration, the trial
    verdict; no transport interrupt is enabled before its end. *)
Definition main_boot (f0 : F) (w0 : W) : machine :=
  let '(c, w) := boot_config_apply f0 (Bcfg 0 false 0) w0 in
  let '(f, o) := ota_boot_init b f0 (ota_init b) in
  Machine (Board (Bridge w f o c (0, 0) false) false) Top [] [].

(** What happens one thing after the other: a step of [main], or an interrupt. *)
Definition script : Type := list (option irq).

Fixpoint owns (s : script) : nat :=
  match s with [] => 0 | None :: s => S (owns s) | Some _ :: s => owns s end.

(** The run of a script: the part has not rebooted, and [P] holds of every state on
    the way.  The script decides the run. *)
Inductive run (P : machine -> Prop) : script -> machine -> machine -> Prop :=
  | run_here m : P m -> run P [] m m
  | run_own s m m1 m2 : run P s m m1 -> rebooted (m_board m1) = false -> own m1 = Some m2 -> P m2 -> run P (s ++ [None]) m m2
  | run_irq s m m1 i : run P s m m1 -> rebooted (m_board m1) = false -> P (interrupt i m1) -> run P (s ++ [Some i]) m (interrupt i m1).

End main.
Arguments board F W : clear implicits.
Arguments machine F W : clear implicits.
Arguments script W : clear implicits.
