(* ===== verification/MainSafety.v ===== *)
(** * What the main loop guarantees

    Queued work is never slept on; the watchdog is fed last in each pass, besides
    that only on the way into a low-power mode, and left alone in a trial. *)

From stdpp Require Import base tactics list numbers option.
From S2P Require Import Prelude BridgeHw Wire OtaLayout Flash BootConfig Ota Protocol I2cBackend Power PowerLog PowerSafety Main.

Section safety.
Context {F W : Type} `{FlashHal F} `{BridgeHw W} `{!BaseHw W} `{!PowerHw W} `{!I2cSlaveHw W} `{BuildId}.
Variable b : app_build.
Implicit Types m : machine F W.
Implicit Types x : board F W.

(** ** What a dispatch and a tick call leave alone *)

Ltac split_all := repeat first [reflexivity | match goal with |- context [match ?x with _ => _ end] => destruct x end].

Lemma h_begin_trial (f : F) s req cap : s_trial (h_begin b f s req cap).1.2 = s_trial s.
Proof. unfold h_begin. cbv zeta. split_all. Qed.
Lemma h_write_trial (f : F) s req cap : s_trial (h_write f s req cap).1.2 = s_trial s.
Proof. unfold h_write. cbv zeta. split_all. Qed.
Lemma h_verify_trial (f : F) s cap : s_trial (h_verify f s cap).1.2 = s_trial s.
Proof. unfold h_verify. cbv zeta. split_all. Qed.
Lemma h_commit_trial (f : F) s : s_trial (h_commit b f s).1.2 = s_trial s.
Proof. unfold h_commit. cbv zeta. split_all. Qed.
Lemma h_rollback_trial (f : F) s : s_trial (h_rollback b f s).1.2 = s_trial s.
Proof. unfold h_rollback. cbv zeta. split_all. Qed.

Lemma ota_dispatch_trial (f : F) s cmd req cap : s_trial (ota_dispatch b f s cmd req cap).1.2 = s_trial s.
Proof.
  unfold ota_dispatch. destruct (negb _); [done |]. set (y := match cmd_of_code cmd with Some CMD_OTA_BEGIN => _ | _ => _ end).
  assert (E : s_trial y.1.2 = s_trial s).
  { unfold y. destruct (cmd_of_code cmd) as [[] |]; try reflexivity;
      [apply h_begin_trial | apply h_write_trial | apply h_verify_trial | apply h_commit_trial | apply h_rollback_trial]. }
  clearbody y. by destruct y as [[? ?] [? ?]].
Qed.

Lemma dispatch_trial link cmd req cap (s : bridge F W) : s_trial (br_ota (protocol_dispatch b link cmd req cap s).1) = s_trial (br_ota s).
Proof.
  unfold protocol_dispatch. destruct (dispatch_in_flight s); [done |]. unfold protocol_dispatch_inner.
  set (s1 := set_in_flight true s). assert (E1 : br_ota s1 = br_ota s) by done. rewrite <- E1. clearbody s1. clear s E1.
  unfold ota_trial_unconfirmed. destruct (s_trial (br_ota s1)) eqn:Et; [exact Et |].
  assert (U : forall P : bridge F W -> Prop, P s1 -> P (set_ota (bl_dispatch_ota b (br_flash s1) (br_ota s1) cmd req cap).1.1
      (bl_dispatch_ota b (br_flash s1) (br_ota s1) cmd req cap).1.2 s1) ->
    P (if cmd_code CMD_OTA_BEGIN <=? cmd
       then let '(f, o, r) := bl_dispatch_ota b (br_flash s1) (br_ota s1) cmd req cap in (set_ota f o s1, r)
       else (s1, (STATUS_NOSUPPORT, Some []))).1).
  { intros P P1 P2. destruct (_ <=? _); [| done]. by destruct (bl_dispatch_ota _ _ _ _ _ _) as [[? ?] ?]. }
  assert (E : forall y : bridge F W * reply, s_trial (br_ota y.1) = false ->
    s_trial (br_ota (let '(s, r) := y in (set_in_flight false s, r)).1) = false) by (by intros [? ?]).
  apply E. assert (Un : s_trial (br_ota (if cmd_code CMD_OTA_BEGIN <=? cmd
       then let '(f, o, r) := bl_dispatch_ota b (br_flash s1) (br_ota s1) cmd req cap in (set_ota f o s1, r)
       else (s1, (STATUS_NOSUPPORT, Some []))).1) = false).
  { apply (U (fun s => s_trial (br_ota s) = false)); [done |]. cbn [set_ota br_ota]. rewrite <- Et. apply ota_dispatch_trial. }
  destruct (cmd_of_code cmd) as [c |]; [| exact Un].
  assert (T : forall h : handler W, s_trial (br_ota (let '(w, r) := h req cap (br_hw s1) in (set_hw w s1, r)).1) = false)
    by (intros h; by destruct (h req cap (br_hw s1))).
  destruct c; try exact Un; try apply T.
  - by destruct (handle_boot_config _ _ _ _ _).
  - by destruct (handle_link_features _ _ _ _) as [? ?].
Qed.

(** A queued SET stays queued. *)
Lemma dispatch_pending link cmd req cap (s : bridge F W) :
  s_pending (br_bcfg s) = true -> br_bcfg (protocol_dispatch b link cmd req cap s).1 = br_bcfg s.
Proof.
  intros Hp. unfold protocol_dispatch. destruct (dispatch_in_flight s); [done |]. unfold protocol_dispatch_inner.
  set (s1 := set_in_flight true s). assert (E1 : br_bcfg s1 = br_bcfg s) by done. rewrite <- E1 in *. clearbody s1. clear s E1.
  destruct (ota_trial_unconfirmed _); [done |].
  assert (E : forall y : bridge F W * reply, br_bcfg y.1 = br_bcfg s1 ->
    br_bcfg (let '(s, r) := y in (set_in_flight false s, r)).1 = br_bcfg s1) by (by intros [? ?]).
  apply E. assert (Un : br_bcfg (if cmd_code CMD_OTA_BEGIN <=? cmd
       then let '(f, o, r) := bl_dispatch_ota b (br_flash s1) (br_ota s1) cmd req cap in (set_ota f o s1, r)
       else (s1, (STATUS_NOSUPPORT, Some []))).1 = br_bcfg s1).
  { destruct (_ <=? _); [| done]. by destruct (bl_dispatch_ota _ _ _ _ _ _) as [[? ?] ?]. }
  destruct (cmd_of_code cmd) as [c |]; [| exact Un].
  assert (T : forall h : handler W, br_bcfg (let '(w, r) := h req cap (br_hw s1) in (set_hw w s1, r)).1 = br_bcfg s1)
    by (intros h; by destruct (h req cap (br_hw s1))).
  destruct c; try exact Un; try apply T.
  - assert (K : (handle_boot_config req cap (br_flash s1) (br_ota s1) (br_bcfg s1)).1 = br_bcfg s1).
    { unfold handle_boot_config, boot_config_request. rewrite Hp. cbv zeta. split_all. }
    destruct (handle_boot_config _ _ _ _ _). exact K.
  - by destruct (handle_link_features _ _ _ _) as [? ?].
Qed.

Lemma isr_trial x i : s_trial (br_ota (bd (isr b x i))) = s_trial (br_ota (bd x)).
Proof. unfold isr. destruct (rebooted x); [done |]. destruct i; [apply dispatch_trial | done..]. Qed.
Lemma isrs_trial l x : s_trial (br_ota (bd (foldl (isr b) x l))) = s_trial (br_ota (bd x)).
Proof. revert x. induction l as [| i l IH]; intros x; [done |]. cbn [foldl]. by rewrite IH, isr_trial. Qed.

Lemma isr_armed x i : fwdgt_armed (isr b x i) = fwdgt_armed x.
Proof. unfold isr. destruct (rebooted x); [done |]. by destruct i. Qed.
Lemma isrs_armed l x : fwdgt_armed (foldl (isr b) x l) = fwdgt_armed x.
Proof. revert x. induction l as [| i l IH]; intros x; [done |]. cbn [foldl]. by rewrite IH, isr_armed. Qed.

Lemma isr_pending x i : s_pending (br_bcfg (bd x)) = true -> br_bcfg (bd (isr b x i)) = br_bcfg (bd x).
Proof. intros Hp. unfold isr. destruct (rebooted x); [done |]. destruct i; [by apply dispatch_pending | done..]. Qed.
Lemma isrs_pending l : forall x, s_pending (br_bcfg (bd x)) = true -> br_bcfg (bd (foldl (isr b) x l)) = br_bcfg (bd x).
Proof. induction l as [| i l IH]; intros x Hp; [done |]. cbn [foldl]. rewrite IH by (by rewrite isr_pending). by apply isr_pending. Qed.

Lemma publish_trial o sn res : s_trial (tick_publish o sn res) = s_trial o.
Proof. unfold tick_publish. cbv zeta. split_all. Qed.
Lemma confirm_trial (f : F) o : s_trial (ota_confirm_tick b f o).2 = s_trial o.
Proof. unfold ota_confirm_tick. split_all. Qed.

(** ** One call of the tick *)

Lemma run_trial c x : s_trial (br_ota (bd (tick_run b c x).1.1)) = s_trial (br_ota (bd x)).
Proof.
  destruct c; cbn [tick_run fst]; try done.
  - by destruct (ota_fmc_erase_range _ _ _).
  - cbn. apply publish_trial.
  - unfold tick_boot_config. by destruct (boot_config_tick _ _ _).
  - unfold on_ota. pose proof (confirm_trial (br_flash (bd x)) (br_ota (bd x))) as C. by destruct (ota_confirm_tick _ _ _).
  - unfold tick_power. by destruct (bridge_power_tick _ _ _) as [[? ?] ?].
  - unfold tick_watchdog. destruct (ota_trial_unconfirmed _); [done |]. destruct (negb _); [| done]. by destruct (bridge_fwdgt_arm _).
Qed.

Lemma power_feeds x : fed_on_entry (tick_power x).2 /\ (s_trial (br_ota (bd x)) = true -> feeds (tick_power x).2 = 0%nat).
Proof.
  unfold tick_power. set (trial := ota_trial_unconfirmed (br_ota (bd x))). set (w := br_hw (bd x)).
  pose proof (tick_fed trial ((w, []) : traced W) (power_statics w)) as T.
  destruct (bridge_power_tick trial _ _) as [y sw]. destruct T as (l & E & T). unfold extends in E. cbn [snd app] in *. rewrite E. exact T.
Qed.

(** ** The log *)

(** The seven calls of a pass before its watchdog step. *)
Definition whole_pass : list event := EvCall <$> take 7 tick_calls.

(** [passes log l]: every watchdog step in [log] came after the seven calls of its
    own pass, in order; the calls of the power tick, the last of the seven, feed the
    watchdog once at most, right after the link check passed; [l] is what was logged
    since the last watchdog step, sleeps apart. *)
Inductive passes : list event -> list event -> Prop :=
  | passes_nil : passes [] []
  | passes_call log l c : passes log l -> passes (log ++ [EvCall c]) (l ++ [EvCall c])
  | passes_power log pl : passes log whole_pass -> fed_on_entry pl -> passes (log ++ [EvPower pl]) (whole_pass ++ [EvPower pl])
  | passes_watchdog log pl a : passes log (whole_pass ++ [EvPower pl]) -> passes (log ++ [EvWatchdog a]) []
  | passes_sleep log l : passes log l -> passes (log ++ [EvSleep]) l.

Definition act_of (e : event) : list fwdgt_act := match e with EvWatchdog a => [a] | _ => [] end.
Definition acts (log : list event) : list fwdgt_act := concat (act_of <$> log).

Lemma acts_app l1 l2 : acts (l1 ++ l2) = acts l1 ++ acts l2.
Proof. unfold acts. by rewrite fmap_app, concat_app. Qed.

(** No power tick feeds the watchdog. *)
Definition unfed (log : list event) : Prop := forall pl, EvPower pl ∈ log -> feeds pl = 0%nat.

(** The watchdog of a boot: untouched in a trial, else armed once, then fed. *)
Definition watchdog_ok (trial armed : bool) (log : list event) : Prop :=
  if trial then armed = false /\ Forall (eq FwdgtLeft) (acts log) /\ unfed log
  else if armed then exists failed n, acts log = FwdgtArm failed :: replicate n FwdgtFeed else acts log = [].

(** What is left of a tick, [l] of its calls being done. *)
Inductive left_ok : list tick_call -> list tick_call -> Prop :=
  | left_none : left_ok [] []
  | left_calls l c cs : l ++ c :: cs = tick_calls -> left_ok l (c :: cs)
  | left_flash sn : left_ok (take 3 tick_calls) (TkEraseFlash sn :: drop 3 tick_calls)
  | left_publish sn res : left_ok (take 3 tick_calls) (TkErasePublish sn res :: drop 3 tick_calls).

(** The calls of the power tick are logged with it. *)
Definition power_logged (l : list tick_call) (e : list event) : Prop :=
  match e with [] => l <> take 7 tick_calls | [EvPower _] => l = take 7 tick_calls | _ => False end.

(** The invariant of a boot that began with the trial verdict [trial]. *)
Record loop_inv (trial : bool) m : Prop := {
  li_sleep : m_pos m = Wfi -> bridge_hw_work_pending (bd (m_board m)) = false;
  li_trial : s_trial (br_ota (bd (m_board m))) = trial;
  li_pass : exists l e, passes (m_log m) ((EvCall <$> l) ++ e) /\ power_logged l e /\
    match m_pos m with Tick cs => left_ok l cs | _ => l = [] end;
  li_acts : watchdog_ok trial (fwdgt_armed (m_board m)) (m_log m) }.

Lemma inv_irq trial m i : loop_inv trial m -> loop_inv trial (interrupt b i m).
Proof.
  destruct m as [x p irqs log]. intros [S T P A]. cbn [m_board m_pos m_irqs m_log interrupt] in *.
  destruct (masked p) eqn:Ep; [by split |]. split; cbn [m_board m_pos m_irqs m_log]; [| by rewrite isr_trial | exact P | by rewrite isr_armed].
  intros ->. done.
Qed.

Lemma run_armed c x : match c with TkWatchdog => True | _ => fwdgt_armed (tick_run b c x).1.1 = fwdgt_armed x end.
Proof.
  destruct c; cbn [tick_run]; try done.
  - by destruct (ota_fmc_erase_range _ _ _).
  - unfold tick_boot_config. by destruct (boot_config_tick _ _ _).
  - unfold on_ota. by destruct (ota_confirm_tick _ _ _).
  - unfold tick_power. by destruct (bridge_power_tick _ _ _) as [[? ?] ?].
Qed.

(** A call logs itself, after what it commits; the power tick also its calls, and
    only the watchdog step logs an act. *)
Lemma run_passes c x log l e :
  passes log ((EvCall <$> l) ++ e) -> power_logged l e ->
  match c with
  | TkEraseFlash _ | TkErasePublish _ _ => passes (log ++ (tick_run b c x).2) ((EvCall <$> l) ++ e)
  | TkWatchdog => l = take 7 tick_calls -> passes (log ++ (tick_run b c x).2) []
  | TkPower => e = [] -> l = take 6 tick_calls -> exists pl, passes (log ++ (tick_run b c x).2) ((EvCall <$> l ++ [c]) ++ [EvPower pl])
  | _ => e = [] -> passes (log ++ (tick_run b c x).2) ((EvCall <$> l ++ [c]) ++ [])
  end.
Proof.
  intros P He. destruct c; cbn [tick_run snd]; try (intros ->; rewrite app_nil_r, fmap_app in *; by apply passes_call).
  - destruct (ota_fmc_erase_range _ _ _). by rewrite app_nil_r.
  - by rewrite app_nil_r.
  - intros -> ->. pose proof (proj1 (power_feeds x)) as Fd. destruct (tick_power x) as [x' pl]. cbn [snd] in *.
    rewrite app_nil_r in P. apply (passes_call _ _ TkPower) in P. exists pl.
    change (log ++ [EvCall TkPower; EvPower pl]) with (log ++ [EvCall TkPower] ++ [EvPower pl]). rewrite app_assoc. by apply passes_power.
  - intros ->. destruct (tick_watchdog x) as [x' a]. cbn [snd] in *. destruct e as [| [] [|]]; try done. by eapply passes_watchdog.
Qed.

Lemma unfed_app l1 l2 : unfed l1 -> unfed l2 -> unfed (l1 ++ l2).
Proof. intros H1' H2' pl [|]%elem_of_app; auto. Qed.

Lemma watchdog_sleep trial armed log : watchdog_ok trial armed log -> watchdog_ok trial armed (log ++ [EvSleep]).
Proof.
  unfold watchdog_ok. rewrite acts_app, app_nil_r. destruct trial; [| done]. intros (A1 & A2 & A3). split; [done |]. split; [done |].
  apply unfed_app; [done |]. by intros pl [=]%list_elem_of_singleton.
Qed.

(** What a call other than the watchdog step logs has no act, and in a trial no feed. *)
Lemma run_unfed c x : c <> TkWatchdog ->
  acts (tick_run b c x).2 = [] /\ (s_trial (br_ota (bd x)) = true -> unfed (tick_run b c x).2).
Proof.
  intros Hc. assert (O : forall c', unfed [EvCall c']) by (intros c' pl [=]%list_elem_of_singleton).
  assert (N : unfed []) by (intros pl []%not_elem_of_nil).
  destruct c; cbn [tick_run snd]; try done; try (by split; [| intros _; apply O]).
  - destruct (ota_fmc_erase_range _ _ _). by split.
  - pose proof (proj2 (power_feeds x)) as Fd. destruct (tick_power x) as [x' pl]. cbn [snd] in *. split; [done |]. intros Ht.
    intros pl' [E | [= ->]%list_elem_of_singleton]%elem_of_cons; [done | auto].
Qed.

Lemma run_acts trial c x log : s_trial (br_ota (bd x)) = trial -> watchdog_ok trial (fwdgt_armed x) log ->
  watchdog_ok trial (fwdgt_armed (tick_run b c x).1.1) (log ++ (tick_run b c x).2).
Proof.
  intros T A. pose proof (run_unfed c x) as N. pose proof (run_armed c x) as R.
  assert (Other : c <> TkWatchdog -> fwdgt_armed (tick_run b c x).1.1 = fwdgt_armed x ->
    watchdog_ok trial (fwdgt_armed (tick_run b c x).1.1) (log ++ (tick_run b c x).2)).
  { intros Hc ->. destruct (N Hc) as [Na Nf]. unfold watchdog_ok in *. rewrite acts_app, Na, app_nil_r. destruct trial; [| done].
    destruct A as (A1 & A2 & A3). split; [done |]. split; [done |]. by apply unfed_app; [| apply Nf]. }
  destruct c; try (by apply Other). clear N R Other. cbn [tick_run]. unfold tick_watchdog, ota_trial_unconfirmed.
  rewrite T. unfold watchdog_ok in *. destruct trial.
  - destruct A as (A1 & A2 & A3). cbn [fst snd]. split; [done |]. rewrite acts_app. split; [apply Forall_app; split; [done | by constructor] |].
    apply unfed_app; [done |]. by intros pl [=]%list_elem_of_singleton.
  - destruct (fwdgt_armed x) eqn:Ea; cbn [negb] in *.
    + destruct A as (failed & n & A). cbn [fst snd fwdgt_armed on_hw set_bd]. rewrite Ea, acts_app, A. exists failed, (S n). cbn. f_equal.
      clear. induction n as [| n IH]; [done |]. cbn. by f_equal.
    + destruct (bridge_fwdgt_arm _) as [w failed]. cbn [fst snd fwdgt_armed]. rewrite acts_app, A. by exists failed, O.
Qed.

Lemma left_cons l c cs : left_ok l (c :: cs) ->
  match c with
  | TkEraseFlash sn => forall res, left_ok l (TkErasePublish sn res :: cs)
  | TkErasePublish _ _ => left_ok l cs
  | TkErase => forall more, more = [] \/ (exists sn, more = [TkEraseFlash sn]) -> left_ok (l ++ [c]) (more ++ cs)
  | TkWatchdog => l = take 7 tick_calls /\ cs = []
  | _ => left_ok (l ++ [c]) cs
  end.
Proof.
  inversion 1 as [| l' c' cs' E |sn |sn res]; subst; [| intros res; apply left_publish |]; [| change (drop 3 tick_calls) with (TkBootConfig :: drop 4 tick_calls); by apply left_calls].
  unfold tick_calls in E.
  do 8 (destruct l as [| ? l]; [injection E as -> ->;
    first [by apply left_calls | done | intros more [-> | (sn & ->)]; [by apply left_calls | apply left_flash]] | injection E as -> E]).
  by destruct l.
Qed.

(** The power tick is the seventh call. *)
Lemma left_power l cs : left_ok l (TkPower :: cs) -> l = take 6 tick_calls.
Proof.
  inversion 1 as [| l' c' cs' E | |]; subst. unfold tick_calls in E.
  do 8 (destruct l as [| ? l]; [by injection E | injection E as -> E]). by destruct l.
Qed.

(** Only the watchdog step is left once seven calls ran. *)
Lemma left_last c cs : left_ok (take 7 tick_calls) (c :: cs) -> c = TkWatchdog.
Proof. inversion 1 as [| l' c' cs' E | |]; subst. by injection E. Qed.

Lemma not_yet l c : c <> TkPower -> power_logged (l ++ [c]) [].
Proof. intros Hc E. change (take 7 tick_calls) with (take 6 tick_calls ++ [TkPower]) in E. by apply app_inj_tail in E as [_ ?]. Qed.

Lemma run_more c x : match c with
  | TkErase => (tick_run b c x).1.2 = [] \/ exists sn, (tick_run b c x).1.2 = [TkEraseFlash sn]
  | TkEraseFlash sn => exists res, (tick_run b c x).1.2 = [TkErasePublish sn res]
  | _ => (tick_run b c x).1.2 = []
  end.
Proof.
  destruct c; cbn [tick_run]; try done.
  - destruct (tick_snapshot _) as [sn |]; cbn; [right; by exists sn | by left].
  - destruct (ota_fmc_erase_range _ _ _) as [f res]. by exists res.
  - by destruct (tick_power x).
  - by destruct (tick_watchdog x).
Qed.

Lemma inv_tick trial x c cs irqs log : loop_inv trial (Machine x (Tick (c :: cs)) irqs log) ->
  let '(x', more, evs) := tick_run b c x in loop_inv trial (Machine x' (Tick (more ++ cs)) irqs (log ++ evs)).
Proof.
  intros [S T (l & e & P & He & L) A]. cbn [m_board m_pos m_irqs m_log] in *.
  pose proof (run_trial c x) as Rt. pose proof (run_passes c x log l e P He) as Rp. pose proof (run_acts trial c x log T A) as Ra.
  pose proof (left_cons l c cs L) as Lc. pose proof (run_more c x) as M.
  assert (E0 : c <> TkWatchdog -> e = []).
  { intros Hc. destruct e as [| [] [|]]; try done. cbn in He. subst l. by apply left_last in L. }
  destruct (tick_run b c x) as [[x' more] evs]. cbn [fst snd] in *. split; cbn [m_board m_pos m_irqs m_log]; [done | congruence | | exact Ra].
  destruct c; try (specialize (E0 ltac:(done)); subst e more; eexists _, []; split; [by apply Rp | split; [by apply not_yet | exact Lc]]).
  - specialize (E0 ltac:(done)). exists (l ++ [TkErase]), []. split; [by apply Rp |]. split; [by apply not_yet | apply Lc, M].
  - destruct M as (res & ->). exists l, e. split; [exact Rp | split; [done | apply Lc]].
  - subst more. exists l, e. split; [exact Rp | by split].
  - specialize (E0 ltac:(done)). subst more. pose proof (left_power _ _ L) as El. destruct (Rp E0 El) as (pl & P').
    exists (l ++ [TkPower]), [EvPower pl]. split; [exact P' |]. split; [by rewrite El | exact Lc].
  - destruct Lc as (-> & ->). subst more. exists [], []. split; [by apply Rp | split; [done | apply left_none]].
Qed.

Lemma inv_own trial m m' : loop_inv trial m -> own b m = Some m' -> loop_inv trial m'.
Proof.
  destruct m as [x p irqs log]. intros I. pose proof I as [S T (l & e & P & He & L) A]. cbn [m_board m_pos m_irqs m_log own] in *.
  destruct p as [| | | | [| c cs]].
  - intros [= <-]. split; cbn; [done | done | by exists l, e | done].
  - subst l. destruct (bridge_hw_work_pending (bd x)) eqn:E; intros [= <-]; split; cbn [m_board m_pos m_irqs m_log]; try done.
    + by exists [], e.
    + exists [], e. split; [by apply passes_sleep | done].
    + by apply watchdog_sleep.
  - destruct irqs; [done |]. intros [= <-]. split; cbn; [done | done | by exists l, e | done].
  - intros [= <-]. subst l. split; cbn [m_board m_pos m_irqs m_log]; [done | by rewrite isrs_trial | | by rewrite isrs_armed].
    exists [], e. split; [done | split; [done | by apply left_calls]].
  - intros [= <-]. split; cbn; [done | done | | done]. exists l, e. split; [done | split; [done | by inversion L]].
  - pose proof (inv_tick trial x c cs irqs log I) as G. destruct (tick_run b c x) as [[x' more] evs]. by intros [= <-].
Qed.

Lemma inv_run trial P s m m' : run b P s m m' -> loop_inv trial m -> loop_inv trial m'.
Proof. induction 1; intros I; [done | | ]; [eapply inv_own; [| done]; auto | apply inv_irq; auto]. Qed.

Definition boot_trial (f0 : F) (w0 : W) : bool := s_trial (br_ota (bd (m_board (main_boot b f0 w0)))).

Lemma inv_boot f0 w0 : loop_inv (boot_trial f0 w0) (main_boot b f0 w0).
Proof.
  unfold boot_trial, main_boot. destruct (boot_config_apply _ _ _) as [c w]. destruct (ota_boot_init b f0 (ota_init b)) as [f o]. cbn.
  split; cbn; [done | done | exists [], []; split; [apply passes_nil | done] |]. destruct (s_trial o); [| done].
  split; [done |]. split; [constructor |]. by intros pl []%not_elem_of_nil.
Qed.

(** ** Queued work *)

(** No erase walk runs and the flash is free. *)
Definition flash_free m : Prop :=
  ota_erase_active (br_ota (bd (m_board m))) = false /\ ota_fmc_funnel_busy (br_flash (bd (m_board m))) = false.

(** Steps of [main] to the call that commits, at most. *)
Definition weight (c : tick_call) : nat := match c with TkErase => 3 | TkEraseFlash _ => 2 | _ => 1 end.
Fixpoint to_commit (cs : list tick_call) : option nat :=
  match cs with
  | [] => None
  | TkBootConfig :: _ => Some 1%nat
  | c :: cs => (Nat.add (weight c)) <$> to_commit cs
  end.
Definition distance (p : pos) : nat :=
  match p with
  | Wfi => 0 | Unmask => 7 | Check => 8 | Top => 9
  | Tick cs => match to_commit cs with Some n => n | None => length cs + 10 end
  end.

Lemma distance_bound l cs : left_ok l cs -> (1 <= distance (Tick cs) <= 14)%nat.
Proof.
  inversion 1 as [| l' c cs' E | |]; subst; cbn; try lia. unfold tick_calls in E.
  do 8 (destruct l as [| ? l]; [injection E as -> ->; cbn; lia | injection E as -> E]). by destruct l.
Qed.

(** What waits: a state on the way to the commit of [c]. *)
Definition waiting (c : bcfg) m : Prop := br_bcfg (bd (m_board m)) = c /\ m_pos m <> Wfi.

Lemma run_bcfg k x : match k with TkBootConfig => True | _ => br_bcfg (bd (tick_run b k x).1.1) = br_bcfg (bd x) end.
Proof.
  destruct k; cbn [tick_run]; try done.
  - by destruct (ota_fmc_erase_range _ _ _).
  - unfold on_ota. by destruct (ota_confirm_tick _ _ _).
  - unfold tick_power. by destruct (bridge_power_tick _ _ _) as [[? ?] ?].
  - unfold tick_watchdog. destruct (ota_trial_unconfirmed _); [done |]. destruct (negb _); [| done]. by destruct (bridge_fwdgt_arm _).
Qed.

Lemma run_quiet k x : EvSleep ∉ (tick_run b k x).2.
Proof.
  destruct k; cbn [tick_run snd]; try apply not_elem_of_nil; try (apply not_elem_of_cons; split; [done | apply not_elem_of_nil]).
  - destruct (ota_fmc_erase_range _ _ _). apply not_elem_of_nil.
  - destruct (tick_power x) as [x' pl]. cbn [snd]. rewrite !not_elem_of_cons. split; [done |]. split; [done | apply not_elem_of_nil].
  - destruct (tick_watchdog x). apply not_elem_of_cons; split; [done | apply not_elem_of_nil].
Qed.

(** Every call but the commit brings the commit nearer. *)
Lemma run_nearer l k cs x : left_ok l (k :: cs) -> ota_erase_active (br_ota (bd x)) = false ->
  k = TkBootConfig \/ (distance (Tick ((tick_run b k x).1.2 ++ cs)) < distance (Tick (k :: cs)))%nat.
Proof.
  intros L Fe. inversion L as [| l' k' cs' E | |]; subst; [| right | right].
  - unfold tick_calls in E. do 8 (destruct l as [| ? l]; [injection E as -> ->; clear L;
      first [by left | right; cbn; lia | right; cbn [tick_run fst snd]; unfold tick_snapshot; unfold ota_erase_active in Fe; rewrite Fe; cbn; lia
            | right; cbn [tick_run]; destruct (tick_watchdog x); cbn; lia
            | right; cbn [tick_run]; destruct (tick_power x); cbn; lia] | injection E as -> E]).
    by destruct l.
  - cbn [tick_run]. destruct (ota_fmc_erase_range _ _ _). cbn. lia.
  - cbn. lia.
Qed.

Lemma commit_now c x : s_pending c = true -> br_bcfg (bd x) = c -> ota_erase_active (br_ota (bd x)) = false -> ota_fmc_funnel_busy (br_flash (bd x)) = false ->
  br_flash (bd (tick_boot_config x)) = (boot_config_store (br_flash (bd x)) (s_pending_flags c)).1 /\
  boot_config_pending (br_bcfg (bd (tick_boot_config x))) = None.
Proof.
  intros Hp C Fe Ff. unfold tick_boot_config, boot_config_tick. rewrite C, Hp, Fe, Ff. cbn [negb orb].
  by destruct (boot_config_store (br_flash (bd x)) (s_pending_flags c)).
Qed.

Lemma waiting_own trial c m m' : s_pending c = true -> loop_inv trial m -> flash_free m -> waiting c m -> own b m = Some m' ->
  (br_flash (bd (m_board m')) = (boot_config_store (br_flash (bd (m_board m))) (s_pending_flags c)).1 /\
   boot_config_pending (br_bcfg (bd (m_board m'))) = None) \/
  (waiting c m' /\ (distance (m_pos m') < distance (m_pos m))%nat /\ exists evs, m_log m' = m_log m ++ evs /\ EvSleep ∉ evs).
Proof.
  destruct m as [x p irqs log]. intros Hp [S T (l & e & P & _ & L) A] (Fe & Ff) (C & N). cbn [m_board m_pos m_irqs m_log own] in *.
  assert (Same : forall y q js, br_bcfg (bd y) = c -> q <> Wfi -> (distance q < distance p)%nat -> Some (Machine y q js log) = Some m' ->
    waiting c m' /\ (distance (m_pos m') < distance p)%nat /\ exists evs, m_log m' = log ++ evs /\ EvSleep ∉ evs).
  { intros y q js Ey Nq D [= <-]. split; [done |]. split; [done |]. exists []. rewrite app_nil_r. split; [done | apply not_elem_of_nil]. }
  destruct p as [| | | | [| k cs]]; try done.
  - intros O. right. by apply (Same x Check irqs); [| | cbn; lia |].
  - unfold bridge_hw_work_pending, boot_config_pending in *. rewrite C, Hp, Fe in *. intros O. right. apply (Same x Unmask irqs); [done | done | cbn; lia | done].
  - intros O. right. apply (Same (foldl (isr b) x irqs) (Tick tick_calls) []); [by rewrite isrs_pending by (by rewrite C) | done | cbn; lia | done].
  - intros O. right. by apply (Same x Top irqs); [| | cbn; lia |].
  - pose proof (run_bcfg k x) as B. pose proof (run_quiet k x) as Q. 
    assert (K : k = TkBootConfig \/ br_bcfg (bd (tick_run b k x).1.1) = c) by (destruct k; auto; right; congruence).
    assert (Now : k = TkBootConfig \/ k <> TkBootConfig /\ br_bcfg (bd (tick_run b k x).1.1) = c /\
      (distance (Tick ((tick_run b k x).1.2 ++ cs)) < distance (Tick (k :: cs)))%nat)
      by (destruct K as [-> | K]; [by left | destruct (run_nearer l k cs x L Fe) as [-> | D]; [by left | destruct k; auto]]).
    destruct Now as [-> | (_ & B' & D)].
    + cbn [tick_run]. intros [= <-]. left. by apply commit_now.
    + intros O. right. destruct (tick_run b k x) as [[x' more] evs]. cbn [fst snd] in *. injection O as <-.
      split; [done |]. split; [exact D |]. by exists evs.
Qed.

Lemma waiting_irq c m i : s_pending c = true -> waiting c m -> waiting c (interrupt b i m) /\ m_pos (interrupt b i m) = m_pos m /\ m_log (interrupt b i m) = m_log m.
Proof.
  destruct m as [x p irqs log]. intros Hp (C & N). cbn [m_board m_pos m_log interrupt] in *. destruct (masked p); [done |].
  split; [split; [| done] | done]. cbn [m_board]. by rewrite isr_pending, C by (by rewrite C).
Qed.

(** On the run of [s] from [m] to [m'] the queued SET [c] was committed: by one of
    its first 14 steps of [main], to what the store of its flags gives, the queue
    then being empty, without a sleep before. *)
Definition stored_on (c : bcfg) (s : script W) m m' : Prop := exists s1 s2 m1 m2 evs,
  s = s1 ++ None :: s2 /\ (owns s1 < 14)%nat /\
  run b flash_free s1 m m1 /\ own b m1 = Some m2 /\ run b flash_free s2 m2 m' /\
  m_log m1 = m_log m ++ evs /\ (EvSleep ∉ evs) /\
  br_flash (bd (m_board m2)) = (boot_config_store (br_flash (bd (m_board m1))) (s_pending_flags c)).1 /\
  boot_config_pending (br_bcfg (bd (m_board m2))) = None.

Lemma stored_further c s m m1 m2 e : stored_on c s m m1 ->
  (forall s2 m0, run b flash_free s2 m0 m1 -> run b flash_free (s2 ++ [e]) m0 m2) -> stored_on c (s ++ [e]) m m2.
Proof.
  intros (s1 & s2 & k1 & k2 & evs & -> & K1 & K2 & K3 & K4 & K) Hr. exists s1, (s2 ++ [e]), k1, k2, evs.
  split; [by rewrite <- app_assoc |]. split; [done |]. split; [done |]. split; [done |]. split; [by apply Hr | exact K].
Qed.

Lemma owns_app (s1 s2 : script W) : owns (s1 ++ s2) = (owns s1 + owns s2)%nat.
Proof. induction s1 as [| [i |] s1 IH]; cbn; [done | done | by f_equal]. Qed.

(** A pass has 14 steps to the commit at most, and one at least while it waits. *)
Lemma waiting_distance trial c m : loop_inv trial m -> waiting c m -> (1 <= distance (m_pos m) <= 14)%nat.
Proof.
  intros [_ _ (l & e & _ & _ & L) _] (_ & N). destruct (m_pos m) as [| | | | cs]; try (cbn; lia); [done |].
  by apply (distance_bound l).
Qed.

Lemma run_end P s m m' : run b P s m m' -> P m'.
Proof. by destruct 1. Qed.

Lemma waiting_run trial c m s m' : s_pending c = true -> loop_inv trial m -> waiting c m -> run b flash_free s m m' ->
  stored_on c s m m' \/
  (waiting c m' /\ (owns s + distance (m_pos m') <= distance (m_pos m))%nat /\ exists evs, m_log m' = m_log m ++ evs /\ EvSleep ∉ evs).
Proof.
  intros Hp I Wm. induction 1 as [m Hm | s m m1 m2 Hrun IH R O Hm | s m m1 i Hrun IH R Hm].
  - right. split; [done |]. split; [cbn; lia |]. exists []. rewrite app_nil_r. split; [done | apply not_elem_of_nil].
  - pose proof (inv_run _ _ _ _ _ Hrun I) as I1.
    destruct (IH I Wm) as [S1 | (W1 & D & evs & E & Q)]; [left; apply (stored_further _ _ _ m1); [done |]; intros s2 m0 Hs; by apply (run_own _ _ s2 m0 m1) |].
    destruct (waiting_own trial c m1 m2 Hp I1 (run_end _ _ _ _ Hrun) W1 O) as [(K1 & K2) | (W2 & D2 & evs2 & E2 & Q2)].
    + left. exists s, [], m1, m2, evs. pose proof (waiting_distance _ _ _ I Wm). pose proof (waiting_distance _ _ _ I1 W1).
      split; [done |]. split; [lia |]. split; [done |]. split; [done |]. split; [by apply run_here | done].
    + right. rewrite owns_app. cbn [owns]. split; [done |]. split; [lia |]. exists (evs ++ evs2). rewrite E2, E, app_assoc.
      split; [done |]. by rewrite not_elem_of_app.
  - destruct (IH I Wm) as [S1 | (W1 & D & evs & E & Q)]; [left; apply (stored_further _ _ _ m1); [done |]; intros s2 m0 Hs; by apply run_irq |].
    right. destruct (waiting_irq c m1 i Hp W1) as (W2 & -> & ->). rewrite owns_app. cbn [owns]. split; [done |].
    split; [lia | by exists evs].
Qed.


(** C33. The watchdog is fed by whole passes, and never in a trial.  In every state
    that boot, the loop and interrupts at any instant reach: every watchdog step of
    the tick closed a pass, after the pump, the reference, the erase step, the
    stored setting, the confirm tick, the bus poll and the power tick of its own, in
    that order; the calls of each power tick feed it once at most, right after the
    whole link check passed, which is on the way into a low-power mode; in a boot
    whose image is an unconfirmed trial no power tick feeds it and the closing step
    leaves it to the bootloader's deadline throughout; in any other the closing step
    arms it once, on the first pass, and feeds it on every later one. *)
Theorem watchdog_fed_by_whole_passes f0 w0 s m :
  run b (fun _ => True) s (main_boot b f0 w0) m ->
  (exists l, passes (m_log m) l) /\
  if boot_trial f0 w0 then Forall (eq FwdgtLeft) (acts (m_log m)) /\ unfed (m_log m)
  else acts (m_log m) = [] \/ exists failed n, acts (m_log m) = FwdgtArm failed :: replicate n FwdgtFeed.
Proof.
  intros R. destruct (inv_run _ _ _ _ _ R (inv_boot f0 w0)) as [_ _ (l & e & P & _) A]. split; [by eexists |].
  unfold watchdog_ok in A. destruct (boot_trial f0 w0); [apply A |]. destruct (fwdgt_armed _); [by right | by left].
Qed.

(** The tick of the machine, when no interrupt cuts in, is the tick of the code. *)
Fixpoint run_calls (fuel : nat) (cs : list tick_call) x : board F W :=
  match fuel, cs with
  | S fuel, c :: cs => let '(x, more, _) := tick_run b c x in run_calls fuel (more ++ cs) x
  | _, _ => x
  end.
Lemma erase_split x : on_ota ota_erase_tick x =
  match tick_snapshot (br_ota (bd x)) with
  | Some sn => let '(f, res) := ota_fmc_erase_range (br_flash (bd x)) (sn_at sn) OTA_PAGE_SIZE in
               on_ota (fun f o => (f, tick_publish o sn res)) (set_bd (set_ota f (br_ota (bd x)) (bd x)) x)
  | None => x
  end.
Proof.
  unfold on_ota at 1, ota_erase_tick. destruct (tick_snapshot _) as [sn |]; [| by destruct x as [[] ?]].
  by destruct (ota_fmc_erase_range _ _ _).
Qed.

(** The log the observer keeps of the power tick does not change it. *)
Lemma power_unlogged x : (tick_power x).1 = power_tick x.
Proof.
  unfold tick_power, power_tick. cbv zeta. set (trial := ota_trial_unconfirmed _). set (w := br_hw (bd x)).
  rewrite <- (bare_tick trial ((w, []) : traced W) (power_statics w)). by destruct (bridge_power_tick trial _ _) as [y sw].
Qed.

Lemma base_tick_uninterrupted x : run_calls 10 tick_calls x = bridge_hw_tick b x.
Proof.
  unfold bridge_hw_tick. cbv zeta. rewrite erase_split. cbn [run_calls tick_calls tick_run app].
  set (x1 := on_hw vref_tick (on_hw dsp_pump_tick x)). destruct (tick_snapshot (br_ota (bd x1))) as [sn |]; cbn [app run_calls tick_run].
  - destruct (ota_fmc_erase_range (br_flash (bd x1)) (sn_at sn) OTA_PAGE_SIZE) as [f res]. cbn [app run_calls tick_run].
    rewrite <- power_unlogged. destruct (tick_power _) as [x3 pl]. cbn [app run_calls tick_run fst]. by destruct (tick_watchdog x3).
  - rewrite <- power_unlogged. destruct (tick_power _) as [x3 pl]. cbn [app run_calls tick_run fst]. by destruct (tick_watchdog x3).
Qed.
End safety.
