(* ===== verification/Gpio.v ===== *)
(** * GPIO pads and the secure element's reset: [hal/gd32/gpio.c], [se_reset.c]

    The host's pads behind the compact mask numbering, promoted to inputs or
    outputs on first use, and the pad part of [bridge_hw_init]. *)

From stdpp Require Import base tactics list numbers option.
From S2P Require Import Prelude BridgeHw.

(** ** The ports *)

Inductive gpio_periph := GPIOA | GPIOB | GPIOC | GPIOD | GPIOE | GPIOF.
#[export] Instance gpio_periph_eq_dec : EqDecision gpio_periph.
Proof. solve_decision. Defined.

Inductive gpio_mode := GPIO_MODE_INPUT | GPIO_MODE_OUTPUT | GPIO_MODE_AF | GPIO_MODE_ANALOG.
#[export] Instance gpio_mode_eq_dec : EqDecision gpio_mode.
Proof. solve_decision. Defined.

(** Calls on a port; a set of pins is a mask.  Modes are set without a pull, output
    options are push-pull at 12 MHz. *)
Inductive gpio_op :=
  | gpio_mode_set (p : gpio_periph) (m : gpio_mode) (pins : Z)
  | gpio_output_options_set (p : gpio_periph) (pins : Z)
  | GPIO_BOP (p : gpio_periph) (v : Z)
  | gpio_bit_set (p : gpio_periph) (pins : Z)
  | gpio_bit_reset (p : gpio_periph) (pins : Z).

Class GpioHw (H : Type) := {
  gpio_do : H -> gpio_op -> H;
  gpio_input_port_get : H -> gpio_periph -> Z * H }.

Definition GPIO_PIN (n : Z) : Z := Z.shiftl 1 n.

Record gd32_gpio_pad := Pad { pad_periph : gpio_periph; pad_pin : Z }.

Definition gpio_pad_map : list gd32_gpio_pad :=
  [Pad GPIOB (GPIO_PIN 10); Pad GPIOA (GPIO_PIN 7); Pad GPIOA (GPIO_PIN 12); Pad GPIOB (GPIO_PIN 0);
   Pad GPIOC (GPIO_PIN 1); Pad GPIOF (GPIO_PIN 1); Pad GPIOB (GPIO_PIN 5); Pad GPIOC (GPIO_PIN 0);
   Pad GPIOC (GPIO_PIN 14); Pad GPIOC (GPIO_PIN 15); Pad GPIOB (GPIO_PIN 11); Pad GPIOE (GPIO_PIN 9);
   Pad GPIOD (GPIO_PIN 11); Pad GPIOD (GPIO_PIN 10); Pad GPIOE (GPIO_PIN 12); Pad GPIOD (GPIO_PIN 2);
   Pad GPIOD (GPIO_PIN 8); Pad GPIOD (GPIO_PIN 1); Pad GPIOE (GPIO_PIN 14); Pad GPIOE (GPIO_PIN 15);
   Pad GPIOB (GPIO_PIN 13)].

Definition GPIO_PAD_MAP_COUNT : nat := 21.
Definition GPIO_PAD_UNROUTED_MASK : Z := Z.shiftl 1 8.
Definition GPIO_PAD_BT_REG_ON : nat := 18.
Definition GPIO_PAD_WL_REG_ON : nat := 19.
Definition GPIO_PAD_CAN_STBY : nat := 20.

Definition pad (i : nat) : gd32_gpio_pad := default (Pad GPIOA 0) (gpio_pad_map !! i).

(** [for (i = 0; i < GPIO_PAD_MAP_COUNT; ++i)]. *)
Definition pads : list nat := seq 0 GPIO_PAD_MAP_COUNT.

Definition gpio_mapped_ports : list gpio_periph := [GPIOA; GPIOB; GPIOC; GPIOD; GPIOE; GPIOF].
Definition GPIO_MAPPED_PORT_COUNT : nat := 6.

Fixpoint port_index (ports : list gpio_periph) (periph : gpio_periph) : nat :=
  match ports with
  | [] => 0
  | p :: ports => if decide (p = periph) then 0 else S (port_index ports periph)
  end.
Definition gpio_mapped_port_index (periph : gpio_periph) : nat := port_index gpio_mapped_ports periph.

(** The statics of both files. *)
Record gpio_sw := GpioSw { gpio_is_output : list bool; gpio_input_promoted : list bool; se_rst_configured : bool }.

Definition flag (l : list bool) (i : nat) : bool := default false (l !! i).

Definition selected (mask : Z) (i : nat) : bool := negb (Z.land mask (Z.shiftl 1 (Z.of_nat i)) =? 0).

Section gpio.
Context {H : Type} `{!GpioHw H}.

Definition gpio_dos (h : H) (ops : list gpio_op) : H := foldl gpio_do h ops.

(** ** Read *)

(** The first loop of a read, one pad: its call and the new [gpio_input_promoted]. *)
Definition promote_input (mask : Z) (out : list bool) (acc : H * list bool) (i : nat) : H * list bool :=
  let '(h, promoted) := acc in
  if negb (selected mask i) || flag out i || flag promoted i then acc
  else (gpio_do h (gpio_mode_set (pad_periph (pad i)) GPIO_MODE_INPUT (pad_pin (pad i))), <[i := true]> promoted).

(** The second loop: the levels, with each port sampled once ([port_sampled] is
    the [option]); [None] is the error return. *)
Fixpoint sample_pads (mask : Z) (idx : list nat) (h : H) (levels : Z) (port_inputs : list (option Z)) : H * option Z :=
  match idx with
  | [] => (h, Some levels)
  | i :: idx =>
      if negb (selected mask i) then sample_pads mask idx h levels port_inputs
      else
        let port := gpio_mapped_port_index (pad_periph (pad i)) in
        if (port =? GPIO_MAPPED_PORT_COUNT)%nat then (h, None)
        else
          let '(v, h) :=
            match port_inputs !! port with
            | Some (Some v) => (v, h)
            | _ => let '(v, h) := gpio_input_port_get h (pad_periph (pad i)) in (u16 v, h)
            end in
          let levels := if negb (Z.land v (pad_pin (pad i)) =? 0) then Z.lor levels (Z.shiftl 1 (Z.of_nat i)) else levels in
          sample_pads mask idx h levels (<[port := Some v]> port_inputs)
  end.

(** The levels are meaningful on OK. *)
Definition bridge_hw_gpio_read_ (h : H) (w : gpio_sw) (mask : Z) : H * gpio_sw * (Z * Z) :=
  if negb (Z.land mask GPIO_PAD_UNROUTED_MASK =? 0) then (h, w, (BRIDGE_HW_ERR_NOTIMPL, 0))
  else
    let '(h, promoted) := foldl (promote_input mask (gpio_is_output w)) (h, gpio_input_promoted w) pads in
    let w := GpioSw (gpio_is_output w) promoted (se_rst_configured w) in
    let '(h, levels) := sample_pads mask pads h 0 (replicate GPIO_MAPPED_PORT_COUNT None) in
    match levels with
    | Some levels => (h, w, (BRIDGE_HW_OK, levels))
    | None => (h, w, (BRIDGE_HW_ERR_IO, 0))
    end.

(** ** Write *)

(** The first loop of a write: [bop_words] and [promote_pins]. *)
Definition add_pad (mask levels : Z) (out : list bool) (acc : option (list Z * list Z)) (i : nat) : option (list Z * list Z) :=
  match acc with
  | None => None
  | Some (bop_words, promote_pins) =>
      if negb (selected mask i) then acc
      else
        let port := gpio_mapped_port_index (pad_periph (pad i)) in
        if (port =? GPIO_MAPPED_PORT_COUNT)%nat then None
        else
          let word := if selected levels i then pad_pin (pad i) else u32 (Z.shiftl (pad_pin (pad i)) 16) in
          Some (alter (Z.lor word) port bop_words,
                if negb (flag out i) then alter (Z.lor (pad_pin (pad i))) port promote_pins else promote_pins)
  end.

(** The second loop: preload, output options and mode of a port's new outputs. *)
Definition promote_port (bop_words promote_pins : list Z) (port : nat) : list gpio_op :=
  let pins := promote_pins.[Z.of_nat port] in
  let p := default GPIOA (gpio_mapped_ports !! port) in
  if pins =? 0 then []
  else
    let preload_mask := Z.lor pins (u32 (Z.shiftl pins 16)) in
    [GPIO_BOP p (Z.land bop_words.[Z.of_nat port] preload_mask);
     gpio_output_options_set p pins; gpio_mode_set p GPIO_MODE_OUTPUT pins].

(** The last loop: one write per touched port. *)
Definition drive_port (bop_words : list Z) (port : nat) : list gpio_op :=
  let word := bop_words.[Z.of_nat port] in
  if negb (word =? 0) then [GPIO_BOP (default GPIOA (gpio_mapped_ports !! port)) word] else [].

Definition mark_output (mask : Z) (w : gpio_sw) (i : nat) : gpio_sw :=
  if selected mask i
  then GpioSw (<[i := true]> (gpio_is_output w)) (<[i := false]> (gpio_input_promoted w)) (se_rst_configured w)
  else w.

(** Every call of a write, in order. *)
Definition gpio_write_ops (bop_words promote_pins : list Z) : list gpio_op :=
  concat (promote_port bop_words promote_pins <$> seq 0 GPIO_MAPPED_PORT_COUNT) ++
  concat (drive_port bop_words <$> seq 0 GPIO_MAPPED_PORT_COUNT).

Definition bridge_hw_gpio_write_ (h : H) (w : gpio_sw) (mask levels : Z) : H * gpio_sw * Z :=
  if negb (Z.land mask GPIO_PAD_UNROUTED_MASK =? 0) then (h, w, BRIDGE_HW_ERR_NOTIMPL)
  else
    let zeros := replicate GPIO_MAPPED_PORT_COUNT 0 in
    match foldl (add_pad mask levels (gpio_is_output w)) (Some (zeros, zeros)) pads with
    | None => (h, w, BRIDGE_HW_ERR_IO)
    | Some (bop_words, promote_pins) =>
        (gpio_dos h (gpio_write_ops bop_words promote_pins), foldl (mark_output mask) w pads, BRIDGE_HW_OK)
    end.

(** ** The secure element's reset line *)

Definition SE_RST_PORT : gpio_periph := GPIOC.
Definition SE_RST_PIN : Z := GPIO_PIN 13.

Definition se_reset_drive (assert : Z) : gpio_op :=
  if assert =? 0 then gpio_bit_set SE_RST_PORT SE_RST_PIN else gpio_bit_reset SE_RST_PORT SE_RST_PIN.

Definition se_reset_configure : list gpio_op :=
  [gpio_bit_set SE_RST_PORT SE_RST_PIN; gpio_output_options_set SE_RST_PORT SE_RST_PIN;
   gpio_mode_set SE_RST_PORT GPIO_MODE_OUTPUT SE_RST_PIN].

Definition set_se_configured (w : gpio_sw) : gpio_sw := GpioSw (gpio_is_output w) (gpio_input_promoted w) true.

Definition se_reset_init (h : H) (w : gpio_sw) : H * gpio_sw :=
  (gpio_dos h (se_reset_configure ++ [se_reset_drive 0]), set_se_configured w).

Definition bridge_hw_se_reset_ (h : H) (w : gpio_sw) (assert : Z) : H * gpio_sw * Z :=
  if 1 <? assert then (h, w, BRIDGE_HW_ERR_INVAL)
  else
    let h := if se_rst_configured w then h else gpio_dos h se_reset_configure in
    (gpio_do h (se_reset_drive assert), set_se_configured w, BRIDGE_HW_OK).

(** ** The pads at boot *)

(** A pad driven from boot. *)
Definition boot_output (level : bool) (i : nat) : list gpio_op :=
  [if level then gpio_bit_set (pad_periph (pad i)) (pad_pin (pad i)) else gpio_bit_reset (pad_periph (pad i)) (pad_pin (pad i));
   gpio_output_options_set (pad_periph (pad i)) (pad_pin (pad i));
   gpio_mode_set (pad_periph (pad i)) GPIO_MODE_OUTPUT (pad_pin (pad i))].

Definition mark_boot_output (w : gpio_sw) (i : nat) : gpio_sw :=
  GpioSw (<[i := true]> (gpio_is_output w)) (gpio_input_promoted w) (se_rst_configured w).

(** The parked pads and those driven from boot. *)
Definition pads_boot (h : H) (w : gpio_sw) : H * gpio_sw :=
  let w := GpioSw (replicate GPIO_PAD_MAP_COUNT false) (gpio_input_promoted w) (se_rst_configured w) in
  let reg_on := seq GPIO_PAD_BT_REG_ON (S (GPIO_PAD_WL_REG_ON - GPIO_PAD_BT_REG_ON)) in
  let h := gpio_dos h (concat (boot_output false <$> reg_on)) in
  let w := foldl mark_boot_output w reg_on in
  (gpio_dos h (boot_output true GPIO_PAD_CAN_STBY), mark_boot_output w GPIO_PAD_CAN_STBY).

(** The pad part of [bridge_hw_init], from the statics' zeros. *)
Definition gpio_boot (h : H) : H * gpio_sw :=
  let falses := replicate GPIO_PAD_MAP_COUNT false in
  let '(h, w) := se_reset_init h (GpioSw falses falses false) in pads_boot h w.

End gpio.

(** ** What the port registers hold *)

(** A pin: its mode and its output latch ([GPIOx_OCTL]). *)
Record pin := Pin { pmode : gpio_mode; octl : bool }.

(** The documented effect of a call on pin [n] of port [q]; setting wins in BOP. *)
Definition pin_effect (op : gpio_op) (q : gpio_periph) (n : Z) (x : pin) : pin :=
  match op with
  | gpio_mode_set p m pins => if decide (p = q) then if Z.testbit pins n then Pin m (octl x) else x else x
  | gpio_output_options_set _ _ => x
  | GPIO_BOP p v =>
      if decide (p = q)
      then if Z.testbit v n then Pin (pmode x) true else if Z.testbit v (n + 16) then Pin (pmode x) false else x
      else x
  | gpio_bit_set p pins => if decide (p = q) then if Z.testbit pins n then Pin (pmode x) true else x else x
  | gpio_bit_reset p pins => if decide (p = q) then if Z.testbit pins n then Pin (pmode x) false else x else x
  end.

(** The ports as the firmware sees them: calls have their documented effect, and a
    sample of the input register changes no pin. *)
Class GpioLaws (H : Type) `{!GpioHw H} := {
  gpio_pin : H -> gpio_periph -> Z -> pin;
  gpio_do_pin h op q n : 0 <= n < 16 -> gpio_pin (gpio_do h op) q n = pin_effect op q n (gpio_pin h q n);
  gpio_get_pin h p q n : gpio_pin (gpio_input_port_get h p).2 q n = gpio_pin h q n }.
