(* ===== verification/GpioSafety.v ===== *)
(** * What the GPIO requests guarantee

    The words a write assembles, its effect on every pin at every intermediate
    moment, and the pads after any sequence of requests. *)

From stdpp Require Import base tactics list numbers option.
From S2P Require Import Prelude BridgeHw Gpio.

(** ** The table *)

(** The pin number of a pad, and its port's index. *)
Definition pad_no (i : nat) : Z := Z.log2 (pad_pin (pad i)).
Definition pad_port (i : nat) : nat := gpio_mapped_port_index (pad_periph (pad i)).

Lemma table_ok i : (i < 21)%nat ->
  pad_pin (pad i) = 2 ^ pad_no i /\ 0 <= pad_no i < 16 /\ (pad_port i < 6)%nat /\
  gpio_mapped_ports !! pad_port i = Some (pad_periph (pad i)) /\ (pad_periph (pad i), pad_no i) <> (SE_RST_PORT, 13).
Proof. intros Hi. do 21 (destruct i as [| i]; [vm_compute; split_and!; (done || lia || by intros [=]) |]). lia. Qed.

Lemma table_unique i j : (i < 21)%nat -> (j < 21)%nat -> pad_periph (pad i) = pad_periph (pad j) -> pad_no i = pad_no j -> i = j.
Proof.
  intros Hi Hj Ep En.
  assert (T : forallb (fun i => forallb (fun j => negb (bool_decide (pad_periph (pad i) = pad_periph (pad j))) ||
    negb (pad_no i =? pad_no j) || (i =? j)%nat) (seq 0 21)) (seq 0 21) = true) by (by vm_compute).
  rewrite forallb_forall in T. specialize (T i ltac:(apply List.in_seq; lia)). rewrite forallb_forall in T.
  specialize (T j ltac:(apply List.in_seq; lia)). rewrite bool_decide_true, En, Z.eqb_refl in T by done.
  by apply Nat.eqb_eq in T.
Qed.

Lemma port_of_index port : (port < 6)%nat -> gpio_mapped_port_index (default GPIOA (gpio_mapped_ports !! port)) = port.
Proof. intros Hp. do 6 (destruct port as [| port]; [done |]). lia. Qed.

Lemma index_of_port q : (gpio_mapped_port_index q < 6)%nat /\ default GPIOA (gpio_mapped_ports !! gpio_mapped_port_index q) = q.
Proof. split; [| by destruct q]. destruct q; vm_compute; lia. Qed.

Lemma pads_in i : (i < 21)%nat <-> i ∈ pads.
Proof. unfold pads, GPIO_PAD_MAP_COUNT. rewrite elem_of_seq. lia. Qed.

(** ** Bits *)

Lemma selected_bit mask i : selected mask i = Z.testbit mask (Z.of_nat i).
Proof. unfold selected. rewrite Z.shiftl_1_l. apply land_pow2_bit. lia. Qed.

Lemma shl16_bit z m : 0 <= m < 32 -> Z.testbit (u32 (Z.shiftl z 16)) m = (16 <=? m) && Z.testbit z (m - 16).
Proof.
  intros Hm. unfold u32. change 0x100000000 with (2 ^ 32). rewrite Z.mod_pow2_bits_low by lia.
  rewrite Z.shiftl_spec by lia. destruct (Z.leb_spec 16 m); [done |]. by rewrite Z.testbit_neg_r by lia.
Qed.

(** What a pad adds to its port's word. *)
Definition pad_word (levels : Z) (i : nat) : Z := if selected levels i then pad_pin (pad i) else u32 (Z.shiftl (pad_pin (pad i)) 16).

Lemma pad_word_bit levels i m : (i < 21)%nat -> 0 <= m < 32 ->
  Z.testbit (pad_word levels i) m = (m =? if selected levels i then pad_no i else pad_no i + 16).
Proof.
  intros Hi Hm. destruct (table_ok i Hi) as (E & Hn & _). unfold pad_word. rewrite E. destruct (selected levels i).
  - destruct (Z.eqb_spec m (pad_no i)) as [-> |]; [apply Z.pow2_bits_true | apply Z.pow2_bits_false]; lia.
  - rewrite shl16_bit by done. destruct (Z.eqb_spec m (pad_no i + 16)) as [-> | Hne].
    + replace (pad_no i + 16 - 16) with (pad_no i) by lia. rewrite Z.pow2_bits_true by lia.
      by rewrite (proj2 (Z.leb_le 16 (pad_no i + 16))) by lia.
    + apply andb_false_iff. destruct (Z.leb_spec 16 m); [right | by left]. apply Z.pow2_bits_false. lia.
Qed.

(** ** The words of a write *)

Lemma at_alter (f : Z -> Z) k (l : list Z) port : (k < length l)%nat -> (port < length l)%nat ->
  (alter f k l).[Z.of_nat port] = if (port =? k)%nat then f l.[Z.of_nat port] else l.[Z.of_nat port].
Proof.
  intros Hk Hp. unfold at_. rewrite Nat2Z.id. destruct (Nat.eqb_spec port k) as [-> | Hne].
  - rewrite list_lookup_alter_eq. destruct (lookup_lt_is_Some_2 l k Hk) as [x ->]. done.
  - by rewrite list_lookup_alter_ne by done.
Qed.

Lemma add_pads_spec mask levels out idx : (forall i, i ∈ idx -> (i < 21)%nat) ->
  forall b p, length b = 6%nat -> length p = 6%nat ->
  exists b' p', foldl (add_pad mask levels out) (Some (b, p)) idx = Some (b', p') /\ length b' = 6%nat /\ length p' = 6%nat /\
    forall port m, (port < 6)%nat -> 
      Z.testbit b'.[Z.of_nat port] m = Z.testbit b.[Z.of_nat port] m ||
        existsb (fun i => selected mask i && (port =? pad_port i)%nat && Z.testbit (pad_word levels i) m) idx /\
      Z.testbit p'.[Z.of_nat port] m = Z.testbit p.[Z.of_nat port] m ||
        existsb (fun i => selected mask i && (port =? pad_port i)%nat && (negb (flag out i) && Z.testbit (pad_pin (pad i)) m)) idx.
Proof.
  induction idx as [| i idx IH]; intros Hidx b p Hb Hp.
  { exists b, p. split_and!; auto. intros. by rewrite !orb_false_r. }
  assert (Hi : (i < 21)%nat) by (apply Hidx; left). assert (Hr : forall j, j ∈ idx -> (j < 21)%nat) by (intros j Hj; apply Hidx; by right).
  destruct (table_ok i Hi) as (_ & _ & Hport & _). cbn [foldl]. unfold add_pad at 2.
  destruct (selected mask i) eqn:Es; cbn [negb].
  2:{ destruct (IH Hr b p Hb Hp) as (b' & p' & E & L1 & L2 & S). exists b', p'. split_and!; auto. intros port m Hm.
      cbn [existsb]. rewrite Es. cbn [andb orb]. by apply S. }
  fold (pad_port i). rewrite (proj2 (Nat.eqb_neq (pad_port i) GPIO_MAPPED_PORT_COUNT)) by (unfold GPIO_MAPPED_PORT_COUNT; lia).
  fold (pad_word levels i). set (b1 := alter _ _ b). set (p1 := if negb (flag out i) then _ else p).
  assert (Lb : length b1 = 6%nat) by (unfold b1; by rewrite length_alter).
  assert (Lp : length p1 = 6%nat) by (unfold p1; destruct (negb _); by rewrite ?length_alter).
  destruct (IH Hr b1 p1 Lb Lp) as (b' & p' & E & L1 & L2 & S). exists b', p'. split_and!; auto. intros port m Hm.
  destruct (S port m Hm) as (S1 & S2). rewrite S1, S2. cbn [existsb]. rewrite Es. cbn [andb]. unfold b1, p1.
  rewrite (at_alter _ _ b) by lia. split.
  - destruct (port =? pad_port i)%nat; cbn [andb orb]; [| done]. rewrite Z.lor_spec. by destruct (Z.testbit b.[_] m), (Z.testbit (pad_word levels i) m).
  - destruct (negb (flag out i)); [| by rewrite andb_false_r]. rewrite (at_alter _ _ p) by lia.
    destruct (port =? pad_port i)%nat; cbn [andb orb]; [| done]. rewrite Z.lor_spec.
    by destruct (Z.testbit p.[_] m), (Z.testbit (pad_pin (pad i)) m).
Qed.

(** At a pin of the table an [existsb] over the pads is about that pad alone. *)
Lemma existsb_pad (f : nat -> bool) i : (i < 21)%nat ->
  existsb (fun j => f j && (pad_port i =? pad_port j)%nat && (pad_no i =? pad_no j)) pads = f i.
Proof.
  intros Hi. apply eq_true_iff_eq. rewrite existsb_exists. split.
  - intros (j & Hj & E). apply list_elem_of_In, pads_in in Hj. rewrite !andb_true_iff, Nat.eqb_eq, Z.eqb_eq in E.
    destruct E as ((Hf & Ep) & En). assert (i = j) as ->; [| done]. apply table_unique; try done.
    destruct (table_ok i Hi) as (_ & _ & _ & E1 & _), (table_ok j Hj) as (_ & _ & _ & E2 & _). rewrite Ep in E1. congruence.
  - intros Hf. exists i. split; [by apply list_elem_of_In, pads_in |]. by rewrite Hf, Nat.eqb_refl, Z.eqb_refl.
Qed.

Lemma existsb_pads (f g : nat -> bool) : (forall j, (j < 21)%nat -> f j = g j) -> existsb f pads = existsb g pads.
Proof.
  intros Hfg. apply eq_true_iff_eq. rewrite !existsb_exists.
  split; intros (j & Hj & Ej); exists j; (split; [done |]); apply list_elem_of_In, pads_in in Hj; by rewrite Hfg in *.
Qed.

Lemma existsb_none (f : nat -> bool) : (forall j, (j < 21)%nat -> f j = false) -> existsb f pads = false.
Proof. intros Hf. rewrite (existsb_pads f (fun _ => false)) by done. done. Qed.

(** The words of a write: bit [n] sets, bit [n + 16] clears, [promote_pins] names
    the new outputs. *)
Lemma write_words mask levels out : exists b p,
  foldl (add_pad mask levels out) (Some (replicate 6 0, replicate 6 0)) pads = Some (b, p) /\
  (forall i, (i < 21)%nat ->
    Z.testbit b.[Z.of_nat (pad_port i)] (pad_no i) = selected mask i && selected levels i /\
    Z.testbit b.[Z.of_nat (pad_port i)] (pad_no i + 16) = selected mask i && negb (selected levels i) /\
    Z.testbit p.[Z.of_nat (pad_port i)] (pad_no i) = selected mask i && negb (flag out i)) /\
  (forall port n, (port < 6)%nat -> 0 <= n < 16 -> (forall i, (i < 21)%nat -> selected mask i = true -> pad_port i = port -> pad_no i <> n) ->
    Z.testbit b.[Z.of_nat port] n = false /\ Z.testbit b.[Z.of_nat port] (n + 16) = false /\ Z.testbit p.[Z.of_nat port] n = false) /\
  (forall port m, (port < 6)%nat -> 16 <= m -> Z.testbit p.[Z.of_nat port] m = false).
Proof.
  destruct (add_pads_spec mask levels out pads (fun i => proj2 (pads_in i)) (replicate 6 0) (replicate 6 0) eq_refl eq_refl)
    as (b & p & E & _ & _ & S). exists b, p. split; [done |].
  assert (Zb : forall port m, Z.testbit (replicate 6 0).[Z.of_nat port] m = false).
  { intros port m. unfold at_. rewrite Nat2Z.id. do 6 (destruct port as [| port]; [apply Z.bits_0 |]). apply Z.bits_0. }
  split_and!.
  - intros i Hi. destruct (table_ok i Hi) as (_ & Hn & Hp & _). destruct (S (pad_port i) (pad_no i) Hp) as (-> & ->).
    destruct (S (pad_port i) (pad_no i + 16) Hp) as (-> & _). rewrite !Zb. cbn [orb].
    rewrite <- (existsb_pad (fun j => selected mask j && selected levels j) i Hi), <- (existsb_pad (fun j => selected mask j && negb (selected levels j)) i Hi),
      <- (existsb_pad (fun j => selected mask j && negb (flag out j)) i Hi).
    split_and!; apply existsb_pads; intros j Hj; destruct (table_ok j Hj) as (Ej & Hnj & _).
    + rewrite pad_word_bit by lia. destruct (selected mask j), (selected levels j); cbn [andb]; [done | | done | done].
      rewrite (proj2 (Z.eqb_neq _ _)) by lia. by rewrite andb_false_r.
    + rewrite pad_word_bit by lia. destruct (selected mask j), (selected levels j); cbn [andb negb]; try done.
      * rewrite (proj2 (Z.eqb_neq _ _)) by lia. by rewrite andb_false_r.
      * f_equal. apply eq_true_iff_eq. rewrite !Z.eqb_eq. lia.
    + rewrite Ej. destruct (selected mask j), (flag out j); cbn [andb negb]; rewrite ?andb_false_r; try done.
      f_equal. destruct (Z.eqb_spec (pad_no i) (pad_no j)) as [-> |]; [apply Z.pow2_bits_true | apply Z.pow2_bits_false]; lia.
  - intros port n Hp Hn Hno. destruct (S port n Hp) as (-> & ->). destruct (S port (n + 16) Hp) as (-> & _). rewrite !Zb. cbn [orb].
    split_and!; apply existsb_none; intros j Hj; destruct (table_ok j Hj) as (Ej & Hnj & _);
      (destruct (selected mask j) eqn:Es; [cbn [andb] | done]); (destruct (Nat.eqb_spec port (pad_port j)) as [-> |]; [cbn [andb] | done]);
      specialize (Hno j Hj Es eq_refl).
    + rewrite pad_word_bit by lia. apply Z.eqb_neq. destruct (selected levels j); lia.
    + rewrite pad_word_bit by lia. apply Z.eqb_neq. destruct (selected levels j); lia.
    + rewrite Ej, Z.pow2_bits_false by lia. apply andb_false_r.
  - intros port m Hp Hm. destruct (S port m Hp) as (_ & ->). rewrite Zb. cbn [orb]. apply existsb_none. intros j Hj.
    destruct (table_ok j Hj) as (Ej & Hnj & _). rewrite Ej, Z.pow2_bits_false by lia. by rewrite !andb_false_r.
Qed.

(** ** The pins during a write *)

Definition on_port (q : gpio_periph) (op : gpio_op) : bool :=
  bool_decide (match op with
               | gpio_mode_set p _ _ | gpio_output_options_set p _ | GPIO_BOP p _ | gpio_bit_set p _ | gpio_bit_reset p _ => p
               end = q).

Definition pin_run (q : gpio_periph) (n : Z) (ops : list gpio_op) (x : pin) : pin := foldl (fun x op => pin_effect op q n x) x ops.

Lemma run_filter q n ops : forall x, pin_run q n ops x = pin_run q n (List.filter (on_port q) ops) x.
Proof.
  induction ops as [| op ops IH]; intros x; [done |]. cbn [pin_run foldl List.filter]. destruct (on_port q op) eqn:E.
  - apply IH.
  - assert (En : pin_effect op q n x = x); [| rewrite En; apply IH].
    unfold on_port in E. apply bool_decide_eq_false in E. by destruct op; cbn; rewrite ?decide_False.
Qed.

Lemma take_filter {A} (f : A -> bool) l : forall k, exists k', List.filter f (take k l) = take k' (List.filter f l).
Proof.
  induction l as [| a l IH]; intros [| k]; [by exists 0%nat | by exists 0%nat | by exists 0%nat |].
  destruct (IH k) as (k' & E). cbn [take List.filter]. destruct (f a); [exists (S k') | exists k']; cbn [take]; by rewrite E.
Qed.

(** The calls of a write on one port. *)
Definition port_ops (b p : list Z) (q : gpio_periph) : list gpio_op :=
  promote_port b p (gpio_mapped_port_index q) ++ drive_port b (gpio_mapped_port_index q).

Lemma filter_promote b p q port : (port < 6)%nat ->
  List.filter (on_port q) (promote_port b p port) = if (port =? gpio_mapped_port_index q)%nat then promote_port b p port else [].
Proof.
  intros Hp. unfold promote_port. destruct (_ =? 0); [by destruct (_ =? _)%nat |].
  cbn [List.filter on_port]. destruct (Nat.eqb_spec port (gpio_mapped_port_index q)) as [-> | Hne].
  - unfold on_port. destruct (index_of_port q) as (_ & ->). by rewrite bool_decide_true.
  - unfold on_port. rewrite bool_decide_false; [done |]. intros E. apply Hne. by rewrite <- E, port_of_index.
Qed.

Lemma filter_drive b q port : (port < 6)%nat ->
  List.filter (on_port q) (drive_port b port) = if (port =? gpio_mapped_port_index q)%nat then drive_port b port else [].
Proof.
  intros Hp. unfold drive_port. destruct (negb _); [| by destruct (_ =? _)%nat].
  cbn [List.filter on_port]. destruct (Nat.eqb_spec port (gpio_mapped_port_index q)) as [-> | Hne].
  - unfold on_port. destruct (index_of_port q) as (_ & ->). by rewrite bool_decide_true.
  - unfold on_port. rewrite bool_decide_false; [done |]. intros E. apply Hne. by rewrite <- E, port_of_index.
Qed.

Lemma write_ops_port b p q : List.filter (on_port q) (gpio_write_ops b p) = port_ops b p q.
Proof.
  unfold gpio_write_ops, GPIO_MAPPED_PORT_COUNT. cbn [seq fmap list_fmap concat].
  rewrite !List.filter_app. rewrite !filter_promote, !filter_drive by lia. cbn [List.filter].
  unfold port_ops. destruct q; cbn [gpio_mapped_port_index port_index gpio_mapped_ports Nat.eqb]; cbn; by rewrite ?app_nil_r.
Qed.

(** A prefix of those calls on one pin: [s] sets it, [r] clears it, [t] makes it an
    output. *)
Lemma port_run b p q n k x :
  let B := b.[Z.of_nat (gpio_mapped_port_index q)] in
  let P := p.[Z.of_nat (gpio_mapped_port_index q)] in
  let s := Z.testbit B n in let r := Z.testbit B (n + 16) in let t := Z.testbit P n in
  0 <= n < 16 -> s && r = false -> (t = true -> s || r = true) -> Z.testbit P (n + 16) = false ->
  let y := pin_run q n (take k (port_ops b p q)) x in
  (s || r = false -> y = x) /\
  (s || r = true -> t = false -> y = if (length (promote_port b p (gpio_mapped_port_index q)) <? k)%nat then Pin (pmode x) s else x) /\
  (t = true -> (y = x \/ y = Pin (pmode x) s \/ y = Pin GPIO_MODE_OUTPUT s) /\ ((4 <= k)%nat -> y = Pin GPIO_MODE_OUTPUT s)).
Proof.
  intros B P s r t Hn Hsr Ht HP y.
  assert (Hpre : Z.testbit (Z.land B (Z.lor P (u32 (Z.shiftl P 16)))) n = s && t).
  { rewrite Z.land_spec, Z.lor_spec, shl16_bit by lia. rewrite (proj2 (Z.leb_gt 16 n)) by lia. by rewrite orb_false_r. }
  assert (Hpre16 : Z.testbit (Z.land B (Z.lor P (u32 (Z.shiftl P 16)))) (n + 16) = r && t).
  { rewrite Z.land_spec, Z.lor_spec, shl16_bit by lia. rewrite (proj2 (Z.leb_le 16 (n + 16))), HP by lia.
    cbn [orb andb]. by replace (n + 16 - 16) with n by lia. }
  unfold y, port_ops, promote_port, drive_port. fold B P. destruct (index_of_port q) as (_ & Eq). rewrite Eq.
  assert (ZP : (P =? 0) = true -> t = false) by (intros E; unfold t; apply Z.eqb_eq in E as ->; apply Z.bits_0).
  assert (ZB : (B =? 0) = true -> s = false /\ r = false) by (intros E; unfold s, r; apply Z.eqb_eq in E as ->; by rewrite !Z.bits_0).
  destruct (P =? 0), (B =? 0); cbn [negb app length].
  all: destruct k as [| [| [| [| k]]]]; cbn [take pin_run foldl pin_effect]; rewrite ?take_nil; cbn [foldl].
  all: rewrite ?decide_True by done; fold s r t; rewrite ?Hpre, ?Hpre16.
  all: clear y Hpre Hpre16 HP; cbn [Nat.ltb Nat.leb]; clearbody s r t.
  all: try (specialize (ZP eq_refl); subst t); try (destruct (ZB eq_refl) as (-> & ->)).
  all: try destruct s; try destruct r; try destruct t; cbn [andb orb] in *; try done; try by specialize (Ht eq_refl).
  all: split_and!; try done; intros _; split; [by auto | by auto with lia].
Qed.

Section pins.
Context {H : Type} `{!GpioHw H} `{!GpioLaws H}.
Implicit Types (h : H) (w : gpio_sw).

Definition pad_view h (i : nat) : pin := gpio_pin h (pad_periph (pad i)) (pad_no i).

Lemma dos_pin ops q n : 0 <= n < 16 -> forall h, gpio_pin (gpio_dos h ops) q n = pin_run q n ops (gpio_pin h q n).
Proof.
  intros Hn. induction ops as [| op ops IH]; intros h; [done |]. unfold gpio_dos, pin_run in *. cbn [foldl].
  by rewrite IH, gpio_do_pin.
Qed.

Lemma dos_port b p q n h : 0 <= n < 16 ->
  gpio_pin (gpio_dos h (gpio_write_ops b p)) q n = pin_run q n (take 5 (port_ops b p q)) (gpio_pin h q n).
Proof.
  intros Hn. rewrite dos_pin, run_filter, write_ops_port by done. rewrite take_ge; [done |].
  unfold port_ops, promote_port, drive_port. destruct (_ =? 0), (negb _); cbn; lia.
Qed.

(** Pin [n] of port [q] is pad [i], or no pad the mask selects. *)
Lemma pad_at mask q n : (exists i, (i < 21)%nat /\ selected mask i = true /\ pad_periph (pad i) = q /\ pad_no i = n) \/
  (forall i, (i < 21)%nat -> selected mask i = true -> (pad_periph (pad i), pad_no i) <> (q, n)).
Proof.
  destruct (existsb (fun i => selected mask i && bool_decide (pad_periph (pad i) = q) && (pad_no i =? n)) pads) eqn:E.
  - left. apply existsb_exists in E as (i & Hi & E). rewrite !andb_true_iff, bool_decide_eq_true, Z.eqb_eq in E.
    exists i. apply list_elem_of_In, pads_in in Hi. tauto.
  - right. intros i Hi Hs [= <- <-]. assert (T : existsb (fun j => selected mask j && bool_decide (pad_periph (pad j) = pad_periph (pad i)) && (pad_no j =? pad_no i)) pads = true).
    { apply existsb_exists. exists i. split; [by apply list_elem_of_In, pads_in |]. by rewrite Hs, bool_decide_true, Z.eqb_refl. }
    congruence.
Qed.

(** A prefix of a write's calls at one port: whether its pads that were outputs are
    driven yet is one bit. *)
Definition write_step (mask levels : Z) (out : list bool) (go : bool) (h h' : H) (q : gpio_periph) : Prop :=
  forall n, 0 <= n < 16 -> let x := gpio_pin h q n in let y := gpio_pin h' q n in
    ((forall i, (i < 21)%nat -> selected mask i = true -> (pad_periph (pad i), pad_no i) <> (q, n)) -> y = x) /\
    (forall i, (i < 21)%nat -> selected mask i = true -> pad_periph (pad i) = q -> pad_no i = n ->
      let level := selected levels i in
      (flag out i = true -> y = if go then Pin (pmode x) level else x) /\
      (flag out i = false -> y = x \/ y = Pin (pmode x) level \/ y = Pin GPIO_MODE_OUTPUT level)).

Lemma write_pins mask levels out : exists b p,
  foldl (add_pad mask levels out) (Some (replicate GPIO_MAPPED_PORT_COUNT 0, replicate GPIO_MAPPED_PORT_COUNT 0)) pads = Some (b, p) /\
  (forall h k q, exists go, write_step mask levels out go h (gpio_dos h (take k (gpio_write_ops b p))) q) /\
  (forall h q n, 0 <= n < 16 -> (forall i, (i < 21)%nat -> selected mask i = true -> (pad_periph (pad i), pad_no i) <> (q, n)) ->
     gpio_pin (gpio_dos h (gpio_write_ops b p)) q n = gpio_pin h q n) /\
  (forall h i, (i < 21)%nat -> selected mask i = true ->
     pad_view (gpio_dos h (gpio_write_ops b p)) i =
     Pin (if flag out i then pmode (pad_view h i) else GPIO_MODE_OUTPUT) (selected levels i)).
Proof.
  destruct (write_words mask levels out) as (b & p & E & Hpad & Hno & Hhigh). exists b, p. split; [exact E |].
  assert (Pad : forall i k x, (i < 21)%nat -> selected mask i = true ->
    let y := pin_run (pad_periph (pad i)) (pad_no i) (take k (port_ops b p (pad_periph (pad i)))) x in
    let go := (length (promote_port b p (pad_port i)) <? k)%nat in
    (flag out i = true -> y = if go then Pin (pmode x) (selected levels i) else x) /\
    (flag out i = false -> (y = x \/ y = Pin (pmode x) (selected levels i) \/ y = Pin GPIO_MODE_OUTPUT (selected levels i)) /\
      ((4 <= k)%nat -> y = Pin GPIO_MODE_OUTPUT (selected levels i)))).
  { intros i k x Hi Hs. destruct (table_ok i Hi) as (_ & Hn & Hp & _). destruct (Hpad i Hi) as (B1 & B2 & B3). rewrite Hs in B1, B2, B3.
    pose proof (port_run b p (pad_periph (pad i)) (pad_no i) k x) as R. fold (pad_port i) in R. cbn zeta in R.
    rewrite B1, B2, B3, Hhigh in R by lia. cbn [andb] in R.
    destruct R as (_ & R2 & R3); [done | by destruct (selected levels i) | by destruct (selected levels i) | done |].
    cbn zeta. split; intros Ho; rewrite Ho in *; cbn [negb] in *; [apply R2; [by destruct (selected levels i) | done] | by apply R3]. }
  assert (Free : forall q n k x, 0 <= n < 16 ->
    (forall i, (i < 21)%nat -> selected mask i = true -> (pad_periph (pad i), pad_no i) <> (q, n)) ->
    pin_run q n (take k (port_ops b p q)) x = x).
  { intros q n k x Hn Hf. destruct (index_of_port q) as (Hq & Eq).
    destruct (Hno (gpio_mapped_port_index q) n Hq Hn) as (B1 & B2 & B3).
    { intros i Hi Hs Ep En. apply (Hf i Hi Hs). destruct (table_ok i Hi) as (_ & _ & _ & Ei & _). rewrite Ep in Ei.
      rewrite Ei in Eq. cbn in Eq. congruence. }
    pose proof (port_run b p q n k x) as R. cbn zeta in R. rewrite B1, B2, B3, Hhigh in R by lia. by apply R. }
  split_and!.
  - intros h k q. destruct (take_filter (on_port q) (gpio_write_ops b p) k) as (k' & Ek). rewrite write_ops_port in Ek.
    exists (length (promote_port b p (gpio_mapped_port_index q)) <? k')%nat. intros n Hn. rewrite dos_pin, run_filter, Ek by done. split.
    + by apply Free.
    + intros i Hi Hs <- <-. destruct (Pad i k' (gpio_pin h (pad_periph (pad i)) (pad_no i)) Hi Hs) as (P1 & P2). split; [exact P1 | apply P2].
  - intros h q n Hn Hf. rewrite dos_port by done. by apply Free.
  - intros h i Hi Hs. unfold pad_view. rewrite dos_port by (by apply table_ok).
    destruct (Pad i 5%nat (gpio_pin h (pad_periph (pad i)) (pad_no i)) Hi Hs) as (P1 & P2). destruct (flag out i) eqn:Ho.
    + rewrite P1 by done. rewrite (proj2 (Nat.ltb_lt _ _)); [done |]. unfold promote_port. destruct (_ =? 0); cbn; lia.
    + apply P2; [done | lia].
Qed.

(** ** The pins during a read *)

Lemma flag_insert (l : list bool) i j b : (i < length l)%nat -> flag (<[i := b]> l) j = if (j =? i)%nat then b else flag l j.
Proof.
  intros Hi. unfold flag. destruct (Nat.eqb_spec j i) as [-> | Hne]; [by rewrite list_lookup_insert_eq |].
  by rewrite list_lookup_insert_ne by done.
Qed.

(** The pads a read turns into inputs. *)
Definition to_input (mask : Z) (out promoted : list bool) (i : nat) : bool :=
  selected mask i && negb (flag out i) && negb (flag promoted i).

Lemma promote_inputs mask out idx : (forall i, i ∈ idx -> (i < 21)%nat) -> forall h promoted, length promoted = 21%nat ->
  let '(h', promoted') := foldl (promote_input mask out) (h, promoted) idx in
  length promoted' = 21%nat /\
  (forall j, flag promoted' j = flag promoted j || existsb (fun i => (j =? i)%nat && (selected mask i && negb (flag out i))) idx) /\
  forall q n, 0 <= n < 16 -> gpio_pin h' q n =
    if existsb (fun i => to_input mask out promoted i && bool_decide (pad_periph (pad i) = q) && (n =? pad_no i)) idx
    then Pin GPIO_MODE_INPUT (octl (gpio_pin h q n)) else gpio_pin h q n.
Proof.
  induction idx as [| i idx IH]; intros Hidx h promoted Hl.
  { cbn. split_and!; [done | | done]. intros j. by rewrite orb_false_r. }
  assert (Hi : (i < 21)%nat) by (apply Hidx; left). assert (Hr : forall j, j ∈ idx -> (j < 21)%nat) by (intros j Hj; apply Hidx; by right).
  cbn [foldl]. unfold promote_input at 2.
  destruct (negb (selected mask i) || flag out i || flag promoted i) eqn:Eg.
  - specialize (IH Hr h promoted Hl). destruct (foldl _ _ idx) as [h' promoted']. destruct IH as (L & F & V). split; [done |].
    rewrite !orb_true_iff in Eg. split.
    + intros j. rewrite F. cbn [existsb]. destruct (Nat.eqb_spec j i) as [-> |]; [| done].
      destruct (selected mask i), (flag out i); cbn [andb orb negb]; try done. destruct (flag promoted i); [done |].
      destruct Eg as [[Eg | Eg] | Eg]; done.
    + intros q n Hn. rewrite V by done. cbn [existsb]. unfold to_input at 2.
      destruct (selected mask i), (flag out i), (flag promoted i); cbn [andb orb negb]; try done.
      destruct Eg as [[Eg | Eg] | Eg]; done.
  - rewrite !orb_false_iff, negb_false_iff in Eg. destruct Eg as ((Es & Eo) & Ep).
    set (h1 := gpio_do h _). specialize (IH Hr h1 (<[i := true]> promoted) ltac:(by rewrite length_insert)).
    destruct (foldl _ _ idx) as [h' promoted']. destruct IH as (L & F & V). split; [done |]. split.
    + intros j. rewrite F, flag_insert by lia. cbn [existsb]. rewrite Es, Eo. cbn [andb negb].
      destruct (Nat.eqb_spec j i) as [-> |]; cbn [andb orb]; [by rewrite orb_true_r | done].
    + intros q n Hn. rewrite V by done. destruct (table_ok i Hi) as (E1 & Hno & _). unfold h1. rewrite gpio_do_pin by done.
      cbn [pin_effect existsb]. unfold to_input at 2. rewrite Es, Eo, Ep. cbn [andb negb].
      set (head := bool_decide (pad_periph (pad i) = q) && (n =? pad_no i)).
      assert (Eh : (if decide (pad_periph (pad i) = q) then if Z.testbit (pad_pin (pad i)) n
                    then Pin GPIO_MODE_INPUT (octl (gpio_pin h q n)) else gpio_pin h q n else gpio_pin h q n) =
                   if head then Pin GPIO_MODE_INPUT (octl (gpio_pin h q n)) else gpio_pin h q n).
      { unfold head. rewrite E1, pow2_bit by lia. by repeat case_decide; case_bool_decide; destruct (n =? pad_no i). }
      rewrite Eh. destruct head eqn:Ehd; cbn [orb andb octl]; [by destruct (existsb _ idx) |].
      assert (Ex : existsb (fun j => to_input mask out (<[i := true]> promoted) j && bool_decide (pad_periph (pad j) = q) && (n =? pad_no j)) idx =
                   existsb (fun j => to_input mask out promoted j && bool_decide (pad_periph (pad j) = q) && (n =? pad_no j)) idx); [| by rewrite Ex].
      clear - Ehd Hi Hl. induction idx as [| k idx IH]; [done |]. cbn [existsb]. rewrite IH. f_equal.
      unfold to_input. rewrite flag_insert by lia. destruct (Nat.eqb_spec k i) as [-> |]; [| done].
      unfold head in Ehd. by rewrite <- !andb_assoc, Ehd, !andb_false_r.
Qed.

(** The value a sampled port had, [0] for one not sampled. *)
Definition sampled (inputs : list (option Z)) (port : nat) : Z := default 0 (mjoin (inputs !! port)).

(** [g] shows the pins of [h]. *)
Definition same_pins h g : Prop := forall q n, gpio_pin g q n = gpio_pin h q n.

Lemma sample_spec mask idx : (forall i, i ∈ idx -> (i < 21)%nat) -> forall h levels inputs, length inputs = 6%nat ->
  exists h' levels' inputs', sample_pads mask idx h levels inputs = (h', Some levels') /\ same_pins h h' /\ length inputs' = 6%nat /\
    (forall p v, inputs !! p = Some (Some v) -> inputs' !! p = Some (Some v)) /\
    (forall q v, inputs' !! gpio_mapped_port_index q = Some (Some v) -> inputs !! gpio_mapped_port_index q = Some (Some v) \/
       exists g, same_pins h g /\ v = u16 (gpio_input_port_get g q).1) /\
    (forall i, i ∈ idx -> selected mask i = true -> exists v, inputs' !! pad_port i = Some (Some v)) /\
    (forall j, 0 <= j -> Z.testbit levels' j = Z.testbit levels j ||
       existsb (fun i => selected mask i && (j =? Z.of_nat i) && Z.testbit (sampled inputs' (pad_port i)) (pad_no i)) idx).
Proof.
  induction idx as [| i idx IH]; intros Hidx h levels inputs Hl.
  { exists h, levels, inputs. split_and!; auto; [done | | intros j _; by rewrite orb_false_r]. intros i Hi. by apply not_elem_of_nil in Hi. }
  assert (Hi : (i < 21)%nat) by (apply Hidx; left). assert (Hr : forall j, j ∈ idx -> (j < 21)%nat) by (intros j Hj; apply Hidx; by right).
  destruct (table_ok i Hi) as (Epin & Hno & Hport & Eport & _). cbn [sample_pads].
  destruct (selected mask i) eqn:Es; cbn [negb].
  2:{ destruct (IH Hr h levels inputs Hl) as (h' & levels' & inputs' & E & S1 & S2 & S3 & S4 & S5 & S6).
      exists h', levels', inputs'. split_and!; auto.
      - intros j Hj Ej. apply elem_of_cons in Hj as [-> | Hj]; [congruence | auto].
      - intros j Hj. cbn [existsb]. rewrite Es. by apply S6. }
  fold (pad_port i). rewrite (proj2 (Nat.eqb_neq (pad_port i) GPIO_MAPPED_PORT_COUNT)) by (unfold GPIO_MAPPED_PORT_COUNT; lia).
  set (z := match inputs !! pad_port i with Some (Some v) => (v, h) | _ => _ end).
  assert (Z0 : same_pins h z.2 /\ (inputs !! pad_port i = Some (Some z.1) \/
    (forall v, inputs !! pad_port i <> Some (Some v)) /\ z.1 = u16 (gpio_input_port_get h (pad_periph (pad i))).1)).
  { pose proof (gpio_get_pin h (pad_periph (pad i))) as G. unfold z.
    destruct (inputs !! pad_port i) as [[v |] |] eqn:E0; [by split; [| left] | |];
      destruct (gpio_input_port_get h (pad_periph (pad i))) as [v h1]; (split; [intros q n; apply G | right]); by split. }
  destruct z as [v h1]. cbn [fst snd] in Z0. destruct Z0 as (G1 & Hv). rewrite Epin, land_pow2_bit by lia.
  set (levels1 := if Z.testbit v (pad_no i) then _ else levels). set (inputs1 := <[pad_port i := Some v]> inputs).
  destruct (IH Hr h1 levels1 inputs1 ltac:(by unfold inputs1; rewrite length_insert)) as (h' & levels' & inputs' & E & S1 & S2 & S3 & S4 & S5 & S6).
  assert (E1 : inputs1 !! pad_port i = Some (Some v)) by (unfold inputs1; apply list_lookup_insert_eq; lia).
  exists h', levels', inputs'. split; [exact E |]. split; [intros q n; by rewrite S1, G1 |]. split; [done |]. split_and!.
  - intros p v0 Hp. apply S3. unfold inputs1. destruct (decide (p = pad_port i)) as [-> | Hne].
    + rewrite list_lookup_insert_eq by lia. destruct Hv as [Hv | (Hv & _)]; [congruence | by apply Hv in Hp].
    + by rewrite list_lookup_insert_ne by done.
  - intros q v0 Hq. destruct (S4 q v0 Hq) as [Hq1 | (g & Hg & Ev)].
    + unfold inputs1 in Hq1. destruct (decide (gpio_mapped_port_index q = pad_port i)) as [Eq | Hne].
      * rewrite Eq, list_lookup_insert_eq in Hq1 by lia. injection Hq1 as <-. destruct Hv as [Hv | (_ & Hv)]; [left; by rewrite Eq | right].
        exists h. split; [done |]. rewrite Hv. destruct (index_of_port q) as (_ & Eq'). rewrite Eq, Eport in Eq'. cbn in Eq'. by rewrite Eq'.
      * rewrite list_lookup_insert_ne in Hq1 by done. by left.
    + right. exists g. split; [intros q' n; by rewrite Hg, G1 | done].
  - intros j Hj Ej. apply elem_of_cons in Hj as [-> | Hj]; [| auto]. exists v. auto.
  - intros j Hj. rewrite S6 by done. cbn [existsb]. rewrite Es. cbn [andb].
    assert (Ev : sampled inputs' (pad_port i) = v) by (unfold sampled; by rewrite (S3 _ _ E1)). rewrite Ev.
    unfold levels1. destruct (Z.testbit v (pad_no i)).
    + rewrite Z.lor_spec, Z.shiftl_1_l, pow2_bit by lia. rewrite andb_true_r. by rewrite orb_assoc.
    + by rewrite andb_false_r.
Qed.

(** ** The levels the host commanded *)

Inductive gpio_request := GpioRead (mask : Z) | GpioWrite (mask levels : Z) | SeReset (assert : Z).

(** What the host last commanded of each pad, and whether the secure element is released. *)
Record commands := Commands { commanded : nat -> option bool; se_released : bool }.

Definition commands0 : commands :=
  Commands (fun i => if (i =? GPIO_PAD_BT_REG_ON)%nat || (i =? GPIO_PAD_WL_REG_ON)%nat then Some false
                     else if (i =? GPIO_PAD_CAN_STBY)%nat then Some true else None) true.

Definition unrouted (mask : Z) : bool := negb (Z.land mask GPIO_PAD_UNROUTED_MASK =? 0).

Definition command (s : commands) (r : gpio_request) : commands :=
  match r with
  | GpioRead _ => s
  | GpioWrite mask levels =>
      if unrouted mask then s
      else Commands (fun i => if selected mask i then Some (selected levels i) else commanded s i) (se_released s)
  | SeReset assert => if 1 <? assert then s else Commands (commanded s) (assert =? 0)
  end.

Definition serve (z : H * gpio_sw) (r : gpio_request) : H * gpio_sw :=
  match r with
  | GpioRead mask => (bridge_hw_gpio_read_ z.1 z.2 mask).1
  | GpioWrite mask levels => (bridge_hw_gpio_write_ z.1 z.2 mask levels).1
  | SeReset assert => (bridge_hw_se_reset_ z.1 z.2 assert).1
  end.

(** The pads carry out [s]: a commanded pad is an output at its level, any other is
    an input once read and analog before. *)
Definition carries_out (s : commands) (z : H * gpio_sw) : Prop :=
  let '(h, w) := z in
  length (gpio_is_output w) = 21%nat /\ length (gpio_input_promoted w) = 21%nat /\ se_rst_configured w = true /\
  gpio_pin h SE_RST_PORT 13 = Pin GPIO_MODE_OUTPUT (se_released s) /\
  forall i, (i < 21)%nat ->
    flag (gpio_is_output w) i = bool_decide (is_Some (commanded s i)) /\
    match commanded s i with
    | Some level => pad_view h i = Pin GPIO_MODE_OUTPUT level /\ flag (gpio_input_promoted w) i = false
    | None => pmode (pad_view h i) = if flag (gpio_input_promoted w) i then GPIO_MODE_INPUT else GPIO_MODE_ANALOG
    end.

Lemma pads_boot_carries_out h w :
  (forall i, (i < 21)%nat -> pmode (pad_view h i) = GPIO_MODE_ANALOG) -> gpio_pin h SE_RST_PORT 13 = Pin GPIO_MODE_OUTPUT true ->
  se_rst_configured w = true -> gpio_input_promoted w = replicate GPIO_PAD_MAP_COUNT false -> carries_out commands0 (pads_boot h w).
Proof.
  intros Ha Hse Hc Hi0. unfold pads_boot. set (reg_on := seq _ _). set (ops2 := concat _). set (ops3 := boot_output true GPIO_PAD_CAN_STBY).
  assert (P : forall q n, 0 <= n < 16 -> gpio_pin (gpio_dos (gpio_dos h ops2) ops3) q n = pin_run q n (ops2 ++ ops3) (gpio_pin h q n)).
  { intros q n Hn. rewrite <- dos_pin by done. unfold gpio_dos. by rewrite foldl_app. }
  destruct w as [out promoted conf]. cbn in Hc, Hi0. subst promoted conf.
  split_and!; [done | done | done | by rewrite P, Hse by done |]. intros i Hi. unfold pad_view. rewrite P by (by apply table_ok).
  specialize (Ha i Hi). unfold pad_view in Ha. destruct (gpio_pin h _ _) as [m o]. cbn [pmode] in Ha. subst m.
  do 21 (destruct i as [| i]; [by split |]). lia.
Qed.

(** The line of the secure element and the pads are different pins. *)
Lemma se_init_pads h w : (forall i, (i < 21)%nat -> pad_view (se_reset_init h w).1 i = pad_view h i) /\
  gpio_pin (se_reset_init h w).1 SE_RST_PORT 13 = Pin GPIO_MODE_OUTPUT true.
Proof.
  unfold se_reset_init, pad_view. cbn [fst]. split; [| by rewrite dos_pin by done]. intros i Hi. rewrite dos_pin by (by apply table_ok).
  do 21 (destruct i as [| i]; [done |]). lia.
Qed.

Lemma boot_carries_out h : (forall i, (i < 21)%nat -> pmode (pad_view h i) = GPIO_MODE_ANALOG) -> carries_out commands0 (gpio_boot h).
Proof.
  intros Ha. unfold gpio_boot. set (w0 := GpioSw _ _ _). destruct (se_init_pads h w0) as (Hp & Hse).
  change (carries_out commands0 (pads_boot (se_reset_init h w0).1 (set_se_configured w0))). apply pads_boot_carries_out; [| exact Hse | done | done].
  intros i Hi. rewrite Hp by done. by apply Ha.
Qed.

(** A step of the abstract state, pad by pad. *)
Lemma write_carries_out s h w mask levels : carries_out s (h, w) -> carries_out (command s (GpioWrite mask levels)) (serve (h, w) (GpioWrite mask levels)).
Proof.
  intros (L1 & L2 & L3 & Hse & Hpad). cbn [command serve fst snd]. unfold bridge_hw_gpio_write_. fold (unrouted mask).
  destruct (unrouted mask); [by split_and! |].
  destruct (write_pins mask levels (gpio_is_output w)) as (b & p & -> & _ & Hfree & Hsel). cbn [fst].
  assert (M : forall idx w0, (forall i, i ∈ idx -> (i < 21)%nat) -> length (gpio_is_output w0) = 21%nat -> length (gpio_input_promoted w0) = 21%nat ->
    let w' := foldl (mark_output mask) w0 idx in
    length (gpio_is_output w') = 21%nat /\ length (gpio_input_promoted w') = 21%nat /\ se_rst_configured w' = se_rst_configured w0 /\
    forall j, flag (gpio_is_output w') j = flag (gpio_is_output w0) j || existsb (fun i => selected mask i && (j =? i)%nat) idx /\
              flag (gpio_input_promoted w') j = flag (gpio_input_promoted w0) j && negb (existsb (fun i => selected mask i && (j =? i)%nat) idx)).
  { clear. induction idx as [| i idx IH]; intros w0 Hidx M1 M2.
    { cbn. split_and!; auto. intros j. by rewrite orb_false_r, andb_true_r. }
    cbn [foldl]. assert (Hi : (i < 21)%nat) by (apply Hidx; left). assert (Hr : forall j, j ∈ idx -> (j < 21)%nat) by (intros j Hj; apply Hidx; by right).
    specialize (IH (mark_output mask w0 i) Hr). unfold mark_output in IH at 1 2. destruct (selected mask i) eqn:Es.
    - cbn [gpio_is_output gpio_input_promoted] in IH. rewrite !length_insert in IH. destruct (IH M1 M2) as (I1 & I2 & I3 & I4).
      split_and!; [done | done | rewrite I3; unfold mark_output; by rewrite Es |]. intros j. destruct (I4 j) as (-> & ->).
      cbn [existsb]. rewrite Es. cbn [andb]. unfold mark_output. rewrite Es. cbn [gpio_is_output gpio_input_promoted].
      rewrite !flag_insert by lia. destruct (j =? i)%nat; cbn [orb andb negb]; [by rewrite orb_true_r, andb_false_r | done].
    - destruct (IH M1 M2) as (I1 & I2 & I3 & I4). split_and!; [done | done | rewrite I3; unfold mark_output; by rewrite Es |].
      intros j. destruct (I4 j) as (-> & ->). cbn [existsb]. rewrite Es. unfold mark_output. by rewrite Es. }
  assert (Ex : forall j, (j < 21)%nat -> existsb (fun i => selected mask i && (j =? i)%nat) pads = selected mask j).
  { intros j Hj. apply eq_true_iff_eq. rewrite existsb_exists. split.
    - intros (i & _ & E). apply andb_true_iff in E as (E & Ej). by apply Nat.eqb_eq in Ej as ->.
    - intros E. exists j. split; [by apply list_elem_of_In, pads_in |]. by rewrite E, Nat.eqb_refl. }
  destruct (M pads w (fun i => proj2 (pads_in i)) L1 L2) as (M1 & M2 & M3 & M4).
  split_and!; [done | done | congruence | |].
  - cbn [se_released]. rewrite Hfree; [done | lia |]. intros i Hi _. by apply table_ok.
  - intros i Hi. destruct (M4 i) as (-> & ->). rewrite Ex by done. destruct (Hpad i Hi) as (F & V). cbn [commanded]. rewrite F.
    destruct (selected mask i) eqn:Es.
    + rewrite orb_true_r, andb_false_r. split; [by rewrite bool_decide_true |]. split; [| done]. rewrite Hsel by done.
      f_equal. rewrite F. destruct (commanded s i); [by destruct V as (-> & _) | done].
    + rewrite orb_false_r, andb_true_r. split; [done |]. unfold pad_view in *. rewrite Hfree; [done | by apply table_ok |].
      intros j Hj Es' [= Ep En]. assert (j = i) by (by apply table_unique). congruence.
Qed.

Lemma read_carries_out s h w mask : carries_out s (h, w) -> carries_out s (serve (h, w) (GpioRead mask)).
Proof.
  intros (L1 & L2 & L3 & Hse & Hpad). cbn [serve fst snd]. unfold bridge_hw_gpio_read_. fold (unrouted mask).
  destruct (unrouted mask); [by split_and! |].
  pose proof (promote_inputs mask (gpio_is_output w) pads (fun i => proj2 (pads_in i)) h (gpio_input_promoted w) L2) as P.
  destruct (foldl _ _ pads) as [h1 promoted]. destruct P as (P1 & P2 & P3).
  destruct (sample_spec mask pads (fun i => proj2 (pads_in i)) h1 0 (replicate GPIO_MAPPED_PORT_COUNT None) eq_refl) as (h2 & levels & inputs & -> & S & _).
  cbn [fst]. split_and!; [done | done | done | |].
  - rewrite S, P3 by lia. rewrite existsb_none; [done |]. intros j Hj. apply not_true_iff_false. rewrite !andb_true_iff, bool_decide_eq_true, Z.eqb_eq.
    intros ((_ & Ep) & En). apply (table_ok j Hj). by rewrite Ep, <- En.
  - intros i Hi. cbn [gpio_is_output gpio_input_promoted]. destruct (Hpad i Hi) as (F & V). split; [done |].
    unfold pad_view in *. rewrite S, P3 by (by apply table_ok). rewrite P2.
    assert (E1 : existsb (fun j => to_input mask (gpio_is_output w) (gpio_input_promoted w) j && bool_decide (pad_periph (pad j) = pad_periph (pad i)) && (pad_no i =? pad_no j)) pads =
      to_input mask (gpio_is_output w) (gpio_input_promoted w) i).
    { apply eq_true_iff_eq. rewrite existsb_exists. split.
      - intros (j & Hj & E). apply list_elem_of_In, pads_in in Hj. rewrite !andb_true_iff, bool_decide_eq_true, Z.eqb_eq in E.
        destruct E as ((E & Ep) & En). assert (j = i) as -> by (by apply table_unique). done.
      - intros E. exists i. split; [by apply list_elem_of_In, pads_in |]. by rewrite E, bool_decide_true, Z.eqb_refl. }
    assert (E2 : existsb (fun j => (i =? j)%nat && (selected mask j && negb (flag (gpio_is_output w) j))) pads = selected mask i && negb (flag (gpio_is_output w) i)).
    { apply eq_true_iff_eq. rewrite existsb_exists. split.
      - intros (j & _ & E). apply andb_true_iff in E as (Ej & E). by apply Nat.eqb_eq in Ej as <-.
      - intros E. exists i. split; [by apply list_elem_of_In, pads_in |]. by rewrite E, Nat.eqb_refl. }
    rewrite E1, E2. unfold to_input. rewrite F. destruct (commanded s i) as [level |].
    + rewrite bool_decide_true by done. rewrite !andb_false_r. cbn [andb]. by rewrite orb_false_r.
    + rewrite bool_decide_false by (by intros []). cbn [negb]. rewrite !andb_true_r.
      destruct (selected mask i), (flag (gpio_input_promoted w) i); cbn [andb orb negb pmode]; done.
Qed.

Lemma se_carries_out s h w a : carries_out s (h, w) -> carries_out (command s (SeReset a)) (serve (h, w) (SeReset a)).
Proof.
  intros (L1 & L2 & L3 & Hse & Hpad). cbn [command serve fst snd]. unfold bridge_hw_se_reset_.
  destruct (1 <? a); [by split_and! |]. rewrite L3. cbn [fst]. unfold se_reset_drive.
  split_and!; [done | done | done | |].
  - destruct (a =? 0); rewrite gpio_do_pin by lia; cbn [pin_effect]; rewrite decide_True by done; by rewrite Hse.
  - intros i Hi. cbn [set_se_configured gpio_is_output gpio_input_promoted commanded]. unfold pad_view.
    destruct (table_ok i Hi) as (_ & Hn & _ & _ & Hse13).
    assert (En : forall op, op = gpio_bit_set SE_RST_PORT SE_RST_PIN \/ op = gpio_bit_reset SE_RST_PORT SE_RST_PIN ->
      gpio_pin (gpio_do h op) (pad_periph (pad i)) (pad_no i) = gpio_pin h (pad_periph (pad i)) (pad_no i)).
    { intros op Hop. rewrite gpio_do_pin by done.
      assert (Eb : Z.testbit SE_RST_PIN (pad_no i) = (pad_no i =? 13)) by (apply (pow2_bit 13); lia).
      destruct Hop as [-> | ->]; cbn [pin_effect]; (case_decide as Ep; [| done]); rewrite Eb;
        (destruct (Z.eqb_spec (pad_no i) 13) as [E13 |]; [exfalso; apply Hse13; by rewrite <- Ep, E13 | done]). }
    destruct (a =? 0); rewrite En by auto; apply Hpad; done.
Qed.

(** ** The properties *)

(** The pads carry out the host's commands.  From reset pins, after boot and any
    sequence of pad reads, pad writes and secure-element requests: a pad the host
    wrote is an output at the level last written, the module enables are low and
    the CAN standby line high until the host writes them, every other pad is an
    input once it was read and analog before, the statics say so, and the secure
    element's line is driven, released unless the last accepted request asserts
    it. *)
Theorem gpio_carries_out_commands h rs :
  (forall i, (i < GPIO_PAD_MAP_COUNT)%nat -> pmode (pad_view h i) = GPIO_MODE_ANALOG) ->
  carries_out (foldl command commands0 rs) (foldl serve (gpio_boot h) rs).
Proof.
  intros Ha. pose proof (boot_carries_out h Ha) as C. generalize dependent (gpio_boot h). generalize commands0. clear Ha h.
  induction rs as [| r rs IH]; intros s [h w] C; [exact C |]. cbn [foldl]. apply IH.
  destruct r as [mask | mask levels | a]; [by apply read_carries_out | by apply write_carries_out | by apply se_carries_out].
Qed.

(** C36. A write never glitches.  On any ports: a mask naming an unrouted pad is
    refused with nothing touched; otherwise, after every single register access,
    pins the mask does not select are untouched, the selected pads of a port that
    already were outputs have all their old or all their new levels, and a pad on
    its way to output is unchanged, still not an output, or an output at the
    commanded level. *)
Theorem gpio_write_glitch_free h w mask levels :
  let '(h', w', rc) := bridge_hw_gpio_write_ h w mask levels in
  if unrouted mask then h' = h /\ w' = w /\ rc = BRIDGE_HW_ERR_NOTIMPL
  else
    rc = BRIDGE_HW_OK /\
    exists ops, h' = gpio_dos h ops /\
      forall k q, exists go, write_step mask levels (gpio_is_output w) go h (gpio_dos h (take k ops)) q.
Proof.
  unfold bridge_hw_gpio_write_. fold (unrouted mask). destruct (unrouted mask); [done |].
  destruct (write_pins mask levels (gpio_is_output w)) as (b & p & -> & Hk & _). split; [done |].
  exists (gpio_write_ops b p). split; [done | exact (Hk h)].
Qed.

(** A read reports measured levels.  A mask naming an unrouted pad is refused
    with nothing touched; otherwise the answer is OK and bit [j] of the levels is
    set exactly for a selected pad of the table whose bit is set in its port's
    input register, sampled once per port after every selected pad became
    readable; selected pads that were neither outputs nor inputs become inputs,
    and no other pin changes. *)
Theorem gpio_read_measures h w mask :
  length (gpio_input_promoted w) = GPIO_PAD_MAP_COUNT ->
  let '(h', w', (rc, levels)) := bridge_hw_gpio_read_ h w mask in
  if unrouted mask then h' = h /\ w' = w /\ rc = BRIDGE_HW_ERR_NOTIMPL
  else
    rc = BRIDGE_HW_OK /\
    (forall q n, 0 <= n < 16 -> gpio_pin h' q n =
      if existsb (fun i => to_input mask (gpio_is_output w) (gpio_input_promoted w) i &&
                           bool_decide (pad_periph (pad i) = q) && (n =? pad_no i)) pads
      then Pin GPIO_MODE_INPUT (octl (gpio_pin h q n)) else gpio_pin h q n) /\
    exists sample : gpio_periph -> Z,
      (forall i, (i < GPIO_PAD_MAP_COUNT)%nat -> selected mask i = true ->
        exists g, same_pins h' g /\ sample (pad_periph (pad i)) = u16 (gpio_input_port_get g (pad_periph (pad i))).1) /\
      forall j, 0 <= j -> Z.testbit levels j =
        existsb (fun i => selected mask i && (j =? Z.of_nat i) && Z.testbit (sample (pad_periph (pad i))) (pad_no i)) pads.
Proof.
  intros L2. unfold bridge_hw_gpio_read_. fold (unrouted mask). destruct (unrouted mask); [done |].
  pose proof (promote_inputs mask (gpio_is_output w) pads (fun i => proj2 (pads_in i)) h (gpio_input_promoted w) L2) as P.
  destruct (foldl _ _ pads) as [h1 promoted]. destruct P as (P1 & P2 & P3).
  destruct (sample_spec mask pads (fun i => proj2 (pads_in i)) h1 0 (replicate GPIO_MAPPED_PORT_COUNT None) eq_refl)
    as (h2 & levels & inputs & -> & S1 & S2 & S3 & S4 & S5 & S6).
  split; [done |]. split; [intros q n Hn; by rewrite S1, P3 |].
  exists (fun q => sampled inputs (gpio_mapped_port_index q)). split.
  - intros i Hi Es. destruct (S5 i (proj1 (pads_in i) Hi) Es) as (v & Ev). unfold sampled. fold (pad_port i). rewrite Ev. cbn.
    destruct (S4 (pad_periph (pad i)) v Ev) as [E0 | (g & Hg & ->)].
    + destruct (table_ok i Hi) as (_ & _ & Hp & _). fold (pad_port i) in E0. by rewrite lookup_replicate_2 in E0.
    + exists g. split; [| done]. intros q n. by rewrite Hg, S1.
  - intros j Hj. rewrite S6 by done. by rewrite Z.bits_0.
Qed.

End pins.
