(* ===== verification/Trng.v ===== *)
(** * The random number generator: [hal/gd32/trng.c]

    Bring-up in steps, the readiness poll with its discarded first word, and the
    request, on hardware that logs its answers. *)

From stdpp Require Import base tactics list numbers option.
From S2P Require Import Prelude BridgeHw.

(** ** The hardware *)

Inductive trng_op :=
  | trng_src_pllq_div2 | rcu_trng_enable | trng_deinit
  | trng_conditioning_reset_enable | trng_clockerror_detection_enable | trng_mode_nist | trng_seed_analog
  | trng_input_440bit | trng_output_256bit | trng_algo_sha256 | trng_conditioning_enable
  | trng_postprocessing_enable | trng_enable.

Inductive trng_reg :=
  | rcu_pllstb_flag | TRNG_STAT_ERRSTA | int_flag_ceif | int_flag_seif | flag_cecs | flag_secs | flag_drdy | TRNG_DATA.

Class TrngHw (H : Type) := {
  trng_do : H -> trng_op -> H;
  trng_reg_read : H -> trng_reg -> Z * H }.

Definition FLAG_SET : Z := 1.
Definition TRNG_INIT_TIMEOUT : nat := Z.to_nat 100000.
Definition TRNG_READY_TIMEOUT : nat := Z.to_nat 65535.

Record trng_sw := TrngSw { trng_started : bool; trng_ready : bool; trng_prev_word : Z; trng_prev_valid : bool }.

Definition trng_sw0 : trng_sw := TrngSw false false 0 false.
Definition set_started (b : bool) (w : trng_sw) : trng_sw := TrngSw b (trng_ready w) (trng_prev_word w) (trng_prev_valid w).

Section trng.
Context {H : Type} `{!TrngHw H}.

Definition trng_dos (h : H) (ops : list trng_op) : H := foldl trng_do h ops.

(** [for (to = n; to != 0; --to) if (SET == flag) break;], and [to != 0]. *)
Fixpoint flag_poll (r : trng_reg) (to : nat) (h : H) : bool * H :=
  match to with
  | O => (false, h)
  | S to => let '(v, h) := trng_reg_read h r in if v =? FLAG_SET then (true, h) else flag_poll r to h
  end.

Definition trng_start (h : H) : bool * H :=
  let '(locked, h) := flag_poll rcu_pllstb_flag TRNG_INIT_TIMEOUT h in
  if negb locked then (false, h)
  else
    (true, trng_dos h [trng_src_pllq_div2; rcu_trng_enable; trng_deinit; trng_conditioning_reset_enable;
       trng_clockerror_detection_enable; trng_mode_nist; trng_seed_analog; trng_input_440bit; trng_output_256bit;
       trng_algo_sha256; trng_conditioning_enable; trng_postprocessing_enable; trng_enable]).

(** [||] over flags that are [SET]. *)
Fixpoint any_set (rs : list trng_reg) (h : H) : bool * H :=
  match rs with
  | [] => (false, h)
  | r :: rs => let '(v, h) := trng_reg_read h r in if v =? FLAG_SET then (true, h) else any_set rs h
  end.

Definition trng_faulted (h : H) : bool * H :=
  let '(v, h) := trng_reg_read h TRNG_STAT_ERRSTA in
  if negb (v =? 0) then (true, h) else any_set [int_flag_ceif; int_flag_seif; flag_cecs; flag_secs] h.

Definition trng_demote (h : H) (w : trng_sw) : H * trng_sw :=
  (trng_do h trng_deinit, TrngSw false false (trng_prev_word w) false).

Definition trng_poll_ready (h : H) (w : trng_sw) : bool * H * trng_sw :=
  let '(bad, h) := trng_faulted h in
  if bad : bool then let '(h, w) := trng_demote h w in (false, h, w)
  else
    let '(ready, h) := flag_poll flag_drdy TRNG_READY_TIMEOUT h in
    let '(bad, h) := if negb ready then (true, h) else trng_faulted h in
    if bad : bool then
      let '(bad, h) := trng_faulted h in
      if bad : bool then let '(h, w) := trng_demote h w in (false, h, w) else (false, h, w)
    else
      let '(word, h) := trng_reg_read h TRNG_DATA in
      (true, h, TrngSw (trng_started w) true (u32 word) true).

(** [while (RESET == flag && budget != 0) --budget;], and what is left of it. *)
Fixpoint drdy_wait (budget : nat) (h : H) : nat * H :=
  let '(v, h) := trng_reg_read h flag_drdy in
  if negb (v =? 0) then (budget, h)
  else match budget with O => (O, h) | S budget => drdy_wait budget h end.

(** One word, or the status that ends the request. *)
Definition trng_word (budget : nat) (h : H) (w : trng_sw) : (Z + Z) * nat * H * trng_sw :=
  let '(bad, h) := trng_faulted h in
  if bad : bool then let '(h, w) := trng_demote h w in (inl BRIDGE_HW_ERR_IO, budget, h, w)
  else
    let '(budget, h) := drdy_wait budget h in
    let '(v, h) := trng_reg_read h flag_drdy in
    if v =? 0 then
      let '(bad, h) := trng_faulted h in
      if bad : bool then let '(h, w) := trng_demote h w in (inl BRIDGE_HW_ERR_IO, budget, h, w)
      else (inl BRIDGE_HW_ERR_BUSY, budget, h, w)
    else
      let '(word, h) := trng_reg_read h TRNG_DATA in
      let word := u32 word in
      if trng_prev_valid w && (word =? trng_prev_word w) then
        let '(h, w) := trng_demote h w in (inl BRIDGE_HW_ERR_IO, budget, h, w)
      else (inr word, budget, h, TrngSw (trng_started w) (trng_ready w) word true).

(** The words of a request of [rem] more bytes; the bytes written so far are kept
    on every path. *)
Fixpoint trng_pull (rem budget : nat) (h : H) (w : trng_sw) : H * trng_sw * (Z * list Z) :=
  match rem with
  | O => (h, w, (BRIDGE_HW_OK, []))
  | S (S (S (S rem))) =>
      let '(r, budget, h, w) := trng_word budget h w in
      match r with
      | inl rc => (h, w, (rc, []))
      | inr word => let '(h, w, (rc, bs)) := trng_pull rem budget h w in (h, w, (rc, put32 word ++ bs))
      end
  | rem =>
      let '(r, budget, h, w) := trng_word budget h w in
      match r with inl rc => (h, w, (rc, [])) | inr word => (h, w, (BRIDGE_HW_OK, take rem (put32 word))) end
  end.

Definition bridge_hw_trng_read_ (h : H) (w : trng_sw) (len : nat) : H * trng_sw * (Z * list Z) :=
  if (len =? 0)%nat || (32 <? len)%nat then (h, w, (BRIDGE_HW_ERR_RANGE, []))
  else
    let '(up, h, w) :=
      if trng_started w then (true, h, w)
      else let '(up, h) := trng_start h in (up, h, set_started up w) in
    if negb up then (h, w, (BRIDGE_HW_ERR_IO, []))
    else
      let '(ready, h, w) := if trng_ready w then (true, h, w) else trng_poll_ready h w in
      if negb ready then (h, w, (BRIDGE_HW_ERR_IO, []))
      else trng_pull len (2 * TRNG_READY_TIMEOUT) h w.

(** ** Boot *)

(** The grace rounds of [bridge_hw_init]. *)
Fixpoint trng_grace (rounds : nat) (h : H) (w : trng_sw) : H * trng_sw :=
  match rounds with
  | O => (h, w)
  | S rounds =>
      if trng_started w && negb (trng_ready w) then let '(_, h, w) := trng_poll_ready h w in trng_grace rounds h w else (h, w)
  end.

Definition trng_boot (h : H) : H * trng_sw :=
  let '(up, h) := trng_start h in
  let w := set_started up trng_sw0 in
  if trng_started w then trng_grace 8 h w else (h, w).

End trng.
