(* ===== verification/TrngSafety.v ===== *)
(** * What the random number requests guarantee

    The requests on hardware that logs every call and answer: which words a reply
    is made of, and what every refusal leaves. *)

From stdpp Require Import base tactics list numbers option.
From S2P Require Import Prelude BridgeHw Trng.

(** ** Logged hardware *)

Inductive trng_event := TrngDo (op : trng_op) | TrngAns (r : trng_reg) (v : Z).

Definition trng_traced (H : Type) : Type := H * list trng_event.

#[export] Instance traced_trng H `{!TrngHw H} : TrngHw (trng_traced H) := {
  trng_do x op := (trng_do x.1 op, x.2 ++ [TrngDo op]);
  trng_reg_read x r := let '(v, h) := trng_reg_read x.1 r in (v, (h, x.2 ++ [TrngAns r v])) }.

(** The words read since the unit was last reset. *)
Definition word_event (ws : list Z) (e : trng_event) : list Z :=
  match e with TrngDo trng_deinit => [] | TrngAns TRNG_DATA v => ws ++ [u32 v] | _ => ws end.
Definition words_of (l : list trng_event) : list Z := foldl word_event [] l.

Definition mute (e : trng_event) : bool :=
  match e with TrngDo trng_deinit | TrngAns TRNG_DATA _ => false | _ => true end.

(** The five fault bits, all clear. *)
Definition clean_log (l : list trng_event) : Prop := exists a b c d,
  l = [TrngAns TRNG_STAT_ERRSTA 0; TrngAns int_flag_ceif a; TrngAns int_flag_seif b; TrngAns flag_cecs c; TrngAns flag_secs d] /\
  Forall (fun v => v <> FLAG_SET) [a; b; c; d].

(** The log of reading words: before each, clear fault bits and DRDY set. *)
Inductive pulled : list trng_event -> list Z -> Prop :=
  | pulled_nil : pulled [] []
  | pulled_word clean polls ready v l ws :
      clean_log clean -> ready <> 0 -> pulled l ws ->
      pulled (clean ++ (TrngAns flag_drdy <$> polls) ++ [TrngAns flag_drdy ready; TrngAns TRNG_DATA v] ++ l) (u32 v :: ws).

(** No word repeats the one before it. *)
Fixpoint fresh (prev : Z) (ws : list Z) : Prop :=
  match ws with [] => True | w :: ws => w <> prev /\ fresh w ws end.

Lemma words_app l1 l2 : words_of (l1 ++ l2) = foldl word_event (words_of l1) l2.
Proof. apply foldl_app. Qed.

Lemma words_mute l1 l2 : forallb mute l2 = true -> words_of (l1 ++ l2) = words_of l1.
Proof.
  rewrite words_app. generalize (words_of l1). induction l2 as [| e l2 IH]; intros ws Hm; [done |].
  cbn [forallb] in Hm. apply andb_true_iff in Hm as (He & Hm). cbn [foldl]. rewrite IH by done. by destruct e as [[] | []].
Qed.

Section safety.
Context {H : Type} `{!TrngHw H}.
Implicit Types x y : trng_traced H.

Lemma trng_read_log x r : (trng_reg_read x r).2.2 = x.2 ++ [TrngAns r (trng_reg_read x r).1].
Proof. cbn. by destruct (trng_reg_read x.1 r). Qed.

(** [y] goes on from [x] by calls and answers that read no word. *)
Definition muted x y (Q : list trng_event -> Prop) : Prop := exists l, y.2 = x.2 ++ l /\ forallb mute l = true /\ Q l.

Lemma muted_trans Q1 Q2 (Q : list trng_event -> Prop) x y z :
  muted x y Q1 -> muted y z Q2 -> (forall l1 l2, Q1 l1 -> Q2 l2 -> Q (l1 ++ l2)) -> muted x z Q.
Proof.
  intros (l1 & E1 & M1 & P1) (l2 & E2 & M2 & P2) HQ. exists (l1 ++ l2). rewrite E2, E1, app_assoc. split; [done |].
  split; [by rewrite forallb_app, M1, M2 | auto].
Qed.

Lemma muted_weaken (Q Q' : list trng_event -> Prop) x y : muted x y Q -> (forall l, Q l -> Q' l) -> muted x y Q'.
Proof. intros (l & E & M & P) HQ. exists l. auto. Qed.

Lemma muted_read x r : r <> TRNG_DATA -> muted x (trng_reg_read x r).2 (fun l => l = [TrngAns r (trng_reg_read x r).1]).
Proof. intros Hr. exists [TrngAns r (trng_reg_read x r).1]. split; [apply trng_read_log |]. split; [by destruct r | done]. Qed.

Lemma muted_words x y Q : muted x y Q -> words_of y.2 = words_of x.2.
Proof. intros (l & -> & M & _). by apply words_mute. Qed.

Lemma poll_log r n : r <> TRNG_DATA -> forall x, muted x (flag_poll r n x).2 (fun _ => True).
Proof.
  intros Hr. induction n as [| n IH]; intros x; [exists []; by rewrite app_nil_r |]. cbn [flag_poll].
  pose proof (muted_read x r Hr) as M. destruct (trng_reg_read x r) as [v y]. cbn [fst snd] in M.
  destruct (v =? FLAG_SET); [by eapply muted_weaken |]. by apply (muted_trans _ _ _ _ _ _ M (IH y)).
Qed.

Lemma any_set_log rs : TRNG_DATA ∉ rs -> forall x,
  let '(bad, y) := any_set rs x in
  muted x y (fun l => bad = false -> exists vs, l = zip_with TrngAns rs vs /\ length vs = length rs /\ Forall (fun v => v <> FLAG_SET) vs).
Proof.
  induction rs as [| r rs IH]; intros Hn x; cbn [any_set]; [exists []; rewrite app_nil_r; split_and!; auto; by exists [] |].
  rewrite not_elem_of_cons in Hn. destruct Hn as (Hr & Hn). pose proof (muted_read x r ltac:(congruence)) as M.
  destruct (trng_reg_read x r) as [v y]. cbn [fst snd] in M. destruct (Z.eqb_spec v FLAG_SET) as [-> | Hv]; [by eapply muted_weaken |].
  specialize (IH Hn y). destruct (any_set rs y) as [bad z]. apply (muted_trans _ _ _ _ _ _ M IH).
  intros l1 l2 -> Hl Hb. destruct (Hl Hb) as (vs & -> & L & F). exists (v :: vs). cbn. split_and!; [done | congruence | by constructor].
Qed.

Lemma faulted_log x : let '(bad, y) := trng_faulted x in muted x y (fun l => bad = false -> clean_log l).
Proof.
  unfold trng_faulted. pose proof (muted_read x TRNG_STAT_ERRSTA ltac:(done)) as M.
  destruct (trng_reg_read x TRNG_STAT_ERRSTA) as [v y]. cbn [fst snd] in M.
  destruct (Z.eqb_spec v 0) as [-> |]; cbn [negb]; [| by eapply muted_weaken].
  pose proof (any_set_log [int_flag_ceif; int_flag_seif; flag_cecs; flag_secs]) as A.
  specialize (A ltac:(rewrite !not_elem_of_cons; split_and!; (done || apply not_elem_of_nil)) y).
  destruct (any_set _ y) as [bad z]. apply (muted_trans _ _ _ _ _ _ M A). intros l1 l2 -> Hl Hb.
  destruct (Hl Hb) as (vs & -> & L & F). destruct vs as [| a [| b [| c [| d [|]]]]]; try done. by exists a, b, c, d.
Qed.

Lemma drdy_log n : forall x, muted x (drdy_wait n x).2 (fun l => exists polls, l = TrngAns flag_drdy <$> polls).
Proof.
  induction n as [| n IH]; intros x; cbn [drdy_wait]; pose proof (muted_read x flag_drdy ltac:(done)) as M;
    destruct (trng_reg_read x flag_drdy) as [v y]; cbn [fst snd] in M.
  - assert (M' : muted x y (fun l => exists polls, l = TrngAns flag_drdy <$> polls)) by (apply (muted_weaken _ _ _ _ M); intros l ->; by exists [v]).
    by destruct (negb _).
  - destruct (negb _); [apply (muted_weaken _ _ _ _ M); intros l ->; by exists [v] |].
    apply (muted_trans _ _ _ _ _ _ M (IH y)). intros l1 l2 -> (polls & ->). by exists (v :: polls).
Qed.

(** ** The statics and the words read *)

(** The statics describe the words read since the last reset; the unit is ready
    only when one was read and kept, and then it is started. *)
Definition trng_ok x (w : trng_sw) : Prop :=
  (if trng_prev_valid w then list.last (words_of x.2) = Some (trng_prev_word w) else words_of x.2 = []) /\
  (trng_ready w = true -> trng_prev_valid w = true) /\ (trng_prev_valid w = true -> trng_started w = true).

Lemma ok_muted Q x y w : muted x y Q -> trng_ok x w -> trng_ok y w.
Proof. intros M (A & B). split; [by rewrite (muted_words _ _ _ M) | done]. Qed.

Lemma demote_ok x w : let '(y, w') := trng_demote x w in trng_ok y w' /\ trng_started w' = false /\ exists l, y.2 = x.2 ++ l.
Proof. unfold trng_demote. split; [| split; [done | by eexists]]. split; [| done]. cbn. by rewrite words_app. Qed.

(** What is left of a word refused. *)
Definition refused x y (w w' : trng_sw) (rc : Z) : Prop :=
  trng_ok y w' /\ (exists l, y.2 = x.2 ++ l) /\
  (rc = BRIDGE_HW_ERR_IO /\ trng_started w' = false \/ rc = BRIDGE_HW_ERR_BUSY /\ trng_started w' = trng_started w /\ trng_ready w' = trng_ready w).

Lemma word_log budget x w : trng_ok x w -> trng_started w = true ->
  let '(r, _, y, w') := trng_word budget x w in
  match r with
  | inl rc => refused x y w w' rc
  | inr word =>
      trng_ok y w' /\ trng_started w' = trng_started w /\ trng_ready w' = trng_ready w /\ trng_prev_valid w' = true /\ trng_prev_word w' = word /\
      (trng_prev_valid w = true -> word <> trng_prev_word w) /\
      exists clean polls ready v, word = u32 v /\ clean_log clean /\ ready <> 0 /\
        y.2 = x.2 ++ clean ++ (TrngAns flag_drdy <$> polls) ++ [TrngAns flag_drdy ready; TrngAns TRNG_DATA v]
  end.
Proof.
  intros Hok Hst. unfold trng_word. pose proof (faulted_log x) as F. destruct (trng_faulted x) as [bad x1].
  assert (D : forall y Q, muted x y Q -> let '(z, w') := trng_demote y w in refused x z w w' BRIDGE_HW_ERR_IO).
  { intros y Q (l & E & _). pose proof (demote_ok y w) as D. destruct (trng_demote y w) as [z w']. destruct D as (D1 & D2 & l' & D3).
    split; [done |]. split; [exists (l ++ l'); by rewrite D3, E, app_assoc | by left]. }
  destruct bad; [by apply (D x1 _ F) |].
  pose proof (drdy_log budget x1) as W. destruct (drdy_wait budget x1) as [budget' x2]. cbn [snd] in W.
  pose proof (muted_read x2 flag_drdy ltac:(done)) as R. destruct (trng_reg_read x2 flag_drdy) as [ready x3]. cbn [fst snd] in R.
  assert (M : muted x x3 (fun l => exists clean polls, clean_log clean /\ l = clean ++ (TrngAns flag_drdy <$> polls) ++ [TrngAns flag_drdy ready])).
  { apply (muted_trans _ _ _ _ _ _ (muted_trans _ _ (fun l => exists clean polls, clean_log clean /\ l = clean ++ (TrngAns flag_drdy <$> polls)) _ _ _ F W
      ltac:(intros l1 l2 C (polls & ->); exists l1, polls; by split; [apply C |])) R).
    intros l1 l2 (clean & polls & C & ->) ->. exists clean, polls. by rewrite app_assoc. }
  destruct (Z.eqb_spec ready 0) as [-> | Hready].
  - pose proof (faulted_log x3) as F3. destruct (trng_faulted x3) as [bad x4].
    assert (M4 : muted x x4 (fun _ => True)) by (by apply (muted_trans _ _ _ _ _ _ M F3)).
    destruct bad; [by apply (D x4 _ M4) |]. split; [exact (ok_muted _ x x4 w M4 Hok) |].
    split; [destruct M4 as (l & -> & _); by exists l | by right].
  - pose proof (trng_read_log x3 TRNG_DATA) as R4. destruct (trng_reg_read x3 TRNG_DATA) as [v x4]. cbn [fst snd] in R4.
    destruct M as (l & E & Mu & clean & polls & C & ->).
    destruct (trng_prev_valid w && (u32 v =? trng_prev_word w)) eqn:Erep.
    + pose proof (demote_ok x4 w) as D4. destruct (trng_demote x4 w) as [z w']. destruct D4 as (D1 & D2 & l' & D3).
      split; [done |]. split; [eexists; by rewrite D3, R4, E, <- !app_assoc | by left].
    + destruct Hok as (O1 & O2 & O3). split; [split; [| split] | do 4 (split; [done |]); split].
      * cbn [trng_prev_valid trng_prev_word]. rewrite R4, words_app. cbn. by rewrite last_snoc.
      * done.
      * done.
      * intros Hv. rewrite Hv in Erep. cbn [andb] in Erep. by apply Z.eqb_neq in Erep.
      * exists clean, polls, ready, v. split_and!; try done. by rewrite R4, E, <- !app_assoc.
Qed.

(** ** The words of a request *)

Lemma pulled_words l ws : pulled l ws -> forall l0, words_of (l0 ++ l) = words_of l0 ++ ws.
Proof.
  induction 1 as [| clean polls ready v l ws (a & b & c & d & -> & _) _ _ IH]; intros l0; [by rewrite !app_nil_r |].
  set (seg := [TrngAns TRNG_STAT_ERRSTA 0; _; _; _; _]). 
  assert (E : words_of (l0 ++ seg ++ (TrngAns flag_drdy <$> polls) ++ [TrngAns flag_drdy ready]) = words_of l0).
  { apply words_mute. rewrite !forallb_app. cbn. rewrite andb_true_r. by induction polls. }
  assert (E2 : l0 ++ seg ++ (TrngAns flag_drdy <$> polls) ++ [TrngAns flag_drdy ready; TrngAns TRNG_DATA v] ++ l =
    ((l0 ++ seg ++ (TrngAns flag_drdy <$> polls) ++ [TrngAns flag_drdy ready]) ++ [TrngAns TRNG_DATA v]) ++ l) by (by rewrite <- !app_assoc).
  rewrite E2, IH, words_app, E. cbn. by rewrite <- app_assoc.
Qed.

(** A request from [x]: on OK the bytes are those of fresh words, as many as asked. *)
Definition delivers (len : nat) x y (w w' : trng_sw) (rc : Z) (bs : list Z) : Prop :=
  trng_ok y w' /\
  if rc =? BRIDGE_HW_OK
  then trng_started w' = trng_started w /\ trng_ready w' = trng_ready w /\
       exists l ws, y.2 = x.2 ++ l /\ pulled l ws /\ (4 * length ws < len + 4)%nat /\ fresh (trng_prev_word w) ws /\
         length bs = len /\ bs = take len (concat (put32 <$> ws))
  else refused x y w w' rc.

Lemma refused_delivers len x y w w' rc bs : refused x y w w' rc -> delivers len x y w w' rc bs.
Proof.
  intros R. split; [apply R |]. assert (E : (rc =? BRIDGE_HW_OK) = false) by (by destruct R as (_ & _ & [(-> & _) | (-> & _)])).
  by rewrite E.
Qed.

Lemma pull_word rem budget x w : trng_ok x w -> trng_prev_valid w = true -> (0 < rem <= 4)%nat ->
  let '(r, _, y, w') := trng_word budget x w in
  match r with inl rc => refused x y w w' rc | inr word => delivers rem x y w w' BRIDGE_HW_OK (take rem (put32 word)) end.
Proof.
  intros Hok Hv Hrem. pose proof (word_log budget x w Hok (proj2 (proj2 Hok) Hv)) as W. destruct (trng_word budget x w) as [[[r b] y] w'].
  destruct r as [rc | word]; [exact W |]. destruct W as (W1 & W2 & W3 & _ & _ & W6 & clean & polls & ready & v & -> & C & R & E).
  split; [done |]. cbn [Z.eqb]. split; [done |]. split; [done |].
  exists (clean ++ (TrngAns flag_drdy <$> polls) ++ [TrngAns flag_drdy ready; TrngAns TRNG_DATA v] ++ []), [u32 v].
  split; [by rewrite E |].
  split; [apply pulled_word; [exact C | exact R | apply pulled_nil] |]. split; [cbn; lia |].
  split; [split; [by apply W6 | done] |]. split; [rewrite length_take; cbn; lia |]. cbn [fmap list_fmap concat]. by rewrite app_nil_r.
Qed.

Lemma pull_log len : forall budget x w, trng_ok x w -> trng_prev_valid w = true ->
  let '(y, w', (rc, bs)) := trng_pull len budget x w in delivers len x y w w' rc bs.
Proof.
  induction len as [len IH] using lt_wf_ind. intros budget x w Hok Hv. pose proof (proj2 (proj2 Hok) Hv) as Hst.
  assert (Short : (0 < len < 4)%nat -> let '(y, w', (rc, bs)) :=
    (let '(r, budget, h, w) := trng_word budget x w in
     match r with inl rc => (h, w, (rc, [])) | inr word => (h, w, (BRIDGE_HW_OK, take len (put32 word))) end) in delivers len x y w w' rc bs).
  { intros Hl. pose proof (pull_word len budget x w Hok Hv ltac:(lia)) as P. destruct (trng_word budget x w) as [[[r b] y] w'].
    destruct r as [rc | word]; [by apply refused_delivers | done]. }
  destruct len as [| [| [| [| len]]]]; [| apply Short; lia.. |].
  - cbn. split; [done |]. cbn. do 2 (split; [done |]). exists [], []. rewrite app_nil_r.
    split; [done |]. split; [apply pulled_nil |]. split; [cbn; lia | done].
  - cbn [trng_pull]. pose proof (word_log budget x w Hok Hst) as W. destruct (trng_word budget x w) as [[[r b] x1] w1].
    destruct r as [rc | word].
    { by apply refused_delivers. }
    destruct W as (W1 & W2 & W3 & W4 & W5 & W6 & clean & polls & ready & v & -> & C & R & E).
    specialize (IH len ltac:(lia) b x1 w1 W1 W4). destruct (trng_pull len b x1 w1) as [[y w'] [rc bs]].
    destruct IH as (Hok' & IH). split; [done |]. destruct (rc =? BRIDGE_HW_OK).
    + destruct IH as (I1 & I2 & l & ws & E2 & P & Hn & Fr & L & B). split; [congruence |]. split; [congruence |].
      eexists _, (u32 v :: ws). split; [rewrite E2, E, <- !app_assoc; reflexivity |].
      split; [by apply pulled_word |]. split; [cbn [length]; lia |]. split; [split; [by apply W6 | by rewrite <- W5] |].
      split; [rewrite length_app, L; cbn; lia |]. by rewrite B.
    + destruct IH as (_ & (l & E2) & I). split; [done |]. split; [eexists; rewrite E2, E, <- !app_assoc; reflexivity |].
      destruct I as [I | (I1 & I2 & I3)]; [by left | right; split_and!; congruence].
Qed.

(** ** Reachable states *)

Lemma start_ok x w : trng_ok x w -> trng_started w = false ->
  let '(up, y) := trng_start x in trng_ok y (set_started up w) /\ exists l, y.2 = x.2 ++ l.
Proof.
  intros (O1 & O2 & O3) Hs. unfold trng_start. pose proof (poll_log rcu_pllstb_flag TRNG_INIT_TIMEOUT ltac:(done) x) as P.
  assert (Hv : trng_prev_valid w = false) by (destruct (trng_prev_valid w); [rewrite O3 in Hs; done | done]).
  assert (Hr : trng_ready w = false) by (destruct (trng_ready w); [rewrite O2 in Hv; done | done]).
  destruct (flag_poll rcu_pllstb_flag TRNG_INIT_TIMEOUT x) as [locked x1]. cbn [snd] in P.
  assert (E : forall y, words_of y.2 = [] -> trng_ok y (set_started locked w)).
  { intros y Hy. unfold trng_ok. cbn [set_started trng_prev_valid trng_ready trng_started]. by rewrite Hv, Hr. }
  rewrite Hv in O1. destruct P as (l & P & M & _). destruct locked; cbn [negb].
  - split; [apply E; cbn; by rewrite !words_app | eexists; cbn; by rewrite P, <- !app_assoc].
  - split; [apply E; by rewrite P, words_mute | by exists l].
Qed.

(** The poll for the first word, which it keeps to itself. *)
Lemma ready_log x w : trng_ok x w -> trng_started w = true -> trng_ready w = false ->
  let '(ready, y, w') := trng_poll_ready x w in
  trng_ok y w' /\ (exists l, y.2 = x.2 ++ l) /\
  if ready : bool then trng_started w' = true /\ trng_ready w' = true else trng_ready w' = false.
Proof.
  intros Hok Hst Hr. unfold trng_poll_ready. pose proof (faulted_log x) as F. destruct (trng_faulted x) as [bad x1].
  assert (D : forall y Q, muted x y Q -> let '(z, w') := trng_demote y w in
    trng_ok z w' /\ (exists l, z.2 = x.2 ++ l) /\ trng_ready w' = false).
  { intros y Q (l & E & _). pose proof (demote_ok y w) as D. destruct (trng_demote y w) as [z w'] eqn:Ed. destruct D as (D1 & D2 & l' & D3).
    split; [done |]. split; [exists (l ++ l'); by rewrite D3, E, app_assoc |]. unfold trng_demote in Ed. by injection Ed as _ <-. }
  destruct bad; [pose proof (D x1 _ F) as D1; by destruct (trng_demote x1 w) |].
  pose proof (poll_log flag_drdy TRNG_READY_TIMEOUT ltac:(done) x1) as P. destruct (flag_poll _ _ x1) as [drdy x2]. cbn [snd] in P.
  assert (M2 : muted x x2 (fun _ => True)) by (by apply (muted_trans _ _ _ _ _ _ F P)).
  set (z := if negb drdy then (true, x2) else trng_faulted x2).
  assert (M3 : muted x z.2 (fun _ => True)).
  { unfold z. destruct drdy; cbn [negb]; [| exact M2]. pose proof (faulted_log x2) as F2. destruct (trng_faulted x2) as [bad x3].
    by apply (muted_trans _ _ _ _ _ _ M2 F2). }
  destruct z as [bad x3]. cbn [snd] in M3. destruct bad.
  - pose proof (faulted_log x3) as F4. destruct (trng_faulted x3) as [bad x4].
    assert (M4 : muted x x4 (fun _ => True)) by (by apply (muted_trans _ _ _ _ _ _ M3 F4)).
    destruct bad; [pose proof (D x4 _ M4) as D1; by destruct (trng_demote x4 w) |].
    split; [exact (ok_muted _ x x4 w M4 Hok) |]. split; [destruct M4 as (l & -> & _); by exists l | done].
  - pose proof (trng_read_log x3 TRNG_DATA) as R4. destruct (trng_reg_read x3 TRNG_DATA) as [v x4]. cbn [fst snd] in R4.
    destruct M3 as (l & E & _). split; [| split; [eexists; by rewrite R4, E, <- app_assoc | done]].
    split; [| by split]. cbn [trng_prev_valid trng_prev_word]. rewrite R4, words_app. cbn. by rewrite last_snoc.
Qed.

(** A request, from any state the invariant holds in. *)
Definition served (len : nat) x y (w w' : trng_sw) (rc : Z) (bs : list Z) : Prop :=
  if (len =? 0)%nat || (32 <? len)%nat then rc = BRIDGE_HW_ERR_RANGE /\ y = x /\ w' = w
  else if rc =? BRIDGE_HW_OK
  then exists pre first l ws, y.2 = x.2 ++ pre ++ l /\ list.last (words_of (x.2 ++ pre)) = Some first /\
         pulled l ws /\ (4 * length ws < len + 4)%nat /\ fresh first ws /\
         length bs = len /\ bs = take len (concat (put32 <$> ws))
  else rc = BRIDGE_HW_ERR_IO /\ trng_ready w' = false \/ rc = BRIDGE_HW_ERR_BUSY /\ trng_ready w' = true.

Lemma read_log len x w : trng_ok x w ->
  let '(y, w', (rc, bs)) := bridge_hw_trng_read_ x w len in trng_ok y w' /\ served len x y w w' rc bs.
Proof.
  intros Hok. unfold bridge_hw_trng_read_, served. destruct ((len =? 0)%nat || (32 <? len)%nat); [done |].
  set (up := if trng_started w then _ else _).
  assert (U : let '(b, y, w') := up in trng_ok y w' /\ (exists l, y.2 = x.2 ++ l) /\ trng_started w' = b /\ (b = false -> trng_ready w' = false)).
  { unfold up. destruct (trng_started w) eqn:Es; [split; [done |]; split; [exists []; by rewrite app_nil_r | done] |].
    pose proof (start_ok x w Hok Es) as S. destruct (trng_start x) as [b y]. destruct S as (S1 & S2).
    split; [done |]. split; [done |]. split; [done |]. intros ->. destruct S1 as (_ & S3 & S4).
    cbn [set_started trng_ready trng_prev_valid trng_started] in *. destruct (trng_ready w); [specialize (S4 (S3 eq_refl)); done | done]. }
  destruct up as [[b x1] w1]. destruct U as (U1 & (l1 & U2) & U3 & U4). destruct b; cbn [negb]; [| split; [done | left; auto]].
  set (rd := if trng_ready w1 then _ else _).
  assert (R : let '(ready, y, w') := rd in trng_ok y w' /\ (exists l, y.2 = x1.2 ++ l) /\
    if ready : bool then trng_started w' = true /\ trng_ready w' = true else trng_ready w' = false).
  { unfold rd. destruct (trng_ready w1) eqn:Er; [split; [done |]; split; [exists []; by rewrite app_nil_r | done] | by apply ready_log]. }
  destruct rd as [[ready x2] w2]. destruct R as (R1 & (l2 & R2) & R3). destruct ready; cbn [negb]; [| split; [done | left; auto]].
  destruct R3 as (R3 & R4). pose proof R1 as (V1 & V2 & _). specialize (V2 R4). rewrite V2 in V1.
  pose proof (pull_log len (2 * TRNG_READY_TIMEOUT) x2 w2 R1 V2) as P. destruct (trng_pull len _ x2 w2) as [[y w'] [rc bs]].
  destruct P as (P1 & P2). split; [done |]. destruct (rc =? BRIDGE_HW_OK).
  - destruct P2 as (_ & _ & l & ws & E & Pu & Hn & Fr & L & B). exists (l1 ++ l2), (trng_prev_word w2), l, ws.
    split; [by rewrite E, R2, U2, <- !app_assoc |]. split; [by rewrite app_assoc, <- U2, <- R2 |]. auto.
  - destruct P2 as (_ & _ & [(-> & S) | (-> & _ & S)]).
    + left. split; [done |]. destruct P1 as (_ & P3 & P4). destruct (trng_ready w'); [specialize (P4 (P3 eq_refl)); congruence | done].
    + right. split; [done | congruence].
Qed.

Lemma boot_ok h0 : trng_ok (trng_boot ((h0, []) : trng_traced H)).1 (trng_boot ((h0, []) : trng_traced H)).2.
Proof.
  unfold trng_boot. pose proof (start_ok ((h0, []) : trng_traced H) trng_sw0 ltac:(done) eq_refl) as S.
  destruct (trng_start _) as [up x]. destruct S as (S & _). destruct (trng_started (set_started up trng_sw0)); [| exact S].
  generalize (set_started up trng_sw0) x S. clear. generalize 8%nat. intros n. induction n as [| n IH]; intros w x O; cbn [trng_grace]; [exact O |].
  destruct (trng_started w) eqn:Es; [| exact O]. destruct (trng_ready w) eqn:Er; [exact O |]. cbn [andb negb].
  pose proof (ready_log x w O Es Er) as R. destruct (trng_poll_ready x w) as [[b y] w']. exact (IH w' y (proj1 R)).
Qed.

(** Any sequence of requests after the bring-up. *)
Definition trng_run (h0 : H) (lens : list nat) : trng_traced H * trng_sw :=
  foldl (fun (z : trng_traced H * trng_sw) len => (bridge_hw_trng_read_ z.1 z.2 len).1) (trng_boot ((h0, []) : trng_traced H)) lens.

Lemma run_ok h0 lens : trng_ok (trng_run h0 lens).1 (trng_run h0 lens).2.
Proof.
  unfold trng_run. generalize (boot_ok h0). generalize (trng_boot ((h0, []) : trng_traced H)).
  induction lens as [| len lens IH]; intros z O; [exact O |]. cbn [foldl]. pose proof (read_log len z.1 z.2 O) as R.
  destruct (bridge_hw_trng_read_ z.1 z.2 len) as [[y w'] [rc bs]]. exact (IH (y, w') (proj1 R)).
Qed.

(** C37. Random bytes are never stale.  After the boot bring-up and any sequence of requests, whatever the
    hardware answers: a request for no bytes or more than 32 is refused with
    nothing touched; an OK reply has exactly the bytes asked, the little-endian
    bytes of words each read once in this request with all five fault bits seen
    clear and DRDY seen set before it; no word equals the one read before it, and
    at least one word read since the generator was last reset is held back; a
    request that ends in IO leaves the unit to be polled or rebuilt, one that
    ends in BUSY leaves it ready. *)
Theorem trng_bytes_fresh h0 lens len :
  let '(x, w) := trng_run h0 lens in
  let '(y, w', (rc, bs)) := bridge_hw_trng_read_ x w len in served len x y w w' rc bs.
Proof.
  pose proof (run_ok h0 lens) as O. destruct (trng_run h0 lens) as [x w]. pose proof (read_log len x w O) as R.
  destruct (bridge_hw_trng_read_ x w len) as [[y w'] [rc bs]]. apply R.
Qed.

End safety.
