(* ===== verification/Reset.v ===== *)
(** * Faults and resets: [hal/gd32/fault_handlers.c], [fault_diag.c], [reset_reason.c]

    The fault record and the reset-loop counter in the backup registers, the common
    fault handler, and the reset cause from the bootloader's stash to the snapshot
    the application answers from ([src/boot/boot_main.c], [init.c]). *)

From stdpp Require Import base tactics list numbers option.
From S2P Require Import Prelude.

(** ** Registers *)

(** [RTC_BKP0] .. [RTC_BKP8], which survive a system reset and take writes only once
    unlocked, and [RCU_RSTSCK]. *)
Record chip := Chip { RTC_BKP : list Z; bkp_unlocked : bool; RCU_RSTSCK : Z }.

Definition bkp_write (n : nat) (v : Z) (c : chip) : chip :=
  Chip (if bkp_unlocked c then <[n := u32 v]> (RTC_BKP c) else RTC_BKP c) (bkp_unlocked c) (RCU_RSTSCK c).
Definition bkp (c : chip) (n : nat) : Z := default 0 (RTC_BKP c !! n).

(** [fault_backup_unlock] and the bootloader's [backup_domain_unlock]. *)
Definition fault_backup_unlock (c : chip) : chip := Chip (RTC_BKP c) true (RCU_RSTSCK c).

(** ** The reset cause *)

Definition BRIDGE_RESET_RSTSCK_OBLRSTF : Z := 0x00800000.
Definition BRIDGE_RESET_RSTSCK_RSTFC : Z := 0x01000000.
Definition BRIDGE_RESET_RSTSCK_BORRSTF : Z := 0x02000000.
Definition BRIDGE_RESET_RSTSCK_EPRSTF : Z := 0x04000000.
Definition BRIDGE_RESET_RSTSCK_PORRSTF : Z := 0x08000000.
Definition BRIDGE_RESET_RSTSCK_SWRSTF : Z := 0x10000000.
Definition BRIDGE_RESET_RSTSCK_FWDGTRSTF : Z := 0x20000000.
Definition BRIDGE_RESET_RSTSCK_WWDGTRSTF : Z := 0x40000000.
Definition BRIDGE_RESET_RSTSCK_LPRSTF : Z := 0x80000000.

Definition has (v mask : Z) : bool := negb (Z.land v mask =? 0).

Definition bridge_reset_reason_decode (rstsck : Z) : Z :=
  if has rstsck BRIDGE_RESET_RSTSCK_PORRSTF then 1
  else if has rstsck BRIDGE_RESET_RSTSCK_BORRSTF then 5
  else if has rstsck (Z.lor BRIDGE_RESET_RSTSCK_FWDGTRSTF BRIDGE_RESET_RSTSCK_WWDGTRSTF) then 4
  else if has rstsck BRIDGE_RESET_RSTSCK_EPRSTF then 2
  else if has rstsck BRIDGE_RESET_RSTSCK_LPRSTF then 6
  else if has rstsck BRIDGE_RESET_RSTSCK_SWRSTF then 3
  else 0.

(** Storing with [RSTFC] set clears every cause flag. *)
Definition rstsck_flags : Z := 0xFE800000.
Definition rstsck_write (v : Z) (c : chip) : chip :=
  Chip (RTC_BKP c) (bkp_unlocked c)
    (if has v BRIDGE_RESET_RSTSCK_RSTFC then Z.land v (Z.lnot (Z.lor rstsck_flags BRIDGE_RESET_RSTSCK_RSTFC)) else v).

Definition bridge_reset_reason_latch_and_clear (c : chip) : Z * chip :=
  let snapshot := RCU_RSTSCK c in (snapshot, rstsck_write (Z.lor (RCU_RSTSCK c) BRIDGE_RESET_RSTSCK_RSTFC) c).

(** The bootloader's head: stash the raw cause, clear the register. *)
Definition boot_stash (c : chip) : chip :=
  let rstsck := RCU_RSTSCK c in
  let c := bkp_write 8 rstsck (fault_backup_unlock c) in
  rstsck_write (Z.lor (RCU_RSTSCK c) BRIDGE_RESET_RSTSCK_RSTFC) c.

(** The head of [bridge_hw_init]: [s_reset_reason_snapshot]. *)
Definition reset_snapshot (c : chip) : Z * chip :=
  let c := fault_backup_unlock c in
  let snapshot := bkp c 8 in
  if negb (snapshot =? 0) then (snapshot, bkp_write 8 0 c) else bridge_reset_reason_latch_and_clear c.

Definition bridge_hw_reset_reason_ (snapshot : Z) : Z := bridge_reset_reason_decode snapshot.

(** A system reset: the backup registers keep their values and lock again, the
    cause flags [cause] come on top of those not cleared. *)
Definition system_reset (cause : Z) (c : chip) : chip := Chip (RTC_BKP c) false (Z.lor (RCU_RSTSCK c) cause).

(** ** Fault records *)

Inductive fault_type := FAULT_TYPE_NMI | FAULT_TYPE_HARDFAULT | FAULT_TYPE_MEMMANAGE | FAULT_TYPE_BUSFAULT | FAULT_TYPE_USAGEFAULT.
Definition fault_type_code (t : fault_type) : Z :=
  match t with
  | FAULT_TYPE_NMI => 0 | FAULT_TYPE_HARDFAULT => 1 | FAULT_TYPE_MEMMANAGE => 2 | FAULT_TYPE_BUSFAULT => 3 | FAULT_TYPE_USAGEFAULT => 4
  end.

Definition FAULT_RECORD_MAGIC : Z := 0xFA170000.
Definition FAULT_DIAG_CFSR_MMARVALID_MSK : Z := 0x80.
Definition FAULT_DIAG_CFSR_BFARVALID_MSK : Z := 0x8000.
Definition FAULT_DIAG_SYSCFG_STAT_FLASHECCIF_MSK : Z := 4.
Definition FAULT_RESET_LOOP_LIMIT : Z := 3.

Record fault_record := FaultRecord {
  fr_magic : Z; fr_pc : Z; fr_lr : Z; fr_status_primary : Z; fr_status_secondary : Z; fr_mmfar : Z; fr_bfar : Z }.

Definition fault_diag_build_cpu (t : fault_type) (pc lr cfsr hfsr mmfar_raw bfar_raw : Z) : fault_record :=
  FaultRecord (Z.lor FAULT_RECORD_MAGIC (fault_type_code t)) pc lr cfsr hfsr
    (if has cfsr FAULT_DIAG_CFSR_MMARVALID_MSK then mmfar_raw else 0)
    (if has cfsr FAULT_DIAG_CFSR_BFARVALID_MSK then bfar_raw else 0).

Definition fault_diag_build_nmi (pc lr syscfg_stat fmc_eccs_raw : Z) : fault_record :=
  FaultRecord (Z.lor FAULT_RECORD_MAGIC (fault_type_code FAULT_TYPE_NMI)) pc lr syscfg_stat
    (if has syscfg_stat FAULT_DIAG_SYSCFG_STAT_FLASHECCIF_MSK then fmc_eccs_raw else 0) 0 0.

(** What the handler finds: the stacked frame's words and the live registers. *)
Record fault_live := FaultLive {
  stacked_pc : Z; stacked_lr : Z; SYSCFG_STAT : Z; FMC_ECCCS : Z; CFSR : Z; HFSR : Z; MMFAR : Z; BFAR : Z;
  debugger_attached : bool }.

Definition fault_build (t : fault_type) (f : fault_live) : fault_record :=
  match t with
  | FAULT_TYPE_NMI =>
      let fmc := if has (SYSCFG_STAT f) FAULT_DIAG_SYSCFG_STAT_FLASHECCIF_MSK then FMC_ECCCS f else 0 in
      fault_diag_build_nmi (stacked_pc f) (stacked_lr f) (SYSCFG_STAT f) fmc
  | _ => fault_diag_build_cpu t (stacked_pc f) (stacked_lr f) (CFSR f) (HFSR f) (MMFAR f) (BFAR f)
  end.

(** [fault_record_save]. *)
Definition fault_words (r : fault_record) : list Z :=
  [fr_magic r; fr_pc r; fr_lr r; fr_status_primary r; fr_status_secondary r; fr_mmfar r; fr_bfar r].
Definition fault_record_save (r : fault_record) (c : chip) : chip :=
  foldl (fun c '(n, v) => bkp_write n v c) c (zip (seq 0 7) (fault_words r)).

Definition fault_reset_loop_bump (c : chip) : Z * chip :=
  let count := bkp c 7 in
  let count := if count <? 0xFFFFFFFF then u32 (count + 1) else count in
  (count, bkp_write 7 count c).

Definition fault_reset_loop_mark_healthy (c : chip) : chip := bkp_write 7 0 (fault_backup_unlock c).

(** The end of a handler: a halt, or the flags written back and a reset. *)
Inductive fault_clear := ClearEcc | ClearSyscfg (v : Z) | ClearCfsr (v : Z).
Inductive fault_end := FaultHalt | FaultReset (cleared : list fault_clear).

Definition fault_common_handler (t : fault_type) (f : fault_live) (c : chip) : chip * fault_end :=
  let rec_ := fault_build t f in
  let c := fault_record_save rec_ (fault_backup_unlock c) in
  let '(loop_count, c) := fault_reset_loop_bump c in
  if debugger_attached f then (c, FaultHalt)
  else if FAULT_RESET_LOOP_LIMIT <? loop_count then (c, FaultHalt)
  else
    (c, FaultReset
      match t with
      | FAULT_TYPE_NMI =>
          (if negb (fr_status_secondary rec_ =? 0) then [ClearEcc] else []) ++ [ClearSyscfg (fr_status_primary rec_)]
      | _ => [ClearCfsr (fr_status_primary rec_)]
      end).

(** ** A run of faults *)

Definition fault : Type := fault_type * fault_live.

(** Faults that follow one another with no healthy bring-up between: each that
    resets boots again through the bootloader and the application's head. *)
Fixpoint fault_series (fs : list fault) (c : chip) : list fault_end * chip :=
  match fs with
  | [] => ([], c)
  | (t, f) :: fs =>
      match fault_common_handler t f c with
      | (c, FaultHalt) => ([FaultHalt], c)
      | (c, e) =>
          let '(_, c) := reset_snapshot (boot_stash (system_reset BRIDGE_RESET_RSTSCK_SWRSTF c)) in
          let '(es, c) := fault_series fs c in (e :: es, c)
      end
  end.

(** ** Theorems *)

Definition chip_ok (c : chip) : Prop := length (RTC_BKP c) = 9%nat /\ is_u32 (bkp c 7).

Definition live_ok (f : fault_live) : Prop :=
  Forall is_u32 [stacked_pc f; stacked_lr f; SYSCFG_STAT f; FMC_ECCCS f; CFSR f; HFSR f; MMFAR f; BFAR f].

(** The saved record: [RTC_BKP0] .. [RTC_BKP6]. *)
Definition saved_record (c : chip) : list Z := take 7 (RTC_BKP c).

Lemma chip_shape c : length (RTC_BKP c) = 9%nat -> exists a0 a1 a2 a3 a4 a5 a6 a7 a8, RTC_BKP c = [a0; a1; a2; a3; a4; a5; a6; a7; a8].
Proof. intros L. destruct (RTC_BKP c) as [| a0 [| a1 [| a2 [| a3 [| a4 [| a5 [| a6 [| a7 [| a8 [|]]]]]]]]]]; try done. by repeat eexists. Qed.

Lemma u32_if (b : bool) v : is_u32 v -> is_u32 (if b then v else 0).
Proof. by destruct b. Qed.

Lemma build_words_ok t f : live_ok f -> Forall is_u32 (fault_words (fault_build t f)).
Proof.
  unfold live_ok. rewrite !list.Forall_cons. intros (H1 & H2 & H3 & H4 & H5 & H6 & H7 & H8 & _).
  unfold fault_build, fault_diag_build_nmi, fault_diag_build_cpu, fault_words. assert (Z0 : is_u32 0) by done.
  destruct t; cbn [fr_magic fr_pc fr_lr fr_status_primary fr_status_secondary fr_mmfar fr_bfar];
    repeat apply Forall_cons_2; auto using u32_if; (apply Forall_nil_2 || by vm_compute).
Qed.

Lemma words7 ws : length ws = 7%nat -> Forall is_u32 ws -> exists b0 b1 b2 b3 b4 b5 b6,
  ws = [b0; b1; b2; b3; b4; b5; b6] /\ u32 b0 = b0 /\ u32 b1 = b1 /\ u32 b2 = b2 /\ u32 b3 = b3 /\ u32 b4 = b4 /\ u32 b5 = b5 /\ u32 b6 = b6.
Proof.
  intros L F. destruct ws as [| b0 [| b1 [| b2 [| b3 [| b4 [| b5 [| b6 [|]]]]]]]]; try done.
  rewrite !list.Forall_cons in F. exists b0, b1, b2, b3, b4, b5, b6. split_and!; try done; apply u32_id; tauto.
Qed.

(** The handler, whatever the registers hold. *)
Lemma handler_chip t f c : chip_ok c -> live_ok f ->
  (fault_common_handler t f c).1 =
  Chip (fault_words (fault_build t f) ++ [Z.min (bkp c 7 + 1) 0xFFFFFFFF; bkp c 8]) true (RCU_RSTSCK c).
Proof.
  intros (L & Hu) Hl. destruct (chip_shape c L) as (a0 & a1 & a2 & a3 & a4 & a5 & a6 & a7 & a8 & E).
  unfold fault_common_handler, fault_record_save.
  destruct (words7 (fault_words (fault_build t f)) eq_refl (build_words_ok t f Hl)) as (b0 & b1 & b2 & b3 & b4 & b5 & b6 & -> & B0 & B1 & B2 & B3 & B4 & B5 & B6).
  unfold bkp in *. rewrite E in *. cbn in Hu. unfold is_u32 in Hu.
  set (c1 := foldl _ _ _). assert (E1 : c1 = Chip [b0; b1; b2; b3; b4; b5; b6; a7; a8] true (RCU_RSTSCK c)).
  { unfold c1, fault_backup_unlock. cbn -[u32]. rewrite E. unfold bkp_write. cbn -[u32]. by rewrite B0, B1, B2, B3, B4, B5, B6. }
  rewrite E1. unfold fault_reset_loop_bump, bkp_write, bkp. cbn -[u32 Z.ltb Z.min].
  set (n := if a7 <? 0xFFFFFFFF then u32 (a7 + 1) else a7).
  assert (En : u32 n = Z.min (a7 + 1) 0xFFFFFFFF).
  { unfold n, u32. destruct (Z.ltb_spec a7 0xFFFFFFFF); [rewrite !Z.mod_small by (rewrite ?Z.mod_small; lia); lia | rewrite Z.mod_small by lia; lia]. }
  rewrite En. by repeat case_match.
Qed.

Lemma handler_end t f c : chip_ok c -> live_ok f ->
  (fault_common_handler t f c).2 = FaultHalt <-> debugger_attached f = true \/ FAULT_RESET_LOOP_LIMIT <= bkp c 7.
Proof.
  intros Hc Hl. unfold fault_common_handler.
  assert (E : bkp (fault_record_save (fault_build t f) (fault_backup_unlock c)) 7 = bkp c 7).
  { destruct (chip_shape c (proj1 Hc)) as (a0 & a1 & a2 & a3 & a4 & a5 & a6 & a7 & a8 & E). unfold bkp, fault_record_save, fault_backup_unlock.
    rewrite E. done. }
  unfold fault_reset_loop_bump. rewrite E. destruct Hc as (_ & Hu). unfold is_u32 in Hu.
  set (n := if bkp c 7 <? 0xFFFFFFFF then u32 (bkp c 7 + 1) else bkp c 7).
  assert (En : FAULT_RESET_LOOP_LIMIT < n <-> FAULT_RESET_LOOP_LIMIT <= bkp c 7).
  { unfold n, FAULT_RESET_LOOP_LIMIT, u32. destruct (Z.ltb_spec (bkp c 7) 0xFFFFFFFF); [rewrite Z.mod_small by lia; lia | lia]. }
  destruct (debugger_attached f); [split; auto |]. destruct (Z.ltb_spec FAULT_RESET_LOOP_LIMIT n) as [Hn | Hn].
  - split; [intros _; right; by apply En | done].
  - split; [done | intros [| Hle]; [done | apply En in Hle; lia]].
Qed.

(** ** Boots between faults *)

Lemma clear_u32 v c : is_u32 v -> is_u32 (RCU_RSTSCK (rstsck_write (Z.lor v BRIDGE_RESET_RSTSCK_RSTFC) c)).
Proof.
  intros Hv. unfold rstsck_write. cbn [RCU_RSTSCK]. destruct (has _ _); [apply word_land |]; by apply word_lor.
Qed.

(** Setting [RSTFC] leaves no cause flag. *)
Lemma clear_flags v c : Z.land (RCU_RSTSCK (rstsck_write (Z.lor v BRIDGE_RESET_RSTSCK_RSTFC) c)) rstsck_flags = 0.
Proof.
  assert (E : has (Z.lor v BRIDGE_RESET_RSTSCK_RSTFC) BRIDGE_RESET_RSTSCK_RSTFC = true).
  { apply negb_true_iff, Z.eqb_neq. intros A. apply (f_equal (fun z => Z.testbit z 24)) in A.
    rewrite Z.land_spec, Z.lor_spec, Z.bits_0 in A. change (Z.testbit BRIDGE_RESET_RSTSCK_RSTFC 24) with true in A. by rewrite orb_true_r in A. }
  unfold rstsck_write. rewrite E. cbn [RCU_RSTSCK]. apply Z.bits_inj'. intros n Hn.
  rewrite !Z.land_spec, Z.lnot_spec, !Z.lor_spec, Z.bits_0 by done. destruct (Z.testbit rstsck_flags n); [by rewrite andb_false_r | apply andb_false_r].
Qed.

(** What a boot through the bootloader finds and leaves: the whole cause in the
    snapshot, the record and the counter untouched, and no cause left behind. *)
Lemma boot_keeps c : length (RTC_BKP c) = 9%nat -> is_u32 (RCU_RSTSCK c) ->
  let '(snapshot, c') := reset_snapshot (boot_stash c) in
  bridge_hw_reset_reason_ snapshot = bridge_reset_reason_decode (RCU_RSTSCK c) /\
  saved_record c' = saved_record c /\ bkp c' 7 = bkp c 7 /\ length (RTC_BKP c') = 9%nat /\ bkp c' 8 = 0 /\
  Z.land (RCU_RSTSCK c') rstsck_flags = 0 /\ is_u32 (RCU_RSTSCK c').
Proof.
  intros L Hu. destruct (chip_shape c L) as (a0 & a1 & a2 & a3 & a4 & a5 & a6 & a7 & a8 & E). destruct c as [l u v].
  cbn [RTC_BKP RCU_RSTSCK] in *. subst l. unfold reset_snapshot, boot_stash.
  set (c1 := bkp_write 8 _ _). assert (E1 : c1 = Chip [a0; a1; a2; a3; a4; a5; a6; a7; v] true v).
  { unfold c1, bkp_write. cbn -[u32]. by rewrite (u32_id v). }
  rewrite E1. cbn [RCU_RSTSCK]. pose proof (clear_flags v (Chip [a0; a1; a2; a3; a4; a5; a6; a7; v] true v)) as F.
  destruct (Z.eqb_spec v 0) as [-> | Hv]; [vm_compute; do 5 (split; [done |]); by split |].
  pose proof (clear_u32 v (Chip [a0; a1; a2; a3; a4; a5; a6; a7; v] true v) Hu) as U.
  set (z := RCU_RSTSCK (rstsck_write _ _)) in F, U.
  change (rstsck_write (Z.lor v BRIDGE_RESET_RSTSCK_RSTFC) _) with (Chip [a0; a1; a2; a3; a4; a5; a6; a7; v] true z).
  clearbody z. set (c2 := Chip _ true z). assert (E8 : bkp (fault_backup_unlock c2) 8 = v) by done.
  rewrite E8, (proj2 (Z.eqb_neq v 0)) by done. do 5 (split; [done |]). by split.
Qed.

(** Without a bootloader's stash the application finds the cause itself. *)
Lemma direct_keeps c : length (RTC_BKP c) = 9%nat -> bkp c 8 = 0 ->
  let '(snapshot, c') := reset_snapshot c in
  snapshot = RCU_RSTSCK c /\ Z.land (RCU_RSTSCK c') rstsck_flags = 0.
Proof.
  intros L E8. unfold reset_snapshot. change (bkp (fault_backup_unlock c) 8) with (bkp c 8). rewrite E8. cbn [Z.eqb negb].
  split; [done | apply clear_flags].
Qed.

(** The chip at the next fault. *)
Lemma reboot_ok c : chip_ok c -> is_u32 (RCU_RSTSCK c) ->
  let '(_, c') := reset_snapshot (boot_stash (system_reset BRIDGE_RESET_RSTSCK_SWRSTF c)) in
  chip_ok c' /\ is_u32 (RCU_RSTSCK c') /\ bkp c' 7 = bkp c 7 /\ saved_record c' = saved_record c.
Proof.
  intros (L & Hu) Hr. set (c1 := system_reset _ c). assert (H1 : is_u32 (RCU_RSTSCK c1)) by (by apply word_lor).
  pose proof (boot_keeps c1 L H1) as B. destruct (reset_snapshot _) as [sn c2].
  destruct B as (_ & B1 & B2 & B3 & _ & _ & B6). change (bkp c1 7) with (bkp c 7) in B2. split; [split; [done | by rewrite B2] |]. done.
Qed.

Lemma handler_ok t f c : chip_ok c -> live_ok f -> is_u32 (RCU_RSTSCK c) ->
  let c' := (fault_common_handler t f c).1 in
  chip_ok c' /\ is_u32 (RCU_RSTSCK c') /\ bkp c' 7 = Z.min (bkp c 7 + 1) 0xFFFFFFFF /\ saved_record c' = fault_words (fault_build t f).
Proof.
  intros Hc Hl Hr. cbn zeta. rewrite (handler_chip t f c Hc Hl). destruct Hc as (_ & Hu). unfold is_u32 in Hu.
  split; [split; [done |] |]; [| done]. change (is_u32 (Z.min (bkp c 7 + 1) 0xFFFFFFFF)). unfold is_u32. lia.
Qed.

(** The resets left before a halt. *)
Definition resets_left (c : chip) : nat := Z.to_nat (FAULT_RESET_LOOP_LIMIT - bkp c 7).

Lemma series_spec fs : forall c, chip_ok c -> is_u32 (RCU_RSTSCK c) -> Forall (fun x => live_ok x.2 /\ debugger_attached x.2 = false) fs ->
  let '(es, c') := fault_series fs c in
  length es = Nat.min (length fs) (S (resets_left c)) /\
  (forall i e, es !! i = Some e -> e = FaultHalt <-> (resets_left c <= i)%nat) /\
  (forall t f, fs !! pred (length es) = Some (t, f) -> saved_record c' = fault_words (fault_build t f)) /\
  Z.min (bkp c 7 + Z.of_nat (length es)) 0xFFFFFFFF = bkp c' 7.
Proof.
  induction fs as [| [t f] fs IH]; intros c Hc Hr Hfs.
  { cbn. split_and!; [done | intros i e; by rewrite lookup_nil | done |]. destruct Hc as (_ & Hu). unfold is_u32 in Hu. lia. }
  apply list.Forall_cons in Hfs as ((Hl & Hd) & Hfs). cbn [fst snd] in Hl, Hd. cbn [fault_series].
  pose proof (handler_ok t f c Hc Hl Hr) as K. pose proof (handler_end t f c Hc Hl) as E. cbn zeta in K.
  destruct (fault_common_handler t f c) as [c1 e1]. cbn [fst snd] in K, E. destruct K as (K1 & K2 & K3 & K4). rewrite Hd in E.
  pose proof Hc as (_ & Hu). unfold is_u32 in Hu. unfold FAULT_RESET_LOOP_LIMIT in E.
  destruct e1 as [| cleared].
  - assert (Hh : 3 <= bkp c 7) by (by destruct (proj1 E eq_refl)). unfold resets_left, FAULT_RESET_LOOP_LIMIT.
    replace (Z.to_nat (3 - bkp c 7)) with 0%nat by lia. cbn [length pred]. split_and!.
    + lia.
    + intros i e Hi. apply list_lookup_singleton_Some in Hi as (-> & <-). split; [lia | done].
    + cbn. by intros t0 f0 [= <- <-].
    + rewrite K3. done.
  - assert (Hh : bkp c 7 < 3) by (destruct (Z.lt_ge_cases (bkp c 7) 3); [done | discriminate (proj2 E (or_intror H))]).
    pose proof (reboot_ok c1 K1 K2) as B. destruct (reset_snapshot _) as [sn c2]. destruct B as (B1 & B2 & B3 & B4).
    specialize (IH c2 B1 B2 Hfs). destruct (fault_series fs c2) as [es c3] eqn:Es. destruct IH as (I1 & I2 & I3 & I4).
    assert (El : resets_left c = S (resets_left c2)) by (unfold resets_left, FAULT_RESET_LOOP_LIMIT; rewrite B3, K3; lia).
    rewrite El. cbn [length]. split_and!.
    + lia.
    + intros [| i] e Hi; cbn in Hi.
      * injection Hi as <-. split; [done | lia].
      * rewrite (I2 i e Hi). lia.
    + intros t0 f0. destruct fs as [| x fs]; cbn [pred].
      * cbn in Es. injection Es as <- <-. cbn. intros [= <- <-]. by rewrite B4.
      * destruct es as [| e es]; [cbn in I1; lia |]. cbn. apply I3.
    + rewrite <- I4, B3, K3. lia.
Qed.

Lemma decode_fresh v cause : Z.land v rstsck_flags = 0 -> bridge_reset_reason_decode (Z.lor v cause) = bridge_reset_reason_decode cause.
Proof.
  intros Hv. assert (E : forall m, Z.land rstsck_flags m = m -> has (Z.lor v cause) m = has cause m).
  { intros m Hm. unfold has. by rewrite Z.land_lor_distr_l, <- Hm, Z.land_assoc, Hv. }
  unfold bridge_reset_reason_decode. by rewrite !E.
Qed.

(** ** The properties *)

(** The reset cause reaches the host once and whole.  Booting through the
    bootloader, the application's snapshot decodes to the cause the reset left in
    the register, although the bootloader cleared it; the fault record and the
    fault counter survive the boot, the stash is consumed, and the cause of the
    next reset, whichever it is, is reported alone. *)
Theorem reset_cause_reported c cause :
  length (RTC_BKP c) = 9%nat -> is_u32 (RCU_RSTSCK c) -> is_u32 cause ->
  let '(snapshot, c') := reset_snapshot (boot_stash c) in
  bridge_hw_reset_reason_ snapshot = bridge_reset_reason_decode (RCU_RSTSCK c) /\
  saved_record c' = saved_record c /\ bkp c' 7 = bkp c 7 /\ bkp c' 8 = 0 /\
  bridge_hw_reset_reason_ (reset_snapshot (boot_stash (system_reset cause c'))).1 = bridge_reset_reason_decode cause.
Proof.
  intros L Hr Hcause. pose proof (boot_keeps c L Hr) as B. destruct (reset_snapshot (boot_stash c)) as [sn c'].
  destruct B as (B1 & B2 & B3 & B4 & B5 & B6 & B7). do 4 (split; [done |]).
  pose proof (boot_keeps (system_reset cause c') B4 (word_lor _ _ B7 Hcause)) as D. destruct (reset_snapshot _) as [sn2 c2].
  destruct D as (D & _). cbn [fst]. rewrite D. by apply decode_fresh.
Qed.

(** C39. Fault resets are bounded.  Whatever the faults record, a series of them
    without a debugger and without a healthy bring-up in between resets the chip as
    often as the limit of three leaves from the saved count, then halts; the count
    saturates instead of wrapping, and the backup registers hold the record of the
    last fault. *)
Theorem fault_resets_bounded fs c :
  chip_ok c -> is_u32 (RCU_RSTSCK c) -> Forall (fun x => live_ok x.2 /\ debugger_attached x.2 = false) fs ->
  let '(es, c') := fault_series fs c in
  length es = Nat.min (length fs) (S (resets_left c)) /\
  (forall i e, es !! i = Some e -> e = FaultHalt <-> (resets_left c <= i)%nat) /\
  (forall t f, fs !! pred (length es) = Some (t, f) -> saved_record c' = fault_words (fault_build t f)) /\
  bkp c' 7 = Z.min (bkp c 7 + Z.of_nat (length es)) 0xFFFFFFFF.
Proof.
  intros Hc Hr Hfs. pose proof (series_spec fs c Hc Hr Hfs) as S. destruct (fault_series fs c) as [es c'].
  destruct S as (S1 & S2 & S3 & S4). by split_and!.
Qed.

(** A bring-up that reached its end gives the next incident all three resets. *)
Lemma healthy_restores c : length (RTC_BKP c) = 9%nat ->
  resets_left (fault_reset_loop_mark_healthy c) = 3%nat /\ saved_record (fault_reset_loop_mark_healthy c) = saved_record c.
Proof.
  intros L. destruct (chip_shape c L) as (a0 & a1 & a2 & a3 & a4 & a5 & a6 & a7 & a8 & E).
  unfold resets_left, bkp, saved_record, fault_reset_loop_mark_healthy, bkp_write. cbn [fault_backup_unlock bkp_unlocked RTC_BKP]. by rewrite E.
Qed.

(** ** Four faults after power-on *)

Definition power_on : chip := Chip (replicate 9 0) false 0x0E000000.
Definition ecc_fault : fault := (FAULT_TYPE_NMI, FaultLive 0x08008123 0x080080FF 4 0x00ABCDEF 0 0 0 0 false).

Lemma reset_cause_reported_witness :
  length (RTC_BKP power_on) = 9%nat /\ is_u32 (RCU_RSTSCK power_on) /\ is_u32 BRIDGE_RESET_RSTSCK_FWDGTRSTF /\
  let '(snapshot, c') := reset_snapshot (boot_stash power_on) in
  bridge_hw_reset_reason_ snapshot = 1 /\
  bridge_hw_reset_reason_ (reset_snapshot (boot_stash (system_reset BRIDGE_RESET_RSTSCK_FWDGTRSTF c'))).1 = 4.
Proof.
  split; [done |]. split; [done |]. split; [done |].
  pose proof (reset_cause_reported power_on BRIDGE_RESET_RSTSCK_FWDGTRSTF eq_refl ltac:(done) ltac:(done)) as T.
  destruct (reset_snapshot (boot_stash power_on)) as [sn c']. split; [apply T | apply T].
Defined.

Lemma fault_resets_bounded_witness :
  chip_ok power_on /\ is_u32 (RCU_RSTSCK power_on) /\
  Forall (fun x => live_ok x.2 /\ debugger_attached x.2 = false) (replicate 4 ecc_fault) /\
  (fault_series (replicate 4 ecc_fault) power_on).1 =
    [FaultReset [ClearEcc; ClearSyscfg 4]; FaultReset [ClearEcc; ClearSyscfg 4]; FaultReset [ClearEcc; ClearSyscfg 4]; FaultHalt] /\
  let '(es, c') := fault_series (replicate 4 ecc_fault) power_on in length es = 4%nat.
Proof.
  assert (C : chip_ok power_on) by done.
  assert (F : Forall (fun x : fault => live_ok x.2 /\ debugger_attached x.2 = false) (replicate 4 ecc_fault)).
  { apply Forall_replicate. split; [| done]. repeat apply Forall_cons_2; (done || apply Forall_nil_2). }
  split; [done |]. split; [done |]. split; [exact F |]. split; [by vm_compute |].
  pose proof (fault_resets_bounded (replicate 4 ecc_fault) power_on C ltac:(done) F) as T.
  destruct (fault_series (replicate 4 ecc_fault) power_on) as [es c']. exact (proj1 T).
Defined.
