(* ===== verification/DspChain.v ===== *)
(** * The DSP-chain pool: [hal/gd32/adc_dsp_chain.c]

    Four chains of four stages.  A stage's parameter blob arrives in chunks, in
    any order and possibly more than once, tracked by a coverage bitmap; bind
    checks the assembled chain and attaches it to a running stream.  The slots
    of [adc_streams] ([hal/gd32/gd32_common.h]) are declared here because bind
    writes them.  A NULL chunk is the empty list. *)

From stdpp Require Import base tactics list numbers option gmap.
From S2P Require Import Prelude BridgeHw.

#[local] Set Warnings "-clear-no-such-hyp".

Definition BRIDGE_DSP_MAX_CHAINS : Z := 4.
Definition BRIDGE_DSP_MAX_STAGES : Z := 4.
Definition BRIDGE_DSP_MAX_STAGE_BYTES : Z := 260.
Definition BRIDGE_DSP_STAGE_COVERAGE_BYTES : Z := (BRIDGE_DSP_MAX_STAGE_BYTES + 7) / 8.
Definition BRIDGE_DSP_KIND_MAX : Z := 3.
Definition BRIDGE_DSP_MAX_FIR_TAPS : Z := 64.
Definition BRIDGE_DSP_MAX_IIR_SECTIONS : Z := 8.
Definition BRIDGE_DSP_MIN_FFT_POINTS : Z := 32.
Definition BRIDGE_DSP_MAX_FFT_POINTS : Z := 1024.
Definition BRIDGE_DSP_COEFF_FMT_MAX : Z := 1.
Definition BRIDGE_DSP_WINDOW_SHAPE_MAX : Z := 3.
Definition BRIDGE_DSP_FFT_OUT_FMT_MAX : Z := 2.
Definition BRIDGE_DSP_STAGE_HDR_BYTES : Z := 4.
Definition BRIDGE_ADC_STREAM_COUNT : Z := 2.

(** [adc_dsp_stage_t] and [adc_dsp_chain_t]. *)
Record adc_dsp_stage := Stage {
  kind : Z;
  total_size : Z;
  bytes_received : Z;
  complete : bool;
  coverage : list Z;
  data : list Z }.

Record adc_dsp_chain := Chain {
  ch_in_use : bool;
  ch_bound : bool;
  stages : list adc_dsp_stage }.

(** [memset(st, 0, sizeof *st)]. *)
Definition stage_zero : adc_dsp_stage :=
  Stage 0 0 0 false (replicate (Z.to_nat BRIDGE_DSP_STAGE_COVERAGE_BYTES) 0)
        (replicate (Z.to_nat BRIDGE_DSP_MAX_STAGE_BYTES) 0).

(** The pool as the loader leaves it. *)
Definition adc_dsp_chains0 : list adc_dsp_chain :=
  replicate (Z.to_nat BRIDGE_DSP_MAX_CHAINS)
    (Chain false false (replicate (Z.to_nat BRIDGE_DSP_MAX_STAGES) stage_zero)).

(** [adc_dma_pos_t] and [adc_stream_state_t].  The fields [dma_periph],
    [dma_channel] and [pace_timer] are functions of the slot number, so the
    hardware operations take the slot; [ring] is written by the DMA and belongs
    to the hardware state. *)
Record adc_dma_pos := DmaPos { pos_laps : Z; pos_w : Z; pos_valid : bool }.

Record adc_stream_state := Stream {
  in_use : bool;
  channel : Z;
  full_scale : Z;
  read_idx : Z;
  lap_count : Z;
  dma_error_count : Z;
  total_read : Z;
  rd_pos : adc_dma_pos;
  pump_pos : adc_dma_pos;
  dsp_chain_id : Z;
  dsp_bound : bool;
  proc_ring : list Z;
  proc_write : Z;
  proc_read : Z;
  proc_gap : bool;
  pump_raw_read : Z;
  dsp_terminal : Z;
  dsp_cfg_bad : bool;
  dsp_sat : bool }.

(** ** Pool *)

Definition set_chain (i : Z) (c : adc_dsp_chain) (l : list adc_dsp_chain) : list adc_dsp_chain :=
  <[Z.to_nat i := c]> l.

Definition adc_dsp_chain_release (chains : list adc_dsp_chain) (chain_id : Z) : list adc_dsp_chain :=
  if BRIDGE_DSP_MAX_CHAINS <=? chain_id then chains
  else
    match chains !! Z.to_nat chain_id with
    | Some c => set_chain chain_id (Chain false false (stages c)) chains
    | None => chains
    end.

(** The first-fit loop over [i = 0, 1, ...]. *)
Fixpoint first_free (chains : list adc_dsp_chain) (i : Z) : option Z :=
  match chains with
  | [] => None
  | c :: rest => if negb (ch_in_use c) then Some i else first_free rest (i + 1)
  end.

Definition bridge_hw_adc_dsp_chain_open_ (chains : list adc_dsp_chain)
    : list adc_dsp_chain * (Z * Z) :=
  match first_free chains 0 with
  | Some i =>
      (set_chain i (Chain true false (replicate (Z.to_nat BRIDGE_DSP_MAX_STAGES) stage_zero)) chains,
       (BRIDGE_HW_OK, i))
  | None => (chains, (BRIDGE_HW_ERR_NOTIMPL, 0))
  end.

(** ** Payload checks *)

Definition adc_dsp_stage_blob_valid (st : adc_dsp_stage) : bool :=
  if total_size st <? BRIDGE_DSP_STAGE_HDR_BYTES then false
  else
    let d := data st in
    if kind st =? 0 then
      let fmt := d.[0] in
      let n_taps := d.[1] in
      if BRIDGE_DSP_COEFF_FMT_MAX <? fmt then false
      else if (n_taps =? 0) || (BRIDGE_DSP_MAX_FIR_TAPS <? n_taps) then false
      else total_size st =? u16 (BRIDGE_DSP_STAGE_HDR_BYTES + n_taps * 4)
    else if kind st =? 1 then
      let fmt := d.[0] in
      let n_sec := d.[1] in
      if BRIDGE_DSP_COEFF_FMT_MAX <? fmt then false
      else if (n_sec =? 0) || (BRIDGE_DSP_MAX_IIR_SECTIONS <? n_sec) then false
      else total_size st =? u16 (BRIDGE_DSP_STAGE_HDR_BYTES + n_sec * 5 * 4)
    else if kind st =? 2 then
      if BRIDGE_DSP_WINDOW_SHAPE_MAX <? d.[0] then false
      else total_size st =? BRIDGE_DSP_STAGE_HDR_BYTES
    else if kind st =? 3 then
      let n_points := u16 (Z.lor d.[0] (u16 (Z.shiftl d.[1] 8))) in
      let out_fmt := d.[2] in
      if BRIDGE_DSP_FFT_OUT_FMT_MAX <? out_fmt then false
      else if (n_points <? BRIDGE_DSP_MIN_FFT_POINTS) || (BRIDGE_DSP_MAX_FFT_POINTS <? n_points)
      then false
      else if negb (Z.land n_points (u16 (n_points - 1)) =? 0) then false
      else total_size st =? BRIDGE_DSP_STAGE_HDR_BYTES
    else false.

(** ** Chunk upload *)

Definition adc_dsp_stage_byte_received (st : adc_dsp_stage) (offset : Z) : bool :=
  let mask := u8 (Z.shiftl 1 (offset mod 8)) in
  negb (Z.land (coverage st).[offset / 8] mask =? 0).

Definition adc_dsp_stage_mark_byte_received (st : adc_dsp_stage) (offset : Z) : adc_dsp_stage :=
  let mask := u8 (Z.shiftl 1 (offset mod 8)) in
  Stage (kind st) (total_size st) (bytes_received st) (complete st)
    (<[Z.to_nat (offset / 8) := Z.lor (coverage st).[offset / 8] mask]> (coverage st)) (data st).

(** The overlap scan: some already received byte differs from the chunk's. *)
Fixpoint conflicting_overlap (st : adc_dsp_stage) (offset : Z) (chunk : list Z) : bool :=
  match chunk with
  | [] => false
  | b :: rest =>
      if adc_dsp_stage_byte_received st offset && negb ((data st).[offset] =? b) then true
      else conflicting_overlap st (offset + 1) rest
  end.

(** The copy loop: bytes already received are skipped. *)
Fixpoint store_chunk (st : adc_dsp_stage) (offset : Z) (chunk : list Z) : adc_dsp_stage :=
  match chunk with
  | [] => st
  | b :: rest =>
      if adc_dsp_stage_byte_received st offset then store_chunk st (offset + 1) rest
      else
        let st := Stage (kind st) (total_size st) (bytes_received st) (complete st) (coverage st)
                        (<[Z.to_nat offset := b]> (data st)) in
        let st := adc_dsp_stage_mark_byte_received st offset in
        let st := Stage (kind st) (total_size st) (u16 (bytes_received st + 1)) (complete st)
                        (coverage st) (data st) in
        store_chunk st (offset + 1) rest
  end.

(** A stage restarted for an upload of [total] bytes of kind [k]. *)
Definition restart_stage (k total : Z) : adc_dsp_stage :=
  Stage k total 0 false (coverage stage_zero) (data stage_zero).

(** The part of [bridge_hw_adc_dsp_stage_push] that works on the stage, in
    place: the stage it leaves and the result code. *)
Definition push_stage (st : adc_dsp_stage) (k off total : Z) (chunk : list Z)
    : adc_dsp_stage * Z :=
  let '(st, refused) :=
    if total_size st =? 0 then (Stage k total 0 false (coverage st) (data st), false)
    else if negb (kind st =? k) || negb (total_size st =? total) then
      if negb (off =? 0) then (st, true) else (restart_stage k total, false)
    else (st, false) in
  if refused then (st, BRIDGE_HW_ERR_INVAL)
  else
    let conflict := conflicting_overlap st off chunk in
    if conflict && (negb (off =? 0) || negb (Z.of_nat (length chunk) =? total)) then
      (st, BRIDGE_HW_ERR_INVAL)
    else
      let st := if conflict then restart_stage k total else st in
      let st := store_chunk st off chunk in
      (Stage (kind st) (total_size st) (bytes_received st) (bytes_received st =? total_size st)
             (coverage st) (data st), BRIDGE_HW_OK).

Definition bridge_hw_adc_dsp_stage_push_ (chains : list adc_dsp_chain)
    (chain_id stage_index k chunk_offset chunk_total_size : Z) (chunk_data : list Z)
    : list adc_dsp_chain * Z :=
  let chunk_data_len := Z.of_nat (length chunk_data) in
  if BRIDGE_DSP_MAX_CHAINS <=? chain_id then (chains, BRIDGE_HW_ERR_RANGE)
  else if BRIDGE_DSP_MAX_STAGES <=? stage_index then (chains, BRIDGE_HW_ERR_RANGE)
  else if BRIDGE_DSP_KIND_MAX <? k then (chains, BRIDGE_HW_ERR_INVAL)
  else if chunk_total_size =? 0 then (chains, BRIDGE_HW_ERR_INVAL)
  else if BRIDGE_DSP_MAX_STAGE_BYTES <? chunk_total_size then (chains, BRIDGE_HW_ERR_RANGE)
  else if chunk_data_len =? 0 then (chains, BRIDGE_HW_ERR_INVAL)
  else if chunk_total_size <? chunk_offset then (chains, BRIDGE_HW_ERR_RANGE)
  else if chunk_total_size - chunk_offset <? chunk_data_len then (chains, BRIDGE_HW_ERR_RANGE)
  else
    match chains !! Z.to_nat chain_id with
    | None => (chains, BRIDGE_HW_ERR_RANGE)
    | Some chain =>
        if negb (ch_in_use chain) then (chains, BRIDGE_HW_ERR_INVAL)
        else if ch_bound chain then (chains, BRIDGE_HW_ERR_INVAL)
        else
          match stages chain !! Z.to_nat stage_index with
          | None => (chains, BRIDGE_HW_ERR_RANGE)
          | Some st =>
              let '(st, rc) := push_stage st k chunk_offset chunk_total_size chunk_data in
              (set_chain chain_id
                 (Chain (ch_in_use chain) (ch_bound chain)
                    (<[Z.to_nat stage_index := st]> (stages chain))) chains, rc)
          end
    end.

(** ** Bind *)

(** Both scans of the stream slots, [fft] selecting the terminal. *)
Fixpoint block_busy (fft : bool) (streams : list adc_stream_state) (i except_stream : Z) : bool :=
  match streams with
  | [] => false
  | s :: rest =>
      if negb (i =? except_stream) &&
         (in_use s && dsp_bound s &&
          (if fft then dsp_terminal s =? 3 else negb (dsp_terminal s =? 3)))
      then true
      else block_busy fft rest (i + 1) except_stream
  end.

Definition adc_dsp_filter_stream_busy (streams : list adc_stream_state) (except_stream : Z) : bool :=
  block_busy false streams 0 except_stream.

Definition adc_dsp_fft_stream_busy (streams : list adc_stream_state) (except_stream : Z) : bool :=
  block_busy true streams 0 except_stream.

Definition populated (st : adc_dsp_stage) : bool := negb (total_size st =? 0).

(** The counting loop of [adc_dsp_chain_p1_capable]: populated stages, and the
    index of the last FFT stage. *)
Fixpoint count_populated (l : list adc_dsp_stage) (i n fft_index : Z) : Z * Z :=
  match l with
  | [] => (n, fft_index)
  | st :: rest =>
      if negb (populated st) then count_populated rest (i + 1) n fft_index
      else count_populated rest (i + 1) (n + 1) (if kind st =? 3 then i else fft_index)
  end.

(** A loop that returns false at the first populated stage failing [p]. *)
Definition every_populated (p : adc_dsp_stage -> bool) (l : list adc_dsp_stage) : bool :=
  forallb (fun st => if negb (populated st) then true else p st) l.

Definition adc_dsp_chain_p1_capable (l : list adc_dsp_stage) : bool :=
  let '(n, fft_index) := count_populated l 0 0 BRIDGE_DSP_MAX_STAGES in
  if negb (every_populated adc_dsp_stage_blob_valid l) then false
  else if negb (fft_index =? BRIDGE_DSP_MAX_STAGES) then
    if negb (every_populated (fun st => (kind st =? 3) || (kind st =? 2)) l) then false
    else
      match l !! Z.to_nat fft_index with
      | None => false
      | Some fft_st =>
          let d := data fft_st in
          let n_points := u16 (Z.lor d.[0] (u16 (Z.shiftl d.[1] 8))) in
          negb ((n_points <? BRIDGE_DSP_MIN_FFT_POINTS) || (BRIDGE_DSP_MAX_FFT_POINTS <? n_points))
      end
  else if negb (n =? 1) then false
  else every_populated (fun st => if kind st =? 1 then (data st).[1] =? 1 else true) l.

(** The structural loop of bind over stages [i, i+1, ...]: [None] is the INVAL
    return, otherwise the three indices it leaves. *)
Fixpoint bind_scan (l : list adc_dsp_stage) (i fft_index window_index last : Z)
    : option (Z * Z * Z) :=
  match l with
  | [] => Some (fft_index, window_index, last)
  | st :: rest =>
      if total_size st =? 0 then bind_scan rest (i + 1) fft_index window_index last
      else if negb (complete st) then None
      else if negb (adc_dsp_stage_blob_valid st) then None
      else if negb (last =? BRIDGE_DSP_MAX_STAGES) && negb (u8 (i - last) =? 1) then None
      else
        let last := i in
        if kind st =? 3 then
          if negb (fft_index =? BRIDGE_DSP_MAX_STAGES) then None
          else bind_scan rest (i + 1) i window_index last
        else if kind st =? 2 then
          if negb (window_index =? BRIDGE_DSP_MAX_STAGES) then None
          else bind_scan rest (i + 1) fft_index i last
        else bind_scan rest (i + 1) fft_index window_index last
  end.

(** The ordering rules after the loop. *)
Definition bind_order_ok (fft_index window_index last : Z) : bool :=
  if last =? BRIDGE_DSP_MAX_STAGES then false
  else if negb (fft_index =? BRIDGE_DSP_MAX_STAGES) then
    if negb (fft_index =? last) then false
    else if negb (window_index =? BRIDGE_DSP_MAX_STAGES) &&
            ((fft_index =? 0) || negb (window_index =? fft_index - 1)) then false
    else true
  else window_index =? BRIDGE_DSP_MAX_STAGES.

(** The fields bind writes in the stream slot. *)
Definition stream_attach (s : adc_stream_state) (terminal chain_id : Z) : adc_stream_state :=
  Stream (in_use s) (channel s) (full_scale s) (read_idx s) (lap_count s) (dma_error_count s)
    (total_read s) (rd_pos s) (pump_pos s) chain_id true (proc_ring s) 0 0 false (total_read s)
    terminal (dsp_cfg_bad s) (dsp_sat s).

Definition bridge_hw_adc_dsp_chain_bind_ (chains : list adc_dsp_chain)
    (streams : list adc_stream_state) (chain_id stream_id : Z)
    : list adc_dsp_chain * list adc_stream_state * Z :=
  if BRIDGE_DSP_MAX_CHAINS <=? chain_id then (chains, streams, BRIDGE_HW_ERR_RANGE)
  else if BRIDGE_ADC_STREAM_COUNT <=? stream_id then (chains, streams, BRIDGE_HW_ERR_RANGE)
  else
    match chains !! Z.to_nat chain_id, streams !! Z.to_nat stream_id with
    | Some chain, Some s =>
        if negb (ch_in_use chain) then (chains, streams, BRIDGE_HW_ERR_INVAL)
        else if ch_bound chain then (chains, streams, BRIDGE_HW_ERR_INVAL)
        else
          match bind_scan (stages chain) 0 BRIDGE_DSP_MAX_STAGES BRIDGE_DSP_MAX_STAGES
                          BRIDGE_DSP_MAX_STAGES with
          | None => (chains, streams, BRIDGE_HW_ERR_INVAL)
          | Some (fft_index, window_index, last) =>
              if negb (bind_order_ok fft_index window_index last) then
                (chains, streams, BRIDGE_HW_ERR_INVAL)
              else if negb (in_use s) then (chains, streams, BRIDGE_HW_ERR_INVAL)
              else if dsp_bound s then (chains, streams, BRIDGE_HW_ERR_INVAL)
              else if negb (adc_dsp_chain_p1_capable (stages chain)) then
                (adc_dsp_chain_release chains chain_id, streams, BRIDGE_HW_ERR_NOTIMPL)
              else
                match stages chain !! Z.to_nat last with
                | None => (chains, streams, BRIDGE_HW_ERR_INVAL)
                | Some last_st =>
                    if (if kind last_st =? 3 then adc_dsp_fft_stream_busy streams stream_id
                        else adc_dsp_filter_stream_busy streams stream_id)
                    then (chains, streams, BRIDGE_HW_ERR_NOTIMPL)
                    else
                      (set_chain chain_id (Chain (ch_in_use chain) true (stages chain)) chains,
                       <[Z.to_nat stream_id := stream_attach s (kind last_st) chain_id]> streams,
                       BRIDGE_HW_OK)
                end
          end
    | _, _ => (chains, streams, BRIDGE_HW_ERR_RANGE)
    end.

(** ** The coverage bitmap as a set of offsets *)

Lemma u8_bit (k : Z) : 0 <= k < 8 -> u8 (Z.shiftl 1 k) = 2 ^ k.
Proof.
  intros Hk. rewrite Z.shiftl_1_l. apply u8_id. split; [lia |].
  change 0x100 with (2 ^ 8). apply Z.pow_lt_mono_r; lia.
Qed.

Lemma land_bit (c k : Z) :
  0 <= k < 8 -> negb (Z.land c (u8 (Z.shiftl 1 k)) =? 0) = Z.testbit c k.
Proof.
  intros Hk. rewrite u8_bit by done. destruct (Z.eqb_spec (Z.land c (2 ^ k)) 0) as [E | E]; simpl; symmetry.
  - apply (f_equal (fun x => Z.testbit x k)) in E.
    by rewrite Z.land_spec, Z.pow2_bits_true, Z.bits_0, andb_true_r in E by lia.
  - apply not_false_is_true. intros Hb. apply E. apply Z.bits_inj'. intros j Hj.
    rewrite Z.land_spec, Z.bits_0, Z.pow2_bits_eqb by lia.
    destruct (Z.eqb_spec k j); [subst; by rewrite Hb | apply andb_false_r].
Qed.

Lemma received_testbit st i :
  adc_dsp_stage_byte_received st i = Z.testbit (coverage st).[i / 8] (i mod 8).
Proof. apply land_bit. zlia. Qed.

Lemma received_mark st o i :
  length (coverage st) = 33%nat -> 0 <= o < 264 -> 0 <= i ->
  adc_dsp_stage_byte_received (adc_dsp_stage_mark_byte_received st o) i =
  (i =? o) || adc_dsp_stage_byte_received st i.
Proof.
  intros Hl Ho Hi. rewrite !received_testbit. unfold adc_dsp_stage_mark_byte_received; simpl.
  destruct (decide (i / 8 = o / 8)) as [E | E].
  - rewrite E, at_insert_eq by (rewrite Hl; zlia). rewrite Z.lor_spec, orb_comm. f_equal.
    rewrite u8_bit, Z.pow2_bits_eqb by zlia. apply Bool.eq_iff_eq_true. rewrite !Z.eqb_eq. zlia.
  - rewrite at_insert_ne by zlia. destruct (Z.eqb_spec i o); [congruence | done].
Qed.

(** The offsets a stage holds. *)
Definition covers (st : adc_dsp_stage) (C : gset Z) : Prop :=
  length (coverage st) = 33%nat /\ length (data st) = 260%nat /\
  forall i, 0 <= i < 264 -> adc_dsp_stage_byte_received st i = true <-> i ∈ C.

Definition chunk_range (off : Z) (chunk : list Z) : gset Z :=
  list_to_set (seqZ off (Z.of_nat (length chunk))).

Lemma elem_chunk_range off chunk i :
  i ∈ chunk_range off chunk <-> off <= i < off + Z.of_nat (length chunk).
Proof. unfold chunk_range. rewrite elem_of_list_to_set, elem_of_seqZ. done. Qed.

Lemma covers_zero k t n c :
  covers (Stage k t n c (coverage stage_zero) (data stage_zero)) ∅.
Proof.
  split_and!; try done. intros i Hi. rewrite received_testbit. cbn [coverage stage_zero].
  change (Z.to_nat BRIDGE_DSP_STAGE_COVERAGE_BYTES) with 33%nat.
  rewrite at_replicate by zlia. rewrite Z.bits_0. split; [done | set_solver].
Qed.

(** One byte of the chunk, when it is new. *)
Definition store_byte (st : adc_dsp_stage) (off b : Z) : adc_dsp_stage :=
  let st' := adc_dsp_stage_mark_byte_received
               (Stage (kind st) (total_size st) (bytes_received st) (complete st) (coverage st)
                      (<[Z.to_nat off := b]> (data st))) off in
  Stage (kind st') (total_size st') (u16 (bytes_received st' + 1)) (complete st')
        (coverage st') (data st').

Lemma covers_store_byte st off b C :
  covers st C -> 0 <= off < 260 -> covers (store_byte st off b) ({[off]} ∪ C).
Proof.
  intros (Hl & Hd & Hcov) Ho. split_and!.
  - simpl. by rewrite length_insert.
  - simpl. by rewrite length_insert.
  - intros i Hi. rewrite elem_of_union, elem_of_singleton, <- Hcov by done.
    pose proof (received_mark (Stage (kind st) (total_size st) (bytes_received st) (complete st)
      (coverage st) (<[Z.to_nat off := b]> (data st))) off i Hl ltac:(lia) ltac:(lia)) as E.
    change (adc_dsp_stage_byte_received (store_byte st off b) i) with
      (adc_dsp_stage_byte_received (adc_dsp_stage_mark_byte_received
         (Stage (kind st) (total_size st) (bytes_received st) (complete st)
           (coverage st) (<[Z.to_nat off := b]> (data st))) off) i).
    rewrite E, orb_true_iff, Z.eqb_eq. done.
Qed.

Lemma at_cons_succ (b : Z) (l : list Z) i : 0 < i -> (b :: l).[i] = l.[i - 1].
Proof.
  intros Hi. unfold at_. replace (Z.to_nat i) with (S (Z.to_nat (i - 1))) by lia. done.
Qed.

Lemma chunk_range_cons off b chunk :
  chunk_range off (b :: chunk) = {[off]} ∪ chunk_range (off + 1) chunk.
Proof.
  apply set_eq. intros i. rewrite elem_of_union, elem_of_singleton, !elem_chunk_range.
  simpl length. lia.
Qed.

Lemma union_absorb (C R : gset Z) off : off ∈ C -> C ∪ ({[off]} ∪ R) = C ∪ R.
Proof. set_solver. Qed.

Lemma union_swap (C R : gset Z) off : C ∪ ({[off]} ∪ R) = {[off]} ∪ C ∪ R.
Proof. set_solver. Qed.

(** A set of offsets below [n] with a further one below [n] is smaller. *)
Lemma size_offsets (C : gset Z) off n :
  0 <= off < n -> off ∉ C -> (forall i, i ∈ C -> 0 <= i < n) -> Z.of_nat (size C) < n.
Proof.
  intros Ho Hoc Hin.
  assert (E : {[off]} ∪ C ⊆ (list_to_set (seqZ 0 n) : gset Z)).
  { intros i. rewrite elem_of_list_to_set, elem_of_seqZ, elem_of_union, elem_of_singleton.
    intros [-> | Hi]; [lia |]. apply Hin in Hi. lia. }
  apply subseteq_size in E. rewrite size_union, size_singleton in E by set_solver.
  rewrite size_list_to_set in E by apply NoDup_seqZ. rewrite length_seqZ in E. lia.
Qed.

(** What the copy loop does: the offsets grow by the chunk's, a byte already
    held is kept, and the rest is the chunk. *)
Lemma store_chunk_spec chunk : forall st off C,
  covers st C -> 0 <= off -> off + Z.of_nat (length chunk) <= 260 ->
  bytes_received st = Z.of_nat (size C) -> (forall i, i ∈ C -> 0 <= i < 260) ->
  let st' := store_chunk st off chunk in
  covers st' (C ∪ chunk_range off chunk) /\
  bytes_received st' = Z.of_nat (size (C ∪ chunk_range off chunk)) /\
  kind st' = kind st /\ total_size st' = total_size st /\ complete st' = complete st /\
  (forall i, 0 <= i -> (data st').[i] =
     if decide (i ∈ chunk_range off chunk /\ i ∉ C) then chunk.[i - off] else (data st).[i]).
Proof.
  induction chunk as [| b chunk IH]; intros st off C Hc Ho Hlen Hn Hin.
  { change (chunk_range off []) with (∅ : gset Z). rewrite union_empty_r_L.
    split_and!; try apply Hc; try done. }
  assert (Hnr : off ∉ chunk_range (off + 1) chunk) by (rewrite elem_chunk_range; lia).
  simpl length in Hlen. pose proof Hc as (Hl & Hd & Hcov).
  cbn [store_chunk]. rewrite chunk_range_cons.
  destruct (adc_dsp_stage_byte_received st off) eqn:Er.
  - assert (Hoc : off ∈ C) by (apply Hcov; [lia | done]). rewrite union_absorb by done.
    destruct (IH st (off + 1) C) as (A & B & K & T & Cm & D); try done; try lia.
    split_and!; try done. intros i Hi. rewrite D by done.
    rewrite (decide_ext _ (i ∈ chunk_range (off + 1) chunk /\ i ∉ C) (b :: chunk).[i - off]).
    2: { rewrite elem_of_union, elem_of_singleton. naive_solver. }
    case_decide as E; [| done]. destruct E as [E _]. apply elem_chunk_range in E.
    rewrite at_cons_succ by lia. f_equal; lia.
  - assert (Hoc : off ∉ C) by (rewrite <- Hcov by lia; congruence).
    pose proof (size_offsets C off 260 ltac:(lia) Hoc Hin) as Hs.
    fold (store_byte st off b). rewrite union_swap.
    destruct (IH (store_byte st off b) (off + 1) ({[off]} ∪ C)) as (A & B & K & T & Cm & D).
    + by apply covers_store_byte; [| lia].
    + lia.
    + lia.
    + simpl. rewrite Hn, size_union, size_singleton by set_solver. rewrite u16_id; [lia |].
      unfold is_u16. lia.
    + intros i. rewrite elem_of_union, elem_of_singleton. intros [-> | Hi]; [lia | by apply Hin].
    + split_and!; try done. intros i Hi. rewrite D by done. simpl.
      destruct (decide (i = off)) as [-> | Hne].
      * rewrite decide_False, decide_True by set_solver.
        rewrite at_insert_eq by lia. rewrite Z.sub_diag. done.
      * rewrite (decide_ext (i ∈ {[off]} ∪ _ /\ _)
                            (i ∈ chunk_range (off + 1) chunk /\ i ∉ {[off]} ∪ C)) by
          (rewrite !elem_of_union, elem_of_singleton; naive_solver).
        case_decide as E; [| by rewrite at_insert_ne by lia].
        destruct E as [E _]. apply elem_chunk_range in E.
        rewrite at_cons_succ by lia. f_equal; lia.
Qed.

(** ** The stage invariant *)

(** [C] is what has arrived; a stage with no size holds nothing. *)
Record stage_inv (st : adc_dsp_stage) (C : gset Z) : Prop := {
  si_covers : covers st C;
  si_in : forall i, i ∈ C -> 0 <= i < total_size st;
  si_count : bytes_received st = Z.of_nat (size C);
  si_total : 0 <= total_size st <= BRIDGE_DSP_MAX_STAGE_BYTES;
  si_kind : 0 <= kind st <= BRIDGE_DSP_KIND_MAX;
  si_complete : complete st = populated st && (bytes_received st =? total_size st) }.

Definition stage_ok (st : adc_dsp_stage) : Prop := exists C, stage_inv st C.

Lemma stage_inv_zero : stage_inv stage_zero ∅.
Proof.
  split; try done. apply covers_zero.
Qed.

Lemma conflict_false chunk : forall st off,
  conflicting_overlap st off chunk = false <->
  (forall j, 0 <= j < Z.of_nat (length chunk) ->
     adc_dsp_stage_byte_received st (off + j) = true -> (data st).[off + j] = chunk.[j]).
Proof.
  induction chunk as [| b chunk IH]; intros st off; cbn [conflicting_overlap].
  { split; [| done]. intros _ j Hj. simpl in Hj. lia. }
  destruct (adc_dsp_stage_byte_received st off && negb ((data st).[off] =? b)) eqn:E.
  - split; [done |]. intros Hall. apply andb_true_iff in E as [Er En].
    specialize (Hall 0 ltac:(simpl; lia)). rewrite Z.add_0_r in Hall.
    rewrite (Hall Er) in En. by rewrite Z.eqb_refl in En.
  - rewrite IH. split; intros Hall j Hj Hr.
    + destruct (decide (j = 0)) as [-> | Hne].
      * rewrite Z.add_0_r in *. rewrite Hr in E. simpl in E.
        apply negb_false_iff, Z.eqb_eq in E. done.
      * rewrite at_cons_succ by lia. simpl in Hj.
        specialize (Hall (j - 1) ltac:(lia)). replace (off + 1 + (j - 1)) with (off + j) in Hall by lia.
        by apply Hall.
    + replace (off + 1 + j) with (off + (j + 1)) in * by lia. rewrite Hall by (done || simpl; lia).
      rewrite at_cons_succ by lia. f_equal; lia.
Qed.

(** A chunk that fits the upload of [total] bytes of kind [k]. *)
Definition push_fits (k off total : Z) (chunk : list Z) : Prop :=
  0 <= k <= BRIDGE_DSP_KIND_MAX /\ 0 < total <= BRIDGE_DSP_MAX_STAGE_BYTES /\ 0 <= off /\
  0 < Z.of_nat (length chunk) /\ off + Z.of_nat (length chunk) <= total.

(** Bytes [B] of an upload are what the stage holds at the offsets of [C]. *)
Definition holds (st : adc_dsp_stage) (C : gset Z) (B : Z -> Z) : Prop :=
  forall i, i ∈ C -> (data st).[i] = B i.

(** A stage ready to receive: the metadata agrees and the overlap is clean. *)
Record receiving (st : adc_dsp_stage) (C : gset Z) (k off total : Z) (chunk : list Z) : Prop := {
  rv_covers : covers st C;
  rv_in : forall i, i ∈ C -> 0 <= i < total;
  rv_count : bytes_received st = Z.of_nat (size C);
  rv_kind : kind st = k;
  rv_total : total_size st = total;
  rv_clean : conflicting_overlap st off chunk = false }.

Definition finish (st : adc_dsp_stage) : adc_dsp_stage :=
  Stage (kind st) (total_size st) (bytes_received st) (bytes_received st =? total_size st)
        (coverage st) (data st).

Lemma finish_spec st C k off total chunk :
  push_fits k off total chunk -> receiving st C k off total chunk ->
  let st' := finish (store_chunk st off chunk) in
  kind st' = k /\ total_size st' = total /\ stage_inv st' (C ∪ chunk_range off chunk) /\
  holds st' C (fun i => (data st).[i]) /\
  holds st' (chunk_range off chunk) (fun i => chunk.[i - off]).
Proof.
  intros (Hk & Ht & Ho & Hl & Hf) [Hc Hin Hn Hkind Htot Hconf].
  unfold BRIDGE_DSP_MAX_STAGE_BYTES in *.
  assert (Hin' : forall i, i ∈ C -> 0 <= i < 260) by (intros i Hi; apply Hin in Hi; lia).
  destruct (store_chunk_spec chunk st off C Hc Ho ltac:(lia) Hn Hin') as (A & B & K & T & Cm & D).
  cbv zeta in *. unfold finish. cbn [kind total_size]. rewrite K, T.
  split_and!; try done.
  - split; cbn [kind total_size bytes_received complete coverage data]; try done; try congruence.
    + intros i Hi. apply elem_of_union in Hi as [Hi | Hi]; [apply Hin in Hi; lia |].
      apply elem_chunk_range in Hi. lia.
    + unfold BRIDGE_DSP_MAX_STAGE_BYTES. lia.
    + unfold populated; cbn [total_size]. rewrite Htot.
      destruct (Z.eqb_spec total 0); [lia | done].
  - intros i Hi. cbn [data]. rewrite D by (apply Hin in Hi; lia).
    rewrite decide_False; [done |]. intros [_ Hx]. done.
  - intros i Hi. cbn [data]. pose proof Hi as Hr. apply elem_chunk_range in Hr. rewrite D by lia.
    case_decide as E; [done |]. destruct Hc as (_ & _ & Hcov).
    destruct (decide (i ∈ C)) as [HC | HC]; [| by destruct E].
    apply conflict_false with (j := i - off) in Hconf; [| lia |].
    + by replace (off + (i - off)) with i in Hconf by lia.
    + replace (off + (i - off)) with i by lia. apply Hcov; [lia | done].
Qed.

(** A restarted stage receives anything. *)
Lemma restart_receiving k off total chunk :
  push_fits k off total chunk -> receiving (restart_stage k total) ∅ k off total chunk.
Proof.
  intros (Hk & Ht & Ho & Hl & Hf). unfold BRIDGE_DSP_MAX_STAGE_BYTES in *.
  pose proof (covers_zero k total 0 false) as Hc.
  split; try done. apply conflict_false. intros j Hj Hr.
  apply Hc in Hr; [by apply elem_of_empty in Hr | lia].
Qed.

(** What [push_stage] does: refuses and leaves the stage, continues the upload,
    or restarts it with a chunk at offset zero. *)
Lemma push_stage_spec st C k off total chunk :
  stage_inv st C -> push_fits k off total chunk ->
  push_stage st k off total chunk = (st, BRIDGE_HW_ERR_INVAL) \/
  exists st0 C0, receiving st0 C0 k off total chunk /\
    push_stage st k off total chunk = (finish (store_chunk st0 off chunk), BRIDGE_HW_OK) /\
    (C0 = C /\ data st0 = data st /\ (C = ∅ \/ kind st = k /\ total_size st = total) \/
     C0 = ∅ /\ off = 0).
Proof.
  intros Hi Hf. pose proof Hf as (Hk & Ht & Ho & Hl & Hlen). pose proof Hi as [Hc Hin Hn Htot Hkd Hcm].
  unfold push_stage. destruct (Z.eqb_spec (total_size st) 0) as [E0 | E0].
  - assert (HC : C = ∅). { apply set_eq. intros i. split; [| set_solver]. intros Hx. apply Hin in Hx. lia. }
    subst C. set (st0 := Stage k total 0 false (coverage st) (data st)).
    assert (Hrv : receiving st0 ∅ k off total chunk).
    { split; try done. apply conflict_false. intros j Hj Hr.
      apply Hc in Hr; [by apply elem_of_empty in Hr |]. unfold BRIDGE_DSP_MAX_STAGE_BYTES in *. lia. }
    rewrite (rv_clean _ _ _ _ _ _ Hrv). cbn [andb].
    right. exists st0, ∅. split_and!; try done. left. split_and!; try done. by left.
  - destruct (negb (kind st =? k) || negb (total_size st =? total)) eqn:Em.
    + destruct (Z.eqb_spec off 0) as [-> | Hne]; cbn [negb]; [| by left].
      pose proof (restart_receiving k 0 total chunk Hf) as Hrv.
      rewrite (rv_clean _ _ _ _ _ _ Hrv). cbn [andb].
      right. exists (restart_stage k total), ∅. split_and!; try done. by right.
    + apply orb_false_iff in Em as [E1 E2]. apply negb_false_iff, Z.eqb_eq in E1, E2.
      destruct (conflicting_overlap st off chunk) eqn:Ec; cbn [andb].
      * destruct (Z.eqb_spec off 0) as [-> | Hne]; cbn [negb orb]; [| by left].
        destruct (Z.eqb_spec (Z.of_nat (length chunk)) total); cbn [negb]; [| by left].
        right. exists (restart_stage k total), ∅.
        split_and!; [by apply restart_receiving | done | by right].
      * right. exists st, C. split_and!; [split; try done | done |].
        -- intros i Hx. rewrite <- E2. by apply Hin.
        -- left. split_and!; try done. by right.
Qed.

(** ** The pool *)

Definition chain_ok (c : adc_dsp_chain) : Prop :=
  length (stages c) = 4%nat /\ Forall stage_ok (stages c).

Definition pool_ok (chains : list adc_dsp_chain) : Prop :=
  length chains = 4%nat /\ Forall chain_ok chains.

Lemma chain_ok_zero u n : chain_ok (Chain u n (replicate (Z.to_nat BRIDGE_DSP_MAX_STAGES) stage_zero)).
Proof. split; [done |]. apply Forall_replicate. exists ∅. apply stage_inv_zero. Qed.

Lemma pool_ok_init : pool_ok adc_dsp_chains0.
Proof. split; [done |]. apply Forall_replicate, chain_ok_zero. Qed.

Lemma pool_ok_set chains i c : pool_ok chains -> chain_ok c -> pool_ok (set_chain i c chains).
Proof.
  intros [Hl Hf] Hc. split; [unfold set_chain; by rewrite length_insert |].
  by apply Forall_insert.
Qed.

Lemma pool_ok_release chains i : pool_ok chains -> pool_ok (adc_dsp_chain_release chains i).
Proof.
  intros Hp. unfold adc_dsp_chain_release. destruct (_ <=? _); [done |].
  destruct (chains !! Z.to_nat i) as [c |] eqn:E; [| done]. apply pool_ok_set; [done |].
  destruct Hp as [_ Hf]. by apply (Forall_lookup_1 _ _ _ _ Hf E).
Qed.

(** A push that reaches its stage. *)
Record reaches (chains : list adc_dsp_chain) (cid idx : Z) (chain : adc_dsp_chain)
    (st : adc_dsp_stage) : Prop := {
  rc_cid : 0 <= cid < BRIDGE_DSP_MAX_CHAINS;
  rc_idx : 0 <= idx < BRIDGE_DSP_MAX_STAGES;
  rc_chain : chains !! Z.to_nat cid = Some chain;
  rc_open : ch_in_use chain = true;
  rc_unbound : ch_bound chain = false;
  rc_stage : stages chain !! Z.to_nat idx = Some st }.

Definition set_stage (chains : list adc_dsp_chain) (cid idx : Z) (chain : adc_dsp_chain)
    (st : adc_dsp_stage) : list adc_dsp_chain :=
  set_chain cid (Chain (ch_in_use chain) (ch_bound chain) (<[Z.to_nat idx := st]> (stages chain)))
            chains.

Lemma push_reaches chains cid idx k off total chunk chain st :
  reaches chains cid idx chain st -> push_fits k off total chunk ->
  bridge_hw_adc_dsp_stage_push_ chains cid idx k off total chunk =
  (set_stage chains cid idx chain (push_stage st k off total chunk).1,
   (push_stage st k off total chunk).2).
Proof.
  intros [Hc Hx Ec Eo Eb Es] (Hk & Ht & Ho & Hl & Hf). unfold bridge_hw_adc_dsp_stage_push_.
  unfold BRIDGE_DSP_MAX_STAGE_BYTES in *.
  rewrite !(proj2 (Z.leb_gt _ _)), !(proj2 (Z.ltb_ge _ _)), !(proj2 (Z.eqb_neq _ _))
    by (unfold BRIDGE_DSP_MAX_STAGE_BYTES in *; lia).
  rewrite Ec, Eo, Eb, Es. cbn [negb]. destruct (push_stage st k off total chunk). unfold set_stage. by rewrite Eo, Eb.
Qed.

(** Otherwise it is refused where it stands. *)
Lemma push_cases chains cid idx k off total chunk :
  pool_ok chains -> 0 <= cid -> 0 <= idx -> 0 <= k -> 0 <= off -> 0 <= total ->
  (exists rc, bridge_hw_adc_dsp_stage_push_ chains cid idx k off total chunk = (chains, rc) /\
     rc <> BRIDGE_HW_OK) \/
  (exists chain st, reaches chains cid idx chain st /\ push_fits k off total chunk).
Proof.
  intros [Hl Hf] Hc Hi Hk Ho Ht. unfold bridge_hw_adc_dsp_stage_push_.
  destruct (Z.leb_spec BRIDGE_DSP_MAX_CHAINS cid); [left; eauto |].
  destruct (Z.leb_spec BRIDGE_DSP_MAX_STAGES idx); [left; eauto |].
  destruct (Z.ltb_spec BRIDGE_DSP_KIND_MAX k); [left; eauto |].
  destruct (Z.eqb_spec total 0); [left; eauto |].
  destruct (Z.ltb_spec BRIDGE_DSP_MAX_STAGE_BYTES total); [left; eauto |].
  destruct (Z.eqb_spec (Z.of_nat (length chunk)) 0); [left; eauto |].
  destruct (Z.ltb_spec total off); [left; eauto |].
  destruct (Z.ltb_spec (total - off) (Z.of_nat (length chunk))); [left; eauto |].
  destruct (chains !! Z.to_nat cid) as [chain |] eqn:Ec; [| left; eauto].
  destruct (ch_in_use chain) eqn:Eu; cbn [negb]; [| left; eauto].
  destruct (ch_bound chain) eqn:Eb; [left; eauto |].
  destruct (stages chain !! Z.to_nat idx) as [st |] eqn:Es; [| left; eauto].
  right. exists chain, st. unfold push_fits. split; [by split; try lia | lia].
Qed.

Lemma reaches_stage chains cid idx chain st :
  pool_ok chains -> reaches chains cid idx chain st -> stage_ok st.
Proof.
  intros [_ Hf] [_ _ Ec _ _ Es]. destruct (Forall_lookup_1 _ _ _ _ Hf Ec) as [_ Hs].
  by apply (Forall_lookup_1 _ _ _ _ Hs Es).
Qed.

Lemma set_stage_ok chains cid idx chain st st' :
  pool_ok chains -> reaches chains cid idx chain st -> stage_ok st' ->
  pool_ok (set_stage chains cid idx chain st') /\
  reaches (set_stage chains cid idx chain st') cid idx
    (Chain (ch_in_use chain) (ch_bound chain) (<[Z.to_nat idx := st']> (stages chain))) st'.
Proof.
  intros Hp [Hc Hx Ec Eo Eb Es] Hs. pose proof Hp as [Hl Hf].
  destruct (Forall_lookup_1 _ _ _ _ Hf Ec) as [Hls Hfs]. split.
  - apply pool_ok_set; [done |]. split; simpl; [by rewrite length_insert | by apply Forall_insert].
  - split; try done; simpl.
    + unfold set_stage, set_chain. apply list_lookup_insert_eq. by eapply lookup_lt_Some.
    + apply list_lookup_insert_eq. by eapply lookup_lt_Some.
Qed.

Lemma set_stage_set chains cid idx chain st st' :
  set_stage (set_stage chains cid idx chain st) cid idx
    (Chain (ch_in_use chain) (ch_bound chain) (<[Z.to_nat idx := st]> (stages chain))) st' =
  set_stage chains cid idx chain st'.
Proof. unfold set_stage, set_chain. simpl. by rewrite !list_insert_insert_eq. Qed.

Lemma set_stage_id chains cid idx chain st :
  reaches chains cid idx chain st -> set_stage chains cid idx chain st = chains.
Proof.
  intros [_ _ Ec _ _ Es]. unfold set_stage, set_chain. rewrite (list_insert_id (stages chain)) by done.
  apply list_insert_id. rewrite Ec. by destruct chain.
Qed.

(** ** Errors are atomic, replays change nothing *)

Lemma store_chunk_received chunk : forall st off,
  (forall j, 0 <= j < Z.of_nat (length chunk) -> adc_dsp_stage_byte_received st (off + j) = true) ->
  store_chunk st off chunk = st.
Proof.
  induction chunk as [| b chunk IH]; intros st off Hr; [done |]. cbn [store_chunk]. simpl in Hr.
  pose proof (Hr 0 ltac:(lia)) as E. rewrite Z.add_0_r in E. rewrite E.
  apply IH. intros j Hj. replace (off + 1 + j) with (off + (j + 1)) by lia. apply Hr. lia.
Qed.

Lemma push_stage_replay st C k off total chunk :
  push_fits k off total chunk -> stage_inv st (C ∪ chunk_range off chunk) ->
  kind st = k -> total_size st = total -> holds st (chunk_range off chunk) (fun i => chunk.[i - off]) ->
  push_stage st k off total chunk = (st, BRIDGE_HW_OK).
Proof.
  intros Hf Hi Hk Ht Hh. pose proof Hf as (_ & Ht0 & Ho & _ & Hlen).
  assert (Hrange : forall j, 0 <= j < Z.of_nat (length chunk) -> off + j ∈ chunk_range off chunk)
    by (intros; apply elem_chunk_range; lia).
  assert (Hclean : conflicting_overlap st off chunk = false).
  { apply conflict_false. intros j Hj _. rewrite Hh by auto. f_equal; lia. }
  unfold push_stage. rewrite (proj2 (Z.eqb_neq (total_size st) 0)) by lia.
  rewrite Hk, Ht, !Z.eqb_refl. cbn [negb orb]. rewrite Hclean. cbn [andb].
  rewrite store_chunk_received.
  - destruct Hi as [_ _ _ _ _ Hcm]. unfold populated in Hcm.
    rewrite (proj2 (Z.eqb_neq (total_size st) 0)) in Hcm by lia. cbn [negb andb] in Hcm.
    rewrite <- Hcm. by destruct st.
  - intros j Hj. destruct Hi as [(_ & _ & Hcov) _ _ _ _ _]. apply Hcov.
    + unfold BRIDGE_DSP_MAX_STAGE_BYTES in *. lia.
    + apply elem_of_union_r. auto.
Qed.

(** Every STAGE_PUSH keeps the pool well formed; a refused one changes
    nothing, although the code edits the stage in place before its last check;
    an accepted one may be replayed with the same result and no effect. *)
Theorem stage_push_atomic_replay chains cid idx k off total chunk :
  pool_ok chains -> 0 <= cid -> 0 <= idx -> 0 <= k -> 0 <= off -> 0 <= total ->
  let '(chains', rc) := bridge_hw_adc_dsp_stage_push_ chains cid idx k off total chunk in
  pool_ok chains' /\ (rc <> BRIDGE_HW_OK -> chains' = chains) /\
  (rc = BRIDGE_HW_OK ->
   bridge_hw_adc_dsp_stage_push_ chains' cid idx k off total chunk = (chains', BRIDGE_HW_OK)).
Proof.
  intros Hp Hc Hx Hk Ho Ht.
  destruct (push_cases chains cid idx k off total chunk) as [(rc & E & Hrc) | (chain & st & Hr & Hf)];
    try done.
  { rewrite E. done. }
  destruct (reaches_stage _ _ _ _ _ Hp Hr) as [C Hi].
  rewrite (push_reaches _ _ _ _ _ _ _ _ _ Hr Hf).
  destruct (push_stage_spec st C k off total chunk Hi Hf) as [E | (st0 & C0 & Hv & E & _)]; rewrite E;
    cbn [fst snd].
  - rewrite (set_stage_id _ _ _ _ _ Hr). done.
  - destruct (finish_spec st0 C0 k off total chunk Hf Hv) as (K & T & I & _ & Hh).
    destruct (set_stage_ok _ _ _ _ _ (finish (store_chunk st0 off chunk)) Hp Hr) as [Hp' Hr'];
      [by eexists |].
    split_and!; [done | done |]. intros _.
    rewrite (push_reaches _ _ _ _ _ _ _ _ _ Hr' Hf), (push_stage_replay _ C0) by done.
    cbn [fst snd]. by rewrite set_stage_set.
Qed.

(** ** Assembly *)

Definition piece (B : list Z) (p : Z * nat) : list Z := take p.2 (drop (Z.to_nat p.1) B).

(** The pushes of the pieces [(offset, length)] of blob [B], in the given order. *)
Fixpoint push_pieces (chains : list adc_dsp_chain) (cid idx k : Z) (B : list Z)
    (pieces : list (Z * nat)) : list adc_dsp_chain * list Z :=
  match pieces with
  | [] => (chains, [])
  | p :: rest =>
      let '(chains, rc) := bridge_hw_adc_dsp_stage_push_ chains cid idx k p.1
                             (Z.of_nat (length B)) (piece B p) in
      let '(chains, rcs) := push_pieces chains cid idx k B rest in
      (chains, rc :: rcs)
  end.

Definition piece_ok (B : list Z) (p : Z * nat) : Prop :=
  0 <= p.1 /\ (0 < p.2)%nat /\ p.1 + Z.of_nat p.2 <= Z.of_nat (length B).

Lemma length_piece B p : piece_ok B p -> length (piece B p) = p.2.
Proof. intros (Ho & Hl & Hf). unfold piece. rewrite length_take, length_drop. lia. Qed.

Lemma at_piece B p i :
  piece_ok B p -> 0 <= i < Z.of_nat p.2 -> (piece B p).[i] = B.[p.1 + i].
Proof.
  intros (Ho & Hl & Hf) Hi. unfold at_, piece. rewrite lookup_take_lt, lookup_drop by lia.
  do 2 f_equal. lia.
Qed.

(** An upload in progress: the stage holds the bytes of [B] at [C]. *)
Definition uploading (st : adc_dsp_stage) (C : gset Z) (k : Z) (B : list Z) : Prop :=
  stage_inv st C /\ holds st C (at_ B) /\
  (C = ∅ /\ total_size st = 0 \/ kind st = k /\ total_size st = Z.of_nat (length B)).

Lemma push_piece st C k B p :
  0 <= k <= BRIDGE_DSP_KIND_MAX -> 0 < Z.of_nat (length B) <= BRIDGE_DSP_MAX_STAGE_BYTES ->
  piece_ok B p -> uploading st C k B ->
  exists st', push_stage st k p.1 (Z.of_nat (length B)) (piece B p) = (st', BRIDGE_HW_OK) /\
    uploading st' (C ∪ chunk_range p.1 (piece B p)) k B /\ total_size st' = Z.of_nat (length B).
Proof.
  intros Hk Hb Hpo (Hi & Hh & Hmeta). pose proof (length_piece B p Hpo) as Hlp.
  pose proof Hpo as (Ho & Hl & Hlen).
  assert (Hf : push_fits k p.1 (Z.of_nat (length B)) (piece B p)).
  { unfold push_fits. rewrite Hlp. lia. }
  assert (Hrv : exists st0, receiving st0 C k p.1 (Z.of_nat (length B)) (piece B p) /\
     data st0 = data st /\
     push_stage st k p.1 (Z.of_nat (length B)) (piece B p) =
       (finish (store_chunk st0 p.1 (piece B p)), BRIDGE_HW_OK)).
  { pose proof Hi as [Hc Hin Hn Htot Hkd Hcm].
    assert (Hclean : forall st0, coverage st0 = coverage st -> data st0 = data st ->
      conflicting_overlap st0 p.1 (piece B p) = false).
    { intros st0 Ec Ed. apply conflict_false. intros j Hj Hr. rewrite Ed, at_piece by (done || lia).
      apply Hh. destruct Hc as (_ & _ & Hcov). apply Hcov.
      - unfold BRIDGE_DSP_MAX_STAGE_BYTES in *. lia.
      - unfold adc_dsp_stage_byte_received in *. by rewrite <- Ec. }
    unfold push_stage. destruct Hmeta as [[-> E0] | [Ek Et]].
    - exists (Stage k (Z.of_nat (length B)) 0 false (coverage st) (data st)).
      split_and!; [split; try done; by apply Hclean | done |].
      rewrite E0. cbn [Z.eqb]. by rewrite Hclean.
    - exists st. split_and!; [split; try done; [| by apply Hclean] | done |].
      + intros i Hx. rewrite <- Et. by apply Hin.
      + rewrite Ek, Et, !Z.eqb_refl, (proj2 (Z.eqb_neq (Z.of_nat (length B)) 0)) by lia.
        cbn [negb orb]. by rewrite Hclean. }
  destruct Hrv as (st0 & Hrv & Ed & E). exists (finish (store_chunk st0 p.1 (piece B p))).
  destruct (finish_spec st0 C _ _ _ _ Hf Hrv) as (K & T & I & Hold & Hnew).
  split_and!; [done | split_and!; [done | | by right] | done].
  intros i Hx. apply elem_of_union in Hx as [Hx | Hx].
  - rewrite Hold, Ed by done. by apply Hh.
  - rewrite Hnew by done. apply elem_chunk_range in Hx. rewrite Hlp in Hx.
    rewrite at_piece by (done || lia). f_equal; lia.
Qed.

(** The offsets the pieces cover. *)
Fixpoint pieces_range (B : list Z) (pieces : list (Z * nat)) : gset Z :=
  match pieces with
  | [] => ∅
  | p :: rest => chunk_range p.1 (piece B p) ∪ pieces_range B rest
  end.

Lemma elem_pieces_range B pieces i :
  Forall (piece_ok B) pieces ->
  i ∈ pieces_range B pieces <->
  exists p, p ∈ pieces /\ p.1 <= i < p.1 + Z.of_nat p.2.
Proof.
  induction 1 as [| p rest Hp Hrest IH]; cbn [pieces_range].
  - split; [set_solver |]. intros (p & Hp & _). by apply elem_of_nil in Hp.
  - rewrite elem_of_union, IH, elem_chunk_range, length_piece by done. split.
    + intros [Hi | (q & Hq & Hi)]; [exists p | exists q]; (split; [| lia]); set_solver.
    + intros (q & Hq & Hi). apply elem_of_cons in Hq as [-> | Hq]; [by left | right; eauto].
Qed.

Lemma push_pieces_spec cid idx k B pieces : forall chains chain st C,
  0 <= k <= BRIDGE_DSP_KIND_MAX -> 0 < Z.of_nat (length B) <= BRIDGE_DSP_MAX_STAGE_BYTES ->
  Forall (piece_ok B) pieces -> pool_ok chains -> reaches chains cid idx chain st ->
  uploading st C k B ->
  let '(chains', rcs) := push_pieces chains cid idx k B pieces in
  Forall (eq BRIDGE_HW_OK) rcs /\ pool_ok chains' /\
  exists chain' st', reaches chains' cid idx chain' st' /\
    uploading st' (C ∪ pieces_range B pieces) k B /\
    (pieces <> [] -> total_size st' = Z.of_nat (length B)).
Proof.
  induction pieces as [| p rest IH]; intros chains chain st C Hk Hb Hps Hp Hr Hu.
  { cbn [push_pieces pieces_range]. rewrite union_empty_r_L. split_and!; try done.
    exists chain, st. by split_and!. }
  apply Forall_cons in Hps as [Hpo Hps]. cbn [push_pieces pieces_range].
  assert (Hf : push_fits k p.1 (Z.of_nat (length B)) (piece B p)).
  { pose proof Hpo as (? & ? & ?). unfold push_fits. rewrite length_piece by done. lia. }
  rewrite (push_reaches _ _ _ _ _ _ _ _ _ Hr Hf).
  destruct (push_piece st C k B p Hk Hb Hpo Hu) as (st1 & E & Hu1 & Ht1). rewrite E. cbn [fst snd].
  destruct (set_stage_ok _ _ _ _ _ st1 Hp Hr) as [Hp1 Hr1]; [by exists (C ∪ chunk_range p.1 (piece B p)); apply Hu1 |].
  specialize (IH _ _ st1 _ Hk Hb Hps Hp1 Hr1 Hu1).
  destruct (push_pieces _ cid idx k B rest) as [chains' rcs].
  destruct IH as (Hrcs & Hp' & chain' & st' & Hr' & Hu' & Ht').
  rewrite (assoc_L (∪)). split_and!; [by constructor | done |]. exists chain', st'.
  split_and!; [done | done |]. intros _. destruct rest as [| q rest]; [| by apply Ht'].
  destruct Hu' as (_ & _ & [[Hemp _] | [_ Ht]]); [| done].
  exfalso. apply (not_elem_of_empty (C := gset Z) p.1). rewrite <- Hemp. cbn [pieces_range].
  destruct Hpo as (? & ? & ?).
  apply elem_of_union_l, elem_of_union_r, elem_chunk_range. rewrite length_piece; [lia |].
  split_and!; lia.
Qed.

(** An upload is complete exactly when every offset has arrived. *)
Lemma complete_all st C :
  stage_inv st C -> complete st = true <->
  0 < total_size st /\ forall i, 0 <= i < total_size st -> i ∈ C.
Proof.
  intros [Hc Hin Hn Ht Hk Hcm]. unfold populated in Hcm.
  rewrite Hcm, andb_true_iff, negb_true_iff, Z.eqb_neq, Z.eqb_eq, Hn.
  set (A := list_to_set (seqZ 0 (total_size st)) : gset Z).
  assert (HA : forall i, i ∈ A <-> 0 <= i < total_size st)
    by (intros i; unfold A; rewrite elem_of_list_to_set, elem_of_seqZ; lia).
  assert (Hsub : C ⊆ A) by (intros i Hi; apply HA; by apply Hin).
  assert (HsA : size A = Z.to_nat (total_size st)).
  { unfold A. by rewrite size_list_to_set, length_seqZ by apply NoDup_seqZ. }
  split.
  - intros [Hne Hs]. split; [lia |]. intros i Hi.
    rewrite (set_subseteq_size_eq C A Hsub) by lia. by apply HA.
  - intros [Hpos Hall]. split; [lia |].
    replace C with A; [lia |]. apply set_eq. intros i. split; [| apply Hsub].
    intros Hi. apply Hall, HA, Hi.
Qed.

(** Chunked upload: pieces of a blob, in any order and with any overlap or
    repetition, are all accepted into a fresh stage; the stage is complete
    exactly when they cover the blob, and then holds exactly the blob. *)
Theorem stage_upload_assembles chains cid idx k B pieces chain st :
  0 <= k <= BRIDGE_DSP_KIND_MAX -> 0 < Z.of_nat (length B) <= BRIDGE_DSP_MAX_STAGE_BYTES ->
  Forall (piece_ok B) pieces -> pieces <> [] ->
  pool_ok chains -> reaches chains cid idx chain st -> total_size st = 0 ->
  let '(chains', rcs) := push_pieces chains cid idx k B pieces in
  Forall (eq BRIDGE_HW_OK) rcs /\
  exists chain' st', reaches chains' cid idx chain' st' /\ kind st' = k /\
    total_size st' = Z.of_nat (length B) /\
    (complete st' = true <->
     forall i, 0 <= i < Z.of_nat (length B) ->
       exists p, p ∈ pieces /\ p.1 <= i < p.1 + Z.of_nat p.2) /\
    (complete st' = true -> take (length B) (data st') = B).
Proof.
  intros Hk Hb Hps Hne Hp Hr E0. destruct (reaches_stage _ _ _ _ _ Hp Hr) as [C Hi].
  assert (HC : C = ∅).
  { apply set_eq. intros i. split; [| set_solver]. intros Hx. destruct Hi as [_ Hin _ _ _ _].
    apply Hin in Hx. lia. }
  subst C. assert (Hu : uploading st ∅ k B).
  { split_and!; [done | intros i Hx; set_solver | by left]. }
  pose proof (push_pieces_spec cid idx k B pieces chains chain st ∅ Hk Hb Hps Hp Hr Hu) as Hspec.
  destruct (push_pieces chains cid idx k B pieces) as [chains' rcs].
  destruct Hspec as (Hrcs & _ & chain' & st' & Hr' & (Hi' & Hh' & Hm') & Ht').
  specialize (Ht' Hne). rewrite union_empty_l_L in *.
  assert (Hkind : kind st' = k) by (destruct Hm' as [[_ E] | [E _]]; [lia | done]).
  assert (Hcm : complete st' = true <-> forall i, 0 <= i < Z.of_nat (length B) ->
    i ∈ pieces_range B pieces).
  { rewrite (complete_all st' _ Hi'), Ht'. naive_solver lia. }
  split; [done |]. exists chain', st'. split_and!; try done.
  - rewrite Hcm. split; intros Hall i Hx; apply Hall in Hx; by apply elem_pieces_range in Hx || apply elem_pieces_range.
  - intros Hc. rewrite Hcm in Hc. destruct Hi' as [(_ & Hd & _) _ _ _ _ _].
    unfold BRIDGE_DSP_MAX_STAGE_BYTES in *.
    apply at_ext; [rewrite length_take; lia |]. intros i Hx. rewrite length_take in Hx.
    rewrite <- (Hh' i) by (apply Hc; lia). unfold at_. by rewrite lookup_take_lt by lia.
Qed.

(** ** What bind accepts *)

Definition stage_good (st : adc_dsp_stage) : Prop :=
  total_size st <> 0 /\ complete st = true /\ adc_dsp_stage_blob_valid st = true.

(** The populated stages of a realisable chain, and its terminal kind. *)
Inductive chain_core : list adc_dsp_stage -> Z -> Prop :=
  | core_fir s : stage_good s -> kind s = 0 -> chain_core [s] 0
  | core_iir s : stage_good s -> kind s = 1 -> (data s).[1] = 1 -> chain_core [s] 1
  | core_fft s : stage_good s -> kind s = 3 -> chain_core [s] 3
  | core_window w s : stage_good w -> kind w = 2 -> stage_good s -> kind s = 3 ->
      chain_core [w; s] 3.

(** They may stand anywhere in the stage list. *)
Definition realisable (l : list adc_dsp_stage) (t : Z) : Prop :=
  exists pre core post, l = pre ++ core ++ post /\ chain_core core t /\
    Forall (fun s => total_size s = 0) pre /\ Forall (fun s => total_size s = 0) post.

(** *** Stages by class: all that bind looks at *)

Inductive stage_class := CEmpty | CBad | CFir | CIir1 | CIirN | CWindow | CFft.

#[global] Instance stage_class_eq_dec : EqDecision stage_class.
Proof. solve_decision. Defined.

Definition classify (st : adc_dsp_stage) : stage_class :=
  if total_size st =? 0 then CEmpty
  else if negb (complete st) || negb (adc_dsp_stage_blob_valid st) then CBad
  else if kind st =? 3 then CFft
  else if kind st =? 2 then CWindow
  else if kind st =? 1 then (if (data st).[1] =? 1 then CIir1 else CIirN)
  else CFir.

Definition class_kind (c : stage_class) : Z :=
  match c with CFft => 3 | CWindow => 2 | CIir1 | CIirN => 1 | _ => 0 end.

Fixpoint scan_class (l : list stage_class) (i fft_index window_index last : Z)
    : option (Z * Z * Z) :=
  match l with
  | [] => Some (fft_index, window_index, last)
  | CEmpty :: rest => scan_class rest (i + 1) fft_index window_index last
  | CBad :: rest => None
  | c :: rest =>
      if negb (last =? 4) && negb (u8 (i - last) =? 1) then None
      else
        match c with
        | CFft => if negb (fft_index =? 4) then None else scan_class rest (i + 1) i window_index i
        | CWindow => if negb (window_index =? 4) then None else scan_class rest (i + 1) fft_index i i
        | _ => scan_class rest (i + 1) fft_index window_index i
        end
  end.

Lemma bind_scan_class l : forall i f w last,
  bind_scan l i f w last = scan_class (classify <$> l) i f w last.
Proof.
  induction l as [| st l IH]; intros i f w last; [done |].
  cbn [bind_scan fmap list_fmap]. unfold classify at 1. unfold BRIDGE_DSP_MAX_STAGES.
  destruct (total_size st =? 0); [apply IH |].
  destruct (complete st); cbn [negb orb]; [| done].
  destruct (adc_dsp_stage_blob_valid st); cbn [negb]; [| done].
  destruct (kind st =? 3); [cbn [scan_class]; by rewrite IH |].
  destruct (kind st =? 2); [cbn [scan_class]; by rewrite IH |].
  destruct (kind st =? 1), ((data st).[1] =? 1); cbn [scan_class]; by rewrite IH.
Qed.

Lemma scan_no_bad l : forall i f w last,
  scan_class l i f w last <> None -> Forall (fun c => c <> CBad) l.
Proof.
  induction l as [| c l IH]; intros i f w last Hs; [constructor |].
  cbn [scan_class] in Hs. destruct c; try done; constructor; try done;
    repeat case_match; try done; eauto.
Qed.

Fixpoint count_class (l : list stage_class) (i n fft_index : Z) : Z * Z :=
  match l with
  | [] => (n, fft_index)
  | CEmpty :: rest => count_class rest (i + 1) n fft_index
  | c :: rest => count_class rest (i + 1) (n + 1) (if decide (c = CFft) then i else fft_index)
  end.

Definition capable_class (l : list stage_class) : bool :=
  let '(n, fft_index) := count_class l 0 0 4 in
  if negb (fft_index =? 4) then
    forallb (fun c => bool_decide (c = CEmpty \/ c = CFft \/ c = CWindow)) l
  else if negb (n =? 1) then false
  else forallb (fun c => bool_decide (c <> CIirN)) l.

(** What each class says of the stage. *)
Inductive class_view (st : adc_dsp_stage) : stage_class -> Prop :=
  | view_empty : total_size st = 0 -> class_view st CEmpty
  | view_fir : stage_good st -> kind st = 0 -> class_view st CFir
  | view_iir1 : stage_good st -> kind st = 1 -> (data st).[1] = 1 -> class_view st CIir1
  | view_iirn : stage_good st -> kind st = 1 -> (data st).[1] <> 1 -> class_view st CIirN
  | view_window : stage_good st -> kind st = 2 -> class_view st CWindow
  | view_fft : stage_good st -> kind st = 3 -> class_view st CFft.

Lemma class_viewP st : classify st <> CBad -> class_view st (classify st).
Proof.
  unfold classify. destruct (Z.eqb_spec (total_size st) 0) as [E0 | E0]; [by constructor |].
  destruct (complete st) eqn:Ec; [| done]. destruct (adc_dsp_stage_blob_valid st) eqn:Ev; [| done].
  intros _. cbn [negb orb]. assert (Hg : stage_good st) by done.
  destruct (Z.eqb_spec (kind st) 3); [by constructor |].
  destruct (Z.eqb_spec (kind st) 2); [by constructor |].
  destruct (Z.eqb_spec (kind st) 1).
  - destruct (Z.eqb_spec (data st).[1] 1); by constructor.
  - constructor; [done |]. unfold adc_dsp_stage_blob_valid in Ev. destruct (_ <? _); [done |].
    destruct (Z.eqb_spec (kind st) 0); [done |].
    by rewrite !(proj2 (Z.eqb_neq (kind st) _)) in Ev by done.
Qed.

Lemma good_populated st : stage_good st -> populated st = true.
Proof. intros (E & _). unfold populated. by apply negb_true_iff, Z.eqb_neq. Qed.

Lemma count_class_eq l : forall i n f,
  Forall (fun c => c <> CBad) (classify <$> l) ->
  count_populated l i n f = count_class (classify <$> l) i n f.
Proof.
  induction l as [| st l IH]; [done |]. intros i n f [Hc Hl]%Forall_cons.
  apply class_viewP in Hc. cbn [fmap list_fmap count_populated count_class].
  destruct Hc as [E | Hg K | Hg K | Hg K | Hg K | Hg K]; try rewrite (good_populated _ Hg), K; try by apply IH.
  unfold populated. rewrite E. by apply IH.
Qed.

Lemma every_populated_class (p : adc_dsp_stage -> bool) (q : stage_class -> bool) l :
  (forall st, stage_good st -> class_view st (classify st) -> p st = q (classify st)) ->
  q CEmpty = true -> Forall (fun c => c <> CBad) (classify <$> l) ->
  every_populated p l = forallb q (classify <$> l).
Proof.
  intros Hpq Hq. induction l as [| st l IH]; [done |]. intros [Hc Hl]%Forall_cons.
  cbn [fmap list_fmap forallb]. unfold every_populated in *. cbn [forallb].
  rewrite IH by done. f_equal. apply class_viewP in Hc.
  destruct (Z.eqb_spec (total_size st) 0) as [E | E].
  - unfold populated, classify. by rewrite E.
  - assert (Hg : stage_good st) by (inversion Hc; done).
    rewrite (good_populated st Hg). by apply Hpq.
Qed.

(** The index the counting loop leaves is an FFT stage's. *)
Lemma count_fft l : forall i n f,
  Forall (fun c => c <> CBad) (classify <$> l) -> 0 <= i -> (f = 4 \/ 0 <= f < i) ->
  let f' := (count_populated l i n f).2 in
  f' = f \/ exists st, l !! Z.to_nat (f' - i) = Some st /\ i <= f' /\ stage_good st /\ kind st = 3.
Proof.
  induction l as [| st l IH]; [by left |]. intros i n f [Hc Hl]%Forall_cons Hi Hf.
  cbn [count_populated]. apply class_viewP in Hc.
  assert (Hstep : forall n f0, (f0 = 4 \/ 0 <= f0 < i + 1) ->
    let f' := (count_populated l (i + 1) n f0).2 in
    f' = f0 \/ exists st', (st :: l) !! Z.to_nat (f' - i) = Some st' /\ i <= f' /\ stage_good st' /\ kind st' = 3).
  { intros n0 f0 Hf0. destruct (IH (i + 1) n0 f0 Hl ltac:(lia) Hf0) as [E | (st' & E & Hle & Hg)]; [by left |].
    right. exists st'. split_and!; [| lia | apply Hg..].
    replace (Z.to_nat (_ - i)) with (S (Z.to_nat ((count_populated l (i + 1) n0 f0).2 - (i + 1)))) by lia.
    done. }
  destruct Hc as [E | Hg K | Hg K | Hg K | Hg K | Hg K].
  { unfold populated. rewrite E. cbn [negb Z.eqb]. apply Hstep. lia. }
  1-4: rewrite (good_populated _ Hg), K; cbn [negb Z.eqb Pos.eqb]; apply Hstep; lia.
  rewrite (good_populated _ Hg), K. cbn [negb Z.eqb Pos.eqb].
  destruct (Hstep (n + 1) i ltac:(lia)) as [E | E]; [| by right].
  right. exists st. rewrite E, Z.sub_diag. split_and!; try done; try apply Hg; lia.
Qed.

(** A valid FFT stage is within the point limits. *)
Lemma fft_points_ok st :
  stage_good st -> kind st = 3 ->
  let n_points := u16 (Z.lor (data st).[0] (u16 (Z.shiftl (data st).[1] 8))) in
  (n_points <? BRIDGE_DSP_MIN_FFT_POINTS) || (BRIDGE_DSP_MAX_FFT_POINTS <? n_points) = false.
Proof.
  intros (_ & _ & Hv) K. cbv zeta. unfold adc_dsp_stage_blob_valid in Hv. rewrite K in Hv.
  destruct (total_size st <? BRIDGE_DSP_STAGE_HDR_BYTES); [done |]. cbn [Z.eqb Pos.eqb] in Hv.
  destruct (BRIDGE_DSP_FFT_OUT_FMT_MAX <? (data st).[2]); [done |].
  by destruct (_ || _).
Qed.

Lemma capable_class_eq l :
  Forall (fun c => c <> CBad) (classify <$> l) ->
  adc_dsp_chain_p1_capable l = capable_class (classify <$> l).
Proof.
  intros Hnb. unfold adc_dsp_chain_p1_capable, capable_class, BRIDGE_DSP_MAX_STAGES.
  pose proof (count_fft l 0 0 4 Hnb ltac:(lia) ltac:(lia)) as Hfft. cbv zeta in Hfft.
  rewrite (every_populated_class adc_dsp_stage_blob_valid (fun _ => true)) by
    (try done; intros st (_ & _ & Hv) _; done).
  rewrite (every_populated_class (fun st => (kind st =? 3) || (kind st =? 2))
             (fun c => bool_decide (c = CEmpty \/ c = CFft \/ c = CWindow))); [| | done..].
  2: { intros st Hg Hv. destruct Hv as [E | _ K | _ K | _ K | _ K | _ K];
       [by destruct Hg | rewrite K; by case_bool_decide; naive_solver ..]. }
  rewrite (every_populated_class (fun st => if kind st =? 1 then (data st).[1] =? 1 else true)
             (fun c => bool_decide (c <> CIirN))); [| | done..].
  2: { intros st Hg Hv. destruct Hv as [E | _ K | _ K D | _ K D | _ K | _ K]; [by destruct Hg | ..];
       rewrite K; cbn [Z.eqb Pos.eqb]; try done; [by rewrite D | by apply Z.eqb_neq]. }
  rewrite <- (count_class_eq l 0 0 4 Hnb). destruct (count_populated l 0 0 4) as [n f]. cbn [snd] in Hfft.
  replace (forallb (fun _ => true) (classify <$> l)) with true
    by (symmetry; apply forallb_forall; done).
  cbn [negb]. destruct (Z.eqb_spec f 4) as [-> | Hf]; cbn [negb]; [done |].
  destruct Hfft as [? | (st & E & _ & Hg & K)]; [done |]. rewrite Z.sub_0_r in E. rewrite E.
  rewrite (fft_points_ok st Hg K). cbn [negb]. by destruct (forallb _ _).
Qed.

(** The class list without leading empties, and the terminal of a realisable one. *)
Fixpoint strip (l : list stage_class) : list stage_class :=
  match l with CEmpty :: rest => strip rest | _ => l end.

Definition all_empty (l : list stage_class) : bool := forallb (fun c => bool_decide (c = CEmpty)) l.

Definition shape_class (l : list stage_class) : option stage_class :=
  match strip l with
  | CWindow :: CFft :: post => if all_empty post then Some CFft else None
  | CWindow :: _ => None
  | (CFir | CIir1 | CFft) as c :: post => if all_empty post then Some c else None
  | _ => None
  end.

(** The decision the code takes on a class list. *)
Inductive bind_verdict := Malformed | NotCapable | Capable (c : stage_class).

Definition bind_class (l : list stage_class) : bind_verdict :=
  match scan_class l 0 4 4 4 with
  | None => Malformed
  | Some (f, w, last) =>
      if negb (bind_order_ok f w last) then Malformed
      else if negb (capable_class l) then NotCapable
      else Capable (default CBad (l !! Z.to_nat last))
  end.

(** On four stages the code's scans decide exactly the shape, by enumeration. *)
Lemma bind_class_shape a b c d :
  match bind_class [a; b; c; d] with
  | Capable t => shape_class [a; b; c; d] = Some t
  | _ => shape_class [a; b; c; d] = None
  end.
Proof. destruct a, b, c, d; vm_compute; reflexivity. Qed.

(** The shape read back as the declarative description. *)
Lemma all_empty_stages l :
  all_empty (classify <$> l) = true <-> Forall (fun s => total_size s = 0) l.
Proof.
  unfold all_empty. rewrite forallb_forall, Forall_forall. setoid_rewrite <- list_elem_of_In.
  split; intros Hall x Hx.
  - specialize (Hall (classify x) ltac:(by apply list_elem_of_fmap_2)).
    apply bool_decide_eq_true in Hall. unfold classify in Hall.
    by destruct (Z.eqb_spec (total_size x) 0); [| repeat case_match].
  - apply list_elem_of_fmap in Hx as (st & -> & Hst). apply bool_decide_eq_true.
    unfold classify. by rewrite (Hall st Hst).
Qed.

Lemma strip_stages l :
  exists pre, Forall (fun s => total_size s = 0) pre /\
    exists rest, l = pre ++ rest /\ strip (classify <$> l) = classify <$> rest /\
      match rest with [] => True | s :: _ => classify s <> CEmpty end.
Proof.
  induction l as [| st l (pre & Hpre & rest & -> & E & Hr)]; [exists []; split; [done |]; by exists [] |].
  destruct (decide (classify st = CEmpty)) as [Ec | Ec].
  - exists (st :: pre). split.
    + constructor; [| done]. unfold classify in Ec.
      by destruct (Z.eqb_spec (total_size st) 0); [| repeat case_match].
    + exists rest. split_and!; [done | | done]. cbn [fmap list_fmap app]. by rewrite Ec.
  - exists []. split; [done |]. exists (st :: pre ++ rest). split_and!; [done | | done].
    cbn [fmap list_fmap app strip]. by destruct (classify st).
Qed.

Lemma strip_pre pre l :
  Forall (fun s => total_size s = 0) pre ->
  strip (classify <$> (pre ++ l)) = strip (classify <$> l).
Proof.
  induction 1 as [| s pre E _ IH]; [done |]. cbn [fmap list_fmap app].
  unfold classify at 1. rewrite E. apply IH.
Qed.

Lemma classify_of st (c : stage_class) : class_view st c -> classify st = c.
Proof.
  intros Hv. unfold classify. destruct Hv as [E | G K | G K D | G K D | G K | G K]; [by rewrite E | ..];
    destruct G as (G1 & -> & ->); rewrite (proj2 (Z.eqb_neq _ _) G1), K; cbn [negb orb Z.eqb Pos.eqb];
    try done; [by rewrite D | by rewrite (proj2 (Z.eqb_neq _ _) D)].
Qed.

Lemma class_core st c : classify st = c -> c <> CBad -> class_view st c.
Proof. intros <- Hc. by apply class_viewP. Qed.

Lemma shape_realisable l c :
  shape_class (classify <$> l) = Some c <->
  realisable l (class_kind c) /\ (c = CFir \/ c = CIir1 \/ c = CFft).
Proof.
  split.
  - destruct (strip_stages l) as (pre & Hpre & rest & -> & E & Hr). unfold shape_class. rewrite E.
    destruct rest as [| s rest]; [done |]. cbn [fmap list_fmap].
    destruct (classify s) eqn:Es; try done.
    1,2,4: destruct (all_empty (classify <$> rest)) eqn:Ee; [| done]; intros [= <-];
         apply all_empty_stages in Ee; apply class_core in Es; [| done];
         inversion Es; split; [| naive_solver]; exists pre, [s], rest;
         split_and!; try done; by constructor.
    destruct rest as [| s2 rest]; [done |]. cbn [fmap list_fmap].
    destruct (classify s2) eqn:Es2; try done.
    destruct (all_empty (classify <$> rest)) eqn:Ee; [| done]. intros [= <-].
    apply all_empty_stages in Ee. apply class_core in Es; [| done]. apply class_core in Es2; [| done].
    inversion Es. inversion Es2. split; [| naive_solver].
    exists pre, [s; s2], rest. split_and!; try done. by constructor.
  - intros [(pre & core & post & -> & Hcore & Hpre & Hpost) Hc].
    apply all_empty_stages in Hpost. unfold shape_class. rewrite strip_pre by done.
    inversion Hcore as [s G K E | s G K D E | s G K E | w s Gw Kw G K E]; subst core;
      cbn [app fmap list_fmap];
      [rewrite (classify_of s CFir) by by constructor | rewrite (classify_of s CIir1) by by constructor
      | rewrite (classify_of s CFft) by by constructor
      | rewrite (classify_of w CWindow), (classify_of s CFft) by by constructor];
      cbn [strip]; rewrite Hpost; destruct Hc as [-> | [-> | ->]]; done.
Qed.

(** Another stream holds the block that terminal kind [t] needs: the FFT unit
    for an FFT terminal, the filter accelerator for any other. *)
Definition block_taken (streams : list adc_stream_state) (sid t : Z) : Prop :=
  exists j s, streams !! j = Some s /\ Z.of_nat j <> sid /\ in_use s = true /\ dsp_bound s = true /\
    (dsp_terminal s =? 3) = (t =? 3).

Lemma block_busy_spec fft streams : forall i sid,
  block_busy fft streams i sid = true <->
  exists j s, streams !! j = Some s /\ i + Z.of_nat j <> sid /\ in_use s = true /\
    dsp_bound s = true /\ (dsp_terminal s =? 3) = fft.
Proof.
  induction streams as [| s rest IH]; intros i sid; cbn [block_busy].
  { split; [done |]. intros (j & s & E & _). done. }
  assert (Hterm : (if fft then dsp_terminal s =? 3 else negb (dsp_terminal s =? 3)) = true <->
                  (dsp_terminal s =? 3) = fft) by (destruct fft, (dsp_terminal s =? 3); done).
  destruct (negb (i =? sid) && _) eqn:E.
  - split; [intros _ | done]. rewrite !andb_true_iff, Hterm, negb_true_iff, Z.eqb_neq in E.
    exists 0%nat, s. rewrite Z.add_0_r. naive_solver.
  - rewrite IH. split.
    + intros (j & s' & Ej & Hne & Hs). exists (S j), s'. split; [done | split; [lia | done]].
    + intros ([| j] & s' & Ej & Hne & Hu & Hb & Ht); simpl in Ej.
      * injection Ej as ->. exfalso. apply Bool.not_true_iff_false in E. apply E.
        rewrite !andb_true_iff, Hterm, negb_true_iff, Z.eqb_neq. rewrite Z.add_0_r in Hne. done.
      * exists j, s'. split_and!; try done; lia.
Qed.

Lemma stream_busy_taken streams sid t :
  (if t =? 3 then adc_dsp_fft_stream_busy streams sid else adc_dsp_filter_stream_busy streams sid)
    = true <-> block_taken streams sid t.
Proof.
  unfold adc_dsp_fft_stream_busy, adc_dsp_filter_stream_busy, block_taken.
  destruct (t =? 3); rewrite block_busy_spec; reflexivity.
Qed.

(** The code's decision on a well-formed chain, in one match. *)
Lemma bind_decision l :
  length l = 4%nat ->
  match bind_scan l 0 4 4 4 with
  | None => forall t, ~ realisable l t
  | Some (f, w, last) =>
      if negb (bind_order_ok f w last) then forall t, ~ realisable l t
      else if negb (adc_dsp_chain_p1_capable l) then forall t, ~ realisable l t
      else exists st, l !! Z.to_nat last = Some st /\ forall t, realisable l t <-> t = kind st
  end.
Proof.
  intros Hl. destruct l as [| s0 [| s1 [| s2 [| s3 [|]]]]]; try done.
  set (l := [s0; s1; s2; s3]).
  pose proof (bind_class_shape (classify s0) (classify s1) (classify s2) (classify s3)) as Hshape.
  change [classify s0; classify s1; classify s2; classify s3] with (classify <$> l) in Hshape.
  assert (Hcore : forall t, realisable l t -> exists c, shape_class (classify <$> l) = Some c /\ class_kind c = t).
  { intros t Ht. assert (Hk : t = 0 \/ t = 1 \/ t = 3)
      by (destruct Ht as (? & ? & ? & _ & Hc & _); inversion Hc; lia).
    destruct Hk as [-> | [-> | ->]]; [exists CFir | exists CIir1 | exists CFft];
      (split; [| done]); apply shape_realisable; naive_solver. }
  assert (Hno : shape_class (classify <$> l) = None -> forall t, ~ realisable l t).
  { intros En t Ht. apply Hcore in Ht as (c & E & _). congruence. }
  unfold bind_class in Hshape. rewrite bind_scan_class.
  destruct (scan_class (classify <$> l) 0 4 4 4) as [[[f w] last] |] eqn:Es; [| by apply Hno].
  destruct (bind_order_ok f w last); cbn [negb] in *; [| by apply Hno].
  assert (Hnb : Forall (fun c => c <> CBad) (classify <$> l)) by (apply (scan_no_bad _ 0 4 4 4); congruence).
  rewrite (capable_class_eq l Hnb). destruct (capable_class (classify <$> l)); cbn [negb] in *; [| by apply Hno].
  rewrite list_lookup_fmap in Hshape. destruct (l !! Z.to_nat last) as [st |].
  2: { change (shape_class (classify <$> l) = Some CBad) in Hshape.
       apply shape_realisable in Hshape as [_ [? | [? | ?]]]; done. }
  change (shape_class (classify <$> l) = Some (classify st)) in Hshape.
  exists st. split; [done |]. apply shape_realisable in Hshape as Hsr. destruct Hsr as [Hr Hc].
  assert (Hkind : class_kind (classify st) = kind st).
  { assert (Hv : class_view st (classify st)) by
      (apply class_viewP; intros E; rewrite E in Hc; by destruct Hc as [? | [? | ?]]).
    revert Hc. clear -Hv. destruct Hv as [E | G K | G K D | G K D | G K | G K]; intros Hc;
      [by destruct Hc as [? | [? | ?]] | symmetry; apply K ..]. }
  intros t. split.
  - intros Ht. apply Hcore in Ht as (c & E & <-). rewrite Hshape in E. injection E as <-. done.
  - intros ->. by rewrite <- Hkind.
Qed.

(** Chain [cid] can be attached to slot [sid] with terminal [t]. *)
Record bindable (chains : list adc_dsp_chain) (streams : list adc_stream_state) (cid sid : Z)
    (chain : adc_dsp_chain) (s : adc_stream_state) (t : Z) : Prop := {
  bd_cid : cid < BRIDGE_DSP_MAX_CHAINS;
  bd_sid : sid < BRIDGE_ADC_STREAM_COUNT;
  bd_chain : chains !! Z.to_nat cid = Some chain;
  bd_open : ch_in_use chain = true;
  bd_unbound : ch_bound chain = false;
  bd_slot : streams !! Z.to_nat sid = Some s;
  bd_running : in_use s = true;
  bd_free : dsp_bound s = false;
  bd_shape : realisable (stages chain) t;
  bd_block : ~ block_taken streams sid t }.

(** A refusal that leaves everything: no witness fits its guard. *)
Ltac bind_refused :=
  right; split; [| eexists; split; [| left; reflexivity]; done];
  intros ? ? ? []; simplify_eq;
  first [lia | congruence | match goal with Ht : realisable _ ?t, Hd : _ |- _ => exact (Hd t Ht) end].

(** What bind does, in three cases. *)
Lemma bind_cases chains streams cid sid :
  pool_ok chains -> length streams = 2%nat -> 0 <= cid -> 0 <= sid ->
  (exists chain s t, bindable chains streams cid sid chain s t /\
     bridge_hw_adc_dsp_chain_bind_ chains streams cid sid =
     (set_chain cid (Chain true true (stages chain)) chains,
      <[Z.to_nat sid := stream_attach s t cid]> streams, BRIDGE_HW_OK)) \/
  (forall chain s t, ~ bindable chains streams cid sid chain s t) /\
  exists rc, rc <> BRIDGE_HW_OK /\
    (bridge_hw_adc_dsp_chain_bind_ chains streams cid sid = (chains, streams, rc) \/
     exists chain, chains !! Z.to_nat cid = Some chain /\ ch_bound chain = false /\
       (forall t, ~ realisable (stages chain) t) /\ rc = BRIDGE_HW_ERR_NOTIMPL /\
       bridge_hw_adc_dsp_chain_bind_ chains streams cid sid =
       (adc_dsp_chain_release chains cid, streams, rc)).
Proof.
  intros [Hl Hf] Hs Hc Hi. unfold bridge_hw_adc_dsp_chain_bind_.
  destruct (Z.leb_spec BRIDGE_DSP_MAX_CHAINS cid); [bind_refused |].
  destruct (Z.leb_spec BRIDGE_ADC_STREAM_COUNT sid); [bind_refused |].
  destruct (chains !! Z.to_nat cid) as [chain |] eqn:Ec; [| bind_refused].
  destruct (streams !! Z.to_nat sid) as [s |] eqn:Es; [| bind_refused].
  destruct (Forall_lookup_1 _ _ _ _ Hf Ec) as [Hl4 _].
  pose proof (bind_decision (stages chain) Hl4) as Hd. unfold BRIDGE_DSP_MAX_STAGES.
  destruct (ch_in_use chain) eqn:Eu; cbn [negb]; [| bind_refused].
  destruct (ch_bound chain) eqn:Eb; [bind_refused |].
  destruct (bind_scan (stages chain) 0 4 4 4) as [[[f w] last] |]; [| bind_refused].
  destruct (bind_order_ok f w last); cbn [negb] in *; [| bind_refused].
  destruct (in_use s) eqn:Esu; cbn [negb]; [| bind_refused].
  destruct (dsp_bound s) eqn:Esb; [bind_refused |].
  destruct (adc_dsp_chain_p1_capable (stages chain)); cbn [negb] in *.
  2: { right. split.
       - intros chain' s' t [? ? E _ _ _ _ _ Ht _]. simplify_eq. by apply Hd in Ht.
       - exists BRIDGE_HW_ERR_NOTIMPL. split; [done |]. right. exists chain. done. }
  destruct Hd as (st & El & Hr). rewrite El.
  destruct (if kind st =? 3 then _ else _) eqn:Ebusy.
  - apply (stream_busy_taken streams sid (kind st)) in Ebusy.
    right. split; [| exists BRIDGE_HW_ERR_NOTIMPL; split; [done | by left]].
    intros chain' s' t [? ? E _ _ _ _ _ Ht Hn]. simplify_eq. apply Hr in Ht as ->. done.
  - assert (Hn : ~ block_taken streams sid (kind st)) by (rewrite <- stream_busy_taken; congruence).
    left. exists chain, s, (kind st). split; [| done]. split; try done. by apply Hr.
Qed.

(** Bind is exact: it succeeds precisely on an open, unbound chain whose
    stages form a realisable shape (one FIR, one single-section IIR, or an FFT
    with an optional window), for a running stream without a chain, while no
    other stream holds the block the terminal needs.  A refusal leaves the
    streams alone, and gives the chain back to the pool only when no stream
    could ever bind it. *)
Theorem chain_bind_exact chains streams cid sid :
  pool_ok chains -> length streams = 2%nat -> 0 <= cid -> 0 <= sid ->
  let '(chains', streams', rc) := bridge_hw_adc_dsp_chain_bind_ chains streams cid sid in
  (rc = BRIDGE_HW_OK <-> exists chain s t, bindable chains streams cid sid chain s t) /\
  (rc = BRIDGE_HW_OK -> exists chain s t, bindable chains streams cid sid chain s t /\
     chains' = set_chain cid (Chain true true (stages chain)) chains /\
     streams' = <[Z.to_nat sid := stream_attach s t cid]> streams) /\
  (rc <> BRIDGE_HW_OK -> streams' = streams /\
     (chains' = chains \/
      chains' = adc_dsp_chain_release chains cid /\ rc = BRIDGE_HW_ERR_NOTIMPL /\
      exists chain, chains !! Z.to_nat cid = Some chain /\ forall t, ~ realisable (stages chain) t)).
Proof.
  intros Hp Hs Hc Hi.
  destruct (bind_cases chains streams cid sid Hp Hs Hc Hi)
    as [(chain & s & t & Hb & E) | (Hno & rc & Hrc & [E | (chain & Ec & _ & Hr & -> & E)])]; rewrite E.
  - split; [| split; [| done]]; eauto.
    + split; eauto.
    + intros _. by exists chain, s, t.
  - split; [split; [done | intros (? & ? & ? & Hb); by apply Hno in Hb] |].
    split; [done | auto].
  - split; [split; [done | intros (? & ? & ? & Hb); by apply Hno in Hb] |].
    split; [done |]. intros _. split; [done |]. right. eauto.
Qed.
