(* ===== verification/Adc.v ===== *)
(** * Single-shot ADC: [hal/gd32/adc.c] and [hal/gd32/vref.c]

    The conversion format caches, the converter interlock, the bounded
    calibration and end-of-conversion waits, the residency budget, and the
    reference latch.  Register writes are [adc_op]s and volatile reads are
    [adc_reg]s of an arbitrary hardware state, so the theorems hold for every
    behaviour of the converter.  [ADCn] is the number [n]. *)

From stdpp Require Import base tactics list numbers option.
From S2P Require Import Prelude BridgeHw DspChain.

Definition ADC_CHANNEL_MAP_COUNT : Z := 8.
Definition ADC_VREF_MV : Z := 1800.
Definition ADC_FULL_SCALE : Z := 4095.
Definition ADC_VREFINT_TYP_MV : Z := 1200.
Definition ADC_VREF_MIN_MV : Z := 1700.
Definition ADC_VREF_MAX_MV : Z := 1900.
Definition ADC_RES_BITS_DEFAULT : Z := 12.
Definition ADC_OVERSAMPLE_RATIO_MAX : Z := 256.
Definition ADC_DEFAULT_SAMPLE_CYCLES : Z := 240.
Definition ADC_READ_ISR_BUDGET_US : Z := 1000.
Definition ADC_READ_CONV_HALF_CYCLES_12B : Z := 25.
Definition ADC_READ_ADCCK_HZ : Z := 216000000 / 6.
Definition ADC_READ_BUDGET_HALF_CYCLES : Z :=
  u32 (2 * ADC_READ_ADCCK_HZ * ADC_READ_ISR_BUDGET_US / 1000000).
Definition ADC_PERIPH_COUNT : Z := 4.

(** Vendor register writes, named after the library routine; [p] is a converter
    and [sid] a stream slot. *)
Inductive adc_op :=
  | adc_disable (p : Z) | adc_enable (p : Z)
  | adc_resolution_config (p bits : Z)
  | adc_oversample_mode_config (p shift ovsr : Z)
  | adc_oversample_mode_enable (p : Z) | adc_oversample_mode_disable (p : Z)
  | adc_routine_channel_config (p rank channel cycles : Z)
  | adc_internal_channel_config (on : bool)
  | adc_data_alignment_right (p : Z)
  | adc_channel_length_config (p len : Z)
  | adc_external_trigger_config (p : Z) (rising : bool)
  | adc_software_trigger_enable (p : Z)
  | adc_dma_request_after_last_enable (p : Z) | adc_dma_request_after_last_disable (p : Z)
  | adc_dma_mode_enable (p : Z) | adc_dma_mode_disable (p : Z)
  | adc_flag_clear_eoc (p : Z) | adc_flag_clear_rovf (p : Z)
  | adc_ctl1_set_rstclb (p : Z) | adc_ctl1_set_clb (p : Z)
  | dwell (spins : Z)
  | rcu_periph_clock_enable_dmamux | rcu_periph_clock_enable_dma (sid : Z)
  | rcu_periph_clock_enable_trigsel | rcu_periph_clock_enable_timer (sid : Z)
  | dma_channel_disable (sid : Z) | dma_channel_enable (sid : Z)
  | dma_deinit (sid : Z) | dma_init (sid p number : Z) | dma_circulation_enable (sid : Z)
  | dma_transfer_number_config (sid number : Z)
  | dma_flag_clear_ftf (sid : Z) | dma_flag_clear_err (sid : Z)
  | dma_interrupt_enable (sid : Z) | dma_interrupt_disable (sid : Z)
  | nvic_irq_enable (sid : Z) | nvic_irq_disable (sid : Z)
  | dmamux_idle (sid : Z)
  | trigsel_init (p sid : Z)
  | timer_deinit (sid : Z) | timer_init (sid prescaler period : Z)
  | timer_trgo_update (sid : Z) | timer_enable (sid : Z) | timer_disable (sid : Z).

(** Volatile reads. *)
Inductive adc_reg :=
  | reg_rstclb (p : Z) | reg_clb (p : Z)
  | flag_eoc (p : Z) | flag_rovf (p : Z)
  | adc_routine_data (p : Z)
  | vref_status
  | dma_chen (sid : Z)
  | dma_transfer_number (sid : Z)
  | dma_flag_ftf (sid : Z) | dma_flag_err (sid : Z)
  | ring_word (sid idx : Z).

Class AdcHw (H : Type) := {
  hw_do : H -> adc_op -> H;
  hw_read : H -> adc_reg -> Z * H }.

(** Firmware state of the two files, and the stream slots the guards look at. *)
Record adc_fw := AdcFw {
  vref_ok : bool;
  vref_remeasure_pending : bool;
  adc_vref_mv : Z;
  adc_vrefint_code : Z;
  adc_sample_cycles_cache : list Z;
  adc_resolution_bits_cache : list Z;
  adc_oversample_ratio_cache : list Z;
  adc_periph_busy : list bool;
  adc_streams : list adc_stream_state }.

Definition set_busy (l : list bool) (w : adc_fw) : adc_fw :=
  AdcFw (vref_ok w) (vref_remeasure_pending w) (adc_vref_mv w) (adc_vrefint_code w)
    (adc_sample_cycles_cache w) (adc_resolution_bits_cache w) (adc_oversample_ratio_cache w)
    l (adc_streams w).

Definition set_vref (ok pending : bool) (w : adc_fw) : adc_fw :=
  AdcFw ok pending (adc_vref_mv w) (adc_vrefint_code w)
    (adc_sample_cycles_cache w) (adc_resolution_bits_cache w) (adc_oversample_ratio_cache w)
    (adc_periph_busy w) (adc_streams w).

(** [adc_vref_publish]: the pair is written under one lock. *)
Definition adc_vref_publish (code mv : Z) (w : adc_fw) : adc_fw :=
  AdcFw (vref_ok w) (vref_remeasure_pending w) mv code
    (adc_sample_cycles_cache w) (adc_resolution_bits_cache w) (adc_oversample_ratio_cache w)
    (adc_periph_busy w) (adc_streams w).

(** ** Tables and pure helpers *)

(** [adc_channels_map]: converter and channel of each bridge channel. *)
Definition adc_channels_map : list (Z * Z) :=
  [(3, 12); (3, 2); (2, 2); (2, 13); (1, 4); (1, 12); (0, 2); (0, 3)].

Definition ch_periph (channel : Z) : Z :=
  match adc_channels_map !! Z.to_nat channel with Some (p, _) => p | None => 0 end.
Definition ch_channel (channel : Z) : Z :=
  match adc_channels_map !! Z.to_nat channel with Some (_, c) => c | None => 0 end.

Definition adc_vref_mv_from_code (code : Z) : Z :=
  if code =? 0 then ADC_VREF_MV
  else
    let mv := u32 (ADC_VREFINT_TYP_MV * ADC_FULL_SCALE + code / 2) / code in
    if (mv <? ADC_VREF_MIN_MV) || (ADC_VREF_MAX_MV <? mv) then ADC_VREF_MV else u16 mv.

(** [None] is the false return; the register value is named by its width. *)
Definition adc_resolution_reg (bits : Z) : option Z :=
  if (bits =? 12) || (bits =? 10) || (bits =? 8) || (bits =? 6) then Some bits else None.

Definition adc_full_scale_for_bits (bits : Z) : Z :=
  if bits =? 10 then 1023
  else if bits =? 8 then 255
  else if bits =? 6 then 63
  else ADC_FULL_SCALE.

(** The doubling loop: [fuel] bounds the at most 16 doublings of a [uint16_t]. *)
Fixpoint pow2_below (fuel : nat) (ratio log2 pow2 : Z) : Z * Z :=
  match fuel with
  | O => (log2, pow2)
  | S fuel =>
      if u16 (Z.shiftl pow2 1) <=? ratio then pow2_below fuel ratio (log2 + 1) (u16 (Z.shiftl pow2 1))
      else (log2, pow2)
  end.

(** [None] is "no oversampling", otherwise the register value and the shift. *)
Definition adc_oversample_params (ratio : Z) : option (Z * Z) :=
  if ratio <=? 1 then None
  else
    let ratio := if ADC_OVERSAMPLE_RATIO_MAX <? ratio then ADC_OVERSAMPLE_RATIO_MAX else ratio in
    let '(log2, pow2) := pow2_below 16 ratio 0 1 in
    Some (u16 (pow2 - 1), log2).

Definition adc_effective_ratio (w : adc_fw) (channel : Z) : Z :=
  match adc_oversample_params (adc_oversample_ratio_cache w).[channel] with
  | Some (ovsr, _) => u16 (ovsr + 1)
  | None => 1
  end.

(** Code to millivolts, clamped to full scale first. *)
Definition code_mv (code fs vref : Z) : Z :=
  let code := if fs <? code then fs else code in
  u16 (u32 (code * vref) / fs).

Definition adc_periph_slot (p : Z) : Z :=
  if (p =? 0) || (p =? 1) || (p =? 2) || (p =? 3) then p else ADC_PERIPH_COUNT.

(** [adc_periph_claim] and [adc_periph_release]. *)
Definition adc_periph_claim (w : adc_fw) (p : Z) : bool * adc_fw :=
  let slot := adc_periph_slot p in
  if ADC_PERIPH_COUNT <=? slot then (false, w)
  else
    match adc_periph_busy w !! Z.to_nat slot with
    | Some false => (true, set_busy (<[Z.to_nat slot := true]> (adc_periph_busy w)) w)
    | _ => (false, w)
    end.

Definition adc_periph_release (w : adc_fw) (p : Z) : adc_fw :=
  let slot := adc_periph_slot p in
  if ADC_PERIPH_COUNT <=? slot then w
  else set_busy (<[Z.to_nat slot := false]> (adc_periph_busy w)) w.

(** The scans of [bridge_hw_adc_read] and [bridge_hw_adc_stream_begin] for a
    running stream on converter [p], the latter sparing its own slot. *)
Fixpoint stream_on_periph (streams : list adc_stream_state) (i except p : Z) : bool :=
  match streams with
  | [] => false
  | s :: rest =>
      if negb (i =? except) && in_use s && (ch_periph (channel s) =? p) then true
      else stream_on_periph rest (i + 1) except p
  end.

Definition half_cycles_per_conv (w : adc_fw) (channel : Z) : Z :=
  u32 (u32 (2 * (adc_sample_cycles_cache w).[channel]) + ADC_READ_CONV_HALF_CYCLES_12B).

Definition residency_half_cycles (w : adc_fw) (channel samples : Z) : Z :=
  u32 (u32 (samples * adc_effective_ratio w channel) * half_cycles_per_conv w channel).

Section adc.
Context {H : Type} `{!AdcHw H}.

Definition hw_dos (h : H) (ops : list adc_op) : H := foldl hw_do h ops.

(** A bounded wait for register [r] to read set ([want]) or clear. *)
Fixpoint poll (fuel : nat) (want : bool) (r : adc_reg) (h : H) : bool * H :=
  match fuel with
  | O => (false, h)
  | S fuel =>
      let '(v, h) := hw_read h r in
      if Bool.eqb (negb (v =? 0)) want then (true, h) else poll fuel want r h
  end.

Definition adc_apply_conv_format (h : H) (w : adc_fw) (p channel : Z) : H :=
  let h := match adc_resolution_reg (adc_resolution_bits_cache w).[channel] with
           | Some bits => hw_do h (adc_resolution_config p bits)
           | None => h
           end in
  match adc_oversample_params (adc_oversample_ratio_cache w).[channel] with
  | Some (ovsr, shift) =>
      hw_dos h [adc_oversample_mode_config p shift ovsr; adc_oversample_mode_enable p]
  | None => hw_do h (adc_oversample_mode_disable p)
  end.

Definition adc_calibrate_bounded (h : H) (p : Z) : bool * H :=
  let h := hw_do h (adc_ctl1_set_rstclb p) in
  let '(ok, h) := poll (Z.to_nat 100000) false (reg_rstclb p) h in
  if negb ok then (false, h)
  else
    let h := hw_do h (adc_ctl1_set_clb p) in
    poll (Z.to_nat 100000) false (reg_clb p) h.

Definition adc_periph_boot_init (h : H) (p : Z) : bool * H :=
  let h := hw_dos h [adc_data_alignment_right p; adc_channel_length_config p 1;
                     adc_external_trigger_config p false; adc_enable p; dwell 4096] in
  adc_calibrate_bounded h p.

Definition adc_periph_restore (h : H) (p : Z) : bool * H :=
  let h := hw_dos h [adc_disable p; adc_dma_request_after_last_disable p; adc_dma_mode_disable p;
                     adc_flag_clear_eoc p; adc_flag_clear_rovf p] in
  adc_periph_boot_init h p.

(** ** Reference *)

Definition vref_ready_check (h : H) (w : adc_fw) : bool * H * adc_fw :=
  if negb (vref_ok w) then
    let '(v, h) := hw_read h vref_status in
    (vref_ok w, h, if negb (v =? 0) then set_vref (vref_ok w) true w else w)
  else (vref_ok w, h, w).

(** The 16 conversions of [adc_vref_measure]: [None] is an EOC timeout. *)
Fixpoint vref_samples (n : nat) (sum : Z) (h : H) : option Z * H :=
  match n with
  | O => (Some sum, h)
  | S n =>
      let h := hw_do h (adc_software_trigger_enable 0) in
      let '(ok, h) := poll (Z.to_nat 100000) true (flag_eoc 0) h in
      if negb ok then (None, h)
      else
        let h := hw_do h (adc_flag_clear_eoc 0) in
        let '(v, h) := hw_read h (adc_routine_data 0) in
        vref_samples n (u32 (sum + Z.land v ADC_FULL_SCALE)) h
  end.

Definition adc_vref_measure (h : H) (w : adc_fw) : bool * H * adc_fw :=
  let h := hw_dos h [adc_internal_channel_config true; dwell 4096; adc_disable 0;
                     adc_resolution_config 0 12; adc_oversample_mode_disable 0;
                     adc_routine_channel_config 0 0 18 ADC_DEFAULT_SAMPLE_CYCLES;
                     adc_enable 0; dwell 4096] in
  let '(cal, h) := adc_calibrate_bounded h 0 in
  if negb cal then
    (false, hw_do h (adc_internal_channel_config false), adc_vref_publish 0 (adc_vref_mv w) w)
  else
    let h := hw_do h (adc_flag_clear_eoc 0) in
    let '(sum, h) := vref_samples 16 0 h in
    let h := hw_do h (adc_internal_channel_config false) in
    match sum with
    | None => (false, h, adc_vref_publish 0 (adc_vref_mv w) w)
    | Some sum => (true, h, adc_vref_publish (u16 (sum / 16)) (adc_vref_mv_from_code (sum / 16)) w)
    end.

Definition vref_late_tick (h : H) (w : adc_fw) : H * adc_fw :=
  if negb (vref_remeasure_pending w) then (h, w)
  else
    let '(claimed, w) := adc_periph_claim w 0 in
    if negb claimed then (h, w)
    else
      let '(_, h, w) := adc_vref_measure h w in
      let w := adc_periph_release w 0 in
      (h, set_vref true false w).

(** ** Single-shot read *)

(** The sample loop: [None] is an EOC timeout, with what was stored before. *)
Fixpoint read_samples (n : nat) (bound : nat) (p fs vref : Z) (h : H) : bool * list Z * H :=
  match n with
  | O => (true, [], h)
  | S n =>
      let h := hw_do h (adc_software_trigger_enable p) in
      let '(ok, h) := poll bound true (flag_eoc p) h in
      if negb ok then (false, [], h)
      else
        let h := hw_do h (adc_flag_clear_eoc p) in
        let '(code, h) := hw_read h (adc_routine_data p) in
        let '(ok, mv, h) := read_samples n bound p fs vref h in
        (ok, code_mv (u32 code) fs vref :: mv, h)
  end.

Definition eoc_bound (w : adc_fw) (channel : Z) : Z :=
  let b := u32 (100000 + 25000 * adc_effective_ratio w channel) in
  if 400000 <? b then 400000 else b.

Definition bridge_hw_adc_read_ (h : H) (w : adc_fw) (channel samples : Z)
    : H * adc_fw * (Z * list Z) :=
  if samples =? 0 then (h, w, (BRIDGE_HW_ERR_INVAL, []))
  else if ADC_CHANNEL_MAP_COUNT <=? channel then (h, w, (BRIDGE_HW_ERR_RANGE, []))
  else
    let '(ready, h, w) := vref_ready_check h w in
    if negb ready then (h, w, (BRIDGE_HW_ERR_IO, []))
    else
      let p := ch_periph channel in
      if stream_on_periph (adc_streams w) 0 (-1) p then (h, w, (BRIDGE_HW_ERR_BUSY, []))
      else if ADC_READ_BUDGET_HALF_CYCLES <? residency_half_cycles w channel samples then
        (h, w, (BRIDGE_HW_ERR_RANGE, []))
      else
        let '(claimed, w) := adc_periph_claim w p in
        if negb claimed then (h, w, (BRIDGE_HW_ERR_BUSY, []))
        else
          let h := hw_do h (adc_disable p) in
          let h := adc_apply_conv_format h w p channel in
          let h := hw_dos h [adc_routine_channel_config p 0 (ch_channel channel)
                               (adc_sample_cycles_cache w).[channel];
                             adc_enable p; dwell 4096] in
          let '(cal, h) := adc_calibrate_bounded h p in
          if negb cal then (h, adc_periph_release w p, (BRIDGE_HW_ERR_IO, []))
          else
            let h := hw_do h (adc_flag_clear_eoc p) in
            let fs := adc_full_scale_for_bits (adc_resolution_bits_cache w).[channel] in
            let '(ok, mv, h) := read_samples (Z.to_nat samples) (Z.to_nat (eoc_bound w channel))
                                  p fs (adc_vref_mv w) h in
            if negb ok then
              let '(_, h) := adc_periph_restore h p in
              (h, adc_periph_release w p, (BRIDGE_HW_ERR_IO, mv))
            else (h, adc_periph_release w p, (BRIDGE_HW_OK, mv)).

End adc.

Definition set_formats (cycles bits ratios : list Z) (w : adc_fw) : adc_fw :=
  AdcFw (vref_ok w) (vref_remeasure_pending w) (adc_vref_mv w) (adc_vrefint_code w)
    cycles bits ratios (adc_periph_busy w) (adc_streams w).

Definition bridge_hw_adc_configure_ (w : adc_fw) (channel oversample_ratio sample_cycles
    resolution_bits : Z) : adc_fw * Z :=
  if ADC_CHANNEL_MAP_COUNT <=? channel then (w, BRIDGE_HW_ERR_RANGE)
  else
    let res_bits := if resolution_bits =? 0 then ADC_RES_BITS_DEFAULT else resolution_bits in
    match adc_resolution_reg res_bits with
    | None =>
        if (res_bits =? 14) || (res_bits =? 16) then (w, BRIDGE_HW_ERR_NOTIMPL)
        else (w, BRIDGE_HW_ERR_INVAL)
    | Some _ =>
        let sc := if sample_cycles =? 0 then ADC_DEFAULT_SAMPLE_CYCLES else sample_cycles in
        let sc := if sc <? 2 then 2 else sc in
        let sc := if 638 <? sc then 638 else sc in
        (set_formats (<[Z.to_nat channel := sc]> (adc_sample_cycles_cache w))
                     (<[Z.to_nat channel := res_bits]> (adc_resolution_bits_cache w))
                     (<[Z.to_nat channel := oversample_ratio]> (adc_oversample_ratio_cache w)) w,
         BRIDGE_HW_OK)
    end.

(** ** Invariant *)

Record adc_ok (w : adc_fw) : Prop := {
  ao_vref : ADC_VREF_MIN_MV <= adc_vref_mv w <= ADC_VREF_MAX_MV;
  ao_cycles : length (adc_sample_cycles_cache w) = 8%nat /\
              Forall (fun c => 2 <= c <= 638) (adc_sample_cycles_cache w);
  ao_bits : length (adc_resolution_bits_cache w) = 8%nat /\
            Forall (fun b => b = 12 \/ b = 10 \/ b = 8 \/ b = 6) (adc_resolution_bits_cache w);
  ao_ratio : length (adc_oversample_ratio_cache w) = 8%nat /\
             Forall is_u16 (adc_oversample_ratio_cache w);
  ao_busy : length (adc_periph_busy w) = 4%nat }.

(** The state [bridge_hw_init] leaves. *)
Definition adc_fw0 (streams : list adc_stream_state) : adc_fw :=
  AdcFw true false ADC_VREF_MV 0 (replicate 8 ADC_DEFAULT_SAMPLE_CYCLES)
    (replicate 8 ADC_RES_BITS_DEFAULT) (replicate 8 1) (replicate 4 false) streams.

Lemma adc_ok_init streams : adc_ok (adc_fw0 streams).
Proof.
  split; try done; try (split; [done |]; apply Forall_replicate; unfold is_u16;
    unfold ADC_DEFAULT_SAMPLE_CYCLES, ADC_RES_BITS_DEFAULT; lia).
Qed.

Lemma Forall_at (P : Z -> Prop) (l : list Z) i :
  Forall P l -> 0 <= i < Z.of_nat (length l) -> P l.[i].
Proof.
  intros Hf Hi. unfold at_. destruct (lookup_lt_is_Some_2 l (Z.to_nat i)) as [x E]; [lia |].
  rewrite E. by apply (Forall_lookup_1 _ _ _ _ Hf E).
Qed.

(** The oversample ratio the hardware runs: the largest power of two that is
    not above the request, within 1 and 256. *)
Definition floor_pow2 (ratio r : Z) : Prop :=
  exists k, 0 <= k <= 8 /\ r = 2 ^ k /\
    (ratio <= 1 /\ k = 0 \/ r <= ratio /\ (k = 8 \/ ratio < 2 * r)).

Lemma pow2_below_spec :
  forallb (fun ratio => let '(l, p) := pow2_below 16 ratio 0 1 in
    (0 <=? l) && (l <=? 8) && (p =? 2 ^ l) && (p <=? ratio) && (ratio <? 2 * p)) (seqZ 2 255) = true.
Proof. vm_compute. reflexivity. Qed.

Lemma oversample_floor ratio :
  floor_pow2 ratio (match adc_oversample_params ratio with Some (o, _) => u16 (o + 1) | None => 1 end).
Proof.
  unfold adc_oversample_params. destruct (Z.leb_spec ratio 1) as [Hle | Hgt].
  { exists 0. split_and!; try done. by left. }
  set (r := if ADC_OVERSAMPLE_RATIO_MAX <? ratio then ADC_OVERSAMPLE_RATIO_MAX else ratio).
  assert (Hr : 2 <= r <= 256 /\ r <= ratio /\ (r = 256 \/ r = ratio)).
  { unfold r, ADC_OVERSAMPLE_RATIO_MAX. destruct (Z.ltb_spec 256 ratio); lia. }
  pose proof pow2_below_spec as Hs. rewrite forallb_forall in Hs.
  specialize (Hs r). rewrite <- list_elem_of_In, elem_of_seqZ in Hs. specialize (Hs ltac:(lia)).
  destruct (pow2_below 16 r 0 1) as [l p].
  rewrite !andb_true_iff, !Z.leb_le, Z.eqb_eq, Z.ltb_lt in Hs.
  destruct Hs as ((((Hl0 & Hl8) & ->) & Hple) & Hlt).
  assert (Hp : 1 <= 2 ^ l <= 256).
  { split; [apply Z.pow_le_mono_r with (b := 0); lia |].
    change 256 with (2 ^ 8). apply Z.pow_le_mono_r; lia. }
  unfold u16. rewrite (Z.mod_small (2 ^ l - 1)), Z.mod_small by lia.
  exists l. split_and!; try lia. right. split; [lia |].
  destruct (decide (l = 8)); [by left | right].
  destruct Hr as (_ & _ & [-> | ->]); [| lia].
  exfalso. assert (2 ^ l <= 2 ^ 7) by (apply Z.pow_le_mono_r; lia). lia.
Qed.

Lemma effective_ratio_bound w channel : 1 <= adc_effective_ratio w channel <= 256.
Proof.
  destruct (oversample_floor (adc_oversample_ratio_cache w).[channel]) as (k & Hk & E & _).
  unfold adc_effective_ratio. rewrite E. split.
  - apply (Z.pow_le_mono_r 2 0 k); lia.
  - change 256 with (2 ^ 8). apply Z.pow_le_mono_r; lia.
Qed.

(** The residency product does not wrap. *)
Lemma residency_exact w channel samples :
  adc_ok w -> 0 <= channel < 8 -> 0 <= samples < 256 ->
  residency_half_cycles w channel samples =
  samples * adc_effective_ratio w channel * (2 * (adc_sample_cycles_cache w).[channel] + 25).
Proof.
  intros Hw Hc Hs. destruct (ao_cycles w Hw) as [Hl Hf].
  pose proof (Forall_at _ _ channel Hf ltac:(lia)) as Hcy. cbv beta in Hcy.
  pose proof (effective_ratio_bound w channel) as Hr.
  unfold residency_half_cycles, half_cycles_per_conv, u32, ADC_READ_CONV_HALF_CYCLES_12B.
  assert (0 <= samples * adc_effective_ratio w channel <= 255 * 256) by nia.
  rewrite (Z.mod_small (2 * _)), (Z.mod_small (_ + 25)) by lia.
  rewrite (Z.mod_small (samples * _)) by lia. rewrite Z.mod_small by nia. done.
Qed.

Lemma full_scale_pos bits : 63 <= adc_full_scale_for_bits bits <= 4095.
Proof. unfold adc_full_scale_for_bits, ADC_FULL_SCALE. repeat case_match; lia. Qed.

Lemma code_mv_bound code fs vref :
  0 <= code -> 0 < fs <= 4095 -> 0 <= vref <= ADC_VREF_MAX_MV -> 0 <= code_mv code fs vref <= vref.
Proof.
  unfold ADC_VREF_MAX_MV. intros Hc Hf Hv. unfold code_mv.
  set (c := if fs <? code then fs else code).
  assert (Hcf : 0 <= c <= fs) by (unfold c; destruct (Z.ltb_spec fs code); lia).
  unfold u32, u16. rewrite (Z.mod_small (c * vref)) by nia.
  assert (c * vref / fs <= vref) by (apply Z.div_le_upper_bound; nia).
  assert (0 <= c * vref / fs) by (apply Z.div_pos; nia).
  rewrite Z.mod_small; lia.
Qed.

Lemma vref_from_code_ok code :
  ADC_VREF_MIN_MV <= adc_vref_mv_from_code code <= ADC_VREF_MAX_MV.
Proof.
  unfold adc_vref_mv_from_code, ADC_VREF_MIN_MV, ADC_VREF_MAX_MV, ADC_VREF_MV.
  destruct (code =? 0); [lia |]. cbv zeta.
  destruct (Z.ltb_spec (u32 (ADC_VREFINT_TYP_MV * ADC_FULL_SCALE + code / 2) / code) 1700); [simpl; lia |].
  destruct (Z.ltb_spec 1900 (u32 (ADC_VREFINT_TYP_MV * ADC_FULL_SCALE + code / 2) / code)); [simpl; lia |].
  simpl. rewrite u16_id; [lia |]. unfold is_u16. lia.
Qed.

(** ** The converter interlock *)

Lemma claim_true w p w' :
  adc_periph_claim w p = (true, w') ->
  0 <= p < 4 /\ adc_periph_busy w !! Z.to_nat p = Some false /\
  w' = set_busy (<[Z.to_nat p := true]> (adc_periph_busy w)) w.
Proof.
  unfold adc_periph_claim, adc_periph_slot, ADC_PERIPH_COUNT.
  destruct ((p =? 0) || (p =? 1) || (p =? 2) || (p =? 3)) eqn:E; [| done].
  rewrite !orb_true_iff, !Z.eqb_eq in E. destruct (Z.leb_spec 4 p); [lia |].
  destruct (adc_periph_busy w !! Z.to_nat p) as [[]|] eqn:Eb; try done.
  intros [= <-]. split; [lia | done].
Qed.

(** Releasing what was claimed restores the interlock, whatever else changed. *)
Lemma release_claimed w p w' w2 :
  adc_periph_claim w p = (true, w') -> adc_periph_busy w2 = adc_periph_busy w' ->
  adc_periph_release w2 p = set_busy (adc_periph_busy w) w2.
Proof.
  intros Hc E. apply claim_true in Hc as (Hp & Hb & ->). unfold adc_periph_release, adc_periph_slot.
  replace ((p =? 0) || (p =? 1) || (p =? 2) || (p =? 3)) with true
    by (symmetry; rewrite !orb_true_iff, !Z.eqb_eq; lia).
  unfold ADC_PERIPH_COUNT. rewrite (proj2 (Z.leb_gt 4 p)) by lia. rewrite E. simpl.
  by rewrite list_insert_insert_eq, list_insert_id.
Qed.

Section adc_spec.
Context {H : Type} `{!AdcHw H}.

Lemma ready_check_frame (h : H) w :
  let '(ok, _, w') := vref_ready_check h w in
  ok = vref_ok w /\ exists pending, w' = set_vref (vref_ok w) pending w.
Proof.
  unfold vref_ready_check. destruct (vref_ok w) eqn:E; cbn [negb].
  - split; [done |]. exists (vref_remeasure_pending w). destruct w; simpl in *; by subst.
  - destruct (hw_read h vref_status) as [v h']. split; [done |].
    destruct (negb (v =? 0)); [by exists true |]. exists (vref_remeasure_pending w).
    destruct w; simpl in *; by subst.
Qed.

Lemma read_samples_spec n bound p fs vref : forall h : H,
  0 < fs <= 4095 -> 0 <= vref <= ADC_VREF_MAX_MV ->
  let '(ok, mv, _) := read_samples n bound p fs vref h in
  Forall (fun m => 0 <= m <= vref) mv /\ (length mv <= n)%nat /\ (ok = true -> length mv = n).
Proof.
  induction n as [| n IH]; intros h Hfs Hv; cbn [read_samples].
  { split_and!; [by apply Forall_nil_2 | simpl; lia | done]. }
  destruct (poll bound true (flag_eoc p) _) as [[] h1]; cbn [negb].
  2: { split_and!; [by apply Forall_nil_2 | simpl; lia | done]. }
  destruct (hw_read _ (adc_routine_data p)) as [code h2].
  specialize (IH h2 Hfs Hv). destruct (read_samples n bound p fs vref h2) as [[ok mv] h3].
  destruct IH as (Hf & Hl & Hok). split_and!; simpl; [| lia | intros E; f_equal; auto].
  constructor; [| done]. apply code_mv_bound; try done. unfold u32. zlia.
Qed.

(** Whatever the converter does, a read at most notes that the reference came
    ready late. *)
Lemma adc_read_frame (h : H) w channel samples :
  exists pending, (bridge_hw_adc_read_ h w channel samples).1.2 = set_vref (vref_ok w) pending w.
Proof.
  assert (Hid : w = set_vref (vref_ok w) (vref_remeasure_pending w) w) by (by destruct w).
  unfold bridge_hw_adc_read_. destruct (samples =? 0); [by eexists |].
  destruct (_ <=? channel); [by eexists |]. clear Hid.
  pose proof (ready_check_frame h w) as Hrc.
  destruct (vref_ready_check h w) as [[ok h1] w1]. destruct Hrc as (-> & pending & ->).
  exists pending. destruct (vref_ok w); [| done]. cbn [negb].
  destruct (stream_on_periph _ _ _ _); [done |]. destruct (_ <? _); [done |].
  destruct (adc_periph_claim (set_vref true pending w) (ch_periph channel)) as [claimed w2] eqn:Ecl.
  destruct claimed; cbn [negb].
  2: { unfold adc_periph_claim in Ecl. repeat case_match; by simplify_eq. }
  assert (Hrel : adc_periph_release w2 (ch_periph channel) = set_vref true pending w).
  { rewrite (release_claimed _ _ _ _ Ecl) by done. apply claim_true in Ecl as (_ & _ & ->). by destruct w. }
  destruct (adc_calibrate_bounded _ _) as [[] h2]; cbn [negb]; [| done].
  destruct (read_samples _ _ _ _ _ _) as [[[] mv] h3]; cbn [negb]; [done |].
  by destruct (adc_periph_restore _ _) as [r h4].
Qed.

(** A single-shot read, whatever the converter does: every return path
    gives the converter claim back and leaves caches and streams alone; OK
    carries exactly the requested number of samples; no sample exceeds the
    reference; and the converter is touched only when the reference is locked,
    no stream and no other read holds it, and the whole conversion time of the
    request, computed without wrap-around, is within the interrupt budget. *)
Theorem adc_read_contract (h : H) w channel samples :
  adc_ok w -> 0 <= channel < 256 -> 0 <= samples < 256 ->
  let '(h', w', (rc, mv)) := bridge_hw_adc_read_ h w channel samples in
  (exists pending, w' = set_vref (vref_ok w) pending w) /\
  Forall (fun m => 0 <= m <= adc_vref_mv w) mv /\
  (rc = BRIDGE_HW_OK -> Z.of_nat (length mv) = samples) /\
  (h' = (vref_ready_check h w).1.2 \/ h' = h /\ rc <> BRIDGE_HW_OK \/
   channel < 8 /\ vref_ok w = true /\
   stream_on_periph (adc_streams w) 0 (-1) (ch_periph channel) = false /\
   adc_periph_busy w !! Z.to_nat (ch_periph channel) = Some false /\
   samples * adc_effective_ratio w channel * (2 * (adc_sample_cycles_cache w).[channel] + 25)
     <= 72000).
Proof.
  intros Hw Hc Hs.
  assert (Hrefl : exists pending, w = set_vref (vref_ok w) pending w)
    by (exists (vref_remeasure_pending w); by destruct w).
  unfold bridge_hw_adc_read_. destruct (samples =? 0); [by split_and!; try done; auto |].
  destruct (Z.leb_spec ADC_CHANNEL_MAP_COUNT channel) as [Hge | Hlt]; [by split_and!; try done; auto |].
  pose proof (ready_check_frame h w) as Hrc.
  destruct (vref_ready_check h w) as [[ok h1] w1] eqn:Erc. destruct Hrc as (-> & pending & ->).
  cbn [fst snd]. destruct (vref_ok w) eqn:Ev; cbn [negb]; [| by split_and!; eauto].
  cbn [adc_streams set_vref]. destruct (stream_on_periph _ _ _ _) eqn:Est; [by split_and!; eauto |].
  change (residency_half_cycles (set_vref true pending w) channel samples) with
    (residency_half_cycles w channel samples).
  destruct (Z.ltb_spec ADC_READ_BUDGET_HALF_CYCLES (residency_half_cycles w channel samples)) as [| Hres];
    [by split_and!; eauto |].
  destruct (adc_periph_claim (set_vref true pending w) (ch_periph channel)) as [claimed w2] eqn:Ecl.
  destruct claimed; cbn [negb].
  2: { assert (w2 = set_vref true pending w) as ->.
       { unfold adc_periph_claim in Ecl. repeat case_match; by simplify_eq. }
       by split_and!; eauto. }
  pose proof (claim_true _ _ _ Ecl) as (Hp & Hb & Ew2). cbn [adc_periph_busy set_vref] in Hb.
  assert (Hrel : forall w3, adc_periph_busy w3 = adc_periph_busy w2 ->
     adc_periph_release w3 (ch_periph channel) = set_busy (adc_periph_busy w) w3)
    by (intros w3 E3; apply (release_claimed _ _ _ _ Ecl E3)).
  assert (Hw2 : set_busy (adc_periph_busy w) w2 = set_vref true pending w) by (rewrite Ew2; by destruct w).
  assert (Hbudget : samples * adc_effective_ratio w channel *
                    (2 * (adc_sample_cycles_cache w).[channel] + 25) <= 72000).
  { rewrite <- residency_exact by (done || unfold ADC_CHANNEL_MAP_COUNT in *; lia). exact Hres. }
  assert (Hvref : adc_vref_mv w2 = adc_vref_mv w) by (by rewrite Ew2).
  assert (Hset : exists pending', set_vref true pending w = set_vref true pending' w) by eauto.
  destruct (adc_calibrate_bounded _ _) as [cal h2]; destruct cal; cbn [negb].
  2: { rewrite Hrel, Hw2 by done. split; [done |]. split; [by apply Forall_nil_2 |].
       split; [done |]. by right; right. }
  match goal with |- context [read_samples ?n ?b ?p ?fs ?v ?h0] =>
    pose proof (read_samples_spec n b p fs v h0) as Hrs;
    destruct (read_samples n b p fs v h0) as [[ok mv] h3] end.
  pose proof (full_scale_pos (adc_resolution_bits_cache w2).[channel]) as Hfs.
  rewrite Hvref in Hrs. destruct (ao_vref w Hw) as [Hv1 Hv2].
  destruct Hrs as (Hf & _ & Hn); [lia | unfold ADC_VREF_MIN_MV in *; lia |].
  destruct ok; cbn [negb].
  - rewrite Hrel, Hw2 by done. split; [done |]. split; [done |].
    split; [intros _; rewrite Hn by done; lia | by right; right].
  - destruct (adc_periph_restore _ _) as [r h4]. rewrite Hrel, Hw2 by done.
    split; [done |]. split; [done |]. split; [done | by right; right].
Qed.

End adc_spec.

(** Configure keeps the caches usable and the slots as they are. *)
Lemma configure_frame w channel ratio cycles bits :
  adc_ok w -> 0 <= channel -> is_u16 ratio -> is_u16 cycles -> 0 <= bits < 256 ->
  adc_ok (bridge_hw_adc_configure_ w channel ratio cycles bits).1 /\
  adc_streams (bridge_hw_adc_configure_ w channel ratio cycles bits).1 = adc_streams w.
Proof.
  intros Hw Hc Hr Hcy Hb. unfold bridge_hw_adc_configure_.
  destruct (_ <=? channel); [done |].
  unfold adc_resolution_reg, ADC_RES_BITS_DEFAULT, ADC_DEFAULT_SAMPLE_CYCLES.
  set (rb := if bits =? 0 then 12 else bits).
  destruct ((rb =? 12) || (rb =? 10) || (rb =? 8) || (rb =? 6)) eqn:Erb.
  2: { by destruct ((rb =? 14) || (rb =? 16)). }
  rewrite !orb_true_iff, !Z.eqb_eq in Erb. split; [| done].
  destruct Hw as [Hv [Hl1 Hf1] [Hl2 Hf2] [Hl3 Hf3] Hbz].
  split; simpl; try done; rewrite length_insert; (split; [done |]); apply Forall_insert; try done; try lia.
  destruct (Z.eqb_spec cycles 0); simpl; [lia |].
  destruct (Z.ltb_spec cycles 2); simpl; [lia |]. destruct (Z.ltb_spec 638 cycles); lia.
Qed.

(** The sample window CONFIGURE promises: 0 asks for the default, any other
    count is clamped to what the library accepts. *)
Definition window_of (cycles : Z) : Z :=
  if cycles =? 0 then ADC_DEFAULT_SAMPLE_CYCLES else Z.max 2 (Z.min 638 cycles).

(** C13. Configure answers by the documented table: RANGE past the eight channels,
    NOTIMPL for widths the protocol knows and the converter lacks, INVAL for any
    other; a refusal changes nothing.  When it answers OK, the channel's cached
    width is the one asked for (12 for 0), so its full scale is that of the width,
    its window is the one asked for clamped to the library's range (the default
    for 0), and its conversions run the ratio floored to a power of two; every
    format of every other channel, and all the rest of the converter state, is as
    before.  The caches stay well formed. *)
Theorem adc_configure_contract w channel ratio cycles bits :
  adc_ok w -> 0 <= channel -> is_u16 ratio -> is_u16 cycles -> 0 <= bits < 256 ->
  let '(w', rc) := bridge_hw_adc_configure_ w channel ratio cycles bits in
  adc_ok w' /\ (rc <> BRIDGE_HW_OK -> w' = w) /\
  rc = (if 8 <=? channel then BRIDGE_HW_ERR_RANGE
        else if bool_decide (bits ∈ [0; 6; 8; 10; 12]) then BRIDGE_HW_OK
        else if bool_decide (bits ∈ [14; 16]) then BRIDGE_HW_ERR_NOTIMPL else BRIDGE_HW_ERR_INVAL) /\
  (rc = BRIDGE_HW_OK ->
     let width := if bits =? 0 then 12 else bits in
     (adc_resolution_bits_cache w').[channel] = width /\
     adc_full_scale_for_bits (adc_resolution_bits_cache w').[channel] = 2 ^ width - 1 /\
     (adc_sample_cycles_cache w').[channel] = window_of cycles /\
     floor_pow2 ratio (adc_effective_ratio w' channel) /\
     (forall c, 0 <= c < 8 -> c <> channel ->
        (adc_sample_cycles_cache w').[c] = (adc_sample_cycles_cache w).[c] /\
        (adc_resolution_bits_cache w').[c] = (adc_resolution_bits_cache w).[c] /\
        (adc_oversample_ratio_cache w').[c] = (adc_oversample_ratio_cache w).[c]) /\
     w' = set_formats (adc_sample_cycles_cache w') (adc_resolution_bits_cache w')
            (adc_oversample_ratio_cache w') w).
Proof.
  intros Hw Hc Hr Hcy Hb.
  destruct (configure_frame w channel ratio cycles bits Hw Hc Hr Hcy Hb) as [Hok _]. revert Hok.
  unfold bridge_hw_adc_configure_, ADC_CHANNEL_MAP_COUNT, is_u16 in *.
  destruct (Z.leb_spec 8 channel) as [Hge | Hlt]; [done |].
  unfold adc_resolution_reg, ADC_RES_BITS_DEFAULT.
  set (rb := if bits =? 0 then 12 else bits).
  assert (Hin : (rb =? 12) || (rb =? 10) || (rb =? 8) || (rb =? 6) = bool_decide (bits ∈ [0; 6; 8; 10; 12]) /\
    (rb =? 14) || (rb =? 16) = bool_decide (bits ∈ [14; 16])).
  { split; apply Bool.eq_iff_eq_true; rewrite bool_decide_eq_true, !elem_of_cons, elem_of_nil;
      unfold rb; destruct (Z.eqb_spec bits 0); lia. }
  destruct Hin as [-> ->]. case_bool_decide as Hbits; [| by case_bool_decide].
  destruct Hw as [_ [Hl1 _] [Hl2 _] [Hl3 _] _]. cbn [fst]. intros Hok.
  split; [done |]. split; [done |]. split; [done |]. intros _. cbv zeta.
  unfold adc_effective_ratio.
  cbn [adc_sample_cycles_cache adc_oversample_ratio_cache adc_resolution_bits_cache set_formats].
  rewrite !at_insert_eq by lia. split; [done |]. split; [| split; [| split; [| split; [| done]]]].
  - rewrite !elem_of_cons, elem_of_nil in Hbits. unfold rb.
    by destruct Hbits as [-> | [-> | [-> | [-> | [-> | []]]]]].
  - unfold window_of, ADC_DEFAULT_SAMPLE_CYCLES.
    destruct (Z.eqb_spec cycles 0); [done |].
    destruct (Z.ltb_spec cycles 2); [cbn; lia |]. destruct (Z.ltb_spec 638 cycles); lia.
  - apply oversample_floor.
  - intros c Hc8 Hne. by rewrite !at_insert_ne by lia.
Qed.
