(* ===== verification/Drivers.v ===== *)
(** * The small drivers: [hal/gd32/dac.c], [qenc.c], [counter.c], [src/timing_stats.c]

    Two converters over the measured reference, four quadrature counters of two
    widths, the cycle counter and the transaction timing statistics. *)

From stdpp Require Import base tactics list numbers option.
From S2P Require Import Prelude BridgeHw Adc.

(** ** Digital to analog *)

Inductive dac_periph := DAC0 | DAC1.
#[export] Instance dac_periph_eq_dec : EqDecision dac_periph.
Proof. solve_decision. Defined.

(** Converter of each channel; both use [DAC_OUT0]. *)
Definition dac_channels : list dac_periph := [DAC0; DAC1].
Definition DAC_CHANNEL_COUNT : Z := 2.
Definition dac_of (channel : Z) : dac_periph := default DAC0 (dac_channels !! Z.to_nat channel).

Definition DAC_FULL_SCALE : Z := 4095.
Definition DAC_BUFFERED_MIN_MV : Z := 200.
Definition DAC_BUFFERED_MAX_MV (w : adc_fw) : Z := u16 (u32 (adc_vref_mv w - 200)).

Class DacHw (H : Type) := {
  dac_data_set : H -> dac_periph -> Z -> H;
  dac_output_value_get : H -> dac_periph -> Z * H }.

Section dac.
Context {H : Type} `{!AdcHw H} `{!DacHw H}.

Definition bridge_hw_dac_set_ (h : H) (w : adc_fw) (channel value_mv : Z) : H * adc_fw * Z :=
  if DAC_CHANNEL_COUNT <=? channel then (h, w, BRIDGE_HW_ERR_RANGE)
  else
    let '(ready, h, w) := vref_ready_check h w in
    if negb ready then (h, w, BRIDGE_HW_ERR_IO)
    else
      let clamped_mv := if value_mv <? DAC_BUFFERED_MIN_MV then DAC_BUFFERED_MIN_MV else value_mv in
      let clamped_mv := if DAC_BUFFERED_MAX_MV w <? clamped_mv then DAC_BUFFERED_MAX_MV w else clamped_mv in
      let code := u32 (clamped_mv * DAC_FULL_SCALE) / adc_vref_mv w in
      let code := if DAC_FULL_SCALE <? code then DAC_FULL_SCALE else code in
      (dac_data_set h (dac_of channel) (u16 code), w, BRIDGE_HW_OK).

Definition bridge_hw_dac_get_ (h : H) (w : adc_fw) (channel : Z) : H * adc_fw * (Z * Z) :=
  if DAC_CHANNEL_COUNT <=? channel then (h, w, (BRIDGE_HW_ERR_RANGE, 0))
  else
    let '(ready, h, w) := vref_ready_check h w in
    if negb ready then (h, w, (BRIDGE_HW_ERR_IO, 0))
    else
      let '(code, h) := dac_output_value_get h (dac_of channel) in
      let code := if DAC_FULL_SCALE <? u16 code then DAC_FULL_SCALE else u16 code in
      (h, w, (BRIDGE_HW_OK, u16 (u32 (code * adc_vref_mv w) / DAC_FULL_SCALE))).

End dac.

(** The converters' output register, which only a store changes. *)
Class DacLaws (H : Type) `{!AdcHw H} `{!DacHw H} := {
  dac_do : H -> dac_periph -> Z;
  dac_set_do h p q code : 0 <= code <= 4095 ->
    dac_do (dac_data_set h p code) q = if decide (p = q) then code else dac_do h q;
  dac_get_do h p : (dac_output_value_get h p).1 = dac_do h p;
  dac_get_keeps h p q : dac_do (dac_output_value_get h p).2 q = dac_do h q;
  dac_reg_keeps h r q : dac_do (hw_read h r).2 q = dac_do h q }.

(** ** Quadrature counters *)

Inductive qenc_timer := TIMER1 | TIMER2 | TIMER3 | TIMER4.
#[export] Instance qenc_timer_eq_dec : EqDecision qenc_timer.
Proof. solve_decision. Defined.

Record gd32_qenc := Qenc {
  qe_timer : qenc_timer; qe_x_port : Z; qe_x_pin : Z; qe_y_port : Z; qe_y_pin : Z; qe_af : Z; qe_wide : bool }.

(** Ports by letter: A is 0. *)
Definition qenc_map : list gd32_qenc :=
  [Qenc TIMER1 0 0 1 3 1 true; Qenc TIMER2 2 6 2 7 2 false; Qenc TIMER3 1 6 1 7 2 false; Qenc TIMER4 1 2 0 1 2 true].
Definition QENC_CHANNEL_COUNT : Z := 4.
Definition qenc_of (encoder : Z) : gd32_qenc := default (Qenc TIMER1 0 0 0 0 0 true) (qenc_map !! Z.to_nat encoder).

Inductive qenc_op :=
  | qenc_gpio_af_pullup (port pin : Z) | qenc_gpio_af_set (port af pin : Z)
  | qenc_timer_deinit (t : qenc_timer) | qenc_timer_init (t : qenc_timer) (prescaler period : Z)
  | quadrature_decoder_mode2 (t : qenc_timer) | chctl0_write (t : qenc_timer) (v : Z)
  | qenc_timer_enable (t : qenc_timer) | counter_value_config (t : qenc_timer) (v : Z).

Class QencHw (H : Type) := {
  qenc_do : H -> qenc_op -> H;
  chctl0_read : H -> qenc_timer -> Z;
  counter_read : H -> qenc_timer -> Z }.

Definition TIMER_CHCTL0_CH0CAPFLT : Z := 0xF0.
Definition TIMER_CHCTL0_CH1CAPFLT : Z := 0xF000.

Section qenc.
Context {H : Type} `{!QencHw H}.

Definition qenc_channel_init (h : H) (e : gd32_qenc) : H :=
  let t := qe_timer e in
  let h := foldl qenc_do h
    [qenc_gpio_af_pullup (qe_x_port e) (qe_x_pin e); qenc_gpio_af_pullup (qe_y_port e) (qe_y_pin e);
     qenc_gpio_af_set (qe_x_port e) (qe_af e) (qe_x_pin e); qenc_gpio_af_set (qe_y_port e) (qe_af e) (qe_y_pin e);
     qenc_timer_deinit t; qenc_timer_init t 0 0xFFFFFFFF; quadrature_decoder_mode2 t] in
  let chctl0 := chctl0_read h t in
  let v := Z.lor (Z.lor (Z.land chctl0 (Z.lnot (Z.lor TIMER_CHCTL0_CH0CAPFLT TIMER_CHCTL0_CH1CAPFLT))) (Z.shiftl 3 4)) (Z.shiftl 3 12) in
  foldl qenc_do h [chctl0_write t v; qenc_timer_enable t].

Definition bridge_hw_qenc_read_ (h : H) (encoder : Z) : Z * Z :=
  if QENC_CHANNEL_COUNT <=? encoder then (BRIDGE_HW_ERR_RANGE, 0)
  else
    let raw := u32 (counter_read h (qe_timer (qenc_of encoder))) in
    (BRIDGE_HW_OK, if qe_wide (qenc_of encoder) then s32 raw else s16 (u16 raw)).

Definition bridge_hw_qenc_reset_ (h : H) (encoder : Z) : H * Z :=
  if QENC_CHANNEL_COUNT <=? encoder then (h, BRIDGE_HW_ERR_RANGE)
  else (qenc_do h (counter_value_config (qe_timer (qenc_of encoder)) 0), BRIDGE_HW_OK).

End qenc.

(** [bridge_hw_counter_read]; [cyccnt] is the cycle counter. *)
Definition bridge_hw_counter_read_ (cyccnt counter : Z) : Z * Z :=
  if negb (counter =? 0) then (BRIDGE_HW_ERR_RANGE, 0) else (BRIDGE_HW_OK, u32 cyccnt).

(** ** Transaction timing *)

Record timing_stat := TimingStat { ts_count : Z; ts_last : Z; ts_min : Z; ts_max : Z }.
Record bridge_timing_stats := TimingStats {
  ts_magic : Z; ts_layout : Z; req_crc : timing_stat; ts_dispatch : timing_stat; reply_stage : timing_stat; ts_total : timing_stat;
  cmd_last : Z }.

Definition TIMING_STATS_MAGIC : Z := 0x41545354.
Definition TIMING_STATS_LAYOUT : Z := 1.
Definition stat0 : timing_stat := TimingStat 0 0 0 0.
Definition timing_stats_init : bridge_timing_stats := TimingStats TIMING_STATS_MAGIC TIMING_STATS_LAYOUT stat0 stat0 stat0 stat0 0.

Definition timing_stat_add (s : timing_stat) (cycles : Z) : timing_stat :=
  let min := if (ts_count s =? 0) || (cycles <? ts_min s) then cycles else ts_min s in
  let max := if (ts_count s =? 0) || (ts_max s <? cycles) then cycles else ts_max s in
  TimingStat (u32 (ts_count s + 1)) cycles min max.

(** [cs_edge] is [cs_edge_cycles], the last mark. *)
Definition timing_stats_record (cs_edge crc0 crc1 disp1 end_ cmd : Z) (t : bridge_timing_stats) : bridge_timing_stats :=
  TimingStats (ts_magic t) (ts_layout t) (timing_stat_add (req_crc t) (u32 (crc1 - crc0)))
    (timing_stat_add (ts_dispatch t) (u32 (disp1 - crc1))) (timing_stat_add (reply_stage t) (u32 (end_ - disp1)))
    (timing_stat_add (ts_total t) (u32 (end_ - cs_edge))) cmd.
