(* ===== verification/DriversSafety.v ===== *)
(** * What the small drivers guarantee *)

From stdpp Require Import base tactics list numbers option.
From S2P Require Import Prelude BridgeHw Adc Drivers.

(** ** Digital to analog *)

(** The level the buffer can reach next to the one asked. *)
Definition reachable_mv (w : adc_fw) (value_mv : Z) : Z := Z.max 200 (Z.min value_mv (adc_vref_mv w - 200)).

(** A level survives the two conversions to within a millivolt, rounding down. *)
Lemma dac_code_error m vref : 1700 <= vref <= 1900 -> 200 <= m <= vref - 200 ->
  0 <= m * 4095 / vref <= 4095 /\ m - 1 <= m * 4095 / vref * vref / 4095 <= m.
Proof.
  intros Hv Hm. pose proof (Z.mul_div_le (m * 4095) vref ltac:(lia)). pose proof (Z.mul_succ_div_gt (m * 4095) vref ltac:(lia)).
  set (code := m * 4095 / vref) in *. assert (0 <= code) by (apply Z.div_pos; lia).
  split; [nia |]. split; [apply Z.div_le_lower_bound; nia | apply Z.div_le_upper_bound; nia].
Qed.

Section dac.
Context {H : Type} `{!AdcHw H} `{!DacHw H} `{!DacLaws H}.

(** The converters do what they are told or say so.  With a locked reference,
    measured between 1.7 and 1.9 V, a level asked of a channel is brought into the
    buffer's window and stored as a 12-bit code without saturating, the other
    channel keeps its code; any later read-back while that code is in play answers
    the level in the window to within a millivolt, never above it.  Without a
    locked reference both answer IO and no converter changes. *)
Theorem dac_round_trip (h : H) w channel value_mv :
  ADC_VREF_MIN_MV <= adc_vref_mv w <= ADC_VREF_MAX_MV -> 0 <= channel < DAC_CHANNEL_COUNT -> is_u16 value_mv ->
  let '(h1, w1, rc) := bridge_hw_dac_set_ h w channel value_mv in
  if vref_ok w
  then rc = BRIDGE_HW_OK /\ w1 = w /\
       (forall other, other <> dac_of channel -> dac_do h1 other = dac_do h other) /\
       forall h2, dac_do h2 (dac_of channel) = dac_do h1 (dac_of channel) ->
         let '(h3, w3, (rc, mv)) := bridge_hw_dac_get_ h2 w channel in
         rc = BRIDGE_HW_OK /\ w3 = w /\ reachable_mv w value_mv - 1 <= mv <= reachable_mv w value_mv
  else rc = BRIDGE_HW_ERR_IO /\ (forall p, dac_do h1 p = dac_do h p) /\ (bridge_hw_dac_get_ h w channel).2 = (BRIDGE_HW_ERR_IO, 0).
Proof.
  unfold ADC_VREF_MIN_MV, ADC_VREF_MAX_MV. intros Hv Hc Hm. unfold bridge_hw_dac_set_, bridge_hw_dac_get_.
  destruct (Z.leb_spec DAC_CHANNEL_COUNT channel); [lia |]. unfold vref_ready_check. destruct (vref_ok w) eqn:Ev; cbn [negb].
  - unfold DAC_BUFFERED_MAX_MV, DAC_BUFFERED_MIN_MV, DAC_FULL_SCALE. rewrite (u32_id (adc_vref_mv w - 200)) by (unfold is_u32; lia).
    rewrite (u16_id (adc_vref_mv w - 200)) by (unfold is_u16; lia).
    set (m := reachable_mv w value_mv). assert (Hb : 200 <= m <= adc_vref_mv w - 200) by (unfold m, reachable_mv; lia).
    assert (E : (if adc_vref_mv w - 200 <? (if value_mv <? 200 then 200 else value_mv) then adc_vref_mv w - 200
                 else if value_mv <? 200 then 200 else value_mv) = m).
    { unfold m, reachable_mv. destruct (Z.ltb_spec value_mv 200), (Z.ltb_spec (adc_vref_mv w - 200) (if value_mv <? 200 then 200 else value_mv));
        repeat case_match; lia. }
    rewrite E, (u32_id (m * 4095)) by (unfold is_u32; lia). destruct (dac_code_error m (adc_vref_mv w) ltac:(lia) Hb) as (B & R).
    set (code := m * 4095 / adc_vref_mv w) in *. destruct (Z.ltb_spec 4095 code); [lia |].
    rewrite (u16_id code) by (unfold is_u16; lia). split; [done |]. split; [done |]. split.
    + intros other Ho. rewrite dac_set_do by lia. by destruct (decide (dac_of channel = other)).
    + intros h2 E2. rewrite dac_set_do in E2 by lia. destruct (decide (dac_of channel = dac_of channel)); [| done].
      pose proof (dac_get_do h2 (dac_of channel)) as G. destruct (dac_output_value_get h2 (dac_of channel)) as [c h3]. cbn [fst] in G.
      rewrite G, E2, (u16_id code) by (unfold is_u16; lia). destruct (Z.ltb_spec 4095 code); [lia |].
      rewrite (u32_id (code * adc_vref_mv w)) by (unfold is_u32; nia). rewrite u16_id by (unfold is_u16; lia). done.
  - pose proof (dac_reg_keeps h vref_status) as K. destruct (hw_read h vref_status) as [v h1]. cbn [snd] in K.
    split; [done |]. split; [exact K | done].
Qed.

End dac.

(** ** Quadrature counters *)

(** Counts a timer's register holds. *)
Definition qenc_modulus (t : qenc_timer) : Z := match t with TIMER1 | TIMER4 => 0x100000000 | TIMER2 | TIMER3 => 0x10000 end.

(** What the manual promises of a decoding counter: it holds what was stored, moves
    by one per edge and wraps at its width. *)
Class QencLaws (H : Type) `{!QencHw H} := {
  qenc_edge : H -> qenc_timer -> bool -> H;
  qenc_range h t : 0 <= counter_read h t < qenc_modulus t;
  qenc_set h t v q : 0 <= v < 0x10000 -> counter_read (qenc_do h (counter_value_config t v)) q = if decide (t = q) then v else counter_read h q;
  qenc_count h t up q : counter_read (qenc_edge h t up) q =
    if decide (t = q) then (counter_read h q + (if up then 1 else -1)) mod qenc_modulus q else counter_read h q }.

Inductive qenc_event := Edge (t : qenc_timer) (up : bool) | Reset (encoder : Z).

Section qenc.
Context {H : Type} `{!QencHw H} `{!QencLaws H}.

Definition qenc_step (h : H) (e : qenc_event) : H :=
  match e with Edge t up => qenc_edge h t up | Reset encoder => (bridge_hw_qenc_reset_ h encoder).1 end.

(** Net edges of a timer since its encoder's last reset, [d] at the start. *)
Definition displace (t : qenc_timer) (d : Z) (e : qenc_event) : Z :=
  match e with
  | Edge q up => if decide (q = t) then d + (if up then 1 else -1) else d
  | Reset encoder => if (encoder <? QENC_CHANNEL_COUNT) && bool_decide (qe_timer (qenc_of encoder) = t) then 0 else d
  end.

Lemma qenc_tracks t es : forall h d, counter_read h t = d mod qenc_modulus t ->
  counter_read (foldl qenc_step h es) t = foldl (displace t) d es mod qenc_modulus t.
Proof.
  induction es as [| e es IH]; intros h d E; [done |]. cbn [foldl]. apply IH. destruct e as [q up | encoder]; cbn [qenc_step displace].
  - rewrite qenc_count. destruct (decide (q = t)) as [-> |]; [| done]. rewrite E. apply Z.add_mod_idemp_l. by destruct t.
  - unfold bridge_hw_qenc_reset_. destruct (Z.leb_spec QENC_CHANNEL_COUNT encoder), (Z.ltb_spec encoder QENC_CHANNEL_COUNT); try lia; cbn [fst andb]; [done |].
    rewrite qenc_set by lia. destruct (decide (qe_timer (qenc_of encoder) = t)) as [D | D]; [rewrite (bool_decide_eq_true_2 _ D) | by rewrite (bool_decide_eq_false_2 _ D)]. symmetry. apply Z.mod_0_l. by destruct t.
Qed.

(** An encoder reads the net edges since it was last reset.  Whatever edges and
    resets of any encoders come in between, a read answers, on all four channels,
    the signed value of the counter's width congruent to that displacement, so
    exactly the displacement while it fits 16 bits (encoders 1 and 2) or 32 bits
    (encoders 0 and 3); a count below zero is negative on both widths. *)
Theorem qenc_reads_displacement h encoder es :
  0 <= encoder < QENC_CHANNEL_COUNT ->
  let t := qe_timer (qenc_of encoder) in
  let displacement := foldl (displace t) 0 es in
  let '(rc, position) := bridge_hw_qenc_read_ (foldl qenc_step (bridge_hw_qenc_reset_ h encoder).1 es) encoder in
  rc = BRIDGE_HW_OK /\ position mod qenc_modulus t = displacement mod qenc_modulus t /\
  - (qenc_modulus t / 2) <= position < qenc_modulus t / 2 /\
  (- (qenc_modulus t / 2) <= displacement < qenc_modulus t / 2 -> position = displacement).
Proof.
  intros He t displacement. unfold bridge_hw_qenc_read_. destruct (Z.leb_spec QENC_CHANNEL_COUNT encoder); [lia |].
  assert (E : counter_read (foldl qenc_step (bridge_hw_qenc_reset_ h encoder).1 es) t = displacement mod qenc_modulus t).
  { apply qenc_tracks. unfold bridge_hw_qenc_reset_. destruct (Z.leb_spec QENC_CHANNEL_COUNT encoder); [lia |]. cbn [fst].
    rewrite qenc_set by lia. destruct (decide (_ = t)); [| done]. symmetry. apply Z.mod_0_l. by destruct t. }
  fold t. rewrite E. clear E. clearbody displacement. split; [done |].
  assert (W : qe_wide (qenc_of encoder) = true /\ qenc_modulus t = 0x100000000 \/ qe_wide (qenc_of encoder) = false /\ qenc_modulus t = 0x10000).
  { unfold t, QENC_CHANNEL_COUNT in *. assert (encoder = 0 \/ encoder = 1 \/ encoder = 2 \/ encoder = 3) as [-> | [-> | [-> | ->]]] by lia; cbn; tauto. }
  destruct W as [(-> & ->) | (-> & ->)].
  - change (displacement mod 0x100000000) with (u32 displacement). rewrite (u32_id (u32 displacement)) by apply u32_u32. rewrite s32_u32.
    split; [apply u32_s32 |]. split; [apply s32_bounds | apply s32_id].
  - assert (R : u16 (u32 (displacement mod 0x10000)) = u16 displacement).
    { change (displacement mod 0x10000) with (u16 displacement). rewrite u32_id by (pose proof (u16_u16 displacement); unfold is_u16, is_u32 in *; lia).
      apply u16_id, u16_u16. }
    rewrite R. assert (S : s16 (u16 displacement) = s16 displacement) by (unfold s16; by rewrite (u16_id (u16 displacement)) by apply u16_u16).
    rewrite S. split; [apply u16_s16 |]. split; [apply s16_bounds | apply s16_id].
Qed.

End qenc.

(** ** Transaction timing *)

(** The accumulator after [n] samples. *)
Lemma stat_samples c cs : Z.of_nat (length (c :: cs)) < 0x100000000 ->
  foldl timing_stat_add stat0 (c :: cs) =
  TimingStat (Z.of_nat (length (c :: cs))) (List.last cs c) (foldl Z.min c cs) (foldl Z.max c cs).
Proof.
  intros L. induction cs as [| x cs IH] using rev_ind; [done |].
  rewrite app_comm_cons, foldl_app, IH by (rewrite app_comm_cons, length_app in L; cbn in *; lia).
  rewrite app_comm_cons, length_app in L. cbn [foldl]. unfold timing_stat_add. cbn [ts_count ts_last ts_min ts_max].
  rewrite List.last_last, !foldl_app, length_app. cbn [foldl]. cbn [length] in *.
  destruct (Z.eqb_spec (Z.of_nat (S (length cs))) 0); [lia |]. cbn [orb]. f_equal.
  - rewrite u32_id by (unfold is_u32; lia). cbn [length]. lia.
  - destruct (Z.ltb_spec x (foldl Z.min c cs)); lia.
  - destruct (Z.ltb_spec (foldl Z.max c cs) x); lia.
Qed.

(** A transaction by its true times: the cycle counter shows each modulo its width. *)
Record transaction := Transaction { t_edge : Z; t_crc0 : Z; t_crc1 : Z; t_disp1 : Z; t_end : Z; t_cmd : Z }.
Definition in_order (t : transaction) : Prop :=
  t_edge t <= t_crc0 t <= t_crc1 t /\ t_crc1 t <= t_disp1 t <= t_end t /\ t_end t - t_edge t < 0x100000000.
Definition record_transaction (s : bridge_timing_stats) (t : transaction) : bridge_timing_stats :=
  timing_stats_record (u32 (t_edge t)) (u32 (t_crc0 t)) (u32 (t_crc1 t)) (u32 (t_disp1 t)) (u32 (t_end t)) (t_cmd t) s.

(** Each accumulator holds the count, last, least and greatest true duration of its
    stage, across wraps of the cycle counter. *)
Theorem timing_stats_true_durations t ts :
  Forall in_order (t :: ts) -> Z.of_nat (length (t :: ts)) < 0x100000000 ->
  let s := foldl record_transaction timing_stats_init (t :: ts) in
  let summary f := TimingStat (Z.of_nat (length (t :: ts))) (List.last (f <$> ts) (f t)) (foldl Z.min (f t) (f <$> ts)) (foldl Z.max (f t) (f <$> ts)) in
  ts_magic s = TIMING_STATS_MAGIC /\ req_crc s = summary (fun t => t_crc1 t - t_crc0 t) /\
  ts_dispatch s = summary (fun t => t_disp1 t - t_crc1 t) /\ reply_stage s = summary (fun t => t_end t - t_disp1 t) /\
  ts_total s = summary (fun t => t_end t - t_edge t).
Proof.
  intros F L. assert (G : forall l s, Forall in_order l -> let s' := foldl record_transaction s l in
    ts_magic s' = ts_magic s /\ req_crc s' = foldl timing_stat_add (req_crc s) ((fun t => t_crc1 t - t_crc0 t) <$> l) /\
    ts_dispatch s' = foldl timing_stat_add (ts_dispatch s) ((fun t => t_disp1 t - t_crc1 t) <$> l) /\
    reply_stage s' = foldl timing_stat_add (reply_stage s) ((fun t => t_end t - t_disp1 t) <$> l) /\
    ts_total s' = foldl timing_stat_add (ts_total s) ((fun t => t_end t - t_edge t) <$> l)).
  { clear. assert (D : forall a b, 0 <= a - b < 0x100000000 -> u32 (u32 a - u32 b) = a - b).
    { intros a b B. unfold u32. rewrite <- Zminus_mod. by apply Z.mod_small. }
    induction l as [| t l IH]; intros s Fo; [done |]. apply list.Forall_cons in Fo as ((O1 & O2 & O3) & Fo). cbn [foldl].
    specialize (IH (record_transaction s t) Fo). cbn zeta in IH |- *. destruct IH as (-> & -> & -> & -> & ->).
    unfold record_transaction, timing_stats_record. cbn [ts_magic req_crc ts_dispatch reply_stage ts_total fmap list_fmap foldl].
    rewrite !D by lia. done. }
  cbv zeta. destruct (G (t :: ts) timing_stats_init F) as (-> & -> & -> & -> & ->). clear G F.
  cbn [fmap list_fmap]. unfold timing_stats_init. cbn [ts_magic req_crc ts_dispatch reply_stage ts_total].
  assert (S : forall f : transaction -> Z, foldl timing_stat_add stat0 (f t :: (f <$> ts)) =
    TimingStat (Z.of_nat (length (t :: ts))) (List.last (f <$> ts) (f t)) (foldl Z.min (f t) (f <$> ts)) (foldl Z.max (f t) (f <$> ts))).
  { intros f. rewrite stat_samples; cbn [length]; rewrite length_fmap; [done |]. exact L. }
  split; [done |]. split; [exact (S (fun t => t_crc1 t - t_crc0 t)) |]. split; [exact (S (fun t => t_disp1 t - t_crc1 t)) |].
  split; [exact (S (fun t => t_end t - t_disp1 t)) | exact (S (fun t => t_end t - t_edge t))].
Qed.
