(* ===== verification/Init.v ===== *)
(** * Boot bring-up: [bridge_hw_init] of [hal/gd32/init.c]

    The stages in source order, over one hardware state that every component's
    operations act on. *)

From stdpp Require Import base tactics list numbers option.
From S2P Require Import Prelude BridgeHw Flash BootConfig Gpio Trng Reset DspChain Adc Drivers PwmTimer Pwm.

(** ** The calls no component owns *)

Inductive rcu_periph :=
  | RCU_SYSCFG | RCU_GPIO (p : Gpio.gpio_periph) | RCU_TMU | RCU_DAC (d : dac_periph) | RCU_VREF | RCU_ADC (p : Z) | RCU_TIMER (t : qenc_timer).

Inductive init_op :=
  | set_MSPLIM | ccr_set_stkofhfnmign | nvic_priority_group_pre2_sub2 | rcu_periph_clock_enable (p : rcu_periph)
  | vtor_write_barriers | dbg_hold_timers | SystemCoreClockUpdate
  | syscfg_nmi_sources | syscfg_cps_enable
  | dac_deinit (d : dac_periph) | dac_trigger_disable (d : dac_periph) | dac_wave_disable (d : dac_periph)
  | dac_mode_pin_buffon (d : dac_periph) | dac_enable (d : dac_periph)
  | demcr_trcena | cyccnt_clear | cyccnt_enable
  | vref_select_2_048V | vref_high_impedance_mode_disable | vref_enable
  | adc_deinit (p : Z) | adc_clock_config_div6 (p : Z)
  | irq_enable | SysTick_Config (ticks : Z) | systick_priority_lowest.

Class InitHw (H : Type) := {
  init_do : H -> init_op -> H;
  cps_rdy : H -> Z * H;            (* SYSCFG_CPSCTL.CPS_RDY *)
  system_core_clock : H -> Z }.

(** What the bring-up leaves in the firmware's statics. *)
Record init_sw := InitSw {
  i_snapshot : Z; i_clock_hz : Z; i_clock_matches : bool; gpio_compensation_ready : bool;
  i_gpio : gpio_sw; i_bcfg : bcfg; i_trng : trng_sw; i_pwm : pwm_sw; i_adc : adc_fw }.

Definition PWM_TIMER_CLK_HZ : Z := 216000000.
Definition SYSTICK_RELOAD_MAX : Z := 0xFFFFFF.

(** The pads of the converters: port and pin, A is 0. *)
Definition adc_pads : list (Gpio.gpio_periph * Z) :=
  [(Gpio.GPIOD, 9); (Gpio.GPIOB, 12); (Gpio.GPIOE, 13); (Gpio.GPIOE, 11); (Gpio.GPIOC, 4); (Gpio.GPIOA, 5); (Gpio.GPIOA, 2); (Gpio.GPIOA, 3)].

(** Ports by letter in the encoder table, and of the PWM pads. *)
Definition port_at (n : Z) : Gpio.gpio_periph := default Gpio.GPIOF (gpio_mapped_ports !! Z.to_nat n).
Definition pwm_port (p : PwmTimer.gpio_port) : Gpio.gpio_periph :=
  match p with PwmTimer.GPIOA => Gpio.GPIOA | PwmTimer.GPIOB => Gpio.GPIOB | PwmTimer.GPIOC => Gpio.GPIOC | PwmTimer.GPIOD => Gpio.GPIOD end.

Section init.
Context {H : Type} `{!InitHw H} `{!GpioHw H} `{!TrngHw H} `{!AdcHw H} `{!QencHw H} `{!TimerHw H}.

Definition init_dos (h : H) (ops : list init_op) : H := foldl init_do h ops.

(** The stack guards; the reset cause follows, [reset_snapshot] on the backup
    registers. *)
Definition init_guards (h : H) : H := init_dos h [set_MSPLIM; ccr_set_stkofhfnmign].

(** Priorities, clock of SYSCFG, vectors (the slot build's), debug holds. *)
Definition init_core (h : H) : H :=
  init_dos h [nvic_priority_group_pre2_sub2; rcu_periph_clock_enable RCU_SYSCFG; vtor_write_barriers; dbg_hold_timers].

(** The secure element's line, ahead of every other peripheral. *)
Definition init_se (h : H) (w : gpio_sw) : H * gpio_sw :=
  se_reset_init (init_do h (rcu_periph_clock_enable (RCU_GPIO Gpio.GPIOC))) w.

(** [while (spins++ < 200000u) if (CPS_RDY) ...]. *)
Fixpoint cps_wait (spins : nat) (h : H) : bool * H :=
  match spins with
  | O => (false, h)
  | S spins => let '(v, h) := cps_rdy h in if negb (v =? 0) then (true, h) else cps_wait spins h
  end.

Definition init_clock_sample (h : H) : Z * bool * H :=
  let h := init_do h SystemCoreClockUpdate in
  let hz := u32 (system_core_clock h) in (hz, hz =? PWM_TIMER_CLK_HZ, h).

Definition init_syscfg (h : H) : bool * H :=
  cps_wait (Z.to_nat 200000) (init_dos h [syscfg_nmi_sources; syscfg_cps_enable]).

(** The port clocks, the parked pads, and the pad a stored flag drives. *)
Definition init_pads `{FlashHal F} (f : F) (h : H) (w : gpio_sw) (c : bcfg) : H * gpio_sw * bcfg :=
  let h := init_dos h ((fun p => rcu_periph_clock_enable (RCU_GPIO p)) <$> gpio_mapped_ports) in
  let '(h, w) := pads_boot h w in
  let c := boot_config_load f c in
  if negb (Z.land (s_stored c) BOOT_CONFIG_FLAG_SDMUX_EN_HIGH =? 0)
  then let '(h, w, _) := bridge_hw_gpio_write_ h w BOOT_CONFIG_SDMUX_EN_PAD_MASK BOOT_CONFIG_SDMUX_EN_PAD_MASK in (h, w, c)
  else (h, w, c).

Definition init_dac (h : H) : H :=
  let h := gpio_do h (gpio_mode_set Gpio.GPIOA GPIO_MODE_ANALOG (Z.lor (GPIO_PIN 4) (GPIO_PIN 6))) in
  let h := init_dos h [rcu_periph_clock_enable (RCU_DAC DAC0); rcu_periph_clock_enable (RCU_DAC DAC1)] in
  foldl (fun h d => init_dos h [dac_deinit d; dac_trigger_disable d; dac_wave_disable d; dac_mode_pin_buffon d; dac_enable d]) h dac_channels.

Definition init_counter (h : H) : H := init_dos h [demcr_trcena; cyccnt_clear; cyccnt_enable].

(** The reference buffer: at most 100000 looks, then the one that is latched. *)
Definition init_vref (h : H) : bool * H :=
  let h := init_dos h [rcu_periph_clock_enable RCU_VREF; vref_select_2_048V; vref_high_impedance_mode_disable; vref_enable] in
  let '(_, h) := poll (Z.to_nat 100000) true vref_status h in
  let '(v, h) := hw_read h vref_status in (negb (v =? 0), h).

Definition adc_periph_boot_reset_all (h : H) : H := init_dos h [adc_deinit 0; adc_deinit 1; adc_deinit 2; adc_deinit 3].
Definition adc_shared_clock_init (h : H) : H := init_dos h [adc_clock_config_div6 0; adc_clock_config_div6 3].

(** The converters; the reference is measured when its buffer locked. *)
Definition init_adc (vref_ok : bool) (streams : list adc_stream_state) (h : H) : H * adc_fw :=
  let h := foldl gpio_do h ((fun x : Gpio.gpio_periph * Z => gpio_mode_set x.1 GPIO_MODE_ANALOG (GPIO_PIN x.2)) <$> adc_pads) in
  let h := init_dos h [rcu_periph_clock_enable (RCU_ADC 0); rcu_periph_clock_enable (RCU_ADC 1);
                       rcu_periph_clock_enable (RCU_ADC 2); rcu_periph_clock_enable (RCU_ADC 3)] in
  let h := adc_shared_clock_init (adc_periph_boot_reset_all h) in
  let h := foldl (fun h p => (adc_periph_boot_init h p).2) h [0; 1; 2; 3] in
  let w := set_formats (replicate 8 0) (replicate 8 0) (replicate 8 0) (adc_fw0 streams) in
  let w := set_vref vref_ok false w in
  let '(h, w) := if vref_ok then let '(_, h, w) := adc_vref_measure h w in (h, w) else (h, w) in
  (h, set_formats (replicate 8 ADC_DEFAULT_SAMPLE_CYCLES) (replicate 8 ADC_RES_BITS_DEFAULT) (replicate 8 1) w).

Definition init_qenc (h : H) : H :=
  let h := init_dos h [rcu_periph_clock_enable (RCU_TIMER TIMER1); rcu_periph_clock_enable (RCU_TIMER TIMER2);
                       rcu_periph_clock_enable (RCU_TIMER TIMER3); rcu_periph_clock_enable (RCU_TIMER TIMER4)] in
  foldl qenc_channel_init h qenc_map.

(** 50 ms of the sampled clock, clamped to the 24-bit field. *)
Definition systick_ticks (clock : Z) : Z :=
  let reload := u32 (clock / 20 - 1) in
  let reload := if SYSTICK_RELOAD_MAX <? reload then SYSTICK_RELOAD_MAX else reload in
  u32 (reload + 1).

(** The last register writes: interrupts are live from here. *)
Definition init_live (clock : Z) (h : H) : H :=
  init_dos h [irq_enable; SysTick_Config (systick_ticks clock); systick_priority_lowest].

Definition bridge_hw_init `{FlashHal F} (f : F) (chip0 : chip) (streams : list adc_stream_state) (h : H) : H * chip * init_sw :=
  let falses := replicate GPIO_PAD_MAP_COUNT false in
  let h := init_guards h in
  let '(snapshot, chip1) := reset_snapshot chip0 in
  let h := init_core h in
  let '(h, gw) := init_se h (GpioSw falses falses false) in
  let '(clock, matches, h) := init_clock_sample h in
  let '(ready, h) := init_syscfg h in
  let '(h, gw, c) := init_pads f h gw (Bcfg 0 false 0) in
  let '(h, tw) := trng_boot h in
  let h := init_do h (rcu_periph_clock_enable RCU_TMU) in
  let h := init_counter (init_dac h) in
  let '(h, pw) := pwm_bring_up h pwm_sw0 in
  let '(vref_ok, h) := init_vref h in
  let '(h, aw) := init_adc vref_ok streams h in
  let h := init_live clock (init_qenc h) in
  (h, chip1, InitSw snapshot clock matches ready gw c tw pw aw).

End init.
