(* ===== verification/InitStages.v ===== *)
(** * What the loops of the bring-up preserve

    A preorder on hardware states that each call and each read of a component
    respects is respected by the component's waits and measurements, whatever the
    hardware answers.  [InitSafety] takes for it the clocks a log needs, [Board] the
    pins a call leaves alone. *)

From stdpp Require Import base tactics list numbers option relations.
From S2P Require Import Prelude BridgeHw Gpio Trng DspChain Adc Drivers PwmTimer Pwm Init.

Section rel.
Context {H : Type} (R : relation H) `{!PreOrder R}.

Lemma rel_foldl {A} (f : H -> A -> H) l : (forall h a, a ∈ l -> R h (f h a)) -> forall h, R h (foldl f h l).
Proof.
  induction l as [| a l IH]; intros F h; cbn [foldl]; [done |]. etrans; [apply F, list_elem_of_here |].
  apply IH. intros g b Hb. by apply F, list_elem_of_further.
Qed.

(** ** The generator *)

Section trng.
Context `{!TrngHw H}.

Lemma rel_flag_poll r n : (forall h, R h (trng_reg_read h r).2) -> forall h, R h (flag_poll r n h).2.
Proof.
  intros Hr. induction n as [| n IH]; intros h; cbn [flag_poll]; [done |].
  specialize (Hr h). destruct (trng_reg_read h r) as [v g]. destruct (v =? FLAG_SET); [done |]. by etrans.
Qed.

Hypothesis R_read : forall r h, R h (trng_reg_read h r).2.
Hypothesis R_do : forall op h, R h (trng_do h op).

Lemma rel_any_set rs : forall h, R h (any_set rs h).2.
Proof.
  induction rs as [| r rs IH]; intros h; cbn [any_set]; [done |]. pose proof (R_read r h) as T.
  destruct (trng_reg_read h r) as [v g]. destruct (v =? FLAG_SET); [done |]. by etrans.
Qed.

Lemma rel_faulted h : R h (trng_faulted h).2.
Proof.
  unfold trng_faulted. pose proof (R_read TRNG_STAT_ERRSTA h) as T. destruct (trng_reg_read h TRNG_STAT_ERRSTA) as [v g].
  destruct (negb _); [done |]. etrans; [exact T | apply rel_any_set].
Qed.

Lemma rel_demote h w : R h (trng_demote h w).1.
Proof. apply R_do. Qed.

Lemma rel_poll_ready h w : R h (trng_poll_ready h w).1.2.
Proof.
  unfold trng_poll_ready. pose proof (rel_faulted h) as T1. destruct (trng_faulted h) as [bad h1]. cbn [snd] in T1.
  destruct bad. { pose proof (rel_demote h1 w) as D. destruct (trng_demote h1 w). by etrans. }
  pose proof (rel_flag_poll flag_drdy TRNG_READY_TIMEOUT (R_read _) h1) as T2. destruct (flag_poll _ _ h1) as [ready h2]. cbn [snd] in T2.
  assert (T : R h h2) by by etrans. clear T1 T2.
  assert (T3 : R h (if negb ready then (true, h2) else trng_faulted h2).2).
  { destruct ready; cbn [negb]; [| done]. etrans; [exact T | apply rel_faulted]. }
  destruct (if negb ready then (true, h2) else trng_faulted h2) as [bad h3]. cbn [snd] in T3. destruct bad.
  - pose proof (rel_faulted h3) as T4. destruct (trng_faulted h3) as [bad h4]. cbn [snd] in T4. assert (T5 : R h h4) by by etrans.
    destruct bad; [| exact T5]. pose proof (rel_demote h4 w) as D. destruct (trng_demote h4 w). by etrans.
  - pose proof (R_read TRNG_DATA h3) as T4. destruct (trng_reg_read h3 TRNG_DATA) as [v h4]. by etrans.
Qed.

Lemma rel_grace n : forall h w, R h (trng_grace n h w).1.
Proof.
  induction n as [| n IH]; intros h w; cbn [trng_grace]; [done |]. destruct (_ && _); [| done].
  pose proof (rel_poll_ready h w) as T. destruct (trng_poll_ready h w) as [[b g] w']. etrans; [exact T | apply IH].
Qed.

Lemma rel_trng_boot h : R h (trng_boot h).1.
Proof.
  unfold trng_boot, trng_start. pose proof (rel_flag_poll rcu_pllstb_flag TRNG_INIT_TIMEOUT (R_read _) h) as T.
  destruct (flag_poll _ _ h) as [locked h1]. cbn [snd] in T. destruct locked; cbn [negb set_started trng_started]; [| exact T].
  etrans; [exact T |]. etrans; [| apply rel_grace]. unfold trng_dos. apply rel_foldl. auto.
Qed.
End trng.

(** ** The converters *)

Section adc.
Context `{!AdcHw H}.

Lemma rel_poll n want r : (forall h, R h (hw_read h r).2) -> forall h, R h (poll n want r h).2.
Proof.
  intros Hr. induction n as [| n IH]; intros h; cbn [poll]; [done |]. specialize (Hr h). destruct (hw_read h r) as [v g].
  destruct (Bool.eqb _ _); [done |]. by etrans.
Qed.

(** The calls and the registers of converter [p]. *)
Definition adc_op_of (p : Z) (op : adc_op) : Prop :=
  match op with
  | adc_disable q | adc_enable q | adc_resolution_config q _ | adc_oversample_mode_config q _ _
  | adc_oversample_mode_enable q | adc_oversample_mode_disable q | adc_routine_channel_config q _ _ _
  | adc_data_alignment_right q | adc_channel_length_config q _ | adc_external_trigger_config q _
  | adc_software_trigger_enable q | adc_flag_clear_eoc q | adc_ctl1_set_rstclb q | adc_ctl1_set_clb q => q = p
  | adc_internal_channel_config _ => p = 0
  | dwell _ => True
  | _ => False
  end.
Definition adc_reg_of (p : Z) (r : adc_reg) : Prop :=
  match r with reg_rstclb q | reg_clb q | flag_eoc q | adc_routine_data q => q = p | _ => False end.

Variable p : Z.
Hypothesis R_read : forall r h, adc_reg_of p r -> R h (hw_read h r).2.
Hypothesis R_do : forall op h, adc_op_of p op -> R h (hw_do h op).

Lemma rel_hw_dos ops h : Forall (adc_op_of p) ops -> R h (hw_dos h ops).
Proof. intros F. apply rel_foldl. intros g op Hop. rewrite Forall_forall in F. by apply R_do, F. Qed.

Lemma rel_calibrate h : R h (adc_calibrate_bounded h p).2.
Proof.
  unfold adc_calibrate_bounded. etrans; [by apply (R_do (adc_ctl1_set_rstclb p)) |].
  pose proof (rel_poll (Z.to_nat 100000) false (reg_rstclb p) (fun h => R_read (reg_rstclb p) h eq_refl) (hw_do h (adc_ctl1_set_rstclb p))) as T1.
  destruct (poll _ _ (reg_rstclb p) _) as [ok g]. cbn [snd] in T1. destruct ok; cbn [negb]; [| exact T1].
  etrans; [exact T1 |]. etrans; [by apply (R_do (adc_ctl1_set_clb p)) |]. apply rel_poll. intros h'. by apply R_read.
Qed.

Lemma rel_boot_init h : R h (adc_periph_boot_init h p).2.
Proof. unfold adc_periph_boot_init. etrans; [| apply rel_calibrate]. apply rel_hw_dos. by repeat constructor. Qed.
End adc.

Section vref.
Context `{!AdcHw H}.
Hypothesis R_read : forall r h, adc_reg_of 0 r -> R h (hw_read h r).2.
Hypothesis R_do : forall op h, adc_op_of 0 op -> R h (hw_do h op).

Lemma rel_vref_samples n : forall sum h, R h (vref_samples n sum h).2.
Proof.
  induction n as [| n IH]; intros sum h; cbn [vref_samples]; [done |]. etrans; [by apply (R_do (adc_software_trigger_enable 0)) |].
  pose proof (rel_poll (Z.to_nat 100000) true (flag_eoc 0) (fun h => R_read (flag_eoc 0) h eq_refl) (hw_do h (adc_software_trigger_enable 0))) as T1.
  destruct (poll _ _ (flag_eoc 0) _) as [ok g]. cbn [snd] in T1. destruct ok; cbn [negb]; [| exact T1].
  etrans; [exact T1 |]. etrans; [by apply (R_do (adc_flag_clear_eoc 0)) |].
  pose proof (R_read (adc_routine_data 0) (hw_do g (adc_flag_clear_eoc 0)) eq_refl) as T2.
  destruct (hw_read (hw_do g (adc_flag_clear_eoc 0)) (adc_routine_data 0)) as [v g']. etrans; [exact T2 | apply IH].
Qed.

Lemma rel_vref_measure h w : R h (adc_vref_measure h w).1.2.
Proof.
  unfold adc_vref_measure. set (g := hw_dos h _). assert (T0 : R h g) by (by apply (rel_hw_dos 0 R_do); repeat constructor).
  pose proof (rel_calibrate 0 R_read R_do g) as T1. destruct (adc_calibrate_bounded g 0) as [cal g']. cbn [snd] in T1. assert (T : R h g') by by etrans.
  destruct cal; cbn [negb]; [| etrans; [exact T | by apply R_do]].
  pose proof (rel_vref_samples 16 0 (hw_do g' (adc_flag_clear_eoc 0))) as T3.
  destruct (vref_samples 16 0 _) as [sum h']. cbn [snd] in T3.
  assert (T4 : R h (hw_do h' (adc_internal_channel_config false))).
  { etrans; [exact T |]. etrans; [by apply (R_do (adc_flag_clear_eoc 0)) |]. etrans; [exact T3 |]. by apply R_do. }
  by destruct sum.
Qed.
End vref.

(** ** The rest *)

Lemma rel_cps `{!InitHw H} n : (forall h, R h (cps_rdy h).2) -> forall h, R h (cps_wait n h).2.
Proof.
  intros Hr. induction n as [| n IH]; intros h; cbn [cps_wait]; [done |]. specialize (Hr h). destruct (cps_rdy h) as [v g].
  destruct (negb _); [done |]. by etrans.
Qed.

Lemma rel_tims `{!TimerHw H} p ops : (forall op h, R h (tim_do h (on_timer p op))) -> forall h, R h (tims h p ops).
Proof. intros F. apply rel_foldl. auto. Qed.

Lemma rel_channels `{!TimerHw H} l : (forall p op h, R h (tim_do h (on_timer p op))) ->
  forall h w, R h (foldl (fun '(h, w) c => pwm_channel_init h w (Z.of_nat c)) (h, w) l).1.
Proof.
  intros F. induction l as [| c l IH]; intros h w; cbn [foldl]; [done |].
  assert (T : R h (pwm_channel_init h w (Z.of_nat c)).1) by (unfold pwm_channel_init; cbv zeta; cbn [fst]; by apply rel_tims).
  destruct (pwm_channel_init h w (Z.of_nat c)) as [g w']. by etrans.
Qed.

End rel.
