(* ===== verification/InitSafety.v ===== *)
(** * What the bring-up guarantees

    On hardware that logs every call and answer: no call reaches a block whose clock
    is off, the secure element's line is driven before anything is waited for, and
    interrupts come last. *)

From stdpp Require Import base tactics list numbers option sets.
From S2P Require Import Prelude BridgeHw Flash BootConfig Gpio Trng Reset DspChain Adc Drivers PwmTimer Pwm Init InitStages.

(** ** Logged hardware *)

Inductive init_event :=
  | EvInit (op : init_op) | EvCps (v : Z) | EvGpio (op : gpio_op) | EvGpioGet (p : Gpio.gpio_periph) (v : Z)
  | EvTrng (op : trng_op) | EvTrngAns (r : trng_reg) (v : Z) | EvAdc (op : adc_op) | EvAdcAns (r : adc_reg) (v : Z)
  | EvQenc (op : qenc_op) | EvTim (op : pwm_op) | EvTimAns (r : pwm_reg) (v : Z).

Definition logged (H : Type) : Type := H * list init_event.

#[export] Instance logged_init H `{!InitHw H} : InitHw (logged H) := {
  init_do x op := (init_do x.1 op, x.2 ++ [EvInit op]);
  cps_rdy x := let '(v, h) := cps_rdy x.1 in (v, (h, x.2 ++ [EvCps v]));
  system_core_clock x := system_core_clock x.1 }.
#[export] Instance logged_gpio H `{!GpioHw H} : GpioHw (logged H) := {
  gpio_do x op := (gpio_do x.1 op, x.2 ++ [EvGpio op]);
  gpio_input_port_get x p := let '(v, h) := gpio_input_port_get x.1 p in (v, (h, x.2 ++ [EvGpioGet p v])) }.
#[export] Instance logged_trng H `{!TrngHw H} : TrngHw (logged H) := {
  trng_do x op := (trng_do x.1 op, x.2 ++ [EvTrng op]);
  trng_reg_read x r := let '(v, h) := trng_reg_read x.1 r in (v, (h, x.2 ++ [EvTrngAns r v])) }.
#[export] Instance logged_adc H `{!AdcHw H} : AdcHw (logged H) := {
  hw_do x op := (hw_do x.1 op, x.2 ++ [EvAdc op]);
  hw_read x r := let '(v, h) := hw_read x.1 r in (v, (h, x.2 ++ [EvAdcAns r v])) }.
#[export] Instance logged_qenc H `{!QencHw H} : QencHw (logged H) := {
  qenc_do x op := (qenc_do x.1 op, x.2 ++ [EvQenc op]);
  chctl0_read x := chctl0_read x.1;
  counter_read x := counter_read x.1 }.
#[export] Instance logged_timer H `{!TimerHw H} : TimerHw (logged H) := {
  tim_do x op := (tim_do x.1 op, x.2 ++ [EvTim op]);
  tim_read x r := let '(v, h) := tim_read x.1 r in (v, (h, x.2 ++ [EvTimAns r v]));
  cam_code := cam_code (H := H) }.

(** ** Clocks *)

(** The gated blocks; [CkOther] is never on during the bring-up. *)
Inductive clk :=
  | CkSyscfg | CkGpio (p : Gpio.gpio_periph) | CkTrng | CkTmu | CkDac (d : dac_periph) | CkVref | CkAdc (p : Z)
  | CkTimer (t : qenc_timer) | CkPwm (t : timer_id) | CkOther.

Definition clk_of_rcu (p : rcu_periph) : clk :=
  match p with
  | RCU_SYSCFG => CkSyscfg | RCU_GPIO p => CkGpio p | RCU_TMU => CkTmu | RCU_DAC d => CkDac d | RCU_VREF => CkVref
  | RCU_ADC p => CkAdc p | RCU_TIMER t => CkTimer t
  end.

(** The blocks a call turns on. *)
Definition gives (e : init_event) : list clk :=
  match e with
  | EvInit (rcu_periph_clock_enable p) => [clk_of_rcu p]
  | EvTrng rcu_trng_enable => [CkTrng]
  | EvTim (rcu_timer_enable t) => [CkPwm t]
  | _ => []
  end.

Definition port_of (op : gpio_op) : Gpio.gpio_periph :=
  match op with
  | gpio_mode_set p _ _ | gpio_output_options_set p _ | GPIO_BOP p _ | gpio_bit_set p _ | gpio_bit_reset p _ => p
  end.
(** The blocks whose registers a call or read touches. *)
Definition needs (e : init_event) : list clk :=
  match e with
  | EvInit op =>
      match op with
      | syscfg_nmi_sources | syscfg_cps_enable => [CkSyscfg]
      | dac_deinit d | dac_trigger_disable d | dac_wave_disable d | dac_mode_pin_buffon d | dac_enable d => [CkDac d]
      | vref_select_2_048V | vref_high_impedance_mode_disable | vref_enable => [CkVref]
      | Init.adc_deinit p | adc_clock_config_div6 p => [CkAdc p]
      | _ => []
      end
  | EvCps _ => [CkSyscfg]
  | EvGpio op => [CkGpio (port_of op)]
  | EvGpioGet p _ => [CkGpio p]
  | EvTrng (trng_src_pllq_div2 | rcu_trng_enable) => []
  | EvTrng _ => [CkTrng]
  | EvTrngAns rcu_pllstb_flag _ => []
  | EvTrngAns _ _ => [CkTrng]
  | EvAdc op =>
      match op with
      | adc_disable p | adc_enable p | adc_resolution_config p _ | adc_oversample_mode_config p _ _
      | adc_oversample_mode_enable p | adc_oversample_mode_disable p | adc_routine_channel_config p _ _ _
      | adc_data_alignment_right p | adc_channel_length_config p _ | adc_external_trigger_config p _
      | adc_software_trigger_enable p | adc_flag_clear_eoc p | adc_ctl1_set_rstclb p | adc_ctl1_set_clb p => [CkAdc p]
      | adc_internal_channel_config _ => [CkAdc 0]
      | dwell _ => []
      | _ => [CkOther]
      end
  | EvAdcAns r _ =>
      match r with
      | reg_rstclb p | reg_clb p | flag_eoc p | adc_routine_data p => [CkAdc p]
      | vref_status => [CkVref]
      | _ => [CkOther]
      end
  | EvQenc op =>
      match op with
      | qenc_gpio_af_pullup port _ | qenc_gpio_af_set port _ _ => [CkGpio (port_at port)]
      | quadrature_decoder_mode2 t => [CkTimer t; CkSyscfg]
      | qenc_timer_deinit t | qenc_timer_init t _ _ | chctl0_write t _ | qenc_timer_enable t
      | counter_value_config t _ => [CkTimer t]
      end
  | EvTim op =>
      match op with
      | on_timer t _ => [CkPwm t]
      | rcu_timer_enable _ => []
      | gpio_mode_af port _ _ | gpio_output_options_pp port _ | gpio_af_set port _ _ => [CkGpio (pwm_port port)]
      end
  | EvTimAns (TIMER_CTL0 t | TIMER_CAR t | capture_value t _ | timer_flag_get t _) _ => [CkPwm t]
  end.

(** From the clocks [on], every event of the log finds its blocks on. *)
Fixpoint clocked (on : list clk) (log : list init_event) : Prop :=
  match log with
  | [] => True
  | e :: log => needs e ⊆ on /\ clocked (gives e ++ on) log
  end.

Definition ports_clk : list clk := CkGpio <$> gpio_mapped_ports.

(** ** Segments of the log *)

Lemma sub_nil (C : list clk) : [] ⊆ C.
Proof. intros k Hk. by apply not_elem_of_nil in Hk. Qed.
Lemma sub_one k (C : list clk) : k ∈ C -> [k] ⊆ C.
Proof. intros Hk k' ->%list_elem_of_singleton. done. Qed.
Lemma sub_cons_in k k' (C : list clk) : k ∈ C -> k' ∈ C -> [k; k'] ⊆ C.
Proof. intros Hk Hk' j. rewrite elem_of_cons, list_elem_of_singleton. by intros [-> | ->]. Qed.
Lemma sub_app_r (C l : list clk) : C ⊆ l ++ C.
Proof. intros k Hk. rewrite elem_of_app. by right. Qed.
Lemma sub_cons k (C l : list clk) : C ⊆ l -> C ⊆ k :: l.
Proof. intros S k' Hk. apply list_elem_of_further. by apply S. Qed.
Lemma sub_app_mono (l C C' : list clk) : C ⊆ C' -> l ++ C ⊆ l ++ C'.
Proof. intros S k. rewrite !elem_of_app. intros [Hk | Hk]; [by left | right; by apply S]. Qed.

(** Membership in, and inclusion into, a list known up to its tail. *)
Ltac mem := cbn; repeat first [assumption | apply list_elem_of_here | apply list_elem_of_further].
Ltac sub := cbn; repeat first [apply sub_nil | apply sub_one; mem | reflexivity | assumption | apply sub_app_r | apply sub_cons].

Lemma clocked_app on l1 l2 : clocked on (l1 ++ l2) <-> clocked on l1 /\ clocked (foldl (fun on e => gives e ++ on) on l1) l2.
Proof.
  revert on. induction l1 as [| e l1 IH]; intros on; cbn; [tauto |]. rewrite IH. tauto.
Qed.

Lemma clocked_mono on on' l : on ⊆ on' -> clocked on l -> clocked on' l.
Proof.
  revert on on'. induction l as [| e l IH]; intros on on' S; cbn; [done |]. intros (N & C). split; [by etrans |].
  apply (IH (gives e ++ on)); [by apply sub_app_mono | done].
Qed.

Section segments.
Context {B : Type}.
Implicit Types x y z : logged B.

(** [y] is reached from [x] with the clocks [C] on, leaves [C'] on and interrupts masked. *)
Definition seg (C C' : list clk) x y : Prop := exists l, y.2 = x.2 ++ l /\ clocked C l /\
  (EvInit irq_enable ∉ l) /\ C' ⊆ foldl (fun on e => gives e ++ on) C l.

(** Only blocks of [C] are touched. *)
Definition touches (C : list clk) x y : Prop := exists l, y.2 = x.2 ++ l /\ Forall (fun e => needs e ⊆ C /\ e <> EvInit irq_enable) l.

Lemma gives_grow C l : C ⊆ foldl (fun on e => gives e ++ on) C l.
Proof. revert C. induction l as [| e l IH]; intros C; cbn; [done |]. etrans; [| apply IH]. apply sub_app_r. Qed.

Lemma gives_mono C C' l : C ⊆ C' -> foldl (fun on e => gives e ++ on) C l ⊆ foldl (fun on e => gives e ++ on) C' l.
Proof. revert C C'. induction l as [| e l IH]; intros C C' S; cbn; [done |]. apply IH. by apply sub_app_mono. Qed.

Lemma touches_seg C x y : touches C x y -> seg C C x y.
Proof.
  intros (l & E & F). exists l. split; [done |]. split; [| split; [| apply gives_grow]].
  - assert (K : forall C', C ⊆ C' -> clocked C' l); [| by apply K].
    clear E. induction l as [| e l IH]; intros C' S; cbn; [done |].
    apply list.Forall_cons in F as ((F1 & _) & F). split; [by etrans |]. apply IH; [done |]. etrans; [exact S | apply sub_app_r].
  - intros Hin. rewrite Forall_forall in F. by destruct (F _ Hin).
Qed.

Lemma seg_trans C1 C2 C3 x y z : seg C1 C2 x y -> seg C2 C3 y z -> seg C1 C3 x z.
Proof.
  intros (l1 & E1 & K1 & I1 & G1) (l2 & E2 & K2 & I2 & G2). exists (l1 ++ l2). rewrite E2, E1, app_assoc. split; [done |].
  split; [apply clocked_app; split; [done | by eapply clocked_mono] |]. split; [rewrite not_elem_of_app; done |].
  rewrite foldl_app. etrans; [exact G2 | by apply gives_mono].
Qed.

Lemma seg_weaken C1 C1' C2 C2' x y : C1 ⊆ C1' -> C2' ⊆ C2 -> seg C1 C2 x y -> seg C1' C2' x y.
Proof.
  intros S1 S2 (l & E & K & I & G). exists l. split; [done |]. split; [by eapply clocked_mono |]. split; [done |].
  etrans; [exact S2 |]. etrans; [exact G | by apply gives_mono].
Qed.

Lemma touches_refl C x : touches C x x.
Proof. exists []. by rewrite app_nil_r. Qed.

Lemma touches_trans C x y z : touches C x y -> touches C y z -> touches C x z.
Proof. intros (l1 & E1 & F1) (l2 & E2 & F2). exists (l1 ++ l2). rewrite E2, E1, app_assoc. split; [done | by apply Forall_app]. Qed.

Lemma touches_one C x y e : y.2 = x.2 ++ [e] -> needs e ⊆ C -> e <> EvInit irq_enable -> touches C x y.
Proof. intros E N I. exists [e]. split; [done |]. by apply list.Forall_cons. Qed.

#[global] Instance touches_preorder C : PreOrder (touches C).
Proof. split; [intros x; apply touches_refl | intros x y z; apply touches_trans]. Qed.

End segments.

(** ** The stages *)

Section stages.
Context {B : Type} `{!InitHw B} `{!GpioHw B} `{!TrngHw B} `{!AdcHw B} `{!QencHw B} `{!TimerHw B}.
Implicit Types x y z : logged B.

Lemma init_do_dos x op : init_do x op = init_dos x [op].
Proof. reflexivity. Qed.

Lemma init_dos_log ops x : (init_dos x ops).2 = x.2 ++ (EvInit <$> ops).
Proof.
  unfold init_dos. revert x. induction ops as [| op ops IH]; intros x; cbn [foldl]; [by rewrite app_nil_r |].
  rewrite IH. cbn. by rewrite <- app_assoc.
Qed.

Lemma seg_init_dos C C' ops x : clocked C (EvInit <$> ops) -> irq_enable ∉ ops ->
  C' ⊆ foldl (fun on e => gives e ++ on) C (EvInit <$> ops) -> seg C C' x (init_dos x ops).
Proof.
  intros K I G. exists (EvInit <$> ops). split; [apply init_dos_log |]. split; [done |]. split; [| done].
  rewrite list_elem_of_fmap. intros (op & E & Hin). injection E as <-. done.
Qed.

Lemma gpio_dos_log ops x : (gpio_dos x ops).2 = x.2 ++ (EvGpio <$> ops).
Proof.
  unfold gpio_dos. revert x. induction ops as [| op ops IH]; intros x; cbn [foldl]; [by rewrite app_nil_r |].
  rewrite IH. cbn. by rewrite <- app_assoc.
Qed.

Lemma ports_all p : CkGpio p ∈ ports_clk.
Proof. unfold ports_clk. apply list_elem_of_fmap. exists p. split; [done |]. destruct p; mem. Qed.

Lemma touches_gpio C ops x : Forall (fun op => CkGpio (port_of op) ∈ C) ops -> touches C x (gpio_dos x ops).
Proof.
  intros F. exists (EvGpio <$> ops). split; [apply gpio_dos_log |]. apply Forall_fmap. eapply Forall_impl; [exact F |].
  intros op Hop. cbn. split; [by apply sub_one | done].
Qed.

Lemma touches_ports C ops x : ports_clk ⊆ C -> touches C x (gpio_dos x ops).
Proof. intros S. apply touches_gpio, Forall_true. intros op. apply S, ports_all. Qed.

(** What the waits need of each read and call. *)
Lemma touches_read C r x : CkTrng ∈ C \/ r = rcu_pllstb_flag -> touches C x (trng_reg_read x r).2.
Proof.
  intros Hr. cbn. destruct (trng_reg_read x.1 r) as [u h']. apply (touches_one C x _ (EvTrngAns r u)); [done | | done].
  destruct Hr as [Hr | ->]; [| apply sub_nil]. destruct r; sub.
Qed.

Lemma touches_trng_op C op x : CkTrng ∈ C -> touches C x (trng_do x op).
Proof. intros Hc. apply (touches_one C x _ (EvTrng op)); [done | destruct op; sub | done]. Qed.

Lemma trng_dos_log ops x : (trng_dos x ops).2 = x.2 ++ (EvTrng <$> ops).
Proof.
  unfold trng_dos. revert x. induction ops as [| op ops IH]; intros x; cbn [foldl]; [by rewrite app_nil_r |].
  rewrite IH. cbn. by rewrite <- app_assoc.
Qed.

(** The generator turns its own clock on, after the PLL locked. *)
Lemma seg_trng_boot C x : seg C C x (trng_boot x).1.
Proof.
  unfold trng_boot, trng_start. pose proof (rel_flag_poll (touches C) rcu_pllstb_flag TRNG_INIT_TIMEOUT (fun y => touches_read C _ y (or_intror eq_refl)) x) as T.
  destruct (flag_poll _ _ x) as [locked x1]. cbn [snd] in T. apply touches_seg in T.
  destruct locked; cbn [negb set_started trng_started]; [| exact T]. apply (seg_trans C C C x x1 _ T).
  set (x2 := trng_dos x1 _). assert (S : seg C (CkTrng :: C) x1 x2).
  { eexists. split; [apply trng_dos_log |]. split; [| split].
    - cbn. repeat (split; [sub |]). done.
    - cbn. rewrite !not_elem_of_cons. repeat (split; [done |]). apply not_elem_of_nil.
    - cbn. reflexivity. }
  apply (seg_trans C (CkTrng :: C) C x1 x2 _ S). apply (seg_weaken (CkTrng :: C) (CkTrng :: C) (CkTrng :: C)); [done | apply (sub_app_r C [CkTrng]) |].
  apply touches_seg, rel_grace; [apply _ | intros r y; apply touches_read; left; mem | intros op y; apply touches_trng_op; mem].
Qed.

(** ** The generic shapes of a stage *)

(** Calls of a kind, each logged as itself. *)
Lemma touches_calls {O} C (f : logged B -> O -> logged B) (ev : O -> init_event) ops x :
  (forall y op, (f y op).2 = y.2 ++ [ev op]) -> (forall op, ev op <> EvInit irq_enable) ->
  Forall (fun op => needs (ev op) ⊆ C) ops -> touches C x (foldl f x ops).
Proof.
  intros L I F. apply (rel_foldl (touches C)). intros y op Hop. rewrite Forall_forall in F. apply (touches_one C y _ (ev op)); [apply L | by apply F | apply I].
Qed.

Lemma touches_adc_ops C ops x : Forall (fun op => needs (EvAdc op) ⊆ C) ops -> touches C x (hw_dos x ops).
Proof. by apply (touches_calls C hw_do EvAdc). Qed.
Lemma touches_qenc_ops C ops x : Forall (fun op => needs (EvQenc op) ⊆ C) ops -> touches C x (foldl qenc_do x ops).
Proof. by apply (touches_calls C qenc_do EvQenc). Qed.
Lemma touches_tim_ops C ops x : Forall (fun op => needs (EvTim op) ⊆ C) ops -> touches C x (foldl tim_do x ops).
Proof. by apply (touches_calls C tim_do EvTim). Qed.

Lemma seg_nop C x : seg C C x x.
Proof. apply touches_seg, touches_refl. Qed.

(** ** The converters *)

Lemma touches_adc_read C r x : needs (EvAdcAns r 0) ⊆ C -> touches C x (hw_read x r).2.
Proof. intros N. cbn. destruct (hw_read x.1 r) as [u h']. apply (touches_one C x _ (EvAdcAns r u)); [done | destruct r; exact N | done]. Qed.

(** A converter whose clock is on. *)
Lemma touches_reg_of C p r x : CkAdc p ∈ C -> adc_reg_of p r -> touches C x (hw_read x r).2.
Proof. intros Hc Hr. apply touches_adc_read. destruct r; cbn in Hr; try done; subst; sub. Qed.

Lemma touches_op_of C p op x : CkAdc p ∈ C -> adc_op_of p op -> touches C x (hw_do x op).
Proof. intros Hc Hop. apply (touches_adc_ops C [op] x). repeat constructor. destruct op; cbn in Hop; try done; subst; sub. Qed.

(** ** The stages of [bridge_hw_init] *)

(** A list of calls of [init.c] itself, every one of its own clocks included. *)
Ltac own_calls := apply seg_init_dos; [cbn; repeat (split; [sub |]); exact I | rewrite !not_elem_of_cons; repeat (split; [discriminate |]); apply not_elem_of_nil | sub].

Lemma seg_core C x : seg C (CkSyscfg :: C) x (init_core (init_guards x)).
Proof.
  apply (seg_trans C C (CkSyscfg :: C) x (init_guards x)); [unfold init_guards | unfold init_core]; own_calls.
Qed.

Lemma seg_se C x w : seg C (CkGpio Gpio.GPIOC :: C) x (init_se x w).1.
Proof.
  unfold init_se, se_reset_init. apply (seg_trans C (CkGpio Gpio.GPIOC :: C) (CkGpio Gpio.GPIOC :: C) x (init_do x (rcu_periph_clock_enable (RCU_GPIO Gpio.GPIOC)))).
  - rewrite init_do_dos. own_calls.
  - apply touches_seg, touches_gpio. repeat (apply list.Forall_cons; split; [mem |]). constructor.
Qed.

Lemma touches_cps C x : CkSyscfg ∈ C -> touches C x (cps_rdy x).2.
Proof. intros Hc. cbn. destruct (cps_rdy x.1) as [v h]. apply (touches_one C x _ (EvCps v)); [done | sub | done]. Qed.

Lemma seg_syscfg C x : CkSyscfg ∈ C -> seg C C x (init_syscfg x).2.
Proof.
  intros Hc. unfold init_syscfg. eapply seg_trans; [| apply touches_seg, (rel_cps (touches C)); intros y; by apply touches_cps]. own_calls.
Qed.

Lemma seg_dac C x : ports_clk ⊆ C -> seg C C x (init_dac x).
Proof.
  intros Hp. unfold init_dac, dac_channels. cbn [foldl]. set (D := CkDac DAC1 :: CkDac DAC0 :: C).
  set (y0 := gpio_do x _). assert (T0 : touches C x y0) by (apply (touches_ports C [_] x), Hp).
  set (y1 := init_dos y0 _). assert (S1 : seg C D y0 y1) by (subst y1 D; own_calls).
  set (y2 := init_dos y1 _). assert (S2 : seg D D y1 y2) by (subst y2 D; own_calls).
  set (y3 := init_dos y2 _). assert (S3 : seg D D y2 y3) by (subst y3 D; own_calls).
  apply (seg_trans C C C x y0); [by apply touches_seg |]. apply (seg_trans C D C y0 y1); [done |].
  apply (seg_weaken D D D); [done | subst D; sub | exact (seg_trans _ _ _ _ _ _ S2 S3)].
Qed.

Lemma seg_counter C x : seg C C x (init_counter x).
Proof. unfold init_counter. own_calls. Qed.

Lemma seg_vref C x : seg C C x (init_vref x).2.
Proof.
  unfold init_vref. set (y := init_dos x _). assert (Hv : forall z, touches (CkVref :: C) z (hw_read z vref_status).2) by (intros z; apply touches_adc_read; sub).
  pose proof (rel_poll _ (Z.to_nat 100000) true vref_status Hv y) as T1.
  destruct (poll _ _ vref_status y) as [ok z]. cbn [snd] in T1. pose proof (Hv z) as T2.
  destruct (hw_read z vref_status) as [v x']. cbn [snd] in *.
  apply (seg_trans C (CkVref :: C) C x y); [subst y; own_calls |].
  apply (seg_weaken (CkVref :: C) _ (CkVref :: C)); [done | sub |]. apply touches_seg. by eapply touches_trans.
Qed.

Definition adc_clks : list clk := [CkAdc 3; CkAdc 2; CkAdc 1; CkAdc 0].

Lemma adc_clk_in C p : p ∈ [0; 1; 2; 3] -> CkAdc p ∈ adc_clks ++ C.
Proof. intros Hp. repeat (apply elem_of_cons in Hp as [-> | Hp]; [mem |]). by apply not_elem_of_nil in Hp. Qed.

Lemma seg_adc C ok streams x : ports_clk ⊆ C -> seg C C x (init_adc ok streams x).1.
Proof.
  intros Hp. unfold init_adc, adc_shared_clock_init, adc_periph_boot_reset_all.
  set (y0 := foldl gpio_do x _). assert (T0 : touches C x y0) by by apply touches_ports.
  set (y1 := init_dos y0 _). assert (S1 : seg C (adc_clks ++ C) y0 y1) by (subst y1; own_calls).
  set (y1' := init_dos y1 _). assert (S2a : seg (adc_clks ++ C) (adc_clks ++ C) y1 y1') by (subst y1'; own_calls).
  set (y2 := init_dos y1' _). assert (S2b : seg (adc_clks ++ C) (adc_clks ++ C) y1' y2) by (subst y2; own_calls).
  pose proof (seg_trans _ _ _ _ _ _ S2a S2b) as S2.
  set (y3 := foldl _ y2 [0; 1; 2; 3]). assert (T3 : touches (adc_clks ++ C) y2 y3).
  { apply (rel_foldl (touches _)). intros z p Hin. apply rel_boot_init; [apply _ | |]; intros ? ?; [apply touches_reg_of | apply touches_op_of]; by apply adc_clk_in. }
  set (w := set_vref _ _ _). assert (T4 : touches (adc_clks ++ C) y3 (adc_vref_measure y3 w).1.2).
  { apply rel_vref_measure; [apply _ | |]; intros ? ?; [apply touches_reg_of | apply touches_op_of]; mem. }
  assert (K : forall z, touches (adc_clks ++ C) y3 z -> seg C C x z).
  { intros z T. eapply seg_trans; [by apply touches_seg |]. eapply seg_trans; [exact S1 |].
    apply (seg_weaken (adc_clks ++ C) _ (adc_clks ++ C)); [done | apply sub_app_r |]. eapply seg_trans; [exact S2 |].
    apply touches_seg. by eapply touches_trans. }
  destruct ok; [| apply K, touches_refl]. destruct (adc_vref_measure y3 w) as [[b z] w']. by apply K.
Qed.

Lemma touches_qenc C x e : ports_clk ⊆ C -> CkSyscfg ∈ C -> CkTimer (qe_timer e) ∈ C -> touches C x (qenc_channel_init x e).
Proof.
  intros Hp Hs Ht. assert (Htwo : [CkTimer (qe_timer e); CkSyscfg] ⊆ C) by (by apply sub_cons_in).
  assert (Hport : forall n, [CkGpio (port_at n)] ⊆ C) by (intros n; apply sub_one, Hp, ports_all).
  unfold qenc_channel_init. cbv zeta. eapply touches_trans; apply touches_qenc_ops;
    repeat (apply list.Forall_cons; split; [cbn [needs]; first [apply Hport | exact Htwo | by apply sub_one] |]); constructor.
Qed.

Definition timer_clks : list clk := [CkTimer TIMER4; CkTimer TIMER3; CkTimer TIMER2; CkTimer TIMER1].

Lemma seg_qenc C x : ports_clk ⊆ C -> CkSyscfg ∈ C -> seg C C x (init_qenc x).
Proof.
  intros Hp Hs. unfold init_qenc. set (y := init_dos x _). assert (S : seg C (timer_clks ++ C) x y) by (subst y; own_calls).
  apply (seg_trans _ _ _ _ _ _ S). apply (seg_weaken (timer_clks ++ C) _ (timer_clks ++ C)); [done | apply sub_app_r |].
  apply touches_seg, (rel_foldl (touches _)). intros z e _. apply touches_qenc; [by etrans; [exact Hp | apply sub_app_r] | by apply sub_app_r |]. destruct (qe_timer e); mem.
Qed.

(** ** The PWM *)

Definition pwm_clks : list clk := [CkPwm TIMER7; CkPwm TIMER0].

Lemma pwm_clk_in C p : CkPwm p ∈ pwm_clks ++ C.
Proof. destruct p; mem. Qed.

Lemma touches_timer C p op x : CkPwm p ∈ C -> touches C x (tim_do x (on_timer p op)).
Proof. intros Hc. apply (touches_one C x _ (EvTim (on_timer p op))); [done | by apply sub_one | done]. Qed.

Lemma touches_pad C x ch : ports_clk ⊆ C -> touches C x (pwm_pad x ch).
Proof.
  intros Hp. assert (Hport : [CkGpio (pwm_port (ch_port ch))] ⊆ C) by apply sub_one, Hp, ports_all.
  apply (touches_tim_ops C [gpio_mode_af _ _ _; gpio_output_options_pp _ _; gpio_af_set _ _ _] x).
  repeat (apply list.Forall_cons; split; [exact Hport |]). constructor.
Qed.

Lemma seg_pwm C x w : ports_clk ⊆ C -> seg C C x (pwm_bring_up x w).1.
Proof.
  intros Hp. unfold pwm_bring_up. set (y0 := foldl _ x (seq 0 8)).
  assert (T0 : touches C x y0) by (apply (rel_foldl (touches C)); intros z c _; by apply touches_pad).
  set (y1 := tim_do (tim_do y0 _) _). assert (S1 : seg C (pwm_clks ++ C) y0 y1).
  { exists [EvTim (rcu_timer_enable TIMER0); EvTim (rcu_timer_enable TIMER7)]. split; [cbn; by rewrite <- app_assoc |]. split; [| split].
    - cbn. repeat (split; [sub |]). exact I.
    - rewrite !not_elem_of_cons. repeat (split; [discriminate |]). apply not_elem_of_nil.
    - sub. }
  unfold pwm_timer_init. set (y2 := tims (tims y1 _ _) _ _). assert (T2 : touches (pwm_clks ++ C) y1 y2).
  { etrans; apply (rel_tims (touches _)); intros op z; apply touches_timer, pwm_clk_in. }
  eapply seg_trans; [by apply touches_seg |]. eapply seg_trans; [exact S1 |].
  apply (seg_weaken (pwm_clks ++ C) _ (pwm_clks ++ C)); [done | apply sub_app_r |]. apply touches_seg. eapply touches_trans; [exact T2 |].
  apply rel_channels; [apply _ |]. intros p op z. apply touches_timer, pwm_clk_in.
Qed.

(** ** The pads *)

Lemma touches_write C x w mask levels : ports_clk ⊆ C -> touches C x (bridge_hw_gpio_write_ x w mask levels).1.1.
Proof.
  intros Hp. unfold bridge_hw_gpio_write_. destruct (negb _); [apply touches_refl |].
  destruct (foldl _ (Some _) pads) as [[bop promote] |]; [by apply touches_ports | apply touches_refl].
Qed.

Lemma touches_pads C x w : ports_clk ⊆ C -> touches C x (pads_boot x w).1.
Proof. intros Hp. unfold pads_boot. eapply touches_trans; by apply touches_ports. Qed.

Lemma seg_pads `{FlashHal F} (f : F) C x w c : seg C (ports_clk ++ C) x (init_pads f x w c).1.1.
Proof.
  unfold init_pads. set (y := init_dos x _). assert (S : seg C (ports_clk ++ C) x y).
  { apply seg_init_dos.
    - cbn. repeat (split; [sub |]). exact I.
    - cbn. rewrite !not_elem_of_cons. repeat (split; [discriminate |]). apply not_elem_of_nil.
    - intros k. rewrite elem_of_app. intros [Hk | Hk]; [| by apply gives_grow]. cbn in Hk |- *.
      repeat (apply elem_of_cons in Hk as [-> | Hk]; [mem |]). by apply not_elem_of_nil in Hk. }
  assert (Hp : ports_clk ⊆ ports_clk ++ C) by (intros k; rewrite elem_of_app; by left).
  pose proof (touches_pads (ports_clk ++ C) y w Hp) as T1. destruct (pads_boot y w) as [z w']. cbn [fst] in T1.
  apply (seg_trans _ _ _ _ _ _ S). apply touches_seg. cbv zeta. destruct (negb _); [| exact T1].
  pose proof (touches_write (ports_clk ++ C) z w' BOOT_CONFIG_SDMUX_EN_PAD_MASK BOOT_CONFIG_SDMUX_EN_PAD_MASK Hp) as T2.
  destruct (bridge_hw_gpio_write_ z w' _ _) as [[z' w''] st]. by eapply touches_trans.
Qed.

Lemma init_live_log clock x :
  (init_live clock x).2 = x.2 ++ (EvInit <$> [irq_enable; SysTick_Config (systick_ticks clock); systick_priority_lowest]).
Proof. apply init_dos_log. Qed.
(** The tick count is one [SysTick_Config] takes, whatever clock was sampled. *)
Lemma systick_ticks_fit clock : 1 <= systick_ticks clock <= 2 ^ 24.
Proof.
  unfold systick_ticks, SYSTICK_RELOAD_MAX. pose proof (u32_u32 (clock / 20 - 1)) as Hr. unfold is_u32 in Hr.
  destruct (Z.ltb_spec 0xFFFFFF (u32 (clock / 20 - 1))); rewrite u32_id; unfold is_u32; lia.
Qed.

(** A read of the hardware: what a wait looks at. *)
Definition is_answer (e : init_event) : bool :=
  match e with EvCps _ | EvGpioGet _ _ | EvTrngAns _ _ | EvAdcAns _ _ | EvTimAns _ _ => true | _ => false end.

(** The secure element's line: high in the latch, then an output. *)
Definition se_line : list init_event := EvGpio <$> (se_reset_configure ++ [se_reset_drive 0]).

(** The calls up to the secure element's line. *)
Lemma head_log (x : logged B) w : exists quiet, (init_se (init_core (init_guards x)) w).1.2 = x.2 ++ quiet ++ se_line /\
  Forall (fun e => is_answer e = false) (quiet ++ se_line).
Proof.
  exists (EvInit <$> [set_MSPLIM; ccr_set_stkofhfnmign; nvic_priority_group_pre2_sub2; rcu_periph_clock_enable RCU_SYSCFG;
                      vtor_write_barriers; dbg_hold_timers; rcu_periph_clock_enable (RCU_GPIO Gpio.GPIOC)]). split.
  - unfold init_se, se_reset_init. cbn [fst]. rewrite gpio_dos_log, init_do_dos, init_dos_log. unfold init_core, init_guards.
    rewrite !init_dos_log, <- !app_assoc. reflexivity.
  - repeat constructor.
Qed.

(** What comes between the secure element's line and the last writes. *)
Lemma seg_middle `{FlashHal F} (f : F) streams (x : logged B) gw c : CkSyscfg ∈ [CkGpio Gpio.GPIOC; CkSyscfg] ->
  let y1 := (init_syscfg (init_clock_sample x).2).2 in
  let y2 := (init_pads f y1 gw c).1.1 in
  let y3 := init_counter (init_dac (init_do (trng_boot y2).1 (rcu_periph_clock_enable RCU_TMU))) in
  let y4 := (pwm_bring_up y3 pwm_sw0).1 in
  let v := init_vref y4 in
  exists C, seg [CkGpio Gpio.GPIOC; CkSyscfg] C x (init_qenc (init_adc v.1 streams v.2).1).
Proof.
  intros Hc y1 y2 y3 y4 v. set (C := [CkGpio Gpio.GPIOC; CkSyscfg]) in *. set (D := ports_clk ++ C).
  assert (Hp : ports_clk ⊆ D) by (intros k; subst D; rewrite elem_of_app; by left).
  assert (Hcs : seg C C x (init_clock_sample x).2).
  { unfold init_clock_sample. cbn [snd]. rewrite init_do_dos. own_calls. }
  exists D. eapply seg_trans; [exact Hcs |]. eapply seg_trans; [by apply seg_syscfg |]. eapply seg_trans; [apply seg_pads |]. fold y1 y2 D.
  eapply seg_trans; [apply seg_trng_boot |]. eapply seg_trans; [| apply seg_qenc; [done | subst D; by apply sub_app_r]]. eapply seg_trans; [| by apply seg_adc].
  eapply seg_trans; [| apply seg_vref]. fold v. eapply seg_trans; [| by apply seg_pwm]. fold y4.
  eapply seg_trans; [| apply seg_counter]. eapply seg_trans; [| by apply seg_dac].
  rewrite init_do_dos. own_calls.
Qed.

(** C34. Bring-up order.  Whatever the hardware answers to every poll and wait of
    [bridge_hw_init] - the compensation cell, the generator, the reference buffer,
    the calibrations and the conversions - the calls it makes end with the three
    that let interrupts in, with a tick count in the 24-bit range [SysTick_Config]
    takes; nothing before them enables interrupts; every earlier call or read finds
    the clock of the block it touches already on; and the secure element's reset
    line is driven before the first answer of the hardware is waited for. *)
Theorem init_gates_open `{FlashHal F} (f : F) chip0 streams (h0 : B) :
  let '(x, _, sw) := bridge_hw_init (H := logged B) f chip0 streams (h0, []) in
  exists before quiet asked,
    x.2 = before ++ (EvInit <$> [irq_enable; SysTick_Config (systick_ticks (i_clock_hz sw)); systick_priority_lowest]) /\
    1 <= systick_ticks (i_clock_hz sw) <= 2 ^ 24 /\
    clocked [] before /\ (EvInit irq_enable ∉ before) /\
    before = quiet ++ se_line ++ asked /\ Forall (fun e => is_answer e = false) (quiet ++ se_line).
Proof.
  pose (x0 := (h0, []) : logged B). change (h0, []) with x0. unfold bridge_hw_init. destruct (reset_snapshot chip0) as [snap chip1]. set (w0 := GpioSw _ _ _).
  destruct (head_log x0 w0) as (quiet & Q & A).
  assert (S : seg [] [CkGpio Gpio.GPIOC; CkSyscfg] x0 (init_se (init_core (init_guards x0)) w0).1) by (eapply seg_trans; [apply seg_core | apply seg_se]).
  destruct (init_se (init_core (init_guards x0)) w0) as [x gw] eqn:E1. cbn [fst] in Q, S.
  destruct (seg_middle f streams x gw (Bcfg 0 false 0) ltac:(mem)) as (C & M). cbv zeta in M. unfold logged in *.
  destruct (init_clock_sample x) as [[clock m] y0]. cbn [snd] in M. destruct (init_syscfg y0) as [ready y1].
  cbn [fst snd] in M. destruct (init_pads f y1 gw (Bcfg 0 false 0)) as [[y2 gw'] c]. cbn [fst snd] in M.
  destruct (trng_boot y2) as [y3 tw]. cbn [fst snd] in M. destruct (pwm_bring_up _ pwm_sw0) as [y4 pw]. cbn [fst snd] in M.
  destruct (init_vref y4) as [vok y5]. cbn [fst snd] in M. destruct (init_adc vok streams y5) as [y6 aw]. cbn [fst] in M.
  pose proof (seg_trans _ _ _ _ _ _ S M) as (l & El & Kl & Il & _). destruct M as (l' & El' & _).
  exists l, quiet, l'. cbn [i_clock_hz]. rewrite init_live_log, El. split; [done |]. split; [apply systick_ticks_fit |].
  split; [done |]. split; [done |]. split; [| done]. cbn [x0 snd app] in El, Q. rewrite Q in El'. rewrite El in El'. by rewrite <- app_assoc in El'.
Qed.
End stages.
