(* ===== verification/Board.v ===== *)
(** * The whole bring-up: [main] of [src/main.c] up to its loop

    [bridge_hw_init] and both transports' bring-up over one hardware state, with the
    pins the two links take.  On ports with their documented effect, and whatever
    everything else answers, the pads then carry out what the host commands, from
    the level the stored setting asks for. *)

From stdpp Require Import base tactics list numbers option relations.
From S2P Require Import Prelude BridgeHw Flash BootConfig SpiBackend I2cTiming I2cBackend TransportSpi TransportI2c Trng Reset DspChain Adc Drivers PwmTimer Pwm Gpio GpioSafety Init InitStages.

(** ** The pins of the links *)

(** Library calls on a pin: alternate function with or without pull-up, output
    stage push-pull or open-drain, function number. *)
Inductive link_call :=
  | link_mode_af (p : Gpio.gpio_periph) (pullup : bool) (n : Z)
  | link_output_options (p : Gpio.gpio_periph) (od : bool) (n : Z)
  | link_af_set (p : Gpio.gpio_periph) (af n : Z).

(** SCK, MISO, MOSI, NSS: PA9, PA10, PB15, PA8, function 5. *)
Definition spi_gpio_calls : list link_call :=
  [link_mode_af Gpio.GPIOA false 9; link_mode_af Gpio.GPIOA false 10; link_mode_af Gpio.GPIOB false 15; link_mode_af Gpio.GPIOA true 8;
   link_output_options Gpio.GPIOA false 9; link_output_options Gpio.GPIOA false 10;
   link_output_options Gpio.GPIOB false 15; link_output_options Gpio.GPIOA false 8;
   link_af_set Gpio.GPIOA 5 9; link_af_set Gpio.GPIOA 5 10; link_af_set Gpio.GPIOB 5 15; link_af_set Gpio.GPIOA 5 8].

(** SCL, SDA: PA15, PB9, function 4, open drain. *)
Definition i2c_gpio_calls : list link_call :=
  [link_mode_af Gpio.GPIOA false 15; link_mode_af Gpio.GPIOB false 9;
   link_output_options Gpio.GPIOA true 15; link_output_options Gpio.GPIOB true 9;
   link_af_set Gpio.GPIOA 4 15; link_af_set Gpio.GPIOB 4 9].

Definition pin_id : Type := Gpio.gpio_periph * Z.

Definition link_pin (c : link_call) : pin_id :=
  match c with link_mode_af p _ n | link_output_options p _ n | link_af_set p _ n => (p, n) end.

(** What [bridge_transport_i2c_hw_init] locks, by port and mask. *)
Definition lock_masks : list (Gpio.gpio_periph * Z) := [(Gpio.GPIOA, 0x8700); (Gpio.GPIOB, 0x8200); (Gpio.GPIOC, 0x2000)].

(** The pins a call of another component names. *)
Definition qenc_pins (op : qenc_op) : list pin_id :=
  match op with qenc_gpio_af_pullup port n | qenc_gpio_af_set port _ n => [(port_at port, n)] | _ => [] end.
Definition tim_pins (op : pwm_op) : list pin_id :=
  match op with gpio_mode_af port _ n | gpio_output_options_pp port n | gpio_af_set port _ n => [(pwm_port port, n)] | _ => [] end.
Definition spi_pins (op : spi_op) : list pin_id := match op with spi_gpio_init => link_pin <$> spi_gpio_calls | _ => [] end.
Definition i2c_pins (op : i2c_op) : list pin_id := match op with i2c_gpio_init => link_pin <$> i2c_gpio_calls | _ => [] end.

(** ** [main] up to the loop *)

Section main.
Context {H : Type} `{!InitHw H} `{!GpioHw H} `{!TrngHw H} `{!AdcHw H} `{!QencHw H} `{!TimerHw H} `{!SpiSlaveHw H} `{!I2cSlaveHw H}.

(** What runs on the hardware; [ota_boot_init], between the first two, is on the
    flash alone ([Main]). *)
Definition main_bring_up `{FlashHal F} (f : F) (chip0 : chip) (streams : list adc_stream_state) (t : spi) (u : i2c) (h : H) :
    H * chip * init_sw * (spi_hw * spi) * i2c :=
  let '(h, chip1, sw) := bridge_hw_init f chip0 streams h in
  let t := transport_spi_init t in
  let '(h, x) := bridge_transport_spi_hw_init h spi_hw0 in
  let u := transport_i2c_init u in
  let '(_, h) := bridge_transport_i2c_hw_init h in
  (h, chip1, sw, (x, t), u).
End main.

(** ** Calls and pins *)

(** Every other component's calls and reads leave the pins they do not name. *)
Class BoardLaws (H : Type) `{GpioLaws H} `{!InitHw H} `{!TrngHw H} `{!AdcHw H} `{!QencHw H} `{!TimerHw H} `{!SpiSlaveHw H} `{!I2cSlaveHw H} := {
  init_do_pins op h q n : gpio_pin (init_do h op) q n = gpio_pin h q n;
  cps_rdy_pins h q n : gpio_pin (cps_rdy h).2 q n = gpio_pin h q n;
  trng_do_pins op h q n : gpio_pin (trng_do h op) q n = gpio_pin h q n;
  trng_read_pins r h q n : gpio_pin (trng_reg_read h r).2 q n = gpio_pin h q n;
  adc_do_pins op h q n : gpio_pin (hw_do h op) q n = gpio_pin h q n;
  adc_read_pins r h q n : gpio_pin (hw_read h r).2 q n = gpio_pin h q n;
  qenc_do_pins op h q n : (q, n) ∉ qenc_pins op -> gpio_pin (qenc_do h op) q n = gpio_pin h q n;
  tim_do_pins op h q n : (q, n) ∉ tim_pins op -> gpio_pin (tim_do h op) q n = gpio_pin h q n;
  spi_do_pins op h q n : (q, n) ∉ spi_pins op -> gpio_pin (spi_do h op) q n = gpio_pin h q n;
  spi_read_pins r h q n : gpio_pin (spi_read h r).2 q n = gpio_pin h q n;
  i2c_do_pins op h q n : (q, n) ∉ i2c_pins op -> gpio_pin (i2c_do h op) q n = gpio_pin h q n;
  i2c_read_pins r h q n : gpio_pin (i2c_reg_read h r).2 q n = gpio_pin h q n }.

(** The pins that answer the host's requests: the pads and the secure element's line. *)
Definition board_pins : list pin_id := (SE_RST_PORT, 13) :: ((fun i => (pad_periph (pad i), pad_no i)) <$> pads).

Definition op_names (op : gpio_op) (x : pin_id) : bool :=
  match op with
  | gpio_mode_set p _ pins | gpio_bit_set p pins | gpio_bit_reset p pins => bool_decide (p = x.1) && Z.testbit pins x.2
  | gpio_output_options_set _ _ => false
  | GPIO_BOP p v => bool_decide (p = x.1) && (Z.testbit v x.2 || Z.testbit v (x.2 + 16))
  end.

(** The locked pins are exactly those of the links and the secure element's line, so
    the lock stops no later request: a pad is never locked, and the line, already an
    output, is only driven. *)
Definition lockedb (q : Gpio.gpio_periph) (n : Z) : bool := existsb (fun x => bool_decide (x.1 = q) && Z.testbit x.2 n) lock_masks.

Lemma locked_pins_exact q n : 0 <= n < 16 ->
  lockedb q n = bool_decide ((q, n) ∈ (SE_RST_PORT, 13) :: (link_pin <$> spi_gpio_calls ++ i2c_gpio_calls)).
Proof.
  intros Hn. assert (E : forallb (fun q => forallb (fun n => Bool.eqb (lockedb q n)
    (bool_decide ((q, n) ∈ (SE_RST_PORT, 13) :: (link_pin <$> spi_gpio_calls ++ i2c_gpio_calls)))) (seqZ 0 16)) gpio_mapped_ports = true) by (vm_compute; reflexivity).
  rewrite forallb_forall in E. specialize (E q ltac:(destruct q; cbn; tauto)). rewrite forallb_forall in E.
  apply eqb_prop, E. apply list_elem_of_In, elem_of_seqZ. lia.
Qed.

Lemma pads_unlocked i : (i < 21)%nat -> lockedb (pad_periph (pad i)) (pad_no i) = false.
Proof. intros Hi. do 21 (destruct i as [| i]; [by vm_compute |]). lia. Qed.

Lemma unnamed op q n x : op_names op (q, n) = false -> pin_effect op q n x = x.
Proof.
  destruct op; cbn; intros E; try done; case_decide; try done; subst; rewrite bool_decide_true in E by done; cbn in E.
  all: try apply orb_false_iff in E as (E & E'); by rewrite ?E, ?E'.
Qed.

(** Pins that are none of [board_pins]. *)
Definition apart (l : list pin_id) : bool := forallb (fun x => bool_decide (x ∉ board_pins)) l.

Lemma board_pins_in q n : (q, n) ∈ board_pins -> 0 <= n < 16.
Proof.
  unfold board_pins. intros [[= -> ->] | Hin]%elem_of_cons; [done |]. apply list_elem_of_fmap in Hin as (i & [= -> ->] & Hi). by apply table_ok, pads_in.
Qed.

(** ** The stages, for a relation *)

(** A preorder every call and read respects, but those of the PWM timers; a pin call
    needs to name none of the board's pins. *)
Class Indifferent {H} `{!InitHw H} `{!GpioHw H} `{!TrngHw H} `{!AdcHw H} `{!QencHw H} `{!SpiSlaveHw H} `{!I2cSlaveHw H} (R : relation H) : Prop := {
  ind_init op h : R h (init_do h op);
  ind_cps h : R h (cps_rdy h).2;
  ind_gpio op h : forallb (fun x => negb (op_names op x)) board_pins = true -> R h (gpio_do h op);
  ind_trng_do op h : R h (trng_do h op);
  ind_trng_read r h : R h (trng_reg_read h r).2;
  ind_adc_do op h : R h (hw_do h op);
  ind_adc_read r h : R h (hw_read h r).2;
  ind_qenc op h : apart (qenc_pins op) = true -> R h (qenc_do h op);
  ind_spi op h : R h (spi_do h op);
  ind_spi_read r h : R h (spi_read h r).2;
  ind_i2c op h : R h (i2c_do h op);
  ind_i2c_read r h : R h (i2c_reg_read h r).2 }.


Section stages.
Context {H : Type} `{!InitHw H} `{!GpioHw H} `{!TrngHw H} `{!AdcHw H} `{!QencHw H} `{!TimerHw H} `{!SpiSlaveHw H} `{!I2cSlaveHw H}.
Context (R : relation H) `{!PreOrder R} `{!Indifferent R}.

Lemma st_inits ops h : R h (init_dos h ops).
Proof. apply (rel_foldl R). intros g op _. apply ind_init. Qed.

Lemma st_syscfg h : R h (init_syscfg h).2.
Proof. unfold init_syscfg. etrans; [apply st_inits |]. apply (rel_cps R). apply ind_cps. Qed.

Lemma st_trng h : R h (trng_boot h).1.
Proof. apply (rel_trng_boot R); [apply ind_trng_read | apply ind_trng_do]. Qed.

Lemma st_dac h : R h (init_dac h).
Proof.
  unfold init_dac. etrans; [by apply (ind_gpio (gpio_mode_set Gpio.GPIOA GPIO_MODE_ANALOG (Z.lor (GPIO_PIN 4) (GPIO_PIN 6)))) |].
  etrans; [apply st_inits |]. apply (rel_foldl R). intros g d _. apply st_inits.
Qed.

Lemma st_vref h : R h (init_vref h).2.
Proof.
  unfold init_vref. set (g := init_dos h _). assert (T0 : R h g) by apply st_inits.
  pose proof (rel_poll R (Z.to_nat 100000) true vref_status (ind_adc_read vref_status) g) as T1.
  destruct (poll _ _ vref_status g) as [ok g']. cbn [snd] in T1. pose proof (ind_adc_read vref_status g') as T2.
  destruct (hw_read g' vref_status) as [v h']. cbn [snd] in *. etrans; [exact T0 |]. by etrans.
Qed.

Lemma st_adc ok streams h : R h (init_adc ok streams h).1.
Proof.
  unfold init_adc, adc_shared_clock_init, adc_periph_boot_reset_all. set (h0 := foldl gpio_do h _).
  assert (T0 : R h h0) by (apply (rel_foldl R); intros g op Hop; apply ind_gpio; unfold adc_pads in Hop; cbn [fmap list_fmap] in Hop; repeat (apply elem_of_cons in Hop as [-> | Hop]; [by vm_compute |]); by apply not_elem_of_nil in Hop).
  set (h1 := foldl _ (init_dos (init_dos (init_dos h0 _) _) _) [0; 1; 2; 3]). assert (T1 : R h0 h1).
  { etrans; [apply st_inits |]. etrans; [apply st_inits |]. etrans; [apply st_inits |]. apply (rel_foldl R). intros g p _.
    apply (rel_boot_init R); intros; [apply ind_adc_read | apply ind_adc_do]. }
  set (w := set_vref _ _ _). assert (T2 : R h1 (adc_vref_measure h1 w).1.2) by (apply (rel_vref_measure R); intros; [apply ind_adc_read | apply ind_adc_do]).
  assert (K : R h h1) by by etrans. destruct ok; [| exact K]. destruct (adc_vref_measure h1 w) as [[b g] w']. by etrans.
Qed.

Lemma st_qencs ops h : Forall (fun op => apart (qenc_pins op) = true) ops -> R h (foldl qenc_do h ops).
Proof.
  intros F. apply (rel_foldl R). intros g op Hop. rewrite Forall_forall in F. by apply ind_qenc, F.
Qed.

Lemma st_qenc h : R h (init_qenc h).
Proof.
  unfold init_qenc. etrans; [apply st_inits |]. apply (rel_foldl R). intros g e He.
  assert (A : apart [(port_at (qe_x_port e), qe_x_pin e)] = true /\ apart [(port_at (qe_y_port e), qe_y_pin e)] = true).
  { unfold qenc_map in He. repeat (apply elem_of_cons in He as [-> | He]; [by split; vm_compute |]). by apply not_elem_of_nil in He. }
  destruct A as (Ax & Ay). unfold qenc_channel_init. cbv zeta.
  etrans; apply st_qencs; repeat (apply list.Forall_cons; split; [first [exact Ax | exact Ay | reflexivity] |]); constructor.
Qed.

(** ** The links *)

Lemma st_spis ops h : R h (spi_dos h ops).
Proof. apply (rel_foldl R). intros g op _. apply ind_spi. Qed.
Lemma st_i2cs ops h : R h (i2c_dos h ops).
Proof. apply (rel_foldl R). intros g op _. apply ind_i2c. Qed.
Lemma st_wait_disabled fuel c h : R h (wait_disabled fuel c h).2.
Proof.
  revert h. induction fuel as [| fuel IH]; intros h; cbn [wait_disabled]; [done |].
  pose proof (ind_spi_read (SpiBackend.dma_chen c) h) as T.
  destruct (spi_read h (SpiBackend.dma_chen c)) as [v g]. destruct (v =? 0); [done |]. by etrans.
Qed.

Lemma st_spi_init h x : R h (bridge_transport_spi_hw_init h x).1.
Proof.
  unfold bridge_transport_spi_hw_init, bridge_spi_periph_config, spi_dma_init, spi_cs_exti_init. set (g := spi_dos (spi_dos _ _) _).
  assert (T0 : R h g) by (etrans; [apply st_spis |]; etrans; apply st_spis). clearbody g.
  unfold spi_dma_arm_rx, confirm, spi_dma_disable_confirm. pose proof (st_wait_disabled BRIDGE_SPI_DMA_DISABLE_SPINS rx_ch (spi_do g (SpiBackend.dma_channel_disable rx_ch))) as T1.
  destruct (wait_disabled _ rx_ch _) as [ok g']. cbn [snd] in T1. assert (T2 : R h g') by (etrans; [exact T0 |]; etrans; [apply ind_spi | exact T1]).
  destruct ok; cbn [negb fst]; [etrans; [etrans; [exact T2 | apply st_spis] |] | etrans; [exact T2 |]]; apply st_spis.
Qed.

Lemma st_lock h p m : R h (gpio_lock_port h p m).
Proof.
  unfold gpio_lock_port. set (g := i2c_dos h _). assert (T0 : R h g) by apply st_i2cs.
  pose proof (ind_i2c_read (gpio_lock_read p) g) as T1. destruct (i2c_reg_read g (gpio_lock_read p)) as [v g1]. cbn [snd] in T1.
  pose proof (ind_i2c_read (gpio_lock_read p) g1) as T2. destruct (i2c_reg_read g1 (gpio_lock_read p)) as [v' g2]. cbn [snd] in T2.
  etrans; [exact T0 |]. by etrans.
Qed.

Lemma st_i2c_init h : R h (bridge_transport_i2c_hw_init h).2.
Proof.
  unfold bridge_transport_i2c_hw_init. set (g := i2c_dos h _). assert (T0 : R h g) by apply st_i2cs.
  pose proof (ind_i2c_read rcu_apb1_hz g) as T1. destruct (i2c_reg_read g rcu_apb1_hz) as [hz g1]. cbn [snd] in T1. assert (T2 : R h g1) by by etrans.
  destruct (i2c_timing_derive _) as [[[psc scl] sda] |]; [| exact T2]. destruct (bridge_i2c_stretch_timeout_reload _) as [reload |]; [| exact T2].
  cbn [snd]. etrans; [exact T2 |]. etrans; [apply st_i2cs |]. etrans; [apply st_lock |]. etrans; [apply st_lock |].
  etrans; [apply st_lock |]. apply ind_i2c.
Qed.
(** After the PWM: the converters, the encoders, the last writes, the links. *)
Lemma st_tail ok streams clock h : R h (init_live clock (init_qenc (init_adc ok streams h).1)).
Proof. etrans; [apply st_adc |]. etrans; [apply st_qenc | apply st_inits]. Qed.
End stages.

(** ** What leaves the board's pins alone *)

Section keeps.
Context {H : Type} `{BoardLaws H}.

Definition keeps (h h' : H) : Prop := forall q n, (q, n) ∈ board_pins -> gpio_pin h' q n = gpio_pin h q n.

#[global] Instance keeps_preorder : PreOrder keeps.
Proof. split; [done |]. intros h1 h2 h3 K1 K2 q n Hin. by rewrite K2, K1. Qed.

Lemma keeps_pins l h h' : apart l = true -> (forall q n, (q, n) ∉ l -> gpio_pin h' q n = gpio_pin h q n) -> keeps h h'.
Proof.
  intros A K q n Hin. apply K. intros Hl. unfold apart in A. rewrite forallb_forall in A.
  apply list_elem_of_In in Hl. specialize (A _ Hl). by apply bool_decide_eq_true in A.
Qed.

#[global] Instance keeps_indifferent : Indifferent keeps.
Proof.
  split; intros *.
  - intros q n _. apply init_do_pins.
  - intros q n _. apply cps_rdy_pins.
  - intros S q n Hin. rewrite gpio_do_pin by (by apply (board_pins_in q)). apply unnamed. rewrite forallb_forall in S.
    apply list_elem_of_In in Hin. by apply negb_true_iff, S.
  - intros q n _. apply trng_do_pins.
  - intros q n _. apply trng_read_pins.
  - intros q n _. apply adc_do_pins.
  - intros q n _. apply adc_read_pins.
  - intros A. apply (keeps_pins (qenc_pins op)); [done |]. intros q n. apply qenc_do_pins.
  - apply (keeps_pins (spi_pins op)); [by destruct op; vm_compute |]. intros q n. apply spi_do_pins.
  - intros q n _. apply spi_read_pins.
  - apply (keeps_pins (i2c_pins op)); [by destruct op; vm_compute |]. intros q n. apply i2c_do_pins.
  - intros q n _. apply i2c_read_pins.
Qed.

Lemma keeps_tim op h : apart (tim_pins op) = true -> keeps h (tim_do h op).
Proof. intros A. apply (keeps_pins (tim_pins op)); [done |]. intros q n. apply tim_do_pins. Qed.

(** The eight pads of the PWM channels are none of the board's. *)
Lemma pwm_pads_apart c : apart [(pwm_port (ch_port (pwm_ch c)), ch_pin (pwm_ch c))] = true.
Proof.
  unfold pwm_ch. destruct (Z.to_nat c) as [| [| [| [| [| [| [| [| m]]]]]]]]; by vm_compute.
Qed.

Lemma keeps_pwm h w : keeps h (pwm_bring_up h w).1.
Proof.
  unfold pwm_bring_up. set (h0 := foldl _ h (seq 0 8)).
  assert (T0 : keeps h h0). { apply (rel_foldl keeps). intros g c _. unfold pwm_pad. pose proof (pwm_pads_apart (Z.of_nat c)) as A. do 2 (etrans; [| by apply keeps_tim]). by apply keeps_tim. }
  set (h1 := tim_do (tim_do h0 _) _). assert (T1 : keeps h0 h1) by (etrans; [| by apply keeps_tim]; by apply keeps_tim).
  unfold pwm_timer_init. set (h2 := tims (tims h1 _ _) _ _).
  assert (T2 : keeps h1 h2) by (etrans; apply (rel_tims keeps); intros op g; by apply keeps_tim).
  etrans; [exact T0 |]. etrans; [exact T1 |]. etrans; [exact T2 |]. apply (rel_channels keeps). intros p op g. by apply keeps_tim.
Qed.

Lemma keeps_carries_out s h h' w : keeps h h' -> carries_out s (h, w) -> carries_out s (h', w).
Proof.
  intros K (L1 & L2 & L3 & Hse & Hpad). split; [done |]. split; [done |]. split; [done |].
  split; [by rewrite K by apply list_elem_of_here |]. intros i Hi.
  assert (E : pad_view h' i = pad_view h i). { apply K, list_elem_of_further, list_elem_of_fmap. exists i. split; [done | by apply pads_in]. }
  rewrite E. by apply Hpad.
Qed.
End keeps.

(** ** The board from reset *)

(** What the stored setting commands before the host's first request. *)
Definition boot_commands (flags : Z) : commands :=
  if negb (Z.land flags BOOT_CONFIG_FLAG_SDMUX_EN_HIGH =? 0)
  then command commands0 (GpioWrite BOOT_CONFIG_SDMUX_EN_PAD_MASK BOOT_CONFIG_SDMUX_EN_PAD_MASK)
  else commands0.

Definition at_reset {H} `{GpioLaws H} (h : H) : Prop := forall i, (i < GPIO_PAD_MAP_COUNT)%nat -> pmode (pad_view h i) = GPIO_MODE_ANALOG.

Section board.
Context {H : Type} `{BoardLaws H}.
Context {F : Type} `{FlashHal F}.

Lemma serve_commands s z rs : carries_out s z -> carries_out (foldl command s rs) (foldl serve z rs).
Proof.
  revert s z. induction rs as [| r rs IH]; intros s [h w] C; [exact C |]. cbn [foldl]. apply IH.
  destruct r as [mask | mask levels | a]; [by apply read_carries_out | by apply write_carries_out | by apply se_carries_out].
Qed.

Lemma pads_stage (f : F) h w c : at_reset h -> gpio_pin h SE_RST_PORT 13 = Pin GPIO_MODE_OUTPUT true ->
  se_rst_configured w = true -> gpio_input_promoted w = replicate GPIO_PAD_MAP_COUNT false ->
  carries_out (boot_commands (stored_flags f)) (init_pads f h w c).1.
Proof.
  intros Ha Hse Hc Hp. unfold init_pads. set (g := init_dos h _). assert (K : keeps h g) by apply (st_inits keeps).
  assert (C : carries_out commands0 (pads_boot g w)).
  { apply pads_boot_carries_out; [| by rewrite K by apply list_elem_of_here | done | done]. intros i Hi. unfold pad_view.
    rewrite K; [by apply Ha |]. apply list_elem_of_further, list_elem_of_fmap. exists i. split; [done | by apply pads_in]. }
  destruct (pads_boot g w) as [h1 w1]. cbn [boot_config_load s_stored]. unfold boot_commands. destruct (negb _); [| exact C].
  pose proof (write_carries_out _ _ _ BOOT_CONFIG_SDMUX_EN_PAD_MASK BOOT_CONFIG_SDMUX_EN_PAD_MASK C) as Cw. cbn [serve fst snd] in Cw.
  by destruct (bridge_hw_gpio_write_ h1 w1 _ _) as [[h2 w2] st].
Qed.

Lemma bring_up_carries_out (f : F) chip0 streams h0 : at_reset h0 ->
  let '(h, _, sw) := bridge_hw_init f chip0 streams h0 in carries_out (boot_commands (stored_flags f)) (h, i_gpio sw).
Proof.
  intros Ha. unfold bridge_hw_init. destruct (reset_snapshot chip0) as [snap chip1]. set (w0 := GpioSw _ _ _). unfold init_se.
  set (g := init_do (init_core (init_guards h0)) _).
  assert (K0 : keeps h0 g) by (etrans; [apply (st_inits keeps) |]; etrans; [apply (st_inits keeps) | apply ind_init]).
  destruct (se_init_pads g w0) as (Hp & Hse).
  change (se_reset_init g w0) with ((se_reset_init g w0).1, set_se_configured w0). cbv beta iota.
  set (h1 := (se_reset_init g w0).1) in *. unfold init_clock_sample. set (h2 := init_do h1 SystemCoreClockUpdate).
  pose proof (st_syscfg keeps h2) as K3. destruct (init_syscfg h2) as [ready h3]. cbn [snd] in K3.
  assert (K1 : keeps h1 h3) by (etrans; [apply ind_init | exact K3]).
  assert (C : carries_out (boot_commands (stored_flags f)) (init_pads f h3 (set_se_configured w0) (Bcfg 0 false 0)).1).
  { assert (In : forall i, (i < 21)%nat -> (pad_periph (pad i), pad_no i) ∈ board_pins).
    { intros i Hi. apply list_elem_of_further, list_elem_of_fmap. exists i. split; [done | by apply pads_in]. }
    apply pads_stage; [| by rewrite K1 by apply list_elem_of_here | done | done]. intros i Hi. specialize (Hp i Hi). unfold pad_view in *.
    rewrite K1 by (by apply In). rewrite Hp, K0 by (by apply In). by apply Ha. }
  destruct (init_pads f h3 _ _) as [[h4 gw] c]. cbn [fst] in C.
  pose proof (st_trng keeps h4) as K5. destruct (trng_boot h4) as [h5 tw]. cbn [fst] in K5. set (h6 := init_counter _).
  assert (K6 : keeps h5 h6) by (etrans; [apply ind_init |]; etrans; [apply (st_dac keeps) | apply (st_inits keeps)]).
  pose proof (keeps_pwm h6 pwm_sw0) as K7. destruct (pwm_bring_up h6 pwm_sw0) as [h7 pw]. cbn [fst] in K7.
  pose proof (st_vref keeps h7) as K8. destruct (init_vref h7) as [ok h8]. cbn [snd] in K8.
  pose proof (st_adc keeps ok streams h8) as K9. destruct (init_adc ok streams h8) as [h9 aw]. cbn [fst] in K9. cbn [i_gpio].
  apply (keeps_carries_out _ h4); [| exact C]. etrans; [exact K5 |]. etrans; [exact K6 |]. etrans; [exact K7 |]. etrans; [exact K8 |].
  etrans; [exact K9 |]. etrans; [apply (st_qenc keeps) | apply (st_inits keeps)].
Qed.

Lemma main_carries_out (f : F) chip0 streams t u h0 : at_reset h0 ->
  let '(h, _, sw, _, _) := main_bring_up f chip0 streams t u h0 in carries_out (boot_commands (stored_flags f)) (h, i_gpio sw).
Proof.
  intros Ha. unfold main_bring_up. pose proof (bring_up_carries_out f chip0 streams h0 Ha) as C.
  destruct (bridge_hw_init f chip0 streams h0) as [[h1 chip1] sw].
  pose proof (st_spi_init keeps h1 spi_hw0) as K2. destruct (bridge_transport_spi_hw_init h1 spi_hw0) as [h2 x]. cbn [fst] in K2.
  pose proof (st_i2c_init keeps h2) as K3. destruct (bridge_transport_i2c_hw_init h2) as [st h3]. cbn [snd] in K3.
  apply (keeps_carries_out _ h1); [by etrans | exact C].
Qed.

(** The pads carry out the host's commands from power-on.  Through the whole of
    [bridge_hw_init] and both transports' bring-up, whatever every other block
    answers, and then through any sequence of pad reads, pad writes and
    secure-element requests: the pad of the stored setting is driven high if the
    setting asks for it, the module enables are low and the CAN standby line high
    until the host writes them, a pad the host wrote is an output at the level last
    written, every other pad is an input once it was read and analog before, and
    the secure element's line is driven, released unless the last accepted request
    asserts it: no other component takes a pad or this line. *)
Theorem board_carries_out_commands (f : F) chip0 streams t u h0 rs :
  at_reset h0 ->
  let '(h, _, sw, _, _) := main_bring_up f chip0 streams t u h0 in
  carries_out (foldl command (boot_commands (stored_flags f)) rs) (foldl serve (h, i_gpio sw) rs).
Proof.
  intros Ha. pose proof (main_carries_out f chip0 streams t u h0 Ha) as C.
  destruct (main_bring_up f chip0 streams t u h0) as [[[[h chip1] sw] x] u']. by apply serve_commands.
Qed.

(** C15. A stored setting reaches its pad.  A store of the flags that reports OK, or
    one a power cut stops anywhere: after the next bring-up the board's pads carry
    out the new setting, or, only after a cut, the one stored before; the pad is
    driven high or not driven. *)
Theorem setting_reaches_pad {b} `{!FlashLaws F b} (f f' : F) flags chip0 streams t u h0 :
  counter_room f -> boot_config_store f flags = (f', OTA_FMC_RESULT_OK) \/ store_cut f flags f' -> at_reset h0 ->
  let '(h, _, sw, _, _) := main_bring_up f' chip0 streams t u h0 in
  exists v, (v = Z.land flags BOOT_CONFIG_KNOWN_FLAGS \/ v = stored_flags f /\ store_cut f flags f') /\
    carries_out (boot_commands v) (h, i_gpio sw) /\
    if Z.testbit v 0 then pad_view h 12 = Pin GPIO_MODE_OUTPUT true else pmode (pad_view h 12) <> GPIO_MODE_OUTPUT.
Proof.
  intros Hroom Hs Ha. pose proof (main_carries_out f' chip0 streams t u h0 Ha) as C.
  destruct (main_bring_up f' chip0 streams t u h0) as [[[[h chip1] sw] x] u']. exists (stored_flags f'). split; [| split; [exact C |]].
  - destruct Hs as [Hs | Hc]; [left; by eapply boot_config_store_flags |]. destruct (store_cut_flags f f' flags Hroom Hc) as [E | E]; [right | left]; done.
  - destruct C as (_ & _ & _ & _ & Hpad). destruct (Hpad 12%nat ltac:(lia)) as (_ & V). unfold boot_commands in V.
    assert (E : negb (Z.land (stored_flags f') BOOT_CONFIG_FLAG_SDMUX_EN_HIGH =? 0) = Z.testbit (stored_flags f') 0).
    { change BOOT_CONFIG_FLAG_SDMUX_EN_HIGH with (2 ^ 0). by apply land_pow2_bit. }
    rewrite E in V. destruct (Z.testbit _ 0).
    + change (commanded (command commands0 _) 12%nat) with (Some true) in V. apply V.
    + change (commanded commands0 12%nat) with (@None bool) in V. cbn iota beta in V. rewrite V. by destruct (flag _ _).
Qed.
End board.
