(* ===== verification/AdcStream.v ===== *)
(** * DMA-paced ADC streams: [hal/gd32/adc_stream.c], request side

    Begin, read and end of a stream, its interrupt handlers, the overflow
    recovery and the lap accounting.  The DMA ring is part of the hardware
    state and is read word by word, so the DMA may move between any two
    accesses. *)

From stdpp Require Import base tactics list numbers option.
From S2P Require Import Prelude BridgeHw DspChain Adc.

#[local] Set Warnings "-clear-no-such-hyp".

Definition BRIDGE_ADC_STREAM_RING_SAMPLES : Z := 1024.
Definition BRIDGE_ADC_STREAM_RATE_MAX_HZ : Z := 100000.
Definition BRIDGE_ADC_PACE_CLK_HZ : Z := 216000000.
Definition ADC_STREAM_DMA_DISABLE_SPINS : nat := 64.

(** ** Slot updates *)

(** What begin initialises before it arms the DMA. *)
Definition stream_session (s : adc_stream_state) (ch fs : Z) : adc_stream_state :=
  Stream (in_use s) ch fs 0 0 0 0
    (DmaPos (pos_laps (rd_pos s)) (pos_w (rd_pos s)) false)
    (DmaPos (pos_laps (pump_pos s)) (pos_w (pump_pos s)) false)
    0 false (proc_ring s) (proc_write s) (proc_read s) false (pump_raw_read s) (dsp_terminal s)
    false false.

Definition set_in_use (b : bool) (s : adc_stream_state) : adc_stream_state :=
  Stream b (channel s) (full_scale s) (read_idx s) (lap_count s) (dma_error_count s) (total_read s)
    (rd_pos s) (pump_pos s) (dsp_chain_id s) (dsp_bound s) (proc_ring s) (proc_write s) (proc_read s)
    (proc_gap s) (pump_raw_read s) (dsp_terminal s) (dsp_cfg_bad s) (dsp_sat s).

Definition set_laps (laps errors : Z) (s : adc_stream_state) : adc_stream_state :=
  Stream (in_use s) (channel s) (full_scale s) (read_idx s) laps errors (total_read s)
    (rd_pos s) (pump_pos s) (dsp_chain_id s) (dsp_bound s) (proc_ring s) (proc_write s) (proc_read s)
    (proc_gap s) (pump_raw_read s) (dsp_terminal s) (dsp_cfg_bad s) (dsp_sat s).

(** The reader's cursor, and both trackers. *)
Definition set_cursor (idx total : Z) (rd pump : adc_dma_pos) (raw : Z) (s : adc_stream_state)
    : adc_stream_state :=
  Stream (in_use s) (channel s) (full_scale s) idx (lap_count s) (dma_error_count s) total
    rd pump (dsp_chain_id s) (dsp_bound s) (proc_ring s) (proc_write s) (proc_read s)
    (proc_gap s) raw (dsp_terminal s) (dsp_cfg_bad s) (dsp_sat s).

Definition set_proc_read (n : Z) (gap : bool) (s : adc_stream_state) : adc_stream_state :=
  Stream (in_use s) (channel s) (full_scale s) (read_idx s) (lap_count s) (dma_error_count s)
    (total_read s) (rd_pos s) (pump_pos s) (dsp_chain_id s) (dsp_bound s) (proc_ring s)
    (proc_write s) n gap (pump_raw_read s) (dsp_terminal s) (dsp_cfg_bad s) (dsp_sat s).

(** What end clears. *)
Definition stream_ended (s : adc_stream_state) : adc_stream_state :=
  Stream false (channel s) (full_scale s) (read_idx s) (lap_count s) (dma_error_count s)
    (total_read s) (rd_pos s) (pump_pos s) (dsp_chain_id s) false (proc_ring s) (proc_write s)
    (proc_read s) (proc_gap s) (pump_raw_read s) (dsp_terminal s) false false.

Definition set_streams (l : list adc_stream_state) (w : adc_fw) : adc_fw :=
  AdcFw (vref_ok w) (vref_remeasure_pending w) (adc_vref_mv w) (adc_vrefint_code w)
    (adc_sample_cycles_cache w) (adc_resolution_bits_cache w) (adc_oversample_ratio_cache w)
    (adc_periph_busy w) l.

Definition set_stream (sid : Z) (s : adc_stream_state) (w : adc_fw) : adc_fw :=
  set_streams (<[Z.to_nat sid := s]> (adc_streams w)) w.

Section stream.
Context {H : Type} `{!AdcHw H}.

Definition adc_stream_dma_disable_confirm (h : H) (sid : Z) : bool * H :=
  poll ADC_STREAM_DMA_DISABLE_SPINS false (dma_chen sid) (hw_do h (dma_channel_disable sid)).

(** ** Interrupt handlers *)

Definition adc_stream_latch_dma_error (h : H) (s : adc_stream_state) (sid : Z)
    : H * adc_stream_state :=
  let '(v, h) := hw_read h (dma_flag_err sid) in
  if v =? 0 then (h, s)
  else (hw_dos h [dma_flag_clear_err sid; dma_interrupt_disable sid; dma_channel_disable sid],
        set_laps (lap_count s) (u32 (dma_error_count s + 1)) s).

(** [DMA0_Channel0_IRQHandler] for slot 0, [DMA1_Channel0_IRQHandler] for slot 1. *)
Definition dma_irq_handler (h : H) (s : adc_stream_state) (sid : Z) : H * adc_stream_state :=
  let '(v, h) := hw_read h (dma_flag_ftf sid) in
  let '(h, s) :=
    if negb (v =? 0) then
      (hw_do h (dma_flag_clear_ftf sid), set_laps (u32 (lap_count s + 1)) (dma_error_count s) s)
    else (h, s) in
  adc_stream_latch_dma_error h s sid.

(** ** Position *)

Definition adc_stream_write_index (h : H) (sid : Z) : Z * H :=
  let '(remaining, h) := hw_read h (dma_transfer_number sid) in
  (if (remaining =? 0) || (BRIDGE_ADC_STREAM_RING_SAMPLES <? remaining) then 0
   else u16 (BRIDGE_ADC_STREAM_RING_SAMPLES - remaining), h).

Definition adc_stream_total_written (h : H) (s : adc_stream_state) (sid : Z) (trk : adc_dma_pos)
    : Z * adc_dma_pos * H :=
  let laps := lap_count s in
  let '(w, h) := adc_stream_write_index h sid in
  let total := u32 (laps * BRIDGE_ADC_STREAM_RING_SAMPLES + w) in
  let total :=
    if pos_valid trk && (laps =? pos_laps trk) && (w <? pos_w trk)
    then u32 (total + BRIDGE_ADC_STREAM_RING_SAMPLES) else total in
  (total, DmaPos laps w true, h).

(** ** Begin *)

(** Prescaler and period of the pacing timer. *)
Definition pace_ticks (sample_rate_hz : Z) : Z * Z :=
  if 16 <=? sample_rate_hz then
    (u32 (BRIDGE_ADC_PACE_CLK_HZ / 1000000 - 1), 1000000 / sample_rate_hz)
  else (u32 (BRIDGE_ADC_PACE_CLK_HZ / 10000 - 1), 10000 / sample_rate_hz).

Definition bridge_hw_adc_stream_begin_ (h : H) (w : adc_fw) (sid ch sample_rate_hz : Z)
    : H * adc_fw * Z :=
  if BRIDGE_ADC_STREAM_COUNT <=? sid then (h, w, BRIDGE_HW_ERR_RANGE)
  else if ADC_CHANNEL_MAP_COUNT <=? ch then (h, w, BRIDGE_HW_ERR_RANGE)
  else if sample_rate_hz =? 0 then (h, w, BRIDGE_HW_ERR_INVAL)
  else if BRIDGE_ADC_STREAM_RATE_MAX_HZ <? sample_rate_hz then (h, w, BRIDGE_HW_ERR_RANGE)
  else
    let '(ready, h, w) := vref_ready_check h w in
    if negb ready then (h, w, BRIDGE_HW_ERR_IO)
    else
      match adc_streams w !! Z.to_nat sid with
      | None => (h, w, BRIDGE_HW_ERR_RANGE)
      | Some s =>
          let p := ch_periph ch in
          if in_use s then (h, w, BRIDGE_HW_ERR_INVAL)
          else if stream_on_periph (adc_streams w) 0 sid p then (h, w, BRIDGE_HW_ERR_INVAL)
          else
            let h := hw_dos h [rcu_periph_clock_enable_dmamux; rcu_periph_clock_enable_dma sid] in
            let '(stopped, h) := adc_stream_dma_disable_confirm h sid in
            if negb stopped then (h, w, BRIDGE_HW_ERR_IO)
            else
              let h := hw_dos h [dma_deinit sid; dma_init sid p BRIDGE_ADC_STREAM_RING_SAMPLES;
                                 dma_circulation_enable sid] in
              let '(claimed, w) := adc_periph_claim w p in
              if negb claimed then (h, w, BRIDGE_HW_ERR_BUSY)
              else
                let h := hw_do h (adc_disable p) in
                let h := adc_apply_conv_format h w p ch in
                let h := hw_dos h
                  [adc_routine_channel_config p 0 (ch_channel ch) (adc_sample_cycles_cache w).[ch];
                   adc_external_trigger_config p true;
                   adc_dma_request_after_last_enable p; adc_dma_mode_enable p;
                   adc_flag_clear_eoc p; adc_flag_clear_rovf p; adc_enable p; dwell 4096] in
                let '(cal, h) := adc_calibrate_bounded h p in
                if negb cal then (h, adc_periph_release w p, BRIDGE_HW_ERR_IO)
                else
                  let s := stream_session s ch
                             (adc_full_scale_for_bits (adc_resolution_bits_cache w).[ch]) in
                  let '(psc, period) := pace_ticks sample_rate_hz in
                  let h := hw_dos h
                    [dma_flag_clear_ftf sid; dma_flag_clear_err sid; dma_interrupt_enable sid;
                     nvic_irq_enable sid; dma_channel_enable sid;
                     rcu_periph_clock_enable_trigsel; trigsel_init p sid;
                     rcu_periph_clock_enable_timer sid; timer_deinit sid;
                     timer_init sid (u16 psc) (period - 1); timer_trgo_update sid;
                     timer_enable sid] in
                  let w := set_stream sid (set_in_use true s) w in
                  (h, adc_periph_release w p, BRIDGE_HW_OK)
      end.

(** ** Read *)

Definition adc_stream_recover_rovf (h : H) (s : adc_stream_state) (sid p : Z) : bool * H :=
  let h := hw_dos h [adc_dma_mode_disable p; adc_disable p] in
  let '(stopped, h) := adc_stream_dma_disable_confirm h sid in
  if negb stopped then (false, h)
  else
    let h := hw_dos h
      [dma_transfer_number_config sid BRIDGE_ADC_STREAM_RING_SAMPLES; dma_flag_clear_ftf sid;
       adc_flag_clear_rovf p; dma_channel_enable sid; adc_dma_mode_enable p; adc_enable p;
       dwell 4096] in
    adc_calibrate_bounded h p.

(** The two copy loops: from the processed ring, and from the DMA ring. *)
Fixpoint emit_proc (n : nat) (ring : list Z) (proc_rd fs vref : Z) : list Z :=
  match n with
  | O => []
  | S n =>
      code_mv ring.[proc_rd mod BRIDGE_ADC_STREAM_RING_SAMPLES] fs vref
        :: emit_proc n ring (u32 (proc_rd + 1)) fs vref
  end.

Fixpoint emit_raw (n : nat) (sid idx fs vref : Z) (h : H) : list Z * Z * H :=
  match n with
  | O => ([], idx, h)
  | S n =>
      let '(code, h) := hw_read h (ring_word sid idx) in
      let '(mv, idx, h) :=
        emit_raw n sid (u16 ((idx + 1) mod BRIDGE_ADC_STREAM_RING_SAMPLES)) fs vref h in
      (code_mv (u16 code) fs vref :: mv, idx, h)
  end.

(** The filtered data plane of a bound stream. *)
Definition read_processed (s : adc_stream_state) (max_samples vref : Z)
    : adc_stream_state * (Z * list Z) :=
  if dsp_terminal s =? 3 then (s, (BRIDGE_HW_ERR_NOTIMPL, []))
  else if dsp_cfg_bad s then (s, (BRIDGE_HW_ERR_RANGE, []))
  else if dsp_sat s then (s, (BRIDGE_HW_ERR_IO, []))
  else if proc_gap s then (set_proc_read (proc_write s) false s, (BRIDGE_HW_ERR_BUSY, []))
  else
    let pw := proc_write s in
    let pbacklog := s32 (pw - proc_read s) in
    if pbacklog <=? 0 then (s, (BRIDGE_HW_OK, []))
    else if BRIDGE_ADC_STREAM_RING_SAMPLES <=? u32 pbacklog then
      (set_proc_read pw (proc_gap s) s, (BRIDGE_HW_ERR_BUSY, []))
    else
      let pavail := u16 pbacklog in
      let emit := if pavail <? max_samples then pavail else max_samples in
      (set_proc_read (u32 (proc_read s + emit)) (proc_gap s) s,
       (BRIDGE_HW_OK,
        emit_proc (Z.to_nat emit) (proc_ring s) (proc_read s) (full_scale s) vref)).

(** The raw data plane. *)
Definition read_raw (h : H) (s : adc_stream_state) (sid max_samples vref : Z)
    : H * adc_stream_state * (Z * list Z) :=
  let '(total_written, trk, h) := adc_stream_total_written h s sid (rd_pos s) in
  let s := set_cursor (read_idx s) (total_read s) trk (pump_pos s) (pump_raw_read s) s in
  let '(w, h) := adc_stream_write_index h sid in
  let backlog := s32 (total_written - total_read s) in
  if backlog <=? 0 then (h, s, (BRIDGE_HW_OK, []))
  else if BRIDGE_ADC_STREAM_RING_SAMPLES <=? u32 backlog then
    (h, set_cursor (u16 (w mod BRIDGE_ADC_STREAM_RING_SAMPLES)) total_written (rd_pos s)
          (pump_pos s) (pump_raw_read s) s, (BRIDGE_HW_ERR_BUSY, []))
  else
    let avail := u16 backlog in
    let to_emit := if avail <? max_samples then avail else max_samples in
    let '(mv, idx, h) := emit_raw (Z.to_nat to_emit) sid (read_idx s) (full_scale s) vref h in
    (h, set_cursor idx (u32 (total_read s + to_emit)) (rd_pos s) (pump_pos s) (pump_raw_read s) s,
     (BRIDGE_HW_OK, mv)).

Definition bridge_hw_adc_stream_read_ (h : H) (w : adc_fw) (sid max_samples : Z)
    : H * adc_fw * (Z * list Z) :=
  if BRIDGE_ADC_STREAM_COUNT <=? sid then (h, w, (BRIDGE_HW_ERR_RANGE, []))
  else
    match adc_streams w !! Z.to_nat sid with
    | None => (h, w, (BRIDGE_HW_ERR_RANGE, []))
    | Some s =>
        if negb (in_use s) then (h, w, (BRIDGE_HW_ERR_INVAL, []))
        else
          let '(h, s) := adc_stream_latch_dma_error h s sid in
          if negb (dma_error_count s =? 0) then (h, set_stream sid s w, (BRIDGE_HW_ERR_IO, []))
          else
            let p := ch_periph (channel s) in
            let '(rovf, h) := hw_read h (flag_rovf p) in
            if negb (rovf =? 0) then
              let '(recal_ok, h) := adc_stream_recover_rovf h s sid p in
              let '(w_idx, h) := adc_stream_write_index h sid in
              let total := u32 (lap_count s * BRIDGE_ADC_STREAM_RING_SAMPLES + w_idx) in
              let s := set_cursor (u16 (w_idx mod BRIDGE_ADC_STREAM_RING_SAMPLES)) total
                         (DmaPos (pos_laps (rd_pos s)) (pos_w (rd_pos s)) false)
                         (DmaPos (pos_laps (pump_pos s)) (pos_w (pump_pos s)) false) total s in
              (h, set_stream sid s w,
               (if (recal_ok : bool) then BRIDGE_HW_ERR_BUSY else BRIDGE_HW_ERR_IO, []))
            else if dsp_bound s then
              let '(s, r) := read_processed s max_samples (adc_vref_mv w) in
              (h, set_stream sid s w, r)
            else
              let '(h, s, r) := read_raw h s sid max_samples (adc_vref_mv w) in
              (h, set_stream sid s w, r)
    end.

(** ** End

    [release] is the hand-back of the accelerators ([adc_dsp_fac_release] and
    [adc_dsp_fft_release]) on their owner bytes. *)
Definition bridge_hw_adc_stream_end_ {O : Type} (release : O -> Z -> O) (h : H) (w : adc_fw)
    (chains : list adc_dsp_chain) (owners : O) (sid : Z)
    : H * adc_fw * list adc_dsp_chain * O * Z :=
  if BRIDGE_ADC_STREAM_COUNT <=? sid then (h, w, chains, owners, BRIDGE_HW_ERR_RANGE)
  else
    match adc_streams w !! Z.to_nat sid with
    | None => (h, w, chains, owners, BRIDGE_HW_ERR_RANGE)
    | Some s =>
        if negb (in_use s) then (h, w, chains, owners, BRIDGE_HW_OK)
        else
          let p := ch_periph (channel s) in
          let h := hw_dos h [timer_disable sid; timer_deinit sid;
                             adc_dma_request_after_last_disable p; adc_dma_mode_disable p] in
          let '(stopped, h) := adc_stream_dma_disable_confirm h sid in
          if negb stopped then (h, w, chains, owners, BRIDGE_HW_ERR_IO)
          else
            let h := hw_dos h [dmamux_idle sid; dma_interrupt_disable sid; nvic_irq_disable sid;
                               dma_flag_clear_ftf sid; dma_flag_clear_err sid; dwell 8192] in
            let '(restored, h) := adc_periph_restore h p in
            let '(owners, chains) :=
              if dsp_bound s then (release owners sid, adc_dsp_chain_release chains (dsp_chain_id s))
              else (owners, chains) in
            (h, set_stream sid (stream_ended s) w, chains, owners,
             if (restored : bool) then BRIDGE_HW_OK else BRIDGE_HW_ERR_IO)
    end.

End stream.

(** ** The DMA, with a ghost count of the samples it has deposited *)

(** [written h sid] samples since the stream was armed; the [n]-th is
    [deposit sid n] and stays in its ring slot until sample [n + 1024]. *)
Class DmaLaws (H : Type) `{!AdcHw H} := {
  written : H -> Z -> Z;
  deposit : Z -> Z -> Z;
  dl_nonneg h sid : 0 <= written h sid;
  dl_mono h sid r : written h sid <= written (hw_read h r).2 sid;
  dl_count h sid :
    let '(v, h') := hw_read h (dma_transfer_number sid) in
    v = 1024 - written h' sid mod 1024 \/ v = 0 /\ written h' sid mod 1024 = 0;
  dl_ring h sid idx n :
    let '(v, h') := hw_read h (ring_word sid idx) in
    0 <= n < written h' sid -> written h' sid <= n + 1024 -> n mod 1024 = idx ->
    v = deposit sid n /\ is_u16 v }.

(** The reader stands at sample [R]. *)
Definition cursor_ok (s : adc_stream_state) (R : Z) : Prop :=
  0 <= R /\ total_read s = u32 R /\ read_idx s = R mod 1024.

Lemma u32_sub a b : u32 (u32 a - u32 b) = u32 (a - b).
Proof. unfold u32. by rewrite <- Zminus_mod. Qed.

Lemma u32_add_r a b : u32 (u32 a + b) = u32 (a + b).
Proof. unfold u32. by rewrite Zplus_mod_idemp_l. Qed.

Lemma s32_diff a b : 0 <= a - b < 0x80000000 -> s32 (u32 a - u32 b) = a - b.
Proof.
  intros Hd. unfold s32. rewrite u32_sub. rewrite (u32_id (a - b)) by (unfold is_u32; lia).
  destruct (Z.ltb_spec (a - b) 0x80000000); lia.
Qed.

Section dma.
Context {H : Type} `{!AdcHw H} `{!DmaLaws H}.

Lemma write_index_spec (h : H) sid :
  let '(w, h') := adc_stream_write_index h sid in
  w = written h' sid mod 1024 /\ written h sid <= written h' sid.
Proof.
  unfold adc_stream_write_index. pose proof (dl_count h sid) as Hc.
  pose proof (dl_mono h sid (dma_transfer_number sid)) as Hm.
  destruct (hw_read h (dma_transfer_number sid)) as [v h']. cbn [snd] in Hm. split; [| done].
  pose proof (Z.mod_pos_bound (written h' sid) 1024 ltac:(lia)) as Hb.
  unfold BRIDGE_ADC_STREAM_RING_SAMPLES. destruct Hc as [-> | [-> E]]; [| by rewrite E].
  destruct (Z.eqb_spec (1024 - written h' sid mod 1024) 0); [lia |].
  destruct (Z.ltb_spec 1024 (1024 - written h' sid mod 1024)); [lia |]. simpl.
  rewrite u16_id; [lia |]. unfold is_u16. lia.
Qed.

(** A tracker last updated when [T0] samples were written and the interrupt had
    counted all but [m0] of the reloads. *)
Definition tracked (trk : adc_dma_pos) (T0 L0 m0 : Z) : Prop :=
  pos_laps trk = u32 L0 /\ pos_w trk = T0 mod 1024 /\ L0 = T0 / 1024 - m0 /\ 0 <= m0 <= 1.

(** Lap accounting: while the interrupt is at most one reload behind, the
    corrected total is the number of samples written or one ring less, never
    more; it is exact when the interrupt is up to date, and exact for the first
    look after an uncounted reload.  So a reader is never told of samples the
    DMA has not written. *)
Theorem total_written_never_over (h : H) s sid trk L m T0 L0 m0 :
  lap_count s = u32 L -> 0 <= m <= 1 ->
  let '(total, trk', h') := adc_stream_total_written h s sid trk in
  let T := written h' sid in
  L = T / 1024 - m ->
  (pos_valid trk = true -> tracked trk T0 L0 m0 /\ 0 <= T0 <= T /\ L0 <= L < L0 + 0x100000000) ->
  (total = u32 T \/ m = 1 /\ total = u32 (T - 1024)) /\
  (m = 0 -> total = u32 T) /\
  (pos_valid trk = true -> m0 = 0 -> T - T0 < 1024 -> total = u32 T) /\
  tracked trk' T L m /\ pos_valid trk' = true.
Proof.
  intros Hlap Hm. unfold adc_stream_total_written, BRIDGE_ADC_STREAM_RING_SAMPLES.
  pose proof (write_index_spec h sid) as Hw. destruct (adc_stream_write_index h sid) as [w h'].
  destruct Hw as [-> _]. cbv zeta. set (T := written h' sid) in *.
  intros HL Htrk.
  assert (Hraw : u32 (lap_count s * 1024 + T mod 1024) = u32 (T - m * 1024)).
  { rewrite Hlap. unfold u32. rewrite <- Zplus_mod_idemp_l, Zmult_mod_idemp_l, Zplus_mod_idemp_l.
    f_equal. subst L. zlia. }
  rewrite Hraw. assert (Htr : tracked (DmaPos (lap_count s) (T mod 1024) true) T L m) by done.
  destruct (pos_valid trk) eqn:Ev; cbn [andb].
  2: { split_and!; try done; try (intros ->; f_equal; lia).
       destruct (decide (m = 0)) as [-> | ?]; [left; f_equal; lia |].
       right. split; [lia |]. f_equal. lia. }
  destruct (Htrk eq_refl) as ((El & Ew & EL0 & Hm0) & HT0 & HLL).
  rewrite El, Ew, Hlap.
  destruct (Z.eqb_spec (u32 L) (u32 L0)) as [E | E]; cbn [andb].
  - assert (L = L0) as HLeq by (unfold u32 in E; zlia).
    destruct (Z.ltb_spec (T mod 1024) (T0 mod 1024)) as [Hlt | Hge].
    + assert (m = 1) as -> by zlia. rewrite u32_add_r.
      split_and!; try done; try (intros; f_equal; lia). left. f_equal; lia.
    + assert (Hcase : m = 0 \/ m = 1) by lia.
      split_and!; try done; try (intros ->; f_equal; lia).
      * destruct Hcase as [-> | ->]; [left; f_equal; lia | right; split; [done | f_equal; lia]].
      * intros _ -> Hd. f_equal. zlia.
  - assert (Hcase : m = 0 \/ m = 1) by lia.
    split_and!; try done; try (intros ->; f_equal; lia).
    + destruct Hcase as [-> | ->]; [left; f_equal; lia | right; split; [done | f_equal; lia]].
    + intros _ -> Hd. f_equal. assert (L <> L0) by congruence. zlia.
Qed.

(** ** What a raw read delivers *)

Lemma emit_raw_spec n sid fs vref : forall (h : H) R,
  0 <= R ->
  let '(mv, idx, h') := emit_raw n sid (R mod 1024) fs vref h in
  length mv = n /\ idx = (R + Z.of_nat n) mod 1024 /\ written h sid <= written h' sid /\
  (R + Z.of_nat n <= written h sid -> written h' sid <= R + 1024 ->
   forall i : nat, (i < n)%nat -> mv !! i = Some (code_mv (deposit sid (R + Z.of_nat i)) fs vref)).
Proof.
  induction n as [| n IH]; intros h R HR; cbn [emit_raw].
  { split_and!; try done; [f_equal; lia | intros; lia]. }
  pose proof (dl_ring h sid (R mod 1024) R) as Hring. pose proof (dl_mono h sid (ring_word sid (R mod 1024))) as Hm.
  destruct (hw_read h (ring_word sid (R mod 1024))) as [code h1]. cbn [snd] in Hm.
  unfold BRIDGE_ADC_STREAM_RING_SAMPLES.
  assert (Hidx : u16 ((R mod 1024 + 1) mod 1024) = (R + 1) mod 1024).
  { rewrite Zplus_mod_idemp_l. apply u16_id. unfold is_u16. zlia. }
  rewrite Hidx. specialize (IH h1 (R + 1) ltac:(lia)).
  destruct (emit_raw n sid ((R + 1) mod 1024) fs vref h1) as [[mv idx] h'].
  destruct IH as (Hl & -> & Hm' & Hmv). split_and!; simpl; try lia; [f_equal; lia |].
  intros Hw Hend i Hi. destruct (Hring ltac:(lia) ltac:(lia) eq_refl) as [Hcode Hu].
  destruct i as [| i].
  - simpl. rewrite Z.add_0_r, u16_id by done. by rewrite Hcode.
  - simpl. rewrite (Hmv ltac:(lia) ltac:(lia) i ltac:(lia)). do 3 f_equal. lia.
Qed.

(** A raw read with an exact total: a reader less than a ring behind gets
    OK and the next samples in deposit order, none skipped or repeated, as many
    as exist up to the request, each scaled from the word the DMA wrote,
    provided the DMA does not lap the reader during the copy; a reader a ring
    or more behind gets BUSY and no samples, and restarts at the live position
    when the DMA did not move between the two position reads. *)
Theorem read_raw_delivers (h : H) s sid max_samples vref R :
  cursor_ok s R -> 0 <= max_samples < 256 ->
  let '(total, _, h1) := adc_stream_total_written h s sid (rd_pos s) in
  let T := written h1 sid in
  total = u32 T -> R <= T < R + 0x80000000 ->
  let '(h', s', (rc, mv)) := read_raw h s sid max_samples vref in
  (T < R + 1024 ->
     rc = BRIDGE_HW_OK /\ Z.of_nat (length mv) = Z.min (T - R) max_samples /\
     cursor_ok s' (R + Z.of_nat (length mv)) /\
     (written h' sid <= R + 1024 -> forall i : nat, (i < length mv)%nat ->
        mv !! i = Some (code_mv (deposit sid (R + Z.of_nat i)) (full_scale s) vref))) /\
  (R + 1024 <= T ->
     rc = BRIDGE_HW_ERR_BUSY /\ mv = [] /\ (written h' sid = T -> cursor_ok s' T)).
Proof.
  intros (HR & Ht & Hidx) Hmax. unfold read_raw.
  destruct (adc_stream_total_written h s sid (rd_pos s)) as [[total trk] h1].
  cbv zeta. intros -> HRT. pose proof (write_index_spec h1 sid) as Hw.
  destruct (adc_stream_write_index h1 sid) as [w h2]. destruct Hw as [-> Hw12].
  cbn [total_read set_cursor read_idx rd_pos pump_pos pump_raw_read full_scale].
  rewrite Ht, s32_diff by lia. unfold BRIDGE_ADC_STREAM_RING_SAMPLES.
  destruct (Z.leb_spec (written h1 sid - R) 0) as [Hle | Hgt].
  - assert (written h1 sid = R) as E by lia. split; [| lia]. intros _.
    split_and!; [done | simpl; lia | | simpl; lia].
    simpl. rewrite Z.add_0_r. split_and!; done.
  - rewrite (u32_id (written h1 sid - R)) by (unfold is_u32; lia).
    destruct (Z.leb_spec 1024 (written h1 sid - R)) as [Hlap | Hlap].
    + split; [lia |]. intros _. split_and!; try done. intros E.
      split_and!; simpl; [lia | done |]. rewrite <- E, Z.mod_mod by lia.
      apply u16_id. unfold is_u16. zlia.
    + rewrite (u16_id (written h1 sid - R)) by (unfold is_u16; lia).
      set (n := if written h1 sid - R <? max_samples then written h1 sid - R else max_samples).
      assert (Hn : n = Z.min (written h1 sid - R) max_samples)
        by (unfold n; destruct (Z.ltb_spec (written h1 sid - R) max_samples); lia).
      pose proof (emit_raw_spec (Z.to_nat n) sid (full_scale s) vref h2 R HR) as He.
      rewrite Hidx. destruct (emit_raw (Z.to_nat n) sid (R mod 1024) (full_scale s) vref h2)
        as [[mv idx] h3]. destruct He as (Hl & -> & Hm & Hmv).
      split; [| lia]. intros _. split_and!; [done | lia | | ].
      * split_and!; simpl; [lia | rewrite u32_add_r; f_equal; lia | f_equal; lia].
      * intros Hend i Hi. apply Hmv; lia.
Qed.

End dma.

(** ** Begin *)

(** No two running streams share a converter. *)
Definition streams_exclusive (l : list adc_stream_state) : Prop :=
  forall i j si sj, l !! i = Some si -> l !! j = Some sj -> i <> j ->
    in_use si = true -> in_use sj = true -> ch_periph (channel si) <> ch_periph (channel sj).

Lemma stream_on_periph_spec l : forall i except p,
  stream_on_periph l i except p = true <->
  exists j s, l !! j = Some s /\ i + Z.of_nat j <> except /\ in_use s = true /\
    ch_periph (channel s) = p.
Proof.
  induction l as [| s l IH]; intros i except p; cbn [stream_on_periph].
  { split; [done |]. intros (j & s & E & _). done. }
  destruct (negb (i =? except) && in_use s && (ch_periph (channel s) =? p)) eqn:E.
  - split; [intros _ | done]. rewrite !andb_true_iff, negb_true_iff, Z.eqb_neq, Z.eqb_eq in E.
    exists 0%nat, s. rewrite Z.add_0_r. naive_solver.
  - rewrite IH. split.
    + intros (j & s' & Ej & Hne & Hs). exists (S j), s'. split; [done | split; [lia | done]].
    + intros ([| j] & s' & Ej & Hne & Hu & Hp); simpl in Ej.
      * injection Ej as ->. exfalso. apply Bool.not_true_iff_false in E. apply E.
        rewrite !andb_true_iff, negb_true_iff, Z.eqb_neq, Z.eqb_eq. rewrite Z.add_0_r in Hne. done.
      * exists j, s'. split_and!; try done; lia.
Qed.

Lemma exclusive_begin l sid s s' :
  streams_exclusive l -> l !! sid = Some s ->
  stream_on_periph l 0 (Z.of_nat sid) (ch_periph (channel s')) = false ->
  streams_exclusive (<[sid := s']> l).
Proof.
  intros Hx Es Hn i j si sj Ei Ej Hij Ui Uj.
  assert (Hother : forall k sk, k <> sid -> l !! k = Some sk -> in_use sk = true ->
    ch_periph (channel sk) <> ch_periph (channel s')).
  { intros k sk Hk Ek Uk Heq. apply Bool.not_true_iff_false in Hn. apply Hn.
    apply stream_on_periph_spec. exists k, sk. split_and!; try done. lia. }
  assert (Hlen : (sid < length l)%nat) by (by eapply lookup_lt_Some).
  destruct (decide (i = sid)) as [-> | Hi], (decide (j = sid)) as [-> | Hj]; try done.
  - rewrite list_lookup_insert_eq in Ei by done. injection Ei as <-.
    rewrite list_lookup_insert_ne in Ej by done. intros E. by apply (Hother j sj Hj Ej Uj).
  - rewrite list_lookup_insert_eq in Ej by done. injection Ej as <-.
    rewrite list_lookup_insert_ne in Ei by done. by apply (Hother i si Hi Ei Ui).
  - rewrite list_lookup_insert_ne in Ei, Ej by done. by apply (Hx i j si sj).
Qed.

(** Slots that only differ in fields other than [in_use] and [channel]. *)
Lemma exclusive_same l sid s s' :
  streams_exclusive l -> l !! sid = Some s ->
  (in_use s' = true -> in_use s = true /\ channel s' = channel s) ->
  streams_exclusive (<[sid := s']> l).
Proof.
  intros Hx Es Hs i j si sj Ei Ej Hij Ui Uj.
  assert (Hback : forall k sk, <[sid := s']> l !! k = Some sk -> in_use sk = true ->
    exists s0, l !! k = Some s0 /\ in_use s0 = true /\ channel s0 = channel sk).
  { intros k sk Ek Uk. destruct (decide (k = sid)) as [-> | Hk].
    - rewrite list_lookup_insert_eq in Ek by (by eapply lookup_lt_Some). injection Ek as <-.
      destruct (Hs Uk) as [U E]. exists s. done.
    - rewrite list_lookup_insert_ne in Ek by done. by exists sk. }
  destruct (Hback i si Ei Ui) as (s1 & E1 & U1 & <-), (Hback j sj Ej Uj) as (s2 & E2 & U2 & <-).
  by apply (Hx i j s1 s2).
Qed.

Section begin.
Context {H : Type} `{!AdcHw H}.

(** The slot a successful begin leaves. *)
Definition begun (w : adc_fw) (s : adc_stream_state) (ch : Z) : adc_stream_state :=
  set_in_use true (stream_session s ch
    (adc_full_scale_for_bits (adc_resolution_bits_cache w).[ch])).

(** What a begin needs. *)
Record can_begin (w : adc_fw) (sid ch rate : Z) (s : adc_stream_state) : Prop := {
  cb_sid : sid < 2;
  cb_ch : ch < 8;
  cb_rate : 1 <= rate <= 100000;
  cb_vref : vref_ok w = true;
  cb_slot : adc_streams w !! Z.to_nat sid = Some s;
  cb_idle : in_use s = false;
  cb_alone : stream_on_periph (adc_streams w) 0 sid (ch_periph ch) = false;
  cb_unclaimed : adc_periph_busy w !! Z.to_nat (ch_periph ch) = Some false }.

(** Begin either refuses, at most noting that the reference came ready late, or
    starts the session. *)
Lemma begin_cases (h : H) w sid ch rate :
  0 <= sid -> 0 <= ch -> 0 <= rate ->
  let '(_, w', rc) := bridge_hw_adc_stream_begin_ h w sid ch rate in
  exists pending,
  (rc <> BRIDGE_HW_OK /\ w' = set_vref (vref_ok w) pending w) \/
  exists s, rc = BRIDGE_HW_OK /\ can_begin w sid ch rate s /\
    w' = set_stream sid (begun w s ch) (set_vref (vref_ok w) pending w).
Proof.
  intros Hsid Hch Hrate. unfold bridge_hw_adc_stream_begin_.
  unfold BRIDGE_ADC_STREAM_COUNT, ADC_CHANNEL_MAP_COUNT, BRIDGE_ADC_STREAM_RATE_MAX_HZ.
  assert (Hid : w = set_vref (vref_ok w) (vref_remeasure_pending w) w) by (by destruct w).
  destruct (Z.leb_spec 2 sid); [by eexists; left |]. destruct (Z.leb_spec 8 ch); [by eexists; left |].
  destruct (Z.eqb_spec rate 0); [by eexists; left |].
  destruct (Z.ltb_spec 100000 rate); [by eexists; left |]. clear Hid.
  pose proof (ready_check_frame h w) as Hrc.
  destruct (vref_ready_check h w) as [[ok h1] w1]. destruct Hrc as (-> & pending & ->).
  destruct (vref_ok w) eqn:Ev; cbn [negb]; [| by exists pending; left].
  cbn [adc_streams set_vref].
  destruct (adc_streams w !! Z.to_nat sid) as [s |] eqn:Es; [| by exists pending; left].
  destruct (in_use s) eqn:Eu; [by exists pending; left |].
  destruct (stream_on_periph (adc_streams w) 0 sid (ch_periph ch)) eqn:Esp; [by exists pending; left |].
  destruct (adc_stream_dma_disable_confirm _ sid) as [[] h2]; cbn [negb]; [| by exists pending; left].
  destruct (adc_periph_claim (set_vref true pending w) (ch_periph ch)) as [claimed w2] eqn:Ecl.
  destruct claimed; cbn [negb].
  2: { exists pending. left. split; [done |]. unfold adc_periph_claim in Ecl.
       repeat case_match; by simplify_eq. }
  pose proof (claim_true _ _ _ Ecl) as (_ & Hb & Ew2).
  destruct (adc_calibrate_bounded _ (ch_periph ch)) as [[] h3]; cbn [negb].
  2: { rewrite (release_claimed _ _ _ w2 Ecl), Ew2 by done. by exists pending; left. }
  destruct (pace_ticks rate) as [psc period].
  rewrite (release_claimed _ _ _ _ Ecl), Ew2 by done. exists pending. right. exists s.
  split; [done |]. split; [| done]. split; done || lia.
Qed.

(** Begin, whatever the hardware does: the converter claim is always given
    back; a refusal leaves every slot as it was; success means the request was
    in range, the reference is locked, the slot was idle and no other stream
    runs on the converter, and the slot then holds a fresh session.  Running
    streams never share a converter. *)
Theorem stream_begin_contract (h : H) w sid ch rate :
  adc_ok w -> length (adc_streams w) = 2%nat -> streams_exclusive (adc_streams w) ->
  0 <= sid -> 0 <= ch -> 0 <= rate ->
  let '(_, w', rc) := bridge_hw_adc_stream_begin_ h w sid ch rate in
  adc_periph_busy w' = adc_periph_busy w /\ adc_ok w' /\ streams_exclusive (adc_streams w') /\
  (rc <> BRIDGE_HW_OK -> adc_streams w' = adc_streams w) /\
  (rc = BRIDGE_HW_OK -> exists s, can_begin w sid ch rate s /\
     adc_streams w' = <[Z.to_nat sid := begun w s ch]> (adc_streams w)).
Proof.
  intros Hw Hlen Hx Hsid Hch Hrate. pose proof (begin_cases h w sid ch rate Hsid Hch Hrate) as Hc.
  destruct (bridge_hw_adc_stream_begin_ h w sid ch rate) as [[h' w'] rc].
  destruct Hc as (pending & [[Hrc ->] | (s & -> & Hb & ->)]).
  - split_and!; try done. by destruct Hw.
  - split_and!; [done | by destruct Hw | | done | eauto]. cbn [adc_streams set_stream set_streams set_vref].
    apply (exclusive_begin _ _ s); [done | apply Hb |]. rewrite Z2Nat.id by lia. apply Hb.
Qed.

End begin.

(** Pacing: for every accepted rate the prescaler and the period fit the
    16-bit timer, and the realised tick rate is the largest integer period that
    is not slower than the request. *)
Theorem pace_ticks_exact rate :
  1 <= rate <= BRIDGE_ADC_STREAM_RATE_MAX_HZ ->
  let '(psc, period) := pace_ticks rate in
  let tick_hz := BRIDGE_ADC_PACE_CLK_HZ / (u16 psc + 1) in
  is_u16 psc /\ 10 <= period <= 62500 /\
  tick_hz * (u16 psc + 1) = BRIDGE_ADC_PACE_CLK_HZ /\
  period * rate <= tick_hz < (period + 1) * rate.
Proof.
  unfold BRIDGE_ADC_STREAM_RATE_MAX_HZ. intros Hr. unfold pace_ticks.
  destruct (Z.leb_spec 16 rate).
  - change (u32 (BRIDGE_ADC_PACE_CLK_HZ / 1000000 - 1)) with 215.
    change (u16 215) with 215. change (BRIDGE_ADC_PACE_CLK_HZ / (215 + 1)) with 1000000.
    assert (Hq : 10 <= 1000000 / rate <= 62500).
    { split; [apply Z.div_le_lower_bound; lia |]. apply Z.div_le_upper_bound; lia. }
    pose proof (Z.mul_div_le 1000000 rate ltac:(lia)). pose proof (Z.mul_succ_div_gt 1000000 rate ltac:(lia)).
    split_and!; try done; try lia.
  - change (u32 (BRIDGE_ADC_PACE_CLK_HZ / 10000 - 1)) with 21599.
    change (u16 21599) with 21599. change (BRIDGE_ADC_PACE_CLK_HZ / (21599 + 1)) with 10000.
    assert (Hq : 10 <= 10000 / rate <= 62500).
    { split; [apply Z.div_le_lower_bound; lia |]. apply Z.div_le_upper_bound; lia. }
    pose proof (Z.mul_div_le 10000 rate ltac:(lia)). pose proof (Z.mul_succ_div_gt 10000 rate ltac:(lia)).
    split_and!; try done; try lia.
Qed.
