(* ===== verification/AdcSystem.v ===== *)
(** * Streams and chains together

    Every request that touches the ADC and DSP state, interleaved with its
    interrupts, the base-level pump and the hardware, as one step relation.  The
    invariant says who owns what: converters, chains and the two single-instance
    accelerator blocks are never shared, and no chain is lost. *)

From stdpp Require Import base tactics list numbers option.
From S2P Require Import Prelude BridgeHw DspChain Adc AdcStream.

(** Firmware state seen by the requests. *)
Record adc_sys := AdcSys { sy_fw : adc_fw; sy_chains : list adc_dsp_chain }.

(** What the invariant reads of a slot. *)
Definition slot_key (s : adc_stream_state) : bool * Z * bool * Z * Z :=
  (in_use s, channel s, dsp_bound s, dsp_chain_id s, dsp_terminal s).

(** What a request leaves of a slot whose chain is running. *)
Definition run_key (s : adc_stream_state) : (bool * Z * bool * Z * Z) * Z * list Z * Z :=
  (slot_key s, full_scale s, proc_ring s, proc_write s).

(** The pump's place in the raw samples. *)
Definition cursor (s : adc_stream_state) : Z * adc_dma_pos := (pump_raw_read s, pump_pos s).

(** It is left alone, or marked stale with its tracker, as overrun recovery does. *)
Definition cursor_kept (s s' : adc_stream_state) : Prop :=
  cursor s' = cursor s \/ pos_valid (pump_pos s') = false.

Lemma cursor_kept_refl s : cursor_kept s s.
Proof. by left. Qed.

Lemma cursor_same s s' : cursor s' = cursor s -> cursor_kept s s'.
Proof. by left. Qed.

Lemma run_slot_key s s' : run_key s' = run_key s -> slot_key s' = slot_key s.
Proof. intros E. by apply (f_equal (fun x => x.1.1.1)) in E. Qed.

(** A bound stream and the chain it runs. *)
Definition attached (chains : list adc_dsp_chain) (s : adc_stream_state) : Prop :=
  in_use s = true /\ 0 <= dsp_chain_id s < BRIDGE_DSP_MAX_CHAINS /\
  exists c, chains !! Z.to_nat (dsp_chain_id s) = Some c /\
    ch_in_use c = true /\ ch_bound c = true /\ realisable (stages c) (dsp_terminal s).

Record owned (chains : list adc_dsp_chain) (l : list adc_stream_state) : Prop := {
  ow_exclusive : streams_exclusive l;
  ow_attached : forall i s, l !! i = Some s -> dsp_bound s = true -> attached chains s;
  ow_distinct : forall i j si sj, l !! i = Some si -> l !! j = Some sj -> i <> j ->
    dsp_bound si = true -> dsp_bound sj = true ->
    dsp_chain_id si <> dsp_chain_id sj /\
    (dsp_terminal si =? 3) <> (dsp_terminal sj =? 3);
  ow_no_leak : forall k c, chains !! k = Some c -> ch_bound c = true ->
    ch_in_use c = true /\
    exists i s, l !! i = Some s /\ dsp_bound s = true /\ Z.to_nat (dsp_chain_id s) = k }.

Record sys_inv (y : adc_sys) : Prop := {
  sv_adc : adc_ok (sy_fw y);
  sv_streams : length (adc_streams (sy_fw y)) = 2%nat;
  sv_pool : pool_ok (sy_chains y);
  sv_owned : owned (sy_chains y) (adc_streams (sy_fw y)) }.

(** ** Ownership under each kind of change *)

Lemma attached_key chains s s' :
  slot_key s' = slot_key s -> attached chains s -> attached chains s'.
Proof. intros Hk. injection Hk as E1 _ _ E4 E5. unfold attached. by rewrite E1, E4, E5. Qed.

(** A slot rewritten with the same key. *)
Lemma owned_same_key chains l i s s' :
  owned chains l -> l !! i = Some s -> slot_key s' = slot_key s -> owned chains (<[i := s']> l).
Proof.
  intros [Hx Ha Hd Hn] Es Hk. pose proof Hk as Hk'.
  injection Hk' as K1 K2 K3 K4 K5.
  assert (Hback : forall j sj, <[i := s']> l !! j = Some sj -> exists s0, l !! j = Some s0 /\
    slot_key sj = slot_key s0).
  { intros j sj Ej. destruct (decide (j = i)) as [-> | Hj].
    - rewrite list_lookup_insert_eq in Ej by (by eapply lookup_lt_Some). injection Ej as <-.
      by exists s.
    - rewrite list_lookup_insert_ne in Ej by done. by exists sj. }
  split.
  - apply (exclusive_same _ _ s); try done. intros U. rewrite K1 in U. done.
  - intros j sj Ej Bj. destruct (Hback j sj Ej) as (s0 & E0 & Hk0). apply (attached_key _ s0); [done |].
    injection Hk0 as _ _ E3 _ _. rewrite E3 in Bj. by apply (Ha j).
  - intros j k sj sk Ej Ek Hjk. destruct (Hback j sj Ej) as (s1 & E1 & Hk1), (Hback k sk Ek) as (s2 & E2 & Hk2).
    injection Hk1 as _ _ -> -> ->. injection Hk2 as _ _ -> -> ->. by apply (Hd j k s1 s2).
  - intros k c Ec Bc. destruct (Hn k c Ec Bc) as (U & j & sj & Ej & Bj & Kj). split; [done |].
    destruct (decide (j = i)) as [-> | Hj].
    + exists i, s'. rewrite list_lookup_insert_eq by (by eapply lookup_lt_Some).
      rewrite Es in Ej. injection Ej as <-. rewrite K3, K4. done.
    + exists j, sj. by rewrite list_lookup_insert_ne by done.
Qed.

(** A chain that is not bound, before and after. *)
Lemma owned_unbound_chain chains l k c c' :
  owned chains l -> chains !! k = Some c -> ch_bound c = false -> ch_bound c' = false ->
  owned (<[k := c']> chains) l.
Proof.
  intros [Hx Ha Hd Hn] Ec Bc Bc'. split; try done.
  - intros i s Es Bs. destruct (Ha i s Es Bs) as (U & Hr & c0 & E0 & U0 & B0 & R0).
    split_and!; try done; try lia. exists c0. split_and!; try done.
    rewrite list_lookup_insert_ne; [done |]. intros ->. congruence.
  - intros k0 c0 E0 B0. destruct (decide (k0 = k)) as [-> | Hk].
    + rewrite list_lookup_insert_eq in E0 by (by eapply lookup_lt_Some). congruence.
    + rewrite list_lookup_insert_ne in E0 by done. by apply (Hn k0 c0).
Qed.

Lemma owned_release_unbound chains l cid c :
  owned chains l -> chains !! Z.to_nat cid = Some c -> ch_bound c = false ->
  owned (adc_dsp_chain_release chains cid) l.
Proof.
  intros Ho Ec Bc. unfold adc_dsp_chain_release. destruct (_ <=? _); [done |]. rewrite Ec.
  by apply (owned_unbound_chain _ _ _ c).
Qed.

(** An idle slot starts a session without a chain. *)
Lemma owned_start chains l i s s' :
  owned chains l -> l !! i = Some s -> in_use s = false -> dsp_bound s' = false ->
  streams_exclusive (<[i := s']> l) -> owned chains (<[i := s']> l).
Proof.
  intros [Hx Ha Hd Hn] Es Us Bs' Hx'.
  assert (Bs : dsp_bound s = false).
  { destruct (dsp_bound s) eqn:B; [| done]. destruct (Ha i s Es B) as [U _]. congruence. }
  assert (Hback : forall j sj, <[i := s']> l !! j = Some sj -> dsp_bound sj = true ->
    l !! j = Some sj).
  { intros j sj Ej Bj. destruct (decide (j = i)) as [-> | Hj].
    - rewrite list_lookup_insert_eq in Ej by (by eapply lookup_lt_Some). congruence.
    - by rewrite list_lookup_insert_ne in Ej by done. }
  split; [done | | |].
  - intros j sj Ej Bj. apply (Ha j sj); auto.
  - intros j k sj sk Ej Ek Hjk Bj Bk. apply (Hd j k sj sk); auto.
  - intros k c Ec Bc. destruct (Hn k c Ec Bc) as (U & j & sj & Ej & Bj & Kj). split; [done |].
    exists j, sj. rewrite list_lookup_insert_ne; [done |]. intros <-. congruence.
Qed.

(** A stream stops; its chain, if any, goes back to the pool. *)
Lemma owned_stop chains l i s :
  owned chains l -> l !! i = Some s ->
  owned (if dsp_bound s then adc_dsp_chain_release chains (dsp_chain_id s) else chains)
        (<[i := stream_ended s]> l).
Proof.
  intros Ho Es. pose proof Ho as [Hx Ha Hd Hn].
  assert (Hlt : (i < length l)%nat) by (by eapply lookup_lt_Some).
  assert (Hback : forall j sj, <[i := stream_ended s]> l !! j = Some sj -> dsp_bound sj = true ->
    l !! j = Some sj /\ j <> i).
  { intros j sj Ej Bj. destruct (decide (j = i)) as [-> | Hj].
    - rewrite list_lookup_insert_eq in Ej by done. by injection Ej as <-.
    - by rewrite list_lookup_insert_ne in Ej by done. }
  assert (Hx' : streams_exclusive (<[i := stream_ended s]> l)) by (by apply (exclusive_same _ _ s)).
  assert (Hd' : forall j k sj sk, <[i := stream_ended s]> l !! j = Some sj ->
    <[i := stream_ended s]> l !! k = Some sk -> j <> k -> dsp_bound sj = true -> dsp_bound sk = true ->
    dsp_chain_id sj <> dsp_chain_id sk /\ (dsp_terminal sj =? 3) <> (dsp_terminal sk =? 3)).
  { intros j k sj sk Ej Ek Hjk Bj Bk. apply (Hd j k); try done; by apply Hback. }
  destruct (dsp_bound s) eqn:Bs.
  - destruct (Ha i s Es Bs) as (U & Hr & c & Ec & Uc & Bc & Rc).
    unfold adc_dsp_chain_release. unfold BRIDGE_DSP_MAX_CHAINS in *.
    rewrite (proj2 (Z.leb_gt 4 (dsp_chain_id s))) by lia. rewrite Ec.
    split; [done | | done |].
    + intros j sj Ej Bj. destruct (Hback j sj Ej Bj) as [Ej' Hj].
      destruct (Ha j sj Ej' Bj) as (Uj & Hrj & cj & Ecj & Hcj). split_and!; try done; try lia.
      exists cj. split; [| done]. unfold set_chain. rewrite list_lookup_insert_ne; [done |].
      destruct (Hd j i sj s Ej' Es Hj Bj Bs) as [Hne _]. unfold BRIDGE_DSP_MAX_CHAINS in *. lia.
    + intros k c0 E0 B0. unfold set_chain in E0. destruct (decide (k = Z.to_nat (dsp_chain_id s))) as [-> | Hk].
      * rewrite list_lookup_insert_eq in E0 by (by eapply lookup_lt_Some). by injection E0 as <-.
      * rewrite list_lookup_insert_ne in E0 by done.
        destruct (Hn k c0 E0 B0) as (U0 & j & sj & Ej & Bj & Kj). split; [done |].
        exists j, sj. rewrite list_lookup_insert_ne; [done |]. intros <-. congruence.
  - split; [done | | done |].
    + intros j sj Ej Bj. destruct (Hback j sj Ej Bj) as [Ej' _]. by apply (Ha j).
    + intros k c0 E0 B0. destruct (Hn k c0 E0 B0) as (U0 & j & sj & Ej & Bj & Kj). split; [done |].
      exists j, sj. rewrite list_lookup_insert_ne; [done |]. intros <-. congruence.
Qed.

(** A realisable open chain is attached to a running stream that has none. *)
Lemma owned_attach chains l cid sid c s t :
  owned chains l -> 0 <= cid < BRIDGE_DSP_MAX_CHAINS -> 0 <= sid ->
  chains !! Z.to_nat cid = Some c -> ch_bound c = false ->
  l !! Z.to_nat sid = Some s -> in_use s = true -> dsp_bound s = false ->
  realisable (stages c) t -> ~ block_taken l sid t ->
  owned (set_chain cid (Chain true true (stages c)) chains)
        (<[Z.to_nat sid := stream_attach s t cid]> l).
Proof.
  intros [Hx Ha Hd Hn] Hcid Hsid Ec Bc Es Us Bs Hr Hnt. unfold set_chain.
  set (i := Z.to_nat sid) in *. set (k := Z.to_nat cid) in *.
  assert (Hli : (i < length l)%nat) by (by eapply lookup_lt_Some).
  assert (Hlk : (k < length chains)%nat) by (by eapply lookup_lt_Some).
  assert (Hother : forall j sj, l !! j = Some sj -> dsp_bound sj = true ->
    j <> i /\ dsp_chain_id sj <> cid /\ (dsp_terminal sj =? 3) <> (t =? 3)).
  { intros j sj Ej Bj. split; [intros ->; congruence |].
    destruct (Ha j sj Ej Bj) as (Uj & Hrj & cj & Ecj & _ & Bcj & _). split.
    - intros E. unfold k in Ec. rewrite E in Ecj. congruence.
    - intros E. apply Hnt. exists j, sj. split_and!; try done. intros E'. unfold i in *.
      assert (j = Z.to_nat sid) as -> by lia. congruence. }
  split.
  - by apply (exclusive_same _ _ s).
  - intros j sj Ej Bj. destruct (decide (j = i)) as [-> | Hj].
    + rewrite list_lookup_insert_eq in Ej by done. injection Ej as <-.
      split_and!; [done | simpl; lia.. |]. exists (Chain true true (stages c)). simpl.
      fold k. by rewrite list_lookup_insert_eq.
    + rewrite list_lookup_insert_ne in Ej by done. destruct (Hother j sj Ej Bj) as (_ & Hne & _).
      destruct (Ha j sj Ej Bj) as (Uj & Hrj & cj & Ecj & Hcj). split_and!; try done; try lia.
      exists cj. split; [| done]. rewrite list_lookup_insert_ne; [done |].
      unfold k, BRIDGE_DSP_MAX_CHAINS in *. lia.
  - intros j1 j2 s1 s2 E1 E2 Hj B1 B2.
    destruct (decide (j1 = i)) as [-> | H1], (decide (j2 = i)) as [-> | H2]; try done.
    + rewrite list_lookup_insert_eq in E1 by done. injection E1 as <-.
      rewrite list_lookup_insert_ne in E2 by done. simpl.
      destruct (Hother j2 s2 E2 B2) as (_ & Hne & Ht). split; [done | intros E; by apply Ht].
    + rewrite list_lookup_insert_eq in E2 by done. injection E2 as <-.
      rewrite list_lookup_insert_ne in E1 by done. simpl. by destruct (Hother j1 s1 E1 B1) as (_ & ? & ?).
    + rewrite list_lookup_insert_ne in E1, E2 by done. by apply (Hd j1 j2).
  - intros k0 c0 E0 B0. destruct (decide (k0 = k)) as [-> | Hk].
    + rewrite list_lookup_insert_eq in E0 by done. injection E0 as <-. split; [done |].
      exists i, (stream_attach s t cid). by rewrite list_lookup_insert_eq.
    + rewrite list_lookup_insert_ne in E0 by done.
      destruct (Hn k0 c0 E0 B0) as (U0 & j & sj & Ej & Bj & Kj). split; [done |].
      exists j, sj. rewrite list_lookup_insert_ne; [done |]. intros <-. congruence.
Qed.

Section steps.
Context {H : Type} `{!AdcHw H}.

(** ** Steps

    Request arguments are what a request can carry: bytes and unsigned fields.
    Each step meets the hardware in an arbitrary state.  [adc_request] holds what
    runs to completion without ending a session; the pump may be anywhere. *)
Inductive adc_request : adc_sys -> adc_sys -> Prop :=
  | req_chain_open w cs cs' r :
      bridge_hw_adc_dsp_chain_open_ cs = (cs', r) ->
      adc_request (AdcSys w cs) (AdcSys w cs')
  | req_stage_push w cs cs' rc cid idx k off total chunk :
      0 <= cid -> 0 <= idx -> 0 <= k -> 0 <= off -> 0 <= total ->
      bridge_hw_adc_dsp_stage_push_ cs cid idx k off total chunk = (cs', rc) ->
      adc_request (AdcSys w cs) (AdcSys w cs')
  | req_chain_bind w cs cs' l' rc cid sid :
      0 <= cid -> 0 <= sid ->
      bridge_hw_adc_dsp_chain_bind_ cs (adc_streams w) cid sid = (cs', l', rc) ->
      adc_request (AdcSys w cs) (AdcSys (set_streams l' w) cs')
  | req_stream_begin (h h' : H) w w' cs rc sid ch rate :
      0 <= sid -> 0 <= ch -> 0 <= rate ->
      bridge_hw_adc_stream_begin_ h w sid ch rate = (h', w', rc) ->
      adc_request (AdcSys w cs) (AdcSys w' cs)
  | req_stream_read (h h' : H) w w' cs r sid max_samples :
      bridge_hw_adc_stream_read_ h w sid max_samples = (h', w', r) ->
      adc_request (AdcSys w cs) (AdcSys w' cs)
  | req_adc_read (h h' : H) w w' cs r ch samples :
      0 <= ch < 256 -> 0 <= samples < 256 ->
      bridge_hw_adc_read_ h w ch samples = (h', w', r) ->
      adc_request (AdcSys w cs) (AdcSys w' cs)
  | req_adc_configure w w' cs rc ch ratio cycles bits :
      0 <= ch -> is_u16 ratio -> is_u16 cycles -> 0 <= bits < 256 ->
      bridge_hw_adc_configure_ w ch ratio cycles bits = (w', rc) ->
      adc_request (AdcSys w cs) (AdcSys w' cs)
  | req_vref_tick (h h' : H) w w' cs :
      vref_late_tick h w = (h', w') ->
      adc_request (AdcSys w cs) (AdcSys w' cs)
  | req_dma_irq (h h' : H) w cs i s s' sid :
      adc_streams w !! i = Some s -> dma_irq_handler h s sid = (h', s') ->
      adc_request (AdcSys w cs) (AdcSys (set_streams (<[i := s']> (adc_streams w)) w) cs)
  | req_vref_ready (h h' : H) w w' cs ready :   (* what a DAC request adds *)
      vref_ready_check h w = (ready, h', w') ->
      adc_request (AdcSys w cs) (AdcSys w' cs).

(** With the end of a session, and the pump's own writes to a slot. *)
Inductive adc_step : adc_sys -> adc_sys -> Prop :=
  | step_request y y' : adc_request y y' -> adc_step y y'
  | step_stream_end (h h' : H) w w' cs cs' rc sid :
      bridge_hw_adc_stream_end_ (fun (o : unit) _ => o) h w cs tt sid = (h', w', cs', tt, rc) ->
      adc_step (AdcSys w cs) (AdcSys w' cs')
  | step_dsp_pump w cs i s s' :
      adc_streams w !! i = Some s -> slot_key s' = slot_key s ->
      adc_step (AdcSys w cs) (AdcSys (set_streams (<[i := s']> (adc_streams w)) w) cs).

Inductive adc_reachable : adc_sys -> Prop :=
  | reach_init ok pending l :
      Forall (fun s => in_use s = false /\ dsp_bound s = false) l -> length l = 2%nat ->
      adc_reachable (AdcSys (set_vref ok pending (adc_fw0 l)) adc_dsp_chains0)
  | reach_step y y' : adc_reachable y -> adc_step y y' -> adc_reachable y'.

(** ** The other requests leave the slots' keys *)

Lemma latch_key (h : H) s sid : run_key (adc_stream_latch_dma_error h s sid).2 = run_key s.
Proof.
  unfold adc_stream_latch_dma_error. destruct (hw_read h (dma_flag_err sid)) as [v h'].
  by destruct (v =? 0).
Qed.

Lemma latch_cursor (h : H) s sid : cursor (adc_stream_latch_dma_error h s sid).2 = cursor s.
Proof.
  unfold adc_stream_latch_dma_error. destruct (hw_read h (dma_flag_err sid)) as [v h'].
  by destruct (v =? 0).
Qed.

Lemma irq_cursor (h : H) s sid : cursor (dma_irq_handler h s sid).2 = cursor s.
Proof.
  unfold dma_irq_handler. destruct (hw_read h (dma_flag_ftf sid)) as [v h'].
  destruct (negb (v =? 0)); by rewrite latch_cursor.
Qed.

Lemma irq_key (h : H) s sid : run_key (dma_irq_handler h s sid).2 = run_key s.
Proof.
  unfold dma_irq_handler. destruct (hw_read h (dma_flag_ftf sid)) as [v h'].
  destruct (negb (v =? 0)); by rewrite latch_key.
Qed.

Lemma read_processed_key s n vref : run_key (read_processed s n vref).1 = run_key s.
Proof. unfold read_processed. by repeat case_match. Qed.

Lemma read_processed_cursor s n vref : cursor (read_processed s n vref).1 = cursor s.
Proof. unfold read_processed. by repeat case_match. Qed.

Lemma read_raw_cursor (h : H) s sid n vref : cursor (read_raw h s sid n vref).1.2 = cursor s.
Proof.
  unfold read_raw. destruct (adc_stream_total_written h s sid (rd_pos s)) as [[total trk] h1].
  destruct (adc_stream_write_index h1 sid) as [w h2].
  destruct (_ <=? 0); [done |]. destruct (_ <=? _); [done |].
  by destruct (emit_raw _ _ _ _ _ _) as [[mv idx] h3].
Qed.

Lemma read_raw_key (h : H) s sid n vref : run_key (read_raw h s sid n vref).1.2 = run_key s.
Proof.
  unfold read_raw. destruct (adc_stream_total_written h s sid (rd_pos s)) as [[total trk] h1].
  destruct (adc_stream_write_index h1 sid) as [w h2].
  destruct (_ <=? 0); [done |]. destruct (_ <=? _); [done |].
  by destruct (emit_raw _ _ _ _ _ _) as [[mv idx] h3].
Qed.

(** A read changes at most its own slot, and not its key. *)
Lemma stream_read_key (h : H) w sid n :
  let w' := (bridge_hw_adc_stream_read_ h w sid n).1.2 in
  w' = w \/ exists s s', adc_streams w !! Z.to_nat sid = Some s /\ run_key s' = run_key s /\
    cursor_kept s s' /\ w' = set_stream sid s' w.
Proof.
  unfold bridge_hw_adc_stream_read_. destruct (_ <=? sid); [by left |].
  destruct (adc_streams w !! Z.to_nat sid) as [s |] eqn:Es; [| by left].
  destruct (negb (in_use s)); [by left |]. right.
  pose proof (latch_key h s sid) as Kl. pose proof (latch_cursor h s sid) as Cl.
  destruct (adc_stream_latch_dma_error h s sid) as [h1 s1]. cbn [snd] in Kl, Cl.
  destruct (negb (dma_error_count s1 =? 0)); [exists s, s1; auto using cursor_same |].
  destruct (hw_read h1 _) as [rovf h2]. destruct (negb (rovf =? 0)).
  - destruct (adc_stream_recover_rovf h2 s1 sid _) as [ok h3].
    destruct (adc_stream_write_index h3 sid) as [wi h4]. cbn [fst snd].
    eexists s, _. split; [done |]. split; [| split; [| done]]; [exact Kl | by right].
  - destruct (dsp_bound s1).
    + pose proof (read_processed_key s1 n (adc_vref_mv w)) as K.
      pose proof (read_processed_cursor s1 n (adc_vref_mv w)) as C.
      destruct (read_processed s1 n (adc_vref_mv w)) as [s2 r]. cbn [fst snd] in *.
      exists s, s2. split; [done |]. split; [congruence |]. split; [left; congruence | done].
    + pose proof (read_raw_key h2 s1 sid n (adc_vref_mv w)) as K.
      pose proof (read_raw_cursor h2 s1 sid n (adc_vref_mv w)) as C.
      destruct (read_raw h2 s1 sid n (adc_vref_mv w)) as [[h3 s2] r]. cbn [fst snd] in *.
      exists s, s2. split; [done |]. split; [congruence |]. split; [left; congruence | done].
Qed.

Lemma vref_measure_frame (h : H) w :
  adc_ok w -> let w' := (adc_vref_measure h w).2 in
  adc_ok w' /\ adc_periph_busy w' = adc_periph_busy w /\ adc_streams w' = adc_streams w.
Proof.
  intros Hw. unfold adc_vref_measure. destruct (adc_calibrate_bounded _ 0) as [[] h1]; cbn [negb].
  2: { by destruct Hw. }
  destruct (vref_samples _ _ _) as [[sum |] h2]; cbn [snd]; [| by destruct Hw].
  split_and!; try done. destruct Hw as [_ Hc Hb Hr Hz]. split; try done. apply vref_from_code_ok.
Qed.

Lemma late_tick_frame (h : H) w :
  adc_ok w -> let w' := (vref_late_tick h w).2 in adc_ok w' /\ adc_streams w' = adc_streams w.
Proof.
  intros Hw. unfold vref_late_tick. destruct (vref_remeasure_pending w); [| done]. cbn [negb].
  destruct (adc_periph_claim w 0) as [claimed w1] eqn:Ecl. destruct claimed; cbn [negb].
  - pose proof (claim_true _ _ _ Ecl) as (_ & Hb & E1).
    assert (Hw1 : adc_ok w1).
    { rewrite E1. destruct Hw as [A B C D E]. split; try done. simpl. by rewrite length_insert. }
    pose proof (vref_measure_frame h w1 Hw1) as Hm.
    destruct (adc_vref_measure h w1) as [[ok h2] w2]. cbn [snd] in *.
    destruct Hm as (Hw2 & Eb & Es). rewrite (release_claimed _ _ _ w2 Ecl Eb).
    destruct Hw2 as [A B C D E]. rewrite E1 in Es. split; [| done]. split; try done.
    apply (ao_busy w Hw).
  - assert (w1 = w) as ->; [| done]. unfold adc_periph_claim in Ecl. repeat case_match; by simplify_eq.
Qed.

(** A stop of slot [sid], whatever the owner bytes. *)
Lemma stream_end_frame {O : Type} (release : O -> Z -> O) (h : H) w cs (o : O) sid :
  let y := bridge_hw_adc_stream_end_ release h w cs o sid in
  (y.1.1.1.2 = w /\ y.1.1.2 = cs /\ y.1.2 = o) \/
  exists s, adc_streams w !! Z.to_nat sid = Some s /\ in_use s = true /\
    y.1.1.1.2 = set_stream sid (stream_ended s) w /\
    y.1.1.2 = (if dsp_bound s then adc_dsp_chain_release cs (dsp_chain_id s) else cs) /\
    y.1.2 = (if dsp_bound s then release o sid else o).
Proof.
  unfold bridge_hw_adc_stream_end_. destruct (_ <=? sid); [by left |].
  destruct (adc_streams w !! Z.to_nat sid) as [s |] eqn:Es; [| by left].
  destruct (in_use s) eqn:Eu; cbn [negb]; [| by left].
  destruct (adc_stream_dma_disable_confirm _ sid) as [[] h1]; cbn [negb]; [| by left].
  destruct (adc_periph_restore _ _) as [ok h2]. right. exists s. by destruct (dsp_bound s).
Qed.

(** The owner bytes are carried along: the rest does not depend on them. *)
Lemma stream_end_erase {O : Type} (release : O -> Z -> O) (h : H) w cs (o : O) sid :
  exists h' rc, bridge_hw_adc_stream_end_ (fun (u : unit) _ => u) h w cs tt sid =
  (h', (bridge_hw_adc_stream_end_ release h w cs o sid).1.1.1.2,
   (bridge_hw_adc_stream_end_ release h w cs o sid).1.1.2, tt, rc).
Proof.
  unfold bridge_hw_adc_stream_end_. destruct (_ <=? sid); [by do 2 eexists |].
  destruct (adc_streams w !! Z.to_nat sid) as [s |]; [| by do 2 eexists].
  destruct (in_use s); cbn [negb]; [| by do 2 eexists].
  destruct (adc_stream_dma_disable_confirm _ sid) as [[] h1]; cbn [negb]; [| by do 2 eexists].
  destruct (adc_periph_restore _ _) as [ok h2]. destruct (dsp_bound s); by do 2 eexists.
Qed.

(** ** The invariant *)

Lemma adc_ok_streams l w : adc_ok w -> adc_ok (set_streams l w).
Proof. by intros []. Qed.

Lemma first_free_spec l : forall i k,
  first_free l i = Some k ->
  exists j c, k = i + Z.of_nat j /\ l !! j = Some c /\ ch_in_use c = false.
Proof.
  induction l as [| c l IH]; intros i k E; cbn [first_free] in E; [done |].
  destruct (ch_in_use c) eqn:U; cbn [negb] in E.
  - destruct (IH _ _ E) as (j & c' & -> & Ej & U'). exists (S j), c'. split_and!; [lia | done | done].
  - injection E as <-. exists 0%nat, c. split_and!; [lia | done | done].
Qed.

Lemma inv_chain_open w cs :
  sys_inv (AdcSys w cs) -> sys_inv (AdcSys w (bridge_hw_adc_dsp_chain_open_ cs).1).
Proof.
  intros [Ha Hl Hp Ho]. unfold bridge_hw_adc_dsp_chain_open_.
  destruct (first_free cs 0) as [i |] eqn:E; [| done].
  apply first_free_spec in E as (j & c & -> & Ec & U). cbn [fst].
  split; try done; cbn [sy_fw sy_chains].
  - apply pool_ok_set; [done | apply chain_ok_zero].
  - unfold set_chain. rewrite Z.add_0_l, Nat2Z.id. apply (owned_unbound_chain _ _ _ c); try done.
    destruct (ch_bound c) eqn:B; [| done]. destruct (ow_no_leak _ _ Ho _ _ Ec B). congruence.
Qed.

Lemma inv_stage_push w cs cid idx k off total chunk :
  0 <= cid -> 0 <= idx -> 0 <= k -> 0 <= off -> 0 <= total -> sys_inv (AdcSys w cs) ->
  sys_inv (AdcSys w (bridge_hw_adc_dsp_stage_push_ cs cid idx k off total chunk).1).
Proof.
  intros Hc Hx Hk Hf Ht Hi. pose proof Hi as [Ha Hl Hp Ho]. cbn [sy_fw sy_chains] in *.
  destruct (push_cases cs cid idx k off total chunk) as [(rc & E & _) | (chain & st & Hr & Hfit)];
    try done; [by rewrite E |].
  rewrite (push_reaches _ _ _ _ _ _ _ _ _ Hr Hfit). cbn [fst].
  destruct (reaches_stage _ _ _ _ _ Hp Hr) as [C HC].
  assert (Hok : stage_ok (push_stage st k off total chunk).1).
  { destruct (push_stage_spec st C k off total chunk HC Hfit) as [-> | (st0 & C0 & Hv & -> & _)];
      [by exists C |].
    destruct (finish_spec st0 C0 k off total chunk Hfit Hv) as (_ & _ & I & _). by eexists. }
  destruct (set_stage_ok _ _ _ _ _ _ Hp Hr Hok) as [Hp' _]. split; try done.
  cbn [sy_fw sy_chains]. unfold set_stage, set_chain.
  apply (owned_unbound_chain _ _ _ chain); [done | apply Hr | apply Hr | apply Hr].
Qed.

Lemma inv_chain_bind w cs cid sid :
  0 <= cid -> 0 <= sid -> sys_inv (AdcSys w cs) ->
  let r := bridge_hw_adc_dsp_chain_bind_ cs (adc_streams w) cid sid in
  sys_inv (AdcSys (set_streams r.1.2 w) r.1.1).
Proof.
  intros Hc Hx [Ha Hl Hp Ho]. cbn [sy_fw sy_chains] in *. cbv zeta.
  assert (Hid : set_streams (adc_streams w) w = w) by (by destruct w).
  destruct (bind_cases cs (adc_streams w) cid sid Hp Hl Hc Hx)
    as [(chain & s & t & Hb & E) | (_ & rc & _ & [E | (chain & Ec & Bc & _ & _ & E)])];
    rewrite E; cbn [fst snd]; rewrite ?Hid; split; cbn [sy_fw sy_chains]; try done.
  - by apply adc_ok_streams.
  - cbn [adc_streams set_streams]. by rewrite length_insert.
  - apply pool_ok_set; [done |]. destruct Hp as [_ Hf].
    apply (Forall_lookup_1 _ _ _ _ Hf (bd_chain _ _ _ _ _ _ _ Hb)).
  - cbn [adc_streams set_streams]. destruct Hb.
    apply (owned_attach _ _ _ _ chain s); try done; lia.
  - by apply pool_ok_release.
  - by apply (owned_release_unbound _ _ _ chain).
Qed.

Lemma inv_stream_begin (h : H) w cs sid ch rate :
  0 <= sid -> 0 <= ch -> 0 <= rate -> sys_inv (AdcSys w cs) ->
  sys_inv (AdcSys (bridge_hw_adc_stream_begin_ h w sid ch rate).1.2 cs).
Proof.
  intros Hs Hc Hr [Ha Hl Hp Ho]. cbn [sy_fw sy_chains] in *.
  pose proof (begin_cases h w sid ch rate Hs Hc Hr) as Hb.
  destruct (bridge_hw_adc_stream_begin_ h w sid ch rate) as [[h' w'] rc]. cbn [fst snd].
  destruct Hb as (pending & [[_ ->] | (s & _ & Hb & ->)]).
  { split; try done. by destruct Ha. }
  split; cbn [sy_fw sy_chains]; [by destruct Ha | | done |];
    cbn [adc_streams set_stream set_streams set_vref].
  - by rewrite length_insert.
  - destruct Hb. apply (owned_start _ _ _ s); try done.
    apply (exclusive_begin _ _ s); [apply Ho | done |]. by rewrite Z2Nat.id by lia.
Qed.

(** A slot rewritten with the same key. *)
Lemma inv_same_key w cs i s s' :
  sys_inv (AdcSys w cs) -> adc_streams w !! i = Some s -> slot_key s' = slot_key s ->
  sys_inv (AdcSys (set_streams (<[i := s']> (adc_streams w)) w) cs).
Proof.
  intros [Ha Hl Hp Ho] Es Hk. split; cbn [sy_fw sy_chains] in *;
    [by apply adc_ok_streams | by cbn; rewrite length_insert | done |].
  by apply (owned_same_key _ _ _ s).
Qed.

Lemma inv_stream_end (h : H) w cs sid :
  sys_inv (AdcSys w cs) ->
  let y := bridge_hw_adc_stream_end_ (fun (o : unit) _ => o) h w cs tt sid in
  sys_inv (AdcSys y.1.1.1.2 y.1.1.2).
Proof.
  intros [Ha Hl Hp Ho]. cbn [sy_fw sy_chains] in *. cbv zeta.
  destruct (stream_end_frame (fun (o : unit) _ => o) h w cs tt sid)
    as [(-> & -> & _) | (s & Es & _ & -> & -> & _)]; [done |].
  split; cbn [sy_fw sy_chains]; [by apply adc_ok_streams | | |].
  - cbn [adc_streams set_stream set_streams]. by rewrite length_insert.
  - destruct (dsp_bound s); [by apply pool_ok_release | done].
  - by apply owned_stop.
Qed.

(** The reference, the claims and the caches move; the slots do not. *)
Lemma inv_fw w w' cs :
  sys_inv (AdcSys w cs) -> adc_ok w' -> adc_streams w' = adc_streams w -> sys_inv (AdcSys w' cs).
Proof. intros [Ha Hl Hp Ho] Hw E. split; cbn [sy_fw sy_chains] in *; try done; by rewrite E. Qed.

(** Asking for the reference at most notes that it came ready late. *)
Lemma ready_frame (h : H) w :
  adc_streams (vref_ready_check h w).2 = adc_streams w /\ (adc_ok w -> adc_ok (vref_ready_check h w).2).
Proof.
  unfold vref_ready_check. destruct (negb (vref_ok w)); [| done]. destruct (hw_read h vref_status) as [v h'].
  destruct (negb (v =? 0)); [| done]. split; [done |]. by intros [].
Qed.

Lemma request_inv y y' : sys_inv y -> adc_request y y' -> sys_inv y'.
Proof.
  intros Hi Hs. destruct Hs as
    [w cs cs' r E | w cs cs' rc cid idx k off total chunk ? ? ? ? ? E | w cs cs' l' rc cid sid ? ? E
    | h h' w w' cs rc sid ch rate ? ? ? E | h h' w w' cs r sid n E
    | h h' w w' cs r ch n ? ? E | w w' cs rc ch ratio cycles bits ? ? ? ? E | h h' w w' cs E
    | h h' w cs i s s' sid Es E | h h' w w' cs ready E].
  - pose proof (inv_chain_open w cs Hi) as Hn. by rewrite E in Hn.
  - pose proof (inv_stage_push w cs cid idx k off total chunk) as Hn. rewrite E in Hn. by apply Hn.
  - pose proof (inv_chain_bind w cs cid sid) as Hn. cbv zeta in Hn. rewrite E in Hn. by apply Hn.
  - pose proof (inv_stream_begin h w cs sid ch rate) as Hn. rewrite E in Hn. by apply Hn.
  - pose proof (stream_read_key h w sid n) as Hn. cbv zeta in Hn. rewrite E in Hn. simpl in Hn.
    destruct Hn as [-> | (s & s' & Es & Hk & _ & ->)]; [done |].
    apply (inv_same_key _ _ _ s); [done | done | by apply run_slot_key].
  - pose proof (adc_read_frame h w ch n) as (pending & Hn). rewrite E in Hn. simpl in Hn. subst w'.
    apply (inv_fw w); [done | by destruct (sv_adc _ Hi) | done].
  - destruct (configure_frame w ch ratio cycles bits (sv_adc _ Hi)) as [Hok Hst]; try done.
    rewrite E in Hok, Hst. by apply (inv_fw w).
  - pose proof (late_tick_frame h w (sv_adc _ Hi)) as Hn. cbv zeta in Hn. rewrite E in Hn.
    simpl in Hn. destruct Hn as [Hok Hst]. by apply (inv_fw w).
  - apply (inv_same_key _ _ _ s); [done | done |]. apply run_slot_key.
    rewrite <- (irq_key h s sid). by rewrite E.
  - destruct (ready_frame h w) as (Hst & Hok). rewrite E in Hst, Hok. apply (inv_fw w); [done | by apply Hok, (sv_adc _ Hi) | done].
Qed.

Lemma step_inv y y' : sys_inv y -> adc_step y y' -> sys_inv y'.
Proof.
  intros Hi Hs. destruct Hs as [y y' Hr | h h' w w' cs cs' rc sid E | w cs i s s' Es Hk].
  - by apply (request_inv y).
  - pose proof (inv_stream_end h w cs sid Hi) as Hn. cbv zeta in Hn. by rewrite E in Hn.
  - by apply (inv_same_key _ _ _ s).
Qed.

(** ** What a request leaves of a running chain *)

Lemma key_elsewhere (l : list adc_stream_state) i j s s0 s' :
  l !! i = Some s -> l !! j = Some s0 -> run_key s' = run_key s0 -> cursor_kept s0 s' ->
  exists s1, <[j := s']> l !! i = Some s1 /\ run_key s1 = run_key s /\ cursor_kept s s1.
Proof.
  intros Ei Ej Hk Hc. destruct (decide (i = j)) as [-> | Hne].
  - exists s'. rewrite list_lookup_insert_eq by (by eapply lookup_lt_Some). assert (s0 = s) as -> by congruence. done.
  - exists s. rewrite list_lookup_insert_ne by done. auto using cursor_kept_refl.
Qed.

(** A request, not being an end, leaves the session of a stream with a chain as
    it is, down to the filtered samples. *)
Lemma request_live y y' i s :
  sys_inv y -> adc_request y y' -> adc_streams (sy_fw y) !! i = Some s ->
  in_use s = true -> dsp_bound s = true ->
  exists s', adc_streams (sy_fw y') !! i = Some s' /\ run_key s' = run_key s /\ cursor_kept s s'.
Proof.
  intros Hi Hs Ei U B. assert (Hself : forall l : list adc_stream_state, l !! i = Some s ->
    exists s', l !! i = Some s' /\ run_key s' = run_key s /\ cursor_kept s s')
    by (intros l E; exists s; auto using cursor_kept_refl).
  destruct Hs as
    [w cs cs' r E | w cs cs' rc cid idx k off total chunk ? ? ? ? ? E | w cs cs' l' rc cid sid ? ? E
    | h h' w w' cs rc sid ch rate ? ? ? E | h h' w w' cs r sid n E
    | h h' w w' cs r ch n ? ? E | w w' cs rc ch ratio cycles bits ? ? ? ? E | h h' w w' cs E
    | h h' w cs j s0 s' sid Ej E | h h' w w' cs ready E]; cbn [sy_fw adc_streams set_streams] in *.
  - auto.
  - auto.
  - destruct (bind_cases cs (adc_streams w) cid sid (sv_pool _ Hi) (sv_streams _ Hi))
      as [(chain & s0 & t & Hb & E') | (_ & rc' & _ & [E' | (chain & _ & _ & _ & _ & E')])];
      try done; rewrite E' in E; simplify_eq; [| auto ..].
    apply Hself. rewrite list_lookup_insert_ne; [done |]. intros <-. destruct Hb. congruence.
  - pose proof (begin_cases h w sid ch rate) as Hb. rewrite E in Hb.
    destruct Hb as (pending & [[_ ->] | (s0 & _ & Hb & ->)]); try done; [auto |].
    apply Hself. cbn [adc_streams set_stream set_streams set_vref].
    rewrite list_lookup_insert_ne; [done |]. intros <-. destruct Hb. congruence.
  - pose proof (stream_read_key h w sid n) as Hn. cbv zeta in Hn. rewrite E in Hn. simpl in Hn.
    destruct Hn as [-> | (s0 & s' & Es & Hk & Hc & ->)]; [auto |].
    by apply (key_elsewhere _ _ _ _ s0).
  - pose proof (adc_read_frame h w ch n) as (pending & Hn). rewrite E in Hn. simpl in Hn. subst w'. auto.
  - destruct (configure_frame w ch ratio cycles bits (sv_adc _ Hi)) as [_ Hst]; try done.
    rewrite E in Hst. simpl in Hst. rewrite Hst. auto.
  - pose proof (late_tick_frame h w (sv_adc _ Hi)) as Hn. cbv zeta in Hn. rewrite E in Hn.
    simpl in Hn. destruct Hn as [_ Hst]. rewrite Hst. auto.
  - apply (key_elsewhere _ _ _ _ s0); [done | done | |].
    + rewrite <- (irq_key h s0 sid). by rewrite E.
    + apply cursor_same. rewrite <- (irq_cursor h s0 sid). by rewrite E.
  - destruct (ready_frame h w) as (Hst & _). rewrite E in Hst. cbn in Hst. rewrite Hst. auto.
Qed.

(** Seen from the other side: a slot after a request is as it was, or it had no
    chain, and then has none or was just given one, with nothing filtered yet. *)
Lemma request_back y y' i s' :
  sys_inv y -> adc_request y y' -> adc_streams (sy_fw y') !! i = Some s' ->
  exists s, adc_streams (sy_fw y) !! i = Some s /\
    (run_key s' = run_key s \/
     dsp_bound s = false /\ proc_ring s' = proc_ring s /\ (dsp_bound s' = false \/ proc_write s' = 0)).
Proof.
  intros Hi Hs Ei.
  assert (Hself : forall (l : list adc_stream_state), l !! i = Some s' -> exists s, l !! i = Some s /\
    (run_key s' = run_key s \/
     dsp_bound s = false /\ proc_ring s' = proc_ring s /\ (dsp_bound s' = false \/ proc_write s' = 0)))
    by (intros l E; exists s'; auto).
  assert (Hins : forall (l : list adc_stream_state) j s0 s1, l !! j = Some s0 -> <[j := s1]> l !! i = Some s' ->
    (run_key s1 = run_key s0 \/
     dsp_bound s0 = false /\ proc_ring s1 = proc_ring s0 /\ (dsp_bound s1 = false \/ proc_write s1 = 0)) ->
    exists s, l !! i = Some s /\
    (run_key s' = run_key s \/
     dsp_bound s = false /\ proc_ring s' = proc_ring s /\ (dsp_bound s' = false \/ proc_write s' = 0))).
  { intros l j s0 s1 Ej E Hor. destruct (decide (i = j)) as [-> | Hne].
    - rewrite list_lookup_insert_eq in E by (by eapply lookup_lt_Some). injection E as <-. by exists s0.
    - rewrite list_lookup_insert_ne in E by done. auto. }
  destruct Hs as
    [w cs cs' r E | w cs cs' rc cid idx k off total chunk ? ? ? ? ? E | w cs cs' l' rc cid sid ? ? E
    | h h' w w' cs rc sid ch rate ? ? ? E | h h' w w' cs r sid n E
    | h h' w w' cs r ch n ? ? E | w w' cs rc ch ratio cycles bits ? ? ? ? E | h h' w w' cs E
    | h h' w cs j s0 s1 sid Ej E | h h' w w' cs ready E]; cbn [sy_fw adc_streams set_streams] in *; auto.
  - destruct (bind_cases cs (adc_streams w) cid sid (sv_pool _ Hi) (sv_streams _ Hi))
      as [(chain & s0 & t & Hb & E') | (_ & rc' & _ & [E' | (chain & _ & _ & _ & _ & E')])];
      try done; rewrite E' in E; simplify_eq; auto.
    destruct Hb. apply (Hins _ _ s0 _ bd_slot Ei). right. auto.
  - pose proof (begin_cases h w sid ch rate) as Hb. rewrite E in Hb.
    destruct Hb as (pending & [[_ ->] | (s0 & _ & Hb & ->)]); try done; auto.
    destruct Hb. apply (Hins _ _ s0 _ cb_slot Ei). right. split; [| auto].
    destruct (dsp_bound s0) eqn:B; [| done].
    destruct (ow_attached _ _ (sv_owned _ Hi) _ _ cb_slot B). congruence.
  - pose proof (stream_read_key h w sid n) as Hn. cbv zeta in Hn. rewrite E in Hn. simpl in Hn.
    destruct Hn as [-> | (s0 & s1 & Es & Hk & _ & ->)]; [auto |]. apply (Hins _ _ s0 _ Es Ei). by left.
  - pose proof (adc_read_frame h w ch n) as (pending & Hn). rewrite E in Hn. simpl in Hn. subst w'. auto.
  - destruct (configure_frame w ch ratio cycles bits (sv_adc _ Hi)) as [_ Hst]; try done.
    rewrite E in Hst. simpl in Hst. rewrite Hst in Ei. auto.
  - pose proof (late_tick_frame h w (sv_adc _ Hi)) as Hn. cbv zeta in Hn. rewrite E in Hn.
    simpl in Hn. destruct Hn as [_ Hst]. rewrite Hst in Ei. auto.
  - apply (Hins _ _ s0 _ Ej Ei). left. rewrite <- (irq_key h s0 sid). by rewrite E.
  - destruct (ready_frame h w) as (Hst & _). rewrite E in Hst. cbn in Hst. rewrite Hst in Ei. auto.
Qed.

(** Nor does it touch a bound chain. *)
Lemma request_bound_chain y y' k c :
  sys_inv y -> adc_request y y' -> sy_chains y !! k = Some c -> ch_bound c = true ->
  sy_chains y' !! k = Some c.
Proof.
  intros Hi Hs Ek B.
  assert (Hother : forall (cs : list adc_dsp_chain) j c0 c', cs !! k = Some c -> cs !! j = Some c0 -> ch_bound c0 = false ->
    <[j := c']> cs !! k = Some c).
  { intros cs j c0 c' E E0 B0. rewrite list_lookup_insert_ne; [done |]. intros ->. congruence. }
  destruct Hs as
    [w cs cs' r E | w cs cs' rc cid idx j off total chunk ? ? ? ? ? E | w cs cs' l' rc cid sid ? ? E
    | | | | | | |]; cbn [sy_fw sy_chains] in *; try done.
  - unfold bridge_hw_adc_dsp_chain_open_ in E. destruct (first_free cs 0) as [j |] eqn:Ef; simplify_eq; [| done].
    apply first_free_spec in Ef as (n & c0 & -> & E0 & U0). unfold set_chain. rewrite Z.add_0_l, Nat2Z.id.
    apply (Hother _ _ c0); [done | done |]. destruct (ch_bound c0) eqn:B0; [| done].
    destruct (ow_no_leak _ _ (sv_owned _ Hi) _ _ E0 B0). congruence.
  - destruct (push_cases cs cid idx j off total chunk) as [(rc' & E' & _) | (chain & st & Hr & Hfit)];
      try done; [apply Hi | by rewrite E' in E; simplify_eq |].
    rewrite (push_reaches _ _ _ _ _ _ _ _ _ Hr Hfit) in E. simplify_eq.
    apply (Hother _ _ chain); [done | apply Hr ..].
  - destruct (bind_cases cs (adc_streams w) cid sid (sv_pool _ Hi) (sv_streams _ Hi))
      as [(chain & s0 & t & Hb & E') | (_ & rc' & _ & [E' | (chain & Ec & Bc & _ & _ & E')])];
      try done; rewrite E' in E; simplify_eq; [| done |].
    + destruct Hb. by apply (Hother _ _ chain).
    + unfold adc_dsp_chain_release. destruct (_ <=? _); [done |]. rewrite Ec.
      by apply (Hother _ _ chain).
Qed.

Lemma inv_init ok pending l :
  Forall (fun s => in_use s = false /\ dsp_bound s = false) l -> length l = 2%nat ->
  sys_inv (AdcSys (set_vref ok pending (adc_fw0 l)) adc_dsp_chains0).
Proof.
  intros Hl Hlen.
  assert (Hoff : forall i s, l !! i = Some s -> in_use s = false /\ dsp_bound s = false)
    by (intros i s Es; apply (Forall_lookup_1 _ _ _ _ Hl Es)).
  split; cbn [sy_fw sy_chains]; [by destruct (adc_ok_init l) | done | apply pool_ok_init |].
  split; cbn [adc_streams adc_fw0 set_vref].
  - intros i j si sj Ei _ _ U. destruct (Hoff i si Ei). congruence.
  - intros i s Es B. destruct (Hoff i s Es). congruence.
  - intros i j si sj Ei _ _ B. destruct (Hoff i si Ei). congruence.
  - intros k c Ec B. unfold adc_dsp_chains0 in Ec. apply lookup_replicate in Ec as [-> _]. done.
Qed.

Lemma adc_reachable_inv y : adc_reachable y -> sys_inv y.
Proof.
  induction 1 as [ok pending l Hl Hlen | y y' _ IH Hs]; [by apply inv_init | by apply (step_inv y)].
Qed.

(** C11. In every reachable state, whatever the interleaving of requests,
    interrupts, ends and pump activity and whatever the hardware answers:
    running streams never share a converter; a stream with a chain is running,
    and its chain is open, bound and of a shape the accelerators realise, with
    the terminal the slot records; two streams never share a chain, nor the
    filter accelerator, nor the FFT unit; and every bound chain belongs to some
    stream, so none is lost. *)
Theorem dsp_resources_exclusive y :
  adc_reachable y ->
  let streams := adc_streams (sy_fw y) in
  streams_exclusive streams /\
  (forall i s, streams !! i = Some s -> dsp_bound s = true ->
     in_use s = true /\ exists c, sy_chains y !! Z.to_nat (dsp_chain_id s) = Some c /\
       ch_in_use c = true /\ ch_bound c = true /\ realisable (stages c) (dsp_terminal s)) /\
  (forall i j si sj, streams !! i = Some si -> streams !! j = Some sj -> i <> j ->
     dsp_bound si = true -> dsp_bound sj = true ->
     dsp_chain_id si <> dsp_chain_id sj /\
     ~ (dsp_terminal si = 3 /\ dsp_terminal sj = 3) /\
     ~ (dsp_terminal si <> 3 /\ dsp_terminal sj <> 3)) /\
  (forall k c, sy_chains y !! k = Some c -> ch_bound c = true ->
     exists i s, streams !! i = Some s /\ dsp_bound s = true /\ Z.to_nat (dsp_chain_id s) = k).
Proof.
  intros Hr. apply adc_reachable_inv in Hr as [_ _ _ [Hx Ha Hd Hn]]. cbv zeta. split_and!.
  - done.
  - intros i s Ei B. destruct (Ha i s Ei B) as (U & _ & Hc). done.
  - intros i j si sj Ei Ej Hij Bi Bj. destruct (Hd i j si sj Ei Ej Hij Bi Bj) as [Hne Ht].
    split; [done |].
    destruct (Z.eqb_spec (dsp_terminal si) 3), (Z.eqb_spec (dsp_terminal sj) 3); try done;
      split; intros []; congruence.
  - intros k c Ek B. by destruct (Hn k c Ek B) as [_ Hs].
Qed.

End steps.
