(* ===== verification/DspCoeff.v ===== *)
(** * Coefficients and filter programs: [hal/gd32/adc_stream.c], configuration

    How a bound chain becomes a program of the filter accelerator: the wire
    coefficients (Q31, or IEEE single precision computed by [SpecFloat] at 24
    bits of precision), the headroom exponent, the 16-bit words and the layout of
    the accelerator's memory.  A float-to-integer conversion C leaves undefined
    is [None]. *)

From Stdlib Require Import SpecFloat.
From stdpp Require Import base tactics list numbers option.
From S2P Require Import Prelude DspChain.

#[local] Set Warnings "-clear-no-such-hyp".

(** ** Single precision *)

Definition f32_div : spec_float -> spec_float -> spec_float := SFdiv 24 128.
Definition f32_mul : spec_float -> spec_float -> spec_float := SFmul 24 128.
Definition f32_add : spec_float -> spec_float -> spec_float := SFadd 24 128.
Definition f32_sqrt : spec_float -> spec_float := SFsqrt 24 128.

(** The [memcpy] of a word into a [float]. *)
Definition f32_of_word (w : Z) : spec_float :=
  let sign := Z.testbit w 31 in
  let ex := Z.land (Z.shiftr w 23) 0xFF in
  let man := Z.land w 0x7FFFFF in
  if ex =? 0xFF then (if man =? 0 then S754_infinity sign else S754_nan)
  else if ex =? 0 then (if man =? 0 then S754_zero sign else S754_finite sign (Z.to_pos man) (-149))
  else S754_finite sign (Z.to_pos (man + 0x800000)) (ex - 150).

(** The float constants of the source, by their encodings: [0.0f], [1.0f],
    [0.999969f], [32768.0f], [128.0f], [4096.0f] and [(float)(1u << g)]. *)
Definition f32_0 : spec_float := f32_of_word 0.
Definition f32_1 : spec_float := f32_of_word 0x3F800000.
Definition f32_rail : spec_float := f32_of_word 0x3F7FFDF8.
Definition f32_32768 : spec_float := f32_of_word 0x47000000.
Definition ADC_DSP_FAC_COEFF_MAX : spec_float := f32_of_word 0x43000000.
Definition f32_4096 : spec_float := f32_of_word 0x45800000.
Definition f32_pow2 (g : Z) : spec_float := S754_finite false 0x800000 (g - 23).

(** [(int16_t)f]: truncation, undefined when the value does not fit. *)
Definition f32_to_i16 (f : spec_float) : option Z :=
  match f with
  | S754_zero _ => Some 0
  | S754_finite s m e =>
      let v := if 0 <=? e then Z.pos m * 2 ^ e else Z.pos m / 2 ^ (- e) in
      let v := if s then - v else v in
      if (-32768 <=? v) && (v <=? 32767) then Some v else None
  | _ => None
  end.

(** ** Coefficients *)

Definition adc_dsp_f32_to_q15 (f : spec_float) (g : Z) : option Z :=
  let f := f32_div f (f32_pow2 g) in
  let f := if SFleb f32_1 f then f32_rail else f in
  let f := if SFleb f (SFopp f32_1) then SFopp f32_1 else f in
  f32_to_i16 (f32_mul f f32_32768).

Definition adc_dsp_neg_q15 (v : Z) : Z := if v =? -32768 then 32767 else - v.

Definition adc_dsp_f32_max_abs (v : list spec_float) : spec_float :=
  let max := foldl (fun max x => let a := if SFltb x f32_0 then SFopp x else x in
                                 if SFltb max a then a else max) f32_0 v in
  if SFleb ADC_DSP_FAC_COEFF_MAX max then SFopp f32_1 else max.

(** The loop over [g]; [fuel] is the seven values it can pass. *)
Fixpoint headroom_loop (fuel : nat) (g : Z) (max_abs : spec_float) : Z :=
  match fuel with
  | O => g
  | S fuel => if SFltb (f32_pow2 g) max_abs then headroom_loop fuel (g + 1) max_abs else g
  end.

Definition adc_dsp_headroom_exp (max_abs : spec_float) : Z := headroom_loop 7 0 max_abs.

Definition adc_dsp_bias_shift (full_scale : Z) : Z :=
  if full_scale =? 1023 then 5 else if full_scale =? 255 then 7
  else if full_scale =? 63 then 9 else 3.

(** Coefficient word [k] of a stage, and its Q31 reading
    [(int16_t)((int32_t)w >> 16)]. *)
Definition coeff_word (st : adc_dsp_stage) (k : Z) : Z :=
  let off := BRIDGE_DSP_STAGE_HDR_BYTES + k * 4 in
  Z.lor (Z.lor (Z.lor (data st).[off] (Z.shiftl (data st).[off + 1] 8))
               (Z.shiftl (data st).[off + 2] 16)) (Z.shiftl (data st).[off + 3] 24).

Definition q31_to_q15 (w : Z) : Z :=
  let h := Z.shiftr w 16 in if h <? 0x8000 then h else h - 0x10000.

(** The first [n] words. *)
Definition coeff_words (st : adc_dsp_stage) (n : Z) : list Z := coeff_word st <$> seqZ 0 n.

(** What the configuration leaves in the accelerator. *)
Record fac_program := FacProgram {
  fp_coeffb : list Z;
  fp_coeffa : list Z;
  fp_x0_zeros : Z;
  fp_coeff_addr : Z; fp_coeff_size : Z;
  fp_input_addr : Z; fp_input_size : Z;
  fp_output_addr : Z; fp_output_size : Z;
  fp_iir : bool;
  fp_ipp : Z; fp_ipq : Z; fp_ipr : Z }.

(** Refused ([return false]), a conversion C does not define, or a program. *)
Inductive cfg_result := CfgRefused | CfgUndefined | CfgProgram (p : fac_program).

(** [adc_dsp_fac_preload], its poll answering [latched]. *)
Definition adc_dsp_fac_preload (latched : bool) (x0_zeros : Z) : option Z :=
  let x0_zeros := if x0_zeros =? 0 then 1 else x0_zeros in
  if BRIDGE_DSP_MAX_FIR_TAPS <? x0_zeros then None
  else if latched then Some x0_zeros else None.

(** Words of either format: the 16-bit coefficients and the gain exponent.
    [None] is the refusal of a coefficient of magnitude 128 or more,
    [Some None] an undefined conversion. *)
Definition decode_coeffs (fmt : Z) (words : list Z) : option (option (list Z) * Z) :=
  if fmt =? 1 then Some (Some (q31_to_q15 <$> words), 0)
  else
    let fv := f32_of_word <$> words in
    let max := adc_dsp_f32_max_abs fv in
    if SFltb max f32_0 then None
    else
      let g := adc_dsp_headroom_exp max in
      Some (mapM (fun f => adc_dsp_f32_to_q15 f g) fv, g).

Definition fac_depth : Z := 32.

Definition adc_dsp_fac_config (latched : bool) (l : list adc_dsp_stage) : cfg_result :=
  if negb (adc_dsp_chain_p1_capable l) then CfgRefused
  else
    match list_find (fun st => populated st = true) l with
    | None => CfgRefused
    | Some (_, st) =>
        let fmt := (data st).[0] in
        if kind st =? 0 then
          let nt := (data st).[1] in
          if (nt =? 0) || (BRIDGE_DSP_MAX_FIR_TAPS <? nt) then CfgRefused
          else if negb (total_size st =? u16 (BRIDGE_DSP_STAGE_HDR_BYTES + nt * 4)) then CfgRefused
          else
            match decode_coeffs fmt (coeff_words st nt) with
            | None => CfgRefused
            | Some (None, _) => CfgUndefined
            | Some (Some taps, g) =>
                match adc_dsp_fac_preload latched (u8 (nt - 1)) with
                | None => CfgRefused
                | Some zeros =>
                    CfgProgram (FacProgram taps [] zeros 0 nt nt (u8 (nt + fac_depth))
                                  (u8 (nt + nt + fac_depth)) fac_depth false nt 0 g)
                end
            end
        else if kind st =? 1 then
          match decode_coeffs fmt (coeff_words st 5) with
          | None => CfgRefused
          | Some (None, _) => CfgUndefined
          | Some (Some cs, g) =>
              match adc_dsp_fac_preload latched 2 with
              | None => CfgRefused
              | Some zeros =>
                  CfgProgram (FacProgram (take 3 cs) (adc_dsp_neg_q15 <$> drop 3 cs) zeros 0 5 5
                                (u8 (3 + fac_depth)) (u8 (5 + 3 + fac_depth)) fac_depth true 3 2 g)
              end
          end
        else CfgRefused
    end.

(** ** Exact values

    A float as a multiple of 2^-149; a unit of the 16-bit words is 2^134. *)
Definition f32_fix (f : spec_float) : Z :=
  match f with
  | S754_finite s m e => (if s then - Z.pos m else Z.pos m) * 2 ^ (e + 149)
  | _ => 0
  end.

Definition q15_unit : Z := 2 ^ 134.

(** Zeros, and the normal numbers whose scaled value is normal too: magnitude at
    least 2^-118. *)
Definition nice (f : spec_float) : Prop :=
  match f with
  | S754_zero _ => True
  | S754_finite _ m e => digits2_pos m = 24%positive /\ -141 <= e <= 104
  | _ => False
  end.

Lemma digits_bound m : 2 ^ (Z.pos (digits2_pos m) - 1) <= Z.pos m < 2 ^ Z.pos (digits2_pos m).
Proof.
  induction m as [m IH | m IH |]; cbn [digits2_pos]; [| | done];
    rewrite Pos2Z.inj_succ; replace (Z.succ (Z.pos (digits2_pos m)) - 1)
      with (Z.succ (Z.pos (digits2_pos m) - 1)) by lia;
    rewrite !Z.pow_succ_r by lia; lia.
Qed.

Lemma digits24 m : digits2_pos m = 24%positive -> 0x800000 <= Z.pos m < 0x1000000.
Proof. intros E. pose proof (digits_bound m) as Hb. rewrite E in Hb. exact Hb. Qed.

(** A 24-bit mantissa is not rounded. *)
Lemma round_exact24 s m e :
  digits2_pos m = 24%positive -> -149 <= e <= 104 ->
  binary_round_aux 24 128 s (Z.pos m) e loc_Exact = S754_finite s m e.
Proof.
  intros Hd He. unfold binary_round_aux, shr_fexp. cbn [Zdigits2 shr_record_of_loc].
  rewrite Hd. replace (fexp 24 128 (24 + e) - e) with 0 by (unfold fexp, emin; lia).
  cbn [shr shr_m loc_of_shr_record round_nearest_even Zdigits2 shr_record_of_loc].
  rewrite Hd. replace (fexp 24 128 (24 + e) - e) with 0 by (unfold fexp, emin; lia).
  cbn [shr shr_m]. by rewrite (proj2 (Z.leb_le e (128 - 24))) by lia.
Qed.

(** Division by a power of two and the multiplication by 2^15 are exact. *)
Lemma div_pow2 s m e g :
  digits2_pos m = 24%positive -> 0 <= g <= 7 -> -148 <= e - g -> e <= 104 ->
  f32_div (S754_finite s m e) (f32_pow2 g) = S754_finite s m (e - g).
Proof.
  intros Hd Hg He1 He2. unfold f32_div, f32_pow2, SFdiv, SFdiv_core_binary.
  change (Zdigits2 0x800000) with 24. change (Zdigits2 (Z.pos m)) with (Z.pos (digits2_pos m)). rewrite Hd.
  replace (Z.min (fexp 24 128 (24 + e - (24 + (g - 23)))) (e - (g - 23))) with (e - g - 1)
    by (unfold fexp, emin; lia).
  replace (e - (g - 23) - (e - g - 1)) with 24 by lia.
  rewrite Z.shiftl_mul_pow2 by lia.
  replace (Z.pos m * 2 ^ 24) with (0x800000 * Z.pos m~0 + 0) by (rewrite Pos2Z.inj_xO; lia).
  pose proof (Z_div_mod (0x800000 * Z.pos m~0 + 0) 0x800000 eq_refl) as Hq.
  destruct (Z.div_eucl (0x800000 * Z.pos m~0 + 0) 0x800000) as [q r] eqn:Eq.
  assert (q = Z.pos m~0 /\ r = 0) as [-> ->] by lia.
  change (new_location 0x800000 0) with loc_Exact. rewrite xorb_false_r.
  unfold binary_round_aux, shr_fexp. cbn [Zdigits2 digits2_pos shr_record_of_loc].
  rewrite Hd. change (Z.pos (Pos.succ 24)) with 25.
  replace (fexp 24 128 (25 + (e - g - 1)) - (e - g - 1)) with 1 by (unfold fexp, emin; lia).
  cbn [shr SpecFloat.iter_pos shr_1 orb shr_m loc_of_shr_record round_nearest_even Zdigits2 shr_record_of_loc].
  rewrite Hd. replace (e - g - 1 + 1) with (e - g) by lia.
  replace (fexp 24 128 (24 + (e - g)) - (e - g)) with 0 by (unfold fexp, emin; lia).
  cbn [shr shr_m]. by rewrite (proj2 (Z.leb_le (e - g) (128 - 24))) by lia.
Qed.

Lemma mul_32768 s m e :
  digits2_pos m = 24%positive -> -149 <= e + 15 <= 104 ->
  f32_mul (S754_finite s m e) f32_32768 = S754_finite s m (e + 15).
Proof.
  intros Hd He. change f32_32768 with (S754_finite false 0x800000 (-8)).
  unfold f32_mul, SFmul. rewrite xorb_false_r, Pos.mul_comm.
  change (0x800000 * m)%positive with m~0~0~0~0~0~0~0~0~0~0~0~0~0~0~0~0~0~0~0~0~0~0~0%positive.
  unfold binary_round_aux, shr_fexp. cbn [Zdigits2 digits2_pos shr_record_of_loc].
  rewrite Hd. match goal with |- context [fexp 24 128 (?d + (e + -8))] => change d with 47 end.
  replace (fexp 24 128 (47 + (e + -8)) - (e + -8)) with 23 by (unfold fexp, emin; lia).
  cbn [shr SpecFloat.iter_pos shr_1 orb shr_m loc_of_shr_record round_nearest_even Zdigits2 shr_record_of_loc].
  rewrite Hd. replace (e + -8 + 23) with (e + 15) by lia.
  replace (fexp 24 128 (24 + (e + 15)) - (e + 15)) with 0 by (unfold fexp, emin; lia).
  cbn [shr shr_m]. by rewrite (proj2 (Z.leb_le (e + 15) (128 - 24))) by lia.
Qed.

(** ** Comparison of exact values *)

Lemma mag_lt m1 e1 m2 e2 :
  digits2_pos m1 = 24%positive -> digits2_pos m2 = 24%positive -> -149 <= e1 < e2 ->
  Z.pos m1 * 2 ^ (e1 + 149) < Z.pos m2 * 2 ^ (e2 + 149).
Proof.
  intros H1 H2 He. apply digits24 in H1, H2.
  assert (Hp : 2 ^ (e2 + 149) = 2 ^ (e2 - e1 - 1) * 2 * 2 ^ (e1 + 149)).
  { change 2 with (2 ^ 1) at 3. rewrite <- !Z.pow_add_r by lia. f_equal. lia. }
  assert (1 <= 2 ^ (e2 - e1 - 1)) by (apply (Z.pow_le_mono_r 2 0); lia).
  assert (0 < 2 ^ (e1 + 149)) by (apply Z.pow_pos_nonneg; lia).
  rewrite Hp. nia.
Qed.

Lemma nice_compare a b : nice a -> nice b -> SFcompare a b = Some (f32_fix a ?= f32_fix b).
Proof.
  assert (Hpos : forall (m : positive) (e : Z), 0 < Z.pos m * 2 ^ (e + 149) \/ e < -149).
  { intros m e. destruct (Z.lt_ge_cases e (-149)); [by right | left].
    apply Z.mul_pos_pos; [lia |]. apply Z.pow_pos_nonneg; lia. }
  assert (Hcmp : forall m1 e1 m2 e2, digits2_pos m1 = 24%positive -> digits2_pos m2 = 24%positive ->
    -141 <= e1 -> -141 <= e2 ->
    match e1 ?= e2 with Eq => (m1 ?= m2)%positive | c => c end =
    (Z.pos m1 * 2 ^ (e1 + 149) ?= Z.pos m2 * 2 ^ (e2 + 149))).
  { intros m1 e1 m2 e2 D1 D2 E1 E2. destruct (Z.compare_spec e1 e2) as [-> | Hlt | Hgt].
    - change ((m1 ?= m2)%positive) with (Z.pos m1 ?= Z.pos m2).
      assert (0 < 2 ^ (e2 + 149)) by (apply Z.pow_pos_nonneg; lia).
      destruct (Z.compare_spec (Z.pos m1) (Z.pos m2)) as [-> | Hl | Hl]; symmetry;
        [by apply Z.compare_eq_iff | apply Z.compare_lt_iff | apply Z.compare_gt_iff]; nia.
    - symmetry. apply Z.compare_lt_iff. apply mag_lt; done || lia.
    - symmetry. apply Z.compare_gt_iff. apply mag_lt; done || lia. }
  destruct a as [sa | | | sa ma ea], b as [sb | | | sb mb eb]; cbn [nice]; try done.
  - intros _ [_ Eb]. cbn [SFcompare f32_fix]. destruct (Hpos mb eb) as [Hp | ?]; [| lia].
    destruct sb; f_equal; symmetry; [apply Z.compare_gt_iff | apply Z.compare_lt_iff]; lia.
  - intros [_ Ea] _. cbn [SFcompare f32_fix]. destruct (Hpos ma ea) as [Hp | ?]; [| lia].
    destruct sa; f_equal; symmetry; [apply Z.compare_lt_iff | apply Z.compare_gt_iff]; lia.
  - intros [Da Ea] [Db Eb]. cbn [SFcompare f32_fix].
    destruct (Hpos ma ea) as [Hpa | ?], (Hpos mb eb) as [Hpb | ?]; try lia.
    pose proof (Hcmp ma ea mb eb Da Db ltac:(lia) ltac:(lia)) as Hc.
    destruct sa, sb; f_equal; symmetry; try (apply Z.compare_lt_iff; lia); try (apply Z.compare_gt_iff; lia).
    + rewrite !Z.mul_opp_l, Z.compare_opp, Z.compare_antisym, <- Hc.
      by destruct (ea ?= eb).
    + by rewrite <- Hc.
Qed.

Lemma nice_ltb a b : nice a -> nice b -> SFltb a b = (f32_fix a <? f32_fix b).
Proof.
  intros Ha Hb. unfold SFltb. rewrite nice_compare by done. unfold Z.ltb. by destruct (_ ?= _).
Qed.

Lemma nice_leb a b : nice a -> nice b -> SFleb a b = (f32_fix a <=? f32_fix b).
Proof.
  intros Ha Hb. unfold SFleb. rewrite nice_compare by done. unfold Z.leb. by destruct (_ ?= _).
Qed.

Lemma nice_pow2 g : 0 <= g <= 7 -> nice (f32_pow2 g) /\ f32_fix (f32_pow2 g) = 2 ^ g * 2 ^ 149.
Proof.
  intros Hg. split; [split; [done | lia] |]. unfold f32_fix, f32_pow2.
  change (Z.pos 0x800000) with (2 ^ 23). rewrite <- !Z.pow_add_r by lia. f_equal. lia.
Qed.

Lemma nice_opp f : nice f -> nice (SFopp f) /\ f32_fix (SFopp f) = - f32_fix f.
Proof. destruct f as [s | | | s m e]; try done. simpl. intros Hn. split; [done |]. destruct s; simpl; lia. Qed.

(** ** One coefficient *)

Lemma f32_1_pow2 : f32_1 = f32_pow2 0.
Proof. reflexivity. Qed.

(** The two saturation tests. *)
Lemma leb_finite_ge (c : positive) (k : Z) s (m : positive) e :
  Z.pos c <= Z.pos m ->
  SFleb (S754_finite false c k) (S754_finite s m e) = negb s && (k <=? e) /\
  SFleb (S754_finite s m e) (S754_finite true c k) = s && (k <=? e).
Proof.
  intros Hc. unfold SFleb, SFcompare.
  change (Pos.compare_cont Eq c m) with (Z.pos c ?= Z.pos m).
  change (Pos.compare_cont Eq m c) with (Z.pos m ?= Z.pos c).
  destruct s; cbn [negb andb]; split; try done.
  - destruct (Z.compare_spec e k), (Z.leb_spec k e); try lia; try done.
    by destruct (Z.compare_spec (Z.pos m) (Z.pos c)); [| lia |].
  - destruct (Z.compare_spec k e), (Z.leb_spec k e); try lia; try done.
    by destruct (Z.compare_spec (Z.pos c) (Z.pos m)); [| | lia].
Qed.

Lemma to_q15_spec f g :
  nice f -> 0 <= g <= 7 -> Z.abs (f32_fix f) <= 2 ^ g * 2 ^ 149 ->
  exists q, adc_dsp_f32_to_q15 f g = Some q /\ -32768 <= q <= 32767 /\
    Z.abs (q * 2 ^ g * q15_unit - f32_fix f) <= 2 * 2 ^ g * q15_unit.
Proof.
  intros Hn Hg Hle. assert (Hpg : 1 <= 2 ^ g) by (apply (Z.pow_le_mono_r 2 0); lia).
  assert (Hu : 0 < q15_unit) by done.
  destruct f as [s | | | s m e]; try done.
  { exists 0. split; [by destruct s |]. cbn [f32_fix]. split; [lia |]. rewrite Z.mul_0_l. lia. }
  cbn [nice] in Hn. destruct Hn as [Hd He]. pose proof (digits24 m Hd) as Hm.
  unfold adc_dsp_f32_to_q15. rewrite div_pow2 by (done || lia).
  assert (Hn' : nice (S754_finite s m (e - g)) \/ e - g < -141) by (cbn [nice]; lia).
  destruct (nice_pow2 0 ltac:(lia)) as [N1 F1]. rewrite f32_1_pow2.
  destruct (nice_opp _ N1) as [N2 F2].
  assert (Hm1 : Z.pos 0x800000 <= Z.pos m) by lia.
  destruct (leb_finite_ge 0x800000 (0 - 23) s m (e - g) Hm1) as [Hc1 Hc2].
  change (SFopp (f32_pow2 0)) with (S754_finite true 0x800000 (0 - 23)).
  change (f32_pow2 0) with (S754_finite false 0x800000 (0 - 23)). rewrite Hc1.
  change (0 - 23) with (-23) in *.
  destruct (Z.leb_spec (-23) (e - g)) as [Hbig | Hsmall].
  - (* the value is plus or minus 2^g *)
    assert (Hval : f32_fix (S754_finite s m e) = (if s then -1 else 1) * (2 ^ g * 2 ^ 149)).
    { cbn [f32_fix] in *. assert (Hpe : 2 ^ (e + 149) = 2 ^ (e - g + 23) * (2 ^ g * 2 ^ 126)).
      { rewrite <- !Z.pow_add_r by lia. f_equal. lia. }
      assert (1 <= 2 ^ (e - g + 23)) by (apply (Z.pow_le_mono_r 2 0); lia).
      assert (0 < 2 ^ g * 2 ^ 126) by (apply Z.mul_pos_pos; [lia | done]).
      assert (H149 : 2 ^ g * 2 ^ 149 = 0x800000 * (2 ^ g * 2 ^ 126)).
      { change (2 ^ 149) with (0x800000 * 2 ^ 126). ring. }
      rewrite Hpe, H149 in *. set (a := 2 ^ (e - g + 23)) in *. set (X := 2 ^ g * 2 ^ 126) in *.
      assert (Hma : Z.pos m * a * X <= 0x800000 * X) by (destruct s; lia).
      assert (Z.pos m * a = 0x800000) as Eq by (apply Z.mul_le_mono_pos_r in Hma; nia).
      destruct s; rewrite ?Z.mul_opp_l, Z.mul_assoc, Eq; ring. }
    destruct s; cbn [negb andb].
    + rewrite Hc2. cbn [andb]. exists (-32768). split; [reflexivity |]. split; [lia |].
      rewrite Hval. change (2 ^ 149) with (32768 * q15_unit).
      replace (-32768 * 2 ^ g * q15_unit - -1 * (2 ^ g * (32768 * q15_unit))) with 0 by ring.
      simpl Z.abs. nia.
    + exists 32766. split; [reflexivity |]. split; [lia |].
      rewrite Hval. change (2 ^ 149) with (32768 * q15_unit).
      replace (32766 * 2 ^ g * q15_unit - 1 * (2 ^ g * (32768 * q15_unit)))
        with (- (2 * 2 ^ g * q15_unit)) by ring.
      rewrite Z.abs_opp, Z.abs_eq by nia. lia.
  - rewrite andb_false_r, Hc2, andb_false_r, mul_32768 by (done || lia).
    unfold f32_to_i16. rewrite (proj2 (Z.leb_gt 0 (e - g + 15))) by lia.
    set (k := - (e - g + 15)). assert (Hk : 9 <= k) by lia.
    assert (Hpk : 512 <= 2 ^ k) by (apply (Z.pow_le_mono_r 2 9); lia).
    pose proof (Z.div_mod (Z.pos m) (2 ^ k) ltac:(lia)) as Hdm.
    pose proof (Z.mod_pos_bound (Z.pos m) (2 ^ k) ltac:(lia)) as Hmb.
    assert (Hv : 0 <= Z.pos m / 2 ^ k <= 32767).
    { split; [apply Z.div_pos; lia |]. apply Z.lt_succ_r, Z.div_lt_upper_bound; nia. }
    set (v := Z.pos m / 2 ^ k) in *.
    exists (if s then - v else v). split.
    { replace ((-32768 <=? (if s then - v else v)) && ((if s then - v else v) <=? 32767)) with true; [done |].
      symmetry. rewrite andb_true_iff, !Z.leb_le. destruct s; lia. }
    split; [destruct s; lia |]. cbn [f32_fix].
    assert (Hsplit : 2 ^ g * q15_unit = 2 ^ k * 2 ^ (e + 149)).
    { unfold q15_unit. rewrite <- !Z.pow_add_r by lia. f_equal. lia. }
    assert (0 < 2 ^ (e + 149)) by (apply Z.pow_pos_nonneg; lia).
    replace ((if s then - v else v) * 2 ^ g * q15_unit - (if s then - Z.pos m else Z.pos m) * 2 ^ (e + 149))
      with ((if s then 1 else -1) * ((Z.pos m mod 2 ^ k) * 2 ^ (e + 149))).
    2: { replace ((if s then - v else v) * 2 ^ g * q15_unit) with ((if s then - v else v) * (2 ^ g * q15_unit)) by ring.
         rewrite Hsplit. destruct s; nia. }
    replace (2 * 2 ^ g * q15_unit) with (2 * (2 ^ k * 2 ^ (e + 149))) by (rewrite <- Hsplit; ring).
    destruct s; rewrite Z.abs_mul; [change (Z.abs 1) with 1 | change (Z.abs (-1)) with 1];
      rewrite Z.abs_eq by nia; nia.
Qed.

(** ** The whole coefficient list *)

(** The running maximum. *)
Definition max_step (max x : spec_float) : spec_float :=
  let a := if SFltb x f32_0 then SFopp x else x in if SFltb max a then a else max.

Lemma max_abs_fold vs :
  adc_dsp_f32_max_abs vs =
  if SFleb ADC_DSP_FAC_COEFF_MAX (foldl max_step f32_0 vs) then SFopp f32_1
  else foldl max_step f32_0 vs.
Proof. reflexivity. Qed.

Lemma max_step_spec max x :
  nice max -> nice x -> 0 <= f32_fix max ->
  nice (max_step max x) /\ f32_fix (max_step max x) = Z.max (f32_fix max) (Z.abs (f32_fix x)).
Proof.
  intros Hm Hx H0. destruct (nice_opp x Hx) as [No Fo].
  unfold max_step. rewrite (nice_ltb x f32_0) by done. change (f32_fix f32_0) with 0.
  destruct (Z.ltb_spec (f32_fix x) 0).
  - rewrite nice_ltb, Fo by done. destruct (Z.ltb_spec (f32_fix max) (- f32_fix x)); split; try done; lia.
  - rewrite nice_ltb by done. destruct (Z.ltb_spec (f32_fix max) (f32_fix x)); split; try done; lia.
Qed.

Lemma fold_max_spec vs : forall acc,
  Forall nice vs -> nice acc -> 0 <= f32_fix acc ->
  let r := foldl max_step acc vs in
  nice r /\ f32_fix acc <= f32_fix r /\ Forall (fun v => Z.abs (f32_fix v) <= f32_fix r) vs /\
  (f32_fix r = f32_fix acc \/ exists v, v ∈ vs /\ f32_fix r = Z.abs (f32_fix v)).
Proof.
  induction vs as [| v vs IH]; intros acc Hvs Ha H0; cbn [foldl].
  { split_and!; try done. by left. }
  inversion Hvs as [| ? ? Hv Hvs']; subst. destruct (max_step_spec acc v Ha Hv H0) as [Hn Hf].
  destruct (IH (max_step acc v) Hvs' Hn ltac:(lia)) as (Hr & Hle & Hall & Hor).
  cbv zeta. split_and!; [done | lia | |].
  - constructor; [lia | done].
  - destruct Hor as [E | (u & Hu & E)].
    + rewrite Hf in E. destruct (Z.max_spec (f32_fix acc) (Z.abs (f32_fix v))) as [[_ Em] | [_ Em]].
      * right. exists v. split; [left | lia].
      * left. lia.
    + right. exists u. split; [by right | done].
Qed.

Lemma headroom_spec fuel : forall g max,
  nice max -> 0 <= g -> g + Z.of_nat fuel = 7 ->
  let g' := headroom_loop fuel g max in
  g <= g' <= 7 /\ (g' < 7 -> f32_fix max <= 2 ^ g' * 2 ^ 149) /\
  forall i, g <= i < g' -> 2 ^ i * 2 ^ 149 < f32_fix max.
Proof.
  induction fuel as [| fuel IH]; intros g max Hm Hg Hf; cbn [headroom_loop].
  { cbv zeta. split_and!; lia. }
  destruct (nice_pow2 g ltac:(lia)) as [Np Fp]. rewrite nice_ltb, Fp by done.
  destruct (Z.ltb_spec (2 ^ g * 2 ^ 149) (f32_fix max)).
  - destruct (IH (g + 1) max Hm ltac:(lia) ltac:(lia)) as (Hr & Hle & Hlt). cbv zeta.
    split_and!; [lia | lia | done |]. intros i Hi. destruct (decide (i = g)) as [-> | ?]; [done |].
    apply Hlt. lia.
  - cbv zeta. split_and!; [lia | lia | done | lia].
Qed.

(** What a stored word means: [q * 2^g] reads the coefficient to two units of
    the accelerator's own resolution. *)
Definition quantises (g : Z) (f : spec_float) (q : Z) : Prop :=
  -32768 <= q <= 32767 /\ Z.abs (q * 2 ^ g * q15_unit - f32_fix f) <= 2 * 2 ^ g * q15_unit.

Lemma mapM_q15 g vs :
  0 <= g <= 7 -> Forall nice vs -> Forall (fun f => Z.abs (f32_fix f) <= 2 ^ g * 2 ^ 149) vs ->
  exists l, mapM (fun f => adc_dsp_f32_to_q15 f g) vs = Some l /\ Forall2 (quantises g) vs l.
Proof.
  intros Hg Hn Hb. induction vs as [| v vs IH]; [by exists [] |].
  inversion Hn; inversion Hb; subst. destruct (to_q15_spec v g) as (q & Eq & Hq); try done.
  destruct IH as (l & El & Hl); try done. exists (q :: l).
  split; [| by constructor]. cbn [mapM]. rewrite Eq. cbn. by rewrite El.
Qed.

(** Decoding single-precision coefficients (zeros and normal numbers of
    magnitude at least 2^-118): the list is refused exactly when some
    coefficient reaches 128; otherwise every conversion is defined and in range,
    the gain exponent is the least that brings every coefficient into [-1, 1],
    and each stored word, times the gain, is within two units of the
    coefficient. *)
Theorem coeffs_quantised fmt words :
  fmt <> 1 -> Forall nice (f32_of_word <$> words) ->
  match decode_coeffs fmt words with
  | None => exists f, f ∈ f32_of_word <$> words /\ 128 * 2 ^ 149 <= Z.abs (f32_fix f)
  | Some (qs, g) =>
      0 <= g <= 7 /\
      Forall (fun f => Z.abs (f32_fix f) <= 2 ^ g * 2 ^ 149 /\ Z.abs (f32_fix f) < 128 * 2 ^ 149)
             (f32_of_word <$> words) /\
      (forall i, 0 <= i < g -> exists f, f ∈ f32_of_word <$> words /\ 2 ^ i * 2 ^ 149 < Z.abs (f32_fix f)) /\
      exists l, qs = Some l /\ Forall2 (quantises g) (f32_of_word <$> words) l
  end.
Proof.
  intros Hfmt Hn. unfold decode_coeffs. rewrite (proj2 (Z.eqb_neq fmt 1)) by done.
  set (vs := f32_of_word <$> words) in *. cbv zeta.
  rewrite max_abs_fold.
  destruct (fold_max_spec vs f32_0 Hn I ltac:(done)) as (Hr & H0 & Hall & Hor).
  change (f32_fix f32_0) with 0 in *. set (r := foldl max_step f32_0 vs) in *.
  assert (HM : nice ADC_DSP_FAC_COEFF_MAX) by (split; [done | vm_compute; by split]).
  rewrite (nice_leb _ r) by done.
  change (f32_fix ADC_DSP_FAC_COEFF_MAX) with (128 * 2 ^ 149).
  destruct (Z.leb_spec (128 * 2 ^ 149) (f32_fix r)) as [Hge | Hlt].
  - change (SFltb (SFopp f32_1) f32_0) with true. cbn iota.
    destruct Hor as [E | (v & Hv & E)]; [rewrite E in Hge; done | exists v; split; [done | lia]].
  - rewrite (nice_ltb r f32_0) by done. change (f32_fix f32_0) with 0.
    destruct (Z.ltb_spec (f32_fix r) 0); [lia |].
    unfold adc_dsp_headroom_exp.
    destruct (headroom_spec 7 0 r Hr ltac:(lia) ltac:(lia)) as (Hg & Hgle & Hglt).
    set (g := headroom_loop 7 0 r) in *.
    assert (Hrg : f32_fix r <= 2 ^ g * 2 ^ 149).
    { destruct (Z.lt_ge_cases g 7); [auto |]. assert (g = 7) as -> by lia.
      change (2 ^ 7) with 128. lia. }
    split; [lia |]. split.
    { eapply Forall_impl; [| exact Hall]. intros f Hf. cbv beta in Hf. lia. }
    split.
    { intros i Hi. specialize (Hglt i ltac:(lia)).
      destruct Hor as [E | (v & Hv & E)]; [rewrite E in Hglt; exfalso |
        exists v; split; [done | lia]].
      assert (0 < 2 ^ i) by (apply Z.pow_pos_nonneg; lia). lia. }
    apply mapM_q15; [done | done |].
    eapply Forall_impl; [| exact Hall]. intros f Hf. cbv beta in Hf. lia.
Qed.

(** ** The program of a bound chain *)

(** Disjoint regions in the accelerator's 256 words, as many coefficients as the
    function reads, and a primed tap window. *)
Record fac_layout_ok (p : fac_program) : Prop := {
  fl_coeff : 0 <= fp_coeff_addr p /\ fp_coeff_addr p + fp_coeff_size p <= fp_input_addr p;
  fl_input : fp_input_addr p + fp_input_size p <= fp_output_addr p;
  fl_output : fp_output_addr p + fp_output_size p <= 256;
  fl_size : Z.of_nat (length (fp_coeffb p) + length (fp_coeffa p)) = fp_coeff_size p;
  fl_b : Z.of_nat (length (fp_coeffb p)) = fp_ipp p;
  fl_a : Z.of_nat (length (fp_coeffa p)) = fp_ipq p;
  fl_zeros : fp_x0_zeros p = Z.max 1 (fp_ipp p - 1);
  fl_window : fp_ipp p + fac_depth <= fp_input_size p }.

Lemma length_coeff_words st n : 0 <= n -> Z.of_nat (length (coeff_words st n)) = n.
Proof. intros Hn. unfold coeff_words. rewrite length_fmap, length_seqZ. lia. Qed.

Lemma length_decoded fmt words l g :
  decode_coeffs fmt words = Some (Some l, g) -> length l = length words.
Proof.
  unfold decode_coeffs. destruct (fmt =? 1); [intros [= <- _]; by rewrite length_fmap |].
  cbv zeta. destruct (SFltb _ f32_0); [done |]. intros [= E _].
  apply length_mapM in E. by rewrite <- E, length_fmap.
Qed.

(** The stage a filter chain consists of. *)
Lemma filter_stage l t :
  length l = 4%nat -> realisable l t -> t <> 3 ->
  adc_dsp_chain_p1_capable l = true /\
  exists i st, list_find (fun s => populated s = true) l = Some (i, st) /\ st ∈ l /\
    stage_good st /\ kind st = t /\ (t = 0 \/ t = 1 /\ (data st).[1] = 1).
Proof.
  intros Hl Hr Ht. split.
  { pose proof (bind_decision l Hl) as Hd. destruct (bind_scan l 0 4 4 4) as [[[f w] last] |];
      [| by destruct (Hd t)].
    destruct (bind_order_ok f w last); [| by destruct (Hd t)].
    destruct (adc_dsp_chain_p1_capable l); [done | by destruct (Hd t)]. }
  destruct Hr as (pre & core & post & -> & Hc & Hpre & _).
  assert (exists st, core = [st] /\ stage_good st /\ kind st = t /\ (t = 0 \/ t = 1 /\ (data st).[1] = 1))
    as (st & -> & Hg & Hk & Hor).
  { inversion Hc as [s G K E | s G K D E | s G K E | w s Gw Kw G K E]; subst; try lia;
      exists s; split_and!; auto. }
  exists (length pre), st. split; [| split; [rewrite elem_of_app; right; by left | done]].
  apply list_find_Some. split_and!.
  - rewrite lookup_app_r, Nat.sub_diag by done. done.
  - by apply good_populated.
  - intros j y Ej Hj. rewrite lookup_app_l in Ej by done.
    pose proof (Forall_lookup_1 _ _ _ _ Hpre Ej) as E0. cbv beta in E0.
    unfold populated. by rewrite E0.
Qed.

(** Configuring the chain a stream was bound with: no shape or payload check
    of the configuration fires any more, so it is refused only for a coefficient
    of magnitude 128 or more or an accelerator that does not latch, and
    otherwise programs disjoint regions of the accelerator's memory with exactly
    the coefficients the filter function reads. *)
Theorem fac_config_bound l t latched :
  length l = 4%nat -> Forall (fun st => bytes_ok (data st)) l -> realisable l t -> t <> 3 ->
  exists st n, st ∈ l /\ kind st = t /\ 1 <= n <= 64 /\
    total_size st = (if t =? 0 then 4 + n * 4 else 24) /\
    match decode_coeffs (data st).[0] (coeff_words st n) with
    | None => adc_dsp_fac_config latched l = CfgRefused
    | Some (None, _) => adc_dsp_fac_config latched l = CfgUndefined
    | Some (Some cs, g) =>
        adc_dsp_fac_config false l = CfgRefused /\
        exists p, adc_dsp_fac_config true l = CfgProgram p /\ fac_layout_ok p /\ fp_ipr p = g /\
          if t =? 0 then n = fp_ipp p /\ fp_coeffb p = cs
          else n = 5 /\ fp_coeffb p = take 3 cs /\ fp_coeffa p = adc_dsp_neg_q15 <$> drop 3 cs
    end.
Proof.
  intros Hl Hb Hr Ht. destruct (filter_stage l t Hl Hr Ht) as (Hcap & i & st & Hfind & Hin & Hg & Hk & Hor).
  destruct Hg as (_ & _ & Hv).
  pose proof (proj1 (list.Forall_forall _ _) Hb st Hin) as Hbytes. cbv beta in Hbytes.
  unfold adc_dsp_fac_config. rewrite Hcap, Hfind. cbn [negb]. rewrite Hk.
  unfold adc_dsp_stage_blob_valid in Hv. rewrite Hk in Hv.
  destruct (total_size st <? BRIDGE_DSP_STAGE_HDR_BYTES); [done |].
  destruct Hor as [-> | [-> H1]]; cbn [Z.eqb Pos.eqb] in *.
  - destruct (_ <? (data st).[0]); [done |].
    destruct (((data st).[1] =? 0) || _) eqn:Ent; [done |].
    rewrite orb_false_iff, Z.eqb_neq, Z.ltb_ge in Ent. unfold BRIDGE_DSP_MAX_FIR_TAPS in *.
    pose proof (at_byte (data st) 1 Hbytes) as Hnt. unfold is_byte in Hnt.
    apply Z.eqb_eq in Hv. rewrite Hv, Z.eqb_refl. cbn [negb].
    set (nt := (data st).[1]) in *. unfold BRIDGE_DSP_STAGE_HDR_BYTES in *.
    rewrite u16_id in Hv by (unfold is_u16; lia).
    exists st, nt. split_and!; try done; try lia.
    destruct (decode_coeffs (data st).[0] (coeff_words st nt)) as [[[cs |] g] |] eqn:Ed; try done.
    apply length_decoded in Ed. pose proof (length_coeff_words st nt ltac:(lia)) as Hn.
    unfold adc_dsp_fac_preload, BRIDGE_DSP_MAX_FIR_TAPS, fac_depth.
    rewrite !u8_id by (unfold is_byte; lia).
    assert (Hz : (64 <? (if nt - 1 =? 0 then 1 else nt - 1)) = false).
    { apply Z.ltb_ge. destruct (nt - 1 =? 0); lia. }
    rewrite Hz. split; [done |]. eexists. split; [done |].
    split; [| done].
    split; simpl; unfold fac_depth; try lia. destruct (Z.eqb_spec (nt - 1) 0); lia.
  - destruct (_ <? (data st).[0]); [done |].
    destruct (((data st).[1] =? 0) || _); [done |]. apply Z.eqb_eq in Hv. rewrite H1 in Hv.
    exists st, 5. split_and!; try done; try lia.
    destruct (decode_coeffs (data st).[0] (coeff_words st 5)) as [[[cs |] g] |] eqn:Ed; try done.
    apply length_decoded in Ed. pose proof (length_coeff_words st 5 ltac:(lia)) as Hn.
    unfold adc_dsp_fac_preload. split; [done |]. eexists. split; [done |]. split; [| done].
    split; simpl; rewrite ?length_fmap, ?length_take, ?length_drop; unfold u8, fac_depth; try lia; done.
Qed.
