(* ===== verification/Tmu.v ===== *)
(** * The CORDIC accelerator: [hal/gd32/tmu.c], [tmu_q31_scale.c]

    One request: the table of functions, the Q31 domain and scaling, the paced
    operands, the bounded wait and the result. *)

From Stdlib Require Import SpecFloat.
From stdpp Require Import base tactics list numbers option.
From S2P Require Import Prelude BridgeHw DspChain DspCoeff.

(** ** The Q31 domain *)

Definition TMU_Q31_SQRT_MIN_THRESHOLD : Z := 0x0374BC6A.
Definition TMU_Q31_SQRT_BAND1_THRESHOLD : Z := 0x60000000.
Definition TMU_Q31_LN_MIN_THRESHOLD : Z := 0x2F16AC6C.
Definition TMU_Q31_SINH_LIMIT : Z := 0x70D0D986.

Definition tmu_q31_sqrt_representable (q31_operand : Z) : bool :=
  let is_negative := negb (Z.land q31_operand 0x80000000 =? 0) in
  negb is_negative && (TMU_Q31_SQRT_MIN_THRESHOLD <? q31_operand).
Definition tmu_q31_sqrt_factor (q31_operand : Z) : Z := if s32 q31_operand <? TMU_Q31_SQRT_BAND1_THRESHOLD then 0 else 1.
Definition tmu_q31_ln_representable (q31_operand : Z) : bool := TMU_Q31_LN_MIN_THRESHOLD <? s32 q31_operand.
Definition tmu_q31_sinh_representable (q31_operand : Z) : bool :=
  (- TMU_Q31_SINH_LIMIT <? s32 q31_operand) && (s32 q31_operand <? TMU_Q31_SINH_LIMIT).

(** ** The unit *)

Inductive tmu_mode :=
  | TMU_MODE_SIN | TMU_MODE_COS | TMU_MODE_ATAN | TMU_MODE_ATAN2 | TMU_MODE_SQRT | TMU_MODE_LN
  | TMU_MODE_SINH | TMU_MODE_COSH | TMU_MODE_MODULUS.
#[export] Instance tmu_mode_eq_dec : EqDecision tmu_mode.
Proof. solve_decision. Defined.

(** Mode and number of inputs; [None] where the unit has no mode. *)
Definition tmu_dispatch : list (option (tmu_mode * Z)) :=
  [Some (TMU_MODE_SIN, 2); Some (TMU_MODE_COS, 2); None; Some (TMU_MODE_ATAN, 1); Some (TMU_MODE_ATAN2, 2);
   Some (TMU_MODE_SQRT, 1); Some (TMU_MODE_LN, 1); None; Some (TMU_MODE_SINH, 1); Some (TMU_MODE_COSH, 1); None;
   Some (TMU_MODE_MODULUS, 2)].

(** The fields that vary; [tp_scale] is FACTOR. *)
Record tmu_parameter := TmuParameter { tp_mode : tmu_mode; tp_scale : Z; tp_floating : bool; tp_write_times : Z; tp_read_times : Z }.

Inductive tmu_op := tmu_deinit | tmu_init (cfg : tmu_parameter) | TMU_IDATA (v : Z) | tmu_ovrf_clear.
Inductive tmu_reg := TMU_CS | TMU_FLAG_END | TMU_FLAG_OVRF | TMU_ODATA.

Class TmuHw (H : Type) := {
  tmu_do : H -> tmu_op -> H;
  tmu_reg_read : H -> tmu_reg -> Z * H }.

Definition TMU_COMPUTE_TIMEOUT : nat := Z.to_nat 65535.

(** [3.14159265358979f]. *)
Definition f32_pi : spec_float := f32_of_word 0x40490FDB.

(** [f32_to_bits]; [nan] is the encoding arithmetic gives a NaN. *)
Definition f32_to_bits (nan : Z) (f : spec_float) : Z :=
  match f with
  | S754_zero s => if s then 0x80000000 else 0
  | S754_infinity s => Z.lor (if s then 0x80000000 else 0) 0x7F800000
  | S754_nan => nan
  | S754_finite s m e =>
      let sign := if s then 0x80000000 else 0 in
      if Z.pos m <? 0x800000 then sign + Z.pos m else sign + (e + 150) * 0x800000 + (Z.pos m - 0x800000)
  end.

(** Scale and shifts of a Q31 operation, or its refusal. *)
Definition q31_scaling (mode : tmu_mode) (in_a : Z) : Z + (Z * Z * Z) :=
  match mode with
  | TMU_MODE_COSH => inl BRIDGE_HW_ERR_NOTIMPL
  | TMU_MODE_SQRT =>
      if negb (tmu_q31_sqrt_representable in_a) then inl BRIDGE_HW_ERR_RANGE
      else let f := tmu_q31_sqrt_factor in_a in inr (f, f, f)
  | TMU_MODE_LN => if negb (tmu_q31_ln_representable in_a) then inl BRIDGE_HW_ERR_RANGE else inr (1, 1, 2)
  | TMU_MODE_SINH => if negb (tmu_q31_sinh_representable in_a) then inl BRIDGE_HW_ERR_RANGE else inr (1, 1, 1)
  | _ => inr (0, 0, 0)
  end.

Definition sin_or_cos (mode : tmu_mode) : bool := bool_decide (mode = TMU_MODE_SIN) || bool_decide (mode = TMU_MODE_COS).
Definition angle_out (mode : tmu_mode) : bool := bool_decide (mode = TMU_MODE_ATAN) || bool_decide (mode = TMU_MODE_ATAN2).

Section tmu.
Context {H : Type} `{!TmuHw H} (nan : Z).

(** [while (RESET == flag && --to)], and [to != 0]. *)
Fixpoint end_wait (to : nat) (h : H) : bool * H :=
  match to with
  | O => (false, h)
  | S to => let '(v, h) := tmu_reg_read h TMU_FLAG_END in if negb (v =? 0) then (true, h) else end_wait to h
  end.

(** The operands as written, in order. *)
Definition tmu_operands (mode : tmu_mode) (float : bool) (pre_shift in_a in_b : Z) : Z * Z :=
  if sin_or_cos mode then
    if float then (f32_to_bits nan (f32_div (f32_of_word in_a) f32_pi), f32_to_bits nan f32_1) else (in_a, 0x7FFFFFFF)
  else if negb (pre_shift =? 0) then (u32 (Z.shiftr (s32 in_a) pre_shift), in_b)
  else (in_a, in_b).

(** The drained output; the auxiliary word of sine and cosine is read and dropped. *)
Definition tmu_result (mode : tmu_mode) (float : bool) (post_shift : Z) (h : H) : H * Z :=
  let '(r, h) := tmu_reg_read h TMU_ODATA in
  if sin_or_cos mode then let '(_, h) := tmu_reg_read h TMU_ODATA in (h, u32 r)
  else if float then (h, if angle_out mode then f32_to_bits nan (f32_mul (f32_of_word (u32 r)) f32_pi) else u32 r)
  else (h, if negb (post_shift =? 0) then u32 (Z.shiftl (u32 r) post_shift) else u32 r).

Definition bridge_hw_tmu_compute_ (h : H) (function format in_a in_b : Z) : H * (Z * Z) :=
  if Z.of_nat (length tmu_dispatch) <=? function then (h, (BRIDGE_HW_ERR_INVAL, 0))
  else if 1 <? format then (h, (BRIDGE_HW_ERR_INVAL, 0))
  else
    match default None (tmu_dispatch !! Z.to_nat function) with
    | None => (h, (BRIDGE_HW_ERR_NOTIMPL, 0))
    | Some (mode, inputs) =>
        match (if format =? 0 then q31_scaling mode in_a else inr (0, 0, 0)) with
        | inl rc => (h, (rc, 0))
        | inr (scale, pre_shift, post_shift) =>
            let float := format =? 1 in
            let cfg := TmuParameter mode scale float (if inputs =? 2 then 2 else 1) (if sin_or_cos mode then 2 else 1) in
            let h := tmu_do (tmu_do h tmu_deinit) (tmu_init cfg) in
            let '(a, b) := tmu_operands mode float pre_shift in_a in_b in
            let h := tmu_do h (TMU_IDATA a) in
            let h := if inputs =? 2 then let '(_, h) := tmu_reg_read h TMU_CS in tmu_do h (TMU_IDATA b) else h in
            let '(ended, h) := end_wait TMU_COMPUTE_TIMEOUT h in
            if negb ended then (h, (BRIDGE_HW_ERR_IO, 0))
            else
              let '(ovrf, h) := tmu_reg_read h TMU_FLAG_OVRF in
              if ovrf =? 1 then (tmu_do h tmu_ovrf_clear, (BRIDGE_HW_ERR_RANGE, 0))
              else let '(h, r) := tmu_result mode float post_shift h in (h, (BRIDGE_HW_OK, r))
        end
    end.

End tmu.
