(* ===== verification/TmuSafety.v ===== *)
(** * What the CORDIC requests guarantee

    Refusals that touch nothing, the exact sequence of calls of the others, and the
    arithmetic of the Q31 scaling, on hardware that logs every call and answer. *)

From Stdlib Require Import SpecFloat.
From stdpp Require Import base tactics list numbers option.
From S2P Require Import Prelude BridgeHw DspChain DspCoeff Tmu.

(** ** Words as signed fractions *)

(** Shifting the pattern left multiplies the signed value, when that fits. *)
Lemma s32_shiftl out n : 0 <= n -> 0 <= out < 0x100000000 -> -0x80000000 <= s32 out * 2 ^ n < 0x80000000 ->
  s32 (u32 (Z.shiftl out n)) = s32 out * 2 ^ n.
Proof.
  intros Hn Ho Hb. rewrite <- (s32_id _ Hb), <- (s32_u32 (s32 out * 2 ^ n)). f_equal. rewrite Z.shiftl_mul_pow2 by done.
  pose proof (u32_s32 out) as E. unfold u32 in *. by rewrite <- Z.mul_mod_idemp_l, <- E, Z.mul_mod_idemp_l by lia.
Qed.

Lemma s32_shiftr v n : 0 <= n -> 0 <= v < 0x100000000 -> s32 (u32 (Z.shiftr (s32 v) n)) = s32 v / 2 ^ n.
Proof.
  intros Hn Hv. rewrite Z.shiftr_div_pow2 by done. pose proof (s32_bounds v) as B.
  assert (0 < 2 ^ n) by (apply Z.pow_pos_nonneg; lia).
  rewrite s32_u32. apply s32_id. split; [apply Z.div_le_lower_bound; nia | apply Z.div_lt_upper_bound; nia].
Qed.

(** The sign test by mask and the signed comparison agree. *)
Lemma sqrt_representable v : 0 <= v < 0x100000000 -> tmu_q31_sqrt_representable v = (TMU_Q31_SQRT_MIN_THRESHOLD <? s32 v).
Proof.
  intros Hv. unfold tmu_q31_sqrt_representable. change 0x80000000 with (2 ^ 31). rewrite land_pow2_bit by lia.
  unfold s32, TMU_Q31_SQRT_MIN_THRESHOLD. rewrite !(u32_id v) by done. destruct (Z.ltb_spec v 0x80000000).
  - assert (E : Z.testbit v 31 = false) by (rewrite Z.testbit_false, Z.div_small by lia; done). by rewrite E.
  - assert (E : Z.testbit v 31 = true).
    { rewrite Z.testbit_true by lia. change (2 ^ 31) with 0x80000000. rewrite <- (Z.div_unique v 0x80000000 1 (v - 0x80000000)) by lia. done. }
    rewrite E. cbn. destruct (Z.ltb_spec 0x374BC6A (v - 0x100000000)); lia.
Qed.

(** ** The abstract request *)

(** The functions the unit has a mode for. *)
Definition mode_of (function : Z) : option (tmu_mode * Z) := default None (tmu_dispatch !! Z.to_nat function).

(** What a request is refused with: the Q31 operands outside the domain whose
    result and scaling the format can hold. *)
Definition refusal (function format in_a : Z) : option Z :=
  if (12 <=? function) || (1 <? format) then Some BRIDGE_HW_ERR_INVAL
  else if (function =? 2) || (function =? 7) || (function =? 10) then Some BRIDGE_HW_ERR_NOTIMPL
  else if format =? 1 then None
  else if function =? 9 then Some BRIDGE_HW_ERR_NOTIMPL
  else if (function =? 5) && (1000 * s32 in_a <=? 27 * 2 ^ 31) then Some BRIDGE_HW_ERR_RANGE
  else if (function =? 6) && (s32 in_a <=? 0x2F16AC6C) then Some BRIDGE_HW_ERR_RANGE
  else if (function =? 8) && (0x70D0D986 <=? Z.abs (s32 in_a)) then Some BRIDGE_HW_ERR_RANGE
  else None.

(** The factor of a Q31 request: the unit gets [x / 2 ^ f]. *)
Definition factor (function format in_a : Z) : Z :=
  if format =? 1 then 0
  else if function =? 5 then if 4 * s32 in_a <? 3 * 2 ^ 31 then 0 else 1
  else if (function =? 6) || (function =? 8) then 1 else 0.

(** The result is the output times [2 ^ gain]: the logarithm's output has one more halving. *)
Definition gain (function format in_a : Z) : Z := factor function format in_a + if (function =? 6) && (format =? 0) then 1 else 0.

Definition operands_ok (nan function format in_a in_b a b : Z) : Prop :=
  if (function =? 0) || (function =? 1)
  then if format =? 1 then a = f32_to_bits nan (f32_div (f32_of_word in_a) f32_pi) /\ b = 0x3F800000
       else a = in_a /\ b = 0x7FFFFFFF
  else s32 a = s32 in_a / 2 ^ factor function format in_a /\ b = in_b.

Definition result_ok (nan function format in_a out r : Z) : Prop :=
  if format =? 1
  then r = (if (function =? 3) || (function =? 4) then f32_to_bits nan (f32_mul (f32_of_word (u32 out)) f32_pi) else u32 out)
  else let exact := s32 (u32 out) * 2 ^ gain function format in_a in -0x80000000 <= exact < 0x80000000 -> s32 r = exact.

(** ** Logged hardware *)

Inductive tmu_event := TmuDo (op : tmu_op) | TmuAns (r : tmu_reg) (v : Z).

Definition tmu_traced (H : Type) : Type := H * list tmu_event.

#[export] Instance traced_tmu H `{!TmuHw H} : TmuHw (tmu_traced H) := {
  tmu_do x op := (tmu_do x.1 op, x.2 ++ [TmuDo op]);
  tmu_reg_read x r := let '(v, h) := tmu_reg_read x.1 r in (v, (h, x.2 ++ [TmuAns r v])) }.

(** How a request ends. *)
Inductive tmu_outcome (nan function format in_a : Z) : bool -> list Z -> list tmu_event -> Z -> Z -> Prop :=
  | tmu_times_out two : tmu_outcome nan function format in_a two (replicate (Z.to_nat 65535) 0) [] BRIDGE_HW_ERR_IO 0
  | tmu_overflows two n ended : ended <> 0 ->
      tmu_outcome nan function format in_a two (replicate n 0 ++ [ended]) [TmuAns TMU_FLAG_OVRF 1; TmuDo tmu_ovrf_clear] BRIDGE_HW_ERR_RANGE 0
  | tmu_answers two n ended ovrf out aux r : ended <> 0 -> ovrf <> 1 -> result_ok nan function format in_a out r ->
      tmu_outcome nan function format in_a two (replicate n 0 ++ [ended])
        ([TmuAns TMU_FLAG_OVRF ovrf; TmuAns TMU_ODATA out] ++ if two : bool then [TmuAns TMU_ODATA aux] else []) BRIDGE_HW_OK r.

(** The calls and answers of a request that is not refused: the unit is reset and
    configured for this request alone, the operands go in with a register read
    between the two stores, the wait is bounded. *)
Inductive tmu_request (nan function format in_a in_b : Z) : list tmu_event -> Z -> Z -> Prop :=
  | tmu_request_calls mode inputs a b cs polls tail rc r :
      mode_of function = Some (mode, inputs) ->
      operands_ok nan function format in_a in_b a b ->
      Z.of_nat (length polls) <= 65535 ->
      tmu_outcome nan function format in_a (sin_or_cos mode) polls tail rc r ->
      tmu_request nan function format in_a in_b
        ([TmuDo tmu_deinit;
          TmuDo (tmu_init (TmuParameter mode (factor function format in_a) (format =? 1) inputs (if sin_or_cos mode then 2 else 1)));
          TmuDo (TMU_IDATA a)] ++ (if inputs =? 2 then [TmuAns TMU_CS cs; TmuDo (TMU_IDATA b)] else []) ++
         (TmuAns TMU_FLAG_END <$> polls) ++ tail) rc r.

(** ** The scaling table *)

Ltac each_function f := 
  assert (f = 0 \/ f = 1 \/ f = 2 \/ f = 3 \/ f = 4 \/ f = 5 \/ f = 6 \/ f = 7 \/ f = 8 \/ f = 9 \/ f = 10 \/ f = 11) as Hfn by lia;
  destruct Hfn as [-> | [-> | [-> | [-> | [-> | [-> | [-> | [-> | [-> | [-> | [-> | ->]]]]]]]]]]].

Ltac mode_is Hm := vm_compute in Hm; simplify_eq; try done; try lia.

Lemma scaling_spec function format in_a : 0 <= function < 12 -> 0 <= format <= 1 -> 0 <= in_a < 0x100000000 ->
  match mode_of function with
  | None => refusal function format in_a = Some BRIDGE_HW_ERR_NOTIMPL
  | Some (mode, _) =>
      match (if format =? 0 then q31_scaling mode in_a else inr (0, 0, 0)) with
      | inl rc => refusal function format in_a = Some rc
      | inr (scale, pre, post) => refusal function format in_a = None /\
          scale = factor function format in_a /\ pre = factor function format in_a /\ post = gain function format in_a
      end
  end.
Proof.
  intros Hf Hfmt Ha. pose proof (s32_bounds in_a) as B. pose proof (sqrt_representable in_a Ha) as S.
  assert (format = 0 \/ format = 1) as [-> | ->] by lia; each_function function; try done.
  - change (mode_of 5) with (Some (TMU_MODE_SQRT, 1)). cbn [Z.eqb Pos.eqb q31_scaling]. rewrite S. unfold refusal, gain, factor, tmu_q31_sqrt_factor, TMU_Q31_SQRT_BAND1_THRESHOLD, TMU_Q31_SQRT_MIN_THRESHOLD.
    cbn -[Z.pow Z.mul]. change (2 ^ 31) with 0x80000000.
    destruct (Z.ltb_spec 0x374BC6A (s32 in_a)); cbn -[Z.mul]; destruct (Z.leb_spec (1000 * s32 in_a) (27 * 0x80000000)); try lia; [| done].
    destruct (Z.ltb_spec (s32 in_a) 0x60000000), (Z.ltb_spec (4 * s32 in_a) (3 * 0x80000000)); try lia; done.
  - change (mode_of 6) with (Some (TMU_MODE_LN, 1)). cbn [Z.eqb Pos.eqb q31_scaling]. unfold refusal, tmu_q31_ln_representable, TMU_Q31_LN_MIN_THRESHOLD. cbn.
    destruct (Z.ltb_spec 0x2F16AC6C (s32 in_a)), (Z.leb_spec (s32 in_a) 0x2F16AC6C); try lia; done.
  - change (mode_of 8) with (Some (TMU_MODE_SINH, 1)). cbn [Z.eqb Pos.eqb q31_scaling]. unfold refusal, tmu_q31_sinh_representable, TMU_Q31_SINH_LIMIT. cbn.
    destruct (Z.ltb_spec (Z.opp 0x70D0D986) (s32 in_a)), (Z.ltb_spec (s32 in_a) 0x70D0D986), (Z.leb_spec 0x70D0D986 (Z.abs (s32 in_a))); try lia; done.
Qed.

(** ** The request *)

Section contract.
Context {H : Type} `{!TmuHw H} (nan : Z).
Implicit Types x y : tmu_traced H.

Lemma tmu_read_log x r : (tmu_reg_read x r).2.2 = x.2 ++ [TmuAns r (tmu_reg_read x r).1].
Proof. cbn. by destruct (tmu_reg_read x.1 r). Qed.

(** The wait asks at most [n] times and stops at the first answer that is set. *)
Lemma end_wait_log n : forall x,
  let '(ended, y) := end_wait n x in
  if ended : bool then exists k v, (k < n)%nat /\ v <> 0 /\ y.2 = x.2 ++ (TmuAns TMU_FLAG_END <$> replicate k 0 ++ [v])
  else y.2 = x.2 ++ (TmuAns TMU_FLAG_END <$> replicate n 0).
Proof.
  induction n as [| n IH]; intros x; cbn [end_wait]; [by rewrite app_nil_r |].
  pose proof (tmu_read_log x TMU_FLAG_END) as L. destruct (tmu_reg_read x TMU_FLAG_END) as [v x1]. cbn [fst snd] in L.
  destruct (Z.eqb_spec v 0) as [-> | Hv]; cbn [negb]; [| exists O, v; split; [lia | by split]].
  specialize (IH x1). destruct (end_wait n x1) as [[|] y].
  - destruct IH as (k & v & Hk & Hv & E). exists (S k), v. split; [lia |]. split; [done |]. by rewrite E, L, <- app_assoc.
  - by rewrite IH, L, <- app_assoc.
Qed.

Lemma result_log mode inputs function format in_a x :
  0 <= function < 12 -> 0 <= format <= 1 -> mode_of function = Some (mode, inputs) ->
  let '(y, r) := tmu_result nan mode (format =? 1) (gain function format in_a) x in
  exists out aux, y.2 = x.2 ++ [TmuAns TMU_ODATA out] ++ (if sin_or_cos mode then [TmuAns TMU_ODATA aux] else []) /\
    result_ok nan function format in_a out r.
Proof.
  intros Hf Hfmt Hm. unfold tmu_result. pose proof (tmu_read_log x TMU_ODATA) as L.
  destruct (tmu_reg_read x TMU_ODATA) as [out x1]. cbn [fst snd] in L.
  assert (Gain : forall r, (gain function format in_a = 0 -> r = u32 out) ->
    (gain function format in_a <> 0 -> r = u32 (Z.shiftl (u32 out) (gain function format in_a))) -> format = 0 ->
    result_ok nan function format in_a out r).
  { intros r R0 R1 ->. unfold result_ok. cbn [Z.eqb]. intros B. assert (0 <= gain function 0 in_a).
    { unfold gain, factor. cbn [Z.eqb]. repeat case_match; lia. }
    destruct (Z.eq_dec (gain function 0 in_a) 0) as [E | E]; [rewrite (R0 E), E; cbn; lia |].
    rewrite (R1 E). apply s32_shiftl; [done | apply u32_u32 | done]. }
  destruct (sin_or_cos mode) eqn:Es.
  - pose proof (tmu_read_log x1 TMU_ODATA) as L2. destruct (tmu_reg_read x1 TMU_ODATA) as [aux x2]. cbn [fst snd] in L2.
    exists out, aux. split; [by rewrite L2, L, <- app_assoc |].
    assert (function = 0 \/ function = 1) as [-> | ->] by (clear -Hf Hm Es; each_function function; mode_is Hm);
      (assert (format = 0 \/ format = 1) as [-> | ->] by lia; [apply Gain; done | done]).
  - assert (format = 0 \/ format = 1) as [-> | ->] by lia; cbn [Z.eqb].
    + exists out, 0. split; [by rewrite L |]. apply Gain; [| | done].
      * intros E. by rewrite E.
      * intros E. by destruct (Z.eqb_spec (gain function 0 in_a) 0).
    + exists out, 0. split; [by rewrite L |]. unfold result_ok. cbn [Z.eqb].
      clear -Hf Hm. each_function function; mode_is Hm.
Qed.

Lemma operands_spec mode inputs function format in_a in_b :
  0 <= function < 12 -> 0 <= format <= 1 -> 0 <= in_a < 0x100000000 -> mode_of function = Some (mode, inputs) ->
  let '(a, b) := tmu_operands nan mode (format =? 1) (factor function format in_a) in_a in_b in
  operands_ok nan function format in_a in_b a b.
Proof.
  intros Hf Hfmt Ha Hm. unfold tmu_operands, operands_ok.
  assert (Es : sin_or_cos mode = (function =? 0) || (function =? 1)) by (clear -Hf Hm; each_function function; mode_is Hm).
  rewrite Es. destruct ((function =? 0) || (function =? 1)).
  - by destruct (format =? 1).
  - assert (0 <= factor function format in_a) by (unfold factor; repeat case_match; lia).
    destruct (Z.eqb_spec (factor function format in_a) 0) as [E | E]; cbn [negb].
    + split; [rewrite E; cbn; by rewrite Z.div_1_r | done].
    + split; [by apply s32_shiftr | done].
Qed.

(** C40. A math request is answered from the unit's own result, scaled as its tables
    say, or refused before the unit is touched.  An unknown function or format is
    INVAL; a function without a mode, and the Q31 cosh, NOTIMPL; a Q31 square root
    of at most 0.027, logarithm at most 1/e, and sinh of at least asinh 1 are RANGE.
    Every other request resets and configures the unit, stores the operands with a
    register read between them (an angle in units of pi with a unit modulus; a Q31
    operand divided by [2 ^ factor], rounding down, where the factor is 1 for a
    square root from 0.75), asks for the end at most 65535 times, and answers IO
    with no result, RANGE with the flag cleared, or the output, times [2 ^ gain] as
    a signed value whenever that product is a Q31 value. *)
Theorem tmu_compute_contract x function format in_a in_b :
  0 <= function -> 0 <= format -> 0 <= in_a < 0x100000000 ->
  let '(y, (rc, r)) := bridge_hw_tmu_compute_ nan x function format in_a in_b in
  match refusal function format in_a with
  | Some e => rc = e /\ r = 0 /\ y = x
  | None => exists calls, y.2 = x.2 ++ calls /\ tmu_request nan function format in_a in_b calls rc r
  end.
Proof.
  intros Hf Hfmt Ha. unfold bridge_hw_tmu_compute_. change (Z.of_nat (length tmu_dispatch)) with 12.
  destruct (Z.leb_spec 12 function) as [? | Hf']; [unfold refusal; destruct (Z.leb_spec 12 function); [done | lia] |].
  destruct (Z.ltb_spec 1 format) as [? | Hfmt'].
  { unfold refusal. destruct (Z.leb_spec 12 function); [lia |]. by destruct (Z.ltb_spec 1 format); [| lia]. }
  pose proof (scaling_spec function format in_a ltac:(lia) ltac:(lia) Ha) as S. fold (mode_of function).
  destruct (mode_of function) as [[mode inputs] |] eqn:Em; [| by rewrite S].
  destruct (if format =? 0 then q31_scaling mode in_a else inr (0, 0, 0)) as [rc | [[scale pre] post]]; [by rewrite S |].
  destruct S as (-> & -> & -> & ->).
  pose proof (operands_spec mode inputs function format in_a in_b ltac:(lia) ltac:(lia) Ha Em) as O.
  destruct (tmu_operands nan mode (format =? 1) (factor function format in_a) in_a in_b) as [a b].
  assert (Ein : (if inputs =? 2 then 2 else 1) = inputs) by (clear -Hf Hf' Em; each_function function; mode_is Em).
  rewrite Ein. set (x1 := tmu_do (tmu_do (tmu_do x tmu_deinit) _) _).
  set (x2 := if inputs =? 2 then _ else x1).
  assert (E2 : exists cs, x2.2 = x1.2 ++ (if inputs =? 2 then [TmuAns TMU_CS cs; TmuDo (TMU_IDATA b)] else [])).
  { unfold x2. destruct (inputs =? 2); [| exists 0; by rewrite app_nil_r]. pose proof (tmu_read_log x1 TMU_CS) as L.
    destruct (tmu_reg_read x1 TMU_CS) as [cs z]. cbn [fst snd] in L. exists cs. cbn [tmu_do traced_tmu snd]. by rewrite L, <- app_assoc. }
  clearbody x2. destruct E2 as (cs & E2). pose proof (end_wait_log TMU_COMPUTE_TIMEOUT x2) as W.
  destruct (end_wait TMU_COMPUTE_TIMEOUT x2) as [[|] x3]; cbn [negb].
  - destruct W as (k & v & Hk & Hv & E3). pose proof (tmu_read_log x3 TMU_FLAG_OVRF) as L4.
    destruct (tmu_reg_read x3 TMU_FLAG_OVRF) as [ovrf x4]. cbn [fst snd] in L4.
    assert (Hn : Z.of_nat (length (replicate k 0 ++ [v])) <= 65535).
    { rewrite length_app, length_replicate. unfold TMU_COMPUTE_TIMEOUT in Hk. cbn [length]. lia. }
    destruct (Z.eqb_spec ovrf 1) as [-> | Hovrf].
    + eexists. split; [| eapply (tmu_request_calls nan function format in_a in_b mode inputs a b cs); [exact Em | exact O | exact Hn |]; apply (tmu_overflows _ _ _ _ _ k v Hv)].
      cbn [tmu_do traced_tmu snd]. rewrite L4, E3, E2. unfold x1. cbn [tmu_do traced_tmu snd]. by rewrite <- !app_assoc.
    + pose proof (result_log mode inputs function format in_a x4 ltac:(lia) ltac:(lia) Em) as R.
      destruct (tmu_result nan mode (format =? 1) (gain function format in_a) x4) as [y r]. destruct R as (out & aux & E5 & R).
      eexists. split; [| eapply (tmu_request_calls nan function format in_a in_b mode inputs a b cs); [exact Em | exact O | exact Hn |]; apply (tmu_answers _ _ _ _ _ k v ovrf out aux r Hv Hovrf R)].
      rewrite E5, L4, E3, E2. unfold x1. cbn [tmu_do traced_tmu snd]. by rewrite <- !app_assoc.
  - assert (Hn : Z.of_nat (length (replicate (Z.to_nat 65535) 0)) <= 65535) by (rewrite length_replicate; lia).
    eexists. split; [| eapply (tmu_request_calls nan function format in_a in_b mode inputs a b cs); [exact Em | exact O | exact Hn |]; apply tmu_times_out].
    rewrite W, E2. unfold x1. cbn [tmu_do traced_tmu snd]. rewrite app_nil_r. by rewrite <- !app_assoc.
Qed.

End contract.
