(* ===== verification/DspSpectrum.v ===== *)
(** * Spectra: [hal/gd32/adc_stream.c], the FFT unit

    The configuration of the FFT unit from a bound chain, the window, and the
    reduction of the unit's complex output to the published bins.  [cosf] is the
    C library's; the point-count codes are the vendor header's. *)

From Stdlib Require Import SpecFloat.
From stdpp Require Import base tactics list numbers option.
From S2P Require Import Prelude DspChain DspCoeff.

#[local] Set Warnings "-clear-no-such-hyp".

Definition ADC_DSP_FFT_MAX_POINTS : Z := BRIDGE_DSP_MAX_FFT_POINTS.

(** [(float)n] for a 16-bit [n]. *)
Definition f32_of_u16 (n : Z) : spec_float := binary_normalize 24 128 n 0 false.

(** ** Window *)

(** The constants [6.28318530718f], [0.5f], [0.54f], [0.46f], [0.42f], [0.08f]
    and [2.0f]. *)
Definition f32_twopi : spec_float := f32_of_word 0x40C90FDB.
Definition f32_half : spec_float := f32_of_word 0x3F000000.
Definition f32_054 : spec_float := f32_of_word 0x3F0A3D71.
Definition f32_046 : spec_float := f32_of_word 0x3EEB851F.
Definition f32_042 : spec_float := f32_of_word 0x3ED70A3D.
Definition f32_008 : spec_float := f32_of_word 0x3DA3D70A.
Definition f32_2 : spec_float := f32_of_word 0x40000000.

Definition f32_sub (a b : spec_float) : spec_float := SFsub 24 128 a b.

(** Element [i] of the window. *)
Definition window_coef (cosf : spec_float -> spec_float) (shape n i : Z) : spec_float :=
  let t := f32_div (f32_of_u16 i) (f32_of_u16 (n - 1)) in
  if shape =? 1 then f32_sub f32_half (f32_mul f32_half (cosf (f32_mul f32_twopi t)))
  else if shape =? 2 then f32_sub f32_054 (f32_mul f32_046 (cosf (f32_mul f32_twopi t)))
  else if shape =? 3 then
    f32_add (f32_sub f32_042 (f32_mul f32_half (cosf (f32_mul f32_twopi t))))
            (f32_mul f32_008 (cosf (f32_mul (f32_mul f32_2 f32_twopi) t)))
  else f32_1.

Definition adc_dsp_fft_make_window (cosf : spec_float -> spec_float) (shape n : Z) : list spec_float :=
  window_coef cosf shape n <$> seqZ 0 n.

(** ** Configuration *)

(** The vendor's codes for 32, 64, 128 and 256 points. *)
Record fft_point_codes := PointCodes { p32 : Z; p64 : Z; p128 : Z; p256 : Z }.

Definition adc_dsp_fft_point_enum (pc : fft_point_codes) (n : Z) : Z :=
  if n =? 32 then p32 pc else if n =? 64 then p64 pc else if n =? 128 then p128 pc
  else if n =? 256 then p256 pc
  else if n =? 512 then u8 (p256 pc + 1) else u8 (p256 pc + 2).

Record fft_program := FftProgram {
  fg_points : Z;
  fg_outfmt : Z;
  fg_point_num : Z;
  fg_window : option (list spec_float) }.

(** The stage loop: the last FFT stage and the last window stage. *)
Definition fft_stages (l : list adc_dsp_stage) : option adc_dsp_stage * option adc_dsp_stage :=
  foldl (fun acc st => if total_size st =? 0 then acc
                       else if kind st =? 3 then (Some st, acc.2)
                       else if kind st =? 2 then (acc.1, Some st) else acc) (None, None) l.

(** [None] is [return false], which leaves the unit's variables alone. *)
Definition adc_dsp_fft_config (cosf : spec_float -> spec_float) (pc : fft_point_codes)
    (l : list adc_dsp_stage) : option fft_program :=
  if negb (adc_dsp_chain_p1_capable l) then None
  else
    match fft_stages l with
    | (None, _) => None
    | (Some fft_st, win_st) =>
        let d := data fft_st in
        let n := u16 (Z.lor d.[0] (u16 (Z.shiftl d.[1] 8))) in
        let ofm := d.[2] in
        if (n <? BRIDGE_DSP_MIN_FFT_POINTS) || (ADC_DSP_FFT_MAX_POINTS <? n) then None
        else
          let shape := match win_st with Some w => (data w).[0] | None => 0 end in
          Some (FftProgram n ofm (adc_dsp_fft_point_enum pc n)
                  (if bool_decide (win_st <> None) || negb (shape =? 0)
                   then Some (adc_dsp_fft_make_window cosf shape n) else None))
    end.

(** ** Reduction *)

Definition spectrum_at (out : list spec_float) (i : Z) : spec_float :=
  default f32_0 (out !! Z.to_nat i).

(** The number of bins, and bin [i]. *)
Definition bins_count (n outfmt : Z) : Z :=
  if outfmt =? 0 then u16 (n * 2) else if outfmt =? 2 then u16 (n / 2 + 1) else n.

Definition bin_value (outfmt : Z) (out : list spec_float) (i : Z) : spec_float :=
  if outfmt =? 0 then spectrum_at out i
  else
    let re := spectrum_at out (i * 2) in
    let im := spectrum_at out (i * 2 + 1) in
    f32_sqrt (f32_add (f32_mul re re) (f32_mul im im)).

(** What [adc_dsp_fft_prepare_bins] leaves in the first bins. *)
Definition adc_dsp_fft_prepare_bins (n outfmt : Z) (out : list spec_float) : list spec_float :=
  bin_value outfmt out <$> seqZ 0 (bins_count n outfmt).

(** ** A bound chain configures *)

Lemma length_prepare_bins n outfmt out :
  0 <= bins_count n outfmt ->
  Z.of_nat (length (adc_dsp_fft_prepare_bins n outfmt out)) = bins_count n outfmt.
Proof. intros Hn. unfold adc_dsp_fft_prepare_bins. rewrite length_fmap, length_seqZ. lia. Qed.

Lemma bins_count_bound n outfmt : 32 <= n <= 1024 -> 0 < bins_count n outfmt <= 2048.
Proof.
  intros Hn. unfold bins_count. destruct (outfmt =? 0); [rewrite u16_id by (unfold is_u16; lia); lia |].
  destruct (outfmt =? 2); [| lia]. rewrite u16_id by (unfold is_u16; zlia). zlia.
Qed.

Lemma fft_stages_app_empty l post : Forall (fun s => total_size s = 0) post ->
  fft_stages (l ++ post) = fft_stages l.
Proof.
  intros Hp. unfold fft_stages. rewrite foldl_app. generalize (foldl
    (fun acc st => if total_size st =? 0 then acc else if kind st =? 3 then (Some st, acc.2)
                   else if kind st =? 2 then (acc.1, Some st) else acc) (None, None) l).
  induction Hp as [| st post E _ IH]; intros acc; [done |]. cbn [foldl]. rewrite E. apply IH.
Qed.

Lemma fft_stages_empty_app pre l : Forall (fun s => total_size s = 0) pre ->
  fft_stages (pre ++ l) = fft_stages l.
Proof.
  intros Hp. unfold fft_stages. rewrite foldl_app. f_equal.
  induction Hp as [| st pre E _ IH]; [done |]. cbn [foldl]. by rewrite E.
Qed.

Lemma land_pow2 n : 32 <= n <= 1024 -> Z.land n (n - 1) = 0 ->
  n = 32 \/ n = 64 \/ n = 128 \/ n = 256 \/ n = 512 \/ n = 1024.
Proof.
  intros Hn E.
  assert (Hall : forallb (fun k => negb (Z.land k (k - 1) =? 0) || (k =? 32) || (k =? 64) || (k =? 128)
                                  || (k =? 256) || (k =? 512) || (k =? 1024)) (seqZ 32 993) = true)
    by (vm_compute; reflexivity).
  assert (Hin : In n (seqZ 32 993)) by (apply list_elem_of_In, elem_of_seqZ; lia).
  rewrite forallb_forall in Hall. apply Hall in Hin. clear Hall. revert Hin.
  rewrite E. cbn [negb Z.eqb orb]. rewrite !orb_true_iff, !Z.eqb_eq. lia.
Qed.

(** Configuring the chain an FFT stream was bound with always succeeds: the
    point count is a power of two from 32 to 1024 with its own code, so the
    sample window and the bins fit their buffers, the output format is one of
    the three, and the window is on exactly when the chain has a window stage,
    with one coefficient per point. *)
Theorem fft_config_bound cosf pc l :
  length l = 4%nat -> realisable l 3 ->
  exists p, adc_dsp_fft_config cosf pc l = Some p /\
    fg_points p ∈ [32; 64; 128; 256; 512; 1024] /\ fg_outfmt p <= 2 /\
    fg_point_num p = adc_dsp_fft_point_enum pc (fg_points p) /\
    0 < bins_count (fg_points p) (fg_outfmt p) <= 2 * ADC_DSP_FFT_MAX_POINTS /\
    match fg_window p with
    | None => Forall (fun st => populated st = true -> kind st = 3) l
    | Some wc => Z.of_nat (length wc) = fg_points p /\ exists w, w ∈ l /\ kind w = 2 /\
        wc = adc_dsp_fft_make_window cosf (data w).[0] (fg_points p)
    end.
Proof.
  intros Hl Hr.
  assert (Hcap : adc_dsp_chain_p1_capable l = true).
  { pose proof (bind_decision l Hl) as Hd. destruct (bind_scan l 0 4 4 4) as [[[f w] last] |];
      [| by destruct (Hd 3)].
    destruct (bind_order_ok f w last); [| by destruct (Hd 3)].
    destruct (adc_dsp_chain_p1_capable l); [done | by destruct (Hd 3)]. }
  unfold adc_dsp_fft_config. rewrite Hcap. cbn [negb].
  destruct Hr as (pre & core & post & -> & Hc & Hpre & Hpost).
  rewrite app_assoc, fft_stages_app_empty, fft_stages_empty_app by done.
  assert (Hempty : forall x, Forall (fun s => total_size s = 0) x ->
    Forall (fun st => populated st = true -> kind st = 3) x).
  { intros x. apply Forall_impl. intros st E. unfold populated. by rewrite E. }
  assert (Hcore : exists s win, fft_stages core = (Some s, win) /\ stage_good s /\ kind s = 3 /\
    (win = None /\ core = [s] \/ exists w, win = Some w /\ core = [w; s] /\ kind w = 2)).
  { inversion Hc as [| | s G K E | w s Gw Kw G K E]; subst core; try lia; unfold fft_stages; cbn [foldl].
    - exists s, None. destruct G as [Hn G]. rewrite (proj2 (Z.eqb_neq (total_size s) 0) Hn), K. split_and!; try done. by left.
    - exists s, (Some w). destruct G as [Hn G], Gw as [Hnw Gw].
      rewrite (proj2 (Z.eqb_neq (total_size s) 0) Hn), (proj2 (Z.eqb_neq (total_size w) 0) Hnw), K, Kw. split_and!; try done. right.
      by exists w. }
  destruct Hcore as (s & win & -> & (_ & _ & Hv) & K & Hwin).
  unfold adc_dsp_stage_blob_valid in Hv. rewrite K in Hv. cbn [Z.eqb Pos.eqb] in Hv.
  destruct (total_size s <? _); [done |].
  set (n := u16 (Z.lor (data s).[0] (u16 (Z.shiftl (data s).[1] 8)))) in *.
  destruct (Z.ltb_spec BRIDGE_DSP_FFT_OUT_FMT_MAX (data s).[2]); [done |].
  destruct ((n <? BRIDGE_DSP_MIN_FFT_POINTS) || (BRIDGE_DSP_MAX_FFT_POINTS <? n)) eqn:En; [done |].
  pose proof En as Hn. rewrite orb_false_iff, !Z.ltb_ge in Hn.
  unfold BRIDGE_DSP_MIN_FFT_POINTS, BRIDGE_DSP_MAX_FFT_POINTS, BRIDGE_DSP_FFT_OUT_FMT_MAX in *.
  destruct (Z.land n (u16 (n - 1)) =? 0) eqn:Ep; [| done].
  rewrite u16_id in Ep by (unfold is_u16; lia). apply Z.eqb_eq in Ep.
  unfold ADC_DSP_FFT_MAX_POINTS, BRIDGE_DSP_MIN_FFT_POINTS, BRIDGE_DSP_MAX_FFT_POINTS. rewrite En.
  eexists. split; [done |]. cbn [fg_points fg_outfmt fg_point_num fg_window].
  split. { rewrite !elem_of_cons. pose proof (land_pow2 n ltac:(lia) Ep). tauto. }
  split; [done |]. split; [done |]. split; [apply bins_count_bound; lia |].
  destruct Hwin as [[-> ->] | (w & -> & -> & Kw)].
  - cbn. apply Forall_app. split; [apply Forall_app; split; [by apply Hempty | by repeat constructor] |].
    by apply Hempty.
  - cbn. unfold adc_dsp_fft_make_window. rewrite length_fmap, length_seqZ.
    split; [lia |]. exists w. split; [| done]. rewrite !elem_of_app. left. right. by left.
Qed.
