(* ===== verification/DspPump.v ===== *)
(** * The DSP pump: [hal/gd32/adc_stream.c], owner bytes, filter and FFT pumps

    The base-level pump as a machine of small steps, one per stretch of code an
    interrupt cannot split or whose splitting nothing can observe; requests and
    ends run between any two of them.  The pump meets the hardware in an
    arbitrary state at every step. *)

From Stdlib Require Import SpecFloat.
From stdpp Require Import base tactics functions list numbers option.
From S2P Require Import Prelude BridgeHw DspChain Adc AdcStream AdcSystem DspCoeff DspSpectrum.

#[local] Set Warnings "-clear-no-such-hyp".

(** ** The owner byte *)

Definition ADC_DSP_OWNER_NONE : Z := -1.
Definition adc_dsp_owner_transitional (sid : Z) : Z := -2 - sid.

Definition adc_dsp_owner_live_locked (owner expected : Z) (s : adc_stream_state) (fft_terminal : bool)
    : bool :=
  let terminal_matches := if fft_terminal then dsp_terminal s =? 3 else negb (dsp_terminal s =? 3) in
  (owner =? expected) && in_use s && dsp_bound s && terminal_matches.

Definition adc_dsp_owner_claim_config (owner sid : Z) (s : adc_stream_state) (fft_terminal : bool)
    : bool * Z :=
  if (owner =? ADC_DSP_OWNER_NONE) && adc_dsp_owner_live_locked owner ADC_DSP_OWNER_NONE s fft_terminal
  then (true, adc_dsp_owner_transitional sid) else (false, owner).

Definition adc_dsp_owner_commit_config (owner sid : Z) (s : adc_stream_state) (fft_terminal : bool)
    : bool * Z :=
  let transitional := adc_dsp_owner_transitional sid in
  if adc_dsp_owner_live_locked owner transitional s fft_terminal then (true, sid)
  else (false, if owner =? transitional then ADC_DSP_OWNER_NONE else owner).

Definition adc_dsp_owner_release (owner sid : Z) : bool * Z :=
  if (owner =? sid) || (owner =? adc_dsp_owner_transitional sid) then (true, ADC_DSP_OWNER_NONE)
  else (false, owner).

(** ** The FFT unit's variables *)

Record fft_state := Fft {
  fft_points : Z;
  fft_outfmt : Z;
  fft_fill : Z;
  fft_seq : Z;
  fft_nbins : Z;
  fft_real : list spec_float;
  fft_out : list spec_float;
  fft_bins : list spec_float }.

Definition adc_dsp_fft_session_reset (t : fft_state) : fft_state :=
  Fft (fft_points t) (fft_outfmt t) 0 0 0 (fft_real t) (fft_out t) (fft_bins t).

Definition set_fft_config (p : fft_program) (t : fft_state) : fft_state :=
  adc_dsp_fft_session_reset
    (Fft (fg_points p) (fg_outfmt p) (fft_fill t) (fft_seq t) (fft_nbins t) (fft_real t) (fft_out t)
         (fft_bins t)).

Definition set_fft_fill (n : Z) (real : list spec_float) (t : fft_state) : fft_state :=
  Fft (fft_points t) (fft_outfmt t) n (fft_seq t) (fft_nbins t) real (fft_out t) (fft_bins t).

Definition set_fft_out (out : list spec_float) (t : fft_state) : fft_state :=
  Fft (fft_points t) (fft_outfmt t) (fft_fill t) (fft_seq t) (fft_nbins t) (fft_real t) out (fft_bins t).

Definition set_fft_bin (i : Z) (v : spec_float) (t : fft_state) : fft_state :=
  Fft (fft_points t) (fft_outfmt t) (fft_fill t) (fft_seq t) (fft_nbins t) (fft_real t) (fft_out t)
      (<[Z.to_nat i := v]> (fft_bins t)).

Definition fft_publish (nbins : Z) (t : fft_state) : fft_state :=
  Fft (fft_points t) (fft_outfmt t) 0 (u32 (fft_seq t + 1)) nbins (fft_real t) (fft_out t) (fft_bins t).

(** ** Releases *)

(** The two owner bytes and the FFT variables, as [stream_end] hands them over. *)
Definition owners : Type := Z * Z * fft_state.

Definition adc_dsp_fac_release (fac sid : Z) : Z := (adc_dsp_owner_release fac sid).2.

Definition adc_dsp_fft_release (fft : Z) (t : fft_state) (sid : Z) : Z * fft_state :=
  let '(released, fft) := adc_dsp_owner_release fft sid in
  (fft, if (released : bool) then adc_dsp_fft_session_reset t else t).

Definition dsp_release (o : owners) (sid : Z) : owners :=
  let '(fac, fft, t) := o in
  let fac := adc_dsp_fac_release fac sid in
  let '(fft, t) := adc_dsp_fft_release fft t sid in (fac, fft, t).

(** ** Slot writes of the pump *)

Definition set_pump_pos (trk : adc_dma_pos) (s : adc_stream_state) : adc_stream_state :=
  set_cursor (read_idx s) (total_read s) (rd_pos s) trk (pump_raw_read s) s.

Definition set_pump_raw (raw : Z) (s : adc_stream_state) : adc_stream_state :=
  set_cursor (read_idx s) (total_read s) (rd_pos s) (pump_pos s) raw s.

Definition set_proc (ring : list Z) (w : Z) (gap bad sat : bool) (s : adc_stream_state)
    : adc_stream_state :=
  Stream (in_use s) (channel s) (full_scale s) (read_idx s) (lap_count s) (dma_error_count s)
    (total_read s) (rd_pos s) (pump_pos s) (dsp_chain_id s) (dsp_bound s) ring w (proc_read s)
    gap (pump_raw_read s) (dsp_terminal s) bad sat.

Definition set_gap (s : adc_stream_state) : adc_stream_state :=
  set_proc (proc_ring s) (proc_write s) true (dsp_cfg_bad s) (dsp_sat s) s.

Definition set_cfg_bad (s : adc_stream_state) : adc_stream_state :=
  set_proc (proc_ring s) (proc_write s) (proc_gap s) true (dsp_sat s) s.

(** The copy loop of the commit. *)
Fixpoint write_ring (ring : list Z) (w : Z) (out : list Z) : list Z :=
  match out with
  | [] => ring
  | c :: out =>
      write_ring (<[Z.to_nat (w mod BRIDGE_ADC_STREAM_RING_SAMPLES) := c]> ring) (u32 (w + 1)) out
  end.

Definition set_published (out : list Z) (raw : Z) (sat : bool) (s : adc_stream_state)
    : adc_stream_state :=
  set_pump_raw raw
    (set_proc (write_ring (proc_ring s) (proc_write s) out)
       (u32 (proc_write s + Z.of_nat (length out))) (proc_gap s) (dsp_cfg_bad s)
       (sat || dsp_sat s) s).

(** ** One batch of the filter accelerator *)

Definition ADC_DSP_PUMP_LOCK_BATCH : nat := 8.

Inductive fac_reg := fac_x0bff | fac_ybef | fac_output | fac_stef | fac_gstef.

(** Besides the converters: the accelerators, and the outcomes of the long
    stretches.  [fac_latched] is the preload's poll, [fft_ccf] the completion
    poll's outcome, [fft_output] what the unit has written when it completes.
    [raced_fac] and [raced_fft] are the outcomes of a configuration whose session
    ended under it, which reads a chain that may be rewritten meanwhile. *)
Class DspHw (F : Type) `{!AdcHw F} := {
  fac_fixed_data_write : F -> Z -> F;
  fac_read : F -> fac_reg -> Z * F;
  fac_latched : F -> bool;
  raced_fac : F -> bool;
  raced_fft : F -> option fft_program;
  fft_ccf : F -> bool;
  fft_output : F -> list spec_float }.

(** An output word re-biased and clamped to the code range. *)
Definition fac_code (v mid shift fs : Z) : Z :=
  let c := Z.shiftr (s16 v) shift + mid in
  let c := if c <? 0 then 0 else c in
  if fs <? c then fs else c.

(** A raw word biased around mid-scale. *)
Definition fac_input (word mid shift : Z) : Z :=
  s16 (Z.shiftl (Z.land (u16 word) 0x0FFF - mid) shift).

Section batch.
Context {F : Type} `{!AdcHw F} `{!DspHw F}.

(** The drain loop: at most [n] words, into [room] places. *)
Fixpoint fac_drain (n room : nat) (mid shift fs : Z) (f : F) : list Z * bool * F :=
  match n, room with
  | S n, S room =>
      let '(empty, f) := fac_read f fac_ybef in
      if negb (empty =? 0) then ([], false, f)
      else
        let '(v, f) := fac_read f fac_output in
        let c := fac_code v mid shift fs in
        let '(stef, f) := fac_read f fac_stef in
        let '(sat, f) :=
          if negb (stef =? 0) then (true, f)
          else let '(gstef, f) := fac_read f fac_gstef in (negb (gstef =? 0), f) in
        let '(out, sat', f) := fac_drain n room mid shift fs f in
        (c :: out, sat || sat', f)
  | _, _ => ([], false, f)
  end.

Record fac_batch := Batch { b_out : list Z; b_sat : bool; b_stalled : bool; b_used : Z; b_raw : Z }.

(** The feeding loop over the [n] samples of a batch, with [room] places left. *)
Fixpoint fac_feed (n room : nat) (sid raw mid shift fs : Z) (f : F) : fac_batch :=
  match n, room with
  | S n, S _ =>
      let '(full, f) := fac_read f fac_x0bff in
      if negb (full =? 0) then Batch [] false true 0 raw
      else
        let '(word, f) := hw_read f (ring_word sid (raw mod BRIDGE_ADC_STREAM_RING_SAMPLES)) in
        let f := fac_fixed_data_write f (fac_input word mid shift) in
        let '(out, sat, f) := fac_drain 32 room mid shift fs f in
        let b := fac_feed n (room - length out) sid (u32 (raw + 1)) mid shift fs f in
        Batch (out ++ b_out b) (sat || b_sat b) (b_stalled b) (1 + b_used b) (b_raw b)
  | _, _ => Batch [] false false 0 raw
  end.

(** One batch: [avail] samples are there, [raw] is the pump's cursor. *)
Definition fac_run_batch (sid avail raw mid shift fs : Z) (f : F) : fac_batch :=
  fac_feed (Nat.min (Z.to_nat avail) ADC_DSP_PUMP_LOCK_BATCH) ADC_DSP_PUMP_LOCK_BATCH
           sid raw mid shift fs f.

End batch.

(** ** The machine *)

(** Where the pump stands.  [pc_total] serves the three position reads. *)
Inductive total_site := at_seed | at_fac | at_fft.

Inductive pump_pc :=
  | pc_idle
  | pc_in_use (sid : Z)
  | pc_bound (sid : Z)
  | pc_terminal (sid : Z)
  | pc_enter (fft : bool) (sid : Z)
  | pc_owner (fft : bool) (sid : Z)
  | pc_claim (fft : bool) (sid : Z)
  | pc_config (fft : bool) (sid : Z)
  | pc_refused (fft : bool) (sid : Z)
  | pc_flag (sid : Z)
  | pc_commit_config (fft : bool) (sid : Z)
  | pc_total (site : total_site) (sid : Z)
  | pc_track (site : total_site) (sid total : Z) (trk : adc_dma_pos)
  | pc_seed_test (sid live : Z)
  | pc_seed (sid live : Z)
  | pc_avail (fft : bool) (sid total : Z)
  | pc_resync (fft : bool) (sid total : Z)
  | pc_lease (sid avail fs : Z)
  | pc_batch (sid avail fs : Z)
  | pc_commit (sid avail fs : Z) (b : fac_batch)
  | pc_capture (sid avail : Z)
  | pc_store (sid avail code : Z)
  | pc_wait (sid avail : Z)
  | pc_done (sid avail : Z) (complete : bool)
  | pc_prepare (sid avail i n : Z)
  | pc_publish (sid avail nbins : Z).

(** The whole state.  The last four fields are ghosts no step reads: the sessions
    each slot has ended, the number of the session the pump last claimed in, and
    what each current session has published. *)
Record dsp_sys := Dsp {
  d_sys : adc_sys;
  d_fac : Z;
  d_fft_owner : Z;
  d_fft : fft_state;
  d_pc : pump_pc;
  g_sess : Z -> nat;
  g_claim : nat;
  g_pub : Z -> list Z;
  g_frames : Z -> list (list spec_float) }.

Definition slot (d : dsp_sys) (sid : Z) : option adc_stream_state :=
  adc_streams (sy_fw (d_sys d)) !! Z.to_nat sid.

Definition goto (pc : pump_pc) (d : dsp_sys) : dsp_sys :=
  Dsp (d_sys d) (d_fac d) (d_fft_owner d) (d_fft d) pc (g_sess d) (g_claim d) (g_pub d) (g_frames d).

Definition put_slot (sid : Z) (s : adc_stream_state) (d : dsp_sys) : dsp_sys :=
  Dsp (AdcSys (set_stream sid s (sy_fw (d_sys d))) (sy_chains (d_sys d))) (d_fac d) (d_fft_owner d)
    (d_fft d) (d_pc d) (g_sess d) (g_claim d) (g_pub d) (g_frames d).

Definition put_owner (fft : bool) (o : Z) (d : dsp_sys) : dsp_sys :=
  Dsp (d_sys d) (if fft then d_fac d else o) (if fft then o else d_fft_owner d) (d_fft d) (d_pc d)
    (g_sess d) (g_claim d) (g_pub d) (g_frames d).

Definition put_fft (t : fft_state) (d : dsp_sys) : dsp_sys :=
  Dsp (d_sys d) (d_fac d) (d_fft_owner d) t (d_pc d) (g_sess d) (g_claim d) (g_pub d) (g_frames d).

Definition owner (fft : bool) (d : dsp_sys) : Z := if fft then d_fft_owner d else d_fac d.

(** Ghost updates: the claim, and the two publications. *)
Definition note_claim (sid : Z) (d : dsp_sys) : dsp_sys :=
  Dsp (d_sys d) (d_fac d) (d_fft_owner d) (d_fft d) (d_pc d) (g_sess d) (g_sess d sid) (g_pub d)
    (g_frames d).

Definition note_pub (sid : Z) (out : list Z) (d : dsp_sys) : dsp_sys :=
  Dsp (d_sys d) (d_fac d) (d_fft_owner d) (d_fft d) (d_pc d) (g_sess d) (g_claim d)
    (<[sid := g_pub d sid ++ out]> (g_pub d)) (g_frames d).

Definition note_frame (sid : Z) (out : list spec_float) (d : dsp_sys) : dsp_sys :=
  Dsp (d_sys d) (d_fac d) (d_fft_owner d) (d_fft d) (d_pc d) (g_sess d) (g_claim d) (g_pub d)
    (<[sid := g_frames d sid ++ [out]]> (g_frames d)).

(** The loop of [bridge_hw_dsp_pump]. *)
Definition next_slot (sid : Z) : pump_pc :=
  if BRIDGE_ADC_STREAM_COUNT <=? sid + 1 then pc_idle else pc_in_use (sid + 1).

(** The chain of a slot. *)
Definition chain_of (d : dsp_sys) (s : adc_stream_state) : list adc_dsp_stage :=
  match sy_chains (d_sys d) !! Z.to_nat (dsp_chain_id s) with Some c => stages c | None => [] end.

(** [fac_config] answering true.  An undefined conversion may do anything; it is
    left to the race outcome. *)
Definition fac_config_ok (raced latched : bool) (l : list adc_dsp_stage) : bool :=
  match adc_dsp_fac_config latched l with
  | CfgProgram _ => true | CfgRefused => false | CfgUndefined => raced
  end.

Section machine.
Context {F : Type} `{!AdcHw F} `{!DspHw F}.
Variables (cosf : spec_float -> spec_float) (codes : fft_point_codes).

(** One step of the pump, at slot [s] of its program counter. *)
Definition pump_slot_step (f : F) (d : dsp_sys) (s : adc_stream_state) : dsp_sys :=
  match d_pc d with
  | pc_idle => goto (pc_in_use 0) d
  | pc_in_use sid => goto (if in_use s then pc_bound sid else next_slot sid) d
  | pc_bound sid => goto (if dsp_bound s then pc_terminal sid else next_slot sid) d
  | pc_terminal sid => goto (pc_enter (dsp_terminal s =? 3) sid) d
  | pc_enter fft sid =>
      if negb (dma_error_count s =? 0) then goto (next_slot sid) d else goto (pc_owner fft sid) d
  | pc_owner fft sid =>
      if owner fft d =? sid then goto (pc_total (if fft then at_fft else at_fac) sid) d
      else goto (pc_claim fft sid) d
  | pc_claim fft sid =>
      let '(claimed, o) := adc_dsp_owner_claim_config (owner fft d) sid s fft in
      if negb claimed then goto (next_slot sid) d
      else goto (pc_config fft sid) (note_claim sid (put_owner fft o d))
  | pc_config false sid =>
      let ok := if bool_decide (g_claim d = g_sess d sid)
                then fac_config_ok (raced_fac f) (fac_latched f) (chain_of d s) else raced_fac f in
      goto (if ok then pc_commit_config false sid else pc_refused false sid) d
  | pc_config true sid =>
      let r := if bool_decide (g_claim d = g_sess d sid)
               then adc_dsp_fft_config cosf codes (chain_of d s) else raced_fft f in
      match r with
      | Some p => goto (pc_commit_config true sid) (put_fft (set_fft_config p (d_fft d)) d)
      | None => goto (pc_refused true sid) d
      end
  | pc_refused fft sid =>
      let d := put_owner fft (adc_dsp_owner_release (owner fft d) sid).2 d in
      goto (if fft then next_slot sid else pc_flag sid) d
  | pc_flag sid => goto (next_slot sid) (put_slot sid (set_cfg_bad s) d)
  | pc_commit_config fft sid =>
      let '(live, o) := adc_dsp_owner_commit_config (owner fft d) sid s fft in
      let d := put_owner fft o d in
      goto (if live then pc_total (if fft then at_fft else at_seed) sid else next_slot sid) d
  | pc_total site sid =>
      let '(total, trk, _) := adc_stream_total_written f s sid (pump_pos s) in
      goto (pc_track site sid total trk) d
  | pc_track site sid total trk =>
      let d := put_slot sid (set_pump_pos trk s) d in
      goto (match site with
            | at_seed => pc_seed_test sid total
            | at_fac => pc_avail false sid total
            | at_fft => pc_avail true sid total
            end) d
  | pc_seed_test sid live =>
      if BRIDGE_ADC_STREAM_RING_SAMPLES <=? u32 (live - pump_raw_read s) then goto (pc_seed sid live) d
      else goto (pc_total at_fac sid) d
  | pc_seed sid live =>
      let d := if adc_dsp_owner_live_locked (d_fac d) sid s false
               then put_slot sid (set_pump_raw live s) d else d in
      goto (pc_total at_fac sid) d
  | pc_avail fft sid total =>
      let avail := s32 (total - pump_raw_read s) in
      if avail <=? 0 then goto (next_slot sid) d
      else if BRIDGE_ADC_STREAM_RING_SAMPLES <=? u32 avail then goto (pc_resync fft sid total) d
      else goto (if fft then pc_capture sid avail else pc_lease sid avail (full_scale s)) d
  | pc_resync false sid total =>
      let d := if adc_dsp_owner_live_locked (d_fac d) sid s false
               then put_slot sid (set_pump_raw total (set_gap s)) d else d in
      goto (next_slot sid) d
  | pc_resync true sid total =>
      let d := if adc_dsp_owner_live_locked (d_fft_owner d) sid s true
               then put_fft (set_fft_fill 0 (fft_real (d_fft d)) (d_fft d))
                      (put_slot sid (set_pump_raw total s) d) else d in
      goto (next_slot sid) d
  | pc_lease sid avail fs =>
      if adc_dsp_owner_live_locked (d_fac d) sid s false
      then goto (pc_batch sid avail fs)
             (note_claim sid (put_owner false (adc_dsp_owner_transitional sid) d))
      else goto (next_slot sid) d
  | pc_batch sid avail fs =>
      goto (pc_commit sid avail fs
              (fac_run_batch sid avail (pump_raw_read s) ((fs + 1) / 2) (adc_dsp_bias_shift fs)
                 (full_scale s) f)) d
  | pc_commit sid avail fs b =>
      let transitional := adc_dsp_owner_transitional sid in
      if adc_dsp_owner_live_locked (d_fac d) transitional s false then
        let d := note_pub sid (b_out b)
                   (put_owner false sid (put_slot sid (set_published (b_out b) (b_raw b) (b_sat b) s) d)) in
        if b_stalled b then goto (next_slot sid) d
        else if 0 <? avail - b_used b then goto (pc_lease sid (avail - b_used b) fs) d
        else goto (next_slot sid) d
      else
        goto (next_slot sid)
          (put_owner false (if d_fac d =? transitional then ADC_DSP_OWNER_NONE else d_fac d) d)
  | pc_capture sid avail =>
      if negb (0 <? avail) then goto (next_slot sid) d
      else if adc_dsp_owner_live_locked (d_fft_owner d) sid s true then
        let '(word, _) := hw_read f (ring_word sid (pump_raw_read s mod BRIDGE_ADC_STREAM_RING_SAMPLES)) in
        goto (pc_store sid (avail - 1) (Z.land (u16 word) 0x0FFF)) d
      else goto (next_slot sid) d
  | pc_store sid avail code =>
      if adc_dsp_owner_live_locked (d_fft_owner d) sid s true then
        let t := d_fft d in
        let sample := f32_div (f32_of_u16 code) f32_4096 in
        let t' := set_fft_fill (u16 (fft_fill t + 1)) (<[Z.to_nat (fft_fill t) := sample]> (fft_real t)) t in
        let d := put_fft t' (put_slot sid (set_pump_raw (u32 (pump_raw_read s + 1)) s) d) in
        goto (if fft_points t' <=? fft_fill t' then pc_wait sid avail else pc_capture sid avail) d
      else goto (next_slot sid) d
  | pc_wait sid avail =>
      if fft_ccf f then goto (pc_done sid avail true) (put_fft (set_fft_out (fft_output f) (d_fft d)) d)
      else goto (pc_done sid avail false) d
  | pc_done sid avail complete =>
      let live := adc_dsp_owner_live_locked (d_fft_owner d) sid s true in
      if negb live then goto (next_slot sid) d
      else if (complete : bool) then
        goto (pc_prepare sid avail 0 (fft_points (d_fft d)))
          (note_claim sid (put_owner true (adc_dsp_owner_transitional sid) d))
      else goto (pc_capture sid avail) (put_fft (set_fft_fill 0 (fft_real (d_fft d)) (d_fft d)) d)
  | pc_prepare sid avail i n =>
      let t := d_fft d in
      if i <? bins_count n (fft_outfmt t)
      then goto (pc_prepare sid avail (i + 1) n)
             (put_fft (set_fft_bin i (bin_value (fft_outfmt t) (fft_out t) i) t) d)
      else goto (pc_publish sid avail (bins_count n (fft_outfmt t))) d
  | pc_publish sid avail nbins =>
      let publishing := adc_dsp_owner_transitional sid in
      if adc_dsp_owner_live_locked (d_fft_owner d) publishing s true then
        goto (pc_capture sid avail)
          (note_frame sid (fft_out (d_fft d))
             (put_owner true sid (put_fft (fft_publish nbins (d_fft d)) d)))
      else
        goto (next_slot sid)
          (put_owner true (if d_fft_owner d =? publishing then ADC_DSP_OWNER_NONE else d_fft_owner d) d)
  end.

(** ** Ends and spectrum reads *)

Definition with_sys (y : adc_sys) (d : dsp_sys) : dsp_sys :=
  Dsp y (d_fac d) (d_fft_owner d) (d_fft d) (d_pc d) (g_sess d) (g_claim d) (g_pub d) (g_frames d).

Definition running (l : list adc_stream_state) (sid : Z) : bool :=
  match l !! Z.to_nat sid with Some s => in_use s | None => false end.

(** [bridge_hw_adc_stream_end] on the whole state; the ghosts start a new
    session when the slot was running and is not any more. *)
Definition dsp_stream_end (f : F) (d : dsp_sys) (sid : Z) : F * dsp_sys * Z :=
  let w := sy_fw (d_sys d) in
  let '(f', w', cs', (fac, fo, t), rc) :=
    bridge_hw_adc_stream_end_ dsp_release f w (sy_chains (d_sys d))
      (d_fac d, d_fft_owner d, d_fft d) sid in
  let d' := Dsp (AdcSys w' cs') fac fo t (d_pc d) (g_sess d) (g_claim d) (g_pub d) (g_frames d) in
  (f', if running (adc_streams w) sid && negb (running (adc_streams w') sid) then
     Dsp (d_sys d') fac fo t (d_pc d) (<[sid := S (g_sess d sid)]> (g_sess d)) (g_claim d)
       (<[sid := []]> (g_pub d)) (<[sid := []]> (g_frames d))
   else d', rc).

(** [bridge_hw_adc_spectrum_read]: the result code, the sequence, the bin count
    and the bins (zero and empty where the code leaves the caller's values). *)
Definition bridge_hw_adc_spectrum_read_ (f : F) (d : dsp_sys) (sid bin_offset max_bins : Z)
    : F * dsp_sys * (Z * Z * Z * list spec_float) :=
  if BRIDGE_ADC_STREAM_COUNT <=? sid then (f, d, (BRIDGE_HW_ERR_RANGE, 0, 0, []))
  else
    match slot d sid with
    | None => (f, d, (BRIDGE_HW_ERR_RANGE, 0, 0, []))
    | Some s =>
        if negb (in_use s) || negb (dsp_bound s) || negb (dsp_terminal s =? 3) then
          (f, d, (BRIDGE_HW_ERR_NOTIMPL, 0, 0, []))
        else
          let '(f, s) := adc_stream_latch_dma_error f s sid in
          let d := put_slot sid s d in
          if negb (dma_error_count s =? 0) then (f, d, (BRIDGE_HW_ERR_IO, 0, 0, []))
          else
            let t := d_fft d in
            if negb (d_fft_owner d =? sid) || (fft_seq t =? 0) then
              (f, d, (BRIDGE_HW_ERR_BUSY, 0, 0, []))
            else if fft_nbins t <=? bin_offset then
              (f, d, (BRIDGE_HW_OK, fft_seq t, fft_nbins t, []))
            else
              let remain := u16 (fft_nbins t - bin_offset) in
              let emit := if remain <? max_bins then u8 remain else max_bins in
              (f, d, (BRIDGE_HW_OK, fft_seq t, fft_nbins t,
                   (fun i => default f32_0 (fft_bins t !! Z.to_nat (bin_offset + i))) <$> seqZ 0 emit))
    end.

(** ** The interleaving *)

Definition pc_sid (pc : pump_pc) : Z :=
  match pc with
  | pc_idle => 0
  | pc_in_use sid | pc_bound sid | pc_terminal sid | pc_enter _ sid | pc_owner _ sid
  | pc_claim _ sid | pc_config _ sid | pc_refused _ sid | pc_flag sid | pc_commit_config _ sid
  | pc_total _ sid | pc_track _ sid _ _ | pc_seed_test sid _ | pc_seed sid _ | pc_avail _ sid _
  | pc_resync _ sid _ | pc_lease sid _ _ | pc_batch sid _ _ | pc_commit sid _ _ _
  | pc_capture sid _ | pc_store sid _ _ | pc_wait sid _ | pc_done sid _ _ | pc_prepare sid _ _ _
  | pc_publish sid _ _ => sid
  end.

Definition pump_step (f : F) (d : dsp_sys) : dsp_sys :=
  match slot d (pc_sid (d_pc d)) with Some s => pump_slot_step f d s | None => d end.

Inductive dsp_step : dsp_sys -> dsp_sys -> Prop :=
  | ds_request d y' : adc_request (H := F) (d_sys d) y' -> dsp_step d (with_sys y' d)
  | ds_spectrum_read f d sid off n :
      0 <= sid -> dsp_step d (bridge_hw_adc_spectrum_read_ f d sid off n).1.2
  | ds_stream_end f d sid : 0 <= sid -> dsp_step d (dsp_stream_end f d sid).1.2
  | ds_pump f d : dsp_step d (pump_step f d).

(** The state the loader leaves. *)
Definition fft_state0 : fft_state :=
  Fft 0 0 0 0 0 (replicate 1024 f32_0) (replicate 2048 f32_0) (replicate 2048 f32_0).

Definition dsp_init (ok pending : bool) (l : list adc_stream_state) : dsp_sys :=
  Dsp (AdcSys (set_vref ok pending (adc_fw0 l)) adc_dsp_chains0) ADC_DSP_OWNER_NONE ADC_DSP_OWNER_NONE fft_state0 pc_idle
    (fun _ => 0%nat) 0%nat (fun _ => []) (fun _ => []).

(** An idle slot as the loader leaves it. *)
Definition idle_slot (s : adc_stream_state) : Prop :=
  in_use s = false /\ dsp_bound s = false /\ length (proc_ring s) = 1024%nat.

Inductive dsp_reachable : dsp_sys -> Prop :=
  | dsp_reach_init ok pending l :
      Forall idle_slot l -> length l = 2%nat -> dsp_reachable (dsp_init ok pending l)
  | dsp_reach_step d d' : dsp_reachable d -> dsp_step d d' -> dsp_reachable d'.

End machine.
