(* ===== verification/DspSafety.v ===== *)
(** * Safety of the interleaved pump

    The invariant of [dsp_reachable]: who may hold an owner byte, what a session
    has published, and what the FFT variables hold; and the theorems read off it. *)

From Stdlib Require Import SpecFloat.
From stdpp Require Import base tactics functions list numbers option.
From S2P Require Import Prelude BridgeHw DspChain Adc AdcStream AdcSystem DspCoeff DspSpectrum DspPump.

#[local] Set Warnings "-clear-no-such-hyp".

(** ** Owners *)

Definition live_slot (fft : bool) (s : adc_stream_state) : Prop :=
  in_use s = true /\ dsp_bound s = true /\ (dsp_terminal s =? 3) = fft.

Lemma live_locked_spec o e s fft :
  adc_dsp_owner_live_locked o e s fft = true <-> o = e /\ live_slot fft s.
Proof.
  unfold adc_dsp_owner_live_locked, live_slot. rewrite !andb_true_iff, Z.eqb_eq.
  destruct fft, (dsp_terminal s =? 3); simpl; naive_solver.
Qed.

Lemma live_slot_key fft s s' : slot_key s' = slot_key s -> live_slot fft s -> live_slot fft s'.
Proof. intros Hk. injection Hk as E1 _ E3 _ E5. unfold live_slot. by rewrite E1, E3, E5. Qed.

Definition live (d : dsp_sys) (fft : bool) (sid : Z) : Prop :=
  exists s, slot d sid = Some s /\ live_slot fft s.

(** The pump is between a claim and the section that ends it. *)
Definition claimed (fft : bool) (pc : pump_pc) : bool :=
  match pc with
  | pc_config b _ | pc_refused b _ | pc_commit_config b _ => eqb b fft
  | pc_batch _ _ _ | pc_commit _ _ _ _ => negb fft
  | pc_prepare _ _ _ _ | pc_publish _ _ _ => fft
  | _ => false
  end.

(** An owner byte is idle, or names a running stream of its kind; and during a
    claim it is this pump's token until the session ends, idle afterwards. *)
Definition owner_ok (fft : bool) (o : Z) (pc : pump_pc) (claim : nat) (sess : Z -> nat)
    (lv : Z -> Prop) : Prop :=
  (o = -1 \/ exists sid, 0 <= sid < 2 /\ (o = sid \/ o = -2 - sid) /\ lv sid) /\
  (if claimed fft pc then
     o = -2 - pc_sid pc /\ claim = sess (pc_sid pc) \/ o = -1 /\ (claim < sess (pc_sid pc))%nat
   else -1 <= o).

Lemma owner_ok_mono fft o pc claim sess (lv lv' : Z -> Prop) :
  (forall sid, 0 <= sid < 2 -> lv sid -> lv' sid) ->
  owner_ok fft o pc claim sess lv -> owner_ok fft o pc claim sess lv'.
Proof.
  intros Hl [[-> | (sid & Hs & Ho & Hlv)] Hc]; (split; [| done]); [by left |].
  right. exists sid. auto.
Qed.

(** Moving the program counter where neither end is inside a claim. *)
Lemma owner_ok_pc fft o pc pc' claim claim' sess lv :
  claimed fft pc = false -> claimed fft pc' = false ->
  owner_ok fft o pc claim sess lv -> owner_ok fft o pc' claim' sess lv.
Proof. unfold owner_ok. by intros -> ->. Qed.

(** Inside one claim. *)
Lemma owner_ok_inside fft o pc pc' claim sess lv :
  claimed fft pc = claimed fft pc' -> pc_sid pc' = pc_sid pc ->
  owner_ok fft o pc claim sess lv -> owner_ok fft o pc' claim sess lv.
Proof. unfold owner_ok. by intros <- ->. Qed.

(** Taking the byte. *)
Lemma owner_ok_take fft sid pc sess (lv : Z -> Prop) :
  0 <= sid < 2 -> lv sid -> claimed fft pc = true -> pc_sid pc = sid ->
  owner_ok fft (-2 - sid) pc (sess sid) sess lv.
Proof. intros Hs Hl Hc <-. unfold owner_ok. rewrite Hc. split; [right; eauto | by left]. Qed.

(** Giving it back, or publishing under it. *)
Lemma owner_ok_idle fft pc claim sess (lv : Z -> Prop) :
  claimed fft pc = false -> owner_ok fft (-1) pc claim sess lv.
Proof. intros Hc. unfold owner_ok. rewrite Hc. split; [by left | lia]. Qed.

Lemma owner_ok_named fft sid pc claim sess (lv : Z -> Prop) :
  0 <= sid < 2 -> lv sid -> claimed fft pc = false -> owner_ok fft sid pc claim sess lv.
Proof. intros Hs Hl Hc. unfold owner_ok. rewrite Hc. split; [right; eauto | lia]. Qed.

(** A claim survives exactly as long as its session. *)
Lemma claim_session fft d s :
  owner_ok fft (owner fft d) (d_pc d) (g_claim d) (g_sess d) (live d fft) ->
  claimed fft (d_pc d) = true -> 0 <= pc_sid (d_pc d) < 2 -> slot d (pc_sid (d_pc d)) = Some s ->
  (g_claim d = g_sess d (pc_sid (d_pc d)) /\ owner fft d = -2 - pc_sid (d_pc d) /\ live_slot fft s) \/
  ((g_claim d < g_sess d (pc_sid (d_pc d)))%nat /\ owner fft d = -1).
Proof.
  intros [Hr Hc] Hcl Hsid Es. rewrite Hcl in Hc. destruct Hc as [[Ho Hg] | [Ho Hg]]; [left | by right].
  split_and!; try done. destruct Hr as [Hr | (sid & Hs & [Hr | Hr] & s' & Es' & Hl)]; [lia | lia |].
  assert (sid = pc_sid (d_pc d)) as -> by lia. by rewrite Es in Es'; injection Es' as <-.
Qed.

(** ** Slots *)

Lemma slot_put sid s d j :
  0 <= sid -> 0 <= j -> (Z.to_nat sid < length (adc_streams (sy_fw (d_sys d))))%nat ->
  slot (put_slot sid s d) j = if j =? sid then Some s else slot d j.
Proof.
  intros Hs Hj Hl. unfold slot, put_slot. cbn [d_sys sy_fw adc_streams set_stream set_streams].
  destruct (Z.eqb_spec j sid) as [-> | Hne]; [by rewrite list_lookup_insert_eq |].
  by rewrite list_lookup_insert_ne by lia.
Qed.

Lemma slot_lt d sid s : slot d sid = Some s -> (Z.to_nat sid < length (adc_streams (sy_fw (d_sys d))))%nat.
Proof. apply lookup_lt_Some. Qed.

(** ** What a session has published *)

(** The last 1024 samples of [pub] are where the reader looks for them. *)
Definition ring_holds (ring pub : list Z) : Prop :=
  forall n, 0 <= n < Z.of_nat (length pub) -> Z.of_nat (length pub) <= n + 1024 ->
    ring.[n mod 1024] = pub.[n].

Definition pub_ok (s : adc_stream_state) (pub : list Z) : Prop :=
  length (proc_ring s) = 1024%nat /\
  (dsp_bound s = false -> pub = []) /\
  (dsp_bound s = true -> proc_write s = u32 (Z.of_nat (length pub)) /\ ring_holds (proc_ring s) pub).

Lemma pub_ok_same s s' pub :
  dsp_bound s' = dsp_bound s -> proc_ring s' = proc_ring s -> proc_write s' = proc_write s ->
  pub_ok s pub -> pub_ok s' pub.
Proof. unfold pub_ok. by intros -> -> ->. Qed.

Lemma at_app_l (l k : list Z) i : 0 <= i < Z.of_nat (length l) -> (l ++ k).[i] = l.[i].
Proof. intros Hi. unfold at_. by rewrite lookup_app_l by lia. Qed.

Lemma ring_holds_snoc ring pub c :
  length ring = 1024%nat -> ring_holds ring pub ->
  ring_holds (<[Z.to_nat (u32 (Z.of_nat (length pub)) mod 1024) := c]> ring) (pub ++ [c]).
Proof.
  intros Hl Hr n. rewrite length_app. cbn [length]. intros Hn Hle.
  assert (Hm : u32 (Z.of_nat (length pub)) mod 1024 = Z.of_nat (length pub) mod 1024)
    by (unfold u32; zlia).
  rewrite Hm. destruct (decide (n = Z.of_nat (length pub))) as [-> | Hne].
  - rewrite at_insert_eq by zlia. unfold at_. rewrite lookup_app_r by lia.
    by replace (Z.to_nat (Z.of_nat (length pub)) - length pub)%nat with 0%nat by lia.
  - rewrite at_insert_ne by zlia. rewrite at_app_l by lia. apply Hr; lia.
Qed.

Lemma write_ring_holds out : forall ring pub,
  length ring = 1024%nat -> ring_holds ring pub ->
  length (write_ring ring (u32 (Z.of_nat (length pub))) out) = 1024%nat /\
  ring_holds (write_ring ring (u32 (Z.of_nat (length pub))) out) (pub ++ out).
Proof.
  induction out as [| c out IH]; intros ring pub Hl Hr; cbn [write_ring].
  { by rewrite app_nil_r. }
  replace (u32 (u32 (Z.of_nat (length pub)) + 1)) with (u32 (Z.of_nat (length (pub ++ [c])))).
  2: { rewrite u32_add_r, length_app. f_equal. cbn [length]. lia. }
  replace (pub ++ c :: out) with ((pub ++ [c]) ++ out) by (by rewrite <- app_assoc).
  apply IH; [by rewrite length_insert | by apply ring_holds_snoc].
Qed.

Lemma pub_ok_publish s pub out raw sat :
  dsp_bound s = true -> pub_ok s pub -> pub_ok (set_published out raw sat s) (pub ++ out).
Proof.
  intros B (Hl & _ & Hb). destruct (Hb B) as [Hw Hr].
  unfold set_published, pub_ok, set_pump_raw, set_cursor, set_proc.
  cbn [proc_ring proc_write dsp_bound]. rewrite Hw.
  destruct (write_ring_holds out (proc_ring s) pub Hl Hr) as [Hl' Hr'].
  split; [done |]. split; [congruence |]. intros _. split; [| done].
  rewrite u32_add_r, length_app. f_equal. lia.
Qed.

(** ** The FFT variables *)

(** A window may be full, and a claim past its configuration. *)
Definition fft_full (pc : pump_pc) : bool :=
  match pc with
  | pc_wait _ _ | pc_done _ _ _ | pc_prepare _ _ _ _ | pc_publish _ _ _ => true | _ => false
  end.

Definition publishing (pc : pump_pc) : bool :=
  match pc with pc_prepare _ _ _ _ | pc_publish _ _ _ => true | _ => false end.

Definition configured (pc : pump_pc) : bool :=
  match pc with pc_commit_config true _ => true | _ => publishing pc end.

(** The published bins are the reduction of [out]. *)
Definition bins_hold (t : fft_state) (out : list spec_float) (n : Z) : Prop :=
  forall j, 0 <= j < n -> fft_bins t !! Z.to_nat j = Some (bin_value (fft_outfmt t) out j).

Definition frame_ok (t : fft_state) (out : list spec_float) : Prop :=
  fft_nbins t = bins_count (fft_points t) (fft_outfmt t) /\ bins_hold t out (fft_nbins t).

Record fft_ok (o : Z) (pc : pump_pc) (t : fft_state) (frames : Z -> list (list spec_float)) : Prop := {
  ff_real : length (fft_real t) = 1024%nat;
  ff_bins : length (fft_bins t) = 2048%nat;
  ff_conf : forall sid, 0 <= sid < 2 -> o = sid \/ o = -2 - sid /\ configured pc = true ->
    32 <= fft_points t <= 1024 /\ 0 <= fft_fill t /\
    (if fft_full pc then fft_fill t <= fft_points t else fft_fill t < fft_points t);
  ff_full : fft_full pc = true -> o = -1 \/ o = pc_sid pc \/ o = -2 - pc_sid pc;
  ff_mine : forall sid, 0 <= sid < 2 -> o = sid \/ o = -2 - sid /\ publishing pc = true ->
    fft_seq t = u32 (Z.of_nat (length (frames sid)));
  ff_last : forall sid out, 0 <= sid < 2 -> o = sid -> list.last (frames sid) = Some out -> frame_ok t out;
  ff_none : forall sid, 0 <= sid < 2 -> o <> sid -> ~ (o = -2 - sid /\ publishing pc = true) ->
    frames sid = [];
  ff_commit : forall sid, pc = pc_commit_config true sid -> o = -2 - sid -> fft_seq t = 0;
  ff_prep : match pc with
            | pc_prepare _ _ i n => n = fft_points t /\ 32 <= n <= 1024 /\ 0 <= i /\
                i <= bins_count n (fft_outfmt t) /\ bins_hold t (fft_out t) i
            | pc_publish _ _ n => n = bins_count (fft_points t) (fft_outfmt t) /\
                32 <= fft_points t <= 1024 /\ bins_hold t (fft_out t) n
            | _ => True
            end }.

(** Program counters none of the clauses treats specially. *)
Definition plain (pc : pump_pc) : bool := negb (fft_full pc) && negb (configured pc).

Lemma plain_spec pc : plain pc = true ->
  fft_full pc = false /\ configured pc = false /\ publishing pc = false.
Proof. destruct pc; try done. by destruct fft. Qed.

(** The clauses at a plain program counter. *)
Lemma fft_ok_plain o pc t frames :
  plain pc = true -> length (fft_real t) = 1024%nat -> length (fft_bins t) = 2048%nat ->
  (forall sid, 0 <= sid < 2 -> o = sid ->
     32 <= fft_points t <= 1024 /\ 0 <= fft_fill t < fft_points t /\
     fft_seq t = u32 (Z.of_nat (length (frames sid))) /\
     forall out, list.last (frames sid) = Some out -> frame_ok t out) ->
  (forall sid, 0 <= sid < 2 -> o <> sid -> frames sid = []) -> fft_ok o pc t frames.
Proof.
  intros Hp Hr Hb Hmine Hnone. destruct (plain_spec pc Hp) as (E1 & E2 & E3).
  split; rewrite ?E1, ?E2, ?E3; try done.
  - intros sid Hs [-> | [_ ?]]; [| done]. destruct (Hmine sid Hs eq_refl) as (? & ? & _). lia.
  - intros sid Hs [-> | [_ ?]]; [| done]. by destruct (Hmine sid Hs eq_refl) as (_ & _ & ? & _).
  - intros sid out Hs E. destruct (Hmine sid Hs E) as (_ & _ & _ & Hx). apply Hx.
  - auto.
  - intros sid ->. by simpl in E2.
  - by destruct pc.
Qed.

Lemma fft_ok_plain_inv o pc t frames sid :
  plain pc = true -> fft_ok o pc t frames -> 0 <= sid < 2 -> o = sid ->
  32 <= fft_points t <= 1024 /\ 0 <= fft_fill t < fft_points t /\
  fft_seq t = u32 (Z.of_nat (length (frames sid))) /\
  forall out, list.last (frames sid) = Some out -> frame_ok t out.
Proof.
  intros Hp Hf Hs Ho. destruct (plain_spec pc Hp) as (E1 & E2 & E3).
  destruct (ff_conf _ _ _ _ Hf sid Hs (or_introl Ho)) as (? & ? & Hfill). rewrite E1 in Hfill.
  split_and!; try lia; [by apply (ff_mine _ _ _ _ Hf); auto |]. intros out. by apply (ff_last _ _ _ _ Hf).
Qed.

Lemma fft_ok_plain_none o pc t frames sid :
  plain pc = true -> fft_ok o pc t frames -> 0 <= sid < 2 -> o <> sid -> frames sid = [].
Proof.
  intros Hp Hf Hs Ho. destruct (plain_spec pc Hp) as (_ & _ & E3).
  apply (ff_none _ _ _ _ Hf sid Hs Ho). rewrite E3. by intros [_ ?].
Qed.

(** Between plain program counters. *)
Lemma fft_ok_move o pc pc' t frames :
  plain pc = true -> plain pc' = true -> fft_ok o pc t frames -> fft_ok o pc' t frames.
Proof.
  intros Hp Hp' Hf. apply fft_ok_plain; [done | apply Hf | apply Hf | |].
  - intros sid Hs Ho. by apply (fft_ok_plain_inv o pc).
  - intros sid. by apply (fft_ok_plain_none o pc t).
Qed.

(** An idle owner byte forgets everything but the buffers' sizes. *)
Lemma fft_ok_idle pc t frames :
  plain pc = true -> length (fft_real t) = 1024%nat -> length (fft_bins t) = 2048%nat ->
  (forall sid, 0 <= sid < 2 -> frames sid = []) -> fft_ok (-1) pc t frames.
Proof.
  intros Hp Hr Hb Hn. apply fft_ok_plain; [done | done | done | | auto]. intros sid Hs E. lia.
Qed.

Section safety.
Context {F : Type} `{!AdcHw F} `{!DspHw F}.
Context (cosf : spec_float -> spec_float) (codes : fft_point_codes).

(** A pump step writes at most its own slot, and never the slot's key. *)
Lemma pump_slots (f : F) d s :
  slot d (pc_sid (d_pc d)) = Some s ->
  exists s', slot_key s' = slot_key s /\
    d_sys (pump_slot_step cosf codes f d s) = d_sys (put_slot (pc_sid (d_pc d)) s' d).
Proof.
  intros Es.
  assert (Hid : d_sys (put_slot (pc_sid (d_pc d)) s d) = d_sys d).
  { unfold put_slot, set_stream, set_streams. cbn [d_sys]. unfold slot in Es.
    rewrite list_insert_id by done. by destruct d as [[[] ?]]. }
  unfold pump_slot_step. destruct (d_pc d) as
    [| sid | sid | sid | fft sid | fft sid | fft sid | fft sid | fft sid | sid | fft sid | site sid
    | site sid total trk | sid lv | sid lv | fft sid total | fft sid total | sid av fs | sid av fs
    | sid av fs b | sid av | sid av code | sid av | sid av complete | sid av i n | sid av nb] eqn:Epc;
    cbn [pc_sid] in *; try (exists s; rewrite Hid; by repeat case_match).
  - exists (set_cfg_bad s). done.
  - exists (set_pump_pos trk s). by destruct site.
  - destruct (adc_dsp_owner_live_locked _ _ _ _); [by exists (set_pump_raw lv s) | exists s; by rewrite Hid].
  - destruct fft, (adc_dsp_owner_live_locked _ _ _ _);
      [by exists (set_pump_raw total s) | exists s; by rewrite Hid
      | by exists (set_pump_raw total (set_gap s)) | exists s; by rewrite Hid].
  - destruct (adc_dsp_owner_live_locked _ _ _ _); [| exists s; by rewrite Hid].
    exists (set_published (b_out b) (b_raw b) (b_sat b) s). by destruct (b_stalled b), (0 <? av - b_used b).
  - destruct (adc_dsp_owner_live_locked _ _ _ _); [| exists s; by rewrite Hid].
    exists (set_pump_raw (u32 (pump_raw_read s + 1)) s). done.
Qed.

(** So running sessions stay. *)
Lemma pump_live (f : F) d s fft sid :
  slot d (pc_sid (d_pc d)) = Some s -> 0 <= pc_sid (d_pc d) -> 0 <= sid ->
  live d fft sid -> live (pump_slot_step cosf codes f d s) fft sid.
Proof.
  intros Es Hp Hs (s0 & E0 & Hl). destruct (pump_slots f d s Es) as (s' & Hk & Esys).
  unfold live, slot. rewrite Esys. fold (slot (put_slot (pc_sid (d_pc d)) s' d) sid).
  pose proof (slot_put (pc_sid (d_pc d)) s' d sid Hp Hs (slot_lt _ _ _ Es)) as Ep. rewrite Ep.
  destruct (Z.eqb_spec sid (pc_sid (d_pc d))) as [-> | Hne]; [| by exists s0].
  exists s'. split; [done |]. rewrite Es in E0. injection E0 as <-. by apply (live_slot_key _ s).
Qed.
(** The pump steps of one lock section, on the owner byte. *)
Lemma next_slot_claimed fft sid : claimed fft (next_slot sid) = false.
Proof. unfold next_slot. by destruct (_ <=? _). Qed.

Lemma next_slot_sid sid : 0 <= sid < 2 -> 0 <= pc_sid (next_slot sid) < 2.
Proof. intros Hs. unfold next_slot, BRIDGE_ADC_STREAM_COUNT. destruct (Z.leb_spec 2 (sid + 1)); simpl; lia. Qed.

Lemma pump_sid (f : F) d s :
  0 <= pc_sid (d_pc d) < 2 -> 0 <= pc_sid (d_pc (pump_slot_step cosf codes f d s)) < 2.
Proof.
  intros Hs. pose proof (next_slot_sid (pc_sid (d_pc d)) Hs) as Hn.
  unfold pump_slot_step. destruct (d_pc d) as
    [| sid | sid | sid | fft sid | fft sid | fft sid | fft sid | fft sid | sid | fft sid | site sid
    | site sid total trk | sid lv | sid lv | fft sid total | fft sid total | sid av fs | sid av fs
    | sid av fs b | sid av | sid av code | sid av | sid av complete | sid av i n | sid av nb] eqn:Epc;
    cbn [pc_sid] in *; try (destruct fft); try (destruct site); repeat case_match;
    cbn [d_pc goto put_slot put_owner put_fft note_claim note_pub note_frame]; try done; simpl; lia.
Qed.

Lemma release_claimed_byte fft o pc claim sess lv sid :
  owner_ok fft o pc claim sess lv -> claimed fft pc = true -> pc_sid pc = sid -> 0 <= sid ->
  (adc_dsp_owner_release o sid).2 = -1.
Proof.
  intros [_ Hc] Hcl <- Hs. rewrite Hcl in Hc. unfold adc_dsp_owner_release, adc_dsp_owner_transitional.
  destruct Hc as [[-> _] | [-> _]].
  - by rewrite Z.eqb_refl, orb_true_r.
  - rewrite !(proj2 (Z.eqb_neq _ _)) by lia. done.
Qed.

(** A failed liveness check under the token means the byte is already idle. *)
Lemma not_live_idle fft d s :
  owner_ok fft (owner fft d) (d_pc d) (g_claim d) (g_sess d) (live d fft) ->
  claimed fft (d_pc d) = true -> 0 <= pc_sid (d_pc d) < 2 -> slot d (pc_sid (d_pc d)) = Some s ->
  adc_dsp_owner_live_locked (owner fft d) (adc_dsp_owner_transitional (pc_sid (d_pc d))) s fft = false ->
  owner fft d = -1.
Proof.
  intros Ho Hc Hs Es Hn. destruct (claim_session fft d s Ho Hc Hs Es) as [(_ & Eo & Hl) | [_ ?]]; [| done].
  apply Bool.not_true_iff_false in Hn. exfalso. apply Hn, live_locked_spec. done.
Qed.

(** The sections that take and commit a claim. *)
Lemma claim_config_true o sid s fft z :
  adc_dsp_owner_claim_config o sid s fft = (true, z) -> z = -2 - sid /\ o = -1 /\ live_slot fft s.
Proof.
  unfold adc_dsp_owner_claim_config. destruct (_ && _) eqn:E; [| done]. intros [= <-].
  rewrite andb_true_iff, live_locked_spec in E. by destruct E as [_ [? ?]].
Qed.

Lemma commit_config_cases o sid s fft live z :
  adc_dsp_owner_commit_config o sid s fft = (live, z) ->
  live = true /\ z = sid /\ live_slot fft s /\ o = -2 - sid \/
  live = false /\ adc_dsp_owner_live_locked o (adc_dsp_owner_transitional sid) s fft = false /\
  z = (if o =? adc_dsp_owner_transitional sid then -1 else o).
Proof.
  unfold adc_dsp_owner_commit_config. destruct (adc_dsp_owner_live_locked _ _ _ _) eqn:E; intros [= <- <-].
  - left. apply live_locked_spec in E as [? ?]. done.
  - by right.
Qed.

(** After a failed commit, whichever branch stores the byte. *)
Lemma dropped_idle o sid : o = -1 -> 0 <= sid -> (if o =? adc_dsp_owner_transitional sid then -1 else o) = -1.
Proof. intros -> Hs. by destruct (_ =? _). Qed.

Lemma pump_owner (f : F) d s fft' :
  slot d (pc_sid (d_pc d)) = Some s -> 0 <= pc_sid (d_pc d) < 2 ->
  owner_ok fft' (owner fft' d) (d_pc d) (g_claim d) (g_sess d) (live d fft') ->
  let d' := pump_slot_step cosf codes f d s in
  owner_ok fft' (owner fft' d') (d_pc d') (g_claim d') (g_sess d') (live d' fft').
Proof.
  intros Es Hs Ho. cbv zeta.
  apply (owner_ok_mono _ _ _ _ _ (live d fft')); [intros sid ? ?; apply pump_live; done || lia |].
  assert (Hlive : forall e, adc_dsp_owner_live_locked (owner fft' d) e s fft' = true ->
    live d fft' (pc_sid (d_pc d))).
  { intros e Hl. apply live_locked_spec in Hl as [_ Hl]. by exists s. }
  pose proof (not_live_idle fft' d s Ho) as Hidle.
  unfold pump_slot_step. destruct (d_pc d) as
    [| sid | sid | sid | fft sid | fft sid | fft sid | fft sid | fft sid | sid | fft sid | site sid
    | site sid total trk | sid lv | sid lv | fft sid total | fft sid total | sid av fs | sid av fs
    | sid av fs b | sid av | sid av code | sid av | sid av complete | sid av i n | sid av nb] eqn:Epc;
    cbn [pc_sid] in *.
  all: try destruct fft; try destruct site; destruct fft'; cbn [owner] in *; repeat case_match;
    cbn [d_pc d_fac d_fft_owner g_claim g_sess goto put_slot put_owner put_fft note_claim note_pub
         note_frame].
  all: try solve [eapply owner_ok_pc; [| | exact Ho]; first [done | apply next_slot_claimed]].
  all: try solve [eapply owner_ok_inside; [| | exact Ho]; done].
  1-2: match goal with H : adc_dsp_owner_claim_config _ _ _ _ = (?b, _), H' : negb ?b = false |- _ =>
         destruct b; [| done]; apply claim_config_true in H as (-> & _ & Hl) end;
       apply (owner_ok_take _ sid); [done | by exists s | done | done].
  1-2: rewrite (release_claimed_byte _ _ _ _ _ _ sid Ho) by (done || lia); apply owner_ok_idle; [done || apply next_slot_claimed].
  1-4: match goal with H : adc_dsp_owner_commit_config _ _ _ _ = _ |- _ =>
         apply commit_config_cases in H as [(? & -> & Hl & _) | (? & Hl & ->)]; try done end;
       first [apply owner_ok_named; [done | by exists s | done]
             | rewrite dropped_idle by (auto || lia); apply owner_ok_idle, next_slot_claimed].
  1, 7: match goal with
        | H : adc_dsp_owner_live_locked _ _ _ _ = true |- _ => apply live_locked_spec in H as [_ Hl]
        | H : negb (adc_dsp_owner_live_locked _ _ _ _) = false |- _ =>
            apply negb_false_iff, live_locked_spec in H as [_ Hl] end;
        apply (owner_ok_take _ sid); [done | by exists s | done | done].
  1-3, 6: apply owner_ok_named; [done | eauto | done || apply next_slot_claimed].
  1, 3: apply owner_ok_idle, next_slot_claimed.
  all: rewrite Hidle by done; apply owner_ok_idle, next_slot_claimed.
Qed.

Lemma pub_put d sid s s' pub :
  slot d sid = Some s -> 0 <= sid < 2 -> pub_ok s' (pub sid) ->
  (forall j t, 0 <= j < 2 -> j <> sid -> slot d j = Some t -> pub_ok t (pub j)) ->
  forall j t, 0 <= j < 2 -> slot (put_slot sid s' d) j = Some t -> pub_ok t (pub j).
Proof.
  intros Es Hs Hok Hall j t Hj. rewrite slot_put by (done || lia || by apply slot_lt in Es).
  destruct (Z.eqb_spec j sid) as [-> | Hne]; [by intros [= <-] | by apply Hall].
Qed.

Lemma pump_pub (f : F) d s :
  slot d (pc_sid (d_pc d)) = Some s -> 0 <= pc_sid (d_pc d) < 2 ->
  (forall j t, 0 <= j < 2 -> slot d j = Some t -> pub_ok t (g_pub d j)) ->
  let d' := pump_slot_step cosf codes f d s in
  forall j t, 0 <= j < 2 -> slot d' j = Some t -> pub_ok t (g_pub d' j).
Proof.
  intros Es Hs Hall. cbv zeta. pose proof (Hall _ _ Hs Es) as Hok.
  assert (Hput : forall s', dsp_bound s' = dsp_bound s -> proc_ring s' = proc_ring s ->
    proc_write s' = proc_write s ->
    forall j t, 0 <= j < 2 -> slot (put_slot (pc_sid (d_pc d)) s' d) j = Some t -> pub_ok t (g_pub d j)).
  { intros s' E1 E2 E3. apply (pub_put d _ s s' (g_pub d)); [done | done | by apply (pub_ok_same s) | auto]. }
  unfold pump_slot_step. destruct (d_pc d) as
    [| sid | sid | sid | fft sid | fft sid | fft sid | fft sid | fft sid | sid | fft sid | site sid
    | site sid total trk | sid lv | sid lv | fft sid total | fft sid total | sid av fs | sid av fs
    | sid av fs b | sid av | sid av code | sid av | sid av complete | sid av i n | sid av nb] eqn:Epc;
    cbn [pc_sid] in *.
  20: { destruct (adc_dsp_owner_live_locked _ _ _ _) eqn:El; [| exact Hall].
    apply live_locked_spec in El as [_ (_ & B & _)].
    assert (Hp : forall j t, 0 <= j < 2 -> slot (put_slot sid (set_published (b_out b) (b_raw b) (b_sat b) s) d) j = Some t ->
      pub_ok t ((<[sid := g_pub d sid ++ b_out b]> (g_pub d)) j)).
    { apply (pub_put d _ s); [done | done | rewrite fn_lookup_insert; by apply pub_ok_publish |].
      intros j t Hj Hne Ej. rewrite fn_lookup_insert_ne by done. by apply Hall. }
    destruct (b_stalled b), (0 <? av - b_used b); exact Hp. }
  all: repeat case_match; first [exact Hall | apply Hput; done].
Qed.

Lemma next_slot_plain sid : plain (next_slot sid) = true.
Proof. unfold next_slot. by destruct (_ <=? _). Qed.

(** No slot is named by an idle byte or a token. *)
Lemma fft_ok_frames_none o pc t frames :
  fft_ok o pc t frames -> o < 0 -> publishing pc = false ->
  forall sid, 0 <= sid < 2 -> frames sid = [].
Proof.
  intros Hf Ho Hp sid Hs. apply (ff_none _ _ _ _ Hf sid Hs); [lia |]. rewrite Hp. by intros [_ ?].
Qed.

Lemma plain_to_plain_fill o pc pc' t frames n :
  plain pc = true -> plain pc' = true -> (forall sid, 0 <= sid < 2 -> o = sid -> 0 <= n < fft_points t) ->
  fft_ok o pc t frames -> fft_ok o pc' (set_fft_fill n (fft_real t) t) frames.
Proof.
  intros Hp Hp' Hn Hf. apply fft_ok_plain; [done | apply Hf | apply Hf | |].
  - intros sid Hs Ho. destruct (fft_ok_plain_inv o pc t frames sid) as (A & _ & B & C); try done.
    split; [exact A |]. split; [exact (Hn sid Hs Ho) |]. split; [exact B | exact C].
  - intros sid Hs Ho. by apply (fft_ok_plain_none o pc t).
Qed.

(** A full window given up by a live pump, or left by a dead one. *)
Lemma fft_ok_drop o av t frames sid :
  fft_ok o (pc_done sid av false) t frames -> -1 <= o -> 0 <= sid < 2 -> o <> sid ->
  fft_ok o (next_slot sid) t frames.
Proof.
  intros Hf Ho Hs Hne. assert (o = -1) as ->.
  { destruct (ff_full _ _ _ _ Hf eq_refl) as [? | [? | ?]]; [done | done | simpl in *; lia]. }
  apply fft_ok_idle; [apply next_slot_plain | apply Hf | apply Hf |].
  by apply (fft_ok_frames_none _ _ _ _ Hf).
Qed.

(** The claim and the configuration. *)
Lemma fft_ok_config sid t frames p :
  fft_ok (-2 - sid) (pc_config true sid) t frames -> 0 <= sid < 2 -> 32 <= fg_points p <= 1024 ->
  fft_ok (-2 - sid) (pc_commit_config true sid) (set_fft_config p t) frames.
Proof.
  intros Hf Hs Hp. assert (Hn : forall j, 0 <= j < 2 -> frames j = []) by
    (apply (fft_ok_frames_none _ _ _ _ Hf); [lia | done]).
  split; cbn [fft_full publishing configured]; try done.
  - apply (ff_real _ _ _ _ Hf).
  - apply (ff_bins _ _ _ _ Hf).
  - intros j Hj _. cbn. lia.
  - intros j Hj [E | [_ ?]]; [lia | done].
  - intros j out Hj E. lia.
  - auto.
Qed.

Lemma config_points cosf' pcs l p :
  adc_dsp_fft_config cosf' pcs l = Some p -> 32 <= fg_points p <= 1024.
Proof.
  unfold adc_dsp_fft_config, ADC_DSP_FFT_MAX_POINTS, BRIDGE_DSP_MIN_FFT_POINTS, BRIDGE_DSP_MAX_FFT_POINTS.
  destruct (negb _); [done |]. destruct (fft_stages l) as [[st |] win]; [| done].
  destruct ((_ <? 32) || _) eqn:E; [done |]. intros [= <-]. rewrite orb_false_iff, !Z.ltb_ge in E.
  cbn. lia.
Qed.

(** A configuration whose session has ended writes the variables all the same;
    nothing is claimed of them. *)
Lemma fft_ok_raced sid t frames p :
  fft_ok (-1) (pc_config true sid) t frames ->
  fft_ok (-1) (pc_commit_config true sid) (set_fft_config p t) frames.
Proof.
  intros Hf. assert (Hn : forall j, 0 <= j < 2 -> frames j = []) by
    (apply (fft_ok_frames_none _ _ _ _ Hf); [lia | done]).
  split; cbn [fft_full publishing configured]; try done.
  - apply (ff_real _ _ _ _ Hf).
  - apply (ff_bins _ _ _ _ Hf).
  - intros j Hj E. lia.
  - intros j Hj E. lia.
  - intros j out Hj E. lia.
  - auto.
Qed.

(** The store of one sample. *)
Lemma fft_ok_store sid av code t frames sample :
  fft_ok sid (pc_store sid av code) t frames -> 0 <= sid < 2 ->
  let t' := set_fft_fill (u16 (fft_fill t + 1)) (<[Z.to_nat (fft_fill t) := sample]> (fft_real t)) t in
  fft_ok sid (if fft_points t' <=? fft_fill t' then pc_wait sid av else pc_capture sid av) t' frames.
Proof.
  intros Hf Hs. cbv zeta. cbn [fft_points fft_fill set_fft_fill].
  destruct (fft_ok_plain_inv sid (pc_store sid av code) t frames sid) as (Hp & Hfill & Hseq & Hlast); try done.
  pose proof (ff_none _ _ _ _ Hf) as Hn.
  rewrite u16_id by (unfold is_u16; lia).
  assert (Hl : length (<[Z.to_nat (fft_fill t) := sample]> (fft_real t)) = 1024%nat)
    by (rewrite length_insert; apply Hf).
  destruct (Z.leb_spec (fft_points t) (fft_fill t + 1)).
  - split; cbn [fft_real fft_bins fft_points fft_fill fft_seq set_fft_fill fft_full publishing configured pc_sid];
      try first [exact Hl | exact (ff_bins _ _ _ _ Hf) | done].
    + intros j Hj [E | [_ ?]]; [| done]. lia.
    + auto.
    + intros j Hj [E | [_ ?]]; [| done]. assert (j = sid) as -> by lia. done.
    + intros j out Hj E. assert (j = sid) as -> by lia. apply Hlast.
  - apply fft_ok_plain; cbn [fft_real fft_bins fft_points fft_fill fft_seq set_fft_fill];
      try first [exact Hl | exact (ff_bins _ _ _ _ Hf) | done].
    + intros j Hj E. assert (j = sid) as -> by lia. split_and!; try lia; done.
    + intros j Hj E. apply Hn; [done | done |]. by intros [_ ?].
Qed.

(** The unit's output arrives. *)
Lemma fft_ok_output o sid av b t frames out :
  fft_ok o (pc_wait sid av) t frames ->
  fft_ok o (pc_done sid av b) (set_fft_out out t) frames.
Proof.
  intros Hf. destruct Hf as [H1 H2 H3 H4 H5 H6 H7 H8 H9]. split; try done.
Qed.

Lemma fft_ok_done o sid av b b' t frames :
  fft_ok o (pc_done sid av b) t frames -> fft_ok o (pc_done sid av b') t frames.
Proof. intros Hf. destruct Hf as [H1 H2 H3 H4 H5 H6 H7 H8 H9]. by split. Qed.

Lemma fft_ok_timeout o sid av b t frames :
  fft_ok o (pc_done sid av b) t frames -> 0 <= sid < 2 -> o = sid ->
  fft_ok o (pc_capture sid av) (set_fft_fill 0 (fft_real t) t) frames.
Proof.
  intros Hf Hs ->. pose proof (ff_conf _ _ _ _ Hf sid Hs (or_introl eq_refl)) as (Hp & Hfill & _).
  apply fft_ok_plain; [done | apply Hf | apply Hf | |].
  - intros j Hj E. assert (j = sid) as -> by lia. split_and!; try done; cbn; try lia.
    + apply (ff_mine _ _ _ _ Hf); auto.
    + intros out. by apply (ff_last _ _ _ _ Hf).
  - intros j Hj E. apply (ff_none _ _ _ _ Hf); [done | done |]. by intros [_ ?].
Qed.

(** Taking the byte to publish. *)
Lemma fft_ok_publishing sid av b t frames :
  fft_ok sid (pc_done sid av b) t frames -> 0 <= sid < 2 ->
  fft_ok (-2 - sid) (pc_prepare sid av 0 (fft_points t)) t frames.
Proof.
  intros Hf Hs. destruct (ff_conf _ _ _ _ Hf sid Hs (or_introl eq_refl)) as (Hp & Hfill & Hle).
  split; cbn [fft_full publishing configured pc_sid];
    try first [exact (ff_real _ _ _ _ Hf) | exact (ff_bins _ _ _ _ Hf) | done].
  - auto.
  - intros j Hj [E | [E _]]; [lia |]. assert (j = sid) as -> by lia. apply (ff_mine _ _ _ _ Hf); auto.
  - intros j out Hj E. lia.
  - intros j Hj _ Hne. apply (ff_none _ _ _ _ Hf); [done | | by intros [_ ?]].
    intros ->. by apply Hne.
  - split_and!; try done; try lia.
    { pose proof (bins_count_bound (fft_points t) (fft_outfmt t) Hp). lia. }
    intros j Hj. lia.
Qed.

Definition tok_or_idle (o sid : Z) : Prop := o = -2 - sid \/ o = -1.

(** One bin reduced. *)
Lemma fft_ok_bin o sid av i n t frames :
  fft_ok o (pc_prepare sid av i n) t frames -> 0 <= sid < 2 -> tok_or_idle o sid ->
  i < bins_count n (fft_outfmt t) ->
  fft_ok o (pc_prepare sid av (i + 1) n)
    (set_fft_bin i (bin_value (fft_outfmt t) (fft_out t) i) t) frames.
Proof.
  intros Hf Hs Ho Hi. destruct (ff_prep _ _ _ _ Hf) as (-> & Hp & H0 & _ & Hb).
  pose proof (bins_count_bound (fft_points t) (fft_outfmt t) Hp) as Hc.
  pose proof (ff_bins _ _ _ _ Hf) as Hl.
  split; cbn [fft_real fft_bins fft_points fft_fill fft_seq fft_outfmt set_fft_bin fft_full publishing
    configured pc_sid].
  - exact (ff_real _ _ _ _ Hf).
  - by rewrite length_insert.
  - exact (ff_conf _ _ _ _ Hf).
  - exact (ff_full _ _ _ _ Hf).
  - exact (ff_mine _ _ _ _ Hf).
  - intros j out Hj E. destruct Ho; lia.
  - exact (ff_none _ _ _ _ Hf).
  - done.
  - split_and!; try done; try lia. intros j Hj. cbn [fft_bins fft_out fft_outfmt set_fft_bin].
    destruct (decide (j = i)) as [-> | Hne]; [rewrite list_lookup_insert_eq by lia; done |].
    rewrite list_lookup_insert_ne by lia. apply Hb. lia.
Qed.

Lemma fft_ok_reduced o sid av i n t frames :
  fft_ok o (pc_prepare sid av i n) t frames -> bins_count n (fft_outfmt t) <= i ->
  fft_ok o (pc_publish sid av (bins_count n (fft_outfmt t))) t frames.
Proof.
  intros Hf Hi. destruct (ff_prep _ _ _ _ Hf) as (-> & Hp & H0 & Hle & Hb).
  destruct Hf as [H1 H2 H3 H4 H5 H6 H7 H8 H9].
  assert (i = bins_count (fft_points t) (fft_outfmt t)) as Ei by lia. subst i.
  split; try done.
Qed.

(** The frame is published. *)
Lemma fft_ok_published sid av n t frames :
  fft_ok (-2 - sid) (pc_publish sid av n) t frames -> 0 <= sid < 2 ->
  fft_ok sid (pc_capture sid av) (fft_publish n t) (<[sid := frames sid ++ [fft_out t]]> frames).
Proof.
  intros Hf Hs. destruct (ff_prep _ _ _ _ Hf) as (-> & Hp & Hb).
  apply fft_ok_plain; [done | apply Hf | apply Hf | |].
  - intros j Hj E. assert (j = sid) as -> by lia. rewrite fn_lookup_insert.
    split; [exact Hp |]. split; [cbn; lia |]. split.
    + cbn [fft_seq fft_publish]. rewrite (ff_mine _ _ _ _ Hf sid Hs) by auto.
      rewrite u32_add_r, length_app. f_equal. cbn [length]. lia.
    + intros out. rewrite last_snoc. intros [= <-]. split; [done | exact Hb].
  - intros j Hj Hne. rewrite fn_lookup_insert_ne by lia.
    apply (ff_none _ _ _ _ Hf); [done | lia |]. intros [E _]. lia.
Qed.

(** A claim given back or dropped. *)
Lemma fft_ok_dropped o sid pc pc' t frames :
  fft_ok o pc t frames -> tok_or_idle o sid -> 0 <= sid < 2 -> plain pc' = true ->
  (publishing pc = true -> o = -1) -> fft_ok (-1) pc' t frames.
Proof.
  intros Hf Ho Hs Hp Hpub. apply fft_ok_idle; [done | apply Hf | apply Hf |].
  intros j Hj. apply (ff_none _ _ _ _ Hf); [done | destruct Ho; lia |].
  intros [E Ep]. specialize (Hpub Ep). lia.
Qed.

(** A claimed byte is this slot's token, or idle. *)
Lemma claimed_tok fft o pc claim sess lv :
  owner_ok fft o pc claim sess lv -> claimed fft pc = true -> tok_or_idle o (pc_sid pc).
Proof. intros [_ Hc] Hcl. rewrite Hcl in Hc. destruct Hc as [[-> _] | [-> _]]; [by left | by right]. Qed.

Lemma fft_ok_negative o o' pc pc' t frames :
  plain pc = true -> plain pc' = true -> o < 0 -> o' < 0 ->
  fft_ok o pc t frames -> fft_ok o' pc' t frames.
Proof.
  intros Hp Hp' Ho Ho' Hf. apply fft_ok_plain; [done | apply Hf | apply Hf | intros; lia |].
  intros sid Hs _. apply (fft_ok_frames_none o pc t); try done. by apply plain_spec.
Qed.

Lemma fft_ok_committed sid t frames :
  fft_ok (-2 - sid) (pc_commit_config true sid) t frames -> 0 <= sid < 2 ->
  fft_ok sid (pc_total at_fft sid) t frames.
Proof.
  intros Hf Hs. destruct (ff_conf _ _ _ _ Hf sid Hs) as (Hp & Hfill & Hlt); [by right |].
  assert (Hn : forall j, 0 <= j < 2 -> frames j = []) by
    (apply (fft_ok_frames_none _ _ _ _ Hf); [lia | done]).
  apply fft_ok_plain; [done | apply Hf | apply Hf | | auto].
  intros j Hj E. rewrite (Hn j Hj), (ff_commit _ _ _ _ Hf sid) by done. done.
Qed.

Lemma fft_ok_waited o sid av b t frames :
  fft_ok o (pc_wait sid av) t frames -> fft_ok o (pc_done sid av b) t frames.
Proof. intros [H1 H2 H3 H4 H5 H6 H7 H8 H9]. by split. Qed.

(** A named byte belongs to a running stream. *)
Lemma named_live fft d s :
  owner_ok fft (owner fft d) (d_pc d) (g_claim d) (g_sess d) (live d fft) ->
  0 <= pc_sid (d_pc d) -> slot d (pc_sid (d_pc d)) = Some s -> owner fft d = pc_sid (d_pc d) ->
  adc_dsp_owner_live_locked (owner fft d) (pc_sid (d_pc d)) s fft = true.
Proof.
  intros [Hr _] Hs Es E. apply live_locked_spec. split; [done |].
  destruct Hr as [? | (sid & Hsid & [Ho | Ho] & s' & Es' & Hl)]; [lia | | lia].
  assert (sid = pc_sid (d_pc d)) as -> by lia. rewrite Es in Es'. by injection Es' as <-.
Qed.

Lemma pump_fft (f : F) d s :
  slot d (pc_sid (d_pc d)) = Some s -> 0 <= pc_sid (d_pc d) < 2 ->
  owner_ok true (d_fft_owner d) (d_pc d) (g_claim d) (g_sess d) (live d true) ->
  fft_ok (d_fft_owner d) (d_pc d) (d_fft d) (g_frames d) ->
  let d' := pump_slot_step cosf codes f d s in
  fft_ok (d_fft_owner d') (d_pc d') (d_fft d') (g_frames d').
Proof.
  intros Es Hs Ho Hf. cbv zeta. pose proof (not_live_idle true d s Ho) as Hidle.
  pose proof (claimed_tok _ _ _ _ _ _ Ho) as Htok.
  pose proof (named_live true d s Ho) as Hnamed.
  unfold pump_slot_step. destruct (d_pc d) as
    [| sid | sid | sid | fft sid | fft sid | fft sid | fft sid | fft sid | sid | fft sid | site sid
    | site sid total trk | sid lv | sid lv | fft sid total | fft sid total | sid av fs | sid av fs
    | sid av fs b | sid av | sid av code | sid av | sid av complete | sid av i n | sid av nb] eqn:Epc;
    cbn [pc_sid] in *.
  all: try destruct fft; try destruct site; cbn [owner] in *; repeat case_match;
    cbn [d_pc d_fac d_fft_owner d_fft g_frames goto put_slot put_owner put_fft note_claim note_pub
         note_frame].
  all: try solve [eapply fft_ok_move; [| | exact Hf]; first [done | apply next_slot_plain]].
  - match goal with H : adc_dsp_owner_claim_config _ _ _ _ = (?b, _), H' : negb ?b = false |- _ =>
      destruct b; [| done]; apply claim_config_true in H as (-> & E & Hl) end.
    apply (fft_ok_negative (d_fft_owner d) _ (pc_claim true sid)); done || lia.
  - match goal with H : bool_decide _ = true |- _ => apply bool_decide_eq_true in H as Eg end.
    destruct Ho as [_ [[E _] | [_ Hlt]]]; [| cbn [pc_sid] in Hlt; lia]. cbn [pc_sid] in E.
    rewrite E in *. apply fft_ok_config; [done | done | by eapply config_points].
  - match goal with H : bool_decide _ = false |- _ => apply bool_decide_eq_false in H as Eg end.
    destruct Ho as [_ [[_ E] | [E _]]]; [by cbn [pc_sid] in E |]. rewrite E in *. by apply fft_ok_raced.
  - rewrite (release_claimed_byte _ _ _ _ _ _ sid Ho) by (done || lia).
    apply (fft_ok_dropped (d_fft_owner d) sid (pc_refused true sid)); auto using next_slot_plain. done.
  - match goal with H : adc_dsp_owner_commit_config _ _ _ _ = _ |- _ =>
      apply commit_config_cases in H as [(_ & -> & _ & E) | (? & _)]; [| done] end.
    rewrite E in *. by apply fft_ok_committed.
  - match goal with H : adc_dsp_owner_commit_config _ _ _ _ = _ |- _ =>
      apply commit_config_cases in H as [(? & _) | (_ & Hl & ->)]; [done |] end.
    rewrite dropped_idle by (auto || lia).
    apply (fft_ok_dropped (d_fft_owner d) sid (pc_commit_config true sid)); auto using next_slot_plain.
  - match goal with H : adc_dsp_owner_live_locked _ _ _ _ = true |- _ =>
      apply live_locked_spec in H as [E _] end.
    apply (plain_to_plain_fill _ (pc_resync true sid total)); [done | apply next_slot_plain | | done].
    intros j Hj Ej. destruct (fft_ok_plain_inv _ _ _ _ j (eq_refl : plain (pc_resync true sid total) = true) Hf Hj Ej) as (? & _). lia.
  - match goal with H : adc_dsp_owner_live_locked _ _ _ _ = true |- _ =>
      apply live_locked_spec in H as [E _] end. rewrite E in *.
    pose proof (fft_ok_store sid av code _ _ (f32_div (f32_of_u16 code) f32_4096) Hf Hs) as Hst.
    cbv zeta in Hst. match goal with H : (_ <=? _) = true |- _ => by rewrite H in Hst end.
  - match goal with H : adc_dsp_owner_live_locked _ _ _ _ = true |- _ =>
      apply live_locked_spec in H as [E _] end. rewrite E in *.
    pose proof (fft_ok_store sid av code _ _ (f32_div (f32_of_u16 code) f32_4096) Hf Hs) as Hst.
    cbv zeta in Hst. match goal with H : (_ <=? _) = false |- _ => by rewrite H in Hst end.
  - by apply fft_ok_output.
  - by apply fft_ok_waited.
  - destruct Ho as [_ Hc]. apply (fft_ok_drop _ av); [by eapply fft_ok_done | done | done |].
    intros E. rewrite (Hnamed ltac:(lia) Es E) in *. done.
  - match goal with H : negb (adc_dsp_owner_live_locked _ _ _ _) = false |- _ =>
      apply negb_false_iff, live_locked_spec in H as [E _] end. rewrite E in *.
    by eapply fft_ok_publishing.
  - match goal with H : negb (adc_dsp_owner_live_locked _ _ _ _) = false |- _ =>
      apply negb_false_iff, live_locked_spec in H as [E _] end.
    by eapply fft_ok_timeout.
  - apply fft_ok_bin; [done | done | by apply Htok | by apply Z.ltb_lt].
  - eapply fft_ok_reduced; [exact Hf | by apply Z.ltb_ge].
  - match goal with H : adc_dsp_owner_live_locked _ _ _ _ = true |- _ =>
      apply live_locked_spec in H as [E _] end. rewrite E in *. by eapply fft_ok_published.
  - apply (fft_ok_dropped (d_fft_owner d) sid (pc_publish sid av nb)); auto using next_slot_plain.
  - rewrite Hidle by done.
    apply (fft_ok_dropped (d_fft_owner d) sid (pc_publish sid av nb)); auto using next_slot_plain.
Qed.

(** ** The whole invariant *)

Record pump_inv (d : dsp_sys) : Prop := {
  pv_sys : sys_inv (d_sys d);
  pv_sid : 0 <= pc_sid (d_pc d) < 2;
  pv_owner : forall fft, owner_ok fft (owner fft d) (d_pc d) (g_claim d) (g_sess d) (live d fft);
  pv_pub : forall sid s, 0 <= sid < 2 -> slot d sid = Some s -> pub_ok s (g_pub d sid);
  pv_fft : fft_ok (d_fft_owner d) (d_pc d) (d_fft d) (g_frames d) }.

Lemma inv_pump (f : F) d : pump_inv d -> pump_inv (pump_step cosf codes f d).
Proof.
  intros [Hy Hs Ho Hp Hf]. unfold pump_step. destruct (slot d (pc_sid (d_pc d))) as [s |] eqn:Es; [| done].
  destruct (pump_slots f d s Es) as (s' & Hk & Esys). split.
  - rewrite Esys. unfold put_slot. cbn [d_sys]. destruct (d_sys d) as [w cs] eqn:Ed.
    cbn [sy_fw sy_chains]. unfold set_stream. apply (inv_same_key _ _ _ s); [done | | done].
    unfold slot in Es. by rewrite Ed in Es.
  - by apply pump_sid.
  - intros fft. by apply pump_owner.
  - by apply pump_pub.
  - apply pump_fft; try done.
Qed.

(** A change of the request state that keeps every running chain's session and
    every slot's published samples. *)
Lemma inv_with_sys d y' :
  pump_inv d -> sys_inv y' ->
  (forall i s, adc_streams (sy_fw (d_sys d)) !! i = Some s -> in_use s = true -> dsp_bound s = true ->
     exists s', adc_streams (sy_fw y') !! i = Some s' /\ run_key s' = run_key s /\ cursor_kept s s') ->
  (forall i s', adc_streams (sy_fw y') !! i = Some s' ->
     exists s, adc_streams (sy_fw (d_sys d)) !! i = Some s /\
      (run_key s' = run_key s \/
       dsp_bound s = false /\ proc_ring s' = proc_ring s /\ (dsp_bound s' = false \/ proc_write s' = 0))) ->
  pump_inv (with_sys y' d).
Proof.
  intros [Hy Hs Ho Hp Hf] Hy' Hfwd Hback. split; try done.
  - intros fft. apply (owner_ok_mono _ _ _ _ _ (live d fft)); [| by pose proof (Ho fft); destruct fft].
    intros sid Hsid (s & Es & (U & B & T)). destruct (Hfwd _ s Es U B) as (s' & Es' & Hk & _).
    exists s'. split; [exact Es' |]. apply (live_slot_key _ s); [by apply run_slot_key | done].
  - intros sid s' Hsid Es'. unfold slot in Es'. cbn [with_sys d_sys] in Es'.
    destruct (Hback _ s' Es') as (s & Es & Hor). pose proof (Hp sid s Hsid Es) as Hok.
    cbn [with_sys g_pub]. destruct Hor as [Hk | (B & Er & Hor)].
    + pose proof (run_slot_key _ _ Hk) as Hsk. apply (pub_ok_same s); [| | | done].
      * by apply (f_equal (fun x => x.1.1.2)) in Hsk.
      * by apply (f_equal (fun x => x.1.2)) in Hk.
      * by apply (f_equal (fun x => x.2)) in Hk.
    + destruct Hok as (Hl & Hn & _). specialize (Hn B). split; [by rewrite Er |].
      split; [done |]. intros B'. destruct Hor as [? | Ew]; [congruence |].
      rewrite Hn, Ew. split; [done |]. intros n Hn0. cbn [length] in Hn0. lia.
Qed.

Lemma inv_request d y' : pump_inv d -> adc_request (H := F) (d_sys d) y' -> pump_inv (with_sys y' d).
Proof.
  intros Hi Hr. apply inv_with_sys; [done | | |].
  - apply (request_inv (d_sys d)); [apply Hi | done].
  - intros i s. apply (request_live (d_sys d)); [apply Hi | done].
  - intros i s'. apply (request_back (d_sys d)); [apply Hi | done].
Qed.

Lemma inv_slot_key d sid s s' :
  pump_inv d -> slot d sid = Some s -> run_key s' = run_key s -> cursor_kept s s' ->
  pump_inv (put_slot sid s' d).
Proof.
  intros Hi Es Hk Hc. unfold slot in Es. destruct (d_sys d) as [w cs] eqn:Ed.
  assert (E : put_slot sid s' d = with_sys (AdcSys (set_stream sid s' w) cs) d)
    by (unfold put_slot; rewrite Ed; done).
  rewrite E. apply inv_with_sys; [done | | |].
  - unfold set_stream. apply (inv_same_key _ _ _ s); [rewrite <- Ed; apply Hi | done | by apply run_slot_key].
  - rewrite Ed. intros i s0 Ei _ _. by apply (key_elsewhere _ _ _ _ s).
  - rewrite Ed. cbn [sy_fw adc_streams set_stream set_streams]. intros i s0 Ei.
    destruct (decide (i = Z.to_nat sid)) as [-> | Hne].
    + rewrite list_lookup_insert_eq in Ei by (by eapply lookup_lt_Some). injection Ei as <-. exists s. auto.
    + rewrite list_lookup_insert_ne in Ei by done. exists s0. auto.
Qed.

Lemma spectrum_read_frame (f : F) d sid off n :
  0 <= sid ->
  (bridge_hw_adc_spectrum_read_ f d sid off n).1.2 = d \/
  exists s s', slot d sid = Some s /\ run_key s' = run_key s /\ cursor_kept s s' /\
    (bridge_hw_adc_spectrum_read_ f d sid off n).1.2 = put_slot sid s' d.
Proof.
  intros Hs. unfold bridge_hw_adc_spectrum_read_. destruct (_ <=? sid); [by left |].
  destruct (slot d sid) as [s |] eqn:Es; [| by left].
  destruct (negb (in_use s) || _ || _); [by left |]. right.
  pose proof (latch_key f s sid) as Hk. pose proof (latch_cursor f s sid) as Hc.
  destruct (adc_stream_latch_dma_error f s sid) as [f' s']. cbn [snd] in Hk, Hc.
  exists s, s'. split; [done |]. split; [done |]. split; [by left |]. by repeat case_match.
Qed.

Lemma inv_spectrum_read (f : F) d sid off n :
  0 <= sid -> pump_inv d -> pump_inv (bridge_hw_adc_spectrum_read_ f d sid off n).1.2.
Proof.
  intros Hs Hi. destruct (spectrum_read_frame f d sid off n Hs) as [-> | (s & s' & Es & Hk & Hc & ->)];
    [done | by apply (inv_slot_key _ _ s)].
Qed.

(** ** The end of a session *)

Definition released (o sid : Z) : bool := (o =? sid) || (o =? adc_dsp_owner_transitional sid).

Lemma released_spec o sid : released o sid = true <-> o = sid \/ o = -2 - sid.
Proof. unfold released, adc_dsp_owner_transitional. rewrite orb_true_iff, !Z.eqb_eq. done. Qed.

(** What [dsp_release] leaves. *)
Lemma dsp_release_eq fac fo t sid :
  dsp_release (fac, fo, t) sid =
  (if released fac sid then -1 else fac, if released fo sid then -1 else fo,
   if released fo sid then adc_dsp_fft_session_reset t else t).
Proof.
  unfold dsp_release, adc_dsp_fac_release, adc_dsp_fft_release, adc_dsp_owner_release, released.
  by destruct ((fac =? sid) || _), ((fo =? sid) || _).
Qed.

Lemma owner_ok_end fft o pc claim sess (lv lv' : Z -> Prop) sid :
  0 <= sid -> 0 <= pc_sid pc -> (forall j, 0 <= j < 2 -> j <> sid -> lv j -> lv' j) ->
  owner_ok fft o pc claim sess lv ->
  owner_ok fft (if released o sid then -1 else o) pc claim (<[sid := S (sess sid)]> sess) lv'.
Proof.
  intros Hs Hpc Hl [Hr Hc]. destruct (released o sid) eqn:E.
  - apply released_spec in E. split; [by left |]. destruct (claimed fft pc); [| lia].
    right. split; [done |]. destruct (decide (pc_sid pc = sid)) as [Epc | Hne].
    + rewrite Epc in *. rewrite fn_lookup_insert. destruct Hc as [[_ ->] | [_ ?]]; lia.
    + rewrite fn_lookup_insert_ne by done. destruct Hc as [[? _] | [? _]]; lia.
  - assert (Hn : o <> sid /\ o <> -2 - sid) by
      (split; intros Eo; apply Bool.not_true_iff_false in E; apply E, released_spec; auto).
    split.
    + destruct Hr as [? | (j & Hj & Ho & Hlv)]; [by left | right]. exists j. split; [done |].
      split; [done |]. apply Hl; [done | lia | done].
    + destruct (claimed fft pc); [| done]. destruct (decide (pc_sid pc = sid)) as [Epc | Hne].
      * rewrite Epc in *. rewrite fn_lookup_insert. destruct Hc as [[? _] | [? ?]]; [lia | right; lia].
      * by rewrite fn_lookup_insert_ne by done.
Qed.

Lemma fft_ok_end o pc t frames sid :
  0 <= sid -> fft_ok o pc t frames ->
  fft_ok (if released o sid then -1 else o) pc
    (if released o sid then adc_dsp_fft_session_reset t else t) (<[sid := []]> frames).
Proof.
  intros Hs Hf. destruct (released o sid) eqn:E.
  - apply released_spec in E. destruct Hf as [H1 H2 H3 H4 H5 H6 H7 H8 H9].
    split; try done.
    + intros j Hj [? | [? _]]; lia.
    + by left.
    + intros j Hj [? | [? _]]; lia.
    + intros j out Hj ?. lia.
    + intros j Hj _ _. destruct (decide (j = sid)) as [-> | Hne]; [apply fn_lookup_insert |].
      rewrite fn_lookup_insert_ne by done. apply H7; [done | lia |]. intros [? _]. lia.
  - assert (Hn : o <> sid /\ o <> -2 - sid) by
      (split; intros Eo; apply Bool.not_true_iff_false in E; apply E, released_spec; auto).
    destruct Hf as [H1 H2 H3 H4 H5 H6 H7 H8 H9]. split; try done.
    + intros j Hj Ho. rewrite fn_lookup_insert_ne by lia. by apply H5.
    + intros j out Hj Ho. rewrite fn_lookup_insert_ne by lia. by apply H6.
    + intros j Hj Ho Hp. destruct (decide (j = sid)) as [-> | Hne]; [apply fn_lookup_insert |].
      rewrite fn_lookup_insert_ne by done. by apply H7.
Qed.

Lemma inv_dsp_end (f : F) d sid : 0 <= sid -> pump_inv d -> pump_inv (dsp_stream_end f d sid).1.2.
Proof.
  intros Hsid [Hy Hs Ho Hp Hf]. unfold dsp_stream_end.
  set (own := (d_fac d, d_fft_owner d, d_fft d)).
  pose proof (stream_end_frame dsp_release f (sy_fw (d_sys d)) (sy_chains (d_sys d)) own sid) as Hfr.
  pose proof (stream_end_erase dsp_release f (sy_fw (d_sys d)) (sy_chains (d_sys d)) own sid) as (h0 & rc0 & Her).
  pose proof (inv_stream_end f (sy_fw (d_sys d)) (sy_chains (d_sys d)) sid) as Hinv.
  cbv zeta in Hinv. rewrite Her in Hinv.
  destruct (bridge_hw_adc_stream_end_ dsp_release f (sy_fw (d_sys d)) (sy_chains (d_sys d)) own sid)
    as [[[[h w'] cs'] [[fac fo] t]] rc]. cbn [fst snd] in *. cbv zeta in Hfr.
  assert (Hy' : sys_inv (AdcSys w' cs')) by (apply Hinv; by destruct (d_sys d)). clear Hinv Her.
  destruct Hfr as [(-> & -> & E) | (s & Es & U & -> & _ & E)].
  - rewrite andb_negb_r. injection E as -> -> ->. split; try done; by intros fft; pose proof (Ho fft); destruct fft.
  - assert (Hlt : (Z.to_nat sid < length (adc_streams (sy_fw (d_sys d))))%nat) by (by eapply lookup_lt_Some).
    unfold running at 1 2. rewrite Es, U. cbn [adc_streams set_stream set_streams].
    rewrite list_lookup_insert_eq by done. cbn [stream_ended in_use negb andb fst].
    assert (Eo : (fac, fo, t) = (if released (d_fac d) sid then -1 else d_fac d,
      if released (d_fft_owner d) sid then -1 else d_fft_owner d,
      if released (d_fft_owner d) sid then adc_dsp_fft_session_reset (d_fft d) else d_fft d)).
    { rewrite E. destruct (dsp_bound s) eqn:B; [unfold own; by rewrite dsp_release_eq |].
      assert (Hno : forall fft, released (owner fft d) sid = false).
      { intros fft. apply Bool.not_true_iff_false. rewrite released_spec. intros Hrel.
        destruct (Ho fft) as [[? | (j & Hj & Hoj & s0 & E0 & _ & B0 & _)] _]; [lia |].
        assert (j = sid) as -> by lia. unfold slot in E0. rewrite Es in E0. injection E0 as <-. congruence. }
      pose proof (Hno true) as H1. pose proof (Hno false) as H2. cbn [owner] in H1, H2.
      by rewrite H1, H2. }
    injection Eo as -> -> ->.
    assert (Hslot : forall d' j, d_sys d' = AdcSys (set_stream sid (stream_ended s) (sy_fw (d_sys d))) cs' ->
      0 <= j -> j <> sid -> slot d' j = slot d j).
    { intros d' j Ed Hj Hne. unfold slot. rewrite Ed. cbn [sy_fw adc_streams set_stream set_streams].
      by rewrite list_lookup_insert_ne by lia. }
    split; cbn [d_sys d_pc d_fac d_fft_owner d_fft g_sess g_claim g_pub g_frames]; [done | done | | |].
    + intros fft. pose proof (Ho fft) as Hof.
      match goal with |- owner_ok _ _ _ _ _ (live ?d' _) =>
        apply (owner_ok_end _ _ _ _ _ _ (live d' fft) sid) in Hof end; [by destruct fft | done | lia |].
      intros j Hj Hne (s0 & E0 & Hl). exists s0. split; [| done]. by rewrite Hslot by (done || lia).
    + intros j s0 Hj E0. destruct (decide (j = sid)) as [-> | Hne].
      * rewrite fn_lookup_insert. unfold slot in E0. cbn [d_sys sy_fw adc_streams set_stream set_streams] in E0.
        rewrite list_lookup_insert_eq in E0 by done. injection E0 as <-.
        destruct (Hp sid s Hj Es) as (Hl & _ & _). done.
      * rewrite fn_lookup_insert_ne by done. rewrite Hslot in E0 by (done || lia). by apply Hp.
    + by apply fft_ok_end.
Qed.

Lemma inv_step d d' : pump_inv d -> dsp_step (F := F) cosf codes d d' -> pump_inv d'.
Proof.
  intros Hi Hs. destruct Hs as [d y' Hr | f d sid off n Hsid | f d sid Hsid | f d].
  - by apply inv_request.
  - by apply inv_spectrum_read.
  - by apply inv_dsp_end.
  - by apply inv_pump.
Qed.

Lemma dsp_reachable_inv d : dsp_reachable (F := F) cosf codes d -> pump_inv d.
Proof.
  induction 1 as [ok pending l Hl Hlen | d d' _ IH Hs]; [| by apply (inv_step d)].
  assert (Hsl : forall sid s, slot (dsp_init ok pending l) sid = Some s -> idle_slot s).
  { intros sid s Es. apply (Forall_lookup_1 _ _ _ _ Hl Es). }
  split; cbn [dsp_init d_pc d_fft_owner d_fft g_frames].
  - apply inv_init; [| done]. eapply Forall_impl; [| exact Hl]. by intros s (? & ? & _).
  - simpl. lia.
  - intros fft. by destruct fft; apply owner_ok_idle.
  - intros sid s _ Es. destruct (Hsl sid s Es) as (_ & B & Hr). split; [done |]. split; [done | congruence].
  - by apply fft_ok_idle.
Qed.

(** ** The batch in flight *)

(** A batch waiting for its commit was run from the pump's place in the raw
    samples, unless its session has ended or overrun recovery has moved on. *)
Definition batch_ok (d : dsp_sys) : Prop :=
  match d_pc d with
  | pc_commit sid av fs b =>
      g_claim d = g_sess d sid ->
      exists s raw (f : F), slot d sid = Some s /\
        b = fac_run_batch sid av raw ((fs + 1) / 2) (adc_dsp_bias_shift fs) (full_scale s) f /\
        (pos_valid (pump_pos s) = true -> raw = pump_raw_read s)
  | _ => True
  end.

Lemma batch_keep d d' :
  batch_ok d -> d_pc d' = d_pc d -> g_claim d' = g_claim d ->
  (g_claim d' = g_sess d' (pc_sid (d_pc d)) -> g_claim d = g_sess d (pc_sid (d_pc d))) ->
  (claimed false (d_pc d) = true -> g_claim d = g_sess d (pc_sid (d_pc d)) ->
   forall s, slot d (pc_sid (d_pc d)) = Some s ->
     exists s', slot d' (pc_sid (d_pc d)) = Some s' /\ run_key s' = run_key s /\ cursor_kept s s') ->
  batch_ok d'.
Proof.
  unfold batch_ok. intros Hb Epc Eg Hg Hk. rewrite Epc. destruct (d_pc d) as
    [| | | | | | | | | | | | | | | | | | | sid av fs b | | | | | |]; try done.
  cbn [pc_sid claimed] in *. intros Ec. specialize (Hg Ec). destruct (Hb Hg) as (s & raw & f & Es & Hrun & Hraw).
  destruct (Hk eq_refl Hg s Es) as (s' & Es' & Hkey & Hc). exists s', raw, f. split; [done |].
  assert (Ef : full_scale s' = full_scale s) by (by apply (f_equal (fun x => x.1.1.2)) in Hkey).
  rewrite Ef. split; [done |]. intros Hv. destruct Hc as [Hc | Hc]; [| congruence].
  injection Hc as Er Ep. rewrite Er. apply Hraw. congruence.
Qed.

Lemma batch_pump (f : F) d : batch_ok d -> batch_ok (pump_step cosf codes f d).
Proof.
  intros Hb. unfold pump_step. destruct (slot d (pc_sid (d_pc d))) as [s |] eqn:Es; [| done].
  unfold pump_slot_step, batch_ok in *. destruct (d_pc d) as
    [| sid | sid | sid | fft sid | fft sid | fft sid | fft sid | fft sid | sid | fft sid | site sid
    | site sid total trk | sid lv | sid lv | fft sid total | fft sid total | sid av fs | sid av fs
    | sid av fs b | sid av | sid av code | sid av | sid av complete | sid av i n | sid av nb] eqn:Epc;
    cbn [pc_sid] in *.
  19: { cbn [d_pc goto]. intros _. exists s, (pump_raw_read s), f. done. }
  all: try destruct fft; try destruct site; repeat case_match; try done;
    cbn [d_pc goto] in *; unfold next_slot in *; by case_match.
Qed.

Lemma batch_step d d' :
  pump_inv d -> batch_ok d -> dsp_step (F := F) cosf codes d d' -> batch_ok d'.
Proof.
  intros Hi Hb Hs. pose proof (pv_sid d Hi) as Hsid.
  destruct Hs as [d y' Hr | f d sid off n Hs | f d sid Hs | f d]; [| | | by apply batch_pump].
  - apply (batch_keep d); [done | done | done | done |]. intros Hc Hg s Es.
    destruct (claim_session false d s (pv_owner d Hi false) Hc Hsid Es) as [(_ & _ & U & B & _) | [? _]]; [| lia].
    by apply (request_live (d_sys d) y' _ s (pv_sys d Hi)).
  - destruct (spectrum_read_frame f d sid off n Hs) as [-> | (s & s' & Es & Hk & Hc & ->)]; [done |].
    apply (batch_keep d); [done | done | done | done |]. intros _ _ s0 E0.
    rewrite slot_put by (done || lia || by apply slot_lt in Es).
    destruct (Z.eqb_spec (pc_sid (d_pc d)) sid) as [Epc | _].
    + exists s'. assert (s0 = s) as -> by congruence. done.
    + exists s0. auto using cursor_kept_refl.
  - pose proof (stream_end_frame dsp_release f (sy_fw (d_sys d)) (sy_chains (d_sys d))
      (d_fac d, d_fft_owner d, d_fft d) sid) as Hfr. cbv zeta in Hfr.
    unfold dsp_stream_end.
    destruct (bridge_hw_adc_stream_end_ dsp_release f _ _ _ sid) as [[[[h w'] cs'] [[fac fo] t]] rc].
    cbn [fst snd] in *.
    destruct Hfr as [(-> & -> & E) | (s & Es & U & -> & _ & E)].
    + rewrite andb_negb_r. apply (batch_keep d); [done | done | done | done |].
      intros _ _ s0 E0. exists s0. auto using cursor_kept_refl.
    + unfold running at 1 2. rewrite Es, U. cbn [adc_streams set_stream set_streams].
      rewrite list_lookup_insert_eq by (by eapply lookup_lt_Some).
      cbn [stream_ended in_use negb andb fst snd].
      destruct (decide (pc_sid (d_pc d) = sid)) as [Epc | Hne].
      * unfold batch_ok in *. cbn [d_pc g_claim g_sess].
        destruct (pv_owner d Hi false) as [_ Hc]. destruct (d_pc d) as
          [| | | | | | | | | | | | | | | | | | | sid' av fs b | | | | | |]; try done.
        cbn [pc_sid claimed negb] in *. subst sid'. rewrite fn_lookup_insert. lia.
      * apply (batch_keep d); [done | done | done | cbn [g_claim g_sess]; by rewrite fn_lookup_insert_ne |].
        intros _ _ s0 E0. exists s0. split; [| auto using cursor_kept_refl].
        unfold slot. cbn [d_sys sy_fw adc_streams set_stream set_streams].
        by rewrite list_lookup_insert_ne by lia.
Qed.

Lemma dsp_reachable_batch d : dsp_reachable (F := F) cosf codes d -> batch_ok d.
Proof.
  induction 1 as [ok pending l Hl Hlen | d d' Hr IH Hs]; [done |].
  apply (batch_step d); [by apply dsp_reachable_inv | done | done].
Qed.

(** ** The theorems *)

Lemma step_refines d d' :
  dsp_step (F := F) cosf codes d d' -> d_sys d' = d_sys d \/ adc_step (H := F) (d_sys d) (d_sys d').
Proof.
  assert (Hput : forall d sid s s', slot d sid = Some s -> slot_key s' = slot_key s ->
    adc_step (H := F) (d_sys d) (d_sys (put_slot sid s' d))).
  { intros d0 sid s s' Es Hk. unfold slot in Es. unfold put_slot, set_stream. cbn [d_sys].
    destruct (d_sys d0) as [w cs]. by apply (step_dsp_pump w cs (Z.to_nat sid) s s'). }
  intros Hs. destruct Hs as [d y' Hr | f d sid off n Hsid | f d sid Hsid | f d].
  - right. by apply step_request.
  - destruct (spectrum_read_frame f d sid off n Hsid) as [-> | (s & s' & Es & Hk & Hc & ->)]; [by left |].
    right. apply (Hput d sid s s'); [done | by apply run_slot_key].
  - right. unfold dsp_stream_end. set (own := (d_fac d, d_fft_owner d, d_fft d)).
    destruct (stream_end_erase dsp_release f (sy_fw (d_sys d)) (sy_chains (d_sys d)) own sid) as (h0 & rc0 & Her).
    destruct (bridge_hw_adc_stream_end_ dsp_release f (sy_fw (d_sys d)) (sy_chains (d_sys d)) own sid)
      as [[[[h w'] cs'] [[fac fo] t]] rc]. cbn [fst snd] in Her.
    apply step_stream_end in Her. destruct (d_sys d) as [w cs]. by case_match.
  - unfold pump_step. destruct (slot d (pc_sid (d_pc d))) as [s |] eqn:Es; [| by left].
    destruct (pump_slots f d s Es) as (s' & Hk & ->). right. by apply (Hput d _ s s').
Qed.

Lemma dsp_adc_reachable d :
  dsp_reachable (F := F) cosf codes d -> adc_reachable (H := F) (d_sys d).
Proof.
  induction 1 as [ok pending l Hl Hlen | d d' _ IH Hs].
  - apply reach_init; [| done]. eapply Forall_impl; [| exact Hl]. by intros s (? & ? & _).
  - destruct (step_refines d d' Hs) as [-> | Hst]; [done | by apply (reach_step (d_sys d))].
Qed.

(** C9. A claim of the pump lives exactly as long as the session it was made in,
    although the owner token carries no generation: suspended anywhere between
    claim and commit, whatever requests end, begin or bind meanwhile, the commit
    section finds its token exactly when no session of the slot has ended since,
    and otherwise finds the byte idle and leaves it so.  Outside claims no token
    is left behind, and a byte names only a running stream of its kind. *)
Theorem claim_dies_with_session d fft s :
  dsp_reachable (F := F) cosf codes d -> slot d (pc_sid (d_pc d)) = Some s ->
  let sid := pc_sid (d_pc d) in
  if claimed fft (d_pc d) then
    (adc_dsp_owner_live_locked (owner fft d) (adc_dsp_owner_transitional sid) s fft = true <->
     g_claim d = g_sess d sid) /\
    (g_claim d <> g_sess d sid -> owner fft d = ADC_DSP_OWNER_NONE)
  else
    owner fft d = ADC_DSP_OWNER_NONE \/
    exists s', slot d (owner fft d) = Some s' /\ live_slot fft s'.
Proof.
  intros Hr Es. apply dsp_reachable_inv in Hr as [_ Hs Ho _ _]. specialize (Ho fft). cbv zeta.
  destruct (claimed fft (d_pc d)) eqn:Ec.
  - destruct (claim_session fft d s Ho Ec Hs Es) as [(Eg & Eo & Hl) | [Hlt Eo]].
    + split; [| done]. split; [done |]. intros _. by apply live_locked_spec.
    + split; [| done]. split; [| lia]. rewrite live_locked_spec, Eo. unfold adc_dsp_owner_transitional. lia.
  - destruct Ho as [[? | (j & Hj & Hoj & s' & Es' & Hl)] Hc]; [by left | right].
    rewrite Ec in Hc. assert (owner fft d = j) as -> by lia. by exists s'.
Qed.

(** The sample window and the bin buffer are never written out of bounds,
    whatever interleaving led there: a store that passes its liveness check has
    a free place in a window of at most 1024 samples, and every bin written has
    a place among the 2048. *)
Theorem fft_writes_in_bounds d :
  dsp_reachable (F := F) cosf codes d ->
  match d_pc d with
  | pc_store sid _ _ => forall s, slot d sid = Some s ->
      adc_dsp_owner_live_locked (d_fft_owner d) sid s true = true ->
      0 <= fft_fill (d_fft d) < fft_points (d_fft d) /\ fft_points (d_fft d) <= 1024 /\
      length (fft_real (d_fft d)) = 1024%nat
  | pc_prepare _ _ i n => i < bins_count n (fft_outfmt (d_fft d)) ->
      0 <= i < 2048 /\ length (fft_bins (d_fft d)) = 2048%nat
  | _ => True
  end.
Proof.
  intros Hr. apply dsp_reachable_inv in Hr as [_ Hs _ _ Hf].
  destruct (d_pc d) as [| | | | | | | | | | | | | | | | | | | | | sid av code | | | sid av i n |] eqn:Epc;
    try done.
  - intros s _ Hl. apply live_locked_spec in Hl as [E _].
    destruct (ff_conf _ _ _ _ Hf sid Hs (or_introl E)) as (Hp & H0 & Hlt). cbn in Hlt.
    split; [lia |]. split; [lia | apply Hf].
  - intros Hi. destruct (ff_prep _ _ _ _ Hf) as (-> & Hp & H0 & _).
    pose proof (bins_count_bound (fft_points (d_fft d)) (fft_outfmt (d_fft d)) Hp).
    split; [lia | apply Hf].
Qed.

Lemma lookup_prepare_bins n outfmt out k :
  (k < Z.to_nat (bins_count n outfmt))%nat ->
  adc_dsp_fft_prepare_bins n outfmt out !! k = Some (bin_value outfmt out (Z.of_nat k)).
Proof.
  intros Hk. unfold adc_dsp_fft_prepare_bins. rewrite list_lookup_fmap, lookup_seqZ_lt by lia.
  cbn; repeat f_equal; lia.
Qed.

(** C12. A spectrum read is never torn: when it answers OK, the sequence number
    counts the frames this session has published, and the bins are the requested
    slice of the reduction of the last of them, none mixed from two frames or
    left by an earlier session; without a frame it does not answer OK. *)
Theorem spectrum_read_whole_frame (f : F) d sid off max_bins :
  dsp_reachable (F := F) cosf codes d -> 0 <= sid -> 0 <= off -> 0 <= max_bins < 256 ->
  let '(_, _, (rc, seq, total, bins)) := bridge_hw_adc_spectrum_read_ f d sid off max_bins in
  rc = BRIDGE_HW_OK ->
  exists out, list.last (g_frames d sid) = Some out /\
    seq = u32 (Z.of_nat (length (g_frames d sid))) /\
    total = bins_count (fft_points (d_fft d)) (fft_outfmt (d_fft d)) /\
    bins = take (Z.to_nat max_bins) (drop (Z.to_nat off)
             (adc_dsp_fft_prepare_bins (fft_points (d_fft d)) (fft_outfmt (d_fft d)) out)).
Proof.
  intros Hr Hsid Hoff Hmax. apply dsp_reachable_inv in Hr as [_ _ _ _ Hf].
  unfold bridge_hw_adc_spectrum_read_, BRIDGE_ADC_STREAM_COUNT.
  destruct (Z.leb_spec 2 sid); [done |]. destruct (slot d sid) as [s |]; [| done].
  destruct (negb (in_use s) || _ || _); [done |].
  destruct (adc_stream_latch_dma_error f s sid) as [f' s'].
  destruct (negb (dma_error_count s' =? 0)); [done |]. cbn [put_slot d_fft d_fft_owner].
  destruct (Z.eqb_spec (d_fft_owner d) sid) as [Eo | _]; cbn [negb orb]; [| done].
  destruct (Z.eqb_spec (fft_seq (d_fft d)) 0) as [| Hseq]; [done |].
  pose proof (ff_mine _ _ _ _ Hf sid ltac:(lia) (or_introl Eo)) as Eseq.
  destruct (ff_conf _ _ _ _ Hf sid ltac:(lia) (or_introl Eo)) as (Hp & _ & _).
  destruct (list.last (g_frames d sid)) as [out |] eqn:El.
  2: { apply last_None in El. rewrite El in Eseq. by rewrite Eseq in Hseq. }
  destruct (ff_last _ _ _ _ Hf sid out ltac:(lia) Eo El) as [En Hb]. rewrite En in *.
  set (n := bins_count (fft_points (d_fft d)) (fft_outfmt (d_fft d))) in *.
  pose proof (bins_count_bound (fft_points (d_fft d)) (fft_outfmt (d_fft d)) Hp) as Hn. fold n in Hn.
  assert (Hlen : Z.of_nat (length (adc_dsp_fft_prepare_bins (fft_points (d_fft d)) (fft_outfmt (d_fft d)) out)) = n)
    by (apply length_prepare_bins; fold n; lia).
  destruct (Z.leb_spec n off); intros _; exists out; (split; [done |]); (split; [done |]); (split; [done |]).
  - rewrite drop_ge by lia. by rewrite take_nil.
  - rewrite u16_id by (unfold is_u16; lia).
    set (k := if n - off <? max_bins then u8 (n - off) else max_bins).
    assert (Hk : k = Z.min (n - off) max_bins).
    { unfold k. destruct (Z.ltb_spec (n - off) max_bins); [rewrite u8_id by (unfold is_byte; lia) |]; lia. }
    apply list_eq. intros i. rewrite list_lookup_fmap.
    destruct (decide (Z.of_nat i < k)) as [Hi | Hi].
    + rewrite lookup_seqZ_lt, lookup_take_lt, lookup_drop by lia. cbn [fmap option_fmap option_map].
      rewrite lookup_prepare_bins by (fold n; lia). rewrite Z.add_0_l, Hb by lia. cbn; repeat f_equal; lia.
    + rewrite lookup_seqZ_ge by lia. destruct (decide (i < Z.to_nat max_bins)%nat).
      * rewrite lookup_take_lt, lookup_drop by done. symmetry. apply lookup_ge_None_2. lia.
      * by rewrite lookup_take_ge by lia.
Qed.

Lemma emit_proc_spec n ring fs vref : forall pub R,
  0 <= R -> R + Z.of_nat n <= Z.of_nat (length pub) -> Z.of_nat (length pub) <= R + 1024 ->
  ring_holds ring pub ->
  emit_proc n ring (u32 R) fs vref =
  (fun c => code_mv c fs vref) <$> take n (drop (Z.to_nat R) pub).
Proof.
  induction n as [| n IH]; intros pub R HR Hn Hle Hr; cbn [emit_proc]; [done |].
  assert (Hm : u32 R mod BRIDGE_ADC_STREAM_RING_SAMPLES = R mod 1024)
    by (unfold u32, BRIDGE_ADC_STREAM_RING_SAMPLES; zlia).
  rewrite Hm, Hr by lia. rewrite u32_add_r, (IH pub) by (done || lia).
  destruct (lookup_lt_is_Some_2 pub (Z.to_nat R)) as [c Ec]; [lia |].
  rewrite (drop_S pub c (Z.to_nat R) Ec). cbn [take fmap list_fmap]. f_equal.
  - unfold at_. by rewrite Ec.
  - by replace (Z.to_nat (R + 1)) with (S (Z.to_nat R)) by lia.
Qed.

(** Filtered reads, in any reachable state: a reader less than a ring behind
    the pump gets exactly the next samples the session has published, in order,
    none skipped, repeated or overwritten, as many as there are up to the
    request; one a ring or more behind gets BUSY and restarts at the newest. *)
Theorem filtered_read_delivers d sid s max_samples vref R :
  dsp_reachable (F := F) cosf codes d -> 0 <= sid < 2 -> slot d sid = Some s -> live_slot false s ->
  dsp_cfg_bad s = false -> dsp_sat s = false -> proc_gap s = false -> 0 <= max_samples < 256 ->
  proc_read s = u32 R -> 0 <= R ->
  let pub := g_pub d sid in
  R <= Z.of_nat (length pub) < R + 0x80000000 ->
  let '(s', (rc, mv)) := read_processed s max_samples vref in
  (Z.of_nat (length pub) < R + 1024 ->
     rc = BRIDGE_HW_OK /\
     mv = (fun c => code_mv c (full_scale s) vref) <$> take (Z.to_nat max_samples) (drop (Z.to_nat R) pub) /\
     proc_read s' = u32 (R + Z.of_nat (length mv))) /\
  (R + 1024 <= Z.of_nat (length pub) ->
     rc = BRIDGE_HW_ERR_BUSY /\ mv = [] /\ proc_read s' = u32 (Z.of_nat (length pub))).
Proof.
  intros Hr Hsid Es (_ & B & T) Hbad Hsat Hgap Hmax HR H0 pub Hpub.
  apply dsp_reachable_inv in Hr as [_ _ _ Hp _].
  destruct (Hp sid s Hsid Es) as (Hl & _ & Hb). destruct (Hb B) as [Hw Hring]. fold pub in Hw, Hring.
  unfold read_processed. rewrite T, Hbad, Hsat, Hgap, Hw, HR, s32_diff by lia. cbv zeta.
  set (N := Z.of_nat (length pub)) in *. unfold BRIDGE_ADC_STREAM_RING_SAMPLES.
  destruct (Z.leb_spec (N - R) 0).
  - split; [| lia]. intros _. split; [done |]. rewrite drop_ge by lia. rewrite take_nil. split; [done |].
    cbn [length fmap list_fmap]. by rewrite Z.add_0_r.
  - rewrite u32_id by (unfold is_u32; lia).
    destruct (Z.leb_spec 1024 (N - R)).
    + split; [lia |]. intros _. split_and!; done.
    + rewrite u16_id by (unfold is_u16; lia). split; [| lia]. intros _.
      set (k := if N - R <? max_samples then N - R else max_samples).
      assert (Hk : k = Z.min (N - R) max_samples)
        by (unfold k; destruct (Z.ltb_spec (N - R) max_samples); lia).
      rewrite (emit_proc_spec _ _ _ _ pub R) by (fold N; done || lia).
      assert (Ht : take (Z.to_nat k) (drop (Z.to_nat R) pub) = take (Z.to_nat max_samples) (drop (Z.to_nat R) pub)).
      { destruct (decide (k = max_samples)) as [-> | Hne]; [done |].
        rewrite !take_ge by (rewrite length_drop; lia). done. }
      rewrite Ht. split; [done |]. split; [done |]. cbn [proc_read set_proc_read].
      rewrite u32_add_r, <- Ht. f_equal. rewrite length_fmap, length_take, length_drop. lia.
Qed.

End safety.

(** ** One batch *)

Section batch.
Context {F : Type} `{!AdcHw F} `{!DspHw F}.

Lemma fac_code_bound v mid shift fs : 0 <= fs -> 0 <= fac_code v mid shift fs <= fs.
Proof.
  intros Hf. unfold fac_code. set (c := Z.shiftr (s16 v) shift + mid).
  destruct (Z.ltb_spec c 0); [destruct (Z.ltb_spec fs 0); lia | destruct (Z.ltb_spec fs c); lia].
Qed.

Lemma fac_drain_spec n mid shift fs : forall room (f : F),
  0 <= fs ->
  let '(out, _, _) := fac_drain n room mid shift fs f in
  (length out <= room)%nat /\ Forall (fun c => 0 <= c <= fs) out.
Proof.
  induction n as [| n IH]; intros room f Hf; cbn [fac_drain]; [split; [simpl; lia | done] |].
  destruct room as [| room]; [split; [simpl; lia | done] |].
  destruct (fac_read f fac_ybef) as [e f1]. destruct (negb (e =? 0)); [split; [simpl; lia | done] |].
  destruct (fac_read f1 fac_output) as [v f2]. destruct (fac_read f2 fac_stef) as [st f3].
  destruct (if negb (st =? 0) then _ else _) as [sat f4].
  specialize (IH room f4 Hf). destruct (fac_drain n room mid shift fs f4) as [[out sat'] f5].
  destruct IH as [Hl Ha]. split; [simpl; lia |]. constructor; [by apply fac_code_bound | done].
Qed.

Lemma fac_feed_spec n sid mid shift fs : forall room raw (f : F),
  0 <= fs -> is_u32 raw ->
  let b := fac_feed n room sid raw mid shift fs f in
  0 <= b_used b <= Z.of_nat n /\ b_raw b = u32 (raw + b_used b) /\
  (length (b_out b) <= room)%nat /\ Forall (fun c => 0 <= c <= fs) (b_out b) /\
  ((0 < n)%nat -> (0 < room)%nat -> b_stalled b = false -> 0 < b_used b).
Proof.
  induction n as [| n IH]; intros room raw f Hf Hraw; cbn [fac_feed].
  { cbv zeta. cbn. rewrite Z.add_0_r, u32_id by done. split_and!; try done; lia. }
  destruct room as [| room].
  { cbv zeta. cbn. rewrite Z.add_0_r, u32_id by done. split_and!; try done; lia. }
  destruct (fac_read f fac_x0bff) as [full f1]. destruct (negb (full =? 0)).
  { cbv zeta. cbn [b_used b_raw b_out b_stalled]. rewrite Z.add_0_r, u32_id by done.
    split_and!; try done; simpl; lia. }
  destruct (hw_read f1 _) as [word f2].
  pose proof (fac_drain_spec 32 mid shift fs (S room) (fac_fixed_data_write f2 (fac_input word mid shift)) Hf) as Hd.
  destruct (fac_drain 32 (S room) mid shift fs _) as [[out sat] f3]. destruct Hd as [Hl Ha].
  destruct (IH (S room - length out)%nat (u32 (raw + 1)) f3 Hf (u32_u32 _)) as (Hu & Hr & Hlo & Hao & _).
  cbv zeta. cbn [b_used b_raw b_out b_stalled]. split_and!; try lia.
  - rewrite Hr, u32_add_r. f_equal. lia.
  - rewrite length_app. lia.
  - by apply Forall_app.
Qed.

(** One batch: at most eight samples are consumed and at most eight produced,
    each output is a code of the stream's range, the cursor moves by exactly the
    samples consumed, and unless the accelerator is full the batch consumes at
    least one, so the pump's loop runs out of samples. *)
Theorem fac_batch_exact (f : F) sid avail raw mid shift fs :
  0 < avail -> 0 <= fs -> is_u32 raw ->
  let b := fac_run_batch sid avail raw mid shift fs f in
  0 <= b_used b <= Z.min avail 8 /\ b_raw b = u32 (raw + b_used b) /\
  (length (b_out b) <= 8)%nat /\ Forall (fun c => 0 <= c <= fs) (b_out b) /\
  (b_stalled b = false -> 0 <= avail - b_used b < avail).
Proof.
  intros Hav Hf Hraw. cbv zeta. unfold fac_run_batch, ADC_DSP_PUMP_LOCK_BATCH.
  destruct (fac_feed_spec (Nat.min (Z.to_nat avail) 8) sid mid shift fs 8 raw f Hf Hraw)
    as (Hu & Hr & Hl & Ha & Hp).
  split_and!; try done; try lia; intros Hs; specialize (Hp ltac:(lia) ltac:(lia) Hs); lia.
Qed.

(** The place after a batch, as a 32-bit count. *)
Lemma fac_feed_raw n sid mid shift fs : forall room raw (f : F),
  u32 (b_raw (fac_feed n room sid raw mid shift fs f)) =
  u32 (raw + b_used (fac_feed n room sid raw mid shift fs f)).
Proof.
  induction n as [| n IH]; intros room raw f; cbn [fac_feed].
  { cbn. by rewrite Z.add_0_r. }
  destruct room as [| room]; [cbn; by rewrite Z.add_0_r |].
  destruct (fac_read f fac_x0bff) as [full f1]. destruct (negb (full =? 0)); [cbn; by rewrite Z.add_0_r |].
  destruct (hw_read f1 _) as [word f2].
  destruct (fac_drain 32 (S room) mid shift fs _) as [[out sat] f3]. cbn [b_raw b_used].
  rewrite IH, u32_add_r. f_equal. lia.
Qed.

End batch.

(** ** Filtered streams *)

Section stream.
Context {F : Type} `{!AdcHw F} `{!DspHw F}.
Context (cosf : spec_float -> spec_float) (codes : fft_point_codes).

(** What the pump may do to a filtered stream [sid] in one step, and what it
    then publishes. *)
Inductive filter_effect (d : dsp_sys) (sid : Z) (s s' : adc_stream_state) : list Z -> Prop :=
  | effect_none :
      pump_raw_read s' = pump_raw_read s -> proc_ring s' = proc_ring s ->
      proc_write s' = proc_write s -> proc_gap s' = proc_gap s -> dsp_sat s' = dsp_sat s ->
      filter_effect d sid s s' []
  | effect_skip total (lost : bool) :   (* the seed of a new session, or an overrun *)
      d_pc d = (if lost then pc_resync false sid total else pc_seed sid total) -> d_fac d = sid ->
      pump_raw_read s' = total -> proc_ring s' = proc_ring s -> proc_write s' = proc_write s ->
      proc_gap s' = lost || proc_gap s -> dsp_sat s' = dsp_sat s ->
      filter_effect d sid s s' []
  | effect_publish av fs b raw (f : F) :
      d_pc d = pc_commit sid av fs b -> g_claim d = g_sess d sid ->
      b = fac_run_batch sid av raw ((fs + 1) / 2) (adc_dsp_bias_shift fs) (full_scale s) f ->
      (pos_valid (pump_pos s) = true -> raw = pump_raw_read s) ->
      u32 (pump_raw_read s') = u32 (raw + b_used b) ->
      proc_write s' = u32 (proc_write s + Z.of_nat (length (b_out b))) ->
      proc_gap s' = proc_gap s -> dsp_sat s' = b_sat b || dsp_sat s ->
      filter_effect d sid s s' (b_out b).

Lemma filter_effect_refl d sid s : filter_effect d sid s s [].
Proof. by apply effect_none. Qed.

(** A step that rewrites slot [k] as [s1] and publishes [out] for it. *)
Lemma effect_write d d' k sid s s0 s1 s' out :
  0 <= sid < 2 -> 0 <= k < 2 -> slot d sid = Some s -> slot d k = Some s0 ->
  d_sys d' = d_sys (put_slot k s1 d) -> slot d' sid = Some s' ->
  g_pub d' sid = (if sid =? k then g_pub d sid ++ out else g_pub d sid) ->
  (sid = k -> s0 = s -> filter_effect d sid s s1 out) ->
  exists out', filter_effect d sid s s' out' /\ g_pub d' sid = g_pub d sid ++ out'.
Proof.
  intros Hsid Hk Es E0 Esys Es' Ep Heff. unfold slot in Es'. rewrite Esys in Es'.
  fold (slot (put_slot k s1 d) sid) in Es'.
  rewrite slot_put in Es' by (done || lia || by eapply slot_lt).
  destruct (Z.eqb_spec sid k) as [-> | Hne].
  - injection Es' as <-. exists out. split; [apply Heff; [done | congruence] | done].
  - assert (s' = s) as -> by congruence. exists []. rewrite app_nil_r. split; [apply filter_effect_refl | done].
Qed.

Lemma effect_still d d' sid s s' :
  slot d sid = Some s -> d_sys d' = d_sys d -> slot d' sid = Some s' -> g_pub d' = g_pub d ->
  exists out', filter_effect d sid s s' out' /\ g_pub d' sid = g_pub d sid ++ out'.
Proof.
  intros Es Esys Es' ->. unfold slot in *. rewrite Esys in Es'. assert (s' = s) as -> by congruence.
  exists []. rewrite app_nil_r. split; [apply filter_effect_refl | done].
Qed.

(** The commit of a batch, its claim alive. *)
Lemma effect_commit d sid s av fs b :
  pump_inv d -> batch_ok (F := F) d -> slot d sid = Some s -> 0 <= sid < 2 ->
  d_pc d = pc_commit sid av fs b ->
  adc_dsp_owner_live_locked (d_fac d) (adc_dsp_owner_transitional sid) s false = true ->
  filter_effect d sid s (set_published (b_out b) (b_raw b) (b_sat b) s) (b_out b).
Proof.
  intros Hi Hb Es Hsid Epc [Eo _]%live_locked_spec.
  pose proof (claim_session false d s (pv_owner d Hi false)) as Hcl. unfold batch_ok in Hb.
  rewrite Epc in Hcl, Hb. cbn [pc_sid claimed negb owner] in Hcl.
  unfold adc_dsp_owner_transitional in Eo.
  destruct (Hcl eq_refl Hsid Es) as [(Hg & _) | [_ ?]]; [| lia].
  destruct (Hb Hg) as (s1 & raw & f & E1 & Hrun & Hraw). assert (s1 = s) as -> by congruence.
  apply (effect_publish d sid s _ av fs b raw f); try done.
  cbn [set_published set_pump_raw set_cursor pump_raw_read set_proc]. rewrite Hrun. apply fac_feed_raw.
Qed.

Lemma pump_effect (f : F) d sid s s' :
  dsp_reachable (F := F) cosf codes d -> 0 <= sid < 2 -> slot d sid = Some s -> live_slot false s ->
  slot (pump_step cosf codes f d) sid = Some s' ->
  exists out, filter_effect d sid s s' out /\ g_pub (pump_step cosf codes f d) sid = g_pub d sid ++ out.
Proof.
  intros Hr Hsid Es Hlive Es'. pose proof (dsp_reachable_inv _ _ d Hr) as Hi.
  pose proof (dsp_reachable_batch _ _ d Hr) as Hb. pose proof (pv_sid d Hi) as Hs.
  unfold pump_step in *. destruct (slot d (pc_sid (d_pc d))) as [s0 |] eqn:E0;
    [| by apply (effect_still d d sid s)].
  assert (Hnf : forall o e, adc_dsp_owner_live_locked o e s0 true = true -> pc_sid (d_pc d) = sid -> False).
  { intros o e (_ & _ & _ & T)%live_locked_spec <-. destruct Hlive as (_ & _ & T'). congruence. }
  pose proof (effect_commit d (pc_sid (d_pc d)) s0) as Hcommit.
  unfold pump_slot_step in *. destruct (d_pc d) as
    [| k | k | k | fft k | fft k | fft k | fft k | fft k | k | fft k | site k
    | site k total trk | k lv | k lv | fft k total | fft k total | k av fs | k av fs
    | k av fs b | k av | k av code | k av | k av complete | k av i n | k av nb] eqn:Epc;
    cbn [pc_sid] in *.
  all: try solve [try destruct fft; repeat case_match; by eapply (effect_still d)].
  - eapply (effect_write d _ k sid s s0 (set_cfg_bad s0) s' []); try done.
    + rewrite app_nil_r. by destruct (sid =? k).
    + intros -> ->. by apply effect_none.
  - eapply (effect_write d _ k sid s s0 (set_pump_pos trk s0) s' []); try done.
    + rewrite app_nil_r. by destruct (sid =? k).
    + intros -> ->. by apply effect_none.
  - destruct (adc_dsp_owner_live_locked (d_fac d) k s0 false) eqn:El; [| by eapply (effect_still d)].
    eapply (effect_write d _ k sid s s0 (set_pump_raw lv s0) s' []); try done.
    + rewrite app_nil_r. by destruct (sid =? k).
    + intros -> ->. apply live_locked_spec in El as [Eo _]. by apply (effect_skip _ _ _ _ lv false).
  - destruct fft.
    + destruct (adc_dsp_owner_live_locked (d_fft_owner d) k s0 true) eqn:El; [| by eapply (effect_still d)].
      eapply (effect_write d _ k sid s s0 (set_pump_raw total s0) s' []); try done.
      * rewrite app_nil_r. by destruct (sid =? k).
      * intros -> ->. by destruct (Hnf _ _ El).
    + destruct (adc_dsp_owner_live_locked (d_fac d) k s0 false) eqn:El; [| by eapply (effect_still d)].
      eapply (effect_write d _ k sid s s0 (set_pump_raw total (set_gap s0)) s' []); try done.
      * rewrite app_nil_r. by destruct (sid =? k).
      * intros -> ->. apply live_locked_spec in El as [Eo _]. by apply (effect_skip _ _ _ _ total true).
  - destruct (adc_dsp_owner_live_locked (d_fac d) _ s0 false) eqn:El; [| by eapply (effect_still d)].
    eapply (effect_write d _ k sid s s0 (set_published (b_out b) (b_raw b) (b_sat b) s0) s' (b_out b)); try done.
    + by destruct (b_stalled b), (0 <? av - b_used b).
    + destruct (Z.eqb_spec sid k) as [-> | Hne]; repeat case_match; cbn [g_pub goto note_pub];
        by rewrite ?fn_lookup_insert, ?fn_lookup_insert_ne.
    + intros -> ->. by apply (Hcommit av fs b).
  - destruct (adc_dsp_owner_live_locked (d_fft_owner d) k s0 true) eqn:El; [| by eapply (effect_still d)].
    eapply (effect_write d _ k sid s s0 (set_pump_raw (u32 (pump_raw_read s0 + 1)) s0) s' []); try done.
    + rewrite app_nil_r. by destruct (sid =? k).
    + intros -> ->. by destruct (Hnf _ _ El).
Qed.


End stream.

(** The bias is lossless: for each converter width, a code of the range fed
    to the accelerator and returned unchanged comes back as the same code, and
    the accelerator's input never overflows its 16 bits. *)
Theorem fac_bias_roundtrip fs code :
  fs ∈ [4095; 1023; 255; 63] -> 0 <= code <= fs ->
  let mid := (fs + 1) / 2 in let shift := adc_dsp_bias_shift fs in
  fac_input code mid shift = (code - mid) * 2 ^ shift /\
  -32768 <= fac_input code mid shift <= 32767 /\
  fac_code (fac_input code mid shift) mid shift fs = code.
Proof.
  intros Hfs Hc. cbv zeta. rewrite !elem_of_cons, elem_of_nil in Hfs.
  assert (Hin : forall m sh, 0 <= sh -> -32768 <= (code - m) * 2 ^ sh <= 32767 ->
    fac_input code m sh = (code - m) * 2 ^ sh).
  { intros m sh Hsh Hr. unfold fac_input. rewrite (u16_id code) by (unfold is_u16; lia).
    change 0x0FFF with (Z.ones 12). rewrite Z.land_ones, Z.mod_small by lia.
    rewrite Z.shiftl_mul_pow2 by lia. apply s16_id. lia. }
  assert (Hout : forall m sh, 0 <= sh -> 0 <= m -> -32768 <= (code - m) * 2 ^ sh <= 32767 ->
    fac_code ((code - m) * 2 ^ sh) m sh fs = code).
  { intros m sh Hsh Hm Hr. unfold fac_code. rewrite s16_id by lia.
    rewrite Z.shiftr_div_pow2, Z.div_mul by (lia || (apply Z.pow_nonzero; lia)).
    replace (code - m + m) with code by lia.
    rewrite (proj2 (Z.ltb_ge code 0)), (proj2 (Z.ltb_ge fs code)) by lia. done. }
  destruct Hfs as [-> | [-> | [-> | [-> | []]]]]; unfold adc_dsp_bias_shift; cbn [Z.eqb Pos.eqb];
    match goal with |- context [fac_input code ((?a + 1) / 2) ?sh] =>
      change ((a + 1) / 2) with (Z.div (a + 1) 2); set (m := (a + 1) / 2); vm_compute in m;
      assert (Hr : -32768 <= (code - m) * 2 ^ sh <= 32767) by (unfold m; lia);
      rewrite (Hin m sh) by (done || lia); split; [done |]; split; [done |];
      apply Hout; done || lia end.
Qed.
