(* ===== verification/BoardStart.v ===== *)
(** * Where the components start

    Each component's theorems speak of the states reachable from its own start.  The
    whole bring-up of [Board] leaves every one of them in such a state, with the
    reference measured at boot and time passing while the others are brought up. *)

From stdpp Require Import base tactics list numbers option relations.
From S2P Require Import Prelude BridgeHw Flash BootConfig Frame SpiBackend I2cBackend TransportSpi TransportI2c Trng Reset DspChain Adc AdcStream AdcSystem Drivers PwmTimer Pwm PwmReach Gpio Init InitStages Board DspCoeff DspSpectrum DspPump.

(** ** The reference at boot *)

Section reference.
Context {H : Type} `{!AdcHw H}.

(** A measurement publishes a pair, or the failure, whatever the rest of the state. *)
Lemma measure_publishes (h : H) : exists b h' r, forall w,
  adc_vref_measure h w = (b, h', adc_vref_publish (default (0, adc_vref_mv w) r).1 (default (0, adc_vref_mv w) r).2 w).
Proof.
  unfold adc_vref_measure. destruct (adc_calibrate_bounded _ 0) as [cal g]. destruct cal; cbn [negb].
  - destruct (vref_samples 16 0 _) as [[sum |] g'].
    + eexists _, _, (Some (_, _)). by intros w.
    + eexists _, _, None. by intros w.
  - eexists _, _, None. by intros w.
Qed.

(** What the bring-up leaves is what the loader leaves, then one late measurement when
    the buffer locked. *)
Lemma init_adc_start ok streams (h : H) `{!InitHw H} `{!GpioHw H} :
  exists g, (init_adc ok streams h).2 =
    if ok then (vref_late_tick g (set_vref true true (adc_fw0 streams))).2 else set_vref false false (adc_fw0 streams).
Proof.
  unfold init_adc. set (g := foldl _ (adc_shared_clock_init _) _). exists g. destruct ok; [| done].
  destruct (measure_publishes g) as (b & h' & r & M). unfold vref_late_tick. cbn [vref_remeasure_pending set_vref negb].
  rewrite M. set (claim := adc_periph_claim _ 0).
  assert (E : claim = (true, set_busy [true; false; false; false] (set_vref true true (adc_fw0 streams)))) by reflexivity.
  rewrite E, M. destruct r as [[code mv] |]; reflexivity.
Qed.
End reference.

(** ** Starts *)

Section start.
Context {H : Type} `{TimerLaws H} `{!InitHw H} `{!GpioHw H} `{!TrngHw H} `{!AdcHw H} `{!QencHw H} `{!SpiSlaveHw H} `{!I2cSlaveHw H} `{!DspHw H}.
Context {F : Type} `{FlashHal F}.

(** Time may pass on the PWM timers. *)
Definition runs_on (h h' : H) : Prop := forall p, later (tv h p) (tv h' p).

#[global] Instance runs_on_preorder : PreOrder runs_on.
Proof. split; [intros h p; reflexivity | intros h1 h2 h3 R1 R2 p; etrans; [apply R1 | apply R2]]. Qed.

(** The other components' calls take time and touch no PWM timer. *)
Context `{!Indifferent runs_on}.

Lemma main_parts (f : F) chip0 streams t u (h0 : H) :
  let '(h, _, sw, (x, t'), _) := main_bring_up f chip0 streams t u h0 in
  (exists g, runs_on (pwm_bring_up g pwm_sw0).1 h /\ i_pwm sw = (pwm_bring_up g pwm_sw0).2) /\
  (exists g ok, i_adc sw = (init_adc ok streams g).2) /\ i_bcfg sw = Bcfg (stored_flags f) false 0 /\
  exists g, x = (bridge_transport_spi_hw_init g spi_hw0).2 /\ t' = transport_spi_init t.
Proof.
  unfold main_bring_up, bridge_hw_init. destruct (reset_snapshot chip0) as [snap chip1]. destruct (init_se _ _) as [h1 gw].
  destruct (init_clock_sample h1) as [[clock m] h2]. destruct (init_syscfg h2) as [ready h3].
  destruct (init_pads f h3 gw _) as [[h4 gw'] c] eqn:Ec.
  assert (Hc : c = Bcfg (stored_flags f) false 0).
  { unfold init_pads in Ec. destruct (pads_boot _ gw) as [? ?]. cbn [boot_config_load s_stored s_pending_flags] in Ec.
    destruct (negb _); [destruct (bridge_hw_gpio_write_ _ _ _ _) as [[? ?] ?] |]; by injection Ec as _ _ <-. }
  destruct (trng_boot h4) as [h5 tw]. set (h6 := init_counter _). destruct (pwm_bring_up h6 pwm_sw0) as [h7 pw] eqn:Ep.
  pose proof (st_vref runs_on h7) as K8. destruct (init_vref h7) as [ok h8]. cbn [snd] in K8.
  pose proof (st_tail runs_on ok streams clock h8) as K9. destruct (init_adc ok streams h8) as [h9 aw] eqn:Ea. cbn [fst] in K9.
  set (h10 := init_live clock _) in *. pose proof (st_spi_init runs_on h10 spi_hw0) as K10.
  destruct (bridge_transport_spi_hw_init h10 spi_hw0) as [h11 x] eqn:Ex. cbn [fst] in K10.
  pose proof (st_i2c_init runs_on h11) as K11. destruct (bridge_transport_i2c_hw_init h11) as [st h12]. cbn [snd] in K11.
  cbn [i_pwm i_adc i_bcfg]. split; [| split; [| split; [exact Hc |]]].
  - exists h6. rewrite Ep. split; [| done]. cbn [fst]. etrans; [exact K8 |]. etrans; [exact K9 |]. by etrans.
  - exists h8, ok. by rewrite Ea.
  - exists h10. by rewrite Ex.
Qed.

(** The PWM, and the converters with idle streams, free chains and a pump at rest. *)
Lemma drivers_start (f : F) chip0 streams t u (h0 : H) cosf codes : Forall idle_slot streams -> length streams = 2%nat ->
  let '(h, _, sw, _, _) := main_bring_up f chip0 streams t u h0 in
  pwm_reach h (i_pwm sw) /\
  exists ok, dsp_reachable (F := H) cosf codes (with_sys (AdcSys (i_adc sw) adc_dsp_chains0) (dsp_init ok ok streams)).
Proof.
  intros Hs Hl. pose proof (main_parts f chip0 streams t u h0) as P.
  destruct (main_bring_up f chip0 streams t u h0) as [[[[h chip1] sw] [x t']] u'].
  destruct P as ((g & Rg & ->) & (g' & ok & ->) & _). split.
  - exact (reach_time _ _ _ (reach_init g) Rg).
  - exists ok. destruct (init_adc_start ok streams g') as (k & ->). destruct ok.
    + apply (dsp_reach_step cosf codes (dsp_init true true streams)); [by apply dsp_reach_init |]. apply ds_request. eapply (req_vref_tick k).
      apply surjective_pairing.
    + by apply dsp_reach_init.
Qed.

(** The SPI backend, whatever the command layer, and the stored setting. *)
Lemma links_start (f : F) chip0 streams t u (h0 : H) (W St : Type) `{BridgeHw W} `{Dispatcher St} (w : W) (s : St) :
  let '(_, _, sw, (x, t'), _) := main_bring_up f chip0 streams t u h0 in
  be_reachable (H := H) (Backend x t' s irq_idle) /\ i_bcfg sw = (boot_config_apply f (Bcfg 0 false 0) w).1.
Proof.
  pose proof (main_parts f chip0 streams t u h0) as P. destruct (main_bring_up f chip0 streams t u h0) as [[[[h chip1] sw] [x t']] u'].
  destruct P as (_ & _ & -> & g'' & -> & ->). split; [apply be_init | done].
Qed.
End start.
