(* ===== verification/Requests.v ===== *)
(** * What a request leaves alone

    A preorder on hardware states that the calls and reads of a driver respect is
    respected by each of the driver's requests, whatever the hardware answers and
    whatever the statics hold.  [Device] takes for it the pins and the PWM timers, so
    that a request of one driver disturbs no other. *)

From stdpp Require Import base tactics list numbers option relations.
From S2P Require Import Prelude BridgeHw SpiBackend I2cBackend Power DspChain Adc AdcStream AdcSystem DspPump Drivers Trng Tmu PwmTimer Pwm PwmCapture PwmReach Gpio GpioSafety Init InitStages Board.

(** ** Pads *)

Section gpio.
Context {H : Type} `{!GpioHw H} (R : relation H) `{!PreOrder R}.
Hypothesis R_do : forall op h, R h (gpio_do h op).
Hypothesis R_get : forall p h, R h (gpio_input_port_get h p).2.

Lemma rel_gpio_dos ops h : R h (gpio_dos h ops).
Proof. apply (rel_foldl R). auto. Qed.

Lemma rel_promote mask out l : forall h pr, R h (foldl (promote_input mask out) (h, pr) l).1.
Proof.
  induction l as [| i l IH]; intros h pr; cbn [foldl]; [done |].
  assert (T : R h (promote_input mask out (h, pr) i).1) by (unfold promote_input; destruct (_ || _); [done | apply R_do]).
  destruct (promote_input mask out (h, pr) i) as [g pr']. etrans; [exact T | apply IH].
Qed.

Lemma rel_sample mask l : forall h levels ports, R h (sample_pads mask l h levels ports).1.
Proof.
  induction l as [| i l IH]; intros h levels ports; cbn [sample_pads]; [done |]. destruct (negb (selected mask i)); [done |].
  destruct (_ =? _)%nat; [done |]. pose proof (R_get (pad_periph (pad i)) h) as T.
  destruct (gpio_input_port_get h (pad_periph (pad i))) as [v g].
  destruct (ports !! _) as [[w |] |]; [done | by etrans | by etrans].
Qed.

Lemma rel_serve r (z : H * gpio_sw) : R z.1 (serve z r).1.
Proof.
  destruct z as [h w]. destruct r as [mask | mask levels | a]; cbn [serve fst snd].
  - unfold bridge_hw_gpio_read_. destruct (negb _); [done |]. pose proof (rel_promote mask (gpio_is_output w) pads h (gpio_input_promoted w)) as T1.
    destruct (foldl _ _ pads) as [h1 pr]. cbn [fst] in T1. pose proof (rel_sample mask pads h1 0 (replicate GPIO_MAPPED_PORT_COUNT None)) as T2.
    destruct (sample_pads _ pads h1 _ _) as [h2 l]. cbn [fst] in T2. assert (T : R h h2) by by etrans. by destruct l.
  - unfold bridge_hw_gpio_write_. destruct (negb _); [done |]. destruct (foldl _ _ pads) as [[bop pins] |]; [apply rel_gpio_dos | done].
  - unfold bridge_hw_se_reset_. destruct (1 <? a); [done |]. cbn [fst]. etrans; [| apply R_do].
    destruct (se_rst_configured w); [done | apply rel_gpio_dos].
Qed.
End gpio.

(** ** PWM *)

Section pwm.
Context {H : Type} `{!TimerHw H} (R : relation H) `{!PreOrder R}.
Hypothesis R_do : forall op h, apart (tim_pins op) = true -> R h (tim_do h op).
Hypothesis R_read : forall r h, R h (tim_read h r).2.

Lemma rel_tick p op h : R h (tim_do h (on_timer p op)).
Proof. by apply R_do. Qed.

Lemma rel_ticks p ops h : R h (tims h p ops).
Proof. apply (rel_tims R). intros op g. by apply R_do. Qed.

Lemma rel_pwm_pad c h : R h (pwm_pad h (pwm_ch c)).
Proof. pose proof (pwm_pads_apart c) as A. unfold pwm_pad. do 2 (etrans; [| by apply R_do]). by apply R_do. Qed.

Lemma rel_consume h w p : R h (pwm_capture_consume_update h w p).1.
Proof.
  unfold pwm_capture_consume_update. pose proof (R_read (timer_flag_get p TIMER_FLAG_UP) h) as T.
  destruct (tim_read h (timer_flag_get p TIMER_FLAG_UP)) as [v g]. destruct (v =? 0); [done |]. etrans; [exact T | by apply R_do].
Qed.

Lemma rel_transaction p fn x : (forall y, R y.1 (fn y).1) -> R x.1 (pwm_preload_transaction p fn x).1.
Proof.
  intros F. unfold pwm_preload_transaction. pose proof (R_read (TIMER_CTL0 p) x.1) as T1. destruct (tim_read x.1 (TIMER_CTL0 p)) as [v h1].
  cbn [snd] in T1. set (h2 := tim_do h1 _). assert (T2 : R x.1 h2) by (etrans; [exact T1 | by apply R_do]).
  pose proof (F (h2, x.2)) as T3. destruct (fn (h2, x.2)) as [h3 w3]. cbn [fst] in T3. pose proof (R_read (TIMER_CTL0 p) h3) as T4.
  destruct (tim_read h3 (TIMER_CTL0 p)) as [v' h4]. cbn [fst snd] in *. etrans; [exact T2 |]. etrans; [exact T3 |]. etrans; [exact T4 |]. by apply R_do.
Qed.

Lemma rel_apply h w c arr compare : R h (pwm_apply_counter_values h w c arr compare).1.1.
Proof.
  unfold pwm_apply_counter_values. set (p := periph (pwm_ch c)). pose proof (R_read (TIMER_CTL0 p) h) as T1.
  destruct (tim_read h (TIMER_CTL0 p)) as [v h1]. cbn [snd] in T1. destruct (_ && _); [done |].
  set (h2 := tims h1 p _). set (w2 := set_one_shot c false _). assert (T2 : R h h2) by (etrans; [exact T1 | apply rel_ticks]).
  set (x := if negb (Z.land v TIMER_CTL0_CEN =? 0) then _ else _). assert (T3 : R h2 x.1).
  { unfold x. destruct (negb _).
    - apply (rel_transaction p _ (h2, w2)). intros [g u]. unfold pwm_preload_load. cbn [fst snd].
      set (g1 := tims g _ _). etrans; [apply rel_ticks |]. fold g1. unfold pwm_car_shadow_defer.
      pose proof (rel_consume g1 u (periph (pwm_ch c))) as T. by destruct (pwm_capture_consume_update g1 u _).
    - unfold pwm_car_shadow_commit. cbn [fst]. etrans; [apply rel_ticks |]. by apply R_do. }
  destruct x as [h3 w3]. cbn [fst] in *. etrans; [exact T2 |]. etrans; [exact T3 |]. apply rel_ticks.
Qed.

Lemma rel_drain h w c : R h (pwm_capture_drain h w c).1.
Proof.
  unfold pwm_capture_drain. destruct (pwm_capture_flag _) as [flag |]; [| done]. set (p := periph (pwm_ch c)).
  pose proof (R_read (timer_flag_get p flag) h) as T1. destruct (tim_read h (timer_flag_get p flag)) as [f h1]. cbn [snd] in T1.
  destruct (f =? 0); [done |]. pose proof (R_read (capture_value p (pwm_capture_unit (pwm_ch c))) h1) as T2.
  destruct (tim_read h1 _) as [now h2]. cbn [snd] in T2. set (h3 := tim_do h2 _). assert (T : R h2 h3) by (by apply R_do).
  pose proof (rel_consume h3 w p) as T3.
  destruct (pwm_capture_consume_update h3 w p) as [h4 w4]. cbn [fst] in *. etrans; [exact T1 |]. etrans; [exact T2 |]. by etrans.
Qed.

Lemma rel_pwm_get h w c : R h (bridge_hw_pwm_get_ h w c).1.
Proof.
  unfold bridge_hw_pwm_get_. destruct (_ <=? c); [done |]. pose proof (R_read (TIMER_CAR (periph (pwm_ch c))) h) as T1.
  destruct (tim_read h _) as [v h1]. cbn [snd] in T1. pose proof (R_read (capture_value (periph (pwm_ch c)) (TIMER_CH (channel (pwm_ch c)))) h1) as T2.
  destruct (tim_read h1 _) as [u h2]. cbn [snd] in T2. assert (T : R h h2) by by etrans. by repeat case_match.
Qed.

Lemma rel_pwm_configure h w c m d b : R h (bridge_hw_pwm_configure_ h w c m d b).1.1.
Proof.
  unfold bridge_hw_pwm_configure_. do 5 (case_match; [done |]). set (p := periph (pwm_ch c)).
  pose proof (R_read (TIMER_CTL0 p) h) as T1. destruct (tim_read h (TIMER_CTL0 p)) as [v h1]. cbn [snd] in T1. set (h2 := tims h1 p _).
  pose proof (R_read (TIMER_CTL0 p) h2) as T2. destruct (tim_read h2 (TIMER_CTL0 p)) as [u h3]. cbn [fst snd] in *.
  assert (T : R h (tims h3 p [timer_ctl0_write (Z.lor (Z.land u (u32 (Z.lnot TIMER_CTL0_CAM))) (cam_code m))])).
  { etrans; [exact T1 |]. etrans; [apply rel_ticks |]. etrans; [exact T2 | apply rel_ticks]. }
  destruct (negb (Z.land v TIMER_CTL0_CEN =? 0)); [| exact T]. etrans; [exact T | apply rel_ticks].
Qed.

Lemma rel_capture_begin h w c e : R h (bridge_hw_pwm_capture_begin_ h w c e).1.1.
Proof.
  unfold bridge_hw_pwm_capture_begin_. do 2 (case_match; [done |]). cbn [fst].
  set (h1 := tims h _ _). set (h2 := if complement _ then _ else _). assert (T2 : R h h2) by (unfold h2; destruct (complement _); [etrans |]; apply rel_ticks).
  set (h3 := tim_do h2 _). assert (T3 : R h2 h3) by (apply R_do, pwm_pads_apart).
  assert (T : R h (tims h3 (periph (pwm_ch c)) [timer_input_capture_config (pwm_capture_unit (pwm_ch c)) e])).
  { etrans; [exact T2 |]. etrans; [exact T3 | apply rel_ticks]. }
  destruct (pwm_capture_flag _); [| exact T]. etrans; [exact T | apply rel_ticks].
Qed.

Lemma rel_capture_end h w c : R h (bridge_hw_pwm_capture_end_ h w c).1.1.
Proof.
  unfold bridge_hw_pwm_capture_end_. case_match; [done |]. set (h1 := match pwm_capture_flag _ with Some _ => _ | None => _ end).
  assert (T1 : R h h1) by (unfold h1; destruct (pwm_capture_flag _); [apply rel_ticks | done]).
  set (h2 := if complement _ then _ else _). assert (T2 : R h1 h2) by (unfold h2; destruct (complement _); [apply rel_ticks | done]).
  unfold pwm_channel_init. cbn [fst]. etrans; [exact T1 |]. etrans; [exact T2 |]. etrans; [apply rel_pwm_pad | apply rel_ticks].
Qed.

(** Every PWM, capture and sync request. *)
Lemma rel_pwm_request r h w : R h (pwm_request r h w).1.
Proof.
  destruct r; cbn [pwm_request].
  - unfold bridge_hw_pwm_set_. do 2 (case_match; [done |]). destruct (pwm_counter_values _ _ _) as [[arr compare] |]; [apply rel_apply | done].
  - apply rel_pwm_get.
  - apply rel_pwm_configure.
  - unfold bridge_hw_pwm_single_pulse_. cbv zeta. do 6 (case_match; [done |]). unfold pwm_car_shadow_commit. cbn [fst].
    etrans; [apply rel_ticks |]. etrans; [apply rel_tick | apply rel_ticks].
  - unfold bridge_hw_timer_sync_. destruct (timer_sync_periph master) as [mp |]; [| done]. destruct (timer_sync_periph slave) as [sp |]; [| done].
    case_match; [done |]. destruct (wire_slave_mode mode); [| done]. cbv zeta. case_match; [done |]. cbn [fst]. etrans; apply rel_ticks.
  - apply rel_capture_begin.
  - unfold bridge_hw_pwm_capture_read_. do 2 (case_match; [done |]). pose proof (rel_drain h w c) as T. destruct (pwm_capture_drain h w c) as [h1 w1].
    by case_match.
  - apply rel_capture_end.
Qed.
End pwm.

(** ** The drivers that share no pin and no PWM timer *)

(** [Indifferent], with the blocks only requests use. *)
Class Undisturbed {H} `{!InitHw H} `{!GpioHw H} `{!TrngHw H} `{!AdcHw H} `{!QencHw H} `{!SpiSlaveHw H} `{!I2cSlaveHw H} `{!DacHw H} `{!TmuHw H} `{!PowerHw H} (R : relation H) : Prop := {
  und_board :: Indifferent R;
  und_dac p v h : R h (dac_data_set h p v);
  und_dac_read p h : R h (dac_output_value_get h p).2;
  und_tmu op h : R h (tmu_do h op);
  und_tmu_read r h : R h (tmu_reg_read h r).2;
  und_pw op h : R h (pw_do h op);
  und_pw_read r h : R h (pw_read h r).2 }.

Section others.
Context {H : Type} `{!InitHw H} `{!GpioHw H} `{!TrngHw H} `{!AdcHw H} `{!DspHw H} `{!QencHw H} `{!SpiSlaveHw H} `{!I2cSlaveHw H} `{!DacHw H} `{!TmuHw H} `{!PowerHw H}.
Context (R : relation H) `{!PreOrder R} `{!Undisturbed R}.

(** Converters and streams. *)
Lemma rel_adcs ops h : R h (hw_dos h ops).
Proof. apply (rel_foldl R). intros g op _. apply ind_adc_do. Qed.

Lemma rel_poll_adc n want r h : R h (poll n want r h).2.
Proof. apply (rel_poll R). apply ind_adc_read. Qed.

Lemma rel_cal h p : R h (adc_calibrate_bounded h p).2.
Proof. apply (rel_calibrate R p); intros; [apply ind_adc_read | apply ind_adc_do]. Qed.

Lemma rel_restore h p : R h (adc_periph_restore h p).2.
Proof. unfold adc_periph_restore. etrans; [apply rel_adcs |]. apply (rel_boot_init R); intros; [apply ind_adc_read | apply ind_adc_do]. Qed.

Lemma rel_ready_check h w : R h (vref_ready_check h w).1.2.
Proof.
  unfold vref_ready_check. destruct (negb _); [| done]. pose proof (ind_adc_read vref_status h) as T. by destruct (hw_read h vref_status).
Qed.

Lemma rel_conv_format h w p c : R h (adc_apply_conv_format h w p c).
Proof.
  unfold adc_apply_conv_format. set (h1 := match adc_resolution_reg _ with Some _ => _ | None => _ end).
  assert (T : R h h1) by (unfold h1; destruct (adc_resolution_reg _); [apply ind_adc_do | done]).
  etrans; [exact T |]. destruct (adc_oversample_params _) as [[? ?] |]; [apply rel_adcs | apply ind_adc_do].
Qed.

Lemma rel_read_samples n bound p fs vref : forall h, R h (read_samples n bound p fs vref h).2.
Proof.
  induction n as [| n IH]; intros h; cbn [read_samples]; [done |]. etrans; [apply (ind_adc_do (adc_software_trigger_enable p)) |].
  set (h1 := hw_do h _). pose proof (rel_poll_adc bound true (flag_eoc p) h1) as T1. destruct (poll _ _ _ h1) as [ok h2]. cbn [snd] in T1.
  destruct ok; cbn [negb]; [| exact T1]. etrans; [exact T1 |]. etrans; [apply (ind_adc_do (adc_flag_clear_eoc p)) |]. set (h3 := hw_do h2 _).
  pose proof (ind_adc_read (adc_routine_data p) h3) as T2. destruct (hw_read h3 _) as [v h4]. cbn [snd] in T2. specialize (IH h4).
  destruct (read_samples n bound p fs vref h4) as [[b l] h5]. by etrans.
Qed.

Lemma rel_adc_read h w c n : R h (bridge_hw_adc_read_ h w c n).1.1.
Proof.
  unfold bridge_hw_adc_read_. destruct (n =? 0); [done |]. destruct (_ <=? c); [done |]. pose proof (rel_ready_check h w) as T1.
  destruct (vref_ready_check h w) as [[ready h1] w1]. cbn [fst snd] in T1. destruct (negb ready); [done |]. destruct (stream_on_periph _ _ _ _); [done |].
  destruct (_ <? _); [done |]. destruct (adc_periph_claim w1 _) as [claimed w2]. destruct (negb claimed); [done |].
  set (p := ch_periph c). set (h2 := hw_dos (adc_apply_conv_format _ _ _ _) _).
  assert (T2 : R h h2) by (etrans; [exact T1 |]; etrans; [apply (ind_adc_do (adc_disable p)) |]; etrans; [apply rel_conv_format | apply rel_adcs]).
  pose proof (rel_cal h2 p) as T3. destruct (adc_calibrate_bounded h2 p) as [cal h3]. cbn [snd] in T3. assert (T : R h h3) by by etrans.
  destruct (negb cal); [exact T |]. set (h4 := hw_do h3 _). assert (T4 : R h h4) by (etrans; [exact T | apply ind_adc_do]).
  pose proof (rel_read_samples (Z.to_nat n) (Z.to_nat (eoc_bound w2 c)) p (adc_full_scale_for_bits (adc_resolution_bits_cache w2).[c]) (adc_vref_mv w2) h4) as T5.
  destruct (read_samples _ _ _ _ _ h4) as [[ok mv] h5]. cbn [snd] in T5. assert (T6 : R h h5) by by etrans.
  destruct (negb ok); [| exact T6]. pose proof (rel_restore h5 p) as T7. destruct (adc_periph_restore h5 p) as [b h6]. by etrans.
Qed.

Lemma rel_late_tick h w : R h (vref_late_tick h w).1.
Proof.
  unfold vref_late_tick. destruct (negb _); [done |]. destruct (adc_periph_claim w 0) as [claimed w1]. destruct (negb claimed); [done |].
  assert (T : R h (adc_vref_measure h w1).1.2) by (apply (rel_vref_measure R); intros; [apply ind_adc_read | apply ind_adc_do]).
  by destruct (adc_vref_measure h w1) as [[b h'] w'].
Qed.

Lemma rel_confirm h sid : R h (adc_stream_dma_disable_confirm h sid).2.
Proof. unfold adc_stream_dma_disable_confirm. etrans; [apply (ind_adc_do (dma_channel_disable sid)) | apply rel_poll_adc]. Qed.

Lemma rel_latch h s sid : R h (adc_stream_latch_dma_error h s sid).1.
Proof.
  unfold adc_stream_latch_dma_error. pose proof (ind_adc_read (dma_flag_err sid) h) as T. destruct (hw_read h _) as [v h1].
  destruct (v =? 0); [done |]. etrans; [exact T | apply rel_adcs].
Qed.

Lemma rel_dma_irq h s sid : R h (dma_irq_handler h s sid).1.
Proof.
  unfold dma_irq_handler. pose proof (ind_adc_read (dma_flag_ftf sid) h) as T. destruct (hw_read h _) as [v h1]. cbn [snd] in T.
  destruct (negb _); (etrans; [| apply rel_latch]); [| exact T]. etrans; [exact T | apply ind_adc_do].
Qed.

Lemma rel_write_index h sid : R h (adc_stream_write_index h sid).2.
Proof. unfold adc_stream_write_index. pose proof (ind_adc_read (dma_transfer_number sid) h) as T. by destruct (hw_read h _). Qed.

Lemma rel_total_written h s sid trk : R h (adc_stream_total_written h s sid trk).2.
Proof. unfold adc_stream_total_written. pose proof (rel_write_index h sid) as T. by destruct (adc_stream_write_index h sid). Qed.

Lemma rel_stream_begin h w sid ch rate : R h (bridge_hw_adc_stream_begin_ h w sid ch rate).1.1.
Proof.
  unfold bridge_hw_adc_stream_begin_. do 4 (case_match; [done |]). pose proof (rel_ready_check h w) as T1.
  destruct (vref_ready_check h w) as [[ready h1] w1]. cbn [fst snd] in T1. destruct (negb ready); [done |].
  destruct (adc_streams w1 !! Z.to_nat sid) as [s |]; [| done]. destruct (in_use s); [done |]. destruct (stream_on_periph _ _ _ _); [done |].
  set (h2 := hw_dos h1 _). assert (T2 : R h h2) by (etrans; [exact T1 | apply rel_adcs]). pose proof (rel_confirm h2 sid) as T3.
  destruct (adc_stream_dma_disable_confirm h2 sid) as [stopped h3]. cbn [snd] in T3. assert (T4 : R h h3) by by etrans.
  destruct (negb stopped); [exact T4 |]. set (h4 := hw_dos h3 _). assert (T5 : R h h4) by (etrans; [exact T4 | apply rel_adcs]).
  destruct (adc_periph_claim w1 _) as [claimed w2]. destruct (negb claimed); [exact T5 |]. set (p := ch_periph ch).
  set (h5 := hw_dos (adc_apply_conv_format _ _ _ _) _).
  assert (T6 : R h h5) by (etrans; [exact T5 |]; etrans; [apply (ind_adc_do (adc_disable p)) |]; etrans; [apply rel_conv_format | apply rel_adcs]).
  pose proof (rel_cal h5 p) as T7. destruct (adc_calibrate_bounded h5 p) as [cal h6]. cbn [snd] in T7. assert (T : R h h6) by by etrans.
  destruct (negb cal); [exact T |]. destruct (pace_ticks rate) as [psc period]. cbn [fst]. etrans; [exact T | apply rel_adcs].
Qed.

Lemma rel_recover h s sid p : R h (adc_stream_recover_rovf h s sid p).2.
Proof.
  unfold adc_stream_recover_rovf. set (h1 := hw_dos h _). assert (T1 : R h h1) by apply rel_adcs. pose proof (rel_confirm h1 sid) as T2.
  destruct (adc_stream_dma_disable_confirm h1 sid) as [stopped h2]. cbn [snd] in T2. assert (T : R h h2) by by etrans.
  destruct (negb stopped); [exact T |]. etrans; [exact T |]. etrans; [apply rel_adcs | apply rel_cal].
Qed.

Lemma rel_emit_raw n sid fs vref : forall idx h, R h (emit_raw n sid idx fs vref h).2.
Proof.
  induction n as [| n IH]; intros idx h; cbn [emit_raw]; [done |]. pose proof (ind_adc_read (ring_word sid idx) h) as T.
  destruct (hw_read h _) as [code h1]. cbn [snd] in T. specialize (IH (u16 ((idx + 1) mod BRIDGE_ADC_STREAM_RING_SAMPLES)) h1).
  destruct (emit_raw n sid _ fs vref h1) as [[mv idx'] h2]. by etrans.
Qed.

Lemma rel_read_raw h s sid n vref : R h (read_raw h s sid n vref).1.1.
Proof.
  unfold read_raw. pose proof (rel_total_written h s sid (rd_pos s)) as T1. destruct (adc_stream_total_written h s sid _) as [[total trk] h1].
  cbn [snd] in T1. pose proof (rel_write_index h1 sid) as T2. destruct (adc_stream_write_index h1 sid) as [wi h2]. cbn [snd] in T2.
  assert (T : R h h2) by by etrans. destruct (_ <=? 0); [exact T |]. destruct (_ <=? _); [exact T |].
  match goal with |- context [emit_raw ?n sid ?i ?f vref h2] => pose proof (rel_emit_raw n sid f vref i h2) as T3; destruct (emit_raw n sid i f vref h2) as [[mv idx] h3] end.
  by etrans.
Qed.

Lemma rel_stream_read h w sid n : R h (bridge_hw_adc_stream_read_ h w sid n).1.1.
Proof.
  unfold bridge_hw_adc_stream_read_. destruct (_ <=? sid); [done |]. destruct (adc_streams w !! _) as [s |]; [| done].
  destruct (negb (in_use s)); [done |]. pose proof (rel_latch h s sid) as T1. destruct (adc_stream_latch_dma_error h s sid) as [h1 s1]. cbn [fst] in T1.
  destruct (negb _); [exact T1 |]. set (p := ch_periph (DspChain.channel s1)). pose proof (ind_adc_read (flag_rovf p) h1) as T2.
  destruct (hw_read h1 (flag_rovf p)) as [rovf h2]. cbn [snd] in T2. assert (T : R h h2) by by etrans. destruct (negb (rovf =? 0)).
  - pose proof (rel_recover h2 s1 sid p) as T3. destruct (adc_stream_recover_rovf h2 s1 sid p) as [ok h3]. cbn [snd] in T3.
    pose proof (rel_write_index h3 sid) as T4. destruct (adc_stream_write_index h3 sid) as [wi h4]. cbn [fst snd] in *. etrans; [exact T |]. by etrans.
  - destruct (dsp_bound s1); [by destruct (read_processed s1 n (adc_vref_mv w)) |]. pose proof (rel_read_raw h2 s1 sid n (adc_vref_mv w)) as T3.
    destruct (read_raw h2 s1 sid n _) as [[h3 s3] r]. by etrans.
Qed.

Lemma rel_stream_end {O} (release : O -> Z -> O) h w chains owners sid : R h (bridge_hw_adc_stream_end_ release h w chains owners sid).1.1.1.1.
Proof.
  unfold bridge_hw_adc_stream_end_. destruct (_ <=? sid); [done |]. destruct (adc_streams w !! _) as [s |]; [| done].
  destruct (negb (in_use s)); [done |]. set (h1 := hw_dos h _). assert (T1 : R h h1) by apply rel_adcs. pose proof (rel_confirm h1 sid) as T2.
  destruct (adc_stream_dma_disable_confirm h1 sid) as [stopped h2]. cbn [snd] in T2. assert (T : R h h2) by by etrans.
  destruct (negb stopped); [exact T |]. set (h3 := hw_dos h2 _). assert (T3 : R h h3) by (etrans; [exact T | apply rel_adcs]).
  pose proof (rel_restore h3 (ch_periph (DspChain.channel s))) as T4. destruct (adc_periph_restore h3 _) as [restored h4]. cbn [snd] in T4.
  destruct (dsp_bound s); cbn [fst]; by etrans.
Qed.

Lemma rel_dsp_end d sid h : R h (dsp_stream_end h d sid).1.1.
Proof.
  unfold dsp_stream_end. pose proof (rel_stream_end dsp_release h (sy_fw (d_sys d)) (sy_chains (d_sys d)) (d_fac d, d_fft_owner d, d_fft d) sid) as T.
  by destruct (bridge_hw_adc_stream_end_ _ _ _ _ _ _) as [[[[h' w'] cs'] [[fac fo] t]] rc].
Qed.

Lemma rel_spectrum d sid off n h : R h (bridge_hw_adc_spectrum_read_ h d sid off n).1.1.
Proof.
  unfold bridge_hw_adc_spectrum_read_. destruct (_ <=? sid); [done |]. destruct (slot d sid) as [s |]; [| done]. destruct (_ || _); [done |].
  pose proof (rel_latch h s sid) as T. destruct (adc_stream_latch_dma_error h s sid) as [h' s']. cbn [fst] in T. by repeat case_match.
Qed.

(** Analog outputs. *)
Lemma rel_dac_set h w c mv : R h (bridge_hw_dac_set_ h w c mv).1.1.
Proof.
  unfold bridge_hw_dac_set_. destruct (_ <=? c); [done |]. pose proof (rel_ready_check h w) as T. destruct (vref_ready_check h w) as [[ready h1] w1].
  cbn [fst snd] in T. destruct (negb ready); [done |]. cbn [fst]. etrans; [exact T | apply und_dac].
Qed.

Lemma rel_dac_get h w c : R h (bridge_hw_dac_get_ h w c).1.1.
Proof.
  unfold bridge_hw_dac_get_. destruct (_ <=? c); [done |]. pose proof (rel_ready_check h w) as T. destruct (vref_ready_check h w) as [[ready h1] w1].
  cbn [fst snd] in T. destruct (negb ready); [done |]. pose proof (und_dac_read (dac_of c) h1) as T2. destruct (dac_output_value_get h1 _) as [v h2]. by etrans.
Qed.

(** The generator. *)
Lemma rel_bad h : R h (trng_faulted h).2.
Proof. apply (rel_faulted R). intros r g. apply ind_trng_read. Qed.

Lemma rel_drop h w : R h (trng_demote h w).1.
Proof. apply ind_trng_do. Qed.

Lemma rel_trng_start h : R h (trng_start h).2.
Proof.
  unfold trng_start. pose proof (rel_flag_poll R rcu_pllstb_flag TRNG_INIT_TIMEOUT (ind_trng_read _) h) as T.
  destruct (flag_poll _ _ h) as [locked h1]. cbn [snd] in T. destruct locked; cbn [negb]; [| exact T].
  etrans; [exact T |]. apply (rel_foldl R). intros g op _. apply ind_trng_do.
Qed.

Lemma rel_drdy n : forall h, R h (drdy_wait n h).2.
Proof.
  induction n as [| n IH]; intros h; cbn [drdy_wait]; pose proof (ind_trng_read flag_drdy h) as T;
    destruct (trng_reg_read h flag_drdy) as [v g]; destruct (negb _); try done. by etrans.
Qed.

Lemma rel_word n h w : R h (trng_word n h w).1.2.
Proof.
  unfold trng_word. pose proof (rel_bad h) as T1. destruct (trng_faulted h) as [bad h1]. cbn [snd] in T1. destruct bad.
  { pose proof (rel_drop h1 w) as D. destruct (trng_demote h1 w) as [h2 w2]. by etrans. }
  pose proof (rel_drdy n h1) as T2. destruct (drdy_wait n h1) as [n' h2]. cbn [snd] in T2. pose proof (ind_trng_read flag_drdy h2) as T3.
  destruct (trng_reg_read h2 flag_drdy) as [v h3]. cbn [snd] in T3. assert (T : R h h3) by (etrans; [exact T1 |]; by etrans). destruct (v =? 0).
  - pose proof (rel_bad h3) as T4. destruct (trng_faulted h3) as [bad h4]. cbn [snd] in T4. assert (T5 : R h h4) by by etrans.
    destruct bad; [| exact T5]. pose proof (rel_drop h4 w) as D. destruct (trng_demote h4 w) as [h5 w5]. by etrans.
  - pose proof (ind_trng_read TRNG_DATA h3) as T4. destruct (trng_reg_read h3 TRNG_DATA) as [word h4]. cbn [snd] in T4.
    assert (T5 : R h h4) by by etrans. destruct (_ && _); [| exact T5]. pose proof (rel_drop h4 w) as D. destruct (trng_demote h4 w) as [h5 w5]. by etrans.
Qed.

Lemma rel_pull : forall rem n h w, R h (trng_pull rem n h w).1.1.
Proof.
  fix IH 1. intros rem n h w. pose proof (rel_word n h w) as T.
  destruct rem as [| [| [| [| rem]]]]; cbn [trng_pull]; [done | ..];
    destruct (trng_word n h w) as [[[[rc | word] n'] h1] w1]; try exact T.
  specialize (IH rem n' h1 w1). destruct (trng_pull rem n' h1 w1) as [[h2 w2] [rc bs]]. etrans; [exact T | exact IH].
Qed.

Lemma rel_trng_read h w len : R h (bridge_hw_trng_read_ h w len).1.1.
Proof.
  unfold bridge_hw_trng_read_. destruct (_ || _); [done |].
  set (x := if trng_started w then _ else _). assert (T1 : R h x.1.2).
  { unfold x. destruct (trng_started w); [done |]. pose proof (rel_trng_start h) as T. by destruct (trng_start h). }
  destruct x as [[up h1] w1]. cbn [fst snd] in T1. destruct (negb up); [exact T1 |].
  set (y := if trng_ready w1 then _ else _). assert (T2 : R h1 y.1.2).
  { unfold y. destruct (trng_ready w1); [done |]. apply (rel_poll_ready R); intros; [apply ind_trng_read | apply ind_trng_do]. }
  destruct y as [[ready h2] w2]. cbn [fst snd] in T2. assert (T : R h h2) by by etrans. destruct (negb ready); [exact T |].
  etrans; [exact T | apply rel_pull].
Qed.

(** Counters. *)
Lemma rel_qenc_reset h e : R h (bridge_hw_qenc_reset_ h e).1.
Proof. unfold bridge_hw_qenc_reset_. destruct (_ <=? e); [done |]. by apply ind_qenc. Qed.

(** The mathematical unit. *)
Lemma rel_end_wait n : forall h, R h (end_wait n h).2.
Proof.
  induction n as [| n IH]; intros h; cbn [end_wait]; [done |]. pose proof (und_tmu_read TMU_FLAG_END h) as T.
  destruct (tmu_reg_read h TMU_FLAG_END) as [v g]. destruct (negb _); [done |]. by etrans.
Qed.

Lemma rel_tmu_result nan mode float post h : R h (tmu_result nan mode float post h).1.
Proof.
  unfold tmu_result. pose proof (und_tmu_read TMU_ODATA h) as T1. destruct (tmu_reg_read h TMU_ODATA) as [v h1]. cbn [snd] in T1.
  destruct (sin_or_cos mode); [| by destruct float]. pose proof (und_tmu_read TMU_ODATA h1) as T2. destruct (tmu_reg_read h1 TMU_ODATA) as [u h2]. by etrans.
Qed.

Lemma rel_tmu nan h fn fmt a b : R h (bridge_hw_tmu_compute_ nan h fn fmt a b).1.
Proof.
  unfold bridge_hw_tmu_compute_. destruct (_ <=? fn); [done |]. destruct (1 <? fmt); [done |].
  destruct (default None _) as [[mode inputs] |]; [| done]. destruct (if fmt =? 0 then _ else _) as [rc | [[scale pre] post]]; [done |].
  set (float := fmt =? 1). destruct (tmu_operands nan mode float pre a b) as [x y]. set (h1 := tmu_do (tmu_do (tmu_do h _) _) _).
  assert (T1 : R h h1) by (etrans; [| apply und_tmu]; etrans; apply und_tmu). set (h2 := if inputs =? 2 then _ else _).
  assert (T2 : R h h2).
  { etrans; [exact T1 |]. unfold h2. destruct (inputs =? 2); [| done]. pose proof (und_tmu_read TMU_CS h1) as T. destruct (tmu_reg_read h1 TMU_CS) as [v g].
    etrans; [exact T | apply und_tmu]. }
  pose proof (rel_end_wait TMU_COMPUTE_TIMEOUT h2) as T3. destruct (end_wait _ h2) as [ended h3]. cbn [snd] in T3. assert (T : R h h3) by by etrans.
  destruct (negb ended); [exact T |]. pose proof (und_tmu_read TMU_FLAG_OVRF h3) as T4. destruct (tmu_reg_read h3 TMU_FLAG_OVRF) as [v h4]. cbn [snd] in T4.
  assert (T5 : R h h4) by by etrans. destruct (v =? 1); [etrans; [exact T5 | apply und_tmu] |]. pose proof (rel_tmu_result nan mode float post h4) as T6.
  destruct (tmu_result nan mode float post h4) as [h5 r]. by etrans.
Qed.

(** Low power. *)
Lemma rel_pws ops h : R h (pw_dos h ops).
Proof. apply (rel_foldl R). intros g op _. apply und_pw. Qed.

Lemma rel_pw_flag r h : R h (pw_flag h r).2.
Proof. unfold pw_flag. pose proof (und_pw_read r h) as T. by destruct (pw_read h r). Qed.

Lemma rel_pw_try r h : R h (pw_try h r).2.
Proof. unfold pw_try. pose proof (und_pw_read r h) as T. by destruct (pw_read h r). Qed.

Lemma rel_irc_wait n : forall h, R h (irc_wait n h).2.
Proof.
  induction n as [| n IH]; intros h; [done |]. destruct n as [| n]; [done |]. change (irc_wait (S (S n)) h) with
    (let '(stable, h) := pw_flag h irc32k_stable in if stable : bool then (true, h) else irc_wait (S n) h).
  pose proof (rel_pw_flag irc32k_stable h) as T. destruct (pw_flag h irc32k_stable) as [b g]. destruct b; [done |]. by etrans.
Qed.

Lemma rel_spin n r : forall h, R h (spin_until n r h).
Proof.
  induction n as [| n IH]; intros h; cbn [spin_until]; [done |]. pose proof (rel_pw_flag r h) as T. destruct (pw_flag h r) as [b g].
  destruct b; [done |]. by etrans.
Qed.

Lemma rel_none_pending l : forall h, R h (none_pending l h).2.
Proof.
  induction l as [| q l IH]; intros h; cbn [none_pending]; [done |]. pose proof (rel_pw_flag (NVIC_GetPendingIRQ q) h) as T.
  destruct (pw_flag h _) as [b g]. destruct b; [done |]. by etrans.
Qed.

Lemma rel_wakeup_init h w : R h (rtc_wakeup_init_once h w).1.2.
Proof.
  unfold rtc_wakeup_init_once. destruct (rtc_wakeup_ready w); [done |]. set (h1 := pw_do h _). assert (T1 : R h h1) by apply und_pw.
  pose proof (rel_irc_wait (Z.to_nat 200000) h1) as T2. destruct (irc_wait _ h1) as [b h2]. cbn [snd] in T2.
  destruct b; cbn [negb fst snd]; (etrans; [exact T1 |]); [etrans; [exact T2 | apply rel_pws] | exact T2].
Qed.

Lemma rel_wakeup_arm h w ms : R h (rtc_wakeup_arm_ms h w ms).1.2.
Proof.
  unfold rtc_wakeup_arm_ms. pose proof (rel_wakeup_init h w) as T1. destruct (rtc_wakeup_init_once h w) as [[ready h1] w1]. cbn [fst snd] in T1.
  destruct (negb ready); [exact T1 |]. destruct (_ <? ms); [exact T1 |]. pose proof (rel_pw_try rtc_wakeup_disable h1) as T2.
  destruct (pw_try h1 _) as [b2 h2]. cbn [snd] in T2. assert (T : R h h2) by by etrans. destruct (negb b2); [exact T |].
  pose proof (rel_pw_try rtc_wakeup_clock_set h2) as T3. destruct (pw_try h2 _) as [b3 h3]. cbn [snd] in T3. assert (T4 : R h h3) by by etrans.
  destruct (negb b3); [exact T4 |]. pose proof (rel_pw_try (rtc_wakeup_timer_set (u16 (wake_ticks ms - 1))) h3) as T5.
  destruct (pw_try h3 _) as [b4 h4]. cbn [snd] in T5. assert (T6 : R h h4) by by etrans. destruct (negb b4); [exact T6 |]. etrans; [exact T6 | apply rel_pws].
Qed.

Lemma rel_power_set h w mode bitmap ms : R h (bridge_hw_power_mode_set_ h w mode bitmap ms).1.1.
Proof.
  unfold bridge_hw_power_mode_set_. destruct (negb (power_wake_bitmap_supported bitmap)); [done |].
  destruct (_ || _); [by destruct (negb (ms =? 0)) |]. destruct (_ || _); [| done].
  set (h1 := pw_dos h _). assert (T1 : R h h1) by apply rel_pws. set (timed := negb (Z.land bitmap _ =? 0)).
  destruct (_ && negb timed); [exact T1 |]. destruct (_ || timed); [| exact T1]. set (t := if negb (ms =? 0) then ms else _).
  pose proof (rel_pw_flag (fmc_obctl_fwdgspd mode) h1) as T2. destruct (pw_flag h1 _) as [counting h2]. cbn [snd] in T2. assert (T : R h h2) by by etrans.
  destruct (_ && _); [exact T |]. pose proof (rel_wakeup_arm h2 w t) as T3. destruct (rtc_wakeup_arm_ms h2 w t) as [[rc h3] w3]. cbn [fst snd] in T3.
  assert (T4 : R h h3) by by etrans. by destruct (negb (rc =? BRIDGE_HW_OK)).
Qed.

Lemma rel_clock_restore h w : R h (bridge_clock_restore_after_deepsleep h w).1.2.
Proof.
  unfold bridge_clock_restore_after_deepsleep. set (h1 := spin_until _ rcu_pllstb _). assert (T1 : R h h1) by (etrans; [apply rel_pws | apply rel_spin]).
  pose proof (rel_pw_flag rcu_pllstb h1) as T2. destruct (pw_flag h1 rcu_pllstb) as [stable h2]. cbn [snd] in T2. assert (T3 : R h h2) by by etrans.
  set (x := if stable then _ else _). assert (T4 : R h2 x.2).
  { unfold x. destruct stable; [| done]. set (h3 := spin_until _ rcu_scss_is_pllp _). assert (T : R h2 h3) by (etrans; [apply und_pw | apply rel_spin]).
    pose proof (rel_pw_flag rcu_scss_is_pllp h3) as T5. destruct (pw_flag h3 rcu_scss_is_pllp) as [ok h4]. cbn [snd] in *. assert (T6 : R h2 h4) by by etrans.
    destruct ok; [exact T6 |]. etrans; [exact T6 | apply und_pw]. }
  destruct x as [ok h5]. cbn [snd] in T4. set (h6 := pw_do h5 _). assert (T6 : R h h6) by (etrans; [exact T3 |]; etrans; [exact T4 | apply und_pw]).
  pose proof (und_pw_read SystemCoreClock h6) as T7. destruct (pw_read h6 SystemCoreClock) as [clock h7]. cbn [fst snd] in *.
  etrans; [exact T6 |]. etrans; [exact T7 | apply rel_pws].
Qed.

Lemma rel_link_quiet h : R h (lp_link_quiet h).2.
Proof.
  unfold lp_link_quiet. pose proof (und_pw_read cs_level h) as T1. destruct (pw_read h cs_level) as [cs h1]. cbn [snd] in T1.
  destruct (negb _); [exact T1 |]. unfold mode_i2c_busy. pose proof (rel_pw_flag i2c_busy_flag h1) as T2. destruct (pw_flag h1 _) as [busy h2]. cbn [snd] in T2.
  assert (T : R h h2) by by etrans. destruct busy; [exact T |]. pose proof (und_pw_read EXTI_PD0 h2) as T3. destruct (pw_read h2 EXTI_PD0) as [pd0 h3]. cbn [snd] in T3.
  assert (T4 : R h h3) by by etrans. destruct (negb _); [exact T4 |]. pose proof (und_pw_read EXTI_PD1 h3) as T5. destruct (pw_read h3 EXTI_PD1) as [pd1 h4].
  cbn [snd] in T5. assert (T6 : R h h4) by by etrans. destruct (negb _); [exact T6 |]. etrans; [exact T6 | apply rel_none_pending].
Qed.

Lemma rel_relock h w : R h (tick_relock h w).1.
Proof.
  unfold tick_relock. destruct (_ =? 0); [done |]. cbv zeta. destruct (negb _); [done |]. set (w1 := set_relock _ _ w).
  pose proof (rel_clock_restore h w1) as T. by destruct (bridge_clock_restore_after_deepsleep h w1) as [[ok h1] w2].
Qed.

Lemma rel_i2c_reinit h : R h (bridge_transport_i2c_hw_init h).2.
Proof. by apply (st_i2c_init R). Qed.

Lemma rel_reinit h w : R h (tick_reinit h w).1.
Proof.
  unfold tick_reinit. destruct (_ =? 0); [done |]. set (h1 := pw_do h _). assert (T1 : R h h1) by apply und_pw. unfold mode_i2c_busy.
  pose proof (rel_pw_flag i2c_busy_flag h1) as T2. destruct (pw_flag h1 _) as [busy h2]. cbn [snd] in T2. set (h3 := if negb busy then _ else h2).
  assert (T3 : R h h3) by (etrans; [exact T1 |]; etrans; [exact T2 |]; unfold h3; destruct busy; [done | apply und_pw]).
  set (h4 := pw_do h3 _). assert (T4 : R h h4) by (etrans; [exact T3 | apply und_pw]). destruct (negb (negb busy)); [exact T4 |].
  pose proof (rel_i2c_reinit h4) as T5. destruct (bridge_transport_i2c_hw_init h4) as [rc h5]. by etrans.
Qed.

Lemma rel_gate trial h w : R h (tick_gate trial h w).1.
Proof.
  unfold tick_gate. destruct (_ =? 0); [done |]. pose proof (und_pw_read cs_level h) as T1. destruct (pw_read h cs_level) as [cs h1]. cbn [snd] in T1.
  destruct (negb _); [exact T1 |]. set (h2 := pw_dos h1 _). assert (T2 : R h h2) by (etrans; [exact T1 | apply rel_pws]). pose proof (rel_link_quiet h2) as T3.
  destruct (lp_link_quiet h2) as [quiet h3]. cbn [snd] in T3. assert (T : R h h3) by by etrans. destruct (negb quiet); [exact T |].
  unfold power_fwdgt_settle_before_lp_entry. set (h4 := pw_dos (if trial then h3 else _) _).
  assert (T4 : R h h4) by (etrans; [exact T |]; etrans; [| apply rel_pws]; destruct trial; [done | apply und_pw]).
  pose proof (und_pw_read systick_ctrl h4) as T5. destruct (pw_read h4 systick_ctrl) as [ctrl h5]. cbn [fst snd] in *. etrans; [exact T4 |]. etrans; [exact T5 | apply rel_pws].
Qed.

Lemma rel_deepsleep ctrl h w : R h (tick_deepsleep ctrl h w).1.
Proof.
  unfold tick_deepsleep. set (h1 := pw_do h _). assert (T1 : R h h1) by apply und_pw. pose proof (rel_link_quiet h1) as T2.
  destruct (lp_link_quiet h1) as [go h2]. cbn [snd] in T2. assert (T3 : R h h2) by by etrans.
  set (x := if go then _ else _). assert (T4 : R h2 x.2).
  { unfold x. destruct go; [| done]. set (h3 := pw_do h2 _). assert (T : R h2 h3) by apply und_pw. pose proof (rel_link_quiet h3) as T5.
    destruct (lp_link_quiet h3) as [go h4]. cbn [snd] in *. assert (T6 : R h2 h4) by by etrans. destruct (negb go); [etrans; [exact T6 | apply und_pw] | exact T6]. }
  destruct x as [go' h5]. cbn [snd] in T4. assert (T5 : R h h5) by by etrans. destruct (negb go'); [etrans; [exact T5 | apply rel_pws] |].
  set (h6 := pw_do h5 _). assert (T6 : R h h6) by (etrans; [exact T5 | apply und_pw]). pose proof (rel_clock_restore h6 w) as T7.
  destruct (bridge_clock_restore_after_deepsleep h6 w) as [[ok h7] w7]. cbn [fst snd] in T7. pose proof (rel_i2c_reinit h7) as T8.
  destruct (bridge_transport_i2c_hw_init h7) as [rc h8]. cbn [snd] in T8. pose proof (und_pw_read rtc_wakeup_disable h8) as T9.
  destruct (pw_read h8 rtc_wakeup_disable) as [v h9]. cbn [fst snd] in *. etrans; [exact T6 |]. etrans; [exact T7 |]. etrans; [exact T8 |].
  etrans; [exact T9 | apply rel_pws].
Qed.

Lemma rel_enter mode ctrl h w : R h (tick_enter mode ctrl h w).1.
Proof.
  unfold tick_enter. destruct (mode =? 2); [apply rel_deepsleep |]. destruct (mode =? 3); [| done]. unfold tick_standby. cbn [fst]. apply rel_pws.
Qed.
End others.
