(* ===== verification/Device.v ===== *)
(** * The whole device: every driver behind [bridge_hw.h]

    The GD32 backend as one implementation of the operations the command table calls:
    one hardware state, the statics of every driver.  From the bring-up on, whatever
    frames arrive, however the filter pump, the stream interrupts, the reference, the
    low-power tick and time come in between, each driver stays in the states its own
    theorems speak of, and the pads carry out what the host commanded by frames. *)

From stdpp Require Import base tactics list numbers option relations.
From Stdlib Require Import SpecFloat.
From S2P Require Import Prelude Wire OtaLayout Flash BridgeHw BootConfig Ota Protocol HalCalls TransportSpi TransportI2c Frame SpiBackend I2cBackend Power Trng Reset DspChain Adc AdcStream AdcSystem DspCoeff DspSpectrum DspPump Drivers Tmu PwmTimer Pwm PwmCapture PwmReach Gpio GpioSafety Init InitStages Board Requests BoardStart.

(** ** The backend *)

Section device.
Context {H : Type} `{!GpioHw H} `{!TimerHw H} `{!AdcHw H} `{!DspHw H} `{!TrngHw H} `{!DacHw H} `{!QencHw H} `{!TmuHw H} `{!PowerHw H}.
(** The library cosine, the point-count codes, the encoding arithmetic gives a NaN, the
    cycle counter. *)
Variables (cosf : spec_float -> spec_float) (codes : fft_point_codes) (nan : Z) (cyccnt : H -> Z).

(** The hardware, the statics of the drivers and the reset snapshot. *)
Record device := Device {
  dv_hw : H; dv_gpio : gpio_sw; dv_pwm : pwm_sw; dv_dsp : dsp_sys; dv_trng : trng_sw; dv_power : power_sw; dv_reset : Z }.

Definition with_hw (h : H) (d : device) : device := Device h (dv_gpio d) (dv_pwm d) (dv_dsp d) (dv_trng d) (dv_power d) (dv_reset d).
Definition with_gpio (h : H) (w : gpio_sw) (d : device) : device := Device h w (dv_pwm d) (dv_dsp d) (dv_trng d) (dv_power d) (dv_reset d).
Definition with_pwm (h : H) (w : pwm_sw) (d : device) : device := Device h (dv_gpio d) w (dv_dsp d) (dv_trng d) (dv_power d) (dv_reset d).
Definition with_dsp (h : H) (y : dsp_sys) (d : device) : device := Device h (dv_gpio d) (dv_pwm d) y (dv_trng d) (dv_power d) (dv_reset d).
Definition with_trng (h : H) (w : trng_sw) (d : device) : device := Device h (dv_gpio d) (dv_pwm d) (dv_dsp d) w (dv_power d) (dv_reset d).
Definition with_power (h : H) (w : power_sw) (d : device) : device := Device h (dv_gpio d) (dv_pwm d) (dv_dsp d) (dv_trng d) w (dv_reset d).

(** The statics of the converters and the chains, inside those of the pump. *)
Definition dv_fw (d : device) : adc_fw := sy_fw (d_sys (dv_dsp d)).
Definition dv_chains (d : device) : list adc_dsp_chain := sy_chains (d_sys (dv_dsp d)).
Definition with_sys_ (h : H) (w : adc_fw) (cs : list adc_dsp_chain) (d : device) : device :=
  with_dsp h (with_sys (AdcSys w cs) (dv_dsp d)) d.
Definition with_fw (h : H) (w : adc_fw) (d : device) : device := with_sys_ h w (dv_chains d) d.

Definition gd32_hw : BridgeHw device := {|
  bridge_hw_reset_reason d := bridge_hw_reset_reason_ (dv_reset d);
  bridge_hw_gpio_read d mask := let '(h, w, r) := bridge_hw_gpio_read_ (dv_hw d) (dv_gpio d) mask in (with_gpio h w d, r);
  bridge_hw_gpio_write d mask levels := let '(h, w, rc) := bridge_hw_gpio_write_ (dv_hw d) (dv_gpio d) mask levels in (with_gpio h w d, rc);
  bridge_hw_pwm_set d c p t := let '(h, w, rc) := bridge_hw_pwm_set_ (dv_hw d) (dv_pwm d) c p t in (with_pwm h w d, rc);
  bridge_hw_pwm_get d c := let '(h, (rc, p, t)) := bridge_hw_pwm_get_ (dv_hw d) (dv_pwm d) c in (with_hw h d, (rc, (p, t)));
  bridge_hw_pwm_configure d c a t k := let '(h, w, rc) := bridge_hw_pwm_configure_ (dv_hw d) (dv_pwm d) c a t k in (with_pwm h w d, rc);
  bridge_hw_adc_read d c n := let '(h, w, r) := bridge_hw_adc_read_ (dv_hw d) (dv_fw d) c n in (with_fw h w d, r);
  bridge_hw_adc_configure d c o s r := let '(w, rc) := bridge_hw_adc_configure_ (dv_fw d) c o s r in (with_fw (dv_hw d) w d, rc);
  bridge_hw_adc_stream_begin d sid c rate := let '(h, w, rc) := bridge_hw_adc_stream_begin_ (dv_hw d) (dv_fw d) sid c rate in (with_fw h w d, rc);
  bridge_hw_adc_stream_read d sid n :=
    let '(h, w, (rc, mv)) := bridge_hw_adc_stream_read_ (dv_hw d) (dv_fw d) sid n in (with_fw h w d, (rc, (Z.of_nat (length mv), mv)));
  bridge_hw_adc_stream_end d sid := let '(h, y, rc) := dsp_stream_end (dv_hw d) (dv_dsp d) sid in (with_dsp h y d, rc);
  bridge_hw_adc_spectrum_read d sid off n :=
    let '(h, y, (rc, seq, total, bins)) := bridge_hw_adc_spectrum_read_ (dv_hw d) (dv_dsp d) sid off n in
    (with_dsp h y d, (rc, Spectrum seq total (Z.of_nat (length bins)) (f32_to_bits nan <$> bins)));
  bridge_hw_trng_read d len := let '(h, w, r) := bridge_hw_trng_read_ (dv_hw d) (dv_trng d) len in (with_trng h w d, r);
  bridge_hw_tmu_compute d f m a c := let '(h, r) := bridge_hw_tmu_compute_ nan (dv_hw d) f m a c in (with_hw h d, r);
  bridge_hw_dac_set d c mv := let '(h, w, rc) := bridge_hw_dac_set_ (dv_hw d) (dv_fw d) c mv in (with_fw h w d, rc);
  bridge_hw_dac_get d c := let '(h, w, r) := bridge_hw_dac_get_ (dv_hw d) (dv_fw d) c in (with_fw h w d, r);
  bridge_hw_qenc_read d e := (d, bridge_hw_qenc_read_ (dv_hw d) e);
  bridge_hw_qenc_reset d e := let '(h, rc) := bridge_hw_qenc_reset_ (dv_hw d) e in (with_hw h d, rc);
  bridge_hw_counter_read d c := (d, bridge_hw_counter_read_ (cyccnt (dv_hw d)) c);
  bridge_hw_da9292_status_cached _ := 0xFF;
  bridge_hw_se_reset d a := let '(h, w, rc) := bridge_hw_se_reset_ (dv_hw d) (dv_gpio d) a in (with_gpio h w d, rc);
  bridge_hw_pwm_capture_begin d c e := let '(h, w, rc) := bridge_hw_pwm_capture_begin_ (dv_hw d) (dv_pwm d) c e in (with_pwm h w d, rc);
  bridge_hw_pwm_capture_read d c := let '(h, w, (rc, p, t)) := bridge_hw_pwm_capture_read_ (dv_hw d) (dv_pwm d) c in (with_pwm h w d, (rc, (p, t)));
  bridge_hw_pwm_capture_end d c := let '(h, w, rc) := bridge_hw_pwm_capture_end_ (dv_hw d) (dv_pwm d) c in (with_pwm h w d, rc);
  bridge_hw_pwm_single_pulse d c p := let '(h, w, rc) := bridge_hw_pwm_single_pulse_ (dv_hw d) (dv_pwm d) c p in (with_pwm h w d, rc);
  bridge_hw_timer_sync d m s mode := let '(h, w, rc) := bridge_hw_timer_sync_ (dv_hw d) (dv_pwm d) m s mode in (with_pwm h w d, rc);
  bridge_hw_power_mode_set d m k ms := let '(h, w, rc) := bridge_hw_power_mode_set_ (dv_hw d) (dv_power d) m k ms in (with_power h w d, rc);
  bridge_hw_adc_dsp_chain_open d := let '(cs, r) := bridge_hw_adc_dsp_chain_open_ (dv_chains d) in (with_sys_ (dv_hw d) (dv_fw d) cs d, r);
  bridge_hw_adc_dsp_stage_push d c i k off total chunk :=
    let '(cs, rc) := bridge_hw_adc_dsp_stage_push_ (dv_chains d) c i k off total chunk in (with_sys_ (dv_hw d) (dv_fw d) cs d, rc);
  bridge_hw_adc_dsp_chain_bind d c sid :=
    let '(cs, l, rc) := bridge_hw_adc_dsp_chain_bind_ (dv_chains d) (adc_streams (dv_fw d)) c sid in
    (with_sys_ (dv_hw d) (set_streams l (dv_fw d)) cs d, rc) |}.

(** What [bridge_hw_init] leaves; the statics of [power.c] are the loader's zeros. *)
Definition boot_device (h : H) (sw : init_sw) (streams : list adc_stream_state) : device :=
  Device h (i_gpio sw) (i_pwm sw) (with_sys (AdcSys (i_adc sw) adc_dsp_chains0) (dsp_init true false streams)) (i_trng sw)
    (PowerSw false 0 0 0 0 (i_clock_hz sw) (i_clock_matches sw)) (i_snapshot sw).
End device.
Arguments device H : clear implicits.

(** ** Which calls disturb what *)

(** Beyond [BoardLaws]: the blocks only requests use name no pin, a read of a PWM timer
    changes none, and no other driver's call touches a PWM timer. *)
Class DeviceLaws (H : Type) `{BoardLaws H} `{!TimerLaws H} `{!DacHw H} `{!TmuHw H} `{!PowerHw H} := {
  dac_set_pins p v h q n : gpio_pin (dac_data_set h p v) q n = gpio_pin h q n;
  dac_get_pins p h q n : gpio_pin (dac_output_value_get h p).2 q n = gpio_pin h q n;
  tmu_do_pins op h q n : gpio_pin (tmu_do h op) q n = gpio_pin h q n;
  tmu_read_pins r h q n : gpio_pin (tmu_reg_read h r).2 q n = gpio_pin h q n;
  pw_do_pins op h q n : gpio_pin (pw_do h op) q n = gpio_pin h q n;
  pw_read_pins r h q n : gpio_pin (pw_read h r).2 q n = gpio_pin h q n;
  tim_read_pins r h q n : gpio_pin (tim_read h r).2 q n = gpio_pin h q n;
  gpio_runs op h : runs_on h (gpio_do h op);
  gpio_get_runs p h : runs_on h (gpio_input_port_get h p).2;
  dev_runs :: Undisturbed (runs_on (H := H)) }.

Section moves.
Context {H : Type} `{DeviceLaws H} `{!DspHw H}.

#[global] Instance keeps_undisturbed : Undisturbed (Board.keeps (H := H)).
Proof.
  split; [apply _ | intros * q m _ ..]; [apply dac_set_pins | apply dac_get_pins | apply tmu_do_pins | apply tmu_read_pins | apply pw_do_pins | apply pw_read_pins].
Qed.

(** Time passes on the PWM timers, and the pins of the board stay. *)
Definition quiet (h h' : H) : Prop := runs_on h h' /\ Board.keeps h h'.

#[global] Instance quiet_preorder : PreOrder quiet.
Proof. split; [by split |]. intros h1 h2 h3 [] []. split; by etrans. Qed.

#[global] Instance quiet_undisturbed : Undisturbed quiet.
Proof.
  split; [split | ..]; intros; split; first [apply ind_init | apply ind_cps | by apply ind_gpio | apply ind_trng_do | apply ind_trng_read
    | apply ind_adc_do | apply ind_adc_read | by apply ind_qenc | apply ind_spi | apply ind_spi_read | apply ind_i2c | apply ind_i2c_read
    | apply und_dac | apply und_dac_read | apply und_tmu | apply und_tmu_read | apply und_pw | apply und_pw_read].
Qed.

Lemma serve_runs r (z : H * gpio_sw) : runs_on z.1 (serve z r).1.
Proof. apply (rel_serve runs_on); [apply gpio_runs | apply gpio_get_runs]. Qed.

Lemma pwm_keeps r (h : H) w : Board.keeps h (pwm_request r h w).1.
Proof. apply (rel_pwm_request Board.keeps); [intros op g; apply keeps_tim | intros r' g q n _; apply tim_read_pins]. Qed.
End moves.

(** ** Every call, every step *)

Section run.
Context {H : Type} `{DeviceLaws H} `{!DspHw H}.
Context {F : Type} `{FlashHal F} `{BuildId}.
Variables (b : app_build) (cosf : spec_float -> spec_float) (codes : fft_point_codes) (nan : Z) (cyccnt : H -> Z).
#[local] Instance dv_backend : BridgeHw (device H) := gd32_hw nan cyccnt.
Implicit Types d : device H.

(** The pad commands of a call. *)
Definition pads_of (r : hal_request) : list gpio_request :=
  match r with
  | HalGpioRead m => [GpioRead m] | HalGpioWrite m l => [GpioWrite m l] | HalSeReset a => [SeReset a] | _ => []
  end.

(** Each driver is where its theorems start, and the pads carry out [s]. *)
Record device_ok (s : commands) d : Prop := {
  ok_pwm : pwm_reach (dv_hw d) (dv_pwm d);
  ok_dsp : dsp_reachable (F := H) cosf codes (dv_dsp d);
  ok_pads : carries_out s (dv_hw d, dv_gpio d) }.

(** A driver that shares nothing: time passes, and its own part moves. *)
Lemma ok_quiet s d d' : quiet (dv_hw d) (dv_hw d') -> dv_pwm d' = dv_pwm d -> dv_gpio d' = dv_gpio d ->
  dsp_reachable (F := H) cosf codes (dv_dsp d') -> device_ok s d -> device_ok s d'.
Proof.
  intros (Rn & K) Ep Eg Hd [P _ C]. split; [rewrite Ep; by apply (reach_time _ _ _ P) | done |]. rewrite Eg. by apply (keeps_carries_out _ (dv_hw d)).
Qed.

Lemma ok_hw s d h : quiet (dv_hw d) h -> device_ok s d -> device_ok s (with_hw h d).
Proof. intros Q Ok. apply (ok_quiet s d); [done.. | apply Ok | done]. Qed.

(** A request of the analog system. *)
Lemma ok_sys s d h w cs : adc_request (H := H) (AdcSys (dv_fw d) (dv_chains d)) (AdcSys w cs) -> quiet (dv_hw d) h ->
  device_ok s d -> device_ok s (with_sys_ h w cs d).
Proof.
  intros Hr Q Ok. apply (ok_quiet s d); [done.. | | done]. cbn [dv_dsp with_sys_ with_dsp].
  apply (dsp_reach_step cosf codes (dv_dsp d)); [apply Ok |]. apply ds_request. unfold dv_fw, dv_chains in Hr. by destruct (d_sys (dv_dsp d)).
Qed.

Lemma ok_fw s d h w : adc_request (H := H) (AdcSys (dv_fw d) (dv_chains d)) (AdcSys w (dv_chains d)) -> quiet (dv_hw d) h ->
  device_ok s d -> device_ok s (with_fw h w d).
Proof. apply ok_sys. Qed.

Lemma ok_dsp_step s d h y : dsp_step (F := H) cosf codes (dv_dsp d) y -> quiet (dv_hw d) h -> device_ok s d -> device_ok s (with_dsp h y d).
Proof. intros Hs Q Ok. apply (ok_quiet s d); [done.. | | done]. apply (dsp_reach_step cosf codes (dv_dsp d)); [apply Ok | done]. Qed.

(** A pad request. *)
Lemma ok_pad s d r : device_ok s d -> let z := serve (dv_hw d, dv_gpio d) r in device_ok (command s r) (with_gpio z.1 z.2 d).
Proof.
  intros [P Hd C] z. split; [| exact Hd |].
  - apply (reach_time _ _ _ P). apply (serve_runs r (dv_hw d, dv_gpio d)).
  - change (carries_out (foldl command s [r]) (z.1, z.2)). rewrite <- surjective_pairing. by apply (serve_commands s _ [r]).
Qed.

(** A PWM request. *)
Lemma ok_pwm_req s d r : req_unsigned r -> device_ok s d ->
  let z := pwm_request r (dv_hw d) (dv_pwm d) in device_ok s (with_pwm z.1 z.2 d).
Proof.
  intros Hr [P Hd C] z. split; [by apply reach_request | exact Hd |]. apply (keeps_carries_out _ (dv_hw d)); [apply pwm_keeps | exact C].
Qed.

(** What a request of the analog outputs does to the reference's statics. *)
Lemma request_none (h : H) w cs : adc_request (H := H) (AdcSys w cs) (AdcSys w cs).
Proof. by apply (req_adc_read h h w w cs (BRIDGE_HW_ERR_INVAL, []) 0 0). Qed.

Lemma dac_set_request (h : H) w cs c mv : adc_request (H := H) (AdcSys w cs) (AdcSys (bridge_hw_dac_set_ h w c mv).1.2 cs).
Proof.
  unfold bridge_hw_dac_set_. destruct (_ <=? c); [by apply request_none |]. destruct (vref_ready_check h w) as [[ready h'] w'] eqn:E.
  destruct (negb ready); by eapply req_vref_ready.
Qed.

Lemma dac_get_request (h : H) w cs c : adc_request (H := H) (AdcSys w cs) (AdcSys (bridge_hw_dac_get_ h w c).1.2 cs).
Proof.
  unfold bridge_hw_dac_get_. destruct (_ <=? c); [by apply request_none |]. destruct (vref_ready_check h w) as [[ready h'] w'] eqn:E.
  destruct (negb ready); [| destruct (dac_output_value_get h' _)]; by eapply req_vref_ready.
Qed.

Lemma hal_do_ok s d r : hal_ok r -> device_ok s d -> device_ok (foldl command s (pads_of r)) (hal_do r d).
Proof.
  intros Hr Ok. unfold hal_do. destruct r; cbn [pads_of foldl hal_ok] in *; unfold is_byte, is_u16, is_u32 in Hr;
    cbn [bridge_hw_gpio_read bridge_hw_gpio_write bridge_hw_pwm_set bridge_hw_pwm_get bridge_hw_pwm_configure bridge_hw_adc_read bridge_hw_adc_configure
      bridge_hw_adc_stream_begin bridge_hw_adc_stream_read bridge_hw_adc_stream_end bridge_hw_adc_spectrum_read bridge_hw_trng_read bridge_hw_tmu_compute
      bridge_hw_dac_set bridge_hw_dac_get bridge_hw_qenc_read bridge_hw_qenc_reset bridge_hw_counter_read bridge_hw_se_reset bridge_hw_pwm_capture_begin
      bridge_hw_pwm_capture_read bridge_hw_pwm_capture_end bridge_hw_pwm_single_pulse bridge_hw_timer_sync bridge_hw_power_mode_set
      bridge_hw_adc_dsp_chain_open bridge_hw_adc_dsp_stage_push bridge_hw_adc_dsp_chain_bind dv_backend gd32_hw].
  - pose proof (ok_pad s d (GpioRead mask0) Ok) as T. cbn [serve fst snd] in T. by destruct (bridge_hw_gpio_read_ _ _ _) as [[h w] x].
  - pose proof (ok_pad s d (GpioWrite mask0 levels) Ok) as T. cbn [serve fst snd] in T. by destruct (bridge_hw_gpio_write_ _ _ _ _) as [[h w] x].
  - pose proof (ok_pwm_req s d (ReqSet channel period_ns duty_ns)) as T. cbn in T. destruct (bridge_hw_pwm_set_ _ _ _ _ _) as [[h w] x]. by apply T; [lia |].
  - pose proof (ok_pwm_req s d (ReqGet channel)) as T. cbn in T. destruct (bridge_hw_pwm_get_ _ _ _) as [h [[rc p] t]]. by apply T; [lia |].
  - pose proof (ok_pwm_req s d (ReqConfigure channel align_mode dead_time_ns break_cfg)) as T. cbn in T. destruct (bridge_hw_pwm_configure_ _ _ _ _ _ _) as [[h w] x]. by apply T; [lia |].
  - pose proof (rel_adc_read quiet (dv_hw d) (dv_fw d) channel samples) as Q. destruct (bridge_hw_adc_read_ _ _ _ _) as [[h w] x] eqn:E.
    apply ok_fw; [| exact Q | done]. unfold GD32_BRIDGE_ADC_MAX_SAMPLES in Hr. eapply req_adc_read, E; lia.
  - destruct (bridge_hw_adc_configure_ _ _ _ _ _) as [w rc] eqn:E. apply ok_fw; [| done | done]. destruct Hr as (? & ? & ? & ? & _).
    eapply (req_adc_configure _ _ _ _ channel ratio cycles bits); unfold is_u16; [lia.. | exact E].
  - pose proof (rel_stream_begin quiet (dv_hw d) (dv_fw d) stream_id channel rate) as Q. destruct (bridge_hw_adc_stream_begin_ _ _ _ _ _) as [[h w] x] eqn:E.
    apply ok_fw; [| exact Q | done]. eapply req_stream_begin, E; lia.
  - pose proof (rel_stream_read quiet (dv_hw d) (dv_fw d) stream_id max_samples) as Q. destruct (bridge_hw_adc_stream_read_ _ _ _ _) as [[h w] [rc mv]] eqn:E.
    apply ok_fw; [| exact Q | done]. eapply req_stream_read, E.
  - pose proof (rel_dsp_end quiet (dv_dsp d) stream_id (dv_hw d)) as Q. pose proof (ds_stream_end cosf codes (dv_hw d) (dv_dsp d) stream_id ltac:(lia)) as St.
    destruct (dsp_stream_end _ _ _) as [[h y] rc]. by apply ok_dsp_step.
  - pose proof (rel_spectrum quiet (dv_dsp d) stream_id bin_offset max_bins (dv_hw d)) as Q.
    pose proof (ds_spectrum_read cosf codes (dv_hw d) (dv_dsp d) stream_id bin_offset max_bins ltac:(lia)) as St.
    destruct (bridge_hw_adc_spectrum_read_ _ _ _ _ _) as [[h y] [[[rc seq] total] bins]]. by apply ok_dsp_step.
  - pose proof (rel_trng_read quiet (dv_hw d) (dv_trng d) len) as Q. destruct (bridge_hw_trng_read_ _ _ _) as [[h w] x]. by apply (ok_quiet s d); try done; apply Ok.
  - pose proof (rel_tmu quiet nan (dv_hw d) function format in_a in_b) as Q. destruct (bridge_hw_tmu_compute_ _ _ _ _ _ _) as [h x]. by apply ok_hw.
  - pose proof (rel_dac_set quiet (dv_hw d) (dv_fw d) channel value_mv) as Q. pose proof (dac_set_request (dv_hw d) (dv_fw d) (dv_chains d) channel value_mv) as Rq.
    destruct (bridge_hw_dac_set_ _ _ _ _) as [[h w] x]. by apply ok_fw.
  - pose proof (rel_dac_get quiet (dv_hw d) (dv_fw d) channel) as Q. pose proof (dac_get_request (dv_hw d) (dv_fw d) (dv_chains d) channel) as Rq.
    destruct (bridge_hw_dac_get_ _ _ _) as [[h w] x]. by apply ok_fw.
  - exact Ok.
  - pose proof (rel_qenc_reset quiet (dv_hw d) encoder) as Q. destruct (bridge_hw_qenc_reset_ _ _) as [h x]. by apply ok_hw.
  - exact Ok.
  - pose proof (ok_pad s d (SeReset assert) Ok) as T. cbn [serve fst snd] in T. by destruct (bridge_hw_se_reset_ _ _ _) as [[h w] x].
  - pose proof (ok_pwm_req s d (ReqCaptureBegin channel edge)) as T. cbn in T. destruct (bridge_hw_pwm_capture_begin_ _ _ _ _) as [[h w] x]. by apply T; [lia |].
  - pose proof (ok_pwm_req s d (ReqCaptureRead channel)) as T. cbn in T. destruct (bridge_hw_pwm_capture_read_ _ _ _) as [[h w] [[rc p] t]]. by apply T; [lia |].
  - pose proof (ok_pwm_req s d (ReqCaptureEnd channel)) as T. cbn in T. destruct (bridge_hw_pwm_capture_end_ _ _ _) as [[h w] x]. by apply T; [lia |].
  - pose proof (ok_pwm_req s d (ReqSinglePulse channel pulse_ns)) as T. cbn in T. destruct (bridge_hw_pwm_single_pulse_ _ _ _ _) as [[h w] x]. by apply T; [lia |].
  - pose proof (ok_pwm_req s d (ReqSync master slave mode)) as T. cbn in T. destruct (bridge_hw_timer_sync_ _ _ _ _ _) as [[h w] x]. by apply T.
  - pose proof (rel_power_set quiet (dv_hw d) (dv_power d) mode wake_bitmap wake_after_ms) as Q. destruct (bridge_hw_power_mode_set_ _ _ _ _ _) as [[h w] x].
    by apply (ok_quiet s d); try done; apply Ok.
  - destruct (bridge_hw_adc_dsp_chain_open_ _) as [cs x] eqn:E. apply ok_sys; [by eapply req_chain_open | done | done].
  - destruct (bridge_hw_adc_dsp_stage_push_ _ _ _ _ _ _ _) as [cs x] eqn:E. apply ok_sys; [eapply req_stage_push, E; lia | done | done].
  - destruct (bridge_hw_adc_dsp_chain_bind_ _ _ _ _) as [[cs l] x] eqn:E. apply ok_sys; [eapply req_chain_bind, E; lia | done | done].
Qed.

(** ** Between the frames *)

(** One step of the pump, a stream's interrupt, the reference's tick, the pieces of the
    low-power tick between which a frame may come, and anything quiet: time, the links'
    handlers, the accelerators. *)
Inductive device_step : device H -> device H -> Prop :=
  | dev_pump d : device_step d (with_dsp (dv_hw d) (pump_step cosf codes (dv_hw d) (dv_dsp d)) d)
  | dev_dma_irq d i slot : adc_streams (dv_fw d) !! i = Some slot ->
      let x := dma_irq_handler (dv_hw d) slot (Z.of_nat i) in
      device_step d (with_fw x.1 (set_streams (<[i := x.2]> (adc_streams (dv_fw d))) (dv_fw d)) d)
  | dev_vref d : let x := vref_late_tick (dv_hw d) (dv_fw d) in device_step d (with_fw x.1 x.2 d)
  | dev_relock d : let x := tick_relock (dv_hw d) (dv_power d) in device_step d (with_power x.1 x.2 d)
  | dev_reinit d : let x := tick_reinit (dv_hw d) (dv_power d) in device_step d (with_power x.1 x.2 d)
  | dev_gate trial d : device_step d (with_hw (tick_gate trial (dv_hw d) (dv_power d)).1 d)
  | dev_enter mode ctrl d : let x := tick_enter mode ctrl (dv_hw d) (dv_power d) in device_step d (with_power x.1 x.2 d)
  | dev_quiet d h : quiet (dv_hw d) h -> device_step d (with_hw h d).

Lemma ok_power s d h w : quiet (dv_hw d) h -> device_ok s d -> device_ok s (with_power h w d).
Proof. intros Q Ok. apply (ok_quiet s d); [done.. | apply Ok | done]. Qed.

Lemma step_ok s d d' : device_step d d' -> device_ok s d -> device_ok s d'.
Proof.
  intros St Ok. destruct St as [d | d i slot Es x | d x | d x | d x | trial d | mode ctrl d x | d h Q].
  - apply ok_dsp_step; [apply ds_pump | done | done].
  - apply ok_fw; [| apply (rel_dma_irq quiet) | done]. eapply req_dma_irq; [exact Es | apply surjective_pairing].
  - apply ok_fw; [| apply (rel_late_tick quiet) | done]. eapply req_vref_tick, surjective_pairing.
  - by apply ok_power; [apply (rel_relock quiet) |].
  - by apply ok_power; [apply (rel_reinit quiet) |].
  - by apply ok_hw; [apply (rel_gate quiet) |].
  - by apply ok_power; [apply (rel_enter quiet) |].
  - by apply ok_hw.
Qed.
End run.
