(* ===== verification/Firmware.v ===== *)
(** * The firmware: links, command layer and drivers as one machine

    Bytes and edges on the two links, frames through [protocol_dispatch] to the GD32
    drivers of [Device], and the base level in between, from the bring-up of [main]
    on.  What the host commands is read off the bytes it sent. *)

From stdpp Require Import base tactics list numbers option relations.
From Stdlib Require Import SpecFloat.
From S2P Require Import Prelude Crc Wire OtaLayout Flash BridgeHw BootConfig Ota Protocol HalCalls Frame TransportSpi TransportI2c SpiBackend I2cBackend DspChain Adc AdcStream AdcSystem DspCoeff DspSpectrum DspPump PwmTimer Pwm PwmReach Gpio GpioSafety Init Board Requests BoardStart Device.

(** ** The frame a link holds *)

(** Opcode and payload of a well-formed frame in the receive buffer. *)
Definition spi_frame (t : spi) : option (Z * list Z) :=
  let rx := spi_rx_buf t in
  let n := Z.to_nat (spi_rx_len t - 4) in
  when (negb (spi_rx_len t <? 4) && (rx.[0] =? GD32_BRIDGE_SOF) && (le16 (drop (2 + n) rx) =? crc16_ccitt_false (take (2 + n) rx)))
    (rx.[1], take n (drop 2 rx)).

(** Also not yet dispatched, and not rejected before. *)
Definition i2c_frame (u : i2c) : option (Z * list Z) :=
  let rx := i2c_rx_buf u in
  let n := Z.to_nat (i2c_rx_len u - 4) in
  when (negb (pending_reply_valid u || frame_rejected u) && negb (i2c_rx_len u <? 4) && (rx.[0] =? GD32_BRIDGE_I2C_REG_CMD) &&
        (le16 (drop (2 + n) rx) =? crc16_ccitt_false (take (1 + n) (drop 1 rx))))
    (rx.[1], take n (drop 2 rx)).

Section frames.
Context {St : Type} `{Dispatcher St}.

Definition dispatched (link : gd32_bridge_link) (o : option (Z * list Z)) (s : St) : St :=
  match o with Some (cmd, req) => (dispatch link cmd req GD32_BRIDGE_MAX_PAYLOAD_BYTES s).1 | None => s end.

(** A link's call dispatches the frame it holds, at the rising edge of the select or
    at a STOP, and nothing else. *)
Lemma spi_exec_frame c (t : spi) (s : St) :
  (spi_exec c (t, s)).2 = dispatched GD32_BRIDGE_LINK_SPI (match c with CsHigh => spi_frame t | _ => None end) s.
Proof.
  destruct c; try done. cbn [spi_exec fst snd]. unfold spi_slave_cs_high, decode_and_dispatch, spi_frame.
  destruct (Z.eqb_spec (spi_rx_len t) 0) as [E | _]; [by rewrite E |].
  destruct (_ =? GD32_BRIDGE_SOF); cbn [negb andb]; [| rewrite andb_false_r; by destruct (existsb _ _)].
  destruct (spi_rx_len t <? 4); [done |]. cbn [negb andb]. destruct (le16 _ =? _); [| done]. cbn [negb when dispatched].
  by destruct (dispatch _ _ _ _ _).
Qed.

Lemma i2c_exec_frame c (u : i2c) (s : St) :
  (i2c_exec c (u, s)).2 = dispatched GD32_BRIDGE_LINK_I2C (match c with WriteEnd => i2c_frame u | _ => None end) s.
Proof.
  destruct c; try done. cbn [i2c_exec fst snd]. unfold i2c_slave_write_end, i2c_frame.
  destruct (_ || frame_rejected u); [done |]. cbn [negb andb]. destruct (i2c_rx_len u <? 4); [done |].
  destruct (_ =? GD32_BRIDGE_I2C_REG_CMD); [| done]. cbn [negb andb orb]. destruct (le16 _ =? _); [| done]. cbn [negb when dispatched].
  by destruct (dispatch _ _ _ _ _).
Qed.

(** The receive buffers hold bytes. *)
Lemma spi_exec_bytes c (x : spi * St) : bytes_ok (spi_rx_buf x.1) -> bytes_ok (spi_rx_buf (spi_exec c x).1).
Proof.
  destruct x as [t s]. intros Hb. cbn [fst] in Hb.
  destruct c; cbn [spi_exec fst snd]; try done; try apply Forall_nil_2.
  - unfold spi_slave_rx_byte. destruct (_ <? _); [| done]. apply Forall_app_2; [done |]. apply Forall_cons_2; [apply u8_byte | apply Forall_nil_2].
  - assert (R : spi_rx_buf (drain_rewind s t) = spi_rx_buf t) by (unfold drain_rewind; by case_match).
    unfold spi_slave_cs_high, decode_and_dispatch. destruct (_ =? 0); [cbn [fst]; by rewrite R |].
    destruct (negb _); [destruct (existsb _ _); [done | cbn [fst]; by rewrite R] |]. destruct (_ <? 4); [done |]. cbv zeta. destruct (negb _); [done |].
    by destruct (dispatch _ _ _ _ _).
  - unfold spi_slave_tx_next_byte. by destruct (_ <? _).
Qed.

Lemma i2c_exec_bytes c (x : i2c * St) : bytes_ok (i2c_rx_buf x.1) -> bytes_ok (i2c_rx_buf (i2c_exec c x).1).
Proof.
  destruct x as [u s]. intros Hb. cbn [fst] in Hb.
  destruct c; cbn [i2c_exec fst snd]; try done; try apply Forall_nil_2.
  - unfold i2c_slave_rx_byte. destruct (_ <? _); [| done]. apply Forall_app_2; [done |]. apply Forall_cons_2; [apply u8_byte | apply Forall_nil_2].
  - unfold i2c_slave_write_end. destruct (_ || frame_rejected u); [by destruct (_ || _) |]. destruct (_ || _); [done |]. cbv zeta.
    destruct (negb _); [done |]. by destruct (dispatch _ _ _ _ _).
  - unfold i2c_slave_tx_next_byte. cbv zeta. destruct (negb _ && _); by destruct (_ <? _).
Qed.
End frames.

Lemma spi_frame_bytes t cmd req : bytes_ok (spi_rx_buf t) -> spi_frame t = Some (cmd, req) -> bytes_ok req.
Proof. intros Hb (_ & [= _ <-])%when_some. by apply Forall_take, Forall_drop. Qed.

Lemma i2c_frame_bytes u cmd req : bytes_ok (i2c_rx_buf u) -> i2c_frame u = Some (cmd, req) -> bytes_ok req.
Proof. intros Hb (_ & [= _ <-])%when_some. by apply Forall_take, Forall_drop. Qed.

(** ** The machine *)

Section firmware.
Context {H : Type} `{DeviceLaws H} `{!DspHw H}.
Context {F : Type} `{FlashHal F} `{BuildId}.
Variables (b : app_build) (cosf : spec_float -> spec_float) (codes : fft_point_codes) (nan : Z) (cyccnt : H -> Z).
#[local] Instance fw_backend : BridgeHw (device H) := gd32_hw nan cyccnt.
#[local] Instance fw_dispatcher : Dispatcher (bridge F (device H)) := protocol_dispatcher b.

Record firmware := Firmware { fw_bridge : bridge F (device H); fw_spi : spi; fw_i2c : i2c }.
Implicit Types y : firmware.

(** The pad commands of a frame that is dispatched in state [s]. *)
Definition frame_commands (s : bridge F (device H)) (o : option (Z * list Z)) : list gpio_request :=
  match o with
  | Some (cmd, req) => match request_of s cmd req GD32_BRIDGE_MAX_PAYLOAD_BYTES with Some r => pads_of r | None => [] end
  | None => []
  end.

(** What happens, with the pad commands the frames carried: the calls of the two links
    in any order, steps of the device between any two of them, and whatever the rest of
    the base level does to the flash, the update session and the stored setting. *)
Inductive fw_run (y0 : firmware) : list gpio_request -> firmware -> Prop :=
  | run_start : fw_run y0 [] y0
  | run_spi rs y c : fw_run y0 rs y ->
      let x := spi_exec c (fw_spi y, fw_bridge y) in
      fw_run y0 (rs ++ frame_commands (fw_bridge y) (match c with CsHigh => spi_frame (fw_spi y) | _ => None end)) (Firmware x.2 x.1 (fw_i2c y))
  | run_i2c rs y c : fw_run y0 rs y ->
      let x := i2c_exec c (fw_i2c y, fw_bridge y) in
      fw_run y0 (rs ++ frame_commands (fw_bridge y) (match c with WriteEnd => i2c_frame (fw_i2c y) | _ => None end)) (Firmware x.2 (fw_spi y) x.1)
  | run_device rs y d : fw_run y0 rs y -> device_step cosf codes (br_hw (fw_bridge y)) d ->
      fw_run y0 rs (Firmware (set_hw d (fw_bridge y)) (fw_spi y) (fw_i2c y))
  | run_other rs y s : fw_run y0 rs y -> br_hw s = br_hw (fw_bridge y) -> fw_run y0 rs (Firmware s (fw_spi y) (fw_i2c y)).

Lemma dispatched_ok c link o s : (forall cmd req, o = Some (cmd, req) -> bytes_ok req) ->
  device_ok cosf codes c (br_hw s) -> device_ok cosf codes (foldl command c (frame_commands s o)) (br_hw (dispatched link o s)).
Proof.
  intros Hb Ok. destruct o as [[cmd req] |]; [| exact Ok]. cbn [frame_commands dispatched dispatch fw_dispatcher protocol_dispatcher].
  rewrite dispatch_calls by (done || by apply (Hb cmd)). unfold request_of. destruct (_ || _); [exact Ok |].
  destruct (cmd_of_code cmd) as [x |]; [| exact Ok]. destruct (decode x req _) as [r |] eqn:E; [| exact Ok].
  apply hal_do_ok; [| exact Ok]. apply (decode_ok x req GD32_BRIDGE_MAX_PAYLOAD_BYTES); [by apply (Hb cmd) | exact E].
Qed.

(** What every state of a run keeps. *)
Record fw_ok (c : commands) y : Prop := {
  fo_device : device_ok cosf codes c (br_hw (fw_bridge y));
  fo_spi : bytes_ok (spi_rx_buf (fw_spi y));
  fo_i2c : bytes_ok (i2c_rx_buf (fw_i2c y)) }.

Lemma fw_run_ok c y0 rs y : fw_ok c y0 -> fw_run y0 rs y -> fw_ok (foldl command c rs) y.
Proof.
  intros Ok R. induction R as [| rs y k R IH x | rs y k R IH x | rs y d R IH St | rs y s R IH E]; [exact Ok | ..]; destruct IH as [Hd Hs Hi]; rewrite ?foldl_app.
  - split; cbn [fw_bridge fw_spi fw_i2c]; [| by apply (spi_exec_bytes k (fw_spi y, fw_bridge y)) | exact Hi]. unfold x. rewrite spi_exec_frame.
    apply dispatched_ok; [| exact Hd]. intros cmd req Ef. destruct k; try discriminate Ef. by apply (spi_frame_bytes (fw_spi y) cmd).
  - split; cbn [fw_bridge fw_spi fw_i2c]; [| exact Hs | by apply (i2c_exec_bytes k (fw_i2c y, fw_bridge y))]. unfold x. rewrite i2c_exec_frame.
    apply dispatched_ok; [| exact Hd]. intros cmd req Ef. destruct k; try discriminate Ef. by apply (i2c_frame_bytes (fw_i2c y) cmd).
  - split; [| done..]. by apply (step_ok cosf codes _ (br_hw (fw_bridge y))).
  - split; cbn [fw_bridge]; [| done..]. by rewrite E.
Qed.

(** The links start with empty buffers. *)
Lemma links_reset (f : F) chip0 streams t u (h0 : H) :
  let '(_, _, _, (_, t'), u') := main_bring_up f chip0 streams t u h0 in t' = transport_spi_init t /\ u' = transport_i2c_init u.
Proof.
  unfold main_bring_up. destruct (bridge_hw_init f chip0 streams h0) as [[h1 chip1] sw]. destruct (bridge_transport_spi_hw_init h1 spi_hw0) as [h2 x].
  by destruct (bridge_transport_i2c_hw_init h2) as [st h3].
Qed.

Lemma fw_boot_ok (f : F) chip0 streams t u h0 s0 : Forall idle_slot streams -> length streams = 2%nat -> at_reset h0 ->
  let '(h, _, sw, (_, t'), u') := main_bring_up f chip0 streams t u h0 in
  br_hw s0 = boot_device h sw streams -> fw_ok (boot_commands (stored_flags f)) (Firmware s0 t' u').
Proof.
  intros Hs Hl Ha. pose proof (main_carries_out f chip0 streams t u h0 Ha) as C.
  pose proof (drivers_start f chip0 streams t u h0 cosf codes Hs Hl) as T. pose proof (links_reset f chip0 streams t u h0) as L.
  destruct (main_bring_up f chip0 streams t u h0) as [[[[h chip1] sw] [x t']] u']. destruct T as (P & ok & Hd), L as (-> & ->). intros E.
  split; [cbn [fw_bridge]; rewrite E; by split | apply Forall_nil_2 ..].
Qed.

(** C35. The whole firmware carries out what the host sends.  From the bring-up of [main]
    on, whatever every block answered, through any calls of the two links, their frames
    through the command table to the drivers, steps of the filter pump, stream
    interrupts, reference and low-power ticks and passing time between any two of them:
    the pads carry out the commands of the well-formed frames received so far, on top of
    those of the boot; and the PWM and the converters with their streams, chains and
    pump are in reachable states of their components, so that each component's theorems
    hold in the composition. *)
Theorem firmware_carries_out_frames (f : F) chip0 streams t u h0 s0 rs y :
  Forall idle_slot streams -> length streams = 2%nat -> at_reset h0 ->
  let '(h, _, sw, (_, t'), u') := main_bring_up f chip0 streams t u h0 in
  br_hw s0 = boot_device h sw streams -> fw_run (Firmware s0 t' u') rs y ->
  let d := br_hw (fw_bridge y) in
  carries_out (foldl command (boot_commands (stored_flags f)) rs) (dv_hw d, dv_gpio d) /\
  pwm_reach (dv_hw d) (dv_pwm d) /\ dsp_reachable (F := H) cosf codes (dv_dsp d).
Proof.
  intros Hs Hl Ha. pose proof (fw_boot_ok f chip0 streams t u h0 s0 Hs Hl Ha) as Ok.
  destruct (main_bring_up f chip0 streams t u h0) as [[[[h chip1] sw] [x t']] u']. intros E R.
  destruct (fw_run_ok _ _ _ _ (Ok E) R) as [[P Hd C] _ _]. by split.
Qed.
End firmware.
Arguments firmware H F : clear implicits.

