(* ===== verification/Samples.v ===== *)
(** * Concrete flash contents for evaluation

    A part that runs slot A, with one confirmed metadata record, and images
    that satisfy the bootability and trial-marker checks.  The witnesses of the
    OTA theorems run the model on these. *)

From stdpp Require Import base tactics list numbers option.
From S2P Require Import Prelude Crc Wire OtaLayout Flash BootDecide Ota OtaMeta OtaSafety.
From S2P Require Import OtaSession OtaUpdate OtaTrial.

(** Stack pointer, reset vector inside the image, zeros up to the marker. *)
Definition sample_image (base : Z) : list Z :=
  put32 0x20001000 ++ put32 (base + 0x41) ++ replicate 56 0 ++
  OTA_TRIAL_MARKER_MAGIC_BYTES ++ put16 1 ++ put16 1.
Definition img_a : list Z := Eval vm_compute in sample_image OTA_SLOT_A_BASE.
Definition img_b : list Z := Eval vm_compute in sample_image OTA_SLOT_B_BASE.
Definition img_len0 : Z := 84.

(** Slot A active, valid, confirmed. *)
Definition rec_a : ota_meta_record := Eval vm_compute in
  seal (Meta OTA_META_MAGIC OTA_META_STRUCT_VER 5 0 1 0 0 (0x10000, 0) (img_len0, 0)
          (ota_crc32 0 (sample_image OTA_SLOT_A_BASE), 0) 0).
(** Both slots valid, slot B active on trial (newer). *)
Definition rec_b : ota_meta_record := Eval vm_compute in
  seal (Meta OTA_META_MAGIC OTA_META_STRUCT_VER 6 1 3 1 0 (0x10000, 0x10100) (img_len0, img_len0)
          (ota_crc32 0 (sample_image OTA_SLOT_A_BASE), ota_crc32 0 (sample_image OTA_SLOT_B_BASE)) 0).
(** Slot A active on trial, slot B valid. *)
Definition rec_a_trial : ota_meta_record := Eval vm_compute in
  seal (Meta OTA_META_MAGIC OTA_META_STRUCT_VER 7 0 3 1 0 (0x10200, 0x10100) (img_len0, img_len0)
          (ota_crc32 0 (sample_image OTA_SLOT_A_BASE), ota_crc32 0 (sample_image OTA_SLOT_B_BASE)) 0).

Definition place (base : Z) (l : list Z) (rest : Z -> Z) (a : Z) : Z :=
  if (base <=? a) && (a <? base + Z.of_nat (length l)) then l.[a - base] else rest a.
Definition blank (a : Z) : Z := 0xFF.

Definition flash_of (rec0 rec1 : option ota_meta_record) : plain_flash :=
  let put p r := match r with Some r => place p (meta_bytes r) | None => fun m => m end in
  PlainFlash (put OTA_META_REC0 rec0 (put OTA_META_REC1 rec1
    (place OTA_SLOT_A_BASE img_a (place OTA_SLOT_B_BASE img_b blank)))) false 3.

(** Running slot A, confirmed; slot B holds a valid image without a record. *)
Definition flash_a : plain_flash := flash_of (Some rec_a) None.
(** The bootloader rejected slot B's trial and fell back to slot A. *)
Definition flash_fallback : plain_flash := flash_of (Some rec_a) (Some rec_b).
(** Running slot A on trial. *)
Definition flash_trial : plain_flash := flash_of (Some rec_a_trial) (Some rec_b).

#[export] Instance sample_hal : FlashHal plain_flash := plain_hal SlotABuild.
#[export] Instance sample_laws : FlashLaws plain_flash SlotABuild := plain_laws SlotABuild.
#[export] Instance sample_healthy : FlashHealthy plain_flash SlotABuild plain_healthy :=
  plain_healthy_laws SlotABuild.

Lemma place_byte base l rest :
  bytes_ok l -> (forall a, is_byte (rest a)) -> forall a, is_byte (place base l rest a).
Proof. intros Hl Hr a. unfold place. case_match; [by apply at_byte | apply Hr]. Qed.

(** Decides [bytes_ok] of a concrete list. *)
Definition bytes_okb (l : list Z) : bool := forallb (fun b => (0 <=? b) && (b <? 0x100)) l.
Lemma bytes_okb_spec l : bytes_okb l = true -> bytes_ok l.
Proof.
  intros Hl. apply List.Forall_forall. intros x Hx. unfold bytes_okb in Hl. rewrite forallb_forall in Hl.
  apply Hl in Hx. unfold is_byte. lia.
Qed.

Lemma flash_of_healthy r0 r1 :
  (forall r, r0 = Some r -> bytes_okb (meta_bytes r) = true) ->
  (forall r, r1 = Some r -> bytes_okb (meta_bytes r) = true) ->
  plain_healthy (flash_of r0 r1).
Proof.
  intros H0 H1. split; [done |]. unfold flash_of; cbn [pf_mem].
  set (m := place OTA_SLOT_A_BASE img_a (place OTA_SLOT_B_BASE img_b blank)).
  assert (Hs : forall a, is_byte (m a)).
  { unfold m. repeat (apply place_byte; [apply bytes_okb_spec; vm_compute; reflexivity |]).
    intros a. unfold is_byte, blank. lia. }
  clearbody m. destruct r0 as [r0 |], r1 as [r1 |];
    repeat (apply place_byte; [apply bytes_okb_spec; auto |]); exact Hs.
Qed.

Lemma flash_a_healthy : plain_healthy flash_a.
Proof. apply flash_of_healthy; intros ? [= <-]; vm_compute; reflexivity. Qed.
Lemma flash_fallback_healthy : plain_healthy flash_fallback.
Proof. apply flash_of_healthy; intros ? [= <-]; vm_compute; reflexivity. Qed.
Lemma flash_trial_healthy : plain_healthy flash_trial.
Proof. apply flash_of_healthy; intros ? [= <-]; vm_compute; reflexivity. Qed.

Definition st0 : ota := ota_init SlotABuild.

Lemma st0_inv f : session_inv SlotABuild f st0.
Proof.
  split; simpl; try done. by intros [|[|]].
Qed.
