(* ===== verification/OtaWitness.v ===== *)
(** * The OTA theorems at concrete inputs

    Each witness applies one theorem to the flash contents of [Samples], with
    its hypotheses discharged by evaluation. *)

From stdpp Require Import base tactics list numbers option.
From S2P Require Import Prelude Crc Wire OtaLayout Flash BootDecide Ota OtaMeta OtaSafety.
From S2P Require Import OtaSession OtaUpdate OtaTrial Samples.

(** A two-step run: boot, then an accepted BEGIN. *)
Definition begin_bytes : list Z := begin_req img_len0 (ota_crc32 0 img_b) 1 1 0.
Definition boot_a : plain_flash * ota := ota_boot_init SlotABuild flash_a (ota_init SlotABuild).
Definition begun_a : plain_flash * ota * reply := h_begin SlotABuild flash_a st0 begin_bytes 65.
Definition dispatched_a : plain_flash * ota * reply :=
  ota_dispatch SlotABuild boot_a.1 boot_a.2 (cmd_code CMD_OTA_BEGIN) begin_bytes 65.
Definition y_boot : sys plain_flash := Sys boot_a.1 boot_a.2 None 0.
Definition y_begun : sys plain_flash := Sys dispatched_a.1.1 dispatched_a.1.2 None (0 + 1).

Lemma triple_eta {A B C} (x : A * B * C) : x = (x.1.1, x.1.2, x.2).
Proof. by destruct x as [[? ?] ?]. Qed.
Lemma quad_eta {A B C D} (x : A * B * (C * D)) : x = (x.1.1, x.1.2, (x.2.1, x.2.2)).
Proof. by destruct x as [[? ?] [? ?]]. Qed.

Lemma y_boot_reachable : reachable SlotABuild flash_a y_boot.
Proof. apply reach_init. apply surjective_pairing. Qed.
Lemma y_begun_step : ota_step SlotABuild y_boot y_begun.
Proof.
  assert (Hd : ota_dispatch SlotABuild boot_a.1 boot_a.2 (cmd_code CMD_OTA_BEGIN) begin_bytes 65 =
               (dispatched_a.1.1, dispatched_a.1.2, dispatched_a.2)) by exact (triple_eta dispatched_a).
  unfold y_boot, y_begun. generalize dependent dispatched_a. generalize boot_a.
  intros x y Hd. apply (step_dispatch SlotABuild x.1 x.2 None 0 (cmd_code CMD_OTA_BEGIN) begin_bytes 65 y.1.1 y.1.2 y.2).
  - apply bytes_okb_spec. vm_compute. reflexivity.
  - lia.
  - exact Hd.
Qed.
Lemma y_begun_reachable : reachable SlotABuild flash_a y_begun.
Proof. eapply reach_step; [apply y_boot_reachable | left; apply y_begun_step]. Qed.

Lemma ota_writes_confined_witness :
  s_state (sy_s y_begun) = OTA_ST_BUSY /\
  flash_byte (sy_f y_begun) OTA_SLOT_A_BASE = flash_byte (sy_f y_boot) OTA_SLOT_A_BASE.
Proof.
  split; [vm_compute; reflexivity |].
  apply (ota_writes_confined (b := SlotABuild) flash_a y_boot y_begun OTA_SLOT_A_BASE
           y_boot_reachable y_begun_step).
  left. right. split; vm_compute; congruence.
Defined.

Lemma ota_session_sound_witness :
  s_state (sy_s y_begun) = OTA_ST_BUSY /\ s_erasing (sy_s y_begun) = true.
Proof.
  split; [vm_compute; reflexivity |].
  apply (ota_session_sound (b := SlotABuild) flash_a y_begun y_begun_reachable).
  vm_compute. reflexivity.
Defined.

(** The running slot A was booted from its record in page 0. *)
Lemma flash_a_booted : booted_from (b := SlotABuild) flash_a OTA_META_REC0 rec_a.
Proof.
  split; [by left | split; vm_compute; reflexivity | reflexivity |].
  intros r' Hr. exfalso. revert Hr. vm_compute. discriminate.
Qed.

Definition erased_at (f : plain_flash) (p : Z) : plain_flash := (ota_fmc_erase_range f p OTA_PAGE_SIZE).1.
Lemma erased_at_frame f p : is_meta_page p -> flash_frame f (erased_at f p) p OTA_PAGE_SIZE.
Proof.
  intros Hp. apply (fl_erase_frame (b := SlotABuild)).
  destruct Hp as [-> | ->]; repeat split; vm_compute; congruence.
Qed.

(** A commit on [flash_a] whose program call is cut, leaving 0x5A everywhere. *)
#[local] Instance sample_cut_hal : FlashHal (cut_flash plain_flash) := cut_flash_hal (b := SlotABuild).
Definition cut_a : cut_flash plain_flash :=
  (meta_commit SlotABuild (CutFlash flash_a 1 (fun _ => 0x5A) None) 1 false 0 0 0 0 0 0xFF).1.

Lemma meta_commit_power_cut_witness :
  cf_dead cut_a = Some (OTA_META_REC1, 48) /\ flash_byte cut_a OTA_META_REC1 = 0x5A /\
  boots (flash_map cut_a) OTA_META_REC0 rec_a.
Proof.
  split; [vm_compute; reflexivity |]. split; [vm_compute; reflexivity |].
  pose proof (meta_commit_power_cut (b := SlotABuild) flash_a 1 (fun _ => 0x5A) 1 false 0 0 0 0 0 0xFF
           OTA_META_REC0 rec_a true false) as T.
  destruct T as [T _]; [left; split; [reflexivity | exact flash_a_booted] |]. exact T.
Defined.

Lemma confirm_tick_keeps_fallback_witness :
  boots (flash_map (erased_at flash_trial OTA_META_REC0)) OTA_META_REC1 rec_b.
Proof.
  apply (confirm_tick_keeps_fallback (b := SlotABuild) flash_trial (erased_at flash_trial OTA_META_REC0) st0
           rec_a_trial rec_b OTA_META_REC0 true false).
  - vm_compute. reflexivity.
  - apply erased_at_frame. by left.
  - split; vm_compute; reflexivity.
Defined.

(** Slot B overwritten with zeros after the BEGIN. *)
Definition scribbled : plain_flash :=
  PlainFlash (fun a => if (OTA_SLOT_B_BASE <=? a) && (a <? OTA_SLOT_B_BASE + OTA_SLOT_SIZE)
                       then 0 else pf_mem begun_a.1.1 a) false 0.

Lemma begin_isolates_boot_witness :
  boot_decide_slot (Some (flash_map scribbled)) true false =
  boot_decide_slot (Some (flash_map begun_a.1.1)) true false.
Proof.
  apply (begin_isolates_boot (b := SlotABuild) flash_a begun_a.1.1 scribbled st0 begun_a.1.2 begin_bytes 65
           begun_a.2.2 OTA_META_REC0 rec_a true false).
  - apply bytes_okb_spec. vm_compute. reflexivity.
  - transitivity (begun_a.1.1, begun_a.1.2, (begun_a.2.1, begun_a.2.2)); [apply quad_eta |].
    assert (begun_a.2.1 = STATUS_OK) as -> by (vm_compute; reflexivity). reflexivity.
  - by left.
  - vm_compute. reflexivity.
  - reflexivity.
  - intros a Ha. unfold scribbled. cbn [flash_byte sample_hal plain_hal pf_mem].
    destruct ((OTA_SLOT_B_BASE <=? a) && (a <? OTA_SLOT_B_BASE + OTA_SLOT_SIZE)) eqn:E; [| reflexivity].
    exfalso. apply Ha. exists OTA_SLOT_B_BASE. split; [reflexivity | lia].
Defined.

Lemma update_end_to_end_witness :
  exists f' s', run_update (b := SlotABuild) flash_a st0 img_b 1 1 0 [take 56 img_b; drop 56 img_b] =
    (f', s', [STATUS_OK; STATUS_OK; STATUS_OK; STATUS_OK; STATUS_OK]) /\ s_reset s' = true.
Proof.
  destruct (update_end_to_end (b := SlotABuild) (healthy := plain_healthy) flash_a st0 img_b 1 1 0
              [take 56 img_b; drop 56 img_b]) as (f' & s' & Hrun & Hreset & _).
  - apply flash_a_healthy.
  - split.
    + apply bytes_okb_spec. vm_compute. reflexivity.
    + split; vm_compute; congruence.
    + repeat split; vm_compute; congruence.
    + vm_compute. reflexivity.
    + vm_compute. reflexivity.
    + exists rec_a, OTA_META_REC0. split; [vm_compute; reflexivity |].
      split; vm_compute; congruence.
  - vm_compute. reflexivity.
  - cbn [paced]. repeat (split; [vm_compute; split; [reflexivity | discriminate] |];
      split; [apply bytes_okb_spec; vm_compute; reflexivity |]; split; [by vm_compute |]). exact I.
  - exists f', s'. split; [exact Hrun | exact Hreset].
Defined.

Lemma begun_a_eq : h_begin SlotABuild flash_a st0 begin_bytes 65 = (begun_a.1.1, begun_a.1.2, (STATUS_OK, begun_a.2.2)).
Proof.
  transitivity (begun_a.1.1, begun_a.1.2, (begun_a.2.1, begun_a.2.2)); [apply quad_eta |].
  assert (begun_a.2.1 = STATUS_OK) as -> by (vm_compute; reflexivity). reflexivity.
Qed.

Lemma erase_walk_terminates_witness :
  s_state begun_a.1.2 = OTA_ST_BUSY /\
  exists n, (n <= ERASE_TICKS)%nat /\
    s_state (erase_ticks n (begun_a.1.1, begun_a.1.2)).2 = OTA_ST_READY.
Proof.
  split; [vm_compute; reflexivity |].
  destruct (erase_walk_terminates (b := SlotABuild) (healthy := plain_healthy) flash_a begun_a.1.1 st0 begun_a.1.2
              begin_bytes 65 begun_a.2.2 begun_a_eq) as (n & Hn & _ & _ & _ & Hready).
  exists n. split; [apply Hn |]. apply Hready.
  - apply flash_a_healthy.
  - apply bytes_okb_spec. vm_compute. reflexivity.
Defined.

(** Slot B blank, a session ready to receive. *)
Definition flash_ready : plain_flash :=
  PlainFlash (place OTA_META_REC0 (meta_bytes rec_a) (place OTA_SLOT_A_BASE img_a blank)) false 0.
Definition st_ready : ota := Ota OTA_ST_READY 1 img_len0 0 0 0 0x10100 0 false 0 0 1 false false false.

Lemma st_ready_inv : session_inv SlotABuild flash_ready st_ready.
Proof.
  split; simpl; try done.
  - intros _ a Ha. unfold inactive_base, OTA_SLOT_B_BASE, OTA_SLOT_SIZE, round8 in Ha.
    cbn [flash_byte sample_hal plain_hal pf_mem flash_ready]. unfold place.
    change (Z.of_nat (length (meta_bytes rec_a))) with 44. change (Z.of_nat (length img_a)) with 84.
    unfold OTA_META_REC0, OTA_META_BASE, OTA_SLOT_A_BASE, OTA_PAGE_SIZE.
    change (8 * ((0 + 7) / 8)) with 0 in Ha.
    destruct (Z.leb_spec 134258688 a); [| lia]. destruct (Z.ltb_spec a (134258688 + 84)); [lia |].
    destruct (Z.ltb_spec a (134250496 + 0 * 2048 + 44)); [lia |]. rewrite !andb_false_r. reflexivity.
Qed.

Definition chunk0 : list Z := take 16 img_b.
Definition written : plain_flash * ota * reply := h_write flash_ready st_ready (chunk_req 0 chunk0) 65.

Lemma write_chunk_replay_witness :
  written.2 = (STATUS_OK, Some [16; 0; 0; 0]) /\
  h_write written.1.1 written.1.2 (chunk_req 0 chunk0) 65 =
    (written.1.1, written.1.2, (STATUS_OK, Some (put32 (s_last_off written.1.2)))).
Proof.
  split; [vm_compute; reflexivity |].
  apply (write_chunk_replay (b := SlotABuild) flash_ready written.1.1 st_ready written.1.2 0 chunk0 65 written.2.2).
  - apply st_ready_inv.
  - unfold is_u32. lia.
  - apply bytes_okb_spec. vm_compute. reflexivity.
  - reflexivity.
  - left. vm_compute. discriminate.
  - transitivity (written.1.1, written.1.2, (written.2.1, written.2.2)); [apply quad_eta |].
    assert (written.2.1 = STATUS_OK) as -> by (vm_compute; reflexivity). reflexivity.
Defined.

Lemma write_chunk_length_guard_witness :
  exists st, h_write flash_ready st_ready [0; 0; 0; 0; 2; 7] 65 = (flash_ready, st_ready, (st, None)) /\
    (st = STATUS_INVAL \/ st = STATUS_NOT_READY).
Proof.
  apply (write_chunk_length_guard flash_ready st_ready [0; 0; 0; 0; 2; 7] 65). vm_compute. discriminate.
Defined.

(** The image of slot B verified. *)
Definition st_verified : ota :=
  Eval vm_compute in
  Ota OTA_ST_VERIFIED 1 img_len0 img_len0 (ota_crc32 0 img_b) (ota_crc32 0 img_b) 0x10100 0 false 0 0 1 false false false.
Lemma st_verified_inv : session_inv SlotABuild flash_a st_verified.
Proof.
  split; simpl; try done.
Qed.
Definition committed : plain_flash * ota * reply := h_commit SlotABuild flash_a st_verified.

Lemma h_commit_contract_witness :
  s_reset committed.1.2 = true /\
  (boot_decide_slot (Some (flash_map committed.1.1)) true false).1 =
    (true, BootDecision (inactive_base SlotABuild) true false).
Proof.
  split; [vm_compute; reflexivity |].
  assert (Heq : h_commit SlotABuild flash_a st_verified = (committed.1.1, committed.1.2, (STATUS_OK, committed.2.2))).
  { transitivity (committed.1.1, committed.1.2, (committed.2.1, committed.2.2)); [apply quad_eta |].
    assert (committed.2.1 = STATUS_OK) as -> by (vm_compute; reflexivity). reflexivity. }
  apply (h_commit_contract (b := SlotABuild) flash_a committed.1.1 st_verified committed.1.2 STATUS_OK committed.2.2).
  - apply st_verified_inv.
  - split; vm_compute; split; congruence.
  - exact Heq.
Defined.

Definition rolled_back : plain_flash * ota * reply := h_rollback SlotABuild flash_fallback st0.

Lemma h_rollback_contract_witness :
  s_reset rolled_back.1.2 = true /\
  exists cur p base, meta_current flash_fallback = Some (cur, p) /\
    ota_slot_base_checked (if active_slot cur =? OTA_SLOT_A then OTA_SLOT_B else OTA_SLOT_A) = Some base /\
    forall feed, exists tr, (boot_decide_slot (Some (flash_map rolled_back.1.1)) feed false).1 =
      (true, BootDecision base tr false).
Proof.
  split; [vm_compute; reflexivity |].
  assert (Heq : h_rollback SlotABuild flash_fallback st0 =
                (rolled_back.1.1, rolled_back.1.2, (STATUS_OK, rolled_back.2.2))).
  { transitivity (rolled_back.1.1, rolled_back.1.2, (rolled_back.2.1, rolled_back.2.2)); [apply quad_eta |].
    assert (rolled_back.2.1 = STATUS_OK) as -> by (vm_compute; reflexivity). reflexivity. }
  destruct (h_rollback_contract (b := SlotABuild) flash_fallback rolled_back.1.1 st0 rolled_back.1.2 STATUS_OK
              rolled_back.2.2 Heq) as (_ & _ & cur & p & base & Hcur & Hbase & _ & Hboot).
  exists cur, p, base. split; [exact Hcur |]. split; [exact Hbase | exact Hboot].
Defined.

(** The running trial, with a host frame noted. *)
Definition st_trial : ota := set_trial true true st0.

Lemma confirm_makes_permanent_witness :
  let '(f', s') := ota_confirm_tick SlotABuild flash_trial st_trial in
  plain_healthy f' /\ s_reset s' = true /\
  forall feed wdt, (boot_decide_slot (Some (flash_map f')) feed wdt).1 =
    (true, BootDecision (OTA_RUNNING_SLOT_BASE SlotABuild) false false).
Proof.
  apply (confirm_makes_permanent (b := SlotABuild) (healthy := plain_healthy) flash_trial st_trial rec_a_trial OTA_META_REC0).
  - apply flash_trial_healthy.
  - reflexivity.
  - reflexivity.
  - vm_compute. reflexivity.
  - reflexivity.
  - intros q Hq. assert (meta_read flash_trial (other_page OTA_META_REC0) = Some rec_b) as Hr
      by (vm_compute; reflexivity).
    rewrite Hr in Hq. injection Hq as <-. reflexivity.
  - vm_compute. reflexivity.
  - reflexivity.
Defined.

Lemma self_heal_blocks_rollback_witness :
  let '(f', s') := ota_boot_init SlotABuild flash_fallback st0 in
  (exists n q, meta_current f' = Some (n, q) /\ active_slot n = OTA_RUNNING_SLOT SlotABuild /\
     is_trial n = false /\ Z.land (slot_valid n) (u8 (Z.shiftl 1 (other_slot SlotABuild))) = 0) /\
  s_trial s' = false /\
  (s_state s' = OTA_ST_IDLE -> h_rollback SlotABuild f' s' = (f', s', (STATUS_INVAL, None))).
Proof.
  apply (self_heal_blocks_rollback (b := SlotABuild) (healthy := plain_healthy) flash_fallback st0 rec_b OTA_META_REC1).
  - apply flash_fallback_healthy.
  - vm_compute. reflexivity.
  - reflexivity.
  - reflexivity.
  - reflexivity.
  - intros r q Hr. assert (find_running_slot_record SlotABuild flash_fallback = Some (rec_a, OTA_META_REC0)) as Hf
      by (vm_compute; reflexivity).
    rewrite Hf in Hr. injection Hr as <- _. reflexivity.
Defined.

Definition check_digits : list Z := [0x31; 0x32; 0x33; 0x34; 0x35; 0x36; 0x37; 0x38; 0x39].

Lemma ota_crc32_bitserial_witness : crc32_bitserial 0 check_digits = 0xCBF43926.
Proof.
  rewrite <- ota_crc32_bitserial.
  - vm_compute. reflexivity.
  - apply bytes_okb_spec. reflexivity.
Defined.

Lemma crc16_bitserial_eq_witness : crc16_bitserial check_digits = 0x29B1.
Proof.
  rewrite <- crc16_bitserial_eq.
  - vm_compute. reflexivity.
  - apply bytes_okb_spec. reflexivity.
Defined.
