(* ===== verification/LinkWitness.v ===== *)
(** * The driver, configuration, command and transport theorems at concrete inputs

    An ideal flash controller, a blank configuration, the stub peripherals and
    an echoing command layer; each witness applies one theorem to them. *)

From stdpp Require Import base tactics list numbers option.
From S2P Require Import Prelude Crc Wire OtaLayout Flash FmcOta BridgeHw BootConfig Ota Samples.
From S2P Require Import Protocol HalCalls Frame TransportSpi TransportI2c.

(** ** A controller that completes every operation at once *)

Definition ideal_bits : fmc_stat_bits := StatBits 0x1 0x10 0x4 0x80 0x20 0x4000 0x40 0x8000.
Definition ideal_erase (m : Z -> Z) (bank1 : bool) (page a : Z) : Z :=
  if (page_base true bank1 page <=? a) && (a <? page_base true bank1 page + 0x400) then 0xFF else m a.
Definition ideal_program (m : Z -> Z) (addr lo hi a : Z) : Z :=
  if (addr <=? a) && (a <? addr + 8) then (put32 lo ++ put32 hi).[a - addr] else m a.

#[export] Instance ideal_hw : FmcHw (Z -> Z) := {|
  hw_bits := ideal_bits;
  hw_byte m a := u8 (m a);
  hw_dbs _ := true;
  hw_stat _ _ := 0;
  hw_clear_errors m := m;
  hw_erase := ideal_erase;
  hw_program := ideal_program;
  hw_ecc_error _ _ _ := false;
  hw_bkp7_clear m := m |}.

Lemma ideal_ready timeout m : ota_fmc_wait_ready timeout (hw_stat (FmcHw := ideal_hw) m) = FMC_READY.
Proof. unfold ota_fmc_wait_ready. by destruct (Z.to_nat (timeout - 1)). Qed.

#[export] Instance ideal_laws : FmcHwLaws (Z -> Z).
Proof.
  split; cbn [hw_byte hw_dbs hw_clear_errors hw_erase hw_program hw_ecc_error hw_bkp7_clear ideal_hw]; try done.
  - intros. apply u8_byte.
  - intros m bank1 page a _ Ha. unfold ideal_erase. unfold page_size, OTA_FMC_PAGE_SIZE_DBANK in Ha.
    destruct (_ && _) eqn:E; [lia | done].
  - intros m bank1 page t a _ _ Ha. unfold ideal_erase. unfold page_size, OTA_FMC_PAGE_SIZE_DBANK in Ha.
    destruct (_ && _) eqn:E; [done | lia].
  - intros m addr lo hi a Ha. unfold ideal_program. destruct (_ && _) eqn:E; [lia | done].
  - intros m addr lo hi t Hlo Hhi _ _. apply (bytes_at_eq _ _ (put32 lo ++ put32 hi)).
    intros i Hi. rewrite length_app in Hi. simpl in Hi. unfold ideal_program.
    destruct (_ && _) eqn:E; [| lia]. replace (addr + i - addr) with i by lia.
    apply u8_id, at_byte, Forall_app. split; apply put32_ok.
Qed.

#[export] Instance ideal_healthy : FmcHwHealthy (Z -> Z) (fun _ => True).
Proof.
  split; cbn [hw_clear_errors hw_erase hw_program hw_ecc_error hw_bkp7_clear ideal_hw]; try done;
    intros; try split; try done; apply ideal_ready.
Qed.

Lemma fmc_hal_laws_witness : @FlashLaws (fmc (Z -> Z)) (fmc_hal SlotABuild) SlotABuild.
Proof. apply (fmc_hal_laws SlotABuild ideal_laws). Defined.

Lemma fmc_hal_healthy_witness :
  (fmc_erase_range SlotABuild (Fmc (fun _ => 0) false) OTA_SLOT_B_BASE OTA_PAGE_SIZE).2 = OTA_FMC_RESULT_OK.
Proof.
  apply (@fh_erase _ _ _ _ (fmc_hal_healthy SlotABuild (fun _ : Z -> Z => True))
           (Fmc (fun _ => 0) false) OTA_SLOT_B_BASE OTA_PAGE_SIZE).
  - split; reflexivity.
  - repeat split; vm_compute; discriminate.
  - reflexivity.
  - reflexivity.
  - reflexivity.
Defined.

Lemma fmc_wait_bounded_witness :
  ota_fmc_wait_ready (H := Z -> Z) 3 (fun _ => 1) = FMC_TOERR.
Proof.
  apply (fmc_wait_bounded (H := Z -> Z) 3 (fun _ => 1)); [lia |]. intros k _. reflexivity.
Defined.

(** ** Boot configuration on blank pages *)

Definition cfg_cut : plain_flash :=
  let f1 := (ota_fmc_erase_range flash_a OTA_CONFIG_REC0 OTA_PAGE_SIZE).1 in
  (ota_fmc_program f1 OTA_CONFIG_REC0 (payload_bytes (next_record None 1))).1.

Lemma cfg_cut_ok : store_cut flash_a 1 cfg_cut.
Proof.
  pose (f1 := (ota_fmc_erase_range flash_a OTA_CONFIG_REC0 OTA_PAGE_SIZE).1).
  assert (Ht : newest_record flash_a = (None, OTA_CONFIG_REC0)) by (vm_compute; reflexivity).
  apply (cut_payload flash_a 1 f1 cfg_cut).
  - rewrite Ht. cbn [snd]. rewrite (surjective_pairing (ota_fmc_erase_range _ _ _)). f_equal; vm_compute; reflexivity.
  - rewrite Ht. cbn [snd]. unfold cfg_cut. fold f1. apply (program8_reads (b := SlotABuild)); [reflexivity |].
    repeat split; vm_compute; discriminate.
Qed.

Lemma boot_config_store_power_cut_witness :
  stored_flags cfg_cut = stored_flags flash_a \/ stored_flags cfg_cut = Z.land 1 BOOT_CONFIG_KNOWN_FLAGS.
Proof.
  apply (boot_config_store_power_cut (b := SlotABuild) flash_a cfg_cut 1); [| apply cfg_cut_ok].
  unfold counter_room. replace (newest_record flash_a).1 with (@None boot_config_record) by (vm_compute; reflexivity).
  exact I.
Defined.

Lemma boot_config_store_ok_witness : stored_flags (boot_config_store flash_a 1).1 = 1.
Proof.
  apply (boot_config_store_ok (b := SlotABuild) flash_a (boot_config_store flash_a 1).1 1).
  replace OTA_FMC_RESULT_OK with (boot_config_store flash_a 1).2 by (vm_compute; reflexivity).
  apply surjective_pairing.
Defined.

Definition cfg0 : bcfg := Bcfg 0 false 0.

Lemma boot_config_set_completes_witness :
  exists c1, boot_config_request cfg0 1 = (c1, true) /\ boot_config_tick flash_a true c1 = (flash_a, c1) /\
  exists f2 c2, boot_config_tick flash_a false c1 = (f2, c2) /\ boot_config_flags c2 = 1 /\
    stored_flags f2 = 1 /\ boot_config_pending c2 = None /\ plain_healthy f2.
Proof.
  apply (boot_config_set_completes (b := SlotABuild) (healthy := plain_healthy) flash_a cfg0 1).
  - apply flash_a_healthy.
  - unfold counter_room. replace (newest_record flash_a).1 with (@None boot_config_record) by (vm_compute; reflexivity).
    exact I.
  - reflexivity.
  - vm_compute. reflexivity.
  - reflexivity.
Defined.

(** ** Commands on the stub backend *)

#[export] Instance sample_build_id : BuildId.
Proof.
  refine {| GD32_BRIDGE_BUILD_ID := replicate 16 0x30 ++ [0x61; 0x62; 0x63; 0x64] |}.
  - reflexivity.
  - apply bytes_okb_spec. reflexivity.
Defined.
#[export] Instance stub_unit : BridgeHw unit := stub_hw.

Definition bridge0 : bridge plain_flash unit := Bridge tt flash_a st0 cfg0 (0, 0) false.
Definition bridge_trial : bridge plain_flash unit :=
  Bridge tt flash_a (set_trial true false st0) cfg0 (0, 0) false.

Lemma dispatch_trial_gate_witness :
  (protocol_dispatch SlotABuild GD32_BRIDGE_LINK_I2C (cmd_code CMD_PING) [] 65 bridge_trial).2 = (STATUS_BUSY, Some []).
Proof. rewrite (dispatch_trial_gate SlotABuild); reflexivity. Defined.

Lemma dispatch_footprint_witness :
  protocol_dispatch SlotABuild GD32_BRIDGE_LINK_SPI 0x99 [1] 65 bridge0 = (bridge0, (STATUS_NOSUPPORT, Some [])).
Proof. by apply (dispatch_footprint SlotABuild GD32_BRIDGE_LINK_SPI 0x99 [1] 65 bridge0). Defined.

Lemma dispatch_length_guard_witness :
  protocol_dispatch SlotABuild GD32_BRIDGE_LINK_SPI (cmd_code CMD_GPIO_READ) [1; 2] 65 bridge0 =
    (bridge0, (STATUS_INVAL, None)).
Proof. apply (dispatch_length_guard SlotABuild); reflexivity. Defined.

Lemma boot_config_set_gated_witness :
  let x := protocol_dispatch SlotABuild GD32_BRIDGE_LINK_SPI (cmd_code CMD_BOOT_CONFIG) [1; 1; 0; 0; 0] 65 bridge0 in
  x.2 = (STATUS_OK, Some [0; 0; 0; 0]) /\ br_flash x.1 = flash_a.
Proof.
  split; [vm_compute; reflexivity |].
  apply (boot_config_set_gated SlotABuild GD32_BRIDGE_LINK_SPI [1; 1; 0; 0; 0] 65 bridge0); reflexivity.
Defined.

Lemma stub_statuses_witness : (handle_gpio_read [1; 0; 0; 0] 65 tt).2.1 = STATUS_IO.
Proof.
  apply (stub_statuses CMD_GPIO_READ handle_gpio_read [1; 0; 0; 0] 65); try reflexivity; [by left | lia].
Defined.

(** ** Commands on peripherals that write down the calls and answer 0 *)

#[local] Instance spy_hw : BridgeHw (list hal_request) := {|
  bridge_hw_reset_reason _ := 0;
  bridge_hw_gpio_read w m := (w ++ [HalGpioRead m], (0, 0));
  bridge_hw_gpio_write w m l := (w ++ [HalGpioWrite m l], 0);
  bridge_hw_pwm_set w c p d := (w ++ [HalPwmSet c p d], 0);
  bridge_hw_pwm_get w c := (w ++ [HalPwmGet c], (0, (0, 0)));
  bridge_hw_pwm_configure w c a d b := (w ++ [HalPwmConfigure c a d b], 0);
  bridge_hw_adc_read w c n := (w ++ [HalAdcRead c n], (0, []));
  bridge_hw_adc_configure w c o s b := (w ++ [HalAdcConfigure c o s b], 0);
  bridge_hw_adc_stream_begin w sid c rate := (w ++ [HalStreamBegin sid c rate], 0);
  bridge_hw_adc_stream_read w sid n := (w ++ [HalStreamRead sid n], (0, (0, [])));
  bridge_hw_adc_stream_end w sid := (w ++ [HalStreamEnd sid], 0);
  bridge_hw_adc_spectrum_read w sid off n := (w ++ [HalSpectrumRead sid off n], (0, Spectrum 0 0 0 []));
  bridge_hw_trng_read w len := (w ++ [HalTrngRead len], (0, []));
  bridge_hw_tmu_compute w f m a b := (w ++ [HalTmuCompute f m a b], (0, 0));
  bridge_hw_dac_set w c v := (w ++ [HalDacSet c v], 0);
  bridge_hw_dac_get w c := (w ++ [HalDacGet c], (0, 0));
  bridge_hw_qenc_read w e := (w ++ [HalQencRead e], (0, 0));
  bridge_hw_qenc_reset w e := (w ++ [HalQencReset e], 0);
  bridge_hw_counter_read w c := (w ++ [HalCounterRead c], (0, 0));
  bridge_hw_da9292_status_cached _ := 0xFF;
  bridge_hw_se_reset w a := (w ++ [HalSeReset a], 0);
  bridge_hw_pwm_capture_begin w c e := (w ++ [HalCaptureBegin c e], 0);
  bridge_hw_pwm_capture_read w c := (w ++ [HalCaptureRead c], (0, (0, 0)));
  bridge_hw_pwm_capture_end w c := (w ++ [HalCaptureEnd c], 0);
  bridge_hw_pwm_single_pulse w c p := (w ++ [HalSinglePulse c p], 0);
  bridge_hw_timer_sync w m s mode := (w ++ [HalTimerSync m s mode], 0);
  bridge_hw_power_mode_set w m b ms := (w ++ [HalPowerModeSet m b ms], 0);
  bridge_hw_adc_dsp_chain_open w := (w ++ [HalChainOpen], (0, 0));
  bridge_hw_adc_dsp_stage_push w c i k off total chunk := (w ++ [HalStagePush c i k off total chunk], 0);
  bridge_hw_adc_dsp_chain_bind w c sid := (w ++ [HalChainBind c sid], 0) |}.

(** PWM channel 3 at 1 us with 250 ns high. *)
Lemma dispatch_calls_exactly_witness :
  (protocol_dispatch SlotABuild GD32_BRIDGE_LINK_SPI 0x20 [3; 0; 0xE8; 3; 0; 0; 0xFA; 0; 0; 0] 65
     (Bridge [HalChainOpen] flash_a st0 cfg0 (0, 0) false)).1 =
  Bridge [HalChainOpen; HalPwmSet 3 1000 250] flash_a st0 cfg0 (0, 0) false.
Proof.
  pose proof (dispatch_calls_exactly SlotABuild GD32_BRIDGE_LINK_SPI 65 (Bridge [HalChainOpen] flash_a st0 cfg0 (0, 0) false) ltac:(lia)) as (_ & T).
  assert (Hok : hal_ok (HalPwmSet 3 1000 250)) by (cbn; unfold is_byte, is_u32; lia).
  destruct (T (HalPwmSet 3 1000 250) Hok ltac:(cbn; lia) eq_refl eq_refl) as (_ & E). exact E.
Defined.

(** ** Transports over an echoing command layer that counts its dispatches *)

#[export] Instance echo : Dispatcher nat := {|
  dispatch _ cmd req cap n := (S n, (STATUS_OK, Some (if 1 <=? cap then [cmd] else [])));
  features_of _ _ := 1 |}.
#[export] Instance echo_laws : DispatcherLaws nat.
Proof.
  split. intros link cmd req cap n _ Hc. cbn [dispatch echo snd].
  destruct (Z.leb_spec 1 cap); eapply reply_ok_payload; try reflexivity; simpl; rewrite ?max_payload; lia.
Qed.

Definition spi0 : spi := Spi [] [] 0 0 0.
Definition i2c0 : i2c := I2c [] [] 0 false false (Diag 0 0 0 0 0).
Lemma spi0_inv : spi_inv spi0.
Proof.
  split; unfold spi_rx_len, spi_tx_len, SPI_MAX_FRAME_BYTES, SPI_DRAIN_REWIND_BOUND; simpl; rewrite ?max_payload;
    try lia; [apply Forall_nil_2 | by left].
Qed.
Lemma i2c0_inv : i2c_inv i2c0.
Proof.
  split; unfold i2c_rx_len, i2c_tx_len; simpl; try done; by left.
Qed.

Lemma spi_request_round_trip_witness :
  let x := spi_transaction (spi_request 0x20 [1; 2; 3]) spi0 0%nat in
  x.2 = 1%nat /\ host_status (spi_drain 69 x.1).2 = 0 /\ host_seq (spi_drain 69 x.1).2 = 1.
Proof.
  destruct (spi_request_round_trip spi0 0%nat 0x20 [1; 2; 3]) as (Hs & _ & Hst & Hsq).
  - apply spi0_inv.
  - unfold is_byte. lia.
  - apply bytes_okb_spec. reflexivity.
  - vm_compute. discriminate.
  - split; [exact Hs |]. split; [exact Hst | exact Hsq].
Defined.

Lemma spi_corrupt_not_dispatched_witness :
  (spi_transaction (<[3%nat := 0]> (spi_request 0x20 [1; 2; 3])) spi0 0%nat).2 = 0%nat.
Proof.
  apply (spi_corrupt_not_dispatched spi0 0%nat 0x20 [1; 2; 3] 3%nat 2 0).
  - apply spi0_inv.
  - unfold is_byte. lia.
  - apply bytes_okb_spec. reflexivity.
  - vm_compute. discriminate.
  - vm_compute. reflexivity.
  - unfold is_byte. lia.
  - discriminate.
Defined.

Definition spi_staged : spi := (spi_transaction (spi_request 0x20 []) spi0 0%nat).1.

Lemma spi_drain_ladder_witness :
  spi_tx_buf (drains (replicate 12 [0; 0]) spi_staged 1%nat).1 = spi_tx_buf spi_staged /\
  spi_tx_buf (drains (replicate 13 [0; 0]) spi_staged 1%nat).1 = io_envelope 1 spi_staged.
Proof.
  assert (Hi : spi_inv spi_staged).
  { unfold spi_staged. rewrite spi_transaction_rx. apply decode_inv.
    destruct spi0_inv. split; simpl; try done. apply bytes_okb_spec. vm_compute. reflexivity. }
  assert (Hd : forall n, Forall drain_bytes (replicate n [0; 0])).
  { intros n. apply Forall_replicate. repeat constructor. }
  split.
  - apply (spi_drain_ladder spi_staged 1%nat (replicate 12 [0; 0]) Hi eq_refl (Hd 12%nat)). simpl. lia.
  - destruct (spi_drain_ladder spi_staged 1%nat (replicate 13 [0; 0]) Hi eq_refl (Hd 13%nat)) as [_ Hio].
    destruct (Hio eq_refl) as (_ & Hbuf & _). exact Hbuf.
Defined.

Lemma spi_inv_reachable_witness :
  spi_inv (foldl (fun x c => spi_exec c x) (transport_spi_init spi0, 0%nat)
             [TransportSpi.CsLow; TransportSpi.RxByte 0xA5; TransportSpi.CsHigh; TransportSpi.TxNextByte]).1.
Proof. apply (spi_inv_reachable _ spi0 0%nat). Defined.

Lemma i2c_dispatch_once_witness :
  let x := i2c_exec WriteEnd (i2c_write (i2c_request 0x20 [1]) i2c0, 0%nat) in
  (foldl (fun x c => i2c_exec c x) x [TxNextByte; WriteEnd; TxAbort; WriteEnd]).2 = x.2.
Proof.
  apply (i2c_dispatch_once (i2c_write (i2c_request 0x20 [1]) i2c0) 0%nat [TxNextByte; WriteEnd; TxAbort; WriteEnd]).
  reflexivity.
Defined.

Lemma i2c_request_round_trip_witness :
  let '(t1, s1, ok) := i2c_slave_write_end (i2c_write (i2c_request 0x20 [1; 2]) i2c0) 0%nat in
  let '(t2, l1) := i2c_read 2 t1 in
  let '(t3, s3, _) := i2c_slave_write_end t2 s1 in
  let '(t4, l2) := i2c_read 2 t3 in
  let '(t5, s5, _) := i2c_slave_write_end t4 s3 in
  ok = true /\ s1 = 1%nat /\ s5 = 1%nat /\ l1 ++ l2 = crc_frame [0; 0x20] /\ (i2c_read 3 t5).2 = no_pending_frame.
Proof.
  assert (Hc : is_byte 0x20) by (unfold is_byte; lia).
  assert (Hp : bytes_ok [1; 2]) by (apply bytes_okb_spec; reflexivity).
  assert (Hl : Z.of_nat (length [1; 2]) <= GD32_BRIDGE_MAX_PAYLOAD_BYTES) by (vm_compute; discriminate).
  pose proof (i2c_request_round_trip i2c0 0%nat 0x20 [1; 2] 2 i2c0_inv Hc Hp Hl) as Hrt.
  cbv zeta in Hrt. vm_compute in Hrt |- *. apply Hrt. lia.
Defined.

Lemma i2c_corrupt_not_dispatched_witness :
  let '(t1, s1, ok) := i2c_slave_write_end (i2c_write (<[0%nat := 1]> (i2c_request 0x20 [1; 2])) i2c0) 0%nat in
  s1 = 0%nat /\ ok = false /\ (i2c_read 3 t1).2 = no_pending_frame.
Proof.
  assert (Hc : is_byte 0x20) by (unfold is_byte; lia).
  assert (Hp : bytes_ok [1; 2]) by (apply bytes_okb_spec; reflexivity).
  assert (Hl : Z.of_nat (length [1; 2]) <= GD32_BRIDGE_MAX_PAYLOAD_BYTES) by (vm_compute; discriminate).
  assert (Hy : is_byte 1) by (unfold is_byte; lia).
  pose proof (i2c_corrupt_not_dispatched i2c0 0%nat 0x20 [1; 2] 0%nat 0 1 Hc Hp Hl eq_refl Hy ltac:(discriminate)) as Hrt.
  vm_compute in Hrt |- *. exact Hrt.
Defined.

Lemma i2c_inv_reachable_witness :
  i2c_inv (foldl (fun x c => i2c_exec c x) (transport_i2c_init i2c0, 0%nat)
             [WriteStart; TransportI2c.RxByte 0; WriteEnd; TxNextByte]).1.
Proof. apply (i2c_inv_reachable _ i2c0 0%nat). Defined.
