(* ===== verification/AnalogWitness.v ===== *)
(** * The converter, stream and DSP theorems at concrete inputs

    A simulated converter, DMA and pair of accelerators; runs of the interleaved
    machine on it; a witness for each theorem; and the races the model exhibits. *)

From Stdlib Require Import SpecFloat.
From stdpp Require Import base tactics functions list numbers option gmap.
From S2P Require Import Prelude BridgeHw DspChain Adc AdcStream AdcSystem DspCoeff DspSpectrum DspPump.
From S2P Require Import DspSafety.

#[local] Set Warnings "-clear-no-such-hyp".

(** ** Simulated hardware

    [sm_cnt] samples have been deposited, [sm_step] more arrive before each look
    at the transfer counter; the accelerator returns each word it is given. *)
Record sim := Sim { sm_cnt : nat; sm_step : nat; sm_fac : option Z }.

Definition sim_sample (n : Z) : Z := n mod 4096.

(** The latest sample in ring slot [idx]. *)
Definition sim_word (cnt idx : Z) : Z :=
  let n := cnt - 1 - (cnt - 1 - idx) mod 1024 in if n <? 0 then 0 else sim_sample n.

Definition sim_read (h : sim) (r : adc_reg) : Z * sim :=
  match r with
  | dma_transfer_number _ =>
      let h := Sim (sm_cnt h + sm_step h) (sm_step h) (sm_fac h) in
      (1024 - Z.of_nat (sm_cnt h) mod 1024, h)
  | ring_word _ idx => (sim_word (Z.of_nat (sm_cnt h)) idx, h)
  | flag_eoc _ | vref_status => (1, h)
  | adc_routine_data _ => (1000, h)
  | _ => (0, h)
  end.

#[export] Instance sim_hw : AdcHw sim := {| hw_do h _ := h; hw_read := sim_read |}.

#[export] Instance sim_laws : DmaLaws sim.
Proof.
  refine {| written h _ := Z.of_nat (sm_cnt h); deposit _ := sim_sample |}.
  - intros. lia.
  - intros h sid r. destruct r; simpl; lia.
  - intros h sid. left. done.
  - intros h sid idx n. cbn [hw_read sim_hw sim_read]. intros Hn Hw Hm. unfold sim_word.
    replace (Z.of_nat (sm_cnt h) - 1 - (Z.of_nat (sm_cnt h) - 1 - idx) mod 1024) with n by (subst idx; zlia).
    rewrite (proj2 (Z.ltb_ge n 0)) by lia. split; [done |]. unfold sim_sample, is_u16. zlia.
Defined.

#[export] Instance sim_dsp : DspHw sim := {|
  fac_fixed_data_write h x := Sim (sm_cnt h) (sm_step h) (Some x);
  fac_read h r :=
    match r with
    | fac_ybef => (match sm_fac h with Some _ => 0 | None => 1 end, h)
    | fac_output => (default 0 (sm_fac h), Sim (sm_cnt h) (sm_step h) None)
    | _ => (0, h)
    end;
  fac_latched _ := true;
  raced_fac _ := false;
  raced_fft _ := None;
  fft_ccf _ := true;
  fft_output _ := replicate 2048 f32_1 |}.

Definition cosf0 (x : spec_float) : spec_float := x.
Definition codes0 : fft_point_codes := PointCodes 0 1 2 3.

(** A slot as the loader leaves it. *)
Definition slot0 : adc_stream_state :=
  Stream false 0 0 0 0 0 0 (DmaPos 0 0 false) (DmaPos 0 0 false) 0 false (replicate 1024 0) 0 0 false
    0 0 false false.

(** ** Runs *)

Inductive act :=
  | a_open
  | a_push (cid idx k off total : nat) (chunk : list Z)
  | a_bind (cid sid : nat)
  | a_begin (h : sim) (sid ch rate : nat)
  | a_end (h : sim) (sid : nat)
  | a_pump (h : sim).

Definition act_step (d : dsp_sys) (a : act) : dsp_sys :=
  let '(AdcSys w cs) := d_sys d in
  match a with
  | a_open => with_sys (AdcSys w (bridge_hw_adc_dsp_chain_open_ cs).1) d
  | a_push cid idx k off total chunk =>
      with_sys (AdcSys w (bridge_hw_adc_dsp_stage_push_ cs (Z.of_nat cid) (Z.of_nat idx) (Z.of_nat k)
                            (Z.of_nat off) (Z.of_nat total) chunk).1) d
  | a_bind cid sid =>
      let r := bridge_hw_adc_dsp_chain_bind_ cs (adc_streams w) (Z.of_nat cid) (Z.of_nat sid) in
      with_sys (AdcSys (set_streams r.1.2 w) r.1.1) d
  | a_begin h sid ch rate =>
      with_sys (AdcSys (bridge_hw_adc_stream_begin_ h w (Z.of_nat sid) (Z.of_nat ch) (Z.of_nat rate)).1.2 cs) d
  | a_end h sid => (dsp_stream_end h d (Z.of_nat sid)).1.2
  | a_pump h => pump_step cosf0 codes0 h d
  end.

Definition run (acts : list act) : dsp_sys :=
  foldl act_step (dsp_init true false [slot0; slot0]) acts.

Lemma act_reachable d a :
  dsp_reachable (F := sim) cosf0 codes0 d -> dsp_reachable (F := sim) cosf0 codes0 (act_step d a).
Proof.
  intros Hr. unfold act_step. destruct (d_sys d) as [w cs] eqn:Ed.
  assert (Hreq : forall y', adc_request (H := sim) (AdcSys w cs) y' ->
    dsp_reachable (F := sim) cosf0 codes0 (with_sys y' d)).
  { intros y' Hy. apply (dsp_reach_step _ _ d); [done |]. apply ds_request. by rewrite Ed. }
  destruct a as [| cid idx k off total chunk | cid sid | h sid ch rate | h sid | h].
  - apply Hreq. by apply (req_chain_open w cs _ (bridge_hw_adc_dsp_chain_open_ cs).2), surjective_pairing.
  - apply Hreq. eapply req_stage_push; [.. | apply surjective_pairing]; lia.
  - apply Hreq. cbv zeta. eapply req_chain_bind; [.. |]; [| | rewrite <- !surjective_pairing; reflexivity]; lia.
  - apply Hreq. eapply (req_stream_begin h); [.. | rewrite <- !surjective_pairing; reflexivity]; lia.
  - apply (dsp_reach_step _ _ d); [done |]. apply ds_stream_end. lia.
  - apply (dsp_reach_step _ _ d); [done | apply ds_pump].
Qed.

Lemma run_reachable acts : dsp_reachable (F := sim) cosf0 codes0 (run acts).
Proof.
  unfold run. assert (H0 : dsp_reachable (F := sim) cosf0 codes0 (dsp_init true false [slot0; slot0]))
    by (apply dsp_reach_init; [by repeat constructor | done]).
  revert H0. generalize (dsp_init true false [slot0; slot0]). induction acts as [| a acts IH]; intros d Hr; [done |].
  cbn [foldl]. apply IH. by apply act_reachable.
Qed.

Definition at_cnt (n : nat) : sim := Sim n 0 None.
Definition pumps (n : nat) (h : sim) : list act := replicate n (a_pump h).

(** One stream at 1 kHz on channel 0 with a chain of one stage. *)
Definition setup (k : nat) (blob : list Z) : list act :=
  [a_open; a_push 0 0 k 0 (length blob) blob; a_begin (at_cnt 0) 0 0 1000; a_bind 0 0].

(** A one-tap Q31 filter, a one-tap filter with coefficient 128.0f, one with a
    NaN, and a 32-point FFT. *)
Definition fir_blob : list Z := [1; 1; 0; 0; 0xFF; 0xFF; 0xFF; 0x7F].
Definition big_blob : list Z := [0; 1; 0; 0; 0; 0; 0; 0x43].
Definition nan_blob : list Z := [0; 1; 0; 0; 0; 0; 0xC0; 0x7F].
Definition fft_blob : list Z := [32; 0; 2; 0].

Definition the_slot (d : dsp_sys) : adc_stream_state := default slot0 (slot d 0).
Definition the_chain (d : dsp_sys) : adc_dsp_chain :=
  default (Chain false false []) (sy_chains (d_sys d) !! 0%nat).

Definition opened : dsp_sys := run [a_open].
Definition uploaded : dsp_sys := run (take 3 (setup 0 fir_blob)).
Definition filtered : dsp_sys := run (setup 0 fir_blob ++ pumps 18 (at_cnt 5)).
Definition in_batch : dsp_sys := run (setup 0 fir_blob ++ pumps 17 (at_cnt 5)).
Definition fft_bound : dsp_sys := run (setup 3 fft_blob).

Lemma pool_at acts : pool_ok (sy_chains (d_sys (run acts))).
Proof. apply (sv_pool _ (pv_sys _ (dsp_reachable_inv _ _ _ (run_reachable acts)))). Qed.

Lemma adc_at acts : adc_ok (sy_fw (d_sys (run acts))).
Proof. apply (sv_adc _ (pv_sys _ (dsp_reachable_inv _ _ _ (run_reachable acts)))). Qed.

(** ** Chains *)

Lemma stage_push_atomic_replay_witness :
  let r := bridge_hw_adc_dsp_stage_push_ (sy_chains (d_sys opened)) 0 0 0 0 8 [1; 1; 0; 0] in
  r.2 = BRIDGE_HW_OK /\ bridge_hw_adc_dsp_stage_push_ r.1 0 0 0 0 8 [1; 1; 0; 0] = r.
Proof.
  pose proof (stage_push_atomic_replay (sy_chains (d_sys opened)) 0 0 0 0 8 [1; 1; 0; 0] (pool_at _)
    ltac:(lia) ltac:(lia) ltac:(lia) ltac:(lia) ltac:(lia)) as Hw.
  cbv zeta. destruct (bridge_hw_adc_dsp_stage_push_ (sy_chains (d_sys opened)) 0 0 0 0 8 [1; 1; 0; 0])
    as [cs rc] eqn:E. destruct Hw as (_ & _ & Hr).
  assert (Hrc : rc = BRIDGE_HW_OK) by (change rc with (cs, rc).2; rewrite <- E; vm_compute; reflexivity).
  split; [done |]. rewrite Hrc in *. by apply Hr.
Defined.

Lemma stage_upload_assembles_witness :
  exists chain' st', reaches (push_pieces (sy_chains (d_sys opened)) 0 0 0 fir_blob
    [(4, 4%nat); (0, 5%nat)]).1 0 0 chain' st' /\ complete st' = true /\ take 8 (data st') = fir_blob.
Proof.
  pose proof (stage_upload_assembles (sy_chains (d_sys opened)) 0 0 0 fir_blob [(4, 4%nat); (0, 5%nat)]
    (the_chain opened) stage_zero) as Hw.
  destruct (push_pieces (sy_chains (d_sys opened)) 0 0 0 fir_blob [(4, 4%nat); (0, 5%nat)]) as [cs rcs].
  destruct Hw as (_ & chain' & st' & Hr & _ & _ & Hc & Hd).
  - unfold BRIDGE_DSP_KIND_MAX. lia.
  - unfold BRIDGE_DSP_MAX_STAGE_BYTES. simpl. lia.
  - repeat constructor; simpl; lia.
  - done.
  - apply pool_at.
  - split; try (vm_compute; reflexivity); unfold BRIDGE_DSP_MAX_CHAINS, BRIDGE_DSP_MAX_STAGES; lia.
  - reflexivity.
  - assert (Hcomp : complete st' = true).
    { apply Hc. intros i Hi. simpl in Hi. destruct (decide (i < 4)).
      - exists (0, 5%nat). split; [by right; left | simpl; lia].
      - exists (4, 4%nat). split; [by left | simpl; lia]. }
    exists chain', st'. split_and!; [done | done | by apply Hd].
Defined.

Lemma chain_bind_exact_witness :
  (bridge_hw_adc_dsp_chain_bind_ (sy_chains (d_sys uploaded)) (adc_streams (sy_fw (d_sys uploaded))) 0 0).2
    = BRIDGE_HW_OK /\
  exists s t, bindable (sy_chains (d_sys uploaded)) (adc_streams (sy_fw (d_sys uploaded))) 0 0
    (the_chain uploaded) s t.
Proof.
  pose proof (chain_bind_exact (sy_chains (d_sys uploaded)) (adc_streams (sy_fw (d_sys uploaded))) 0 0
    (pool_at _) ltac:(vm_compute; reflexivity) ltac:(lia) ltac:(lia)) as Hw.
  destruct (bridge_hw_adc_dsp_chain_bind_ _ _ 0 0) as [[cs l] rc] eqn:E.
  assert (Hrc : rc = BRIDGE_HW_OK) by (change rc with (cs, l, rc).2; rewrite <- E; vm_compute; reflexivity).
  split; [done |]. destruct Hw as (_ & Hok & _). destruct (Hok Hrc) as (chain & s & t & Hb & _).
  exists s, t. replace (the_chain uploaded) with chain; [done |].
  pose proof (bd_chain _ _ _ _ _ _ _ Hb) as Ec. unfold the_chain.
  change (Z.to_nat 0) with 0%nat in Ec. by rewrite Ec.
Defined.

Lemma dsp_resources_exclusive_witness :
  exists s, adc_streams (sy_fw (d_sys filtered)) !! 0%nat = Some s /\ dsp_bound s = true /\ in_use s = true.
Proof.
  destruct (dsp_resources_exclusive (d_sys filtered)
    (dsp_adc_reachable _ _ _ (run_reachable (setup 0 fir_blob ++ pumps 18 (at_cnt 5))))) as (_ & Ha & _).
  assert (E : adc_streams (sy_fw (d_sys filtered)) !! 0%nat = Some (the_slot filtered))
    by (vm_compute; reflexivity).
  assert (B : dsp_bound (the_slot filtered) = true) by (vm_compute; reflexivity).
  exists (the_slot filtered). split_and!; [done | done |]. by destruct (Ha _ _ E B).
Defined.

(** ** Converter and streams *)

Lemma adc_read_contract_witness :
  exists mv, (bridge_hw_adc_read_ (at_cnt 0) (sy_fw (d_sys opened)) 2 3).2 = (BRIDGE_HW_OK, mv) /\
    length mv = 3%nat /\ Forall (fun m => 0 <= m <= 1800) mv.
Proof.
  pose proof (adc_read_contract (at_cnt 0) (sy_fw (d_sys opened)) 2 3 (adc_at _) ltac:(lia) ltac:(lia)) as Hw.
  destruct (bridge_hw_adc_read_ (at_cnt 0) (sy_fw (d_sys opened)) 2 3) as [[h w] [rc mv]] eqn:E.
  destruct Hw as (_ & Hf & Hl & _).
  assert (Hrc : rc = BRIDGE_HW_OK).
  { change rc with (h, w, (rc, mv)).2.1. rewrite <- E. vm_compute. reflexivity. }
  exists mv. split; [by rewrite Hrc |]. split; [specialize (Hl Hrc); lia | exact Hf].
Defined.

Lemma adc_configure_contract_witness :
  let r := bridge_hw_adc_configure_ (sy_fw (d_sys opened)) 2 20 1000 10 in
  r.2 = BRIDGE_HW_OK /\ (adc_resolution_bits_cache r.1).[2] = 10 /\
  (adc_sample_cycles_cache r.1).[2] = 638 /\ adc_effective_ratio r.1 2 = 16.
Proof.
  pose proof (adc_configure_contract (sy_fw (d_sys opened)) 2 20 1000 10 (adc_at _) ltac:(lia)
    ltac:(unfold is_u16; lia) ltac:(unfold is_u16; lia) ltac:(lia)) as Hw.
  cbv zeta. destruct (bridge_hw_adc_configure_ (sy_fw (d_sys opened)) 2 20 1000 10) as [w rc] eqn:E.
  assert (Ew : w = (bridge_hw_adc_configure_ (sy_fw (d_sys opened)) 2 20 1000 10).1) by (by rewrite E).
  destruct Hw as (_ & _ & Hrc & Hok).
  assert (Hrc' : rc = BRIDGE_HW_OK) by (rewrite Hrc; vm_compute; reflexivity).
  destruct (Hok Hrc') as (Hbits & _ & Hcyc & _). split; [exact Hrc' |]. split; [exact Hbits |].
  split; [exact Hcyc |]. rewrite Ew. vm_compute. reflexivity.
Defined.

Lemma stream_begin_contract_witness :
  let r := bridge_hw_adc_stream_begin_ (at_cnt 0) (sy_fw (d_sys opened)) 1 4 50000 in
  r.2 = BRIDGE_HW_OK /\ exists s, can_begin (sy_fw (d_sys opened)) 1 4 50000 s.
Proof.
  pose proof (dsp_reachable_inv _ _ _ (run_reachable [a_open])) as Hi.
  pose proof (stream_begin_contract (at_cnt 0) (sy_fw (d_sys opened)) 1 4 50000 (adc_at _)
    ltac:(vm_compute; reflexivity) (ow_exclusive _ _ (sv_owned _ (pv_sys _ Hi)))
    ltac:(lia) ltac:(lia) ltac:(lia)) as Hw.
  cbv zeta. destruct (bridge_hw_adc_stream_begin_ (at_cnt 0) (sy_fw (d_sys opened)) 1 4 50000)
    as [[h w] rc] eqn:E.
  assert (Hrc : rc = BRIDGE_HW_OK).
  { change rc with (h, w, rc).2. rewrite <- E. vm_compute. reflexivity. }
  split; [done |]. destruct Hw as (_ & _ & _ & _ & Hok). destruct (Hok Hrc) as (s & Hb & _). by exists s.
Defined.

Lemma pace_ticks_exact_witness : pace_ticks 48000 = (215, 20) /\ 20 * 48000 <= 1000000 < 21 * 48000.
Proof.
  pose proof (pace_ticks_exact 48000) as Hw. split; [reflexivity |].
  apply Hw. unfold BRIDGE_ADC_STREAM_RATE_MAX_HZ. lia.
Defined.

(** A running slot whose interrupt has counted [laps] reloads and whose reader
    stands at [pos] samples. *)
Definition raw_slot (laps pos : Z) : adc_stream_state :=
  set_cursor (pos mod 1024) (u32 pos) (DmaPos 0 0 false) (DmaPos 0 0 false) 0
    (set_laps laps 0 (set_in_use true (stream_session slot0 0 4095))).

(** One uncounted reload seen for the first time: the position has moved back. *)
Lemma total_written_never_over_witness :
  (adc_stream_total_written (at_cnt 2050) (raw_slot 1 0) 0 (DmaPos 1 1000 true)).1.1 = 2050.
Proof.
  pose proof (total_written_never_over (at_cnt 2050) (raw_slot 1 0) 0 (DmaPos 1 1000 true) 1 1 2024 1 0
    eq_refl ltac:(lia)) as Hw.
  destruct (adc_stream_total_written (at_cnt 2050) (raw_slot 1 0) 0 (DmaPos 1 1000 true))
    as [[total trk] h] eqn:E.
  assert (Eh : h = at_cnt 2050).
  { change h with (total, trk, h).2. rewrite <- E. reflexivity. }
  subst h. cbv zeta in Hw. change (written (at_cnt 2050) 0) with 2050 in Hw.
  destruct Hw as (_ & _ & Hx & _); [reflexivity | intros _; split_and!; try done; lia |].
  cbn [fst]. by apply Hx.
Defined.

Lemma read_raw_delivers_witness :
  (read_raw (at_cnt 1100) (raw_slot 1 1090) 0 4 1800).2 =
  (BRIDGE_HW_OK, (fun n => code_mv (sim_sample n) 4095 1800) <$> [1090; 1091; 1092; 1093]).
Proof.
  pose proof (read_raw_delivers (at_cnt 1100) (raw_slot 1 1090) 0 4 1800 1090
    ltac:(split_and!; done) ltac:(lia)) as Hw.
  destruct (adc_stream_total_written (at_cnt 1100) (raw_slot 1 1090) 0 (rd_pos (raw_slot 1 1090)))
    as [[total trk] h] eqn:E.
  assert (Et : total = u32 1100 /\ h = at_cnt 1100).
  { split; [change total with (total, trk, h).1.1 | change h with (total, trk, h).2];
      rewrite <- E; vm_compute; reflexivity. }
  destruct Et as [-> ->]. cbv zeta in Hw. change (written (at_cnt 1100) 0) with 1100 in Hw.
  specialize (Hw eq_refl ltac:(lia)).
  destruct (read_raw (at_cnt 1100) (raw_slot 1 1090) 0 4 1800) as [[h' s'] [rc mv]] eqn:Er.
  assert (Eh' : written h' 0 = 1100).
  { change h' with (h', s', (rc, mv)).1.1. rewrite <- Er. vm_compute. reflexivity. }
  destruct Hw as [Hok _]. destruct (Hok ltac:(lia)) as (-> & Hlen & _ & Hmv).
  cbn [snd]. f_equal. specialize (Hmv ltac:(lia)). change (Z.min (1100 - 1090) 4) with 4 in Hlen.
  apply list_eq. intros i. destruct (decide (i < 4)%nat) as [Hi | Hi].
  - rewrite Hmv by lia. destruct i as [| [| [| [|]]]]; try lia; reflexivity.
  - rewrite !lookup_ge_None_2; [done | simpl; lia | lia].
Defined.

(** ** Coefficients and programs *)

Lemma coeffs_quantised_witness :
  decode_coeffs 0 [0x3FC00000; 0xBF000000] = Some (Some [24576; -8192], 1) /\
  Forall2 (quantises 1) (f32_of_word <$> [0x3FC00000; 0xBF000000]) [24576; -8192].
Proof.
  pose proof (coeffs_quantised 0 [0x3FC00000; 0xBF000000] ltac:(lia)) as Hw.
  assert (E : decode_coeffs 0 [0x3FC00000; 0xBF000000] = Some (Some [24576; -8192], 1))
    by (vm_compute; reflexivity).
  rewrite E in Hw. split; [done |].
  destruct Hw as (_ & _ & _ & l & [= <-] & Hl); [| done].
  apply Forall_fmap, Forall_cons; split; [| apply Forall_cons; split; [| done]];
    (split; [vm_compute; reflexivity |]); split; vm_compute; discriminate.
Defined.

Lemma bytes_by_test (l : list adc_dsp_stage) :
  forallb (fun st => forallb (fun b => (0 <=? b) && (b <? 256)) (data st)) l = true ->
  Forall (fun st => bytes_ok (data st)) l.
Proof.
  intros Hb. apply list.Forall_forall. intros st Hst. rewrite forallb_forall in Hb.
  apply list_elem_of_In in Hst. specialize (Hb st Hst). rewrite forallb_forall in Hb.
  apply list.Forall_forall. intros b Hin. apply list_elem_of_In in Hin. specialize (Hb b Hin).
  rewrite andb_true_iff, Z.leb_le, Z.ltb_lt in Hb. unfold is_byte. lia.
Qed.

(** The chain of a bound stream is realisable with the terminal its slot holds. *)
Lemma bound_chain_at acts s :
  slot (run acts) 0 = Some s -> dsp_bound s = true -> dsp_chain_id s = 0 ->
  realisable (stages (the_chain (run acts))) (dsp_terminal s) /\
  length (stages (the_chain (run acts))) = 4%nat.
Proof.
  intros Es B E0. pose proof (pv_sys _ (dsp_reachable_inv _ _ _ (run_reachable acts))) as Hi.
  destruct (ow_attached _ _ (sv_owned _ Hi) _ _ Es B) as (_ & _ & c & Ec & _ & _ & Hr).
  rewrite E0 in Ec. change (Z.to_nat 0) with 0%nat in Ec. unfold the_chain. rewrite Ec.
  split; [done |]. destruct (sv_pool _ Hi) as [_ Hf]. by destruct (Forall_lookup_1 _ _ _ _ Hf Ec).
Qed.

Lemma fac_config_bound_witness :
  exists p, adc_dsp_fac_config true (stages (the_chain filtered)) = CfgProgram p /\ fac_layout_ok p.
Proof.
  destruct (bound_chain_at (setup 0 fir_blob ++ pumps 18 (at_cnt 5)) (the_slot filtered)) as [Hr Hl];
    [vm_compute; reflexivity .. |].
  assert (Et : dsp_terminal (the_slot filtered) = 0) by (vm_compute; reflexivity). rewrite Et in Hr.
  assert (Hb : Forall (fun st => bytes_ok (data st)) (stages (the_chain filtered)))
    by (apply bytes_by_test; vm_compute; reflexivity).
  destruct (fac_config_bound (stages (the_chain filtered)) 0 true Hl Hb Hr ltac:(lia))
    as (st & n & Hin & _ & Hn & _ & Hm).
  destruct (decode_coeffs (data st).[0] (coeff_words st n)) as [[[cs |] g] |].
  - destruct Hm as (_ & p & Hp & Hlay & _). exists p. split; [exact Hp | exact Hlay].
  - exfalso. assert (Hu : adc_dsp_fac_config true (stages (the_chain filtered)) <> CfgUndefined)
      by (vm_compute; discriminate). exact (Hu Hm).
  - exfalso. assert (Hu : adc_dsp_fac_config true (stages (the_chain filtered)) <> CfgRefused)
      by (vm_compute; discriminate). exact (Hu Hm).
Defined.

Lemma fft_config_bound_witness :
  exists p, adc_dsp_fft_config cosf0 codes0 (stages (the_chain fft_bound)) = Some p /\
    fg_points p ∈ [32; 64; 128; 256; 512; 1024].
Proof.
  destruct (bound_chain_at (setup 3 fft_blob) (the_slot fft_bound)) as [Hr Hl]; [vm_compute; reflexivity .. |].
  assert (Et : dsp_terminal (the_slot fft_bound) = 3) by (vm_compute; reflexivity). rewrite Et in Hr.
  destruct (fft_config_bound cosf0 codes0 (stages (the_chain fft_bound)) Hl Hr) as (p & Ep & Hp & _).
  exists p. split; [exact Ep | exact Hp].
Defined.

Lemma fac_bias_roundtrip_witness : fac_code (fac_input 300 512 5) 512 5 1023 = 300.
Proof.
  assert (Hfs : 1023 ∈ [4095; 1023; 255; 63]) by (right; left).
  destruct (fac_bias_roundtrip 1023 300 Hfs ltac:(lia)) as (_ & _ & E). exact E.
Defined.

Lemma fac_batch_exact_witness :
  b_used (fac_run_batch 0 20 0 2048 3 4095 (at_cnt 20)) = 8 /\
  Forall (fun c => 0 <= c <= 4095) (b_out (fac_run_batch 0 20 0 2048 3 4095 (at_cnt 20))).
Proof.
  destruct (fac_batch_exact (at_cnt 20) 0 20 0 2048 3 4095 ltac:(lia) ltac:(lia) ltac:(unfold is_u32; lia))
    as (_ & _ & _ & Hf & _).
  split; [vm_compute; reflexivity | exact Hf].
Defined.

(** ** The interleaved machine *)

(** A batch of the filtered stream waits for its commit, and is published. *)
Definition committing : dsp_sys := run (setup 0 fir_blob ++ pumps 17 (at_cnt 5)).
Definition committed : dsp_sys := pump_step cosf0 codes0 (at_cnt 9) committing.


Definition slot_at (d : dsp_sys) : adc_stream_state := default slot0 (slot d (pc_sid (d_pc d))).

(** The pump stands before the commit of a batch; the stream ends, and another
    begins, binds and waits: the token of the batch is gone. *)
Definition replaced : dsp_sys :=
  run (setup 0 fir_blob ++ pumps 17 (at_cnt 5) ++ [a_end (at_cnt 5) 0] ++ setup 0 fir_blob).

Lemma claim_dies_with_session_witness :
  claimed false (d_pc in_batch) = true /\ g_claim in_batch = g_sess in_batch 0 /\
  claimed false (d_pc replaced) = true /\ in_use (the_slot replaced) = true /\
  d_fac replaced = ADC_DSP_OWNER_NONE /\ g_claim replaced <> g_sess replaced 0.
Proof.
  pose proof (claim_dies_with_session cosf0 codes0 in_batch false (slot_at in_batch) (run_reachable _)
    ltac:(vm_compute; reflexivity)) as H1.
  pose proof (claim_dies_with_session cosf0 codes0 replaced false (slot_at replaced) (run_reachable _)
    ltac:(vm_compute; reflexivity)) as H2.
  cbv zeta in H1, H2.
  assert (C1 : claimed false (d_pc in_batch) = true) by (vm_compute; reflexivity).
  assert (C2 : claimed false (d_pc replaced) = true) by (vm_compute; reflexivity).
  assert (P1 : pc_sid (d_pc in_batch) = 0) by (vm_compute; reflexivity).
  assert (P2 : pc_sid (d_pc replaced) = 0) by (vm_compute; reflexivity).
  rewrite C1, P1 in H1. rewrite C2, P2 in H2. destruct H1 as [H1 _], H2 as [_ H2].
  assert (Hne : g_claim replaced <> g_sess replaced 0) by (vm_compute; discriminate).
  split; [exact C1 |]. split; [apply H1; vm_compute; reflexivity |]. split; [exact C2 |].
  split; [vm_compute; reflexivity |]. split; [exact (H2 Hne) | exact Hne].
Defined.

Definition fft_store : dsp_sys := run (setup 3 fft_blob ++ pumps 13 (at_cnt 40)).

Lemma fft_writes_in_bounds_witness :
  match d_pc fft_store with
  | pc_store sid _ _ =>
      adc_dsp_owner_live_locked (d_fft_owner fft_store) sid (slot_at fft_store) true = true /\
      0 <= fft_fill (d_fft fft_store) < fft_points (d_fft fft_store)
  | _ => False
  end.
Proof.
  pose proof (fft_writes_in_bounds cosf0 codes0 fft_store (run_reachable _)) as Hb.
  assert (E : exists sid av code, d_pc fft_store = pc_store sid av code /\
    slot fft_store sid = Some (slot_at fft_store) /\
    adc_dsp_owner_live_locked (d_fft_owner fft_store) sid (slot_at fft_store) true = true)
    by (do 3 eexists; split_and!; vm_compute; reflexivity).
  destruct E as (sid & av & code & Epc & Es & El). rewrite Epc in *.
  destruct (Hb _ Es El) as [Hf _]. split; [exact El | exact Hf].
Defined.

Definition fft_published : dsp_sys := run (setup 3 fft_blob ++ pumps 116 (at_cnt 40)).

Lemma spectrum_read_whole_frame_witness :
  exists out, list.last (g_frames fft_published 0) = Some out /\
  (bridge_hw_adc_spectrum_read_ (at_cnt 40) fft_published 0 15 10).2 =
  (BRIDGE_HW_OK, 1, 17,
   take 10 (drop 15 (adc_dsp_fft_prepare_bins (fft_points (d_fft fft_published)) (fft_outfmt (d_fft fft_published)) out))).
Proof.
  pose proof (spectrum_read_whole_frame cosf0 codes0 (at_cnt 40) fft_published 0 15 10 (run_reachable _)
    ltac:(lia) ltac:(lia) ltac:(lia)) as Hw.
  destruct (bridge_hw_adc_spectrum_read_ (at_cnt 40) fft_published 0 15 10) as [[f' d'] [[[rc seq] total] bins]] eqn:E.
  assert (Hrc : (rc, seq, total) = (BRIDGE_HW_OK, 1, 17)).
  { change (rc, seq, total) with (f', d', (rc, seq, total, bins)).2.1. rewrite <- E. vm_compute. reflexivity. }
  injection Hrc as -> -> ->. destruct (Hw eq_refl) as (out & Hl & _ & _ & Hb).
  exists out. split; [exact Hl |]. cbn [snd]. rewrite Hb. reflexivity.
Defined.

(** ** Races and corner cases

    Each of these runs is reachable ([run_reachable]); the theorems above hold in
    it, and it shows where the code does less than its comments say. *)

(** The refusal path raises its flag outside the lease: a stream that ends
    between the refusal and the flag hands the flag to its replacement, whose
    own chain the accelerator takes, and whose reads then answer RANGE. *)
Definition refusal_race : dsp_sys :=
  run (setup 0 big_blob ++ pumps 9 (at_cnt 5) ++ [a_end (at_cnt 5) 0] ++ setup 0 fir_blob ++
       [a_pump (at_cnt 5)]).

(** A refusal flag set on a replacement stream with a realisable chain. *)
Lemma config_refusal_hits_replacement :
  dsp_reachable (F := sim) cosf0 codes0 refusal_race /\
  g_sess refusal_race 0 = 1%nat /\ dsp_cfg_bad (the_slot refusal_race) = true /\
  (exists p, adc_dsp_fac_config true (stages (the_chain refusal_race)) = CfgProgram p) /\
  (read_processed (the_slot refusal_race) 4 1800).2 = (BRIDGE_HW_ERR_RANGE, []).
Proof.
  split; [exact (run_reachable _) |]. split; [vm_compute; reflexivity |]. split; [vm_compute; reflexivity |].
  split; [eexists; vm_compute; reflexivity | vm_compute; reflexivity].
Qed.

(** The pump stores its DMA tracker outside the lease: a tracker computed before
    an end is stored into the next session, whose own position is still below
    it, and the next look counts a reload that never was. *)
Definition stale_tracker : dsp_sys :=
  run (setup 0 fir_blob ++ pumps 10 (at_cnt 500) ++
       [a_end (at_cnt 5) 0; a_begin (at_cnt 0) 0 0 1000; a_pump (at_cnt 5)]).

(** A fresh session reads 1034 where ten samples have been written. *)
Lemma stale_tracker_overcounts :
  dsp_reachable (F := sim) cosf0 codes0 stale_tracker /\
  g_sess stale_tracker 0 = 1%nat /\ lap_count (the_slot stale_tracker) = 0 /\
  (adc_stream_total_written (at_cnt 10) (the_slot stale_tracker) 0 (pump_pos (the_slot stale_tracker))).1.1
    = 1034.
Proof. split; [exact (run_reachable _) |]. split_and!; vm_compute; reflexivity. Qed.

(** A NaN coefficient passes the blob check and the range test, binds, and
    reaches the conversion to a 16-bit integer, which is undefined for it. *)
Lemma nan_coefficient_undefined :
  dsp_bound (the_slot (run (setup 0 nan_blob))) = true /\
  adc_dsp_fac_config true (stages (the_chain (run (setup 0 nan_blob)))) = CfgUndefined.
Proof. split; vm_compute; reflexivity. Qed.

(** An overrun resynchronises the count from one look at the DMA position and the
    index from a second, later one: here one sample arrives at each look, and the
    next read delivers samples 1102, 1103, 1104 and then 81, a lap old. *)
Lemma overrun_resync_skew :
  let '(_, s, (rc, _)) := read_raw (Sim 1100 1 None) (raw_slot 1 0) 0 4 1800 in
  rc = BRIDGE_HW_ERR_BUSY /\ total_read s = 1101 /\ read_idx s = 1102 mod 1024 /\
  (read_raw (at_cnt 1105) s 0 4 1800).2 =
  (BRIDGE_HW_OK, (fun n => code_mv (sim_sample n) 4095 1800) <$> [1102; 1103; 1104; 81]).
Proof. vm_compute. split_and!; reflexivity. Qed.

(** An empty stage ahead of the only populated one does not stop a bind. *)
Example bind_leading_gap :
  dsp_bound (the_slot (run [a_open; a_push 0 1 0 0 8 fir_blob; a_begin (at_cnt 0) 0 0 1000; a_bind 0 0]))
    = true.
Proof. vm_compute. reflexivity. Qed.
