(* ===== verification/BackendWitness.v ===== *)
(** * The interrupt-backend theorems at concrete inputs

    A SPI peripheral that captured a given byte run, an I2C peripheral that is
    exactly its bus view, and runs of both handlers over the echoing command
    layer of [LinkWitness]. *)

From stdpp Require Import base tactics list numbers option.
From S2P Require Import Prelude Crc Wire BridgeHw Protocol Frame TransportSpi TransportI2c.
From S2P Require Import SpiBackend I2cTiming I2cBackend I2cIsr Samples LinkWitness.

(** ** SPI: a captured run, chip select high *)

(** The captured bytes, and whether the receive channel reports an error. *)
Record spi_sim := SpiSim { sim_bytes : list Z; sim_error : bool }.

#[export] Instance spi_sim_hw : SpiSlaveHw spi_sim := {|
  spi_do h op := match op with dma_err_flag_clear rx_ch => SpiSim (sim_bytes h) false | _ => h end;
  spi_read h r :=
    (match r with
     | exti_pd0 => 0x100
     | nss_level => 1
     | dma_err_flag rx_ch => if sim_error h then 1 else 0
     | dma_rx_remaining => 72 - Z.of_nat (length (sim_bytes h))
     | rx_dma_byte i => (sim_bytes h).[i]
     | _ => 0
     end, h) |}.

Definition spi_ping : spi_sim := SpiSim (spi_request 0x20 [1; 2; 3]) false.

Lemma cs_handler_contract_witness :
  let '(_, x', t', s') := BRIDGE_SPI_CS_EXTI_HANDLER (SpiSim [0xA5; 0x20; 0; 0] true) spi_hw0 spi0 0%nat in
  s' = 0%nat /\ reply_staged x' t' (io_envelope 1 spi0).
Proof.
  pose proof (cs_handler_contract (SpiSim [0xA5; 0x20; 0; 0] true) spi_hw0 spi0 0%nat spi0_inv eq_refl) as Hc.
  vm_compute in Hc |- *. destruct Hc as (_ & Hc). exact Hc.
Defined.

Lemma spi_isr_round_trip_witness :
  let '(_, x', _, s') := cs_rising spi_ping spi_hw0 spi0 0%nat in
  s' = 1%nat /\ exists frame, g_tx_armed x' = Some frame /\ host_status frame = 0 /\ host_seq frame = 1.
Proof.
  assert (Hc : is_byte 0x20) by (unfold is_byte; lia).
  assert (Hp : bytes_ok [1; 2; 3]) by (apply bytes_okb_spec; reflexivity).
  assert (Hl : Z.of_nat (length [1; 2; 3]) <= GD32_BRIDGE_MAX_PAYLOAD_BYTES) by (vm_compute; discriminate).
  pose proof (spi_isr_round_trip spi_ping spi_hw0 spi0 0%nat 0x20 [1; 2; 3] spi0_inv eq_refl Hc Hp Hl) as Hr.
  specialize (Hr ltac:(vm_compute; reflexivity)). cbv zeta in Hr.
  destruct (cs_rising spi_ping spi_hw0 spi0 0%nat) as [[[h' x'] t'] s'] eqn:E.
  destruct Hr as (Hs & frame & _ & Hst & Hsq & Ha & _). split; [exact Hs |]. exists frame.
  split; [| split; [exact Hst | exact Hsq]]. destruct Ha as [Ha | [Ha _]]; [exact Ha | exfalso].
  apply (f_equal (fun y => g_tx_armed y.1.1.2)) in E. cbn [fst snd] in E. rewrite Ha in E.
  vm_compute in E. discriminate E.
Defined.

#[export] Instance spi_sim_laws : SpiFaultLaws spi_sim.
Proof.
  refine {| raised h r := match r with dma_err_flag rx_ch => sim_error h | _ => false end |};
    try by intros h [| | c | [|] | | | | |].
  - intros h [| | c | [|] | | | | |] _ Hr; try done. cbn. by rewrite Hr.
  - by intros h [|] [|].
Defined.

Lemma faulted_never_dispatched_witness :
  let bad := SpiSim (spi_request 0x20 [1; 2; 3]) true in
  let '(_, _, t', s') := BRIDGE_SPI_CS_EXTI_HANDLER bad spi_hw0 spi0 0%nat in
  s' = 0%nat /\ spi_tx_buf t' = io_envelope 1 spi0.
Proof.
  set (bad := SpiSim (spi_request 0x20 [1; 2; 3]) true). cbv zeta.
  pose proof (faulted_never_dispatched bad spi_hw0 spi0 0%nat spi0_inv eq_refl) as Hf.
  specialize (Hf (or_introl (ex_intro _ (dma_err_flag rx_ch) (conj eq_refl eq_refl)))).
  destruct (BRIDGE_SPI_CS_EXTI_HANDLER bad spi_hw0 spi0 0%nat) as [[[h' x'] t'] s'] eqn:E.
  destruct Hf as (Hs & [Hu | Hio]); split; try exact Hs; [| exact Hio].
  apply (f_equal (fun y => spi_tx_buf y.1.2)) in E. cbn [fst snd] in E. rewrite <- E. vm_compute. reflexivity.
Defined.

(** One good transaction after bring-up. *)
Definition be0 : backend nat :=
  Backend (bridge_transport_spi_hw_init spi_ping spi_hw0).2 (transport_spi_init spi0) 0%nat irq_idle.
Definition be1 : backend nat :=
  let '(_, x', t', s') := BRIDGE_SPI_CS_EXTI_HANDLER spi_ping (be_hw be0) (be_t be0) (be_s be0) in
  Backend x' t' s' (be_irq be0).

Lemma armed_reply_current_witness :
  exists l, g_tx_armed (be_hw be1) = Some l /\ starts_with l (spi_tx_dma_buf (be_hw be1)) /\ crc_ok l = true.
Proof.
  assert (Hr : be_reachable (H := spi_sim) be1).
  { apply (be_next be0); [apply (be_init spi_ping spi0 0%nat) |].
    apply (be_cs spi_ping (be_hw be0) (be_t be0) (be_s be0) (be_irq be0)). }
  destruct (g_tx_armed (be_hw be1)) as [l |] eqn:E; [| vm_compute in E; discriminate E].
  exists l. split; [reflexivity |].
  destruct (armed_reply_current be1 Hr l E) as (Hs & _ & Hc & _). split; [exact Hs | exact Hc].
Defined.

(** A chip-select edge between the two halves of an error latch: the flag is
    already cleared and the pending mark not yet set, so the transaction the
    error belongs to is decoded and dispatched, and the next one, captured
    without any error, is answered STATUS_IO instead. *)
Lemma latched_error_decoded :
  let bad := SpiSim (spi_request 0x20 [1; 2; 3]) true in
  let '(h1, pc, x1) := irq_run 2 rx_ch bad irq_idle spi_hw0 in
  let '(h2, x2, t2, s2) := BRIDGE_SPI_CS_EXTI_HANDLER h1 x1 spi0 0%nat in
  let '(h3, pc', x3) := irq_run 3 rx_ch h2 pc x2 in
  let '(_, x4, t4, s4) := BRIDGE_SPI_CS_EXTI_HANDLER h3 x3 t2 s2 in
  s2 = 1%nat /\ host_status (spi_tx_buf t2) = status_code STATUS_OK /\ pc' = irq_idle /\
  spi_dma_rx_error_count x4 = 1 /\ s4 = 1%nat /\ host_status (spi_tx_buf t4) = status_code STATUS_IO.
Proof. vm_compute. repeat split. Qed.

(** ** I2C: the peripheral is its view *)

Definition stretchedb (l : list bus_event) : bool :=
  match l with
  | [] | [_] | [ev_byte _; ev_stop] | [ev_byte _; ev_addr _] | [ev_stop; ev_addr _]
  | [ev_byte _; ev_stop; ev_addr _] => true
  | _ => false
  end.

Definition view_ok (v : bus_view) : bool :=
  stretchedb (v_pend v) && implb (v_tr v) (negb (existsb is_ev_byte (v_pend v))).

Definition norm (v : bus_view) : bus_view := if view_ok v then v else BusView [] (v_history v) false false (v_sent v).

Lemma norm_ok v : view_ok (norm v) = true.
Proof. unfold norm. by destruct (view_ok v) eqn:E. Qed.

Lemma norm_id v : view_ok v = true -> norm v = v.
Proof. unfold norm. by intros ->. Qed.

Lemma stretchedb_tail e l : stretchedb (e :: l) = true ->
  stretchedb l = true /\ (is_ev_addr e = true -> l = []).
Proof. by destruct e as [| |], l as [| [| |] [| [| |] [|]]]. Qed.

Lemma effect_ok op v : view_ok v = true -> view_ok (bus_effect op v) = true.
Proof.
  intros [Hs Hb]%andb_prop. unfold view_ok.
  assert (Hid : stretchedb (v_pend v) && implb (v_tr v) (negb (existsb is_ev_byte (v_pend v))) = true)
    by (by rewrite Hs, Hb).
  destruct op; try exact Hid. destruct f; try exact Hid; cbn [bus_effect];
    destruct (v_pend v) as [| [| | r] l] eqn:E; cbn [v_pend v_tr]; rewrite ?E; try exact Hid;
    destruct (stretchedb_tail _ _ Hs) as [Ht Ha].
  - rewrite (Ha eq_refl). by destruct r.
  - rewrite Ht. exact Hb.
Qed.

Lemma take_ok v : view_ok v = true -> view_ok (take_byte v) = true.
Proof.
  intros [Hs Hb]%andb_prop. unfold view_ok, take_byte.
  destruct (v_pend v) as [| [| |] l] eqn:E; cbn [v_pend v_tr]; rewrite ?E, ?Hs, ?Hb; try done.
  destruct (stretchedb_tail _ _ Hs) as [-> _]. by destruct (v_tr v).
Qed.

Definition bit (b : bool) : Z := if b then 1 else 0.

#[export] Instance bus_sim_hw : I2cSlaveHw bus_view := {|
  i2c_do h op := bus_effect op (norm h);
  i2c_reg_read h r :=
    let v := norm h in
    (match r with
     | int_flag fl_rbne => bit (existsb is_ev_byte (v_pend v))
     | int_flag fl_addsend => bit (existsb is_ev_addr (v_pend v))
     | int_flag fl_stpdet => bit (existsb is_ev_stop (v_pend v))
     | int_flag fl_ti => bit (v_ti v && v_tr v)
     | flag_tr => match v_pend v with ev_addr r :: _ => bit r | _ => 0 end
     | i2c_rdata => match v_pend v with ev_byte b :: _ => b | _ => 0 end
     | rcu_apb1_hz => 216000000
     | _ => 0
     end, match r with i2c_rdata => take_byte v | _ => v end) |}.

Lemma stretchedb_spec l : stretchedb l = true -> stretched l.
Proof. by destruct l as [| [| |] [| [| |] [| [| |] [|]]]]. Qed.

#[export] Instance bus_sim_laws : I2cBusLaws bus_view.
Proof.
  refine {| view := norm |};
    try (intros h; unfold read_flag; cbn [i2c_reg_read bus_sim_hw fst snd]; by destruct (existsb _ _)).
  - intros h r Hr. cbn. destruct r; try done; rewrite (norm_id _ (norm_ok h)); apply later_refl.
  - intros h. cbn. rewrite (norm_id _ (take_ok _ (norm_ok h))). apply later_refl.
  - intros h op _. cbn [i2c_do bus_sim_hw]. rewrite (norm_id _ (effect_ok op _ (norm_ok h))). apply later_refl.
  - intros h. unfold read_flag. cbn. by destruct (v_ti (norm h)), (v_tr (norm h)).
  - intros h v rest E. cbn. by rewrite E.
  - intros h r rest E. unfold read_flag. cbn. rewrite E. by destruct r.
  - intros h. apply stretchedb_spec. pose proof (norm_ok h) as Hn. by apply andb_prop in Hn as [Hn _].
  - intros h Ht. pose proof (norm_ok h) as Hn. apply andb_prop in Hn as [_ Hn].
    rewrite Ht in Hn. by apply negb_true_iff in Hn.
Defined.

(** An event arrives. *)
Definition arrive (e : bus_event) (v : bus_view) : bus_view :=
  BusView (v_pend v ++ [e]) (v_history v ++ [e]) (v_ti v) (v_tr v) (v_sent v).

(** Each step lets an event arrive, or a byte be wanted, and serves it. *)
Fixpoint bus_play (steps : list (option bus_event)) (h : bus_view) (t : i2c) (s : nat) : bus_view * i2c * nat :=
  match steps with
  | [] => (h, t, s)
  | e :: steps =>
      let h := match e with Some e => arrive e (norm h) | None => h end in
      let '(h, t, s) := BRIDGE_I2C_EV_HANDLER h t s in bus_play steps h t s
  end.

Fixpoint bus_play_ok (steps : list (option bus_event)) (h : bus_view) (t : i2c) (s : nat) : bool :=
  match steps with
  | [] => true
  | e :: steps =>
      let h' := match e with Some e => arrive e (norm h) | None => h end in
      match e with Some _ => view_ok h' | None => v_tr (norm h) end &&
      let '(h, t, s) := BRIDGE_I2C_EV_HANDLER h' t s in bus_play_ok steps h t s
  end.

Lemma bus_play_run steps : forall h0 (t0 : i2c) (s0 : nat) h t s,
  ev_run h0 t0 s0 h t s -> bus_play_ok steps h t s = true ->
  let '(h', t', s') := bus_play steps h t s in ev_run h0 t0 s0 h' t' s'.
Proof.
  induction steps as [| e steps IH]; intros h0 t0 s0 h t s Hr Hok; [done |]. cbn [bus_play bus_play_ok] in *.
  apply andb_prop in Hok as [He Hok]. set (h1 := match e with Some e => arrive e (norm h) | None => h end) in *.
  destruct (BRIDGE_I2C_EV_HANDLER h1 t s) as [[h2 t2] s2] eqn:E. apply IH; [| done].
  destruct e as [e |].
  - eapply er_isr; [eapply (er_time _ _ _ h h1); [exact Hr |] | | exact E].
    + cbn [view bus_sim_laws]. rewrite (norm_id h1 He). by exists [e].
    + left. cbn [view bus_sim_laws]. rewrite (norm_id h1 He). cbn. by destruct (v_pend (norm h)).
  - eapply er_isr; [exact Hr | by right | exact E].
Qed.

Definition bus0 : bus_view := BusView [] [] false false [].

Definition host_steps (mid : list bus_event) (reads : nat) : list (option bus_event) :=
  map Some (ev_addr false :: map ev_byte (i2c_request 0x20 [1]) ++ mid ++ [ev_addr true]) ++ replicate reads None.

Lemma ev_isr_serves_in_order_witness :
  let '(h, t, s) := bus_play (host_steps [ev_stop] 2) bus0 i2c0 0%nat in
  exists l out new, play l i2c0 0%nat = (t, s, out) /\ v_history (view h) = new /\
    new = served_events l /\ v_sent (view h) = out.
Proof.
  pose proof (bus_play_run (host_steps [ev_stop] 2) bus0 i2c0 0%nat bus0 i2c0 0%nat
                (er_start _ _ _) ltac:(vm_compute; reflexivity)) as Hr.
  destruct (bus_play (host_steps [ev_stop] 2) bus0 i2c0 0%nat) as [[h t] s] eqn:E.
  destruct (ev_isr_serves_in_order bus0 i2c0 0%nat h t s Hr) as (l & out & new & Hp & Hh & He & Hs & _).
  exists l, out, new. split; [exact Hp |]. split; [exact Hh |]. split; [| exact Hs].
  assert (Hpend : v_pend (view h) = []).
  { assert (Eh : h = (bus_play (host_steps [ev_stop] 2) bus0 i2c0 0%nat).1.1) by (rewrite E; reflexivity).
    rewrite Eh. vm_compute. reflexivity. }
  rewrite Hpend, app_nil_r in He. exact He.
Defined.

Lemma i2c_isr_round_trip_witness :
  let '(h, t, s) := bus_play (host_steps [] 4) bus0 i2c0 0%nat in
  s = 1%nat /\ v_sent h = crc_frame [0; 0x20].
Proof.
  pose proof (bus_play_run (host_steps [] 4) bus0 i2c0 0%nat bus0 i2c0 0%nat
                (er_start _ _ _) ltac:(vm_compute; reflexivity)) as Hr.
  assert (Hc : is_byte 0x20) by (unfold is_byte; lia).
  assert (Hp : bytes_ok [1]) by (apply bytes_okb_spec; reflexivity).
  assert (Hl : Z.of_nat (length [1]) <= GD32_BRIDGE_MAX_PAYLOAD_BYTES) by (vm_compute; discriminate).
  destruct (bus_play (host_steps [] 4) bus0 i2c0 0%nat) as [[h t] s] eqn:E.
  assert (Hv : norm h = h /\ v_pend h = [] /\
               v_history h = ev_addr false :: map ev_byte (i2c_request 0x20 [1]) ++ [ev_addr true] /\
               length (v_sent h) = 4%nat).
  { assert (Eh : h = (bus_play (host_steps [] 4) bus0 i2c0 0%nat).1.1) by (rewrite E; reflexivity).
    rewrite Eh. vm_compute. repeat split. }
  destruct Hv as (Hn & Hpend & Hh & Hlen).
  destruct (i2c_isr_round_trip bus0 i2c0 0%nat h t s 0x20 [1] [] Hr Hc Hp Hl) as (Hs & k & Hk);
    cbn [view bus_sim_laws] in *; rewrite ?Hn in *;
    [reflexivity | reflexivity | left; reflexivity | exact Hh | exact Hpend |].
  split; [exact Hs |]. rewrite Hk in Hlen |- *. cbn [v_sent bus0 norm view_ok v_pend v_tr stretchedb implb andb] in *.
  vm_compute in Hlen.
  destruct k as [| [| [| [| [| k]]]]]; try discriminate Hlen. vm_compute. reflexivity.
Defined.

Lemma stuck_poll_contract_witness :
  let x := I2cHw 0 0 0 0 0 0 0 1 in
  let '(_, x', t') := bridge_transport_i2c_stuck_poll bus0 x i2c0 in
  i2c_sda_low_ticks x' = 0 /\ t' = i2c0.
Proof.
  pose proof (stuck_poll_contract bus0 (I2cHw 0 0 0 0 0 0 0 1) i2c0 ltac:(cbn; lia)) as Hs.
  cbv zeta. destruct (all_low BRIDGE_I2C_STUCK_SAMPLES bus0) as [low h1] eqn:El.
  vm_compute in El. injection El as <- _.
  destruct (bridge_transport_i2c_stuck_poll bus0 _ i2c0) as [[h' x'] t'].
  destruct Hs as (Hr & Hiff & _ & Hno). destruct Hno as (_ & -> & _); [intros [? _]; discriminate |].
  split; [| reflexivity]. destruct (decide (i2c_sda_low_ticks x' = 1)) as [E |]; [| lia].
  apply Hiff in E as [? _]. discriminate.
Defined.
