(* ===== verification/PeriphWitness.v ===== *)
(** * The peripheral properties on simulated hardware *)

From stdpp Require Import base tactics list numbers option.
From S2P Require Import Prelude BridgeHw Gpio GpioSafety Tmu TmuSafety.

(** ** Ports *)

(** The registers of every pin; the input registers read back the output latch of
    outputs and [0xA5A5] elsewhere. *)
Definition ports : Type := gpio_periph -> Z -> pin.

Definition istat (h : ports) (p : gpio_periph) : Z :=
  foldl (fun v (n : nat) => let x := h p (Z.of_nat n) in
    if decide (pmode x = GPIO_MODE_OUTPUT)
    then if octl x then Z.setbit v (Z.of_nat n) else Z.clearbit v (Z.of_nat n) else v) 0xA5A5 (seq 0 16).

#[local] Instance ports_hw : GpioHw ports := {
  gpio_do h op := fun q n => pin_effect op q n (h q n);
  gpio_input_port_get h p := (istat h p, h) }.

#[local] Instance ports_laws : GpioLaws ports.
Proof. by refine {| gpio_pin h := h |}. Defined.

Definition reset_ports : ports := fun _ _ => Pin GPIO_MODE_ANALOG false.

(** The host reads IO29, writes IO29 high with BT_REG_ON, and resets the secure element. *)
Definition host_requests : list gpio_request := [GpioRead 0x1000; GpioWrite 0x41000 0x1000; SeReset 1].

Lemma gpio_carries_out_commands_witness :
  (forall i, (i < GPIO_PAD_MAP_COUNT)%nat -> pmode (pad_view reset_ports i) = GPIO_MODE_ANALOG) /\
  commanded (foldl command commands0 host_requests) 12 = Some true /\
  carries_out (foldl command commands0 host_requests) (foldl serve (gpio_boot reset_ports) host_requests).
Proof. split; [done |]. split; [vm_compute; reflexivity | by apply gpio_carries_out_commands]. Defined.

Lemma gpio_read_measures_witness :
  let w := (gpio_boot reset_ports).2 in
  length (gpio_input_promoted w) = GPIO_PAD_MAP_COUNT /\
  (bridge_hw_gpio_read_ (gpio_boot reset_ports).1 w 0x100007).2 = (BRIDGE_HW_OK, 0x100003) /\
  let '(h', w', (rc, levels)) := bridge_hw_gpio_read_ (gpio_boot reset_ports).1 w 0x100007 in rc = BRIDGE_HW_OK.
Proof.
  split; [by vm_compute |]. split; [by vm_compute |].
  pose proof (gpio_read_measures (gpio_boot reset_ports).1 (gpio_boot reset_ports).2 0x100007 ltac:(by vm_compute)) as T.
  destruct (bridge_hw_gpio_read_ _ _ _) as [[h' w'] [rc levels]].
  assert (E : unrouted 0x100007 = false) by (by vm_compute). rewrite E in T. exact (proj1 T).
Defined.

(** ** The CORDIC unit *)

(** A unit that is busy for as many polls as its state says, then outputs 0.433. *)
#[local] Instance countdown_unit : TmuHw nat := {
  tmu_do h _ := h;
  tmu_reg_read h r := match r with
    | TMU_FLAG_END => (if (h =? 0)%nat then 1 else 0, Nat.pred h)
    | TMU_ODATA => (0x376CF5D0, h)
    | _ => (0, h) end }.

(** The square root of 0.75 in Q31: the unit gets 0.375 and its output is doubled. *)
Lemma tmu_compute_contract_witness :
  refusal 5 0 0x60000000 = None /\
  (bridge_hw_tmu_compute_ 0 ((3%nat, []) : tmu_traced nat) 5 0 0x60000000 0).2 = (BRIDGE_HW_OK, 0x6ED9EBA0) /\
  exists calls, (bridge_hw_tmu_compute_ 0 ((3%nat, []) : tmu_traced nat) 5 0 0x60000000 0).1.2 = calls /\
    tmu_request 0 5 0 0x60000000 0 calls BRIDGE_HW_OK 0x6ED9EBA0.
Proof.
  split; [by vm_compute |]. split; [by vm_compute |].
  pose proof (tmu_compute_contract 0 ((3%nat, []) : tmu_traced nat) 5 0 0x60000000 0 ltac:(lia) ltac:(lia) ltac:(lia)) as T.
  destruct (bridge_hw_tmu_compute_ _ _ _ _ _ _) as [y [rc r]] eqn:E.
  assert (V : (rc, r) = (BRIDGE_HW_OK, 0x6ED9EBA0)) by (change (rc, r) with (y, (rc, r)).2; rewrite <- E; by vm_compute).
  injection V as -> ->. destruct T as (calls & C & T). exists calls. split; [exact C | exact T].
Defined.
