(* ===== verification/MainWitness.v ===== *)
(** * The main loop properties on a concrete board

    The sample flash, the stub peripherals and a board on a quiet link whose state
    is the power manager's; a setting arrives between the check and the sleep, a
    standby request in the middle of a pass. *)

From stdpp Require Import base tactics list numbers option.
From S2P Require Import Prelude BridgeHw Wire OtaLayout Flash BootConfig Ota Samples Protocol LinkWitness I2cBackend Power PowerLog PowerSafety Main MainSafety.

#[local] Instance quiet_stub : BridgeHw power_sw := stub_hw.

#[local] Instance quiet_power : PowerHw power_sw := {
  pw_do w _ := w;
  pw_read w r :=
    (match r with
     | cs_level | irc32k_stable => 1
     | systick_ctrl => 7
     | SystemCoreClock => POWER_CLK_HZ
     | _ => 0
     end, w) }.

#[local] Instance quiet_i2c : I2cSlaveHw power_sw := { i2c_do w _ := w; i2c_reg_read w _ := (0, w) }.

#[local] Instance quiet_base : BaseHw power_sw := {
  dsp_pump_tick w := w; vref_tick w := w; stuck_poll w := w;
  power_statics w := w; set_power_statics sw _ := sw;
  fwdgt_config w := (true, w); fwdgt_enable w := w }.

Definition board_machine : Type := machine plain_flash power_sw.

(** A script played out, as long as the flash stays free. *)
Fixpoint play (s : script power_sw) (m : board_machine) : option board_machine :=
  match s with
  | [] => Some m
  | e :: s =>
      if rebooted (m_board m) then None
      else match (match e with None => own SlotABuild m | Some i => Some (interrupt SlotABuild i m) end) with
           | Some m1 => if negb (ota_erase_active (br_ota (bd (m_board m1)))) && negb (ota_fmc_funnel_busy (br_flash (bd (m_board m1))))
                        then play s m1 else None
           | None => None
           end
  end.

Lemma play_run (P : board_machine -> Prop) s : (forall m, flash_free m -> P m) -> forall s0 m0 m m',
  run SlotABuild P s0 m0 m -> play s m = Some m' -> run SlotABuild P (s0 ++ s) m0 m'.
Proof.
  intros HP. induction s as [| e s IH]; intros s0 m0 m m' Pm E; [injection E as <-; by rewrite app_nil_r |]. cbn [play] in E.
  destruct (rebooted (m_board m)) eqn:R; [done |].
  destruct (match e with None => own SlotABuild m | Some i => Some (interrupt SlotABuild i m) end) as [m1 |] eqn:E1; [| done].
  destruct (_ && _) eqn:F; [| done]. apply andb_true_iff in F as (F1 & F2). apply negb_true_iff in F1, F2.
  assert (Q : P m1) by (by apply HP). change (s0 ++ e :: s) with (s0 ++ [e] ++ s). rewrite app_assoc. apply (IH (s0 ++ [e]) m0 m1 m'); [| done].
  destruct e as [i |]; [injection E1 as <-; by apply run_irq | by eapply run_own].
Qed.

Definition boot_a : board_machine := main_boot SlotABuild flash_a (power_sw0 POWER_CLK_HZ).

(** The host's SET, one payload byte and the flags. *)
Definition set_frame : irq (W := power_sw) := IrqFrame GD32_BRIDGE_LINK_SPI (cmd_code CMD_BOOT_CONFIG) [1; 1; 0; 0; 0] 65.

(** To the check, the frame while masked, into WFI, out of it, the frame served. *)
Definition arrives : script power_sw := [None; Some set_frame; None; None; None].
Definition served : board_machine := default boot_a (play arrives boot_a).

(** Fourteen steps, periodic ticks among them, through a sleep into the next pass. *)
Definition onwards : script power_sw := [None; Some SysTick] ++ replicate 10 None ++ [Some SysTick] ++ replicate 3 None.
Definition stored : board_machine := default served (play onwards served).

Lemma boot_free : flash_free boot_a.
Proof. split; vm_compute; reflexivity. Qed.
Lemma played s m : match play s m with Some _ => true | None => false end = true -> play s m = Some (default m (play s m)).
Proof. by destruct (play s m). Qed.

Lemma served_run P : (forall m, flash_free m -> P m) -> run SlotABuild P arrives boot_a served.
Proof.
  intros HP. apply (play_run P arrives HP [] boot_a boot_a served); [apply run_here, HP, boot_free |].
  apply (played arrives boot_a). vm_compute; reflexivity.
Qed.


(** Two passes, a standby request in the second: the watchdog is armed, fed on the
    way into standby, and fed at the end of that pass. *)
Definition one_pass : script power_sw := [None; None; Some SysTick] ++ replicate 11 None.
Definition asks_standby : irq := IrqOther (set_pending_mode 3).
Definition two_passes : script power_sw := one_pass ++ [None; None; Some SysTick; None; None; None; Some asks_standby] ++ replicate 8 None.
Definition passed : board_machine := default boot_a (play two_passes boot_a).

(** How often each power tick fed it. *)
Definition tick_feeds (log : list event) : list nat :=
  concat ((fun e => match e with EvPower pl => [feeds pl] | _ => [] end) <$> log).

Lemma watchdog_fed_by_whole_passes_witness :
  tick_feeds (m_log passed) = [0; 1]%nat /\ acts (m_log passed) = [FwdgtArm false; FwdgtFeed] /\
  boot_trial SlotABuild flash_a (power_sw0 POWER_CLK_HZ) = false /\ (exists l, passes (m_log passed) l) /\
  (acts (m_log passed) = [] \/ exists failed n, acts (m_log passed) = FwdgtArm failed :: replicate n FwdgtFeed).
Proof.
  assert (B : boot_trial SlotABuild flash_a (power_sw0 POWER_CLK_HZ) = false) by (vm_compute; reflexivity).
  split; [vm_compute; reflexivity |]. split; [vm_compute; reflexivity |]. split; [exact B |].
  pose proof (watchdog_fed_by_whole_passes SlotABuild flash_a (power_sw0 POWER_CLK_HZ) two_passes passed) as T. rewrite B in T. apply T.
  apply (play_run (fun _ => True) two_passes (fun _ _ => I) [] boot_a boot_a passed); [by apply run_here |].
  apply (played two_passes boot_a). vm_compute; reflexivity.
Defined.
