(* ===== verification/BoardWitness.v ===== *)
(** * The bring-up on a simulated board *)

From stdpp Require Import base tactics list numbers option relations.
From S2P Require Import Prelude Wire OtaLayout BridgeHw Flash BootConfig Samples Ota Protocol HalCalls Frame SpiBackend I2cBackend TransportSpi TransportI2c Power Trng Reset DspChain Adc AdcSystem Drivers Tmu PwmTimer Pwm PwmReach Gpio GpioSafety Init Board Requests BoardStart DspPump Device Firmware LinkWitness AnalogWitness PwmWitness PeriphWitness.

(** ** The board *)

(** The pins, the PWM timers; every other block answers at once, and the PWM timers
    run on while [init.c] works. *)
Record bench := Bench { b_pins : ports; b_timers : PwmWitness.sim }.

(** Pins handed to another block. *)
Definition set_af (l : list pin_id) (h : bench) : bench :=
  Bench (fun q n => if decide ((q, n) ∈ l) then Pin GPIO_MODE_AF (octl (b_pins h q n)) else b_pins h q n) (b_timers h).

#[local] Instance bench_gpio : GpioHw bench := {
  gpio_do h op := Bench (fun q n => pin_effect op q n (b_pins h q n)) (b_timers h);
  gpio_input_port_get h p := (istat (b_pins h) p, h) }.
#[local] Instance bench_pins : GpioLaws bench.
Proof. by refine {| gpio_pin h := b_pins h |}. Defined.
#[local] Instance bench_init : InitHw bench := {
  init_do h _ := Bench (b_pins h) (burn (b_timers h)); cps_rdy h := (1, h); system_core_clock _ := 216000000 }.
#[local] Instance bench_trng : TrngHw bench := { trng_do h _ := h; trng_reg_read h r := (match r with flag_drdy | rcu_pllstb_flag => 1 | _ => 0 end, h) }.
#[local] Instance bench_adc : AdcHw bench := {
  hw_do h _ := h; hw_read h r := (match r with flag_eoc _ | vref_status => 1 | adc_routine_data _ => 2700 | _ => 0 end, h) }.
#[local] Instance bench_dsp : DspHw bench := {
  fac_fixed_data_write h _ := h; fac_read h _ := (0, h); fac_latched _ := true; raced_fac _ := false; raced_fft _ := None;
  fft_ccf _ := true; fft_output _ := [] }.
#[local] Instance bench_qenc : QencHw bench := { qenc_do h op := set_af (qenc_pins op) h; chctl0_read _ _ := 0; counter_read _ _ := 0 }.
#[local] Instance bench_timer : TimerHw bench := {
  tim_do h op := set_af (tim_pins op) (Bench (b_pins h) (tim_do (b_timers h) op));
  tim_read h r := let '(v, g) := tim_read (b_timers h) r in (v, Bench (b_pins h) g);
  cam_code := cam_code (H := PwmWitness.sim) }.
#[local] Instance bench_spi : SpiSlaveHw bench := { spi_do h op := set_af (spi_pins op) h; spi_read h _ := (0, h) }.
#[local] Instance bench_i2c : I2cSlaveHw bench := {
  i2c_do h op := set_af (i2c_pins op) h; i2c_reg_read h r := (match r with rcu_apb1_hz => 216000000 | _ => 0 end, h) }.

#[local] Instance bench_board : BoardLaws bench.
Proof.
  assert (A : forall l h q n, (q, n) ∉ l -> b_pins (set_af l h) q n = b_pins h q n).
  { intros l h q n Hn. cbn. by rewrite decide_False. }
  split; try done; intros.
  all: match goal with Hn : (_, _) ∉ ?l |- _ => exact (A l _ _ _ Hn) end.
Defined.

#[local] Instance bench_timers : TimerLaws bench.
Proof.
  refine {| tv h p := tv (b_timers h) p |}.
  - intros h op p. apply (tv_do (b_timers h)).
  - intros h r p. exact (tv_read (b_timers h) r p).
  - intros h p. exact (read_ctl0 (b_timers h) p).
  - intros h p. exact (read_car (b_timers h) p).
  - intros h p c. exact (read_cv (b_timers h) p c).
  - intros h p. exact (read_up (b_timers h) p).
  - intros h p. apply (tv_word (b_timers h)).
  - apply (cam_field (H := PwmWitness.sim)).
  - apply (cam_inj (H := PwmWitness.sim)).
  - apply (cam_edge (H := PwmWitness.sim)).
Defined.

#[local] Instance bench_runs : Indifferent (runs_on (H := bench)).
Proof. split; intros; intros p; try reflexivity. apply burn_later. Defined.

(** The blocks that only requests use answer at once. *)
#[local] Instance bench_dac : DacHw bench := { dac_data_set h _ _ := h; dac_output_value_get h _ := (0, h) }.
#[local] Instance bench_tmu : TmuHw bench := { tmu_do h _ := h; tmu_reg_read h r := (match r with TMU_FLAG_END => 1 | _ => 0 end, h) }.
#[local] Instance bench_power : PowerHw bench := { pw_do h _ := h; pw_read h _ := (1, h) }.

#[local] Instance bench_device : DeviceLaws bench.
Proof.
  split; try done.
  - intros op h p. reflexivity.
  - split; [exact bench_runs | intros; intros q; reflexivity ..].
Defined.

(** ** The instances *)

Definition loaded_timers : PwmWitness.sim := PwmWitness.Sim (Tmr 0 0 0 0 false [] TIMER_SLAVE_MODE_DISABLE) (Tmr 0 0 0 0 false [] TIMER_SLAVE_MODE_DISABLE) false 0 0.
Definition bench0 : bench := Bench reset_ports loaded_timers.
Definition chip_fresh : chip := Chip (replicate 32 0) false 0.

Definition started (f : plain_flash) : bench * chip * init_sw * (spi_hw * spi) * i2c :=
  main_bring_up f chip_fresh [slot0; slot0] spi0 i2c0 bench0.

(** A stored setting: the next bring-up drives the pad. *)
Lemma setting_reaches_pad_witness :
  let f := (boot_config_store flash_a 1).1 in
  counter_room flash_a /\ stored_flags f = 1 /\
  let '(h, _, sw, _, _) := started f in
  exists v, (v = Z.land 1 BOOT_CONFIG_KNOWN_FLAGS \/ v = stored_flags flash_a /\ store_cut flash_a 1 f) /\
    carries_out (boot_commands v) (h, i_gpio sw) /\
    if Z.testbit v 0 then pad_view h 12 = Pin GPIO_MODE_OUTPUT true else pmode (pad_view h 12) <> GPIO_MODE_OUTPUT.
Proof.
  assert (R : counter_room flash_a).
  { unfold counter_room. replace (newest_record flash_a).1 with (@None boot_config_record) by (vm_compute; reflexivity). exact I. }
  split; [exact R |]. split; [vm_compute; reflexivity |].
  assert (Hs : boot_config_store flash_a 1 = ((boot_config_store flash_a 1).1, OTA_FMC_RESULT_OK)).
  { replace OTA_FMC_RESULT_OK with (boot_config_store flash_a 1).2 by (vm_compute; reflexivity). apply surjective_pairing. }
  assert (R0 : at_reset bench0) by (intros i _; reflexivity). unfold started.
  pose proof (setting_reaches_pad (b := SlotABuild) flash_a (boot_config_store flash_a 1).1 1 chip_fresh [slot0; slot0] spi0 i2c0 bench0 R (or_introl Hs) R0) as T. exact T.
Defined.


(** ** A frame on the bench *)

(** The bridge after the bring-up: no update session, the stored setting loaded. *)
Definition bench_bridge (h : bench) (sw : init_sw) : bridge plain_flash (device bench) :=
  Bridge (boot_device h sw [slot0; slot0]) flash_a Samples.st0 (i_bcfg sw) (0, 0) false.

(** IO12 high: the select falls, the bytes of the frame, the select rises. *)
Definition io12_frame : list Z := crc_frame (GD32_BRIDGE_SOF :: cmd_code CMD_GPIO_WRITE :: put32 0x1000 ++ put32 0x1000).

Definition received : spi := foldl (fun t v => spi_slave_rx_byte (u8 v) t) (spi_slave_cs_low (transport_spi_init spi0)) io12_frame.

Section bench_run.
#[local] Instance bench_backend : BridgeHw (device bench) := gd32_hw (H := bench) 0 (fun _ => 0).
#[local] Instance bench_dispatcher : Dispatcher (bridge plain_flash (device bench)) := protocol_dispatcher SlotABuild.

Abbreviation run := (fw_run (H := bench) SlotABuild cosf0 codes0 0 (fun _ => 0)).

Lemma bytes_run y0 rs s t u l : run y0 rs (Firmware s t u) -> run y0 rs (Firmware s (foldl (fun t v => spi_slave_rx_byte (u8 v) t) t l) u).
Proof.
  revert t. induction l as [| v l IH]; intros t R; [exact R |]. cbn [foldl]. apply IH.
  pose proof (run_spi SlotABuild cosf0 codes0 0 (fun _ => 0) y0 rs (Firmware s t u) (TransportSpi.RxByte v) R) as R'. cbn [frame_commands] in R'. by rewrite app_nil_r in R'.
Qed.

Lemma received_frame : spi_frame received = Some (cmd_code CMD_GPIO_WRITE, put32 0x1000 ++ put32 0x1000).
Proof. vm_compute. reflexivity. Qed.

Lemma frame_run h sw u : exists y, run (Firmware (bench_bridge h sw) (transport_spi_init spi0) u) [GpioWrite 0x1000 0x1000] y.
Proof.
  set (y0 := Firmware _ _ _). pose proof (run_spi SlotABuild cosf0 codes0 0 (fun _ => 0) y0 [] y0 CsLow (run_start _ _ _ _ _ y0)) as R1.
  apply (bytes_run _ _ _ _ _ io12_frame) in R1. change (run y0 [] (Firmware (bench_bridge h sw) received u)) in R1.
  apply (run_spi _ _ _ _ _ _ _ _ CsHigh) in R1. cbn [fw_spi fw_bridge fw_i2c app] in R1.
  assert (E : frame_commands (bench_bridge h sw) (spi_frame received) = [GpioWrite 0x1000 0x1000]).
  { by rewrite received_frame. }
  rewrite E in R1. match type of R1 with fw_run _ _ _ _ _ _ _ ?y => generalize dependent y end. intros y R1. eexists.
  exact (run_device _ _ _ _ _ _ _ _ _ R1 (dev_pump cosf0 codes0 _)).
Qed.
End bench_run.

(** The host's frame arrives, a step of the pump later its pad is driven high. *)
Lemma firmware_carries_out_frames_witness :
  at_reset bench0 /\
  let '(h, _, sw, (_, t'), u') := started flash_a in
  exists y, fw_run SlotABuild cosf0 codes0 0 (fun _ => 0) (Firmware (bench_bridge h sw) t' u') [GpioWrite 0x1000 0x1000] y /\
  let d := br_hw (fw_bridge y) in
  carries_out (foldl command (boot_commands (stored_flags flash_a)) [GpioWrite 0x1000 0x1000]) (dv_hw d, dv_gpio d) /\
  pwm_reach (dv_hw d) (dv_pwm d) /\ dsp_reachable (F := bench) cosf0 codes0 (dv_dsp d).
Proof.
  assert (R0 : at_reset bench0) by (intros i _; reflexivity). split; [exact R0 |].
  assert (Hs : Forall idle_slot [slot0; slot0]).
  { repeat (apply list.Forall_cons; split; [split; [reflexivity | split; [reflexivity | vm_compute; reflexivity]] |]). constructor. }
  pose proof (fun s0 rs y => firmware_carries_out_frames SlotABuild cosf0 codes0 0 (fun _ => 0) flash_a chip_fresh [slot0; slot0] spi0 i2c0 bench0 s0 rs y Hs eq_refl R0) as T.
  pose proof (links_reset flash_a chip_fresh [slot0; slot0] spi0 i2c0 bench0) as L. unfold started.
  destruct (main_bring_up flash_a chip_fresh [slot0; slot0] spi0 i2c0 bench0) as [[[[h chip1] sw] [x t']] u'].
  destruct L as (-> & ->). destruct (frame_run h sw (transport_i2c_init i2c0)) as (y & R). exists y. split; [exact R |].
  exact (T (bench_bridge h sw) _ y eq_refl R).
Defined.
